(* ===== verification/_CoqProject ===== *)
-Q . S2P
Prelude.v
Decimal.v
MinibookEc.v
Floats.v
Drivers.v
MountMatrix.v
Os.v
MxcFilter.v
MxcDevice.v
MxcPolling.v
Orientation.v
IioBuffer.v
Proxy.v
Claims.v
Monitor.v
Polled.v
PollDrivers.v
Ssc.v
InputDrivers.v
BufferDrivers.v
Machine.v
Bytes.v
FakeAccel.v
RangeCoder.v
LzmaDec.v
LzmaSymbol.v
LzmaSafe.v
RangeEncode.v
LzmaEncode.v
LzmaRound.v
VbtPatch.v
DptfEnabler.v
Spklen.v
ThdCommon.v
Objects.v
Gddv.v
Vault.v
Packed.v
Conditions.v
Switches.v
Xml.v
ThdIo.v
Meter.v
Kobj.v
Int3400.v
AcpiRel.v
Pid.v
Cdev.v
CpuFreq.v
Sensor.v
Trip.v
Config.v
Generated.v
Zone.v
DefaultBinding.v
ZoneSetup.v
Platform.v
Engine.v
DefaultEngine.v
Adaptive.v
VaultName.v
Dbus.v
Main.v
