(* ===== verification/Prelude.v ===== *)
(** * Verification of the MiniBook support repository

    The repository supports a convertible notebook, the CHUWI MiniBook: kernel
    modules (src/modules), a fork of iio-sensor-proxy with a driver for the two
    accelerometers of the hinge (src/iio-sensor-proxy), a tool that patches the
    firmware's video BIOS table (src/vbt_patch) and a fork of the Linux thermal
    daemon with settings for the machine (src/thermal_daemon).  The parts are
    separate programs.  They meet in the machine: the thermal daemon polls the
    zones of the minibook_ec module through sysfs, the dptf_enabler module
    makes the firmware show the devices the daemon reads, the patched VBT turns
    the panel the accelerometer driver corrects for.

    ** How the code is rendered

    Each operation is one definition with the name it has in the source, its
    guards and early returns included.  Stateful code is written in the state
    monad [M] below, or passes the state; what can throw, read outside a buffer
    or not end returns an option or a sum.  Integers are [Z] with the
    wrap-around written out ([wrap], [sint]); [float] and [double] are the
    executable IEEE 754 of Floats.v.  Records are updated with
    [r <| field := v |>].  Code outside the repository is a class: its
    operations are the arguments of the definitions that use it, its documented
    behaviour a class of laws.  Where nothing can be relied on (what sysfs, a
    clock or a device answers) there are no laws: the answer is any function of
    the number of calls made before, or of the trace of calls.  The modules
    [Sim], [Quiet], [Warm], [Bench], [Rooms], [Running], [Minibook], [Starts],
    [Coretemp], [Laptop], [Texts], [Platforms], [Relations], [Clients], [Run],
    [Second], [Phone], [Streams], [Thermal], [Firmware], [Terminal], [Pocket],
    [Convertible], [Dormant] and [Label] hold the concrete machines and inputs on
    which the theorems are instantiated.

    ** The parts

    - This file: integers, the monad and its triples ([wp], [keeps], [same]),
      record update, case analysis.  Floats.v: IEEE 754.  Bytes.v: byte buffers.
    - MinibookEc.v: modules/minibook_ec.  Ports are [HostIo], the datasheet of
      the controller is [I2ecLaws] and [EcWindowLaws].  An EC register read or
      written through the window is that register ([i2ec_read_correct],
      [i2ec_write_correct]); fan, keyboard backlight, thermal zones, sysfs,
      probe and remove.
    - DptfEnabler.v: modules/dptf_enabler.  The scan of the DSDT ends because
      its fuel is the length of the table.  Spklen.v:
      modules/i2c_designware_spklen, registers are [Mmio] with [MmioLaws].
    - VbtPatch.v: vbt_patch.c.  The kernel header with the layout is not in the
      repository: it is [VbtDefs] with [VbtLaws].  The search for blocks is a
      total function of the image.
    - iio-sensor-proxy: Drivers.v (drivers.h, GUdev is [Udev]), MountMatrix.v,
      Orientation.v (the C library's atan2 with [Atan2Laws]), IioBuffer.v
      (sysfs is [Sysfs]), Os.v (the calls of a driver as a trace, [Os] with
      [OsLaws]), MxcFilter.v, MxcDevice.v and MxcPolling.v (the driver of the
      hinge, the panel is [Drm]), Polled.v (the timer that drivers share:
      [Timed], [TimedLaws], [PromptLaws]), PollDrivers.v, InputDrivers.v
      ([InputDevs]), BufferDrivers.v, Proxy.v (the service), Claims.v (what
      service and driver promise each other: [Obeys]) and Machine.v (the
      service over its table of drivers).
    - Ssc.v: the drivers over libssc ([Libssc]); the handlers of a GObject signal
      are what the emission of the signal goes through.
    - The tools of iio-sensor-proxy: Monitor.v (monitor-sensor, a client of the
      service over [Bus], with the service of Proxy.v on the other side) and FakeAccel.v
      (an input device moved by keys, which the driver of InputDrivers.v reads).
    - The thermal daemon, the LZMA decoder of compressed vaults: RangeCoder.v (the
      macros of LzmaDec.c: a program asks for bits, [run] and [run_check] answer
      from the input), LzmaDec.v (properties, one symbol, the main loop, the check
      of a short input, the three interfaces; the allocator is [Alloc] with
      [AllocLaws]), LzmaSymbol.v (what one symbol asks for) and LzmaSafe.v (no
      access outside of an array, and the loops end).  RangeEncode.v and LzmaEncode.v
      are a reference encoder, of bits and of tokens (bytes and matches); LzmaRound.v
      shows that the decoder gives back what it wrote.
    - The thermal daemon, the data vault: Objects.v and Gddv.v (the tables),
      Vault.v (headers, nested and compressed vaults), Packed.v (the way through a compressed vault), VaultName.v (the tool that names
      a vault file), Conditions.v (conditions and targets, [Host]) and Switches.v (the
      devices behind the conditions, from set-up to end, [Evdevs]).
    - The thermal daemon, the configuration: Decimal.v (printed numbers), Xml.v
      (the trees of libxml2, [LibXml] with [LibXmlLaws]), Config.v
      (thd_parse.cpp and thd_cdev_order_parser.cpp), Int3400.v, AcpiRel.v (the
      relation tables of the firmware, [RelDevice]) and Generated.v (what AcpiRel.v
      writes, Config.v reads).
    - The thermal daemon, the control: ThdCommon.v, ThdIo.v (sysfs and the
      energy counters, [ThdOs]), Meter.v (the search for the counters), Pid.v,
      Cdev.v (cooling devices; std::sort is [StdSort]), CpuFreq.v (the devices that
      look for their files), Sensor.v, Trip.v, Zone.v, ZoneSetup.v (the classes of
      zones), Platform.v (the processor, [Processor]), Engine.v (the thread and its
      messages), DefaultEngine.v (sensors, zones and devices at the start) and
      Adaptive.v (the engine of the MiniBook).  DefaultBinding.v has the file of failures
      and the gates of the default binding.
      A reading of a sensor goes through the zone to its trips, and from a trip
      to its devices, which write sysfs; the engine sends the readings.
    - The thermal daemon, the process: Kobj.v (events of the kernel, [Netlink]),
      Dbus.v (the methods that clients call) and Main.v (main.cpp, [Process]).

    ** What the theorems show

    - State machines follow a specification: the tablet mode of the hinge
      ([tablet_mode_hysteresis]), a trip point ([trip_hysteresis]), the power
      off of a critical trip ([critical_power_off]).
    - Invariants over any interleaving of events: timers and clients of the
      proxy ([poll_timer_exact], [polling_follows_clients]), every invocation
      answered once, no descriptor, PCI reference or input device leaked
      ([open_close_balanced], [init_exit_balanced], [sources_released]), limits and
      trip numbers distinct.
    - Liveness across components: with the real table of drivers every method
      call is answered ([machine_answers_every_call]).
    - Whatever the outside answers, what is written stays in range: power limits
      ([power_limit_in_range]), the VBT image ([written_image]), the switch of a
      buffer ([buffer_follows_switch]).  No input makes the decoder leave its arrays ([decode_stays_inside]).
    - Round trips: the vault, of either version ([policies_loaded]), also through compression
      ([lzma_roundtrip], [packed_policies_loaded]), the generated configuration
      ([generated_conf_loaded]), the blocks of the VBT ([find_block_encoded]), the file
      of failures ([failures_table]).
    - Two programs that meet: the keys of the fake accelerometer turn the screen
      ([key_turns_screen]), the monitor prints what the service says
      ([appearance_reported]), the tool and the daemon name one vault file
      ([tool_names_vault]).
    - Setting up: the limits of the processor's zone ([cpu_zone_limits],
      [processor_zone_safe]), the start of the engine ([engine_set_up]), the two
      sides of a lock file ([running_lock]).
    - Searches and sums agree with a reference: the path in a kernel event
      ([event_found]), the energy counted and what its truncation loses
      ([energy_counted]), the relations of a table grouped by target
      ([relations_grouped]).
    - Termination: reads of virtual sensors ([depth_enough]), the set-up of the
      engine ([engine_set_up] names every way in which it ends).

    ** Fuel and bounds

    The wait for the EC polls 100 times, as the source does.  A table loop has
    one turn more than its table has bytes (a loop that has not ended then never
    does, lemma [loop_exact]), the vault as many as headers and
    items, the bit count 64, the scan of the DSDT the length of the table, the
    read of a sensor one level more than its index, the search of an event one
    turn more than the buffer has bytes.  The decoder's loops have one or two turns
    more than there is room left in the dictionary; [decode_stays_inside] shows that
    this is enough.  Where running out of fuel
    is a result it stands for a loop that never ends or for the recursion
    that overflows the stack, and a theorem says that more fuel gives no other
    result.

    ** What is not modelled

    - The unit tests and demonstrations (test-*.c, the test module of the thermal
      daemon) are clients of what is modelled.  goodix_resume.patch changes a file that
      is not here.
    - do_default_binding, which binds the gates of DefaultBinding.v to the zones, is
      never called: its only object is commented out in thd_engine_default.h.
      android_main.cpp is the main of another system.  uinput.h and 7zTypes.h are
      declarations of other projects, of which only what is used is modelled.
    - Option parsing, logging, printing and dumps, registration with the kernel,
      with D-Bus or GLib, and the allocation wrappers.
    - Undefined behaviour gets no meaning: a read of an unset variable gives an
      argument of the definition, a shift of a sensor mask by 32 or more and
      the hexadecimal forms of the C number parsers are outside the model. *)

From stdpp Require Import base list strings gmap numbers.
From Stdlib Require Import ZArith Lia.

#[local] Open Scope Z_scope.

(** ** Machine integers *)

(** [wrap w z]: the value of [z] stored in an unsigned [w]-bit integer. *)
Definition wrap (w z : Z) : Z := z mod 2 ^ w.

(** [sint w z]: the value of [z] converted to a signed [w]-bit integer. *)
Definition sint (w z : Z) : Z :=
  if wrap w z <? 2 ^ (w - 1) then wrap w z else wrap w z - 2 ^ w.

Create HintDb ints.

Lemma wrap_bounds w z : 0 <= w -> 0 <= wrap w z < 2 ^ w.
Proof. intros Hw. unfold wrap. apply Z.mod_pos_bound. apply Z.pow_pos_nonneg; lia. Qed.

Lemma wrap_small w z : 0 <= z < 2 ^ w -> wrap w z = z.
Proof. intros H. unfold wrap. by apply Z.mod_small. Qed.

Lemma wrap_wrap w z : wrap w (wrap w z) = wrap w z.
Proof. unfold wrap. apply Zmod_mod. Qed.

Lemma pow2_succ_pred w : 0 < w -> 2 ^ w = 2 * 2 ^ (w - 1).
Proof. intros Hw. replace w with (Z.succ (w - 1)) at 1 by lia. rewrite Z.pow_succ_r; lia. Qed.

Lemma sint_bounds w z : 0 < w -> - 2 ^ (w - 1) <= sint w z < 2 ^ (w - 1).
Proof.
  intros Hw. unfold sint. pose proof (wrap_bounds w z ltac:(lia)).
  pose proof (pow2_succ_pred w Hw). destruct (Z.ltb_spec (wrap w z) (2 ^ (w - 1))); lia.
Qed.

Lemma sint_id w z : 0 < w -> - 2 ^ (w - 1) <= z < 2 ^ (w - 1) -> sint w z = z.
Proof.
  intros Hw Hz. unfold sint. pose proof (pow2_succ_pred w Hw) as Hp.
  destruct (Z_lt_le_dec z 0) as [Hneg|Hpos].
  - assert (wrap w z = z + 2 ^ w) as ->.
    { unfold wrap. rewrite <- (Z.mod_add z 1) by lia. rewrite Z.mul_1_l. apply Z.mod_small. lia. }
    destruct (Z.ltb_spec (z + 2 ^ w) (2 ^ (w - 1))); lia.
  - rewrite wrap_small by lia. destruct (Z.ltb_spec z (2 ^ (w - 1))); lia.
Qed.

#[export] Hint Resolve wrap_bounds sint_bounds : ints.

(** ** A state monad

    Stateful code of the repository is written in [M S]: a function from the
    state before to the result and the state after. *)

Definition M (S A : Type) : Type := S -> A * S.

Definition ret {S A} (a : A) : M S A := fun s => (a, s).
Definition bind {S A B} (m : M S A) (k : A -> M S B) : M S B :=
  fun s => let (a, s') := m s in k a s'.
Definition gets {S A} (f : S -> A) : M S A := fun s => (f s, s).
Definition modify {S} (f : S -> S) : M S unit := fun s => (tt, f s).

Declare Scope prog_scope.
Delimit Scope prog_scope with prog.
Notation "x <- c ;; k" := (bind c (fun x => k))
  (at level 100, c at next level, right associativity) : prog_scope.
Notation "c ;;; k" := (bind c (fun _ => k))
  (at level 100, right associativity) : prog_scope.

(** ** Updating a field of a record

    [r <| f := v |>] is [r] with [v] in its field [f].  For a record [R] with a
    term that builds it again from its fields, [field_of] makes the instance. *)

Class Field {R T} (f : R -> T) := put : T -> R -> R.
#[export] Hint Mode Field - - + : typeclass_instances.
Arguments put {R T} f {_} v r.
Notation "r <| f := v |>" := (put f v r)
  (at level 12, f at next level, left associativity, format "r  <| f  :=  v |>") : prog_scope.

Ltac field_of again f :=
  let e := eval unfold again in again in
  let p := eval pattern f in e in
  lazymatch p with
  | ?g _ => let t := eval cbv beta in (fun v => g (fun _ => v)) in exact t
  end.

(** Result and state of a run, for statements. *)
Definition res {S A} (m : M S A) (s : S) : A := fst (m s).
Definition post {S A} (m : M S A) (s : S) : S := snd (m s).

Section Triples.
Context {S : Type}.

(** [wp m Q s]: running [m] from [s] ends in a result and a state of [Q]. *)
Definition wp {A} (m : M S A) (Q : A -> S -> Prop) (s : S) : Prop :=
  Q (res m s) (post m s).

(** [keeps I m]: every run of [m] preserves the invariant [I]. *)
Definition keeps {A} (I : S -> Prop) (m : M S A) : Prop :=
  forall s, I s -> I (post m s).

Lemma wp_ret {A} (a : A) Q s : Q a s -> wp (ret a) Q s.
Proof. done. Qed.

Lemma wp_bind {A B} (m : M S A) (k : A -> M S B) Q s :
  wp m (fun a => wp (k a) Q) s -> wp (bind m k) Q s.
Proof. unfold wp, res, post, bind. by destruct (m s). Qed.

Lemma post_bind {A B} (m : M S A) (k : A -> M S B) s :
  post (bind m k) s = post (k (res m s)) (post m s).
Proof. unfold post, res, bind. by destruct (m s). Qed.

Lemma res_bind {A B} (m : M S A) (k : A -> M S B) s :
  res (bind m k) s = res (k (res m s)) (post m s).
Proof. unfold post, res, bind. by destruct (m s). Qed.

Lemma wp_post {A} (m : M S A) (P : S -> Prop) s :
  wp m (fun _ t => P t) s -> P (post m s).
Proof. done. Qed.

Lemma wp_res {A} (m : M S A) (P : A -> Prop) s :
  wp m (fun a _ => P a) s -> P (res m s).
Proof. done. Qed.

Lemma wp_conseq {A} (m : M S A) (Q R : A -> S -> Prop) s :
  (forall a t, Q a t -> R a t) -> wp m Q s -> wp m R s.
Proof. unfold wp. auto. Qed.

Lemma wp_and {A} (m : M S A) (Q R : A -> S -> Prop) s :
  wp m Q s -> wp m R s -> wp m (fun a t => Q a t /\ R a t) s.
Proof. by split. Qed.

(** Sequence with a specification of the first part. *)
Lemma wp_seq {A B} (m : M S A) (k : A -> M S B) (P : A -> S -> Prop) Q s :
  wp m P s -> (forall a t, P a t -> wp (k a) Q t) -> wp (bind m k) Q s.
Proof. intros Hm Hk. apply wp_bind. eapply wp_conseq; [exact Hk|exact Hm]. Qed.

Lemma wp_gets {A} (f : S -> A) (Q : A -> S -> Prop) s : Q (f s) s -> wp (gets f) Q s.
Proof. done. Qed.

Lemma wp_modify (f : S -> S) (Q : unit -> S -> Prop) s : Q tt (f s) -> wp (modify f) Q s.
Proof. done. Qed.

Lemma wp_if {A} (b : bool) (m1 m2 : M S A) Q s :
  (b = true -> wp m1 Q s) -> (b = false -> wp m2 Q s) -> wp (if b then m1 else m2) Q s.
Proof. destruct b; auto. Qed.

(** [same f m]: no run of [m] changes what [f] sees of the state. *)
Definition same {T A} (f : S -> T) (m : M S A) : Prop := forall s, f (post m s) = f s.

Lemma same_ret {T A} (f : S -> T) (a : A) : same f (ret a).
Proof. done. Qed.
Lemma same_gets {T A} (f : S -> T) (g : S -> A) : same f (gets g).
Proof. done. Qed.
Lemma same_bind {T A B} (f : S -> T) (m : M S A) (k : A -> M S B) :
  same f m -> (forall a, same f (k a)) -> same f (bind m k).
Proof.
  intros Hm Hk s. specialize (Hm s). unfold post, bind in *. destruct (m s) as [a t].
  specialize (Hk a t). unfold post in Hk. simpl in *. congruence.
Qed.
Lemma same_if {T A} (f : S -> T) (b : bool) (m1 m2 : M S A) :
  same f m1 -> same f m2 -> same f (if b then m1 else m2).
Proof. by destruct b. Qed.
Lemma same_keeps {T A} (f : S -> T) (m : M S A) (I : S -> Prop) :
  (forall s t, f s = f t -> I s -> I t) -> same f m -> keeps I m.
Proof. intros HI Hm s Hs. by apply (HI s); [rewrite Hm|]. Qed.

Lemma keeps_ret {A} I (a : A) : keeps I (ret a).
Proof. intros s Hs. exact Hs. Qed.

Lemma keeps_gets {A} I (f : S -> A) : keeps I (gets f).
Proof. intros s Hs. exact Hs. Qed.

Lemma keeps_modify (I : S -> Prop) f : (forall s, I s -> I (f s)) -> keeps I (modify f).
Proof. intros H s Hs. by apply H. Qed.

Lemma keeps_bind {A B} I (m : M S A) (k : A -> M S B) :
  keeps I m -> (forall a, keeps I (k a)) -> keeps I (bind m k).
Proof.
  intros Hm Hk s Hs. specialize (Hm s Hs). unfold post, bind in *.
  destruct (m s) as [a s']. simpl in *. by apply (Hk a).
Qed.
End Triples.

(** Turn a goal [let x := post m s in G] (or [res m s]) into a [wp]. *)
Ltac start_post :=
  let x := fresh "s'" in intros x; pattern x; subst x; apply wp_post.
Ltac start_res :=
  let x := fresh "r" in intros x; pattern x; subst x; apply wp_res.

Create HintDb keep.
Create HintDb same.
#[export] Hint Resolve keeps_ret keeps_gets keeps_modify keeps_bind : keep.

(** Run a monadic body over a list, left to right. *)
Fixpoint mfor {S A} (l : list A) (body : A -> M S unit) : M S unit :=
  match l with
  | [] => ret tt
  | a :: l' => bind (body a) (fun _ => mfor l' body)
  end.

Lemma keeps_mfor {S A} (I : S -> Prop) (l : list A) (body : A -> M S unit) :
  (forall a, a ∈ l -> keeps I (body a)) -> keeps I (mfor l body).
Proof.
  induction l as [|a l IH]; simpl; intros H; [apply keeps_ret|].
  apply keeps_bind; [apply H; set_solver|]. intros _. apply IH. set_solver.
Qed.

Lemma same_mfor {S A T} (f : S -> T) (l : list A) (body : A -> M S unit) :
  (forall a, same f (body a)) -> same f (mfor l body).
Proof. intros Hb. induction l as [|a l IH]; simpl; [apply same_ret|by apply same_bind]. Qed.

(** The state after a list, one element at a time. *)
Lemma post_mfor_snoc {S A} (l : list A) (a : A) (body : A -> M S unit) (s : S) :
  post (mfor (l ++ [a]) body) s = post (body a) (post (mfor l body) s).
Proof.
  revert s. induction l as [|b l IH]; intros s; simpl.
  - unfold post, bind, ret. simpl. by destruct (body a s).
  - unfold post, bind in *. destruct (body b s) as [u t]. apply IH.
Qed.

#[export] Hint Resolve same_ret same_gets same_bind same_if : same.

(** ** Lists *)

Lemma filter_all {A} (P : A -> Prop) `{forall x, Decision (P x)} l : Forall P l -> filter P l = l.
Proof. induction 1 as [|x l Hx _ IH]; [done|]. by rewrite filter_cons_True, IH. Qed.
Lemma filter_none {A} (P : A -> Prop) `{forall x, Decision (P x)} l : Forall (fun x => ~ P x) l -> filter P l = [].
Proof. induction 1 as [|x l Hx _ IH]; [done|]. by rewrite filter_cons_False. Qed.

(** ** Case analysis *)

Ltac destr_match :=
  match goal with
  | |- context [match ?x with _ => _ end] => destruct x eqn:?
  | H : context [match ?x with _ => _ end] |- _ => destruct x eqn:?
  end.

(** Turn boolean comparisons on [Z] into propositions. *)
Ltac zbool :=
  repeat match goal with
  | H : (_ <? _) = true |- _ => apply Z.ltb_lt in H
  | H : (_ <? _) = false |- _ => apply Z.ltb_ge in H
  | H : (_ <=? _) = true |- _ => apply Z.leb_le in H
  | H : (_ <=? _) = false |- _ => apply Z.leb_gt in H
  | H : (_ =? _) = true |- _ => apply Z.eqb_eq in H
  | H : (_ =? _) = false |- _ => apply Z.eqb_neq in H
  | H : (_ && _)%bool = true |- _ => apply andb_true_iff in H as [? ?]
  | H : (_ || _)%bool = false |- _ => apply orb_false_iff in H as [? ?]
  end.
