(* ===== verification/Decimal.v ===== *)
(** * Numbers as the programs print and read them

    [pretty] prints an integer in decimal; a reader that goes through digits
    from left to right reads it back. *)

From Stdlib Require Import ZArith Lia Ascii String.
From stdpp Require Import base list strings pretty numbers.
From S2P Require Import Prelude.

#[local] Open Scope Z_scope.

(** The ten digits, one by one. *)
Lemma digit_cases d : 0 <= d < 10 ->
  d = 0 \/ d = 1 \/ d = 2 \/ d = 3 \/ d = 4 \/ d = 5 \/ d = 6 \/ d = 7 \/ d = 8 \/ d = 9.
Proof. lia. Qed.

Lemma string_app_nil_r (s : string) : s +:+ "" = s.
Proof. induction s as [|c s IH]; [done|]. by change (String c (s +:+ "") = String c s); rewrite IH. Qed.

Lemma pretty_N_go_app x s t : pretty_N_go x s +:+ t = pretty_N_go x (s +:+ t).
Proof.
  revert s. induction x as [x IH] using (well_founded_induction N.lt_wf_0). intros s.
  destruct (decide (x = 0)%N) as [->|Hx]; [by rewrite !pretty_N_go_0|].
  rewrite !(pretty_N_go_step x) by lia. rewrite IH by (apply N.div_lt; lia). done.
Qed.

Lemma pretty_go_head x s : (0 < x)%N -> exists c r,
  pretty_N_go x s = String (pretty_N_char c) r /\ (c < 10)%N.
Proof.
  revert s. induction x as [x IH] using (well_founded_induction N.lt_wf_0). intros s Hx.
  rewrite pretty_N_go_step by done. pose proof (N.mod_lt x 10 ltac:(done)) as Hm.
  assert (x `div` 10 < x)%N as Hlt by (apply N.div_lt; lia).
  destruct (decide (x `div` 10 = 0)%N) as [->|E]; [rewrite pretty_N_go_0; eauto|].
  apply IH; [done|]. set (x `div` 10)%N in *. lia.
Qed.

Section Reader.
Context {R : Type} (read : bool -> Z -> string -> R).
(** [read seen acc s]: a digit was seen; [acc] is the number so far. *)
Hypothesis read_digit : forall b acc d s, 0 <= d < 10 ->
  read b acc (String (pretty_N_char (Z.to_N d)) s) = read true (acc * 10 + d) s.

Lemma read_pretty_go x s b acc : (0 < x)%N -> exists k,
  read b acc (pretty_N_go x s) = read true (acc * 10 ^ k + Z.of_N x) s /\ 0 <= k.
Proof.
  revert s b acc. induction x as [x IH] using (well_founded_induction N.lt_wf_0).
  intros s b acc Hx. rewrite pretty_N_go_step by done.
  pose proof (N.mod_lt x 10 ltac:(done)) as Hm. pose proof (N.div_mod x 10 ltac:(done)) as Hd.
  assert (x `div` 10 < x)%N as Hlt by (apply N.div_lt; lia).
  set (q := (x `div` 10)%N) in *. set (m := (x `mod` 10)%N) in *. clearbody q m.
  rewrite <- (N2Z.id m). destruct (decide (q = 0)%N) as [->|E].
  - rewrite pretty_N_go_0. exists 1. split; [|done]. rewrite read_digit by lia. f_equal; lia.
  - destruct (IH q Hlt (String (pretty_N_char (Z.to_N (Z.of_N m))) s) b acc ltac:(lia)) as (k & -> & Hk).
    exists (k + 1). split; [|lia]. rewrite read_digit by lia.
    rewrite Z.pow_add_r by lia. f_equal; lia.
Qed.

(** From the start, a positive number and what follows it. *)
Lemma read_pretty_pos x t : read false 0 (pretty (Zpos x) +:+ t) = read true (Zpos x) t.
Proof.
  change (pretty (Z.pos x)) with (pretty_N_go (Npos x) ""). rewrite pretty_N_go_app.
  destruct (read_pretty_go (Npos x) ("" +:+ t) false 0 ltac:(lia)) as (k & -> & _). done.
Qed.
End Reader.
