(* ===== verification/MinibookEc.v ===== *)
(** * The minibook_ec kernel module (modules/minibook_ec/)

    The I2EC port protocol of minibook_ec_i2ec.c, the fan, thermal and
    keyboard-backlight drivers on top of it, the sysfs attributes and the
    probe and remove functions.  The embedded controller is an interface: the
    classes [HostIo] (the operations the code calls) and [I2ecLaws] (what the
    IT5570E datasheet documents of ports 0x4E and 0x4F). *)

From stdpp Require Import base list strings.
From Stdlib Require Import ZArith Lia.
From S2P Require Import Prelude.

#[local] Open Scope Z_scope.
#[local] Open Scope prog_scope.

(** ** The hardware and kernel services the module calls *)

Class HostIo (D : Type) := {
  outb : Z -> Z -> D -> D;                 (* value, port *)
  inb : Z -> D -> Z * D;
  ec_read : Z -> D -> (Z * Z) * D;         (* (return code, byte) *)
  ec_write : Z -> Z -> D -> Z * D;
  acpi_evaluate_ltsm : Z -> D -> bool * D; (* true: ACPI_FAILURE *)
  request_region : D -> bool * D;          (* 0x4E, 2 bytes *)
  release_region : D -> D;
  register_zone : string -> D -> Z * D;    (* 0, or a negative errno in an ERR_PTR *)
  register_hwmon : D -> Z * D;
  register_led : D -> Z * D;
  register_work : D -> Z * D;
  register_sysfs : D -> Z * D
}.

(** The registers behind ports 0x4E/0x4F, as the datasheet describes them:
    the PNPCFG index, the depth-2 sub-index, the two address bytes and the
    16-bit internal address space. *)
Record i2ec_view := View {
  v_index : Z; v_sub : Z; v_hi : Z; v_lo : Z; v_mem : Z -> Z
}.

Definition upd (m : Z -> Z) (a v : Z) : Z -> Z := fun x => if x =? a then v else m x.

Definition pnp_out (val port : Z) (v : i2ec_view) : i2ec_view :=
  let '(View i s h l m) := v in
  if port =? 0x4E then View val s h l m
  else if i =? 0x2E then View i val h l m
  else if i =? 0x2F then
    if s =? 0x11 then View i s val l m
    else if s =? 0x10 then View i s h val m
    else if s =? 0x12 then View i s h l (upd m (256 * h + l) val)
    else v
  else v.

Class I2ecLaws (D : Type) `{HostIo D} := {
  view : D -> i2ec_view;
  view_outb : forall val port d, port = 0x4E \/ port = 0x4F ->
    view (outb val port d) = pnp_out val port (view d);
  inb_data : forall d, v_index (view d) = 0x2F -> v_sub (view d) = 0x12 ->
    fst (inb 0x4F d) = v_mem (view d) (256 * v_hi (view d) + v_lo (view d));
  view_inb : forall d, view (snd (inb 0x4F d)) = view d;
  view_request : forall d, view (snd (request_region d)) = view d;
  view_release : forall d, view (release_region d) = view d
}.

(** The ACPI EC window behaves as registers when a transfer succeeds. *)
Class EcWindowLaws (D : Type) `{HostIo D} := {
  win : D -> Z -> Z;
  ec_read_win : forall a d, 0 <= fst (fst (ec_read a d)) -> snd (fst (ec_read a d)) = win d a;
  ec_write_win : forall a v d, 0 <= fst (ec_write a v d) -> win (snd (ec_write a v d)) a = v
}.

(** ** Module state *)

(** A kernel pointer: NULL, an ERR_PTR, or an object. *)
Inductive kptr := Null | ErrPtr (e : Z) | Obj.

Definition kptr_set (p : kptr) : bool := match p with Null => false | _ => true end.

(** Kernel calls whose argument matters for correctness, newest first. *)
Inductive kevent :=
  | EvUnregisterZone (tz : kptr)
  | EvNotifyBrightness (v : Z)
  | EvQueueWork.

Record minibook_ec (D : Type) := Ec {
  hw : D;
  i2ec_lock : bool;
  deadlock : bool;       (* a task waits for a mutex it already holds *)
  pnpcfg_available : bool;
  soc_tz : kptr;
  charger_tz : kptr;
  hwmon_dev : kptr;
  kbd_bl : bool;         (* ec->kbd_bl != NULL *)
  last_observed : Z;     (* kbl->last_observed, u8 *)
  events : list kevent
}.
Arguments Ec {D}. Arguments hw {D}. Arguments i2ec_lock {D}. Arguments deadlock {D}.
Arguments pnpcfg_available {D}. Arguments soc_tz {D}. Arguments charger_tz {D}.
Arguments hwmon_dev {D}. Arguments kbd_bl {D}. Arguments last_observed {D}. Arguments events {D}.

Definition EBUSY := 16.
Definition ENODEV := 19.
Definition EINVAL := 22.
Definition EIO := 5.
Definition ENODATA := 61.
Definition EOPNOTSUPP := 95.
Definition ENOMEM := 12.

Section Ec.
Context {D : Type} `{HIO : HostIo D}.
#[local] Abbreviation St := (minibook_ec D).

Definition set_hw (d : D) (s : St) : St :=
  let '(Ec _ a b c e f g h i j) := s in Ec d a b c e f g h i j.
Definition set_lock (x : bool) (s : St) : St :=
  let '(Ec d _ b c e f g h i j) := s in Ec d x b c e f g h i j.
Definition set_deadlock (x : bool) (s : St) : St :=
  let '(Ec d a _ c e f g h i j) := s in Ec d a x c e f g h i j.
Definition set_pnpcfg (x : bool) (s : St) : St :=
  let '(Ec d a b _ e f g h i j) := s in Ec d a b x e f g h i j.
Definition set_soc_tz (x : kptr) (s : St) : St :=
  let '(Ec d a b c _ f g h i j) := s in Ec d a b c x f g h i j.
Definition set_charger_tz (x : kptr) (s : St) : St :=
  let '(Ec d a b c e _ g h i j) := s in Ec d a b c e x g h i j.
Definition set_hwmon_dev (x : kptr) (s : St) : St :=
  let '(Ec d a b c e f _ h i j) := s in Ec d a b c e f x h i j.
Definition set_kbd_bl (x : bool) (s : St) : St :=
  let '(Ec d a b c e f g _ i j) := s in Ec d a b c e f g x i j.
Definition set_last_observed (x : Z) (s : St) : St :=
  let '(Ec d a b c e f g h _ j) := s in Ec d a b c e f g h x j.
Definition add_event (ev : kevent) (s : St) : St :=
  let '(Ec d a b c e f g h i j) := s in Ec d a b c e f g h i (ev :: j).

(** A call to a service of the hardware. *)
Definition io {A} (f : D -> A * D) : M St A :=
  fun s => let (a, d) := f (hw s) in (a, set_hw d s).
Definition io_ (f : D -> D) : M St unit := modify (fun s => set_hw (f (hw s)) s).

Definition mutex_lock : M St unit :=
  modify (fun s => if i2ec_lock s then set_deadlock true s else set_lock true s).
Definition mutex_unlock : M St unit := modify (set_lock false).

(** ** minibook_ec_i2ec.c *)

Definition PNPCFG_INDEX := 0x4E.
Definition PNPCFG_DATA := 0x4F.
Definition PNPCFG_D2ADR := 0x2E.
Definition PNPCFG_D2DAT := 0x2F.
Definition I2EC_SUB_ADDR_L := 0x10.
Definition I2EC_SUB_ADDR_H := 0x11.
Definition I2EC_SUB_DATA := 0x12.

Definition pnpcfg_select (index sub_index : Z) : M St unit :=
  io_ (outb index PNPCFG_INDEX) ;;;
  io_ (outb sub_index PNPCFG_DATA).

(** The address phase the read and the write share. *)
Definition i2ec_select_addr (addr : Z) : M St unit :=
  pnpcfg_select PNPCFG_D2ADR I2EC_SUB_ADDR_H ;;;
  pnpcfg_select PNPCFG_D2DAT (Z.land (Z.shiftr addr 8) 0xFF) ;;;
  pnpcfg_select PNPCFG_D2ADR I2EC_SUB_ADDR_L ;;;
  pnpcfg_select PNPCFG_D2DAT (Z.land addr 0xFF).

Definition minibook_ec_i2ec_read (addr : Z) : M St Z :=
  mutex_lock ;;;
  i2ec_select_addr addr ;;;
  pnpcfg_select PNPCFG_D2ADR I2EC_SUB_DATA ;;;
  io_ (outb PNPCFG_D2DAT PNPCFG_INDEX) ;;;
  val <- io (inb PNPCFG_DATA) ;;
  mutex_unlock ;;;
  ret val.

Definition minibook_ec_i2ec_write (addr val : Z) : M St unit :=
  mutex_lock ;;;
  i2ec_select_addr addr ;;;
  pnpcfg_select PNPCFG_D2ADR I2EC_SUB_DATA ;;;
  pnpcfg_select PNPCFG_D2DAT val ;;;
  mutex_unlock.

Definition IT5570E_ECHIPID1 := 0x2000.
Definition IT5570E_ECHIPID2 := 0x2001.
Definition IT5570E_ID1 := 0x55.
Definition IT5570E_ID2 := 0x70.

(** The second chip-ID register is read only when the first one matches. *)
Definition chip_id_mismatch : M St bool :=
  id1 <- minibook_ec_i2ec_read IT5570E_ECHIPID1 ;;
  if negb (id1 =? IT5570E_ID1) then ret true
  else (id2 <- minibook_ec_i2ec_read IT5570E_ECHIPID2 ;; ret (negb (id2 =? IT5570E_ID2))).

Definition minibook_ec_i2ec_init : M St Z :=
  ok <- io request_region ;;
  if negb ok then ret (- EBUSY)
  else
    (modify (set_pnpcfg true) ;;;
     bad <- chip_id_mismatch ;;
     if (bad : bool)
     then (io_ release_region ;;; modify (set_pnpcfg false) ;;; ret (- ENODEV))
     else ret 0).

Definition minibook_ec_i2ec_cleanup : M St unit :=
  avail <- gets pnpcfg_available ;;
  if (avail : bool) then (io_ release_region ;;; modify (set_pnpcfg false)) else ret tt.

(** ** minibook_ec_fan.c *)

Definition IT5570E_DCR_FAN := 0x1809.
Definition IT5570E_FAN_TACH_L := 0x181E.
Definition IT5570E_FAN_TACH_M := 0x181F.
Definition TACH_RPM_CONSTANT := 1875000.

Definition tach_rpm (tach_l tach_m : Z) : Z :=
  let tach := Z.lor (Z.shiftl tach_m 8) tach_l in
  if (tach =? 0) || (tach =? 0xFFFF) then 0 else TACH_RPM_CONSTANT ÷ tach.

Definition read_fan_rpm : M St Z :=
  tach_l <- minibook_ec_i2ec_read IT5570E_FAN_TACH_L ;;
  tach_m <- minibook_ec_i2ec_read IT5570E_FAN_TACH_M ;;
  ret (tach_rpm tach_l tach_m).

Inductive hwmon_type := hwmon_fan | hwmon_pwm | hwmon_other.

(** [attr]: whether the attribute is the [_input] one. *)
Definition fan_hwmon_visible (type : hwmon_type) (input : bool) : Z :=
  match type with
  | hwmon_fan | hwmon_pwm => if input then 292 (* 0444 *) else 0
  | hwmon_other => 0
  end.

Definition fan_hwmon_read (type : hwmon_type) (input : bool) : M St (Z * Z) :=
  match type, input with
  | hwmon_fan, true => rpm <- read_fan_rpm ;; ret (0, rpm)
  | hwmon_pwm, true => v <- minibook_ec_i2ec_read IT5570E_DCR_FAN ;; ret (0, v)
  | _, _ => ret (- EOPNOTSUPP, 0)
  end.

Definition minibook_ec_register_fan : M St Z :=
  avail <- gets pnpcfg_available ;;
  if negb avail then ret (- ENODEV)
  else
    (r <- io register_hwmon ;;
     if r <? 0 then (modify (set_hwmon_dev (ErrPtr r)) ;;; ret r)
     else (modify (set_hwmon_dev Obj) ;;; ret 0)).

(** ** minibook_ec_kbd_backlight.c *)

Definition IT5570E_KBD_BL_DCR := 0x1803.
Definition IT5570E_KBD_BL_GPIO_GATE := 0x1611.
Definition KBD_BL_GPIO_GATE_OFF := 0x40.
Definition EC_KBD_BL_SETPOINT := 0x03E2.
Definition EC_KBD_BL_TIMER_SUSPEND := 0x0411.
Definition KBD_BL_TIMER_SUSPEND_MAGIC := 0xEE.
Definition KBD_BL_MAX_BRIGHTNESS := 0xFF.

Definition kbd_bl_output_gated : M St bool :=
  gpio <- minibook_ec_i2ec_read IT5570E_KBD_BL_GPIO_GATE ;;
  ret (negb (Z.land gpio KBD_BL_GPIO_GATE_OFF =? 0)).

Definition kbd_bl_set_output (enable : bool) : M St unit :=
  gpio <- minibook_ec_i2ec_read IT5570E_KBD_BL_GPIO_GATE ;;
  minibook_ec_i2ec_write IT5570E_KBD_BL_GPIO_GATE
    (if enable then wrap 8 (Z.land gpio (Z.lnot KBD_BL_GPIO_GATE_OFF))
     else wrap 8 (Z.lor gpio KBD_BL_GPIO_GATE_OFF)).

Definition kbd_bl_set_duty (duty : Z) : M St unit :=
  minibook_ec_i2ec_write IT5570E_KBD_BL_DCR duty ;;;
  minibook_ec_i2ec_write EC_KBD_BL_SETPOINT duty.

Definition kbd_bl_timer_suspended : M St bool :=
  flag <- minibook_ec_i2ec_read EC_KBD_BL_TIMER_SUSPEND ;;
  ret (flag =? KBD_BL_TIMER_SUSPEND_MAGIC).

Definition kbd_bl_set_auto_off (enable : bool) : M St unit :=
  minibook_ec_i2ec_write EC_KBD_BL_TIMER_SUSPEND
    (if enable then 0 else KBD_BL_TIMER_SUSPEND_MAGIC).

(** [value] is an [enum led_brightness]; the duty and [last_observed] are u8. *)
Definition kbd_bl_brightness_set (value : Z) : M St Z :=
  kbd_bl_set_duty (wrap 8 value) ;;;
  susp <- kbd_bl_timer_suspended ;;
  (if (susp : bool) then kbd_bl_set_output (negb (value =? 0)) else ret tt) ;;;
  modify (set_last_observed (wrap 8 value)) ;;;
  ret 0.

Definition kbd_bl_brightness_get : M St Z :=
  gated <- kbd_bl_output_gated ;;
  if (gated : bool) then ret 0 else minibook_ec_i2ec_read IT5570E_KBD_BL_DCR.

Definition kbd_bl_poll_work : M St unit :=
  current_bri <- kbd_bl_brightness_get ;;
  last <- gets last_observed ;;
  (if negb (current_bri =? last)
   then (modify (set_last_observed (wrap 8 current_bri)) ;;;
         modify (add_event (EvNotifyBrightness current_bri)))
   else ret tt) ;;;
  modify (add_event EvQueueWork).

Definition auto_off_timer_show : M St Z :=
  susp <- kbd_bl_timer_suspended ;; ret (if (susp : bool) then 0 else 1).

(** [kstrtobool] is the kernel's parser: an errno, or the boolean. *)
Definition auto_off_timer_store (parsed : Z + bool) (count : Z) : M St Z :=
  match parsed with
  | inl e => ret e
  | inr enable => kbd_bl_set_auto_off enable ;;; ret count
  end.

Definition minibook_ec_register_kbd_backlight (kzalloc_ok poll_hw_changed : bool) : M St Z :=
  avail <- gets pnpcfg_available ;;
  if negb avail then ret (- ENODEV)
  else if negb kzalloc_ok then ret (- ENOMEM)
  else
    (modify (set_last_observed 0) ;;;
     modify (set_kbd_bl true) ;;;
     r <- io register_led ;;
     if negb (r =? 0) then ret r
     else if negb poll_hw_changed then ret 0
     else
       (b <- kbd_bl_brightness_get ;;
        modify (set_last_observed (wrap 8 b)) ;;;
        r2 <- io register_work ;;
        if negb (r2 =? 0) then ret r2
        else (modify (add_event EvQueueWork) ;;; ret 0))).

(** ** minibook_ec_thermal.c *)

Definition EC_REG_SOC_TEMP := 0x70.
Definition ADC_CH0_CTL := 0x1904.
Definition ADC_CH0_DATL := 0x1918.
Definition ADC_CH0_DATM := 0x1919.
Definition ADC_GLITCH := 0x1FF.
Definition ADC_ZERO_C_OFFSET := 644.
Definition ADC_RAW_PER_DEGREE := 7.

(** [inr temp], or [inl errno]. *)
Definition soc_temp_of (r : Z * Z) : Z + Z :=
  let '(ret_, val) := r in
  if ret_ <? 0 then inl ret_
  else if (val =? 0) || (val =? 0xFF) then inl (- ENODATA)
  else inr (val * 1000).

Definition soc_temp_get : M St (Z + Z) :=
  r <- io (ec_read EC_REG_SOC_TEMP) ;; ret (soc_temp_of r).

Definition adc_read_raw : M St Z :=
  ctl <- minibook_ec_i2ec_read ADC_CH0_CTL ;;
  if ctl =? 0 then ret 0xFFFF
  else
    (datl <- minibook_ec_i2ec_read ADC_CH0_DATL ;;
     datm <- minibook_ec_i2ec_read ADC_CH0_DATM ;;
     let raw := Z.lor (Z.shiftl datm 8) datl in
     ret (if (raw =? ADC_GLITCH) || (raw =? 0) then 0xFFFF else raw)).

Definition charger_temp_of (raw : Z) : Z + Z :=
  if raw =? 0xFFFF then inl (- ENODATA)
  else
    let raw := if ADC_ZERO_C_OFFSET <? raw then ADC_ZERO_C_OFFSET else raw in
    inr ((ADC_ZERO_C_OFFSET - raw) ÷ ADC_RAW_PER_DEGREE * 1000).

Definition charger_temp_get : M St (Z + Z) :=
  raw <- adc_read_raw ;; ret (charger_temp_of raw).

Definition register_soc_zone : M St Z :=
  t <- soc_temp_get ;;
  match t with
  | inl _ => ret (- ENODEV)
  | inr _ =>
      r <- io (register_zone "minibook_soc") ;;
      if r <? 0 then (modify (set_soc_tz (ErrPtr r)) ;;; ret r)
      else (modify (set_soc_tz Obj) ;;; ret 0)
  end.

Definition register_charger_zone : M St Z :=
  avail <- gets pnpcfg_available ;;
  if negb avail then ret (- ENODEV)
  else
    (raw <- adc_read_raw ;;
     if raw =? 0xFFFF then ret (- ENODATA)
     else
       (r <- io (register_zone "minibook_charger") ;;
        if r <? 0 then (modify (set_charger_tz (ErrPtr r)) ;;; ret r)
        else (modify (set_charger_tz Obj) ;;; ret 0))).

Definition minibook_ec_register_thermal : M St Z :=
  register_soc_zone ;;;
  register_charger_zone ;;;
  soc <- gets soc_tz ;;
  chg <- gets charger_tz ;;
  ret (if kptr_set soc || kptr_set chg then 0 else - ENODEV).

Definition unregister_if_set (p : kptr) : M St unit :=
  if kptr_set p then modify (add_event (EvUnregisterZone p)) else ret tt.

Definition minibook_ec_unregister_thermal : M St unit :=
  soc <- gets soc_tz ;;
  unregister_if_set soc ;;;
  chg <- gets charger_tz ;;
  unregister_if_set chg.

(** ** minibook_ec_sysfs.c *)

Definition EC_REG_ECMV := 0x00.
Definition EC_REG_ECSV := 0x01.
Definition EC_REG_KBVS := 0x02.
Definition EC_REG_ECTV := 0x03.
Definition EC_REG_TPTL := 0x0C.
Definition EC_REG_KBCD := 0x0D.
Definition EC_REG_UNLOCK := 0xF0.
Definition TPTL_ON := 0x11.
Definition TPTL_OFF := 0x22.
Definition KBCD_LAPTOP := 0x00.
Definition UNLOCK_MAGIC := 0xAA.

(** A read attribute returns an errno or the printed value. *)
Definition touchpad_enabled_show : M St (Z + bool) :=
  r <- io (ec_read EC_REG_TPTL) ;;
  ret (if fst r <? 0 then inl (fst r) else inr (negb (snd r =? TPTL_OFF))).

Definition touchpad_enabled_store (parsed : Z + bool) (count : Z) : M St Z :=
  match parsed with
  | inl e => ret e
  | inr enable =>
      r <- io (ec_write EC_REG_TPTL (if enable then TPTL_ON else TPTL_OFF)) ;;
      ret (if r <? 0 then r else count)
  end.

Definition keyboard_enabled_show : M St (Z + bool) :=
  r <- io (ec_read EC_REG_KBCD) ;;
  ret (if fst r <? 0 then inl (fst r) else inr (snd r =? KBCD_LAPTOP)).

Definition keyboard_enabled_store (parsed : Z + bool) (count : Z) : M St Z :=
  match parsed with
  | inl e => ret e
  | inr enable =>
      failed <- io (acpi_evaluate_ltsm (if enable then 0 else 1)) ;;
      ret (if (failed : bool) then - EIO else count)
  end.

Definition ec_version_show : M St (Z + (Z * Z * Z * Z)) :=
  r0 <- io (ec_read EC_REG_ECMV) ;;
  if fst r0 <? 0 then ret (inl (fst r0)) else
  (r1 <- io (ec_read EC_REG_ECSV) ;;
   if fst r1 <? 0 then ret (inl (fst r1)) else
   (r2 <- io (ec_read EC_REG_KBVS) ;;
    if fst r2 <? 0 then ret (inl (fst r2)) else
    (r3 <- io (ec_read EC_REG_ECTV) ;;
     ret (if fst r3 <? 0 then inl (fst r3) else inr (snd r0, snd r1, snd r2, snd r3))))).

Definition bios_unlock_store (parsed : Z + bool) (count : Z) : M St Z :=
  match parsed with
  | inl e => ret e
  | inr false => ret (- EINVAL)
  | inr true =>
      r <- io (ec_write EC_REG_UNLOCK UNLOCK_MAGIC) ;;
      ret (if r <? 0 then r else count)
  end.

(** ** minibook_ec_core.c *)

Definition minibook_ec_probe (kzalloc_ok kbl_alloc_ok poll_hw_changed : bool) : M St Z :=
  if negb kzalloc_ok then ret (- ENOMEM) else
  (tptl <- io (ec_read EC_REG_TPTL) ;;
   if fst tptl <? 0 then ret (fst tptl) else
   (kbcd <- io (ec_read EC_REG_KBCD) ;;
    if fst kbcd <? 0 then ret (fst kbcd) else
    (r <- io register_sysfs ;;
     if negb (r =? 0) then ret r else
     (minibook_ec_i2ec_init ;;;
      minibook_ec_register_thermal ;;;
      minibook_ec_register_fan ;;;
      minibook_ec_register_kbd_backlight kbl_alloc_ok poll_hw_changed ;;;
      ret 0)))).

Definition minibook_ec_unregister_fan : M St unit := ret tt.

Definition minibook_ec_remove : M St unit :=
  minibook_ec_unregister_thermal ;;;
  minibook_ec_unregister_fan ;;;
  minibook_ec_i2ec_cleanup.
End Ec.

(** ** Views of the state *)

Section Views.
Context {D : Type} `{HIO : HostIo D} `{LAWS : !I2ecLaws D}.

(** The internal address space of the controller. *)
Definition mem (s : minibook_ec D) : Z -> Z := v_mem (view (hw s)).

(** No task of the module holds the I2EC mutex, and none waits forever. *)
Definition ready (s : minibook_ec D) : Prop := i2ec_lock s = false /\ deadlock s = false.

(** The device after the address phase followed by selecting the data sub-register. *)
Definition addressed (addr : Z) (d : D) : D :=
  outb I2EC_SUB_DATA PNPCFG_DATA (outb PNPCFG_D2ADR PNPCFG_INDEX
    (outb (Z.land addr 0xFF) PNPCFG_DATA (outb PNPCFG_D2DAT PNPCFG_INDEX
    (outb I2EC_SUB_ADDR_L PNPCFG_DATA (outb PNPCFG_D2ADR PNPCFG_INDEX
    (outb (Z.land (Z.shiftr addr 8) 0xFF) PNPCFG_DATA (outb PNPCFG_D2DAT PNPCFG_INDEX
    (outb I2EC_SUB_ADDR_H PNPCFG_DATA (outb PNPCFG_D2ADR PNPCFG_INDEX d))))))))).

(** Bit 6 of the gate register after [kbd_bl_set_output]. *)
Definition gate_byte (enable : bool) (g : Z) : Z :=
  if enable then wrap 8 (Z.land g (Z.lnot KBD_BL_GPIO_GATE_OFF))
  else wrap 8 (Z.lor g KBD_BL_GPIO_GATE_OFF).

(** The two register writes, and the gate write when the timer is suspended. *)
Definition brightness_mem (v : Z) (m : Z -> Z) : Z -> Z :=
  let m1 := upd (upd m IT5570E_KBD_BL_DCR v) EC_KBD_BL_SETPOINT v in
  if m EC_KBD_BL_TIMER_SUSPEND =? KBD_BL_TIMER_SUSPEND_MAGIC
  then upd m1 IT5570E_KBD_BL_GPIO_GATE (gate_byte (negb (v =? 0)) (m IT5570E_KBD_BL_GPIO_GATE))
  else m1.
End Views.

(** ** A simulated controller, for the witnesses

    Internal memory, the ACPI window and the port latches as association
    functions; every registration succeeds unless [sim_fail] says otherwise. *)

Record sim := Sim { sim_view : i2ec_view; sim_win : Z -> Z; sim_err : Z; sim_region : bool }.

Definition sim_set_view (v : i2ec_view) (d : sim) : sim :=
  Sim v (sim_win d) (sim_err d) (sim_region d).

#[export] Instance sim_io : HostIo sim := {
  outb val port d := sim_set_view (pnp_out val port (sim_view d)) d;
  inb _ d := (v_mem (sim_view d) (256 * v_hi (sim_view d) + v_lo (sim_view d)), d);
  ec_read a d := ((0, sim_win d a), d);
  ec_write a v d := (0, Sim (sim_view d) (upd (sim_win d) a v) (sim_err d) (sim_region d));
  acpi_evaluate_ltsm v d :=
    (false, Sim (sim_view d) (upd (sim_win d) 0x0D (if v =? 0 then 0 else 3)) (sim_err d) (sim_region d));
  request_region d :=
    (negb (sim_region d), Sim (sim_view d) (sim_win d) (sim_err d) true);
  release_region d := Sim (sim_view d) (sim_win d) (sim_err d) false;
  register_zone _ d := (sim_err d, d);
  register_hwmon d := (sim_err d, d);
  register_led d := (sim_err d, d);
  register_work d := (0, d);
  register_sysfs d := (0, d)
}.

#[export] Instance sim_laws : I2ecLaws sim.
Proof. refine {| view := sim_view |}; by intros. Defined.

#[export] Instance sim_win_laws : EcWindowLaws sim.
Proof.
  refine {| win := sim_win |}; intros; simpl; [done|]. unfold upd. by rewrite Z.eqb_refl.
Defined.

(** A board with chip id 0x5570, the backlight timer suspended, and an active ADC channel. *)
Definition sim_mem (a : Z) : Z :=
  if a =? 0x2000 then 0x55 else if a =? 0x2001 then 0x70
  else if a =? 0x0411 then 0xEE else if a =? 0x1611 then 0x41
  else if a =? 0x1904 then 1 else if a =? 0x1918 then 0x2C else if a =? 0x1919 then 0x01
  else if a =? 0x181E then 0x71 else if a =? 0x181F then 0x02 else 0.

Definition sim_start (err : Z) : minibook_ec sim :=
  Ec (Sim (View 0 0 0 0 sim_mem) (fun a => if a =? 0x70 then 45 else 0x11) err false)
     false false true Null Null Null false 0 [].

(** ** Theorems *)

Section Theorems.
Context {D : Type} `{HIO : HostIo D} `{LAWS : !I2ecLaws D}.
#[local] Abbreviation St := (minibook_ec D).

Lemma set_hw_id (s : St) : set_hw (hw s) s = s.
Proof. by destruct s. Qed.
Lemma hw_set_hw d (s : St) : hw (set_hw d s) = d.
Proof. by destruct s. Qed.
Lemma set_hw_set_hw d d' (s : St) : set_hw d' (set_hw d s) = set_hw d' s.
Proof. by destruct s. Qed.
Lemma ready_set_hw d (s : St) : ready s -> ready (set_hw d s).
Proof. by destruct s. Qed.

Lemma addr_split a : 0 <= a < 65536 ->
  256 * Z.land (Z.shiftr a 8) 0xFF + Z.land a 0xFF = a.
Proof.
  intros Ha. change 0xFF with (Z.ones 8). rewrite !Z.land_ones by lia.
  rewrite Z.shiftr_div_pow2 by lia. change (2 ^ 8) with 256.
  rewrite (Z.mod_small (a / 256)). 2:{ split; [apply Z.div_pos|apply Z.div_lt_upper_bound]; lia. }
  pose proof (Z.div_mod a 256 ltac:(lia)). lia.
Qed.

Lemma view_select addr d :
  view (outb PNPCFG_D2DAT PNPCFG_INDEX (addressed addr d)) =
  View 0x2F 0x12 (Z.land (Z.shiftr addr 8) 0xFF) (Z.land addr 0xFF) (v_mem (view d)).
Proof.
  unfold addressed, PNPCFG_INDEX, PNPCFG_DATA, PNPCFG_D2ADR, PNPCFG_D2DAT, I2EC_SUB_ADDR_H,
    I2EC_SUB_ADDR_L, I2EC_SUB_DATA.
  rewrite !view_outb by lia. by destruct (view d).
Qed.

Lemma i2ec_read_wp addr (s : St) (Q : Z -> St -> Prop) :
  ready s -> 0 <= addr < 65536 ->
  (forall d', v_mem (view d') = mem s -> Q (mem s addr) (set_hw d' s)) ->
  wp (minibook_ec_i2ec_read addr) Q s.
Proof.
  intros [Hl Hd] Ha HQ. destruct s as [d l dl a c e f g h i]. simpl in Hl, Hd. subst l dl.
  unfold wp, res, post, minibook_ec_i2ec_read, i2ec_select_addr, pnpcfg_select, mutex_lock,
    mutex_unlock, io_, io, bind, modify, ret. simpl.
  pose proof (view_select addr d) as Hv. unfold addressed in Hv.
  set (d1 := outb PNPCFG_D2DAT PNPCFG_INDEX _) in *.
  pose proof (inb_data d1) as Hin. rewrite Hv in Hin. simpl in Hin.
  specialize (Hin eq_refl eq_refl). rewrite (addr_split addr Ha) in Hin.
  pose proof (view_inb d1) as Hvi. rewrite Hv in Hvi.
  unfold PNPCFG_DATA. destruct (inb 0x4F d1) as [v d2]. simpl in *. subst v.
  apply (HQ d2). rewrite Hvi. done.
Qed.

Lemma i2ec_write_wp addr val (s : St) (Q : unit -> St -> Prop) :
  ready s -> 0 <= addr < 65536 ->
  (forall d', v_mem (view d') = upd (mem s) addr val -> Q tt (set_hw d' s)) ->
  wp (minibook_ec_i2ec_write addr val) Q s.
Proof.
  intros [Hl Hd] Ha HQ. destruct s as [d l dl a c e f g h i]. simpl in Hl, Hd. subst l dl.
  unfold wp, res, post, minibook_ec_i2ec_write, i2ec_select_addr, pnpcfg_select, mutex_lock,
    mutex_unlock, io_, bind, modify. simpl.
  pose proof (view_select addr d) as Hv. unfold addressed in Hv.
  set (d1 := outb PNPCFG_D2DAT PNPCFG_INDEX _) in *.
  apply (HQ (outb val PNPCFG_DATA d1)).
  unfold PNPCFG_DATA at 1. rewrite view_outb by lia. rewrite Hv. simpl.
  by rewrite (addr_split addr Ha).
Qed.

End Theorems.

Create HintDb ec.
#[export] Hint Resolve ready_set_hw : ec.

(** [step_ec] consumes one monadic operation of the goal, I2EC accesses included. *)
Ltac step_ec :=
  match goal with
  | |- wp (bind _ _) _ _ => apply wp_bind
  | |- wp (ret _) _ _ => apply wp_ret
  | |- wp (gets _) _ _ => apply wp_gets
  | |- wp (modify _) _ _ => apply wp_modify
  | |- wp (minibook_ec_i2ec_read _) _ _ =>
      apply i2ec_read_wp; [by eauto with ec | done || lia |
        let d := fresh "d" in let H := fresh "Hmem" in intros d H]
  | |- wp (minibook_ec_i2ec_write _ _) _ _ =>
      apply i2ec_write_wp; [by eauto with ec | done || lia |
        let d := fresh "d" in let H := fresh "Hmem" in intros d H]
  | |- wp (if _ then _ else _) _ _ => apply wp_if; intros
  end.

Ltac run_ec :=
  repeat step_ec; autounfold with ec_defs;
  rewrite ?hw_set_hw, ?set_hw_set_hw in *.

Lemma mem_set_hw {D} `{HIO : HostIo D} `{LAWS : !I2ecLaws D} d (s : minibook_ec D) :
  mem (set_hw d s) = v_mem (view d).
Proof. by destruct s. Qed.

Lemma upd_same m a v : upd m a v a = v.
Proof. unfold upd. by rewrite Z.eqb_refl. Qed.

Lemma upd_other m a v x : x <> a -> upd m a v x = m x.
Proof. intros H. unfold upd. by rewrite (proj2 (Z.eqb_neq x a) H). Qed.

(** Normalise the memory facts collected by [step_ec]. *)
Ltac ec_norm :=
  repeat first
    [ rewrite set_hw_set_hw in *
    | rewrite mem_set_hw in *
    | rewrite upd_same in *
    | rewrite upd_other in * by done
    | match goal with
      | H : v_mem (view ?d) = _ |- context [v_mem (view ?d)] => rewrite H
      | H : v_mem (view ?d) = _, H' : context [v_mem (view ?d)] |- _ =>
          lazymatch H with H' => fail | _ => rewrite H in H' end
      end ].

Section Results.
Context {D : Type} `{HIO : HostIo D} `{LAWS : !I2ecLaws D}.
#[local] Abbreviation St := (minibook_ec D).

(** C12: Reading an EC register through the I2EC window returns the byte at that address, leaves
    the EC memory as it was and the lock free. *)
Theorem i2ec_read_correct (s : St) (addr : Z) :
  ready s -> 0 <= addr < 65536 ->
  let s' := post (minibook_ec_i2ec_read addr) s in
  res (minibook_ec_i2ec_read addr) s = mem s addr /\
  mem s' = mem s /\ ready s' /\ s' = set_hw (hw s') s.
Proof.
  intros Hr Ha.
  apply (i2ec_read_wp addr s (fun v s' =>
    v = mem s addr /\ mem s' = mem s /\ ready s' /\ s' = set_hw (hw s') s)); [done..|].
  intros d' Hd. rewrite mem_set_hw, hw_set_hw. auto with ec.
Qed.

(** Writing an EC register through the I2EC window stores the byte at that address and nowhere
    else, and leaves the lock free. *)
Theorem i2ec_write_correct (s : St) (addr val : Z) :
  ready s -> 0 <= addr < 65536 ->
  let s' := post (minibook_ec_i2ec_write addr val) s in
  mem s' addr = val /\ (forall a, a <> addr -> mem s' a = mem s a) /\
  ready s' /\ s' = set_hw (hw s') s.
Proof.
  intros Hr Ha.
  apply (i2ec_write_wp addr val s (fun _ s' =>
    mem s' addr = val /\ (forall a, a <> addr -> mem s' a = mem s a) /\
    ready s' /\ s' = set_hw (hw s') s)); [done..|].
  intros d' Hd. rewrite mem_set_hw, hw_set_hw, Hd. rewrite upd_same.
  split; [done|]. split; [|by auto with ec]. intros a Hn. by apply upd_other.
Qed.

Lemma mem_set_last v (s : St) : mem (set_last_observed v s) = mem s.
Proof. by destruct s. Qed.
Lemma mem_add_event e (s : St) : mem (add_event e s) = mem s.
Proof. by destruct s. Qed.
Lemma ready_set_last v (s : St) : ready s -> ready (set_last_observed v s).
Proof. by destruct s. Qed.
Lemma last_set_hw d (s : St) : last_observed (set_hw d s) = last_observed s.
Proof. by destruct s. Qed.
Lemma last_set_last v (s : St) : last_observed (set_last_observed v s) = v.
Proof. by destruct s. Qed.

Lemma gate_bits enable g n : 0 <= n < 8 ->
  Z.testbit (gate_byte enable g) n = if n =? 6 then negb enable else Z.testbit g n.
Proof.
  intros Hn. unfold gate_byte, wrap, KBD_BL_GPIO_GATE_OFF. change 0x40 with (2 ^ 6).
  destruct enable; rewrite Z.mod_pow2_bits_low by lia.
  - rewrite Z.land_spec, Z.lnot_spec by lia. rewrite Z.pow2_bits_eqb by lia.
    destruct (Z.eqb_spec n 6) as [->|Hne].
    + by rewrite Z.eqb_refl, andb_false_r.
    + rewrite (proj2 (Z.eqb_neq 6 n)) by lia. by rewrite andb_true_r.
  - rewrite Z.lor_spec, Z.pow2_bits_eqb by lia.
    destruct (Z.eqb_spec n 6) as [->|Hne].
    + by rewrite Z.eqb_refl, orb_true_r.
    + rewrite (proj2 (Z.eqb_neq 6 n)) by lia. by rewrite orb_false_r.
Qed.

Lemma gated_testbit g :
  negb (Z.land g KBD_BL_GPIO_GATE_OFF =? 0) = Z.testbit g 6.
Proof.
  unfold KBD_BL_GPIO_GATE_OFF. change 0x40 with (2 ^ 6).
  destruct (Z.testbit g 6) eqn:Hb.
  - apply negb_true_iff, Z.eqb_neq. intros H0.
    apply (f_equal (fun x => Z.testbit x 6)) in H0.
    rewrite Z.land_spec, Hb, Z.pow2_bits_true, Z.bits_0 in H0 by lia. done.
  - apply negb_false_iff, Z.eqb_eq. apply Z.bits_inj'. intros n Hn.
    rewrite Z.land_spec, Z.pow2_bits_eqb, Z.bits_0 by lia.
    destruct (Z.eqb_spec 6 n) as [<-|_]; [by rewrite Hb|by rewrite andb_false_r].
Qed.

Lemma brightness_set_wp v (s : St) (Q : Z -> St -> Prop) :
  ready s -> 0 <= v < 256 ->
  (forall d', v_mem (view d') = brightness_mem v (mem s) ->
    Q 0 (set_last_observed v (set_hw d' s))) ->
  wp (kbd_bl_brightness_set v) Q s.
Proof.
  intros Hr Hv HQ. unfold kbd_bl_brightness_set, kbd_bl_set_duty, kbd_bl_timer_suspended.
  rewrite (wrap_small 8 v) by (simpl; lia). unfold brightness_mem in HQ.
  do 8 step_ec. ec_norm. step_ec. step_ec.
  - rewrite H in HQ. unfold kbd_bl_set_output. repeat step_ec. ec_norm.
    apply HQ. by rewrite Hmem3.
  - rewrite H in HQ. repeat step_ec. ec_norm. by apply HQ.
Qed.

Lemma brightness_get_wp (s : St) (Q : Z -> St -> Prop) :
  ready s ->
  (forall d', v_mem (view d') = mem s ->
    Q (if Z.testbit (mem s IT5570E_KBD_BL_GPIO_GATE) 6 then 0 else mem s IT5570E_KBD_BL_DCR)
      (set_hw d' s)) ->
  wp kbd_bl_brightness_get Q s.
Proof.
  intros Hr HQ. unfold kbd_bl_brightness_get, kbd_bl_output_gated.
  do 5 step_ec; rewrite gated_testbit in *; rewrite H in HQ.
  - step_ec. by apply HQ.
  - step_ec. ec_norm. by apply HQ.
Qed.

Lemma brightness_mem_frame v m a :
  a <> IT5570E_KBD_BL_DCR -> a <> EC_KBD_BL_SETPOINT -> a <> IT5570E_KBD_BL_GPIO_GATE ->
  brightness_mem v m a = m a.
Proof.
  intros H1 H2 H3. unfold brightness_mem.
  destruct (_ =? _); rewrite ?upd_other by done; done.
Qed.

(** While the auto-off timer is suspended, a brightness that is set is the one read back from
    the hardware, the stored setpoint and the last observed value; only bit 6 of the gate
    register and no other register changes. *)
Theorem brightness_set_then_get (s : St) (v : Z) :
  ready s -> 0 <= v < 256 ->
  mem s EC_KBD_BL_TIMER_SUSPEND = KBD_BL_TIMER_SUSPEND_MAGIC ->
  let s' := post (kbd_bl_brightness_set v) s in
  res kbd_bl_brightness_get s' = v /\ last_observed s' = v /\
  mem s' EC_KBD_BL_SETPOINT = v /\
  (forall n, 0 <= n < 8 -> n <> 6 ->
    Z.testbit (mem s' IT5570E_KBD_BL_GPIO_GATE) n =
    Z.testbit (mem s IT5570E_KBD_BL_GPIO_GATE) n) /\
  (forall a, a <> IT5570E_KBD_BL_DCR -> a <> EC_KBD_BL_SETPOINT ->
    a <> IT5570E_KBD_BL_GPIO_GATE -> mem s' a = mem s a).
Proof.
  intros Hr Hv Ht.
  start_post. apply brightness_set_wp; [done..|].
  intros d Hd. rewrite last_set_last, mem_set_last, mem_set_hw, Hd.
  assert (Hg : brightness_mem v (mem s) IT5570E_KBD_BL_GPIO_GATE =
    gate_byte (negb (v =? 0)) (mem s IT5570E_KBD_BL_GPIO_GATE)).
  { unfold brightness_mem. rewrite Ht. simpl. by rewrite upd_same. }
  split; [|split; [done|split; [|split]]].
  - apply (brightness_get_wp _ (fun r _ => r = v)); [auto using ready_set_last with ec|].
    intros d' _. rewrite mem_set_last, mem_set_hw, Hd, Hg, gate_bits by lia. simpl.
    destruct (Z.eqb_spec v 0) as [->|Hn]; simpl; [done|].
    unfold brightness_mem. rewrite Ht. simpl. by ec_norm.
  - unfold brightness_mem. rewrite Ht. simpl. by ec_norm.
  - intros n Hn H6. rewrite Hg, gate_bits by lia.
    by rewrite (proj2 (Z.eqb_neq n 6) H6).
  - apply brightness_mem_frame.
Qed.

(** While the auto-off timer runs, setting the brightness stores duty and setpoint but leaves
    the output gate alone; when the gate is closed the next poll then reports a hardware
    change to 0. *)
Theorem brightness_set_timer_active (s : St) (v : Z) :
  ready s -> 0 <= v < 256 ->
  mem s EC_KBD_BL_TIMER_SUSPEND <> KBD_BL_TIMER_SUSPEND_MAGIC ->
  let s' := post (kbd_bl_brightness_set v) s in
  mem s' IT5570E_KBD_BL_GPIO_GATE = mem s IT5570E_KBD_BL_GPIO_GATE /\
  mem s' IT5570E_KBD_BL_DCR = v /\ mem s' EC_KBD_BL_SETPOINT = v /\
  (Z.testbit (mem s IT5570E_KBD_BL_GPIO_GATE) 6 = true -> v <> 0 ->
    events (post kbd_bl_poll_work s') = EvQueueWork :: EvNotifyBrightness 0 :: events s').
Proof.
  intros Hr Hv Ht.
  start_post. apply brightness_set_wp; [done..|].
  intros d Hd. rewrite mem_set_last, mem_set_hw, Hd. unfold brightness_mem in *.
  rewrite (proj2 (Z.eqb_neq _ _) Ht) in *. ec_norm.
  split; [done|split; [done|split; [done|]]]. intros Hg Hv0.
  apply (wp_bind kbd_bl_brightness_get _ (fun _ s'' => events s'' = _)).
  apply brightness_get_wp; [auto using ready_set_last with ec|].
  intros d' Hd'. rewrite mem_set_last, mem_set_hw, Hd in *. ec_norm. rewrite Hg.
  unfold wp, res, post, bind, gets, modify, ret. rewrite last_set_hw, last_set_last.
  destruct (Z.eqb_spec 0 v); [lia|]. by destruct s.
Qed.

(** What is stored in the auto_off_timer attribute is what is shown. *)
Theorem auto_off_timer_roundtrip (s : St) (b : bool) (count : Z) :
  ready s ->
  let s' := post (auto_off_timer_store (inr b) count) s in
  res (auto_off_timer_store (inr b) count) s = count /\
  res auto_off_timer_show s' = (if b then 1 else 0).
Proof.
  intros Hr.
  apply (wp_bind (kbd_bl_set_auto_off b) _ (fun r s' => r = count /\
    res auto_off_timer_show s' = (if b then 1 else 0))).
  apply i2ec_write_wp; [done|done|]. intros d Hd. step_ec. split; [done|].
  apply (wp_bind kbd_bl_timer_suspended _ (fun r s' => r = (if b then 1 else 0))).
  apply wp_bind. step_ec. step_ec. step_ec. ec_norm. by destruct b.
Qed.

(** ** Fan and temperatures *)

Lemma lor_bytes l m : 0 <= l < 256 -> Z.lor (Z.shiftl m 8) l = 256 * m + l.
Proof.
  intros Hl. rewrite Z.shiftl_mul_pow2 by lia. change (2 ^ 8) with 256.
  rewrite <- Z.add_nocarry_lor; [lia|]. apply Z.bits_inj'. intros n Hn.
  rewrite Z.land_spec, Z.bits_0. change 256 with (2 ^ 8). destruct (Z_lt_le_dec n 8).
  - by rewrite Z.mul_pow2_bits_low by lia.
  - replace l with (l mod 2 ^ 8) by (apply Z.mod_small; lia).
    rewrite Z.mod_pow2_bits_high by lia. by rewrite andb_false_r.
Qed.

(** The speed is 0 for a tachometer count of 0 or 0xFFFF, and else the rounded-down quotient
    of the formula, between 28 and 1875000. *)
Theorem fan_rpm_range (s : St) :
  ready s ->
  0 <= mem s IT5570E_FAN_TACH_L < 256 -> 0 <= mem s IT5570E_FAN_TACH_M < 256 ->
  let rpm := res read_fan_rpm s in
  let tach := 256 * mem s IT5570E_FAN_TACH_M + mem s IT5570E_FAN_TACH_L in
  (tach = 0 \/ tach = 0xFFFF -> rpm = 0) /\
  (0 < tach < 0xFFFF -> 28 <= rpm <= 1875000 /\ rpm * tach <= 1875000 < (rpm + 1) * tach).
Proof.
  intros Hr Hl Hm.
  start_res. unfold read_fan_rpm. repeat step_ec. ec_norm. unfold tach_rpm.
  set (l := mem s IT5570E_FAN_TACH_L) in *. set (m := mem s IT5570E_FAN_TACH_M) in *.
  rewrite lor_bytes by done.
  set (t := 256 * m + l) in *. unfold TACH_RPM_CONSTANT. split.
  - intros [-> | ->]; done.
  - intros Ht. rewrite (proj2 (Z.eqb_neq t 0)), (proj2 (Z.eqb_neq t 0xFFFF)) by lia. simpl.
    rewrite Z.quot_div_nonneg by lia. pose proof (Z.div_mod 1875000 t ltac:(lia)).
    pose proof (Z.mod_pos_bound 1875000 t ltac:(lia)). nia.
Qed.

(** The charger temperature is ENODATA for a disabled channel or a glitched reading and else
    the linear formula of the raw value, between 0 and 91000 millidegrees. *)
Theorem charger_temp_range (s : St) :
  ready s ->
  0 <= mem s ADC_CH0_DATL < 256 -> 0 <= mem s ADC_CH0_DATM < 256 ->
  let raw := 256 * mem s ADC_CH0_DATM + mem s ADC_CH0_DATL in
  res charger_temp_get s =
    (if (mem s ADC_CH0_CTL =? 0) || (raw =? ADC_GLITCH) || (raw =? 0) || (raw =? 0xFFFF)
     then inl (- ENODATA) else inr (Z.max 0 (644 - raw) / 7 * 1000)) /\
  (forall t, res charger_temp_get s = inr t -> 0 <= t <= 91000).
Proof.
  intros Hr Hl Hm raw. assert (res charger_temp_get s =
    (if (mem s ADC_CH0_CTL =? 0) || (raw =? ADC_GLITCH) || (raw =? 0) || (raw =? 0xFFFF)
     then inl (- ENODATA) else inr (Z.max 0 (644 - raw) / 7 * 1000))) as E.
  { apply (wp_bind adc_read_raw _ (fun r _ => r = _)). unfold adc_read_raw.
    repeat step_ec; rewrite H; [done|]. ec_norm. rewrite lor_bytes by done. fold raw.
    destruct (raw =? ADC_GLITCH), (raw =? 0); simpl; [done..|].
    unfold charger_temp_of, ADC_ZERO_C_OFFSET, ADC_RAW_PER_DEGREE.
    destruct (raw =? 65535); [done|]. f_equal. f_equal.
    destruct (Z.ltb_spec 644 raw).
    - by rewrite Z.max_l by lia.
    - rewrite Z.max_r by lia. apply Z.quot_div_nonneg; lia. }
  split; [exact E|]. intros t. rewrite E. destruct (raw =? 0) eqn:H0.
  { by rewrite orb_true_r. }
  destruct (_ || _); [done|]. intros [= <-].
  assert (0 <= raw) by (unfold raw; lia). zbool.
  assert (Z.max 0 (644 - raw) / 7 <= 643 / 7) by (apply Z.div_le_mono; lia).
  pose proof (Z.div_pos (Z.max 0 (644 - raw)) 7 ltac:(lia) ltac:(lia)).
  change (643 / 7) with 91 in *. lia.
Qed.

(** ** Initialisation and error paths *)

Lemma chip_id_wp (s : St) (Q : bool -> St -> Prop) :
  ready s ->
  (forall d', v_mem (view d') = mem s ->
    Q (negb ((mem s IT5570E_ECHIPID1 =? IT5570E_ID1) &&
             (mem s IT5570E_ECHIPID2 =? IT5570E_ID2))) (set_hw d' s)) ->
  wp chip_id_mismatch Q s.
Proof.
  intros Hr HQ. unfold chip_id_mismatch. do 2 step_ec.
  destruct (mem s IT5570E_ECHIPID1 =? IT5570E_ID1); simpl in *.
  - repeat step_ec. ec_norm. by apply HQ.
  - step_ec. by apply HQ.
Qed.

(** Initialisation fails with EBUSY when the ports are taken and with ENODEV on another chip,
    marks the window available exactly on success, and leaves the EC memory and the lock
    alone. *)
Theorem i2ec_init_spec (s : St) :
  ready s -> pnpcfg_available s = false ->
  let r := res minibook_ec_i2ec_init s in
  let s' := post minibook_ec_i2ec_init s in
  let granted := fst (request_region (hw s)) in
  let it5570 := (mem s IT5570E_ECHIPID1 =? IT5570E_ID1) && (mem s IT5570E_ECHIPID2 =? IT5570E_ID2) in
  r = (if negb granted then - EBUSY else if it5570 then 0 else - ENODEV) /\
  pnpcfg_available s' = (r =? 0) /\ mem s' = mem s /\ ready s'.
Proof.
  intros Hr Hp r s' granted it5570. subst r s'.
  apply (wp_bind (io request_region) _ (fun r s' => r = _ /\ pnpcfg_available s' = (r =? 0) /\
    mem s' = mem s /\ ready s')).
  unfold wp at 1, res, post, io. pose proof (view_request (hw s)) as Hv. unfold granted.
  destruct (request_region (hw s)) as [ok d]. simpl in *.
  assert (Hmd : mem (set_hw d s) = mem s) by (by rewrite mem_set_hw, Hv).
  destruct ok; simpl; [|step_ec; destruct s; simpl in *; by rewrite Hp].
  assert (mem (set_pnpcfg true (set_hw d s)) = mem s) as Hm1 by (rewrite <- Hmd; by destruct s).
  assert (ready (set_pnpcfg true (set_hw d s))) as Hr1 by (by destruct s).
  do 2 step_ec. set (s1 := set_pnpcfg true (set_hw d s)) in *.
  assert (pnpcfg_available s1 = true) as Hp1 by (by destruct s). clearbody s1.
  step_ec. apply chip_id_wp; [done|]. intros d' Hd'. rewrite Hm1 in *.
  fold it5570. destruct it5570; simpl; repeat step_ec; unfold mem in *.
  - destruct s1; simpl in *. by rewrite Hd'.
  - unfold wp, res, post, io_, bind, modify, ret. destruct s1; simpl in *.
    by rewrite view_release, Hd'.
Qed.

(** When the SoC thermal zone cannot be registered, the error pointer stays in the device and
    removal unregisters it although probing succeeded. *)
Theorem soc_zone_error_kept (s : St) (e t : Z) (d1 d2 : D) :
  pnpcfg_available s = false -> charger_tz s = Null -> e < 0 ->
  soc_temp_get s = (inr t, set_hw d1 s) ->
  register_zone "minibook_soc" d1 = (e, d2) ->
  let s' := post minibook_ec_register_thermal s in
  res minibook_ec_register_thermal s = 0 /\ soc_tz s' = ErrPtr e /\
  events (post minibook_ec_unregister_thermal s') = EvUnregisterZone (ErrPtr e) :: events s.
Proof.
  intros Hp Hc He Ht Hz.
  assert (minibook_ec_register_thermal s = (0, set_soc_tz (ErrPtr e) (set_hw d2 s))) as E.
  { unfold minibook_ec_register_thermal, register_soc_zone, register_charger_zone, bind, io,
      modify, gets, ret. rewrite Ht, hw_set_hw, Hz.
    rewrite (proj2 (Z.ltb_lt e 0) He). destruct s; simpl in *. by rewrite Hp. }
  unfold res, post. rewrite E. by destruct s; simpl in *; subst.
Qed.

Theorem touchpad_store_then_show {WL : EcWindowLaws D} (s : St) (enable : bool) (count : Z) :
  0 <= count -> res (touchpad_enabled_store (inr enable) count) s = count ->
  let s' := post (touchpad_enabled_store (inr enable) count) s in
  match res touchpad_enabled_show s' with
  | inl e => e < 0
  | inr shown => shown = enable
  end.
Proof.
  intros Hc. unfold touchpad_enabled_store, touchpad_enabled_show, res, post, bind, io, ret.
  set (v := if enable then TPTL_ON else TPTL_OFF).
  pose proof (ec_write_win EC_REG_TPTL v (hw s)) as Hw.
  destruct (ec_write EC_REG_TPTL v (hw s)) as [r d]. simpl in *.
  destruct (Z.ltb_spec r 0) as [Hneg|Hpos]; [lia|]. intros _. specialize (Hw Hpos).
  rewrite hw_set_hw. pose proof (ec_read_win EC_REG_TPTL d) as Hrd.
  destruct (ec_read EC_REG_TPTL d) as [[rc b] d']. simpl in *.
  destruct (Z.ltb_spec rc 0); simpl; [done|]. rewrite Hrd, Hw by lia. by destruct enable.
Qed.

(** Only a true value performs the unlock write and nothing else; false or unparsable input
    changes nothing and returns an error. *)
Theorem bios_unlock_store_guard (s : St) (parsed : Z + bool) (count : Z) :
  (forall e, parsed = inl e -> e < 0) -> 0 <= count ->
  (parsed <> inr true -> post (bios_unlock_store parsed count) s = s /\
                         res (bios_unlock_store parsed count) s < 0) /\
  (parsed = inr true -> post (bios_unlock_store parsed count) s =
     set_hw (snd (ec_write EC_REG_UNLOCK UNLOCK_MAGIC (hw s))) s).
Proof.
  intros Hp Hc. split; intros H.
  - destruct parsed as [e|[|]]; [|done|done]. split; [done|]. by apply Hp.
  - subst parsed. unfold post, bios_unlock_store, bind, io, ret. by destruct (ec_write _ _ _).
Qed.
End Results.

(** ** Witnesses *)

Lemma i2ec_read_correct_witness :
  ready (sim_start 0) /\ res (minibook_ec_i2ec_read 0x2001) (sim_start 0) = 0x70.
Proof.
  split; [done|]. destruct (i2ec_read_correct (sim_start 0) 0x2001) as [E _]; [done|lia|].
  rewrite E. reflexivity.
Defined.

Lemma i2ec_write_correct_witness :
  mem (post (minibook_ec_i2ec_write 0x03E2 200) (sim_start 0)) 0x03E2 = 200 /\
  mem (post (minibook_ec_i2ec_write 0x03E2 200) (sim_start 0)) 0x2000 = 0x55.
Proof.
  destruct (i2ec_write_correct (sim_start 0) 0x03E2 200) as (E1 & E2 & _); [done|lia|].
  split; [exact E1|]. rewrite E2 by lia. reflexivity.
Defined.

Lemma brightness_set_then_get_witness :
  mem (sim_start 0) EC_KBD_BL_TIMER_SUSPEND = KBD_BL_TIMER_SUSPEND_MAGIC /\
  res kbd_bl_brightness_get (sim_start 0) = 0 /\
  res kbd_bl_brightness_get (post (kbd_bl_brightness_set 128) (sim_start 0)) = 128.
Proof.
  split; [reflexivity|]. split; [reflexivity|].
  destruct (brightness_set_then_get (sim_start 0) 128) as [E _]; [done|lia|reflexivity|].
  exact E.
Defined.

(** The backlight timer running and the gate closed by the firmware. *)
Definition sim_timer_on : minibook_ec sim :=
  post (kbd_bl_set_auto_off true) (sim_start 0).

Lemma brightness_set_timer_active_witness :
  events (post kbd_bl_poll_work (post (kbd_bl_brightness_set 50) sim_timer_on)) =
  [EvQueueWork; EvNotifyBrightness 0].
Proof.
  destruct (brightness_set_timer_active sim_timer_on 50) as (_ & _ & _ & E);
    [done|lia|discriminate|].
  rewrite E; [reflexivity|reflexivity|lia].
Defined.

Lemma auto_off_timer_roundtrip_witness :
  res auto_off_timer_show (post (auto_off_timer_store (inr true) 2) (sim_start 0)) = 1.
Proof. destruct (auto_off_timer_roundtrip (sim_start 0) true 2) as [_ E]; [done|exact E]. Defined.

Lemma fan_rpm_range_witness :
  28 <= res read_fan_rpm (sim_start 0) <= 1875000 /\ res read_fan_rpm (sim_start 0) = 3000.
Proof.
  split; [|reflexivity].
  destruct (fan_rpm_range (sim_start 0)) as [_ E]; [done|vm_compute; split; done..|].
  apply E. vm_compute. done.
Defined.

Lemma charger_temp_range_witness : res charger_temp_get (sim_start 0) = inr 49000.
Proof.
  destruct (charger_temp_range (sim_start 0)) as [E _]; [done|vm_compute; split; done..|].
  rewrite E. reflexivity.
Defined.

Lemma i2ec_init_spec_witness :
  res minibook_ec_i2ec_init (set_pnpcfg false (sim_start 0)) = 0 /\
  pnpcfg_available (post minibook_ec_i2ec_init (set_pnpcfg false (sim_start 0))) = true.
Proof.
  destruct (i2ec_init_spec (set_pnpcfg false (sim_start 0))) as (E1 & E2 & _); [done|done|].
  rewrite E2, E1. split; reflexivity.
Defined.

Lemma soc_zone_error_kept_witness :
  res minibook_ec_register_thermal (set_pnpcfg false (sim_start (-12))) = 0 /\
  soc_tz (post minibook_ec_register_thermal (set_pnpcfg false (sim_start (-12)))) = ErrPtr (-12).
Proof.
  destruct (soc_zone_error_kept (set_pnpcfg false (sim_start (-12))) (-12) 45000
    (hw (sim_start (-12))) (hw (sim_start (-12)))) as (E1 & E2 & _);
    [reflexivity|reflexivity|lia|reflexivity|reflexivity|].
  split; [exact E1|exact E2].
Defined.

Lemma touchpad_store_then_show_witness :
  res touchpad_enabled_show (post (touchpad_enabled_store (inr false) 2) (sim_start 0)) = inr false.
Proof.
  pose proof (touchpad_store_then_show (sim_start 0) false 2 ltac:(lia) eq_refl) as E.
  vm_compute in E |- *. exact (f_equal inr E).
Defined.

Lemma bios_unlock_store_guard_witness :
  post (bios_unlock_store (inr false) 2) (sim_start 0) = sim_start 0.
Proof.
  destruct (bios_unlock_store_guard (sim_start 0) (inr false) 2) as [E _]; [done|lia|].
  apply E. discriminate.
Defined.
