(* ===== verification/Floats.v ===== *)
(** * IEEE 754 arithmetic of the C code

    [float] and [double] values are [spec_float]s of the Standard Library; the
    operations below instantiate its executable specification at binary32 and
    binary64 (round to nearest even, no fused operations: the code is built for
    baseline x86-64, where [FLT_EVAL_METHOD] is 0). *)

From stdpp Require Import base list.
From Stdlib Require Import ZArith Lia QArith.
From Stdlib Require Import SpecFloat.
From S2P Require Import Prelude.

#[local] Open Scope Z_scope.

Definition float := spec_float.

(** ** Operations *)

Definition f32_add : float -> float -> float := SFadd 24 128.
Definition f32_sub : float -> float -> float := SFsub 24 128.
Definition f32_mul : float -> float -> float := SFmul 24 128.
Definition f32_div : float -> float -> float := SFdiv 24 128.
Definition f32_sqrt : float -> float := SFsqrt 24 128.

Definition f64_add : float -> float -> float := SFadd 53 1024.
Definition f64_sub : float -> float -> float := SFsub 53 1024.
Definition f64_mul : float -> float -> float := SFmul 53 1024.
Definition f64_div : float -> float -> float := SFdiv 53 1024.
Definition f64_sqrt : float -> float := SFsqrt 53 1024.

Definition f_neg : float -> float := SFopp.
Definition f_abs : float -> float := SFabs.

(** C comparisons: false as soon as an operand is a NaN ([f_ne]: true). *)
Definition f_lt (x y : float) : bool := SFltb x y.
Definition f_le (x y : float) : bool := SFleb x y.
Definition f_gt (x y : float) : bool := SFltb y x.
Definition f_ge (x y : float) : bool := SFleb y x.
Definition f_eq (x y : float) : bool := SFeqb x y.
Definition f_ne (x y : float) : bool := negb (SFeqb x y).

Definition not_nan (x : float) : bool := match x with S754_nan => false | _ => true end.

(** ** Conversions and constants *)

Definition f32_of_Z (n : Z) : float := binary_normalize 24 128 n 0 false.
Definition f64_of_Z (n : Z) : float := binary_normalize 53 1024 n 0 false.

Definition f64_of_f32 (x : float) : float :=
  match x with S754_finite s m e => binary_round 53 1024 s m e | _ => x end.
Definition f32_of_f64 (x : float) : float :=
  match x with S754_finite s m e => binary_round 24 128 s m e | _ => x end.

(** The decimal literal [p / q], correctly rounded. *)
Definition lit (prec emax : Z) (p q : positive) : float :=
  let '(m, e, l) := SFdiv_core_binary prec emax (Zpos p) 0 (Zpos q) 0 in
  binary_round_aux prec emax false m e l.
Definition f32_lit : positive -> positive -> float := lit 24 128.
Definition f64_lit : positive -> positive -> float := lit 53 1024.
Definition f_zero : float := S754_zero false.

(** The decimal number m * 10^e, correctly rounded. *)
Definition decimal (rnd : positive -> positive -> float) (neg : bool) (m e : Z) : float :=
  let x := match m with
           | Zpos p => rnd (p * Z.to_pos (10 ^ Z.max 0 e))%positive (Z.to_pos (10 ^ Z.max 0 (- e)))
           | _ => f_zero
           end in
  if neg then f_neg x else x.
Definition f32_decimal : bool -> Z -> Z -> float := decimal f32_lit.
Definition f64_decimal : bool -> Z -> Z -> float := decimal f64_lit.

(** The integer part (toward zero), when there is one. *)
Definition f_trunc (x : float) : option Z :=
  match x with
  | S754_zero _ => Some 0
  | S754_finite s m e =>
      let a := if 0 <=? e then Zpos m * 2 ^ e else Zpos m / 2 ^ (- e) in
      Some (if s then - a else a)
  | _ => None
  end.

(** Conversion to a signed [w]-bit integer; out of range and NaN give the most
    negative value, the x86-64 [cvttss2si]/[cvttsd2si] result (C leaves it
    undefined). *)
Definition f_to_int (w : Z) (x : float) : Z :=
  match f_trunc x with
  | Some z => if (- 2 ^ (w - 1) <=? z) && (z <? 2 ^ (w - 1)) then z else - 2 ^ (w - 1)
  | None => - 2 ^ (w - 1)
  end.

(** [round]: to the nearest integer, halves away from zero. *)
Definition f64_round (x : float) : float :=
  match x with
  | S754_finite s m e =>
      if 0 <=? e then x
      else f64_of_Z ((if s then Z.opp else id) ((Zpos m + 2 ^ (- e - 1)) / 2 ^ (- e)))
  | _ => x
  end.

(** The exact value of a finite float, as a fraction. *)
Definition f_rat (x : float) : option Q :=
  match x with
  | S754_zero _ => Some (0 # 1)
  | S754_finite s m e =>
      let n := if s then Zneg m else Zpos m in
      Some (if 0 <=? e then inject_Z (n * 2 ^ e) else Qmake n (Z.to_pos (2 ^ (- e))))
  | _ => None
  end.

(** ** The order of floats *)

(** A key that orders the non-NaN floats lexicographically. *)
Definition f_key (x : float) : Z * Z * Z :=
  match x with
  | S754_nan => (0, 0, 0)
  | S754_infinity s => (if s then -2 else 2, 0, 0)
  | S754_zero _ => (0, 0, 0)
  | S754_finite false m e => (1, e, Zpos m)
  | S754_finite true m e => (-1, - e, Zneg m)
  end.

Definition key_lt (a b : Z * Z * Z) : Prop :=
  let '(a1, a2, a3) := a in let '(b1, b2, b3) := b in
  a1 < b1 \/ (a1 = b1 /\ (a2 < b2 \/ (a2 = b2 /\ a3 < b3))).

Lemma compare_key x y :
  not_nan x = true -> not_nan y = true ->
  match SFcompare x y with
  | Some Lt => key_lt (f_key x) (f_key y)
  | Some Gt => key_lt (f_key y) (f_key x)
  | Some Eq => f_key x = f_key y
  | None => False
  end.
Proof.
  destruct x as [s|s| |s m e], y as [t|t| |t n f]; try done; intros _ _;
    repeat match goal with b : bool |- _ => destruct b end; simpl; try lia; try done.
  all: destruct (Z.compare_spec e f); subst; simpl; try lia.
  all: change (Pos.compare_cont Eq m n) with (Pos.compare m n);
    destruct (Pos.compare_spec m n); subst; simpl; try done; try lia.
Qed.

Lemma f_lt_key x y : not_nan x = true -> not_nan y = true ->
  f_lt x y = true <-> key_lt (f_key x) (f_key y).
Proof.
  intros Hx Hy. pose proof (compare_key x y Hx Hy) as H. unfold f_lt, SFltb.
  destruct (SFcompare x y) as [[]|]; [|done| |done]; (split; [done|]).
  - rewrite H. destruct (f_key y) as [[? ?] ?]. simpl. lia.
  - intros H'. destruct (f_key x) as [[? ?] ?], (f_key y) as [[? ?] ?]. simpl in *. lia.
Qed.

Lemma f_le_key x y : not_nan x = true -> not_nan y = true ->
  f_le x y = true <-> ~ key_lt (f_key y) (f_key x).
Proof.
  intros Hx Hy. pose proof (compare_key x y Hx Hy) as H. unfold f_le, SFleb.
  destruct (SFcompare x y) as [[]|]; [| | |done].
  - split; [|done]. intros _. rewrite H. destruct (f_key y) as [[? ?] ?]. simpl. lia.
  - split; [|done]. intros _ H'. destruct (f_key x) as [[? ?] ?], (f_key y) as [[? ?] ?].
    simpl in *. lia.
  - split; [done|]. by intros [].
Qed.

(** Comparison of non-NaN floats is a total preorder. *)
Lemma f_lt_ge x y : not_nan x = true -> not_nan y = true -> f_lt x y = negb (f_le y x).
Proof.
  intros Hx Hy. pose proof (f_lt_key x y Hx Hy) as H1. pose proof (f_le_key y x Hy Hx) as H2.
  destruct (f_lt x y), (f_le y x); simpl; try done; exfalso; tauto || (apply H2; [done|tauto]).
Qed.

Lemma f_le_trans x y z :
  not_nan y = true -> f_le x y = true -> f_le y z = true -> f_le x z = true.
Proof.
  intros Hy H1 H2.
  assert (not_nan x = true) as Hx by (by destruct x).
  assert (not_nan z = true) as Hz by (by destruct z, y).
  apply f_le_key in H1, H2; [|done..]. apply f_le_key; [done..|].
  destruct (f_key x) as [[? ?] ?], (f_key y) as [[? ?] ?], (f_key z) as [[? ?] ?].
  unfold key_lt in *. lia.
Qed.

Lemma f_lt_le x y : f_lt x y = true -> f_le x y = true.
Proof. unfold f_lt, f_le, SFltb, SFleb. by destruct (SFcompare x y) as [[]|]. Qed.

Lemma f_le_refl x : not_nan x = true -> f_le x x = true.
Proof.
  intros Hx. apply f_le_key; [done..|]. destruct (f_key x) as [[? ?] ?]. unfold key_lt. lia.
Qed.

(** What a failed [>] says, when no NaN is involved. *)
Lemma f_lt_le_trans x y z : not_nan x = true -> not_nan y = true -> not_nan z = true ->
  f_lt x y = true -> f_le y z = true -> f_lt x z = true.
Proof.
  intros Hx Hy Hz. rewrite !f_lt_key, f_le_key by done.
  destruct (f_key x) as [[? ?] ?], (f_key y) as [[? ?] ?], (f_key z) as [[? ?] ?].
  unfold key_lt. lia.
Qed.

Lemma f_lt_ne x y : f_lt x y = true -> f_ne x y = true.
Proof. unfold f_lt, f_ne, SFltb, SFeqb. by destruct (SFcompare x y) as [[]|]. Qed.

Lemma f_gt_false x y : not_nan x = true -> not_nan y = true -> f_gt x y = false -> f_le x y = true.
Proof.
  intros Hx Hy. unfold f_gt. fold (f_lt y x). rewrite f_lt_ge by done.
  by destruct (f_le x y).
Qed.

(** ** Exact rounding *)

Lemma digits2_shift m k :
  Zpos (digits2_pos (Pos.iter xO m k)) = Zpos (digits2_pos m) + Zpos k.
Proof.
  induction k as [|k IH] using Pos.peano_ind; simpl; [lia|].
  rewrite Pos.iter_succ. simpl. lia.
Qed.

Lemma iter_xO_val m k : Zpos (Pos.iter xO m k) = Zpos m * 2 ^ Zpos k.
Proof.
  induction k as [|k IH] using Pos.peano_ind; [simpl; lia|].
  rewrite Pos.iter_succ, Pos2Z.inj_xO, IH, Pos2Z.inj_succ, Z.pow_succ_r by lia. lia.
Qed.

Lemma digits2_bound m : 2 ^ (Zpos (digits2_pos m) - 1) <= Zpos m < 2 ^ Zpos (digits2_pos m).
Proof.
  induction m as [m IH|m IH|]; simpl digits2_pos; [..|simpl; lia];
    rewrite Pos2Z.inj_succ; replace (Z.succ (Zpos (digits2_pos m)) - 1)
      with (Z.succ (Zpos (digits2_pos m) - 1)) by lia;
    rewrite !Z.pow_succ_r by lia; lia.
Qed.

Lemma digits2_le m p : 0 <= p -> Zpos m < 2 ^ p -> Zpos (digits2_pos m) <= p.
Proof.
  intros Hp Hm. pose proof (digits2_bound m) as [Hl _].
  destruct (Z_le_gt_dec (Zpos (digits2_pos m)) p) as [|Hgt]; [done|].
  assert (2 ^ p <= 2 ^ (Zpos (digits2_pos m) - 1)) by (apply Z.pow_le_mono_r; lia). lia.
Qed.

(** [m * 2^k], with [k >= 0]. *)
Definition shl (m : positive) (k : Z) : positive :=
  match k with Zpos p => Pos.iter xO m p | _ => m end.

Lemma shl_val m k : 0 <= k -> Zpos (shl m k) = Zpos m * 2 ^ k.
Proof. intros Hk. destruct k as [|p|p]; simpl shl; [simpl; lia|apply iter_xO_val|lia]. Qed.

Lemma shl_digits m k : 0 <= k -> Zpos (digits2_pos (shl m k)) = Zpos (digits2_pos m) + k.
Proof. intros Hk. destruct k as [|p|p]; simpl shl; [lia|apply digits2_shift|lia]. Qed.

(** The canonical float of value [m * 2^e]. *)
Definition norm (prec : Z) (s : bool) (m : positive) (e : Z) : float :=
  let d := Zpos (digits2_pos m) in S754_finite s (shl m (prec - d)) (e + d - prec).

Section Exact.
Variables prec emax : Z.
Hypothesis Hprec : 0 < prec.

Lemma shr_zero_bits m k :
  iter_pos shr_1 k (Build_shr_record (Zpos (Pos.iter xO m k)) false false) =
  Build_shr_record (Zpos m) false false.
Proof.
  revert m. induction k as [k IH|k IH|]; intros m; simpl; [|by rewrite !IH|done].
  by rewrite !IH.
Qed.

Lemma round_aux_canonical s m e :
  Zpos (digits2_pos m) = prec -> emin prec emax <= e <= emax - prec ->
  binary_round_aux prec emax s (Zpos m) e loc_Exact = S754_finite s m e.
Proof.
  intros Hd He. unfold binary_round_aux, shr_fexp, fexp, shr. simpl. rewrite Hd.
  rewrite Z.max_l by lia. replace (prec + e - prec - e) with 0 by lia. simpl.
  rewrite Hd. rewrite Z.max_l by lia. replace (prec + e - prec - e) with 0 by lia. simpl.
  by rewrite (proj2 (Z.leb_le e (emax - prec))) by lia.
Qed.

Lemma round_aux_shifted s m n e :
  Zpos (digits2_pos m) = prec -> emin prec emax <= e + Zpos n <= emax - prec ->
  binary_round_aux prec emax s (Zpos (Pos.iter xO m n)) e loc_Exact =
  S754_finite s m (e + Zpos n).
Proof.
  intros Hd He. rewrite <- (round_aux_canonical s m (e + Zpos n)) by done.
  unfold binary_round_aux at 1, shr_fexp at 1, fexp at 1. simpl Zdigits2.
  rewrite digits2_shift, Hd, Z.max_l by lia.
  replace (prec + Zpos n + e - prec - e) with (Zpos n) by lia. simpl shr.
  rewrite shr_zero_bits. simpl round_nearest_even.
  unfold binary_round_aux, shr_fexp, fexp, shr. simpl. rewrite Hd.
  rewrite Z.max_l by lia. replace (prec + (e + Zpos n) - prec - (e + Zpos n)) with 0 by lia.
  simpl. rewrite Hd. rewrite Z.max_l by lia.
  by replace (prec + (e + Zpos n) - prec - (e + Zpos n)) with 0 by lia.
Qed.

Lemma round_exact s m e :
  Zpos (digits2_pos m) <= prec ->
  emin prec emax <= e + Zpos (digits2_pos m) - prec <= emax - prec ->
  binary_round prec emax s m e = norm prec s m e.
Proof.
  intros Hd He. unfold binary_round, fexp, norm. rewrite Z.max_l by lia.
  replace (Zpos (digits2_pos m) + e - prec) with (e + Zpos (digits2_pos m) - prec) by lia.
  set (d := Zpos (digits2_pos m)) in *.
  assert (shl_align m e (e + d - prec) = (shl m (prec - d), e + d - prec)) as ->.
  { unfold shl_align. replace (e + d - prec - e) with (- (prec - d)) by lia.
    destruct (prec - d) as [|p|p] eqn:Hp; simpl; [|done|lia]. f_equal. lia. }
  apply round_aux_canonical; [|done]. rewrite shl_digits by lia. fold d. lia.
Qed.
End Exact.

(** The float nearest to [n]: exact below the precision. *)
Definition norm_Z (prec : Z) (n : Z) : float :=
  match n with
  | Z0 => S754_zero false
  | Zpos m => norm prec false m 0
  | Zneg m => norm prec true m 0
  end.

Lemma normalize_exact prec emax n :
  0 < prec -> emin prec emax <= 1 - prec -> prec <= emax -> Z.abs n < 2 ^ prec ->
  binary_normalize prec emax n 0 false = norm_Z prec n.
Proof.
  intros Hp He Hm Hn. destruct n as [|m|m]; simpl; [done|..];
    pose proof (digits2_le m prec ltac:(lia) ltac:(simpl in Hn; lia));
    apply round_exact; lia.
Qed.

Lemma f32_of_Z_norm n : Z.abs n < 2 ^ 24 -> f32_of_Z n = norm_Z 24 n.
Proof. intros H. apply normalize_exact; [lia|vm_compute; done|lia|done]. Qed.

Lemma f64_of_Z_norm n : Z.abs n < 2 ^ 53 -> f64_of_Z n = norm_Z 53 n.
Proof. intros H. apply normalize_exact; [lia|vm_compute; done|lia|done]. Qed.

Lemma trunc_norm_Z prec n : 0 < prec -> Z.abs n < 2 ^ prec -> f_trunc (norm_Z prec n) = Some n.
Proof.
  intros Hp Hn. destruct n as [|m|m]; [done|..]; unfold norm_Z, norm, f_trunc;
    pose proof (digits2_le m prec ltac:(lia) ltac:(simpl in Hn; lia)) as Hd;
    set (d := Zpos (digits2_pos m)) in *; rewrite shl_val by lia.
  all: destruct (Z.leb_spec 0 (0 + d - prec)).
  all: repeat f_equal; try (replace (0 + d - prec) with 0 by lia; replace (prec - d) with 0 by lia; lia).
  all: replace (- (0 + d - prec)) with (prec - d) by lia; rewrite Z.div_mul; lia.
Qed.

Lemma f32_of_Z_trunc n : Z.abs n < 2 ^ 24 -> f_trunc (f32_of_Z n) = Some n.
Proof. intros H. rewrite f32_of_Z_norm by done. apply trunc_norm_Z; lia. Qed.

Lemma f64_of_Z_trunc n : Z.abs n < 2 ^ 53 -> f_trunc (f64_of_Z n) = Some n.
Proof. intros H. rewrite f64_of_Z_norm by done. apply trunc_norm_Z; lia. Qed.

Lemma f_to_int_of w x n : f_trunc x = Some n -> - 2 ^ (w - 1) <= n < 2 ^ (w - 1) ->
  f_to_int w x = n.
Proof.
  intros Hx Hn. unfold f_to_int. rewrite Hx.
  by rewrite (proj2 (Z.leb_le _ _)), (proj2 (Z.ltb_lt _ _)) by lia.
Qed.

Lemma not_nan_norm_Z prec n : not_nan (norm_Z prec n) = true.
Proof. by destruct n. Qed.

(** Adding a positive zero changes no finite value and no infinity. *)
Lemma f32_add_zero x : x <> S754_zero true -> f32_add x f_zero = x.
Proof. destruct x as [[]|[]| |]; try done. Qed.

Example lit_scale : f32_lit 24414063 100000000000 = S754_finite false 8388608 (-35).
Proof. vm_compute. reflexivity. Qed.
