(* ===== verification/Drivers.v ===== *)
(** * The driver interface of iio-sensor-proxy (drivers.h, drivers.c)

    Sensor kinds, the readings drivers hand to the proxy, the [SensorDriver]
    operations and the wrappers [driver_discover], [driver_open],
    [driver_set_polling] and [driver_close].  GUdev is an interface: the class
    [Udev] lists the queries the code makes on a device. *)

From stdpp Require Import base list strings.
From Stdlib Require Import ZArith Lia.
From S2P Require Import Prelude Floats.

#[local] Open Scope Z_scope.
#[local] Open Scope prog_scope.

(** ** Data *)

Inductive DriverType :=
  DRIVER_TYPE_ACCEL | DRIVER_TYPE_LIGHT | DRIVER_TYPE_COMPASS | DRIVER_TYPE_PROXIMITY.

#[export] Instance DriverType_eq_dec : EqDecision DriverType.
Proof. solve_decision. Defined.

Definition all_types : list DriverType :=
  [DRIVER_TYPE_ACCEL; DRIVER_TYPE_LIGHT; DRIVER_TYPE_COMPASS; DRIVER_TYPE_PROXIMITY].

Definition PROXIMITY_NEAR_ERROR := -1.
Definition PROXIMITY_NEAR_FALSE := 0.
Definition PROXIMITY_NEAR_TRUE := 1.

(** accel-scale.h *)
Record AccelScale := { scale_x : float; scale_y : float; scale_z : float }.

Record AccelReadings := {
  accel_x : Z; accel_y : Z; accel_z : Z; accel_scale : AccelScale
}.

(** One constructor per readings struct. *)
Inductive Readings :=
  | Accel (r : AccelReadings)
  | Light (level : float) (uses_lux : bool)
  | Compass (heading : float)
  | Proximity (is_near : Z).

(** Readings of a type. *)
Definition reading_of (t : DriverType) (r : Readings) : bool :=
  match t, r with
  | DRIVER_TYPE_ACCEL, Accel _ | DRIVER_TYPE_LIGHT, Light _ _
  | DRIVER_TYPE_COMPASS, Compass _ | DRIVER_TYPE_PROXIMITY, Proximity _ => true
  | _, _ => false
  end.

(** ** GUdev *)

Class Udev (Dev : Type) := {
  sysfs_path : Dev -> option string;
  udev_property : Dev -> string -> option string;
  sysfs_attr : Dev -> string -> option string;
  sysfs_attr_as_double : Dev -> string -> float;
  udev_name : Dev -> string
}.

(** ** accel-scale.c *)

Definition f64_one : float := Eval vm_compute in f64_lit 1 1.

(** The scale is left alone when [value] is zero ([g_return_if_fail]). *)
Definition set_accel_scale (scale : AccelScale) (value : float) : AccelScale :=
  if f_ne value f_zero then Build_AccelScale value value value else scale.

Definition reset_accel_scale (scale : AccelScale) : AccelScale := set_accel_scale scale f64_one.

Definition copy_accel_scale (_ source : AccelScale) : AccelScale :=
  Build_AccelScale (scale_x source) (scale_y source) (scale_z source).

(** ** accel-attributes.c *)

Inductive AccelLocation := ACCEL_LOCATION_DISPLAY | ACCEL_LOCATION_BASE.

#[export] Instance AccelLocation_eq_dec : EqDecision AccelLocation.
Proof. solve_decision. Defined.

Definition accel_location_to_string (l : AccelLocation) : string :=
  match l with ACCEL_LOCATION_DISPLAY => "display" | ACCEL_LOCATION_BASE => "base" end.

(** [None]: the function returned FALSE. *)
Definition parse_accel_label (location : option string) : option AccelLocation :=
  match location with
  | None | Some EmptyString => None
  | Some s =>
      if String.eqb s "accel-base" then Some ACCEL_LOCATION_BASE
      else if String.eqb s "accel-display" then Some ACCEL_LOCATION_DISPLAY
      else None
  end.

Definition parse_accel_location (location : option string) : option AccelLocation :=
  match location with
  | None => Some ACCEL_LOCATION_DISPLAY
  | Some s =>
      if String.eqb s "" || String.eqb s "display" || String.eqb s "lid"
      then Some ACCEL_LOCATION_DISPLAY
      else if String.eqb s "base" then Some ACCEL_LOCATION_BASE
      else None
  end.

Section Devices.
Context {Dev : Type} `{U : Udev Dev}.

Definition setup_accel_location (device : Dev) : AccelLocation :=
  let try_ (src : option string) (parse : option string -> option AccelLocation) :=
    match src with Some s => parse (Some s) | None => None end in
  match try_ (udev_property device "ACCEL_LOCATION") parse_accel_location with
  | Some l => l
  | None =>
      match try_ (sysfs_attr device "label") parse_accel_label with
      | Some l => l
      | None =>
          match try_ (sysfs_attr device "location") parse_accel_location with
          | Some l => l
          | None => ACCEL_LOCATION_DISPLAY
          end
      end
  end.

Definition get_accel_scale (device : Dev) (s : AccelScale) : AccelScale :=
  let attr := sysfs_attr_as_double device in
  let fallback (s : AccelScale) :=
    let scale := attr "in_accel_scale" in
    if f_ne scale f_zero then set_accel_scale s scale
    else
      let scale := attr "scale" in
      if f_ne scale f_zero then set_accel_scale s scale else reset_accel_scale s in
  let scale := attr "in_accel_x_scale" in
  if f_ne scale f_zero then
    let v := Build_AccelScale scale (attr "in_accel_y_scale") (attr "in_accel_z_scale") in
    if f_ne (scale_y v) f_zero && f_ne (scale_z v) f_zero then v else fallback v
  else fallback s.

(** ** drivers.c

    [g_strsplit] on blanks is GLib's. *)
Definition drv_check_udev_sensor_type (g_strsplit : string -> string -> list string)
    (device : Dev) (match_ : string) : bool :=
  match udev_property device "IIO_SENSOR_PROXY_TYPE" with
  | None => false
  | Some attr => existsb (String.eqb match_) (g_strsplit attr " ")
  end.

(** ** drivers.h: a driver, its operations over the driver's world [W]

    [open] returns the private data of the device; [set_polling] returns the
    readings it hands to the callback, in order. *)
Record SensorDriver (W Priv : Type) := {
  drv_type : DriverType;
  discover : Dev -> M W bool;
  open : Dev -> M W (option Priv);
  set_polling : Priv -> bool -> M W (Priv * list Readings);
  close : Priv -> M W unit
}.
#[global] Arguments drv_type {W Priv}. #[global] Arguments discover {W Priv}.
#[global] Arguments open {W Priv}. #[global] Arguments set_polling {W Priv}.
#[global] Arguments close {W Priv}.

Section Wrappers.
Context {W Priv : Type}.

Definition driver_discover (driver : SensorDriver W Priv) (device : Dev) : M W bool :=
  ok <- discover driver device ;;
  if negb ok then ret false
  else if bool_decide (drv_type driver = DRIVER_TYPE_ACCEL)
  then ret (bool_decide (setup_accel_location device = ACCEL_LOCATION_DISPLAY))
  else ret true.

Definition driver_open (driver : SensorDriver W Priv) (device : Dev) : M W (option Priv) :=
  open driver device.

Definition driver_set_polling (driver : SensorDriver W Priv) (p : Priv) (state : bool) :
    M W (Priv * list Readings) :=
  set_polling driver p state.

(** The readings a driver emits while it stops are delivered too. *)
Definition driver_close (driver : SensorDriver W Priv) (p : Priv) : M W (list Readings) :=
  r <- driver_set_polling driver p false ;;
  close driver (fst r) ;;;
  ret (snd r).
End Wrappers.
End Devices.

(** ** Theorems *)

Lemma set_accel_scale_nonzero s v : f_ne v f_zero = true ->
  set_accel_scale s v = Build_AccelScale v v v.
Proof. intros H. unfold set_accel_scale. by rewrite H. Qed.

(** A label names a location exactly when it prints back to it. *)
Theorem parse_accel_location_print l :
  parse_accel_location (Some (accel_location_to_string l)) = Some l.
Proof. by destruct l. Qed.

Section Attributes.
Context {Dev : Type} `{U : Udev Dev}.

(** Whatever sysfs holds, the scale found has no zero component. *)
Theorem get_accel_scale_nonzero (device : Dev) (s : AccelScale) :
  let r := get_accel_scale device s in
  f_ne (scale_x r) f_zero = true /\ f_ne (scale_y r) f_zero = true /\
  f_ne (scale_z r) f_zero = true.
Proof.
  unfold get_accel_scale.
  assert (Hf : forall s, let r := (if f_ne (sysfs_attr_as_double device "in_accel_scale") f_zero
      then set_accel_scale s (sysfs_attr_as_double device "in_accel_scale")
      else if f_ne (sysfs_attr_as_double device "scale") f_zero
      then set_accel_scale s (sysfs_attr_as_double device "scale")
      else reset_accel_scale s) in
    f_ne (scale_x r) f_zero = true /\ f_ne (scale_y r) f_zero = true /\
    f_ne (scale_z r) f_zero = true).
  { intros t. destruct (f_ne (sysfs_attr_as_double device "in_accel_scale") f_zero) eqn:?;
      [by rewrite set_accel_scale_nonzero|].
    destruct (f_ne (sysfs_attr_as_double device "scale") f_zero) eqn:?;
      [by rewrite set_accel_scale_nonzero|].
    unfold reset_accel_scale. by rewrite set_accel_scale_nonzero. }
  destruct (f_ne (sysfs_attr_as_double device "in_accel_x_scale") f_zero) eqn:Hx; [|apply Hf].
  simpl scale_y. simpl scale_z. destruct (_ && _) eqn:Hyz; [|apply Hf].
  apply andb_true_iff in Hyz as [Hy Hz]. done.
Qed.

(** An accelerometer that udev or sysfs places in the base is never used. *)
Theorem driver_discover_base {W Priv} (driver : SensorDriver W Priv) (device : Dev) (w : W) :
  drv_type driver = DRIVER_TYPE_ACCEL ->
  setup_accel_location device = ACCEL_LOCATION_BASE ->
  res (driver_discover driver device) w = false.
Proof.
  intros Ht Hl. unfold res, driver_discover, bind. destruct (discover driver device w) as [b w'].
  destruct b; simpl; [|done]. rewrite bool_decide_true by done. by rewrite Hl.
Qed.
End Attributes.
