(* ===== verification/MountMatrix.v ===== *)
(** * Mount matrices (accel-mount-matrix.c) *)

From stdpp Require Import base list strings.
From Stdlib Require Import ZArith Lia SpecFloat.
From S2P Require Import Prelude Floats Drivers.

#[local] Open Scope Z_scope.

(** Three [float]s. *)
Record AccelVec3 := Vec { vx : float; vy : float; vz : float }.

Definition f32_one : float := Eval vm_compute in f32_lit 1 1.

Definition id_matrix : list AccelVec3 :=
  [Vec f32_one f_zero f_zero; Vec f_zero f32_one f_zero; Vec f_zero f_zero f32_one].

Definition get_id_matrix : list AccelVec3 := id_matrix.

Section Parse.
(** GLib: at most [n] pieces of [s] cut at [delim], the value a string
    starts with. *)
Variable g_strsplit : string -> string -> nat -> list string.
Variable g_ascii_strtod : string -> float.

(** [None] when fewer than [num_tokens] pieces come out. *)
Definition strsplit_num_tokens (s delimiter : string) (num_tokens : nat) : option (list string) :=
  let elems := g_strsplit s delimiter num_tokens in
  if (length elems <? num_tokens)%nat then None else Some elems.

(** The three components of an axis, narrowed to [float]. *)
Definition parse_axis (axis : string) : option AccelVec3 :=
  match strsplit_num_tokens axis "," 3 with
  | Some (e0 :: e1 :: e2 :: _) =>
      Some (Vec (f32_of_f64 (g_ascii_strtod e0)) (f32_of_f64 (g_ascii_strtod e1))
                (f32_of_f64 (g_ascii_strtod e2)))
  | _ => None
  end.

Fixpoint parse_axes (axes : list string) : option (list AccelVec3) :=
  match axes with
  | [] => Some []
  | a :: axes' =>
      match parse_axis a with
      | None => None
      | Some v => match parse_axes axes' with None => None | Some vs => Some (v :: vs) end
      end
  end.

Definition all_zeroes (v : AccelVec3) : bool :=
  f_eq (vx v) f_zero && f_eq (vy v) f_zero && f_eq (vz v) f_zero.

(** [None]: the function returned FALSE. *)
Definition parse_mount_matrix (mtx : option string) : option (list AccelVec3) :=
  match mtx with
  | None | Some EmptyString => Some get_id_matrix
  | Some s =>
      match strsplit_num_tokens s ";" 3 with
      | None => None
      | Some axis =>
          match parse_axes (take 3 axis) with
          | None => None
          | Some ret_ => if existsb all_zeroes ret_ then None else Some ret_
          end
      end
  end.

(** The first source that is present and parses; the identity otherwise. *)
Fixpoint first_matrix (sources : list (option string)) : list AccelVec3 :=
  match sources with
  | [] => get_id_matrix
  | None :: rest => first_matrix rest
  | Some s :: rest =>
      match parse_mount_matrix (Some s) with
      | Some m => m
      | None => first_matrix rest
      end
  end.

Definition setup_mount_matrix {Dev} `{U : Udev Dev} (device : Dev) : list AccelVec3 :=
  first_matrix
    [udev_property device "ACCEL_MOUNT_MATRIX"; sysfs_attr device "mount_matrix";
     sysfs_attr device "in_accel_mount_matrix"; sysfs_attr device "in_mount_matrix"].
End Parse.

(** One row of the product, in the code's evaluation order. *)
Definition mount_row (row accel : AccelVec3) : float :=
  f32_add (f32_add (f32_mul (vx accel) (vx row)) (f32_mul (vy accel) (vy row)))
          (f32_mul (vz accel) (vz row)).

(** [vecs] has three rows. *)
Definition apply_mount_matrix (vecs : list AccelVec3) (accel : AccelVec3) : AccelVec3 :=
  match vecs with
  | v0 :: v1 :: v2 :: _ => Vec (mount_row v0 accel) (mount_row v1 accel) (mount_row v2 accel)
  | _ => accel
  end.

(** Raw integer readings through the matrix and back to [int], as the polling
    drivers do ([tmp.x = accel_x; apply_mount_matrix; readings.accel_x = tmp.x]). *)
Definition mount_readings (vecs : list AccelVec3) (x y z : Z) : Z * Z * Z :=
  let tmp := apply_mount_matrix vecs (Vec (f32_of_Z x) (f32_of_Z y) (f32_of_Z z)) in
  (f_to_int 32 (vx tmp), f_to_int 32 (vy tmp), f_to_int 32 (vz tmp)).

(** ** Theorems *)

(** A valid matrix: three rows, none of them zero. *)
Definition matrix_ok (m : list AccelVec3) : Prop :=
  length m = 3%nat /\ forall v, v ∈ m -> all_zeroes v = false.

Lemma id_matrix_ok : matrix_ok id_matrix.
Proof.
  split; [done|]. unfold id_matrix. intros v Hv.
  repeat (apply elem_of_cons in Hv as [->|Hv]; [vm_compute; reflexivity|]).
  by apply elem_of_nil in Hv.
Qed.

Section ParseTheorems.
Variable g_strsplit : string -> string -> nat -> list string.
Variable g_ascii_strtod : string -> float.
Abbreviation parse := (parse_mount_matrix g_strsplit g_ascii_strtod).

Lemma parse_axes_length l m : parse_axes g_strsplit g_ascii_strtod l = Some m -> length m = length l.
Proof.
  revert m. induction l as [|a l IH]; intros m; simpl; [by intros [= <-]|].
  destruct (parse_axis _ _ a); [|done]. destruct (parse_axes _ _ l); [|done].
  intros [= <-]. simpl. by rewrite (IH l0).
Qed.

Lemma parse_mount_matrix_valid s m : parse s = Some m -> matrix_ok m.
Proof.
  unfold parse_mount_matrix. destruct s as [[|c s]|]; [intros [= <-]; apply id_matrix_ok| |
    intros [= <-]; apply id_matrix_ok].
  unfold strsplit_num_tokens. destruct (_ <? 3)%nat eqn:Hl; [done|].
  destruct (parse_axes _ _ _) as [r|] eqn:Hp; [|done].
  destruct (existsb all_zeroes r) eqn:Hz; [done|]. intros [= <-].
  split.
  - rewrite (parse_axes_length _ _ Hp), length_take. apply Nat.ltb_ge in Hl. lia.
  - intros v Hv. destruct (all_zeroes v) eqn:Hv0; [|done].
    assert (existsb all_zeroes r = true) as E; [|by rewrite E in Hz].
    apply existsb_exists. exists v. split; [by apply list_elem_of_In|done].
Qed.

(** Whatever udev and sysfs say, the matrix in use is valid; the sources are
    tried in order and a source that does not parse is skipped. *)
Theorem setup_mount_matrix_valid {Dev} `{U : Udev Dev} (device : Dev) :
  matrix_ok (setup_mount_matrix g_strsplit g_ascii_strtod device).
Proof.
  unfold setup_mount_matrix. generalize [udev_property device "ACCEL_MOUNT_MATRIX";
    sysfs_attr device "mount_matrix"; sysfs_attr device "in_accel_mount_matrix";
    sysfs_attr device "in_mount_matrix"] as l.
  induction l as [|[s|] l IH]; cbn [first_matrix]; [apply id_matrix_ok| |exact IH].
  destruct (parse (Some s)) as [m|] eqn:Hp; [by eapply parse_mount_matrix_valid|exact IH].
Qed.
End ParseTheorems.

(** ** The identity matrix is exact on raw readings *)

Lemma f32_mul_one n : Z.abs n < 2 ^ 24 -> f32_mul (norm_Z 24 n) f32_one = norm_Z 24 n.
Proof.
  intros Hn. destruct n as [|m|m]; [done|..];
    pose proof (digits2_le m 24 ltac:(lia) ltac:(simpl in Hn; lia)) as Hd;
    unfold norm_Z, norm, f32_mul, f32_one, SFmul; set (d := Zpos (digits2_pos m)) in *.
  all: replace (shl m (24 - d) * 8388608)%positive with (Pos.iter xO (shl m (24 - d)) 23) by
      (apply Pos2Z.inj; rewrite iter_xO_val, Pos2Z.inj_mul; lia).
  all: rewrite xorb_false_r; rewrite round_aux_shifted;
    [f_equal; lia|rewrite shl_digits by lia; fold d; lia|].
  all: unfold emin; lia.
Qed.

Lemma f32_mul_zero n : exists s, f32_mul (norm_Z 24 n) f_zero = S754_zero s.
Proof. destruct n; simpl; eauto. Qed.

Lemma f32_zero_mul_trunc x s : f_trunc (f32_add (S754_zero s) x) = f_trunc x.
Proof. by destruct x as [[]|[]| |], s. Qed.

Lemma f32_add_zero_trunc x s : f_trunc (f32_add x (S754_zero s)) = f_trunc x.
Proof. by destruct x as [[]|[]| |], s. Qed.

Lemma f32_zero_add_zero s t : f32_add (S754_zero s) (S754_zero t) = S754_zero (s && t).
Proof. by destruct s, t. Qed.

(** With the identity matrix, every raw reading of at most 24 bits comes out unchanged. *)
Theorem mount_readings_id (x y z : Z) :
  Z.abs x < 2 ^ 24 -> Z.abs y < 2 ^ 24 -> Z.abs z < 2 ^ 24 ->
  mount_readings id_matrix x y z = (x, y, z).
Proof.
  intros Hx Hy Hz. unfold mount_readings, id_matrix, apply_mount_matrix, mount_row.
  rewrite !f32_of_Z_norm by done. simpl vx. simpl vy. simpl vz.
  rewrite !f32_mul_one by done.
  destruct (f32_mul_zero x) as [sx ->], (f32_mul_zero y) as [sy ->], (f32_mul_zero z) as [sz ->].
  f_equal; [f_equal|]; apply f_to_int_of; try lia.
  - rewrite !f32_add_zero_trunc. apply trunc_norm_Z; lia.
  - rewrite f32_add_zero_trunc, f32_zero_mul_trunc. apply trunc_norm_Z; lia.
  - rewrite f32_zero_add_zero, f32_zero_mul_trunc. apply trunc_norm_Z; lia.
Qed.

Lemma mount_readings_id_witness : mount_readings id_matrix 256 (-1000) 16777215 = (256, -1000, 16777215).
Proof. apply mount_readings_id; vm_compute; reflexivity. Defined.
