(* ===== verification/Os.v ===== *)
(** * The operating system as the sensor drivers see it

    A driver talks to the kernel, GLib's main loop and its callback through
    calls; the calls made so far are a trace, newest first.  What a call
    answers is given by the class [Os], as a function of the whole trace, so
    nothing is assumed about it.  What a driver holds on to (open descriptors,
    main loop sources) and what it emitted are functions of the trace. *)

From stdpp Require Import base list strings gmultiset sets.
From Stdlib Require Import ZArith Lia.
From S2P Require Import Prelude Floats Drivers.

#[local] Open Scope Z_scope.
#[local] Open Scope prog_scope.

(** ** Calls *)

Inductive Ioctl :=
  | UI_SET_EVBIT (bit : Z) | UI_SET_SWBIT (bit : Z) | UI_SET_ABSBIT (bit : Z)
  | UI_DEV_SETUP (bustype vendor product : Z) (name : string)
  | UI_DEV_CREATE | UI_DEV_DESTROY.

(** [struct input_event], without its time. *)
Record InputEvent := Ev { ev_type : Z; ev_code : Z; ev_value : Z }.

(** [EvAbort]: [g_error], the process ends. *)
Inductive Event :=
  | EvOpen (path : string) (fd : Z)
  | EvClose (fd : Z)
  | EvWrite (fd : Z) (data : string)
  | EvWriteInput (fd : Z) (evs : list InputEvent)
  | EvRead (fd : Z)
  | EvGet (path : string)
  | EvAbort
  | EvI2c (fd reg : Z)
  | EvIoctl (fd : Z) (req : Ioctl)
  | EvSleep (us : Z)
  | EvSourceAdd (ms : Z) (id : Z)
  | EvWatchAdd (fd : Z) (id : Z)
  | EvSourceRemove (id : Z)
  | EvEmit (r : Readings).

Abbreviation Trace := (list Event).

Class Os := {
  os_open : Trace -> string -> Z;
  os_write : Trace -> Z -> string -> Z;
  os_read : Trace -> Z -> Z -> option string;            (* None: below zero *)
  os_i2c : Trace -> Z -> Z -> nat -> option (list Z);    (* register, length *)
  os_ioctl : Trace -> Z -> Ioctl -> Z;
  os_evname : Trace -> Z -> option string;               (* EVIOCGNAME *)
  os_evsw : Trace -> Z -> option Z;                      (* EVIOCGSW *)
  os_udev : Trace -> string -> list (string * option string);
  os_source_add : Trace -> Z -> Z;
  os_watch_add : Trace -> Z -> Z
}.

(** GLib: "the ID (greater than 0) of the event source". *)
Class OsLaws `{Os} := {
  source_add_pos h ms : 0 < os_source_add h ms;
  watch_add_pos h fd : 0 < os_watch_add h fd
}.

(** ** What a trace amounts to *)

Definition own (fd : Z) : gmultiset Z := if 0 <=? fd then {[+ fd +]} else ∅.

(** Open descriptors; one that was returned twice without a close in between
    is counted twice. *)
Fixpoint open_fds (h : Trace) : gmultiset Z :=
  match h with
  | [] => ∅
  | EvOpen _ fd :: h => open_fds h ⊎ own fd
  | EvClose fd :: h => open_fds h ∖ {[+ fd +]}
  | _ :: h => open_fds h
  end.

(** Sources attached to the main loop. *)
Fixpoint sources (h : Trace) : gmultiset Z :=
  match h with
  | [] => ∅
  | EvSourceAdd _ id :: h => sources h ⊎ {[+ id +]}
  | EvWatchAdd _ id :: h => sources h ⊎ {[+ id +]}
  | EvSourceRemove id :: h => sources h ∖ {[+ id +]}
  | _ :: h => sources h
  end.

(** A source identifier: zero stands for none. *)
Definition src (id : Z) : gmultiset Z := if 0 <? id then {[+ id +]} else ∅.

Lemma src_zero : src 0 = ∅.
Proof. done. Qed.
Lemma src_pos id : 0 < id -> src id = {[+ id +]}.
Proof. intros Hi. unfold src. by rewrite (proj2 (Z.ltb_lt 0 id)). Qed.

(** Readings handed to the callback, oldest first. *)
Fixpoint emitted (h : Trace) : list Readings :=
  match h with
  | [] => []
  | EvEmit r :: h => emitted h ++ [r]
  | _ :: h => emitted h
  end.

(** ** Making a call *)

(** A state that carries a trace. *)
Class HasTrace (S : Type) := { trace : S -> Trace; set_trace : Trace -> S -> S }.
Class HasTraceLaw (S : Type) `{HasTrace S} := {
  trace_set (h : Trace) (s : S) : trace (set_trace h s) = h;
  set_trace_set (h h' : Trace) (s : S) : set_trace h (set_trace h' s) = set_trace h s;
  set_trace_self (s : S) : set_trace (trace s) s = s
}.

#[export] Instance trace_self : HasTrace Trace := {| trace h := h; set_trace h _ := h |}.
#[export] Instance trace_self_law : HasTraceLaw Trace.
Proof. done. Qed.

Section Calls.
Context `{Os} {S : Type} `{HasTrace S}.

(** The answer from the trace so far, and the event that is recorded. *)
Definition call {A} (ans : Trace -> A) (ev : A -> Event) : M S A := fun s =>
  let a := ans (trace s) in (a, set_trace (ev a :: trace s) s).

(** An answer that leaves no mark. *)
Definition ask {A} (ans : Trace -> A) : M S A := fun s => (ans (trace s), s).

Definition sys_open (path : string) : M S Z := call (fun h => os_open h path) (EvOpen path).
Definition sys_close (fd : Z) : M S unit := call (fun _ => tt) (fun _ => EvClose fd).
Definition sys_write (fd : Z) (data : string) : M S Z :=
  call (fun h => os_write h fd data) (fun _ => EvWrite fd data).
Definition sys_write_input (fd : Z) (evs : list InputEvent) : M S unit :=
  call (fun _ => tt) (fun _ => EvWriteInput fd evs).
Definition sys_read (fd len : Z) : M S (option string) :=
  call (fun h => os_read h fd len) (fun _ => EvRead fd).
Definition sys_i2c (fd reg : Z) (len : nat) : M S (option (list Z)) :=
  call (fun h => os_i2c h fd reg len) (fun _ => EvI2c fd reg).
Definition sys_ioctl (fd : Z) (req : Ioctl) : M S Z :=
  call (fun h => os_ioctl h fd req) (fun _ => EvIoctl fd req).
Definition sys_evname (fd : Z) : M S (option string) := ask (fun h => os_evname h fd).
Definition sys_evsw (fd : Z) : M S (option Z) := ask (fun h => os_evsw h fd).
Definition sys_udev (subsystem : string) : M S (list (string * option string)) :=
  ask (fun h => os_udev h subsystem).
Definition usleep (us : Z) : M S unit := call (fun _ => tt) (fun _ => EvSleep us).
Definition g_timeout_add (ms : Z) : M S Z :=
  call (fun h => os_source_add h ms) (EvSourceAdd ms).
Definition g_io_add_watch (fd : Z) : M S Z := call (fun h => os_watch_add h fd) (EvWatchAdd fd).
Definition g_source_remove (id : Z) : M S unit := call (fun _ => tt) (fun _ => EvSourceRemove id).
(** A source whose callback returns G_SOURCE_REMOVE is detached. *)
Definition source_done : Z -> M S unit := g_source_remove.
Definition callback (r : Readings) : M S unit := call (fun _ => tt) (fun _ => EvEmit r).
End Calls.

(** ** Descriptors: a resource triple

    [fdspec X m Y]: whatever else is open, if the descriptors [X] are open
    before [m] then those and only those of [Y] are open after it. *)

Section FdSpec.
Context `{Os} {S : Type} `{HasTraceLaw S}.

Definition fdspec {A} (X : S -> gmultiset Z) (m : M S A) (Y : A -> S -> gmultiset Z) : Prop :=
  forall B s, open_fds (trace s) = B ⊎ X s ->
  wp m (fun a t => open_fds (trace t) = B ⊎ Y a t) s.

Lemma fdspec_bind {A B} X (m : M S A) Y (k : A -> M S B) Z :
  fdspec X m Y -> (forall a, fdspec (Y a) (k a) Z) -> fdspec X (bind m k) Z.
Proof. intros Hm Hk C s Hs. apply wp_bind. apply (Hk _ C). by apply Hm. Qed.

(** The same, with a fact about the result of [m]. *)
Lemma fdspec_bind_fact {A B} (P : A -> Prop) X (m : M S A) Y (k : A -> M S B) Z :
  fdspec X m Y -> (forall s, wp m (fun a _ => P a) s) -> (forall a, P a -> fdspec (Y a) (k a) Z) ->
  fdspec X (bind m k) Z.
Proof.
  intros Hm HP Hk C s Hs. apply wp_bind. apply (Hk _ (HP s) C). by apply Hm.
Qed.

Lemma fdspec_ret {A} (a : A) Y : fdspec (Y a) (ret a) Y.
Proof. intros B s Hs. exact Hs. Qed.

Lemma fdspec_ret_eq {A} X (a : A) Y : (forall s, X s = Y a s) -> fdspec X (ret a) Y.
Proof. intros E B s Hs. unfold wp, res, post, ret. simpl. by rewrite <- E. Qed.

(** A call that is neither an open nor a close. *)
Lemma fdspec_call {A} (X : gmultiset Z) (ans : Trace -> A) (ev : A -> Event) :
  (forall a h, open_fds (ev a :: h) = open_fds h) ->
  fdspec (fun _ => X) (call ans ev) (fun _ _ => X).
Proof.
  intros He B s Hs. unfold wp, res, post, call. simpl. rewrite trace_set, He. exact Hs.
Qed.

Lemma fdspec_ask {A} (X : gmultiset Z) (ans : Trace -> A) :
  fdspec (fun _ => X) (ask ans) (fun _ _ => X).
Proof. intros B s Hs. exact Hs. Qed.

Lemma fdspec_open (X : gmultiset Z) p :
  fdspec (fun _ => X) (sys_open p) (fun fd _ => X ⊎ own fd).
Proof.
  intros B s Hs. unfold wp, res, post, sys_open, call. simpl. rewrite trace_set. simpl.
  rewrite Hs. multiset_solver.
Qed.

Lemma fdspec_close (X : gmultiset Z) fd :
  fdspec (fun _ => X ⊎ {[+ fd +]}) (sys_close fd) (fun _ _ => X).
Proof.
  intros B s Hs. unfold wp, res, post, sys_close, call. simpl. rewrite trace_set. simpl.
  rewrite Hs. multiset_solver.
Qed.

(** A closed descriptor was not negative: it was checked. *)
Lemma fdspec_close_own (X : gmultiset Z) fd :
  0 <= fd -> fdspec (fun _ => X ⊎ own fd) (sys_close fd) (fun _ _ => X).
Proof.
  intros Hf. unfold own. rewrite (proj2 (Z.leb_le 0 fd)) by done. apply fdspec_close.
Qed.

Lemma fdspec_mfor {A} (X : gmultiset Z) (l : list A) (body : A -> M S unit) :
  (forall a, a ∈ l -> fdspec (fun _ => X) (body a) (fun _ _ => X)) ->
  fdspec (fun _ => X) (mfor l body) (fun _ _ => X).
Proof.
  induction l as [|a l IH]; simpl; intros Hb; [by apply fdspec_ret_eq|].
  eapply fdspec_bind; [apply Hb; set_solver|]. intros ?. apply IH. set_solver.
Qed.

Lemma fdspec_eq {A} X X' (m : M S A) Y :
  (forall s, X s = X' s) -> fdspec X' m Y -> fdspec X m Y.
Proof. intros E Hm B s Hs. apply Hm. by rewrite <- E. Qed.

Lemma fdspec_post {A} X (m : M S A) Y Y' :
  (forall a s, Y a s = Y' a s) -> fdspec X m Y' -> fdspec X m Y.
Proof. intros E Hm B s Hs. eapply wp_conseq; [|by apply Hm]. intros a t ->. by rewrite E. Qed.

Lemma fdspec_frame {A} X (m : M S A) Y (R : gmultiset Z) :
  fdspec X m Y -> fdspec (fun s => X s ⊎ R) m (fun a s => Y a s ⊎ R).
Proof.
  intros Hm B s Hs. eapply wp_conseq; [|apply (Hm (B ⊎ R)); rewrite Hs; multiset_solver].
  simpl. intros a t ->. multiset_solver.
Qed.

Lemma fdspec_if {A} X (b : bool) (m1 m2 : M S A) Y :
  (b = true -> fdspec X m1 Y) -> (b = false -> fdspec X m2 Y) ->
  fdspec X (if b then m1 else m2) Y.
Proof. destruct b; auto. Qed.
End FdSpec.

(** One step of a descriptor proof: a bind, a call, a test. *)
Ltac fd_step :=
  lazymatch goal with
  | |- fdspec _ (bind _ _) _ => eapply fdspec_bind; [|intros ?]
  | |- fdspec _ (sys_open _) _ => apply fdspec_open
  | |- fdspec _ (sys_ioctl _ _) _ => apply fdspec_call; done
  | |- fdspec _ (sys_i2c _ _ _) _ => apply fdspec_call; done
  | |- fdspec _ (sys_write _ _) _ => apply fdspec_call; done
  | |- fdspec _ (sys_write_input _ _) _ => apply fdspec_call; done
  | |- fdspec _ (sys_read _ _) _ => apply fdspec_call; done
  | |- fdspec _ (usleep _) _ => apply fdspec_call; done
  | |- fdspec _ (g_timeout_add _) _ => apply fdspec_call; done
  | |- fdspec _ (g_io_add_watch _) _ => apply fdspec_call; done
  | |- fdspec _ (g_source_remove _) _ => apply fdspec_call; done
  | |- fdspec _ (callback _) _ => apply fdspec_call; done
  | |- fdspec _ (ask _) _ => apply fdspec_ask
  | |- fdspec _ (sys_evname _) _ => apply fdspec_ask
  | |- fdspec _ (sys_evsw _) _ => apply fdspec_ask
  | |- fdspec _ (sys_udev _) _ => apply fdspec_ask
  | |- fdspec _ (if ?b then _ else _) _ => apply fdspec_if; intros ?; zbool
  end.

(** ** Quiet routines

    [quiet m]: [m] changes the trace only, attaches and detaches no source and
    emits nothing. *)
Section Quiet.
Context `{Os} {S : Type} `{HasTraceLaw S}.

Definition quiet {A} (m : M S A) : Prop := forall s, exists h,
  post m s = set_trace h s /\ sources h = sources (trace s) /\ emitted h = emitted (trace s).

Lemma quiet_bind {A B} (m : M S A) (k : A -> M S B) :
  quiet m -> (forall a, quiet (k a)) -> quiet (bind m k).
Proof.
  intros Hm Hk s. destruct (Hm s) as (h & E & E1 & E2). unfold post, bind in *.
  destruct (m s) as [a t]. simpl in E. subst t.
  destruct (Hk a (set_trace h s)) as (h' & E' & E1' & E2'). exists h'. unfold post in E'.
  rewrite trace_set in E1', E2'. rewrite E', set_trace_set. by rewrite E1', E2'.
Qed.

Lemma quiet_ret {A} (a : A) : quiet (ret a).
Proof. intros s. exists (trace s). by rewrite set_trace_self. Qed.

Lemma quiet_ask {A} (ans : Trace -> A) : quiet (ask ans).
Proof. intros s. exists (trace s). unfold post, ask. simpl. by rewrite set_trace_self. Qed.

Lemma quiet_call {A} (ans : Trace -> A) (ev : A -> Event) :
  (forall a h, sources (ev a :: h) = sources h /\ emitted (ev a :: h) = emitted h) ->
  quiet (call ans ev).
Proof. intros He s. eexists. split; [reflexivity|]. apply He. Qed.

Lemma quiet_mfor {A} (l : list A) (body : A -> M S unit) :
  (forall a, quiet (body a)) -> quiet (mfor l body).
Proof.
  intros Hb. induction l as [|a l IH]; simpl; [apply quiet_ret|]. by apply quiet_bind.
Qed.

Lemma wp_quiet {A} (m : M S A) (Q : A -> S -> Prop) s :
  quiet m ->
  (forall a h, sources h = sources (trace s) -> emitted h = emitted (trace s) ->
               Q a (set_trace h s)) ->
  wp m Q s.
Proof. intros Hm HQ. destruct (Hm s) as (h & E & E1 & E2). unfold wp. rewrite E. auto. Qed.
End Quiet.

(** One step of a quietness proof. *)
Ltac quiet_step :=
  lazymatch goal with
  | |- quiet (bind _ _) => apply quiet_bind; [|intros ?]
  | |- quiet (ret _) => apply quiet_ret
  | |- quiet (mfor _ _) => apply quiet_mfor; intros ?
  | |- quiet (sys_open _) => apply quiet_call; done
  | |- quiet (sys_close _) => apply quiet_call; done
  | |- quiet (sys_ioctl _ _) => apply quiet_call; done
  | |- quiet (sys_i2c _ _ _) => apply quiet_call; done
  | |- quiet (sys_write _ _) => apply quiet_call; done
  | |- quiet (sys_write_input _ _) => apply quiet_call; done
  | |- quiet (sys_read _ _) => apply quiet_call; done
  | |- quiet (usleep _) => apply quiet_call; done
  | |- quiet (ask _) => apply quiet_ask
  | |- quiet (sys_evname _) => apply quiet_ask
  | |- quiet (sys_evsw _) => apply quiet_ask
  | |- quiet (sys_udev _) => apply quiet_ask
  | |- quiet (if ?b then _ else _) => destruct b
  | |- quiet (match ?x with _ => _ end) => destruct x
  end.
Ltac quiet_auto := repeat quiet_step.
Create HintDb quiet.

Lemma own_neg fd : fd < 0 -> own fd = ∅.
Proof. intros Hf. unfold own. by rewrite (proj2 (Z.leb_gt 0 fd)). Qed.
Lemma own_nonneg fd : 0 <= fd -> own fd = {[+ fd +]}.
Proof. intros Hf. unfold own. by rewrite (proj2 (Z.leb_le 0 fd)). Qed.

(** ** A concrete system, for the examples

    Every open succeeds with the next descriptor, every read gives [data] and
    every I2C transfer [bytes]; sources are numbered by the trace's length. *)
Definition sim_os (data : option string) (bytes : option (list Z))
    (devs : list (string * option string)) : Os := {|
  os_open h _ := 3 + Z.of_nat (length h);
  os_write _ _ s := Z.of_nat (String.length s);
  os_read _ _ _ := data;
  os_i2c _ _ _ n := if (n =? 1)%nat then Some [0] else bytes;
  os_ioctl _ _ _ := 0;
  os_evname _ _ := Some "Lid Switch"%string;
  os_evsw _ _ := Some 0;
  os_udev _ _ := devs;
  os_source_add h _ := 1 + Z.of_nat (length h);
  os_watch_add h _ := 1 + Z.of_nat (length h)
|}.

Lemma sim_os_laws d b l : @OsLaws (sim_os d b l).
Proof. split; intros; simpl; lia. Defined.

(** A splitter at a delimiter, as the GLib documentation describes it. *)
Fixpoint split_at (delim : string) (skip : nat) (acc s : string) : list string :=
  match s with
  | EmptyString => [acc]
  | String c s' =>
      match skip with
      | S k => split_at delim k acc s'
      | O => if String.prefix delim s
             then acc :: split_at delim (String.length delim - 1) EmptyString s'
             else split_at delim 0 (acc +:+ String c EmptyString) s'
      end
  end.
Definition sim_strsplit (s delim : string) : list string :=
  match s with EmptyString => [] | _ => split_at delim 0 EmptyString s end.
