(* ===== verification/MxcFilter.v ===== *)
(** * The orientation filter of the MXC6655 driver (drv-mxc6655-accel.c, 56-1063)

    The multi-stage filter between the display accelerometer and the
    orientation classifier: median filter on Z, per-axis exponential smoothing,
    the 20-sample ring buffer with its variance test, and the tracking of the
    gravity offset.  The fields of [OrientState] are grouped as the comments of
    the C struct group them; [float] arrays are lists. *)

From stdpp Require Import base list sets.
From Stdlib Require Import ZArith Lia SpecFloat.
From S2P Require Import Prelude Floats.

#[local] Open Scope Z_scope.

(** ** Constants *)

Definition f0 : float := f_zero.
Definition F (p q : positive) : float := f32_lit p q.   (* a float literal *)
Definition Dbl (p q : positive) : float := f64_lit p q. (* a double literal *)

Definition ORIENT_BUF_SIZE : Z := 20.
Definition ORIENT_OFFSET_BUF : Z := 5.
Definition ORIENT_STABLE_MIN : Z := 10.
Definition ORIENT_VARIANCE_THRESH : float := Eval vm_compute in F 1 100.
Definition ORIENT_EMA_ALPHA : float := Eval vm_compute in F 1 100.
Definition ORIENT_EMA_DECAY : float := Eval vm_compute in F 99 100.
Definition ORIENT_DRIFT_LIMIT : float := Eval vm_compute in F 2 10.
Definition ORIENT_JUMP_LIMIT : float := Eval vm_compute in F 24 10.
Definition ORIENT_OUTLIER_RANGE : float := Eval vm_compute in F 5 10.
Definition ORIENT_MAG_LO : float := Eval vm_compute in F 85 100.
Definition ORIENT_MAG_HI : float := Eval vm_compute in F 115 100.

Definition c_1 : float := Eval vm_compute in F 1 1.
Definition c_half : float := Eval vm_compute in F 1 2.
Definition c_100 : float := Eval vm_compute in F 100 1.
Definition c_1000 : float := Eval vm_compute in F 1000 1.
Definition c_999000 : float := Eval vm_compute in F 999000 1.
Definition c_20 : float := Eval vm_compute in F 20 1.
Definition c_3 : float := Eval vm_compute in F 3 1.
Definition c_0_0001 : float := Eval vm_compute in F 1 10000.
Definition c_0_08 : float := Eval vm_compute in F 8 100.
Definition c_0_004 : float := Eval vm_compute in F 4 1000.
Definition c_0_9999 : float := Eval vm_compute in F 9999 10000.
Definition c_0_0024 : float := Eval vm_compute in F 24 10000.
Definition c_0_0056 : float := Eval vm_compute in F 56 10000.
Definition c_0_0032 : float := Eval vm_compute in F 32 10000.
Definition c_0_002 : float := Eval vm_compute in F 2 1000.
Definition c_0_6 : float := Eval vm_compute in F 6 10.
Definition c_1_4 : float := Eval vm_compute in F 14 10.
Definition c_1e_6 : float := Eval vm_compute in F 1 1000000.
Definition c_0_4 : float := Eval vm_compute in F 4 10.

Definition d_1 : float := Eval vm_compute in Dbl 1 1.
Definition d_half : float := Eval vm_compute in Dbl 1 2.
Definition d_0_09 : float := Eval vm_compute in Dbl 9 100.
Definition d_0_16 : float := Eval vm_compute in Dbl 16 100.
Definition d_0_07 : float := Eval vm_compute in Dbl 7 100.

(** ** Data *)

Record Vec3 := V3 { x_ : float; y_ : float; z_ : float }.

Inductive MxcOrientation :=
  MXC_ORIENT_NORMAL | MXC_ORIENT_LEFT | MXC_ORIENT_INVERTED | MXC_ORIENT_RIGHT.

Definition mxc_code (o : MxcOrientation) : Z :=
  match o with
  | MXC_ORIENT_NORMAL => 0 | MXC_ORIENT_LEFT => 1
  | MXC_ORIENT_INVERTED => 2 | MXC_ORIENT_RIGHT => 3
  end.

(** Median filter for the Z axis. *)
Record MedianF := Med { z_median_buf : list float; z_median_count : Z }.

(** EMA filter of one axis. *)
Record EmaAxis := Ema { ema_delta : float; ema_abs_delta : float; smoothed : float }.
Record EmaF := EmaF3 { ema_x : EmaAxis; ema_y : EmaAxis; ema_z : EmaAxis }.

(** Circular buffer for stability detection. *)
Record Ring := Rg {
  buf_x : list float; buf_y : list float; buf_z : list float; buf_idx : Z; buf_full : Z
}.

(** Accumulator for long-term stability. *)
Record Accum := Ac {
  stable_count : Z; acc : Vec3; acc_sq : Vec3; peak : Vec3; trough : Vec3;
  outlier_detected : Z
}.

(** Reference point, Z direction, gravity offset and offset buffer. *)
Record Grav := Gv {
  ref_pt : Vec3; z_dir : Z; gravity_offset : float; trimmed_mean : float;
  offset_buf : list float; offset_count : Z; offset_init : Z
}.

Record OrientOut := Out { out_offset : float; out_mean : float; out_z : float }.

Record OrientState := Orient {
  med : MedianF; ema : EmaF; ring : Ring; accum : Accum; grav : Grav; outp : OrientOut
}.

Definition v0 : Vec3 := V3 f0 f0 f0.

(** What [g_new0] gives. *)
Definition orient_init : OrientState :=
  let e := Ema f0 f0 f0 in
  let b := replicate 20 f0 in
  Orient (Med (replicate 3 f0) 0) (EmaF3 e e e) (Rg b b b 0 0) (Ac 0 v0 v0 v0 v0 0)
    (Gv v0 0 f0 f0 (replicate 5 f0) 0 0) (Out f0 f0 f0).

(** Array access by a C [int] index. *)
Definition aset (l : list float) (i : Z) (v : float) : list float := <[Z.to_nat i := v]> l.
Definition aget (l : list float) (i : Z) : float := nth (Z.to_nat i) l S754_nan.

(** ** Numeric helpers *)

Definition median3 (a b c : float) : float :=
  let '(a, b) := if f_gt a b then (b, a) else (a, b) in
  let '(b, c) := if f_gt b c then (c, b) else (b, c) in
  let '(a, b) := if f_gt a b then (b, a) else (a, b) in
  b.

Definition sum_sq (buf : list float) : float * float :=
  foldl (fun '(sum, sq) b => (f32_add sum b, f32_add sq (f32_mul b b))) (f0, f0) buf.

(** [n] is the length of [buf]. *)
Definition sample_variance (buf : list float) (n : Z) : float :=
  if n <=? 1 then f0
  else
    let '(sum, sum_sq) := sum_sq buf in
    let mean := f32_div sum (f32_of_Z n) in
    f32_div (f32_sub sum_sq (f32_mul (f32_mul (f32_of_Z n) mean) mean)) (f32_of_Z (n - 1)).

Definition reconstruct_z (raw_z z_sq z_hint : float) : float :=
  let z_sq_c := if f_lt z_sq f0 then f0 else z_sq in
  let d := f64_of_f32 z_sq_c in
  let val :=
    if f_le d d_0_09 then
      f32_of_f64 (if f_le z_hint f0 then f64_mul (f_neg d) d_half else f64_mul d d_half)
    else if f_gt d d_0_16 then
      let s := f64_sqrt d in
      f32_of_f64 (if f_le z_hint f0 then f_neg s else s)
    else
      let s16 := f64_sqrt d_0_16 in
      let interp := f64_add (f64_mul (f64_sub d d_0_09) s16)
                            (f64_mul (f64_mul (f64_sub d_0_16 d) d_0_09) d_half) in
      let interp := if f_le z_hint f0 then f_neg interp else interp in
      f32_of_f64 (f64_div interp d_0_07) in
  let r100 := f32_mul raw_z c_100 in
  let frac := f32_div (f32_sub r100 (f32_of_Z (f_to_int 32 r100))) c_100 in
  f32_add val frac.

(** The four candidate distances and the offset they select. *)
Definition pick_offset (ref_zp ref_zm cur_zp cur_zm : float) : float * Z :=
  let d_mm := f_abs (f32_sub ref_zm cur_zm) in
  let d_pm := f_abs (f32_sub ref_zp cur_zm) in
  let d_pp := f_abs (f32_sub ref_zp cur_zp) in
  let d_mp := f_abs (f32_sub ref_zm cur_zp) in
  let ref_span := f_abs (f32_sub ref_zm ref_zp) in
  let cur_span := f_abs (f32_sub cur_zm cur_zp) in
  let threshold := f32_mul (f32_add cur_span ref_span) c_0_08 in
  if f_le d_mm d_pm && f_le d_mm d_pp && f_le d_mm d_mp && f_lt d_mm threshold
  then (f32_mul (f32_add cur_zm ref_zm) c_half, 1)
  else if f_le d_pm d_mm && f_le d_pm d_pp && f_le d_pm d_mp && f_lt d_pm threshold
  then (f32_mul (f32_add cur_zm ref_zp) c_half, 1)
  else if f_le d_pp d_mm && f_le d_pp d_pm && f_le d_pp d_mp && f_lt d_pp threshold
  then (f32_mul (f32_add cur_zp ref_zp) c_half, -1)
  else if f_le d_mp d_mm && f_le d_mp d_pm && f_le d_mp d_pp && f_lt d_mp threshold
  then (f32_mul (f32_add cur_zp ref_zm) c_half, -1)
  else (f32_mul (f32_add cur_zp ref_zp) c_half, -1).

(** Returns the C result, [*z_dir] and [*out_offset] ([None]: not written). *)
Definition resolve_gravity_offset (ref_ cur : Vec3) (trimmed : float) (zdir : Z) :
    Z * Z * option float :=
  let ref_x2 := f32_mul (x_ ref_) (x_ ref_) in
  let ref_y2 := f32_mul (y_ ref_) (y_ ref_) in
  let cur_x2 := f32_mul (x_ cur) (x_ cur) in
  let cur_y2 := f32_mul (y_ cur) (y_ cur) in
  let zsq a b :=
    let q := f64_sub (f64_sub d_1 (f64_of_f32 a)) (f64_of_f32 b) in
    if f_lt q f0 then f0 else q in
  let ref_zsq := zsq ref_x2 ref_y2 in
  let cur_zsq := zsq cur_x2 cur_y2 in
  let ref_zp := f32_of_f64 (f64_add (f64_of_f32 (z_ ref_)) (f64_sqrt ref_zsq)) in
  let ref_zm := f32_of_f64 (f64_sub (f64_of_f32 (z_ ref_)) (f64_sqrt ref_zsq)) in
  let cur_zp := f32_of_f64 (f64_add (f64_of_f32 (z_ cur)) (f64_sqrt cur_zsq)) in
  let cur_zm := f32_of_f64 (f64_sub (f64_of_f32 (z_ cur)) (f64_sqrt cur_zsq)) in
  let '(offset, new_dir) := pick_offset ref_zp ref_zm cur_zp cur_zm in
  let mag z y2 x2 :=
    f32_add (f32_add (f32_mul (f32_sub z offset) (f32_sub z offset)) y2) x2 in
  let ref_mag := mag (z_ ref_) ref_y2 ref_x2 in
  let cur_mag := mag (z_ cur) cur_y2 cur_x2 in
  if f_le ref_mag ORIENT_MAG_LO || f_ge ref_mag ORIENT_MAG_HI ||
     f_le cur_mag ORIENT_MAG_LO || f_ge cur_mag ORIENT_MAG_HI
  then (0, zdir, None)
  else if f_ne trimmed f0 && f_gt (f_abs (f32_sub offset trimmed)) c_1
  then (0, new_dir, Some f0)
  else (1, new_dir, Some offset).

(** ** Filter stages *)

(** Returns the new filter and the new [*z]. *)
Definition median_filter_z (s : MedianF) (z : float) : MedianF * float :=
  if z_median_count s <? 3 then
    (Med (aset (z_median_buf s) (z_median_count s) z) (z_median_count s + 1), z)
  else
    let b := [aget (z_median_buf s) 1; aget (z_median_buf s) 2; z] in
    (Med b (z_median_count s), median3 (aget b 0) (aget b 1) (aget b 2)).

Definition ema_axis (a : EmaAxis) (inp : float) : EmaAxis :=
  let delta := f32_sub inp (smoothed a) in
  let abs_delta := f_abs delta in
  let ed := f32_add (f32_mul (ema_delta a) ORIENT_EMA_DECAY) (f32_mul delta ORIENT_EMA_ALPHA) in
  let ead := f32_add (f32_mul (ema_abs_delta a) ORIENT_EMA_DECAY)
                     (f32_mul abs_delta ORIENT_EMA_ALPHA) in
  let weight := if f_ge (f_abs ead) c_0_0001 then f_abs (f32_div ed ead) else c_half in
  Ema ed ead (f32_add (f32_mul (f32_sub c_1 weight) (smoothed a)) (f32_mul weight inp)).

Definition ema_smooth (s : EmaF) (inp : Vec3) : EmaF :=
  EmaF3 (ema_axis (ema_x s) (x_ inp)) (ema_axis (ema_y s) (y_ inp)) (ema_axis (ema_z s) (z_ inp)).

Definition store_in_buffer (r : Ring) (inp : Vec3) : Ring :=
  let idx := buf_idx r in
  let bx := aset (buf_x r) idx (x_ inp) in
  let by_ := aset (buf_y r) idx (y_ inp) in
  let bz := aset (buf_z r) idx (z_ inp) in
  if buf_idx r + 1 >=? ORIENT_BUF_SIZE then Rg bx by_ bz 0 1
  else Rg bx by_ bz (buf_idx r + 1) (buf_full r).

Definition max3 (a b c : float) : float :=
  let mv := a in
  let mv := if f_gt b mv then b else mv in
  if f_gt c mv then c else mv.

Definition max_buffer_variance (r : Ring) : float :=
  max3 (sample_variance (buf_x r) ORIENT_BUF_SIZE) (sample_variance (buf_y r) ORIENT_BUF_SIZE)
       (sample_variance (buf_z r) ORIENT_BUF_SIZE).

(** Peak and trough are not reset. *)
Definition reset_accumulator (a : Accum) : Accum :=
  Ac 0 v0 v0 (peak a) (trough a) 0.

Definition average (buf : list float) : float := f32_div (foldl f32_add f0 buf) c_20.

Definition average_buffer (r : Ring) : Vec3 :=
  V3 (average (buf_x r)) (average (buf_y r)) (average (buf_z r)).

Definition signed_z (z_sq : float) (zdir : Z) : float :=
  if negb (zdir =? -1) then f32_sqrt z_sq else f_neg (f32_sqrt z_sq).

Definition record_offset (g : Grav) : Grav :=
  if offset_count g <? ORIENT_OFFSET_BUF then
    Gv (ref_pt g) (z_dir g) (gravity_offset g) (trimmed_mean g)
       (aset (offset_buf g) (offset_count g) (gravity_offset g)) (offset_count g + 1)
       (offset_init g)
  else g.

Definition set_offset (o : float) (g : Grav) : Grav :=
  Gv (ref_pt g) (z_dir g) o (trimmed_mean g) (offset_buf g) (offset_count g) (offset_init g).
Definition set_z_dir (d : Z) (g : Grav) : Grav :=
  Gv (ref_pt g) d (gravity_offset g) (trimmed_mean g) (offset_buf g) (offset_count g)
     (offset_init g).
Definition set_ref (r : Vec3) (g : Grav) : Grav :=
  Gv r (z_dir g) (gravity_offset g) (trimmed_mean g) (offset_buf g) (offset_count g)
     (offset_init g).

Definition try_resolve_offset (a : Accum) (g : Grav) (ref_ cur : Vec3) : Accum * Grav :=
  let '(r, zd, off) := resolve_gravity_offset ref_ cur (trimmed_mean g) (z_dir g) in
  let g := set_z_dir zd g in
  let g := match r, off with
           | 1, Some new_offset => record_offset (set_offset new_offset g)
           | _, _ => g
           end in
  (reset_accumulator a, g).

Definition bootstrap_reference (g : Grav) (avg : Vec3) (z_sq : float) : Grav :=
  set_offset (f32_sub (z_ avg) (signed_z z_sq (z_dir g))) (set_ref avg g).

Definition vadd (u v : Vec3) : Vec3 :=
  V3 (f32_add (x_ u) (x_ v)) (f32_add (y_ u) (y_ v)) (f32_add (z_ u) (z_ v)).
Definition vsq (v : Vec3) : Vec3 :=
  V3 (f32_mul (x_ v) (x_ v)) (f32_mul (y_ v) (y_ v)) (f32_mul (z_ v) (z_ v)).

Definition accumulate_sample (a : Accum) (avg : Vec3) : Accum :=
  Ac (stable_count a + 1) (vadd (acc a) avg) (vadd (acc_sq a) (vsq avg)) (peak a) (trough a)
     (outlier_detected a).

Definition update_peak_trough (a : Accum) (avg : Vec3) : Accum :=
  let '(p, t) := if stable_count a =? 1 then (avg, avg) else (peak a, trough a) in
  let p := if f_gt (z_ avg) (z_ p) then avg else p in
  let t := if f_lt (z_ avg) (z_ t) then avg else t in
  Ac (stable_count a) (acc a) (acc_sq a) p t (outlier_detected a).

Definition detect_outlier (a : Accum) (avg_z : float) : Accum :=
  let o := outlier_detected a in
  let o := if f_eq avg_z (z_ (trough a)) &&
              f_gt (f32_sub (z_ (peak a)) avg_z) ORIENT_OUTLIER_RANGE then 1 else o in
  let o := if f_eq avg_z (z_ (peak a)) &&
              f_gt (f32_sub avg_z (z_ (trough a))) ORIENT_OUTLIER_RANGE then 1 else o in
  Ac (stable_count a) (acc a) (acc_sq a) (peak a) (trough a) o.

Definition handle_long_stable (a : Accum) (g : Grav) (avg_z z_sq : float) : Grav :=
  let v sq s := f32_div (f32_sub (f32_mul sq c_1000) (f32_mul s s)) c_999000 in
  let mv := max3 (v (x_ (acc_sq a)) (x_ (acc a))) (v (y_ (acc_sq a)) (y_ (acc a)))
                 (v (z_ (acc_sq a)) (z_ (acc a))) in
  if f_lt mv c_0_004
  then record_offset (set_offset (f32_sub avg_z (signed_z z_sq (z_dir g))) g)
  else g.

Definition handle_stable_drift (a : Accum) (g : Grav) (avg : Vec3) (z_sq : float) : Accum * Grav :=
  let a := update_peak_trough (accumulate_sample a avg) avg in
  if stable_count a <? 2 then (a, g)
  else
    let a := detect_outlier a (z_ avg) in
    if negb (outlier_detected a =? 0) then try_resolve_offset a g (peak a) avg
    else if stable_count a >=? 1000 then (a, handle_long_stable a g (z_ avg) z_sq)
    else (a, g).

Definition update_offset_trimmed_mean (g : Grav) : Grav :=
  if offset_count g <? ORIENT_OFFSET_BUF then g
  else
    let b0 := aget (offset_buf g) 0 in
    let '(mn, mx, sum) :=
      foldl (fun '(mn, mx, sum) o =>
               (if f_lt o mn then o else mn, if f_gt o mx then o else mx, f32_add sum o))
            (b0, b0, f0) (offset_buf g) in
    Gv (ref_pt g) (z_dir g) (gravity_offset g)
       (f32_div (f32_sub (f32_sub sum mn) mx) c_3) (offset_buf g) 0 (offset_init g).

(** Returns the C result, the states and [*mean_offset]. *)
Definition update_gravity_tracking (a : Accum) (g : Grav) (avg : Vec3) (z_sq mean_offset : float) :
    Z * Accum * Grav * float :=
  if f_eq (x_ (ref_pt g)) f0 && f_eq (y_ (ref_pt g)) f0 && f_eq (z_ (ref_pt g)) f0
  then (0, a, bootstrap_reference g avg z_sq, mean_offset)
  else
    let z_drift := f_abs (f32_sub (z_ avg) (z_ (ref_pt g))) in
    if negb (f_le z_drift ORIENT_DRIFT_LIMIT) && f_gt z_drift ORIENT_JUMP_LIMIT
    then (-1, a, set_ref v0 g, mean_offset)
    else
      let '(a, g) := if f_le z_drift ORIENT_DRIFT_LIMIT
                     then handle_stable_drift a g avg z_sq
                     else try_resolve_offset a g (ref_pt g) avg in
      let g := update_offset_trimmed_mean g in
      let g := set_ref avg g in
      let '(g, mean_offset) :=
        if negb (offset_init g =? 0) && (0 <? offset_count g)
        then (Gv (ref_pt g) (z_dir g) (gravity_offset g) (trimmed_mean g) (offset_buf g)
                 (offset_count g) 0, aget (offset_buf g) 0)
        else (g, mean_offset) in
      let diff := f32_sub (z_ avg) (gravity_offset g) in
      let g := if f_gt diff f0 then set_z_dir 1 g
               else if f_lt diff f0 then set_z_dir (-1) g else g in
      (0, a, g, mean_offset).

Definition blend_z_output (e : EmaF) (g : Grav) (inp : Vec3) (max_var : float) : float :=
  let sx := smoothed (ema_x e) in
  let sy := smoothed (ema_y e) in
  let z_sq := f32_sub (f32_sub c_1 (f32_mul sx sx)) (f32_mul sy sy) in
  let z_hint := f32_sub (smoothed (ema_z e)) (gravity_offset g) in
  let z_out :=
    if f_lt max_var c_0_0024 then reconstruct_z (z_ inp) z_sq z_hint
    else if f_ge max_var c_0_0056 then f32_sub (z_ inp) (gravity_offset g)
    else
      let z_recon := reconstruct_z (z_ inp) z_sq z_hint in
      let z_raw := f32_sub (z_ inp) (gravity_offset g) in
      f32_div (f32_sub (f32_add (f32_mul (f32_sub z_raw z_recon) max_var) (f32_mul z_recon c_0_0056))
                       (f32_mul z_raw c_0_0024)) c_0_0032 in
  if f_lt max_var c_0_002 then
    let mag := f32_sqrt (f32_add (f32_add (f32_mul (x_ inp) (x_ inp)) (f32_mul (y_ inp) (y_ inp)))
                                 (f32_mul z_out z_out)) in
    if f_lt mag c_0_6 || f_gt mag c_1_4 then c_half else z_out
  else z_out.

(** The averages handed to the tracking: [z_sq], and the accumulator, which a
    sample outside the unit disc resets. *)
Definition tracking_input (a : Accum) (r : Ring) : Vec3 * float * Accum :=
  let avg := average_buffer r in
  let xy_sq := f32_add (f32_mul (x_ avg) (x_ avg)) (f32_mul (y_ avg) (y_ avg)) in
  let z_sq := f32_sub c_1 xy_sq in
  if f_lt z_sq f0 then
    let n := f64_sqrt (f64_of_f32 xy_sq) in
    let scale c := f32_mul (f32_of_f64 (f64_div (f64_of_f32 c) n)) c_0_9999 in
    (V3 (scale (x_ avg)) (scale (y_ avg)) (z_ avg), f0, reset_accumulator a)
  else (avg, z_sq, a).

(** The variance test on the accumulator. *)
Definition stability (a : Accum) (max_var : float) : Accum :=
  if f_gt max_var ORIENT_VARIANCE_THRESH then reset_accumulator a
  else if stable_count a <=? ORIENT_STABLE_MIN
  then Ac (stable_count a + 1) (acc a) (acc_sq a) (peak a) (trough a) (outlier_detected a)
  else a.

Definition update_orientation (s : OrientState) (accel : Vec3) : Z * OrientState :=
  let '(m, z) := median_filter_z (med s) (z_ accel) in
  let inp := V3 (x_ accel) (y_ accel) z in
  let e := ema_smooth (ema s) inp in
  let r := store_in_buffer (ring s) inp in
  if buf_full r =? 0 then
    let sx := smoothed (ema_x e) in
    let sy := smoothed (ema_y e) in
    let z_sq := f32_sub (f32_sub c_1 (f32_mul sx sx)) (f32_mul sy sy) in
    let oz := if f_ge z_sq f0 then signed_z z_sq (z_dir (grav s)) else f0 in
    (0, Orient m e r (accum s) (grav s) (Out (gravity_offset (grav s)) f0 oz))
  else
    let max_var := max_buffer_variance r in
    let a := stability (accum s) max_var in
    let finish a g mean_offset :=
      let s' := Orient m e r a g
                  (Out (gravity_offset g) mean_offset (blend_z_output e g inp max_var)) in
      if f_lt (f_abs (gravity_offset g)) c_1e_6 then (0, s')
      else if f_gt (f_abs mean_offset) c_1e_6 then (2, s')
      else (1, s') in
    if ORIENT_STABLE_MIN <? stable_count a then
      let '(avg, z_sq, a) := tracking_input a r in
      let '(rc, a, g, mean_offset) := update_gravity_tracking a (grav s) avg z_sq f0 in
      if rc <? 0 then (0, Orient m e r a g (outp s)) else finish a g mean_offset
    else finish a (grav s) f0.

(** ** Classification *)

(** -1: not enough tilt. *)
Definition classify_orientation (accel : Vec3) : Z :=
  let abs_x := f_abs (x_ accel) in
  let abs_y := f_abs (y_ accel) in
  if f_lt abs_x c_0_4 && f_lt abs_y c_0_4 then -1
  else if f_ge abs_y abs_x
  then mxc_code (if f_lt (y_ accel) f0 then MXC_ORIENT_NORMAL else MXC_ORIENT_INVERTED)
  else mxc_code (if f_gt (x_ accel) f0 then MXC_ORIENT_RIGHT else MXC_ORIENT_LEFT).

(** Feeding samples from the zeroed state, oldest first. *)
Definition run_filter (l : list Vec3) : OrientState :=
  foldl (fun s a => snd (update_orientation s a)) orient_init l.

Definition run_ring (l : list Vec3) : Ring := foldl store_in_buffer (ring orient_init) l.

(** ** Invariant *)

Definition ring_ok (r : Ring) : Prop :=
  length (buf_x r) = 20%nat /\ length (buf_y r) = 20%nat /\ length (buf_z r) = 20%nat /\
  0 <= buf_idx r < 20 /\ (buf_full r = 0 \/ buf_full r = 1).

Definition accum_ok (a : Accum) : Prop :=
  0 <= stable_count a /\ (outlier_detected a = 0 \/ outlier_detected a = 1).

Definition grav_ok (g : Grav) : Prop :=
  length (offset_buf g) = 5%nat /\ 0 <= offset_count g <= 5 /\ offset_init g = 0 /\
  -1 <= z_dir g <= 1.

(** Every array keeps its length and every index and counter its range. *)
Definition orient_ok (s : OrientState) : Prop :=
  length (z_median_buf (med s)) = 3%nat /\ 0 <= z_median_count (med s) <= 3 /\
  ring_ok (ring s) /\ accum_ok (accum s) /\ grav_ok (grav s).

(** [1 - x^2 - y^2] of the averaged buffer, and whether it is not negative. *)
Definition xy_rest (r : Ring) : float :=
  let avg := average_buffer r in
  f32_sub c_1 (f32_add (f32_mul (x_ avg) (x_ avg)) (f32_mul (y_ avg) (y_ avg))).
Definition unit_disc (r : Ring) : bool := negb (f_lt (xy_rest r) f0).

(** How many of [l] satisfy [p]. *)
Definition count (p : float -> bool) (l : list float) : nat := length (List.filter p l).

(** ** Theorems *)

Lemma run_filter_snoc l v : run_filter (l ++ [v]) = snd (update_orientation (run_filter l) v).
Proof. unfold run_filter. by rewrite foldl_app. Qed.

Lemma run_ring_snoc l v : run_ring (l ++ [v]) = store_in_buffer (run_ring l) v.
Proof. unfold run_ring. by rewrite foldl_app. Qed.

Lemma orient_init_ok : orient_ok orient_init.
Proof. repeat split; simpl; lia || auto. Qed.

Lemma aset_length l i v : length (aset l i v) = length l.
Proof. apply length_insert. Qed.

Lemma aset_get_same l i v : 0 <= i < Z.of_nat (length l) -> aget (aset l i v) i = v.
Proof.
  intros Hi. unfold aget, aset. rewrite (nth_lookup_Some _ _ _ v); [done|].
  apply list_lookup_insert_eq. lia.
Qed.

Lemma aset_get_other l i j v : 0 <= i -> 0 <= j -> i <> j -> aget (aset l i v) j = aget l j.
Proof.
  intros Hi Hj Hij. unfold aget, aset. rewrite !nth_lookup, list_lookup_insert_ne by lia. done.
Qed.

Lemma store_ok r v : ring_ok r -> ring_ok (store_in_buffer r v).
Proof.
  intros (H1 & H2 & H3 & Hi & Hf). unfold store_in_buffer, ORIENT_BUF_SIZE.
  destruct (Z.geb_spec (buf_idx r + 1) 20); repeat split; simpl;
    rewrite ?aset_length; auto; lia.
Qed.

Lemma reset_ok a : accum_ok (reset_accumulator a).
Proof. split; simpl; lia || auto. Qed.

Lemma record_offset_ok g : grav_ok g -> grav_ok (record_offset g).
Proof.
  intros (H1 & H2 & H3 & H4). unfold record_offset, ORIENT_OFFSET_BUF.
  destruct (Z.ltb_spec (offset_count g) 5); repeat split; simpl; rewrite ?aset_length; auto; lia.
Qed.

Lemma set_offset_ok o g : grav_ok g -> grav_ok (set_offset o g).
Proof. intros H. exact H. Qed.
Lemma set_ref_ok r g : grav_ok g -> grav_ok (set_ref r g).
Proof. intros H. exact H. Qed.
Lemma set_z_dir_ok d g : -1 <= d <= 1 -> grav_ok g -> grav_ok (set_z_dir d g).
Proof. intros ? (? & ? & ? & ?). by split_and!; simpl; try lia. Qed.

Create HintDb orient.
#[export] Hint Resolve store_ok reset_ok record_offset_ok set_offset_ok set_ref_ok
  set_z_dir_ok : orient.

Lemma pick_offset_dir a b c d : -1 <= snd (pick_offset a b c d) <= 1.
Proof. unfold pick_offset. repeat (destruct (_ && _); [simpl; lia|]). simpl. lia. Qed.

(** The direction returned is the old one or a sign; [1] comes with an offset. *)
Lemma resolve_spec r c t zd :
  let '(rc, zd', off) := resolve_gravity_offset r c t zd in
  (rc = 0 \/ rc = 1) /\ (zd' = zd \/ -1 <= zd' <= 1) /\ (rc = 1 -> is_Some off).
Proof.
  unfold resolve_gravity_offset. destruct (pick_offset _ _ _ _) as [o nd] eqn:Ep.
  assert (-1 <= nd <= 1) as Hnd by (change nd with (snd (o, nd)); rewrite <- Ep;
    apply pick_offset_dir).
  destruct (_ || _); [split; [auto|split; [auto|lia]]|].
  destruct (_ && _); (split; [auto|split; [auto|]]); [lia|]. eauto.
Qed.

Lemma try_resolve_ok a g r c : grav_ok g ->
  accum_ok (fst (try_resolve_offset a g r c)) /\ grav_ok (snd (try_resolve_offset a g r c)).
Proof.
  intros Hg. unfold try_resolve_offset.
  pose proof (resolve_spec r c (trimmed_mean g) (z_dir g)) as H.
  destruct (resolve_gravity_offset _ _ _ _) as [[rc zd] off]. destruct H as (Hrc & Hzd & _).
  split; [apply reset_ok|]. simpl.
  assert (grav_ok (set_z_dir zd g)) as Hg'.
  { apply set_z_dir_ok; [|done]. destruct Hg as (_ & _ & _ & ?). destruct Hzd; lia. }
  destruct rc as [|[| |]|]; try done. destruct off; auto with orient.
Qed.

Lemma trimmed_mean_ok g : grav_ok g -> grav_ok (update_offset_trimmed_mean g).
Proof.
  intros Hg. unfold update_offset_trimmed_mean. destruct (_ <? _); [done|].
  destruct (foldl _ _ _) as [[? ?] ?]. destruct Hg as (? & ? & ? & ?). repeat split; simpl; auto; lia.
Qed.

Lemma drift_ok a g v q : accum_ok a -> grav_ok g ->
  accum_ok (fst (handle_stable_drift a g v q)) /\ grav_ok (snd (handle_stable_drift a g v q)).
Proof.
  intros Ha Hg. unfold handle_stable_drift.
  set (a1 := update_peak_trough (accumulate_sample a v) v).
  assert (accum_ok a1) as Ha1.
  { destruct Ha as [? ?]. unfold a1, update_peak_trough. simpl.
    destruct (_ =? 1); split; simpl; auto; lia. }
  clearbody a1. destruct (_ <? 2); [done|].
  set (a2 := detect_outlier a1 (z_ v)).
  assert (accum_ok a2) as Ha2.
  { destruct Ha1 as [? ?]. unfold a2, detect_outlier. split; simpl; [done|].
    destruct (_ && _); [auto|]. destruct (_ && _); auto. }
  clearbody a2. destruct (negb _); [by apply try_resolve_ok|].
  destruct (_ >=? 1000); simpl; [|done]. split; [done|]. unfold handle_long_stable.
  destruct (f_lt _ _); auto with orient.
Qed.

Lemma tracking_ok a g v q m : accum_ok a -> grav_ok g ->
  let '(rc, a', g', m') := update_gravity_tracking a g v q m in
  accum_ok a' /\ grav_ok g' /\ (rc = 0 \/ rc = -1) /\ m' = m.
Proof.
  intros Ha Hg. unfold update_gravity_tracking.
  destruct (_ && _ && _).
  { split; [done|]. split; [unfold bootstrap_reference; auto with orient|auto]. }
  destruct (_ && _); [split; [done|split; [by apply set_ref_ok|auto]]|].
  set (p := if f_le _ _ then _ else _).
  assert (accum_ok (fst p) /\ grav_ok (snd p)) as [Hp1 Hp2].
  { unfold p. destruct (f_le _ _); [by apply drift_ok|by apply try_resolve_ok]. }
  clearbody p. destruct p as [a1 g1]. simpl in Hp1, Hp2.
  set (g2 := set_ref v (update_offset_trimmed_mean g1)).
  assert (grav_ok g2) as Hg2 by (unfold g2; auto using trimmed_mean_ok with orient).
  clearbody g2. assert (offset_init g2 = 0) as H3 by apply Hg2. rewrite H3. simpl.
  split; [done|]. split; [|auto].
  destruct (f_gt _ _); [apply set_z_dir_ok; [lia|done]|].
  destruct (f_lt _ _); [apply set_z_dir_ok; [lia|done]|done].
Qed.

Lemma median_ok m z : length (z_median_buf m) = 3%nat -> 0 <= z_median_count m <= 3 ->
  length (z_median_buf (fst (median_filter_z m z))) = 3%nat /\
  0 <= z_median_count (fst (median_filter_z m z)) <= 3.
Proof.
  intros H1 H2. unfold median_filter_z. destruct (Z.ltb_spec (z_median_count m) 3); simpl;
    rewrite ?aset_length; split; auto; lia.
Qed.

Lemma stability_ok a v : accum_ok a -> accum_ok (stability a v).
Proof.
  intros [? ?]. unfold stability, ORIENT_STABLE_MIN. destruct (f_gt _ _); [apply reset_ok|].
  destruct (_ <=? _); split; simpl; auto; lia.
Qed.

Lemma tracking_input_ok a r : accum_ok a -> accum_ok (snd (tracking_input a r)).
Proof. intros Ha. unfold tracking_input. destruct (f_lt _ _); [apply reset_ok|done]. Qed.

Lemma update_orientation_inv (s : OrientState) (v : Vec3) :
  orient_ok s ->
  let '(rc, s') := update_orientation s v in
  orient_ok s' /\ (rc = 0 \/ rc = 1) /\
  (rc = 1 -> buf_full (ring s') = 1 /\ out_mean (outp s') = f0 /\
             f_lt (f_abs (gravity_offset (grav s'))) c_1e_6 = false).
Proof.
  intros (Hm1 & Hm2 & Hr & Ha & Hg). unfold update_orientation.
  pose proof (median_ok (med s) (z_ v) Hm1 Hm2) as Hm.
  destruct (median_filter_z (med s) (z_ v)) as [m z]. simpl in Hm. destruct Hm as [Hm1' Hm2'].
  set (inp := V3 _ _ _). set (e := ema_smooth _ _).
  pose proof (store_ok (ring s) inp Hr) as Hr'. set (r := store_in_buffer _ _) in *.
  clearbody r e.
  destruct (Z.eqb_spec (buf_full r) 0) as [H0|H0]; [by split_and!; auto|].
  assert (buf_full r = 1) as H1 by (destruct Hr' as (_ & _ & _ & _ & ?); lia).
  set (mv := max_buffer_variance r). pose proof (stability_ok _ mv Ha) as Hs.
  set (a := stability _ _) in *. clearbody a.
  destruct (ORIENT_STABLE_MIN <? stable_count a).
  - pose proof (tracking_input_ok a r Hs) as Hti.
    destruct (tracking_input a r) as [[avg q] a2]. simpl in Hti.
    pose proof (tracking_ok a2 (grav s) avg q f0 Hti Hg) as Ht.
    destruct (update_gravity_tracking _ _ _ _ _) as [[[rc a3] g3] m3].
    destruct Ht as (Ha3 & Hg3 & Hrc & ->).
    destruct (rc <? 0); [by split_and!; auto|].
    destruct (f_lt _ _) eqn:E; [by split_and!; auto|]. simpl. by split_and!; auto.
  - destruct (f_lt _ _) eqn:E; [by split_and!; auto|]. simpl. by split_and!; auto.
Qed.

Lemma run_filter_ok l : orient_ok (run_filter l).
Proof.
  induction l as [|v l IH] using rev_ind; [apply orient_init_ok|].
  rewrite run_filter_snoc.
  pose proof (update_orientation_inv _ v IH) as H.
  destruct (update_orientation (run_filter l) v) as [rc s']. apply H.
Qed.

(** The invariant is preserved, no sample is ever classified as [2], and [1]
    needs a full buffer and a known gravity offset. *)
Theorem update_orientation_ok (s : OrientState) (v : Vec3) :
  orient_ok s ->
  let '(rc, s') := update_orientation s v in
  orient_ok s' /\ (rc = 0 \/ rc = 1) /\
  (rc = 1 -> buf_full (ring s') = 1 /\ out_mean (outp s') = f0 /\
             f_lt (f_abs (gravity_offset (grav s'))) c_1e_6 = false).
Proof. apply update_orientation_inv. Qed.

Lemma update_orientation_ok_witness :
  orient_ok orient_init /\
  let '(rc, s') := update_orientation orient_init (V3 f0 c_1 f0) in
  orient_ok s' /\ (rc = 0 \/ rc = 1) /\
  (rc = 1 -> buf_full (ring s') = 1 /\ out_mean (outp s') = f0 /\
             f_lt (f_abs (gravity_offset (grav s'))) c_1e_6 = false).
Proof.
  split; [exact orient_init_ok|].
  exact (update_orientation_ok orient_init (V3 f0 c_1 f0) orient_init_ok).
Defined.

(** ** The ring buffer *)

Lemma run_ring_index l :
  ring_ok (run_ring l) /\ buf_idx (run_ring l) = Z.of_nat (length l) mod 20 /\
  buf_full (run_ring l) = (if (20 <=? length l)%nat then 1 else 0).
Proof.
  induction l as [|v l (IH1 & IH2 & IH3)] using rev_ind.
  { split; [|done]. split_and!; simpl; try done; try lia. }
  rewrite run_ring_snoc.
  split; [by apply store_ok|]. rewrite length_app. simpl length.
  unfold store_in_buffer, ORIENT_BUF_SIZE. rewrite IH2, IH3.
  destruct (Z.geb_spec (Z.of_nat (length l) mod 20 + 1) 20) as [H|H];
    cbn [buf_full buf_idx].
  - split; [Z.div_mod_to_equations; lia|].
    destruct (Nat.leb_spec 20 (length l + 1)); [done|].
    rewrite Z.mod_small in H by lia. lia.
  - split; [Z.div_mod_to_equations; lia|].
    destruct (Nat.leb_spec 20 (length l)), (Nat.leb_spec 20 (length l + 1)); try done; [lia|].
    exfalso. assert (length l = 19)%nat as El by lia. rewrite El in H. vm_compute in H. done.
Qed.

Lemma store_slot r i (w : float) (b : list float) :
  length b = 20%nat -> 0 <= buf_idx r < 20 -> 0 <= i < 20 ->
  aget (aset b (buf_idx r) w) i = if i =? buf_idx r then w else aget b i.
Proof.
  intros Hb Hi Hi'. destruct (Z.eqb_spec i (buf_idx r)) as [->|Hn].
  - apply aset_get_same. lia.
  - apply aset_get_other; lia.
Qed.

(** After storing [l], slot [k mod 20] of each axis holds sample [k], for the
    last twenty samples. *)
Theorem ring_holds_last_samples (l : list Vec3) (k : nat) (v : Vec3) :
  l !! k = Some v -> (length l <= k + 20)%nat ->
  let r := run_ring l in
  let i := Z.of_nat k mod 20 in
  aget (buf_x r) i = x_ v /\ aget (buf_y r) i = y_ v /\ aget (buf_z r) i = z_ v.
Proof.
  revert k v. induction l as [|w l IH] using rev_ind; [done|]. intros k v Hk Hlen.
  rewrite length_app in Hlen. simpl in Hlen.
  rewrite run_ring_snoc.
  destruct (run_ring_index l) as ((H1 & H2 & H3 & Hi & _) & Hidx & _).
  assert (Hin : 0 <= Z.of_nat k mod 20 < 20) by (apply Z.mod_pos_bound; lia).
  assert (Hs : forall b (f : float), length b = 20%nat ->
    aget (aset b (buf_idx (run_ring l)) f) (Z.of_nat k mod 20) =
    if Z.of_nat k mod 20 =? buf_idx (run_ring l) then f else aget b (Z.of_nat k mod 20)).
  { intros b f Hb. by apply store_slot. }
  assert (Hr : aget (buf_x (store_in_buffer (run_ring l) w)) (Z.of_nat k mod 20) =
      (if Z.of_nat k mod 20 =? buf_idx (run_ring l) then x_ w
       else aget (buf_x (run_ring l)) (Z.of_nat k mod 20)) /\
    aget (buf_y (store_in_buffer (run_ring l) w)) (Z.of_nat k mod 20) =
      (if Z.of_nat k mod 20 =? buf_idx (run_ring l) then y_ w
       else aget (buf_y (run_ring l)) (Z.of_nat k mod 20)) /\
    aget (buf_z (store_in_buffer (run_ring l) w)) (Z.of_nat k mod 20) =
      (if Z.of_nat k mod 20 =? buf_idx (run_ring l) then z_ w
       else aget (buf_z (run_ring l)) (Z.of_nat k mod 20))).
  { unfold store_in_buffer. destruct (_ >=? _); simpl; by rewrite !Hs. }
  cbv zeta. destruct Hr as (-> & -> & ->). rewrite Hidx.
  destruct (decide (k = length l)) as [->|Hne].
  - rewrite Z.eqb_refl. rewrite lookup_app_r, Nat.sub_diag in Hk by lia. by injection Hk as ->.
  - assert (k < length l)%nat as Hkl.
    { apply lookup_lt_Some in Hk. rewrite length_app in Hk. simpl in Hk. lia. }
    rewrite lookup_app_l in Hk by done.
    rewrite (proj2 (Z.eqb_neq _ _)); [apply IH; [done|lia]|].
    intros E. assert (Z.of_nat (length l) - Z.of_nat k < 20) by lia.
    Z.div_mod_to_equations. lia.
Qed.

Lemma ring_holds_last_samples_witness :
  let r := run_ring (replicate 24 v0 ++ [V3 c_1 c_3 c_20]) in
  aget (buf_x r) 4 = c_1 /\ aget (buf_y r) 4 = c_3 /\ aget (buf_z r) 4 = c_20.
Proof.
  exact (ring_holds_last_samples (replicate 24 v0 ++ [V3 c_1 c_3 c_20]) 24 (V3 c_1 c_3 c_20)
    eq_refl ltac:(simpl; lia)).
Defined.

(** The ring of a filter run only sees how many samples came before. *)
Lemma run_filter_ring_index l :
  buf_idx (ring (run_filter l)) = Z.of_nat (length l) mod 20 /\
  buf_full (ring (run_filter l)) = (if (20 <=? length l)%nat then 1 else 0).
Proof.
  assert (exists l', length l' = length l /\ ring (run_filter l) = run_ring l') as (l' & Hl & ->).
  { induction l as [|v l (l' & Hl & IH)] using rev_ind; [by exists []|].
    rewrite run_filter_snoc. unfold update_orientation.
    destruct (median_filter_z _ _) as [m z]. set (inp := V3 _ _ _).
    exists (l' ++ [inp]). split; [rewrite !length_app; simpl; lia|].
    rewrite run_ring_snoc, <- IH. destruct (_ =? 0); [done|].
    destruct (_ <? _).
    - destruct (tracking_input _ _) as [[? ?] ?].
      destruct (update_gravity_tracking _ _ _ _ _) as [[[? ?] ?] ?].
      destruct (_ <? 0); [done|]. destruct (f_lt _ _); [done|]. by destruct (f_gt _ _).
    - destruct (f_lt _ _); [done|]. by destruct (f_gt _ _). }
  rewrite <- Hl. apply run_ring_index.
Qed.

(** The filter reports nothing for the first nineteen samples. *)
Theorem filter_warm_up (l : list Vec3) (v : Vec3) :
  (length l < 19)%nat -> fst (update_orientation (run_filter l) v) = 0.
Proof.
  intros Hl. destruct (run_filter_ring_index (l ++ [v])) as [_ Hf].
  rewrite run_filter_snoc, length_app in Hf. simpl length in Hf.
  rewrite (proj2 (Nat.leb_gt 20 _)) in Hf by lia.
  pose proof (update_orientation_inv (run_filter l) v (run_filter_ok l)) as H.
  destruct (update_orientation (run_filter l) v) as [rc s']. simpl in *.
  destruct H as (_ & [->| ->] & H1); [done|]. destruct (H1 eq_refl) as [Hb _]. lia.
Qed.

Lemma filter_warm_up_witness :
  (length (replicate 18 (V3 f0 c_1 f0)) < 19)%nat /\
  fst (update_orientation (run_filter (replicate 18 (V3 f0 c_1 f0))) (V3 f0 c_1 f0)) = 0.
Proof. split; [simpl; lia|apply filter_warm_up; simpl; lia]. Defined.

(** ** Median *)

(** Of three numbers (no NaN), [median3] returns one that at least two are
    below or equal to and at least two are above or equal to. *)
Theorem median3_is_median (a b c : float) :
  not_nan a = true -> not_nan b = true -> not_nan c = true ->
  let r := median3 a b c in
  r ∈ [a; b; c] /\ (2 <= count (fun x => f_le x r) [a; b; c])%nat /\
  (2 <= count (fun x => f_le r x) [a; b; c])%nat.
Proof.
  intros Ha Hb Hc r. unfold r, median3, count.
  pose proof (f_le_refl a Ha) as Raa. pose proof (f_le_refl b Hb) as Rbb.
  pose proof (f_le_refl c Hc) as Rcc.
  assert (Hlt : forall x y, f_gt x y = true -> f_le y x = true) by (intros; by apply f_lt_le).
  destruct (f_gt a b) eqn:E1; [apply Hlt in E1|apply f_gt_false in E1; [|done..]].
  - destruct (f_gt a c) eqn:E2; [apply Hlt in E2|apply f_gt_false in E2; [|done..]].
    + destruct (f_gt b c) eqn:E3; [apply Hlt in E3|apply f_gt_false in E3; [|done..]];
        (split; [set_solver|]); simpl; rewrite ?Raa, ?Rbb, ?Rcc, ?E1, ?E2, ?E3;
        repeat destruct (f_le _ _); simpl; lia.
    + destruct (f_gt b a) eqn:E3; [apply Hlt in E3|apply f_gt_false in E3; [|done..]];
        (split; [set_solver|]); simpl;
        pose proof (f_le_trans b a c Ha E1 E2) as E4; rewrite ?Raa, ?Rbb, ?Rcc, ?E1, ?E2, ?E3, ?E4;
        repeat destruct (f_le _ _); simpl; lia.
  - destruct (f_gt b c) eqn:E2; [apply Hlt in E2|apply f_gt_false in E2; [|done..]].
    + destruct (f_gt a c) eqn:E3; [apply Hlt in E3|apply f_gt_false in E3; [|done..]];
        (split; [set_solver|]); simpl; rewrite ?Raa, ?Rbb, ?Rcc, ?E1, ?E2, ?E3;
        repeat destruct (f_le _ _); simpl; lia.
    + destruct (f_gt a b) eqn:E3; [apply Hlt in E3|apply f_gt_false in E3; [|done..]];
        (split; [set_solver|]); simpl;
        pose proof (f_le_trans a b c Hb E1 E2) as E4; rewrite ?Raa, ?Rbb, ?Rcc, ?E1, ?E2, ?E3, ?E4;
        repeat destruct (f_le _ _); simpl; lia.
Qed.

Lemma median3_is_median_witness :
  let r := median3 c_20 c_1 c_3 in
  r ∈ [c_20; c_1; c_3] /\ (2 <= count (fun x => f_le x r) [c_20; c_1; c_3])%nat /\
  (2 <= count (fun x => f_le r x) [c_20; c_1; c_3])%nat.
Proof. exact (median3_is_median c_20 c_1 c_3 eq_refl eq_refl eq_refl). Defined.

(** ** Peak and trough *)

Lemma drift_peak a g avg q : 11 <= stable_count a ->
  let p' := peak (fst (handle_stable_drift a g avg q)) in
  p' = peak a \/ f_gt (z_ p') (z_ (peak a)) = true.
Proof.
  intros Hc. unfold handle_stable_drift. set (a1 := update_peak_trough _ _).
  assert (peak a1 = peak a \/ f_gt (z_ (peak a1)) (z_ (peak a)) = true) as H1.
  { unfold a1, update_peak_trough. simpl. rewrite (proj2 (Z.eqb_neq _ _)) by lia. simpl.
    destruct (f_gt (z_ avg) (z_ (peak a))) eqn:E; auto. }
  clearbody a1. destruct (_ <? 2); [exact H1|].
  destruct (negb _).
  - unfold try_resolve_offset. destruct (resolve_gravity_offset _ _ _ _) as [[? ?] ?]. exact H1.
  - destruct (_ >=? 1000); exact H1.
Qed.

(** As long as the averaged sample stays in the unit disc, the recorded peak is
    kept or replaced by a higher one, through every reset of the accumulator:
    the outlier test compares against peaks of earlier stable phases. *)
Theorem peak_survives_reset (s : OrientState) (v : Vec3) :
  unit_disc (ring (snd (update_orientation s v))) = true ->
  let p' := peak (accum (snd (update_orientation s v))) in
  p' = peak (accum s) \/ f_gt (z_ p') (z_ (peak (accum s))) = true.
Proof.
  unfold update_orientation, unit_disc. destruct (median_filter_z _ _) as [m z].
  set (e := ema_smooth _ _). set (r := store_in_buffer _ _). clearbody e r.
  destruct (_ =? 0); [by left|]. set (mv := max_buffer_variance r).
  assert (peak (stability (accum s) mv) = peak (accum s)) as Hs.
  { unfold stability. destruct (f_gt _ _); [done|]. by destruct (_ <=? _). }
  set (a := stability _ _) in *. clearbody a. rewrite <- Hs.
  destruct (Z.ltb_spec ORIENT_STABLE_MIN (stable_count a)) as [Hc|_].
  2:{ destruct (f_lt (f_abs _) c_1e_6); [by left|]. destruct (f_gt (f_abs _) c_1e_6); by left. }
  unfold tracking_input. destruct (f_lt (f32_sub c_1 _) f0) eqn:E.
  { assert (negb (f_lt (xy_rest r) f0) = true -> False) as Hno
      by (unfold xy_rest; by rewrite E).
    destruct (update_gravity_tracking _ _ _ _ _) as [[[rc a3] g3] m3].
    destruct (rc <? 0); [intros H; exfalso; exact (Hno H)|].
    destruct (f_lt (f_abs _) c_1e_6); [intros H; exfalso; exact (Hno H)|].
    destruct (f_gt (f_abs _) c_1e_6); intros H; exfalso; exact (Hno H). }
  intros _. unfold update_gravity_tracking. destruct (_ && _ && _).
  { destruct (0 <? 0); [by left|]. destruct (f_lt (f_abs _) c_1e_6); [by left|]. destruct (f_gt (f_abs _) c_1e_6); by left. }
  destruct (_ && _); [by left|].
  set (p := if f_le _ _ then _ else _).
  assert (peak (fst p) = peak a \/ f_gt (z_ (peak (fst p))) (z_ (peak a)) = true) as Hp.
  { unfold p. destruct (f_le _ _).
    - apply drift_peak. unfold ORIENT_STABLE_MIN in Hc. lia.
    - unfold try_resolve_offset. destruct (resolve_gravity_offset _ _ _ _) as [[? ?] ?]. by left. }
  clearbody p. destruct p as [a1 g1]. simpl in Hp.
  destruct (if negb _ && _ then _ else _) as [g4 m4].
  destruct (0 <? 0); [exact Hp|]. destruct (f_lt (f_abs _) c_1e_6); [exact Hp|]. destruct (f_gt (f_abs _) c_1e_6); exact Hp.
Qed.

(** A full buffer of level samples: the averages are in the unit disc. *)
Lemma peak_survives_reset_witness :
  let s := run_filter (replicate 20 (V3 f0 c_half f0)) in
  let v := V3 f0 c_half f0 in
  unit_disc (ring (snd (update_orientation s v))) = true /\
  let p' := peak (accum (snd (update_orientation s v))) in
  p' = peak (accum s) \/ f_gt (z_ p') (z_ (peak (accum s))) = true.
Proof.
  intros s v. assert (unit_disc (ring (snd (update_orientation s v))) = true) as H
    by (vm_compute; reflexivity).
  split; [exact H|exact (peak_survives_reset s v H)].
Defined.

(** ** Classification *)

(** A reading too close to the vertical is [-1]; otherwise the axis with the
    larger reading decides, and its sign gives the orientation. *)
Theorem classify_range (v : Vec3) :
  -1 <= classify_orientation v <= 3 /\
  (classify_orientation v = -1 <->
   f_lt (f_abs (x_ v)) c_0_4 = true /\ f_lt (f_abs (y_ v)) c_0_4 = true).
Proof.
  unfold classify_orientation. destruct (f_lt (f_abs (x_ v)) c_0_4), (f_lt (f_abs (y_ v)) c_0_4);
    simpl; try (split; [lia|tauto]).
  all: destruct (f_ge _ _); [destruct (f_lt _ _)|destruct (f_gt _ _)]; simpl;
    (split; [lia|split; [lia|intros [? ?]; done]]).
Qed.
