(* ===== verification/MxcDevice.v ===== *)
(** * The devices behind the MXC6655 driver (drv-mxc6655-accel.c, 167-560)

    DRM panel orientation, raw I2C access to the two accelerometers, the
    acpi_call interface with the GMTR package, and the uinput device. *)

From stdpp Require Import base list strings gmultiset pretty.
From Stdlib Require Import ZArith Lia SpecFloat QArith Ascii.
From S2P Require Import Prelude Floats Drivers Os MxcFilter.

#[local] Open Scope string_scope.
#[local] Open Scope list_scope.
#[local] Open Scope Z_scope.
#[local] Open Scope prog_scope.

(** ** Panel rotation *)

Definition PANEL_ORIENT_UNKNOWN := -1.
Definition PANEL_ORIENT_NORMAL := 0.
Definition PANEL_ORIENT_BOTTOM_UP := 1.
Definition PANEL_ORIENT_LEFT_UP := 2.
Definition PANEL_ORIENT_RIGHT_UP := 3.
Definition DRM_PANEL_ORIENT_PROP := "panel orientation".
Definition DRM_MODE_CONNECTOR_DSI := 16.

Definition panel_orient_degrees (drm_orient : Z) : Z :=
  if drm_orient =? PANEL_ORIENT_LEFT_UP then 90
  else if drm_orient =? PANEL_ORIENT_BOTTOM_UP then 180
  else if drm_orient =? PANEL_ORIENT_RIGHT_UP then 270
  else 0.

(** C's [%] and [/] truncate towards zero. *)
Definition compose_orientation (mxc_orient panel_deg : Z) : Z :=
  let deg := Z.rem (Z.rem (mxc_orient * 90 - panel_deg) 360 + 360) 360 in
  Z.quot deg 90.

(** libdrm: [conn->props[i]] and [conn->prop_values[i]] are paired. *)
Record Connector := { connector_type : Z; conn_props : list (Z * Z) }.

Class Drm := {
  drm_resources : Trace -> Z -> option (list Z);
  drm_connector : Trace -> Z -> Z -> option Connector;
  drm_property : Trace -> Z -> Z -> option string
}.

(** ** C library *)

(** [strstr (s, sub) != NULL] *)
Definition contains (sub s : string) : bool :=
  match String.index 0 sub s with Some _ => true | None => false end.

(** [s + n] *)
Definition str_drop (n : nat) (s : string) : string := String.substring n (String.length s - n) s.

Definition is_space (c : ascii) : bool :=
  let n := N_of_ascii c in (N.eqb n 32 || (N.leb 9 n && N.leb n 13))%N.

Fixpoint digits_from (acc : Z) (s : string) : Z :=
  match s with
  | EmptyString => acc
  | String c s' =>
      let n := Z.of_N (N_of_ascii c) in
      if (48 <=? n) && (n <=? 57) then digits_from (acc * 10 + (n - 48)) s' else acc
  end.

Fixpoint atoi (s : string) : Z :=
  match s with
  | EmptyString => 0
  | String c s' =>
      if is_space c then atoi s'
      else if Ascii.eqb c "-" then - digits_from 0 s'
      else if Ascii.eqb c "+" then digits_from 0 s'
      else digits_from 0 s
  end.

(** The characters before the first [c] ([strchr] and a NUL written there). *)
Fixpoint until (c : ascii) (s : string) : string :=
  match s with
  | EmptyString => EmptyString
  | String d s' => if Ascii.eqb c d then EmptyString else String d (until c s')
  end.

Definition NUL : ascii := "000".

(** ** Constants *)

Definition MXC6655_REG_XOUT := 0x03.
Definition MXC6655_REG_DEVID := 0x0E.
Definition ACPI_CALL_PATH := "/proc/acpi/call".
Definition ACPI_LTSM_CMD := "\_SB.ACMK.LTSM".
Definition ACPI_GMTR_CMD := "\_SB.ACMK.GMTR".
Definition ACPI_MATCH_ID := "MDA6655".
Definition I2C_UNBIND_DRIVER := "mxc4005".
Definition MAX_DRM_CARD : nat := 4.
Definition MAX_INPUT_DEV : nat := 32.
Definition LID_SWITCH_NAME := "Lid Switch".
Definition UINPUT_DEV_NAME := "MXC6655 Tablet Mode Control".
Definition EV_SYN := 0.
Definition EV_SW := 5.
Definition SW_LID := 0.
Definition SW_TABLET_MODE := 1.
Definition SYN_REPORT := 0.
Definition BUS_VIRTUAL := 6.

Definition GMTR_TABLET_THRESH : float := Eval vm_compute in F 185 1.
Definition GMTR_LAPTOP_THRESH : float := Eval vm_compute in F 175 1.
Definition GMTR_MIN_ANGLE : float := Eval vm_compute in F 30 1.
Definition GMTR_DEBOUNCE := 5.
Definition GMTR_POLL_MS := 50.
Definition GRAVITY_MIN : float := Eval vm_compute in F 3 10.
Definition ACCEL_SCALE : float := Eval vm_compute in F 24414063 100000000000.
Definition c_1e_5 : float := Eval vm_compute in F 1 100000.
Definition c_360 : float := Eval vm_compute in F 360 1.
Definition deg_per_rad : float := Eval vm_compute in f32_div (F 180 1) (F 314 100).

(** ** Calibration data *)

Record Calib := Cal {
  cal1 : list Z; cal2 : list Z;
  tablet_thresh : float; laptop_thresh : float; min_angle : float
}.

Definition cal1_default : list Z := [1; 0; 0; 0; 1; 0; 0; 0; 1].
Definition cal2_default : list Z := [1; 0; 0; 0; -1; 0; 0; 0; -1].

Definition set_thresholds (t l m : float) (c : Calib) : Calib := Cal (cal1 c) (cal2 c) t l m.

(** What [mxc6655_open] stores before GMTR is read. *)
Definition cal_default : Calib := Cal cal1_default cal2_default f0 f0 f0.

Definition mcoef (m : list Z) (i : nat) : float := f32_of_Z (nth i m 0).

Definition calibrate (v : Vec3) (m : list Z) : Vec3 :=
  let row i := f32_add (f32_add (f32_mul (mcoef m i) (x_ v)) (f32_mul (mcoef m (i + 1)) (y_ v)))
                       (f32_mul (mcoef m (i + 2)) (z_ v)) in
  V3 (row 0%nat) (row 3%nat) (row 6%nat).

(** One axis: big-endian, signed 16 bits, times 1/4096. *)
Definition axis_raw (hi lo : Z) : Z := sint 16 (Z.lor (Z.shiftl hi 8) lo).
Definition axis_value (hi lo : Z) : float := f32_mul (f32_of_Z (axis_raw hi lo)) ACCEL_SCALE.

(** ** GMTR *)

Section Gmtr.
Variable g_strsplit : string -> string -> list string.
Variable g_ascii_strtoull : string -> Z.

(** At most [max_values] of the elements that are not empty. *)
Definition parse_acpi_package (buf : string) (max_values : nat) : list Z :=
  match buf with
  | String c rest =>
      if Ascii.eqb c "{" then
        map g_ascii_strtoull
          (take max_values
             (List.filter (fun e => negb (String.eqb e "")) (g_strsplit (until "}" rest) ", ")))
      else []
  | EmptyString => []
  end.
End Gmtr.

(** [values[i]] for [i] below the count. *)
Definition store_gint8 (values : list Z) (base : nat) (m : list Z) : list Z :=
  imap (fun i old => match values !! (base + i)%nat with Some v => sint 8 v | None => old end) m.

Definition threshold (values : list Z) (i : nat) (old : float) : float :=
  match values !! i with Some v => if 0 <? v then f32_of_Z v else old | None => old end.

Definition apply_gmtr_values (c : Calib) (values : list Z) : Calib :=
  Cal (store_gint8 values 0 (cal1 c)) (store_gint8 values 9 (cal2 c))
      (threshold values 18 (tablet_thresh c)) (threshold values 19 (laptop_thresh c))
      (threshold values 20 (min_angle c)).

(** ** Calls *)

Section Devices.
Context `{Os} `{Drm} {S : Type} `{HasTrace S}.

Fixpoint prop_orientation (fd : Z) (props : list (Z * Z)) : M S Z :=
  match props with
  | [] => ret PANEL_ORIENT_UNKNOWN
  | (p, v) :: props' =>
      prop <- ask (fun h => drm_property h fd p) ;;
      let value := match prop with
                   | Some name => if String.eqb name DRM_PANEL_ORIENT_PROP then sint 32 v
                                  else PANEL_ORIENT_UNKNOWN
                   | None => PANEL_ORIENT_UNKNOWN
                   end in
      if negb (value =? PANEL_ORIENT_UNKNOWN) then ret value else prop_orientation fd props'
  end.

Definition connector_panel_orientation (fd : Z) (conn : Connector) : M S Z :=
  prop_orientation fd (conn_props conn).

Fixpoint connectors_orientation (fd : Z) (conns : list Z) : M S Z :=
  match conns with
  | [] => ret PANEL_ORIENT_UNKNOWN
  | c :: conns' =>
      conn <- ask (fun h => drm_connector h fd c) ;;
      match conn with
      | None => connectors_orientation fd conns'
      | Some conn =>
          orient <- (if connector_type conn =? DRM_MODE_CONNECTOR_DSI
                     then connector_panel_orientation fd conn else ret PANEL_ORIENT_UNKNOWN) ;;
          if negb (orient =? PANEL_ORIENT_UNKNOWN) then ret orient
          else connectors_orientation fd conns'
      end
  end.

Definition card_panel_orientation (fd : Z) : M S Z :=
  r <- ask (fun h => drm_resources h fd) ;;
  match r with
  | None => ret PANEL_ORIENT_UNKNOWN
  | Some conns => connectors_orientation fd conns
  end.

Fixpoint read_panel_orientation_from (cards : list nat) : M S Z :=
  match cards with
  | [] => ret PANEL_ORIENT_UNKNOWN
  | card :: cards' =>
      fd <- sys_open ("/dev/dri/card" +:+ pretty (Z.of_nat card)) ;;
      if fd <? 0 then read_panel_orientation_from cards'
      else
        orient <- card_panel_orientation fd ;;
        sys_close fd ;;;
        if negb (orient =? PANEL_ORIENT_UNKNOWN) then ret orient
        else read_panel_orientation_from cards'
  end.

Definition read_panel_orientation : M S Z := read_panel_orientation_from (seq 0 MAX_DRM_CARD).

Definition detect_panel_rotation : M S Z :=
  drm_orient <- read_panel_orientation ;;
  ret (if drm_orient =? PANEL_ORIENT_UNKNOWN then 0 else panel_orient_degrees drm_orient).

(** [None]: the ioctl failed. *)
Definition i2c_xfer (fd reg : Z) (len : nat) : M S (option (list Z)) := sys_i2c fd reg len.

Definition read_accel (fd : Z) : M S (option Vec3) :=
  buf <- i2c_xfer fd MXC6655_REG_XOUT 6 ;;
  ret (match buf with
       | Some [b0; b1; b2; b3; b4; b5] =>
           Some (V3 (axis_value b0 b1) (axis_value b2 b3) (axis_value b4 b5))
       | _ => None
       end).

Definition probe_bus (bus : Z) : M S Z :=
  fd <- sys_open ("/dev/i2c-" +:+ pretty bus) ;;
  if fd <? 0 then ret (-1)
  else
    id <- i2c_xfer fd MXC6655_REG_DEVID 1 ;;
    match id with
    | None => sys_close fd ;;; ret (-1)
    | Some _ => ret fd
    end.

(** The descriptors written to [fds], in order: never more than two. *)
Fixpoint find_accels_in (devs : list (string * option string)) (found : list Z) :
    M S (list Z) :=
  match devs with
  | [] => ret found
  | (name, acpi_path) :: devs' =>
      if (2 <=? length found)%nat then ret found
      else
        match acpi_path with
        | Some path =>
            if contains ".I2C" path then
              fd <- probe_bus (atoi (str_drop 4 name)) ;;
              find_accels_in devs' (if 0 <=? fd then found ++ [fd] else found)
            else find_accels_in devs' found
        | None => find_accels_in devs' found
        end
  end.

Definition find_accels : M S (list Z) := l <- sys_udev "i2c" ;; find_accels_in l [].

Definition unbind_name (i idx : nat) : string :=
  (if (i =? 0)%nat then "i2c-" else "") +:+ ACPI_MATCH_ID +:+ ":0" +:+ pretty (Z.of_nat idx).

Definition try_unbind : M S unit :=
  mfor [(0%nat, "/sys/bus/i2c/drivers/" +:+ I2C_UNBIND_DRIVER +:+ "/unbind");
        (1%nat, "/sys/bus/acpi/drivers/" +:+ I2C_UNBIND_DRIVER +:+ "/unbind")]
    (fun '(i, path) =>
       fd <- sys_open path ;;
       if fd <? 0 then ret tt
       else
         mfor (seq 0 4) (fun idx => sys_write fd (unbind_name i idx) ;;; ret tt) ;;;
         sys_close fd) ;;;
  usleep 200000.

(** The result of [call_ltsm] and the new [*warned]. *)
Definition call_ltsm (mode : Z) (warned : bool) : M S (Z * bool) :=
  fd <- sys_open ACPI_CALL_PATH ;;
  if fd <? 0 then ret (-1, true)
  else
    r <- sys_write fd (ACPI_LTSM_CMD +:+ " " +:+ pretty mode) ;;
    sys_close fd ;;;
    ret (if 0 <? r then 0 else -1, warned).

(** The C string left in [buf]; [None]: -1. *)
Definition acpi_call_read (cmd : string) (buf_size : Z) : M S (option string) :=
  fd <- sys_open ACPI_CALL_PATH ;;
  if fd <? 0 then ret None
  else
    w <- sys_write fd cmd ;;
    if w <? 0 then sys_close fd ;;; ret None
    else
      d <- sys_read fd (buf_size - 1) ;;
      sys_close fd ;;;
      ret (match d with
           | None | Some EmptyString => None
           | Some buf => Some (until NUL buf)
           end).

Section LoadGmtr.
Variable g_strsplit : string -> string -> list string.
Variable g_ascii_strtoull : string -> Z.

Definition load_gmtr (c : Calib) : M S (bool * Calib) :=
  let c := set_thresholds GMTR_TABLET_THRESH GMTR_LAPTOP_THRESH GMTR_MIN_ANGLE c in
  d <- acpi_call_read ACPI_GMTR_CMD 4096 ;;
  ret (match d with
       | None => (false, c)
       | Some buf =>
           let values := parse_acpi_package g_strsplit g_ascii_strtoull buf 32 in
           if (length values <? 18)%nat then (false, c) else (true, apply_gmtr_values c values)
       end).
End LoadGmtr.

(** The requests in order, until one fails. *)
Fixpoint ioctls (fd : Z) (reqs : list Ioctl) : M S bool :=
  match reqs with
  | [] => ret true
  | r :: reqs' => x <- sys_ioctl fd r ;; if x <? 0 then ret false else ioctls fd reqs'
  end.

Definition setup_uinput : M S Z :=
  fd <- sys_open "/dev/uinput" ;;
  if fd <? 0 then ret (-1)
  else
    ok <- ioctls fd [UI_SET_EVBIT EV_SW; UI_SET_SWBIT SW_TABLET_MODE;
                     UI_DEV_SETUP BUS_VIRTUAL 0x4358 0x0001 UINPUT_DEV_NAME; UI_DEV_CREATE] ;;
    if negb ok then sys_close fd ;;; ret (-1)
    else usleep 100000 ;;; ret fd.

Definition emit_tablet_mode (fd tablet : Z) : M S unit :=
  sys_write_input fd [Ev EV_SW SW_TABLET_MODE tablet; Ev EV_SYN SYN_REPORT 0].

Fixpoint open_lid_switch_from (l : list nat) : M S Z :=
  match l with
  | [] => ret (-1)
  | i :: l' =>
      fd <- sys_open ("/dev/input/event" +:+ pretty (Z.of_nat i)) ;;
      if fd <? 0 then open_lid_switch_from l'
      else
        name <- sys_evname fd ;;
        if match name with Some n => String.eqb n LID_SWITCH_NAME | None => false end
        then ret fd
        else sys_close fd ;;; open_lid_switch_from l'
  end.

Definition open_lid_switch : M S Z := open_lid_switch_from (seq 0 MAX_INPUT_DEV).

Definition read_lid_closed (fd : Z) : M S bool :=
  bits <- sys_evsw fd ;;
  ret (match bits with
       | None => false
       | Some bits => negb (Z.land bits (Z.shiftl 1 SW_LID) =? 0)
       end).
End Devices.

(** ** Descriptors *)

Section Fds.
Context `{Os} `{Drm} {S : Type} `{HasTraceLaw S}.
Implicit Type X : gmultiset Z.

(** What a routine that returns a descriptor or -1 leaves open. *)
Abbreviation opens X m := (fdspec (fun _ => X) m (fun r (_ : S) => X ⊎ own r)).
(** A routine that closes all it opens. *)
Abbreviation balanced X m := (fdspec (fun _ => X) m (fun _ (_ : S) => X)).

Lemma own_drop X fd : fd < 0 -> X ⊎ own fd = X.
Proof. intros Hf. rewrite own_neg by done. multiset_solver. Qed.

Lemma prop_orientation_fds X fd l : balanced X (prop_orientation fd l).
Proof.
  induction l as [|[p v] l IH]; simpl; [by apply fdspec_ret_eq|].
  fd_step; [fd_step|]. fd_step; [by apply fdspec_ret_eq|exact IH].
Qed.

Lemma connectors_fds X fd l : balanced X (connectors_orientation fd l).
Proof.
  induction l as [|c l IH]; simpl; [by apply fdspec_ret_eq|].
  fd_step; [fd_step|]. destruct a as [conn|]; [|exact IH].
  eapply fdspec_bind with (Y := fun _ _ => X).
  - fd_step; [apply prop_orientation_fds|by apply fdspec_ret_eq].
  - intros o. fd_step; [by apply fdspec_ret_eq|exact IH].
Qed.

Lemma read_panel_fds X l : balanced X (read_panel_orientation_from l).
Proof.
  induction l as [|c l IH]; simpl; [by apply fdspec_ret_eq|].
  fd_step; [fd_step|]. fd_step.
  - eapply fdspec_eq; [|exact IH]. intros s. by apply own_drop.
  - eapply fdspec_bind with (Y := fun _ _ => X ⊎ own a).
    + unfold card_panel_orientation. fd_step; [fd_step|].
      destruct a0; [apply connectors_fds|by apply fdspec_ret_eq].
    + intros o. eapply fdspec_bind; [by apply fdspec_close_own|]. intros ?.
      fd_step; [by apply fdspec_ret_eq|exact IH].
Qed.

Lemma detect_panel_fds X : balanced X detect_panel_rotation.
Proof. unfold detect_panel_rotation. fd_step; [apply read_panel_fds|by apply fdspec_ret_eq]. Qed.

Lemma probe_bus_fds X bus : opens X (probe_bus bus).
Proof.
  unfold probe_bus. fd_step; [fd_step|]. fd_step.
  - apply fdspec_ret_eq. intros s. by rewrite !own_drop by lia.
  - unfold i2c_xfer. fd_step; [fd_step|]. destruct a0; [by apply fdspec_ret_eq|].
    eapply fdspec_bind; [by apply fdspec_close_own|]. intros ?. apply fdspec_ret_eq.
    intros s. by rewrite own_drop by lia.
Qed.

Definition own_all (l : list Z) : gmultiset Z := foldr (fun fd X => own fd ⊎ X) ∅ l.

Lemma own_all_app l1 l2 : own_all (l1 ++ l2) = own_all l1 ⊎ own_all l2.
Proof. induction l1 as [|x l IH]; simpl; [multiset_solver|]. rewrite IH. multiset_solver. Qed.

Lemma find_accels_in_fds X devs found :
  fdspec (fun _ => X ⊎ own_all found) (find_accels_in devs found)
         (fun r (_ : S) => X ⊎ own_all r).
Proof.
  revert found. induction devs as [|[name path] devs IH]; intros found; simpl;
    [by apply fdspec_ret_eq|].
  fd_step; [by apply fdspec_ret_eq|]. destruct path as [path|]; [|apply IH].
  fd_step; [|apply IH].
  eapply fdspec_bind; [apply probe_bus_fds|]. intros fd.
  eapply fdspec_eq; [|apply IH]. intros s. simpl. unfold own at 1.
  destruct (0 <=? fd) eqn:E; zbool; [|multiset_solver].
  rewrite own_all_app. simpl. rewrite own_nonneg by done. multiset_solver.
Qed.

Lemma find_accels_fds X :
  fdspec (fun _ => X) find_accels (fun r (_ : S) => X ⊎ own_all r).
Proof.
  unfold find_accels. fd_step; [fd_step|].
  eapply fdspec_eq; [|apply find_accels_in_fds]. intros s. simpl. multiset_solver.
Qed.

Lemma try_unbind_fds X : balanced X try_unbind.
Proof.
  unfold try_unbind. eapply fdspec_bind with (Y := fun _ _ => X); [|intros ?; fd_step].
  apply fdspec_mfor. intros [i p] _. fd_step; [fd_step|]. fd_step.
  - apply fdspec_ret_eq. intros s. by apply own_drop.
  - eapply fdspec_bind with (Y := fun _ _ => X ⊎ own a); [|intros ?; by apply fdspec_close_own].
    apply fdspec_mfor. intros idx _. fd_step; [fd_step|by apply fdspec_ret_eq].
Qed.

Lemma call_ltsm_fds X mode w : balanced X (call_ltsm mode w).
Proof.
  unfold call_ltsm. fd_step; [fd_step|]. fd_step.
  - apply fdspec_ret_eq. intros s. by apply own_drop.
  - fd_step; [fd_step|]. eapply fdspec_bind; [by apply fdspec_close_own|]. intros ?.
    by apply fdspec_ret_eq.
Qed.

Lemma acpi_call_read_fds X cmd n : balanced X (acpi_call_read cmd n).
Proof.
  unfold acpi_call_read. fd_step; [fd_step|]. fd_step.
  - apply fdspec_ret_eq. intros s. by apply own_drop.
  - fd_step; [fd_step|]. fd_step.
    + eapply fdspec_bind; [by apply fdspec_close_own|]. intros ?. by apply fdspec_ret_eq.
    + fd_step; [fd_step|]. eapply fdspec_bind; [by apply fdspec_close_own|]. intros ?.
      by apply fdspec_ret_eq.
Qed.

Lemma load_gmtr_fds sp st X c : balanced X (load_gmtr sp st c).
Proof. unfold load_gmtr. fd_step; [apply acpi_call_read_fds|by apply fdspec_ret_eq]. Qed.

Lemma ioctls_fds X fd l : balanced X (ioctls fd l).
Proof.
  induction l as [|r l IH]; simpl; [by apply fdspec_ret_eq|].
  fd_step; [fd_step|]. fd_step; [by apply fdspec_ret_eq|exact IH].
Qed.

Lemma setup_uinput_fds X : opens X setup_uinput.
Proof.
  unfold setup_uinput. fd_step; [fd_step|]. fd_step.
  - apply fdspec_ret_eq. intros s. by rewrite !own_drop by lia.
  - eapply fdspec_bind; [apply ioctls_fds|]. intros ok. fd_step.
    + eapply fdspec_bind; [by apply fdspec_close_own|]. intros ?. apply fdspec_ret_eq.
      intros s. by rewrite own_drop by lia.
    + fd_step; [fd_step|by apply fdspec_ret_eq].
Qed.

Lemma open_lid_fds X l : opens X (open_lid_switch_from l).
Proof.
  induction l as [|i l IH]; simpl.
  { apply fdspec_ret_eq. intros s. by rewrite own_drop by lia. }
  fd_step; [fd_step|]. fd_step.
  - eapply fdspec_eq; [|exact IH]. intros s. by apply own_drop.
  - fd_step; [fd_step|]. fd_step; [by apply fdspec_ret_eq|].
    eapply fdspec_bind; [by apply fdspec_close_own|]. intros ?. exact IH.
Qed.

Lemma open_lid_switch_fds X : opens X open_lid_switch.
Proof. unfold open_lid_switch. apply open_lid_fds. Qed.
End Fds.

(** ** Quiet routines *)

Section QuietDevices.
Context `{Os} `{Drm} {S : Type} `{HasTraceLaw S}.

Lemma prop_orientation_quiet fd l : quiet (prop_orientation fd l).
Proof. induction l as [|[p v] l IH]; simpl; quiet_auto; exact IH. Qed.

Lemma connectors_quiet fd l : quiet (connectors_orientation fd l).
Proof.
  induction l as [|c l IH]; simpl; quiet_auto; try exact IH; apply prop_orientation_quiet.
Qed.

Lemma detect_panel_quiet : quiet detect_panel_rotation.
Proof.
  unfold detect_panel_rotation, read_panel_orientation. quiet_step; [|quiet_auto].
  induction (seq 0 MAX_DRM_CARD) as [|c l IH]; simpl; [quiet_auto|].
  unfold card_panel_orientation. quiet_auto; try exact IH. apply connectors_quiet.
Qed.

Lemma read_accel_quiet fd : quiet (read_accel fd).
Proof. unfold read_accel, i2c_xfer. quiet_auto. Qed.

Lemma find_accels_quiet : quiet find_accels.
Proof.
  unfold find_accels. quiet_step; [quiet_auto|]. generalize ([] : list Z) as found.
  induction a as [|[name path] l IH]; intros found; simpl; [quiet_auto|].
  unfold probe_bus, i2c_xfer. quiet_auto; apply IH.
Qed.

Lemma try_unbind_quiet : quiet try_unbind.
Proof. unfold try_unbind. quiet_auto. Qed.

Lemma call_ltsm_quiet m w : quiet (call_ltsm m w).
Proof. unfold call_ltsm. quiet_auto. Qed.

Lemma load_gmtr_quiet sp st c : quiet (load_gmtr sp st c).
Proof. unfold load_gmtr, acpi_call_read. quiet_auto. Qed.

Lemma setup_uinput_quiet : quiet setup_uinput.
Proof.
  assert (forall fd l, quiet (ioctls fd l)) as Hi.
  { intros fd l. induction l as [|r l IH]; simpl; quiet_auto. exact IH. }
  unfold setup_uinput. quiet_auto; apply Hi.
Qed.

Lemma open_lid_quiet : quiet open_lid_switch.
Proof.
  unfold open_lid_switch. induction (seq 0 MAX_INPUT_DEV) as [|c l IH]; simpl; quiet_auto;
    exact IH.
Qed.

Lemma read_lid_quiet fd : quiet (read_lid_closed fd).
Proof. unfold read_lid_closed. quiet_auto. Qed.

Lemma emit_tablet_quiet fd m : quiet (emit_tablet_mode fd m).
Proof. unfold emit_tablet_mode. quiet_auto. Qed.
End QuietDevices.

#[export] Hint Resolve detect_panel_quiet read_accel_quiet find_accels_quiet try_unbind_quiet
  call_ltsm_quiet load_gmtr_quiet setup_uinput_quiet open_lid_quiet read_lid_quiet
  emit_tablet_quiet quiet_bind quiet_ret : quiet.

(** ** What [find_accels] finds *)

(** At most two descriptors, all of them open ones. *)
Definition accels_ok (l : list Z) : Prop := (length l <= 2)%nat /\ Forall (fun fd => 0 <= fd) l.

Section Find.
Context `{Os} {S : Type} `{HasTraceLaw S}.

Lemma find_accels_in_ok devs found (s : S) : accels_ok found ->
  wp (find_accels_in devs found) (fun r _ => accels_ok r) s.
Proof.
  revert found s. induction devs as [|[name path] devs IH]; intros found s Hf; cbn [find_accels_in]; [done|].
  apply wp_if; [done|]. intros Hlt. apply Nat.leb_gt in Hlt.
  destruct path as [path|]; [|by apply IH]. apply wp_if; [|intros _; by apply IH].
  intros _. apply wp_bind. unfold wp at 1. apply IH. destruct Hf as [Hl Hf].
  destruct (0 <=? _) eqn:E; zbool; [|done]. split.
  - rewrite length_app. simpl. lia.
  - apply Forall_app. auto.
Qed.

Lemma find_accels_ok (s : S) : wp find_accels (fun r _ => accels_ok r) s.
Proof.
  unfold find_accels. apply wp_bind. unfold wp at 1. apply find_accels_in_ok.
  split; simpl; [lia|constructor].
Qed.
End Find.

(** ** Readings *)

(** Every big-endian pair of bytes is scaled exactly: raw value over 4096. *)
Theorem axis_value_exact (hi lo : Z) :
  exists q, f_rat (axis_value hi lo) = Some q /\ (q == axis_raw hi lo # 4096)%Q.
Proof.
  unfold axis_value. pose proof (sint_bounds 16 (Z.lor (Z.shiftl hi 8) lo) ltac:(lia)) as Hb.
  unfold axis_raw. set (n := sint 16 _) in *. clearbody n. simpl in Hb.
  rewrite f32_of_Z_norm by (simpl; lia). destruct n as [|m|m]; [by exists (0 # 1)%Q|..].
  all: pose proof (digits2_le m 16 ltac:(lia) ltac:(simpl in *; lia)) as Hd;
    pose proof (digits2_bound m) as [Hl _];
    unfold norm_Z, norm, f32_mul, ACCEL_SCALE, SFmul; set (d := Zpos (digits2_pos m)) in *;
    assert (1 <= d) by (unfold d; lia).
  all: replace (shl m (24 - d) * 8388608)%positive with (Pos.iter xO (shl m (24 - d)) 23) by
      (apply Pos2Z.inj; rewrite iter_xO_val, Pos2Z.inj_mul; lia).
  all: simpl xorb; rewrite round_aux_shifted;
    [|rewrite shl_digits by lia; fold d; lia|unfold emin; lia].
  all: eexists; split; [reflexivity|]; unfold Qeq; simpl Qnum; simpl Qden.
  all: rewrite (proj2 (Z.leb_gt 0 _)) by lia; simpl Qnum; simpl Qden.
  all: rewrite Z2Pos.id by (apply Z.pow_pos_nonneg; lia).
  all: rewrite <- ?Pos2Z.opp_pos, shl_val by lia.
  all: replace (- (0 + d - 24 + - (35) + 23)) with ((24 - d) + 12) by lia; rewrite Z.pow_add_r by lia.
  all: change (2 ^ 12) with 4096; ring.
Qed.

(** The orientation reported and the rotation the compositor already applies
    add up to the physical orientation, for each value DRM may give. *)
Theorem compose_orientation_sound (drm_orient o : Z) :
  0 <= o <= 3 ->
  let deg := panel_orient_degrees drm_orient in
  let c := compose_orientation o deg in
  0 <= c <= 3 /\ (c * 90 + deg) mod 360 = o * 90.
Proof.
  intros Ho. unfold panel_orient_degrees.
  assert (o = 0 \/ o = 1 \/ o = 2 \/ o = 3) as [-> | [-> | [-> | ->]]] by lia;
    repeat destruct (_ =? _); vm_compute; repeat split; congruence.
Qed.

Lemma compose_orientation_sound_witness :
  0 <= 3 <= 3 /\
  let deg := panel_orient_degrees PANEL_ORIENT_RIGHT_UP in
  let c := compose_orientation 3 deg in
  0 <= c <= 3 /\ (c * 90 + deg) mod 360 = 3 * 90.
Proof. split; [lia|]. apply compose_orientation_sound. lia. Defined.

(** ** GMTR *)

Lemma store_gint8_full values base m :
  length m = 9%nat -> (base + 9 <= length values)%nat ->
  store_gint8 values base m = sint 8 <$> take 9 (drop base values).
Proof.
  intros Hm Hv. apply list_eq. intros i. unfold store_gint8.
  rewrite list_lookup_imap, list_lookup_fmap.
  destruct (decide (i < 9)%nat) as [Hi|Hi].
  - rewrite lookup_take_lt by done. rewrite lookup_drop.
    destruct (lookup_lt_is_Some_2 m i ltac:(lia)) as [o ->].
    destruct (lookup_lt_is_Some_2 values (base + i) ltac:(lia)) as [v Hv']. by rewrite Hv'.
  - rewrite (lookup_ge_None_2 m) by lia. rewrite lookup_take_ge by lia. done.
Qed.

Section GmtrTheorems.
Context `{Os} `{Drm} {S : Type} `{HasTraceLaw S}.
Variable g_strsplit : string -> string -> list string.
Variable g_ascii_strtoull : string -> Z.

Lemma parse_acpi_package_length buf n :
  (length (parse_acpi_package g_strsplit g_ascii_strtoull buf n) <= n)%nat.
Proof.
  destruct buf as [|c r]; simpl; [lia|]. destruct (Ascii.eqb _ _); [|simpl; lia].
  rewrite length_map, length_take. lia.
Qed.

(** When the package holds at least 18 values both matrices are replaced by
    its bytes, and a threshold by its value when that is there and not zero;
    in every other case the matrices stay and the thresholds are the
    defaults. *)
Theorem load_gmtr_spec (c : Calib) (s : S) :
  length (cal1 c) = 9%nat -> length (cal2 c) = 9%nat ->
  let '(ok, c') := res (load_gmtr g_strsplit g_ascii_strtoull c) s in
  if ok then
    exists values, (18 <= length values <= 32)%nat /\
      cal1 c' = sint 8 <$> take 9 values /\ cal2 c' = sint 8 <$> take 9 (drop 9 values) /\
      tablet_thresh c' = threshold values 18 GMTR_TABLET_THRESH /\
      laptop_thresh c' = threshold values 19 GMTR_LAPTOP_THRESH /\
      min_angle c' = threshold values 20 GMTR_MIN_ANGLE
  else c' = set_thresholds GMTR_TABLET_THRESH GMTR_LAPTOP_THRESH GMTR_MIN_ANGLE c.
Proof.
  intros H1' H2'. unfold load_gmtr, res, bind. destruct (acpi_call_read _ _ s) as [[buf|] t];
    [|done]. simpl. set (values := parse_acpi_package _ _ _ _).
  pose proof (parse_acpi_package_length buf 32) as Hl. fold values in Hl. clearbody values.
  destruct (Nat.ltb_spec (length values) 18); [done|].
  exists values. split; [lia|]. unfold apply_gmtr_values. simpl cal1. simpl cal2.
  rewrite !store_gint8_full by (simpl; lia). done.
Qed.
End GmtrTheorems.

Definition sim_drm : Drm := {|
  drm_resources _ _ := Some [7];
  drm_connector _ _ _ := Some {| connector_type := DRM_MODE_CONNECTOR_DSI;
                                 conn_props := [(1, 0); (2, 3)] |};
  drm_property _ _ p := if p =? 2 then Some DRM_PANEL_ORIENT_PROP else Some "other"
|}.

Definition sim_gmtr : string :=
  "{1, 0, 0, 0, 255, 0, 0, 0, 1, 1, 0, 0, 0, 1, 0, 0, 0, 1, 0, 170, 30}".

(** A package whose tablet threshold is 0. *)
Lemma load_gmtr_spec_witness :
  let '(ok, c') := res (@load_gmtr (sim_os (Some sim_gmtr) None []) _ _ sim_strsplit (digits_from 0)
                          cal_default) ([] : Trace) in
  ok = true /\ cal1 c' = [1; 0; 0; 0; -1; 0; 0; 0; 1] /\
  tablet_thresh c' = GMTR_TABLET_THRESH /\
  if ok then
    exists values, (18 <= length values <= 32)%nat /\
      cal1 c' = sint 8 <$> take 9 values /\ cal2 c' = sint 8 <$> take 9 (drop 9 values) /\
      tablet_thresh c' = threshold values 18 GMTR_TABLET_THRESH /\
      laptop_thresh c' = threshold values 19 GMTR_LAPTOP_THRESH /\
      min_angle c' = threshold values 20 GMTR_MIN_ANGLE
  else c' = set_thresholds GMTR_TABLET_THRESH GMTR_LAPTOP_THRESH GMTR_MIN_ANGLE cal_default.
Proof.
  pose proof (@load_gmtr_spec (sim_os (Some sim_gmtr) None []) Trace _ sim_strsplit (digits_from 0)
    cal_default [] eq_refl eq_refl) as E.
  assert (forall ok c', res (@load_gmtr (sim_os (Some sim_gmtr) None []) _ _ sim_strsplit
            (digits_from 0) cal_default) ([] : Trace) = (ok, c') ->
          ok = true /\ cal1 c' = [1; 0; 0; 0; -1; 0; 0; 0; 1] /\
          tablet_thresh c' = GMTR_TABLET_THRESH) as H.
  { intros ok c'. vm_compute. intros [= <- <-]. done. }
  destruct (res _ _) as [ok c']. destruct (H ok c' eq_refl) as (? & ? & ?). done.
Defined.
