(* ===== verification/MxcPolling.v ===== *)
(** * Polling in the MXC6655 driver (drv-mxc6655-accel.c, 1065-1602)

    The state of an open device ([DrvData] with the calls made so far), the
    hinge angle, the orientation and tablet-mode state machines, the poll
    timer with its lid gate, and the driver's open, set_polling and close. *)

From Stdlib Require Import ZArith Lia SpecFloat.
From stdpp Require Import base list strings gmultiset.
From S2P Require Import Prelude Floats Drivers Os MxcFilter MxcDevice.

#[local] Open Scope Z_scope.
#[local] Open Scope prog_scope.

(** ** State: the fields of [DrvData], grouped *)

(** Poll timer and lid. *)
Record Timer := Tm {
  timeout_id : Z; want_polling : bool; lid_closed : bool; lid_watch_id : Z
}.

(** Descriptors, -1 when closed. *)
Record Fds := Fd {
  lid_fd : Z; i2c_fd0 : Z; i2c_fd1 : Z; uinput_fd : Z; ltsm_warned : bool
}.

(** Tablet mode state machine: 1 tablet, 0 laptop, -1 not known yet. *)
Record Tablet := Tb { mode : Z; t_count : Z; l_count : Z; n_count : Z }.

(** Orientation state. *)
Record Orienter := Or {
  orient : OrientState; cur_orient : Z; orient_debounce : Z; pending_orient : Z; panel_deg : Z
}.

(** An open device. *)
Record Mxc := Dev {
  timer : Timer; fds : Fds; calib : Calib;
  prev_z1 : float; prev_z2 : float;
  tablet : Tablet; ori : Orienter;
  calls : Trace
}.

#[export] Instance mxc_trace : HasTrace Mxc := {|
  trace := calls;
  set_trace h s := Dev (timer s) (fds s) (calib s) (prev_z1 s) (prev_z2 s) (tablet s) (ori s) h
|}.
#[export] Instance mxc_trace_law : HasTraceLaw Mxc.
Proof. split; [done|done|by intros []]. Qed.

Definition set_timer (t : Timer) (s : Mxc) : Mxc :=
  Dev t (fds s) (calib s) (prev_z1 s) (prev_z2 s) (tablet s) (ori s) (calls s).
Definition set_fds (f : Fds) (s : Mxc) : Mxc :=
  Dev (timer s) f (calib s) (prev_z1 s) (prev_z2 s) (tablet s) (ori s) (calls s).
Definition set_prev (z1 z2 : float) (s : Mxc) : Mxc :=
  Dev (timer s) (fds s) (calib s) z1 z2 (tablet s) (ori s) (calls s).
Definition set_tablet (t : Tablet) (s : Mxc) : Mxc :=
  Dev (timer s) (fds s) (calib s) (prev_z1 s) (prev_z2 s) t (ori s) (calls s).
Definition set_ori (o : Orienter) (s : Mxc) : Mxc :=
  Dev (timer s) (fds s) (calib s) (prev_z1 s) (prev_z2 s) (tablet s) o (calls s).

(** ** Synthetic readings *)

Definition synthetic_scale : float := Eval vm_compute in f64_div (Dbl 981 100) (Dbl 256 1).

Definition build_synthetic_readings (orient : Z) : AccelReadings :=
  let scale := set_accel_scale (Build_AccelScale f_zero f_zero f_zero) synthetic_scale in
  if orient =? mxc_code MXC_ORIENT_NORMAL then Build_AccelReadings 0 (-256) 0 scale
  else if orient =? mxc_code MXC_ORIENT_INVERTED then Build_AccelReadings 0 256 0 scale
  else if orient =? mxc_code MXC_ORIENT_LEFT then Build_AccelReadings 256 0 0 scale
  else if orient =? mxc_code MXC_ORIENT_RIGHT then Build_AccelReadings (-256) 0 0 scale
  else Build_AccelReadings 0 (-256) 0 scale.

Definition synthetic (orient : Z) : Readings := Accel (build_synthetic_readings orient).

(** ** Hinge angle *)

Definition magnitude (v : Vec3) : float :=
  f32_sqrt (f32_add (f32_add (f32_mul (x_ v) (x_ v)) (f32_mul (y_ v) (y_ v)))
                    (f32_mul (z_ v) (z_ v))).

Definition normalize (v : Vec3) : Vec3 :=
  let m := magnitude v in
  if f_gt (f_abs m) c_1e_5 then V3 (f32_div (x_ v) m) (f32_div (y_ v) m) (f32_div (z_ v) m)
  else v.

Section Hinge.
Variable atan2f : float -> float -> float.

(** In degrees, below 0 wrapped once. *)
Definition hinge_part (x z : float) : float :=
  let ang := f32_mul (atan2f x z) deg_per_rad in
  if f_lt ang f0 then f32_add ang c_360 else ang.

(** The angle and the new [prev_z1], [prev_z2]. *)
Definition compute_hinge_angle (prev1 prev2 : float) (c1 c2 : Vec3) : float * float * float :=
  let a1 := normalize (V3 (x_ c1) (f_neg (y_ c1)) (f_neg (z_ c1))) in
  let a2 := normalize c2 in
  let a1z := if f_lt (f_abs (z_ a1)) c_1e_5 then prev1 else z_ a1 in
  let a2z := if f_lt (f_abs (z_ a2)) c_1e_5 then prev2 else z_ a2 in
  let ang1 := hinge_part (x_ a1) a1z in
  let ang2 := hinge_part (x_ a2) a2z in
  let diff := f32_sub ang1 ang2 in
  (if f_lt ang1 ang2 then f32_add diff c_360 else diff, a1z, a2z).
End Hinge.

Definition low_gravity (a : Vec3) : bool :=
  f_lt (f32_sqrt (f32_add (f32_mul (x_ a) (x_ a)) (f32_mul (z_ a) (z_ a)))) GRAVITY_MIN.

(** What happens to an open device: its poll timer fires, the proxy switches
    polling, its lid watch fires. *)
Inductive Op :=
  | Poll (atan2f : float -> float -> float)
  | SetPolling (state : bool)
  | LidEvents (hup_or_err : bool) (evs : list InputEvent).

(** ** Operations *)

Section Ops.
Context `{Os} `{Drm}.

Definition emit_orientation (orient : Z) : M Mxc unit := callback (synthetic orient).

Definition recover_i2c : M Mxc unit :=
  f <- gets fds ;;
  (if 0 <=? i2c_fd0 f then sys_close (i2c_fd0 f) else ret tt) ;;;
  (if 0 <=? i2c_fd1 f then sys_close (i2c_fd1 f) else ret tt) ;;;
  try_unbind ;;;
  found <- find_accels ;;
  let '(fd0, fd1) := match found with fd0 :: fd1 :: _ => (fd0, fd1) | _ => (-1, -1) end in
  modify (set_fds (Fd (lid_fd f) fd0 fd1 (uinput_fd f) (ltsm_warned f))).

Definition update_orientation_debounce (accel : Vec3) : M Mxc unit :=
  s <- gets id ;;
  let o := ori s in
  let '(ost, st) := update_orientation (orient o) accel in
  let o := Or st (cur_orient o) (orient_debounce o) (pending_orient o) (panel_deg o) in
  modify (set_ori o) ;;;
  if ost <=? 0 then ret tt
  else
    let new_orient := classify_orientation accel in
    if new_orient <? 0 then ret tt
    else
      let new_orient := if negb (mode (tablet s) =? 1) then mxc_code MXC_ORIENT_RIGHT
                        else new_orient in
      let new_orient := compose_orientation new_orient (panel_deg o) in
      if negb (new_orient =? pending_orient o) then
        modify (set_ori (Or st (cur_orient o) (if negb (new_orient =? cur_orient o) then 1 else 0)
                            new_orient (panel_deg o)))
      else if new_orient =? cur_orient o then ret tt
      else
        let d := orient_debounce o + 1 in
        if GMTR_DEBOUNCE <? d then
          modify (set_ori (Or st new_orient 0 (pending_orient o) (panel_deg o))) ;;;
          callback (synthetic new_orient)
        else modify (set_ori (Or st (cur_orient o) d (pending_orient o) (panel_deg o))).

Definition force_landscape : M Mxc unit :=
  o <- gets ori ;;
  let orient' := compose_orientation (mxc_code MXC_ORIENT_RIGHT) (panel_deg o) in
  modify (set_ori (Or (orient o) orient' 0 orient' (panel_deg o))) ;;;
  emit_orientation orient'.

Definition set_tablet_mode (mode_ : Z) : M Mxc unit :=
  modify (fun s => set_tablet (Tb mode_ (t_count (tablet s)) (l_count (tablet s))
                                  (n_count (tablet s))) s) ;;;
  f <- gets fds ;;
  r <- call_ltsm mode_ (ltsm_warned f) ;;
  modify (set_fds (Fd (lid_fd f) (i2c_fd0 f) (i2c_fd1 f) (uinput_fd f) (snd r))) ;;;
  (if 0 <=? uinput_fd f then emit_tablet_mode (uinput_fd f) mode_ else ret tt) ;;;
  if mode_ =? 0 then force_landscape else ret tt.

Definition update_tablet_mode (angle : float) : M Mxc unit :=
  s <- gets id ;;
  let t := tablet s in
  let c := calib s in
  if f_gt angle (tablet_thresh c) then
    modify (set_tablet (Tb (mode t) (t_count t + 1) 0 0)) ;;;
    if negb (mode t =? 1) && (GMTR_DEBOUNCE <? t_count t + 1) then set_tablet_mode 1 else ret tt
  else if f_ge angle (laptop_thresh c) then
    modify (set_tablet (Tb (mode t) 0 0 (n_count t + 1)))
  else if f_gt angle (min_angle c) then
    modify (set_tablet (Tb (mode t) 0 (l_count t + 1) 0)) ;;;
    if negb (mode t =? 0) && (GMTR_DEBOUNCE <? l_count t + 1) then set_tablet_mode 0 else ret tt
  else ret tt.

(** [true]: G_SOURCE_CONTINUE. *)
Definition poll_sensors (atan2f : float -> float -> float) : M Mxc bool :=
  f <- gets fds ;;
  raw1 <- read_accel (i2c_fd0 f) ;;
  raw2 <- match raw1 with None => ret None | Some _ => read_accel (i2c_fd1 f) end ;;
  match raw1, raw2 with
  | Some raw1, Some raw2 =>
      c <- gets calib ;;
      let a1 := calibrate raw1 (cal1 c) in
      let a2 := calibrate raw2 (cal2 c) in
      update_orientation_debounce (V3 (f_neg (x_ a1)) (y_ a1) (z_ a1)) ;;;
      if low_gravity a1 && low_gravity a2 then ret true
      else
        s <- gets id ;;
        let '(angle, z1, z2) := compute_hinge_angle atan2f (prev_z1 s) (prev_z2 s) a1 a2 in
        modify (set_prev z1 z2) ;;;
        update_tablet_mode angle ;;;
        ret true
  | _, _ => recover_i2c ;;; ret true
  end.

(** *** Reading on demand, timer and lid *)

Definition send_current_reading : M Mxc unit :=
  o <- gets ori ;;
  emit_orientation (if cur_orient o <? 0
                    then compose_orientation (mxc_code MXC_ORIENT_RIGHT) (panel_deg o)
                    else cur_orient o).

Definition polling_wanted (t : Timer) : bool := want_polling t && negb (lid_closed t).

Definition start_poll_timer : M Mxc unit :=
  id_ <- g_timeout_add GMTR_POLL_MS ;;
  modify (fun s => let t := timer s in
    set_timer (Tm id_ (want_polling t) (lid_closed t) (lid_watch_id t)) s).

Definition stop_poll_timer : M Mxc unit :=
  t <- gets timer ;;
  g_source_remove (timeout_id t) ;;;
  modify (set_timer (Tm 0 (want_polling t) (lid_closed t) (lid_watch_id t))).

Definition update_polling_timer : M Mxc unit :=
  t <- gets timer ;;
  let wanted := polling_wanted t in
  if wanted && (timeout_id t =? 0) then start_poll_timer
  else if negb wanted && (0 <? timeout_id t) then stop_poll_timer
  else ret tt.

Definition set_lid_closed (closed : bool) : M Mxc unit :=
  t <- gets timer ;;
  if Bool.eqb (lid_closed t) closed then ret tt
  else
    modify (set_timer (Tm (timeout_id t) (want_polling t) closed (lid_watch_id t))) ;;;
    update_polling_timer.

(** [evs]: what the reads of the channel give until one fails. *)
Definition lid_event_cb (hup_or_err : bool) (evs : list InputEvent) : M Mxc bool :=
  if hup_or_err then
    t <- gets timer ;;
    source_done (lid_watch_id t) ;;;
    modify (set_timer (Tm (timeout_id t) (want_polling t) (lid_closed t) 0)) ;;;
    ret false
  else
    mfor evs (fun ev =>
      if negb (ev_type ev =? EV_SW) || negb (ev_code ev =? SW_LID) then ret tt
      else set_lid_closed (negb (ev_value ev =? 0))) ;;;
    ret true.

Definition setup_lid_watch : M Mxc unit :=
  fd <- open_lid_switch ;;
  modify (fun s => let f := fds s in
    set_fds (Fd fd (i2c_fd0 f) (i2c_fd1 f) (uinput_fd f) (ltsm_warned f)) s) ;;;
  if fd <? 0 then ret tt
  else
    closed <- read_lid_closed fd ;;
    id_ <- g_io_add_watch fd ;;
    modify (fun s => let t := timer s in
      set_timer (Tm (timeout_id t) (want_polling t) closed id_) s).

(** *** The driver *)

Definition mxc6655_discover {Device} `{Udev Device} (device : Device) : bool :=
  match sysfs_path device with
  | None => false
  | Some path => contains ACPI_MATCH_ID path
  end.

(** What [g_new0] and the assignments of [mxc6655_open] give. *)
Definition mxc_new (deg : Z) (c : Calib) (fd0 fd1 uinput : Z) (h : Trace) : Mxc :=
  Dev (Tm 0 false false 0) (Fd (-1) fd0 fd1 uinput false) c c_1 c_1 (Tb (-1) 0 0 0)
      (Or orient_init (-1) 0 (-1) deg) h.

Section Open.
Variable g_strsplit : string -> string -> list string.
Variable g_ascii_strtoull : string -> Z.

Definition close_all (l : list Z) : M Trace unit := mfor l sys_close.

(** [None]: NULL. *)
Definition mxc6655_open : M Trace (option Mxc) :=
  deg <- detect_panel_rotation ;;
  g <- load_gmtr g_strsplit g_ascii_strtoull cal_default ;;
  found <- find_accels ;;
  found <- (if (length found <? 2)%nat
            then close_all found ;;; try_unbind ;;; find_accels
            else ret found) ;;
  match found with
  | fd0 :: fd1 :: _ =>
      u <- setup_uinput ;;
      h <- gets id ;;
      let s := post setup_lid_watch (mxc_new deg (snd g) fd0 fd1 u h) in
      modify (fun _ => calls s) ;;;
      ret (Some s)
  | _ => close_all found ;;; ret None
  end.
End Open.

Definition mxc6655_set_polling (state : bool) : M Mxc unit :=
  (if state then send_current_reading else ret tt) ;;;
  t <- gets timer ;;
  if Bool.eqb (want_polling t) state then ret tt
  else
    modify (set_timer (Tm (timeout_id t) state (lid_closed t) (lid_watch_id t))) ;;;
    update_polling_timer.

Definition mxc6655_close : M Mxc unit :=
  s <- gets id ;;
  let f := fds s in
  (if 0 <? lid_watch_id (timer s) then g_source_remove (lid_watch_id (timer s)) else ret tt) ;;;
  (if 0 <=? lid_fd f then sys_close (lid_fd f) else ret tt) ;;;
  (if 0 <=? uinput_fd f
   then sys_ioctl (uinput_fd f) UI_DEV_DESTROY ;;; sys_close (uinput_fd f) else ret tt) ;;;
  (if 0 <=? i2c_fd0 f then sys_close (i2c_fd0 f) else ret tt) ;;;
  (if 0 <=? i2c_fd1 f then sys_close (i2c_fd1 f) else ret tt).

(** *** Runs of an open device *)

(** The main loop dispatches a source only while it is attached. *)
Definition run_op (op : Op) : M Mxc unit :=
  t <- gets timer ;;
  match op with
  | Poll f => if 0 <? timeout_id t then poll_sensors f ;;; ret tt else ret tt
  | SetPolling b => mxc6655_set_polling b
  | LidEvents h evs => if 0 <? lid_watch_id t then lid_event_cb h evs ;;; ret tt else ret tt
  end.

Definition run_ops (ops : list Op) : M Mxc unit := mfor ops run_op.
End Ops.

(** ** What the tablet-mode machine computes *)

(** The band a hinge angle falls in; [ZNone] also for a NaN. *)
Inductive zone := ZTablet | ZNeutral | ZLaptop | ZNone.

#[export] Instance zone_eq_dec : EqDecision zone.
Proof. solve_decision. Defined.

Definition zone_of (c : Calib) (angle : float) : zone :=
  if f_gt angle (tablet_thresh c) then ZTablet
  else if f_ge angle (laptop_thresh c) then ZNeutral
  else if f_gt angle (min_angle c) then ZLaptop
  else ZNone.

(** How many samples in a row were in [z], newest first; those in no band do
    not count and do not interrupt. *)
Fixpoint streak (z : zone) (l : list zone) : Z :=
  match l with
  | [] => 0
  | ZNone :: l' => streak z l'
  | y :: l' => if bool_decide (y = z) then 1 + streak z l' else 0
  end.

(** The band that last had six samples in a row decides. *)
Fixpoint spec_mode (l : list zone) : Z :=
  match l with
  | [] => -1
  | _ :: l' =>
      if 6 <=? streak ZTablet l then 1
      else if 6 <=? streak ZLaptop l then 0
      else spec_mode l'
  end.

(** The orientation shown in laptop mode. *)
Definition landscape (o : Orienter) : Z :=
  compose_orientation (mxc_code MXC_ORIENT_RIGHT) (panel_deg o).

(** The reading last handed to the proxy is the one of the current
    orientation; in laptop mode that is landscape. *)
Definition view_ok (s : Mxc) : Prop :=
  let o := ori s in
  orient_ok (orient o) /\ (exists d, panel_deg o = panel_orient_degrees d) /\
  -1 <= cur_orient o <= 3 /\ -1 <= pending_orient o <= 3 /\ 0 <= orient_debounce o <= 5 /\
  -1 <= mode (tablet s) <= 1 /\
  (mode (tablet s) = 0 -> cur_orient o = landscape o) /\
  (0 <= cur_orient o -> list.last (emitted (calls s)) = Some (synthetic (cur_orient o))).

(** ** Theorems *)

Section Theorems.
Context `{Os} `{Drm}.

(** *** Descriptors *)

(** The descriptors a device holds. *)
Definition held (f : Fds) : gmultiset Z :=
  own (lid_fd f) ⊎ own (i2c_fd0 f) ⊎ own (i2c_fd1 f) ⊎ own (uinput_fd f).

Lemma fdspec_close_if {S} `{HasTraceLaw S} (X : gmultiset Z) fd :
  fdspec (fun _ => X ⊎ own fd) (if 0 <=? fd then sys_close fd else ret tt) (fun _ (_ : S) => X).
Proof.
  apply fdspec_if; intros E; zbool; [by apply fdspec_close_own|].
  apply fdspec_ret_eq. intros s. by apply own_drop.
Qed.

Lemma close_all_fds (X : gmultiset Z) l : Forall (fun fd => 0 <= fd) l ->
  fdspec (fun _ => X ⊎ own_all l) (close_all l) (fun _ _ => X).
Proof.
  unfold close_all. induction 1 as [|fd l Hfd Hl IH]; simpl.
  { apply fdspec_ret_eq. intros s. multiset_solver. }
  eapply fdspec_bind; [|intros ?; apply IH].
  eapply fdspec_eq; [|by apply fdspec_close_own]. intros s. simpl. multiset_solver.
Qed.

Lemma find_step_fds (X : gmultiset Z) {B} (k : list Z -> M Trace B) Z :
  (forall found, accels_ok found -> fdspec (fun _ => X ⊎ own_all found) (k found) Z) ->
  fdspec (fun _ => X) (bind find_accels k) Z.
Proof.
  intros Hk. eapply fdspec_bind_fact; [apply find_accels_fds|apply find_accels_ok|exact Hk].
Qed.

(** The second search, after an unbind, when the first finds fewer than two. *)
Lemma search_again_fds (X : gmultiset Z) found : accels_ok found ->
  let m := if (length found <? 2)%nat
           then (close_all found ;;; try_unbind ;;; find_accels) else ret found in
  fdspec (fun _ => X ⊎ own_all found) m (fun r (_ : Trace) => X ⊎ own_all r) /\
  forall h, wp m (fun r _ => accels_ok r) h.
Proof.
  intros Hf. destruct (length found <? 2)%nat; simpl; split.
  - eapply fdspec_bind; [apply close_all_fds, Hf|]. intros ?.
    eapply fdspec_bind; [apply (try_unbind_fds (S := Trace) X)|]. intros ?. apply (find_accels_fds (S := Trace) X).
  - intros h. apply wp_bind. unfold wp at 1. apply wp_bind. unfold wp at 1.
    apply (find_accels_ok (S := Trace)).
  - by apply fdspec_ret_eq.
  - intros h. exact Hf.
Qed.

Lemma setup_lid_watch_held (X : gmultiset Z) (s : Mxc) B :
  lid_fd (fds s) = -1 ->
  open_fds (calls s) = B ⊎ X ->
  let s' := post setup_lid_watch s in
  exists lid, fds s' = Fd lid (i2c_fd0 (fds s)) (i2c_fd1 (fds s)) (uinput_fd (fds s))
                          (ltsm_warned (fds s)) /\
    open_fds (calls s') = B ⊎ X ⊎ own lid.
Proof.
  intros Hl Hs. unfold setup_lid_watch.
  pose proof (open_lid_quiet (S := Mxc) s) as (h & E & _).
  pose proof (open_lid_switch_fds (S := Mxc) X B s Hs) as Ho. unfold wp in Ho.
  generalize dependent (open_lid_switch (S := Mxc)). intros m E Ho.
  unfold post, res, bind in *. destruct (m s) as [fd t]. simpl in E, Ho. subst t. simpl in Ho. exists fd.
  destruct (fd <? 0); simpl.
  - split; [done|]. rewrite Ho. multiset_solver.
  - split; [done|]. simpl. rewrite Ho. multiset_solver.
Qed.

Section Open.
Variable g_strsplit : string -> string -> list string.
Variable g_ascii_strtoull : string -> Z.
Abbreviation open_ := (mxc6655_open g_strsplit g_ascii_strtoull).

(** A failed open leaves open exactly what was open before; a successful
    one leaves in addition the descriptors it returns, with both
    accelerometers open and the device idle. *)
Lemma open_result (h : Trace) :
  let '(r, h') := open_ h in
  match r with
  | None => open_fds h' = open_fds h
  | Some s =>
      calls s = h' /\ open_fds h' = open_fds h ⊎ held (fds s) /\
      0 <= i2c_fd0 (fds s) /\ 0 <= i2c_fd1 (fds s)
  end.
Proof.
  pose (Q := fun (r : option Mxc) (h' : Trace) =>
    match r with
    | None => open_fds h' = open_fds h
    | Some s => calls s = h' /\ open_fds h' = open_fds h ⊎ held (fds s) /\
                0 <= i2c_fd0 (fds s) /\ 0 <= i2c_fd1 (fds s)
    end).
  cut (wp open_ Q h); [unfold wp, res, post, Q; by destruct (open_ h)|].
  assert (forall X : gmultiset Z, X = X ⊎ ∅) as HX by (intros; multiset_solver).
  eapply wp_seq; [apply (detect_panel_fds ∅ (open_fds h)), HX|]. intros deg h1 E1.
  eapply wp_seq; [apply (load_gmtr_fds _ _ ∅ cal_default (open_fds h)), E1|]. intros g h2 E2.
  eapply wp_seq; [apply wp_and; [apply (find_accels_fds ∅ (open_fds h)), E2|
    apply find_accels_ok]|]. intros f1 h3 [E3 Hf1]. simpl in E3.
  eapply wp_seq; [apply wp_and; [apply (proj1 (search_again_fds ∅ f1 Hf1) (open_fds h)), E3|
    apply (search_again_fds ∅ f1 Hf1)]|]. intros f2 h4 [E4 Hf2]. simpl in E4.
  destruct Hf2 as [Hlen Hpos]. destruct f2 as [|fd0 [|fd1 [|]]]; [..|simpl in Hlen; lia].
  - unfold Q. eapply wp_seq; [apply (close_all_fds ∅ _ Hpos (open_fds h)), E4|].
    intros ? h5 E5. simpl in E5. unfold wp, res, post, ret. simpl. rewrite E5. multiset_solver.
  - unfold Q. eapply wp_seq; [apply (close_all_fds ∅ _ Hpos (open_fds h)), E4|].
    intros ? h5 E5. simpl in E5. unfold wp, res, post, ret. simpl. rewrite E5. multiset_solver.
  - inversion_clear Hpos as [|? ? H0fd Hpos']. inversion_clear Hpos' as [|? ? H1fd _].
    eapply wp_seq; [apply (setup_uinput_fds (own_all [fd0; fd1]) (open_fds h));
      simpl; rewrite E4; multiset_solver|]. intros u h5 E5. simpl in E5.
    apply wp_bind, wp_gets. set (s0 := mxc_new deg (snd g) fd0 fd1 u (id h5)).
    destruct (setup_lid_watch_held (own fd0 ⊎ own fd1 ⊎ own u) s0 (open_fds h) eq_refl)
      as (lid & Ef & Eo); [simpl; rewrite E5; multiset_solver|].
    cbv zeta. generalize dependent (post setup_lid_watch s0). intros s' Ef Eo.
    unfold wp, res, post, bind, modify, ret, Q. simpl.
    rewrite Ef, Eo. simpl. split_and!; try done. unfold held. simpl. multiset_solver.
Qed.
End Open.

(** Closing a device closes what it holds and nothing else. *)
Lemma close_fds (s : Mxc) (B : gmultiset Z) :
  open_fds (calls s) = B ⊎ held (fds s) ->
  open_fds (calls (post mxc6655_close s)) = B.
Proof.
  intros Hs. unfold held in Hs. set (f := fds s) in *.
  assert (fdspec (fun _ => own (i2c_fd1 f) ⊎ own (i2c_fd0 f) ⊎ own (uinput_fd f) ⊎ own (lid_fd f))
    ((if 0 <? lid_watch_id (timer s) then g_source_remove (lid_watch_id (timer s)) else ret tt) ;;;
     (if 0 <=? lid_fd f then sys_close (lid_fd f) else ret tt) ;;;
     (if 0 <=? uinput_fd f
      then sys_ioctl (uinput_fd f) UI_DEV_DESTROY ;;; sys_close (uinput_fd f) else ret tt) ;;;
     (if 0 <=? i2c_fd0 f then sys_close (i2c_fd0 f) else ret tt) ;;;
     (if 0 <=? i2c_fd1 f then sys_close (i2c_fd1 f) else ret tt))
    (fun _ (_ : Mxc) => ∅)) as Hf.
  { eapply fdspec_bind; [fd_step; [fd_step|by apply fdspec_ret_eq]|]. intros ?.
    eapply fdspec_bind; [apply fdspec_close_if|]. intros ?.
    eapply fdspec_bind with (Y := fun _ _ => own (i2c_fd1 f) ⊎ own (i2c_fd0 f)).
    { fd_step; [fd_step; [fd_step|by apply fdspec_close_own]|].
      apply fdspec_ret_eq. intros t. by apply own_drop. }
    intros ?. eapply fdspec_bind; [apply fdspec_close_if|]. intros ?.
    eapply fdspec_eq; [|apply (fdspec_close_if ∅)]. intros t. multiset_solver. }
  specialize (Hf B s ltac:(simpl; rewrite Hs; multiset_solver)).
  unfold wp in Hf. simpl in Hf. unfold mxc6655_close.
  transitivity (B ⊎ ∅); [exact Hf|multiset_solver].
Qed.

(** C22: Opening the device leaks no descriptor: a failed open leaves open exactly
    what was open before, and so does closing what a successful one returns,
    which has both accelerometers open. *)
Theorem open_close_balanced (g_strsplit : string -> string -> list string)
    (g_ascii_strtoull : string -> Z) (h : Trace) :
  let '(r, h') := mxc6655_open g_strsplit g_ascii_strtoull h in
  match r with
  | None => open_fds h' = open_fds h
  | Some s =>
      calls s = h' /\ 0 <= i2c_fd0 (fds s) /\ 0 <= i2c_fd1 (fds s) /\
      open_fds (calls (post mxc6655_close s)) = open_fds h
  end.
Proof.
  pose proof (open_result g_strsplit g_ascii_strtoull h) as E.
  destruct (mxc6655_open _ _ h) as [[s|] h']; [|exact E].
  destruct E as (<- & E & ? & ?). split_and!; [done..|]. by apply close_fds.
Qed.

(** After a failed read both accelerometers are closed and looked for again;
    the descriptor of one found alone is forgotten while it is open. *)
Theorem recover_i2c_fds (s : Mxc) (B : gmultiset Z) :
  open_fds (calls s) = B ⊎ held (fds s) ->
  let s' := post recover_i2c s in
  exists found, accels_ok found /\
    match found with
    | [fd0; fd1] => i2c_fd0 (fds s') = fd0 /\ i2c_fd1 (fds s') = fd1 /\
                    open_fds (calls s') = B ⊎ held (fds s')
    | _ => i2c_fd0 (fds s') = -1 /\ i2c_fd1 (fds s') = -1 /\
           open_fds (calls s') = B ⊎ held (fds s') ⊎ own_all found
    end.
Proof.
  intros Hs. unfold held in Hs. start_post. unfold recover_i2c. apply wp_bind, wp_gets.
  set (f := fds s) in *.
  set (R := own (lid_fd f) ⊎ own (uinput_fd f)).
  eapply wp_seq; [apply (fdspec_close_if (R ⊎ own (i2c_fd1 f)) (i2c_fd0 f) B s); simpl;
    rewrite Hs; unfold R; multiset_solver|]. intros ? s1 E1.
  eapply wp_seq; [apply (fdspec_close_if R (i2c_fd1 f) B s1); exact E1|]. intros ? s2 E2.
  eapply wp_seq; [apply (try_unbind_fds R B s2); exact E2|]. intros ? s3 E3.
  eapply wp_seq; [apply wp_and; [apply (find_accels_fds R B s3); exact E3|
    apply find_accels_ok]|]. intros found s4 [E4 Hf]. simpl in E4.
  destruct found as [|fd0 [|fd1 [|]]]; [| | |destruct Hf as [Hl _]; simpl in Hl; lia].
  - apply wp_modify. exists []. split; [done|]. simpl. split_and!; [done..|].
    rewrite E4. unfold R, held. simpl. multiset_solver.
  - apply wp_modify. exists [fd0]. split; [done|]. simpl. split_and!; [done..|].
    rewrite E4. unfold R, held. simpl. multiset_solver.
  - apply wp_modify. exists [fd0; fd1]. split; [done|]. simpl. split_and!; [done..|].
    rewrite E4. unfold R, held. simpl. multiset_solver.
Qed.

(** *** Main loop sources *)

(** The device's own sources, besides those of [B]. *)
Definition sources_ok (B : gmultiset Z) (s : Mxc) : Prop :=
  0 <= timeout_id (timer s) /\ 0 <= lid_watch_id (timer s) /\
  sources (calls s) = B ⊎ src (timeout_id (timer s)) ⊎ src (lid_watch_id (timer s)).

(** The poll timer runs exactly while polling is wanted and the lid open. *)
Definition timer_ok (B : gmultiset Z) (s : Mxc) : Prop :=
  sources_ok B s /\ (0 < timeout_id (timer s) <-> polling_wanted (timer s) = true).

(** Routines that touch neither the timer nor the sources. *)
Definition timer_view (s : Mxc) := (timer s, sources (calls s)).
Abbreviation calm := (same timer_view).

Lemma calm_keeps {A} B (m : M Mxc A) : calm m -> keeps (timer_ok B) m.
Proof. apply same_keeps. intros s t [= E1 E2]. unfold timer_ok, sources_ok. by rewrite E1, E2. Qed.

Lemma calm_quiet {A} (m : M Mxc A) : quiet m -> calm m.
Proof. intros Hm s. destruct (Hm s) as (h & -> & E & _). unfold timer_view. simpl. by rewrite E. Qed.

Lemma calm_callback r : calm (callback r).
Proof. done. Qed.

(** Routines that touch neither mode nor orientation and emit nothing. *)
Definition view (s : Mxc) := (tablet s, ori s, emitted (calls s)).
Abbreviation still := (same view).

Lemma still_quiet {A} (m : M Mxc A) : quiet m -> still m.
Proof. intros Hm s. destruct (Hm s) as (h & -> & _ & E). unfold view. simpl. by rewrite E. Qed.
End Theorems.

#[export] Hint Resolve calm_callback : same.
#[export] Hint Extern 1 (same timer_view (modify _)) => (intros ?; reflexivity) : same.
#[export] Hint Extern 1 (same view (modify _)) => (intros ?; reflexivity) : same.
#[export] Hint Extern 2 (same timer_view _) =>
  (apply calm_quiet; solve [eauto with quiet typeclass_instances]) : same.
#[export] Hint Extern 2 (same view _) =>
  (apply still_quiet; solve [eauto with quiet typeclass_instances]) : same.
Abbreviation calm := (same timer_view).
Abbreviation still := (same view).

Section TimerTheorems.
Context `{Os} `{Drm}.

Lemma recover_calm : calm recover_i2c.
Proof.
  unfold recover_i2c. assert (forall fd, calm (if 0 <=? fd then sys_close fd else ret tt)) as Hc.
  { intros fd. apply same_if; [|done]. apply calm_quiet. quiet_auto. }
  apply same_bind; [done|]. intros f. apply same_bind; [apply Hc|intros ?].
  apply same_bind; [apply Hc|intros ?].
  apply same_bind; [apply calm_quiet, try_unbind_quiet|intros ?].
  apply same_bind; [apply calm_quiet, find_accels_quiet|intros l].
  destruct l as [|? [|? ?]]; auto with same.
Qed.

Lemma debounce_calm v : calm (update_orientation_debounce v).
Proof.
  unfold update_orientation_debounce. apply same_bind; [done|]. intros s.
  destruct (update_orientation _ _) as [ost st]. cbv zeta. auto 10 with same.
Qed.

Lemma set_tablet_calm m : calm (set_tablet_mode m).
Proof.
  assert (calm force_landscape) as Hf by (unfold force_landscape, emit_orientation; auto with same).
  unfold set_tablet_mode. apply same_bind; [auto with same|intros ?].
  apply same_bind; [done|intros f]. apply same_bind; [apply calm_quiet, call_ltsm_quiet|intros r].
  apply same_bind; [auto with same|intros ?]. apply same_bind; [|auto with same].
  apply same_if; [apply calm_quiet, emit_tablet_quiet|done].
Qed.

Lemma update_tablet_calm a : calm (update_tablet_mode a).
Proof.
  unfold update_tablet_mode. apply same_bind; [done|intros s]. cbv zeta.
  repeat apply same_if; try (apply same_bind; [|intros ?]); auto using set_tablet_calm with same.
Qed.

Lemma poll_calm f : calm (poll_sensors f).
Proof.
  unfold poll_sensors. pose proof recover_calm. pose proof debounce_calm.
  pose proof update_tablet_calm.
  apply same_bind; [done|]. intros fd. apply same_bind; [auto with same|]. intros raw1.
  apply same_bind; [destruct raw1; auto with same|]. intros raw2.
  destruct raw1, raw2; [|auto with same..].
  apply same_bind; [done|]. intros c. cbv zeta. apply same_bind; [auto|]. intros ?.
  apply same_if; [done|]. apply same_bind; [done|]. intros s.
  destruct (compute_hinge_angle _ _ _ _ _) as [[? ?] ?]. auto with same.
Qed.

Context `{!OsLaws}.

(** Whatever changed in [want_polling] or [lid_closed], this restores the
    correspondence. *)
Lemma update_polling_timer_ok B s : sources_ok B s ->
  let s' := post update_polling_timer s in
  timer_ok B s' /\ want_polling (timer s') = want_polling (timer s) /\
  lid_closed (timer s') = lid_closed (timer s).
Proof.
  intros (Ht & Hw & Hs). unfold update_polling_timer, post, bind, gets. simpl.
  destruct (polling_wanted (timer s)) eqn:Hp; simpl.
  - destruct (Z.eqb_spec (timeout_id (timer s)) 0) as [E|E]; simpl.
    + pose proof (source_add_pos (calls s) GMTR_POLL_MS) as Hpos. split; [|done].
      split; [|simpl; unfold polling_wanted in *; simpl; tauto].
      split_and!; simpl; [lia|done|]. rewrite Hs, E, src_zero, (src_pos _ Hpos). multiset_solver.
    + split; [|done]. split; [done|]. rewrite Hp. split; [done|lia].
  - destruct (Z.ltb_spec 0 (timeout_id (timer s))) as [E|E]; simpl.
    + split; [|done]. split; [|simpl; unfold polling_wanted in *; simpl; rewrite Hp; lia].
      split_and!; simpl; [lia|done|]. rewrite Hs, src_pos by done. rewrite src_zero.
      multiset_solver.
    + split; [|done]. split; [done|]. rewrite Hp. lia.
Qed.

Lemma set_lid_closed_ok B c : keeps (timer_ok B) (set_lid_closed c).
Proof.
  intros s Hs. unfold set_lid_closed, post, bind, gets. simpl. destruct (Bool.eqb _ _); [done|].
  simpl. apply update_polling_timer_ok. apply Hs.
Qed.

Lemma set_polling_ok B b : keeps (timer_ok B) (mxc6655_set_polling b).
Proof.
  unfold mxc6655_set_polling. apply keeps_bind.
  - apply calm_keeps. unfold send_current_reading, emit_orientation.
    apply same_if; auto with same.
  - intros _ s Hs. unfold post, bind, gets. simpl. destruct (Bool.eqb _ _); [done|].
    simpl. apply update_polling_timer_ok. apply Hs.
Qed.

Lemma lid_event_ok B hup evs s : 0 < lid_watch_id (timer s) -> timer_ok B s ->
  timer_ok B (post (lid_event_cb hup evs) s).
Proof.
  intros Hw Hs. unfold lid_event_cb. destruct hup.
  - destruct Hs as ((Ht & Hw' & Hs) & Hi). unfold post, bind, gets. simpl.
    split; [|exact Hi]. split_and!; simpl; [done|lia|]. rewrite Hs, (src_pos (lid_watch_id _)) by done.
    rewrite src_zero. multiset_solver.
  - apply (keeps_bind (timer_ok B)); [|intros _; apply keeps_ret|done].
    apply keeps_mfor. intros ev _. destruct (_ || _); [apply keeps_ret|apply set_lid_closed_ok].
Qed.

Lemma run_op_timer B op : keeps (timer_ok B) (run_op op).
Proof.
  intros s Hs. unfold run_op, post at 1, bind at 1, gets. cbn [snd].
  destruct op as [f|b|hup evs].
  - destruct (0 <? _); [|done]. revert s Hs.
    apply keeps_bind; [apply calm_keeps, poll_calm|intros _; apply keeps_ret].
  - by apply set_polling_ok.
  - destruct (0 <? _) eqn:E; [|done]. zbool. pose proof (lid_event_ok B hup evs s E Hs) as Hk.
    unfold post, bind in *. by destruct (lid_event_cb hup evs s).
Qed.

Lemma run_ops_timer B ops : keeps (timer_ok B) (run_ops ops).
Proof. apply keeps_mfor. intros op _. apply run_op_timer. Qed.

Section OpenTimer.
Variable g_strsplit : string -> string -> list string.
Variable g_ascii_strtoull : string -> Z.
Abbreviation open_ := (mxc6655_open g_strsplit g_ascii_strtoull).

Lemma setup_lid_watch_timer B s :
  timer s = Tm 0 false false 0 -> sources (calls s) = B -> timer_ok B (post setup_lid_watch s).
Proof.
  intros Ht Hs. unfold setup_lid_watch. pose proof (open_lid_quiet (S := Mxc) s) as (h & E & E1 & _).
  generalize dependent (open_lid_switch (S := Mxc)). intros m E.
  unfold post, bind in *. destruct (m s) as [fd t]. simpl in E. subst t.
  destruct (fd <? 0); simpl.
  - unfold timer_ok, sources_ok. simpl. rewrite Ht, E1. simpl. rewrite Hs, !src_zero.
    split; [|split; [lia|done]]. split_and!; [lia|lia|multiset_solver].
  - unfold read_lid_closed, bind. simpl. unfold timer_ok, sources_ok. simpl.
    rewrite Ht, E1. simpl. rewrite Hs, src_zero. set (i := os_watch_add _ _).
    assert (0 < i) as Hi by apply watch_add_pos. rewrite (src_pos _ Hi).
    split; [|split; [lia|done]]. split_and!; [lia|lia|multiset_solver].
Qed.

Lemma close_all_quiet l : quiet (close_all l).
Proof. unfold close_all. quiet_auto. Qed.

Lemma open_timer h s h' : open_ h = (Some s, h') -> timer_ok (sources h) s.
Proof.
  intros E. cut (wp open_ (fun r _ => match r with None => True | Some s => timer_ok (sources h) s end) h);
    [unfold wp, res; by rewrite E|]. clear E.
  assert (forall A (m : M Trace A) t, quiet m -> sources t = sources h ->
    wp m (fun _ t => sources t = sources h) t) as Hq.
  { intros A m t Hm Ht. apply wp_quiet; [done|]. intros _ u Hu _. simpl. by rewrite Hu. }
  eapply wp_seq; [apply Hq, eq_refl; apply detect_panel_quiet|]. intros deg h1 E1.
  eapply wp_seq; [apply Hq, E1; apply load_gmtr_quiet|]. intros g h2 E2.
  eapply wp_seq; [apply Hq, E2; apply find_accels_quiet|]. intros f1 h3 E3.
  eapply wp_seq; [apply Hq, E3|].
  { destruct (_ <? _)%nat; [|apply quiet_ret].
    quiet_step; [apply close_all_quiet|]. quiet_step; [apply try_unbind_quiet|].
    apply find_accels_quiet. }
  intros f2 h4 E4. destruct f2 as [|fd0 [|fd1 f2]]; [done|done|].
  eapply wp_seq; [apply Hq, E4; apply setup_uinput_quiet|]. intros u h5 E5. simpl in E5.
  apply wp_bind, wp_gets. unfold wp, res, bind, modify, ret. cbn [fst snd].
  by apply setup_lid_watch_timer.
Qed.

(** C3: From open on, whatever the timer, the proxy and the lid do and in
    whatever order, the poll timer is attached exactly while polling is
    wanted and the lid is open, and it and the lid watch are the only
    sources the device adds. *)
Theorem poll_timer_exact (h h' : Trace) (s : Mxc) (ops : list Op) :
  open_ h = (Some s, h') ->
  let s' := post (run_ops ops) s in
  (0 < timeout_id (timer s') <-> want_polling (timer s') = true /\ lid_closed (timer s') = false) /\
  sources (calls s') =
    sources h ⊎ src (timeout_id (timer s')) ⊎ src (lid_watch_id (timer s')).
Proof.
  intros E. apply open_timer in E. intros s'. apply (run_ops_timer _ ops) in E.
  fold s' in E. destruct E as ((_ & _ & Hs) & Hi). split; [|done].
  rewrite Hi. unfold polling_wanted. by rewrite andb_true_iff, negb_true_iff.
Qed.

(** The proxy's [driver_close] leaves no source of the device attached. *)
Theorem close_detaches (h h' : Trace) (s : Mxc) (ops : list Op) :
  open_ h = (Some s, h') ->
  let s' := post (run_ops ops ;;; mxc6655_set_polling false ;;; mxc6655_close) s in
  sources (calls s') = sources h.
Proof.
  intros E. apply open_timer in E. apply (run_ops_timer _ ops) in E. start_post.
  apply wp_bind. unfold wp at 1.
  apply (set_polling_ok _ false) in E. apply wp_bind. unfold wp at 1.
  set (s1 := post (run_ops ops) s) in *.
  assert (want_polling (timer (post (mxc6655_set_polling false) s1)) = false) as Hw.
  { unfold mxc6655_set_polling, post, bind, gets. simpl.
    destruct (want_polling (timer s1)) eqn:Hp; simpl; [|by rewrite Hp].
    unfold update_polling_timer, bind, gets, polling_wanted. simpl.
    by destruct (0 <? _). }
  set (s2 := post (mxc6655_set_polling false) s1) in *. clearbody s2.
  destruct E as ((Ht & Hlw & Hs) & Hi). unfold polling_wanted in Hi. rewrite Hw in Hi.
  assert (timeout_id (timer s2) = 0) as Ht0 by (simpl in Hi; destruct Hi as [Hi _];
    destruct (Z.eq_dec (timeout_id (timer s2)) 0); [done|]; by specialize (Hi ltac:(lia))).
  rewrite Ht0, src_zero in Hs. unfold mxc6655_close. apply wp_bind, wp_gets. cbv zeta.
  change (id s2) with s2. set (B := sources h) in *.
  eapply wp_seq with (P := fun _ t => sources (calls t) = B).
  { unfold src in Hs. destruct (0 <? lid_watch_id (timer s2)); unfold wp, post; simpl;
      rewrite Hs; multiset_solver. }
  intros _ t Et. assert (forall A (m : M Mxc A) u, quiet m -> sources (calls u) = B ->
    wp m (fun _ u => sources (calls u) = B) u) as Hq.
  { intros A m u Hm Hu. apply wp_quiet; [done|]. intros _ v Hv _. simpl. by rewrite Hv. }
  apply Hq; [|done]. quiet_auto.
Qed.
End OpenTimer.
End TimerTheorems.

(** ** Tablet mode and orientation *)

Section ModeTheorems.
Context `{Os} `{Drm}.

Lemma set_tablet_mode_tablet m s :
  let s' := post (set_tablet_mode m) s in
  tablet s' = Tb m (t_count (tablet s)) (l_count (tablet s)) (n_count (tablet s)) /\
  calib s' = calib s /\
  (m <> 0 -> ori s' = ori s /\ emitted (calls s') = emitted (calls s)) /\
  (m = 0 -> ori s' = Or (orient (ori s)) (landscape (ori s)) 0 (landscape (ori s))
                        (panel_deg (ori s)) /\
            emitted (calls s') = emitted (calls s) ++ [synthetic (landscape (ori s))]).
Proof.
  start_post. unfold set_tablet_mode. apply wp_bind, wp_modify, wp_bind, wp_gets, wp_bind.
  apply wp_quiet; [apply call_ltsm_quiet|]. intros r h _ Eh. simpl in Eh.
  apply wp_bind, wp_modify, wp_bind. apply wp_quiet.
  { destruct (0 <=? _); [apply emit_tablet_quiet|apply quiet_ret]. }
  intros _ h' _ Eh'. simpl in Eh'. unfold wp, post, res. destruct (Z.eqb_spec m 0) as [->|Hm].
  - simpl. split_and!; [done..|lia|]. intros _. by rewrite Eh', Eh.
  - simpl. split_and!; [done..|intros _|lia]. by rewrite Eh', Eh.
Qed.

Lemma update_tablet_cases angle s :
  let s' := post (update_tablet_mode angle) s in
  let t := tablet s in
  calib s' = calib s /\
  tablet s' =
    match zone_of (calib s) angle with
    | ZTablet => Tb (if negb (mode t =? 1) && (5 <? t_count t + 1) then 1 else mode t)
                    (t_count t + 1) 0 0
    | ZNeutral => Tb (mode t) 0 0 (n_count t + 1)
    | ZLaptop => Tb (if negb (mode t =? 0) && (5 <? l_count t + 1) then 0 else mode t)
                    0 (l_count t + 1) 0
    | ZNone => t
    end.
Proof.
  unfold update_tablet_mode, zone_of, post, bind, gets, modify. cbv zeta.
  change GMTR_DEBOUNCE with 5. cbn -[set_tablet_mode Z.ltb Z.add Z.eqb negb andb].
  destruct (f_gt angle (tablet_thresh (calib s))).
  { destruct (_ && _); [|done].
    match goal with |- context [set_tablet_mode 1 ?s1] =>
      pose proof (set_tablet_mode_tablet 1 s1) as (E1 & E2 & _) end.
    unfold post in *. by rewrite E1, E2. }
  destruct (f_ge angle _); [done|]. destruct (f_gt angle _); [|done].
  destruct (_ && _); [|done].
  match goal with |- context [set_tablet_mode 0 ?s1] =>
    pose proof (set_tablet_mode_tablet 0 s1) as (E1 & E2 & _) end.
  unfold post in *. by rewrite E1, E2.
Qed.

Lemma streak_nonneg z l : 0 <= streak z l.
Proof. induction l as [|[] l IH]; simpl; repeat case_bool_decide; lia. Qed.

Lemma streak_none z l : streak z (ZNone :: l) = streak z l.
Proof. done. Qed.

Lemma spec_mode_none l : spec_mode (ZNone :: l) = spec_mode l.
Proof. destruct l as [|x l]; [done|]. simpl spec_mode at 1. simpl. repeat destruct (6 <=? _); done. Qed.

Lemma spec_mode_range l : -1 <= spec_mode l <= 1.
Proof. induction l as [|x l IH]; cbn [spec_mode]; [lia|]. repeat destruct (6 <=? _); lia. Qed.

(** C6: Over any run of hinge angles, mode and counters are those of the
    specification: six samples in a row beyond the tablet threshold enter
    tablet mode, six between the minimum angle and the laptop threshold leave
    it, and the band between the two thresholds changes nothing. *)
Theorem tablet_mode_hysteresis (s : Mxc) (angles : list float) :
  tablet s = Tb (-1) 0 0 0 ->
  let l := rev (map (zone_of (calib s)) angles) in
  tablet (post (mfor angles update_tablet_mode) s) =
    Tb (spec_mode l) (streak ZTablet l) (streak ZLaptop l) (streak ZNeutral l).
Proof.
  intros Hs l. cut (calib (post (mfor angles update_tablet_mode) s) = calib s /\
    tablet (post (mfor angles update_tablet_mode) s) =
      Tb (spec_mode l) (streak ZTablet l) (streak ZLaptop l) (streak ZNeutral l)); [tauto|].
  subst l. induction angles as [|a angles [IHc IHt]] using rev_ind; [split; [done|exact Hs]|].
  rewrite post_mfor_snoc, map_app, rev_app_distr. simpl rev.
  set (t := post (mfor angles update_tablet_mode) s) in *. clearbody t.
  destruct (update_tablet_cases a t) as [Ec Et]. rewrite Ec, Et, IHc. split; [done|].
  set (l := rev (map (zone_of (calib s)) angles)) in *. clearbody l. rewrite IHt.
  pose proof (streak_nonneg ZTablet l). pose proof (streak_nonneg ZLaptop l).
  pose proof (spec_mode_range l).
  destruct (zone_of (calib s) a); cbn [app].
  - cbn [mode t_count]. f_equal; [|simpl; lia]. cbn [spec_mode]. simpl streak.
    destruct (Z.leb_spec 6 (1 + streak ZTablet l)), (Z.ltb_spec 5 (streak ZTablet l + 1)); try lia;
      destruct (Z.eqb_spec (spec_mode l) 1); simpl; lia.
  - cbn [mode n_count]. simpl. f_equal. lia.
  - cbn [mode l_count]. f_equal; [|simpl; lia]. cbn [spec_mode]. simpl streak.
    destruct (Z.leb_spec 6 (1 + streak ZLaptop l)), (Z.ltb_spec 5 (streak ZLaptop l + 1)); try lia;
      destruct (Z.eqb_spec (spec_mode l) 0); simpl; lia.
  - by rewrite spec_mode_none, !streak_none.
Qed.

Lemma landscape_range o : (exists d, panel_deg o = panel_orient_degrees d) -> 0 <= landscape o <= 3.
Proof.
  intros [d Hd]. unfold landscape. rewrite Hd. unfold panel_orient_degrees.
  repeat destruct (_ =? _); vm_compute; split; congruence.
Qed.

Lemma compose_range d c : 0 <= c <= 3 -> 0 <= compose_orientation c (panel_orient_degrees d) <= 3.
Proof.
  intros Hc. unfold panel_orient_degrees.
  assert (c = 0 \/ c = 1 \/ c = 2 \/ c = 3) as [-> | [-> | [-> | ->]]] by lia;
    repeat destruct (_ =? _); vm_compute; split; congruence.
Qed.

Lemma still_keeps {A} (m : M Mxc A) : still m -> keeps view_ok m.
Proof. apply same_keeps. intros s t [= E1 E2 E3]. unfold view_ok. by rewrite E1, E2, E3. Qed.

Lemma classify_bounds v : -1 <= classify_orientation v <= 3.
Proof.
  unfold classify_orientation. destruct (_ && _); [lia|].
  destruct (f_ge _ _); [destruct (f_lt _ _)|destruct (f_gt _ _)]; simpl; lia.
Qed.

Lemma debounce_view v : keeps view_ok (update_orientation_debounce v).
Proof.
  intros s (Ho & Hdeg & Hc & Hp & Hd & Hm & Hl & He).
  unfold update_orientation_debounce, post, bind, gets. cbn [snd id].
  pose proof (update_orientation_inv (orient (ori s)) v Ho) as Hst.
  destruct (update_orientation _ _) as [ost st]. destruct Hst as (Hst & _).
  unfold modify. cbn [snd fst].
  destruct (ost <=? 0); [unfold view_ok; simpl; split_and!; eauto; lia|].
  pose proof (classify_bounds v) as Hcl.
  destruct (Z.ltb_spec (classify_orientation v) 0); [unfold view_ok; simpl; split_and!; eauto; lia|].
  cbn [panel_deg pending_orient cur_orient orient_debounce].
  set (n0 := if negb (mode (tablet s) =? 1) then _ else classify_orientation v).
  assert (0 <= n0 <= 3) as Hn0 by (unfold n0; destruct (negb _); [vm_compute; split; congruence|lia]).
  destruct Hdeg as [d Hdeg]. rewrite Hdeg.
  assert (mode (tablet s) = 0 -> compose_orientation n0 (panel_orient_degrees d) = cur_orient (ori s)) as Hn1.
  { intros E. rewrite (Hl E). unfold landscape. rewrite Hdeg. unfold n0. by rewrite E. }
  pose proof (compose_range d n0 Hn0) as Hn. clearbody n0.
  set (n := compose_orientation n0 _) in *. clearbody n.
  assert (landscape (ori s) = compose_orientation (mxc_code MXC_ORIENT_RIGHT) (panel_orient_degrees d))
    as Hland by (unfold landscape; by rewrite Hdeg).
  rewrite Hland in Hl.
  assert (exists d', panel_orient_degrees d = panel_orient_degrees d') as Hdx by eauto.
  unfold GMTR_DEBOUNCE, view_ok, landscape. simpl in Hl. simpl.
  destruct (Z.eqb_spec n (pending_orient (ori s))) as [E|E]; simpl.
  - destruct (Z.eqb_spec n (cur_orient (ori s))) as [|Hne];
      [split_and!; simpl; eauto; lia|].
    destruct (Z.ltb_spec 5 (orient_debounce (ori s) + 1)); simpl.
    + split_and!; simpl; eauto; try lia.
      intros _. by rewrite list.last_snoc.
    + split_and!; simpl; eauto; lia.
  - split_and!; simpl; eauto; try lia. all: try (destruct (negb _); lia).
Qed.

Lemma set_tablet_view m : -1 <= m <= 1 -> keeps view_ok (set_tablet_mode m).
Proof.
  intros Hm s (Ho & Hdeg & Hc & Hp & Hd & Hmd & Hl & He).
  destruct (set_tablet_mode_tablet m s) as (Et & _ & H1 & H0').
  pose proof (landscape_range (ori s) Hdeg) as Hr.
  unfold view_ok. rewrite Et. cbn [mode]. destruct (Z.eq_dec m 0) as [->|Hm0].
  - destruct (H0' eq_refl) as [-> ->]. cbn [orient panel_deg cur_orient pending_orient orient_debounce].
    split_and!; try lia; try done. intros _. by rewrite list.last_snoc.
  - destruct (H1 Hm0) as [-> ->]. split_and!; try lia; try done.
Qed.

Lemma update_tablet_view a : keeps view_ok (update_tablet_mode a).
Proof.
  intros s Hs. unfold update_tablet_mode, post, bind, gets. cbv zeta. cbn [fst snd id].
  assert (forall t, mode t = mode (tablet s) -> view_ok (set_tablet t s)) as Ht.
  { intros t Et. unfold view_ok in *. simpl. by rewrite Et. }
  destruct (f_gt _ _); [|destruct (f_ge _ _); [by apply Ht|destruct (f_gt _ _); [|done]]];
    unfold modify; destruct (_ && _); [..|by apply Ht].
  - by apply set_tablet_view, Ht.
  - by apply Ht.
  - by apply set_tablet_view, Ht.
Qed.

Lemma recover_still : still recover_i2c.
Proof.
  unfold recover_i2c. assert (forall fd, still (if 0 <=? fd then sys_close fd else ret tt)) as Hc.
  { intros fd. apply same_if; [|done]. apply still_quiet. quiet_auto. }
  apply same_bind; [done|]. intros f. apply same_bind; [apply Hc|intros ?].
  apply same_bind; [apply Hc|intros ?].
  apply same_bind; [apply still_quiet, try_unbind_quiet|intros ?].
  apply same_bind; [apply still_quiet, find_accels_quiet|intros l].
  destruct l as [|? [|? ?]]; auto with same.
Qed.

Lemma poll_view f : keeps view_ok (poll_sensors f).
Proof.
  unfold poll_sensors. apply keeps_bind; [apply keeps_gets|intros fd].
  apply keeps_bind; [apply still_keeps, still_quiet, read_accel_quiet|intros raw1].
  apply keeps_bind; [destruct raw1; [apply still_keeps, still_quiet, read_accel_quiet|
    apply keeps_ret]|intros raw2].
  destruct raw1 as [raw1|], raw2 as [raw2|]; try (apply keeps_bind;
    [apply still_keeps, recover_still|intros ?; apply keeps_ret]).
  apply keeps_bind; [apply keeps_gets|intros c]. cbv zeta.
  apply keeps_bind; [apply debounce_view|intros ?]. destruct (_ && _); [apply keeps_ret|].
  apply keeps_bind; [apply keeps_gets|intros s].
  destruct (compute_hinge_angle _ _ _ _ _) as [[angle z1] z2].
  apply keeps_bind; [apply still_keeps; auto with same|intros ?].
  apply keeps_bind; [apply update_tablet_view|intros ?; apply keeps_ret].
Qed.

(** The reading sent on request is the current orientation. *)
Lemma send_current_emits s :
  post send_current_reading s =
  set_trace (EvEmit (synthetic (if cur_orient (ori s) <? 0 then landscape (ori s)
                                else cur_orient (ori s))) :: calls s) s.
Proof. done. Qed.

Lemma send_current_view : keeps view_ok send_current_reading.
Proof.
  intros s (Ho & Hdeg & Hc & Hp & Hd & Hm & Hl & He). rewrite send_current_emits.
  unfold view_ok. simpl. split_and!; try done; try lia.
  intros Hcur. rewrite list.last_snoc. by rewrite (proj2 (Z.ltb_ge _ 0)).
Qed.

Lemma update_polling_still : still update_polling_timer.
Proof.
  unfold update_polling_timer. apply same_bind; [done|intros t].
  apply same_if; [|apply same_if; [|done]].
  - apply same_bind; [intros ?; reflexivity|intros ?]. auto with same.
  - apply same_bind; [done|intros ?]. apply same_bind; [intros ?; reflexivity|intros ?].
    auto with same.
Qed.

Lemma set_lid_still c : still (set_lid_closed c).
Proof.
  unfold set_lid_closed. apply same_bind; [done|intros t]. apply same_if; [done|].
  apply same_bind; [auto with same|intros ?; apply update_polling_still].
Qed.

Lemma lid_event_still hup evs : still (lid_event_cb hup evs).
Proof.
  unfold lid_event_cb. destruct hup.
  - apply same_bind; [done|intros t]. apply same_bind; [intros ?; reflexivity|intros ?].
    auto with same.
  - apply same_bind; [|intros ?; apply same_ret]. apply same_mfor. intros ev.
    apply same_if; [done|apply set_lid_still].
Qed.

Lemma switch_polling_still b : still
  (t <- gets timer ;;
   if Bool.eqb (want_polling t) b then ret tt
   else modify (set_timer (Tm (timeout_id t) b (lid_closed t) (lid_watch_id t))) ;;;
        update_polling_timer).
Proof.
  apply same_bind; [done|intros t]. apply same_if; [done|].
  apply same_bind; [auto with same|intros ?; apply update_polling_still].
Qed.

Lemma run_op_view op : keeps view_ok (run_op op).
Proof.
  unfold run_op. apply keeps_bind; [apply keeps_gets|intros t]. destruct op as [f|b|hup evs].
  - destruct (0 <? _); [|apply keeps_ret].
    apply keeps_bind; [apply poll_view|intros ?; apply keeps_ret].
  - unfold mxc6655_set_polling. apply keeps_bind; [|intros ?; apply still_keeps, switch_polling_still].
    destruct b; [apply send_current_view|apply keeps_ret].
  - destruct (0 <? _); [|apply keeps_ret].
    apply keeps_bind; [apply still_keeps, lid_event_still|intros ?; apply keeps_ret].
Qed.

(** Asking for readings always produces one at once, of the current
    orientation, or landscape when none is known; stopping produces none. *)
Theorem set_polling_emits (s : Mxc) (state : bool) :
  emitted (calls (post (mxc6655_set_polling state) s)) =
  emitted (calls s) ++
    (if state then [synthetic (if cur_orient (ori s) <? 0 then landscape (ori s)
                               else cur_orient (ori s))] else []).
Proof.
  unfold mxc6655_set_polling.
  apply (wp_post _ (fun t => emitted (calls t) = _)), wp_bind.
  set (s1 := post (if state then send_current_reading else ret tt) s).
  pose proof (switch_polling_still state s1) as [= _ _ E]. unfold wp at 1. cbv beta.
  fold s1. unfold wp. rewrite E.
  unfold s1. destruct state; [done|]. simpl. by rewrite app_nil_r.
Qed.

(** One step of the orientation debounce: a change of orientation was pending
    with the counter at 5 and is the one reading emitted; any other sample
    emits nothing. *)
Theorem debounce_step (s : Mxc) (v : Vec3) :
  let s' := post (update_orientation_debounce v) s in
  let o := ori s in
  let o' := ori s' in
  if cur_orient o' =? cur_orient o then emitted (calls s') = emitted (calls s)
  else
    cur_orient o' = pending_orient o /\ 5 <= orient_debounce o /\ orient_debounce o' = 0 /\
    emitted (calls s') = emitted (calls s) ++ [synthetic (cur_orient o')] /\
    (mode (tablet s) <> 1 -> cur_orient o' = landscape o).
Proof.
  cbv zeta. unfold update_orientation_debounce, post, bind, gets. cbn [snd id].
  destruct (update_orientation _ _) as [ost st]. unfold modify. cbn [snd fst].
  unfold set_ori. simpl ori.
  destruct (ost <=? 0); [simpl; by rewrite Z.eqb_refl|].
  destruct (_ <? 0); [simpl; by rewrite Z.eqb_refl|].
  cbn [panel_deg pending_orient cur_orient orient_debounce orient].
  set (n := compose_orientation (if negb (mode (tablet s) =? 1) then _ else _) _).
  assert (mode (tablet s) <> 1 -> n = landscape (ori s)) as Hn.
  { intros Hm. unfold n, landscape. by rewrite (proj2 (Z.eqb_neq _ 1)). }
  clearbody n. destruct (Z.eqb_spec n (pending_orient (ori s))) as [E|E]; simpl;
    [|by rewrite Z.eqb_refl].
  destruct (Z.eqb_spec n (cur_orient (ori s))) as [E'|E']; simpl; [by rewrite Z.eqb_refl|].
  unfold GMTR_DEBOUNCE. destruct (Z.ltb_spec 5 (orient_debounce (ori s) + 1)); simpl;
    [|by rewrite Z.eqb_refl].
  rewrite (proj2 (Z.eqb_neq _ _)) by done. split_and!; try done; lia.
Qed.

Section OpenView.
Variable g_strsplit : string -> string -> list string.
Variable g_ascii_strtoull : string -> Z.
Abbreviation open_ := (mxc6655_open g_strsplit g_ascii_strtoull).

Lemma setup_lid_still : still setup_lid_watch.
Proof.
  unfold setup_lid_watch. apply same_bind; [apply still_quiet, open_lid_quiet|intros fd].
  apply same_bind; [auto with same|intros ?]. apply same_if; [done|].
  apply same_bind; [apply still_quiet, read_lid_quiet|intros c].
  apply same_bind; [intros ?; reflexivity|intros ?]. auto with same.
Qed.

Lemma detect_panel_deg (h : Trace) :
  wp detect_panel_rotation (fun deg _ => exists d, deg = panel_orient_degrees d) h.
Proof.
  unfold detect_panel_rotation. apply wp_bind. unfold wp, res. simpl.
  destruct (_ =? _); eauto. by exists 0.
Qed.

Lemma open_view h s h' : open_ h = (Some s, h') -> view_ok s.
Proof.
  intros E. cut (wp open_ (fun r _ => match r with None => True | Some s => view_ok s end) h);
    [unfold wp, res; by rewrite E|]. clear E.
  eapply wp_seq; [apply detect_panel_deg|]. intros deg h1 [d Hd].
  eapply (wp_seq _ _ (fun _ _ => True)); [done|]. intros g h2 _.
  eapply (wp_seq _ _ (fun _ _ => True)); [done|]. intros f1 h3 _.
  eapply (wp_seq _ _ (fun _ _ => True)); [done|]. intros f2 h4 _.
  destruct f2 as [|fd0 [|fd1 f2]]; [done|done|].
  eapply (wp_seq _ _ (fun _ _ => True)); [done|]. intros u h5 _. apply wp_bind, wp_gets.
  unfold wp, res, bind, modify, ret. cbn [fst snd].
  apply (still_keeps _ setup_lid_still). unfold view_ok. cbn.
  split_and!; try lia; [apply orient_init_ok|by exists d].
Qed.

(** C1: From open on, after any sequence of polls, claims and lid events: in
    laptop mode the reading the proxy saw last is landscape; in any mode,
    once an orientation is known, it is that orientation. *)
Theorem laptop_shows_landscape (h h' : Trace) (s : Mxc) (ops : list Op) :
  open_ h = (Some s, h') ->
  let s' := post (run_ops ops) s in
  let o := ori s' in
  (mode (tablet s') = 0 -> list.last (emitted (calls s')) = Some (synthetic (landscape o))) /\
  (0 <= cur_orient o -> list.last (emitted (calls s')) = Some (synthetic (cur_orient o))) /\
  -1 <= cur_orient o <= 3 /\ orient_ok (orient o).
Proof.
  intros E. apply open_view in E. intros s' o.
  assert (view_ok s') as (Ho & Hdeg & Hc & Hp & Hd & Hm & Hl & He).
  { revert s E s' o. apply keeps_mfor. intros op _. apply run_op_view. }
  fold o in Ho, Hdeg, Hc, Hl, He. split; [|done]. intros Em.
  pose proof (landscape_range o Hdeg). rewrite <- (Hl Em). apply He. rewrite (Hl Em). lia.
Qed.
End OpenView.
End ModeTheorems.

(** ** Examples: a machine with both accelerometers, a lid switch and a panel
    mounted right-up *)

Module Sim.
Definition devs : list (string * option string) :=
  [("i2c-0", Some "\_SB.PC00.I2C0.ACC0"); ("i2c-9", Some "\_SB.PC00.GFX0");
   ("i2c-1", Some "\_SB.PC00.I2C1.ACC1")]%string.
#[export] Instance os : Os := sim_os None (Some [0; 0; 240; 0; 0; 0]) devs.
#[export] Instance os_laws : OsLaws := sim_os_laws _ _ _.
#[export] Instance drm : Drm := sim_drm.

Definition opened : option Mxc * Trace := mxc6655_open sim_strsplit (digits_from 0) [].
Definition dev : Mxc := match fst opened with Some s => s | None => mxc_new 0 cal_default 0 0 0 [] end.

Lemma opened_dev : mxc6655_open sim_strsplit (digits_from 0) [] = (Some dev, snd opened).
Proof. vm_compute. reflexivity. Qed.

Lemma opened_fds : open_fds (calls dev) = ∅ ⊎ held (fds dev).
Proof.
  pose proof (open_result sim_strsplit (digits_from 0) []) as E.
  rewrite opened_dev in E. destruct E as (-> & -> & _). done.
Qed.

(** Polls that see a flat angle, or a constant one in the tablet band. *)
Definition ops : list Op :=
  [SetPolling true; Poll (fun _ _ => c_3); LidEvents false [Ev EV_SW SW_LID 1]; SetPolling true;
   LidEvents false [Ev EV_SW SW_LID 0; Ev EV_SYN 0 0]; Poll (fun _ _ => c_1)].
End Sim.
Import Sim.

Lemma open_close_balanced_witness :
  open_fds (snd opened) = held (fds dev) /\ open_fds (calls (post mxc6655_close dev)) = ∅.
Proof.
  pose proof (open_close_balanced sim_strsplit (digits_from 0) []) as E.
  rewrite opened_dev in E. destruct E as (<- & _ & _ & E). split; [|exact E].
  rewrite opened_fds. multiset_solver.
Defined.

Lemma recover_i2c_fds_witness :
  open_fds (calls dev) = ∅ ⊎ held (fds dev) /\
  let s' := post recover_i2c dev in
  exists found, accels_ok found /\
    match found with
    | [fd0; fd1] => i2c_fd0 (fds s') = fd0 /\ i2c_fd1 (fds s') = fd1 /\
                    open_fds (calls s') = ∅ ⊎ held (fds s')
    | _ => i2c_fd0 (fds s') = -1 /\ i2c_fd1 (fds s') = -1 /\
           open_fds (calls s') = ∅ ⊎ held (fds s') ⊎ own_all found
    end.
Proof. split; [exact opened_fds|exact (recover_i2c_fds dev ∅ opened_fds)]. Defined.

(** With the lid closed the timer is off, with it open again it is back. *)
Lemma poll_timer_exact_witness :
  let s' := post (run_ops ops) dev in
  want_polling (timer s') = true /\ lid_closed (timer s') = false /\
  (0 < timeout_id (timer s') <-> want_polling (timer s') = true /\ lid_closed (timer s') = false) /\
  sources (calls s') =
    sources [] ⊎ src (timeout_id (timer s')) ⊎ src (lid_watch_id (timer s')).
Proof.
  intros s'. split; [vm_compute; reflexivity|]. split; [vm_compute; reflexivity|].
  exact (poll_timer_exact sim_strsplit (digits_from 0) [] (snd opened) dev ops opened_dev).
Defined.

Lemma close_detaches_witness :
  let s' := post (run_ops ops ;;; mxc6655_set_polling false ;;; mxc6655_close) dev in
  sources (calls s') = sources [].
Proof. exact (close_detaches sim_strsplit (digits_from 0) [] (snd opened) dev ops opened_dev). Defined.

(** Seven samples beyond the threshold enter tablet mode, six laptop samples
    with one below the minimum angle in between leave it. *)
Lemma tablet_mode_hysteresis_witness :
  let a := replicate 7 c_360 ++ replicate 3 c_100 ++ [c_1] ++ replicate 3 c_100 in
  let l := rev (map (zone_of (calib dev)) a) in
  spec_mode (drop 7 l) = 1 /\ spec_mode (tail l) = 1 /\ spec_mode l = 0 /\
  tablet (post (mfor a update_tablet_mode) dev) =
    Tb (spec_mode l) (streak ZTablet l) (streak ZLaptop l) (streak ZNeutral l).
Proof.
  intros a l. do 3 (split; [vm_compute; reflexivity|]).
  exact (tablet_mode_hysteresis dev a eq_refl).
Defined.

Lemma laptop_shows_landscape_witness :
  let s' := post (run_ops ops) dev in
  let o := ori s' in
  landscape o = 0 /\
  (mode (tablet s') = 0 -> list.last (emitted (calls s')) = Some (synthetic (landscape o))) /\
  (0 <= cur_orient o -> list.last (emitted (calls s')) = Some (synthetic (cur_orient o))) /\
  -1 <= cur_orient o <= 3 /\ orient_ok (orient o).
Proof.
  intros s' o. split; [vm_compute; reflexivity|].
  exact (laptop_shows_landscape sim_strsplit (digits_from 0) [] (snd opened) dev ops opened_dev).
Defined.
