(* ===== verification/Orientation.v ===== *)
(** * Orientation and tilt from raw readings (orientation.c)

    [atan2] is the C library's; what is used of it are the values the C
    standard fixes on the axes (Annex F). *)

From Stdlib Require Import ZArith Lia SpecFloat.
From stdpp Require Import base list strings.
From S2P Require Import Prelude Floats Drivers Os MxcFilter MxcDevice MxcPolling.

#[local] Open Scope Z_scope.

(** ** Data *)

Inductive OrientationUp :=
  ORIENTATION_UNDEFINED | ORIENTATION_NORMAL | ORIENTATION_BOTTOM_UP | ORIENTATION_LEFT_UP
| ORIENTATION_RIGHT_UP.

#[export] Instance OrientationUp_eq_dec : EqDecision OrientationUp.
Proof. solve_decision. Defined.

Inductive Tilt :=
  TILT_UNDEFINED | TILT_VERTICAL | TILT_UP | TILT_DOWN | FACE_UP | FACE_DOWN.

#[export] Instance Tilt_eq_dec : EqDecision Tilt.
Proof. solve_decision. Defined.

(** The tables, in the order of the enums. *)
Definition orientations : list (string * OrientationUp) :=
  [("undefined", ORIENTATION_UNDEFINED); ("normal", ORIENTATION_NORMAL);
   ("bottom-up", ORIENTATION_BOTTOM_UP); ("left-up", ORIENTATION_LEFT_UP);
   ("right-up", ORIENTATION_RIGHT_UP)]%string.
Definition tilts : list (string * Tilt) :=
  [("undefined", TILT_UNDEFINED); ("vertical", TILT_VERTICAL); ("tilted-up", TILT_UP);
   ("tilted-down", TILT_DOWN); ("face-up", FACE_UP); ("face-down", FACE_DOWN)]%string.

Definition orientation_code (o : OrientationUp) : nat :=
  match o with
  | ORIENTATION_UNDEFINED => 0 | ORIENTATION_NORMAL => 1 | ORIENTATION_BOTTOM_UP => 2
  | ORIENTATION_LEFT_UP => 3 | ORIENTATION_RIGHT_UP => 4
  end.
Definition tilt_code (t : Tilt) : nat :=
  match t with
  | TILT_UNDEFINED => 0 | TILT_VERTICAL => 1 | TILT_UP => 2 | TILT_DOWN => 3
  | FACE_UP => 4 | FACE_DOWN => 5
  end.

Definition orientation_to_string (o : OrientationUp) : option string :=
  fst <$> orientations !! orientation_code o.
Definition tilt_to_string (t : Tilt) : option string := fst <$> tilts !! tilt_code t.

(** The first entry with that string. *)
Fixpoint table_find {A} (s : string) (t : list (string * A)) (default : A) : A :=
  match t with
  | [] => default
  | (k, a) :: t' => if String.eqb s k then a else table_find s t' default
  end.

Definition string_to_orientation (s : option string) : OrientationUp :=
  match s with
  | None => ORIENTATION_UNDEFINED
  | Some s => table_find s orientations ORIENTATION_UNDEFINED
  end.
Definition string_to_tilt (s : option string) : Tilt :=
  match s with None => TILT_UNDEFINED | Some s => table_find s tilts TILT_UNDEFINED end.

(** ** Calculation *)

Definition d_180 : float := Eval vm_compute in Dbl 180 1.
Definition M_PI : float := Eval vm_compute in Dbl 314159265358979323846 100000000000000000000.
Definition d_256 : float := Eval vm_compute in Dbl 256 1.
Definition d_9_81 : float := Eval vm_compute in Dbl 981 100.

Definition SAME_AXIS_LIMIT := 5.
Definition THRESHOLD_LANDSCAPE := 35.
Definition THRESHOLD_PORTRAIT := 35.
Definition THRESHOLD_FACE_DOWN := 70.
Definition THRESHOLD_TILT := 20.
Definition TILT_MAX := 90.

(** [SCALE (a)] *)
Definition SCALE (in_ : Z) (scale : float) : Z :=
  f_to_int 32 (f64_div (f64_mul (f64_mul (f64_of_Z in_) scale) d_256) d_9_81).

Section Calc.
Variable atan2 : float -> float -> float.

(** [round (atan2 (a, sqrt (b * b + c * c)) * RADIANS_TO_DEGREES)], the macro
    expanded without parentheses: times 180.0, then divided by pi. *)
Definition rotation (a b c : Z) : Z :=
  let ang := atan2 (f64_of_Z a) (f64_sqrt (f64_of_Z (sint 32 (sint 32 (b * b) + sint 32 (c * c))))) in
  f_to_int 32 (f64_round (f64_div (f64_mul ang d_180) M_PI)).

Definition tilt_of (tilt : Z) : Tilt :=
  if Z.abs tilt <=? THRESHOLD_TILT then TILT_VERTICAL
  else if (THRESHOLD_TILT <? Z.abs tilt) && (Z.abs tilt <? THRESHOLD_FACE_DOWN)
  then if 0 <? tilt then TILT_UP else TILT_DOWN
  else if (THRESHOLD_FACE_DOWN <=? Z.abs tilt) && (Z.abs tilt <=? TILT_MAX)
  then if 0 <? tilt then FACE_UP else FACE_DOWN
  else TILT_UNDEFINED.

Definition tilt_calc (prev : Tilt) (in_x in_y in_z : Z) (scale : AccelScale) : Tilt :=
  let x := SCALE in_x (scale_x scale) in
  let y := SCALE in_y (scale_y scale) in
  let z := SCALE in_z (scale_z scale) in
  tilt_of (rotation z x y).

(** The decision on the two rotations. *)
Definition orientation_of (prev : OrientationUp) (portrait landscape : Z) : OrientationUp :=
  if (THRESHOLD_PORTRAIT <? Z.abs portrait) && (THRESHOLD_LANDSCAPE <? Z.abs landscape)
  then prev
  else if THRESHOLD_PORTRAIT <? Z.abs portrait then
    let r := if 0 <? portrait then ORIENTATION_LEFT_UP else ORIENTATION_RIGHT_UP in
    if bool_decide (prev = ORIENTATION_LEFT_UP) || bool_decide (prev = ORIENTATION_RIGHT_UP)
    then if Z.abs portrait <? SAME_AXIS_LIMIT then prev else r
    else r
  else if THRESHOLD_LANDSCAPE <? Z.abs landscape then
    let r := if 0 <? landscape then ORIENTATION_BOTTOM_UP else ORIENTATION_NORMAL in
    if bool_decide (prev = ORIENTATION_BOTTOM_UP) || bool_decide (prev = ORIENTATION_NORMAL)
    then if Z.abs landscape <? SAME_AXIS_LIMIT then prev else r
    else r
  else prev.

Definition orientation_calc (prev : OrientationUp) (in_x in_y in_z : Z) (scale : AccelScale) :
    OrientationUp :=
  let x := SCALE in_x (scale_x scale) in
  let y := SCALE in_y (scale_y scale) in
  let z := SCALE in_z (scale_z scale) in
  orientation_of prev (rotation x y z) (rotation y x z).
End Calc.

(** What the C standard fixes of [atan2] on the axes. *)
Definition half_pi : float := Eval vm_compute in f64_div M_PI (Dbl 2 1).

Class Atan2Laws (atan2 : float -> float -> float) := {
  atan2_zero x : f_gt x f0 = true -> atan2 f0 x = f0;
  atan2_up y : f_gt y f0 = true -> atan2 y f0 = half_pi;
  atan2_down y : f_lt y f0 = true -> atan2 y f0 = f_neg half_pi
}.

(** The orientation the panel shows for an [MxcOrientation]. *)
Definition up_of (o : MxcOrientation) : OrientationUp :=
  match o with
  | MXC_ORIENT_NORMAL => ORIENTATION_NORMAL
  | MXC_ORIENT_LEFT => ORIENTATION_LEFT_UP
  | MXC_ORIENT_INVERTED => ORIENTATION_BOTTOM_UP
  | MXC_ORIENT_RIGHT => ORIENTATION_RIGHT_UP
  end.

(** ** Theorems *)

(** Every orientation has a string, and it reads back; every tilt too. *)
Theorem orientation_strings_roundtrip :
  (forall o, is_Some (orientation_to_string o) /\
             string_to_orientation (orientation_to_string o) = o) /\
  (forall t, is_Some (tilt_to_string t) /\ string_to_tilt (tilt_to_string t) = t).
Proof. split; intros []; (split; [vm_compute; eauto|reflexivity]). Qed.

(** Outside the common border one rotation decides alone: the limit meant to
    keep the previous orientation on the same axis is never reached. *)
Theorem orientation_of_spec prev p l :
  orientation_of prev p l =
    if (35 <? Z.abs p) && (35 <? Z.abs l) then prev
    else if 35 <? p then ORIENTATION_LEFT_UP
    else if p <? -35 then ORIENTATION_RIGHT_UP
    else if 35 <? l then ORIENTATION_BOTTOM_UP
    else if l <? -35 then ORIENTATION_NORMAL
    else prev.
Proof.
  unfold orientation_of, THRESHOLD_PORTRAIT, THRESHOLD_LANDSCAPE, SAME_AXIS_LIMIT.
  destruct (_ && _) eqn:E; [done|]. apply andb_false_iff in E.
  destruct (Z.ltb_spec 35 (Z.abs p)).
  - rewrite (proj2 (Z.ltb_ge (Z.abs p) 5)) by lia.
    assert (forall b : bool, (if b then (if 0 <? p then ORIENTATION_LEFT_UP else ORIENTATION_RIGHT_UP)
      else (if 0 <? p then ORIENTATION_LEFT_UP else ORIENTATION_RIGHT_UP)) =
      if 35 <? p then ORIENTATION_LEFT_UP else if p <? -35 then ORIENTATION_RIGHT_UP
      else if 35 <? l then ORIENTATION_BOTTOM_UP else if l <? -35 then ORIENTATION_NORMAL else prev)
      as ->; [|done].
    intros []; destruct (Z.ltb_spec 0 p), (Z.ltb_spec 35 p); try lia; try done;
      by rewrite (proj2 (Z.ltb_lt p (-35))) by lia.
  - rewrite (proj2 (Z.ltb_ge 35 p)), (proj2 (Z.ltb_ge p (-35))) by lia.
    destruct (Z.ltb_spec 35 (Z.abs l)).
    + rewrite (proj2 (Z.ltb_ge (Z.abs l) 5)) by lia.
      destruct (_ || _); destruct (Z.ltb_spec 0 l), (Z.ltb_spec 35 l); try lia; try done;
        by rewrite (proj2 (Z.ltb_lt l (-35))) by lia.
    + by rewrite (proj2 (Z.ltb_ge 35 l)), (proj2 (Z.ltb_ge l (-35))) by lia.
Qed.

(** The tilt bands, for an angle of at most a right angle. *)
Theorem tilt_of_spec t :
  -90 <= t <= 90 ->
  tilt_of t = if Z.abs t <=? 20 then TILT_VERTICAL
              else if 70 <=? t then FACE_UP else if 0 <? t then TILT_UP
              else if t <=? -70 then FACE_DOWN else TILT_DOWN.
Proof.
  intros Ht. unfold tilt_of, THRESHOLD_TILT, THRESHOLD_FACE_DOWN, TILT_MAX.
  destruct (Z.leb_spec (Z.abs t) 20); [done|].
  rewrite (proj2 (Z.ltb_lt 20 _)) by lia. rewrite andb_true_l.
  rewrite (proj2 (Z.leb_le (Z.abs t) 90)) by lia. rewrite andb_true_r.
  destruct (Z.ltb_spec (Z.abs t) 70), (Z.leb_spec 70 t), (Z.ltb_spec 0 t), (Z.leb_spec t (-70)),
    (Z.leb_spec 70 (Z.abs t)); try lia; done.
Qed.

Lemma tilt_of_spec_witness : -90 <= -70 <= 90 /\
  tilt_of (-70) = if Z.abs (-70) <=? 20 then TILT_VERTICAL
              else if 70 <=? -70 then FACE_UP else if 0 <? -70 then TILT_UP
              else if -70 <=? -70 then FACE_DOWN else TILT_DOWN.
Proof. split; [lia|apply (tilt_of_spec (-70)); lia]. Defined.

(** The readings the MXC6655 driver makes up give the orientation they stand
    for, whatever was shown before. *)
Theorem synthetic_orientation (atan2 : float -> float -> float) (prev : OrientationUp)
    (o : MxcOrientation) :
  Atan2Laws atan2 ->
  let r := build_synthetic_readings (mxc_code o) in
  orientation_calc atan2 prev (accel_x r) (accel_y r) (accel_z r) (accel_scale r) = up_of o.
Proof.
  intros HA. unfold orientation_calc, rotation.
  destruct o; cbv zeta; cbn [mxc_code];
    repeat match goal with |- context [SCALE ?a ?b] =>
      let v := eval vm_compute in (SCALE a b) in change (SCALE a b) with v end;
    repeat match goal with |- context [f64_sqrt ?a] =>
      let v := eval vm_compute in (f64_sqrt a) in change (f64_sqrt a) with v end;
    repeat match goal with |- context [f64_of_Z ?a] =>
      let v := eval vm_compute in (f64_of_Z a) in change (f64_of_Z a) with v end;
    (rewrite atan2_zero by reflexivity);
    (first [rewrite atan2_up by reflexivity | rewrite atan2_down by reflexivity]);
    by destruct prev.
Qed.

(** A function with these values. *)
Definition sim_atan2 (y x : float) : float :=
  if f_gt y f0 then half_pi else if f_lt y f0 then f_neg half_pi else f0.

Lemma sim_atan2_laws : Atan2Laws sim_atan2.
Proof.
  split; [done|..]; intros y Hy; unfold sim_atan2; [by rewrite Hy|].
  rewrite Hy. destruct (f_gt y f0) eqn:E; [|done].
  destruct y as [[]|[]| |[]]; try done.
Defined.

Lemma synthetic_orientation_witness :
  orientation_calc sim_atan2 ORIENTATION_UNDEFINED (-256) 0 0
    (accel_scale (build_synthetic_readings 3)) = ORIENTATION_RIGHT_UP.
Proof.
  exact (synthetic_orientation sim_atan2 ORIENTATION_UNDEFINED MXC_ORIENT_RIGHT sim_atan2_laws).
Defined.
