(* ===== verification/IioBuffer.v ===== *)
(** * IIO buffers (iio-buffer-utils.c)

    Channel descriptions read from sysfs, the layout of a scan, the decoding of
    a channel, and the set-up and teardown of a buffer.  Sysfs is the class
    [Sysfs]: what a read or a write answers is a function of the writes made
    so far, newest first. *)

From Stdlib Require Import ZArith Lia SpecFloat Ascii.
From stdpp Require Import base list strings pretty sets.
From S2P Require Import Prelude Floats Drivers Os MxcFilter MxcDevice.

#[local] Open Scope string_scope.
#[local] Open Scope list_scope.
#[local] Open Scope Z_scope.
#[local] Open Scope prog_scope.

(** ** Sysfs *)

Definition ENOENT := 2.
Definition EINVAL := 22.

(** A write of a file: path and text. *)
Definition FsWrite : Type := string * string.
Abbreviation FsHist := (list FsWrite).

Class Sysfs := {
  fs_dir : FsHist -> string -> option (list string);
  (** [inl e]: the errno of the open. *)
  fs_read : FsHist -> string -> Z + string;
  (** Zero, or the errno of the open; and the result of the [fprintf]. *)
  fs_write_open : FsHist -> string -> Z;
  fs_write_ret : FsHist -> string -> string -> Z
}.

(** [g_build_filename] *)
Definition g_build_filename (a b : string) : string := a +:+ "/" +:+ b.

(** ** C library: what [fscanf] takes for [%d], [%u] and the type format *)

Fixpoint skip_ws (s : string) : string :=
  match s with
  | String c s' => if is_space c then skip_ws s' else s
  | EmptyString => s
  end.

Fixpoint scan_digits (seen : bool) (acc : Z) (s : string) : option (Z * string) :=
  match s with
  | String c s' =>
      let n := Z.of_N (N_of_ascii c) in
      if (48 <=? n) && (n <=? 57) then scan_digits true (acc * 10 + (n - 48)) s'
      else if seen then Some (acc, s) else None
  | EmptyString => if seen then Some (acc, s) else None
  end.

Definition scan_int (s : string) : option (Z * string) :=
  match skip_ws s with
  | String "-" s' => match scan_digits false 0 s' with Some (v, r) => Some (- v, r) | None => None end
  | String "+" s' => scan_digits false 0 s'
  | s' => scan_digits false 0 s'
  end.

Definition scan_uint (s : string) : option (Z * string) :=
  match scan_int s with Some (v, r) => Some (wrap 32 v, r) | None => None end.

Definition scan_lit (c : ascii) (s : string) : option string :=
  match s with String d s' => if Ascii.eqb c d then Some s' else None | EmptyString => None end.

Definition scan_char (s : string) : option (ascii * string) :=
  match s with String c s' => Some (c, s') | EmptyString => None end.

(** ["%ce:%c%u/%u>>%u"]: the five conversions, or fewer. *)
Definition scan_type (s : string) : option (ascii * ascii * Z * Z * Z) :=
  endian ← scan_char s;
  s1 ← scan_lit "e" endian.2;
  s2 ← scan_lit ":" s1;
  sign ← scan_char s2;
  bits ← scan_uint sign.2;
  s3 ← scan_lit "/" bits.2;
  pad ← scan_uint s3;
  s4 ← scan_lit ">" pad.2;
  s5 ← scan_lit ">" s4;
  sh ← scan_uint s5;
  Some (endian.1, sign.1, bits.1, pad.1, sh.1).

(** ** Data *)

Record iio_channel_info := Chan {
  name : string; generic_name : string; scale : float; offset : float; index : Z;
  is_signed : bool; bits_used : Z; bytes : Z; shift : Z; mask : Z; be : bool; location : Z
}.

Definition set_location (l : Z) (c : iio_channel_info) : iio_channel_info :=
  Chan (name c) (generic_name c) (scale c) (offset c) (index c) (is_signed c) (bits_used c)
       (bytes c) (shift c) (mask c) (be c) l.

Record BufferDrvData := Buf {
  dev_dir_name : string; trigger_name : option string;
  channels : list iio_channel_info; scan_size : Z
}.

(** ** Names and types *)

Section Parse.
Variable g_strsplit : string -> string -> list string.

(** The name without its last component. *)
Definition iioutils_break_up_name (name : string) : string :=
  String.concat "_" (removelast (g_strsplit name "_")).
End Parse.

(** [(1 << bits) - 1] on 64 bits; [None]: a shift out of range. *)
Definition type_mask (bits : Z) : option Z :=
  if bits =? 64 then Some (2 ^ 64 - 1)
  else if bits <? 64 then Some (2 ^ bits - 1) else None.

(** Sign, bytes, bits used, shift, mask and endianness of a description. *)
Definition decode_type (text : string) : option (bool * Z * Z * Z * Z * bool) :=
  match scan_type text with
  | Some (endian, sign, bits, pad, sh) =>
      match type_mask bits with
      | Some m => Some (Ascii.eqb sign "s", pad / 8, bits, sh, m, Ascii.eqb endian "b")
      | None => None
      end
  | None => None
  end.

(** [(int) (a - b)] on unsigned 32 bits. *)
Definition compare_channel_index (a b : iio_channel_info) : Z := sint 32 (index a - index b).

(** ** Scan layout and decoding *)

(** The location of a channel when [n] bytes precede it. *)
Definition place (n b : Z) : Z := if n mod b =? 0 then n else wrap 32 (n - n mod b + b).

(** The size and the channels with their locations; [None]: a channel of no
    bytes (the division faults). *)
Fixpoint size_from (n : Z) (chans : list iio_channel_info) : option (Z * list iio_channel_info) :=
  match chans with
  | [] => Some (n, [])
  | c :: chans' =>
      if bytes c =? 0 then None
      else
        let l := place n (bytes c) in
        match size_from (sint 32 (l + bytes c)) chans' with
        | Some (n', cs) => Some (n', set_location l c :: cs)
        | None => None
        end
  end.

Definition size_from_channelarray (chans : list iio_channel_info) :
    option (Z * list iio_channel_info) := size_from 0 chans.

(** Bytes as an unsigned integer, least significant first. *)
Fixpoint le_value (l : list Z) : Z :=
  match l with [] => 0 | b :: l' => b + 256 * le_value l' end.

Definition load (be : bool) (l : list Z) : Z := le_value (if be then rev l else l).

(** [PROCESS_CHANNEL_BITS (bits)] on the loaded word: shift, mask, sign
    extension, and the offset added as a [float]. *)
Definition process_channel_bits (bits : Z) (info : iio_channel_info) (input : Z) : Z :=
  let input := Z.land (Z.shiftr input (shift info)) (mask info) in
  if is_signed info then
    let up := sint bits (Z.shiftl input (bits - bits_used info)) in
    let val := Z.shiftr up (bits - bits_used info) in
    let val := sint bits (f_to_int (Z.max 32 bits) (f32_add (f32_of_Z val) (offset info))) in
    sint 32 val
  else f_to_int 32 (f32_add (f32_of_Z input) (offset info)).

(** [None]: [g_error], which aborts; otherwise value and scale. *)
Definition decode_channel (data : list Z) (info : iio_channel_info) : option (Z * float) :=
  let word n := load (be info) (take n (drop (Z.to_nat (location info)) data)) in
  let b := bytes info in
  if b =? 1 then Some (process_channel_bits 8 info (word 1%nat), scale info)
  else if b =? 2 then Some (process_channel_bits 16 info (word 2%nat), scale info)
  else if b =? 4 then Some (process_channel_bits 32 info (word 4%nat), scale info)
  else if b =? 8 then Some (process_channel_bits 64 info (word 8%nat), scale info)
  else None.

(** [Some None]: the channel is not present. *)
Fixpoint process_scan_1 (data : list Z) (chans : list iio_channel_info) (ch_name : string) :
    option (option (Z * float)) :=
  match chans with
  | [] => Some None
  | c :: chans' =>
      if String.eqb (name c) ch_name then
        match decode_channel data c with Some r => Some (Some r) | None => None end
      else process_scan_1 data chans' ch_name
  end.

(** ** Sampling frequency *)

Definition DBL_MAX : float := S754_finite false 9007199254740991 971.
Definition IIO_MIN_SAMPLING_FREQUENCY : float := Eval vm_compute in Dbl 10 1.

(** One supported value: the closest above and the closest below so far. *)
Definition freq_step (desired : float) (acc : float * float) (available : float) : float * float :=
  let '(hi, lo) := acc in
  if f_eq available f0 then (hi, lo)
  else if f_ge available desired
  then (if f_lt available hi then available else hi, lo)
  else (hi, if f_gt available lo then available else lo).

Definition pick_freq (desired : float) (l : list float) : float :=
  let '(hi, lo) := foldl (freq_step desired) (DBL_MAX, f0) l in
  if f_ne hi DBL_MAX then hi else if f_ne lo f0 then lo else desired.

(** ** Operations on sysfs *)

Section Ops.
Context `{FS : Sysfs}.
Variable g_strsplit : string -> string -> list string.
(** The value at the start of a string and the characters it takes. *)
Variable g_ascii_strtod : string -> float * nat.
Variable g_ascii_dtostr : float -> string.
(** [g_ptr_array_sort] with a comparison function. *)
Variable g_ptr_array_sort :
  (iio_channel_info -> iio_channel_info -> Z) -> list iio_channel_info -> list iio_channel_info.
Abbreviation IO := (M FsHist).

Definition read_file (path : string) : IO (Z + string) := fun h => (fs_read h path, h).
Definition read_dir (path : string) : IO (option (list string)) := fun h => (fs_dir h path, h).

(** [g_str_has_suffix] *)
Definition has_suffix (suffix s : string) : bool :=
  let n := (String.length s - String.length suffix)%nat in
  (String.length suffix <=? String.length s)%nat && String.eqb (str_drop n s) suffix.

Definition strip_en (s : string) : string := String.substring 0 (String.length s - 3) s.

Definition iioutils_get_type (device_dir nm generic : string) :
    IO (option (bool * Z * Z * Z * Z * bool)) :=
  let file n := g_build_filename (g_build_filename device_dir "scan_elements") (n +:+ "_type") in
  f <- read_file (file nm) ;;
  match f with
  | inr text => ret (decode_type text)
  | inl _ =>
      g <- read_file (file generic) ;;
      ret (match g with inr text => decode_type text | inl _ => None end)
  end.

(** The C result and the value of [*output]. *)
Definition iioutils_get_param_float (output : float) (param device_dir nm generic : string) :
    IO (Z * float) :=
  let file n := g_build_filename device_dir (n +:+ "_" +:+ param) in
  let convert text := let '(v, n) := g_ascii_strtod text in (f32_of_f64 v, n) in
  let try_generic (output : float) : IO (Z * float) :=
    g <- read_file (file generic) ;;
    ret (match g with
         | inr text =>
             let '(v, n) := convert text in
             if f_eq v f0 && (n =? 0)%nat then (- EINVAL, v) else (0, v)
         | inl e => if e =? ENOENT then (- ENOENT, output) else (- EINVAL, output)
         end) in
  f <- read_file (file nm) ;;
  match f with
  | inr text =>
      let '(v, n) := convert text in
      if f_ne v f0 || negb (n =? 0)%nat then ret (0, v) else try_generic v
  | inl _ => try_generic output
  end.

(** One ["_en"] entry: [None] skips it, [Some None] is [goto error]. *)
Definition build_channel (device_dir en : string) : IO (option (option iio_channel_info)) :=
  let scan_el_dir := g_build_filename device_dir "scan_elements" in
  f <- read_file (g_build_filename scan_el_dir en) ;;
  match f with
  | inl _ => ret None
  | inr text =>
      match scan_int text with
      | None => ret None
      | Some _ =>
          let nm := strip_en en in
          let generic := iioutils_break_up_name g_strsplit nm in
          let generic := if String.eqb generic "in_rot_from_north_magnetic_tilt"
                         then "in_rot"%string else generic in
          i <- read_file (g_build_filename scan_el_dir (nm +:+ "_index")) ;;
          match i with
          | inl _ => ret (Some None)
          | inr itext =>
              match scan_uint itext with
              | None => ret (Some None)
              | Some (idx, _) =>
                  sc <- iioutils_get_param_float c_1 "scale" device_dir nm generic ;;
                  if (fst sc <? 0) && negb (fst sc =? - ENOENT) then ret (Some None)
                  else if f_eq (snd sc) f0 then ret (Some None)
                  else
                    off <- iioutils_get_param_float f0 "offset" device_dir nm generic ;;
                    if (fst off <? 0) && negb (fst off =? - ENOENT) then ret (Some None)
                    else
                      t <- iioutils_get_type device_dir nm generic ;;
                      ret (match t with
                           | None => None
                           | Some (sg, b, bits, sh, m, big) =>
                               Some (Some (Chan nm generic (snd sc) (snd off) idx sg bits b sh m big 0))
                           end)
              end
          end
      end
  end.

(** [None]: an entry sent it to [error]. *)
Fixpoint build_entries (device_dir : string) (names : list string) (acc : list iio_channel_info) :
    IO (option (list iio_channel_info)) :=
  match names with
  | [] => ret (Some acc)
  | n :: names' =>
      if has_suffix "_en" n then
        c <- build_channel device_dir n ;;
        match c with
        | Some None => ret None
        | Some (Some c) => build_entries device_dir names' (acc ++ [c])
        | None => build_entries device_dir names' acc
        end
      else build_entries device_dir names' acc
  end.

Definition build_channel_array (device_dir : string) : IO (option (list iio_channel_info)) :=
  d <- read_dir (g_build_filename device_dir "scan_elements") ;;
  match d with
  | None => ret None
  | Some names =>
      l <- build_entries device_dir names [] ;;
      ret (match l with Some l => Some (g_ptr_array_sort compare_channel_index l) | None => None end)
  end.

(** Opening, printing and closing a file; the open's errno or the print's result. *)
Definition print_file (path text : string) : IO Z := fun h =>
  let e := fs_write_open h path in
  if negb (e =? 0) then (- e, h) else (fs_write_ret h path text, (path, text) :: h).

Definition _write_sysfs_int (filename basedir : string) (val : Z) (verify : bool)
    (val2 : option Z) : IO Z :=
  let temp := g_build_filename basedir filename in
  let text := match val2 with Some v => pretty val +:+ " " +:+ pretty v | None => pretty val end in
  r <- print_file temp text ;;
  if r <? 0 then ret r
  else if verify then
    f <- read_file temp ;;
    ret (match f with
         | inl e => - e
         | inr t => match scan_int t with Some (v, _) => if v =? val then 0 else -1 | None => -1 end
         end)
  else ret 0.

Definition write_sysfs_int (filename basedir : string) (val : Z) : IO Z :=
  _write_sysfs_int filename basedir val false None.
Definition write_sysfs_int_and_verify (filename basedir : string) (val : Z) : IO Z :=
  _write_sysfs_int filename basedir val true None.

(** Without trailing blanks ([g_strchomp]). *)
Fixpoint chomp (s : string) : string :=
  match s with
  | EmptyString => EmptyString
  | String c s' => match chomp s' with
                   | EmptyString => if is_space c then EmptyString else String c EmptyString
                   | t => String c t
                   end
  end.

Definition _write_sysfs_string (filename basedir val : string) (verify : bool) : IO Z :=
  let temp := g_build_filename basedir filename in
  fun h =>
    let e := fs_write_open h temp in
    if negb (e =? 0) then (- e, h)
    else
      let h' := (temp, val) :: h in
      if negb verify then (0, h')
      else (match fs_read h' temp with
            | inr t => if String.eqb (chomp t) val then 0 else -1
            | inl _ => -1
            end, h').

Definition write_sysfs_string_and_verify (filename basedir val : string) : IO Z :=
  _write_sysfs_string filename basedir val true.
Definition write_sysfs_string (filename basedir val : string) : IO Z :=
  _write_sysfs_string filename basedir val false.

Definition enable_ring_buffer (dir : string) : IO bool :=
  r <- write_sysfs_int "buffer/length" dir 128 ;;
  if r <? 0 then ret false
  else
    r <- write_sysfs_int_and_verify "buffer/enable" dir 1 ;;
    ret (negb (r <? 0)).

Definition disable_ring_buffer (dir : string) : IO unit :=
  write_sysfs_int "buffer/enable" dir 0 ;;; ret tt.

Definition disable_trigger (data : BufferDrvData) : IO unit :=
  match trigger_name data with
  | Some _ => write_sysfs_string "trigger/current_trigger" (dev_dir_name data) "NULL" ;;; ret tt
  | None => ret tt
  end.

Definition enable_trigger (data : BufferDrvData) : IO bool :=
  match trigger_name data with
  | Some t =>
      r <- write_sysfs_string_and_verify "trigger/current_trigger" (dev_dir_name data) t ;;
      ret (negb (r <? 0))
  | None => ret true
  end.

(** [None]: the division in the layout faults; [Some None]: FALSE.  An array
    to which nothing was added has no segment: NULL. *)
Definition build_channels (data : BufferDrvData) : IO (option (option BufferDrvData)) :=
  l <- build_channel_array (dev_dir_name data) ;;
  ret (match l with
       | None | Some [] => Some None
       | Some l =>
           match size_from_channelarray l with
           | None => None
           | Some (n, cs) => Some (Some (Buf (dev_dir_name data) (trigger_name data) cs n))
           end
       end).

Section Device.
Context {Device : Type} `{Udev Device}.
Variable attr_as_boolean : Device -> string -> bool.
Variable device_number : Device -> string.

Fixpoint enable_entries (dev : Device) (dir : string) (enable : bool) (names : list string)
    (ok : bool) : IO bool :=
  match names with
  | [] => ret ok
  | n :: names' =>
      if has_suffix "_en" n then
        if enable && attr_as_boolean dev ("scan_elements/" +:+ n)
        then enable_entries dev dir enable names' true
        else
          r <- write_sysfs_int n dir (if enable then 1 else 0) ;;
          enable_entries dev dir enable names' (if r <? 0 then ok else true)
      else enable_entries dev dir enable names' ok
  end.

Definition dev_path (dev : Device) : string := default EmptyString (sysfs_path dev).

Definition enable_sensors (dev : Device) (enable : bool) : IO bool :=
  let dir := g_build_filename (dev_path dev) "scan_elements" in
  d <- read_dir dir ;;
  match d with
  | None => ret false
  | Some names => enable_entries dev dir enable names false
  end.

Section Fixup.
Variable round_freq : Device -> string -> float -> float.

Definition iio_fixup_sampling_frequency (dev : Device) : IO bool :=
  d <- read_dir (dev_path dev) ;;
  match d with
  | None => ret false
  | Some names =>
      mfor names (fun n =>
        if negb (has_suffix "sampling_frequency" n) then ret tt
        else if f_ge (sysfs_attr_as_double dev n) IIO_MIN_SAMPLING_FREQUENCY then ret tt
        else
          write_sysfs_string n (dev_path dev)
            (g_ascii_dtostr (round_freq dev n IIO_MIN_SAMPLING_FREQUENCY)) ;;;
          ret tt) ;;;
      ret true
  end.
End Fixup.

(** [devices]: the devices of the iio subsystem. *)
Definition get_trigger_name (devices : list Device) (device : Device) : option string :=
  let nm := default "(null)" (sysfs_attr device "name") in
  let has t := existsb (fun d => match sysfs_attr d "name" with
                                 | Some n => String.eqb t n | None => false end) devices in
  let t1 := nm +:+ "-dev" +:+ device_number device in
  if has t1 then Some t1
  else
    let t2 := nm +:+ "-trigger" in
    if has t2 then Some t2 else None.

Definition buffer_drv_data_free (dev : Device) (data : BufferDrvData) : IO unit :=
  disable_ring_buffer (dev_dir_name data) ;;;
  disable_trigger data ;;;
  enable_sensors dev false ;;;
  ret tt.

(** [None]: a fault; [Some None]: NULL. *)
Definition buffer_drv_data_new (round_freq : Device -> string -> float -> float)
    (devices : list Device) (device : Device) : IO (option (option BufferDrvData)) :=
  let data := Buf (dev_path device) (get_trigger_name devices device) [] 0 in
  let fail_ := buffer_drv_data_free device data ;;; ret (Some None) in
  ok <- iio_fixup_sampling_frequency round_freq device ;;
  if negb ok then fail_
  else
    ok <- enable_sensors device true ;;
    if negb ok then fail_
    else
      ok <- enable_trigger data ;;
      if negb ok then fail_
      else
        ok <- enable_ring_buffer (dev_dir_name data) ;;
        if negb ok then fail_
        else
          d <- build_channels data ;;
          match d with
          | None => ret None
          | Some None => fail_
          | Some (Some data') => ret (Some (Some data'))
          end.
End Device.
End Ops.

Section Freq.
(** The value at the start of a string and the characters it takes. *)
Variable g_ascii_strtod : string -> float * nat.

(** The values of the list, up to the first thing that is not one. *)
Fixpoint freq_list (fuel : nat) (s : string) : list float :=
  match fuel with
  | O => []
  | S fuel' =>
      match s with
      | EmptyString => []
      | _ =>
          let '(v, n) := g_ascii_strtod s in
          let rest := str_drop n s in
          if (n =? 0)%nat then []
          else match rest with
               | EmptyString => [v]
               | String c _ => if is_space c then v :: freq_list fuel' rest else []
               end
      end
  end.

Definition iio_round_sampling_frequency {Device} `{Udev Device} (dev : Device) (attr : string)
    (desired : float) : float :=
  match sysfs_attr dev (attr +:+ "_available") with
  | None => desired
  | Some s => pick_freq desired (freq_list (String.length s) s)
  end.
End Freq.

(** ** What the layout and the encoding mean *)

(** [laid n cs n']: from offset [n] the channels follow each other up to [n'],
    each aligned to its size at the first such offset. *)
Inductive laid : Z -> list iio_channel_info -> Z -> Prop :=
  | laid_nil n : laid n [] n
  | laid_cons n c cs n' :
      n <= location c < n + bytes c -> location c mod bytes c = 0 ->
      laid (location c + bytes c) cs n' -> laid n (c :: cs) n'.

Fixpoint total_bytes (chans : list iio_channel_info) : Z :=
  match chans with [] => 0 | c :: cs => 2 * bytes c + total_bytes cs end.

(** A word as the device puts it in the buffer. *)
Fixpoint le_bytes (n : nat) (w : Z) : list Z :=
  match n with O => [] | S n' => w mod 256 :: le_bytes n' (w / 256) end.

Definition store (be : bool) (n : nat) (w : Z) : list Z :=
  let l := le_bytes n w in if be then rev l else l.

(** The scan description is consistent: a field of [bits_used] bits at [shift]
    inside the word, and no offset. *)
Definition field_ok (c : iio_channel_info) : Prop :=
  (bytes c = 1 \/ bytes c = 2 \/ bytes c = 4 \/ bytes c = 8) /\
  1 <= bits_used c /\ 0 <= shift c /\ shift c + bits_used c <= 8 * bytes c /\
  mask c = 2 ^ bits_used c - 1 /\ offset c = f0.

(** The values a field can hold. *)
Definition in_field (c : iio_channel_info) (v : Z) : Prop :=
  if is_signed c then - 2 ^ (bits_used c - 1) <= v < 2 ^ (bits_used c - 1)
  else 0 <= v < 2 ^ bits_used c.

(** ** Theorems *)

Lemma sint_add_multiple w z k : 0 <= w -> sint w (z + k * 2 ^ w) = sint w z.
Proof. intros Hw. unfold sint, wrap. rewrite Z.mod_add; [done|]. apply Z.pow_nonzero; lia. Qed.

Lemma f32_zero_sum v : Z.abs v < 2 ^ 24 -> f_trunc (f32_add (f32_of_Z v) f0) = Some v.
Proof.
  intros Hv. rewrite f32_of_Z_norm by done. unfold f0. rewrite f32_add_zero.
  - apply trunc_norm_Z; lia.
  - by destruct v.
Qed.

(** Sign extension of a field undoes its truncation. *)
Lemma sign_extend bits bu v :
  1 <= bu <= bits -> - 2 ^ (bu - 1) <= v < 2 ^ (bu - 1) ->
  Z.shiftr (sint bits (Z.shiftl (v mod 2 ^ bu) (bits - bu))) (bits - bu) = v.
Proof.
  intros Hb Hv. rewrite Z.shiftl_mul_pow2, Z.shiftr_div_pow2 by lia.
  rewrite Z.mod_eq by (apply Z.pow_nonzero; lia). set (q := v / 2 ^ bu).
  replace ((v - 2 ^ bu * q) * 2 ^ (bits - bu))
    with (v * 2 ^ (bits - bu) + (- q) * 2 ^ bits).
  2:{ replace (2 ^ bits) with (2 ^ bu * 2 ^ (bits - bu)); [ring|].
      rewrite <- Z.pow_add_r by lia. f_equal. lia. }
  rewrite sint_add_multiple by lia. rewrite sint_id; [|lia|].
  - apply Z.div_mul. apply Z.pow_nonzero; lia.
  - replace (2 ^ (bits - 1)) with (2 ^ (bu - 1) * 2 ^ (bits - bu)).
    + assert (0 < 2 ^ (bits - bu)) by (apply Z.pow_pos_nonneg; lia). nia.
    + rewrite <- Z.pow_add_r by lia. f_equal. lia.
Qed.

Lemma process_bits_exact c bits w v :
  bits = 8 * bytes c -> field_ok c -> in_field c v -> Z.abs v < 2 ^ 24 ->
  (w / 2 ^ shift c) mod 2 ^ bits_used c = v mod 2 ^ bits_used c ->
  process_channel_bits bits c w = v.
Proof.
  intros -> (Hbytes & Hbu & Hsh & Hfit & Hm & Ho) Hv Hv24 Hw.
  unfold process_channel_bits. cbv zeta. rewrite Hm, Ho.
  replace (2 ^ bits_used c - 1) with (Z.ones (bits_used c)) by (rewrite Z.ones_equiv; lia).
  rewrite Z.land_ones, (Z.shiftr_div_pow2 w (shift c)), Hw by lia.
  unfold in_field in Hv. destruct (is_signed c).
  - rewrite sign_extend by lia.
    assert (- 2 ^ (8 * bytes c - 1) <= v < 2 ^ (8 * bytes c - 1)) as Hr.
    { assert (2 ^ (bits_used c - 1) <= 2 ^ (8 * bytes c - 1)) by (apply Z.pow_le_mono_r; lia). lia. }
    rewrite (f_to_int_of _ _ v (f32_zero_sum v Hv24)).
    + rewrite (sint_id _ v) by lia. apply sint_id; simpl; lia.
    + assert (2 ^ (32 - 1) <= 2 ^ (Z.max 32 (8 * bytes c) - 1)) by (apply Z.pow_le_mono_r; lia).
      simpl in *. lia.
  - rewrite Z.mod_small by lia. apply f_to_int_of; [by apply f32_zero_sum|simpl; lia].
Qed.

Lemma le_bytes_length n w : length (le_bytes n w) = n.
Proof. revert w. induction n as [|n IH]; intros w; simpl; [done|by rewrite IH]. Qed.

Lemma le_value_bytes n w : 0 <= w < 256 ^ Z.of_nat n -> le_value (le_bytes n w) = w.
Proof.
  revert w. induction n as [|n IH]; intros w Hw; [simpl in *; lia|].
  rewrite Nat2Z.inj_succ, Z.pow_succ_r in Hw by lia. cbn [le_bytes le_value].
  rewrite IH; [pose proof (Z.div_mod w 256 ltac:(lia)); lia|].
  split; [apply Z.div_pos; lia|apply Z.div_lt_upper_bound; lia].
Qed.

Lemma load_store big n w : 0 <= w < 256 ^ Z.of_nat n -> load big (store big n w) = w.
Proof.
  intros Hw. unfold load, store. destruct big; [rewrite rev_involutive|]; by apply le_value_bytes.
Qed.

Lemma store_length big n w : length (store big n w) = n.
Proof. unfold store. destruct big; [rewrite length_rev|]; apply le_bytes_length. Qed.

(** Whatever else a scan holds, a channel whose field encodes [v] (in either
    byte order, signed or not, at any shift) decodes to [v] with the channel's
    scale, as long as [v] has at most 24 bits. *)
Theorem decode_channel_exact (c : iio_channel_info) (before after : list Z) (w v : Z) :
  field_ok c -> in_field c v -> Z.abs v < 2 ^ 24 ->
  location c = Z.of_nat (length before) ->
  0 <= w < 256 ^ bytes c ->
  (w / 2 ^ shift c) mod 2 ^ bits_used c = v mod 2 ^ bits_used c ->
  decode_channel (before ++ store (be c) (Z.to_nat (bytes c)) w ++ after) c = Some (v, scale c).
Proof.
  intros Hf Hv Hv24 Hloc Hw Hwv. unfold decode_channel.
  rewrite Hloc, Nat2Z.id, drop_app_length.
  assert (forall n, Z.of_nat n = bytes c ->
    load (be c) (take n (store (be c) (Z.to_nat (bytes c)) w ++ after)) = w) as Hl.
  { intros n Hn. rewrite <- Hn, Nat2Z.id. rewrite take_app_length'.
    - apply load_store. by rewrite Hn.
    - by rewrite store_length. }
  assert (forall bits, bits = 8 * bytes c -> process_channel_bits bits c w = v) as Hp
    by (intros bits Eb; by apply process_bits_exact).
  destruct (proj1 Hf) as [E|[E|[E|E]]]; rewrite E; simpl; rewrite E in Hl; simpl in Hl;
    rewrite Hl by done; rewrite Hp by lia; done.
Qed.

(** A big-endian signed 12-bit field at shift 4, behind two other bytes. *)
Definition accel_chan : iio_channel_info :=
  Chan "in_accel_y" "in_accel" c_1 f0 1 true 12 2 4 (2 ^ 12 - 1) true 2.

Lemma decode_channel_exact_witness :
  decode_channel ([7; 9] ++ store true 2 (16 * (4096 - 1000) + 5) ++ [1]) accel_chan =
  Some (-1000, c_1).
Proof.
  apply (decode_channel_exact accel_chan [7; 9] [1] (16 * (4096 - 1000) + 5) (-1000)).
  - split_and!; try reflexivity; simpl; lia.
  - vm_compute. split; congruence.
  - vm_compute. reflexivity.
  - reflexivity.
  - vm_compute. split; congruence.
  - vm_compute. reflexivity.
Defined.

(** The bound is needed: the offset is added in single precision, even when it
    is zero, so a 32-bit channel loses its last bit from 2^24 on. *)
Definition wide_chan : iio_channel_info :=
  Chan "in_intensity_both" "in_intensity" c_1 f0 0 false 32 4 0 (2 ^ 32 - 1) false 0.

Theorem decode_channel_inexact :
  field_ok wide_chan /\ in_field wide_chan 16777217 /\
  decode_channel (store false 4 16777217) wide_chan = Some (16777216, c_1).
Proof.
  split; [split_and!; try reflexivity; simpl; lia|].
  split; [vm_compute; split; congruence|vm_compute; reflexivity].
Qed.

(** ** Layout *)

Lemma place_spec n b : 0 < b -> 0 <= n -> n + b < 2 ^ 32 ->
  n <= place n b < n + b /\ place n b mod b = 0.
Proof.
  intros Hb Hn Hr. unfold place. pose proof (Z.mod_pos_bound n b Hb) as Hm.
  destruct (Z.eqb_spec (n mod b) 0); [lia|]. rewrite wrap_small by lia. split; [lia|].
  replace (n - n mod b + b) with ((n / b + 1) * b)
    by (pose proof (Z.div_mod n b ltac:(lia)); lia).
  apply Z.mod_mul. lia.
Qed.

Lemma size_from_laid chans n :
  Forall (fun c => 0 < bytes c) chans -> 0 <= n -> n + total_bytes chans < 2 ^ 31 ->
  exists n' cs, size_from n chans = Some (n', cs) /\ laid n cs n' /\
    map (set_location 0) cs = map (set_location 0) chans.
Proof.
  intros Hc. revert n. induction Hc as [|c chans Hc Hcs IH]; intros n Hn Hr; simpl.
  { exists n, []. split; [done|split; [constructor|done]]. }
  simpl in Hr. assert (0 <= total_bytes chans) as Ht.
  { clear -Hcs. induction Hcs; simpl; lia. }
  destruct (place_spec n (bytes c)) as [Hp1 Hp2]; [done..|lia|].
  rewrite (proj2 (Z.eqb_neq (bytes c) 0)) by lia.
  rewrite sint_id by (simpl; lia).
  destruct (IH (place n (bytes c) + bytes c)) as (n' & cs & -> & Hl & Hm); [lia..|].
  exists n', (set_location (place n (bytes c)) c :: cs). split; [done|]. split.
  - by constructor.
  - simpl. by rewrite Hm.
Qed.

(** The locations computed for a scan follow the order of the channels, never
    overlap, are aligned to the channels' sizes with the least padding, and the
    result is the end of the last channel; nothing else of a channel changes. *)
Theorem scan_layout (chans : list iio_channel_info) :
  Forall (fun c => 0 < bytes c) chans -> total_bytes chans < 2 ^ 31 ->
  exists n cs, size_from_channelarray chans = Some (n, cs) /\ laid 0 cs n /\
    map (set_location 0) cs = map (set_location 0) chans.
Proof. intros Hc Ht. by apply size_from_laid. Qed.

Lemma scan_layout_witness :
  exists n cs, size_from_channelarray [accel_chan; accel_chan; wide_chan] = Some (n, cs) /\
    n = 8 /\ map location cs = [0; 2; 4] /\ laid 0 cs n /\
    map (set_location 0) cs = map (set_location 0) [accel_chan; accel_chan; wide_chan].
Proof.
  destruct (scan_layout [accel_chan; accel_chan; wide_chan]) as (n & cs & E & Hl & Hm);
    [repeat constructor; lia|simpl; lia|].
  exists n, cs. split; [exact E|]. revert E Hl Hm. vm_compute. intros [= <- <-] Hl Hm. done.
Defined.

(** A description with less than eight bits of storage faults the layout. *)
Theorem size_from_zero_bytes (before after : list iio_channel_info) (c : iio_channel_info) :
  bytes c = 0 -> size_from_channelarray (before ++ c :: after) = None.
Proof.
  intros Hc. unfold size_from_channelarray. generalize 0 as n.
  induction before as [|d before IH]; intros n; simpl; [by rewrite Hc|].
  destruct (_ =? 0); [done|]. by rewrite IH.
Qed.

Lemma size_from_zero_bytes_witness :
  exists sg bits sh m big, decode_type "le:s4/4>>0" = Some (sg, 0, bits, sh, m, big) /\
    size_from_channelarray ([] ++ [Chan "c" "c" c_1 f0 0 sg bits 0 sh m big 0]) = None.
Proof.
  exists true, 4, 0, 15, false. split; [vm_compute; reflexivity|].
  apply (size_from_zero_bytes [] []). reflexivity.
Defined.

(** ** Sampling frequency *)

Definition usable (a : float) : bool := negb (f_eq a f0).

(** What the closest values are after a list. *)
Definition freq_inv (d : float) (l : list float) (acc : float * float) : Prop :=
  let '(hi, lo) := acc in
  not_nan hi = true /\ not_nan lo = true /\ f_le hi DBL_MAX = true /\
  (forall a, a ∈ l -> usable a = true -> f_le d a = true -> f_le hi a = true \/ f_lt a DBL_MAX = false) /\
  (hi = DBL_MAX \/ (hi ∈ l /\ usable hi = true /\ f_le d hi = true /\ f_lt hi DBL_MAX = true)) /\
  (forall a, a ∈ l -> usable a = true -> f_lt a d = true -> f_le a lo = true) /\
  (lo = f0 \/ (lo ∈ l /\ f_lt lo d = true /\ f_lt f0 lo = true)).

Lemma elem_of_snoc {A} (x a : A) l : x ∈ l ++ [a] <-> x ∈ l \/ x = a.
Proof. set_solver. Qed.

Lemma freq_step_inv d l acc a : not_nan d = true -> not_nan a = true ->
  freq_inv d l acc -> freq_inv d (l ++ [a]) (freq_step d acc a).
Proof.
  intros Hd Ha. destruct acc as [hi lo]. intros (Hh & Hl & Hm & H1 & H2 & H3 & H4).
  assert (forall x, x ∈ l ++ [a] -> x ∈ l \/ x = a) as Hin by (intros x; apply elem_of_snoc).
  assert (forall x, x ∈ l \/ x = a -> x ∈ l ++ [a]) as Hin' by (intros x; apply elem_of_snoc).
  unfold freq_step, freq_inv, usable in *. destruct (f_eq a f0) eqn:Ez.
  { split_and!; [done..| | | |].
    - intros x [Hx| ->]%Hin Hu; [by apply H1|by rewrite Ez in Hu].
    - destruct H2 as [?|(? & ?)]; [auto|right; split; [auto|done]].
    - intros x [Hx| ->]%Hin Hu; [by apply H3|by rewrite Ez in Hu].
    - destruct H4 as [?|(? & ?)]; [auto|right; split; [auto|done]]. }
  unfold f_ge. fold (f_le d a). destruct (f_le d a) eqn:Ed.
  - assert (f_lt a d = false) as Ead by (rewrite f_lt_ge by done; by rewrite Ed).
    destruct (f_lt a hi) eqn:Eh.
    + split_and!; [done|done|by apply f_lt_le, (f_lt_le_trans a hi)| | | |].
      * intros x [Hx| ->]%Hin Hu Hxd; [|left; by apply f_le_refl].
        destruct (H1 x Hx Hu Hxd) as [E|E]; [|auto]. left.
        apply (f_le_trans a hi x); [done|by apply f_lt_le|done].
      * right. split; [auto|]. rewrite Ez. split_and!; [done..|].
        by apply (f_lt_le_trans a hi).
      * intros x [Hx| ->]%Hin Hu Hxd; [by apply H3|by rewrite Ead in Hxd].
      * destruct H4 as [?|(? & ?)]; [auto|right; split; [auto|done]].
    + split_and!; [done..| | | |].
      * intros x [Hx| ->]%Hin Hu Hxd; [by apply H1|left].
        rewrite f_lt_ge in Eh by done. by destruct (f_le hi a).
      * destruct H2 as [?|(? & ?)]; [auto|right; split; [auto|done]].
      * intros x [Hx| ->]%Hin Hu Hxd; [by apply H3|by rewrite Ead in Hxd].
      * destruct H4 as [?|(? & ?)]; [auto|right; split; [auto|done]].
  - assert (f_lt a d = true) as Ead by (rewrite f_lt_ge by done; by rewrite Ed).
    split_and!; [done| |done| | | |].
    + by destruct (f_gt a lo).
    + intros x [Hx| ->]%Hin Hu Hxd; [by apply H1|by rewrite Ed in Hxd].
    + destruct H2 as [?|(? & ?)]; [auto|right; split; [auto|done]].
    + intros x [Hx| ->]%Hin Hu Hxd; unfold f_gt; fold (f_lt lo a); destruct (f_lt lo a) eqn:El.
      * apply (f_le_trans x lo a); [done|by apply H3|by apply f_lt_le].
      * by apply H3.
      * by apply f_le_refl.
      * rewrite f_lt_ge in El by done. by destruct (f_le a lo).
    + unfold f_gt. fold (f_lt lo a). destruct (f_lt lo a) eqn:El.
      * right. split_and!; [auto|done|]. destruct H4 as [->|(_ & _ & E)]; [done|].
        apply (f_lt_le_trans f0 lo a); [done..|by apply f_lt_le].
      * destruct H4 as [?|(? & ?)]; [auto|right; split; [auto|done]].
Qed.

Lemma freq_fold_inv d l : not_nan d = true -> Forall (fun a => not_nan a = true) l ->
  freq_inv d l (foldl (freq_step d) (DBL_MAX, f0) l).
Proof.
  intros Hd Hl. induction l as [|a l IH] using rev_ind.
  - unfold freq_inv. simpl. split_and!; try done; try (by left); set_solver.
  - apply Forall_app in Hl as [Hl Ha]. inversion_clear Ha. rewrite foldl_app. simpl.
    apply freq_step_inv; auto.
Qed.

(** The frequency chosen from a list of supported ones (zero means off and is
    skipped): the lowest that is at least the desired one if there is one, else
    the highest below it, else the desired one. *)
Theorem pick_freq_spec (d : float) (l : list float) :
  not_nan d = true -> Forall (fun a => not_nan a = true) l ->
  let r := pick_freq d l in
  let above a := a ∈ l /\ usable a = true /\ f_le d a = true /\ f_lt a DBL_MAX = true in
  let below a := a ∈ l /\ f_lt a d = true /\ f_lt f0 a = true in
  ((exists a, above a) -> above r /\ forall a, above a -> f_le r a = true) /\
  (~ (exists a, above a) ->
    (r = d /\ forall a, ~ below a) \/ (below r /\ forall a, below a -> f_le a r = true)).
Proof.
  intros Hd Hl. pose proof (freq_fold_inv d l Hd Hl) as Hinv. unfold pick_freq, freq_inv in *.
  destruct (foldl _ _ _) as [hi lo]. destruct Hinv as (Hh & Hlo & Hm & H1 & H2 & H3 & H4).
  cbv zeta. assert (forall a, not_nan a = true -> f_lt f0 a = true -> usable a = true) as Hu.
  { intros a Ha Hp. unfold usable. apply f_lt_ne in Hp. unfold f_ne, f_eq, SFeqb in *.
    by destruct a as [[]|[]| |[]]. }
  assert (forall a, a ∈ l -> not_nan a = true) as Hnn by (by apply Forall_forall).
  split.
  - intros (a & Ha & Hua & Hda & Hma). destruct (H1 a Ha Hua Hda) as [E|E]; [|by rewrite E in Hma].
    destruct H2 as [->|(Hin & Hub & Hdh & Hmh)].
    { rewrite f_lt_ge in Hma by auto. by rewrite E in Hma. }
    rewrite (f_lt_ne _ _ Hmh). split; [done|]. intros b (Hb & Hub' & Hdb & Hmb).
    destruct (H1 b Hb Hub' Hdb) as [E'|E']; [done|by rewrite E' in Hmb].
  - intros Hno. destruct H2 as [->|(? & ? & ? & ?)]; [|by destruct Hno; exists hi].
    change (f_ne DBL_MAX DBL_MAX) with false. cbv iota.
    destruct H4 as [->|(Hin & Hld & Hpos)].
    + left. split; [done|]. intros a (Ha & Had & Hpa). specialize (H3 a Ha (Hu a (Hnn a Ha) Hpa) Had).
      rewrite f_lt_ge in Hpa by auto. by rewrite H3 in Hpa.
    + right. assert (f_ne lo f0 = true) as -> by (apply (Hu lo) in Hpos; auto).
      split; [done|]. intros a (Ha & Had & Hpa). auto.
Qed.

Lemma pick_freq_spec_witness :
  let l := [f0; Dbl 5 1; Dbl 50 1; Dbl 125 10] in
  pick_freq IIO_MIN_SAMPLING_FREQUENCY l = Dbl 125 10 /\
  ((exists a, a ∈ l /\ usable a = true /\ f_le IIO_MIN_SAMPLING_FREQUENCY a = true /\
              f_lt a DBL_MAX = true) ->
   f_le IIO_MIN_SAMPLING_FREQUENCY (pick_freq IIO_MIN_SAMPLING_FREQUENCY l) = true).
Proof.
  intros l. split; [vm_compute; reflexivity|]. intros He.
  destruct (pick_freq_spec IIO_MIN_SAMPLING_FREQUENCY l eq_refl) as [E _].
  - repeat constructor; vm_compute; reflexivity.
  - apply E, He.
Defined.

(** ** Set-up and teardown *)

(** The text last written to a file. *)
Fixpoint last_write (path : string) (h : FsHist) : option string :=
  match h with
  | [] => None
  | (p, t) :: h' => if String.eqb p path then Some t else last_write path h'
  end.

Lemma str_app_assoc (a b c : string) : (a +:+ b) +:+ c = a +:+ (b +:+ c).
Proof. induction a as [|x a IH]; [done|]. exact (f_equal (String x) IH). Qed.

Lemma str_app_inj (a b c : string) : a +:+ b = a +:+ c -> b = c.
Proof. induction a as [|x a IH]; [done|]. intros E. injection E as E. by apply IH. Qed.

Definition enable_path (dir : string) : string := g_build_filename dir "buffer/enable".

Lemma scan_path_ne dir n : g_build_filename (g_build_filename dir "scan_elements") n <> enable_path dir.
Proof.
  unfold enable_path, g_build_filename. rewrite !str_app_assoc. intros E%str_app_inj. done.
Qed.

Lemma trigger_path_ne dir : g_build_filename dir "trigger/current_trigger" <> enable_path dir.
Proof. unfold enable_path, g_build_filename. intros E%str_app_inj. done. Qed.

Lemma length_path_ne dir : g_build_filename dir "buffer/length" <> enable_path dir.
Proof. unfold enable_path, g_build_filename. intros E%str_app_inj. done. Qed.

Section Setup.
Context `{FS : Sysfs} {Device : Type} `{U : Udev Device}.
Variable g_strsplit : string -> string -> list string.
Variable g_ascii_strtod : string -> float * nat.
Variable g_ascii_dtostr : float -> string.
Variable g_ptr_array_sort :
  (iio_channel_info -> iio_channel_info -> Z) -> list iio_channel_info -> list iio_channel_info.
Variable attr_as_boolean : Device -> string -> bool.
Variable device_number : Device -> string.
Variable round_freq : Device -> string -> float -> float.
Variable dir : string.

(** Routines that leave what was last written to [buffer/enable]. *)
Abbreviation off_enable m := (same (last_write (enable_path dir)) m).

Lemma read_file_off p : off_enable (read_file p).
Proof. done. Qed.
Lemma read_dir_off p : off_enable (read_dir p).
Proof. done. Qed.

Lemma print_file_off p t : p <> enable_path dir -> off_enable (print_file p t).
Proof.
  intros Hp h. unfold print_file, post. destruct (negb _); simpl; [done|].
  by rewrite (proj2 (String.eqb_neq p _)).
Qed.

Lemma write_int_off f b v vf v2 : g_build_filename b f <> enable_path dir ->
  off_enable (_write_sysfs_int f b v vf v2).
Proof.
  intros Hp. unfold _write_sysfs_int. apply same_bind; [by apply print_file_off|intros r].
  apply same_if; [done|]. apply same_if; [|done]. apply same_bind; [done|intros ?; done].
Qed.

Lemma write_string_off f b v vf : g_build_filename b f <> enable_path dir ->
  off_enable (_write_sysfs_string f b v vf).
Proof.
  intros Hp h. unfold _write_sysfs_string, post. destruct (negb _); simpl; [done|].
  destruct vf; simpl; by rewrite (proj2 (String.eqb_neq _ _) Hp).
Qed.

Lemma enable_entries_off dev e names ok :
  off_enable (enable_entries attr_as_boolean dev (g_build_filename dir "scan_elements") e names ok).
Proof.
  revert ok. induction names as [|n names IH]; intros ok; simpl; [done|].
  apply same_if; [|apply IH]. apply same_if; [apply IH|].
  apply same_bind; [apply write_int_off, scan_path_ne|intros r; apply IH].
Qed.

Lemma enable_sensors_off dev e : dev_path dev = dir ->
  off_enable (enable_sensors attr_as_boolean dev e).
Proof.
  intros Hd. unfold enable_sensors. rewrite Hd. apply same_bind; [done|intros [names|]; [|done]].
  apply enable_entries_off.
Qed.

Lemma disable_trigger_off data : dev_dir_name data = dir -> off_enable (disable_trigger data).
Proof.
  intros Hd. unfold disable_trigger. destruct (trigger_name data); [|done].
  apply same_bind; [|done]. rewrite Hd. apply write_string_off, trigger_path_ne.
Qed.

Lemma free_disables dev data h : dev_path dev = dir -> dev_dir_name data = dir ->
  (forall h, fs_write_open h (enable_path dir) = 0) ->
  last_write (enable_path dir) (post (buffer_drv_data_free attr_as_boolean dev data) h) = Some "0".
Proof.
  intros Hd Hdir Ho. unfold buffer_drv_data_free.
  apply (wp_post _ (fun t => last_write (enable_path dir) t = Some "0")).
  eapply wp_seq with (P := fun _ t => last_write (enable_path dir) t = Some "0").
  - unfold disable_ring_buffer, write_sysfs_int, _write_sysfs_int. rewrite Hdir.
    apply wp_bind, wp_bind. unfold wp at 1, print_file, res, post. fold (enable_path dir).
    rewrite Ho. simpl. destruct (_ <? 0); unfold wp, post; simpl; by rewrite String.eqb_refl.
  - intros _ t Ht. apply wp_bind. unfold wp at 1. apply wp_bind. unfold wp at 1, wp, post, ret. simpl.
    fold (post (disable_trigger data) t).
    fold (post (enable_sensors attr_as_boolean dev false) (post (disable_trigger data) t)).
    rewrite (enable_sensors_off dev false Hd). by rewrite disable_trigger_off.
Qed.

Abbreviation new := (buffer_drv_data_new g_strsplit g_ascii_strtod g_ascii_dtostr g_ptr_array_sort
  attr_as_boolean device_number round_freq).

(** However far it got, a set-up that fails has switched the buffer off. *)
Theorem failed_setup_disables (devices : list Device) (device : Device) (h : FsHist) :
  dev_path device = dir ->
  (forall h, fs_write_open h (enable_path dir) = 0) ->
  res (new devices device) h = Some None ->
  last_write (enable_path dir) (post (new devices device) h) = Some "0".
Proof.
  intros Hd Ho.
  cut (wp (new devices device) (fun r t => r = Some None ->
    last_write (enable_path dir) t = Some "0") h); [done|].
  assert (forall t, wp (buffer_drv_data_free attr_as_boolean device
    (Buf (dev_path device) (get_trigger_name device_number devices device) [] 0) ;;;
    ret (Some None)) (fun (r : option (option BufferDrvData)) t => r = Some None ->
    last_write (enable_path dir) t = Some "0") t) as Hfail.
  { intros t. apply wp_bind. unfold wp at 1. apply wp_ret. intros _. by apply free_disables. }
  unfold buffer_drv_data_new.
  apply wp_bind. unfold wp at 1. apply wp_if; intros _; [apply Hfail|].
  apply wp_bind. unfold wp at 1. apply wp_if; intros _; [apply Hfail|].
  apply wp_bind. unfold wp at 1. apply wp_if; intros _; [apply Hfail|].
  apply wp_bind. unfold wp at 1. apply wp_if; intros _; [apply Hfail|].
  apply wp_bind. unfold wp at 1. destruct (res _ _) as [[data'|]|]; [done|apply Hfail|done].
Qed.
End Setup.

(** A sysfs whose files can be written and not read back. *)
Definition sim_sysfs : Sysfs := {|
  fs_dir _ _ := Some ["in_accel_x_en"%string];
  fs_read _ _ := inl ENOENT;
  fs_write_open _ _ := 0;
  fs_write_ret _ _ _ := 1
|}.
Definition sim_udev : Udev unit := {|
  sysfs_path _ := Some "/sys/d"%string; udev_property _ _ := None; sysfs_attr _ _ := None;
  sysfs_attr_as_double _ _ := f0; udev_name _ := "d"%string
|}.

Lemma failed_setup_disables_witness :
  let new := @buffer_drv_data_new sim_sysfs sim_strsplit (fun _ => (f0, 0%nat)) (fun _ => "0"%string)
    (fun _ l => l) unit sim_udev (fun _ _ => false) (fun _ => "0"%string) (fun _ _ d => d) [] tt in
  res new [] = Some None /\
  last_write (enable_path "/sys/d") (post new []) = Some "0"%string.
Proof.
  intros new. split; [vm_compute; reflexivity|].
  apply (@failed_setup_disables sim_sysfs unit sim_udev sim_strsplit (fun _ => (f0, 0%nat))
    (fun _ => "0"%string) (fun _ l => l) (fun _ _ => false) (fun _ => "0"%string) (fun _ _ d => d)
    "/sys/d" [] tt []); [reflexivity|reflexivity|vm_compute; reflexivity].
Defined.
