(* ===== verification/Proxy.v ===== *)
(** * The sensor proxy (iio-sensor-proxy.c)

    One slot per sensor type (driver, device, clients, invocations that wait
    for the first reading), the D-Bus methods that claim and release sensors,
    the readings callbacks, and the hot-plug of devices.  Drivers are used
    through [SensorDriver]; the readings a driver hands over while it switches
    polling are processed inside that call, as the callbacks of the C code
    are.  Calls to D-Bus, the udev client and the main loop are recorded in
    [out], newest first; name watching and polkit answer as functions of it. *)

From Stdlib Require Import ZArith Lia SpecFloat.
From stdpp Require Import base list strings gmap.
From S2P Require Import Prelude Floats Drivers MxcFilter Orientation.

#[local] Open Scope Z_scope.
#[local] Open Scope prog_scope.

(** ** Properties *)

Definition PROP_HAS_ACCELEROMETER := 1.
Definition PROP_ACCELEROMETER_ORIENTATION := 2.
Definition PROP_HAS_AMBIENT_LIGHT := 4.
Definition PROP_LIGHT_LEVEL := 8.
Definition PROP_HAS_COMPASS := 16.
Definition PROP_COMPASS_HEADING := 32.
Definition PROP_HAS_PROXIMITY := 64.
Definition PROP_PROXIMITY_NEAR := 128.
Definition PROP_ACCELEROMETER_TILT := 256.

Definition mask_or (l : list Z) : Z := foldr Z.lor 0 l.

Definition PROP_ALL : Z := Eval vm_compute in mask_or
  [PROP_HAS_ACCELEROMETER; PROP_ACCELEROMETER_ORIENTATION; PROP_HAS_AMBIENT_LIGHT;
   PROP_LIGHT_LEVEL; PROP_HAS_PROXIMITY; PROP_PROXIMITY_NEAR; PROP_ACCELEROMETER_TILT].
Definition PROP_ALL_COMPASS : Z := Eval vm_compute in
  mask_or [PROP_HAS_COMPASS; PROP_COMPASS_HEADING].

Definition mask_for_sensor_type (t : DriverType) : Z :=
  match t with
  | DRIVER_TYPE_ACCEL =>
      mask_or [PROP_HAS_ACCELEROMETER; PROP_ACCELEROMETER_ORIENTATION; PROP_ACCELEROMETER_TILT]
  | DRIVER_TYPE_LIGHT => mask_or [PROP_HAS_AMBIENT_LIGHT; PROP_LIGHT_LEVEL]
  | DRIVER_TYPE_COMPASS => mask_or [PROP_HAS_COMPASS; PROP_COMPASS_HEADING]
  | DRIVER_TYPE_PROXIMITY => mask_or [PROP_HAS_PROXIMITY; PROP_PROXIMITY_NEAR]
  end.

(** [mask & prop] as a condition. *)
Definition has (mask prop : Z) : bool := negb (Z.land mask prop =? 0).

(** ** Data *)

Inductive Value := VBool (b : bool) | VString (s : option string) | VDouble (d : float).

(** The replies and calls the proxy makes; an invocation is a number. *)
Inductive Out :=
  | OReply (inv : Z)
  | OError (inv : Z) (name : string)
  | OSignal (dest : string) (compass : bool) (props : list (string * Value))
  | OWatch (sender : string) (id : Z)
  | OUnwatch (id : Z)
  | OOpen (t : DriverType)
  | OClose (t : DriverType)
  | OSetPolling (t : DriverType) (state : bool)
  | OQuit.

Record Slot (Drv Priv Dev : Type) := Sl {
  drv : option Drv; dev : option Priv; udev_dev : option Dev;
  clients : gmap string Z; invocations_delayed : list Z; event_delayed : bool
}.
Arguments Sl {Drv Priv Dev}. Arguments drv {Drv Priv Dev}. Arguments dev {Drv Priv Dev}.
Arguments udev_dev {Drv Priv Dev}. Arguments clients {Drv Priv Dev}.
Arguments invocations_delayed {Drv Priv Dev}. Arguments event_delayed {Drv Priv Dev}.

(** The last readings. *)
Record Previous := Prev {
  previous_orientation : OrientationUp; previous_tilt : Tilt;
  previous_level : float; uses_lux_ : bool;
  previous_heading : float; previous_prox_near : bool
}.

Record SensorData (W Drv Priv Dev : Type) := SD {
  world : W; slots : DriverType -> Slot Drv Priv Dev; lazy : bool;
  prev : Previous; out : list Out
}.
Arguments SD {W Drv Priv Dev}. Arguments world {W Drv Priv Dev}. Arguments slots {W Drv Priv Dev}.
Arguments lazy {W Drv Priv Dev}. Arguments prev {W Drv Priv Dev}. Arguments out {W Drv Priv Dev}.

Section Proxy.
Context {Dev : Type} `{U : Udev Dev} {W Priv : Type}.
#[local] Abbreviation Drv := (@SensorDriver Dev W Priv).
#[local] Abbreviation S := (SensorData W Drv Priv Dev).

(** What the proxy asks GIO, polkit and libm. *)
Variable g_bus_watch_name : list Out -> string -> Z.
Variable is_authorized : list Out -> string -> bool.
Variable atan2 : float -> float -> float.
(** The table of drivers, in order of preference. *)
Variable drivers : list Drv.

Definition set_slot (t : DriverType) (x : Slot Drv Priv Dev) (s : S) : S :=
  SD (world s) (fun u => if bool_decide (u = t) then x else slots s u) (lazy s) (prev s) (out s).
Definition set_prev (p : Previous) (s : S) : S :=
  SD (world s) (slots s) (lazy s) p (out s).
Definition emit (o : Out) : M S unit :=
  modify (fun s => SD (world s) (slots s) (lazy s) (prev s) (o :: out s)).
Definition slot (t : DriverType) : M S (Slot Drv Priv Dev) := gets (fun s => slots s t).
Definition set_clients (c : gmap string Z) (x : Slot Drv Priv Dev) : Slot Drv Priv Dev :=
  Sl (drv x) (dev x) (udev_dev x) c (invocations_delayed x) (event_delayed x).
Definition set_delayed (l : list Z) (x : Slot Drv Priv Dev) : Slot Drv Priv Dev :=
  Sl (drv x) (dev x) (udev_dev x) (clients x) l (event_delayed x).
Definition set_event (b : bool) (x : Slot Drv Priv Dev) : Slot Drv Priv Dev :=
  Sl (drv x) (dev x) (udev_dev x) (clients x) (invocations_delayed x) b.
Definition change (t : DriverType) (f : Slot Drv Priv Dev -> Slot Drv Priv Dev) : M S unit :=
  modify (fun s => set_slot t (f (slots s t)) s).

(** A step of the drivers' world. *)
Definition in_world {A} (m : M W A) : M S A := fun s =>
  let (a, w) := m (world s) in (a, SD w (slots s) (lazy s) (prev s) (out s)).

Definition driver_type_exists (s : S) (t : DriverType) : bool :=
  match drv (slots s t) with Some _ => true | None => false end.

(** ** D-Bus signals *)

Definition send_dbus_event_for_client (dest : string) (mask : Z) : M S unit :=
  s <- gets id ;;
  let p := prev s in
  let has_accel := driver_type_exists s DRIVER_TYPE_ACCEL in
  let accel := has mask PROP_HAS_ACCELEROMETER in
  let mask := if accel && has_accel
              then mask_or [mask; PROP_ACCELEROMETER_ORIENTATION; PROP_ACCELEROMETER_TILT]
              else mask in
  let p := if accel && negb has_accel
           then Prev ORIENTATION_UNDEFINED TILT_UNDEFINED (previous_level p) (uses_lux_ p)
                     (previous_heading p) (previous_prox_near p)
           else p in
  let light := has mask PROP_HAS_AMBIENT_LIGHT in
  let has_als := driver_type_exists s DRIVER_TYPE_LIGHT in
  let mask := if light && has_als then Z.lor mask PROP_LIGHT_LEVEL else mask in
  let compass := has mask PROP_HAS_COMPASS in
  let has_compass := driver_type_exists s DRIVER_TYPE_COMPASS in
  let mask := if compass && has_compass then Z.lor mask PROP_COMPASS_HEADING else mask in
  let prox := has mask PROP_HAS_PROXIMITY in
  let has_prox := driver_type_exists s DRIVER_TYPE_PROXIMITY in
  let mask := if prox && has_prox then Z.lor mask PROP_PROXIMITY_NEAR else mask in
  let opt (b : bool) (l : list (string * Value)) := if b then l else [] in
  let props := concat
    [opt accel [("HasAccelerometer"%string, VBool has_accel)];
     opt (has mask PROP_ACCELEROMETER_ORIENTATION)
       [("AccelerometerOrientation"%string, VString (orientation_to_string (previous_orientation p)))];
     opt (has mask PROP_ACCELEROMETER_TILT)
       [("AccelerometerTilt"%string, VString (tilt_to_string (previous_tilt p)))];
     opt light [("HasAmbientLight"%string, VBool has_als)];
     opt (has mask PROP_LIGHT_LEVEL)
       [("LightLevelUnit"%string, VString (Some (if uses_lux_ p then "lux" else "vendor")%string));
        ("LightLevel"%string, VDouble (previous_level p))];
     opt compass [("HasCompass"%string, VBool has_compass)];
     opt (has mask PROP_COMPASS_HEADING) [("CompassHeading"%string, VDouble (previous_heading p))];
     opt prox [("HasProximity"%string, VBool has_prox)];
     opt (has mask PROP_PROXIMITY_NEAR) [("ProximityNear"%string, VBool (previous_prox_near p))]] in
  modify (set_prev p) ;;;
  emit (OSignal dest (negb (has mask PROP_ALL)) props).

(** The mask of each client: the part of [mask] each sensor it claimed
    covers. *)
Definition add_masks (mask : Z) (s : S) (ht : gmap string Z) (t : DriverType) : gmap string Z :=
  foldr (fun c ht => <[c := Z.lor (default 0 (ht !! c)) (Z.land mask (mask_for_sensor_type t))]> ht)
        ht (elements (dom (clients (slots s t)))).

Definition client_masks (mask : Z) (s : S) : gmap string Z :=
  foldl (add_masks mask s) ∅ all_types.

Definition send_dbus_event (mask : Z) : M S unit :=
  s <- gets id ;;
  mfor (map_to_list (client_masks mask s)) (fun '(c, m) => send_dbus_event_for_client c m).

Definition send_driver_changed_dbus_event (t : DriverType) : M S unit :=
  send_dbus_event
    match t with
    | DRIVER_TYPE_ACCEL => PROP_HAS_ACCELEROMETER
    | DRIVER_TYPE_LIGHT => PROP_HAS_AMBIENT_LIGHT
    | DRIVER_TYPE_PROXIMITY => PROP_HAS_PROXIMITY
    | DRIVER_TYPE_COMPASS => PROP_HAS_COMPASS
    end.

(** ** Readings *)

Definition maybe_notify_sensor_startup_finished (t : DriverType) : M S unit :=
  x <- slot t ;;
  change t (set_delayed []) ;;;
  mfor (invocations_delayed x) (fun inv => emit (OReply inv)) ;;;
  if event_delayed x
  then send_driver_changed_dbus_event t ;;; change t (set_event false)
  else ret tt.

Definition accel_changed_func (r : AccelReadings) : M S unit :=
  p <- gets prev ;;
  let o := orientation_calc atan2 (previous_orientation p) (accel_x r) (accel_y r) (accel_z r)
             (accel_scale r) in
  (if bool_decide (previous_orientation p = o) then ret tt
   else
     modify (set_prev (Prev o (previous_tilt p) (previous_level p) (uses_lux_ p)
                            (previous_heading p) (previous_prox_near p))) ;;;
     send_dbus_event PROP_ACCELEROMETER_ORIENTATION) ;;;
  p <- gets prev ;;
  let t := tilt_calc atan2 (previous_tilt p) (accel_x r) (accel_y r) (accel_z r) (accel_scale r) in
  (if bool_decide (previous_tilt p = t) then ret tt
   else
     modify (set_prev (Prev (previous_orientation p) t (previous_level p) (uses_lux_ p)
                            (previous_heading p) (previous_prox_near p))) ;;;
     send_dbus_event PROP_ACCELEROMETER_TILT) ;;;
  maybe_notify_sensor_startup_finished DRIVER_TYPE_ACCEL.

Definition light_changed_func (level : float) (lux : bool) : M S unit :=
  p <- gets prev ;;
  (if f_ne (previous_level p) level || negb (Bool.eqb (uses_lux_ p) lux) then
     modify (set_prev (Prev (previous_orientation p) (previous_tilt p) level lux
                            (previous_heading p) (previous_prox_near p))) ;;;
     send_dbus_event PROP_LIGHT_LEVEL
   else ret tt) ;;;
  maybe_notify_sensor_startup_finished DRIVER_TYPE_LIGHT.

Definition compass_changed_func (heading : float) : M S unit :=
  p <- gets prev ;;
  (if f_ne (previous_heading p) heading then
     modify (set_prev (Prev (previous_orientation p) (previous_tilt p) (previous_level p)
                            (uses_lux_ p) heading (previous_prox_near p))) ;;;
     send_dbus_event PROP_COMPASS_HEADING
   else ret tt) ;;;
  maybe_notify_sensor_startup_finished DRIVER_TYPE_COMPASS.

Definition proximity_changed_func (is_near : Z) : M S unit :=
  p <- gets prev ;;
  let near := 0 <? is_near in
  (if negb (Bool.eqb (previous_prox_near p) near) then
     modify (set_prev (Prev (previous_orientation p) (previous_tilt p) (previous_level p)
                            (uses_lux_ p) (previous_heading p) near)) ;;;
     send_dbus_event PROP_PROXIMITY_NEAR
   else ret tt) ;;;
  maybe_notify_sensor_startup_finished DRIVER_TYPE_PROXIMITY.

(** [driver_type_to_callback_func]: a driver hands over readings of its type. *)
Definition changed_func (t : DriverType) (r : Readings) : M S unit :=
  match t, r with
  | DRIVER_TYPE_ACCEL, Accel r => accel_changed_func r
  | DRIVER_TYPE_LIGHT, Light l lux => light_changed_func l lux
  | DRIVER_TYPE_COMPASS, Compass h => compass_changed_func h
  | DRIVER_TYPE_PROXIMITY, Proximity n => proximity_changed_func n
  | _, _ => ret tt
  end.

(** ** Driving the drivers *)

Definition slot_set_polling (t : DriverType) (state : bool) : M S unit :=
  x <- slot t ;;
  match drv x, dev x with
  | Some d, Some p =>
      emit (OSetPolling t state) ;;;
      r <- in_world (driver_set_polling d p state) ;;
      change t (fun x => Sl (drv x) (Some (fst r)) (udev_dev x) (clients x)
                            (invocations_delayed x) (event_delayed x)) ;;;
      mfor (snd r) (changed_func t)
  | _, _ => ret tt
  end.

Definition slot_close (t : DriverType) : M S unit :=
  x <- slot t ;;
  match drv x, dev x with
  | Some d, Some p =>
      emit (OClose t) ;;;
      l <- in_world (driver_close d p) ;;
      mfor l (changed_func t)
  | _, _ => ret tt
  end.

(** ** Clients *)

Definition client_release (sender : string) (t : DriverType) : M S unit :=
  x <- slot t ;;
  match clients x !! sender with
  | None | Some 0 => ret tt
  | Some watch_id =>
      change t (set_clients (delete sender (clients x))) ;;;
      emit (OUnwatch watch_id) ;;;
      s <- gets id ;;
      if lazy s && driver_type_exists s t && bool_decide (clients (slots s t) = ∅)
      then slot_set_polling t false
      else ret tt
  end.

Definition client_vanished_cb (name : option string) : M S unit :=
  match name with
  | None => ret tt
  | Some sender =>
      mfor all_types (fun t =>
        x <- slot t ;;
        match clients x !! sender with
        | Some id_ => if 0 <? id_ then client_release sender t else ret tt
        | None => ret tt
        end)
  end.

(** [claim]: the name starts with "Claim"; otherwise with "Release". *)
Definition handle_generic_method_call (sender : string) (claim : bool) (inv : Z) (t : DriverType) :
    M S unit :=
  if claim then
    x <- slot t ;;
    if match clients x !! sender with Some id_ => 0 <? id_ | None => false end
    then emit (OReply inv)
    else
      h <- gets out ;;
      let watch_id := g_bus_watch_name h sender in
      emit (OWatch sender watch_id) ;;;
      change t (set_clients (<[sender := watch_id]> (clients x))) ;;;
      s <- gets id ;;
      let x := slots s t in
      if driver_type_exists s t then
        if bool_decide (size (clients x) = 1%nat) then
          change t (set_delayed (invocations_delayed x ++ [inv])) ;;;
          slot_set_polling t true
        else if negb (bool_decide (invocations_delayed x = [])) || event_delayed x
        then change t (set_delayed (invocations_delayed x ++ [inv]))
        else emit (OReply inv)
      else emit (OReply inv)
  else
    client_release sender t ;;;
    emit (OReply inv).

Definition check_claim_permission (sender : string) : M S bool :=
  gets (fun s => is_authorized (out s) sender).

(** The sensor and whether it is a claim. *)
Definition method_of (method_name : string) : option (DriverType * bool) :=
  if String.eqb method_name "ClaimAccelerometer" then Some (DRIVER_TYPE_ACCEL, true)
  else if String.eqb method_name "ReleaseAccelerometer" then Some (DRIVER_TYPE_ACCEL, false)
  else if String.eqb method_name "ClaimLight" then Some (DRIVER_TYPE_LIGHT, true)
  else if String.eqb method_name "ReleaseLight" then Some (DRIVER_TYPE_LIGHT, false)
  else if String.eqb method_name "ClaimProximity" then Some (DRIVER_TYPE_PROXIMITY, true)
  else if String.eqb method_name "ReleaseProximity" then Some (DRIVER_TYPE_PROXIMITY, false)
  else None.

Definition compass_method_of (method_name : string) : option (DriverType * bool) :=
  if String.eqb method_name "ClaimCompass" then Some (DRIVER_TYPE_COMPASS, true)
  else if String.eqb method_name "ReleaseCompass" then Some (DRIVER_TYPE_COMPASS, false)
  else None.

Definition guarded_call (sender : string) (m : option (DriverType * bool)) (inv : Z) : M S unit :=
  match m with
  | None => emit (OError inv "UnknownMethod")
  | Some (t, claim) =>
      ok <- check_claim_permission sender ;;
      if negb ok then emit (OError inv "AccessDenied")
      else handle_generic_method_call sender claim inv t
  end.

Definition handle_method_call (sender method_name : string) (inv : Z) : M S unit :=
  guarded_call sender (method_of method_name) inv.

Definition handle_compass_method_call (sender method_name : string) (inv : Z) : M S unit :=
  guarded_call sender (compass_method_of method_name) inv.

Definition handle_get_property (property_name : string) (s : S) : option Value :=
  let p := prev s in
  let named := String.eqb property_name in
  if named "HasAccelerometer"%string then Some (VBool (driver_type_exists s DRIVER_TYPE_ACCEL))
  else if named "AccelerometerOrientation"%string
  then Some (VString (orientation_to_string (previous_orientation p)))
  else if named "AccelerometerTilt"%string then Some (VString (tilt_to_string (previous_tilt p)))
  else if named "HasAmbientLight"%string then Some (VBool (driver_type_exists s DRIVER_TYPE_LIGHT))
  else if named "LightLevelUnit"%string
  then Some (VString (Some (if uses_lux_ p then "lux" else "vendor")%string))
  else if named "LightLevel"%string then Some (VDouble (previous_level p))
  else if named "HasProximity"%string then Some (VBool (driver_type_exists s DRIVER_TYPE_PROXIMITY))
  else if named "ProximityNear"%string then Some (VBool (previous_prox_near p))
  else None.

Definition handle_compass_get_property (property_name : string) (s : S) : option Value :=
  if String.eqb property_name "HasCompass" then Some (VBool (driver_type_exists s DRIVER_TYPE_COMPASS))
  else if String.eqb property_name "CompassHeading" then Some (VDouble (previous_heading (prev s)))
  else None.

(** ** Devices *)

Definition install (t : DriverType) (d : Drv) (device : Dev) (x : Slot Drv Priv Dev) :
    Slot Drv Priv Dev :=
  Sl (Some d) (dev x) (Some device) (clients x) (invocations_delayed x) (event_delayed x).

(** The drivers that want the device and whose type has none yet. *)
Fixpoint match_drivers (l : list Drv) (device : Dev) (found : bool) : M S bool :=
  match l with
  | [] => ret found
  | d :: l' =>
      s <- gets id ;;
      if driver_type_exists s (drv_type d) then match_drivers l' device found
      else
        ok <- in_world (driver_discover d device) ;;
        if ok
        then change (drv_type d) (install (drv_type d) d device) ;;; match_drivers l' device true
        else match_drivers l' device found
  end.

Definition match_device (device : Dev) : M S bool := match_drivers drivers device false.

Definition all_found (s : S) : bool := forallb (driver_type_exists s) all_types.

Fixpoint find_sensors (devices : list Dev) (found : bool) : M S bool :=
  match devices with
  | [] => ret found
  | device :: devices' =>
      f <- match_device device ;;
      s <- gets id ;;
      if all_found s then ret (found || f) else find_sensors devices' (found || f)
  end.

Definition any_sensors_left (s : S) : bool := existsb (driver_type_exists s) all_types.

Definition uninstall (x : Slot Drv Priv Dev) : Slot Drv Priv Dev :=
  Sl None (dev x) None (clients x) (invocations_delayed x) (event_delayed x).

(** One turn of the loop of [name_acquired_handler]. *)
Definition start_sensor (t : DriverType) : M S unit :=
  change t (set_delayed []) ;;;
  x <- slot t ;;
  match drv x, udev_dev x with
  | Some d, Some device =>
      p <- in_world (driver_open d device) ;;
      match p with
      | None => change t uninstall
      | Some p =>
          emit (OOpen t) ;;;
          change t (fun x => Sl (drv x) (Some p) (udev_dev x) (clients x)
                                (invocations_delayed x) (event_delayed x)) ;;;
          s <- gets id ;;
          if lazy s then ret tt else slot_set_polling t true
      end
  | _, _ => ret tt
  end.

(** [devices]: those of the subsystems, in order. *)
Definition name_acquired_handler (devices : list Dev) : M S unit :=
  found <- find_sensors devices false ;;
  if negb found then emit OQuit
  else
    mfor all_types start_sensor ;;;
    s <- gets id ;;
    if negb (any_sensors_left s) then emit OQuit
    else
      send_dbus_event PROP_ALL ;;;
      send_dbus_event PROP_ALL_COMPASS.

Definition remove_sensor (device : Dev) (t : DriverType) : M S unit :=
  x <- slot t ;;
  match udev_dev x with
  | None => ret tt
  | Some d =>
      if bool_decide (sysfs_path device = sysfs_path d) then
        slot_close t ;;;
        x <- slot t ;;
        change t (fun _ => Sl None None None ∅ [] false) ;;;
        mfor (map_to_list (clients x))
          (fun '(_, watch_id) => if watch_id =? 0 then ret tt else emit (OUnwatch watch_id)) ;;;
        mfor (invocations_delayed x) (fun inv => emit (OError inv "Failed")) ;;;
        send_driver_changed_dbus_event t
      else ret tt
  end.

Definition add_sensor (d : Drv) (device : Dev) : M S unit :=
  let t := drv_type d in
  p <- in_world (driver_open d device) ;;
  match p with
  | None => ret tt
  | Some p =>
      emit (OOpen t) ;;;
      change t (fun x => Sl (Some d) (Some p) (Some device) (clients x) (invocations_delayed x)
                            (event_delayed x)) ;;;
      x <- slot t ;;
      if bool_decide (clients x = ∅) then
        send_driver_changed_dbus_event t ;;;
        s <- gets id ;;
        if lazy s then ret tt else slot_set_polling t true
      else
        change t (set_event true) ;;;
        slot_set_polling t true
  end.

(** Only the first driver that wants the device is tried. *)
Fixpoint hotplug (l : list Drv) (device : Dev) : M S unit :=
  match l with
  | [] => ret tt
  | d :: l' =>
      s <- gets id ;;
      if driver_type_exists s (drv_type d) then hotplug l' device
      else
        ok <- in_world (driver_discover d device) ;;
        if ok then add_sensor d device else hotplug l' device
  end.

Definition sensor_changes (action : string) (device : Dev) : M S unit :=
  if String.eqb action "remove" then
    mfor all_types (remove_sensor device) ;;;
    s <- gets id ;;
    if any_sensors_left s then ret tt else emit OQuit
  else if String.eqb action "add" then hotplug drivers device
  else ret tt.

Definition free_sensor_data : M S unit :=
  mfor all_types (fun t =>
    s <- gets id ;;
    (if driver_type_exists s t then slot_close t else ret tt) ;;;
    change t (fun x => Sl (drv x) (dev x) None ∅ [] (event_delayed x))).

(** ** The events of the main loop *)

Inductive Event :=
  | Method (sender name : string) (inv : Z)
  | CompassMethod (sender name : string) (inv : Z)
  | Vanished (name : option string)
  | Uevent (action : string) (device : Dev)
  | Reading (t : DriverType) (r : Readings).

(** A reading comes from an open device. *)
Definition step (e : Event) : M S unit :=
  match e with
  | Method sender name inv => handle_method_call sender name inv
  | CompassMethod sender name inv => handle_compass_method_call sender name inv
  | Vanished name => client_vanished_cb name
  | Uevent action device => sensor_changes action device
  | Reading t r => s <- gets id ;; if driver_type_exists s t then changed_func t r else ret tt
  end.

Definition run (l : list Event) : M S unit := mfor l step.

(** [main] before the bus is acquired, and the tables it creates then. *)
Definition start (w : W) (lazy_ : bool) : S :=
  SD w (fun _ => Sl None None None ∅ [] false) lazy_
     (Prev ORIENTATION_UNDEFINED TILT_UNDEFINED f0 true f0 false) [].
End Proxy.

(** ** Accounting of invocations *)

Definition cnt (inv : Z) (l : list Z) : Z := Z.of_nat (length (List.filter (Z.eqb inv) l)).

Lemma cnt_app inv l1 l2 : cnt inv (l1 ++ l2) = cnt inv l1 + cnt inv l2.
Proof. unfold cnt. rewrite List.filter_app, length_app. lia. Qed.

Lemma cnt_cons inv i l : cnt inv (i :: l) = (if inv =? i then 1 else 0) + cnt inv l.
Proof. unfold cnt. simpl. destruct (inv =? i); simpl length; lia. Qed.

(** How often an invocation has been answered. *)
Fixpoint answered (inv : Z) (o : list Out) : Z :=
  match o with
  | [] => 0
  | OReply i :: o' | OError i _ :: o' => (if inv =? i then 1 else 0) + answered inv o'
  | _ :: o' => answered inv o'
  end.

(** The polling state a driver was last put in, since it was opened. *)
Fixpoint last_polling (t : DriverType) (o : list Out) : bool :=
  match o with
  | [] => false
  | OSetPolling u b :: o' => if bool_decide (u = t) then b else last_polling t o'
  | OOpen u :: o' => if bool_decide (u = t) then false else last_polling t o'
  | _ :: o' => last_polling t o'
  end.

(** The signals a client was sent, newest first. *)
Fixpoint signals_to (c : string) (o : list Out) : list (bool * list (string * Value)) :=
  match o with
  | [] => []
  | OSignal d compass props :: o' =>
      if String.eqb c d then (compass, props) :: signals_to c o' else signals_to c o'
  | _ :: o' => signals_to c o'
  end.

Definition is_some {A} (o : option A) : bool := match o with Some _ => true | None => false end.

Section ProxyTheorems.
Context {Dev : Type} `{U : Udev Dev} {W Priv : Type}.
#[local] Abbreviation Drv := (@SensorDriver Dev W Priv).
#[local] Abbreviation S := (SensorData W Drv Priv Dev).
Variable g_bus_watch_name : list Out -> string -> Z.
Variable is_authorized : list Out -> string -> bool.
Variable atan2 : float -> float -> float.
Variable drivers : list Drv.

(** ** Signals and readings, generically *)

(** An observation of the state that neither the last readings nor the
    signals sent change. *)
Definition unsignalled {T} (f : S -> T) : Prop :=
  (forall p s, f (set_prev p s) = f s) /\
  (forall d b l s, f (post (emit (OSignal d b l)) s) = f s).

Lemma event_same {T} (f : S -> T) mask : unsignalled f -> same f (send_dbus_event mask).
Proof.
  intros [Hp Ho]. unfold send_dbus_event. apply same_bind; [done|intros s]. apply same_mfor.
  intros [c m]. unfold send_dbus_event_for_client. apply same_bind; [done|intros u]. cbv zeta.
  apply same_bind; [intros v; apply Hp|intros ? v; apply Ho].
Qed.

Lemma changed_same {T} (f : S -> T) t r :
  unsignalled f -> same f (maybe_notify_sensor_startup_finished t) -> same f (changed_func atan2 t r).
Proof.
  intros Hf Hn. assert (forall p mask, same f (modify (set_prev p) ;;; send_dbus_event mask)) as Hs.
  { intros p mask. apply same_bind; [intros v; apply Hf|intros ?; by apply event_same]. }
  destruct t, r; try done; simpl.
  - unfold accel_changed_func. apply same_bind; [done|intros p].
    apply same_bind; [by apply same_if|intros ?]. apply same_bind; [done|intros p'].
    apply same_bind; [by apply same_if|intros ?; exact Hn].
  - unfold light_changed_func. apply same_bind; [done|intros p].
    apply same_bind; [by apply same_if|intros ?; exact Hn].
  - unfold compass_changed_func. apply same_bind; [done|intros p].
    apply same_bind; [by apply same_if|intros ?; exact Hn].
  - unfold proximity_changed_func. apply same_bind; [done|intros p].
    apply same_bind; [by apply same_if|intros ?; exact Hn].
Qed.

(** ** Waiting invocations *)

(** Waiting for the first reading of a sensor. *)
Definition pending (inv : Z) (s : S) : Z :=
  foldr (fun t n => cnt inv (invocations_delayed (slots s t)) + n) 0 all_types.

(** Answered or pending. *)
Definition handled (inv : Z) (s : S) : Z := answered inv (out s) + pending inv s.

Lemma set_slot_get t x (s : S) : slots (set_slot t x s) t = x.
Proof. simpl. by rewrite bool_decide_true. Qed.

Lemma pending_set_slot inv t x (s : S) :
  pending inv (set_slot t x s) =
  pending inv s - cnt inv (invocations_delayed (slots s t)) + cnt inv (invocations_delayed x).
Proof. unfold pending. destruct t; simpl; lia. Qed.

Lemma handled_set_slot inv t x (s : S) :
  handled inv (set_slot t x s) =
  handled inv s - cnt inv (invocations_delayed (slots s t)) + cnt inv (invocations_delayed x).
Proof. unfold handled. rewrite pending_set_slot. simpl. lia. Qed.

(** A change of a slot that keeps the waiting invocations. *)
Lemma change_handled inv t f :
  (forall x, invocations_delayed (f x) = invocations_delayed x) ->
  same (handled inv) (change (W := W) (Priv := Priv) (Dev := Dev) t f).
Proof. intros Hf s. unfold post, change, modify. cbn [snd]. rewrite handled_set_slot, Hf. lia. Qed.

Lemma emit_handled inv o :
  (forall i, o <> OReply i /\ forall n, o <> OError i n) ->
  same (handled inv) (emit (W := W) (Priv := Priv) (Dev := Dev) o).
Proof.
  intros Ho s. unfold post, emit, modify, handled. simpl. destruct o; try done.
  - destruct (Ho inv0) as [E _]. by destruct E.
  - destruct (Ho inv0) as [_ E]. by destruct (E name).
Qed.

Lemma in_world_handled inv {A} (m : M W A) : same (handled inv) (in_world (Priv := Priv) (Dev := Dev) m).
Proof. intros s. unfold post, in_world. by destruct (m (world s)). Qed.



#[local] Abbreviation kept inv m := (same (handled inv) (m : M S _)).

Lemma handled_unsignalled inv : unsignalled (handled inv).
Proof. done. Qed.

Lemma event_handled inv mask : kept inv (send_dbus_event mask).
Proof. apply event_same, handled_unsignalled. Qed.

(** Replying to a list answers each of its elements once. *)
Lemma replies_handled inv (mk : Z -> Out) l (s : S) :
  (forall i o, answered inv (mk i :: o) = (if inv =? i then 1 else 0) + answered inv o) ->
  handled inv (post (mfor l (fun i => emit (mk i))) s) = handled inv s + cnt inv l.
Proof.
  intros Hmk. revert s. induction l as [|i l IH]; intros s; simpl; [unfold post, ret, cnt; simpl; lia|].
  change (handled inv (post (mfor l (fun i => emit (mk i))) (post (emit (mk i)) s)) =
          handled inv s + cnt inv (i :: l)).
  rewrite IH, cnt_cons. unfold handled, post, emit, modify. simpl snd.
  cbn [out]. rewrite Hmk. unfold pending. simpl. lia.
Qed.

Lemma notify_handled inv t : kept inv (maybe_notify_sensor_startup_finished t).
Proof.
  intros s. unfold maybe_notify_sensor_startup_finished.
  apply (wp_post _ (fun u => handled inv u = handled inv s)).
  apply wp_bind, wp_gets, wp_bind, wp_modify, wp_bind.
  unfold wp at 1. cbv beta.
  set (s1 := set_slot t _ s). set (s2 := post _ s1).
  assert (handled inv s2 = handled inv s) as E2.
  { unfold s2. rewrite (replies_handled inv OReply) by done. unfold s1.
    rewrite handled_set_slot. simpl. unfold cnt at 2. simpl. lia. }
  destruct (event_delayed (slots s t)); [|exact E2]. rewrite <- E2.
  apply (same_bind (handled inv)); [apply event_handled|intros ?; by apply change_handled].
Qed.

Lemma changed_handled inv t r : kept inv (changed_func atan2 t r).
Proof. apply changed_same; [apply handled_unsignalled|apply notify_handled]. Qed.

Lemma polling_handled inv t b : kept inv (slot_set_polling atan2 t b).
Proof.
  unfold slot_set_polling. apply same_bind; [done|intros x].
  destruct (drv x) as [d|]; [|done]. destruct (dev x) as [p|]; [|done].
  apply same_bind; [by apply emit_handled|intros ?].
  apply same_bind; [apply in_world_handled|intros r].
  apply same_bind; [by apply change_handled|intros ?].
  apply same_mfor. intros r'. apply changed_handled.
Qed.

Lemma close_handled inv t : kept inv (slot_close atan2 t).
Proof.
  unfold slot_close. apply same_bind; [done|intros x].
  destruct (drv x) as [d|]; [|done]. destruct (dev x) as [p|]; [|done].
  apply same_bind; [by apply emit_handled|intros ?].
  apply same_bind; [apply in_world_handled|intros l].
  apply same_mfor. intros r'. apply changed_handled.
Qed.

Lemma release_handled inv sender t : kept inv (client_release atan2 sender t).
Proof.
  unfold client_release. apply same_bind; [done|intros x].
  destruct (clients x !! sender) as [[|id_|id_]|]; try done.
  all: apply same_bind; [by apply change_handled|intros ?];
    apply same_bind; [by apply emit_handled|intros ?];
    apply same_bind; [done|intros s]; apply same_if; [apply polling_handled|done].
Qed.

Lemma vanished_handled inv name : kept inv (client_vanished_cb atan2 name).
Proof.
  destruct name as [sender|]; [|done]. unfold client_vanished_cb. apply same_mfor. intros t.
  apply same_bind; [done|intros x]. destruct (clients x !! sender); [|done].
  apply same_if; [apply release_handled|done].
Qed.

Lemma reply_adds inv i (s : S) :
  handled inv (post (emit (OReply i)) s) = handled inv s + (if inv =? i then 1 else 0).
Proof. unfold handled, post, emit, modify, pending. simpl. lia. Qed.

Lemma error_adds inv i n (s : S) :
  handled inv (post (emit (OError i n)) s) = handled inv s + (if inv =? i then 1 else 0).
Proof. unfold handled, post, emit, modify, pending. simpl. lia. Qed.

Lemma wait_adds inv i t (s : S) :
  handled inv (post (change t (set_delayed (invocations_delayed (slots s t) ++ [i]))) s) =
  handled inv s + (if inv =? i then 1 else 0).
Proof.
  unfold post, change, modify. cbn [snd]. rewrite handled_set_slot. simpl invocations_delayed.
  rewrite cnt_app, cnt_cons. unfold cnt at 3. simpl. lia.
Qed.

Lemma generic_adds inv sender claim i t (s : S) :
  handled inv (post (handle_generic_method_call g_bus_watch_name atan2 sender claim i t) s) =
  handled inv s + (if inv =? i then 1 else 0).
Proof.
  unfold handle_generic_method_call.
  apply (wp_post _ (fun u => handled inv u = _)). destruct claim.
  - apply wp_bind, wp_gets. cbv beta. destruct (match _ with Some _ => _ | None => _ end);
      [apply reply_adds|].
    apply wp_bind, wp_gets. cbv zeta. apply wp_bind. unfold wp at 1. apply wp_bind, wp_modify.
    set (s1 := set_slot t _ _). assert (handled inv s1 = handled inv s) as E1.
    { unfold s1. rewrite handled_set_slot. unfold handled, pending. simpl. lia. }
    rewrite <- E1. clearbody s1. apply wp_bind, wp_gets. cbv zeta. unfold id.
    apply wp_if; intros _; [|apply reply_adds]. apply wp_if; intros _.
    + apply wp_bind. unfold wp at 1. cbv beta. unfold wp. rewrite <- wait_adds with (t := t).
      apply (polling_handled inv t true).
    + apply wp_if; intros _; [apply wait_adds|apply reply_adds].
  - apply wp_bind. unfold wp at 1. cbv beta.
    rewrite <- (release_handled inv sender t s). apply reply_adds.
Qed.

Lemma guarded_adds inv sender m i (s : S) :
  handled inv (post (guarded_call g_bus_watch_name is_authorized atan2 sender m i) s) =
  handled inv s + (if inv =? i then 1 else 0).
Proof.
  unfold guarded_call. destruct m as [[t claim]|]; [|apply error_adds].
  apply (wp_post _ (fun u => handled inv u = _)). apply wp_bind. unfold wp at 1.
  apply wp_if; intros _; [apply error_adds|apply generic_adds].
Qed.

Lemma remove_handled inv device t : kept inv (remove_sensor atan2 device t).
Proof.
  unfold remove_sensor. apply same_bind; [done|intros x].
  destruct (udev_dev x) as [d|]; [|done]. apply same_if; [|done].
  apply same_bind; [apply close_handled|intros ?].
  intros s. apply (wp_post _ (fun u => handled inv u = handled inv s)).
  apply wp_bind, wp_gets, wp_bind, wp_modify, wp_bind. unfold wp at 1. cbv beta.
  set (y := slots s t). set (s1 := set_slot t _ s). set (s2 := post _ s1).
  assert (handled inv s2 = handled inv s1) as E2.
  { unfold s2. apply same_mfor. intros [c w]. apply same_if; [done|by apply emit_handled]. }
  apply wp_bind. unfold wp at 1. cbv beta. set (s3 := post _ s2).
  assert (handled inv s3 = handled inv s) as E3.
  { unfold s3. rewrite (replies_handled inv (fun i => OError i "Failed")) by done.
    rewrite E2. unfold s1. rewrite handled_set_slot. fold y. simpl. unfold cnt at 2. simpl. lia. }
  rewrite <- E3. apply (event_handled inv).
Qed.

Lemma add_handled inv d device : kept inv (add_sensor atan2 d device).
Proof.
  unfold add_sensor. apply same_bind; [apply in_world_handled|intros [p|]; [|done]].
  apply same_bind; [by apply emit_handled|intros ?].
  apply same_bind; [by apply change_handled|intros ?].
  apply same_bind; [done|intros x]. apply same_if.
  - apply same_bind; [apply event_handled|intros ?]. apply same_bind; [done|intros u].
    apply same_if; [done|apply polling_handled].
  - apply same_bind; [by apply change_handled|intros ?; apply polling_handled].
Qed.

Lemma hotplug_handled inv l device : kept inv (hotplug atan2 l device).
Proof.
  induction l as [|d l IH]; simpl; [done|]. apply same_bind; [done|intros s].
  apply same_if; [exact IH|]. apply same_bind; [apply in_world_handled|intros ok].
  apply same_if; [apply add_handled|exact IH].
Qed.

Lemma uevent_handled inv action device : kept inv (sensor_changes atan2 drivers action device).
Proof.
  unfold sensor_changes. apply same_if.
  - apply same_bind; [apply same_mfor; intros t; apply remove_handled|intros ?].
    apply same_bind; [done|intros s]. apply same_if; [done|by apply emit_handled].
  - apply same_if; [apply hotplug_handled|done].
Qed.

(** How often an invocation is made in a run. *)
Definition requests (inv : Z) (l : list (@Event Dev)) : Z :=
  foldr (fun e n => match e with
                    | Method _ _ i | CompassMethod _ _ i => (if inv =? i then 1 else 0) + n
                    | _ => n
                    end) 0 l.

#[local] Abbreviation run_ := (run g_bus_watch_name is_authorized atan2 drivers).

Lemma run_handled (inv : Z) (l : list (@Event Dev)) (s : S) :
  handled inv (post (run_ l) s) = handled inv s + requests inv l.
Proof.
  revert s. induction l as [|e l IH]; intros s; [unfold post, run, mfor, ret; simpl; lia|].
  unfold run. cbn [mfor]. rewrite post_bind. cbv beta. fold (run_ l).
  rewrite IH. simpl requests. destruct e as [sender name i|sender name i|name|action device|t r];
    simpl step.
  - unfold handle_method_call. rewrite guarded_adds. lia.
  - unfold handle_compass_method_call. rewrite guarded_adds. lia.
  - by rewrite vanished_handled.
  - by rewrite uevent_handled.
  - f_equal. revert s. apply same_bind; [done|intros s].
    apply same_if; [apply changed_handled|done].
Qed.

(** C5: Over any run (calls, vanishing clients, device events, readings), each
    invocation is answered or waiting in the list of one sensor exactly as
    often as it was made: none is lost and none answered twice. *)
Theorem replied_exactly_once (inv : Z) (l : list (@Event Dev)) (s : S) :
  handled inv (post (run_ l) s) = handled inv s + requests inv l.
Proof. apply run_handled. Qed.

(** ** Polling *)

(** What decides whether a sensor should be polled, and whether it is. *)
Definition view (t : DriverType) (s : S) :=
  (is_some (drv (slots s t)), is_some (dev (slots s t)), is_some (udev_dev (slots s t)),
   clients (slots s t), lazy s, last_polling t (out s)).
#[local] Abbreviation off t m := (same (view t) (m : M S _)).

Lemma emit_off t o : match o with OOpen _ | OSetPolling _ _ => False | _ => True end ->
  off t (emit o).
Proof. intros Ho s. unfold view, post, emit, modify. by destruct o. Qed.

Lemma in_world_off t {A} (m : M W A) : off t (in_world m).
Proof. intros s. unfold post, in_world. by destruct (m (world s)). Qed.

Lemma change_off t t' f :
  (forall x, is_some (drv (f x)) = is_some (drv x) /\ is_some (dev (f x)) = is_some (dev x) /\
             is_some (udev_dev (f x)) = is_some (udev_dev x) /\ clients (f x) = clients x) ->
  off t (change t' f).
Proof.
  intros Hf s. unfold view, post, change, modify. cbn [snd set_slot slots lazy out].
  case_bool_decide as E; [|done]. subst t'. by destruct (Hf (slots s t)) as (-> & -> & -> & ->).
Qed.

Lemma change_other t t' f : t <> t' -> off t (change t' f).
Proof.
  intros Hn s. unfold view, post, change, modify. cbn [snd set_slot slots lazy out].
  by rewrite bool_decide_false.
Qed.

Lemma view_unsignalled t : unsignalled (view t).
Proof. done. Qed.

Lemma event_off t mask : off t (send_dbus_event mask).
Proof. apply event_same, view_unsignalled. Qed.

Lemma notify_off t t' : off t (maybe_notify_sensor_startup_finished t').
Proof.
  unfold maybe_notify_sensor_startup_finished. apply same_bind; [done|intros x].
  apply same_bind; [by apply change_off|intros ?].
  apply same_bind; [apply same_mfor; intros i; by apply emit_off|intros ?].
  apply same_if; [|done]. apply same_bind; [apply event_off|intros ?; by apply change_off].
Qed.

Lemma changed_off t t' r : off t (changed_func atan2 t' r).
Proof. apply changed_same; [apply view_unsignalled|apply notify_off]. Qed.

Lemma polling_other t t' b : t <> t' -> off t (slot_set_polling atan2 t' b).
Proof.
  intros Hn. unfold slot_set_polling. apply same_bind; [done|intros x].
  destruct (drv x) as [d|]; [|done]. destruct (dev x) as [p|]; [|done].
  apply same_bind; [|intros ?; apply same_bind; [apply in_world_off|intros r];
    apply same_bind; [by apply change_other|intros ?; apply same_mfor; intros; apply changed_off]].
  intros s. unfold view, post, emit, modify. simpl. by rewrite bool_decide_false.
Qed.

Lemma close_off t t' : off t (slot_close atan2 t').
Proof.
  unfold slot_close. apply same_bind; [done|intros x].
  destruct (drv x) as [d|]; [|done]. destruct (dev x) as [p|]; [|done].
  apply same_bind; [by apply emit_off|intros ?]. apply same_bind; [apply in_world_off|intros l].
  apply same_mfor. intros r. apply changed_off.
Qed.

(** Switching an open sensor only changes its polling state. *)
Lemma polling_self t b s : is_some (drv (slots s t)) = true -> is_some (dev (slots s t)) = true ->
  view t (post (slot_set_polling atan2 t b) s) =
  (true, true, is_some (udev_dev (slots s t)), clients (slots s t), lazy s, b).
Proof.
  intros H1 H2. unfold slot_set_polling.
  apply (wp_post _ (fun u => view t u = _)). apply wp_bind, wp_gets.
  destruct (drv (slots s t)) as [d|] eqn:Ed; [|done].
  destruct (dev (slots s t)) as [p|] eqn:Ep; [|done].
  apply wp_bind. unfold emit. apply wp_modify.
  set (s1 := SD _ _ _ _ _). apply wp_bind. unfold wp at 1. cbv beta.
  set (r := res _ s1). set (s2 := post _ s1).
  assert (view t s2 = view t s1) as E2 by apply in_world_off.
  apply wp_bind. unfold wp at 1. cbv beta. set (s3 := post _ s2).
  assert (view t s3 = (true, true, is_some (udev_dev (slots s t)), clients (slots s t), lazy s, b))
    as E3.
  { unfold s3, post, change, modify, view in *. cbn [snd set_slot slots lazy out].
    rewrite bool_decide_true by done. simpl. injection E2 as E21 E22 -> -> -> ->.
    rewrite E21. unfold s1. simpl. rewrite Ed. by rewrite bool_decide_true. }
  unfold wp. rewrite <- E3. apply same_mfor. intros r'. apply changed_off.
Qed.

(** A sensor is polled while it has clients, or always without --lazy. *)
Definition polled (t : DriverType) (s : S) : Prop :=
  is_some (drv (slots s t)) = true ->
  is_some (dev (slots s t)) = true /\
  last_polling t (out s) = if lazy s then negb (bool_decide (clients (slots s t) = ∅)) else true.

Lemma off_keeps t {A} (m : M S A) : off t m -> keeps (polled t) m.
Proof. apply same_keeps. intros s u [= E1 E2 _ E3 E4 E5]. unfold polled. by rewrite E1, E2, E3, E4, E5. Qed.

Lemma view_polled t s b c l d e : view t s = (true, d, e, c, l, b) -> d = true ->
  b = (if l then negb (bool_decide (c = ∅)) else true) -> polled t s.
Proof. intros [= E1 E2 _ E3 E4 E5] Hd Hb _. by rewrite E2, E5, E4, E3. Qed.

Lemma release_other t sender t' : t <> t' -> off t (client_release atan2 sender t').
Proof.
  intros Hn. unfold client_release. apply same_bind; [done|intros x].
  destruct (clients x !! sender) as [[|id_|id_]|]; try done.
  all: apply same_bind; [by apply change_other|intros ?];
    apply same_bind; [by apply emit_off|intros ?];
    apply same_bind; [done|intros s]; apply same_if; [by apply polling_other|done].
Qed.

(** After the clients of an open sensor changed, [slot_set_polling] where the
    code calls it restores the correspondence. *)
Lemma settle t (s : S) (q : bool) b :
  is_some (dev (slots s t)) = true ->
  (q = true -> b = if lazy s then negb (bool_decide (clients (slots s t) = ∅)) else true) ->
  (q = false -> last_polling t (out s) =
     if lazy s then negb (bool_decide (clients (slots s t) = ∅)) else true) ->
  polled t (post (if q then slot_set_polling atan2 t b else ret tt) s).
Proof.
  intros Hd Hq Hn. destruct q; [|intros _; split; [done|by apply Hn]].
  destruct (is_some (drv (slots s t))) eqn:E.
  - eapply view_polled; [by apply polling_self|done|by apply Hq].
  - intros Hdrv. unfold slot_set_polling in *. rewrite post_bind in *. cbv beta in *.
    change (res (slot t) s) with (slots s t) in *. change (post (slot t) s) with s in *.
    destruct (drv (slots s t)) eqn:E'; [done|].
    change (is_some (drv (slots s t)) = true) in Hdrv. by rewrite E' in Hdrv.
Qed.

Lemma release_polled t sender t' : keeps (polled t) (client_release atan2 sender t').
Proof.
  destruct (decide (t = t')) as [<-|Hn]; [|by apply off_keeps, release_other].
  intros s Hs. unfold client_release. rewrite post_bind. cbv beta.
  change (res (slot t) s) with (slots s t). change (post (slot t) s) with s.
  set (c := clients (slots s t)). assert (forall w, 0 <> w -> c !! sender = Some w ->
    polled t (post (change t (set_clients (delete sender c)) ;;; emit (OUnwatch w) ;;;
      u <- gets id ;;
      if lazy u && driver_type_exists u t && bool_decide (clients (slots u t) = ∅)
      then slot_set_polling atan2 t false else ret tt) s)) as Hmain.
  2:{ destruct (c !! sender) as [[|w|w]|] eqn:El; [done|by apply Hmain|by apply Hmain|done]. }
  intros w Hw Hl. rewrite !post_bind. cbv beta. set (s1 := post (emit _) _).
  change (res (gets id) s1) with s1. change (post (gets id) s1) with s1.
  assert (slots s1 t = set_clients (delete sender c) (slots s t)) as E1
    by (unfold s1, post, emit, change, modify; simpl; by rewrite bool_decide_true).
  unfold driver_type_exists. rewrite E1. cbn [drv clients set_clients].
  destruct (drv (slots s t)) as [d|] eqn:Ed.
  2:{ rewrite andb_false_r. cbv iota. intros Hdrv.
      change (is_some (drv (slots s1 t)) = true) in Hdrv. rewrite E1 in Hdrv. simpl in Hdrv. by rewrite Ed in Hdrv. }
  destruct Hs as [Hd Hlp]; [by rewrite Ed|]. fold c in Hlp. rewrite andb_true_r.
  apply settle; rewrite ?E1; cbn [dev clients set_clients].
  - exact Hd.
  - intros Hq. apply andb_true_iff in Hq as [Hlz He].
    change (lazy s1) with (lazy s). change (lazy s1) with (lazy s) in Hlz. by rewrite Hlz, He.
  - change (lazy s1) with (lazy s). change (out s1) with (OUnwatch w :: out s). simpl. rewrite Hlp.
    destruct (lazy s); [|done]. simpl. intros ->.
    rewrite bool_decide_false; [done|]. intros Hc. by rewrite Hc, lookup_empty in Hl.
Qed.

Lemma generic_other t sender claim i t' : t <> t' ->
  off t (handle_generic_method_call g_bus_watch_name atan2 sender claim i t').
Proof.
  intros Hn. unfold handle_generic_method_call. apply same_if.
  - apply same_bind; [done|intros x]. apply same_if; [by apply emit_off|].
    apply same_bind; [done|intros h]. cbv zeta. apply same_bind; [by apply emit_off|intros ?].
    apply same_bind; [by apply change_other|intros ?]. apply same_bind; [done|intros s].
    apply same_if; [|by apply emit_off]. apply same_if.
    + apply same_bind; [by apply change_off|intros ?; by apply polling_other].
    + apply same_if; [by apply change_off|by apply emit_off].
  - apply same_bind; [by apply release_other|intros ?; by apply emit_off].
Qed.

Lemma generic_polled t sender claim i t' :
  keeps (polled t) (handle_generic_method_call g_bus_watch_name atan2 sender claim i t').
Proof.
  destruct (decide (t = t')) as [<-|Hn]; [|by apply off_keeps, generic_other].
  unfold handle_generic_method_call. destruct claim.
  2:{ apply keeps_bind; [apply release_polled|intros ?; by apply off_keeps, emit_off]. }
  intros s Hs. rewrite post_bind. cbv beta zeta.
  change (res (slot t) s) with (slots s t). change (post (slot t) s) with s.
  set (c := clients (slots s t)).
  destruct (match c !! sender with Some _ => _ | None => _ end);
    [by apply (off_keeps t (emit (OReply i))); [apply emit_off|]|].
  rewrite !post_bind. cbv beta. change (res (gets out) s) with (out s).
  change (post (gets out) s) with s. set (id_ := g_bus_watch_name (out s) sender).
  set (s1 := post (change t _) _). change (res (gets id) s1) with s1.
  change (post (gets id) s1) with s1.
  assert (slots s1 t = set_clients (<[sender:=id_]> c) (slots s t)) as E1
    by (unfold s1, post, emit, change, modify; simpl; by rewrite bool_decide_true).
  assert (lazy s1 = lazy s /\ last_polling t (out s1) = last_polling t (out s)) as [El Eo] by done.
  clearbody s1. unfold driver_type_exists. rewrite E1. cbn [drv clients set_clients].
  assert (<[sender:=id_]> c <> ∅) as Hne by apply insert_non_empty.
  destruct (drv (slots s t)) as [d|] eqn:Ed.
  2:{ apply (off_keeps t (emit (OReply i))); [by apply emit_off|].
      intros Hdrv. rewrite E1 in Hdrv. simpl in Hdrv. by rewrite Ed in Hdrv. }
  destruct Hs as [Hd Hlp]; [by rewrite Ed|]. fold c in Hlp.
  cbv iota. destruct (bool_decide_reflect (size (<[sender:=id_]> c) = 1%nat)) as [Hsz|Hsz].
  - rewrite post_bind. cbv beta. set (s2 := post (change t _) s1).
    assert (view t s2 = view t s1) as E2 by (by apply change_off).
    unfold view in E2.
    assert (is_some (dev (slots s2 t)) = is_some (dev (slots s1 t))) as E22 by congruence.
    assert (clients (slots s2 t) = clients (slots s1 t)) as E23 by congruence.
    assert (lazy s2 = lazy s1) as E24 by congruence. clearbody s2.
    apply (settle t s2 true true).
    + rewrite E22, E1. exact Hd.
    + intros _. rewrite E23, E24, E1. simpl. destruct (lazy s1); [|done].
      by rewrite bool_decide_false.
    + done.
  - assert (polled t s1) as Hp1.
    { intros _. rewrite E1. split; [exact Hd|]. cbn [clients set_clients]. rewrite El, Eo, Hlp.
      destruct (lazy s); [|done]. rewrite !bool_decide_false; [done|done|].
      intros Hc. apply Hsz. rewrite Hc, insert_empty. apply map_size_singleton. }
    revert Hp1. apply (off_keeps t). apply same_if; [by apply change_off|by apply emit_off].
Qed.

Lemma guarded_polled t sender m i :
  keeps (polled t) (guarded_call g_bus_watch_name is_authorized atan2 sender m i).
Proof.
  unfold guarded_call. destruct m as [[t' claim]|]; [|by apply off_keeps, emit_off].
  apply keeps_bind; [apply keeps_gets|intros ok].
  destruct (negb ok); [by apply off_keeps, emit_off|apply generic_polled].
Qed.

Lemma vanished_polled t name : keeps (polled t) (client_vanished_cb atan2 name).
Proof.
  destruct name as [sender|]; [|apply keeps_ret]. unfold client_vanished_cb.
  apply keeps_mfor. intros t' _. apply keeps_bind; [apply keeps_gets|intros x].
  destruct (clients x !! sender); [|apply keeps_ret].
  destruct (0 <? _); [apply release_polled|apply keeps_ret].
Qed.

Lemma remove_polled t device t' : keeps (polled t) (remove_sensor atan2 device t').
Proof.
  unfold remove_sensor. apply keeps_bind; [apply keeps_gets|intros x].
  destruct (udev_dev x) as [d|]; [|apply keeps_ret]. case_bool_decide; [|apply keeps_ret].
  apply keeps_bind; [apply off_keeps, close_off|intros ?].
  apply keeps_bind; [apply keeps_gets|intros y]. apply keeps_bind.
  { intros s Hs. unfold post, change, modify, polled in *. cbn [snd set_slot slots lazy out].
    destruct (bool_decide_reflect (t = t')); [done|exact Hs]. }
  intros ?. apply off_keeps. apply same_bind.
  { apply same_mfor. intros [c w]. apply same_if; [done|by apply emit_off]. }
  intros ?. apply same_bind; [apply same_mfor; intros i; by apply emit_off|intros ?].
  apply event_off.
Qed.

(** The end of a start-up: polled unless lazy and unclaimed. *)
Lemma start_polled t (s : S) :
  is_some (dev (slots s t)) = true -> last_polling t (out s) = false ->
  clients (slots s t) = ∅ ->
  polled t (post (if lazy s then ret tt else slot_set_polling atan2 t true) s).
Proof.
  intros Hd Hl Hc. destruct (lazy s) eqn:El.
  - apply (settle t s false true); [done|done|]. intros _. by rewrite El, Hl, Hc.
  - apply (settle t s true true); [done| |done]. intros _. by rewrite El.
Qed.

Lemma add_other t d device : t <> drv_type d -> off t (add_sensor atan2 d device).
Proof.
  intros Hn. unfold add_sensor. apply same_bind; [apply in_world_off|intros [p|]; [|done]].
  apply same_bind; [|intros ?].
  { intros s. unfold view, post, emit, modify. simpl. by rewrite bool_decide_false. }
  apply same_bind; [by apply change_other|intros ?]. apply same_bind; [done|intros x].
  apply same_if.
  - apply same_bind; [apply event_off|intros ?]. apply same_bind; [done|intros u].
    apply same_if; [done|by apply polling_other].
  - apply same_bind; [by apply change_off|intros ?; by apply polling_other].
Qed.

Lemma add_polled t d device : keeps (polled t) (add_sensor atan2 d device).
Proof.
  destruct (decide (t = drv_type d)) as [->|Hn]; [|by apply off_keeps, add_other].
  intros s Hs. unfold add_sensor. set (t := drv_type d) in *. rewrite post_bind. cbv beta.
  destruct (res _ s) as [p|]; [|by apply (off_keeps t (in_world (driver_open d device)));
    [apply in_world_off|]].
  rewrite !post_bind. cbv beta. set (s1 := post (change t _) _).
  change (res (slot t) s1) with (slots s1 t). change (post (slot t) s1) with s1.
  assert (is_some (dev (slots s1 t)) = true /\ last_polling t (out s1) = false) as [Hd Hl].
  { unfold s1, post, change, modify. simpl. by rewrite !bool_decide_true. }
  clearbody s1. destruct (bool_decide_reflect (clients (slots s1 t) = ∅)) as [He|He].
  - rewrite !post_bind. cbv beta. set (s2 := post (send_driver_changed_dbus_event t) s1).
    assert (view t s2 = view t s1) as E2 by apply event_off. unfold view in E2.
    change (res (gets id) s2) with s2. change (post (gets id) s2) with s2.
    clearbody s2. apply start_polled; congruence.
  - rewrite post_bind. cbv beta. set (s2 := post (change t (set_event true)) s1).
    assert (view t s2 = view t s1) as E2 by (by apply change_off). unfold view in E2.
    assert (clients (slots s2 t) = clients (slots s1 t)) as E3 by congruence.
    apply (settle t s2 true true); [congruence| |done]. intros _. destruct (lazy s2); [|done].
    rewrite E3. by rewrite bool_decide_false.
Qed.

Lemma hotplug_polled t l device : keeps (polled t) (hotplug atan2 l device).
Proof.
  induction l as [|d l IH]; simpl; [apply keeps_ret|].
  apply keeps_bind; [apply keeps_gets|intros s]. destruct (driver_type_exists _ _); [exact IH|].
  apply keeps_bind; [apply off_keeps, in_world_off|intros ok].
  destruct ok; [apply add_polled|exact IH].
Qed.

Lemma step_polled t e : keeps (polled t) (step g_bus_watch_name is_authorized atan2 drivers e).
Proof.
  destruct e as [sender name i|sender name i|name|action device|t' r]; simpl.
  - apply guarded_polled.
  - apply guarded_polled.
  - apply vanished_polled.
  - unfold sensor_changes. destruct (String.eqb _ _).
    + apply keeps_bind; [apply keeps_mfor; intros t' _; apply remove_polled|intros ?].
      apply keeps_bind; [apply keeps_gets|intros s].
      destruct (any_sensors_left s); [apply keeps_ret|by apply off_keeps, emit_off].
    + destruct (String.eqb _ _); [apply hotplug_polled|apply keeps_ret].
  - apply keeps_bind; [apply keeps_gets|intros s].
    destruct (driver_type_exists _ _); [apply off_keeps, changed_off|apply keeps_ret].
Qed.

(** *** Start-up *)

Definition idle_view (t : DriverType) (s : S) := (clients (slots s t), last_polling t (out s)).

Lemma match_idle t device : same (idle_view t) (match_device drivers device).
Proof.
  unfold match_device. generalize false as found. induction drivers as [|d l IH]; intros found; [done|].
  simpl. apply same_bind; [done|intros s]. apply same_if; [apply IH|].
  apply same_bind; [intros u; unfold post, in_world; by destruct (driver_discover _ _ _)|intros ok].
  apply same_if; [|apply IH]. apply same_bind; [|intros ?; apply IH].
  intros u. unfold idle_view, post, change, modify. cbn [snd set_slot slots out].
  case_bool_decide as E; [|done]. by subst t.
Qed.

Lemma find_idle t devices found : same (idle_view t) (find_sensors drivers devices found).
Proof.
  revert found. induction devices as [|device devices IH]; intros found; [done|]. simpl.
  apply same_bind; [apply match_idle|intros f]. apply same_bind; [done|intros s].
  apply same_if; [done|apply IH].
Qed.

Lemma start_other t t' : t <> t' -> off t (start_sensor atan2 t').
Proof.
  intros Hn. unfold start_sensor. apply same_bind; [by apply change_other|intros ?].
  apply same_bind; [done|intros x]. destruct (drv x) as [d|]; [|done].
  destruct (udev_dev x) as [device|]; [|done].
  apply same_bind; [apply in_world_off|intros [p|]; [|by apply change_other]].
  apply same_bind; [|intros ?].
  { intros s. unfold view, post, emit, modify. simpl. by rewrite bool_decide_false. }
  apply same_bind; [by apply change_other|intros ?]. apply same_bind; [done|intros s].
  apply same_if; [done|by apply polling_other].
Qed.

(** Installed together. *)
Definition paired (t : DriverType) (s : S) : Prop :=
  is_some (drv (slots s t)) = is_some (udev_dev (slots s t)).

Lemma match_paired t device : keeps (paired t) (match_device drivers device).
Proof.
  unfold match_device. generalize false as found. induction drivers as [|d l IH]; intros found;
    [apply keeps_ret|].
  simpl. apply keeps_bind; [apply keeps_gets|intros s]. destruct (driver_type_exists _ _); [apply IH|].
  apply keeps_bind; [intros u Hu; unfold post, in_world; by destruct (driver_discover _ _ _)|intros ok].
  destruct ok; [|apply IH]. apply keeps_bind; [|intros ?; apply IH].
  intros u Hu. unfold paired, post, change, modify in *. cbn [snd set_slot slots out].
  by destruct (bool_decide_reflect (t = drv_type d)).
Qed.

Lemma find_paired t devices found : keeps (paired t) (find_sensors drivers devices found).
Proof.
  revert found. induction devices as [|device devices IH]; intros found; [apply keeps_ret|]. simpl.
  apply keeps_bind; [apply match_paired|intros f]. apply keeps_bind; [apply keeps_gets|intros s].
  destruct (all_found s); [apply keeps_ret|apply IH].
Qed.

Lemma start_self t (s : S) :
  clients (slots s t) = ∅ -> paired t s -> polled t (post (start_sensor atan2 t) s).
Proof.
  intros Hc Hp. unfold start_sensor. rewrite post_bind. cbv beta. set (s1 := post (change t _) s).
  rewrite post_bind. cbv beta. change (res (slot t) s1) with (slots s1 t).
  change (post (slot t) s1) with s1.
  assert (slots s1 t = set_delayed [] (slots s t)) as E1
    by (unfold s1, post, change, modify; simpl; by rewrite bool_decide_true).
  rewrite E1. cbn [drv udev_dev set_delayed]. unfold paired in Hp.
  destruct (drv (slots s t)) as [d|] eqn:Ed.
  2:{ intros Hd. change (is_some (drv (slots s1 t)) = true) in Hd. rewrite E1 in Hd. simpl in Hd.
      by rewrite Ed in Hd. }
  destruct (udev_dev (slots s t)) as [device|]; [|done].
  rewrite post_bind. cbv beta. set (s2 := post (in_world _) s1).
  assert (slots s2 t = slots s1 t) as E2.
  { unfold s2, post, in_world. by destruct (driver_open _ _ _). }
  clearbody s2. destruct (res _ s1) as [p|].
  - rewrite !post_bind. cbv beta. set (s3 := post (change t _) _).
    change (res (gets id) s3) with s3. change (post (gets id) s3) with s3.
    assert (is_some (dev (slots s3 t)) = true /\ last_polling t (out s3) = false /\
            clients (slots s3 t) = ∅) as (Hd & Hl & Hc3).
    { unfold s3, post, change, modify. simpl. rewrite !bool_decide_true by done. simpl.
      by rewrite E2, E1. }
    clearbody s3. by apply start_polled.
  - unfold post, change, modify, polled. cbn [snd set_slot slots]. by rewrite bool_decide_true.
Qed.

Lemma start_all_polled t l (s : S) :
  NoDup l -> t ∈ l -> clients (slots s t) = ∅ -> paired t s ->
  polled t (post (mfor l (start_sensor atan2)) s).
Proof.
  intros Hl. revert s. induction Hl as [|t' l Hnin Hl IH]; intros s Hin Hc Hp; [by apply elem_of_nil in Hin|].
  cbn [mfor]. rewrite post_bind. cbv beta. destruct (decide (t = t')) as [<-|Hn].
  - assert (forall l' u, t ∉ l' -> polled t u -> polled t (post (mfor l' (start_sensor atan2)) u))
      as Hrest; [|by apply Hrest, start_self].
    intros l' u Hn Hu. apply (keeps_mfor (polled t)); [|exact Hu]. intros t' Hin'.
    apply off_keeps, start_other. intros ->. done.
  - pose proof (start_other t t' Hn s) as E. unfold view in E.
    apply elem_of_cons in Hin as [|Hin]; [done|]. apply IH; [exact Hin|congruence|].
    unfold paired in *. congruence.
Qed.

(** Nothing found, nothing installed. *)
Lemma match_none l device found (s : S) :
  wp (match_drivers l device found) (fun r u => r = false -> found = false /\
    forall t, drv (slots u t) = drv (slots s t)) s.
Proof.
  revert found s. induction l as [|d l IH]; intros found s; simpl; [by apply wp_ret|].
  apply wp_bind, wp_gets. apply wp_if; intros _; [apply IH|].
  apply wp_bind. unfold wp at 1. cbv beta. set (s1 := post (in_world _) s).
  assert (forall t, drv (slots s1 t) = drv (slots s t)) as E1.
  { intros t. unfold s1, post, in_world. by destruct (driver_discover _ _ _). }
  clearbody s1. apply wp_if; intros _.
  - apply wp_bind. unfold wp at 1. cbv beta. eapply wp_conseq; [|apply IH].
    intros r u Hr Hf. by destruct (Hr Hf).
  - eapply wp_conseq; [|apply IH]. intros r u Hr Hf. destruct (Hr Hf) as [? Hd].
    split; [done|]. intros t. by rewrite Hd, E1.
Qed.

Lemma find_none devices found (s : S) :
  wp (find_sensors drivers devices found) (fun r u => r = false -> found = false /\
    forall t, drv (slots u t) = drv (slots s t)) s.
Proof.
  revert found s. induction devices as [|device devices IH]; intros found s; simpl; [by apply wp_ret|].
  eapply wp_seq; [apply match_none|]. intros f u Hf. apply wp_bind, wp_gets.
  apply wp_if; intros _.
  - apply wp_ret. intros [-> E]%orb_false_iff. by apply Hf in E as [_ ?].
  - eapply wp_conseq; [|apply IH]. intros r v Hr Hr0.
    destruct (Hr Hr0) as [[-> E]%orb_false_iff Hd]. apply Hf in E as [_ Hu].
    split; [done|]. intros t. by rewrite Hd, Hu.
Qed.

Lemma started_polled (w : W) (lz : bool) (devices : list Dev) (t : DriverType) :
  polled t (post (name_acquired_handler atan2 drivers devices) (start w lz)).
Proof.
  unfold name_acquired_handler. rewrite post_bind. cbv beta.
  set (s0 := start w lz). pose proof (find_none devices false s0) as Hno.
  unfold wp in Hno. set (s1 := post (find_sensors drivers devices false) s0) in *.
  assert (clients (slots s1 t) = ∅) as Hc.
  { pose proof (find_idle t devices false s0) as E. unfold idle_view in E.
    fold s1 in E. simpl in E. congruence. }
  assert (paired t s1) as Hp by (by apply find_paired).
  destruct (res _ s0); simpl negb; cbv iota.
  - rewrite post_bind. cbv beta. set (s2 := post (mfor all_types _) s1).
    assert (polled t s2) as H2.
    { apply start_all_polled; [|by destruct t; set_solver|done|done].
      unfold all_types. repeat constructor; set_solver. }
    clearbody s2. revert s2 H2. apply keeps_bind; [apply keeps_gets|intros s2].
    destruct (negb _); [by apply off_keeps, emit_off|].
    apply keeps_bind; [apply off_keeps, event_off|intros ?; apply off_keeps, event_off].
  - apply (off_keeps t (emit OQuit)); [by apply emit_off|]. intros Hd.
    destruct (Hno eq_refl) as [_ E]. rewrite E in Hd. done.
Qed.

Lemma run_polled t l :
  keeps (polled t) (run g_bus_watch_name is_authorized atan2 drivers l).
Proof. apply (keeps_mfor (polled t)). intros e _. apply step_polled. Qed.

(** C4: From the start of the service on, in every reachable state, a sensor with
    a driver is polled exactly while a client claims it, or always when the
    service does not run with --lazy. *)
Theorem polling_follows_clients (w : W) (lz : bool) (devices : list Dev) (l : list (@Event Dev))
    (t : DriverType) :
  let s := post (name_acquired_handler atan2 drivers devices ;;;
                 run g_bus_watch_name is_authorized atan2 drivers l) (start w lz) in
  driver_type_exists s t = true ->
  last_polling t (out s) = if lazy s then negb (bool_decide (clients (slots s t) = ∅)) else true.
Proof.
  intros s He. assert (polled t s) as Hp.
  { unfold s. rewrite post_bind. apply run_polled, started_polled. }
  apply Hp. unfold driver_type_exists in He. by destruct (drv (slots s t)).
Qed.

(** ** Permission *)

(** A caller polkit does not authorize changes nothing and gets one error. *)
Theorem unauthorized_call_refused (sender name : string) (inv : Z) (s : S) :
  is_authorized (out s) sender = false ->
  (exists e, post (handle_method_call g_bus_watch_name is_authorized atan2 sender name inv) s =
             post (emit (OError inv e)) s) /\
  (exists e, post (handle_compass_method_call g_bus_watch_name is_authorized atan2 sender name inv) s =
             post (emit (OError inv e)) s).
Proof.
  intros Ha. assert (forall m, exists e,
    post (guarded_call g_bus_watch_name is_authorized atan2 sender m inv) s =
    post (emit (OError inv e)) s) as H; [|by split; apply H].
  intros [[t claim]|]; [|by eexists]. exists "AccessDenied"%string. unfold guarded_call.
  rewrite post_bind. unfold check_claim_permission. change (res _ s) with (is_authorized (out s) sender).
  by rewrite Ha.
Qed.

(** ** Signals *)

Definition claims (s : S) (c : string) (t : DriverType) : bool :=
  bool_decide (c ∈ dom (clients (slots s t))).

(** The part of [mask] the sensors of [l] that [c] claimed cover. *)
Definition covered (mask : Z) (s : S) (c : string) (l : list DriverType) : Z :=
  foldl (fun m t => if claims s c t then Z.lor m (Z.land mask (mask_for_sensor_type t)) else m) 0 l.

Lemma add_masks_lookup mask (s : S) ht t c :
  add_masks mask s ht t !! c =
  if claims s c t then Some (Z.lor (default 0 (ht !! c)) (Z.land mask (mask_for_sensor_type t)))
  else ht !! c.
Proof.
  unfold add_masks, claims.
  assert (forall l, NoDup l ->
    foldr (fun d h => <[d := Z.lor (default 0 (h !! d)) (Z.land mask (mask_for_sensor_type t))]> h) ht l !! c =
    if bool_decide (c ∈ l)
    then Some (Z.lor (default 0 (ht !! c)) (Z.land mask (mask_for_sensor_type t))) else ht !! c) as Hl.
  { induction 1 as [|d l Hd Hnd IH]; [done|]. simpl. destruct (decide (c = d)) as [<-|Hne].
    - rewrite lookup_insert_eq, IH, bool_decide_false by done.
      rewrite bool_decide_true by set_solver. done.
    - rewrite lookup_insert_ne by done. rewrite IH. by rewrite (bool_decide_ext (c ∈ l) (c ∈ d :: l)) by set_solver. }
  rewrite Hl by apply NoDup_elements.
  by rewrite (bool_decide_ext (c ∈ elements _) (c ∈ dom (clients (slots s t)))) by apply elem_of_elements.
Qed.

Lemma client_masks_lookup mask (s : S) c :
  client_masks mask s !! c =
  if existsb (claims s c) all_types then Some (covered mask s c all_types) else None.
Proof.
  unfold client_masks, covered, all_types. cbn [foldl existsb]. rewrite !add_masks_lookup.
  rewrite lookup_empty. by destruct (claims s c DRIVER_TYPE_ACCEL), (claims s c DRIVER_TYPE_LIGHT),
    (claims s c DRIVER_TYPE_COMPASS), (claims s c DRIVER_TYPE_PROXIMITY).
Qed.

(** What an orientation event holds for a client with this mask. *)
Definition orientation_signal (p : Previous) (m : Z) : bool * list (string * Value) :=
  if m =? 0 then (true, [])
  else (false, [("AccelerometerOrientation"%string,
                 VString (orientation_to_string (previous_orientation p)))]).

Lemma send_orientation dest m (s : S) : m = 0 \/ m = PROP_ACCELEROMETER_ORIENTATION ->
  let s' := post (send_dbus_event_for_client dest m) s in
  prev s' = prev s /\
  out s' = OSignal dest (fst (orientation_signal (prev s) m)) (snd (orientation_signal (prev s) m)) :: out s.
Proof. intros [-> | ->]; split; reflexivity. Qed.

Lemma sends_orientation l (s : S) c :
  NoDup l.*1 -> (forall d m, (d, m) ∈ l -> m = 0 \/ m = PROP_ACCELEROMETER_ORIENTATION) ->
  let s' := post (mfor l (fun '(c, m) => send_dbus_event_for_client c m)) s in
  signals_to c (out s') =
    match (list_to_map l : gmap string Z) !! c with
    | Some m => orientation_signal (prev s) m :: signals_to c (out s)
    | None => signals_to c (out s)
    end.
Proof.
  revert s. induction l as [|[d m] l IH]; intros s Hnd Hm; [done|].
  cbn [mfor]. rewrite post_bind. cbv beta iota.
  destruct (send_orientation d m s) as [Ep Eo]; [apply (Hm d); set_solver|].
  set (s1 := post _ s) in *. clearbody s1. simpl in Hnd. apply NoDup_cons in Hnd as [Hd Hnd].
  rewrite IH; [|done|intros d' m' Hin; apply (Hm d'); set_solver]. rewrite Ep, Eo. cbn [signals_to list_to_map foldr].
  simpl. destruct (String.eqb_spec c d) as [->|Hne].
  - rewrite lookup_insert_eq. rewrite (not_elem_of_list_to_map_1 _ _ Hd).
    by destruct (orientation_signal (prev s) m).
  - by rewrite lookup_insert_ne by done.
Qed.

(** When the orientation changes, every client of the accelerometer is sent
    exactly one signal, with the new orientation; every client of another
    sensor is sent one empty signal, on the compass object. *)
Theorem orientation_event (c : string) (s : S) :
  signals_to c (out (post (send_dbus_event PROP_ACCELEROMETER_ORIENTATION) s)) =
  (if claims s c DRIVER_TYPE_ACCEL
   then [(false, [("AccelerometerOrientation"%string,
                   VString (orientation_to_string (previous_orientation (prev s))))])]
   else if existsb (claims s c) all_types then [(true, [])] else []) ++
  signals_to c (out s).
Proof.
  unfold send_dbus_event. rewrite post_bind. cbv beta.
  change (res (gets id) s) with s. change (post (gets id) s) with s.
  assert (forall d, covered PROP_ACCELEROMETER_ORIENTATION s d all_types =
    if claims s d DRIVER_TYPE_ACCEL then PROP_ACCELEROMETER_ORIENTATION else 0) as Hcov.
  { intros d. unfold covered, all_types. cbn [foldl]. by destruct (claims s d DRIVER_TYPE_ACCEL),
      (claims s d DRIVER_TYPE_LIGHT), (claims s d DRIVER_TYPE_COMPASS),
      (claims s d DRIVER_TYPE_PROXIMITY). }
  rewrite sends_orientation.
  - rewrite list_to_map_to_list, client_masks_lookup, Hcov. unfold all_types. cbn [existsb].
    by destruct (claims s c DRIVER_TYPE_ACCEL), (claims s c DRIVER_TYPE_LIGHT),
      (claims s c DRIVER_TYPE_COMPASS), (claims s c DRIVER_TYPE_PROXIMITY).
  - apply NoDup_fst_map_to_list.
  - intros d m Hin. apply elem_of_map_to_list in Hin. rewrite client_masks_lookup, Hcov in Hin.
    destruct (existsb _ _); [|done]. injection Hin as <-. destruct (claims s d _); auto.
Qed.

(** ** Claims *)

(** The device hands over a reading of its type while polling is switched on. *)
Definition prompt (d : Drv) (p : Priv) (w : W) : Prop :=
  exists r l, snd (res (driver_set_polling d p true) w) = r :: l /\ reading_of (drv_type d) r = true.

(** Nobody waits for sensor [t]. *)
Definition nobody (t : DriverType) (s : S) : Prop := invocations_delayed (slots s t) = [].

(** The waiting list of a sensor. *)
Definition waiting (t : DriverType) (s : S) : list Z := invocations_delayed (slots s t).

Lemma waiting_unsignalled t : unsignalled (waiting t).
Proof. done. Qed.

Lemma notify_nobody t (s : S) : nobody t (post (maybe_notify_sensor_startup_finished t) s).
Proof.
  unfold maybe_notify_sensor_startup_finished. rewrite post_bind. cbv beta.
  change (res (slot t) s) with (slots s t). change (post (slot t) s) with s.
  rewrite !post_bind. cbv beta. set (s1 := post (change t _) s).
  assert (nobody t s1) as H1.
  { unfold nobody, s1, post, change, modify. simpl. by rewrite bool_decide_true. }
  set (s2 := post (mfor _ _) s1). assert (nobody t s2) as H2.
  { revert H1. apply (keeps_mfor (nobody t)). intros i _ u Hu. exact Hu. }
  clearbody s2. destruct (event_delayed _); [|exact H2]. rewrite post_bind. cbv beta.
  set (s3 := post _ s2). assert (nobody t s3) as H3.
  { change (waiting t s3 = []). unfold s3, send_driver_changed_dbus_event.
    by rewrite (event_same (waiting t)). }
  unfold nobody, post, change, modify in *. simpl. by rewrite bool_decide_true.
Qed.

Lemma notify_waiting_other t t' : t <> t' ->
  same (waiting t) (maybe_notify_sensor_startup_finished t').
Proof.
  intros Hn. assert (forall f, same (waiting t) (change t' f)) as Hc.
  { intros f s. unfold waiting, post, change, modify. simpl. by rewrite bool_decide_false. }
  unfold maybe_notify_sensor_startup_finished. apply same_bind; [done|intros x].
  apply same_bind; [apply Hc|intros ?]. apply same_bind; [by apply same_mfor|intros ?].
  apply same_if; [|done]. apply same_bind; [apply (event_same (waiting t)), waiting_unsignalled|intros ?; apply Hc].
Qed.

Lemma changed_nobody t r (s : S) : reading_of t r = true -> nobody t (post (changed_func atan2 t r) s).
Proof.
  intros Hr. destruct t, r; try done; simpl;
    unfold accel_changed_func, light_changed_func, compass_changed_func, proximity_changed_func;
    rewrite !post_bind; cbv beta zeta; rewrite ?post_bind; cbv beta zeta;
    rewrite ?post_bind; apply notify_nobody.
Qed.

Lemma changed_keeps_nobody t r : keeps (nobody t) (changed_func atan2 t r).
Proof.
  intros s Hs. destruct (reading_of t r) eqn:Hr; [by apply changed_nobody|].
  by destruct t, r.
Qed.

(** Switching a prompt driver on leaves nobody waiting for its sensor. *)
Lemma polling_nobody d p (s : S) :
  let t := drv_type d in
  drv (slots s t) = Some d -> dev (slots s t) = Some p -> prompt d p (world s) ->
  nobody t (post (slot_set_polling atan2 t true) s) /\
  forall u, u <> t -> waiting u (post (slot_set_polling atan2 t true) s) = waiting u s.
Proof.
  intros t Hd Hp Hprompt. unfold slot_set_polling. rewrite post_bind. cbv beta.
  change (res (slot t) s) with (slots s t). change (post (slot t) s) with s. rewrite Hd, Hp.
  rewrite !post_bind. cbv beta. set (s1 := post (emit _) s).
  assert (snd (res (in_world (Priv := Priv) (Dev := Dev) (driver_set_polling d p true)) s1) =
          snd (res (driver_set_polling d p true) (world s1))) as Er.
  { unfold res, in_world. by destruct (driver_set_polling d p true (world s1)). }
  set (s2 := post (in_world _) s1).
  assert (forall u, waiting u s2 = waiting u s) as E2.
  { intros u. unfold s2, post, in_world. by destruct (driver_set_polling d p true (world s1)). }
  destruct Hprompt as (r & l & El & Hr). change (world s) with (world s1) in El. rewrite Er, El.
  clearbody s2. set (s3 := post (change t _) s2). assert (forall u, waiting u s3 = waiting u s) as E3.
  { intros u. rewrite <- E2. unfold waiting, s3, post, change, modify. simpl.
    case_bool_decide as E; [by subst u|done]. }
  split.
  - cbn [mfor]. rewrite post_bind. cbv beta. apply (keeps_mfor (nobody t));
      [intros; apply changed_keeps_nobody|by apply changed_nobody].
  - intros u Hu. rewrite <- E3. apply same_mfor. intros r'.
    apply changed_same; [apply waiting_unsignalled|by apply notify_waiting_other].
Qed.

Lemma pending_other t (s u : S) i :
  (forall t', t' <> t -> waiting t' u = waiting t' s) -> waiting t u = [] ->
  pending i u = pending i s - cnt i (waiting t s).
Proof.
  unfold waiting. intros Ho Hn. assert (cnt i [] = 0) as E0 by done.
  unfold pending, all_types. cbn [foldr]. destruct t; rewrite Hn, !Ho, E0 by done; lia.
Qed.

(** The first client of a sensor with such a driver is answered within its
    own call, with whoever was waiting before it. *)
Theorem claim_answered_at_once (d : Drv) (p : Priv) (s : S) (sender name : string) (inv : Z) :
  let t := drv_type d in
  let s' := post (handle_method_call g_bus_watch_name is_authorized atan2 sender name inv) s in
  method_of name = Some (t, true) -> is_authorized (out s) sender = true ->
  drv (slots s t) = Some d -> dev (slots s t) = Some p -> prompt d p (world s) ->
  clients (slots s t) = ∅ ->
  invocations_delayed (slots s' t) = [] /\
  forall i, answered i (out s') =
            answered i (out s) + cnt i (invocations_delayed (slots s t)) + (if i =? inv then 1 else 0).
Proof.
  intros t s' Hm Ha Hd Hp Hprompt Hc.
  assert (forall i, handled i s' = handled i s + (if i =? inv then 1 else 0)) as Hh.
  { intros i. unfold s', handle_method_call. apply guarded_adds. }
  assert (nobody t s' /\ forall u, u <> t -> waiting u s' = waiting u s) as [Hn Ho].
  { unfold s', handle_method_call, guarded_call. rewrite Hm, post_bind. cbv beta.
    unfold check_claim_permission. change (res _ s) with (is_authorized (out s) sender).
    change (post (gets (fun s => is_authorized (out s) sender)) s) with s. rewrite Ha. cbv iota.
    unfold handle_generic_method_call. simpl negb. cbv iota. rewrite post_bind. cbv beta.
    change (res (slot t) s) with (slots s t). change (post (slot t) s) with s.
    rewrite Hc, lookup_empty. cbv iota. rewrite !post_bind. cbv beta zeta.
    set (s1 := post (change t (set_clients _)) _).
    change (res (gets id) s1) with s1. change (post (gets id) s1) with s1.
    assert (slots s1 t = set_clients {[sender := g_bus_watch_name (out s) sender]} (slots s t)) as E1
      by (unfold s1, post, emit, change, modify; simpl; by rewrite bool_decide_true).
    assert (forall u, waiting u s1 = waiting u s) as W1.
    { intros u. unfold waiting. destruct (decide (u = t)) as [->|Hu]; [by rewrite E1|].
      unfold s1, post, emit, change, modify. simpl. by rewrite bool_decide_false. }
    assert (world s1 = world s) as V1 by done.
    clearbody s1. unfold driver_type_exists. rewrite E1. cbn [drv clients set_clients].
    rewrite Hd, map_size_singleton. cbv iota. rewrite bool_decide_true by done.
    rewrite post_bind. cbv beta. set (s2 := post (change t _) s1).
    assert (slots s2 t = set_delayed (invocations_delayed (slots s t) ++ [inv]) (slots s1 t)) as E2.
    { unfold s2, post, change, modify. simpl. rewrite bool_decide_true by done. by rewrite E1. }
    destruct (polling_nobody d p s2) as [Hn Ho]; fold t; rewrite ?E2, ?E1; [done|done| |].
    { change (world s2) with (world s1). by rewrite V1. }
    fold t in Hn, Ho. split; [exact Hn|]. intros u Hu. rewrite (Ho u Hu), <- W1.
    unfold waiting, s2, post, change, modify. simpl. by rewrite bool_decide_false. }
  split; [exact Hn|]. intros i. specialize (Hh i).
  pose proof (pending_other t s s' i Ho Hn). unfold handled, waiting in *. lia.
Qed.

(** ** Removal *)

(** Signals leave the slots alone. *)
Lemma event_slots mask (s : S) : slots (post (send_dbus_event mask) s) = slots s.
Proof. by apply (event_same slots). Qed.

Lemma close_waiting_other t t' : t <> t' -> same (waiting t) (slot_close atan2 t').
Proof.
  intros Hn. unfold slot_close. apply same_bind; [done|intros x].
  destruct (drv x) as [d|]; [|done]. destruct (dev x) as [p|]; [|done].
  apply same_bind; [done|intros ?]. apply same_bind; [|intros l].
  { intros s. unfold post, in_world. by destruct (driver_close d p (world s)). }
  apply same_mfor. intros r. apply changed_same; [apply waiting_unsignalled|by apply notify_waiting_other].
Qed.

Lemma remove_slot device d t (s : S) :
  udev_dev (slots s t) = Some d -> sysfs_path device = sysfs_path d ->
  slots (post (remove_sensor atan2 device t) s) t = Sl None None None ∅ [] false /\
  forall u, u <> t -> waiting u (post (remove_sensor atan2 device t) s) = waiting u s.
Proof.
  intros Hu He. unfold remove_sensor. rewrite post_bind. cbv beta.
  change (res (slot t) s) with (slots s t). change (post (slot t) s) with s.
  rewrite Hu, bool_decide_true by done. rewrite !post_bind. cbv beta.
  set (s1 := post (slot_close atan2 t) s).
  assert (forall u, u <> t -> waiting u s1 = waiting u s) as E1
    by (intros u ?; by apply close_waiting_other).
  clearbody s1. set (s2 := post (change t _) _).
  assert (slots s2 t = Sl None None None ∅ [] false /\
          forall u, u <> t -> waiting u s2 = waiting u s1) as [E2 E2'].
  { unfold waiting, s2, post, change, modify. simpl. rewrite bool_decide_true by done.
    split; [done|]. intros u Hn. by rewrite bool_decide_false. }
  clearbody s2. set (s3 := post (mfor _ _) s2). assert (slots s3 = slots s2) as E3.
  { apply (same_mfor slots). intros [c w]. by apply same_if. }
  set (s4 := post (mfor _ _) s3). assert (slots s4 = slots s2) as E4.
  { rewrite <- E3. by apply (same_mfor slots). }
  unfold send_driver_changed_dbus_event. split; [by rewrite event_slots, E4|].
  intros u Hn. rewrite <- E1, <- E2' by done. unfold waiting. by rewrite event_slots, E4.
Qed.

(** When the device of a sensor is removed, the sensor is forgotten with its
    clients, and every call that waited for its first reading is answered. *)
Theorem removal_answers_waiting (device d : Dev) (t : DriverType) (s : S) :
  let s' := post (remove_sensor atan2 device t) s in
  udev_dev (slots s t) = Some d -> sysfs_path device = sysfs_path d ->
  slots s' t = Sl None None None ∅ [] false /\
  forall i, answered i (out s') = answered i (out s) + cnt i (invocations_delayed (slots s t)).
Proof.
  intros s' Hu He. destruct (remove_slot device d t s Hu He) as [Hs Ho]. split; [exact Hs|].
  intros i. pose proof (remove_handled i device t s) as Hh. fold s' in Hs, Ho, Hh.
  assert (waiting t s' = []) as Hw by (unfold waiting; by rewrite Hs).
  pose proof (pending_other t s s' i Ho Hw). unfold handled, waiting in *. lia.
Qed.

(** ** Vanished clients *)

Definition claims_of (t : DriverType) (s : S) : gmap string Z := clients (slots s t).

Lemma polling_claims t t' b : same (claims_of t) (slot_set_polling atan2 t' b).
Proof.
  assert (forall t' f, (forall x, clients (f x) = clients x) -> same (claims_of t) (change t' f)) as Hc.
  { intros u f Hf s. unfold claims_of, post, change, modify. simpl.
    case_bool_decide as E; [by subst u|done]. }
  unfold slot_set_polling. apply same_bind; [done|intros x].
  destruct (drv x) as [d|]; [|done]. destruct (dev x) as [p|]; [|done].
  apply same_bind; [done|intros ?]. apply same_bind; [|intros r].
  { intros s. unfold post, in_world. by destruct (driver_set_polling d p b (world s)). }
  apply same_bind; [by apply Hc|intros ?]. apply same_mfor. intros r'. apply changed_same; [done|].
  unfold maybe_notify_sensor_startup_finished. apply same_bind; [done|intros y].
  apply same_bind; [by apply Hc|intros ?]. apply same_bind; [by apply same_mfor|intros ?].
  apply same_if; [|done]. apply same_bind; [by apply (event_same (claims_of t))|intros ?; by apply Hc].
Qed.

(** Releasing only forgets this client of this sensor. *)
Lemma release_claims sender t t' (s : S) :
  claims_of t' (post (client_release atan2 sender t) s) =
  if bool_decide (t' = t)
  then match claims_of t s !! sender with
       | None | Some 0 => claims_of t s
       | Some _ => delete sender (claims_of t s)
       end
  else claims_of t' s.
Proof.
  unfold client_release. rewrite post_bind. cbv beta.
  change (res (slot t) s) with (slots s t). change (post (slot t) s) with s.
  fold (claims_of t s). destruct (claims_of t s !! sender) as [[|w|w]|] eqn:E.
  1,4: by case_bool_decide as Et; [subst t'|].
  all: rewrite !post_bind; cbv beta; set (s1 := post (emit _) _);
    change (res (gets id) s1) with s1; change (post (gets id) s1) with s1;
    transitivity (claims_of t' s1);
    [by apply same_if; [apply polling_claims|]
    |unfold s1, claims_of, post, emit, change, modify; simpl; by case_bool_decide as Et; [subst t'|]].
Qed.

(** Watch ids are positive. *)
Definition watched (s : S) : Prop := forall t c w, claims_of t s !! c = Some w -> 0 < w.

(** A client that leaves the bus loses every claim; the other clients keep
    theirs. *)
Theorem vanished_client_forgotten (sender : string) (s : S) (t : DriverType) :
  watched s ->
  clients (slots (post (client_vanished_cb atan2 (Some sender)) s) t) =
  delete sender (clients (slots s t)).
Proof.
  intros Hw. change (claims_of t (post (client_vanished_cb atan2 (Some sender)) s) =
                     delete sender (claims_of t s)).
  set (body := fun t0 => x <- slot t0 ;;
        match clients x !! sender with
        | Some id_ => if 0 <? id_ then client_release atan2 sender t0 else ret tt
        | None => ret tt
        end : M S unit).
  assert (forall t0 s0, watched s0 -> forall t', claims_of t' (post (body t0) s0) =
    if bool_decide (t' = t0) then delete sender (claims_of t0 s0) else claims_of t' s0) as Hb.
  { intros t0 s0 Hw0 t'. unfold body. rewrite post_bind. cbv beta.
    change (res (slot t0) s0) with (slots s0 t0). change (post (slot t0) s0) with s0.
    fold (claims_of t0 s0). destruct (claims_of t0 s0 !! sender) as [w|] eqn:E.
    - pose proof (Hw0 t0 sender w E). rewrite (proj2 (Z.ltb_lt 0 w)) by done.
      rewrite release_claims, E. by destruct w.
    - rewrite delete_id by done. by case_bool_decide as Et; [subst t'|]. }
  assert (forall l s0, watched s0 -> forall t', claims_of t' (post (mfor l body) s0) =
    if bool_decide (t' ∈ l) then delete sender (claims_of t' s0) else claims_of t' s0) as Hl.
  { induction l as [|t0 l IH]; intros s0 Hw0 t'; [done|]. cbn [mfor]. rewrite post_bind. cbv beta.
    rewrite IH.
    - rewrite Hb by done. destruct (decide (t' = t0)) as [->|Hn].
      + rewrite (bool_decide_true (t0 = t0)), (bool_decide_true (t0 ∈ t0 :: l)) by set_solver.
        case_bool_decide; [apply delete_delete_eq|done].
      + rewrite (bool_decide_false (t' = t0)) by done.
        by rewrite (bool_decide_ext (t' ∈ l) (t' ∈ t0 :: l)) by set_solver.
    - intros u c w. rewrite Hb by done. case_bool_decide as E; [subst u|apply Hw0].
      intros [_ Hc]%lookup_delete_Some. by apply (Hw0 t0 c). }
  unfold client_vanished_cb. fold body. rewrite Hl by done.
  by rewrite bool_decide_true by (destruct t; set_solver).
Qed.

(** ** Calls that wait *)

(** A driver that hands over nothing while it switches polling. *)
Definition silent (d : Drv) : Prop := forall p b w, snd (res (driver_set_polling d p b) w) = [].

Lemma silent_polling d p b t (s : S) :
  drv (slots s t) = Some d -> dev (slots s t) = Some p -> silent d ->
  exists p', let s' := post (slot_set_polling atan2 t b) s in
    out s' = OSetPolling t b :: out s /\ lazy s' = lazy s /\
    slots s' t = Sl (Some d) (Some p') (udev_dev (slots s t)) (clients (slots s t))
                    (invocations_delayed (slots s t)) (event_delayed (slots s t)).
Proof.
  intros Hd Hp Hs. pose (r := driver_set_polling d p b (world s)). exists (fst (fst r)).
  unfold slot_set_polling. rewrite post_bind. cbv beta. change (post (slot t) s) with s.
  change (res (slot t) s) with (slots s t). rewrite Hd, Hp.
  unfold post, bind, emit, modify, in_world. cbn [snd world slots lazy prev out fst].
  pose proof (Hs p b (world s)) as Hr. unfold res in Hr. fold r. fold r in Hr.
  destruct r as [[p' l] w']. simpl in Hr. subst l. simpl. rewrite !bool_decide_true by done.
  by rewrite Hd.
Qed.

(** With --lazy, a client that claims a sensor and releases it before the
    first reading has its release answered, while its claim stays unanswered
    in the waiting list of a sensor that is no longer polled. *)
Theorem release_leaves_claim_waiting (d : Drv) (p : Priv) (s : S) (sender claim release : string)
    (i j : Z) :
  let t := drv_type d in
  let s' := post (run g_bus_watch_name is_authorized atan2 drivers
                    [Method sender claim i; Method sender release j]) s in
  (forall h c, 0 < g_bus_watch_name h c) -> (forall h, is_authorized h sender = true) ->
  method_of claim = Some (t, true) -> method_of release = Some (t, false) ->
  lazy s = true -> drv (slots s t) = Some d -> dev (slots s t) = Some p -> silent d ->
  clients (slots s t) = ∅ ->
  last_polling t (out s') = false /\ clients (slots s' t) = ∅ /\
  invocations_delayed (slots s' t) = invocations_delayed (slots s t) ++ [i] /\
  forall k, answered k (out s') = answered k (out s) + (if k =? j then 1 else 0).
Proof.
  intros t s' Hid Ha Hm Hr Hlz Hd Hp Hs Hc.
  unfold s', run. cbn [mfor step]. rewrite !post_bind. cbv beta.
  change (post (ret tt) ?x) with x. unfold handle_method_call, guarded_call. rewrite Hm, Hr.
  rewrite !post_bind. unfold check_claim_permission. cbv beta.
  repeat change (res (gets ?f) ?x) with (f x). repeat change (post (gets ?f) ?x) with x. cbv beta. rewrite !Ha.
  cbn [negb]. cbv iota. set (w := g_bus_watch_name (out s) sender).
  assert (exists p', let u := post (handle_generic_method_call g_bus_watch_name atan2 sender true i t) s in
    out u = OSetPolling t true :: OWatch sender w :: out s /\ lazy u = true /\
    slots u t = Sl (Some d) (Some p') (udev_dev (slots s t)) {[sender := w]}
                   (invocations_delayed (slots s t) ++ [i]) (event_delayed (slots s t)))
    as (p1 & Eo & El & Es).
  { unfold handle_generic_method_call. rewrite post_bind. cbv beta.
    change (res (slot t) s) with (slots s t). change (post (slot t) s) with s.
    rewrite Hc, lookup_empty. cbv iota. rewrite !post_bind. cbv beta zeta.
    set (s1 := post (change t (set_clients _)) _).
    change (res (gets id) s1) with s1. change (post (gets id) s1) with s1.
    assert (slots s1 t = set_clients {[sender := w]} (slots s t)) as E1
      by (unfold s1, post, emit, change, modify; simpl; by rewrite bool_decide_true).
    assert (out s1 = OWatch sender w :: out s /\ lazy s1 = true) as [O1 L1] by done. clearbody s1.
    unfold driver_type_exists. rewrite E1. cbn [drv clients set_clients].
    rewrite Hd, map_size_singleton. cbv iota. rewrite bool_decide_true by done.
    rewrite post_bind. cbv beta. set (s2 := post (change t _) s1).
    assert (slots s2 t = set_delayed (invocations_delayed (slots s t) ++ [i]) (slots s1 t)) as E2.
    { unfold s2, post, change, modify. simpl. rewrite bool_decide_true by done. by rewrite E1. }
    destruct (silent_polling d p true t s2) as (p1 & Eo & El & Es);
      [by rewrite E2, E1|by rewrite E2, E1|done|].
    exists p1. split; [rewrite <- O1; exact Eo|]. split; [transitivity (lazy s1); [exact El|exact L1]|]. by rewrite Es, E2, E1. }
  set (u := post (handle_generic_method_call g_bus_watch_name atan2 sender true i t) s) in *.
  clearbody u. unfold handle_generic_method_call.
  rewrite post_bind. cbv beta.
  assert (exists p', let v := post (client_release atan2 sender t) u in
    out v = OSetPolling t false :: OUnwatch w :: out u /\
    slots v t = Sl (Some d) (Some p') (udev_dev (slots s t)) ∅
                   (invocations_delayed (slots s t) ++ [i]) (event_delayed (slots s t)))
    as (p2 & Vo & Vs).
  { unfold client_release. rewrite post_bind. cbv beta.
    change (res (slot t) u) with (slots u t). change (post (slot t) u) with u. rewrite Es.
    cbn [clients]. rewrite lookup_singleton_eq. pose proof (Hid (out s) sender) as Hw. fold w in Hw.
    assert (forall A (a b : A), match w with 0 => a | _ => b end = b) as -> by (intros; by destruct w).
    rewrite !post_bind. cbv beta. set (v1 := post (emit _) _).
    change (res (gets id) v1) with v1. change (post (gets id) v1) with v1.
    assert (slots v1 t = set_clients ∅ (slots u t)) as E1.
    { unfold v1, post, emit, change, modify. simpl. rewrite bool_decide_true by done.
      by rewrite delete_singleton_eq, Es. }
    assert (out v1 = OUnwatch w :: out u /\ lazy v1 = lazy u) as [O1 ->] by done. clearbody v1.
    rewrite El. unfold driver_type_exists.
    rewrite E1, Es. cbn [drv clients set_clients]. rewrite bool_decide_true by done. simpl andb. cbv iota.
    destruct (silent_polling d p1 false t v1) as (p2 & Vo & _ & Vs);
      [by rewrite E1, Es|by rewrite E1, Es|done|].
    exists p2. rewrite <- O1. split; [exact Vo|]. by rewrite Vs, E1, Es. }
  set (v := post (client_release atan2 sender t) u) in *. clearbody v. unfold post, emit, modify. cbn [snd out slots].
  rewrite Vs, Vo, Eo. simpl. rewrite bool_decide_true by done.
  split; [done|]. split; [done|]. split; [done|]. intros k. lia.
Qed.
End ProxyTheorems.

(** ** A concrete service *)

Module Sim.

Inductive Board := Als | Other.

#[global] Instance board_udev : Udev Board := {
  sysfs_path d := match d with Als => Some "/sys/als" | Other => Some "/sys/other" end%string;
  udev_property _ _ := None; sysfs_attr _ _ := None;
  sysfs_attr_as_double _ _ := f0; udev_name _ := "board"%string
}.

(** A light sensor that may read the light when polling is switched on. *)
Definition light (reads : bool) : @SensorDriver Board unit unit := {|
  drv_type := DRIVER_TYPE_LIGHT;
  discover d := ret match d with Als => true | Other => false end;
  open _ := ret (Some tt);
  set_polling _ b := ret (tt, if reads && b then [Light f64_one true] else []);
  close _ := ret tt
|}.

Definition watch (_ : list Out) (_ : string) : Z := 7.
Definition allow (_ : list Out) (_ : string) : bool := true.
Definition deny (_ : list Out) (_ : string) : bool := false.
Definition atan (_ _ : float) : float := f0.

Definition service (reads lz : bool) (l : list (@Event Board)) :=
  post (name_acquired_handler atan [light reads] [Other; Als] ;;;
        run watch allow atan [light reads] l) (start tt lz).

End Sim.

Lemma polling_follows_clients_witness :
  last_polling DRIVER_TYPE_LIGHT
    (out (Sim.service false true [Method ":1" "ClaimLight" 1; Method ":2" "ClaimLight" 2;
                                  Vanished (Some ":1")]%string)) = true.
Proof.
  unfold Sim.service. erewrite polling_follows_clients; [|vm_compute; reflexivity].
  vm_compute. reflexivity.
Defined.

Lemma unauthorized_call_refused_witness :
  exists e, post (handle_method_call Sim.watch Sim.deny Sim.atan ":1" "ClaimLight" 1)
              (Sim.service false true []) =
            post (emit (OError 1 e)) (Sim.service false true []).
Proof.
  apply (unauthorized_call_refused Sim.watch Sim.deny Sim.atan ":1" "ClaimLight" 1). reflexivity.
Defined.

Lemma claim_answered_at_once_witness :
  answered 5 (out (post (handle_method_call Sim.watch Sim.allow Sim.atan ":1" "ClaimLight" 5)
                        (Sim.service true true []))) = 1.
Proof.
  refine (eq_trans (proj2 (claim_answered_at_once Sim.watch Sim.allow Sim.atan (Sim.light true) tt
    (Sim.service true true []) ":1" "ClaimLight" 5 _ _ _ _ _ _) 5) _);
    try (vm_compute; reflexivity).
  exists (Light f64_one true), []. by split.
Defined.

Lemma removal_answers_waiting_witness :
  answered 1 (out (post (remove_sensor Sim.atan Sim.Als DRIVER_TYPE_LIGHT)
                        (Sim.service false true [Method ":1" "ClaimLight" 1]%string))) = 1.
Proof.
  refine (eq_trans (proj2 (removal_answers_waiting Sim.atan Sim.Als Sim.Als DRIVER_TYPE_LIGHT
    (Sim.service false true [Method ":1" "ClaimLight" 1]%string) _ _) 1) _);
    vm_compute; reflexivity.
Defined.

Lemma vanished_client_forgotten_witness :
  clients (slots (post (client_vanished_cb Sim.atan (Some ":1"%string))
                       (Sim.service false true [Method ":1" "ClaimLight" 1]%string)) DRIVER_TYPE_LIGHT) = ∅.
Proof.
  rewrite vanished_client_forgotten; [vm_compute; reflexivity|].
  intros t c w. destruct t; unfold claims_of.
  2: { assert (clients (slots (Sim.service false true [Method ":1" "ClaimLight" 1]%string) DRIVER_TYPE_LIGHT)
         = {[":1"%string := 7]}) as -> by (vm_compute; reflexivity).
       intros [_ <-]%lookup_singleton_Some. lia. }
  all: match goal with |- clients ?x !! _ = _ -> _ =>
         assert (clients x = ∅) as -> by (vm_compute; reflexivity) end.
  all: intros H; exfalso; revert H; rewrite lookup_empty; discriminate.
Defined.

Lemma release_leaves_claim_waiting_witness :
  let s' := post (run Sim.watch Sim.allow Sim.atan [Sim.light false]
                    [Method ":1" "ClaimLight" 1; Method ":1" "ReleaseLight" 2]%string)
                 (Sim.service false true []) in
  last_polling DRIVER_TYPE_LIGHT (out s') = false /\ answered 1 (out s') = answered 1 (out (Sim.service false true [])) + 0.
Proof.
  assert (silent (Sim.light false)) as Hs by (intros p b w; by destruct b).
  assert (forall h c, 0 < Sim.watch h c) as Hw by (intros h c; unfold Sim.watch; lia).
  pose proof (release_leaves_claim_waiting Sim.watch Sim.allow Sim.atan [Sim.light false]
    (Sim.light false) tt (Sim.service false true []) ":1" "ClaimLight" "ReleaseLight" 1 2
    Hw (fun _ => eq_refl) eq_refl eq_refl eq_refl eq_refl eq_refl Hs) as H.
  destruct H as (Hp & _ & _ & Ha); [vm_compute; reflexivity|].
  split; [exact Hp|exact (Ha 1)].
Defined.
