(* ===== verification/Claims.v ===== *)
(** * Claims are answered at once

    What the sensor proxy (Proxy.v) and a driver promise to each other.  The
    class [Obeys] is the driver's side: a device it opened is off, switching
    polling is remembered by the device, and switching it on hands over a
    reading.  Against it, the service leaves no method call waiting. *)

From Stdlib Require Import ZArith Lia.
From stdpp Require Import base list strings gmap sets.
From S2P Require Import Prelude Floats Drivers Os MxcFilter Proxy.

#[local] Open Scope Z_scope.
#[local] Open Scope prog_scope.

(** [Ready d p b]: the device [p] of driver [d] was last switched to [b].
    With --lazy the service never switches on a device that is on. *)
Class Obeys {Dev W Priv : Type} `{U : Udev Dev}
    (Ready : @SensorDriver Dev W Priv -> Priv -> bool -> Prop) (lz : bool)
    (d : @SensorDriver Dev W Priv) : Prop := {
  open_ready device w p : res (driver_open d device) w = Some p -> Ready d p false;
  switch_ready p b b' w : Ready d p b -> Ready d (fst (res (driver_set_polling d p b') w)) b';
  on_prompt p b w : Ready d p b -> (lz = true -> b = false) -> prompt d p w
}.

Section Claims.
Context {Dev : Type} `{U : Udev Dev} {W Priv : Type}.
#[local] Abbreviation Drv := (@SensorDriver Dev W Priv).
#[local] Abbreviation S := (SensorData W Drv Priv Dev).
Variable g_bus_watch_name : list Out -> string -> Z.
Variable is_authorized : list Out -> string -> bool.
Variable atan2 : float -> float -> float.
Variable drivers : list Drv.
Variable Ready : Drv -> Priv -> bool -> Prop.
Variable lz : bool.
Hypothesis watch_pos : forall h c, 0 < g_bus_watch_name h c.

(** A driver of the table that finds a device of its own. *)
Definition usable (d : Drv) : Prop :=
  d ∈ drivers /\ exists device w, res (driver_discover d device) w = true.

Hypothesis obey : forall d, usable d -> Obeys Ready lz d.

(** ** Invariants of a sensor *)

(** Its driver is one of the table, for this type. *)
Definition known (t : DriverType) (s : S) : Prop :=
  lazy s = lz /\ forall d, drv (slots s t) = Some d -> usable d /\ drv_type d = t.

(** Its device is in the state the service put it in. *)
Definition ready (t : DriverType) (s : S) : Prop := forall d p,
  drv (slots s t) = Some d -> dev (slots s t) = Some p -> Ready d p (last_polling t (out s)).

(** Nobody waits for it, and no signal about it is put off. *)
Definition calm (t : DriverType) (s : S) : Prop :=
  invocations_delayed (slots s t) = [] /\ event_delayed (slots s t) = false.

Definition settled (t : DriverType) (s : S) : Prop := known t s /\ ready t s /\ calm t s.

(** Watches of names are positive. *)
Definition watched (s : S) : Prop := forall t c w,
  clients (slots s t) !! c = Some w -> 0 < w.

(** What [known] and [ready], and what [settled], depend on. *)
Definition rview (t : DriverType) (s : S) :=
  (drv (slots s t), dev (slots s t), last_polling t (out s), lazy s).
Definition sview (t : DriverType) (s : S) :=
  (rview t s, invocations_delayed (slots s t), event_delayed (slots s t)).

Lemma ready_view t s u : rview t s = rview t u -> known t s /\ ready t s -> known t u /\ ready t u.
Proof.
  unfold rview, known, ready. intros E.
  assert (drv (slots s t) = drv (slots u t) /\ dev (slots s t) = dev (slots u t) /\
    last_polling t (out s) = last_polling t (out u) /\ lazy s = lazy u) as (E1 & E2 & E3 & E4)
    by (split_and!; congruence).
  intros [[El Hd] Hr]. rewrite <- E4. split; [split; [done|]|].
  - intros d Hu. apply Hd. congruence.
  - intros d p Hu Hv. rewrite <- E3. apply Hr; congruence.
Qed.

Lemma calm_view t s u : sview t s = sview t u -> calm t s -> calm t u.
Proof. unfold sview, calm. intros E [H1 H2]. split; congruence. Qed.

Lemma sview_rview t s u : sview t s = sview t u -> rview t s = rview t u.
Proof. unfold sview. congruence. Qed.

Lemma settled_view t s u : sview t s = sview t u -> settled t s -> settled t u.
Proof.
  intros E (Hk & Hr & Hc). destruct (ready_view t s u (sview_rview t s u E)) as [? ?]; [done|].
  split_and!; [done..|]. by apply (calm_view t s).
Qed.

#[local] Abbreviation still t m := (same (sview t) (m : M S _)).

Lemma still_settled t {A} (m : M S A) : still t m -> keeps (settled t) m.
Proof. apply same_keeps. intros s u E. by apply settled_view. Qed.

Lemma rview_unsignalled t : unsignalled (rview t).
Proof. done. Qed.
Lemma sview_unsignalled t : unsignalled (sview t).
Proof. done. Qed.
Lemma event_still t mask : still t (send_dbus_event mask).
Proof. apply event_same, sview_unsignalled. Qed.

Lemma emit_still t o : match o with OOpen _ | OSetPolling _ _ => False | _ => True end ->
  still t (emit o).
Proof. intros Ho s. unfold sview, rview, post, emit, modify. by destruct o. Qed.

Lemma world_still t {A} (m : M W A) : still t (in_world m).
Proof. intros s. unfold post, in_world. by destruct (m (world s)). Qed.

Lemma change_still t t' f :
  (forall x, drv (f x) = drv x /\ dev (f x) = dev x /\
             invocations_delayed (f x) = invocations_delayed x /\ event_delayed (f x) = event_delayed x) ->
  still t (change t' f).
Proof.
  intros Hf s. unfold sview, rview, post, change, modify. cbn [snd set_slot slots lazy out].
  case_bool_decide as E; [|done]. subst t'. by destruct (Hf (slots s t)) as (-> & -> & -> & ->).
Qed.

Lemma change_far t t' f : t <> t' -> still t (change t' f).
Proof.
  intros Hn s. unfold sview, rview, post, change, modify. cbn [snd set_slot slots lazy out].
  by rewrite bool_decide_false.
Qed.

(** ** Readings *)

Lemma notify_rview t t' : same (rview t) (maybe_notify_sensor_startup_finished t').
Proof.
  assert (forall f, (forall x, drv (f x) = drv x /\ dev (f x) = dev x) ->
    same (rview t) (change (W := W) (Priv := Priv) (Dev := Dev) t' f)) as Hc.
  { intros f Hf s. unfold rview, post, change, modify. cbn [snd set_slot slots lazy out].
    case_bool_decide as E; [|done]. subst t'. by destruct (Hf (slots s t)) as (-> & ->). }
  unfold maybe_notify_sensor_startup_finished. apply same_bind; [done|intros x].
  apply same_bind; [by apply Hc|intros ?]. apply same_bind; [by apply same_mfor|intros ?].
  apply same_if; [|done].
  apply same_bind; [apply event_same, rview_unsignalled|intros ?; by apply Hc].
Qed.

Lemma notify_far t t' : t <> t' -> still t (maybe_notify_sensor_startup_finished t').
Proof.
  intros Hn. unfold maybe_notify_sensor_startup_finished. apply same_bind; [done|intros x].
  apply same_bind; [by apply change_far|intros ?]. apply same_bind; [by apply same_mfor|intros ?].
  apply same_if; [|done]. apply same_bind; [apply event_still|intros ?; by apply change_far].
Qed.

(** The first reading answers who waited and sends the signal put off. *)
Lemma notify_calm t (s : S) : calm t (post (maybe_notify_sensor_startup_finished t) s).
Proof.
  split; [apply notify_nobody|].
  unfold maybe_notify_sensor_startup_finished. rewrite post_bind. cbv beta.
  change (res (slot t) s) with (slots s t). change (post (slot t) s) with s.
  rewrite !post_bind. cbv beta. set (s1 := post (change t _) s).
  assert (event_delayed (slots s1 t) = event_delayed (slots s t)) as H1.
  { unfold s1, post, change, modify. simpl. by rewrite bool_decide_true. }
  assert (forall l, event_delayed (slots (post (mfor l (fun inv => emit (OReply inv))) s1) t) =
                    event_delayed (slots s1 t)) as H2.
  { intros l. apply (same_mfor (fun u : S => event_delayed (slots u t))). done. }
  destruct (event_delayed (slots s t)) eqn:E; [|unfold post at 1, ret; simpl; by rewrite H2, H1].
  rewrite post_bind. cbv beta. set (s3 := post (send_driver_changed_dbus_event t) _).
  unfold post, change, modify. simpl. by rewrite bool_decide_true.
Qed.

Lemma notify_settles t t' (s : S) : known t s -> ready t s -> (t = t' \/ calm t s) ->
  settled t (post (maybe_notify_sensor_startup_finished t') s).
Proof.
  intros Hk Hr Hc.
  assert (known t (post (maybe_notify_sensor_startup_finished t') s) /\
          ready t (post (maybe_notify_sensor_startup_finished t') s)) as [? ?].
  { apply (ready_view t s); [by rewrite (notify_rview t t')|done]. }
  split_and!; [done..|]. destruct (decide (t = t')) as [<-|Hn]; [apply notify_calm|].
  destruct Hc as [|Hc]; [done|]. apply (calm_view t s); [by rewrite (notify_far t t')|done].
Qed.

(** A reading leaves a settled sensor settled; one of its own type settles it. *)
Lemma changed_settles t t' r (s : S) : known t s -> ready t s ->
  (t = t' /\ reading_of t r = true) \/ calm t s ->
  settled t (post (changed_func atan2 t' r) s).
Proof.
  intros Hk Hr Hc.
  assert (forall u (m : M S unit), sview t s = sview t u -> still t m ->
    settled t (post (m ;;; maybe_notify_sensor_startup_finished t') u)) as Hn.
  { intros u m Eu Hm. rewrite post_bind. cbv beta. rewrite <- (Hm u) in Eu.
    destruct (ready_view t s (post m u)) as [? ?]; [by apply sview_rview|done|].
    apply notify_settles; [done..|]. destruct Hc as [[-> _]|Hc]; [by left|right].
    by apply (calm_view t s). }
  destruct (reading_of t' r) eqn:Hreading.
  2:{ destruct Hc as [[<- Hf]|Hc]; [congruence|]. destruct t', r; try done; by split_and!. }
  assert (forall p mask, still t (modify (set_prev p) ;;; send_dbus_event mask)) as Hs.
  { intros p mask. apply same_bind; [done|intros ?; apply event_still]. }
  destruct t', r; try done; simpl.
  - unfold accel_changed_func. rewrite post_bind. cbv beta.
    change (post (gets prev) s) with s. rewrite post_bind. cbv beta.
    match goal with |- context [post ?m s] => set (s1 := post m s) end.
    assert (sview t s = sview t s1) as E1 by (symmetry; by apply same_if).
    clearbody s1. rewrite post_bind. cbv beta. change (post (gets prev) s1) with s1.
    apply Hn; [done|by apply same_if].
  - unfold light_changed_func. rewrite post_bind. cbv beta. change (post (gets prev) s) with s.
    apply Hn; [done|by apply same_if].
  - unfold compass_changed_func. rewrite post_bind. cbv beta. change (post (gets prev) s) with s.
    apply Hn; [done|by apply same_if].
  - unfold proximity_changed_func. rewrite post_bind. cbv beta. change (post (gets prev) s) with s.
    apply Hn; [done|by apply same_if].
Qed.

Lemma changed_keeps t t' r : keeps (settled t) (changed_func atan2 t' r).
Proof. intros s (Hk & Hr & Hc). apply changed_settles; auto. Qed.
(** ** Switching polling *)

Lemma readings_settle t t' l (s : S) : known t s -> ready t s ->
  (t = t' /\ exists r l', l = r :: l' /\ reading_of t r = true) \/ calm t s ->
  settled t (post (mfor l (changed_func atan2 t')) s).
Proof.
  intros Hk Hr [[<- (r & l' & -> & Hl)]|Hc].
  - cbn [mfor]. rewrite post_bind. cbv beta.
    apply (keeps_mfor (settled t)); [intros; apply changed_keeps|]. apply changed_settles; auto.
  - apply (keeps_mfor (settled t)); [intros; apply changed_keeps|]. by split_and!.
Qed.

Lemma polling_far t t' b : t <> t' -> keeps (settled t) (slot_set_polling atan2 t' b).
Proof.
  intros Hn. unfold slot_set_polling. apply keeps_bind; [apply keeps_gets|intros x].
  destruct (drv x) as [d|]; [|apply keeps_ret]. destruct (dev x) as [p|]; [|apply keeps_ret].
  apply keeps_bind.
  { apply still_settled. intros s. unfold sview, rview, post, emit, modify. simpl.
    by rewrite bool_decide_false. }
  intros ?. apply keeps_bind; [apply still_settled, world_still|intros r].
  apply keeps_bind; [by apply still_settled, change_far|intros ?].
  apply keeps_mfor. intros; apply changed_keeps.
Qed.

(** The service may switch [t] on, and its device will answer with a reading. *)
Definition switchable (t : DriverType) (s : S) : Prop :=
  is_some (drv (slots s t)) = true /\ is_some (dev (slots s t)) = true /\
  (lz = true -> last_polling t (out s) = false).

Lemma polling_settles t b (s : S) : known t s -> ready t s ->
  (b = true /\ switchable t s) \/ calm t s ->
  settled t (post (slot_set_polling atan2 t b) s).
Proof.
  intros Hk Hr Hc. unfold slot_set_polling. rewrite post_bind. cbv beta.
  change (res (slot t) s) with (slots s t). change (post (slot t) s) with s.
  assert (drv (slots s t) = None \/ dev (slots s t) = None -> settled t s) as Hnone.
  { intros He. destruct Hc as [(_ & Hd & Hp & _)|Hc]; [|by split_and!].
    exfalso. destruct He as [He|He]; [rewrite He in Hd|rewrite He in Hp]; done. }
  destruct (drv (slots s t)) as [d|] eqn:Ed; [|by apply Hnone; left].
  destruct (dev (slots s t)) as [p|] eqn:Ep; [|by apply Hnone; right]. clear Hnone.
  destruct Hk as [Hl Hk]. destruct (Hk d Ed) as [Hin Ht]. destruct (obey d Hin) as [_ Hsw Hpr].
  specialize (Hr d p Ed Ep). specialize (Hsw p _ b (world s) Hr). specialize (Hpr p _ (world s) Hr).
  rewrite !post_bind. cbv beta. set (s1 := post (emit _) s).
  assert (res (in_world (Priv := Priv) (Dev := Dev) (driver_set_polling d p b)) s1 =
          res (driver_set_polling d p b) (world s)) as Er.
  { unfold res, in_world. simpl. by destruct (driver_set_polling d p b (world s)). }
  set (s2 := post (in_world _) s1). rewrite Er.
  assert (sview t s2 = sview t s1) as E2 by apply world_still.
  assert (drv (slots s1 t) = Some d /\ last_polling t (out s1) = b /\ lazy s1 = lz /\
    invocations_delayed (slots s1 t) = invocations_delayed (slots s t) /\
    event_delayed (slots s1 t) = event_delayed (slots s t)) as (D1 & L1 & Z1 & I1 & V1).
  { unfold s1, post, emit, modify. simpl. by rewrite bool_decide_true. }
  clearbody s1. set (s3 := post (change t _) s2).
  assert (slots s3 t = Sl (drv (slots s2 t)) (Some (fst (res (driver_set_polling d p b) (world s))))
    (udev_dev (slots s2 t)) (clients (slots s2 t)) (invocations_delayed (slots s2 t))
    (event_delayed (slots s2 t)) /\ out s3 = out s2 /\ lazy s3 = lazy s2) as (S3 & O3 & Z3).
  { unfold s3, post, change, modify. simpl. by rewrite bool_decide_true. }
  clearbody s3. unfold sview, rview in E2. injection E2 as E21 E22 E23 E24 E25 E26.
  apply readings_settle.
  - split; [congruence|]. rewrite S3. cbn [drv]. intros d' Hd'. assert (d' = d) as -> by congruence. auto.
  - intros d' p'. rewrite S3, O3, E23. cbn [drv dev]. intros Hd' [= <-].
    assert (d' = d) as -> by congruence. by rewrite L1.
  - destruct Hc as [(-> & _ & _ & Hz)|[Hi Hv]].
    + left. split; [done|]. destruct (Hpr Hz) as (r & l & El & Hrd). rewrite Ht in Hrd. eauto.
    + right. split; rewrite S3; cbn [invocations_delayed event_delayed]; congruence.
Qed.

Lemma polling_keeps t t' b : keeps (settled t) (slot_set_polling atan2 t' b).
Proof.
  destruct (decide (t = t')) as [<-|Hn]; [|by apply polling_far].
  intros s (Hk & Hr & Hc). apply polling_settles; auto.
Qed.

Lemma close_keeps t t' : keeps (settled t) (slot_close atan2 t').
Proof.
  unfold slot_close. apply keeps_bind; [apply keeps_gets|intros x].
  destruct (drv x) as [d|]; [|apply keeps_ret]. destruct (dev x) as [p|]; [|apply keeps_ret].
  apply keeps_bind; [by apply still_settled, emit_still|intros ?].
  apply keeps_bind; [apply still_settled, world_still|intros l].
  apply keeps_mfor. intros; apply changed_keeps.
Qed.

(** ** Clients *)

Lemma release_keeps t sender t' : keeps (settled t) (client_release atan2 sender t').
Proof.
  unfold client_release. apply keeps_bind; [apply keeps_gets|intros x].
  destruct (clients x !! sender) as [[|id_|id_]|]; try apply keeps_ret.
  all: apply keeps_bind; [by apply still_settled, change_still|intros ?];
    apply keeps_bind; [by apply still_settled, emit_still|intros ?];
    apply keeps_bind; [apply keeps_gets|intros s];
    destruct (_ && _ && _); [apply polling_keeps|apply keeps_ret].
Qed.

Lemma vanished_keeps t name : keeps (settled t) (client_vanished_cb atan2 name).
Proof.
  destruct name as [sender|]; [|apply keeps_ret]. unfold client_vanished_cb.
  apply keeps_mfor. intros t' _. apply keeps_bind; [apply keeps_gets|intros x].
  destruct (clients x !! sender); [|apply keeps_ret].
  destruct (0 <? _); [apply release_keeps|apply keeps_ret].
Qed.
(** *** Watches *)

Definition cview (t : DriverType) (s : S) : gmap string Z := clients (slots s t).
#[local] Abbreviation unclaimed t m := (same (cview t) (m : M S _)).

Lemma change_unclaimed t t' f : (forall x, clients (f x) = clients x) -> unclaimed t (change t' f).
Proof.
  intros Hf s. unfold cview, post, change, modify. cbn [snd set_slot slots].
  case_bool_decide as E; [|done]. subst t'. apply Hf.
Qed.

Lemma world_unclaimed t {A} (m : M W A) : unclaimed t (in_world m).
Proof. intros s. unfold post, in_world. by destruct (m (world s)). Qed.

Lemma event_unclaimed t mask : unclaimed t (send_dbus_event mask).
Proof. by apply event_same. Qed.

Lemma changed_unclaimed t t' r : unclaimed t (changed_func atan2 t' r).
Proof.
  apply changed_same; [done|]. unfold maybe_notify_sensor_startup_finished.
  apply same_bind; [done|intros x]. apply same_bind; [by apply change_unclaimed|intros ?].
  apply same_bind; [by apply same_mfor|intros ?]. apply same_if; [|done].
  apply same_bind; [apply event_unclaimed|intros ?; by apply change_unclaimed].
Qed.

Lemma polling_unclaimed t t' b : unclaimed t (slot_set_polling atan2 t' b).
Proof.
  unfold slot_set_polling. apply same_bind; [done|intros x].
  destruct (drv x) as [d|]; [|done]. destruct (dev x) as [p|]; [|done].
  apply same_bind; [done|intros ?]. apply same_bind; [apply world_unclaimed|intros r].
  apply same_bind; [by apply change_unclaimed|intros ?]. apply same_mfor.
  intros; apply changed_unclaimed.
Qed.

Lemma close_unclaimed t t' : unclaimed t (slot_close atan2 t').
Proof.
  unfold slot_close. apply same_bind; [done|intros x].
  destruct (drv x) as [d|]; [|done]. destruct (dev x) as [p|]; [|done].
  apply same_bind; [done|intros ?]. apply same_bind; [apply world_unclaimed|intros l].
  apply same_mfor. intros; apply changed_unclaimed.
Qed.

Lemma unclaimed_watched {A} (m : M S A) : (forall t, unclaimed t m) -> keeps watched m.
Proof. intros Hm s Hs t c w. specialize (Hm t s). unfold cview in Hm. rewrite Hm. apply Hs. Qed.

(** A change of clients that adds positive watches only. *)
Lemma change_watched t f s :
  (forall k w, clients (f (slots s t)) !! k = Some w -> 0 < w) -> watched s ->
  watched (post (change t f) s).
Proof.
  intros Hc Hs u. unfold watched, post, change, modify. cbn [snd set_slot slots].
  destruct (bool_decide_reflect (u = t)) as [->|]; [exact Hc|apply Hs].
Qed.

Lemma release_watched sender t : keeps watched (client_release atan2 sender t).
Proof.
  intros s Hs. unfold client_release. rewrite post_bind. cbv beta.
  change (res (slot t) s) with (slots s t). change (post (slot t) s) with s.
  assert (forall w, watched (post (change t (set_clients (delete sender (clients (slots s t)))) ;;;
    emit (OUnwatch w) ;;; u <- gets id ;;
    if lazy u && driver_type_exists u t && bool_decide (clients (slots u t) = ∅)
    then slot_set_polling atan2 t false else ret tt) s)) as Hmain.
  { intros w. rewrite post_bind. cbv beta. set (s1 := post (change t _) s).
    assert (watched s1) as H1.
    { apply change_watched; [|exact Hs]. intros k v Hk. cbn [clients set_clients] in Hk. apply lookup_delete_Some in Hk as [_ Hk].
      by apply (Hs t k). }
    revert s1 H1. apply keeps_bind; [by apply unclaimed_watched|intros ?].
    apply keeps_bind; [apply keeps_gets|intros u]. destruct (_ && _ && _); [|apply keeps_ret].
    apply unclaimed_watched. intros ?. apply polling_unclaimed. }
  destruct (clients (slots s t) !! sender) as [[|w|w]|]; try done; apply Hmain.
Qed.

(** ** Claims *)

(** Everything the service maintains. *)
Definition sound (s : S) : Prop :=
  watched s /\ forall t, settled t s /\ polled t s.

Lemma generic_watched sender claim i t :
  keeps watched (handle_generic_method_call g_bus_watch_name atan2 sender claim i t).
Proof.
  unfold handle_generic_method_call. destruct claim.
  2:{ apply keeps_bind; [apply release_watched|intros ?; by apply unclaimed_watched]. }
  intros s Hs. rewrite post_bind. cbv beta zeta.
  change (res (slot t) s) with (slots s t). change (post (slot t) s) with s.
  destruct (match clients (slots s t) !! sender with Some _ => _ | None => _ end); [done|].
  rewrite !post_bind. cbv beta. set (s1 := post (change t _) _). assert (watched s1) as H1.
  { apply change_watched; [|exact Hs]. intros k w. cbn [clients set_clients].
    intros [[_ <-]|[_ Hk]]%lookup_insert_Some; [apply watch_pos|by apply (Hs t k)]. }
  clearbody s1. change (post (gets id) s1) with s1. change (res (gets id) s1) with s1.
  destruct (driver_type_exists s1 t); [|done]. destruct (bool_decide _).
  - refine (unclaimed_watched _ _ s1 H1). intros u.
    apply same_bind; [by apply change_unclaimed|intros ?; apply polling_unclaimed].
  - refine (unclaimed_watched _ _ s1 H1). intros u. apply same_if; [by apply change_unclaimed|done].
Qed.

(** A sensor that is on is so for its clients. *)
Lemma off_unclaimed t s : settled t s -> polled t s -> clients (slots s t) = ∅ ->
  driver_type_exists s t = true -> switchable t s.
Proof.
  intros ((Hl & _) & _) Hp Hc Hd. unfold driver_type_exists in Hd.
  assert (is_some (drv (slots s t)) = true) as Hd' by (by destruct (drv (slots s t))).
  destruct (Hp Hd') as [Hdev Hlp]. split_and!; [done..|]. intros Hz. rewrite Hlp, Hl, Hz, Hc. done.
Qed.

(** A claim: whether or not it is the first, nobody waits after it. *)
Lemma generic_settles t sender claim i t' s : watched s -> settled t s -> polled t s ->
  settled t (post (handle_generic_method_call g_bus_watch_name atan2 sender claim i t') s).
Proof.
  intros Hw Hs Hp. unfold handle_generic_method_call. destruct claim.
  2:{ revert s Hw Hs Hp. intros s _ Hs _. revert s Hs.
      apply keeps_bind; [apply release_keeps|intros ?; by apply still_settled, emit_still]. }
  rewrite post_bind. cbv beta zeta.
  change (res (slot t') s) with (slots s t'). change (post (slot t') s) with s.
  set (c := clients (slots s t')).
  destruct (match c !! sender with Some _ => _ | None => _ end) eqn:Em;
    [by apply (still_settled t (emit (OReply i))); [apply emit_still|]|].
  assert (c !! sender = None) as Hnone.
  { destruct (c !! sender) as [w|] eqn:E; [|done]. apply Hw in E. zbool. lia. }
  rewrite !post_bind. cbv beta. set (s1 := post (change t' _) _).
  change (res (gets id) s1) with s1. change (post (gets id) s1) with s1.
  change (res (gets out) s) with (out s) in *.
  assert (sview t s1 = sview t s) as E1.
  { unfold s1. rewrite change_still by done. done. }
  assert (clients (slots s1 t') = (<[sender:=g_bus_watch_name (out s) sender]> c)) as C1.
  { unfold s1, post, emit, change, modify. simpl. by rewrite bool_decide_true. }
  assert (settled t s1) as Hs1 by (by apply (settled_view t s)).
  clearbody s1. destruct (driver_type_exists s1 t') eqn:Ed; [|by apply (still_settled t (emit (OReply i)));
    [apply emit_still|]].
  rewrite C1. destruct (decide (t = t')) as [<-|Hn].
  2:{ clear E1 C1 Ed.
      destruct (bool_decide _); [|destruct (_ || _)].
      - revert Hs1. apply (keeps_bind (settled t)); [by apply still_settled, change_far|].
        intros ?. by apply polling_far.
      - revert Hs1. by apply still_settled, change_far.
      - revert Hs1. by apply still_settled, emit_still. }
  destruct (bool_decide_reflect (size (<[sender:=g_bus_watch_name (out s) sender]> c) = 1%nat)) as [Hsz|Hsz].
  - assert (c = ∅) as Hc.
    { rewrite map_size_insert_None in Hsz by done. apply map_size_empty_inv. lia. }
    assert (switchable t s) as Hsw.
    { apply off_unclaimed; [done..|]. unfold sview, rview, driver_type_exists in *.
      assert (drv (slots s1 t) = drv (slots s t)) as <- by congruence. done. }
    rewrite post_bind. cbv beta. set (s2 := post (change t _) s1).
    assert (rview t s2 = rview t s) as E2.
    { transitivity (rview t s1); [|by apply sview_rview].
      unfold rview, s2, post, change, modify. simpl. by rewrite bool_decide_true. }
    clearbody s2. destruct Hs as (Hk & Hr & _).
    destruct (ready_view t s s2) as [Hk2 Hr2]; [done..|].
    apply polling_settles; [done..|]. left. split; [done|]. destruct Hsw as (H1 & H2 & H3).
    unfold switchable, rview in *. split_and!.
    + assert (drv (slots s2 t) = drv (slots s t)) as -> by congruence. done.
    + assert (dev (slots s2 t) = dev (slots s t)) as -> by congruence. done.
    + assert (last_polling t (out s2) = last_polling t (out s)) as -> by congruence. done.
  - destruct Hs1 as (Hk & Hr & Hi & Hv). rewrite Hi, Hv. simpl.
    apply (still_settled t (emit (OReply i))); [by apply emit_still|by split_and!].
Qed.

Lemma generic_sound sender claim i t :
  keeps sound (handle_generic_method_call g_bus_watch_name atan2 sender claim i t).
Proof.
  intros s [Hw Hs]. split; [by apply generic_watched|]. intros u. destruct (Hs u) as [H1 H2].
  split; [by apply generic_settles|by apply generic_polled].
Qed.

(** ** Devices *)

Lemma remove_settled t device t' : keeps (settled t) (remove_sensor atan2 device t').
Proof.
  unfold remove_sensor. apply keeps_bind; [apply keeps_gets|intros x].
  destruct (udev_dev x) as [d|]; [|apply keeps_ret]. case_bool_decide; [|apply keeps_ret].
  apply keeps_bind; [apply close_keeps|intros ?]. apply keeps_bind; [apply keeps_gets|intros y].
  apply keeps_bind.
  { intros s Hs. unfold settled, known, ready, calm, post, change, modify.
    cbn [snd set_slot slots lazy out]. destruct (bool_decide_reflect (t = t')); [|exact Hs].
    destruct Hs as ((Hl & _) & _). by split_and!. }
  intros ?. apply still_settled. apply same_bind.
  { apply same_mfor. intros [c w]. apply same_if; [done|by apply emit_still]. }
  intros ?. apply same_bind; [apply same_mfor; intros i; by apply emit_still|intros ?].
  apply event_still.
Qed.

Lemma remove_watched device t : keeps watched (remove_sensor atan2 device t).
Proof.
  unfold remove_sensor. apply keeps_bind; [apply keeps_gets|intros x].
  destruct (udev_dev x) as [d|]; [|apply keeps_ret]. case_bool_decide; [|apply keeps_ret].
  apply keeps_bind; [apply unclaimed_watched; intros u; apply close_unclaimed|intros ?].
  apply keeps_bind; [apply keeps_gets|intros y]. apply keeps_bind.
  { intros s Hs. apply change_watched; [|exact Hs]. intros k w. simpl. by rewrite lookup_empty. }
  intros ?. apply unclaimed_watched. intros u. apply same_bind.
  { apply same_mfor. intros [c w]. by apply same_if. }
  intros ?. apply same_bind; [by apply same_mfor|intros ?; apply event_unclaimed].
Qed.

(** An opened device is ready, and off. *)
Lemma opened_settled t (s : S) d p device w0 (f : Slot Drv Priv Dev -> Slot Drv Priv Dev) :
  usable d -> drv_type d = t -> res (driver_open d device) w0 = Some p ->
  drv (f (slots s t)) = Some d -> dev (f (slots s t)) = Some p ->
  calm t (set_slot t (f (slots s t)) s) -> lazy s = lz ->
  let s' := post (emit (OOpen t) ;;; change t f) s in settled t s' /\ switchable t s'.
Proof.
  intros Hin Ht Ho Hd Hp Hc Hl s'.
  assert (slots s' t = f (slots s t) /\ last_polling t (out s') = false /\ lazy s' = lz) as (S1 & P1 & L1).
  { unfold s', post, emit, change, modify, bind. simpl. by rewrite !bool_decide_true. }
  assert (calm t s') as C1.
  { unfold calm in *. rewrite S1. by rewrite !set_slot_get in Hc. }
  clearbody s'. split.
  - split; [split; [done|]|split; [|done]].
    + rewrite S1, Hd. by intros d' [= <-].
    + intros d' p'. rewrite S1, Hd, Hp, P1. intros [= <-] [= <-].
      destruct (obey d Hin) as [Hop _ _]. by apply (Hop device w0).
  - unfold switchable. by rewrite S1, Hd, Hp, P1.
Qed.

Lemma add_far t d device : t <> drv_type d -> keeps (settled t) (add_sensor atan2 d device).
Proof.
  intros Hn. unfold add_sensor. apply keeps_bind; [apply still_settled, world_still|intros [p|]];
    [|apply keeps_ret].
  apply keeps_bind; [apply still_settled|intros ?].
  { intros s. unfold sview, rview, post, emit, modify. simpl. by rewrite bool_decide_false. }
  apply keeps_bind; [by apply still_settled, change_far|intros ?].
  apply keeps_bind; [apply keeps_gets|intros x]. destruct (bool_decide _).
  - apply keeps_bind; [apply still_settled, event_still|intros ?].
    apply keeps_bind; [apply keeps_gets|intros u].
    destruct (lazy u); [apply keeps_ret|apply polling_keeps].
  - apply keeps_bind; [by apply still_settled, change_far|intros ?; apply polling_keeps].
Qed.

Lemma add_settled t d device : usable d -> keeps (settled t) (add_sensor atan2 d device).
Proof.
  intros Hin. destruct (decide (t = drv_type d)) as [->|Hn]; [|by apply add_far].
  intros s Hs. unfold add_sensor. set (t := drv_type d) in *. rewrite post_bind. cbv beta.
  assert (res (in_world (Priv := Priv) (Dev := Dev) (driver_open d device)) s =
          res (driver_open d device) (world s)) as Er.
  { unfold res, in_world. by destruct (driver_open d device (world s)). }
  rewrite Er. set (s0 := post (in_world _) s).
  assert (settled t s0) as (Hk0 & Hr0 & Hc0) by (by apply (still_settled t (in_world (driver_open d device)));
    [apply world_still|]).
  clearbody s0. destruct (res (driver_open d device) (world s)) as [p|] eqn:Ep; [|by split_and!].
  set (f := fun x : Slot Drv Priv Dev => _).
  destruct (opened_settled t s0 d p device (world s) f) as [Hs1 Hw1]; try done.
  { destruct Hc0 as [Hi Hv]. unfold calm. by rewrite !set_slot_get. }
  { by destruct Hk0. }
  rewrite post_bind in Hs1, Hw1. cbv beta in Hs1, Hw1.
  rewrite (post_bind (emit (OOpen t))). cbv beta. rewrite (post_bind (change t f)). cbv beta.
  set (s1 := post (change t f) _) in *. clearbody s1.
  rewrite post_bind. cbv beta. change (post (slot t) s1) with s1. destruct (bool_decide _).
  - revert s1 Hs1 Hw1. intros s1 Hs1 _. revert s1 Hs1.
    apply keeps_bind; [apply still_settled, event_still|intros ?].
    apply keeps_bind; [apply keeps_gets|intros u].
    destruct (lazy u); [apply keeps_ret|apply polling_keeps].
  - rewrite post_bind. cbv beta. set (s2 := post (change t (set_event true)) s1).
    assert (rview t s1 = rview t s2) as E2.
    { unfold rview, s2, post, change, modify. simpl. by rewrite bool_decide_true. }
    destruct Hs1 as (Hk & Hr & _). destruct (ready_view t s1 s2) as [? ?]; [done..|].
    clearbody s2. apply polling_settles; [done..|]. left. split; [done|].
    destruct Hw1 as (H1 & H2 & H3). unfold switchable, rview in *. split_and!.
    + assert (drv (slots s2 t) = drv (slots s1 t)) as -> by congruence. done.
    + assert (dev (slots s2 t) = dev (slots s1 t)) as -> by congruence. done.
    + assert (last_polling t (out s2) = last_polling t (out s1)) as -> by congruence. done.
Qed.

Lemma discovered d device (u : S) : d ∈ drivers ->
  res (in_world (Priv := Priv) (Dev := Dev) (driver_discover d device)) u = true -> usable d.
Proof.
  intros Hin Hr. split; [done|]. exists device, (Proxy.world u). revert Hr.
  unfold res, in_world. by destruct (driver_discover d device (Proxy.world u)).
Qed.

Lemma add_watched d device : keeps watched (add_sensor atan2 d device).
Proof.
  apply unclaimed_watched. intros u. unfold add_sensor.
  apply same_bind; [apply world_unclaimed|intros [p|]; [|done]]. apply same_bind; [done|intros ?].
  apply same_bind; [by apply change_unclaimed|intros ?]. apply same_bind; [done|intros x].
  apply same_if.
  - apply same_bind; [apply event_unclaimed|intros ?]. apply same_bind; [done|intros v].
    apply same_if; [done|apply polling_unclaimed].
  - apply same_bind; [by apply change_unclaimed|intros ?; apply polling_unclaimed].
Qed.

Lemma hotplug_keeps (I : S -> Prop) l device :
  (forall d, d ∈ l -> d ∈ drivers) ->
  (forall d, usable d -> keeps I (add_sensor atan2 d device)) ->
  (forall A (m : M W A), keeps I (in_world m)) -> keeps I (hotplug atan2 l device).
Proof.
  intros Hl Ha Hw. induction l as [|d l IH]; simpl; [apply keeps_ret|].
  apply keeps_bind; [apply keeps_gets|intros s].
  assert (keeps I (hotplug atan2 l device)) as IH' by (apply IH; intros; apply Hl; set_solver).
  destruct (driver_type_exists _ _); [done|]. intros u Hu. rewrite post_bind. cbv beta.
  pose proof (discovered d device u) as Hd. specialize (Hw _ (driver_discover d device) u Hu).
  destruct (res _ u); [|by apply IH']. apply Ha; [|done]. apply Hd; [apply Hl; set_solver|done].
Qed.

(** ** Every event *)

Lemma step_sound e : keeps sound (step g_bus_watch_name is_authorized atan2 drivers e).
Proof.
  intros s [Hw Hs]. split; [|intros t; split; [|apply step_polled, Hs]].
  - revert s Hw Hs. intros s Hw _. revert s Hw.
    assert (forall sender m i, keeps watched (guarded_call g_bus_watch_name is_authorized atan2 sender m i))
      as Hg.
    { intros sender m i. unfold guarded_call. destruct m as [[t claim]|]; [|by apply unclaimed_watched].
      apply keeps_bind; [apply keeps_gets|intros ok].
      destruct (negb ok); [by apply unclaimed_watched|apply generic_watched]. }
    destruct e as [sender name i|sender name i|name|action device|t r]; simpl; [apply Hg|apply Hg| | |].
    + destruct name as [sender|]; [|apply keeps_ret]. unfold client_vanished_cb.
      apply keeps_mfor. intros t _. apply keeps_bind; [apply keeps_gets|intros x].
      destruct (clients x !! sender); [|apply keeps_ret].
      destruct (0 <? _); [apply release_watched|apply keeps_ret].
    + unfold sensor_changes. destruct (String.eqb _ _); [|destruct (String.eqb _ _); [|apply keeps_ret]].
      * apply keeps_bind; [apply keeps_mfor; intros; apply remove_watched|intros ?].
        apply keeps_bind; [apply keeps_gets|intros u].
        destruct (any_sensors_left u); [apply keeps_ret|by apply unclaimed_watched].
      * apply hotplug_keeps; [done|intros; apply add_watched|]. intros A m. apply unclaimed_watched.
        intros; apply world_unclaimed.
    + apply keeps_bind; [apply keeps_gets|intros u].
      destruct (driver_type_exists u t); [|apply keeps_ret].
      apply unclaimed_watched. intros; apply changed_unclaimed.
  - assert (forall sender m i, settled t (post (guarded_call g_bus_watch_name is_authorized atan2 sender m i) s))
      as Hg.
    { intros sender m i. destruct (Hs t) as [Ht Hp]. unfold guarded_call.
      destruct m as [[u claim]|]; [|by apply (still_settled t (emit (OError i "UnknownMethod")));
        [apply emit_still|]].
      rewrite post_bind. cbv beta. change (post (check_claim_permission is_authorized sender) s) with s.
      destruct (negb _); [by apply (still_settled t (emit (OError i "AccessDenied"))); [apply emit_still|]|].
      by apply generic_settles. }
    destruct (Hs t) as [Ht _]. revert s Ht Hw Hs Hg. intros s Ht _ _ Hg.
    destruct e as [sender name i|sender name i|name|action device|u r]; simpl; [apply Hg|apply Hg| | |];
      clear Hg; revert s Ht.
    + apply vanished_keeps.
    + unfold sensor_changes. destruct (String.eqb _ _); [|destruct (String.eqb _ _); [|apply keeps_ret]].
      * apply keeps_bind; [apply keeps_mfor; intros; apply remove_settled|intros ?].
        apply keeps_bind; [apply keeps_gets|intros v].
        destruct (any_sensors_left v); [apply keeps_ret|by apply still_settled, emit_still].
      * apply hotplug_keeps; [done|intros d Hd; by apply add_settled|]. intros A m.
        apply still_settled, world_still.
    + apply keeps_bind; [apply keeps_gets|intros v].
      destruct (driver_type_exists v u); [apply changed_keeps|apply keeps_ret].
Qed.

(** ** Start-up *)

(** No invocation is kept for a later reading. *)
Definition nobody_waits (s : S) : Prop :=
  forall t, invocations_delayed (slots s t) = [] /\ event_delayed (slots s t) = false.

(** Found, not opened yet. *)
Definition fresh (t : DriverType) (s : S) : Prop :=
  known t s /\ calm t s /\ dev (slots s t) = None.

Lemma fresh_settled t s : fresh t s -> settled t s.
Proof. intros (Hk & Hc & Hd). split; [done|split; [|done]]. intros d p _. by rewrite Hd. Qed.

Lemma match_fresh t l device found : (forall d, d ∈ l -> d ∈ drivers) ->
  keeps (fresh t) (match_drivers l device found).
Proof.
  revert found. induction l as [|d l IH]; intros found Hl; simpl; [apply keeps_ret|].
  assert (forall found, keeps (fresh t) (match_drivers l device found)) as IH'
    by (intros; apply IH; set_solver).
  apply keeps_bind; [apply keeps_gets|intros s]. destruct (driver_type_exists _ _); [apply IH'|].
  intros v Hv. rewrite post_bind. cbv beta. pose proof (discovered d device v) as Hok.
  assert (fresh t (post (in_world (driver_discover d device)) v)) as Hv'.
  { unfold post, in_world. by destruct (driver_discover d device (world v)). }
  destruct (res _ v); [|by apply IH'].
  revert Hv'. apply (keeps_bind (fresh t)); [|intros ?; apply IH'].
  intros u Hu. unfold fresh, known, calm, post, change, modify.
  cbn [snd set_slot slots lazy out]. destruct (bool_decide_reflect (t = drv_type d)) as [->|]; [|exact Hu].
  destruct Hu as ((Hz & _) & Hc & Hd). split; [split; [done|]|by split].
  cbn [install drv]. intros d' [= <-]. split; [|done]. apply Hok; [apply Hl; set_solver|done].
Qed.

Lemma find_fresh t devices found : keeps (fresh t) (find_sensors drivers devices found).
Proof.
  revert found. induction devices as [|device devices IH]; intros found; simpl; [apply keeps_ret|].
  apply keeps_bind; [by apply match_fresh|intros f]. apply keeps_bind; [apply keeps_gets|intros s].
  destruct (all_found s); [apply keeps_ret|apply IH].
Qed.

Lemma start_far t t' : t <> t' -> keeps (settled t) (start_sensor atan2 t').
Proof.
  intros Hn. unfold start_sensor. apply keeps_bind; [by apply still_settled, change_far|intros ?].
  apply keeps_bind; [apply keeps_gets|intros x]. destruct (drv x) as [d|]; [|apply keeps_ret].
  destruct (udev_dev x) as [device|]; [|apply keeps_ret].
  apply keeps_bind; [apply still_settled, world_still|intros [p|]];
    [|by apply still_settled, change_far].
  apply keeps_bind; [apply still_settled|intros ?].
  { intros s. unfold sview, rview, post, emit, modify. simpl. by rewrite bool_decide_false. }
  apply keeps_bind; [by apply still_settled, change_far|intros ?].
  apply keeps_bind; [apply keeps_gets|intros s].
  destruct (lazy s); [apply keeps_ret|apply polling_keeps].
Qed.

Lemma start_settled t t' : keeps (settled t) (start_sensor atan2 t').
Proof.
  destruct (decide (t = t')) as [<-|Hn]; [|by apply start_far].
  intros s Hs. unfold start_sensor. rewrite post_bind. cbv beta.
  set (s0 := post (change t (set_delayed [])) s).
  assert (settled t s0) as Hs0.
  { destruct Hs as (Hk & Hr & Hc). unfold s0, settled, known, ready, calm, post, change, modify in *.
    cbn [snd set_slot slots lazy out]. rewrite bool_decide_true by done. simpl. by destruct Hc. }
  clearbody s0. clear Hs. rewrite post_bind. cbv beta.
  change (res (slot t) s0) with (slots s0 t). change (post (slot t) s0) with s0.
  destruct (drv (slots s0 t)) as [d|] eqn:Ed; [|exact Hs0].
  destruct (udev_dev (slots s0 t)) as [device|]; [|exact Hs0].
  rewrite post_bind. cbv beta.
  assert (res (in_world (Priv := Priv) (Dev := Dev) (driver_open d device)) s0 =
          res (driver_open d device) (world s0)) as Er.
  { unfold res, in_world. by destruct (driver_open d device (world s0)). }
  rewrite Er. set (s1 := post (in_world _) s0).
  assert (sview t s0 = sview t s1) as E1 by (symmetry; apply world_still).
  assert (settled t s1) as ((Hl & Hk) & Hr & Hc) by (by apply (settled_view t s0)).
  assert (drv (slots s1 t) = Some d) as Ed1 by (unfold sview, rview in E1; congruence).
  clearbody s1. destruct (res (driver_open d device) (world s0)) as [p|] eqn:Ep.
  - set (f := fun x : Slot Drv Priv Dev => _). destruct (Hk d Ed1) as [Hin Ht].
    destruct (opened_settled t s1 d p device (world s0) f) as [Hs2 _]; try done.
    { unfold calm in *. by rewrite !set_slot_get. }
    rewrite post_bind in Hs2. cbv beta in Hs2.
    rewrite (post_bind (emit (OOpen t))). cbv beta. rewrite (post_bind (change t f)). cbv beta.
    set (s2 := post (change t f) _) in *. clearbody s2. revert s2 Hs2.
    apply keeps_bind; [apply keeps_gets|intros s2].
    destruct (lazy s2); [apply keeps_ret|apply polling_keeps].
  - unfold settled, known, ready, calm, post, change, modify.
    cbn [snd set_slot slots lazy out]. by rewrite bool_decide_true.
Qed.

Lemma start_watched t : keeps watched (start_sensor atan2 t).
Proof.
  apply unclaimed_watched. intros u. unfold start_sensor.
  apply same_bind; [by apply change_unclaimed|intros ?]. apply same_bind; [done|intros x].
  destruct (drv x) as [d|]; [|done]. destruct (udev_dev x) as [device|]; [|done].
  apply same_bind; [apply world_unclaimed|intros [p|]; [|by apply change_unclaimed]].
  apply same_bind; [done|intros ?]. apply same_bind; [by apply change_unclaimed|intros ?].
  apply same_bind; [done|intros s]. apply same_if; [done|apply polling_unclaimed].
Qed.

Lemma match_unclaimed t l device found : unclaimed t (match_drivers l device found).
Proof.
  revert found. induction l as [|d l IH]; intros found; simpl; [done|].
  apply same_bind; [done|intros s]. apply same_if; [apply IH|].
  apply same_bind; [apply world_unclaimed|intros ok]. apply same_if; [|apply IH].
  apply same_bind; [by apply change_unclaimed|intros ?; apply IH].
Qed.

Lemma find_watched devices found : keeps watched (find_sensors drivers devices found).
Proof.
  apply unclaimed_watched. intros t. revert found. induction devices as [|device devices IH];
    intros found; simpl; [done|].
  apply same_bind; [apply match_unclaimed|intros f]. apply same_bind; [done|intros s].
  apply same_if; [done|apply IH].
Qed.

(** The keeping of an invariant by the start-up, once sensors were looked for. *)
Lemma name_acquired_keeps (I : S -> Prop) devices (s : S) :
  I (post (find_sensors drivers devices false) s) ->
  (forall t, keeps I (start_sensor atan2 t)) -> keeps I (emit OQuit) ->
  (forall mask, keeps I (send_dbus_event mask)) ->
  I (post (name_acquired_handler atan2 drivers devices) s).
Proof.
  intros Hf Hs Hq He. unfold name_acquired_handler. rewrite post_bind. cbv beta.
  set (s1 := post (find_sensors drivers devices false) s) in *. clearbody s1.
  destruct (negb _); [by apply Hq|]. revert s1 Hf. apply keeps_bind.
  { apply keeps_mfor. intros t _. apply Hs. }
  intros ?. apply keeps_bind; [apply keeps_gets|intros u]. destruct (negb _); [apply Hq|].
  apply keeps_bind; [apply He|intros ?; apply He].
Qed.

Lemma started_sound (w : W) (devices : list Dev) :
  sound (post (name_acquired_handler atan2 drivers devices) (start w lz)).
Proof.
  split.
  - apply name_acquired_keeps.
    + apply find_watched. intros t c v. simpl. by rewrite lookup_empty.
    + apply start_watched.
    + by apply unclaimed_watched.
    + intros mask. apply unclaimed_watched. intros t. apply event_unclaimed.
  - intros t. split; [|apply started_polled]. apply name_acquired_keeps.
    + apply fresh_settled, find_fresh. by split_and!.
    + apply start_settled.
    + by apply still_settled, emit_still.
    + intros mask. apply still_settled, event_still.
Qed.

Lemma run_sound l : keeps sound (run g_bus_watch_name is_authorized atan2 drivers l).
Proof. apply keeps_mfor. intros e _. apply step_sound. Qed.

Lemma sound_pending inv s : sound s -> pending inv s = 0.
Proof.
  intros [_ Hs]. unfold pending, all_types. cbn [foldr].
  assert (forall t, cnt inv (invocations_delayed (slots s t)) = 0) as Hz.
  { intros t. destruct (Hs t) as [(_ & _ & -> & _) _]. done. }
  by rewrite !Hz.
Qed.

Lemma run_answered (w : W) (devices : list Dev) (l : list (@Event Dev)) (inv : Z) :
  let s0 := post (name_acquired_handler atan2 drivers devices) (start w lz) in
  let s := post (run g_bus_watch_name is_authorized atan2 drivers l) s0 in
  answered inv (out s) = answered inv (out s0) + requests inv l /\
  forall t, invocations_delayed (slots s t) = [] /\ event_delayed (slots s t) = false.
Proof.
  intros s0 s. assert (sound s0) as H0 by apply started_sound.
  assert (sound s) as H1 by (by apply run_sound). split.
  - pose proof (run_handled g_bus_watch_name is_authorized atan2 drivers inv l s0) as Hh.
    fold s in Hh. unfold handled in Hh. rewrite !sound_pending in Hh by done. lia.
  - intros t. by destruct H1 as [_ Hs]; destruct (Hs t) as [(_ & _ & ?) _].
Qed.
(** C7: When every driver answers as [Obeys] says, in every state the service
    reaches nobody waits, and each invocation made since the start has been
    answered as often as it was made: each call gets its answer before the
    next event is handled. *)
Theorem every_call_answered (w : W) (devices : list Dev) (l : list (@Event Dev)) (inv : Z) :
  let s0 := post (name_acquired_handler atan2 drivers devices) (start w lz) in
  let s := post (run g_bus_watch_name is_authorized atan2 drivers l) s0 in
  answered inv (out s) = answered inv (out s0) + requests inv l /\
  nobody_waits s.
Proof. apply run_answered. Qed.
End Claims.

(** The concrete light sensor of Proxy.v that reads when it is switched on. *)
Lemma every_call_answered_witness :
  let s0 := post (name_acquired_handler Sim.atan [Sim.light true] [Sim.Other; Sim.Als]) (start tt true) in
  let s := post (run Sim.watch Sim.allow Sim.atan [Sim.light true]
                   [Method ":1" "ClaimLight" 1; Method ":2" "ClaimLight" 2; Vanished (Some ":1");
                    Uevent "remove" Sim.Als; Method ":3" "ClaimLight" 3; Uevent "add" Sim.Als]%string) s0 in
  answered 3 (out s) = 1.
Proof.
  intros s0 s. assert (answered 3 (out s0) = 0) as E0 by (vm_compute; reflexivity).
  destruct (every_call_answered Sim.watch Sim.allow Sim.atan [Sim.light true] (fun _ _ _ => True) true)
    with (w := tt) (devices := [Sim.Other; Sim.Als]) (inv := 3)
    (l := [Method ":1" "ClaimLight" 1; Method ":2" "ClaimLight" 2; Vanished (Some ":1");
           Uevent "remove" Sim.Als; Method ":3" "ClaimLight" 3; Uevent "add" Sim.Als]%string) as [E _].
  - intros h c. unfold Sim.watch. lia.
  - intros d [Hd _]. apply list_elem_of_singleton in Hd as ->. split; try done.
    intros p b w _ _. exists (Light f64_one true), []. by split.
  - fold s0 in E. fold s in E. rewrite E0 in E. exact E.
Defined.
