(* ===== verification/Monitor.v ===== *)
(** * The monitor of the sensors (monitor-sensor.c)

    A client of the proxy on the bus: it claims the sensors it was asked to
    watch and prints their values.  A proxy object of GDBus has the properties
    of its object in a cache, filled when it is made and updated by signals.
    What GLib refuses (a null object or a value of another type) it answers
    with a default and a critical message, which is a line here. *)

From Stdlib Require Import ZArith Lia SpecFloat.
From stdpp Require Import base list option strings gmap.
From S2P Require Import Prelude Floats Drivers MxcFilter Orientation Proxy.

#[local] Open Scope Z_scope.
#[local] Open Scope prog_scope.

(** ** State *)

Abbreviation Cache := (gmap string Value).

(** What is printed: of the process, of a change, and of the values at the start
    ([None]: there is no such sensor). *)
Inductive Line :=
  | LWaiting | LServiceAppeared | LServiceVanished | LCritical | LWarning
  | LAccelerometer (there : bool) | LOrientation (s : option string) | LTilt (s : option string)
  | LLightSensor (there : bool) | LLevel (d : float) (unit : option string)
  | LProximitySensor (there : bool) | LNear (near : bool)
  | LCompass (there : bool) | LHeading (d : float)
  | IAccelerometer (v : option (option string * option string)) | ILight (v : option (float * option string))
  | IProximity (v : option bool) | ICompass (v : option (option float)).

(** How the process goes on; [Corrupts]: a value was released twice, and what
    follows has no meaning. *)
Inductive Fate := Runs | Quits | Crashes | Corrupts.

Record Monitor := Mon {
  watch_accel : bool; watch_prox : bool; watch_compass : bool; watch_light : bool;
  iio_proxy : option Cache; iio_proxy_compass : option Cache;
  claimed : list string; lines : list Line; fate : Fate
}.
Definition Monitor_again (m : Monitor) : Monitor := Mon (watch_accel m) (watch_prox m) (watch_compass m)
  (watch_light m) (iio_proxy m) (iio_proxy_compass m) (claimed m) (lines m) (fate m).
#[export] Instance put_iio_proxy : Field iio_proxy := ltac:(field_of Monitor_again iio_proxy).
#[export] Instance put_iio_proxy_compass : Field iio_proxy_compass := ltac:(field_of Monitor_again iio_proxy_compass).
#[export] Instance put_claimed : Field claimed := ltac:(field_of Monitor_again claimed).
#[export] Instance put_lines : Field lines := ltac:(field_of Monitor_again lines).
#[export] Instance put_fate : Field fate := ltac:(field_of Monitor_again fate).

(** The bus, by the lines printed so far: a proxy object with what its cache was
    filled with ([None]: it could not be made) for the object and interface of the compass or the
    main ones, and the answer to a call. *)
Inductive Answer := Answered | Failed (cancelled : bool).
Class Bus := {
  proxy_new : list Line -> bool -> option Cache;
  proxy_call : list Line -> string -> Answer
}.

(** ** GLib *)

Definition g_print (l : Line) : M Monitor unit := modify (fun m => m <| lines := lines m ++ [l] |>).

Definition get_cached_property (proxy : Monitor -> option Cache) (name : string) : M Monitor (option Value) :=
  p <- gets proxy ;;
  match p with
  | None => g_print LCritical ;;; ret None
  | Some cache => ret (cache !! name)
  end.
Definition variant_boolean (v : option Value) : M Monitor bool :=
  match v with Some (VBool b) => ret b | _ => g_print LCritical ;;; ret false end.
Definition variant_string (v : option Value) : M Monitor (option string) :=
  match v with Some (VString s) => ret s | _ => g_print LCritical ;;; ret None end.
Definition variant_double (v : option Value) : M Monitor float :=
  match v with Some (VDouble d) => ret d | _ => g_print LCritical ;;; ret f0 end.
Definition variant_unref (v : option Value) : M Monitor unit :=
  match v with Some _ => ret tt | None => g_print LCritical end.

(** ** Changes *)

(** A property that changed is read from the cache, printed and released. *)
Definition print_change {A} (changed : list string) (name : string) (proxy : Monitor -> option Cache)
    (get : option Value -> M Monitor A) (line : A -> Line) : M Monitor unit :=
  if bool_decide (name ∈ changed) then
    v <- get_cached_property proxy name ;;
    a <- get v ;; g_print (line a) ;;; variant_unref v
  else ret tt.

Definition properties_changed (changed : list string) : M Monitor unit :=
  print_change changed "HasAccelerometer" iio_proxy variant_boolean LAccelerometer ;;;
  print_change changed "AccelerometerOrientation" iio_proxy variant_string LOrientation ;;;
  print_change changed "AccelerometerTilt" iio_proxy variant_string LTilt ;;;
  print_change changed "HasAmbientLight" iio_proxy variant_boolean LLightSensor ;;;
  (if bool_decide ("LightLevel" ∈ changed) then
     v <- get_cached_property iio_proxy "LightLevel" ;;
     unit <- get_cached_property iio_proxy "LightLevelUnit" ;;
     d <- variant_double v ;; s <- variant_string unit ;; g_print (LLevel d s) ;;;
     variant_unref v ;;; variant_unref unit
   else ret tt) ;;;
  print_change changed "HasProximity" iio_proxy variant_boolean LProximitySensor ;;;
  print_change changed "ProximityNear" iio_proxy variant_boolean LNear ;;;
  print_change changed "HasCompass" iio_proxy_compass variant_boolean LCompass ;;;
  print_change changed "CompassHeading" iio_proxy_compass variant_double LHeading.

(** ** The start

    The heading, which is a property of the other object, is looked for in
    the main one; a heading that is found is released twice. *)

Definition print_initial_accel : M Monitor unit :=
  v <- get_cached_property iio_proxy "HasAccelerometer" ;;
  has <- variant_boolean v ;;
  if (has : bool) then
    variant_unref v ;;;
    v <- get_cached_property iio_proxy "AccelerometerOrientation" ;;
    y <- get_cached_property iio_proxy "AccelerometerTilt" ;;
    o <- variant_string v ;; t <- variant_string y ;; g_print (IAccelerometer (Some (o, t))) ;;; variant_unref v
  else g_print (IAccelerometer None) ;;; variant_unref v.

Definition print_initial_light : M Monitor unit :=
  v <- get_cached_property iio_proxy "HasAmbientLight" ;;
  has <- variant_boolean v ;;
  if (has : bool) then
    variant_unref v ;;;
    v <- get_cached_property iio_proxy "LightLevel" ;;
    unit <- get_cached_property iio_proxy "LightLevelUnit" ;;
    d <- variant_double v ;; s <- variant_string unit ;; g_print (ILight (Some (d, s))) ;;;
    variant_unref unit ;;; variant_unref v
  else g_print (ILight None) ;;; variant_unref v.

Definition print_initial_prox : M Monitor unit :=
  v <- get_cached_property iio_proxy "HasProximity" ;;
  has <- variant_boolean v ;;
  if (has : bool) then
    variant_unref v ;;;
    v <- get_cached_property iio_proxy "ProximityNear" ;;
    near <- variant_boolean v ;; g_print (IProximity (Some near)) ;;; variant_unref v
  else g_print (IProximity None) ;;; variant_unref v.

Definition print_initial_compass : M Monitor unit :=
  v <- get_cached_property iio_proxy_compass "HasCompass" ;;
  has <- variant_boolean v ;;
  if (has : bool) then
    variant_unref v ;;;
    v <- get_cached_property iio_proxy "CompassHeading" ;;
    match v with
    | Some _ =>
        d <- variant_double v ;; g_print (ICompass (Some (Some d))) ;;;
        modify (fun m => m <| fate := Corrupts |>)
    | None => g_print (ICompass (Some None))
    end
  else g_print (ICompass None).

Definition print_initial_values : M Monitor unit :=
  m <- gets id ;;
  (if watch_accel m then print_initial_accel else ret tt) ;;;
  (if watch_light m then print_initial_light else ret tt) ;;;
  (if watch_prox m then print_initial_prox else ret tt) ;;;
  match iio_proxy_compass m with
  | None => ret tt
  | Some _ => print_initial_compass
  end.

Section Client.
Context `{Bus}.

(** A claim; [false]: the callback is left.  Without a proxy there is no answer
    and no error, and the message of the error is read all the same. *)
Definition claim (watched : bool) (proxy : Monitor -> option Cache) (method : string) : M Monitor bool :=
  if negb watched then ret true
  else
    p <- gets proxy ;;
    match p with
    | None => g_print LCritical ;;; modify (fun m => m <| fate := Crashes |>) ;;; ret false
    | Some _ =>
        h <- gets lines ;;
        match proxy_call h method with
        | Answered => modify (fun m => m <| claimed := claimed m ++ [method] |>) ;;; ret true
        | Failed cancelled =>
            (if cancelled then ret tt else g_print LWarning) ;;;
            modify (fun m => m <| fate := Quits |>) ;;; ret false
        end
    end.

(** Connecting to a signal of an object that is not there is refused. *)
Definition make_proxy (compass : bool) : M Monitor unit :=
  h <- gets lines ;;
  modify (fun m => if compass then m <| iio_proxy_compass := proxy_new h true |>
                   else m <| iio_proxy := proxy_new h false |>) ;;;
  match proxy_new h compass with None => g_print LCritical | Some _ => ret tt end.

Definition claim_watched : M Monitor bool :=
  m <- gets id ;;
  ok <- claim (watch_accel m) iio_proxy "ClaimAccelerometer" ;;
  if negb ok then ret false else
  ok <- claim (watch_light m) iio_proxy "ClaimLight" ;;
  if negb ok then ret false else
  ok <- claim (watch_prox m) iio_proxy "ClaimProximity" ;;
  if negb ok then ret false else
  claim (watch_compass m) iio_proxy_compass "ClaimCompass".

Definition appeared_cb : M Monitor unit :=
  g_print LServiceAppeared ;;;
  make_proxy false ;;;
  m <- gets id ;;
  (if watch_compass m then make_proxy true else ret tt) ;;;
  ok <- claim_watched ;;
  if negb ok then ret tt else print_initial_values.

Definition vanished_cb : M Monitor unit :=
  m <- gets id ;;
  if negb (bool_decide (iio_proxy m = None)) || negb (bool_decide (iio_proxy_compass m = None)) then
    modify (fun m => m <| iio_proxy := None |> <| iio_proxy_compass := None |>) ;;; g_print LServiceVanished
  else ret tt.

(** What the main loop hands over: the name of the service, and a signal for
    one of the two objects, which GDBus first stores. *)
Inductive BusEvent := Appeared | Vanished | Changed (compass : bool) (props : list (string * Value)) (invalidated : list string).

Definition bus_event (e : BusEvent) : M Monitor unit :=
  match e with
  | Appeared => appeared_cb
  | Vanished => vanished_cb
  | Changed compass props invalidated =>
      m <- gets id ;;
      match (if compass then iio_proxy_compass m else iio_proxy m) with
      | None => ret tt
      | Some cache =>
          let cache' := foldr delete (list_to_map props ∪ cache) invalidated in
          modify (fun m => if compass then m <| iio_proxy_compass := Some cache' |> else m <| iio_proxy := Some cache' |>) ;;;
          properties_changed props.*1
      end
  end.

Fixpoint main_loop (events : list BusEvent) : M Monitor unit :=
  match events with
  | [] => ret tt
  | e :: events =>
      bus_event e ;;;
      m <- gets id ;;
      match fate m with Runs => main_loop events | _ => ret tt end
  end.

(** The options; [None]: they cannot be parsed. *)
Record WatchOptions := Opts { opt_all : bool; opt_accel : bool; opt_prox : bool; opt_compass : bool; opt_light : bool }.

Definition monitor_start (o : WatchOptions) : Monitor :=
  let every := (negb (opt_accel o) && negb (opt_prox o) && negb (opt_compass o) && negb (opt_light o)) || opt_all o in
  Mon (every || opt_accel o) (every || opt_prox o) (every || opt_compass o) (every || opt_light o)
    None None [] [LWaiting] Runs.

(** The exit code, if it ends ([None]: it still waits, or it crashed), and its state. *)
Definition monitor_main (options : option WatchOptions) (events : list BusEvent) : option Z * option Monitor :=
  match options with
  | None => (Some 1, None)
  | Some o =>
      let m := post (main_loop events) (monitor_start o) in
      (match fate m with Quits => Some 0 | _ => None end, Some m)
  end.
End Client.

(** ** With the service *)

(** The properties of the two interfaces (net.hadess.SensorProxy.xml), and what
    [GetAll] fills a cache with. *)
Definition main_properties : list string :=
  ["HasAccelerometer"; "AccelerometerOrientation"; "AccelerometerTilt"; "HasAmbientLight"; "LightLevelUnit";
   "LightLevel"; "HasProximity"; "ProximityNear"]%string.
Definition compass_properties : list string := ["HasCompass"; "CompassHeading"]%string.

Definition get_all (get : string -> option Value) (names : list string) : Cache :=
  foldr (fun n cache => match get n with Some v => <[n := v]> cache | None => cache end) ∅ names.

Lemma get_all_lookup get names n : get_all get names !! n = if bool_decide (n ∈ names) then get n else None.
Proof.
  unfold get_all. induction names as [|a names IH]; [done|]. simpl.
  destruct (decide (n = a)) as [->|Hn].
  - rewrite bool_decide_eq_true_2 by set_solver. destruct (get a) as [v|] eqn:E; simpl; [by rewrite lookup_insert_eq|].
    rewrite IH. by destruct (bool_decide _).
  - rewrite (bool_decide_ext (n ∈ a :: names) (n ∈ names)) by set_solver.
    destruct (get a); simpl; [by rewrite lookup_insert_ne|done].
Qed.

Section Served.
Context {Dev W Priv : Type}.
#[local] Abbreviation Service := (SensorData W (@SensorDriver Dev W Priv) Priv Dev).

Definition main_cache (s : Service) : Cache := get_all (fun n => handle_get_property n s) main_properties.
Definition compass_cache (s : Service) : Cache := get_all (fun n => handle_compass_get_property n s) compass_properties.

(** What is printed of each sensor at the start. *)
Definition accel_line (s : Service) : Line := IAccelerometer
  (if driver_type_exists s DRIVER_TYPE_ACCEL
   then Some (orientation_to_string (previous_orientation (prev s)), tilt_to_string (previous_tilt (prev s)))
   else None).
Definition light_line (s : Service) : Line := ILight
  (if driver_type_exists s DRIVER_TYPE_LIGHT
   then Some (previous_level (prev s), Some (if uses_lux_ (prev s) then "lux" else "vendor")%string) else None).
Definition prox_line (s : Service) : Line := IProximity
  (if driver_type_exists s DRIVER_TYPE_PROXIMITY then Some (previous_prox_near (prev s)) else None).
(** A compass has no heading, whatever the service knows. *)
Definition compass_line (s : Service) : Line := ICompass
  (if driver_type_exists s DRIVER_TYPE_COMPASS then Some None else None).

Definition watched {A} (m : Monitor) (accel light prox compass : A) : list A :=
  (if watch_accel m then [accel] else []) ++ (if watch_light m then [light] else []) ++
  (if watch_prox m then [prox] else []) ++ (if watch_compass m then [compass] else []).

Definition initial_lines (m : Monitor) (s : Service) : list Line :=
  watched m (accel_line s) (light_line s) (prox_line s) (compass_line s).
Definition watched_claims (m : Monitor) : list string :=
  watched m "ClaimAccelerometer"%string "ClaimLight"%string "ClaimProximity"%string "ClaimCompass"%string.

(** The objects of a service that were made. *)
Definition connected (s : Service) (m : Monitor) : Prop :=
  iio_proxy m = Some (main_cache s) /\ iio_proxy_compass m = if watch_compass m then Some (compass_cache s) else None.

Lemma connected_cached s m n : connected s m ->
  get_cached_property iio_proxy n m =
    (if bool_decide (n ∈ main_properties) then handle_get_property n s else None, m).
Proof. intros [Em _]. unfold get_cached_property, bind, gets, ret. rewrite Em. unfold main_cache. by rewrite get_all_lookup. Qed.

Lemma compass_cached s m n : connected s m -> watch_compass m = true ->
  get_cached_property iio_proxy_compass n m =
    (if bool_decide (n ∈ compass_properties) then handle_compass_get_property n s else None, m).
Proof. intros [_ Ec] Hw. rewrite Hw in Ec. unfold get_cached_property, bind, gets, ret. rewrite Ec. unfold compass_cache. by rewrite get_all_lookup. Qed.

(** Printing changes no cache. *)
Lemma connected_print s m l : connected s m -> connected s (m <| lines := l |>).
Proof. done. Qed.

Lemma accel_printed s m : connected s m ->
  post print_initial_accel m = m <| lines := lines m ++ [accel_line s] |>.
Proof.
  intros Hc. unfold print_initial_accel, accel_line, post, bind. rewrite (connected_cached s) by done. simpl.
  destruct (driver_type_exists s _); simpl; [|done]. rewrite !(connected_cached s) by done. done.
Qed.

Lemma light_printed s m : connected s m ->
  post print_initial_light m = m <| lines := lines m ++ [light_line s] |>.
Proof.
  intros Hc. unfold print_initial_light, light_line, post, bind. rewrite (connected_cached s) by done. simpl.
  destruct (driver_type_exists s _); simpl; [|done]. rewrite !(connected_cached s) by done. done.
Qed.

Lemma prox_printed s m : connected s m ->
  post print_initial_prox m = m <| lines := lines m ++ [prox_line s] |>.
Proof.
  intros Hc. unfold print_initial_prox, prox_line, post, bind. rewrite (connected_cached s) by done. simpl.
  destruct (driver_type_exists s _); simpl; [|done]. rewrite !(connected_cached s) by done. done.
Qed.

(** The main object has no heading. *)
Lemma compass_printed s m : connected s m -> watch_compass m = true ->
  post print_initial_compass m = m <| lines := lines m ++ [compass_line s] |>.
Proof.
  intros Hc Hw. unfold print_initial_compass, compass_line, post, bind. rewrite (compass_cached s) by done. simpl.
  destruct (driver_type_exists s _); simpl; [|done]. by rewrite (connected_cached s).
Qed.

Lemma print_nothing m : m <| lines := lines m ++ [] |> = m.
Proof. destruct m. unfold put, put_lines. simpl. by rewrite app_nil_r. Qed.

Lemma initial_printed s m : connected s m ->
  post print_initial_values m = m <| lines := lines m ++ initial_lines m s |>.
Proof.
  intros Hc. unfold print_initial_values. rewrite post_bind.
  change (res (gets id) m) with m. change (post (gets id) m) with m. rewrite post_bind.
  set (m1 := post (if watch_accel m then print_initial_accel else ret tt) m).
  assert (m1 = m <| lines := lines m ++ if watch_accel m then [accel_line s] else [] |>) as E1.
  { subst m1. destruct (watch_accel m); [by apply (accel_printed s)|by rewrite print_nothing]. }
  assert (connected s m1) as H1 by (rewrite E1; exact Hc). rewrite post_bind.
  set (m2 := post (if watch_light m then print_initial_light else ret tt) m1).
  assert (m2 = m1 <| lines := lines m1 ++ if watch_light m then [light_line s] else [] |>) as E2.
  { subst m2. destruct (watch_light m); [by apply (light_printed s)|by rewrite print_nothing]. }
  assert (connected s m2) as H2 by (rewrite E2; exact H1). rewrite post_bind.
  set (m3 := post (if watch_prox m then print_initial_prox else ret tt) m2).
  assert (m3 = m2 <| lines := lines m2 ++ if watch_prox m then [prox_line s] else [] |>) as E3.
  { subst m3. destruct (watch_prox m); [by apply (prox_printed s)|by rewrite print_nothing]. }
  assert (connected s m3) as H3 by (rewrite E3; exact H2).
  assert (watch_compass m3 = watch_compass m) as Ew by (by rewrite E3, E2, E1).
  unfold initial_lines, watched. destruct Hc as [_ Ec]. rewrite Ec. destruct (watch_compass m).
  - rewrite (compass_printed s) by done. rewrite E3, E2, E1. simpl. by rewrite <- !app_assoc.
  - simpl. rewrite E3, E2, E1. simpl. by rewrite app_nil_r, <- !app_assoc.
Qed.

(** A service that answers. *)
Class Serves (s : Service) `{Bus} := {
  serves_main h : proxy_new h false = Some (main_cache s);
  serves_compass h : proxy_new h true = Some (compass_cache s);
  serves_call h method : proxy_call h method = Answered
}.

Lemma claim_run `{Bus} `{!Serves s} watched proxy method m : is_Some (proxy m) \/ watched = false ->
  claim watched proxy method m =
    (true, m <| claimed := claimed m ++ if (watched : bool) then [method] else [] |>).
Proof.
  unfold claim. destruct watched; simpl.
  - intros [[c E]|]; [|done]. unfold bind, gets. rewrite E. by rewrite serves_call.
  - intros _. destruct m. unfold put, put_claimed, ret. simpl. by rewrite app_nil_r.
Qed.

Lemma claims_made `{Bus} `{!Serves s} m : connected s m ->
  claim_watched m = (true, m <| claimed := claimed m ++ watched_claims m |>).
Proof.
  intros [Em Ec]. unfold claim_watched. set (rest := fun m0 : Monitor => _). unfold bind at 1, gets. subst rest. simpl.
  unfold bind. rewrite claim_run by (left; by rewrite Em). simpl. rewrite claim_run by (left; simpl; by rewrite Em). simpl.
  rewrite claim_run by (left; simpl; by rewrite Em). simpl.
  rewrite claim_run by (simpl; rewrite Ec; destruct (watch_compass m); eauto). simpl.
  unfold watched_claims, watched. by rewrite <- !app_assoc.
Qed.
End Served.

(** ** Properties *)

(** When the service appears the monitor makes its objects, claims the sensors it
    was asked to watch, each once and in order, and prints for each of them what the service
    says of it; nothing it asks of GLib is refused. *)
Theorem appearance_reported {Dev W Priv} `{Bus}
    (s : SensorData W (@SensorDriver Dev W Priv) Priv Dev) `{!Serves s} m :
  iio_proxy_compass m = None -> let t := post appeared_cb m in
  connected s t /\ claimed t = claimed m ++ watched_claims m /\ fate t = fate m /\
  lines t = lines m ++ LServiceAppeared :: initial_lines m s.
Proof.
  intros Ec. unfold appeared_cb. rewrite !post_bind.
  set (m1 := post (g_print LServiceAppeared) m).
  assert (post (make_proxy false) m1 = m1 <| iio_proxy := Some (main_cache s) |>) as ->.
  { unfold make_proxy, post, bind, gets. simpl. by rewrite serves_main. }
  set (m2 := m1 <| iio_proxy := _ |>). change (res (gets id) m2) with m2. change (post (gets id) m2) with m2.
  set (m3 := post (if watch_compass m2 then make_proxy true else ret tt) m2).
  assert (m3 = m2 <| iio_proxy_compass := if watch_compass m then Some (compass_cache s) else None |>) as E3.
  { subst m3. change (watch_compass m2) with (watch_compass m). destruct (watch_compass m).
    - unfold make_proxy, post, bind, gets. simpl. by rewrite serves_compass.
    - unfold post, ret. simpl. subst m2 m1. destruct m. simpl in Ec. by rewrite Ec. }
  assert (connected s m3) as H3 by (rewrite E3; split; reflexivity).
  set (m4 := m3 <| claimed := claimed m3 ++ watched_claims m3 |>).
  assert (post (if negb (res claim_watched m3) then ret tt else print_initial_values) (post claim_watched m3) =
    m4 <| lines := lines m4 ++ initial_lines m4 s |>) as ->.
  { unfold res, post at 2. rewrite claims_made by done. by apply (initial_printed s m4). }
  split; [exact H3|]. subst m4. rewrite E3. simpl. split; [done|]. split; [done|]. by rewrite <- app_assoc.
Qed.

(** Without the main object the first claim follows the message of an error that is
    not there. *)
Lemma no_object_crashes `{Bus} m : (forall h, proxy_new h false = None) -> watch_accel m = true ->
  fate (post appeared_cb m) = Crashes.
Proof.
  intros Hn Ha. unfold appeared_cb. rewrite !post_bind.
  set (m1 := post (g_print LServiceAppeared) m). set (m2 := post (make_proxy false) m1).
  assert (iio_proxy m2 = None /\ watch_accel m2 = true) as [E2 A2].
  { subst m2. unfold make_proxy, post, bind, gets. simpl. by rewrite Hn. }
  change (res (gets id) m2) with m2. change (post (gets id) m2) with m2.
  set (m3 := post (if watch_compass m2 then make_proxy true else ret tt) m2).
  assert (iio_proxy m3 = None /\ watch_accel m3 = true) as [E3 A3].
  { subst m3. destruct (watch_compass m2); [|done]. unfold make_proxy, post, bind, gets. simpl. by destruct (proxy_new _ _). }
  clearbody m3. unfold claim_watched, claim, res, post, bind, gets. simpl. rewrite A3. simpl. by rewrite E3.
Qed.

(** Would the main object have a heading, it was released twice. *)
Lemma heading_released_twice m cache compass d : iio_proxy m = Some cache -> iio_proxy_compass m = Some compass ->
  compass !! "HasCompass"%string = Some (VBool true) -> cache !! "CompassHeading"%string = Some d ->
  fate (post print_initial_compass m) = Corrupts.
Proof.
  intros Em Ec Eh Ed. unfold print_initial_compass, get_cached_property, post, bind, gets. simpl.
  rewrite Ec. simpl. rewrite Eh. simpl. rewrite Em. simpl. rewrite Ed. by destruct d.
Qed.

(** A service with an accelerometer and a compass. *)
Module Pocket.
Definition pocket_driver : @SensorDriver unit unit unit := {|
  drv_type := DRIVER_TYPE_ACCEL; discover _ := ret false; open _ := ret None; set_polling p _ := ret (p, []);
  close _ := ret tt
|}.
Definition pocket : SensorData unit (@SensorDriver unit unit unit) unit unit :=
  SD tt (fun t => Sl (if bool_decide (t = DRIVER_TYPE_ACCEL \/ t = DRIVER_TYPE_COMPASS) then Some pocket_driver else None)
                    None None ∅ [] false) true
    (Prev ORIENTATION_LEFT_UP TILT_VERTICAL f0 false f64_one false) [].
#[local] Instance pocket_bus : Bus := {|
  proxy_new _ (compass : bool) := Some (if compass then compass_cache pocket else main_cache pocket);
  proxy_call _ _ := Answered
|}.
#[local] Instance pocket_serves : Serves pocket.
Proof. done. Defined.
Definition pocket_monitor : Monitor := monitor_start (Opts false true false true false).

Lemma appearance_reported_witness : let t := post appeared_cb pocket_monitor in
  connected pocket t /\ claimed t = claimed pocket_monitor ++ watched_claims pocket_monitor /\
  fate t = fate pocket_monitor /\
  lines t = lines pocket_monitor ++ LServiceAppeared :: initial_lines pocket_monitor pocket.
Proof. apply (appearance_reported pocket pocket_monitor). reflexivity. Defined.

Example pocket_lines : lines (post appeared_cb pocket_monitor) =
  [LWaiting; LServiceAppeared; IAccelerometer (Some (Some "left-up", Some "vertical")%string); ICompass (Some None)].
Proof. reflexivity. Qed.
End Pocket.
