(* ===== verification/Polled.v ===== *)
(** * Drivers with a poll timer

    The part the polling drivers of iio-sensor-proxy share: a device with a
    main loop timer that [set_polling] attaches and detaches, and a routine the
    timer calls.  The class [Timed] lists what a driver fills in, [TimedLaws]
    what it promises of it; against these the timer is proved to follow the
    last switch.  Last, how such a device serves as a [SensorDriver]. *)

From Stdlib Require Import ZArith Lia.
From stdpp Require Import base list strings gmultiset.
From S2P Require Import Prelude Floats Drivers Os MxcFilter MxcDevice IioBuffer.

#[local] Open Scope Z_scope.
#[local] Open Scope prog_scope.

(** ** State *)

(** What lives outside the devices: the calls made, the files written, and
    the static variables of the fake drivers. *)
Record World := Wd { calls : Trace; files : FsHist; fake_level : float; fake_heading : float }.

#[export] Instance world_trace : HasTrace World := {|
  trace := calls; set_trace h w := Wd h (files w) (fake_level w) (fake_heading w)
|}.
#[export] Instance world_trace_law : HasTraceLaw World.
Proof. split; [done|done|by intros []]. Qed.

(** An open device: its timer (zero: none) and its own data. *)
Record Polled (D : Type) := Pl { timeout_id : Z; data : D; world : World }.
#[global] Arguments Pl {D}. #[global] Arguments timeout_id {D}.
#[global] Arguments data {D}. #[global] Arguments world {D}.

Definition set_timeout {D} (id_ : Z) (s : Polled D) : Polled D := Pl id_ (data s) (world s).
Definition set_data {D} (d : D) (s : Polled D) : Polled D := Pl (timeout_id s) d (world s).
Definition set_world {D} (w : World) (s : Polled D) : Polled D := Pl (timeout_id s) (data s) w.

#[export] Instance polled_trace {D} : HasTrace (Polled D) := {|
  trace s := trace (world s); set_trace h s := set_world (set_trace h (world s)) s
|}.
#[export] Instance polled_trace_law {D} : HasTraceLaw (Polled D).
Proof. split; [done|done|by intros [? ? []]]. Qed.

(** Steps of the world and of the files. *)
Definition on_world {D A} (m : M World A) : M (Polled D) A := fun s =>
  let (a, w) := m (world s) in (a, set_world w s).
Definition on_files {A} (m : M FsHist A) : M World A := fun w =>
  let (a, f) := m (files w) in (a, Wd (calls w) f (fake_level w) (fake_heading w)).

(** ** Device files

    What reads of sysfs attributes and of files answer, by the calls made so
    far; GUdev caches some of them. *)
Class DevFiles (Device : Type) := {
  attr_as_int_uncached : Trace -> Device -> string -> Z;
  attr_uncached : Trace -> Device -> string -> option string;
  file_get_contents : Trace -> string -> option string;
  file_exists : string -> bool;
  property_as_int : Device -> string -> Z;
  attr_as_int : Device -> string -> Z;
  device_file : Device -> option string;
  subsystem : Device -> option string
}.

Section Reads.
Context {Device : Type} `{DevFiles Device} {S : Type} `{HasTrace S}.

Definition g_udev_device_get_sysfs_attr_as_int_uncached (dev : Device) (attr : string) : M S Z :=
  call (fun h => attr_as_int_uncached h dev attr) (fun _ => EvGet attr).
Definition g_udev_device_get_sysfs_attr_uncached (dev : Device) (attr : string) :
    M S (option string) :=
  call (fun h => attr_uncached h dev attr) (fun _ => EvGet attr).
Definition g_file_get_contents (path : string) : M S (option string) :=
  call (fun h => file_get_contents h path) (fun _ => EvGet path).
End Reads.

(** ** The timer *)

(** What a driver fills in: whether switching on starts a timer, its interval
    in ms, what it calls, and what is done before and after the timer is
    detached and before it is attached. *)
Class Timed (D : Type) := {
  enabled : D -> bool;
  interval : D -> Z;
  tick : M (Polled D) unit;
  before_off : M (Polled D) unit;
  after_off : M (Polled D) unit;
  before_on : M (Polled D) unit
}.

Section Switch.
Context `{Os} {D : Type} `{Timed D}.

(** The body of every [set_polling]. *)
Definition switch_timer (state : bool) : M (Polled D) unit :=
  s <- gets id ;;
  if (0 <? timeout_id s) && state then ret tt
  else if (timeout_id s =? 0) && negb state then ret tt
  else
    (if negb (timeout_id s =? 0)
     then before_off ;;; g_source_remove (timeout_id s) ;;; modify (set_timeout 0) ;;; after_off
     else ret tt) ;;;
    d <- gets data ;;
    if state && enabled d then
      before_on ;;;
      id_ <- g_timeout_add (interval d) ;;
      modify (set_timeout id_) ;;;
      tick
    else ret tt.

(** What happens to an open device. *)
Inductive Op := Tick | Switch (state : bool).

(** The main loop dispatches the timer while it is attached. *)
Definition run_op (op : Op) : M (Polled D) unit :=
  s <- gets id ;;
  match op with
  | Tick => if 0 <? timeout_id s then tick else ret tt
  | Switch b => switch_timer b
  end.

Definition run_ops (l : list Op) : M (Polled D) unit := mfor l run_op.
End Switch.

(** ** Laws *)

(** Sources and timer. *)
Definition timer_view {D} (s : Polled D) := (timeout_id s, sources (trace s)).

Class TimedLaws (D : Type) `{Os} `{Timed D} : Prop := {
  tick_calm : same timer_view (tick (D := D));
  before_off_calm : same timer_view (before_off (D := D));
  after_off_calm : same timer_view (after_off (D := D));
  before_on_calm : same timer_view (before_on (D := D));
  always_enabled d : enabled (D := D) d = true
}.

(** The tick hands over exactly one reading of type [t] and the other parts
    none. *)
Class PromptLaws (D : Type) (t : DriverType) `{Os} `{Timed D} : Prop := {
  tick_emits (s : Polled D) : exists r, reading_of t r = true /\
    emitted (trace (post tick s)) = emitted (trace s) ++ [r];
  before_off_silent : same (fun s => emitted (trace s)) (before_off (D := D));
  after_off_silent : same (fun s => emitted (trace s)) (after_off (D := D));
  before_on_silent : same (fun s => emitted (trace s)) (before_on (D := D))
}.

(** The state of the last switch. *)
Fixpoint last_switch (on : bool) (l : list Op) : bool :=
  match l with
  | [] => on
  | Tick :: l => last_switch on l
  | Switch b :: l => last_switch b l
  end.

Section Theorems.
Context `{Os} `{!OsLaws} {D : Type} `{T : Timed D} `{!TimedLaws D}.

(** On or off; and, if [B] tells the other sources, the device's own is
    there exactly while it is on. *)
Definition timer_ok (B : option (gmultiset Z)) (on : bool) (s : Polled D) : Prop :=
  (forall B0, B = Some B0 -> sources (trace s) = B0 ⊎ src (timeout_id s)) /\
  if on then 0 < timeout_id s else timeout_id s = 0.

Lemma calm_ok {A} (m : M (Polled D) A) B on s :
  same timer_view m -> timer_ok B on s -> timer_ok B on (post m s).
Proof.
  intros Hm. assert (timeout_id (post m s) = timeout_id s) as E1 by exact (f_equal fst (Hm s)).
  assert (sources (trace (post m s)) = sources (trace s)) as E2 by exact (f_equal snd (Hm s)).
  unfold timer_ok. by rewrite E1, E2.
Qed.

Lemma switch_ok B on b s : timer_ok B on s -> timer_ok B b (post (switch_timer b) s).
Proof.
  intros Hs. unfold switch_timer. rewrite post_bind. cbv beta.
  change (res (gets id) s) with s. change (post (gets id) s) with s.
  pose proof Hs as [Hsrc Ho]. destruct on, b.
  - by rewrite (proj2 (Z.ltb_lt 0 _) Ho).
  - rewrite andb_false_r, andb_true_r. assert (timeout_id s =? 0 = false) as -> by lia. cbn [negb].
    rewrite post_bind. cbv beta. set (s1 := post _ s). assert (timer_ok B false s1) as H1.
    { unfold s1. rewrite post_bind. cbv beta. set (s2 := post before_off s).
      assert (timer_ok B true s2 /\ timeout_id s2 = timeout_id s) as [[Hs2 _] E2].
      { split; [by apply calm_ok; [apply before_off_calm|]|].
        exact (f_equal fst (before_off_calm s)). }
      clearbody s2. rewrite post_bind. cbv beta. rewrite post_bind. cbv beta.
      apply calm_ok; [apply after_off_calm|]. split; [|done]. intros B0 EB.
      change (sources (trace s2) ∖ {[+ timeout_id s +]} = B0 ⊎ ∅).
      rewrite (Hs2 B0 EB), E2, src_pos by done. multiset_solver. }
    clearbody s1. by rewrite post_bind.
  - rewrite Ho. change (0 <? 0) with false. change (0 =? 0) with true. cbn [andb negb].
    rewrite post_bind. cbv beta.
    change (post (ret tt) s) with s. rewrite post_bind. cbv beta.
    change (res (gets data) s) with (data s). change (post (gets data) s) with s.
    rewrite always_enabled. cbn [andb]. rewrite post_bind. cbv beta. set (s1 := post before_on s).
    assert (timer_ok B false s1) as [Hs1 H1] by (by apply calm_ok; [apply before_on_calm|]).
    clearbody s1. rewrite post_bind. cbv beta. rewrite post_bind. cbv beta.
    apply calm_ok; [apply tick_calm|].
    pose proof (source_add_pos (trace s1) (interval (data s))) as Hpos.
    split; [|exact Hpos]. intros B0 EB.
    change (sources (trace s1) ⊎ {[+ os_source_add (trace s1) (interval (data s)) +]} =
            B0 ⊎ src (os_source_add (trace s1) (interval (data s)))).
    rewrite (Hs1 B0 EB), H1, src_zero, src_pos by done. multiset_solver.
  - by rewrite Ho.
Qed.

Lemma run_op_ok B on op s : timer_ok B on s ->
  timer_ok B (last_switch on [op]) (post (run_op op) s).
Proof.
  intros Hs. unfold run_op. rewrite post_bind. cbv beta.
  change (post (gets id) s) with s. destruct op as [|b]; [|by apply (switch_ok B on)].
  cbn [last_switch]. destruct (0 <? _); [|done]. by apply calm_ok; [apply tick_calm|].
Qed.

Lemma run_ops_ok B on l s : timer_ok B on s ->
  timer_ok B (last_switch on l) (post (run_ops l) s).
Proof.
  revert on s. induction l as [|op l IH]; intros on s Hs; [exact Hs|].
  unfold run_ops. cbn [mfor]. rewrite post_bind. cbv beta.
  replace (last_switch on (op :: l)) with (last_switch (last_switch on [op]) l) by (by destruct op).
  by apply IH, run_op_ok.
Qed.

(** C27: The timer of a device follows the last switch: after any run of switches
    and ticks of a device that was opened, it is attached exactly when the last
    switch was to on, and no other source is left behind. *)
Theorem timer_follows_switch (d : D) (w : World) (l : list Op) :
  let s := post (run_ops l) (Pl 0 d w) in
  (0 < timeout_id s <-> last_switch false l = true) /\
  sources (trace s) = sources (trace w) ⊎ src (timeout_id s).
Proof.
  intros s. assert (timer_ok (Some (sources (trace w))) (last_switch false l) s) as [Hs Ho].
  { apply run_ops_ok. split; [|done]. intros B [= <-].
    change (sources (trace w) = sources (trace w) ⊎ ∅). multiset_solver. }
  split; [|by apply Hs]. destruct (last_switch false l); [tauto|]. split; [lia|done].
Qed.

(** ** As a [SensorDriver] *)

(** Switching a device in a world, with the readings it hands over. *)
Definition polled_switch (p : Polled D) (state : bool) : M World (Polled D * list Readings) :=
  fun w =>
    let s := post (switch_timer state) (set_world w p) in
    ((s, drop (length (emitted (trace w))) (emitted (trace s))), world s).

(** On or off. *)
Definition is_on (p : Polled D) (on : bool) : Prop := timer_ok None on p.

Lemma polled_switch_on p b b' w : is_on p b -> is_on (fst (res (polled_switch p b') w)) b'.
Proof. intros Hp. apply (switch_ok None b). split; [done|apply Hp]. Qed.

(** A prompt device that is off hands over a reading when it is switched on. *)
Lemma polled_switch_prompt t p w : PromptLaws D t -> is_on p false ->
  exists r, reading_of t r = true /\ snd (res (polled_switch p true) w) = [r].
Proof.
  intros [Ht _ _ Hon] [_ Hp]. unfold polled_switch, res. cbn [fst snd].
  set (s := set_world w p). assert (timeout_id s = 0) as E by exact Hp.
  assert (emitted (trace s) = emitted (trace w)) as Ew by done. clearbody s.
  unfold switch_timer. rewrite post_bind. cbv beta.
  change (res (gets id) s) with s. change (post (gets id) s) with s. rewrite E.
  change (0 <? 0) with false. change (0 =? 0) with true. cbn [andb negb].
  rewrite post_bind. cbv beta. change (post (ret tt) s) with s. rewrite post_bind. cbv beta.
  change (res (gets data) s) with (data s). change (post (gets data) s) with s.
  rewrite always_enabled. cbn [andb]. rewrite post_bind. cbv beta.
  pose proof (Hon s) as E1. set (s1 := post before_on s) in *. clearbody s1.
  rewrite post_bind. cbv beta. rewrite post_bind. cbv beta. set (s2 := post (modify _) _).
  assert (emitted (trace s2) = emitted (trace w)) as E2.
  { rewrite <- Ew, <- E1. done. }
  clearbody s2. destruct (Ht s2) as (r & Hr & ->). exists r. split; [done|].
  rewrite E2. by rewrite drop_app_length.
Qed.
End Theorems.
