(* ===== verification/PollDrivers.v ===== *)
(** * The polling drivers

    The drivers of iio-sensor-proxy that read a sysfs attribute when their
    timer fires (drv-iio-poll-accel.c, drv-iio-poll-light.c,
    drv-iio-poll-proximity.c, drv-hwmon-light.c) and the two fake ones
    (drv-fake-light.c, drv-fake-compass.c), as instances of [Timed]. *)

From Stdlib Require Import ZArith Lia SpecFloat Ascii.
From stdpp Require Import base list strings pretty gmultiset.
From S2P Require Import Prelude Decimal Floats Drivers MountMatrix Os MxcFilter MxcDevice IioBuffer Polled.

#[local] Open Scope Z_scope.
#[local] Open Scope prog_scope.

(** ** Data *)

Record PollAccel (Device : Type) := PAcc {
  pa_dev : Device; mount_matrix : list AccelVec3; pa_location : AccelLocation; pa_scale : AccelScale
}.
Record PollLight := PLight { input_path : string; pl_interval : Z; pl_scale : float }.
Record PollProximity (Device : Type) := PProx {
  input_attr : string; pp_dev : Device; near_level : Z; last_level : Z
}.
Record HwmonLight (Device : Type) := Hwmon { hw_dev : Device; is_test : bool }.
Inductive FakeLight := FLight.
Inductive FakeCompass := FCompass.
#[global] Arguments PAcc {Device}. #[global] Arguments pa_dev {Device}.
#[global] Arguments mount_matrix {Device}. #[global] Arguments pa_location {Device}.
#[global] Arguments pa_scale {Device}.
#[global] Arguments PProx {Device}. #[global] Arguments input_attr {Device}.
#[global] Arguments pp_dev {Device}. #[global] Arguments near_level {Device}.
#[global] Arguments last_level {Device}.
#[global] Arguments Hwmon {Device}. #[global] Arguments hw_dev {Device}.
#[global] Arguments is_test {Device}.

Definition d_0_8 : float := Eval vm_compute in Dbl 8 10.
Definition d_0_9 : float := Eval vm_compute in Dbl 9 10.
Definition d_1_1 : float := Eval vm_compute in Dbl 11 10.
Definition d_10 : float := Eval vm_compute in Dbl 10 1.
Definition d_360 : float := Eval vm_compute in Dbl 360 1.
Definition d_1000 : float := Eval vm_compute in Dbl 1000 1.
Definition s_100 : float := Eval vm_compute in f32_lit 100 1.
Definition s_255 : float := Eval vm_compute in f32_lit 255 1.

(** Raw integers through the mount matrix, with a scale. *)
Definition accel_readings (m : list AccelVec3) (scale : AccelScale) (x y z : Z) : AccelReadings :=
  let '(a, b, c) := mount_readings m x y z in
  Build_AccelReadings a b c (copy_accel_scale scale scale).

(** ** Ticks *)

Section Ticks.
Context `{Os} {Device : Type} `{DevFiles Device}.

(** *** drv-iio-poll-accel.c *)

Definition poll_orientation : M (Polled (PollAccel Device)) unit :=
  d <- gets data ;;
  x <- g_udev_device_get_sysfs_attr_as_int_uncached (pa_dev d) "in_accel_x_raw" ;;
  y <- g_udev_device_get_sysfs_attr_as_int_uncached (pa_dev d) "in_accel_y_raw" ;;
  z <- g_udev_device_get_sysfs_attr_as_int_uncached (pa_dev d) "in_accel_z_raw" ;;
  callback (Accel (accel_readings (mount_matrix d) (pa_scale d) x y z)).

#[export] Instance iio_poll_accel_timed : Timed (PollAccel Device) := {|
  enabled _ := true; interval _ := 700; tick := poll_orientation;
  before_off := ret tt; after_off := ret tt; before_on := ret tt
|}.

Definition iio_poll_accel_set_polling (state : bool) : M (Polled (PollAccel Device)) unit :=
  switch_timer state.

(** *** drv-iio-poll-light.c

    [strtod]: the value a string starts with. *)
Variable strtod : string -> float.

Definition iio_poll_light_changed : M (Polled PollLight) unit :=
  d <- gets data ;;
  contents <- g_file_get_contents (input_path d) ;;
  match contents with
  | Some s => callback (Light (f64_mul (strtod s) (pl_scale d)) true)
  | None => ret tt
  end.

Definition iio_poll_light_timed : Timed PollLight := {|
  enabled _ := true; interval d := pl_interval d; tick := iio_poll_light_changed;
  before_off := ret tt; after_off := ret tt; before_on := ret tt
|}.

Definition iio_poll_light_set_polling (state : bool) : M (Polled PollLight) unit :=
  @switch_timer _ _ iio_poll_light_timed state.

(** *** drv-iio-poll-proximity.c *)

(** The level a sample is compared with, by the sample before. *)
Definition near_threshold (near last : Z) : float :=
  let n := f64_of_Z near in
  f64_mul n (if f_gt (f64_of_Z last) n then d_0_9 else d_1_1).

Definition proximity_of (near last prox : Z) : Z :=
  if f_gt (f64_of_Z prox) (near_threshold near last)
  then PROXIMITY_NEAR_TRUE else PROXIMITY_NEAR_FALSE.

Definition poll_proximity : M (Polled (PollProximity Device)) unit :=
  d <- gets data ;;
  prox <- g_udev_device_get_sysfs_attr_as_int_uncached (pp_dev d) (input_attr d) ;;
  modify (set_data (PProx (input_attr d) (pp_dev d) (near_level d) prox)) ;;;
  callback (Proximity (proximity_of (near_level d) (last_level d) prox)).

#[export] Instance iio_poll_proximity_timed : Timed (PollProximity Device) := {|
  enabled _ := true; interval _ := 700; tick := poll_proximity;
  before_off := ret tt; after_off := ret tt; before_on := ret tt
|}.

Definition iio_poll_proximity_set_polling (state : bool) : M (Polled (PollProximity Device)) unit :=
  switch_timer state.

(** *** drv-hwmon-light.c *)

(** [sscanf (contents, "(%d,%d)", ...)]: both numbers. *)
Definition scan_pair (s : string) : option (Z * Z) :=
  s1 ← scan_lit "("%char s;
  a ← scan_int s1;
  s2 ← scan_lit ","%char a.2;
  b ← scan_int s2;
  Some (sint 32 a.1, sint 32 b.1).

(** In percent of the highest level. *)
Definition hwmon_level (light1 light2 : Z) : float :=
  f64_of_f32 (f32_mul (f32_div (f32_of_Z (Z.max light1 light2)) s_255) s_100).

Definition hwmon_light_changed : M (Polled (HwmonLight Device)) unit :=
  d <- gets data ;;
  contents <- g_udev_device_get_sysfs_attr_uncached (hw_dev d) "light" ;;
  match contents with
  | None => ret tt
  | Some s =>
      match scan_pair s with
      | None => ret tt
      | Some (a, b) => callback (Light (hwmon_level a b) false)
      end
  end.

#[export] Instance hwmon_light_timed : Timed (HwmonLight Device) := {|
  enabled _ := true; interval d := if is_test d then 500 else 8000; tick := hwmon_light_changed;
  before_off := ret tt; after_off := ret tt; before_on := ret tt
|}.

Definition hwmon_light_set_polling (state : bool) : M (Polled (HwmonLight Device)) unit :=
  switch_timer state.

(** *** drv-fake-light.c, drv-fake-compass.c: static variables *)

Definition fake_light_changed : M (Polled FakeLight) unit :=
  l <- gets (fun s => f64_add (fake_level (world s)) d_1) ;;
  modify (fun s => let w := world s in set_world (Wd (calls w) (files w) l (fake_heading w)) s) ;;;
  callback (Light l true).

#[export] Instance fake_light_timed : Timed FakeLight := {|
  enabled _ := true; interval _ := 1000; tick := fake_light_changed;
  before_off := ret tt; after_off := ret tt; before_on := ret tt
|}.

Definition fake_light_set_polling (state : bool) : M (Polled FakeLight) unit := switch_timer state.

Definition next_heading (heading : float) : float :=
  let h := f64_add heading d_10 in if f_ge h d_360 then f0 else h.

Definition compass_changed : M (Polled FakeCompass) unit :=
  h <- gets (fun s => next_heading (fake_heading (world s))) ;;
  modify (fun s => let w := world s in set_world (Wd (calls w) (files w) (fake_level w) h) s) ;;;
  callback (Compass h).

#[export] Instance fake_compass_timed : Timed FakeCompass := {|
  enabled _ := true; interval _ := 1000; tick := compass_changed;
  before_off := ret tt; after_off := ret tt; before_on := ret tt
|}.

Definition fake_compass_set_polling (state : bool) : M (Polled FakeCompass) unit := switch_timer state.
End Ticks.

(** ** Discovery and opening *)

Section Open.
Context {FS : Sysfs} {Device : Type} `{U : Udev Device} `{DF : DevFiles Device}.
(** GLib: cutting a string at every delimiter, and in at most [n] pieces; the
    value a string starts with; printing a value; environment variables. *)
Variable g_strsplit : string -> string -> list string.
Variable g_strsplit_n : string -> string -> nat -> list string.
Variable strtod : string -> float.
Variable g_ascii_dtostr : float -> string.
Variable round_freq : Device -> string -> float -> float.
Variable g_getenv : string -> option string.
#[local] Abbreviation fixup := (iio_fixup_sampling_frequency g_ascii_dtostr round_freq).

(** A new device, off, in the current world. *)
Definition new_device {D} (d : D) : M World (option (Polled D)) :=
  w <- gets id ;; ret (Some (Pl 0 d w)).

Definition iio_poll_accel_discover (device : Device) : bool :=
  drv_check_udev_sensor_type g_strsplit device "iio-poll-accel".

Definition iio_poll_accel_open (device : Device) : M World (option (Polled (PollAccel Device))) :=
  on_files (fixup device) ;;;
  new_device (PAcc device (setup_mount_matrix g_strsplit_n strtod device)
                (setup_accel_location device)
                (get_accel_scale device (Build_AccelScale f0 f0 f0))).

Definition iio_poll_light_discover (device : Device) : bool :=
  drv_check_udev_sensor_type g_strsplit device "iio-poll-als".

Definition illuminance_channels : list string :=
  ["in_illuminance"; "in_illuminance0"; "in_illuminance_clear"; "in_intensity_clear"]%string.

Definition get_illuminance_channel_path (device : Device) (suffix : string) : option string :=
  List.find file_exists
    (map (fun c => default "(null)" (sysfs_path device) +:+ "/" +:+ c +:+ "_" +:+ suffix)
         illuminance_channels).

(** The integration time in ms, as a [guint]. *)
Definition get_interval (device : Device) : M World Z :=
  let ms time := wrap 32 (f_to_int 64 (f64_mul time d_1000)) in
  match get_illuminance_channel_path device "integration_time" with
  | None => ret (ms d_0_8)
  | Some path =>
      contents <- g_file_get_contents path ;;
      ret (ms (match contents with Some s => strtod s | None => d_0_8 end))
  end.

Definition iio_poll_light_open (device : Device) : M World (option (Polled PollLight)) :=
  on_files (fixup device) ;;;
  match (match get_illuminance_channel_path device "input" with
         | Some p => Some p
         | None => get_illuminance_channel_path device "raw"
         end) with
  | None => ret None
  | Some path =>
      interval <- get_interval device ;;
      let scale := sysfs_attr_as_double device
        (if String.prefix "in_illuminance0" path
         then "in_illuminance0_scale" else "in_illuminance_scale")%string in
      let scale := if f_eq scale f0 then d_1 else scale in
      new_device (PLight path interval scale)
  end.

Definition iio_poll_proximity_discover (device : Device) : bool :=
  drv_check_udev_sensor_type g_strsplit device "iio-poll-proximity".

Definition get_proximity_channel_attr (device : Device) (suffix : string) : option string :=
  List.find (fun attr => file_exists (default "(null)" (sysfs_path device) +:+ "/" +:+ attr))
    (map (fun c => c +:+ "_" +:+ suffix) ["in_proximity"; "in_proximity0"]%string).

Definition get_near_level (device : Device) : Z :=
  let n := property_as_int device "PROXIMITY_NEAR_LEVEL" in
  if n =? 0 then attr_as_int device "in_proximity_nearlevel" else n.

Definition iio_poll_proximity_open (device : Device) :
    M World (option (Polled (PollProximity Device))) :=
  on_files (fixup device) ;;;
  let near := get_near_level device in
  if near =? 0 then ret None
  else
    match get_proximity_channel_attr device "raw" with
    | None => ret None
    | Some attr => new_device (PProx attr device near 0)
    end.

Definition hwmon_light_discover (device : Device) : bool :=
  drv_check_udev_sensor_type g_strsplit device "hwmon-als".

Definition IS_TEST : bool :=
  match g_getenv "UMOCKDEV_DIR" with Some _ => true | None => false end.

(** The macro that picks the interval reads the environment, which does not
    change. *)
Definition hwmon_light_open (device : Device) : M World (option (Polled (HwmonLight Device))) :=
  new_device (Hwmon device IS_TEST).

Definition quote : Ascii.ascii := Ascii.ascii_of_nat 34.

(** A power button stands in for the fake devices. *)
Definition power_button (device : Device) : bool :=
  bool_decide (subsystem device = Some "input"%string) &&
  bool_decide (udev_property device "NAME" =
               Some (String quote ("Power Button" +:+ String quote EmptyString))%string).

Definition fake_light_discover (device : Device) : bool :=
  match g_getenv "FAKE_LIGHT_SENSOR" with Some _ => power_button device | None => false end.
Definition fake_light_open (device : Device) : M World (option (Polled FakeLight)) := new_device FLight.

Definition fake_compass_discover (device : Device) : bool :=
  match g_getenv "FAKE_COMPASS" with Some _ => power_button device | None => false end.
Definition fake_compass_open (device : Device) : M World (option (Polled FakeCompass)) :=
  new_device FCompass.
End Open.

(** ** Theorems *)

#[export] Hint Extern 1 (same timer_view (callback _)) => (intros ?; reflexivity) : same.
#[export] Hint Extern 1 (same timer_view (modify _)) => (intros ?; reflexivity) : same.
#[export] Hint Extern 1 (same timer_view (call _ _)) => (intros ?; reflexivity) : same.
#[export] Hint Extern 1 (same timer_view (g_udev_device_get_sysfs_attr_as_int_uncached _ _)) =>
  (intros ?; reflexivity) : same.
#[export] Hint Extern 1 (same timer_view (g_udev_device_get_sysfs_attr_uncached _ _)) =>
  (intros ?; reflexivity) : same.
#[export] Hint Extern 1 (same timer_view (g_file_get_contents _)) => (intros ?; reflexivity) : same.

Section Laws.
Context `{Os} {Device : Type} `{DevFiles Device}.

#[export] Instance iio_poll_accel_laws : TimedLaws (PollAccel Device).
Proof. by split. Qed.

#[export] Instance iio_poll_light_laws strtod : @TimedLaws PollLight _ (iio_poll_light_timed strtod).
Proof.
  split; try done. simpl. unfold iio_poll_light_changed.
  apply same_bind; [done|intros d]. apply same_bind; [auto with same|intros [c|]]; auto with same.
Qed.

#[export] Instance iio_poll_proximity_laws : TimedLaws (PollProximity Device).
Proof. by split. Qed.

#[export] Instance hwmon_light_laws : TimedLaws (HwmonLight Device).
Proof.
  split; try done. simpl. unfold hwmon_light_changed.
  apply same_bind; [done|intros d]. apply same_bind; [auto with same|intros [c|]; [|done]].
  destruct (scan_pair c) as [[a b]|]; auto with same.
Qed.

#[export] Instance fake_light_laws : TimedLaws FakeLight.
Proof. by split. Qed.
#[export] Instance fake_compass_laws : TimedLaws FakeCompass.
Proof. by split. Qed.

#[export] Instance iio_poll_accel_prompt : PromptLaws (PollAccel Device) DRIVER_TYPE_ACCEL.
Proof. split; try done. intros s. by eexists (Accel _). Qed.
#[export] Instance iio_poll_proximity_prompt : PromptLaws (PollProximity Device) DRIVER_TYPE_PROXIMITY.
Proof. split; try done. intros s. by eexists (Proximity _). Qed.
#[export] Instance fake_light_prompt : PromptLaws FakeLight DRIVER_TYPE_LIGHT.
Proof. split; try done. intros s. by eexists (Light _ _). Qed.
#[export] Instance fake_compass_prompt : PromptLaws FakeCompass DRIVER_TYPE_COMPASS.
Proof. split; try done. intros s. by eexists (Compass _). Qed.

(** *** Proximity *)

(** A level that stays between the near level and its high water mark is
    reported far by the first poll and near by all later ones: the margin is
    chosen by the last level, not by the last report. *)
Theorem proximity_flips (s : Polled (PollProximity Device)) (prox : Z) :
  let d := data s in
  let n := f64_of_Z (near_level d) in
  (forall h, attr_as_int_uncached h (pp_dev d) (input_attr d) = prox) ->
  f_gt (f64_of_Z (last_level d)) n = false -> f_gt (f64_of_Z prox) n = true ->
  f_gt (f64_of_Z prox) (f64_mul n d_1_1) = false -> f_gt (f64_of_Z prox) (f64_mul n d_0_9) = true ->
  emitted (trace (post (poll_proximity ;;; poll_proximity) s)) =
    emitted (trace s) ++ [Proximity PROXIMITY_NEAR_FALSE; Proximity PROXIMITY_NEAR_TRUE].
Proof.
  intros d n Ha Hl Hp Hhi Hlo.
  assert (forall u last, data u = PProx (input_attr d) (pp_dev d) (near_level d) last ->
    data (post poll_proximity u) = PProx (input_attr d) (pp_dev d) (near_level d) prox /\
    emitted (trace (post poll_proximity u)) =
      emitted (trace u) ++ [Proximity (proximity_of (near_level d) last prox)]) as Hpoll.
  { intros u last Hu. unfold poll_proximity, post, bind, gets, modify. simpl. rewrite Hu. simpl.
    by rewrite Ha. }
  rewrite post_bind. cbv beta.
  destruct (Hpoll s (last_level d)) as [D1 E1]; [unfold d; by destruct (data s)|].
  destruct (Hpoll _ prox D1) as [_ E2]. rewrite E2, E1, <- app_assoc. simpl.
  unfold proximity_of, near_threshold. fold n. by rewrite Hl, Hp, Hhi, Hlo.
Qed.
End Laws.

(** *** The format of the light attribute *)

Lemma scan_digits_digit b acc d s : 0 <= d < 10 ->
  scan_digits b acc (String (pretty_N_char (Z.to_N d)) s) = scan_digits true (acc * 10 + d) s.
Proof.
  intros Hd. assert (d = 0 \/ d = 1 \/ d = 2 \/ d = 3 \/ d = 4 \/ d = 5 \/ d = 6 \/ d = 7 \/
    d = 8 \/ d = 9) as Hc by lia.
  by repeat (destruct Hc as [->|Hc]); subst.
Qed.

(** A number is read back from its digits, up to the first character that is
    no digit. *)
Lemma scan_int_pretty (z : Z) t : (forall a, scan_digits true a t = Some (a, t)) ->
  scan_int (pretty z +:+ t) = Some (z, t).
Proof.
  intros Ht. assert (forall x, scan_digits false 0 (pretty (Npos x) +:+ t) = Some (Zpos x, t)) as Hx.
  { intros x. rewrite <- (Ht (Zpos x)). exact (read_pretty_pos scan_digits scan_digits_digit x t). }
  destruct z as [|x|x].
  - change (scan_int (pretty 0 +:+ t)) with (scan_digits true 0 t). apply Ht.
  - specialize (Hx x). change (pretty (Z.pos x)) with (pretty (Npos x)).
    change (pretty (N.pos x)) with (pretty_N_go (Npos x) "") in *. rewrite pretty_N_go_app in *.
    destruct (pretty_go_head (Npos x) ("" +:+ t) ltac:(lia)) as (c & r & E & Hc). rewrite E in *.
    rewrite <- Hx. assert (c = 0 \/ c = 1 \/ c = 2 \/ c = 3 \/ c = 4 \/ c = 5 \/ c = 6 \/ c = 7 \/
      c = 8 \/ c = 9)%N as Hd by lia.
    by repeat (destruct Hd as [->|Hd]); subst.
  - change (scan_int (pretty (Z.neg x) +:+ t)) with
      (match scan_digits false 0 (pretty (Npos x) +:+ t) with
       | Some (v, r) => Some (- v, r) | None => None end). by rewrite Hx.
Qed.

(** The kernel's format of the [light] attribute is read back. *)
Theorem scan_pair_print (a b : Z) (t : string) :
  - 2 ^ 31 <= a < 2 ^ 31 -> - 2 ^ 31 <= b < 2 ^ 31 ->
  scan_pair ("(" +:+ (pretty a +:+ ("," +:+ (pretty b +:+ (")" +:+ t))))) = Some (a, b).
Proof.
  intros Ha Hb. unfold scan_pair.
  set (u := pretty b +:+ (")" +:+ t)).
  assert (forall c s, scan_lit c (String c s) = Some s) as Hlit.
  { intros c s. simpl. by rewrite Ascii.eqb_refl. }
  change ("(" +:+ ?x) with (String "("%char x). rewrite Hlit. cbn [mbind option_bind].
  rewrite (scan_int_pretty a ("," +:+ u)) by done. cbn [mbind option_bind fst snd].
  change ("," +:+ u) with (String ","%char u). rewrite Hlit. cbn [mbind option_bind].
  unfold u. rewrite (scan_int_pretty b (")" +:+ t)) by done. cbn [mbind option_bind fst snd].
  by rewrite !sint_id.
Qed.

(** *** Levels and headings *)

(** Over the values the attribute can have the level is a percentage, 0 at 0
    and 100 at 255, and the brighter sensor counts. *)
Theorem hwmon_level_range (a b : Z) : 0 <= a <= 255 -> 0 <= b <= 255 ->
  f_le f0 (hwmon_level a b) = true /\ f_le (hwmon_level a b) (f64_of_Z 100) = true /\
  hwmon_level a b = hwmon_level b a.
Proof.
  intros Ha Hb. assert (forallb (fun m => f_le f0 (hwmon_level m m) && f_le (hwmon_level m m) (f64_of_Z 100))
    (seqZ 0 256) = true) as Hall by (vm_compute; reflexivity).
  assert (hwmon_level a b = hwmon_level (Z.max a b) (Z.max a b)) as E.
  { unfold hwmon_level. by rewrite Z.max_id. }
  rewrite forallb_forall in Hall. specialize (Hall (Z.max a b)).
  rewrite <- E in Hall. apply andb_true_iff in Hall as [? ?]; [|apply list_elem_of_In, elem_of_seqZ; lia].
  split_and!; [done..|]. unfold hwmon_level. by rewrite Z.max_comm.
Qed.

(** The fake compass goes round in steps of ten degrees and starts again at
    360: its heading is always a multiple of ten below that. *)
Theorem fake_compass_cycle (s : Polled FakeCompass) (n : nat) : fake_heading (world s) = f0 ->
  fake_heading (world (post (mfor (replicate n tt) (fun _ => compass_changed)) s)) =
    f64_of_Z (10 * (Z.of_nat n mod 36)).
Proof.
  intros H0. assert (map (fun k => next_heading (f64_of_Z (10 * k))) (seqZ 0 36) =
    map (fun k => f64_of_Z (10 * ((k + 1) mod 36))) (seqZ 0 36)) as Hall by (vm_compute; reflexivity).
  pose proof (ext_in_map Hall) as Hnext. cbv beta in Hnext. clear Hall. induction n as [|n IH].
  - unfold post. simpl. rewrite H0. reflexivity.
  - rewrite replicate_S_end, post_mfor_snoc. unfold compass_changed at 1, post at 1, bind, gets, modify.
    cbn. fold (post (mfor (replicate n tt) (fun _ => compass_changed)) s). rewrite IH.
    pose proof (Z.mod_pos_bound (Z.of_nat n) 36 ltac:(lia)). rewrite Hnext by (apply list_elem_of_In, elem_of_seqZ; lia).
    rewrite Zplus_mod_idemp_l. do 3 f_equal. lia.
Qed.

(** ** Examples *)

Module Sim.
Definition os : Os := sim_os None None [].
(** A proximity sensor with near level 100 whose attribute reads 105. *)
Definition files : DevFiles unit := {|
  attr_as_int_uncached _ _ _ := 105; attr_uncached _ _ _ := None; file_get_contents _ _ := None;
  file_exists _ := true; property_as_int _ _ := 100; attr_as_int _ _ := 0;
  device_file _ := None; subsystem _ := None
|}.
Definition prox : Polled (PollProximity unit) := Pl 0 (PProx "in_proximity_raw" tt 100 0) (Wd [] [] f0 f0).
End Sim.

Lemma proximity_flips_witness :
  emitted (trace (post (@poll_proximity unit Sim.files ;;; @poll_proximity unit Sim.files) Sim.prox)) =
    [Proximity PROXIMITY_NEAR_FALSE; Proximity PROXIMITY_NEAR_TRUE].
Proof.
  exact (@proximity_flips unit Sim.files Sim.prox 105 (fun _ => eq_refl) eq_refl eq_refl eq_refl eq_refl).
Defined.

Lemma scan_pair_print_witness : scan_pair ("(12,-7)" +:+ String (ascii_of_nat 10) EmptyString) = Some (12, -7).
Proof. exact (scan_pair_print 12 (-7) (String (ascii_of_nat 10) EmptyString) ltac:(lia) ltac:(lia)). Defined.

Lemma hwmon_level_range_witness : f_le (hwmon_level 255 3) (f64_of_Z 100) = true.
Proof. exact (proj1 (proj2 (hwmon_level_range 255 3 ltac:(lia) ltac:(lia)))). Defined.

Lemma fake_compass_cycle_witness :
  fake_heading (world (post (mfor (replicate 37 tt) (fun _ => compass_changed))
    (Pl 0 FCompass (Wd [] [] f0 f0)))) = f64_of_Z 10.
Proof. rewrite fake_compass_cycle; reflexivity. Defined.

(** The fake light switched on, dispatched twice, switched off and on again. *)
Lemma timer_follows_switch_witness :
  let s := post (@run_ops Sim.os _ fake_light_timed [Switch true; Tick; Tick; Switch false; Tick; Switch true])
             (Pl 0 FLight (Wd [] [] f0 f0)) in
  0 < timeout_id s /\ emitted (trace s) <> [].
Proof.
  intros s. split; [|vm_compute; discriminate].
  refine (proj2 (proj1 (@timer_follows_switch Sim.os (sim_os_laws None None []) FakeLight
    fake_light_timed (@fake_light_laws Sim.os) FLight (Wd [] [] f0 f0)
    [Switch true; Tick; Tick; Switch false; Tick; Switch true])) eq_refl).
Defined.
