(* ===== verification/Ssc.v ===== *)
(** * The drivers of the Snapdragon sensor core

    drv-ssc-accel.c, drv-ssc-light.c, drv-ssc-compass.c and drv-ssc-proximity.c: drivers over
    libssc, which calls a handler for each measurement.  The four differ in their kind of
    sensor, in what a measurement becomes and in what they log when it cannot be opened.
    libssc is the class [Libssc]; the handlers of a signal are GObject's. *)

From Stdlib Require Import ZArith Lia.
From stdpp Require Import base list strings.
From S2P Require Import Prelude Floats Drivers MountMatrix.

#[local] Open Scope Z_scope.
#[local] Open Scope prog_scope.

(** The answers of libssc by the number of the call: the sensor of a type with its name, if
    it can be made, and whether it could be opened (for a null pointer as well: [false]) or
    closed; the error may be missing when the pointer is null. *)
Class Libssc := {
  ssc_new : nat -> DriverType -> option string;
  ssc_open_sync : nat -> DriverType -> bool -> bool * option string;
  ssc_close_sync : nat -> DriverType -> bool -> bool * option string
}.

(** [SensorDevice] with [DrvData]; [sensor]: its name, [None]: a null pointer; [handlers]:
    the handlers that are connected to its signal, the last number given to one;
    [emitted]: the readings handed to the proxy. *)
Record Ssc := mkSsc {
  ssc_type : DriverType; ssc_calls : nat; sensor : option string; measurement_id : Z; handlers : list Z; last_id : Z;
  ssc_matrix : list AccelVec3; ssc_location : AccelLocation; ssc_scale : AccelScale; emitted : list Readings
}.
Definition Ssc_again (s : Ssc) : Ssc := mkSsc (ssc_type s) (ssc_calls s) (sensor s) (measurement_id s) (handlers s) (last_id s)
  (ssc_matrix s) (ssc_location s) (ssc_scale s) (emitted s).
#[export] Instance put_ssc_calls : Field ssc_calls := ltac:(field_of Ssc_again ssc_calls).
#[export] Instance put_sensor : Field sensor := ltac:(field_of Ssc_again sensor).
#[export] Instance put_measurement_id : Field measurement_id := ltac:(field_of Ssc_again measurement_id).
#[export] Instance put_handlers : Field handlers := ltac:(field_of Ssc_again handlers).
#[export] Instance put_last_id : Field last_id := ltac:(field_of Ssc_again last_id).
#[export] Instance put_emitted : Field emitted := ltac:(field_of Ssc_again emitted).

(** What a measurement brings. *)
Inductive Measurement := MAccel (x y z : float) | MLight (intensity : float) | MCompass (azimuth : float) | MProximity (near : bool).

Definition no_scale : AccelScale := Build_AccelScale f_zero f_zero f_zero.

Section Drivers.
Context {Dev : Type} `{Udev Dev} `{Libssc} (g_strsplit : string -> string -> list string).
Context (g_strsplit_n : string -> string -> nat -> list string) (g_ascii_strtod : string -> float).

(** ** Discovery and opening *)

Definition ssc_discover (t : DriverType) (type : string) (calls : nat) (device : Dev) : bool :=
  drv_check_udev_sensor_type g_strsplit device type &&
  match ssc_new calls t with
  | None => false
  | Some _ => fst (ssc_close_sync (S calls) t true)
  end.
Definition ssc_accelerometer_discover : nat -> Dev -> bool := ssc_discover DRIVER_TYPE_ACCEL "ssc-accel".
Definition ssc_light_discover : nat -> Dev -> bool := ssc_discover DRIVER_TYPE_LIGHT "ssc-light".
Definition ssc_compass_discover : nat -> Dev -> bool := ssc_discover DRIVER_TYPE_COMPASS "ssc-compass".
Definition ssc_proximity_discover : nat -> Dev -> bool := ssc_discover DRIVER_TYPE_PROXIMITY "ssc-proximity".

(** A device without a sensor is handed out as well. *)
Definition ssc_open (t : DriverType) (calls : nat) : Ssc :=
  mkSsc t (S calls) (ssc_new calls t) 0 [] 0 [] ACCEL_LOCATION_DISPLAY no_scale [].
Definition ssc_accelerometer_open (calls : nat) (device : Dev) : Ssc :=
  mkSsc DRIVER_TYPE_ACCEL (S calls) (ssc_new calls DRIVER_TYPE_ACCEL) 0 [] 0
    (setup_mount_matrix g_strsplit_n g_ascii_strtod device) (setup_accel_location device) (set_accel_scale no_scale f64_one) [].
Definition ssc_light_open : nat -> Ssc := ssc_open DRIVER_TYPE_LIGHT.
Definition ssc_compass_open : nat -> Ssc := ssc_open DRIVER_TYPE_COMPASS.
Definition ssc_proximity_open : nat -> Ssc := ssc_open DRIVER_TYPE_PROXIMITY.
End Drivers.

(** ** Measurements *)

(** [measurement_cb] of the four. *)
Definition ssc_accelerometer_readings (matrix : list AccelVec3) (scale : AccelScale) (x y z : float) : Readings :=
  let tmp := apply_mount_matrix matrix (Vec x y z) in
  Accel (Build_AccelReadings (f_to_int 32 (vx tmp)) (f_to_int 32 (vy tmp)) (f_to_int 32 (vz tmp)) (copy_accel_scale scale scale)).
Definition ssc_light_readings (intensity : float) : Readings := Light (f64_of_f32 intensity) true.
Definition ssc_compass_readings (azimuth : float) : Readings := Compass (f64_of_f32 azimuth).
Definition ssc_proximity_readings (near : bool) : Readings :=
  Proximity (if near then PROXIMITY_NEAR_TRUE else PROXIMITY_NEAR_FALSE).
Definition measurement_cb (m : Measurement) (s : Ssc) : Readings :=
  match m with
  | MAccel x y z => ssc_accelerometer_readings (ssc_matrix s) (ssc_scale s) x y z
  | MLight intensity => ssc_light_readings intensity
  | MCompass azimuth => ssc_compass_readings azimuth
  | MProximity near => ssc_proximity_readings near
  end.
(** The signal: each handler that is connected is called. *)
Definition measure (m : Measurement) : M Ssc unit :=
  modify (fun s => s <| emitted := emitted s ++ map (fun _ => measurement_cb m s) (handlers s) |>).

(** ** Polling *)

Section Polling.
Context `{Libssc}.

(** [g_signal_connect], which refuses a null pointer with 0, and [g_clear_signal_handler]. *)
Definition g_signal_connect : M Ssc Z := fun s =>
  match sensor s with
  | Some _ => let id := last_id s + 1 in (id, s <| last_id := id |> <| handlers := handlers s ++ [id] |>)
  | None => (0, s)
  end.
Definition g_clear_signal_handler : M Ssc unit := modify (fun s =>
  s <| handlers := filter (fun id => id <> measurement_id s) (handlers s) |> <| measurement_id := 0 |>).
Definition ask_ssc (f : nat -> DriverType -> bool -> bool * option string) : M Ssc (bool * option string) := fun s =>
  (f (ssc_calls s) (ssc_type s) (bool_decide (is_Some (sensor s))), s <| ssc_calls := S (ssc_calls s) |>).
(** A warning with the message of an error, or a null pointer that is followed: [false]. *)
Definition warn (checked : bool) (r : bool * option string) : bool := fst r || checked || bool_decide (is_Some (snd r)).

(** [checked]: a missing error is thought of when the sensor cannot be opened.  [false]: a
    null pointer was followed. *)
Definition ssc_set_polling (checked : bool) (state : bool) : M Ssc bool :=
  id <- gets measurement_id ;;
  if state then
    if negb (id =? 0) then ret true
    else
      id <- g_signal_connect ;;
      modify (fun s => s <| measurement_id := id |>) ;;;
      r <- ask_ssc ssc_open_sync ;; ret (warn checked r)
  else
    if id =? 0 then ret true
    else g_clear_signal_handler ;;; r <- ask_ssc ssc_close_sync ;; ret (warn false r).
Definition ssc_accelerometer_set_polling : bool -> M Ssc bool := ssc_set_polling false.
Definition ssc_light_set_polling : bool -> M Ssc bool := ssc_set_polling false.
Definition ssc_compass_set_polling : bool -> M Ssc bool := ssc_set_polling false.
Definition ssc_proximity_set_polling : bool -> M Ssc bool := ssc_set_polling true.

(** The close functions release the sensor; the device is not used afterwards. *)
Definition ssc_close : M Ssc unit := modify (fun s => s <| sensor := None |>).
Definition ssc_accelerometer_close : M Ssc unit := ssc_close.
Definition ssc_light_close : M Ssc unit := ssc_close.
Definition ssc_compass_close : M Ssc unit := ssc_close.
Definition ssc_proximity_close : M Ssc unit := ssc_close.

(** What the proxy and libssc do with an open device; a run goes on after
    [ssc_set_polling] has followed a null pointer, where the program would have ended. *)
Inductive SscOp := Poll (on : bool) | Measured (m : Measurement).
Definition run_ssc (checked : bool) (op : SscOp) : M Ssc unit :=
  match op with Poll on => ssc_set_polling checked on ;;; ret tt | Measured m => measure m end.
Definition run_ssc_all (checked : bool) (l : list SscOp) : M Ssc unit := mfor l (run_ssc checked).
End Polling.

(** ** Theorems *)

Section Delivered.
Context `{Libssc} (checked : bool).

(** At most one handler, the one of [measurement_id]. *)
Definition connected (on : bool) (s : Ssc) : Prop :=
  is_Some (sensor s) /\ 0 <= last_id s /\
  if on then 0 < measurement_id s <= last_id s /\ handlers s = [measurement_id s] else measurement_id s = 0 /\ handlers s = [].
(** What the proxy should get: the measurements that are made while polling is on. *)
Fixpoint wanted (s : Ssc) (on : bool) (l : list SscOp) : list Readings :=
  match l with
  | [] => []
  | Poll b :: l => wanted s b l
  | Measured m :: l => (if on then [measurement_cb m s] else []) ++ wanted s on l
  end.

(** What a reading depends on. *)
Definition setting (s : Ssc) := (ssc_matrix s, ssc_scale s).
Lemma polling_step on b s : connected on s ->
  wp (ssc_set_polling checked b) (fun _ s' => connected b s' /\ emitted s' = emitted s /\ setting s' = setting s) s.
Proof.
  intros (Hs & Hl & Hc). unfold ssc_set_polling. apply wp_bind, wp_gets.
  destruct b, on; destruct Hc as [Hi Hh].
  - destruct (Z.eqb_spec (measurement_id s) 0); [lia|]. by apply wp_ret.
  - rewrite Hi. simpl. destruct Hs as [name Hn]. unfold wp, g_signal_connect, ask_ssc, bind, modify, ret, post. simpl.
    rewrite Hn. simpl. rewrite Hh. simpl. split; [|done]. split; [by exists name|]. simpl. split; [lia|]. split; [lia|done].
  - destruct (Z.eqb_spec (measurement_id s) 0); [lia|]. unfold wp, g_clear_signal_handler, ask_ssc, bind, modify, ret, post. simpl.
    split; [|done]. split; [done|]. simpl. split; [done|]. split; [done|]. rewrite Hh. by rewrite filter_cons_False by naive_solver.
  - rewrite Hi. simpl. by apply wp_ret.
Qed.
Lemma measurement_setting m s t : setting s = setting t -> measurement_cb m s = measurement_cb m t.
Proof. unfold setting. intros [= E1 E2]. destruct m; simpl; by rewrite ?E1, ?E2. Qed.
Lemma wanted_setting s t on l : setting s = setting t -> wanted s on l = wanted t on l.
Proof.
  intros E. revert on. induction l as [|[b|m] l IH]; intros on; cbn [wanted]; [done|apply IH|].
  rewrite IH. by rewrite (measurement_setting m s t E).
Qed.

Lemma run_ssc_cons op l s : post (run_ssc_all checked (op :: l)) s = post (run_ssc_all checked l) (post (run_ssc checked op) s).
Proof. unfold run_ssc_all. simpl. by rewrite post_bind. Qed.

(** C40: However polling is switched on and off, and whether the sensor can be opened or not, the proxy
    gets each measurement that is made while polling is on exactly once, in order, and none of the
    others: the handler is connected once and taken away again. *)
Theorem measurements_delivered on l s : connected on s ->
  emitted (post (run_ssc_all checked l) s) = emitted s ++ wanted s on l.
Proof.
  revert on s. induction l as [|[b|m] l IH]; intros on s Hc; [by rewrite app_nil_r|..].
  - rewrite run_ssc_cons. destruct (polling_step on b s Hc) as (Hc' & He & Hset). simpl run_ssc.
    rewrite post_bind. change (post (ret tt) ?t) with t.
    rewrite (IH b _ Hc'), He. cbn [wanted]. f_equal. by apply wanted_setting.
  - rewrite run_ssc_cons. simpl run_ssc. rewrite (IH on); [|destruct Hc as (Hs & Hl & Hc); done]. cbn [wanted].
    unfold post, measure, modify. simpl. rewrite <- app_assoc. f_equal. destruct Hc as (_ & _ & Hc).
    destruct on; destruct Hc as [_ ->]; simpl; [f_equal|]; by apply wanted_setting.
Qed.

(** A sensor that could not be opened is not tried again until polling is switched off. *)
Lemma open_not_retried s : measurement_id s <> 0 -> ssc_set_polling checked true s = (true, s).
Proof.
  intros Hi. unfold ssc_set_polling, bind, gets. destruct (Z.eqb_spec (measurement_id s) 0); [done|]. done.
Qed.
End Delivered.

Module Phone.
(** A sensor that is there but cannot be opened at first. *)
#[local] Instance core : Libssc := {
  ssc_new _ _ := Some "sensor"%string;
  ssc_open_sync n _ _ := if (n <? 2)%nat then (false, Some "busy"%string) else (true, None);
  ssc_close_sync _ _ _ := (true, None)
}.
Definition near : Ssc := ssc_proximity_open 0.
(** Without a sensor the light driver follows a null pointer. *)
Example no_sensor : res (ssc_set_polling (H := {| ssc_new _ _ := None; ssc_open_sync _ _ _ := (false, None);
    ssc_close_sync _ _ _ := (false, None) |}) false true) (near <| sensor := None |>) = false.
Proof. done. Qed.
Lemma measurements_delivered_witness :
  emitted (post (run_ssc_all true [Poll true; Measured (MProximity true); Poll true; Measured (MProximity false);
                                  Poll false; Measured (MProximity true)]) near) =
  [Proximity PROXIMITY_NEAR_TRUE; Proximity PROXIMITY_NEAR_FALSE].
Proof.
  rewrite (measurements_delivered true false); [vm_compute; reflexivity|].
  split; [by exists "sensor"%string|]. split; [vm_compute; discriminate|]. by split.
Defined.
End Phone.
