(* ===== verification/InputDrivers.v ===== *)
(** * The input drivers (drv-input-accel.c, drv-input-proximity.c)

    An accelerometer behind the input layer is polled until the kernel sends a
    change event for it, and then read on each event.  A proximity switch is
    watched for events of its device file. *)

From Stdlib Require Import ZArith Lia SpecFloat.
From stdpp Require Import base list strings gmultiset sets.
From S2P Require Import Prelude Floats Drivers MountMatrix Os MxcFilter MxcDevice IioBuffer Polled PollDrivers.

#[local] Open Scope Z_scope.
#[local] Open Scope prog_scope.

(** ** GUdev and the input layer *)

Class InputDevs (Device : Type) := {
  dev_parent : Device -> option Device;
  query_by_subsystem : string -> list Device;
  property_as_boolean : Device -> string -> bool;
  (** [EVIOCGABS]; [None]: it failed. *)
  input_abs : Trace -> Z -> Z -> option Z;
  (** Whether [g_io_channel_set_encoding] succeeds. *)
  set_encoding : Trace -> Z -> bool
}.

Definition ABS_X := 0.
Definition ABS_Y := 1.
Definition ABS_Z := 2.

(** ** The accelerometer *)

Record InputAccel := IAcc {
  ia_parent : option string; ia_dev_path : string;
  ia_matrix : list AccelVec3; ia_location : AccelLocation; sends_kevent : bool
}.

(** 1.0 / 256 * 9.81 *)
Definition input_scale : float :=
  Eval vm_compute in f64_mul (f64_div d_1 (Dbl 256 1)) (Dbl 981 100).

Section Accel.
Context `{Os} {Device : Type} `{U : Udev Device} `{DF : DevFiles Device} `{ID : InputDevs Device}.

Definition get_sibling_with_subsystem (device : Device) (subsystem : string) : option Device :=
  match dev_parent device with
  | None => None
  | Some parent =>
      List.find (fun d => match dev_parent d with
                          | None => false
                          | Some p => bool_decide (sysfs_path p = sysfs_path parent)
                          end) (query_by_subsystem subsystem)
  end.

Definition is_part_of_joypad (device : Device) : bool :=
  match get_sibling_with_subsystem device "input" with
  | None => false
  | Some sibling => property_as_boolean sibling "ID_INPUT_JOYSTICK"
  end.

Definition input_accel_discover (g_strsplit : string -> string -> list string) (device : Device) :
    bool :=
  drv_check_udev_sensor_type g_strsplit device "input-accel" &&
  match device_file device with
  | None => false
  | Some path =>
      contains "/event" path &&
      match dev_parent device with
      | Some parent => negb (is_part_of_joypad parent)
      | None => true
      end
  end.

Definition input_accel_open (g_strsplit_n : string -> string -> nat -> list string)
    (strtod : string -> float) (device : Device) : M World (option (Polled InputAccel)) :=
  new_device (IAcc (match dev_parent device with Some p => sysfs_path p | None => None end)
                (default EmptyString (device_file device))
                (setup_mount_matrix g_strsplit_n strtod device) (setup_accel_location device) false).

(** [READ_AXIS] leaves the function when it fails; the descriptor is closed at
    every exit. *)
Definition accelerometer_changed : M (Polled InputAccel) unit :=
  d <- gets data ;;
  fd <- sys_open (ia_dev_path d) ;;
  if fd <? 0 then ret tt
  else
    axes <- ask (fun h => x ← input_abs h fd ABS_X; y ← input_abs h fd ABS_Y;
                          z ← input_abs h fd ABS_Z; Some (x, y, z)) ;;
    (match axes with
     | None => ret tt
     | Some (x, y, z) =>
         callback (Accel (accel_readings (ia_matrix d)
           (set_accel_scale (Build_AccelScale f0 f0 f0) input_scale) x y z))
     end) ;;;
    sys_close fd.

#[export] Instance input_accel_timed : Timed InputAccel := {|
  enabled d := negb (sends_kevent d); interval _ := 700; tick := accelerometer_changed;
  before_off := ret tt; after_off := ret tt; before_on := ret tt
|}.

Definition input_accel_set_polling (state : bool) : M (Polled InputAccel) unit := switch_timer state.

Definition uevent_received (action : string) (device : Device) : M (Polled InputAccel) unit :=
  d <- gets data ;;
  if negb (String.eqb action "change") then ret tt
  else if negb (bool_decide (sysfs_path device = ia_parent d)) then ret tt
  else
    (if negb (sends_kevent d) then
       modify (set_data (IAcc (ia_parent d) (ia_dev_path d) (ia_matrix d) (ia_location d) true)) ;;;
       input_accel_set_polling false
     else ret tt) ;;;
    accelerometer_changed.

(** What happens to an open accelerometer. *)
Inductive AccelOp := AOp (op : Op) | AUevent (action : string) (device : Device).

Definition run_accel (l : list AccelOp) : M (Polled InputAccel) unit :=
  mfor l (fun op => match op with
                    | AOp op => run_op op
                    | AUevent action device => uevent_received action device
                    end).
End Accel.
#[global] Arguments AccelOp : clear implicits. #[global] Arguments AOp {Device}.
#[global] Arguments AUevent {Device}.

(** ** The proximity switch *)

Definition SW_FRONT_PROXIMITY := 11.
Definition SW_CNT := 17.
Definition EVENT_SIZE := 24.

(** The number of bits set, as the loop counts them. *)
Fixpoint count_bits (fuel : nat) (val : Z) : Z :=
  match fuel with
  | O => 0
  | S fuel' => if val =? 0 then 0 else 1 + count_bits fuel' (Z.land val (val - 1))
  end.

(** Read [n] bytes, after which the buffer holds [ev]. *)
Record Chunk := Ch { ch_bytes : Z; ch_event : InputEvent }.

Record InputProximity (Device : Type) := IProx {
  ip_dev : Device; last_switch_state : Z; channel : option Z; ev_offset : Z
}.
#[global] Arguments IProx {Device}. #[global] Arguments ip_dev {Device}.
#[global] Arguments last_switch_state {Device}. #[global] Arguments channel {Device}.
#[global] Arguments ev_offset {Device}.

Section Proximity.
Context `{Os} {Device : Type} `{U : Udev Device} `{DF : DevFiles Device} `{ID : InputDevs Device}.
Variable g_strsplit_n : string -> string -> nat -> list string.
Variable strtoul16 : string -> Z.
Variable file_text : string -> option string.

(** The bits set and the bitmask, of one [long]; [None]: a word is stored
    behind it.  The pieces are at most [sizeof (bitmask)], 8, which is the size
    of a pointer and not the number of words. *)
Definition input_str_to_bitmask (s : string) : option (Z * Z) :=
  match rev (g_strsplit_n s " " 8) with
  | [] => Some (0, 0)
  | [v] => let val := wrap 64 (strtoul16 v) in Some (count_bits 64 val, val)
  | _ => None
  end.

(** [None]: memory behind the bitmask was written; otherwise FALSE, or the
    bitmask. *)
Definition input_device_is_switch (device : Device) : option (option Z) :=
  if negb (bool_decide (subsystem device = Some "input"%string)) then Some None
  else
    let path := g_build_filename (default EmptyString (sysfs_path device)) "../capabilities/sw" in
    if negb (file_exists path) then Some None
    else
      match file_text path with
      | None => Some None
      | Some contents =>
          match input_str_to_bitmask contents with
          | None => None
          | Some (num_bits, mask) => Some (if SW_CNT <=? num_bits then None else Some mask)
          end
      end.

Definition test_bit (bit mask : Z) : Z := Z.land (Z.shiftr mask bit) 1.

Definition input_proximity_discover (device : Device) : option bool :=
  match input_device_is_switch device with
  | None => None
  | Some None => Some false
  | Some (Some mask) => Some (negb (test_bit SW_FRONT_PROXIMITY mask =? 0))
  end.

Definition near_of (state : Z) : Readings :=
  Proximity (if negb (state =? 0) then PROXIMITY_NEAR_TRUE else PROXIMITY_NEAR_FALSE).

Definition set_state (state : Z) (d : InputProximity Device) : InputProximity Device :=
  IProx (ip_dev d) state (channel d) (ev_offset d).
Definition set_offset (n : Z) (d : InputProximity Device) : InputProximity Device :=
  IProx (ip_dev d) (last_switch_state d) (channel d) n.

(** One turn per successful read. *)
Fixpoint proximity_changed (fd : Z) (chunks : list Chunk) : M (Polled (InputProximity Device)) unit :=
  match chunks with
  | [] => ret tt
  | Ch n ev :: chunks' =>
      d <- gets data ;;
      if ev_offset d + n <? EVENT_SIZE then modify (set_data (set_offset (ev_offset d + n) d))
      else
        modify (set_data (set_offset 0 d)) ;;;
        if negb (ev_type ev =? EV_SW) then proximity_changed fd chunks'
        else if negb (ev_code ev =? SW_FRONT_PROXIMITY) then proximity_changed fd chunks'
        else
          mask <- sys_evsw fd ;;
          match mask with
          | None => proximity_changed fd chunks'
          | Some mask =>
              let state := test_bit (ev_code ev) mask in
              modify (set_data (set_state state (set_offset 0 d))) ;;;
              callback (near_of state) ;;;
              proximity_changed fd chunks'
          end
  end.

Definition watch_input_proximity : M (Polled (InputProximity Device)) bool :=
  d <- gets data ;;
  match device_file (ip_dev d) with
  | None | Some EmptyString => ret false
  | Some path =>
      eventfd <- sys_open path ;;
      if eventfd <? 0 then ret false
      else
        mask <- sys_evsw eventfd ;;
        match mask with
        | None => sys_close eventfd ;;; ret false
        | Some mask =>
            modify (set_data (IProx (ip_dev d) (last_switch_state d) (Some eventfd) (ev_offset d))) ;;;
            ok <- ask (fun h => set_encoding h eventfd) ;;
            if negb ok then ret false
            else
              id_ <- g_io_add_watch eventfd ;;
              modify (set_timeout id_) ;;;
              let state := test_bit SW_FRONT_PROXIMITY mask in
              modify (set_data (IProx (ip_dev d) state (Some eventfd) (ev_offset d))) ;;;
              callback (near_of state) ;;;
              ret true
        end
  end.

Definition input_proximity_set_polling (state : bool) : M (Polled (InputProximity Device)) unit :=
  s <- gets id ;;
  if (0 <? timeout_id s) && state then ret tt
  else if (timeout_id s =? 0) && negb state then ret tt
  else
    (if negb (timeout_id s =? 0)
     then g_source_remove (timeout_id s) ;;; modify (set_timeout 0) else ret tt) ;;;
    if state then watch_input_proximity ;;; ret tt else ret tt.

Definition input_proximity_open (device : Device) : M World (option (Polled (InputProximity Device))) :=
  new_device (IProx device 0 None 0).

(** Neither the watch nor the channel is released. *)
Definition input_proximity_close : M (Polled (InputProximity Device)) unit := ret tt.
End Proximity.

(** ** Theorems *)

(** *** Counting bits *)

(** The sum of the [n] low binary digits. *)
Fixpoint digit_sum (n : nat) (v : Z) : Z :=
  match n with O => 0 | S n' => v mod 2 + digit_sum n' (v / 2) end.

Lemma digit_sum_0 n : digit_sum n 0 = 0.
Proof. induction n as [|n IH]; simpl; [done|]. exact IH. Qed.

Lemma digit_sum_pos n v : 0 < v < 2 ^ Z.of_nat n -> 0 < digit_sum n v.
Proof.
  revert v. induction n as [|n IH]; intros v Hv; [simpl in Hv; lia|].
  rewrite Nat2Z.inj_succ, Z.pow_succ_r in Hv by lia. simpl digit_sum.
  pose proof (Z.mod_pos_bound v 2 ltac:(lia)). pose proof (Z.div_mod v 2 ltac:(lia)).
  destruct (Z.eq_dec (v / 2) 0) as [E|E]; [rewrite E, digit_sum_0; lia|].
  specialize (IH (v / 2)). lia.
Qed.

(** [v & (v - 1)] clears one digit. *)
Lemma land_pred_even u : Z.land (2 * u) (2 * u - 1) = 2 * Z.land u (u - 1).
Proof.
  apply Z.bits_inj'. intros i Hi. destruct (Z.eq_dec i 0) as [->|Hn].
  - rewrite Z.land_spec, !Z.testbit_even_0. done.
  - replace i with (Z.succ (i - 1)) by lia. rewrite Z.land_spec, !Z.testbit_even_succ by lia.
    replace (2 * u - 1) with (2 * (u - 1) + 1) by lia.
    by rewrite Z.testbit_odd_succ, Z.land_spec by lia.
Qed.

Lemma land_pred_odd u : Z.land (2 * u + 1) (2 * u) = 2 * u.
Proof.
  apply Z.bits_inj'. intros i Hi. destruct (Z.eq_dec i 0) as [->|Hn].
  - by rewrite Z.land_spec, !Z.testbit_even_0, andb_false_r.
  - replace i with (Z.succ (i - 1)) by lia.
    rewrite Z.land_spec, Z.testbit_even_succ, Z.testbit_odd_succ by lia. apply andb_diag.
Qed.

Lemma halves u : 2 * u / 2 = u /\ (2 * u) mod 2 = 0 /\ (2 * u + 1) / 2 = u /\ (2 * u + 1) mod 2 = 1.
Proof. Z.div_mod_to_equations. lia. Qed.

Lemma digit_sum_land n v : 0 < v < 2 ^ Z.of_nat n ->
  digit_sum n (Z.land v (v - 1)) = digit_sum n v - 1 /\ 0 <= Z.land v (v - 1) < v.
Proof.
  revert v. induction n as [|n IH]; intros v Hv; [simpl in Hv; lia|].
  rewrite Nat2Z.inj_succ, Z.pow_succ_r in Hv by lia. simpl digit_sum.
  pose proof (Z.div_mod v 2 ltac:(lia)) as Hd. pose proof (Z.mod_pos_bound v 2 ltac:(lia)) as Hm.
  set (u := v / 2) in *. clearbody u. destruct (Z.eq_dec (v mod 2) 0) as [E|E].
  - assert (v = 2 * u) as Ev by lia. rewrite Ev, land_pred_even.
    destruct (IH u ltac:(lia)) as [Hs Hl].
    destruct (halves (Z.land u (u - 1))) as (-> & -> & _), (halves u) as (_ & -> & _). lia.
  - assert (v = 2 * u + 1) as Ev by lia. rewrite Ev. replace (2 * u + 1 - 1) with (2 * u) by lia.
    rewrite land_pred_odd. destruct (halves u) as (-> & -> & _ & ->). lia.
Qed.

Lemma count_bits_sum fuel n v : 0 <= v < 2 ^ Z.of_nat n -> digit_sum n v <= Z.of_nat fuel ->
  count_bits fuel v = digit_sum n v.
Proof.
  revert v. induction fuel as [|fuel IH]; intros v Hv Hf; cbn [count_bits].
  - destruct (Z.eq_dec v 0) as [->|E]; [by rewrite digit_sum_0|].
    pose proof (digit_sum_pos n v). lia.
  - destruct (Z.eqb_spec v 0) as [->|E]; [by rewrite digit_sum_0|].
    destruct (digit_sum_land n v) as [Hs Hl]; [lia|]. rewrite IH; lia.
Qed.

Lemma digit_sum_le n v : digit_sum n v <= Z.of_nat n.
Proof.
  revert v. induction n as [|n IH]; intros v; simpl digit_sum; [lia|].
  pose proof (Z.mod_pos_bound v 2 ltac:(lia)). specialize (IH (v / 2)). lia.
Qed.

(** The loop that clears the lowest set bit terminates within 64 turns and
    counts the set bits of a [long]. *)
Theorem count_bits_correct (v : Z) : 0 <= v < 2 ^ 64 -> count_bits 64 v = digit_sum 64 v.
Proof. intros Hv. apply count_bits_sum; [exact Hv|apply digit_sum_le]. Qed.

(** *** The accelerometer *)

Section AccelTheorems.
Context `{Os} `{!OsLaws} {Device : Type} `{U : Udev Device} `{ID : InputDevs Device}.

Lemma changed_view : same (fun s => (timer_view s, data s)) (accelerometer_changed (Device := Device)).
Proof.
  unfold accelerometer_changed. apply same_bind; [done|intros d]. apply same_bind; [done|intros fd].
  apply same_if; [done|]. apply same_bind; [done|intros axes]. apply same_bind; [|done].
  by destruct axes as [[[x y] z]|].
Qed.

(** The timer is there while polling is on and no event has come, and no other
    source of the device is. *)
Definition accel_ok (B : gmultiset Z) (on : bool) (s : Polled InputAccel) : Prop :=
  sources (trace s) = B ⊎ src (timeout_id s) /\ 0 <= timeout_id s /\
  (0 < timeout_id s <-> on = true /\ sends_kevent (data s) = false).

Lemma changed_ok B on s : accel_ok B on s -> accel_ok B on (post (accelerometer_changed (Device := Device)) s).
Proof.
  pose proof (changed_view s) as E. unfold accel_ok.
  assert (timeout_id (post accelerometer_changed s) = timeout_id s) as -> by exact (f_equal (fun x => x.1.1) E).
  assert (sources (trace (post accelerometer_changed s)) = sources (trace s)) as ->
    by exact (f_equal (fun x => x.1.2) E).
  assert (data (post accelerometer_changed s) = data s) as -> by exact (f_equal snd E).
  done.
Qed.

(** Switching off detaches the timer, whatever was on. *)
Lemma accel_off B s : 0 <= timeout_id s -> sources (trace s) = B ⊎ src (timeout_id s) ->
  let s' := post (input_accel_set_polling (Device := Device) false) s in
  timeout_id s' = 0 /\ data s' = data s /\ sources (trace s') = B /\
  emitted (trace s') = emitted (trace s).
Proof.
  intros Ht Hs. unfold input_accel_set_polling, switch_timer, post, bind, gets. simpl.
  rewrite andb_false_r, andb_true_r. destruct (Z.eqb_spec (timeout_id s) 0) as [E|E]; simpl.
  - split_and!; [done..| |done]. change (sources (trace s) = B). rewrite Hs, E, src_zero. multiset_solver.
  - split_and!; [done..| |done]. change (sources (trace s) ∖ {[+ timeout_id s +]} = B).
    rewrite Hs, src_pos by lia. multiset_solver.
Qed.

Lemma accel_switch_ok B on b s : accel_ok B on s ->
  accel_ok B b (post (input_accel_set_polling (Device := Device) b) s).
Proof.
  intros (Hs & Ht & Ho). destruct b.
  2:{ destruct (accel_off B s Ht Hs) as (E1 & E2 & E & _). unfold accel_ok. rewrite E1, E2, E.
      split_and!; [|done|].
      - rewrite src_zero. multiset_solver.
      - split; [lia|by intros [? _]]. }
  unfold input_accel_set_polling, switch_timer. rewrite post_bind. cbv beta.
  change (res (gets id) s) with s. change (post (gets id) s) with s. rewrite andb_true_r, andb_false_r.
  destruct (Z.ltb_spec 0 (timeout_id s)) as [Hp|Hp]; [split_and!; [done..|]; destruct Ho; tauto|].
  assert (timeout_id s = 0) as E by lia. rewrite E. change (0 =? 0) with true. cbn [negb].
  rewrite post_bind. cbv beta. change (post (ret tt) s) with s. rewrite post_bind. cbv beta.
  change (res (gets data) s) with (data s). change (post (gets data) s) with s.
  change (enabled (data s)) with (negb (sends_kevent (data s))). cbn [andb].
  destruct (sends_kevent (data s)) eqn:Ek; cbn [negb].
  - split; [exact Hs|split; [exact Ht|]].
    change (0 < timeout_id s <-> true = true /\ sends_kevent (data s) = false). rewrite Ek, E. split; [lia|by intros [_ ?]].
  - rewrite post_bind. cbv beta. change (post before_on s) with s. rewrite post_bind. cbv beta.
    rewrite post_bind. cbv beta. apply changed_ok.
    pose proof (source_add_pos (trace s) 700) as Hpos. split_and!.
    + change (sources (trace s) ⊎ {[+ os_source_add (trace s) 700 +]} =
              B ⊎ src (os_source_add (trace s) 700)).
      rewrite Hs, E, src_zero, src_pos by done. multiset_solver.
    + change (0 <= os_source_add (trace s) 700). lia.
    + change (0 < os_source_add (trace s) 700 <-> true = true /\ sends_kevent (data s) = false). tauto.
Qed.

(** The switches of a run. *)
Fixpoint accel_switch (on : bool) (l : list (AccelOp Device)) : bool :=
  match l with
  | [] => on
  | AOp (Switch b) :: l => accel_switch b l
  | _ :: l => accel_switch on l
  end.

Lemma accel_uevent_ok B on action device s : accel_ok B on s ->
  accel_ok B on (post (uevent_received action device) s).
Proof.
  intros Hs. pose proof Hs as (Hsrc & Ht & Ho). unfold uevent_received. rewrite post_bind. cbv beta.
  change (res (gets data) s) with (data s). change (post (gets data) s) with s.
  destruct (negb _); [done|]. destruct (negb _); [done|]. rewrite post_bind. cbv beta.
  apply changed_ok. destruct (sends_kevent (data s)) eqn:Ek; cbn [negb]; [done|].
  rewrite post_bind. cbv beta. set (s1 := post (modify _) s).
  destruct (accel_off B s1) as (E1 & E2 & E3 & _); [done..|]. split_and!.
  - rewrite E3, E1, src_zero. multiset_solver.
  - lia.
  - rewrite E1, E2. split; [lia|by intros [_ ?]].
Qed.

Lemma run_accel_ok B on l s : accel_ok B on s -> accel_ok B (accel_switch on l) (post (run_accel l) s).
Proof.
  revert on s. induction l as [|op l IH]; intros on s Hs; [done|].
  unfold run_accel. cbn [mfor]. rewrite post_bind. cbv beta.
  destruct op as [[|b]|action device]; cbn [accel_switch]; apply IH.
  - unfold run_op. rewrite post_bind. cbv beta. change (post (gets id) s) with s.
    destruct (0 <? _); [by apply (changed_ok B on)|done].
  - by apply (accel_switch_ok B on).
  - by apply accel_uevent_ok.
Qed.

Lemma accel_new_ok d w : accel_ok (sources (trace w)) false (Pl 0 d w).
Proof.
  split; [|split; [done|split; [simpl; lia|by intros [? _]]]].
  change (sources (trace w) = sources (trace w) ⊎ ∅). multiset_solver.
Qed.

(** After any run of ticks, switches and kernel events of an opened device,
    the poll timer is attached exactly while polling is on and no change event
    of the device has been seen, and nothing else is left in the main loop. *)
Theorem input_accel_timer (d : InputAccel) (w : World) (l : list (AccelOp Device)) :
  let s := post (run_accel l) (Pl 0 d w) in
  (0 < timeout_id s <-> accel_switch false l = true /\ sends_kevent (data s) = false) /\
  sources (trace s) = sources (trace w) ⊎ src (timeout_id s).
Proof.
  intros s. assert (accel_ok (sources (trace w)) (accel_switch false l) s) as (H1 & _ & H2); [|done].
  apply run_accel_ok, accel_new_ok.
Qed.

(** Once an event has come, no switch and no tick does anything. *)
Lemma kevent_silent s l : sends_kevent (data s) = true -> timeout_id s = 0 ->
  post (run_ops l) s = s.
Proof.
  intros Hk Ht. induction l as [|op l IH]; [done|]. unfold run_ops. cbn [mfor].
  rewrite post_bind. cbv beta. assert (post (run_op op) s = s) as ->; [|exact IH].
  unfold run_op, switch_timer, post, bind, gets. destruct op as [|b]; simpl; rewrite Ht; [done|].
  destruct b; [simpl|done]. by rewrite Hk.
Qed.

(** From the first change event of the device on, switching polling on attaches
    nothing and hands over nothing: a client that claims the sensor then waits
    for the next event. *)
Theorem input_accel_silent (d : InputAccel) (w : World) (l0 : list (AccelOp Device))
    (device : Device) (l : list Op) :
  let s := post (run_accel l0) (Pl 0 d w) in
  sysfs_path device = ia_parent (data s) ->
  let s1 := post (uevent_received "change" device) s in
  sends_kevent (data s1) = true /\ post (run_ops l) s1 = s1.
Proof.
  intros s Hp s1.
  assert (accel_ok (sources (trace w)) (accel_switch false l0) s) as Hs.
  { apply run_accel_ok, accel_new_ok. }
  pose proof (accel_uevent_ok _ _ "change" device s Hs) as (_ & Ht1 & Ho1). fold s1 in Ht1, Ho1.
  assert (sends_kevent (data s1) = true) as Hk.
  { unfold s1, uevent_received. rewrite post_bind. cbv beta.
    change (res (gets data) s) with (data s). change (post (gets data) s) with s. simpl negb at 1. cbv iota.
    rewrite bool_decide_true by done. cbn [negb]. rewrite post_bind. cbv beta.
    set (s2 := post _ s). assert (sends_kevent (data s2) = true) as H2.
    { unfold s2. destruct (sends_kevent (data s)) eqn:Ek; cbn [negb]; [exact Ek|].
      rewrite post_bind. cbv beta. destruct Hs as (Hsrc & Ht & _).
      destruct (accel_off (sources (trace w)) (post (modify (set_data (IAcc (ia_parent (data s))
        (ia_dev_path (data s)) (ia_matrix (data s)) (ia_location (data s)) true))) s)) as (_ & -> & _); done. }
    clearbody s2. assert (data (post accelerometer_changed s2) = data s2) as ->
      by exact (f_equal snd (changed_view s2)). exact H2. }
  split; [exact Hk|]. apply kevent_silent; [exact Hk|].
  destruct (Z.eq_dec (timeout_id s1) 0) as [|Hn]; [done|].
  destruct Ho1 as [Ho1 _]. destruct Ho1 as [_ Hc]; [lia|]. by rewrite Hk in Hc.
Qed.

(** Every reading closes the descriptor it opened, at every exit. *)
Theorem accelerometer_changed_fds (s : Polled InputAccel) :
  open_fds (trace (post (accelerometer_changed (Device := Device)) s)) = open_fds (trace s).
Proof.
  assert (fdspec (fun _ => ∅) (accelerometer_changed (Device := Device)) (fun _ _ => ∅)) as Hf.
  { unfold accelerometer_changed. apply (fdspec_bind _ _ (fun _ _ => ∅)); [intros B u Hu; exact Hu|intros d].
    eapply fdspec_bind; [apply fdspec_open|intros fd]. apply fdspec_if; intros Hfd; zbool.
    - apply fdspec_ret_eq. intros _. by rewrite own_neg.
    - rewrite own_nonneg by done. eapply fdspec_bind; [apply fdspec_ask|intros axes].
      eapply fdspec_bind with (Y := fun _ _ => ∅ ⊎ {[+ fd +]}); [|intros ?; apply fdspec_close].
      destruct axes as [[[x y] z]|]; [by apply fdspec_call|by apply fdspec_ret_eq]. }
  specialize (Hf (open_fds (trace s)) s). unfold wp in Hf. rewrite Hf; multiset_solver.
Qed.
End AccelTheorems.

(** *** The proximity switch *)

Section Offset.
Context `{Os} {Device : Type}.
#[local] Abbreviation Prox := (Polled (InputProximity Device)).

(** Nothing of the event buffer is lost or overrun, however the reads cut the
    stream. *)
Theorem proximity_offset (fd : Z) (chunks : list Chunk) :
  (forall c, c ∈ chunks -> 0 <= ch_bytes c) ->
  keeps (fun s : Prox => 0 <= ev_offset (data s) < EVENT_SIZE) (proximity_changed fd chunks).
Proof.
  induction chunks as [|[n ev] chunks IH]; intros Hc s Hs; [exact Hs|].
  assert (keeps (fun s : Prox => 0 <= ev_offset (data s) < EVENT_SIZE) (proximity_changed fd chunks))
    as IH' by (apply IH; intros; apply Hc; set_solver). clear IH.
  assert (0 <= n) as Hn by (apply (Hc (Ch n ev)); set_solver).
  cbn [proximity_changed]. rewrite post_bind. cbv beta.
  change (res (gets data) s) with (data s). change (post (gets data) s) with s.
  destruct (Z.ltb_spec (ev_offset (data s) + n) EVENT_SIZE) as [Hl|Hl].
  { unfold post, modify. simpl. lia. }
  rewrite post_bind. cbv beta. set (s1 := post (modify _) s).
  assert (data s1 = set_offset 0 (data s)) as E1 by done.
  assert (0 <= ev_offset (data s1) < EVENT_SIZE) as H1 by (rewrite E1; simpl; unfold EVENT_SIZE; lia).
  clearbody s1. destruct (negb _); [by apply IH'|]. destruct (negb _); [by apply IH'|].
  rewrite post_bind. cbv beta. change (post (sys_evsw fd) s1) with s1.
  destruct (res (sys_evsw fd) s1) as [mask|]; [|by apply IH'].
  rewrite post_bind. cbv beta. rewrite post_bind. cbv beta. apply IH'.
  unfold post, modify. simpl. unfold EVENT_SIZE. lia.
Qed.

End Offset.

Section ProximityTheorems.
Context `{Os} `{!OsLaws} {Device : Type} `{DF : DevFiles Device} `{ID : InputDevs Device}.
#[local] Abbreviation Prox := (Polled (InputProximity Device)).

(** What switching on does, when every call succeeds: a watch, a reading, and a
    descriptor. *)
Lemma watch_proximity_on (s : Prox) path :
  let fd := os_open (trace s) path in
  let h1 := EvOpen path fd :: trace s in
  device_file (ip_dev (data s)) = Some path -> path <> EmptyString ->
  0 <= fd -> os_evsw h1 fd <> None -> set_encoding h1 fd = true ->
  exists state, post watch_input_proximity s =
    Pl (os_watch_add h1 fd) (IProx (ip_dev (data s)) state (Some fd) (ev_offset (data s)))
       (set_trace (EvEmit (near_of state) :: EvWatchAdd fd (os_watch_add h1 fd) :: h1) (world s)).
Proof.
  intros fd h1 Hf Hne Hfd Hsw Henc. unfold watch_input_proximity. rewrite post_bind. cbv beta.
  change (res (gets data) s) with (data s). change (post (gets data) s) with s. rewrite Hf.
  destruct path as [|c path]; [done|]. rewrite post_bind. cbv beta.
  change (res (sys_open _) s) with fd. rewrite (proj2 (Z.ltb_ge fd 0) Hfd).
  set (s1 := post (sys_open _) s). assert (s1 = set_trace h1 s) as E1 by done. clearbody s1. subst s1.
  rewrite post_bind. cbv beta. change (res (sys_evsw fd) (set_trace h1 s)) with (os_evsw h1 fd).
  destruct (os_evsw h1 fd) as [mask|] eqn:Em; [|done].
  exists (test_bit SW_FRONT_PROXIMITY mask).
  unfold post, bind, sys_evsw, ask, modify, g_io_add_watch, callback, call. simpl.
  fold fd. change (calls (world s)) with (trace s). fold h1. rewrite Henc. simpl. done.
Qed.

(** Switching on and off again leaves no watch, but the device file stays open:
    the channel that owns the descriptor is never released. *)
Theorem proximity_leaks_descriptor (s : Prox) path :
  let fd := os_open (trace s) path in
  let h1 := EvOpen path fd :: trace s in
  timeout_id s = 0 ->
  device_file (ip_dev (data s)) = Some path -> path <> EmptyString ->
  0 <= fd -> os_evsw h1 fd <> None -> set_encoding h1 fd = true ->
  let s' := post (input_proximity_set_polling true ;;; input_proximity_set_polling false ;;;
                  input_proximity_close) s in
  timeout_id s' = 0 /\ sources (trace s') = sources (trace s) /\
  open_fds (trace s') = open_fds (trace s) ⊎ {[+ fd +]}.
Proof.
  intros fd h1 Ht Hf Hne Hfd Hsw Henc.
  destruct (watch_proximity_on s path) as [state E]; [done..|]. fold fd h1 in E.
  pose proof (watch_add_pos h1 fd) as Hpos. intros s'. unfold s'. rewrite !post_bind. cbv beta.
  assert (post (input_proximity_set_polling true) s = post watch_input_proximity s) as ->.
  { unfold input_proximity_set_polling. rewrite post_bind. cbv beta.
    change (res (gets id) s) with s. change (post (gets id) s) with s. rewrite Ht.
    change (0 <? 0) with false. change (0 =? 0) with true. cbn [andb negb].
    rewrite post_bind. cbv beta. change (post (ret tt) s) with s. rewrite post_bind. done. }
  rewrite E. set (s2 := Pl _ _ _).
  assert (timeout_id s2 = os_watch_add h1 fd) as E2 by done.
  assert (trace s2 = EvEmit (near_of state) :: EvWatchAdd fd (os_watch_add h1 fd) :: h1) as E3 by done.
  clearbody s2. unfold input_proximity_close. change (post (ret tt) ?x) with x.
  unfold input_proximity_set_polling. rewrite post_bind. cbv beta.
  change (res (gets id) s2) with s2. change (post (gets id) s2) with s2. rewrite E2.
  rewrite andb_false_r, andb_true_r. rewrite (proj2 (Z.eqb_neq (os_watch_add h1 fd) 0)) by lia.
  cbn [negb]. rewrite !post_bind. cbv beta.
  split; [done|]. split.
  - change (sources (trace s2) ∖ {[+ os_watch_add h1 fd +]} = sources (trace s)). rewrite E3. simpl.
    multiset_solver.
  - change (open_fds (trace s2) = open_fds (trace s) ⊎ {[+ fd +]}). rewrite E3. simpl.
    by rewrite own_nonneg.
Qed.
End ProximityTheorems.

(** ** Examples *)

Lemma count_bits_correct_witness : count_bits 64 2048 = 1.
Proof. rewrite count_bits_correct; [reflexivity|lia]. Defined.

Module Sim.
Definition os : Os := sim_os None None [].
Definition laws : @OsLaws os := sim_os_laws None None [].
Definition udev : Udev unit := {|
  sysfs_path _ := Some "/sys/accel"%string; udev_property _ _ := None; sysfs_attr _ _ := None;
  sysfs_attr_as_double _ _ := f0; udev_name _ := "d"%string
|}.
Definition files : DevFiles unit := {|
  attr_as_int_uncached _ _ _ := 0; attr_uncached _ _ _ := None; file_get_contents _ _ := None;
  file_exists _ := true; property_as_int _ _ := 0; attr_as_int _ _ := 0;
  device_file _ := Some "/dev/input/event4"%string; subsystem _ := None
|}.
Definition inputs : InputDevs unit := {|
  dev_parent _ := None; query_by_subsystem _ := []; property_as_boolean _ _ := false;
  input_abs _ _ _ := Some 5; set_encoding _ _ := true
|}.
Definition accel : InputAccel :=
  IAcc (Some "/sys/accel"%string) "/dev/input/event3" id_matrix ACCEL_LOCATION_DISPLAY false.
Definition prox : Polled (InputProximity unit) := Pl 0 (IProx tt 0 None 0) (Wd [] [] f0 f0).
End Sim.

Lemma input_accel_timer_witness :
  let s := post (@run_accel Sim.os unit Sim.udev Sim.inputs
    [AOp (Switch true); AOp Tick; AUevent "change" tt; AOp Tick]%string) (Pl 0 Sim.accel (Wd [] [] f0 f0)) in
  ~ 0 < timeout_id s /\ length (emitted (trace s)) = 3%nat.
Proof.
  intros s. split; [|vm_compute; reflexivity].
  pose proof (proj1 (@input_accel_timer Sim.os Sim.laws unit Sim.udev Sim.inputs Sim.accel (Wd [] [] f0 f0)
    [AOp (Switch true); AOp Tick; AUevent "change" tt; AOp Tick]%string)) as E.
  fold s in E. assert (sends_kevent (data s) = true) as Hk by (vm_compute; reflexivity).
  intros Hp. destruct E as [E _]. destruct (E Hp) as [_ Hf]. rewrite Hk in Hf. discriminate.
Defined.

Lemma input_accel_silent_witness :
  let s1 := post (@uevent_received Sim.os unit Sim.udev Sim.inputs "change" tt)
    (post (@run_accel Sim.os unit Sim.udev Sim.inputs [AOp (Switch true); AOp (Switch false)])
       (Pl 0 Sim.accel (Wd [] [] f0 f0))) in
  post (@run_ops Sim.os _ (@input_accel_timed Sim.os unit Sim.inputs) [Switch true; Tick]) s1 = s1.
Proof.
  refine (proj2 (@input_accel_silent Sim.os Sim.laws unit Sim.udev Sim.inputs Sim.accel (Wd [] [] f0 f0)
    [AOp (Switch true); AOp (Switch false)] tt [Switch true; Tick] _)).
  vm_compute. reflexivity.
Defined.

Lemma proximity_offset_witness :
  0 <= ev_offset (data (post (@proximity_changed Sim.os unit 3
    [Ch 10 (Ev 0 0 0); Ch 14 (Ev EV_SW SW_FRONT_PROXIMITY 1); Ch 5 (Ev 0 0 0)]) Sim.prox)) < EVENT_SIZE.
Proof.
  apply (@proximity_offset Sim.os unit 3); [|vm_compute; split; [discriminate|reflexivity]].
  intros c Hc. repeat (apply elem_of_cons in Hc as [->|Hc]; [vm_compute; discriminate|]).
  by apply elem_of_nil in Hc.
Defined.

Lemma proximity_leaks_descriptor_witness :
  open_fds (trace (post (@input_proximity_set_polling Sim.os unit Sim.files Sim.inputs true ;;;
    @input_proximity_set_polling Sim.os unit Sim.files Sim.inputs false ;;; input_proximity_close) Sim.prox))
  = ∅ ⊎ {[+ 3 +]}.
Proof.
  refine (proj2 (proj2 (@proximity_leaks_descriptor Sim.os Sim.laws unit Sim.files Sim.inputs Sim.prox
    "/dev/input/event4" eq_refl eq_refl _ _ _ _))); vm_compute; discriminate || reflexivity.
Defined.
