(* ===== verification/BufferDrivers.v ===== *)
(** * The buffer drivers (drv-iio-buffer-accel.c, drv-iio-buffer-light.c,
    drv-iio-buffer-compass.c)

    Drivers that read scans from the device file of an IIO buffer, over the
    set-up and decoding of IioBuffer.v and the timer of Polled.v. *)

From Stdlib Require Import ZArith Lia SpecFloat Ascii.
From stdpp Require Import base list strings pretty gmultiset.
From S2P Require Import Prelude Floats Drivers MountMatrix Os MxcFilter MxcDevice IioBuffer Polled PollDrivers.

#[local] Open Scope Z_scope.
#[local] Open Scope prog_scope.

(** ** Data *)

(** An open buffer: what is read, and the device file. *)
Record IioDev := Iio { bd_path : string; buffer_data : BufferDrvData }.

Record BufferAccel := BAcc { ba_iio : IioDev; ba_matrix : list AccelVec3; ba_location : AccelLocation }.
Record BufferLight := BLight { bl_iio : IioDev }.
Record BufferCompass := BCompass { bc_iio : IioDev }.

Definition bytes_of (s : string) : list Z :=
  map (fun c => Z.of_N (N_of_ascii c)) (String.list_ascii_of_string s).

(** The last whole scan of what was read. *)
Definition last_scan (b : BufferDrvData) (data : list Z) : option (list Z) :=
  let i := Z.quot (Z.of_nat (length data)) (scan_size b) - 1 in
  if i <? 0 then None else Some (drop (Z.to_nat (scan_size b * i)) data).

Section Scan.
(** What a variable that is not set holds, by the name of its channel. *)
Variable unset : string -> Z * float.

(** Value and scale of a channel; [None]: aborts. *)
Definition channel_value (b : BufferDrvData) (data : list Z) (ch_name : string) : option (Z * float) :=
  match process_scan_1 data (channels b) ch_name with
  | None => None
  | Some None => Some (unset ch_name)
  | Some (Some r) => Some r
  end.

Definition accel_scan (d : BufferAccel) (data : list Z) : option Readings :=
  let b := buffer_data (ba_iio d) in
  x ← channel_value b data "in_accel_x";
  y ← channel_value b data "in_accel_y";
  z ← channel_value b data "in_accel_z";
  Some (Accel (accel_readings (ba_matrix d) (Build_AccelScale x.2 y.2 z.2) x.1 y.1 z.1)).

(** The level is initialised to zero, its scale is not. *)
Definition light_scan (d : BufferLight) (data : list Z) : option Readings :=
  match process_scan_1 data (channels (buffer_data (bl_iio d))) "in_intensity_both" with
  | None => None
  | Some r =>
      let '(level, scale) := match r with
                             | Some r => r
                             | None => (0, (unset "in_intensity_both").2)
                             end in
      Some (Light (f64_mul (f64_of_Z level) scale) true)
  end.

Definition compass_scan (d : BufferCompass) (data : list Z) : option Readings :=
  v ← channel_value (buffer_data (bc_iio d)) data "in_rot_from_north_magnetic_tilt_comp";
  Some (Compass (f64_mul (f64_of_Z v.1) v.2)).
End Scan.

(** ** Ticks *)

(** The three drivers differ in where their buffer is, what a scan means and
    when the buffer is disabled. *)
Section Ticks.
Context `{Os} {FS : Sysfs}.

(** [prepare_output] and [process_scan]; the descriptor is closed at every
    exit. *)
Definition prepare_output {D} (iio : D -> IioDev) (scan : D -> list Z -> option Readings) :
    M (Polled D) unit :=
  d <- gets data ;;
  let b := buffer_data (iio d) in
  fp <- sys_open (bd_path (iio d)) ;;
  if fp =? -1 then ret tt
  else
    contents <- sys_read fp (127 * scan_size b) ;;
    (match contents with
     | None => ret tt
     | Some s =>
         match last_scan b (bytes_of s) with
         | None => ret tt
         | Some scan_ =>
             match scan d scan_ with
             | None => call (fun _ => tt) (fun _ => EvAbort)
             | Some r => callback r
             end
         end
     end) ;;;
    sys_close fp.

Definition ring_buffer {D} (iio : D -> IioDev) (on : bool) : M (Polled D) unit :=
  d <- gets data ;;
  let dir := dev_dir_name (buffer_data (iio d)) in
  on_world (on_files (if on then enable_ring_buffer dir ;;; ret tt else disable_ring_buffer dir)).

Variable unset : string -> Z * float.

Definition read_orientation : M (Polled BufferAccel) unit := prepare_output ba_iio (accel_scan unset).
Definition read_light : M (Polled BufferLight) unit := prepare_output bl_iio (light_scan unset).
Definition read_heading : M (Polled BufferCompass) unit := prepare_output bc_iio (compass_scan unset).

Definition iio_buffer_accel_timed : Timed BufferAccel := {|
  enabled _ := true; interval _ := 700; tick := read_orientation;
  before_off := ret tt; after_off := ring_buffer ba_iio false; before_on := ring_buffer ba_iio true
|}.
Definition iio_buffer_light_timed : Timed BufferLight := {|
  enabled _ := true; interval _ := 700; tick := read_light;
  before_off := ret tt; after_off := ring_buffer bl_iio false; before_on := ring_buffer bl_iio true
|}.
Definition iio_buffer_compass_timed : Timed BufferCompass := {|
  enabled _ := true; interval _ := 700; tick := read_heading;
  before_off := ring_buffer bc_iio false; after_off := ret tt; before_on := ring_buffer bc_iio true
|}.

Definition iio_buffer_accel_set_polling (state : bool) : M (Polled BufferAccel) unit :=
  @switch_timer _ _ iio_buffer_accel_timed state.
Definition iio_buffer_light_set_polling (state : bool) : M (Polled BufferLight) unit :=
  @switch_timer _ _ iio_buffer_light_timed state.
Definition iio_buffer_compass_set_polling (state : bool) : M (Polled BufferCompass) unit :=
  @switch_timer _ _ iio_buffer_compass_timed state.
End Ticks.

(** ** Opening, discovery and closing *)

Section Open.
Context `{Os} {FS : Sysfs} {Device : Type} `{U : Udev Device} `{DF : DevFiles Device}.
Variable g_strsplit : string -> string -> list string.
Variable g_strsplit_n : string -> string -> nat -> list string.
Variable strtod : string -> float.
Variable g_ascii_strtod : string -> float * nat.
Variable g_ascii_dtostr : float -> string.
Variable g_ptr_array_sort :
  (iio_channel_info -> iio_channel_info -> Z) -> list iio_channel_info -> list iio_channel_info.
Variable attr_as_boolean : Device -> string -> bool.
Variable device_number : Device -> string.
Variable round_freq : Device -> string -> float -> float.
Variable g_getenv : string -> option string.
(** Data on a descriptor within half a second. *)
Variable poll_in : Trace -> Z -> bool.
(** The devices of the iio subsystem. *)
Variable devices : list Device.

(** utils.c: the file of the test bed when there is one. *)
Definition get_device_file (device : Device) : option string :=
  match g_getenv "UMOCKDEV_DIR" with
  | None => device_file device
  | Some dir => Some (g_build_filename dir "iio-dev-data.bin")
  end.

Definition is_buffer_usable (path : string) : M World bool :=
  fp <- sys_open path ;;
  if fp =? -1 then ret false
  else
    usable <- ask (fun h => poll_in h fp) ;;
    sys_close fp ;;;
    ret usable.

(** The part the three open functions share: the buffer is set up and left
    disabled.  [None]: a fault, [Some None]: NULL. *)
Definition open_iio (device : Device) : M World (option (option IioDev)) :=
  r <- on_files (buffer_drv_data_new g_strsplit g_ascii_strtod g_ascii_dtostr g_ptr_array_sort
                   attr_as_boolean device_number round_freq devices device) ;;
  match r with
  | None => ret None
  | Some None => ret (Some None)
  | Some (Some b) =>
      on_files (disable_ring_buffer (dev_dir_name b)) ;;;
      ret (Some (Some (Iio (default EmptyString (get_device_file device)) b)))
  end.

Definition open_with {D} (mk : IioDev -> D) (device : Device) : M World (option (option (Polled D))) :=
  r <- open_iio device ;;
  match r with
  | None => ret None
  | Some None => ret (Some None)
  | Some (Some i) => s <- new_device (mk i) ;; ret (Some s)
  end.

Definition iio_buffer_accel_open : Device -> M World (option (option (Polled BufferAccel))) :=
  fun device => open_with (fun i => BAcc i (setup_mount_matrix g_strsplit_n strtod device)
                                         (setup_accel_location device)) device.
Definition iio_buffer_light_open : Device -> M World (option (option (Polled BufferLight))) :=
  open_with BLight.
Definition iio_buffer_compass_open : Device -> M World (option (option (Polled BufferCompass))) :=
  open_with BCompass.

Definition close_iio (device : Device) (i : IioDev) : M World unit :=
  on_files (buffer_drv_data_free attr_as_boolean device (buffer_data i)).

(** Open, enable, wait for data, disable, close. *)
Definition discover_with (type : string) (device : Device) : M World (option bool) :=
  if negb (drv_check_udev_sensor_type g_strsplit device type) then ret (Some false)
  else
    r <- open_iio device ;;
    match r with
    | None => ret None
    | Some None => ret (Some false)
    | Some (Some i) =>
        on_files (enable_ring_buffer (dev_dir_name (buffer_data i))) ;;;
        usable <- is_buffer_usable (bd_path i) ;;
        on_files (disable_ring_buffer (dev_dir_name (buffer_data i))) ;;;
        close_iio device i ;;;
        ret (Some usable)
    end.

Definition iio_buffer_accel_discover : Device -> M World (option bool) := discover_with "iio-buffer-accel".
Definition iio_buffer_light_discover : Device -> M World (option bool) := discover_with "iio-buffer-als".
Definition iio_buffer_compass_discover : Device -> M World (option bool) := discover_with "iio-buffer-compass".
End Open.

(** ** Theorems *)

Section Laws.
Context `{Os} {FS : Sysfs}.

Lemma on_files_calm {D A} (m : M FsHist A) : same timer_view (on_world (D := D) (on_files m)).
Proof.
  intros s. unfold on_world, on_files, post. by destruct (m (files (world s))).
Qed.

Lemma ring_calm {D} (iio : D -> IioDev) on : same timer_view (ring_buffer iio on).
Proof. apply same_bind; [done|intros d; apply on_files_calm]. Qed.

Lemma prepare_calm {D} (iio : D -> IioDev) scan : same timer_view (prepare_output iio scan).
Proof.
  unfold prepare_output. apply same_bind; [done|intros d]. apply same_bind; [done|intros fp].
  apply same_if; [done|]. apply same_bind; [done|intros c]. apply same_bind; [|done].
  destruct c as [c|]; [|done]. destruct (last_scan _ _) as [l|]; [|done]. by destruct (scan d l).
Qed.

#[export] Instance iio_buffer_accel_laws unset : @TimedLaws BufferAccel _ (iio_buffer_accel_timed unset).
Proof. split; [apply prepare_calm|done|apply ring_calm|apply ring_calm|done]. Qed.
#[export] Instance iio_buffer_light_laws unset : @TimedLaws BufferLight _ (iio_buffer_light_timed unset).
Proof. split; [apply prepare_calm|done|apply ring_calm|apply ring_calm|done]. Qed.
#[export] Instance iio_buffer_compass_laws unset :
  @TimedLaws BufferCompass _ (iio_buffer_compass_timed unset).
Proof. split; [apply prepare_calm|apply ring_calm|done|apply ring_calm|done]. Qed.

(** A scan is read through a descriptor that is closed again. *)
Lemma prepare_fds {D} (iio : D -> IioDev) scan (s : Polled D) :
  (forall h p, -1 <= os_open h p) ->
  open_fds (trace (post (prepare_output iio scan) s)) = open_fds (trace s).
Proof.
  intros Ho. assert (fdspec (fun _ => ∅) (prepare_output iio scan) (fun _ _ => ∅)) as Hf.
  { unfold prepare_output. apply (fdspec_bind _ _ (fun _ _ => ∅)); [intros B u Hu; exact Hu|intros d].
    eapply (fdspec_bind_fact (fun fd => -1 <= fd)); [apply fdspec_open|intros u; apply Ho|intros fd Hfd].
    apply fdspec_if; intros E; zbool.
    - apply fdspec_ret_eq. intros _. by rewrite own_neg by lia.
    - rewrite own_nonneg by lia. eapply fdspec_bind; [by apply fdspec_call|intros c].
      eapply fdspec_bind with (Y := fun _ _ => ∅ ⊎ {[+ fd +]}); [|intros ?; apply fdspec_close].
      destruct c as [c|]; [|by apply fdspec_ret_eq].
      destruct (last_scan _ _) as [l|]; [|by apply fdspec_ret_eq].
      destruct (scan d l); by apply fdspec_call. }
  specialize (Hf (open_fds (trace s)) s). unfold wp in Hf. rewrite Hf; multiset_solver.
Qed.
End Laws.

(** *** The buffer is enabled while it is polled *)

Section Enabled.
Context `{Os} `{!OsLaws} {FS : Sysfs} {D : Type} (T : Timed D) `{!TimedLaws D}.
Variable iio : D -> IioDev.






Hypothesis tick_files : same (fun s : Polled D => (data s, files (world s))) tick.
Hypothesis off_disables :
  (before_off (D := D) = ret tt /\ after_off (D := D) = ring_buffer iio false) \/
  (before_off (D := D) = ring_buffer iio false /\ after_off (D := D) = ret tt).
Hypothesis on_enables : before_on (D := D) = ring_buffer iio true.














End Enabled.

Section Follows.
Context `{Os} `{!OsLaws} {FS : Sysfs}.
Variable unset : string -> Z * float.


End Follows.

(** ** Example: an accelerometer buffer that cannot be read *)

Module Sim.
Definition iio : IioDev := Iio "/dev/iio:device0" (Buf "/sys/d" None [] 8).
End Sim.

