(* ===== verification/Machine.v ===== *)
(** * The service with its drivers

    The table of drivers of iio-sensor-proxy.c, over the drivers of
    MxcPolling.v, PollDrivers.v, InputDrivers.v and BufferDrivers.v.  A device
    remembers the driver it belongs to, and [driver_set_polling] and
    [driver_close] dispatch on it.  The drivers that read when they are switched
    on obey the interface of Claims.v. *)

From Stdlib Require Import ZArith Lia.
From stdpp Require Import base list strings gmap gmultiset sets.
From S2P Require Import Prelude Floats Drivers MountMatrix Os MxcFilter MxcDevice MxcPolling IioBuffer Proxy Claims Polled PollDrivers InputDrivers BufferDrivers.

#[local] Open Scope Z_scope.
#[local] Open Scope prog_scope.

(** ** Open devices *)

(** [SensorDevice]: one constructor per driver. *)
Inductive SensorDevice (Dev : Type) :=
  | DMxc (s : Mxc)
  | DPollAccel (s : Polled (PollAccel Dev))
  | DPollLight (s : Polled PollLight)
  | DPollProximity (s : Polled (PollProximity Dev))
  | DHwmonLight (s : Polled (HwmonLight Dev))
  | DFakeLight (s : Polled FakeLight)
  | DFakeCompass (s : Polled FakeCompass)
  | DInputAccel (s : Polled InputAccel)
  | DInputProximity (s : Polled (InputProximity Dev))
  | DBufferAccel (dev : Dev) (s : Polled BufferAccel)
  | DBufferLight (dev : Dev) (s : Polled BufferLight)
  | DBufferCompass (dev : Dev) (s : Polled BufferCompass).
#[global] Arguments DMxc {Dev}. #[global] Arguments DPollAccel {Dev}.
#[global] Arguments DPollLight {Dev}. #[global] Arguments DPollProximity {Dev}.
#[global] Arguments DHwmonLight {Dev}. #[global] Arguments DFakeLight {Dev}.
#[global] Arguments DFakeCompass {Dev}. #[global] Arguments DInputAccel {Dev}.
#[global] Arguments DInputProximity {Dev}. #[global] Arguments DBufferAccel {Dev}.
#[global] Arguments DBufferLight {Dev}. #[global] Arguments DBufferCompass {Dev}.

(** A routine of the MXC6655 driver, which keeps a trace only, in the world. *)
Definition on_calls {A} (m : M Trace A) : M World A := fun w =>
  let (a, h) := m (Polled.calls w) in (a, set_trace h w).

(** The readings handed over between two traces. *)
Definition emitted_since (h h' : Trace) : list Readings := drop (length (emitted h)) (emitted h').

Definition switch_mxc `{Os} `{Drm} (s : Mxc) (state : bool) : M World (Mxc * list Readings) := fun w =>
  let s' := post (mxc6655_set_polling state) (set_trace (trace w) s) in
  ((s', emitted_since (trace w) (trace s')), set_trace (trace s') w).

Definition switch_polled {D} (set_polling : bool -> M (Polled D) unit) (s : Polled D) (state : bool) :
    M World (Polled D * list Readings) := fun w =>
  let s' := post (set_polling state) (set_world w s) in
  ((s', emitted_since (trace w) (trace s')), Polled.world s').

Section Machine.
Context `{Os} `{Drm} {FS : Sysfs} {Dev : Type} `{U : Udev Dev} `{DF : DevFiles Dev} `{ID : InputDevs Dev}.
Variable g_strsplit : string -> string -> list string.
Variable g_strsplit_n : string -> string -> nat -> list string.
Variable strtod : string -> float.
Variable g_ascii_strtod : string -> float * nat.
Variable g_ascii_strtoull : string -> Z.
Variable g_ascii_dtostr : float -> string.
Variable strtoul16 : string -> Z.
Variable g_ptr_array_sort :
  (iio_channel_info -> iio_channel_info -> Z) -> list iio_channel_info -> list iio_channel_info.
Variable attr_as_boolean : Dev -> string -> bool.
Variable device_number : Dev -> string.
Variable g_getenv : string -> option string.
Variable poll_in : Trace -> Z -> bool.
Variable unset : string -> Z * float.
Variable file_text : string -> option string.
Variable iio_devices : list Dev.
#[local] Abbreviation round_freq := (iio_round_sampling_frequency g_ascii_strtod).

(** ** Dispatch on the driver of a device *)

Definition into {P} (mk : P -> SensorDevice Dev) (m : M World (P * list Readings)) :
    M World (SensorDevice Dev * list Readings) :=
  r <- m ;; ret (mk (fst r), snd r).

Definition device_set_polling (d : SensorDevice Dev) (state : bool) :
    M World (SensorDevice Dev * list Readings) :=
  match d with
  | DMxc s => into DMxc (switch_mxc s state)
  | DPollAccel s => into DPollAccel (switch_polled iio_poll_accel_set_polling s state)
  | DPollLight s => into DPollLight (switch_polled (iio_poll_light_set_polling strtod) s state)
  | DPollProximity s => into DPollProximity (switch_polled iio_poll_proximity_set_polling s state)
  | DHwmonLight s => into DHwmonLight (switch_polled hwmon_light_set_polling s state)
  | DFakeLight s => into DFakeLight (switch_polled fake_light_set_polling s state)
  | DFakeCompass s => into DFakeCompass (switch_polled fake_compass_set_polling s state)
  | DInputAccel s => into DInputAccel (switch_polled (input_accel_set_polling (Device := Dev)) s state)
  | DInputProximity s => into DInputProximity (switch_polled input_proximity_set_polling s state)
  | DBufferAccel dev s =>
      into (DBufferAccel dev) (switch_polled (iio_buffer_accel_set_polling unset) s state)
  | DBufferLight dev s =>
      into (DBufferLight dev) (switch_polled (iio_buffer_light_set_polling unset) s state)
  | DBufferCompass dev s =>
      into (DBufferCompass dev) (switch_polled (iio_buffer_compass_set_polling unset) s state)
  end.

(** The other close functions only free memory. *)
Definition device_close (d : SensorDevice Dev) : M World unit :=
  match d with
  | DMxc s => on_calls (fun h => (tt, trace (post mxc6655_close (set_trace h s))))
  | DBufferAccel dev s => close_iio attr_as_boolean dev (ba_iio (data s))
  | DBufferLight dev s => close_iio attr_as_boolean dev (bl_iio (data s))
  | DBufferCompass dev s => close_iio attr_as_boolean dev (bc_iio (data s))
  | _ => ret tt
  end.

(** ** The table *)

Definition opened {P} (mk : P -> SensorDevice Dev) (m : M World (option P)) :
    M World (option (SensorDevice Dev)) :=
  r <- m ;; ret (match r with Some p => Some (mk p) | None => None end).

(** A fault ends the process. *)
Definition or_abort {A} (default_ : A) (m : M World (option A)) : M World A :=
  r <- m ;;
  match r with
  | Some a => ret a
  | None => call (fun _ => tt) (fun _ => EvAbort) ;;; ret default_
  end.

#[local] Abbreviation driver t disc op := {|
  drv_type := t; discover := disc; open := op;
  set_polling := device_set_polling; close := device_close |}.

Definition mxc6655_accel := driver DRIVER_TYPE_ACCEL
  (fun device => ret (mxc6655_discover device))
  (fun _ : Dev => opened DMxc (on_calls (mxc6655_open g_strsplit g_ascii_strtoull))).
Definition iio_buffer_accel := driver DRIVER_TYPE_ACCEL
  (fun device => or_abort false (iio_buffer_accel_discover g_strsplit g_ascii_strtod g_ascii_dtostr
     g_ptr_array_sort attr_as_boolean device_number round_freq g_getenv poll_in iio_devices device))
  (fun device => opened (DBufferAccel device) (or_abort None (iio_buffer_accel_open g_strsplit g_strsplit_n
     strtod g_ascii_strtod g_ascii_dtostr g_ptr_array_sort attr_as_boolean device_number round_freq
     g_getenv iio_devices device))).
Definition iio_poll_accel := driver DRIVER_TYPE_ACCEL
  (fun device => ret (iio_poll_accel_discover g_strsplit device))
  (fun device => opened DPollAccel (iio_poll_accel_open g_strsplit_n strtod g_ascii_dtostr round_freq device)).
Definition input_accel := driver DRIVER_TYPE_ACCEL
  (fun device => ret (input_accel_discover g_strsplit device))
  (fun device => opened DInputAccel (input_accel_open g_strsplit_n strtod device)).
Definition iio_buffer_light := driver DRIVER_TYPE_LIGHT
  (fun device => or_abort false (iio_buffer_light_discover g_strsplit g_ascii_strtod g_ascii_dtostr
     g_ptr_array_sort attr_as_boolean device_number round_freq g_getenv poll_in iio_devices device))
  (fun device => opened (DBufferLight device) (or_abort None (iio_buffer_light_open g_strsplit
     g_ascii_strtod g_ascii_dtostr g_ptr_array_sort attr_as_boolean device_number round_freq
     g_getenv iio_devices device))).
Definition iio_poll_light := driver DRIVER_TYPE_LIGHT
  (fun device => ret (iio_poll_light_discover g_strsplit device))
  (fun device => opened DPollLight (iio_poll_light_open strtod g_ascii_dtostr round_freq device)).
Definition hwmon_light := driver DRIVER_TYPE_LIGHT
  (fun device => ret (hwmon_light_discover g_strsplit device))
  (fun device => opened DHwmonLight (hwmon_light_open g_getenv device)).
Definition fake_compass := driver DRIVER_TYPE_COMPASS
  (fun device => ret (fake_compass_discover g_getenv device))
  (fun device => opened DFakeCompass (fake_compass_open device)).
Definition fake_light := driver DRIVER_TYPE_LIGHT
  (fun device => ret (fake_light_discover g_getenv device))
  (fun device => opened DFakeLight (fake_light_open device)).
Definition iio_buffer_compass := driver DRIVER_TYPE_COMPASS
  (fun device => or_abort false (iio_buffer_compass_discover g_strsplit g_ascii_strtod g_ascii_dtostr
     g_ptr_array_sort attr_as_boolean device_number round_freq g_getenv poll_in iio_devices device))
  (fun device => opened (DBufferCompass device) (or_abort None (iio_buffer_compass_open g_strsplit
     g_ascii_strtod g_ascii_dtostr g_ptr_array_sort attr_as_boolean device_number round_freq
     g_getenv iio_devices device))).
Definition iio_poll_proximity := driver DRIVER_TYPE_PROXIMITY
  (fun device => ret (iio_poll_proximity_discover g_strsplit device))
  (fun device => opened DPollProximity (iio_poll_proximity_open g_ascii_dtostr round_freq device)).
Definition input_proximity := driver DRIVER_TYPE_PROXIMITY
  (fun device => or_abort false (ret (input_proximity_discover g_strsplit_n strtoul16 file_text device)))
  (fun device => opened DInputProximity (input_proximity_open device)).

Definition drivers : list (@SensorDriver Dev World (SensorDevice Dev)) :=
  [mxc6655_accel; iio_buffer_accel; iio_poll_accel; input_accel; iio_buffer_light; iio_poll_light;
   hwmon_light; fake_compass; fake_light; iio_buffer_compass; iio_poll_proximity; input_proximity].

(** ** The drivers that read when they are switched on *)

Definition prompt_drivers : list (@SensorDriver Dev World (SensorDevice Dev)) :=
  [mxc6655_accel; iio_poll_accel; fake_compass; fake_light; iio_poll_proximity].

(** The others wait for data or an event, or read a file that may not be
    there. *)
Definition waiting_drivers : list (@SensorDriver Dev World (SensorDevice Dev)) :=
  [iio_buffer_accel; input_accel; iio_buffer_light; iio_poll_light; hwmon_light; iio_buffer_compass;
   input_proximity].

Lemma drivers_split d : d ∈ drivers -> d ∈ prompt_drivers \/ d ∈ waiting_drivers.
Proof. unfold drivers, prompt_drivers, waiting_drivers. rewrite !elem_of_cons. tauto. Qed.

Definition device_type (p : SensorDevice Dev) : DriverType :=
  match p with
  | DMxc _ | DPollAccel _ | DInputAccel _ | DBufferAccel _ _ => DRIVER_TYPE_ACCEL
  | DPollLight _ | DHwmonLight _ | DFakeLight _ | DBufferLight _ _ => DRIVER_TYPE_LIGHT
  | DFakeCompass _ | DBufferCompass _ _ => DRIVER_TYPE_COMPASS
  | DPollProximity _ | DInputProximity _ => DRIVER_TYPE_PROXIMITY
  end.

(** On or off; the hinge accelerometer reads in any state. *)
Definition device_on (p : SensorDevice Dev) (on : bool) : Prop :=
  match p with
  | DMxc _ => True
  | DPollAccel s => is_on s on
  | DPollProximity s => is_on s on
  | DFakeLight s => is_on s on
  | DFakeCompass s => is_on s on
  | _ => False
  end.

Definition machine_ready (d : @SensorDriver Dev World (SensorDevice Dev)) (p : SensorDevice Dev)
    (on : bool) : Prop := device_type p = drv_type d /\ device_on p on.

Section Obey.
Context `{!OsLaws}.

Lemma device_switch_on p b b' w : device_on p b ->
  device_on (fst (res (device_set_polling p b') w)) b' /\
  device_type (fst (res (device_set_polling p b') w)) = device_type p.
Proof.
  intros Hp. destruct p; try done; unfold device_set_polling, into, res, bind, ret; simpl; split; try done;
    by apply (polled_switch_on _ b b' w).
Qed.

Lemma device_prompt p b w : device_on p b -> b = false ->
  exists r l, snd (res (device_set_polling p true) w) = r :: l /\ reading_of (device_type p) r = true.
Proof.
  intros Hp ->. destruct p as [s|s|s|s|s|s|s|s|s|dev s|dev s|dev s]; try done;
    unfold device_set_polling, into, res, bind, ret; simpl.
  - pose proof (set_polling_emits (set_trace (Polled.calls w) s) true) as E.
    unfold emitted_since. setoid_rewrite E. cbn [MxcPolling.calls set_trace mxc_trace].
    rewrite drop_app_length. eauto.
  - destruct (polled_switch_prompt DRIVER_TYPE_ACCEL s w _ Hp) as (r & Hr & E). exists r, []. by split.
  - destruct (polled_switch_prompt DRIVER_TYPE_PROXIMITY s w _ Hp) as (r & Hr & E). exists r, []. by split.
  - destruct (polled_switch_prompt DRIVER_TYPE_LIGHT s w _ Hp) as (r & Hr & E). exists r, []. by split.
  - destruct (polled_switch_prompt DRIVER_TYPE_COMPASS s w _ Hp) as (r & Hr & E). exists r, []. by split.
Qed.

(** A device just opened is off. *)
Lemma opened_new {P} (mk : Polled P -> SensorDevice Dev) (m : M World (option (Polled P))) device w :
  (forall w p, res m w = Some p -> timeout_id p = 0) ->
  res (opened mk m) w = Some device -> exists p, device = mk p /\ timeout_id p = 0.
Proof.
  intros Hm. unfold opened, res, bind. specialize (Hm w). unfold res in Hm.
  destruct (m w) as [[p|] w']; [|done]. intros [= <-]. eauto.
Qed.

Lemma off_is_on {P} (p : Polled P) : timeout_id p = 0 -> is_on p false.
Proof. intros Hp. by split. Qed.

Lemma prompt_obeys (d : @SensorDriver Dev World (SensorDevice Dev)) :
  d ∈ prompt_drivers -> Obeys machine_ready true d.
Proof.
  intros Hd. assert (forall device w p, res (driver_open d device) w = Some p -> machine_ready d p false)
    as Hopen.
  { intros device w p Hp. unfold prompt_drivers in Hd.
    repeat (apply elem_of_cons in Hd as [->|Hd]); [..|by apply elem_of_nil in Hd];
      unfold driver_open in Hp; cbn [open] in Hp.
    - revert Hp. unfold mxc6655_accel, opened, on_calls, res, bind. cbn [open].
      destruct (mxc6655_open _ _ _) as [[s|] h]; [|done]. by intros [= <-].
    - apply opened_new in Hp as (s & -> & Hs); [split; [done|by apply off_is_on]|].
      intros v q. unfold iio_poll_accel_open, new_device, res, bind, on_files.
      destruct (iio_fixup_sampling_frequency _ _ _ _). by intros [= <-].
    - apply opened_new in Hp as (s & -> & Hs); [split; [done|by apply off_is_on]|]. by intros v q [= <-].
    - apply opened_new in Hp as (s & -> & Hs); [split; [done|by apply off_is_on]|]. by intros v q [= <-].
    - apply opened_new in Hp as (s & -> & Hs); [split; [done|by apply off_is_on]|].
      intros v q. unfold iio_poll_proximity_open, new_device, res, bind, on_files.
      destruct (iio_fixup_sampling_frequency _ _ _ _). destruct (_ =? 0); [done|].
      destruct (get_proximity_channel_attr _ _); [by intros [= <-]|done]. }
  assert (forall p b w, driver_set_polling d p b w = device_set_polling p b w) as Hset.
  { intros p b w. unfold prompt_drivers in Hd.
    by repeat (apply elem_of_cons in Hd as [->|Hd]); [..|by apply elem_of_nil in Hd]. }
  split; [exact Hopen| |].
  - intros p b b' w [Ht Hon]. unfold res. rewrite Hset.
    destruct (device_switch_on p b b' w Hon) as [Hn1 Hn2]. split; [rewrite <- Ht; exact Hn2|exact Hn1].
  - intros p b w [Ht Hon] Hb. unfold prompt, res. rewrite Hset, <- Ht.
    apply (device_prompt p b w); auto.
Qed.

(** C2: With --lazy, on a machine whose sensors are the hinge accelerometer, polled
    accelerometers and proximity sensors and the fake sensors, no client ever
    waits: after any run of calls, vanishing clients, device events and
    readings every call has been answered, each within its own handling. *)
Theorem machine_answers_every_call
    (g_bus_watch_name : list Out -> string -> Z) (is_authorized : list Out -> string -> bool)
    (atan2 : float -> float -> float) (w : World) (devices : list Dev)
    (l : list (@Proxy.Event Dev)) (inv : Z) :
  (forall h c, 0 < g_bus_watch_name h c) ->
  Forall (fun d => forall device w, res (driver_discover d device) w = false) waiting_drivers ->
  let s0 := post (name_acquired_handler atan2 drivers devices) (start w true) in
  let s := post (run g_bus_watch_name is_authorized atan2 drivers l) s0 in
  answered inv (out s) = answered inv (out s0) + requests inv l /\
  forall t, invocations_delayed (slots s t) = [] /\ event_delayed (slots s t) = false.
Proof.
  intros Hw Hsel. apply (run_answered g_bus_watch_name is_authorized atan2 drivers machine_ready true Hw).
  intros d (Hin & device & v & Hd). apply prompt_obeys.
  destruct (drivers_split d Hin) as [|Ho]; [done|].
  rewrite Forall_forall in Hsel. by rewrite (Hsel d Ho) in Hd.
Qed.
End Obey.
End Machine.

(** ** A MiniBook: the hinge accelerometer and a device no driver wants *)

Module Sim.
Inductive Board := Hinge | Other.

#[export] Instance board_udev : Udev Board := {|
  sysfs_path d := Some (match d with
                        | Hinge => "/sys/devices/" +:+ ACPI_MATCH_ID +:+ ":00"
                        | Other => "/sys/devices/other" end)%string;
  udev_property _ _ := None; sysfs_attr _ _ := None;
  sysfs_attr_as_double _ _ := f0; udev_name _ := "board"%string
|}.
#[export] Instance board_files : DevFiles Board := {|
  attr_as_int_uncached _ _ _ := 0; attr_uncached _ _ _ := None; file_get_contents _ _ := None;
  file_exists _ := false; property_as_int _ _ := 0; attr_as_int _ _ := 0;
  device_file _ := None; subsystem _ := Some "platform"%string
|}.
#[export] Instance board_inputs : InputDevs Board := {|
  dev_parent _ := None; query_by_subsystem _ := []; property_as_boolean _ _ := false;
  input_abs _ _ _ := None; set_encoding _ _ := true
|}.
#[export] Instance os : Os := MxcPolling.Sim.os.
#[export] Instance os_laws : OsLaws := MxcPolling.Sim.os_laws.
#[export] Instance drm : Drm := MxcPolling.Sim.drm.
#[export] Instance sysfs : Sysfs := sim_sysfs.

Abbreviation table := (drivers (Dev := Board) sim_strsplit (fun s d _ => sim_strsplit s d) (fun _ => f0)
  (fun _ => (f0, 0%nat)) (digits_from 0) (fun _ => "0"%string) (fun _ => 0) (fun _ l => l)
  (fun _ _ => false) (fun _ => "0"%string) (fun _ => None) (fun _ _ => false) (fun _ => (0, f0))
  (fun _ => None) []).
Definition world0 : World := Wd [] [] f0 f0.
Definition atan (_ _ : float) : float := f0.
Definition watch (_ : list Out) (_ : string) : Z := 7.
Definition allow (_ : list Out) (_ : string) : bool := true.
Definition events : list (@Proxy.Event Board) :=
  [Method ":1" "ClaimAccelerometer" 1; Method ":2" "ClaimAccelerometer" 2; Vanished (Some ":1");
   Method ":2" "ReleaseAccelerometer" 3; Method ":3" "ClaimAccelerometer" 4]%string.
Abbreviation started := (post (name_acquired_handler atan table [Other; Hinge]) (start world0 true)).
End Sim.
Import Sim.

Lemma machine_answers_every_call_witness :
  driver_type_exists Sim.started DRIVER_TYPE_ACCEL = true /\
  answered 4 (out (post (run Sim.watch Sim.allow Sim.atan Sim.table Sim.events) Sim.started)) = 1.
Proof.
  split; [vm_compute; reflexivity|].
  assert (answered 4 (out Sim.started) = 0) as E0 by (vm_compute; reflexivity).
  edestruct machine_answers_every_call with (inv := 4) (w := Sim.world0) (l := Sim.events)
    (g_bus_watch_name := Sim.watch) (is_authorized := Sim.allow) as [E _];
    [apply Sim.os_laws| | |rewrite E, E0; reflexivity].
  - intros h c. unfold Sim.watch. lia.
  - unfold waiting_drivers. repeat apply Forall_cons_2; [..|apply Forall_nil_2];
      intros device v; destruct device; vm_compute; reflexivity.
Defined.
