(* ===== verification/Bytes.v ===== *)
(** * Byte buffers

    Little-endian reads and writes of a list of bytes, as C code makes them
    through pointers on x86; [None] is an access outside the buffer.  Shared by
    the firmware tools (VbtPatch.v, DptfEnabler.v). *)

From Stdlib Require Import ZArith Lia.
From stdpp Require Import base list option.
From S2P Require Import Prelude.

#[local] Open Scope Z_scope.

Abbreviation Mem := (list Z).

Definition rd8 (m : Mem) (p : Z) : option Z := if p <? 0 then None else m !! Z.to_nat p.
Definition rd16 (m : Mem) (p : Z) : option Z :=
  a ← rd8 m p; b ← rd8 m (p + 1); Some (a + 256 * b).
Definition rd32 (m : Mem) (p : Z) : option Z :=
  a ← rd16 m p; b ← rd16 m (p + 2); Some (a + 65536 * b).

Definition rd64 (m : Mem) (p : Z) : option Z :=
  a ← rd32 m p; b ← rd32 m (p + 4); Some (a + 2 ^ 32 * b).

Definition wr8 (m : Mem) (p v : Z) : option Mem :=
  if (0 <=? p) && (p <? Z.of_nat (length m)) then Some (<[Z.to_nat p := wrap 8 v]> m) else None.
Definition wr16 (m : Mem) (p v : Z) : option Mem :=
  m ← wr8 m p v; wr8 m (p + 1) (v / 256).
Definition wr32 (m : Mem) (p v : Z) : option Mem :=
  m ← wr16 m p v; wr16 m (p + 2) (v / 65536).

(** The [k] low bytes of a number, lowest first. *)
Fixpoint le (k : nat) (v : Z) : list Z :=
  match k with O => [] | S k => v mod 256 :: le k (v / 256) end.

(** ** Reads and writes *)

Lemma rd8_in m p : 0 <= p < Z.of_nat (length m) -> is_Some (rd8 m p).
Proof.
  intros Hp. unfold rd8. rewrite (proj2 (Z.ltb_ge p 0)) by lia. apply lookup_lt_is_Some. lia.
Qed.

Lemma rd8_lookup m (i : nat) : rd8 m (Z.of_nat i) = m !! i.
Proof. unfold rd8. rewrite (proj2 (Z.ltb_ge _ 0)) by lia. by rewrite Nat2Z.id. Qed.

Lemma rd8_bound m p v : rd8 m p = Some v -> 0 <= p < Z.of_nat (length m).
Proof.
  unfold rd8. destruct (Z.ltb_spec p 0); [done|]. intros Hl%lookup_lt_Some. lia.
Qed.

Lemma rd8_app_r l1 l2 k : 0 <= k -> rd8 (l1 ++ l2) (Z.of_nat (length l1) + k) = rd8 l2 k.
Proof.
  intros Hk. unfold rd8. rewrite !(proj2 (Z.ltb_ge _ 0)) by lia.
  rewrite lookup_app_r by lia. f_equal. lia.
Qed.

Lemma rd8_app_l l1 l2 k v : rd8 l1 k = Some v -> rd8 (l1 ++ l2) k = Some v.
Proof. unfold rd8. destruct (k <? 0); [done|]. intros E. by rewrite lookup_app_l_Some with (x := v). Qed.

(** A read that only depends on the bytes it sees. *)
Lemma rd16_cong m m' p p' :
  rd8 m p = rd8 m' p' -> rd8 m (p + 1) = rd8 m' (p' + 1) -> rd16 m p = rd16 m' p'.
Proof. intros E1 E2. unfold rd16. by rewrite E1, E2. Qed.

Lemma rd16_app_r l1 l2 k : 0 <= k -> rd16 (l1 ++ l2) (Z.of_nat (length l1) + k) = rd16 l2 k.
Proof.
  intros Hk. apply rd16_cong; [by apply rd8_app_r|]. rewrite <- Z.add_assoc. apply rd8_app_r. lia.
Qed.

Lemma rd32_app_r l1 l2 k : 0 <= k -> rd32 (l1 ++ l2) (Z.of_nat (length l1) + k) = rd32 l2 k.
Proof.
  intros Hk. unfold rd32. rewrite rd16_app_r by lia.
  rewrite <- Z.add_assoc, rd16_app_r by lia. done.
Qed.

Lemma rd64_app_r l1 l2 k : 0 <= k -> rd64 (l1 ++ l2) (Z.of_nat (length l1) + k) = rd64 l2 k.
Proof.
  intros Hk. unfold rd64. rewrite rd32_app_r by lia. rewrite <- Z.add_assoc, rd32_app_r by lia. done.
Qed.

Lemma rd16_app_l l1 l2 k v : rd16 l1 k = Some v -> rd16 (l1 ++ l2) k = Some v.
Proof.
  unfold rd16. destruct (rd8 l1 k) as [a|] eqn:E1; [|done].
  destruct (rd8 l1 (k + 1)) as [b|] eqn:E2; [|done].
  by rewrite (rd8_app_l _ _ _ _ E1), (rd8_app_l _ _ _ _ E2).
Qed.

Lemma rd32_app_l l1 l2 k v : rd32 l1 k = Some v -> rd32 (l1 ++ l2) k = Some v.
Proof.
  unfold rd32. destruct (rd16 l1 k) as [a|] eqn:E1; [|done].
  destruct (rd16 l1 (k + 2)) as [b|] eqn:E2; [|done].
  by rewrite (rd16_app_l _ _ _ _ E1), (rd16_app_l _ _ _ _ E2).
Qed.

(** [m'] is [m] outside the [len] bytes at [p]. *)
Definition frame (p len : Z) (m m' : Mem) : Prop :=
  length m' = length m /\ forall q, q < p \/ p + len <= q -> rd8 m' q = rd8 m q.

Lemma wr8_spec m p v m' : wr8 m p v = Some m' ->
  rd8 m' p = Some (wrap 8 v) /\ frame p 1 m m'.
Proof.
  unfold wr8. destruct (_ && _) eqn:E; [|done]. intros [= <-]. apply andb_true_iff in E as [E1 E2].
  zbool. split.
  - unfold rd8. rewrite (proj2 (Z.ltb_ge p 0)) by lia. apply list_lookup_insert_eq. lia.
  - split; [apply length_insert|]. intros q Hq. unfold rd8. destruct (Z.ltb_spec q 0); [done|].
    apply list_lookup_insert_ne. lia.
Qed.

Lemma wr16_spec m p v m' : wr16 m p v = Some m' ->
  rd16 m' p = Some (wrap 16 v) /\ frame p 2 m m'.
Proof.
  unfold wr16. destruct (wr8 m p v) as [m1|] eqn:E1; [|done]. simpl. intros E2.
  destruct (wr8_spec _ _ _ _ E1) as (R1 & L1 & F1).
  destruct (wr8_spec _ _ _ _ E2) as (R2 & L2 & F2). split.
  - unfold rd16. rewrite (F2 p), R1, R2 by lia. simpl. f_equal. unfold wrap.
    change (2 ^ 8) with 256. change (2 ^ 16) with (256 * 256).
    rewrite Z.rem_mul_r by lia. lia.
  - split; [congruence|]. intros q Hq. rewrite F2, F1 by lia. done.
Qed.

Lemma wr32_spec m p v m' : wr32 m p v = Some m' ->
  rd32 m' p = Some (wrap 32 v) /\ frame p 4 m m'.
Proof.
  unfold wr32. destruct (wr16 m p v) as [m1|] eqn:E1; [|done]. simpl. intros E2.
  destruct (wr16_spec _ _ _ _ E1) as (R1 & L1 & F1).
  destruct (wr16_spec _ _ _ _ E2) as (R2 & L2 & F2). split.
  - unfold rd32. rewrite (rd16_cong m' m1 p p), R1, R2 by (apply F2; lia). simpl. f_equal.
    unfold wrap. change (2 ^ 16) with 65536. change (2 ^ 32) with (65536 * 65536).
    rewrite Z.rem_mul_r by lia. lia.
  - split; [congruence|]. intros q Hq. rewrite F2, F1 by lia. done.
Qed.

Lemma frame_refl p len m : frame p len m m.
Proof. done. Qed.

(** [m'] is [m] outside the ranges, given by position and length. *)
Definition untouched (rs : list (Z * Z)) (m m' : Mem) : Prop :=
  length m' = length m /\
  forall q, Forall (fun r => q < fst r \/ fst r + snd r <= q) rs -> rd8 m' q = rd8 m q.

Lemma untouched_trans rs1 rs2 m m1 m2 :
  untouched rs1 m m1 -> untouched rs2 m1 m2 -> untouched (rs1 ++ rs2) m m2.
Proof.
  intros [L1 F1] [L2 F2]. split; [congruence|]. intros q [H1 H2]%Forall_app.
  rewrite (F2 q H2). by apply F1.
Qed.

Lemma frame_untouched p len m m' : frame p len m m' -> untouched [(p, len)] m m'.
Proof. intros [L F]. split; [done|]. intros q Hq. rewrite Forall_singleton in Hq.
  exact (F q Hq). Qed.

(** ** Bounds *)

Definition bytes_nonneg (m : Mem) : Prop := Forall (fun b => 0 <= b) m.

Lemma rd8_nonneg m p v : bytes_nonneg m -> rd8 m p = Some v -> 0 <= v.
Proof.
  intros Hm. unfold rd8. destruct (p <? 0); [done|]. intros E.
  by eapply Forall_lookup_1 in Hm.
Qed.

Lemma rd16_in m p : bytes_nonneg m -> 0 <= p -> p + 2 <= Z.of_nat (length m) ->
  exists v, rd16 m p = Some v /\ 0 <= v.
Proof.
  intros Hm H1 H2. unfold rd16.
  destruct (rd8_in m p) as [a Ea]; [lia|]. destruct (rd8_in m (p + 1)) as [b Eb]; [lia|].
  rewrite Ea, Eb. exists (a + 256 * b). split; [done|].
  apply rd8_nonneg in Ea, Eb; [lia|done..].
Qed.

Lemma rd32_in m p : bytes_nonneg m -> 0 <= p -> p + 4 <= Z.of_nat (length m) ->
  exists v, rd32 m p = Some v /\ 0 <= v.
Proof.
  intros Hm H1 H2. unfold rd32.
  destruct (rd16_in m p) as (a & Ea & ?); [done|lia..|].
  destruct (rd16_in m (p + 2)) as (b & Eb & ?); [done|lia..|].
  rewrite Ea, Eb. exists (a + 65536 * b). split; [done|lia].
Qed.

(** ** Encodings *)

Lemma rd16_le v r : 0 <= v < 2 ^ 16 -> rd16 (le 2 v ++ r) 0 = Some v.
Proof.
  intros Hv. change (Some (v mod 256 + 256 * ((v / 256) mod 256)) = Some v). f_equal.
  rewrite <- Z.rem_mul_r by lia. rewrite Z.mod_small; lia.
Qed.

Lemma rd32_le v r : 0 <= v < 2 ^ 32 -> rd32 (le 4 v ++ r) 0 = Some v.
Proof.
  intros Hv. unfold rd32. change (rd16 (le 4 v ++ r) (0 + 2)) with (rd16 (le 2 (v / 256 / 256) ++ r) 0).
  change (rd16 (le 4 v ++ r) 0) with (Some (v mod 256 + 256 * ((v / 256) mod 256))).
  rewrite <- Z.rem_mul_r by lia. rewrite Z.div_div by lia. change (256 * 256) with 65536.
  rewrite rd16_le.
  - cbn [mbind option_bind]. f_equal. pose proof (Z.div_mod v 65536 ltac:(lia)). lia.
  - split; [apply Z.div_pos; lia|]. apply Z.div_lt_upper_bound; lia.
Qed.

Lemma rd64_le v r : 0 <= v < 2 ^ 64 -> rd64 (le 8 v ++ r) 0 = Some v.
Proof.
  intros Hv. unfold rd64.
  change (rd32 (le 8 v ++ r) (0 + 4)) with (rd32 (le 4 (v / 256 / 256 / 256 / 256) ++ r) 0).
  change (rd32 (le 8 v ++ r) 0) with
    (Some (v mod 256 + 256 * ((v / 256) mod 256) +
           65536 * ((v / 256 / 256) mod 256 + 256 * ((v / 256 / 256 / 256) mod 256)))).
  rewrite !Z.div_div by lia. rewrite rd32_le.
  - cbn [mbind option_bind]. f_equal.
    replace (v mod 256 + 256 * ((v / 256) mod 256)) with (v mod (256 * 256)) by (apply Z.rem_mul_r; lia).
    rewrite <- (Z.div_div v (256 * 256) 256) by lia.
    replace ((v / (256 * 256)) mod 256 + 256 * ((v / (256 * 256) / 256) mod 256))
      with ((v / (256 * 256)) mod (256 * 256)) by (apply Z.rem_mul_r; lia).
    change (256 * 256) with 65536. rewrite <- Z.rem_mul_r by lia.
    change (65536 * 65536) with (2 ^ 32). change (256 * (256 * 65536)) with (2 ^ 32).
    pose proof (Z.div_mod v (2 ^ 32) ltac:(lia)). lia.
  - split; [apply Z.div_pos; lia|]. apply Z.div_lt_upper_bound; lia.
Qed.

Lemma le_length k v : length (le k v) = k.
Proof. revert v. induction k as [|k IH]; intros v; simpl; [done|]. by rewrite IH. Qed.
