(* ===== verification/FakeAccel.v ===== *)
(** * The fake accelerometer (fake-input-accelerometer.c)

    A tool that makes an input device of its own and moves it with the keys of
    the terminal.  The trace is that of Os.v, udev is [InputDevs]; the terminal
    is the word of its local flags. *)

From Stdlib Require Import ZArith Lia SpecFloat Ascii String.
From stdpp Require Import base list option strings gmultiset sets.
From S2P Require Import Prelude Floats Drivers MountMatrix Os MxcFilter MxcDevice MxcPolling Orientation IioBuffer Polled PollDrivers InputDrivers Bytes.

#[local] Open Scope Z_scope.
#[local] Open Scope prog_scope.

(** ** The device it describes *)

Definition ONEG := 256.
Definition EV_ABS := 3.
Definition ABS_MAX := 0x3f.
Definition UINPUT_MAX_NAME_SIZE : nat := 80.

(** [struct uinput_dev]; an array of the axes is given by its first three. *)
Record uinput_dev := Uinput {
  ud_name : string; ud_bustype : Z; ud_vendor : Z; ud_product : Z; ud_version : Z; ud_ff_effects_max : Z;
  ud_absmax : Z * Z * Z; ud_absmin : Z * Z * Z
}.

Definition int_bytes (v : Z) : list Z := le 4 (wrap 32 v).
Definition axes_bytes (v : Z * Z * Z) : list Z :=
  int_bytes v.1.1 ++ int_bytes v.1.2 ++ int_bytes v.2 ++ replicate (4 * (Z.to_nat ABS_MAX + 1 - 3)) 0.
Definition name_bytes (s : string) : list Z :=
  let l := map (fun c => Z.of_N (N_of_ascii c)) (list_ascii_of_string (String.substring 0 (pred UINPUT_MAX_NAME_SIZE) s)) in
  l ++ replicate (UINPUT_MAX_NAME_SIZE - length l) 0.

(** The bytes that are written. *)
Definition dev_bytes (d : uinput_dev) : list Z :=
  name_bytes (ud_name d) ++ le 2 (ud_bustype d) ++ le 2 (ud_vendor d) ++ le 2 (ud_product d) ++ le 2 (ud_version d)
  ++ int_bytes (ud_ff_effects_max d) ++ axes_bytes (ud_absmax d) ++ axes_bytes (ud_absmin d)
  ++ axes_bytes (0, 0, 0) ++ axes_bytes (0, 0, 0).
Definition dev_text (d : uinput_dev) : string :=
  string_of_list_ascii (map (fun b => ascii_of_N (Z.to_N b)) (dev_bytes d)).
Definition sizeof_uinput_dev := 1116.

Definition fake_dev : uinput_dev :=
  Uinput "iio-sensor-proxy test application" BUS_VIRTUAL 0 0 0 0 (512, 512, 512) (-512, -512, -512).

(** ** State *)

(** [OrientationData], with the trace and the flags of the terminal ([None]: it is
    not a terminal). *)
Record Fake (Device : Type) := mkFake {
  fk_trace : Trace; fk_tty : option Z; fk_watch : Z;
  loop : bool; uinput : Z; accel_pos : Z * Z * Z; client : bool; fk_dev : option Device; old_tio : Z
}.
#[global] Arguments mkFake {Device}. #[global] Arguments fk_trace {Device}. #[global] Arguments fk_tty {Device}.
#[global] Arguments fk_watch {Device}. #[global] Arguments loop {Device}. #[global] Arguments uinput {Device}.
#[global] Arguments accel_pos {Device}. #[global] Arguments client {Device}. #[global] Arguments fk_dev {Device}.
#[global] Arguments old_tio {Device}.
Section Fields.
Variable D : Type.
Definition Fake_again (s : Fake D) : Fake D := mkFake (fk_trace s) (fk_tty s) (fk_watch s) (loop s) (uinput s)
  (accel_pos s) (client s) (fk_dev s) (old_tio s).
#[export] Instance put_fk_trace : Field (@fk_trace D) := ltac:(field_of Fake_again (@fk_trace D)).
#[export] Instance put_fk_tty : Field (@fk_tty D) := ltac:(field_of Fake_again (@fk_tty D)).
#[export] Instance put_fk_watch : Field (@fk_watch D) := ltac:(field_of Fake_again (@fk_watch D)).
#[export] Instance put_loop : Field (@loop D) := ltac:(field_of Fake_again (@loop D)).
#[export] Instance put_uinput : Field (@uinput D) := ltac:(field_of Fake_again (@uinput D)).
#[export] Instance put_accel_pos : Field (@accel_pos D) := ltac:(field_of Fake_again (@accel_pos D)).
#[export] Instance put_client : Field (@client D) := ltac:(field_of Fake_again (@client D)).
#[export] Instance put_fk_dev : Field (@fk_dev D) := ltac:(field_of Fake_again (@fk_dev D)).
#[export] Instance put_old_tio : Field (@old_tio D) := ltac:(field_of Fake_again (@old_tio D)).
End Fields.

#[export] Instance fake_trace D : HasTrace (Fake D) := {|
  trace := fk_trace; set_trace h s := s <| fk_trace := h |>
|}.
#[export] Instance fake_trace_law D : HasTraceLaw (Fake D).
Proof. split; by intros; destruct s. Qed.

(** What [g_io_channel_read_chars] gives for one character. *)
Inductive KeyRead := KeyError | KeyEof | KeyAgain | Key (c : ascii).

Definition STDIN_FILENO := 0.
Definition ICANON := 2.
Definition ECHO := 8.

(** ** Operations *)

Section Tool.
Context `{Os} {Device : Type} `{U : Udev Device} `{ID : InputDevs Device}.
(** [g_io_channel_unix_new] gives a channel. *)
Variable channel_new : Trace -> bool.
#[local] Abbreviation S := (Fake Device).

Definition setup_uinput_udev : option Device :=
  List.find (fun dev => property_as_boolean dev "ID_INPUT_ACCELEROMETER") (query_by_subsystem "input").

(** 0, or the error of [fopen]. *)
Definition fake_write_sysfs_string (filename basedir val : string) : M S Z :=
  sysfsfp <- sys_open (g_build_filename basedir filename) ;;
  if sysfsfp <? 0 then ret sysfsfp
  else sys_write sysfsfp val ;;; sys_close sysfsfp ;;; ret 0.

(** One write per axis, and the report. *)
Definition write_position : M S unit :=
  s <- gets id ;;
  sys_write_input (uinput s) [Ev EV_ABS ABS_X (accel_pos s).1.1] ;;;
  sys_write_input (uinput s) [Ev EV_ABS ABS_Y (accel_pos s).1.2] ;;;
  sys_write_input (uinput s) [Ev EV_ABS ABS_Z (accel_pos s).2] ;;;
  sys_write_input (uinput s) [Ev EV_SYN SYN_REPORT 0].

Definition send_uinput_event : M S bool :=
  write_position ;;;
  modify (fun s => match fk_dev s with None => s <| fk_dev := setup_uinput_udev |> | Some _ => s end) ;;;
  s <- gets id ;;
  match fk_dev s with
  | None => ret false
  | Some dev =>
      r <- fake_write_sysfs_string "uevent" (default EmptyString (sysfs_path dev)) "change" ;;
      ret (negb (r <? 0))
  end.

Definition fake_uinput : M S bool :=
  fd <- sys_open "/dev/uinput" ;;
  if fd <? 0 then ret false
  else
    n <- sys_write fd (dev_text fake_dev) ;;
    if negb (n =? sizeof_uinput_dev) then sys_close fd ;;; ret false
    else
      ok <- ioctls fd [UI_SET_EVBIT EV_ABS; UI_SET_ABSBIT ABS_X; UI_SET_ABSBIT ABS_Y; UI_SET_ABSBIT ABS_Z;
                       UI_DEV_CREATE] ;;
      if negb ok then sys_close fd ;;; ret false
      else modify (fun s => s <| uinput := fd |>) ;;; ret true.

(** The position a key stands for. *)
Definition key_position (c : ascii) : option (Z * Z * Z) :=
  if Ascii.eqb c "u" then Some (0, - ONEG, 0)
  else if Ascii.eqb c "d" then Some (0, ONEG, 0)
  else if Ascii.eqb c "l" then Some (ONEG, 0, 0)
  else if Ascii.eqb c "r" then Some (- ONEG, 0, 0)
  else None.

(** Whether the watch is kept. *)
Definition check_keyboard (read : KeyRead) : M S bool :=
  match read with
  | KeyError | KeyEof => modify (fun s => s <| loop := false |>) ;;; ret false
  | KeyAgain => ret true
  | Key c =>
      match key_position c with
      | Some pos => modify (fun s => s <| accel_pos := pos |>) ;;; send_uinput_event ;;; ret true
      | None =>
          if Ascii.eqb c "q" || Ascii.eqb c "x" then modify (fun s => s <| loop := false |>) ;;; ret false
          else ret true
      end
  end.

Definition tcsetattr (c_lflag : Z) : M S unit :=
  modify (fun s => match fk_tty s with Some _ => s <| fk_tty := Some c_lflag |> | None => s end).

Definition setup_keyboard : M S bool :=
  modify (fun s => match fk_tty s with Some t => s <| old_tio := t |> | None => s end) ;;;
  s <- gets id ;;
  tcsetattr (Z.land (old_tio s) (Z.land (Z.lnot ICANON) (Z.lnot ECHO))) ;;;
  channel <- ask channel_new ;;
  if negb channel then ret false
  else
    ok <- ask (fun h => set_encoding h STDIN_FILENO) ;;
    if negb ok then ret false
    else watch <- g_io_add_watch STDIN_FILENO ;; modify (fun s => s <| fk_watch := watch |>) ;;; ret true.

Definition free_orientation_data : M S unit :=
  s <- gets id ;;
  tcsetattr (old_tio s) ;;;
  (if 0 <? uinput s then sys_close (uinput s) else ret tt) ;;;
  modify (fun s => s <| fk_dev := None |> <| client := false |> <| loop := false |>).

(** The main loop over what the terminal gives; whether it was left. *)
Fixpoint run_loop (reads : list KeyRead) : M S bool :=
  match reads with
  | [] => ret false
  | r :: reads =>
      keep <- check_keyboard r ;;
      if (keep : bool) then run_loop reads
      else s <- gets id ;; source_done (fk_watch s) ;;; ret true
  end.

(** The exit code; [None]: the tool still waits for keys. *)
Definition fake_main (reads : list KeyRead) : M S (option Z) :=
  modify (fun s => s <| loop := false |> <| uinput := 0 |> <| accel_pos := (0, 0, 0) |> <| fk_dev := None |>
                     <| old_tio := 0 |> <| client := true |>) ;;;
  keyboard <- setup_keyboard ;;
  if negb keyboard then free_orientation_data ;;; ret (Some 1)
  else
    ok <- fake_uinput ;;
    if negb ok then free_orientation_data ;;; ret (Some 1)
    else
      modify (fun s => s <| accel_pos := (0, ONEG, 0) |>) ;;;
      send_uinput_event ;;;
      modify (fun s => s <| loop := true |>) ;;;
      left <- run_loop reads ;;
      if negb left then ret None else free_orientation_data ;;; ret (Some 0).
End Tool.

(** The bytes are as many as the structure has. *)
Example dev_size : Z.of_nat (length (dev_bytes fake_dev)) = sizeof_uinput_dev.
Proof. reflexivity. Qed.

(** ** What is held *)

(** The descriptors and the terminal, with the fields that are about them. *)
Definition view {D} (s : Fake D) : gmultiset Z * Z * option Z * Z :=
  (open_fds (fk_trace s), uinput s, fk_tty s, old_tio s).

Section Held.
Context `{Os} {Device : Type} `{U : Udev Device} `{ID : InputDevs Device}.
#[local] Abbreviation S := (Fake Device).

Lemma view_call {A} (ans : Trace -> A) ev : (forall a h, open_fds (ev a :: h) = open_fds h) ->
  same (@view Device) (call ans ev).
Proof.
  intros He s.
  change (view (post (call ans ev) s)) with
    (open_fds (ev (ans (trace s)) :: trace s), uinput s, fk_tty s, old_tio s).
  by rewrite He.
Qed.

(** A file that is opened, written and closed. *)
Lemma fake_write_sysfs_string_view f b v : same (@view Device) (fake_write_sysfs_string f b v).
Proof.
  intros s. unfold fake_write_sysfs_string, post, bind. simpl. set (fd := os_open _ _).
  destruct (Z.ltb_spec fd 0); unfold view; simpl.
  - rewrite own_neg by done. repeat f_equal. multiset_solver.
  - rewrite own_nonneg by done. repeat f_equal. multiset_solver.
Qed.

Lemma send_uinput_event_view : same (@view Device) send_uinput_event.
Proof.
  unfold send_uinput_event. apply same_bind.
  { apply same_bind; [done|]. intros s. do 3 (apply same_bind; [by apply view_call|]; intros _). by apply view_call. }
  intros _.
  apply same_bind; [intros t; unfold post, modify; simpl; by destruct (fk_dev t)|]. intros _.
  apply same_bind; [done|]. intros t. destruct (fk_dev t); [|done].
  apply same_bind; [apply fake_write_sysfs_string_view|]. done.
Qed.

Lemma check_keyboard_view r : same (@view Device) (check_keyboard r).
Proof.
  destruct r as [| | |c]; simpl; [done..|]. destruct (key_position c).
  - apply same_bind; [done|]. intros _. apply same_bind; [apply send_uinput_event_view|]. done.
  - by destruct (_ || _).
Qed.

Lemma run_loop_view reads : same (@view Device) (run_loop reads).
Proof.
  induction reads as [|r reads IH]; simpl; [done|]. apply same_bind; [apply check_keyboard_view|].
  intros []; [done|]. apply same_bind; [done|]. intros t. apply same_bind; [by apply view_call|]. done.
Qed.

Lemma ioctls_view fd l : same (@view Device) (ioctls fd l).
Proof.
  induction l as [|r l IH]; simpl; [done|]. apply same_bind; [by apply view_call|]. intros x. by apply same_if.
Qed.

(** What there is to give back: the device, beside [B], and the flags. *)
Definition to_restore (B : gmultiset Z) (flags : option Z) (s : S) : Prop :=
  open_fds (fk_trace s) = B ⊎ (if 0 <? uinput s then {[+ uinput s +]} else ∅) /\
  match flags with Some f => old_tio s = f /\ (exists f', fk_tty s = Some f') | None => fk_tty s = None end.

Lemma to_restore_view B flags (s t : S) : view t = view s -> to_restore B flags s -> to_restore B flags t.
Proof. intros E. unfold view in E. injection E as Ef Eu Et Eo. unfold to_restore. by rewrite Ef, Eu, Et, Eo. Qed.

Lemma free_restores B flags (s : S) : to_restore B flags s ->
  let t := post free_orientation_data s in open_fds (fk_trace t) = B /\ fk_tty t = flags.
Proof.
  destruct s as [h tty w l u p c d o]. unfold free_orientation_data, tcsetattr, post, bind, to_restore. simpl.
  intros [Hf Ht].
  destruct flags as [f|]; [destruct Ht as [-> [f' ->]]|subst tty]; destruct (0 <? u); simpl;
    rewrite Hf; (split; [multiset_solver|done]).
Qed.

Lemma setup_keyboard_restore channel_new (s : S) : uinput s = 0 ->
  let t := post (setup_keyboard channel_new) s in
  to_restore (open_fds (fk_trace s)) (fk_tty s) t /\ uinput t = 0.
Proof.
  destruct s as [h tty w l u p c d o]. simpl. intros ->. unfold setup_keyboard, tcsetattr, post, bind, to_restore. simpl.
  destruct tty as [flags|]; simpl; destruct (channel_new _); simpl; try destruct (set_encoding _ _); simpl;
    (split; [split; [multiset_solver|eauto]|done]).
Qed.

(** The keyboard is descriptor 0, so no open gives that one. *)
Hypothesis stdin_open : forall h path, os_open h path <> 0.

Lemma fake_uinput_holds (s : S) :
  wp fake_uinput (fun ok t =>
    (fk_tty t, old_tio t) = (fk_tty s, old_tio s) /\
    if ok : bool then 0 < uinput t /\ open_fds (fk_trace t) = open_fds (fk_trace s) ⊎ {[+ uinput t +]}
    else uinput t = uinput s /\ open_fds (fk_trace t) = open_fds (fk_trace s)) s.
Proof.
  unfold fake_uinput. apply wp_bind. unfold wp at 1, res, post, sys_open, call. simpl. set (fd := os_open _ _).
  set (s1 := s <| fk_trace := _ |>).
  assert (view s1 = (open_fds (fk_trace s) ⊎ own fd, uinput s, fk_tty s, old_tio s)) as E1 by done.
  assert (fd <> 0) as Hz by apply stdin_open. clearbody s1 fd. destruct (Z.ltb_spec fd 0) as [Hn|Hp].
  { injection E1 as Ef Eu Et Eo. unfold wp, res, post. simpl. rewrite own_neg in Ef by done.
    rewrite Ef, Et, Eo. split; [done|]. split; [done|multiset_solver]. }
  rewrite own_nonneg in E1 by done.
  assert (forall t : S, view t = view s1 ->
    view (post (sys_close fd) t) = (open_fds (fk_trace s), uinput s, fk_tty s, old_tio s)) as Hclose.
  { intros t Et. rewrite E1 in Et. injection Et as Ef Eu Et Eo. unfold view, post, sys_close, call. simpl.
    rewrite Ef, Eu, Et, Eo. repeat f_equal. multiset_solver. }
  eapply (wp_seq _ _ (fun _ t => view t = view s1)); [by apply (view_call _ _)|]. intros n t1 H1.
  destruct (negb (n =? _)).
  { apply wp_bind. specialize (Hclose t1 H1). unfold wp, res. simpl. unfold wp, res, post. simpl.
    injection Hclose as Ef Eu Et Eo. simpl in *. by rewrite Ef, Eu, Et, Eo. }
  eapply (wp_seq _ _ (fun _ t => view t = view s1)); [rewrite <- H1; apply (ioctls_view fd (UI_SET_EVBIT EV_ABS :: map UI_SET_ABSBIT [ABS_X; ABS_Y; ABS_Z] ++ [UI_DEV_CREATE]))|]. intros ok t2 H2.
  destruct ok; simpl.
  - rewrite E1 in H2. injection H2 as Ef Eu Et Eo. unfold wp, res, post. simpl. rewrite Ef, Et, Eo.
    split; [done|]. split; [lia|done].
  - apply wp_bind. specialize (Hclose t2 H2). unfold wp, res. simpl. unfold wp, res, post. simpl.
    injection Hclose as Ef Eu Et Eo. simpl in *. by rewrite Ef, Eu, Et, Eo.
Qed.
End Held.

(** ** What the driver reads *)

(** The value the kernel has for an axis of a device: the last one written to it. *)
Fixpoint written_axis (h : Trace) (fd axis : Z) : option Z :=
  match h with
  | [] => None
  | EvWriteInput fd' evs :: h =>
      match List.find (fun e => (ev_type e =? EV_ABS) && (ev_code e =? axis)) (rev evs) with
      | Some e => if fd' =? fd then Some (ev_value e) else written_axis h fd axis
      | None => written_axis h fd axis
      end
  | _ :: h => written_axis h fd axis
  end.

(** Events that are not written to the device do not move it. *)
Lemma axis_open h path n fd axis : written_axis (EvOpen path n :: h) fd axis = written_axis h fd axis.
Proof. done. Qed.

(** A write to one of the axes. *)
Lemma axis_written h fd fd' code v axis : written_axis (EvWriteInput fd' [Ev EV_ABS code v] :: h) fd axis =
  if (code =? axis) && (fd' =? fd) then Some v else written_axis h fd axis.
Proof. cbn. by destruct (code =? axis), (fd' =? fd). Qed.

Section Moves.
Context `{Os} {Device : Type} `{U : Udev Device} `{ID : InputDevs Device}.

Lemma fake_write_sysfs_string_axis f b v fd axis :
  same (fun s : Fake Device => (written_axis (fk_trace s) fd axis, uinput s)) (fake_write_sysfs_string f b v).
Proof.
  intros s. unfold fake_write_sysfs_string, post, bind. simpl. by destruct (_ <? 0).
Qed.

(** After the events are sent the kernel has the position. *)
Lemma send_uinput_event_axes (s : Fake Device) : let t := post send_uinput_event s in
  (written_axis (fk_trace t) (uinput t) ABS_X, written_axis (fk_trace t) (uinput t) ABS_Y,
   written_axis (fk_trace t) (uinput t) ABS_Z) =
  (Some (accel_pos s).1.1, Some (accel_pos s).1.2, Some (accel_pos s).2).
Proof.
  set (moved := fun t : Fake Device => uinput t = uinput s /\
    written_axis (fk_trace t) (uinput s) ABS_X = Some (accel_pos s).1.1 /\
    written_axis (fk_trace t) (uinput s) ABS_Y = Some (accel_pos s).1.2 /\
    written_axis (fk_trace t) (uinput s) ABS_Z = Some (accel_pos s).2).
  cut (moved (post send_uinput_event s)).
  { intros (Eu & Ex & Ey & Ez). simpl. by rewrite Eu, Ex, Ey, Ez. }
  apply wp_post. eapply (wp_seq _ _ (fun _ => moved)).
  { split; [done|]. cbn. by rewrite !Z.eqb_refl. }
  intros _ s1 H1. apply wp_bind, wp_modify.
  set (s2 := match fk_dev s1 with None => _ | Some _ => _ end).
  assert (moved s2) as H2 by (subst s2; destruct (fk_dev s1); exact H1). clearbody s2.
  apply wp_bind, wp_gets. simpl. destruct (fk_dev s2) as [dev|]; [|exact H2].
  eapply (wp_seq _ _ (fun _ => moved)); [|done].
  destruct H2 as (Eu & Ex & Ey & Ez).
  pose proof (fake_write_sysfs_string_axis "uevent" (default EmptyString (sysfs_path dev)) "change" (uinput s)) as Hw.
  pose proof (Hw ABS_X s2) as Wx. pose proof (Hw ABS_Y s2) as Wy. pose proof (Hw ABS_Z s2) as Wz.
  injection Wx as Wx Wu. injection Wy as Wy _. injection Wz as Wz _.
  split; [congruence|]. split; [congruence|]. split; congruence.
Qed.

(** The driver hands over the position of its device, when it can read it. *)
Lemma driver_reads (d : Polled InputAccel) x y z :
  ia_matrix (data d) = id_matrix -> 0 <= os_open (trace d) (ia_dev_path (data d)) ->
  (forall h fd, (input_abs h fd ABS_X, input_abs h fd ABS_Y, input_abs h fd ABS_Z) = (Some x, Some y, Some z)) ->
  emitted (trace (post accelerometer_changed d)) = emitted (trace d) ++
    [Accel (accel_readings id_matrix (set_accel_scale (Build_AccelScale f0 f0 f0) input_scale) x y z)].
Proof.
  intros Em Ho Ha. unfold accelerometer_changed, post, bind. simpl. set (fd := os_open _ _) in *.
  destruct (Z.ltb_spec fd 0); [lia|]. unfold ask. simpl.
  pose proof (Ha (EvOpen (ia_dev_path (data d)) fd :: calls (world d)) fd) as E. injection E as -> -> ->.
  simpl. by rewrite Em.
Qed.
End Moves.
(** ** Properties *)

(** Whenever the tool ends, whatever failed and whatever was typed, the
    terminal has the flags it had before and every descriptor is closed. *)
Theorem fake_main_restores `{Os} {Device : Type} `{U : Udev Device} `{ID : InputDevs Device}
    (channel_new : Trace -> bool) (stdin_open : forall h path, os_open h path <> 0) reads (s : Fake Device) code :
  res (fake_main channel_new reads) s = Some code -> let t := post (fake_main channel_new reads) s in
  open_fds (fk_trace t) = open_fds (fk_trace s) /\ fk_tty t = fk_tty s.
Proof.
  set (m := fake_main channel_new reads).
  cut (wp m (fun c t => c = Some code -> open_fds (fk_trace t) = open_fds (fk_trace s) /\ fk_tty t = fk_tty s) s).
  { intros Hm. exact Hm. }
  subst m. unfold fake_main. apply wp_bind, wp_modify. set (s0 := put client _ _).
  assert (forall c0 (t : Fake Device), to_restore (open_fds (fk_trace s)) (fk_tty s) t ->
    wp (free_orientation_data ;;; ret (Some c0)) (fun c t => c = Some code ->
      open_fds (fk_trace t) = open_fds (fk_trace s) /\ fk_tty t = fk_tty s) t) as Hfree.
  { intros c0 t Ht. apply wp_bind. intros _. eapply free_restores; exact Ht. }
  eapply (wp_seq _ _ (fun _ t => to_restore (open_fds (fk_trace s)) (fk_tty s) t /\ uinput t = 0)).
  { by apply (setup_keyboard_restore channel_new s0). }
  intros k t [Ht Hu]. apply wp_if; [intros _; by apply Hfree|intros _].
  eapply wp_seq; [apply (fake_uinput_holds stdin_open)|]. intros ok t1 [E1 E2]. injection E1 as E1 E3.
  assert (to_restore (open_fds (fk_trace s)) (fk_tty s) t1) as H1.
  { unfold to_restore in *. rewrite Hu in Ht. rewrite E1, E3. destruct Ht as [Hf Ht]. split; [|exact Ht].
    destruct ok; destruct E2 as [Eu Ef]; rewrite Ef, Hf.
    - rewrite (proj2 (Z.ltb_lt 0 (uinput t1))) by done. simpl. multiset_solver.
    - by rewrite Eu, Hu. }
  clear t Ht Hu E1 E2 E3. apply wp_if; [intros _; by apply Hfree|intros _].
  apply wp_bind, wp_modify. set (t2 := put accel_pos _ t1).
  eapply (wp_seq _ _ (fun _ t => view t = view t2)); [apply send_uinput_event_view|]. intros _ t3 H3.
  apply wp_bind, wp_modify. set (t4 := put loop _ t3).
  eapply (wp_seq _ _ (fun _ t => view t = view t4)); [apply run_loop_view|]. intros left t5 H5.
  apply wp_if; [intros _; by intros [=]|intros _]. apply Hfree.
  apply (to_restore_view _ _ t1); [|done]. rewrite H5. exact H3.
Qed.


(** The direction a key is said to turn the device to. *)
Definition key_up (c : ascii) : option OrientationUp :=
  if Ascii.eqb c "u" then Some ORIENTATION_NORMAL
  else if Ascii.eqb c "d" then Some ORIENTATION_BOTTOM_UP
  else if Ascii.eqb c "l" then Some ORIENTATION_LEFT_UP
  else if Ascii.eqb c "r" then Some ORIENTATION_RIGHT_UP
  else None.

(** The orientation of a position the driver of the proxy hands over. *)
Definition shown (atan2 : float -> float -> float) (prev : OrientationUp) (r : Readings) : OrientationUp :=
  match r with
  | Accel r => orientation_calc atan2 prev (accel_x r) (accel_y r) (accel_z r) (accel_scale r)
  | _ => prev
  end.

Definition reading_of (pos : Z * Z * Z) : Readings :=
  Accel (accel_readings id_matrix (set_accel_scale (Build_AccelScale f0 f0 f0) input_scale) pos.1.1 pos.1.2 pos.2).

(** On an axis the rotation is decided by the sign alone. *)
Lemma shown_axis atan2 prev pos o : Atan2Laws atan2 ->
  In (pos, o) [((0, -256, 0), ORIENTATION_NORMAL); ((0, 256, 0), ORIENTATION_BOTTOM_UP);
               ((256, 0, 0), ORIENTATION_LEFT_UP); ((-256, 0, 0), ORIENTATION_RIGHT_UP)] ->
  shown atan2 prev (reading_of pos) = o.
Proof.
  intros HA Hin. repeat destruct Hin as [[= <- <-]|Hin]; [..|done];
    unfold shown, reading_of; cbn [fst snd];
    match goal with |- context [accel_readings ?m ?s ?x ?y ?z] =>
      let v := eval vm_compute in (accel_readings m s x y z) in change (accel_readings m s x y z) with v end;
    cbn [accel_x accel_y accel_z accel_scale]; unfold orientation_calc, rotation; cbn [scale_x scale_y scale_z]; cbv zeta;
    repeat match goal with |- context [SCALE ?a ?b] =>
      let v := eval vm_compute in (SCALE a b) in change (SCALE a b) with v end;
    repeat match goal with |- context [f64_sqrt ?a] =>
      let v := eval vm_compute in (f64_sqrt a) in change (f64_sqrt a) with v end;
    repeat match goal with |- context [f64_of_Z ?a] =>
      let v := eval vm_compute in (f64_of_Z a) in change (f64_of_Z a) with v end;
    (rewrite atan2_zero by reflexivity);
    (first [rewrite atan2_up by reflexivity | rewrite atan2_down by reflexivity]);
    by destruct prev.
Qed.

(** From the key to the screen: after a key of the tool the kernel has a position
    of the device, and the driver of the proxy, which reads it there, hands over one reading from which
    the proxy shows the direction the key names, whatever it showed before. *)
Theorem key_turns_screen `{Os} {Device : Type} `{U : Udev Device} `{ID : InputDevs Device}
    (atan2 : float -> float -> float) (HA : Atan2Laws atan2) c o (s : Fake Device) (d : Polled InputAccel) prev :
  key_up c = Some o ->
  let t := post (check_keyboard (Key c)) s in
  (forall h fd axis, In axis [ABS_X; ABS_Y; ABS_Z] -> input_abs h fd axis = written_axis (fk_trace t) (uinput t) axis) ->
  ia_matrix (data d) = id_matrix -> 0 <= os_open (trace d) (ia_dev_path (data d)) ->
  exists r, emitted (trace (post accelerometer_changed d)) = emitted (trace d) ++ [r] /\ shown atan2 prev r = o.
Proof.
  intros Hk t Ha Hm Ho. assert (exists pos, key_position c = Some pos /\ shown atan2 prev (reading_of pos) = o) as (pos & Hp & Hs).
  { unfold key_up, key_position in *.
    repeat (destruct (Ascii.eqb c _); [injection Hk as <-; eexists; split; [done|apply shown_axis; [done|cbn; auto 6]]|]). done. }
  exists (reading_of pos). split; [|done]. apply driver_reads; [done|done|]. intros h fd.
  rewrite !Ha by (cbn; auto). pose proof (send_uinput_event_axes (s <| accel_pos := pos |>)) as E.
  subst t. cbn [check_keyboard]. rewrite Hp, !post_bind. exact E.
Qed.

(** The position the tool starts with is the one of the key for down. *)
Lemma start_is_down atan2 prev : Atan2Laws atan2 -> shown atan2 prev (reading_of (0, ONEG, 0)) = ORIENTATION_BOTTOM_UP.
Proof. intros HA. apply shown_axis; [done|cbn; auto]. Qed.

(** A terminal with a shell, and a user who types. *)
Module Terminal.
#[local] Instance term_os : Os := {|
  os_open h _ := 3 + Z.of_nat (length h); os_write _ _ s := Z.of_nat (String.length s); os_read _ _ _ := None;
  os_i2c _ _ _ _ := None; os_ioctl _ _ _ := 0; os_evname _ _ := None; os_evsw _ _ := None; os_udev _ _ := [];
  os_source_add _ _ := 1; os_watch_add _ _ := 1
|}.
#[local] Instance term_udev : Udev unit := {|
  udev_property _ _ := None; sysfs_attr _ _ := None; sysfs_attr_as_double _ _ := f0;
  sysfs_path _ := Some "/sys/devices/virtual/input/input9"%string; udev_name _ := "event9"
|}.
#[local] Instance term_inputs : InputDevs unit := {|
  dev_parent _ := None; query_by_subsystem _ := [tt]; property_as_boolean _ _ := true;
  input_abs _ _ axis := Some (if axis =? ABS_X then -256 else 0); set_encoding _ _ := true
|}.
Definition term_start : Fake unit := mkFake [] (Some 0x8a3b) 0 false 7 (0, 0, 0) false None 0.
Definition typed : list KeyRead := [KeyAgain; Key "l"; Key "z"; Key "r"; Key "q"; Key "u"].

Lemma fake_main_restores_witness :
  let t := post (fake_main (fun _ => true) typed) term_start in
  open_fds (fk_trace t) = open_fds (fk_trace term_start) /\ fk_tty t = fk_tty term_start.
Proof.
  apply (fake_main_restores (fun _ => true)) with (code := 0); [intros h p; cbn; lia|vm_compute; reflexivity].
Defined.

Definition term_driver : Polled InputAccel :=
  Pl 0 (IAcc None "/dev/input/event9" id_matrix ACCEL_LOCATION_DISPLAY false) (Wd [] [] f0 f0).

Lemma key_turns_screen_witness : exists r,
  emitted (trace (post accelerometer_changed term_driver)) = emitted (trace term_driver) ++ [r] /\
  shown sim_atan2 ORIENTATION_NORMAL r = ORIENTATION_RIGHT_UP.
Proof.
  apply (key_turns_screen sim_atan2 sim_atan2_laws "r"%char ORIENTATION_RIGHT_UP term_start);
    [reflexivity| |reflexivity|vm_compute; discriminate].
  intros h fd axis Ha. cbn [In] in Ha.
  destruct Ha as [<-|[<-|[<-|[]]]]; reflexivity.
Defined.
End Terminal.
