(* ===== verification/RangeCoder.v ===== *)
(** * The bits of an LZMA stream (the macros of thermal_daemon/src/LzmaDec.c)

    The decoder asks for one bit after the other: a bit that is coded with one of the
    probabilities ([IF_BIT_0]), or one that is not.  What it asks for is a program [Prog]; the
    macros are its interpreters: [run] moves the probabilities and takes it that there is input,
    [run_check] leaves them and looks for the end of the input. *)

From Stdlib Require Import ZArith Lia.
From stdpp Require Import base list option.
From S2P Require Import Prelude Bytes.

#[local] Open Scope Z_scope.

Definition kNumTopBits := 24.
Definition kTopValue := Z.shiftl 1 kNumTopBits.
Definition kNumBitModelTotalBits := 11.
Definition kBitModelTotal := Z.shiftl 1 kNumBitModelTotalBits.
Definition kNumMoveBits := 5.
(** The probabilities are numbered from [probs_1664]. *)
Definition kStartOffset := 1664.

(** ** Programs *)

(** [IfBit p k]: [IF_BIT_0 (probs + p)], with [k false] after [UPDATE_0] and [k true] after
    [UPDATE_1]; [DirectBit]: a bit with even chances; [ReadDic]: a byte of the dictionary. *)
Inductive Prog (A : Type) :=
| Return (a : A)
| IfBit (p : Z) (k : bool -> Prog A)
| DirectBit (k : bool -> Prog A)
| ReadDic (pos : Z) (k : Z -> Prog A).
Arguments Return {A} a.
Arguments IfBit {A} p k.
Arguments DirectBit {A} k.
Arguments ReadDic {A} pos k.

Fixpoint prog_then {A B} (k : A -> Prog B) (g : Prog A) : Prog B :=
  match g with
  | Return a => k a
  | IfBit p k' => IfBit p (fun b => prog_then k (k' b))
  | DirectBit k' => DirectBit (fun b => prog_then k (k' b))
  | ReadDic pos k' => ReadDic pos (fun b => prog_then k (k' b))
  end.
#[export] Instance Prog_bind : MBind Prog := @prog_then.
Definition if_bit (p : Z) : Prog bool := IfBit p Return.
Definition direct_bit : Prog bool := DirectBit Return.
Definition read_dic (pos : Z) : Prog Z := ReadDic pos Return.
Definition bit_of (b : bool) : Z := if b then 1 else 0.

(** ** Bit trees *)

Definition TREE_GET_BIT (probs i : Z) : Prog Z := b ← if_bit (probs + i); Return (i + i + bit_of b).
Fixpoint tree_bits (bits : nat) (probs i : Z) : Prog Z :=
  match bits with O => Return i | S n => i ← TREE_GET_BIT probs i; tree_bits n probs i end.
(** [TREE_DECODE] with the limit [1 << bits]; [TREE_6_DECODE] for 6 bits. *)
Definition TREE_DECODE (bits : nat) (probs : Z) : Prog Z := i ← tree_bits bits probs 1; Return (i - 2 ^ Z.of_nat bits).

(** [MATCHED_LITER_DEC], for the eight bits of a byte. *)
Fixpoint matched_bits (bits : nat) (prob matchByte offs symbol : Z) : Prog Z :=
  match bits with
  | O => Return symbol
  | S n =>
      let matchByte := matchByte + matchByte in
      let bit := offs in
      let offs := Z.land offs matchByte in
      b ← if_bit (prob + (offs + bit + symbol));
      matched_bits n prob matchByte (if b : bool then offs else Z.lxor offs bit) (symbol + symbol + bit_of b)
  end.

(** [REV_BIT_VAR]: the new [i] and [m]. *)
Definition REV_BIT_VAR (probs i m : Z) : Prog (Z * Z) :=
  b ← if_bit (probs + i);
  Return (if b : bool then let m := m + m in (i + m, m) else (i + m, m + m)).
Fixpoint rev_bits (bits : nat) (probs i m : Z) : Prog (Z * Z) :=
  match bits with O => Return (i, m) | S n => '(i, m) ← REV_BIT_VAR probs i m; rev_bits n probs i m end.
Definition REV_BIT_CONST (probs i m : Z) : Prog Z :=
  b ← if_bit (probs + i); Return (if b : bool then i + m * 2 else i + m).
Definition REV_BIT_LAST (probs i m : Z) : Prog Z :=
  b ← if_bit (probs + i); Return (if b : bool then i else i - m).

(** ** The coder *)

(** [buf] counts the bytes taken from the input. *)
Record Coder := mkCoder { range : Z; code : Z; buf : Z; probs : list Z }.

Definition prob_at (l : list Z) (p : Z) : option Z := rd8 l (kStartOffset + p).
Definition set_prob (l : list Z) (p v : Z) : list Z := <[Z.to_nat (kStartOffset + p) := wrap 16 v]> l.

Definition NORMALIZE (inp : list Z) (c : Coder) : option Coder :=
  if range c <? kTopValue then
    b ← rd8 inp (buf c);
    Some (mkCoder (wrap 32 (Z.shiftl (range c) 8)) (Z.lor (wrap 32 (Z.shiftl (code c) 8)) b) (buf c + 1) (probs c))
  else Some c.

(** [bound] and the two updates. *)
Definition bound_of (c : Coder) (ttt : Z) : Z := wrap 32 (Z.shiftr (range c) kNumBitModelTotalBits * ttt).
Definition UPDATE_0 (p bound ttt : Z) (c : Coder) : Coder :=
  mkCoder bound (code c) (buf c) (set_prob (probs c) p (ttt + Z.shiftr (kBitModelTotal - ttt) kNumMoveBits)).
Definition UPDATE_1 (p bound ttt : Z) (c : Coder) : Coder :=
  mkCoder (wrap 32 (range c - bound)) (wrap 32 (code c - bound)) (buf c) (set_prob (probs c) p (ttt - Z.shiftr ttt kNumMoveBits)).

(** A bit with even chances, with the bit. *)
Definition direct (c : Coder) : bool * Coder :=
  let range := Z.shiftr (range c) 1 in
  let code := wrap 32 (code c - range) in
  let t := wrap 32 (0 - Z.shiftr code 31) in
  (wrap 32 (t + 1) =? 1, mkCoder range (wrap 32 (code + Z.land range t)) (buf c) (probs c)).

(** [None]: a read outside of the input, of the dictionary or of the probabilities. *)
Fixpoint run (inp dic : list Z) {A} (g : Prog A) (c : Coder) : option (A * Coder) :=
  match g with
  | Return a => Some (a, c)
  | IfBit p k =>
      ttt ← prob_at (probs c) p;
      c ← NORMALIZE inp c;
      let bound := bound_of c ttt in
      if code c <? bound then run inp dic (k false) (UPDATE_0 p bound ttt c) else run inp dic (k true) (UPDATE_1 p bound ttt c)
  | DirectBit k => c ← NORMALIZE inp c; let (b, c) := direct c in run inp dic (k b) c
  | ReadDic pos k => b ← rd8 dic pos; run inp dic (k b) c
  end.

(** ** The coder without moving the probabilities *)

(** A value, or [DUMMY_ERROR]: the input ended. *)
Inductive Checked (A : Type) := Value (a : A) | InputEnd.
Arguments Value {A} a.
Arguments InputEnd {A}.

Definition NORMALIZE_CHECK (inp : list Z) (bufLimit : Z) (c : Coder) : option (Checked Coder) :=
  if range c <? kTopValue then
    if bufLimit <=? buf c then Some InputEnd
    else b ← rd8 inp (buf c);
         Some (Value (mkCoder (wrap 32 (Z.shiftl (range c) 8)) (Z.lor (wrap 32 (Z.shiftl (code c) 8)) b) (buf c + 1) (probs c)))
  else Some (Value c).
Definition UPDATE_0_CHECK (bound : Z) (c : Coder) : Coder := mkCoder bound (code c) (buf c) (probs c).
Definition UPDATE_1_CHECK (bound : Z) (c : Coder) : Coder :=
  mkCoder (wrap 32 (range c - bound)) (wrap 32 (code c - bound)) (buf c) (probs c).
Definition direct_check (c : Coder) : bool * Coder :=
  let range := Z.shiftr (range c) 1 in
  let m := wrap 32 (Z.shiftr (wrap 32 (code c - range)) 31 - 1) in
  (negb (m =? 0), mkCoder range (wrap 32 (code c - Z.land range m)) (buf c) (probs c)).

Fixpoint run_check (inp dic : list Z) (bufLimit : Z) {A} (g : Prog A) (c : Coder) : option (Checked (A * Coder)) :=
  match g with
  | Return a => Some (Value (a, c))
  | IfBit p k =>
      ttt ← prob_at (probs c) p;
      r ← NORMALIZE_CHECK inp bufLimit c;
      match r with
      | InputEnd => Some InputEnd
      | Value c =>
          let bound := bound_of c ttt in
          if code c <? bound then run_check inp dic bufLimit (k false) (UPDATE_0_CHECK bound c)
          else run_check inp dic bufLimit (k true) (UPDATE_1_CHECK bound c)
      end
  | DirectBit k =>
      r ← NORMALIZE_CHECK inp bufLimit c;
      match r with
      | InputEnd => Some InputEnd
      | Value c => let (b, c) := direct_check c in run_check inp dic bufLimit (k b) c
      end
  | ReadDic pos k => b ← rd8 dic pos; run_check inp dic bufLimit (k b) c
  end.

(** ** What a program asks for *)

(** [run] of a sequence. *)
Lemma run_bind {A B} inp dic (g : Prog A) (f : A -> Prog B) c :
  run inp dic (g ≫= f) c = '(a, c) ← run inp dic g c; run inp dic (f a) c.
Proof.
  revert c. induction g as [a|p k IH|k IH|pos k IH]; intros c; [done|..]; cbn.
  - destruct (prob_at (probs c) p); [|done]. cbn. destruct (NORMALIZE inp c) as [c1|]; [|done]. cbn.
    destruct (code c1 <? _); apply IH.
  - destruct (NORMALIZE inp c) as [c1|]; [|done]. cbn. destruct (direct c1). apply IH.
  - destruct (rd8 dic pos); [|done]. apply IH.
Qed.

Section Ok.
Context (dl : Z).
Implicit Types R T U : Z -> Prop.

(** [ok P R b d g]: [g] asks for at most [b] coded bits and [d] others (seven of which may stand
    for one that is coded), with probabilities of [R] and none of them twice, reads within [dl]
    bytes of the dictionary, and ends with a value of [P]. *)
Inductive ok {A} (P : A -> Prop) : (Z -> Prop) -> nat -> nat -> Prog A -> Prop :=
| ok_return R b d a : P a -> ok P R b d (Return a)
| ok_if R T b d p k : R p -> (forall q, T q -> R q /\ q <> p) -> (forall x, ok P T b d (k x)) -> ok P R (S b) d (IfBit p k)
| ok_direct R b d k : (forall x, ok P R b d (k x)) -> ok P R b (S d) (DirectBit k)
| ok_dic R b d pos k : 0 <= pos < dl -> (forall x, 0 <= x < 256 -> ok P R b d (k x)) -> ok P R b d (ReadDic pos k)
| ok_trade R b d g : ok P R (S b) d g -> ok P R b (7 + d) g.

Lemma ok_more {A} (P Q : A -> Prop) R T b d b' d' g :
  (forall a, P a -> Q a) -> (forall q, R q -> T q) -> ok P R b d g -> ok Q T (b + b') (d + d') g.
Proof.
  intros HPQ HST Hg. revert T HST.
  induction Hg as [R b d a Ha|R V b d p k Hp HV Hk IH|R b d k Hk IH|R b d pos k Hpos Hk IH|R b d g Hg IH]; intros T HST; simpl.
  - apply ok_return. auto.
  - apply (ok_if Q T V); [auto|intros q Hq; destruct (HV q Hq); auto|]. intros x. by apply IH.
  - apply ok_direct. intros x. by apply IH.
  - apply ok_dic; [done|]. intros x Hx. by apply IH.
  - apply (ok_trade _ _ _ (d + d')). by apply IH.
Qed.
Lemma ok_weaken {A} (P Q : A -> Prop) R T b d g : (forall a, P a -> Q a) -> (forall q, R q -> T q) -> ok P R b d g -> ok Q T b d g.
Proof. intros HPQ HST Hg. rewrite <- (Nat.add_0_r b), <- (Nat.add_0_r d). by eapply ok_more. Qed.

(** A sequence, its second part with other probabilities. *)
Lemma ok_bind {A B} (P : A -> Prop) (Q : B -> Prop) R T U b d b' d' g (f : A -> Prog B) :
  ok P R b d g -> (forall a, P a -> ok Q T b' d' (f a)) ->
  (forall q, R q -> U q) -> (forall q, T q -> U q) -> (forall q, R q -> T q -> False) ->
  ok Q U (b + b') (d + d') (g ≫= f).
Proof.
  intros Hg Hf. revert U.
  induction Hg as [R b d a Ha|R V b d p k Hp HV Hk IH|R b d k Hk IH|R b d pos k Hpos Hk IH|R b d g Hg IH]; intros U HS HT Hd; simpl.
  - rewrite (Nat.add_comm b), (Nat.add_comm d). apply (ok_more Q _ T); auto.
  - apply (ok_if Q U (fun q => V q \/ T q)); [auto|..].
    + intros q [Hq|Hq]; [destruct (HV q Hq) as [H1 H2]; auto|]. split; [auto|]. intros ->. by apply (Hd p).
    + intros x. apply IH; [intros q Hq; by left|intros q Hq; by right|]. intros q Hq1 Hq2. apply (Hd q); [by apply HV|done].
  - apply ok_direct. intros x. by apply IH.
  - apply ok_dic; [done|]. intros x Hx. by apply IH.
  - apply (ok_trade _ _ _ (d + d')). by apply IH.
Qed.
Lemma ok_seq {A B} (P : A -> Prop) (Q : B -> Prop) R T U b d b' d' n m g (f : A -> Prog B) :
  ok P R b d g -> (forall a, P a -> ok Q T b' d' (f a)) ->
  (forall q, R q -> U q) -> (forall q, T q -> U q) -> (forall q, R q -> T q -> False) -> n = (b + b')%nat -> m = (d + d')%nat ->
  ok Q U n m (g ≫= f).
Proof. intros Hg Hf HR HT Hd -> ->. by eapply ok_bind. Qed.
Lemma ok_if_bit {B} (Q : B -> Prop) R T b d p (f : bool -> Prog B) :
  R p -> (forall q, T q -> R q /\ q <> p) -> (forall x, ok Q T b d (f x)) -> ok Q R (S b) d (if_bit p ≫= f).
Proof. apply ok_if. Qed.
Lemma ok_read {B} (Q : B -> Prop) R b d pos (f : Z -> Prog B) :
  0 <= pos < dl -> (forall x, 0 <= x < 256 -> ok Q R b d (f x)) -> ok Q R b d (read_dic pos ≫= f).
Proof. apply ok_dic. Qed.

(** A tree from the node [i]. *)
Definition tree_region (bits : nat) (probs i : Z) : Z -> Prop := fun q => probs + i <= q /\ 2 * (q - probs) < (i + 1) * 2 ^ Z.of_nat bits.
Lemma pow2_S (n : nat) : 2 ^ Z.of_nat (S n) = 2 * 2 ^ Z.of_nat n /\ 0 < 2 ^ Z.of_nat n.
Proof. rewrite Nat2Z.inj_succ, Z.pow_succ_r by lia. split; [done|]. apply Z.pow_pos_nonneg; lia. Qed.
Lemma ok_tree bits probs i : 1 <= i ->
  ok (fun r => i * 2 ^ Z.of_nat bits <= r < (i + 1) * 2 ^ Z.of_nat bits) (tree_region bits probs i) bits 0 (tree_bits bits probs i).
Proof.
  revert i. induction bits as [|n IH]; intros i Hi; [apply ok_return; rewrite !Z.mul_1_r; lia|].
  destruct (pow2_S n) as [E Hn]. simpl tree_bits. unfold TREE_GET_BIT.
  apply (ok_if _ _ (fun q => tree_region n probs (i + i) q \/ tree_region n probs (i + i + 1) q)).
  - unfold tree_region. rewrite E. nia.
  - intros q [Hq|Hq]; unfold tree_region in *; rewrite E; nia.
  - intros x. eapply ok_weaken; [| |apply (IH (i + i + bit_of x))]; [|intros q Hq; destruct x; simpl in Hq|destruct x; simpl; lia].
    + intros r Hr. rewrite E. destruct x; simpl in Hr; nia.
    + by right.
    + left. by rewrite Z.add_0_r in Hq.
Qed.
Lemma ok_TREE bits probs :
  ok (fun r => 0 <= r < 2 ^ Z.of_nat bits) (fun q => probs + 1 <= q < probs + 2 ^ Z.of_nat bits) bits 0 (TREE_DECODE bits probs).
Proof.
  eapply (ok_seq _ _ _ (fun _ => False) _ bits 0 0 0); [apply (ok_tree bits probs 1); lia| |unfold tree_region; lia|done|done|lia|done].
  intros a Ha. apply ok_return. cbv beta in *. lia.
Qed.
End Ok.

(** ** The state of the coder *)

(** A probability never gets to 0 or 1. *)
Definition prob_ok (v : Z) : Prop := 31 <= v <= kBitModelTotal - 31.
Definition byte_ok (b : Z) : Prop := 0 <= b < 256.

Record coder_ok (np : Z) (c : Coder) : Prop := {
  range_low : 2 ^ 16 <= range c;
  range_high : range c < 2 ^ 32;
  code_ok : 0 <= code c < 2 ^ 32;
  buf_ok : 0 <= buf c;
  probs_ok : Forall prob_ok (probs c);
  probs_length : Z.of_nat (length (probs c)) = np
}.

Lemma prob_lookup np c p : coder_ok np c -> 0 <= kStartOffset + p < np -> exists v, prob_at (probs c) p = Some v /\ prob_ok v.
Proof.
  intros Hc Hp. destruct (rd8_in (probs c) (kStartOffset + p)) as [v Hv]; [by rewrite (probs_length _ _ Hc)|].
  exists v. split; [done|]. unfold rd8 in Hv. destruct (_ <? 0); [done|].
  by apply (Forall_lookup_1 _ _ _ _ (probs_ok _ _ Hc) Hv).
Qed.
Lemma set_prob_ok l p v : Forall prob_ok l -> prob_ok v -> Forall prob_ok (set_prob l p v).
Proof.
  intros Hl Hv. apply Forall_insert; [done|]. change (31 <= v <= 2017) in Hv.
  rewrite wrap_small; [done|]. change (2 ^ 16) with 65536. lia.
Qed.
Lemma set_prob_length l p v : length (set_prob l p v) = length l.
Proof. apply length_insert. Qed.

Lemma moved_up v : prob_ok v -> prob_ok (v + Z.shiftr (kBitModelTotal - v) kNumMoveBits).
Proof.
  change (31 <= v <= 2017 -> 31 <= v + Z.shiftr (2048 - v) 5 <= 2017). intros Hv.
  rewrite Z.shiftr_div_pow2 by lia. change (2 ^ 5) with 32. Z.to_euclidean_division_equations. lia.
Qed.
Lemma moved_down v : prob_ok v -> prob_ok (v - Z.shiftr v kNumMoveBits).
Proof.
  change (31 <= v <= 2017 -> 31 <= v - Z.shiftr v 5 <= 2017). intros Hv.
  rewrite Z.shiftr_div_pow2 by lia. change (2 ^ 5) with 32. Z.to_euclidean_division_equations. lia.
Qed.

Lemma wrap_256 x : wrap 32 (x * 256) = x mod 2 ^ 24 * 256.
Proof. unfold wrap. change (2 ^ 32) with (2 ^ 24 * 256). by rewrite Z.mul_mod_distr_r by lia. Qed.
Lemma lor_byte x b : byte_ok b -> Z.lor (wrap 32 (x * 256)) b = wrap 32 (x * 256) + b.
Proof.
  intros Hb. rewrite wrap_256. rewrite Z.lor_comm, <- Z.add_nocarry_lor; [lia|].
  apply Z.bits_inj'. intros n Hn. rewrite Z.land_spec, Z.bits_0. apply andb_false_iff.
  destruct (Z_lt_le_dec n 8).
  - right. change 256 with (2 ^ 8) at 1. by apply Z.mul_pow2_bits_low.
  - left. destruct (decide (b = 0)) as [->|]; [apply Z.bits_0|]. unfold byte_ok in Hb. apply Z.bits_above_log2; [lia|].
    apply Z.log2_lt_pow2; [lia|]. change 256 with (2 ^ 8) in Hb. apply (Z.lt_le_trans _ (2 ^ 8)); [lia|].
    apply Z.pow_le_mono_r; lia.
Qed.

(** What [NORMALIZE] gives when a byte is there. *)
Definition shifted (c : Coder) (b : Z) : Coder := mkCoder (range c * 256) (wrap 32 (code c * 256) + b) (buf c + 1) (probs c).
Lemma normalize_byte np inp c : coder_ok np c -> Forall byte_ok inp -> range c < kTopValue -> buf c < Z.of_nat (length inp) ->
  exists b, rd8 inp (buf c) = Some b /\ byte_ok b /\ NORMALIZE inp c = Some (shifted c b).
Proof.
  intros Hc Hinp Hr Hb. destruct (rd8_in inp (buf c)) as [b Hv]; [pose proof (buf_ok _ _ Hc); lia|].
  assert (byte_ok b) as Hb'.
  { unfold rd8 in Hv. destruct (_ <? 0); [done|]. by apply (Forall_lookup_1 _ _ _ _ Hinp Hv). }
  exists b. split; [done|]. split; [done|]. unfold NORMALIZE. rewrite (proj2 (Z.ltb_lt _ _) Hr), Hv. simpl. unfold shifted. f_equal.
  pose proof (code_ok _ _ Hc). pose proof (range_low _ _ Hc). unfold kTopValue, kNumTopBits in Hr. change (Z.shiftl 1 24) with 16777216 in Hr.
  rewrite (wrap_small 32 (Z.shiftl (range c) 8)) by
    (rewrite Z.shiftl_mul_pow2 by lia; change (2 ^ 8) with 256; change (2 ^ 32) with 4294967296; lia).
  rewrite !Z.shiftl_mul_pow2 by lia. change (2 ^ 8) with 256. f_equal. by apply lor_byte.
Qed.
Lemma shifted_ok np c b : coder_ok np c -> byte_ok b -> range c < kTopValue -> coder_ok np (shifted c b).
Proof.
  intros [L U C B F N] Hb Hr. unfold byte_ok in *. change kTopValue with 16777216 in Hr.
  pose proof (Z.mod_pos_bound (code c) (2 ^ 24) ltac:(lia)) as Hm. change (2 ^ 24) with 16777216 in Hm.
  change (2 ^ 16) with 65536 in *. change (2 ^ 32) with 4294967296 in *.
  split; simpl; try done; rewrite ?wrap_256; change (2 ^ 24) with 16777216; change (2 ^ 16) with 65536; change (2 ^ 32) with 4294967296; lia.
Qed.

(** ** How much the range shrinks *)

(** [enough range m b d]: [m] bytes are enough for [b] coded bits and [d] others, and to
    normalize the range afterwards.  A coded bit leaves at least 31 of 2048 parts of the range,
    rounded: 253921 of [2 ^ 24]; a direct bit one half. *)
Definition kept := 253921.
Definition halved := 2 ^ 24 - 1.
Definition enough (range : Z) (m b d : nat) : Prop :=
  2 ^ 24 * (2 ^ 24) ^ Z.of_nat b * (2 ^ 25) ^ Z.of_nat d <=
  range * 256 ^ Z.of_nat m * kept ^ Z.of_nat b * halved ^ Z.of_nat d.

Lemma pow_S x (n : nat) : x ^ Z.of_nat (S n) = x * x ^ Z.of_nat n.
Proof. rewrite Nat2Z.inj_succ. apply Z.pow_succ_r. lia. Qed.

Lemma spent_bounds (b d : nat) :
  0 < kept ^ Z.of_nat b * halved ^ Z.of_nat d <= (2 ^ 24) ^ Z.of_nat b * (2 ^ 25) ^ Z.of_nat d.
Proof.
  assert (0 < kept ^ Z.of_nat b <= (2 ^ 24) ^ Z.of_nat b) as [Hk0 Hk].
  { split; [by apply Z.pow_pos_nonneg; unfold kept; lia|]. apply Z.pow_le_mono_l. by unfold kept. }
  assert (0 < halved ^ Z.of_nat d <= (2 ^ 25) ^ Z.of_nat d) as [Hh0 Hh].
  { split; [by apply Z.pow_pos_nonneg; unfold halved; lia|]. apply Z.pow_le_mono_l. by unfold halved. }
  split; [by apply Z.mul_pos_pos|]. apply Z.mul_le_mono_nonneg; lia.
Qed.
Lemma enough_end r m b d : 0 <= r -> enough r m b d -> enough r m 0 0.
Proof.
  intros Hr He. unfold enough in *. destruct (spent_bounds b d) as [Hu Hw]. rewrite !Z.mul_1_r.
  set (u := kept ^ Z.of_nat b * halved ^ Z.of_nat d) in *. set (w := (2 ^ 24) ^ Z.of_nat b * (2 ^ 25) ^ Z.of_nat d) in *.
  assert (2 ^ 24 * w <= r * 256 ^ Z.of_nat m * u) by (unfold u, w; lia).
  assert (2 ^ 24 * u <= r * 256 ^ Z.of_nat m * u) by nia. by apply (Z.mul_le_mono_pos_r _ _ u).
Qed.
Lemma enough_byte r m b d : 0 <= r < kTopValue -> enough r m b d -> exists m', m = S m' /\ enough (r * 256) m' b d.
Proof.
  intros Hr He. destruct m as [|m']; [exfalso|exists m'; split; [done|]].
  - unfold enough in He. change (256 ^ Z.of_nat 0) with 1 in He. change kTopValue with (2 ^ 24) in Hr.
    destruct (spent_bounds b d) as [? ?].
    set (u := kept ^ Z.of_nat b * halved ^ Z.of_nat d) in *. set (w := (2 ^ 24) ^ Z.of_nat b * (2 ^ 25) ^ Z.of_nat d) in *.
    replace (_ * _ * _) with (2 ^ 24 * w) in He at 1 by (unfold w; ring).
    replace (_ * _ * _ * _) with (r * u) in He by (unfold u; ring). nia.
  - unfold enough in *. rewrite pow_S in He. lia.
Qed.
Lemma enough_bit r r' m b d : r * kept <= r' * 2 ^ 24 -> enough r m (S b) d -> enough r' m b d.
Proof.
  intros Hr He. unfold enough in *. rewrite !pow_S in He.
  assert (0 < 256 ^ Z.of_nat m) by (apply Z.pow_pos_nonneg; lia).
  assert (0 < kept ^ Z.of_nat b) by (apply Z.pow_pos_nonneg; unfold kept; lia).
  assert (0 < halved ^ Z.of_nat d) by (apply Z.pow_pos_nonneg; unfold halved; lia).
  assert (0 < 256 ^ Z.of_nat m * kept ^ Z.of_nat b * halved ^ Z.of_nat d) by lia.
  set (u := 256 ^ Z.of_nat m * kept ^ Z.of_nat b * halved ^ Z.of_nat d) in *.
  replace (r' * _ * _ * _) with (r' * u) by (unfold u; ring).
  replace (r * _ * _ * _) with (r * kept * u) in He by (unfold u; ring). nia.
Qed.
Lemma enough_direct r r' m b d : r * halved <= r' * 2 ^ 25 -> enough r m b (S d) -> enough r' m b d.
Proof.
  intros Hr He. unfold enough in *. rewrite !pow_S in He.
  assert (0 < 256 ^ Z.of_nat m) by (apply Z.pow_pos_nonneg; lia).
  assert (0 < kept ^ Z.of_nat b) by (apply Z.pow_pos_nonneg; unfold kept; lia).
  assert (0 < halved ^ Z.of_nat d) by (apply Z.pow_pos_nonneg; unfold halved; lia).
  assert (0 < 256 ^ Z.of_nat m * kept ^ Z.of_nat b * halved ^ Z.of_nat d) by lia.
  set (u := 256 ^ Z.of_nat m * kept ^ Z.of_nat b * halved ^ Z.of_nat d) in *.
  replace (r' * _ * _ * _) with (r' * u) by (unfold u; ring).
  replace (r * _ * _ * _) with (r * halved * u) in He by (unfold u; ring). nia.
Qed.
Lemma enough_trade r m b d : enough r m b (7 + d) -> enough r m (S b) d.
Proof.
  intros He. unfold enough in *. rewrite pow_S, (pow_S kept). rewrite Nat2Z.inj_add, !Z.pow_add_r in He by lia.
  set (x := r * 256 ^ Z.of_nat m * kept ^ Z.of_nat b * halved ^ Z.of_nat d).
  set (y := 2 ^ 24 * (2 ^ 24) ^ Z.of_nat b * (2 ^ 25) ^ Z.of_nat d).
  enough (y * 2 ^ 24 <= x * kept) by (unfold x, y in *; lia).
  assert (y * (2 ^ 25) ^ 7 <= x * halved ^ 7).
  { eapply Z.le_trans; [|eapply Z.le_trans; [exact He|]]; [unfold y|unfold x]; apply Z.eq_le_incl; change (Z.of_nat 7) with 7; ring. }
  assert (0 < y) by (unfold y; rewrite <- !Z.pow_mul_r by lia; apply Z.mul_pos_pos; [apply Z.mul_pos_pos|]; [lia|..]; apply Z.pow_pos_nonneg; lia).
  assert (2 ^ 24 * halved ^ 7 <= kept * (2 ^ 25) ^ 7) by (vm_compute; discriminate).
  assert (0 < halved ^ 7) by done. set (h := halved ^ 7) in *. nia.
Qed.
Lemma enough_mono r m m' b d : 0 <= r -> (m <= m')%nat -> enough r m b d -> enough r m' b d.
Proof.
  intros Hr Hm He. unfold enough in *. eapply Z.le_trans; [exact He|].
  assert (256 ^ Z.of_nat m <= 256 ^ Z.of_nat m') by (apply Z.pow_le_mono_r; lia).
  assert (0 < kept ^ Z.of_nat b) by (apply Z.pow_pos_nonneg; unfold kept; lia).
  assert (0 < halved ^ Z.of_nat d) by (apply Z.pow_pos_nonneg; unfold halved; lia).
  apply Z.mul_le_mono_nonneg_r; [lia|]. apply Z.mul_le_mono_nonneg_r; [lia|]. by apply Z.mul_le_mono_nonneg_l.
Qed.

(** ** Running a program *)

Section Run.
Context (np : Z) (inp dic : list Z).
Hypothesis inp_bytes : Forall byte_ok inp.
Hypothesis dic_bytes : Forall byte_ok dic.

(** A normalized coder, with the bytes that are left. *)
Lemma normalize_ok c m b d : coder_ok np c -> enough (range c) m b d -> buf c + Z.of_nat m <= Z.of_nat (length inp) ->
  exists c' m', NORMALIZE inp c = Some c' /\ coder_ok np c' /\ kTopValue <= range c' /\ enough (range c') m' b d /\
    buf c' + Z.of_nat m' = buf c + Z.of_nat m /\ buf c <= buf c' /\ probs c' = probs c.
Proof.
  intros Hc He Hm. destruct (Z.lt_ge_cases (range c) kTopValue) as [Hr|Hr].
  - destruct (enough_byte (range c) m b d) as (m' & -> & He'); [pose proof (range_low _ _ Hc); lia|done|].
    destruct (normalize_byte np inp c Hc inp_bytes Hr) as (x & _ & Hx & E); [lia|]. exists (shifted c x), m'.
    pose proof (shifted_ok np c x Hc Hx Hr) as Hs. split; [done|]. split; [done|]. split.
    { simpl. pose proof (range_low _ _ Hc). change kTopValue with (2 ^ 16 * 256). lia. }
    split; [done|]. split; [simpl; lia|]. split; [simpl; lia|done].
  - exists c, m. unfold NORMALIZE. rewrite (proj2 (Z.ltb_ge _ _) Hr). split_and!; try done.
Qed.

Lemma bound_facts c v : coder_ok np c -> kTopValue <= range c -> prob_ok v ->
  bound_of c v = range c / 2048 * v /\ range c * kept <= bound_of c v * 2 ^ 24 /\ 2 ^ 16 <= bound_of c v < range c /\
  range c * kept <= (range c - bound_of c v) * 2 ^ 24 /\ 2 ^ 16 <= range c - bound_of c v.
Proof.
  intros Hc Hr Hv. pose proof (range_high _ _ Hc) as Hh. change (31 <= v <= 2017) in Hv. change kTopValue with 16777216 in Hr.
  assert (bound_of c v = range c / 2048 * v) as E.
  { unfold bound_of. change kNumBitModelTotalBits with 11. rewrite Z.shiftr_div_pow2 by lia. change (2 ^ 11) with 2048.
    apply wrap_small. change (2 ^ 32) with 4294967296 in *. Z.to_euclidean_division_equations. nia. }
  rewrite E. unfold kept. change (2 ^ 24) with 16777216. change (2 ^ 16) with 65536. change (2 ^ 32) with 4294967296 in Hh.
  assert (8192 <= range c / 2048) by (Z.to_euclidean_division_equations; lia).
  assert (range c = 2048 * (range c / 2048) + range c mod 2048 /\ 0 <= range c mod 2048 < 2048) as [Eq Hm].
  { split; [apply Z.div_mod; lia|apply Z.mod_pos_bound; lia]. }
  set (q := range c / 2048) in *. set (r := range c mod 2048) in *. clearbody q r. rewrite Eq. split_and!; nia.
Qed.

Lemma update_0_ok c p v : coder_ok np c -> kTopValue <= range c -> prob_ok v -> code c < bound_of c v ->
  coder_ok np (UPDATE_0 p (bound_of c v) v c).
Proof.
  intros Hc Hr Hv Hb. destruct (bound_facts c v Hc Hr Hv) as (_ & _ & [Hl Hu] & _).
  pose proof (range_high _ _ Hc). pose proof (code_ok _ _ Hc). split; simpl; [lia|lia|lia|apply Hc|..].
  - apply set_prob_ok; [apply Hc|by apply moved_up].
  - rewrite set_prob_length. apply Hc.
Qed.
Lemma update_1_ok c p v : coder_ok np c -> kTopValue <= range c -> prob_ok v -> bound_of c v <= code c ->
  coder_ok np (UPDATE_1 p (bound_of c v) v c) /\ range (UPDATE_1 p (bound_of c v) v c) = range c - bound_of c v /\
  code (UPDATE_1 p (bound_of c v) v c) = code c - bound_of c v.
Proof.
  intros Hc Hr Hv Hb. destruct (bound_facts c v Hc Hr Hv) as (_ & _ & [Hl Hu] & _ & Hk).
  pose proof (range_high _ _ Hc). pose proof (code_ok _ _ Hc). change (2 ^ 16) with 65536 in *.
  unfold UPDATE_1. rewrite (wrap_small 32 (range c - _)), (wrap_small 32 (code c - _)) by lia. split; [|done].
  split; simpl; [change (2 ^ 16) with 65536; lia|lia|lia|apply Hc|..].
  - apply set_prob_ok; [apply Hc|by apply moved_down].
  - rewrite set_prob_length. apply Hc.
Qed.

(** The bit with even chances: both ways to compute it are the same for every code. *)
Definition direct_spec (c : Coder) : bool * Coder :=
  let range := range c / 2 in
  let code' := wrap 32 (code c - range) in
  (code' <? 2 ^ 31, mkCoder range (if code' <? 2 ^ 31 then code' else code c) (buf c) (probs c)).
Lemma direct_facts c : coder_ok np c -> kTopValue <= range c ->
  direct c = direct_spec c /\ direct_check c = direct_spec c.
Proof.
  intros Hc Hr. pose proof (range_high _ _ Hc) as Hh. pose proof (code_ok _ _ Hc) as Hd. change kTopValue with 16777216 in Hr.
  unfold direct, direct_check, direct_spec. rewrite !(Z.shiftr_div_pow2 (range c)) by lia. change (2 ^ 1) with 2.
  assert (0 <= range c / 2 < 2 ^ 31) as Hq.
  { change (2 ^ 31) with 2147483648. change (2 ^ 32) with 4294967296 in Hh. Z.to_euclidean_division_equations. lia. }
  set (q := range c / 2) in *. clearbody q. pose proof (wrap_bounds 32 (code c - q) ltac:(lia)) as Hw.
  assert (wrap 32 (code c - q + q) = code c) as E by (rewrite Z.sub_add; by apply wrap_small).
  assert (wrap 32 (wrap 32 (code c - q) + q) = code c) as E' by (rewrite <- E at 2; unfold wrap; apply Zplus_mod_idemp_l).
  assert (Z.land q (Z.ones 32) = q) as Eq.
  { rewrite Z.land_ones by lia. apply Z.mod_small. change (2 ^ 32) with 4294967296. change (2 ^ 31) with 2147483648 in Hq. lia. }
  rewrite Z.shiftr_div_pow2 by lia. destruct (Z.ltb_spec (wrap 32 (code c - q)) (2 ^ 31)) as [Hlt|Hle].
  - rewrite (Z.div_small (wrap 32 _)) by lia. split.
    + change (wrap 32 (0 - 0)) with 0. change (wrap 32 (0 + 1) =? 1) with true. by rewrite Z.land_0_r, Z.add_0_r, wrap_wrap.
    + change (wrap 32 (0 - 1)) with (Z.ones 32). by rewrite Eq.
  - assert (wrap 32 (code c - q) / 2 ^ 31 = 1) as ->.
    { symmetry. apply (Z.div_unique _ _ 1 (wrap 32 (code c - q) - 2 ^ 31)); [|lia]. left. change (2 ^ 32) with (2 ^ 31 + 2 ^ 31) in Hw. lia. }
    split.
    + change (wrap 32 (0 - 1)) with (Z.ones 32). change (wrap 32 (Z.ones 32 + 1) =? 1) with false. by rewrite Eq, E'.
    + change (wrap 32 (1 - 1)) with 0. by rewrite Z.land_0_r, Z.sub_0_r, wrap_small.
Qed.
Lemma direct_spec_ok c : coder_ok np c -> kTopValue <= range c ->
  coder_ok np (direct_spec c).2 /\ range c * halved <= range (direct_spec c).2 * 2 ^ 25.
Proof.
  intros Hc Hr. pose proof (range_high _ _ Hc) as Hh. pose proof (code_ok _ _ Hc) as Hd. change kTopValue with 16777216 in Hr.
  change (2 ^ 32) with 4294967296 in Hh. split.
  - destruct Hc. split; simpl; try done; change (2 ^ 16) with 65536; change (2 ^ 32) with 4294967296;
      [Z.to_euclidean_division_equations; lia..|]. destruct (_ <? _); [|done]. by apply (wrap_bounds 32).
  - simpl. unfold halved. change (2 ^ 25) with 33554432. change (2 ^ 24) with 16777216. Z.to_euclidean_division_equations. lia.
Qed.

(** Only probabilities that are there. *)
Definition within (R : Z -> Prop) : Prop := forall p, R p -> 0 <= kStartOffset + p < np.
Lemma within_less (R T : Z -> Prop) p : within R -> (forall q, T q -> R q /\ q <> p) -> within T.
Proof. intros HR HT q Hq. by apply HR, HT. Qed.

(** A program that asks for no more than there are bytes for reads only what is there. *)
Lemma run_ok {A} (P : A -> Prop) R b d (g : Prog A) c m :
  ok (Z.of_nat (length dic)) P R b d g -> within R -> coder_ok np c -> enough (range c) m b d -> buf c + Z.of_nat m <= Z.of_nat (length inp) ->
  exists a c' m', run inp dic g c = Some (a, c') /\ P a /\ coder_ok np c' /\ enough (range c') m' 0 0 /\
    buf c' + Z.of_nat m' = buf c + Z.of_nat m /\ buf c <= buf c'.
Proof.
  intros Hg HR. revert c m HR. induction Hg as [R b d a Ha|R T b d p k Hp HT Hk IH|R b d k Hk IH|R b d pos k Hpos Hk IH|R b d g Hg IH]; intros c m HR Hc He Hm.
  - exists a, c, m. split_and!; try done. eapply enough_end; [|done]. pose proof (range_low _ _ Hc). lia.
  - destruct (prob_lookup np c p Hc (HR p Hp)) as (v & Ev & Hv). simpl. rewrite Ev. simpl.
    destruct (normalize_ok c m (S b) d Hc He Hm) as (c1 & m1 & -> & Hc1 & Hr1 & He1 & Hm1 & Hb1 & _). simpl.
    destruct (bound_facts c1 v Hc1 Hr1 Hv) as (_ & H0 & _ & H1 & _). destruct (Z.ltb_spec (code c1) (bound_of c1 v)) as [Hlt|Hle].
    + destruct (IH false _ m1 (within_less R T p HR HT) (update_0_ok c1 p v Hc1 Hr1 Hv Hlt)) as (a & c' & m' & E & Ha & Hc' & He' & Hm' & Hb'); [by eapply enough_bit|cbn; lia|].
      cbn in Hm', Hb'. exists a, c', m'. split_and!; try done; lia.
    + destruct (update_1_ok c1 p v Hc1 Hr1 Hv Hle) as (Hc2 & E2 & _).
      destruct (IH true _ m1 (within_less R T p HR HT) Hc2) as (a & c' & m' & E & Ha & Hc' & He' & Hm' & Hb'); [rewrite E2; by eapply enough_bit|cbn; lia|].
      cbn in Hm', Hb'. exists a, c', m'. split_and!; try done; lia.
  - cbn [run]. destruct (normalize_ok c m b (S d) Hc He Hm) as (c1 & m1 & -> & Hc1 & Hr1 & He1 & Hm1 & Hb1 & _). cbn [mbind option_bind].
    destruct (direct_spec_ok c1 Hc1 Hr1) as [Hc2 H2]. rewrite (proj1 (direct_facts c1 Hc1 Hr1)).
    destruct (direct_spec c1) as [x c2] eqn:E2. cbn [fst snd] in *.
    assert (buf c2 = buf c1) as Eb by (unfold direct_spec in E2; by injection E2 as _ <-).
    destruct (IH x c2 m1 HR Hc2) as (a & c' & m' & E & Ha & Hc' & He' & Hm' & Hb'); [by eapply enough_direct|lia|].
    exists a, c', m'. split_and!; try done; lia.
  - simpl. destruct (rd8_in dic pos Hpos) as [x Ex]. rewrite Ex. simpl. apply IH; try done.
    unfold rd8 in Ex. destruct (_ <? 0); [done|]. by apply (Forall_lookup_1 _ _ _ _ dic_bytes Ex).
  - apply IH; try done. by apply enough_trade.
Qed.
End Run.

(** ** Looking ahead *)

(** [g] and [g'] ask for the same, and end with values that belong together. *)
Inductive same_bits {A B} (R : A -> B -> Prop) : Prog A -> Prog B -> Prop :=
| same_return a b : R a b -> same_bits R (Return a) (Return b)
| same_if p k k' : (forall x, same_bits R (k x) (k' x)) -> same_bits R (IfBit p k) (IfBit p k')
| same_direct k k' : (forall x, same_bits R (k x) (k' x)) -> same_bits R (DirectBit k) (DirectBit k')
| same_dic pos k k' : (forall x, byte_ok x -> same_bits R (k x) (k' x)) -> same_bits R (ReadDic pos k) (ReadDic pos k').

Lemma same_bits_refl {A} (g : Prog A) : same_bits eq g g.
Proof. induction g; by constructor. Qed.
Lemma same_bits_bind {A B A' B'} (R : A -> B -> Prop) (R' : A' -> B' -> Prop) g g' (f : A -> Prog A') (f' : B -> Prog B') :
  same_bits R g g' -> (forall a b, R a b -> same_bits R' (f a) (f' b)) -> same_bits R' (g ≫= f) (g' ≫= f').
Proof. intros Hg Hf. induction Hg; simpl; [by apply Hf|by constructor..]. Qed.
(** The same bits first. *)
Lemma same_bits_after {A A' B'} (R' : A' -> B' -> Prop) (g : Prog A) (f : A -> Prog A') (f' : A -> Prog B') :
  (forall a, same_bits R' (f a) (f' a)) -> same_bits R' (g ≫= f) (g ≫= f').
Proof. intros Hf. eapply same_bits_bind; [apply same_bits_refl|]. by intros a b <-. Qed.
Lemma same_bits_ok {A B} (E : A -> B -> Prop) dl (P : A -> Prop) R b d g g' :
  ok dl P R b d g -> same_bits E g g' -> ok dl (fun y => exists x, E x y /\ P x) R b d g'.
Proof.
  intros Hg. revert g'. induction Hg as [R b d a Ha|R T b d p k Hp HT Hk IH|R b d k Hk IH|R b d pos k Hpos Hk IH|R b d g Hg IH]; intros g' Hs.
  - inversion Hs; subst. apply ok_return. by exists a.
  - inversion Hs as [|p' k1 k' Hk'| |]; subst. apply (ok_if _ _ _ T); [done|done|]. intros x. apply (IH x), Hk'.
  - inversion Hs as [| |k1 k' Hk'|]; subst. apply ok_direct. intros x. apply (IH x), Hk'.
  - inversion Hs as [| | |pos' k1 k' Hk']; subst. apply ok_dic; [done|]. intros x Hx. by apply (IH x Hx), Hk'.
  - apply ok_trade. by apply IH.
Qed.

Section Ahead.
Context (np : Z) (inp dic : list Z).
Hypothesis inp_bytes : Forall byte_ok inp.
Hypothesis dic_bytes : Forall byte_ok dic.

(** The parts of the coder that do not depend on the moves of the probabilities. *)
Definition agree (c c' : Coder) : Prop := range c = range c' /\ code c = code c' /\ buf c = buf c'.

(** [NORMALIZE_CHECK] that found its byte, or was told that there is none. *)
Lemma normalize_check c c' lim : coder_ok np c -> coder_ok np c' -> agree c c' -> lim <= Z.of_nat (length inp) ->
  NORMALIZE_CHECK inp lim c' = Some InputEnd \/
  exists c1 c1', NORMALIZE_CHECK inp lim c' = Some (Value c1') /\ NORMALIZE inp c = Some c1 /\ agree c1 c1' /\
    coder_ok np c1 /\ coder_ok np c1' /\ kTopValue <= range c1 /\ probs c1 = probs c /\ probs c1' = probs c' /\
    (buf c <= lim -> buf c1 <= lim).
Proof.
  intros Hc Hc' (Er & Ec & Eb) Hlim. unfold NORMALIZE_CHECK. rewrite <- Er, <- Eb.
  destruct (Z.ltb_spec (range c) kTopValue) as [Hr|Hr].
  - destruct (Z.leb_spec lim (buf c)) as [Hl|Hl]; [by left|right].
    destruct (normalize_byte np inp c Hc inp_bytes Hr) as (x & Hx & Hxb & E); [lia|].
    destruct (normalize_byte np inp c' Hc' inp_bytes) as (x' & Hx' & Hxb' & E'); [lia..|].
    rewrite <- Eb, Hx in Hx'. injection Hx' as <-. unfold NORMALIZE in E'.
    rewrite <- Er, <- Eb, (proj2 (Z.ltb_lt _ _) Hr), Hx in E'. rewrite Hx. cbn [mbind option_bind] in *.
    exists (shifted c x), (shifted c' x). split; [apply (f_equal (fun o => d ← o; Some (Value d))) in E'; exact E'|]. split; [done|].
    split; [unfold agree, shifted; cbn; by rewrite Er, Ec, Eb|]. split; [by apply shifted_ok|].
    split; [apply shifted_ok; [done|done|lia]|]. split; [|split; [done|split; [done|cbn; lia]]].
    cbn. pose proof (range_low _ _ Hc). change kTopValue with (2 ^ 16 * 256). lia.
  - right. exists c, c'. unfold NORMALIZE. rewrite (proj2 (Z.ltb_ge _ _) Hr). split_and!; try done.
Qed.

Lemma check_update_ok c' c : coder_ok np c' -> coder_ok np c -> coder_ok np (mkCoder (range c) (code c) (buf c) (probs c')).
Proof. intros [] []. by split. Qed.

Lemma prob_at_ok c p v : coder_ok np c -> prob_at (probs c) p = Some v -> prob_ok v.
Proof.
  intros Hc Hv. unfold prob_at, rd8 in Hv. destruct (_ <? 0); [done|]. by apply (Forall_lookup_1 _ _ _ _ (probs_ok _ _ Hc) Hv).
Qed.
Lemma set_prob_other l p q v : 0 <= kStartOffset + p -> q <> p -> prob_at (set_prob l p v) q = prob_at l q.
Proof.
  intros Hp Hq. unfold prob_at, set_prob, rd8. destruct (Z.ltb_spec (kStartOffset + q) 0); [done|].
  apply list_lookup_insert_ne. lia.
Qed.
Lemma check_0_ok c v : coder_ok np c -> kTopValue <= range c -> prob_ok v -> coder_ok np (UPDATE_0_CHECK (bound_of c v) c).
Proof.
  intros Hc Hr Hv. destruct (bound_facts np c v Hc Hr Hv) as (_ & _ & [Hl Hu] & _). pose proof (range_high _ _ Hc).
  split; simpl; [lia|lia|..]; apply Hc.
Qed.
Lemma check_1_ok c v : coder_ok np c -> kTopValue <= range c -> prob_ok v -> bound_of c v <= code c ->
  coder_ok np (UPDATE_1_CHECK (bound_of c v) c).
Proof. intros Hc Hr Hv Hb. destruct (update_1_ok np c 0 v Hc Hr Hv Hb) as [[L U C B _ _] _]. split; try done; apply Hc. Qed.

(** A look ahead that finds its input: the program itself takes the same way, to the same place. *)
Lemma ahead {A B} (E : A -> B -> Prop) (g : Prog A) (g' : Prog B) lim (P : A -> Prop) R n m c c' b c1' :
  ok (Z.of_nat (length dic)) P R n m g -> same_bits E g g' -> (forall p, R p -> prob_at (probs c) p = prob_at (probs c') p) ->
  coder_ok np c -> coder_ok np c' -> agree c c' -> buf c <= lim -> lim <= Z.of_nat (length inp) ->
  run_check inp dic lim g' c' = Some (Value (b, c1')) ->
  exists a c1, run inp dic g c = Some (a, c1) /\ E a b /\ P a /\ agree c1 c1' /\ coder_ok np c1 /\ coder_ok np c1' /\ buf c1 <= lim.
Proof.
  intros Hok. revert g' c c'.
  induction Hok as [R n m a Ha|R T n m p k Hp HT Hk IH|R n m k Hk IH|R n m pos k Hpos Hk IH|R n m g Hg IH];
    intros g' c c' Hs Hpr Hc Hc' Hag Hlim Hlen Hrun.
  - inversion Hs as [a' b' HE| | |]; subst. injection Hrun as <- <-. by exists a, c.
  - inversion Hs as [|p' k1 k' Hk'| |]; subst. cbn [run run_check] in *. rewrite (Hpr p Hp).
    destruct (prob_at (probs c') p) as [v|] eqn:Ev; [|done]. cbn [mbind option_bind] in *.
    pose proof (prob_at_ok c' p v Hc' Ev) as Hv.
    destruct (normalize_check c c' lim Hc Hc' Hag Hlen) as [E1|(d & d' & E' & E1 & Ha1 & Hd & Hd' & Hr & Hp1 & Hp1' & Hb)];
      [by rewrite E1 in Hrun|]. rewrite E' in Hrun. rewrite E1. cbn [mbind option_bind] in *.
    destruct Ha1 as (Er & Ec & Eb). assert (bound_of d' v = bound_of d v) as Ebd by (unfold bound_of; by rewrite Er).
    rewrite Ebd, <- Ec in Hrun. assert (0 <= kStartOffset + p) as Hp0.
    { unfold prob_at, rd8 in Ev. destruct (Z.ltb_spec (kStartOffset + p) 0); [done|lia]. }
    assert (forall q w, T q -> prob_at (set_prob (probs d) p w) q = prob_at (probs d') q) as HTq.
    { intros q w Hq. destruct (HT q Hq) as [HSq Hne]. rewrite set_prob_other by done. rewrite Hp1, Hp1'. by apply Hpr. }
    destruct (Z.ltb_spec (code d) (bound_of d v)) as [Hlt|Hle].
    + eapply (IH false _ _ (UPDATE_0_CHECK (bound_of d v) d')); [apply Hk'|intros q Hq; by apply HTq|..|exact Hrun].
      * by apply update_0_ok.
      * rewrite <- Ebd. apply check_0_ok; [done|lia|done].
      * by split_and!.
      * cbn. auto.
      * done.
    + destruct (update_1_ok np d p v Hd Hr Hv Hle) as (Hd2 & _ & _).
      eapply (IH true _ _ (UPDATE_1_CHECK (bound_of d v) d')); [apply Hk'|intros q Hq; by apply HTq|done|..|exact Hrun].
      * rewrite <- Ebd. apply check_1_ok; [done|lia|done|]. rewrite Ebd. lia.
      * unfold agree. cbn. by rewrite Er, Ec.
      * cbn. auto.
      * done.
  - inversion Hs as [| |k1 k' Hk'|]; subst. cbn [run run_check] in *.
    destruct (normalize_check c c' lim Hc Hc' Hag Hlen) as [E1|(d & d' & E' & E1 & Ha1 & Hd & Hd' & Hr & Hp1 & Hp1' & Hb)];
      [by rewrite E1 in Hrun|]. rewrite E' in Hrun. rewrite E1. cbn [mbind option_bind] in *. destruct Ha1 as (Er & Ec & Eb).
    rewrite (proj1 (direct_facts np d Hd Hr)). rewrite (proj2 (direct_facts np d' Hd' ltac:(lia))) in Hrun.
    pose proof (proj1 (direct_spec_ok np d Hd Hr)) as Hd2. pose proof (proj1 (direct_spec_ok np d' Hd' ltac:(lia))) as Hd2'.
    assert ((direct_spec d').1 = (direct_spec d).1 /\ agree (direct_spec d).2 (direct_spec d').2) as [E2 E3].
    { unfold direct_spec, agree. cbn. by rewrite Er, Ec, Eb. }
    assert (probs (direct_spec d).2 = probs c /\ probs (direct_spec d').2 = probs c' /\ buf (direct_spec d).2 = buf d) as (E4 & E5 & E6).
    { by split_and!. }
    destruct (direct_spec d) as [x e], (direct_spec d') as [x' e']. cbn [fst snd] in *. subst x'.
    apply (IH x (k' x) e e'); [apply Hk'|intros q Hq; rewrite E4, E5; auto|done..| |done|done]. rewrite E6. auto.
  - inversion Hs as [| | |pos' k1 k' Hk']; subst. cbn [run run_check] in *.
    destruct (rd8 dic pos) as [x|] eqn:Ex; [|done]. cbn [mbind option_bind] in *.
    assert (byte_ok x) as Hx. { unfold rd8 in Ex. destruct (_ <? 0); [done|]. by apply (Forall_lookup_1 _ _ _ _ dic_bytes Ex). }
    by apply (IH x Hx (k' x) c c'); auto.
  - by apply (IH g' c c').
Qed.

(** What a program that ran ends with. *)
Lemma run_post {A} (P : A -> Prop) R b d (g : Prog A) c a c' :
  ok (Z.of_nat (length dic)) P R b d g -> run inp dic g c = Some (a, c') -> P a.
Proof.
  intros Hg. revert c. induction Hg as [R b d a0 Ha|R T b d p k Hp HT Hk IH|R b d k Hk IH|R b d pos k Hpos Hk IH|R b d g Hg IH]; intros c Hrun.
  - by injection Hrun as <- <-.
  - cbn [run] in Hrun. destruct (prob_at (probs c) p) as [v|]; [|done]. cbn [mbind option_bind] in Hrun.
    destruct (NORMALIZE inp c) as [c1|]; [|done]. cbn [mbind option_bind] in Hrun. destruct (_ <? _); eauto.
  - cbn [run] in Hrun. destruct (NORMALIZE inp c) as [c1|]; [|done]. cbn [mbind option_bind] in Hrun. destruct (direct c1). eauto.
  - cbn [run] in Hrun. destruct (rd8 dic pos) as [x|] eqn:Ex; [|done]. cbn [mbind option_bind] in Hrun. apply (IH x) with c; [|done].
    unfold rd8 in Ex. destruct (_ <? 0); [done|]. by apply (Forall_lookup_1 _ _ _ _ dic_bytes Ex).
  - eauto.
Qed.

(** What a look ahead may answer: a value, or the end of an input that is too short. *)
Definition answers {A} (P : A -> Prop) (lim : Z) (b d : nat) (c : Coder) (r : option (Checked (A * Coder))) : Prop :=
  (r = Some InputEnd /\ forall m, enough (range c) m b d -> ~ buf c + Z.of_nat m <= lim) \/
  exists a c', r = Some (Value (a, c')) /\ P a /\ coder_ok np c' /\
    forall m, enough (range c) m b d -> buf c + Z.of_nat m <= lim ->
      exists m', enough (range c') m' 0 0 /\ buf c' + Z.of_nat m' = buf c + Z.of_nat m.

(** The look ahead from a coder [d] that follows [c]. *)
Lemma answers_from {A} (P : A -> Prop) lim b d b' d' c e (r : option (Checked (A * Coder))) :
  (forall m, enough (range c) m b d -> buf c + Z.of_nat m <= lim ->
     exists m', enough (range e) m' b' d' /\ buf e + Z.of_nat m' = buf c + Z.of_nat m) ->
  answers P lim b' d' e r -> answers P lim b d c r.
Proof.
  intros Hce [[-> He]|(a & c' & -> & Ha & Hc' & He)].
  - left. split; [done|]. intros m Hm Hl. destruct (Hce m Hm Hl) as (m' & Hm' & E). apply (He m' Hm'). lia.
  - right. exists a, c'. split_and!; try done. intros m Hm Hl. destruct (Hce m Hm Hl) as (m' & Hm' & E).
    destruct (He m' Hm') as (n & Hn & En); [lia|]. exists n. split; [done|lia].
Qed.

Lemma normalize_answers c lim : coder_ok np c -> lim <= Z.of_nat (length inp) ->
  (NORMALIZE_CHECK inp lim c = Some InputEnd /\ forall m b d, enough (range c) m b d -> ~ buf c + Z.of_nat m <= lim) \/
  exists c1, NORMALIZE_CHECK inp lim c = Some (Value c1) /\ coder_ok np c1 /\ kTopValue <= range c1 /\ probs c1 = probs c /\
    forall m b d, enough (range c) m b d -> buf c + Z.of_nat m <= lim ->
      exists m', enough (range c1) m' b d /\ buf c1 + Z.of_nat m' = buf c + Z.of_nat m.
Proof.
  intros Hc Hlim. unfold NORMALIZE_CHECK. destruct (Z.ltb_spec (range c) kTopValue) as [Hr|Hr].
  - pose proof (range_low _ _ Hc). destruct (Z.leb_spec lim (buf c)) as [Hl|Hl].
    + left. split; [done|]. intros m b d He. destruct (enough_byte (range c) m b d) as (m' & -> & _); [lia|done|lia].
    + right. destruct (normalize_byte np inp c Hc inp_bytes Hr) as (x & Hx & Hxb & E); [lia|].
      unfold NORMALIZE in E. rewrite (proj2 (Z.ltb_lt _ _) Hr), Hx in E. rewrite Hx. cbn [mbind option_bind] in *.
      exists (shifted c x). split; [apply (f_equal (fun o => d ← o; Some (Value d))) in E; exact E|].
      split; [by apply shifted_ok|]. split; [cbn; change kTopValue with (2 ^ 16 * 256); lia|]. split; [done|].
      intros m b d He Hm. destruct (enough_byte (range c) m b d) as (m' & -> & He'); [lia|done|]. exists m'. split; [done|cbn; lia].
  - right. exists c. split_and!; try done. intros m b d He Hm. by exists m.
Qed.

Lemma check_ok {A} (P : A -> Prop) R b d (g : Prog A) c lim :
  ok (Z.of_nat (length dic)) P R b d g -> within np R -> coder_ok np c -> lim <= Z.of_nat (length inp) ->
  answers P lim b d c (run_check inp dic lim g c).
Proof.
  intros Hg HR. revert c HR. induction Hg as [R b d a Ha|R T b d p k Hp HT Hk IH|R b d k Hk IH|R b d pos k Hpos Hk IH|R b d g Hg IH]; intros c HR Hc Hlim.
  - right. exists a, c. split_and!; try done. intros m He Hm. exists m. split; [|done]. eapply enough_end; [|done].
    pose proof (range_low _ _ Hc). lia.
  - cbn [run_check]. destruct (prob_lookup np c p Hc (HR p Hp)) as (v & Ev & Hv). rewrite Ev. cbn [mbind option_bind].
    destruct (normalize_answers c lim Hc Hlim) as [[-> He]|(c1 & -> & Hc1 & Hr1 & _ & He)]; cbn [mbind option_bind];
      [left; split; [done|]; intros m Hm; by apply (He m (S b) d)|].
    destruct (bound_facts np c1 v Hc1 Hr1 Hv) as (_ & H0 & _ & H1 & _). destruct (Z.ltb_spec (code c1) (bound_of c1 v)) as [Hlt|Hle].
    + apply (answers_from P lim (S b) d b d c (UPDATE_0_CHECK (bound_of c1 v) c1)); [|by apply IH; [by eapply within_less|apply check_0_ok|]].
      intros m Hm Hl. destruct (He m _ _ Hm Hl) as (m' & Hm' & E). exists m'. split; [by eapply enough_bit|done].
    + apply (answers_from P lim (S b) d b d c (UPDATE_1_CHECK (bound_of c1 v) c1)); [|by apply IH; [by eapply within_less|apply check_1_ok|]].
      destruct (update_1_ok np c1 0 v Hc1 Hr1 Hv Hle) as (_ & E2 & _).
      intros m Hm Hl. destruct (He m _ _ Hm Hl) as (m' & Hm' & E). exists m'. split; [|done].
      change (range (UPDATE_1_CHECK _ _)) with (range (UPDATE_1 0 (bound_of c1 v) v c1)). rewrite E2. by eapply enough_bit.
  - cbn [run_check]. destruct (normalize_answers c lim Hc Hlim) as [[-> He]|(c1 & -> & Hc1 & Hr1 & _ & He)]; cbn [mbind option_bind];
      [left; split; [done|]; intros m Hm; by apply (He m b (S d))|].
    rewrite (proj2 (direct_facts np c1 Hc1 Hr1)). destruct (direct_spec_ok np c1 Hc1 Hr1) as [Hc2 H2].
    assert (buf (direct_spec c1).2 = buf c1) as Eb by done. destruct (direct_spec c1) as [x c2]. cbn [fst snd] in *.
    apply (answers_from P lim b (S d) b d c c2); [|by apply IH].
    intros m Hm Hl. destruct (He m _ _ Hm Hl) as (m' & Hm' & E). exists m'. split; [by eapply enough_direct|lia].
  - cbn [run_check]. destruct (rd8_in dic pos Hpos) as [x Ex]. rewrite Ex. cbn [mbind option_bind]. apply IH; try done.
    unfold rd8 in Ex. destruct (_ <? 0); [done|]. by apply (Forall_lookup_1 _ _ _ _ dic_bytes Ex).
  - apply (answers_from P lim b (7 + d) (S b) d c c); [|by apply IH]. intros m Hm Hl. exists m. split; [by apply enough_trade|done].
Qed.
End Ahead.
