(* ===== verification/LzmaDec.v ===== *)
(** * The LZMA decoder (thermal_daemon/src/LzmaDec.c)

    The decoder of compressed vaults over the bits of RangeCoder.v: the properties of a stream,
    one symbol, the main loop, the check of a short input ([LzmaDec_TryDummy]) and the three
    interfaces.  [None] is an access outside of an array or a loop that takes more turns than
    its fuel. *)

From Stdlib Require Import ZArith Lia.
From stdpp Require Import base list option.
From S2P Require Import Prelude Bytes RangeCoder.

#[local] Open Scope Z_scope.
#[local] Open Scope prog_scope.

(** ** The arrays of probabilities *)

Definition kNumPosBitsMax := 4.
Definition kNumPosStatesMax := Z.shiftl 1 kNumPosBitsMax.
Definition kLenNumLowBits := 3.
Definition kLenNumLowSymbols := Z.shiftl 1 kLenNumLowBits.
Definition kLenNumHighBits := 8.
Definition kLenNumHighSymbols := Z.shiftl 1 kLenNumHighBits.
Definition LenLow := 0.
Definition LenHigh := LenLow + 2 * Z.shiftl kNumPosStatesMax kLenNumLowBits.
Definition kNumLenProbs := LenHigh + kLenNumHighSymbols.
Definition LenChoice := LenLow.
Definition LenChoice2 := LenLow + Z.shiftl 1 kLenNumLowBits.
Definition kNumStates := 12.
Definition kNumStates2 := 16.
Definition kNumLitStates := 7.
Definition kStartPosModelIndex := 4.
Definition kEndPosModelIndex := 14.
Definition kNumFullDistances := Z.shiftl 1 (Z.shiftr kEndPosModelIndex 1).
Definition kNumPosSlotBits := 6.
Definition kNumLenToPosStates := 4.
Definition kNumAlignBits := 4.
Definition kAlignTableSize := Z.shiftl 1 kNumAlignBits.
Definition kMatchMinLen := 2.
Definition kMatchSpecLenStart := kMatchMinLen + kLenNumLowSymbols * 2 + kLenNumHighSymbols.
Definition SpecPos := - kStartOffset.
Definition IsRep0Long := SpecPos + kNumFullDistances.
Definition RepLenCoder := IsRep0Long + Z.shiftl kNumStates2 kNumPosBitsMax.
Definition LenCoder := RepLenCoder + kNumLenProbs.
Definition IsMatch := LenCoder + kNumLenProbs.
Definition Align := IsMatch + Z.shiftl kNumStates2 kNumPosBitsMax.
Definition IsRep := Align + kAlignTableSize.
Definition IsRepG0 := IsRep + kNumStates.
Definition IsRepG1 := IsRepG0 + kNumStates.
Definition IsRepG2 := IsRepG1 + kNumStates.
Definition PosSlot := IsRepG2 + kNumStates.
Definition Literal := PosSlot + Z.shiftl kNumLenToPosStates kNumPosSlotBits.
Definition NUM_BASE_PROBS := Literal + kStartOffset.
Definition LZMA_LIT_SIZE := 0x300.
Definition RC_INIT_SIZE := 5.
Definition LZMA_REQUIRED_INPUT_MAX := 20.
Definition LZMA_DIC_MIN := Z.shiftl 1 12.
Definition LZMA_PROPS_SIZE := 5.

(** The two checks of the preprocessor. *)
Example layout : Align = 0 /\ NUM_BASE_PROBS = 1984.
Proof. done. Qed.

Definition CALC_POS_STATE (processedPos pbMask : Z) : Z := Z.shiftl (Z.land processedPos pbMask) 4.

(** ** Properties *)

Inductive SRes := SZ_OK | SZ_ERROR_DATA | SZ_ERROR_MEM | SZ_ERROR_UNSUPPORTED | SZ_ERROR_INPUT_EOF | SZ_ERROR_FAIL.
#[export] Instance SRes_eq_dec : EqDecision SRes.
Proof. solve_decision. Defined.

Record CLzmaProps := mkProps { lc : Z; lp : Z; pb : Z; dicSize : Z }.

Definition LzmaProps_GetNumProbs (p : CLzmaProps) : Z := NUM_BASE_PROBS + Z.shiftl LZMA_LIT_SIZE (lc p + lp p).

(** [LzmaProps_Decode] of [size] bytes of data; [inr]: the error returned. *)
Definition LzmaProps_Decode (data : list Z) (size : Z) : option (CLzmaProps + SRes) :=
  if size <? LZMA_PROPS_SIZE then Some (inr SZ_ERROR_UNSUPPORTED)
  else
    d ← rd8 data 0; dicSize ← rd32 data 1;
    let dicSize := if dicSize <? LZMA_DIC_MIN then LZMA_DIC_MIN else dicSize in
    if 9 * 5 * 5 <=? d then Some (inr SZ_ERROR_UNSUPPORTED)
    else
      let lc := d mod 9 in
      let d := d / 9 in
      Some (inl (mkProps lc (d mod 5) (d / 5) dicSize)).

(** ** One symbol *)

(** The variables of [LzmaDec_DecodeReal_3] that a symbol changes. *)
Record Vars := mkVars { state : Z; rep0 : Z; rep1 : Z; rep2 : Z; rep3 : Z; processedPos : Z; len : Z }.
Definition Vars_again (v : Vars) : Vars := mkVars (state v) (rep0 v) (rep1 v) (rep2 v) (rep3 v) (processedPos v) (len v).
#[export] Instance put_state : Field state := ltac:(field_of Vars_again state).
#[export] Instance put_rep0 : Field rep0 := ltac:(field_of Vars_again rep0).
#[export] Instance put_rep1 : Field rep1 := ltac:(field_of Vars_again rep1).
#[export] Instance put_rep2 : Field rep2 := ltac:(field_of Vars_again rep2).
#[export] Instance put_rep3 : Field rep3 := ltac:(field_of Vars_again rep3).
#[export] Instance put_processedPos : Field processedPos := ltac:(field_of Vars_again processedPos).
#[export] Instance put_len : Field len := ltac:(field_of Vars_again len).

(** How the bits of a symbol end: with a byte for the dictionary, with the byte [rep0] before the
    position, with a match to be copied ([len] without [kMatchMinLen]), with the mark of the
    end, or with a distance too large. *)
Inductive Step := Put (byte : Z) (v : Vars) | Short (v : Vars) | Copy (v : Vars) | Marker (v : Vars) | Damaged.

Section Symbol.
Context (prop : CLzmaProps) (dicBufSize checkDicSize : Z).

Definition pbMask : Z := Z.shiftl 1 (pb prop) - 1.
Definition lpMask : Z := Z.shiftl 0x100 (lp prop) - Z.shiftr 0x100 (lc prop).
Definition posState_of (v : Vars) : Z := CALC_POS_STATE (processedPos v) pbMask.

(** The byte [rep0] before the position. *)
Definition rep0_pos (dicPos rep0 : Z) : Z := dicPos - rep0 + (if dicPos <? rep0 then dicBufSize else 0).
Definition prev_pos (dicPos : Z) : Z := (if dicPos =? 0 then dicBufSize else dicPos) - 1.

Definition literal_step (dicPos : Z) (v : Vars) : Prog Step :=
  prob ← (if negb (processedPos v =? 0) || negb (checkDicSize =? 0) then
            b ← read_dic (prev_pos dicPos);
            Return (Literal + wrap 32 (3 * Z.shiftl (Z.land (wrap 32 (wrap 32 (Z.shiftl (processedPos v) 8) + b)) lpMask) (lc prop)))
          else Return Literal);
  let v := v <| processedPos := wrap 32 (processedPos v + 1) |> in
  if state v <? kNumLitStates then
    let v := v <| state := state v - (if state v <? 4 then state v else 3) |> in
    symbol ← tree_bits 8 prob 1;
    Return (Put symbol v)
  else
    matchByte ← read_dic (rep0_pos dicPos (rep0 v));
    let v := v <| state := state v - (if state v <? 10 then 3 else 6) |> in
    symbol ← matched_bits 8 prob matchByte 0x100 1;
    Return (Put symbol v).

(** The length with the coder of lengths at [prob]. *)
Definition length_bits (prob posState : Z) : Prog Z :=
  b ← if_bit (prob + LenChoice);
  if negb b then TREE_DECODE 3 (prob + LenLow + posState)
  else
    b ← if_bit (prob + LenChoice2);
    if negb b then
      i ← tree_bits 3 (prob + LenLow + posState + Z.shiftl 1 kLenNumLowBits) 1; Return i
    else
      len ← TREE_DECODE 8 (prob + LenHigh); Return (len + kLenNumLowSymbols * 2).

(** [numDirectBits] bits with even chances. *)
Fixpoint direct_bits (n : nat) (distance : Z) : Prog Z :=
  match n with
  | O => Return distance
  | S n => b ← direct_bit; direct_bits n (wrap 32 (wrap 32 (Z.shiftl distance 1) + bit_of b))
  end.
(** The four bits of the alignment. *)
Definition align_bits : Prog Z :=
  i ← REV_BIT_CONST Align 1 1; i ← REV_BIT_CONST Align i 2; i ← REV_BIT_CONST Align i 4; REV_BIT_LAST Align i 8.

(** The distance of a match, [None] for the mark of the end. *)
Definition distance_bits (len : Z) : Prog (option Z) :=
  distance ← TREE_DECODE 6 (PosSlot + Z.shiftl (if len <? kNumLenToPosStates then len else kNumLenToPosStates - 1) kNumPosSlotBits);
  if kStartPosModelIndex <=? distance then
    let posSlot := distance in
    let numDirectBits := Z.shiftr distance 1 - 1 in
    let distance := Z.lor 2 (Z.land distance 1) in
    if posSlot <? kEndPosModelIndex then
      '(distance, m) ← rev_bits (Z.to_nat numDirectBits) SpecPos (Z.shiftl distance numDirectBits + 1) 1;
      Return (Some (distance - m))
    else
      distance ← direct_bits (Z.to_nat (numDirectBits - kNumAlignBits)) distance;
      i ← align_bits;
      let distance := Z.lor (wrap 32 (Z.shiftl distance kNumAlignBits)) i in
      Return (if distance =? 0xFFFFFFFF then None else Some distance)
  else Return (Some distance).

(** A match that is not repeated; [state] is that of before with [kNumStates] added. *)
Definition match_step (posState : Z) (v : Vars) : Prog Step :=
  l ← length_bits LenCoder posState;
  d ← distance_bits l;
  match d with
  | None => Return (Marker (v <| len := kMatchSpecLenStart |> <| state := state v - kNumStates |>))
  | Some distance =>
      let v := v <| len := l |> <| rep3 := rep2 v |> <| rep2 := rep1 v |> <| rep1 := rep0 v |>
                 <| rep0 := wrap 32 (distance + 1) |>
                 <| state := if state v <? kNumStates + kNumLitStates then kNumLitStates else kNumLitStates + 3 |> in
      Return (if (if checkDicSize =? 0 then processedPos v else checkDicSize) <=? distance then Damaged else Copy v)
  end.

(** A distance used before moves to the front; [None]: one byte of the last distance. *)
Definition rep_bits (posState : Z) (v : Vars) : Prog (option Vars) :=
  b ← if_bit (IsRepG0 + state v);
  if negb b then
    b ← if_bit (IsRep0Long + (posState + state v));
    Return (if negb b then None else Some v)
  else
    b ← if_bit (IsRepG1 + state v);
    if negb b then Return (Some (v <| rep1 := rep0 v |> <| rep0 := rep1 v |>))
    else
      b ← if_bit (IsRepG2 + state v);
      Return (Some (
        if negb b then v <| rep2 := rep1 v |> <| rep1 := rep0 v |> <| rep0 := rep2 v |>
        else v <| rep3 := rep2 v |> <| rep2 := rep1 v |> <| rep1 := rep0 v |> <| rep0 := rep3 v |>)).

Definition rep_step (posState : Z) (v : Vars) : Prog Step :=
  r ← rep_bits posState v;
  match r with
  | None =>
      Return (Short (v <| processedPos := wrap 32 (processedPos v + 1) |> <| state := if state v <? kNumLitStates then 9 else 11 |>))
  | Some v =>
      let v := v <| state := if state v <? kNumLitStates then 8 else 11 |> in
      l ← length_bits RepLenCoder posState;
      Return (Copy (v <| len := l |>))
  end.

(** One turn of the main loop, up to what it does to the dictionary. *)
Definition symbol_step (dicPos : Z) (v : Vars) : Prog Step :=
  let posState := posState_of v in
  b ← if_bit (IsMatch + (posState + state v));
  if negb b then literal_step dicPos v
  else
    b ← if_bit (IsRep + state v);
    if negb b then match_step posState (v <| state := state v + kNumStates |>)
    else rep_step posState v.

(** ** The same without the dictionary and without moving the probabilities *)

Inductive ELzmaDummy := DUMMY_LIT | DUMMY_MATCH | DUMMY_REP.

(** The index of a literal as [LzmaDec_TryDummy] computes it. *)
Definition dummy_literal (b : Z) (processedPos : Z) : Z :=
  wrap 32 (LZMA_LIT_SIZE * wrap 32 (Z.shiftl (Z.land processedPos (Z.shiftl 1 (lp prop) - 1)) (lc prop) + Z.shiftr b (8 - lc prop))).

Definition dummy_literal_bits (dicPos : Z) (v : Vars) : Prog ELzmaDummy :=
  prob ← (if negb (checkDicSize =? 0) || negb (processedPos v =? 0) then
            b ← read_dic (prev_pos dicPos); Return (Literal + dummy_literal b (processedPos v))
          else Return Literal);
  if state v <? kNumLitStates then tree_bits 8 prob 1 ≫= (fun _ => Return DUMMY_LIT)
  else
    matchByte ← read_dic (rep0_pos dicPos (rep0 v));
    matched_bits 8 prob matchByte 0x100 1 ≫= (fun _ => Return DUMMY_LIT).

(** [limit] and [offset], then one tree. *)
Definition dummy_length (prob posState : Z) : Prog Z :=
  b ← if_bit (prob + LenChoice);
  '(probLen, offset, bits) ←
    (if negb b then Return (prob + LenLow + posState, 0, 3%nat)
     else
       b ← if_bit (prob + LenChoice2);
       Return (if negb b then (prob + LenLow + posState + Z.shiftl 1 kLenNumLowBits, kLenNumLowSymbols, 3%nat)
               else (prob + LenHigh, kLenNumLowSymbols * 2, 8%nat)));
  len ← TREE_DECODE bits probLen;
  Return (len + offset).

Fixpoint dummy_direct (n : nat) : Prog unit :=
  match n with O => Return tt | S n => direct_bit ≫= (fun _ => dummy_direct n) end.

Definition dummy_distance (len : Z) : Prog unit :=
  posSlot ← TREE_DECODE 6 (PosSlot + Z.shiftl (if len <? kNumLenToPosStates - 1 then len else kNumLenToPosStates - 1) kNumPosSlotBits);
  if kStartPosModelIndex <=? posSlot then
    let numDirectBits := Z.shiftr posSlot 1 - 1 in
    '(prob, numDirectBits) ←
      (if posSlot <? kEndPosModelIndex then
         Return (SpecPos + Z.shiftl (Z.lor 2 (Z.land posSlot 1)) numDirectBits, numDirectBits)
       else dummy_direct (Z.to_nat (numDirectBits - kNumAlignBits)) ≫= (fun _ => Return (Align, kNumAlignBits)));
    rev_bits (Z.to_nat numDirectBits) prob 1 1 ≫= (fun _ => Return tt)
  else Return tt.

Definition dummy_rep (posState : Z) (v : Vars) : Prog bool :=
  b ← if_bit (IsRepG0 + state v);
  if negb b then if_bit (IsRep0Long + (posState + state v))
  else
    b ← if_bit (IsRepG1 + state v);
    if negb b then Return true else if_bit (IsRepG2 + state v) ≫= (fun _ => Return true).

(** The bits of [LzmaDec_TryDummy]. *)
Definition dummy_step (dicPos : Z) (v : Vars) : Prog ELzmaDummy :=
  let posState := posState_of v in
  b ← if_bit (IsMatch + (posState + state v));
  if negb b then dummy_literal_bits dicPos v
  else
    b ← if_bit (IsRep + state v);
    if negb b then
      len ← dummy_length LenCoder posState;
      dummy_distance len ≫= (fun _ => Return DUMMY_MATCH)
    else
      long ← dummy_rep posState v;
      if negb long then Return DUMMY_REP
      else dummy_length RepLenCoder posState ≫= (fun _ => Return DUMMY_REP).
End Symbol.

(** ** The decoder *)

(** [CLzmaDec]: the variables of a symbol are [state], [reps] and [processedPos] together with
    [remainLen] in their field [len], the coder [range], [code] and the probabilities; [buf] is
    counted from the start of the input at hand. *)
Record CLzmaDec := mkDec {
  prop : CLzmaProps; dic : list Z; dicBufSize : Z; dicPos : Z; coder : Coder; checkDicSize : Z; vars : Vars;
  tempBuf : list Z
}.
Definition CLzmaDec_again (p : CLzmaDec) : CLzmaDec :=
  mkDec (prop p) (dic p) (dicBufSize p) (dicPos p) (coder p) (checkDicSize p) (vars p) (tempBuf p).
#[export] Instance put_prop : Field prop := ltac:(field_of CLzmaDec_again prop).
#[export] Instance put_dic : Field dic := ltac:(field_of CLzmaDec_again dic).
#[export] Instance put_dicBufSize : Field dicBufSize := ltac:(field_of CLzmaDec_again dicBufSize).
#[export] Instance put_dicPos : Field dicPos := ltac:(field_of CLzmaDec_again dicPos).
#[export] Instance put_coder : Field coder := ltac:(field_of CLzmaDec_again coder).
#[export] Instance put_checkDicSize : Field checkDicSize := ltac:(field_of CLzmaDec_again checkDicSize).
#[export] Instance put_vars : Field vars := ltac:(field_of CLzmaDec_again vars).
#[export] Instance put_tempBuf : Field tempBuf := ltac:(field_of CLzmaDec_again tempBuf).
Definition remainLen (p : CLzmaDec) : Z := len (vars p).
Definition set_remainLen (n : Z) (p : CLzmaDec) : CLzmaDec := p <| vars := vars p <| len := n |> |>.

(** ** Copying a match *)

(** The loop of a match that does not reach the end of the buffer, and the one that goes round it. *)
Fixpoint copy_forward (n : nat) (dic : list Z) (dest src : Z) : option (list Z) :=
  match n with
  | O => Some dic
  | S n => b ← rd8 dic src; dic ← wr8 dic dest b; copy_forward n dic (dest + 1) (src + 1)
  end.
Fixpoint copy_round (n : nat) (dicBufSize : Z) (dic : list Z) (dest pos : Z) : option (list Z) :=
  match n with
  | O => Some dic
  | S n =>
      b ← rd8 dic pos; dic ← wr8 dic dest b;
      copy_round n dicBufSize dic (dest + 1) (if pos + 1 =? dicBufSize then 0 else pos + 1)
  end.

(** What follows the length and the distance of a match: [None] on the inside when there is no
    room at all.  A match that starts before the buffer's first byte is copied from there. *)
Definition copy_match (limit dicBufSize : Z) (dic : list Z) (dicPos : Z) (v : Vars) : option (option (list Z * Z * Vars)) :=
  let len1 := len v + kMatchMinLen in
  let rem := limit - dicPos in
  if rem =? 0 then Some None
  else
    let curLen := if rem <? len1 then rem else len1 in
    let pos := if rep0 v <=? dicPos then rep0_pos dicBufSize dicPos (rep0 v) else 0 in
    let v := v <| processedPos := wrap 32 (processedPos v + curLen) |> <| len := len1 - curLen |> in
    dic ← (if curLen <=? dicBufSize - pos then copy_forward (Z.to_nat curLen) dic dicPos pos
           else copy_round (Z.to_nat curLen) dicBufSize dic dicPos pos);
    Some (Some (dic, dicPos + curLen, v)).

(** ** The main loop *)

(** How the loop ends: at a limit or a mark, or with [SZ_ERROR_DATA]. *)
Inductive Loop := Ended (dic : list Z) (dicPos : Z) (v : Vars) (c : Coder) | Corrupt (dic : list Z) (dicPos : Z) (c : Coder).

Section Decode.
Context (inp : list Z).

(** One turn per unit of fuel; every turn but the last writes a byte. *)
Fixpoint decode_loop (fuel : nat) (prop : CLzmaProps) (dicBufSize checkDicSize limit bufLimit : Z)
    (dic : list Z) (dicPos : Z) (v : Vars) (c : Coder) : option Loop :=
  match fuel with
  | O => None
  | S fuel =>
      let again dic dicPos v c :=
        if (dicPos <? limit) && (buf c <? bufLimit) then
          decode_loop fuel prop dicBufSize checkDicSize limit bufLimit dic dicPos v c
        else Some (Ended dic dicPos v c) in
      '(step, c) ← run inp dic (symbol_step prop dicBufSize checkDicSize dicPos v) c;
      match step with
      | Put b v => dic ← wr8 dic dicPos b; again dic (dicPos + 1) v c
      | Short v => b ← rd8 dic (rep0_pos dicBufSize dicPos (rep0 v)); dic ← wr8 dic dicPos b; again dic (dicPos + 1) v c
      | Copy v =>
          r ← copy_match limit dicBufSize dic dicPos v;
          match r with
          | None => Some (Corrupt dic dicPos c)
          | Some (dic, dicPos, v) => again dic dicPos v c
          end
      | Marker v => Some (Ended dic dicPos v c)
      | Damaged => Some (Corrupt dic dicPos c)
      end
  end.

(** The coder of a failed call: [range], [code] and [buf] are not stored. *)
Definition keep_probs (c c' : Coder) : Coder := mkCoder (range c) (code c) (buf c) (probs c').

Definition LzmaDec_DecodeReal_3 (p : CLzmaDec) (limit bufLimit : Z) : option (SRes * CLzmaDec) :=
  r ← decode_loop (S (Z.to_nat (limit - dicPos p))) (prop p) (dicBufSize p) (checkDicSize p) limit bufLimit
        (dic p) (dicPos p) (vars p <| len := 0 |>) (coder p);
  match r with
  | Ended d pos v c =>
      c ← NORMALIZE inp c;
      Some (SZ_OK, p <| dic := d |> <| dicPos := pos |> <| vars := v |> <| coder := c |>)
  | Corrupt d pos c => Some (SZ_ERROR_DATA, p <| dic := d |> <| dicPos := pos |> <| coder := keep_probs (coder p) c |>)
  end.
End Decode.

(** The rest of a match that did not fit before. *)
Fixpoint copy_rem (n : nat) (dicBufSize rep0 : Z) (dic : list Z) (dicPos : Z) : option (list Z) :=
  match n with
  | O => Some dic
  | S n => b ← rd8 dic (rep0_pos dicBufSize dicPos rep0); dic ← wr8 dic dicPos b; copy_rem n dicBufSize rep0 dic (dicPos + 1)
  end.
Definition LzmaDec_WriteRem (p : CLzmaDec) (limit : Z) : option CLzmaDec :=
  if negb (remainLen p =? 0) && (remainLen p <? kMatchSpecLenStart) then
    let rem := limit - dicPos p in
    let n := if rem <? remainLen p then rem else remainLen p in
    let v := vars p in
    let check := if (checkDicSize p =? 0) && (wrap 32 (dicSize (prop p) - processedPos v) <=? n) then dicSize (prop p) else checkDicSize p in
    d ← copy_rem (Z.to_nat n) (dicBufSize p) (rep0 v) (dic p) (dicPos p);
    Some (p <| checkDicSize := check |> <| dic := d |> <| dicPos := dicPos p + n |>
            <| vars := v <| processedPos := wrap 32 (processedPos v + n) |> <| len := remainLen p - n |> |>)
  else Some p.

Definition kRange0 := 0xFFFFFFFF.
Definition kBound0 := Z.shiftl (Z.shiftr kRange0 kNumBitModelTotalBits) (kNumBitModelTotalBits - 1).
Definition kBadRepCode := kBound0 + Z.shiftl (Z.shiftr (kRange0 - kBound0) kNumBitModelTotalBits) (kNumBitModelTotalBits - 1).
Example bad_rep_code : kBadRepCode = 0xC0000000 - 0x400.
Proof. done. Qed.

Section Real2.
Context (inp : list Z).

(** One turn: up to where the dictionary was full for the first time, if that is near. *)
Definition real2_turn (p : CLzmaDec) (limit bufLimit : Z) : option (SRes * CLzmaDec) :=
  let rem := wrap 32 (dicSize (prop p) - processedPos (vars p)) in
  let limit2 := if (checkDicSize p =? 0) && (rem <? limit - dicPos p) then dicPos p + rem else limit in
  if (checkDicSize p =? 0) && (processedPos (vars p) =? 0) && (kBadRepCode <=? code (coder p)) then Some (SZ_ERROR_DATA, p)
  else
    '(r, p) ← LzmaDec_DecodeReal_3 inp p limit2 bufLimit;
    if decide (r = SZ_OK) then
      let p := if (checkDicSize p =? 0) && (dicSize (prop p) <=? processedPos (vars p)) then p <| checkDicSize := dicSize (prop p) |> else p in
      p ← LzmaDec_WriteRem p limit; Some (SZ_OK, p)
    else Some (r, p).
Fixpoint real2_loop (fuel : nat) (p : CLzmaDec) (limit bufLimit : Z) : option (SRes * CLzmaDec) :=
  match fuel with
  | O => None
  | S fuel =>
      '(r, p) ← real2_turn p limit bufLimit;
      if decide (r = SZ_OK) then
        if (dicPos p <? limit) && (buf (coder p) <? bufLimit) && (remainLen p <? kMatchSpecLenStart) then real2_loop fuel p limit bufLimit
        else Some (SZ_OK, p)
      else Some (r, p)
  end.
Definition LzmaDec_DecodeReal2 (p : CLzmaDec) (limit bufLimit : Z) : option (SRes * CLzmaDec) :=
  real2_loop (S (Z.to_nat (limit - dicPos p))) p limit bufLimit.

(** [LzmaDec_TryDummy] on the first [inSize] bytes of the input; [InputEnd]: [DUMMY_ERROR]. *)
Definition LzmaDec_TryDummy (p : CLzmaDec) (inSize : Z) : option (Checked ELzmaDummy) :=
  let c := coder p in
  r ← run_check inp (dic p) inSize (dummy_step (prop p) (dicBufSize p) (checkDicSize p) (dicPos p) (vars p))
        (mkCoder (range c) (code c) 0 (probs c));
  match r with
  | InputEnd => Some InputEnd
  | Value (res, c) =>
      n ← NORMALIZE_CHECK inp inSize c;
      Some (match n with InputEnd => InputEnd | Value _ => Value res end)
  end.
End Real2.

(** ** The dictionary interface *)

Inductive ELzmaFinishMode := LZMA_FINISH_ANY | LZMA_FINISH_END.
Inductive ELzmaStatus :=
  LZMA_STATUS_NOT_SPECIFIED | LZMA_STATUS_FINISHED_WITH_MARK | LZMA_STATUS_NOT_FINISHED | LZMA_STATUS_NEEDS_MORE_INPUT
| LZMA_STATUS_MAYBE_FINISHED_WITHOUT_MARK.
#[export] Instance ELzmaFinishMode_eq_dec : EqDecision ELzmaFinishMode.
Proof. solve_decision. Defined.
#[export] Instance ELzmaStatus_eq_dec : EqDecision ELzmaStatus.
Proof. solve_decision. Defined.

Definition LzmaDec_InitDicAndState (p : CLzmaDec) (initDic initState : bool) : CLzmaDec :=
  let p := set_remainLen (kMatchSpecLenStart + 1) p <| tempBuf := [] |> in
  let p := if initDic then
             set_remainLen (kMatchSpecLenStart + 2)
               (p <| vars := vars p <| processedPos := 0 |> |> <| checkDicSize := 0 |>)
           else p in
  if initState then set_remainLen (kMatchSpecLenStart + 2) p else p.
Definition LzmaDec_Init (p : CLzmaDec) : CLzmaDec := LzmaDec_InitDicAndState (p <| dicPos := 0 |>) true true.

(** What a call returns: the result, the status and the bytes it took. *)
Abbreviation Answer := (SRes * ELzmaStatus * Z * CLzmaDec)%type.

(** The start of a stream: [inl]: the call returns. *)
Definition init_coder (p : CLzmaDec) (src : list Z) : option (Answer + CLzmaDec * list Z) :=
  if kMatchSpecLenStart <? remainLen p then
    let n := (Z.to_nat RC_INIT_SIZE - length (tempBuf p))%nat in
    let p := p <| tempBuf := tempBuf p ++ take n src |> in
    let taken := Z.of_nat (length (take n src)) in
    match tempBuf p with
    | b0 :: _ =>
        if negb (b0 =? 0) then Some (inl (SZ_ERROR_DATA, LZMA_STATUS_NOT_SPECIFIED, taken, p))
        else
          match tempBuf p with
          | [_; b1; b2; b3; b4] =>
              let code := Z.lor (Z.lor (Z.lor (Z.shiftl b1 24) (Z.shiftl b2 16)) (Z.shiftl b3 8)) b4 in
              let numProbs := LzmaProps_GetNumProbs (prop p) in
              let old := probs (coder p) in
              if (kMatchSpecLenStart + 1 <? remainLen p) && (Z.of_nat (length old) <? numProbs) then None
              else
                let p :=
                  if kMatchSpecLenStart + 1 <? remainLen p then
                    p <| coder := mkCoder 0xFFFFFFFF code 0
                           (repeat (Z.shiftr kBitModelTotal 1) (Z.to_nat numProbs) ++ drop (Z.to_nat numProbs) old) |>
                      <| vars := mkVars 0 1 1 1 1 (processedPos (vars p)) (remainLen p) |>
                  else p <| coder := mkCoder 0xFFFFFFFF code 0 old |> in
                Some (inr (set_remainLen 0 (p <| tempBuf := [] |>), drop n src))
          | _ => Some (inl (SZ_OK, LZMA_STATUS_NEEDS_MORE_INPUT, taken, p))
          end
    | [] => Some (inl (SZ_OK, LZMA_STATUS_NEEDS_MORE_INPUT, taken, p))
    end
  else Some (inr (p, src)).

(** Where the output is full: [inl]: the call returns; otherwise whether only the mark of the
    end may follow. *)
Definition output_full (p : CLzmaDec) (dicLimit : Z) (finishMode : ELzmaFinishMode) : SRes * ELzmaStatus + bool :=
  if dicLimit <=? dicPos p then
    if (remainLen p =? 0) && (code (coder p) =? 0) then inl (SZ_OK, LZMA_STATUS_MAYBE_FINISHED_WITHOUT_MARK)
    else if decide (finishMode = LZMA_FINISH_ANY) then inl (SZ_OK, LZMA_STATUS_NOT_FINISHED)
    else if negb (remainLen p =? 0) then inl (SZ_ERROR_DATA, LZMA_STATUS_NOT_FINISHED)
    else inr true
  else inr false.

(** Symbols from the source itself. *)
Definition decode_src (p : CLzmaDec) (dicLimit : Z) (checkEndMarkNow : bool) (src : list Z) (srcLen : Z) :
    option (Answer + CLzmaDec * list Z * Z) :=
  let inSize := Z.of_nat (length src) in
  let real bufLimit :=
    '(r, p) ← LzmaDec_DecodeReal2 src (p <| coder := mkCoder (range (coder p)) (code (coder p)) 0 (probs (coder p)) |>) dicLimit bufLimit;
    if decide (r = SZ_OK) then
      let processed := buf (coder p) in Some (inr (p, drop (Z.to_nat processed) src, srcLen + processed))
    else Some (inl (SZ_ERROR_DATA, LZMA_STATUS_NOT_SPECIFIED, srcLen, p)) in
  if (inSize <? LZMA_REQUIRED_INPUT_MAX) || checkEndMarkNow then
    dummyRes ← LzmaDec_TryDummy src p inSize;
    match dummyRes with
    | InputEnd =>
        if LZMA_REQUIRED_INPUT_MAX <? inSize then None
        else Some (inl (SZ_OK, LZMA_STATUS_NEEDS_MORE_INPUT, srcLen + inSize, p <| tempBuf := src |>))
    | Value DUMMY_MATCH => real 0
    | Value _ =>
        if checkEndMarkNow then Some (inl (SZ_ERROR_DATA, LZMA_STATUS_NOT_FINISHED, srcLen, p)) else real 0
    end
  else real (inSize - LZMA_REQUIRED_INPUT_MAX).

(** One symbol from the bytes kept before and as many of the source as it can need. *)
Definition decode_temp (p : CLzmaDec) (dicLimit : Z) (checkEndMarkNow : bool) (src : list Z) (srcLen : Z) :
    option (Answer + CLzmaDec * list Z * Z) :=
  let n := (Z.to_nat LZMA_REQUIRED_INPUT_MAX - length (tempBuf p))%nat in
  let lookAhead := Z.of_nat (length (take n src)) in
  let p := p <| tempBuf := tempBuf p ++ take n src |> in
  let inp := tempBuf p in
  let rem := Z.of_nat (length inp) in
  let real :=
    '(r, p) ← LzmaDec_DecodeReal2 inp (p <| coder := mkCoder (range (coder p)) (code (coder p)) 0 (probs (coder p)) |>) dicLimit 0;
    if decide (r = SZ_OK) then
      let kkk := buf (coder p) in
      if (rem <? kkk) || (lookAhead <? rem - kkk) then Some (inl (SZ_ERROR_FAIL, LZMA_STATUS_NOT_SPECIFIED, srcLen, p))
      else
        let lookAhead := lookAhead - (rem - kkk) in
        Some (inr (p <| tempBuf := [] |>, drop (Z.to_nat lookAhead) src, srcLen + lookAhead))
    else Some (inl (SZ_ERROR_DATA, LZMA_STATUS_NOT_SPECIFIED, srcLen, p)) in
  if (rem <? LZMA_REQUIRED_INPUT_MAX) || checkEndMarkNow then
    dummyRes ← LzmaDec_TryDummy inp p rem;
    match dummyRes with
    | InputEnd => Some (inl (SZ_OK, LZMA_STATUS_NEEDS_MORE_INPUT, srcLen + lookAhead, p))
    | Value DUMMY_MATCH => real
    | Value _ =>
        if checkEndMarkNow then Some (inl (SZ_ERROR_DATA, LZMA_STATUS_NOT_FINISHED, srcLen, p)) else real
    end
  else real.

Fixpoint dic_loop (fuel : nat) (p : CLzmaDec) (dicLimit : Z) (src : list Z) (srcLen : Z) (finishMode : ELzmaFinishMode) : option Answer :=
  if remainLen p =? kMatchSpecLenStart then
    Some (if negb (code (coder p) =? 0) then (SZ_ERROR_DATA, LZMA_STATUS_NOT_SPECIFIED, srcLen, p)
          else (SZ_OK, LZMA_STATUS_FINISHED_WITH_MARK, srcLen, p))
  else
    match fuel with
    | O => None
    | S fuel =>
        match output_full p dicLimit finishMode with
        | inl (r, status) => Some (r, status, srcLen, p)
        | inr checkEndMarkNow =>
            r ← (if decide (tempBuf p = []) then decode_src p dicLimit checkEndMarkNow src srcLen
                 else decode_temp p dicLimit checkEndMarkNow src srcLen);
            match r with
            | inl answer => Some answer
            | inr (p, src, srcLen) => dic_loop fuel p dicLimit src srcLen finishMode
            end
        end
    end.

Definition LzmaDec_DecodeToDic (p : CLzmaDec) (dicLimit : Z) (src : list Z) (finishMode : ELzmaFinishMode) : option Answer :=
  r ← init_coder p src;
  match r with
  | inl answer => Some answer
  | inr (p, rest) =>
      p ← LzmaDec_WriteRem p dicLimit;
      dic_loop (S (S (Z.to_nat (dicLimit - dicPos p)))) p dicLimit rest (Z.of_nat (length src - length rest)) finishMode
  end.

(** ** The buffer interface *)

(** The result with the bytes written to the destination.  Every turn but the last writes some. *)
Fixpoint buf_loop (fuel : nat) (p : CLzmaDec) (outSize : Z) (dest : list Z) (src : list Z) (srcLen : Z)
    (finishMode : ELzmaFinishMode) : option (Answer * list Z) :=
  match fuel with
  | O => None
  | S fuel =>
      let p := if dicPos p =? dicBufSize p then p <| dicPos := 0 |> else p in
      let pos := dicPos p in
      let (outSizeCur, curFinishMode) :=
        if dicBufSize p - pos <? outSize then (dicBufSize p, LZMA_FINISH_ANY) else (pos + outSize, finishMode) in
      '(r, status, inSizeCur, p) ← LzmaDec_DecodeToDic p outSizeCur src curFinishMode;
      let outSizeCur := dicPos p - pos in
      let dest := dest ++ take (Z.to_nat outSizeCur) (drop (Z.to_nat pos) (dic p)) in
      let outSize := outSize - outSizeCur in
      let answer := (r, status, srcLen + inSizeCur, p) in
      if negb (bool_decide (r = SZ_OK)) || (outSizeCur =? 0) || (outSize =? 0) then Some (answer, dest)
      else buf_loop fuel p outSize dest (drop (Z.to_nat inSizeCur) src) (srcLen + inSizeCur) finishMode
  end.
Definition LzmaDec_DecodeToBuf (p : CLzmaDec) (outSize : Z) (src : list Z) (finishMode : ELzmaFinishMode) : option (Answer * list Z) :=
  buf_loop (S (Z.to_nat outSize)) p outSize [] src 0 finishMode.

(** ** Memory *)

(** The allocator: whether so many bytes are to be had, and what they hold at first. *)
Class Alloc := { can_alloc : Z -> bool; uninit : Z -> list Z }.
Class AllocLaws `{Alloc} := {
  uninit_length : forall n, 0 <= n -> Z.of_nat (length (uninit n)) = n;
  uninit_bytes : forall n, Forall byte_ok (uninit n)
}.
(** Bytes as an array of 16-bit cells. *)
Fixpoint cells16 (l : list Z) : list Z := match l with a :: b :: l => (a + 256 * b) :: cells16 l | _ => [] end.

Section Memory.
Context `{Alloc}.

(** An empty list: a null pointer; the length of the probabilities is [numProbs]. *)
Definition LzmaDec_FreeProbs (p : CLzmaDec) : CLzmaDec :=
  p <| coder := mkCoder (range (coder p)) (code (coder p)) (buf (coder p)) [] |>.
Definition LzmaDec_FreeDict (p : CLzmaDec) : CLzmaDec := p <| dic := [] |>.
Definition LzmaDec_Free (p : CLzmaDec) : CLzmaDec := LzmaDec_FreeDict (LzmaDec_FreeProbs p).
Definition LzmaDec_Construct (p : CLzmaDec) : CLzmaDec := LzmaDec_Free p.

Definition LzmaDec_AllocateProbs2 (p : CLzmaDec) (propNew : CLzmaProps) : SRes * CLzmaDec :=
  let numProbs := LzmaProps_GetNumProbs propNew in
  let old := probs (coder p) in
  if bool_decide (old = []) || negb (numProbs =? Z.of_nat (length old)) then
    let p := LzmaDec_FreeProbs p in
    if negb (can_alloc (2 * numProbs)) then (SZ_ERROR_MEM, p)
    else (SZ_OK, p <| coder := mkCoder (range (coder p)) (code (coder p)) (buf (coder p)) (cells16 (uninit (2 * numProbs))) |>)
  else (SZ_OK, p).

(** [RINOK] of the properties. *)
Definition with_props (p : CLzmaDec) (props : list Z) (propsSize : Z) (k : CLzmaProps -> SRes * CLzmaDec) : option (SRes * CLzmaDec) :=
  r ← LzmaProps_Decode props propsSize;
  Some (match r with inr e => (e, p) | inl propNew => k propNew end).

Definition LzmaDec_AllocateProbs (p : CLzmaDec) (props : list Z) (propsSize : Z) : option (SRes * CLzmaDec) :=
  with_props p props propsSize (fun propNew =>
    let (r, p) := LzmaDec_AllocateProbs2 p propNew in
    if decide (r = SZ_OK) then (SZ_OK, p <| prop := propNew |>) else (r, p)).

Definition dic_buf_size (dictSize : Z) : Z :=
  let mask := if Z.shiftl 1 30 <=? dictSize then Z.shiftl 1 22 - 1
              else if Z.shiftl 1 22 <=? dictSize then Z.shiftl 1 20 - 1 else Z.shiftl 1 12 - 1 in
  let dicBufSize := Z.ldiff (dictSize + mask) mask in
  if dicBufSize <? dictSize then dictSize else dicBufSize.

Definition LzmaDec_Allocate (p : CLzmaDec) (props : list Z) (propsSize : Z) : option (SRes * CLzmaDec) :=
  with_props p props propsSize (fun propNew =>
    let (r, p) := LzmaDec_AllocateProbs2 p propNew in
    if decide (r = SZ_OK) then
      let size := dic_buf_size (dicSize propNew) in
      if bool_decide (dic p = []) || negb (size =? dicBufSize p) then
        let p := LzmaDec_FreeDict p in
        if negb (can_alloc size) then (SZ_ERROR_MEM, LzmaDec_FreeProbs p)
        else (SZ_OK, p <| dic := uninit size |> <| dicBufSize := size |> <| prop := propNew |>)
      else (SZ_OK, p <| dicBufSize := size |> <| prop := propNew |>)
    else (r, p)).

(** ** One call *)

(** What the stack holds for [CLzmaDec p]. *)
Definition new_decoder : CLzmaDec :=
  mkDec (mkProps 0 0 0 0) [] 0 0 (mkCoder 0 0 0 []) 0 (mkVars 0 0 0 0 0 0 0) [].

(** [LzmaDecode] into the [outSize] bytes of [dest]: the result, the status, the destination with
    the bytes written, their number ([destLen]) and the bytes taken ([srcLen]). *)
Record Decoded := mkDecoded { d_res : SRes; d_status : ELzmaStatus; d_dest : list Z; d_destLen : Z; d_srcLen : Z }.
Definition LzmaDecode (dest : list Z) (outSize : Z) (src propData : list Z) (propSize : Z) (finishMode : ELzmaFinishMode) : option Decoded :=
  let failed r := Some (mkDecoded r LZMA_STATUS_NOT_SPECIFIED dest 0 0) in
  if Z.of_nat (length src) <? RC_INIT_SIZE then failed SZ_ERROR_INPUT_EOF
  else
    '(r, p) ← LzmaDec_AllocateProbs (LzmaDec_Construct new_decoder) propData propSize;
    if decide (r = SZ_OK) then
      let p := LzmaDec_Init (p <| dic := dest |> <| dicBufSize := outSize |>) in
      '(r, status, srcLen, p) ← LzmaDec_DecodeToDic p outSize src finishMode;
      let r := if decide (r = SZ_OK) then if decide (status = LZMA_STATUS_NEEDS_MORE_INPUT) then SZ_ERROR_INPUT_EOF else r else r in
      Some (mkDecoded r status (dic p) (dicPos p) srcLen)
    else failed r.
End Memory.
