(* ===== verification/LzmaSymbol.v ===== *)
(** * One symbol of an LZMA stream

    What [symbol_step] and [dummy_step] of LzmaDec.v ask for: where they read, how many bits they
    take at most, that the two ask for the same, and for no probability twice. *)

From Stdlib Require Import ZArith Lia.
From stdpp Require Import base list option.
From S2P Require Import Prelude Bytes RangeCoder LzmaDec.

#[local] Open Scope Z_scope.
#[local] Open Scope prog_scope.

Record props_ok (prop : CLzmaProps) : Prop := {
  lc_ok : 0 <= lc prop <= 8;
  lp_ok : 0 <= lp prop <= 4;
  pb_ok : 0 <= pb prop <= 4;
  dicSize_ok : LZMA_DIC_MIN <= dicSize prop < 2 ^ 32
}.

(** ** The index of a literal *)

Lemma land_shifted_ones x n j : 0 <= n -> 0 <= j -> Z.land x (Z.shiftl (Z.ones n) j) = Z.shiftl (Z.shiftr x j mod 2 ^ n) j.
Proof.
  intros Hn Hj. rewrite <- Z.land_ones by lia. apply Z.bits_inj'. intros i Hi. rewrite Z.land_spec, !Z.shiftl_spec, Z.land_spec by lia.
  destruct (Z_lt_le_dec i j).
  - rewrite (Z.testbit_neg_r (Z.ones n)) by lia. by rewrite !andb_false_r.
  - rewrite Z.shiftr_spec by lia. do 2 f_equal. lia.
Qed.

(** The place of a literal among the tables of 0x300 probabilities. *)
Definition literal_table (prop : CLzmaProps) (b P : Z) : Z := P mod 2 ^ lp prop * 2 ^ lc prop + b / 2 ^ (8 - lc prop).

Lemma literal_table_bound prop b P : props_ok prop -> byte_ok b -> 0 <= literal_table prop b P < 2 ^ (lc prop + lp prop).
Proof.
  intros [Hlc Hlp _ _] Hb. unfold literal_table, byte_ok in *. rewrite Z.pow_add_r by lia.
  pose proof (Z.mod_pos_bound P (2 ^ lp prop) ltac:(apply Z.pow_pos_nonneg; lia)).
  assert (0 < 2 ^ lc prop) by (apply Z.pow_pos_nonneg; lia).
  assert (0 <= b / 2 ^ (8 - lc prop) < 2 ^ lc prop).
  { split; [apply Z.div_pos; [lia|apply Z.pow_pos_nonneg; lia]|]. apply Z.div_lt_upper_bound; [apply Z.pow_pos_nonneg; lia|].
    rewrite <- Z.pow_add_r by lia. replace (8 - lc prop + lc prop) with 8 by lia. change (2 ^ 8) with 256. lia. }
  nia.
Qed.
Lemma table_small prop k : props_ok prop -> 0 <= k < 2 ^ (lc prop + lp prop) -> 0 <= k < 2 ^ 12.
Proof. intros [Hlc Hlp _ _] Hk. assert (2 ^ (lc prop + lp prop) <= 2 ^ 12) by (apply Z.pow_le_mono_r; lia). lia. Qed.

Lemma lpMask_eq prop : props_ok prop -> lpMask prop = Z.shiftl (Z.ones (lp prop + lc prop)) (8 - lc prop).
Proof.
  intros [Hlc Hlp _ _]. unfold lpMask. rewrite Z.ones_equiv, !Z.shiftl_mul_pow2, Z.shiftr_div_pow2 by lia.
  change 256 with (2 ^ 8). rewrite <- Z.pow_sub_r by lia. rewrite <- Z.pow_add_r by lia.
  replace (Z.pred (2 ^ (lp prop + lc prop)) * 2 ^ (8 - lc prop)) with (2 ^ (lp prop + lc prop) * 2 ^ (8 - lc prop) - 2 ^ (8 - lc prop)) by lia.
  rewrite <- Z.pow_add_r by lia. do 2 f_equal. lia.
Qed.

(** The main loop's index. *)
Lemma literal_index prop b P : props_ok prop -> byte_ok b -> 0 <= P < 2 ^ 32 ->
  wrap 32 (3 * Z.shiftl (Z.land (wrap 32 (wrap 32 (Z.shiftl P 8) + b)) (lpMask prop)) (lc prop)) = LZMA_LIT_SIZE * literal_table prop b P.
Proof.
  intros Hp Hb HP. rewrite lpMask_eq by done. destruct Hp as [Hlc Hlp Hpb Hds] eqn:E. rewrite land_shifted_ones by lia.
  rewrite Z.shiftl_shiftl by lia. replace (8 - lc prop + lc prop) with 8 by lia.
  assert (Z.shiftr (wrap 32 (wrap 32 (Z.shiftl P 8) + b)) (8 - lc prop) mod 2 ^ (lp prop + lc prop) = literal_table prop b P) as ->.
  { rewrite Z.shiftl_mul_pow2, Z.shiftr_div_pow2 by lia. change (2 ^ 8) with 256. rewrite wrap_256.
    rewrite (wrap_small 32 (_ + b)).
    2: { pose proof (Z.mod_pos_bound P (2 ^ 24) ltac:(lia)). unfold byte_ok in Hb. change (2 ^ 32) with (2 ^ 24 * 256). lia. }
    replace (P mod 2 ^ 24 * 256) with (P mod 2 ^ 24 * 2 ^ lc prop * 2 ^ (8 - lc prop)).
    2: { rewrite <- Z.mul_assoc, <- Z.pow_add_r by lia. do 2 f_equal. change 256 with (2 ^ 8). f_equal. lia. }
    rewrite Z.add_comm, Z.div_add by (apply Z.pow_nonzero; lia). rewrite Z.add_comm.
    assert (0 < 2 ^ lc prop /\ 0 < 2 ^ lp prop) as [] by (split; apply Z.pow_pos_nonneg; lia).
    assert (P mod 2 ^ 24 = 2 ^ lp prop * (P mod 2 ^ 24 / 2 ^ lp prop) + P mod 2 ^ lp prop) as ->.
    { assert (P mod 2 ^ lp prop = P mod 2 ^ 24 mod 2 ^ lp prop) as ->; [|apply Z.div_mod; lia].
      replace 24 with (lp prop + (24 - lp prop)) by lia. rewrite Z.pow_add_r by lia. rewrite Z.rem_mul_r by (try apply Z.pow_pos_nonneg; lia).
      rewrite Z.mul_comm, Z.mod_add by lia. symmetry. apply Z.mod_mod. lia. }
    set (u := P mod 2 ^ 24 / 2 ^ lp prop). unfold literal_table.
    rewrite Z.pow_add_r by lia. replace (_ + _ / _) with (P mod 2 ^ lp prop * 2 ^ lc prop + b / 2 ^ (8 - lc prop) + u * (2 ^ lp prop * 2 ^ lc prop)) by ring.
    rewrite Z.mod_add by lia. apply Z.mod_small. rewrite <- Z.pow_add_r by lia. rewrite Z.add_comm at 1.
    rewrite (Z.add_comm (b / _)). rewrite (Z.add_comm (lp prop)). by apply literal_table_bound. }
  pose proof (table_small prop _ Hp (literal_table_bound prop b P Hp Hb)) as Ht. rewrite Z.shiftl_mul_pow2 by lia.
  change (2 ^ 8) with 256. change LZMA_LIT_SIZE with 768. change (2 ^ 12) with 4096 in Ht. rewrite wrap_small; [lia|]. change (2 ^ 32) with 4294967296. lia.
Qed.

(** The index of the look ahead. *)
Lemma dummy_index prop b P : props_ok prop -> byte_ok b -> 0 <= P -> dummy_literal prop b P = LZMA_LIT_SIZE * literal_table prop b P.
Proof.
  intros Hp Hb HP. pose proof (table_small prop _ Hp (literal_table_bound prop b P Hp Hb)) as Ht. destruct Hp as [Hlc Hlp Hpb Hds].
  unfold dummy_literal. rewrite (Z.shiftl_mul_pow2 1), Z.mul_1_l, Z.sub_1_r, <- Z.ones_equiv, Z.land_ones by lia.
  rewrite Z.shiftl_mul_pow2, Z.shiftr_div_pow2 by lia. fold (literal_table prop b P). change LZMA_LIT_SIZE with 768.
  change (2 ^ 12) with 4096 in Ht. rewrite (wrap_small 32 (literal_table _ _ _)), wrap_small; try done; change (2 ^ 32) with 4294967296; lia.
Qed.

(** ** What a symbol asks for *)

(** The places of the tables, as numbers. *)
Lemma places : (SpecPos, IsRep0Long, RepLenCoder, LenCoder, IsMatch, Align, IsRep) = (-1664, -1536, -1280, -768, -256, 0, 16) /\
  (IsRepG0, IsRepG1, IsRepG2, PosSlot, Literal, NUM_BASE_PROBS) = (28, 40, 52, 64, 320, 1984).
Proof. done. Qed.

Ltac place_numbers :=
  change SpecPos with (-1664) in *; change IsRep0Long with (-1536) in *; change RepLenCoder with (-1280) in *;
  change LenCoder with (-768) in *; change IsMatch with (-256) in *; change Align with 0 in *; change IsRep with 16 in *;
  change IsRepG0 with 28 in *; change IsRepG1 with 40 in *; change IsRepG2 with 52 in *; change PosSlot with 64 in *;
  change Literal with 320 in *.

Lemma posState_range prop v : props_ok prop -> 0 <= processedPos v -> 0 <= posState_of prop v <= 240 /\ posState_of prop v mod 16 = 0.
Proof.
  intros [_ _ Hpb _] HP. unfold posState_of, CALC_POS_STATE, pbMask.
  rewrite (Z.shiftl_mul_pow2 1), Z.mul_1_l, Z.sub_1_r, <- Z.ones_equiv, Z.land_ones, Z.shiftl_mul_pow2 by lia. change (2 ^ 4) with 16.
  pose proof (Z.mod_pos_bound (processedPos v) (2 ^ pb prop) ltac:(apply Z.pow_pos_nonneg; lia)).
  assert (2 ^ pb prop <= 2 ^ 4) by (apply Z.pow_le_mono_r; lia). change (2 ^ 4) with 16 in *. split; [lia|]. apply Z.mod_mul. lia.
Qed.

(** Membership in regions of probabilities. *)
Ltac region := intros; cbv beta in *; lia.

Section Parts.
Context (dl : Z).

(** After a part of the symbol, a value. *)
Lemma ok_then {A B} (P : A -> Prop) (Q : B -> Prop) R b d g (f : A -> B) :
  ok dl P R b d g -> (forall a, P a -> Q (f a)) -> ok dl Q R b d (g ≫= fun a => Return (f a)).
Proof.
  intros Hg Hf. apply (ok_seq dl P Q R (fun _ => False) R b d 0 0); [done|intros a Ha; apply ok_return; auto|done|done|done|lia|lia].
Qed.

Lemma ok_matched bits prob m o y : 1 <= y -> (o = 0 \/ o = 256) -> (y + 1) * 2 ^ Z.of_nat bits <= 512 ->
  ok dl (fun _ => True) (fun q => prob <= q < prob + 0x300 /\ y <= (q - prob) mod 256) bits 0 (matched_bits bits prob m o y).
Proof.
  revert m o y. induction bits as [|n IH]; intros m o y Hy Ho Hb; [by apply ok_return|].
  destruct (pow2_S n) as [E Hn]. rewrite E in Hb. simpl matched_bits. set (o' := Z.land o (m + m)).
  assert (o' = 0 \/ o' = 256) as Ho'.
  { unfold o'. destruct Ho as [->| ->]; [by left|]. change 256 with (Z.shiftl (Z.ones 1) 8). rewrite Z.land_comm, land_shifted_ones by lia.
    pose proof (Z.mod_pos_bound (Z.shiftr (m + m) 8) (2 ^ 1) ltac:(lia)) as H. rewrite Z.shiftl_mul_pow2 by lia.
    change (2 ^ 1) with 2 in *. change (2 ^ 8) with 256. change (Z.shiftl (Z.ones 1) 8) with 256. lia. }
  assert ((o' + o + y) mod 256 = y) as Em.
  { destruct Ho' as [->| ->], Ho as [->| ->].
    - apply Z.mod_small. nia.
    - replace (0 + 256 + y) with (y + 1 * 256) by lia. rewrite Z.mod_add by lia. apply Z.mod_small. nia.
    - replace (256 + 0 + y) with (y + 1 * 256) by lia. rewrite Z.mod_add by lia. apply Z.mod_small. nia.
    - replace (256 + 256 + y) with (y + 2 * 256) by lia. rewrite Z.mod_add by lia. apply Z.mod_small. nia. }
  apply (ok_if_bit dl _ _ (fun q => prob <= q < prob + 0x300 /\ y + 1 <= (q - prob) mod 256)).
  - replace (prob + (o' + o + y) - prob) with (o' + o + y) by lia. rewrite Em. split; [|lia]. destruct Ho', Ho; nia.
  - intros q [Hq1 Hq2]. split; [lia|]. intros ->. replace (prob + (o' + o + y) - prob) with (o' + o + y) in Hq2 by lia. lia.
  - intros x. eapply ok_weaken; [done| |apply IH].
    + intros q [Hq1 Hq2]. split; [done|]. unfold bit_of in Hq2. destruct x; lia.
    + unfold bit_of. destruct x; lia.
    + destruct x; [done|]. destruct Ho' as [->| ->], Ho as [->| ->]; simpl; auto.
    + unfold bit_of. destruct x; nia.
Qed.

Lemma ok_rev bits p i m : 1 <= m ->
  ok dl (fun '(i', m') => m' = m * 2 ^ Z.of_nat bits /\ i + m' - m <= i' <= i + 2 * (m' - m))
    (fun q => p + i <= q <= p + i + m * 2 ^ Z.of_nat bits - 2 * m) bits 0 (rev_bits bits p i m).
Proof.
  revert i m. induction bits as [|n IH]; intros i m Hm; [apply ok_return; lia|].
  destruct (pow2_S n) as [E Hn]. rewrite E. simpl rev_bits. unfold REV_BIT_VAR.
  apply (ok_if dl _ _ (fun q => p + i + m <= q <= p + i + m * (2 * 2 ^ Z.of_nat n) - 2 * m)).
  - nia.
  - lia.
  - intros x. cbn [mbind Prog_bind prog_then]. destruct x.
    + eapply ok_weaken; [| |apply (IH (i + (m + m)) (m + m)); lia]; [intros [i' m'] [-> Hi]; split; [ring|nia]|intros q Hq; cbv beta in *; nia].
    + eapply ok_weaken; [| |apply (IH (i + m) (m + m)); lia]; [intros [i' m'] [-> Hi]; split; [ring|nia]|intros q Hq; cbv beta in *; nia].
Qed.

Lemma ok_length prob posState : 0 <= posState <= 240 ->
  ok dl (fun l => 0 <= l < 272) (fun q => prob <= q < prob + 512) 10 0 (length_bits prob posState).
Proof.
  intros Hp. unfold length_bits. change LenChoice with 0. change LenChoice2 with 8. change LenLow with 0. change LenHigh with 256.
  apply (ok_if_bit dl _ _ (fun q => prob < q < prob + 512)); [region|region|].
  intros [|]; cbn [negb].
  - apply (ok_if_bit dl _ _ (fun q => prob + 8 < q < prob + 512)); [region|region|]. intros [|]; cbn [negb].
    + eapply (ok_weaken dl); [| |apply (ok_then (fun r => 0 <= r < 2 ^ Z.of_nat 8) _ _ 8 0); [apply ok_TREE|]].
      * intros a Ha. exact Ha.
      * intros q Hq. change (2 ^ Z.of_nat 8) with 256 in Hq. cbv beta in *. lia.
      * intros a Ha. change (2 ^ Z.of_nat 8) with 256 in Ha. change kLenNumLowSymbols with 8. region.
    + change (Z.shiftl 1 kLenNumLowBits) with 8. apply (ok_more dl (fun r => 0 <= r < 272) _ (tree_region 3 (prob + 0 + posState + 8) 1) _ 3 0 5 0).
      * done.
      * unfold tree_region. change (2 ^ Z.of_nat 3) with 8. region.
      * apply (ok_then (fun r => 1 * 2 ^ Z.of_nat 3 <= r < (1 + 1) * 2 ^ Z.of_nat 3)); [apply ok_tree; lia|].
        intros a Ha. change (2 ^ Z.of_nat 3) with 8 in Ha. region.
  - apply (ok_more dl (fun r => 0 <= r < 2 ^ Z.of_nat 3) _ (fun q => prob + 0 + posState + 1 <= q < prob + 0 + posState + 2 ^ Z.of_nat 3) _ 3 0 6 0).
    + change (2 ^ Z.of_nat 3) with 8. region.
    + change (2 ^ Z.of_nat 3) with 8. region.
    + apply ok_TREE.
Qed.

Lemma ok_direct_bits n distance : ok dl (fun _ => True) (fun _ => False) 0 n (direct_bits n distance).
Proof.
  revert distance. induction n as [|n IH]; intros distance; [by apply ok_return|]. apply ok_direct. intros x. apply IH.
Qed.
Lemma ok_align : ok dl (fun i => 0 <= i < 16) (fun q => 0 < q < 16) 4 0 align_bits.
Proof.
  unfold align_bits, REV_BIT_CONST, REV_BIT_LAST. change Align with 0.
  apply (ok_if dl _ _ (fun q => 1 < q < 16)); [region|region|]. intros x1.
  apply (ok_if dl _ _ (fun q => 3 < q < 16)); [destruct x1; region|destruct x1; region|]. intros x2.
  apply (ok_if dl _ _ (fun q => 7 < q < 16)); [destruct x1, x2; region|destruct x1, x2; region|]. intros x3.
  apply (ok_if dl _ _ (fun q => False)); [destruct x1, x2, x3; region|done|]. intros x4. apply ok_return.
  destruct x1, x2, x3, x4; region.
Qed.

Lemma low_bit x : Z.land x 1 = 0 \/ Z.land x 1 = 1.
Proof.
  assert (Z.land x 1 = x mod 2) as -> by exact (Z.land_ones x 1 ltac:(lia)).
  pose proof (Z.mod_pos_bound x 2 ltac:(lia)). lia.
Qed.
(** Where a distance has its probabilities. *)
Definition distance_region (q : Z) : Prop := 64 <= q < 320 \/ -1664 <= q < -1536 \/ 0 < q < 16.
Lemma slot_place l : 0 <= l ->
  let s := Z.shiftl (if l <? kNumLenToPosStates then l else kNumLenToPosStates - 1) kNumPosSlotBits in 0 <= s <= 192.
Proof.
  intros Hl. change kNumLenToPosStates with 4. change kNumPosSlotBits with 6. cbv zeta. rewrite Z.shiftl_mul_pow2 by lia.
  change (2 ^ 6) with 64. destruct (Z.ltb_spec l 4); lia.
Qed.
Definition no_negative (d : option Z) : Prop := forall x, d = Some x -> 0 <= x.
Lemma ok_distance l : 0 <= l -> ok dl no_negative distance_region 10 26 (distance_bits l).
Proof.
  intros Hl. pose proof (slot_place l Hl) as Hs. cbv zeta in Hs. unfold distance_bits. set (sl := Z.shiftl (if _ <? _ then _ else _) _) in *. clearbody sl.
  apply (ok_bind dl (fun r => 0 <= r < 2 ^ Z.of_nat 6) _ (fun q => 64 <= q < 320) (fun q => -1664 <= q < -1536 \/ 0 < q < 16) _ 6 0 4 26).
  - eapply (ok_weaken dl); [intros a Ha; exact Ha| |apply ok_TREE]. intros q Hq. change (2 ^ Z.of_nat 6) with 64 in Hq. change PosSlot with 64 in Hq. cbv beta in *. lia.
  - change (2 ^ Z.of_nat 6) with 64. intros slot Hslot. change kStartPosModelIndex with 4. change kEndPosModelIndex with 14.
    destruct (Z.leb_spec 4 slot) as [H4|H4]; [|apply ok_return; intros x [= <-]; lia]. rewrite Z.shiftr_div_pow2 by lia. change (2 ^ 1) with 2.
    destruct (Z.ltb_spec slot 14) as [H14|H14].
    + set (n := slot / 2 - 1). assert (1 <= n <= 5) as Hn by (unfold n; Z.to_euclidean_division_equations; lia).
      assert (2 <= Z.lor 2 (Z.land slot 1) <= 3) as Hd.
      { destruct (low_bit slot) as [-> | ->]; by split. }
      rewrite Z.shiftl_mul_pow2 by lia. set (base := Z.lor 2 (Z.land slot 1)) in *. clearbody base n.
      apply (ok_trade dl _ _ 4 19). apply (ok_more dl no_negative _ (fun q => -1664 <= q < -1536) _ 5 0 0 19); [done|by left|].
      assert (Z.to_nat n <= 5)%nat as Hn5 by lia.
      replace 5%nat with (Z.to_nat n + (5 - Z.to_nat n))%nat by lia. apply (ok_more dl no_negative _ (fun q => -1664 <= q < -1536) _ _ 0 _ 0); [done|done|].
      assert (2 ^ n <= 2 ^ 5) by (apply Z.pow_le_mono_r; lia). assert (0 < 2 ^ n) by (apply Z.pow_pos_nonneg; lia). change (2 ^ 5) with 32 in *.
      eapply (ok_seq dl _ _ _ (fun _ => False) _ _ 0 0 0); [apply ok_rev; lia|intros [i m] [_ Hi]; apply ok_return; intros x [= <-]; nia| |done|done|lia|done].
      rewrite Z2Nat.id by lia. change SpecPos with (-1664). intros q Hq. cbv beta in *. nia.
    + assert (Z.to_nat (slot / 2 - 1 - kNumAlignBits) <= 26)%nat as Hn by (change kNumAlignBits with 4; Z.to_euclidean_division_equations; lia).
      set (n := Z.to_nat _) in *. clearbody n. apply (ok_more dl no_negative _ (fun q => 0 < q < 16) _ 4 26 0 0); [done|by right|].
      replace 26%nat with (n + (26 - n))%nat by lia. apply (ok_more dl no_negative _ (fun q => 0 < q < 16) _ 4 n 0 _); [done|done|].
      eapply (ok_seq dl _ _ (fun _ => False) (fun q => 0 < q < 16) _ 0 n 4 0); [apply ok_direct_bits| |done|done|done|done|lia].
      intros distance _. apply (ok_then (fun i => 0 <= i < 16) _ _ 4 0); [apply ok_align|]. intros i Hi x Hx. destruct (_ =? _) in Hx; [done|].
      injection Hx as <-. apply Z.lor_nonneg. split; [by apply (wrap_bounds 32)|lia].
  - by left.
  - by right.
  - lia.
Qed.
End Parts.

(** ** The symbol *)

(** All four distances are at least 1 and at most [hi]. *)
Definition reps_in (hi : Z) (v : Vars) : Prop := 1 <= rep0 v <= hi /\ 1 <= rep1 v <= hi /\ 1 <= rep2 v <= hi /\ 1 <= rep3 v <= hi.

Section SymbolOk.
Context (prop : CLzmaProps) (dicBufSize checkDicSize dl dicPos hi : Z).
Hypothesis Hprop : props_ok prop.

(** Something was written before. *)
Definition started (v : Vars) : Prop := processedPos v <> 0 \/ checkDicSize <> 0.
(** How far back a match may start. *)
Definition history (v : Vars) : Z := if checkDicSize =? 0 then processedPos v else checkDicSize.

Record vars_ok (v : Vars) : Prop := {
  state_ok : 0 <= state v < kNumStates;
  processed_ok : 0 <= processedPos v < 2 ^ 32;
  reps_ok : reps_in hi v;
  history_ok : history v <= hi;
  hi_ok : hi < 2 ^ 32
}.
Record reads_ok (v : Vars) : Prop := {
  prev_ok : started v -> 0 <= prev_pos dicBufSize dicPos < dl;
  match_byte_ok : started v -> 0 <= rep0_pos dicBufSize dicPos (rep0 v) < dl;
  first_state : ~ started v -> state v < kNumLitStates
}.

(** What a step does to the variables. *)
Definition same_reps (v v' : Vars) : Prop := rep0 v' = rep0 v /\ rep1 v' = rep1 v /\ rep2 v' = rep2 v /\ rep3 v' = rep3 v.
Definition step_ok (v : Vars) (st : Step) : Prop :=
  match st with
  | Put _ v' | Short v' => 0 <= state v' < kNumStates /\ same_reps v v' /\ processedPos v' = wrap 32 (processedPos v + 1) /\ len v' = len v
  | Copy v' => 0 <= state v' < kNumStates /\ reps_in hi v' /\ processedPos v' = processedPos v /\ 0 <= len v' < 272
  | Marker v' => state v' = state v /\ same_reps v v' /\ processedPos v' = processedPos v /\ len v' = kMatchSpecLenStart
  | Damaged => True
  end.

Definition top : Z := LzmaProps_GetNumProbs prop - kStartOffset.
Lemma top_eq : top = 320 + 768 * 2 ^ (lc prop + lp prop).
Proof.
  unfold top, LzmaProps_GetNumProbs. destruct Hprop. rewrite Z.shiftl_mul_pow2 by lia.
  change NUM_BASE_PROBS with 1984. change LZMA_LIT_SIZE with 768. change kStartOffset with 1664. lia.
Qed.

(** The literal's table. *)
Definition literal_at (b : option Z) (v : Vars) : Z :=
  match b with Some b => 320 + 768 * literal_table prop b (processedPos v) | None => 320 end.
Lemma literal_at_bound b v : (match b with Some b => byte_ok b | None => True end) -> 320 <= literal_at b v /\ literal_at b v + 768 <= top.
Proof.
  intros Hb. rewrite top_eq. destruct b as [b|]; simpl.
  - pose proof (literal_table_bound prop b (processedPos v) Hprop Hb). lia.
  - assert (0 < 2 ^ (lc prop + lp prop)) by (apply Z.pow_pos_nonneg; destruct Hprop; lia). lia.
Qed.

Lemma ok_literal v : vars_ok v -> reads_ok v ->
  ok dl (step_ok v) (fun q => 320 <= q < top) 8 0 (literal_step prop dicBufSize checkDicSize dicPos v).
Proof.
  intros [Hst Hpp _ _] [Hprev Hmb Hfirst]. unfold literal_step. change kNumStates with 12 in *. change kNumLitStates with 7 in *.
  apply (ok_seq dl (fun prob => 320 <= prob /\ prob + 768 <= top) _ (fun _ => False) (fun q => 320 <= q < top) _ 0 0 8 0); try done.
  - destruct (negb (processedPos v =? 0) || negb (checkDicSize =? 0)) eqn:E.
    + apply ok_read; [apply Hprev; unfold started; destruct (Z.eqb_spec (processedPos v) 0), (Z.eqb_spec checkDicSize 0); simpl in E; auto; done|].
      intros b Hb. apply ok_return. rewrite literal_index by done. exact (literal_at_bound (Some b) v Hb).
    + apply ok_return. exact (literal_at_bound None v I).
  - intros prob [Hl Hu]. cbn [put put_processedPos put_state state processedPos].
    destruct (Z.ltb_spec (state v) 7) as [H7|H7].
    + apply (ok_weaken dl (step_ok v) _ (tree_region 8 prob 1)); [done|unfold tree_region; change (2 ^ Z.of_nat 8) with 256; lia|].
      apply (ok_then dl (fun _ => True)); [eapply ok_weaken; [|done|apply ok_tree; lia]; done|]. intros a _. simpl. split; [|done].
      change kNumStates with 12. destruct (Z.ltb_spec (state v) 4); lia.
    + apply ok_read; [apply Hmb; destruct (decide (started v)) as [|Hn]; [done|specialize (Hfirst Hn); lia]|]. intros m Hm.
      apply (ok_weaken dl (step_ok v) _ (fun q => prob <= q < prob + 0x300 /\ 1 <= (q - prob) mod 256)); [done|lia|].
      apply (ok_then dl (fun _ => True)); [apply ok_matched; [lia|by right|done]|]. intros a _. simpl. split; [|done].
      change kNumStates with 12. destruct (Z.ltb_spec (state v) 10); lia.
Qed.

Lemma ok_match v posState : vars_ok v -> 0 <= posState <= 240 ->
  ok dl (step_ok v) (fun q => -768 <= q < -256 \/ distance_region q) 20 26
    (match_step checkDicSize posState (v <| state := state v + kNumStates |>)).
Proof.
  intros [Hst Hpp Hreps Hhist Hhi] Hps. unfold match_step.
  apply (ok_bind dl (fun l => 0 <= l < 272) _ (fun q => LenCoder <= q < LenCoder + 512) distance_region _ 10 0 10 26).
  - by apply ok_length.
  - intros l Hl. apply (ok_seq dl no_negative _ distance_region (fun _ => False) _ 10 26 0 0); [apply ok_distance; lia| |done|done|done|done|done].
    intros [distance|] Hd; apply ok_return; cbn.
    + specialize (Hd distance eq_refl). change (if checkDicSize =? 0 then processedPos v else checkDicSize) with (history v).
      destruct (Z.leb_spec (history v) distance) as [Hle|Hlt]; [done|]. simpl. destruct Hreps as (H0 & H1 & H2 & H3).
      split; [destruct (_ <? _); change kNumStates with 12; change kNumLitStates with 7; lia|]. split; [|split; [done|lia]].
      unfold reps_in. simpl. rewrite wrap_small by lia. lia.
    + split; [lia|]. done.
  - intros q Hq. left. place_numbers. lia.
  - intros q Hq. by right.
  - unfold distance_region. place_numbers. lia.
Qed.

Ltac shuffle := split; [done|]; split; [unfold reps_in; cbn; lia|done].
Lemma ok_rep_bits v posState : vars_ok v -> 0 <= posState <= 240 ->
  ok dl (fun r => match r with Some v' => state v' = state v /\ reps_in hi v' /\ processedPos v' = processedPos v | None => True end)
    (fun q => -1536 <= q < -1280 \/ 28 <= q < 64) 3 0 (rep_bits posState v).
Proof.
  intros [Hst Hpp (H0 & H1 & H2 & H3) Hhist Hhi] Hps. unfold rep_bits. change kNumStates with 12 in *. place_numbers.
  apply (ok_if_bit dl _ _ (fun q => -1536 <= q < -1280 \/ 40 <= q < 64)); [region|region|]. intros [|]; cbn [negb].
  - apply (ok_if_bit dl _ _ (fun q => 52 <= q < 64)); [region|region|]. intros [|]; cbn [negb].
    + apply (ok_if_bit dl _ _ (fun q => False)); [region|done|]. intros [|]; apply ok_return; try done; shuffle.
    + apply ok_return. shuffle.
  - apply (ok_if_bit dl _ _ (fun q => False)); [region|done|]. intros [|]; apply ok_return; try done; shuffle.
Qed.

Lemma ok_rep v posState : vars_ok v -> 0 <= posState <= 240 ->
  ok dl (step_ok v) (fun q => -1536 <= q < -768 \/ 28 <= q < 64) 13 0 (rep_step posState v).
Proof.
  intros Hv Hps. unfold rep_step.
  eapply (ok_bind dl _ _ _ (fun q => RepLenCoder <= q < RepLenCoder + 512) _ 3 0 10 0); [by apply ok_rep_bits| |place_numbers; region..].
  change kNumStates with 12 in *. change kNumLitStates with 7 in *. intros [v'|] Hv'.
  - destruct Hv' as (Es & Hr & Ep). cbv zeta. apply (ok_then dl (fun l => 0 <= l < 272)); [by apply ok_length|]. intros l Hl. simpl.
    split; [destruct (_ <? _); change kNumStates with 12; lia|]. split; [done|]. split; [done|lia].
  - apply ok_return. simpl. split; [destruct (_ <? _); change kNumStates with 12; lia|]. by split_and!.
Qed.

(** A symbol takes at most 22 coded bits and 26 others, and asks for nothing that is not there. *)
Definition symbol_region (q : Z) : Prop := - kStartOffset <= q < top.
Lemma ok_symbol v : vars_ok v -> reads_ok v ->
  ok dl (step_ok v) symbol_region 22 26 (symbol_step prop dicBufSize checkDicSize dicPos v).
Proof.
  intros Hv Hreads. unfold symbol_step. pose proof Hv as [Hst Hpp _ _ _]. destruct (posState_range prop v Hprop) as [Hps Hm]; [lia|].
  change kNumStates with 12 in *. set (ps := posState_of prop v) in *. clearbody ps. place_numbers.
  assert (0 < 2 ^ (lc prop + lp prop)) by (apply Z.pow_pos_nonneg; destruct Hprop; lia). pose proof top_eq as Ht.
  assert (ps <= 240 /\ -256 <= -256 + (ps + state v) < 0) as [_ Hidx] by lia.
  unfold symbol_region. change kStartOffset with 1664.
  apply (ok_if_bit dl _ _ (fun q => -1664 <= q < top /\ ~ -256 <= q < 0)); [lia|region|]. intros [|]; cbn [negb].
  - apply (ok_if_bit dl _ _ (fun q => -1664 <= q < top /\ ~ -256 <= q < 0 /\ ~ 16 <= q < 28)); [lia|region|]. intros [|]; cbn [negb].
    + apply (ok_more dl (step_ok v) _ (fun q => -1536 <= q < -768 \/ 28 <= q < 64) _ 13 0 7 26); [done|lia|by apply ok_rep].
    + eapply (ok_weaken dl); [done| |by apply ok_match]. unfold distance_region. lia.
  - apply (ok_more dl (step_ok v) _ (fun q => 320 <= q < top) _ 8 0 13 26); [done|lia|by apply ok_literal].
Qed.
End SymbolOk.

(** ** The look ahead asks for the same *)

Lemma same_bits_map {A B} (E : A -> B -> Prop) (g : Prog A) (h : A -> B) :
  (forall a, E a (h a)) -> same_bits E g (g ≫= fun a => Return (h a)).
Proof. intros HE. induction g; simpl; constructor; auto. Qed.
Lemma same_bits_return {A B} (E : A -> B -> Prop) (g : Prog A) : (forall a b, E a b) -> forall b, same_bits E g (g ≫= fun _ => Return b).
Proof. intros HE b. by apply same_bits_map. Qed.
(** The first part ends in a map. *)
Lemma same_bits_maps {A B C} (E : B -> C -> Prop) (g : Prog A) (f : A -> B) (h : A -> C) :
  (forall a, E (f a) (h a)) -> same_bits E (g ≫= fun a => Return (f a)) (g ≫= fun a => Return (h a)).
Proof. intros HE. apply same_bits_after. intros a. by constructor. Qed.
Lemma same_bits_weaken {A B} (E F : A -> B -> Prop) g g' : (forall a b, E a b -> F a b) -> same_bits E g g' -> same_bits F g g'.
Proof. intros HEF Hg. induction Hg; constructor; auto. Qed.

Lemma same_length prob posState : same_bits eq (length_bits prob posState) (dummy_length prob posState).
Proof.
  unfold length_bits, dummy_length. apply same_bits_after. intros [|]; cbn [negb].
  - apply same_if. intros [|]; cbn [negb mbind Prog_bind prog_then].
    + by apply same_bits_maps.
    + unfold TREE_DECODE. apply (same_bits_bind (fun i l => l = i - 8)); [by apply same_bits_map|].
      intros i l ->. constructor. change kLenNumLowSymbols with 8. lia.
  - cbn [mbind Prog_bind prog_then]. apply same_bits_map. lia.
Qed.

Lemma same_rev bits p base i m :
  same_bits (fun a b => True) (rev_bits bits p (base + i) m) (rev_bits bits (p + base) i m).
Proof.
  revert i m. induction bits as [|n IH]; intros i m; [by constructor|]. simpl. rewrite Z.add_assoc. apply same_if. intros [|].
  - rewrite <- Z.add_assoc. apply IH.
  - rewrite <- Z.add_assoc. apply IH.
Qed.
Lemma same_direct_bits n distance (r : Z * Z) :
  same_bits (fun _ b => b = r) (direct_bits n distance) (dummy_direct n ≫= fun _ => Return r).
Proof. revert distance. induction n as [|n IH]; intros distance; [by constructor|]. apply same_direct. intros x. apply IH. Qed.
Lemma same_align : same_bits (fun _ _ => True) align_bits (rev_bits 4 Align 1 1).
Proof. repeat (apply same_if; intros [|]); by constructor. Qed.

Lemma same_distance l : same_bits (fun _ _ => True) (distance_bits l) (dummy_distance l).
Proof.
  unfold distance_bits, dummy_distance.
  assert ((if l <? kNumLenToPosStates - 1 then l else kNumLenToPosStates - 1) = (if l <? kNumLenToPosStates then l else kNumLenToPosStates - 1)) as ->.
  { change kNumLenToPosStates with 4. destruct (Z.ltb_spec l (4 - 1)), (Z.ltb_spec l 4); lia. }
  apply same_bits_after. intros slot. destruct (kStartPosModelIndex <=? slot); [|by constructor].
  destruct (slot <? kEndPosModelIndex).
  - cbn [mbind Prog_bind prog_then]. apply (same_bits_bind (fun _ _ => True)); [apply same_rev|]. intros [i m] _ _. by constructor.
  - apply (same_bits_bind (fun _ b => b = (Align, kNumAlignBits))); [apply same_direct_bits|]. intros d b ->.
    apply (same_bits_bind (fun _ _ => True)); [apply same_align|]. by constructor.
Qed.

(** The kinds of symbol. *)
Definition kind (st : Step) (d : ELzmaDummy) : Prop :=
  match st, d with
  | Put _ _, DUMMY_LIT | Short _, DUMMY_REP | Copy _, (DUMMY_MATCH | DUMMY_REP) | (Marker _ | Damaged), DUMMY_MATCH => True
  | _, _ => False
  end.

Section Same.
Context (prop : CLzmaProps) (dicBufSize checkDicSize dicPos : Z).
Hypothesis Hprop : props_ok prop.

Lemma same_literal v : 0 <= processedPos v < 2 ^ 32 ->
  same_bits kind (literal_step prop dicBufSize checkDicSize dicPos v) (dummy_literal_bits prop dicBufSize checkDicSize dicPos v).
Proof.
  intros HP. unfold literal_step, dummy_literal_bits. apply (same_bits_bind eq).
  - rewrite orb_comm. destruct (_ || _); [|by constructor]. apply same_dic. intros b Hb. constructor. f_equal.
    rewrite literal_index by done. by rewrite dummy_index by (done || lia).
  - intros prob _ <-. cbn [put put_processedPos put_state state processedPos rep0].
    destruct (state v <? kNumLitStates); [by apply same_bits_maps|]. apply same_dic. intros b _. by apply same_bits_maps.
Qed.

Lemma same_rep_bits posState v : same_bits (fun r long => long = match r with Some _ => true | None => false end)
  (rep_bits posState v) (dummy_rep posState v).
Proof.
  unfold rep_bits, dummy_rep. apply same_bits_after. intros [|]; cbn [negb].
  - apply same_bits_after. intros [|]; cbn [negb]; [|by constructor]. by apply same_bits_maps.
  - apply same_if. intros [|]; by constructor.
Qed.

Lemma same_symbol v : 0 <= processedPos v < 2 ^ 32 ->
  same_bits kind (symbol_step prop dicBufSize checkDicSize dicPos v) (dummy_step prop dicBufSize checkDicSize dicPos v).
Proof.
  intros HP. unfold symbol_step, dummy_step. apply same_bits_after. intros [|]; cbn [negb]; [|by apply same_literal].
  apply same_bits_after. intros [|]; cbn [negb].
  - unfold rep_step. apply (same_bits_bind (fun r long => long = match r with Some _ => true | None => false end)); [apply same_rep_bits|].
    intros [v'|] long ->; cbn [negb]; [|by constructor]. apply (same_bits_bind eq); [apply same_length|]. by constructor.
  - unfold match_step. apply (same_bits_bind eq); [apply same_length|]. intros l _ <-.
    apply (same_bits_bind (fun _ _ => True)); [apply same_distance|]. intros [d|] [] _; constructor; [|done]. by destruct (_ <=? _).
Qed.
End Same.
