(* ===== verification/LzmaSafe.v ===== *)
(** * The LZMA decoder stays within its arrays

    Whatever the input, every read and write of the decoder of LzmaDec.v is inside of the input,
    the dictionary and the probabilities, and its loops end. *)

From Stdlib Require Import ZArith Lia.
From stdpp Require Import base list option.
From S2P Require Import Prelude Bytes RangeCoder LzmaDec LzmaSymbol.

#[local] Open Scope Z_scope.
#[local] Open Scope prog_scope.

(** ** The variables and the position *)

Record place_ok (prop : CLzmaProps) (dicBufSize checkDicSize dicPos : Z) (v : Vars) : Prop := {
  pl_props : props_ok prop;
  pl_state : 0 <= state v < kNumStates;
  pl_processed : 0 <= processedPos v < 2 ^ 32;
  pl_reps : reps_in (Z.max 1 (history checkDicSize v)) v;
  pl_pos : 0 <= dicPos <= dicBufSize;
  pl_growing : checkDicSize = 0 -> processedPos v = dicPos /\ processedPos v <= dicSize prop;
  pl_full : checkDicSize <> 0 -> checkDicSize = dicSize prop /\ dicSize prop <= dicBufSize;
  pl_first : ~ started checkDicSize v -> state v < kNumLitStates
}.

Section Place.
Context (prop : CLzmaProps) (dicBufSize checkDicSize : Z).

Lemma place_vars dicPos v : place_ok prop dicBufSize checkDicSize dicPos v -> vars_ok checkDicSize (Z.max 1 (history checkDicSize v)) v.
Proof.
  intros [Hp Hst Hpp Hr Hpos Hg Hf H1]. destruct Hp as [_ _ _ Hds]. split; [done|done|done|lia|].
  unfold history in *. destruct (Z.eqb_spec checkDicSize 0) as [Hc|Hc]; [lia|]. destruct (Hf Hc). lia.
Qed.
Lemma place_reads dl dicPos v : place_ok prop dicBufSize checkDicSize dicPos v -> dicBufSize <= dl -> reads_ok dicBufSize checkDicSize dl dicPos v.
Proof.
  intros [Hp Hst Hpp Hr Hpos Hg Hf H1] Hdl. destruct Hp as [_ _ _ Hds]. change LZMA_DIC_MIN with 4096 in Hds. split; [| |done].
  - intros Hs. unfold prev_pos. destruct (Z.eqb_spec dicPos 0) as [->|]; [|lia]. destruct (decide (checkDicSize = 0)) as [Hc|Hc].
    + destruct (Hg Hc). destruct Hs; lia.
    + destruct (Hf Hc). lia.
  - intros Hs. unfold rep0_pos. destruct Hr as (Hr & _). unfold history in Hr. destruct (Z.eqb_spec checkDicSize 0) as [Hc|Hc].
    + destruct (Hg Hc). destruct Hs; [|lia]. destruct (Z.ltb_spec dicPos (rep0 v)); lia.
    + destruct (Hf Hc). destruct (Z.ltb_spec dicPos (rep0 v)); lia.
Qed.

(** [n] bytes later. *)
Lemma place_more dicPos v v' n : place_ok prop dicBufSize checkDicSize dicPos v -> 0 < n -> dicPos + n <= dicBufSize ->
  (checkDicSize = 0 -> processedPos v + n <= dicSize prop) ->
  0 <= state v' < kNumStates -> reps_in (Z.max 1 (history checkDicSize v)) v' -> processedPos v' = wrap 32 (processedPos v + n) ->
  place_ok prop dicBufSize checkDicSize (dicPos + n) v'.
Proof.
  intros [Hp Hst Hpp Hr Hpos Hg Hf H1] Hn Hle Hds Hst' Hr' Hpp'. pose proof (dicSize_ok _ Hp) as Hd.
  pose proof (wrap_bounds 32 (processedPos v + n) ltac:(lia)) as Hw.
  assert (checkDicSize = 0 -> processedPos v' = processedPos v + n) as Hsmall by (intros Hc; rewrite Hpp'; apply wrap_small; specialize (Hds Hc); lia).
  split; try done; try lia.
  - assert (history checkDicSize v <= history checkDicSize v').
    { unfold history. destruct (Z.eqb_spec checkDicSize 0) as [Hc|]; [rewrite (Hsmall Hc)|]; lia. }
    unfold reps_in in *. lia.
  - intros Hns. exfalso. apply Hns. unfold started. destruct (decide (checkDicSize = 0)) as [Hc|Hc]; [|by right]. left. rewrite (Hsmall Hc). lia.
Qed.
End Place.

(** ** Writing *)

Lemma wr8_ok m p b : 0 <= p < Z.of_nat (length m) -> Forall byte_ok m ->
  exists m', wr8 m p b = Some m' /\ length m' = length m /\ Forall byte_ok m'.
Proof.
  intros Hp Hm. unfold wr8. rewrite (proj2 (Z.leb_le 0 p)), (proj2 (Z.ltb_lt p _)) by lia. simpl. eexists. split; [done|].
  split; [apply length_insert|]. apply Forall_insert; [done|]. apply (wrap_bounds 8). lia.
Qed.

Lemma copy_forward_ok n dic dest src : 0 <= dest -> dest + Z.of_nat n <= Z.of_nat (length dic) -> 0 <= src -> src + Z.of_nat n <= Z.of_nat (length dic) ->
  Forall byte_ok dic -> exists dic', copy_forward n dic dest src = Some dic' /\ length dic' = length dic /\ Forall byte_ok dic'.
Proof.
  revert dic dest src. induction n as [|n IH]; intros dic dest src Hd Hdn Hs Hsn Hb; [by exists dic|]. simpl.
  destruct (rd8_in dic src) as [b ->]; [lia|]. destruct (wr8_ok dic dest b) as (dic1 & Ew & El & Hb1); [lia|done|]. simpl. rewrite Ew. simpl.
  destruct (IH dic1 (dest + 1) (src + 1)) as (dic' & E' & El' & Hb'); try done; try lia. exists dic'. split; [done|]. split; [lia|done].
Qed.
Lemma copy_round_ok n size dic dest pos : 0 <= dest -> dest + Z.of_nat n <= Z.of_nat (length dic) -> 0 <= pos < size -> size <= Z.of_nat (length dic) ->
  Forall byte_ok dic -> exists dic', copy_round n size dic dest pos = Some dic' /\ length dic' = length dic /\ Forall byte_ok dic'.
Proof.
  revert dic dest pos. induction n as [|n IH]; intros dic dest pos Hd Hdn Hs Hsn Hb; [by exists dic|]. simpl.
  destruct (rd8_in dic pos) as [b ->]; [lia|]. destruct (wr8_ok dic dest b) as (dic1 & Ew & El & Hb1); [lia|done|]. simpl. rewrite Ew. simpl.
  destruct (IH dic1 (dest + 1) (if pos + 1 =? size then 0 else pos + 1)) as (dic' & E' & El' & Hb'); try done; try lia.
  { destruct (Z.eqb_spec (pos + 1) size); lia. }
  exists dic'. split; [done|]. split; [lia|done].
Qed.
Lemma copy_rem_ok n size rep0 dic dicPos : 0 <= dicPos -> dicPos + Z.of_nat n <= size -> size <= Z.of_nat (length dic) -> 1 <= rep0 ->
  (rep0 <= dicPos \/ rep0 <= size) ->
  Forall byte_ok dic -> exists dic', copy_rem n size rep0 dic dicPos = Some dic' /\ length dic' = length dic /\ Forall byte_ok dic'.
Proof.
  revert dic dicPos. induction n as [|n IH]; intros dic dicPos Hp Hn Hs Hr Hrep Hb; [by exists dic|]. simpl.
  destruct (rd8_in dic (rep0_pos size dicPos rep0)) as [b ->]; [unfold rep0_pos; destruct (Z.ltb_spec dicPos rep0); lia|].
  destruct (wr8_ok dic dicPos b) as (dic1 & Ew & El & Hb1); [lia|done|]. simpl. rewrite Ew. simpl.
  destruct (IH dic1 (dicPos + 1)) as (dic' & E' & El' & Hb'); try done; try lia. exists dic'. split; [done|]. split; [lia|done].
Qed.

(** A match that has room for its first byte. *)
Lemma copy_match_ok limit size dic dicPos v : 0 <= dicPos < limit -> limit <= size -> size <= Z.of_nat (length dic) -> Forall byte_ok dic ->
  1 <= rep0 v -> 0 <= len v ->
  exists dic' n, copy_match limit size dic dicPos v = Some (Some (dic', dicPos + n,
      v <| processedPos := wrap 32 (processedPos v + n) |> <| len := len v + kMatchMinLen - n |>)) /\
    0 < n <= len v + kMatchMinLen /\ dicPos + n <= limit /\ (n < len v + kMatchMinLen -> dicPos + n = limit) /\
    length dic' = length dic /\ Forall byte_ok dic'.
Proof.
  intros Hpos Hlim Hsize Hb Hrep Hlen. unfold copy_match. change kMatchMinLen with 2.
  destruct (Z.eqb_spec (limit - dicPos) 0) as [|_]; [lia|].
  set (n := if limit - dicPos <? len v + 2 then limit - dicPos else len v + 2).
  assert (0 < n <= len v + 2 /\ dicPos + n <= limit /\ (n < len v + 2 -> dicPos + n = limit)) as (Hn & Hnl & Hnr).
  { unfold n. destruct (Z.ltb_spec (limit - dicPos) (len v + 2)); lia. }
  clearbody n. set (pos := if rep0 v <=? dicPos then rep0_pos size dicPos (rep0 v) else 0).
  assert (0 <= pos < size) as Hp.
  { unfold pos, rep0_pos. destruct (Z.leb_spec (rep0 v) dicPos); [|lia]. destruct (Z.ltb_spec dicPos (rep0 v)); lia. }
  clearbody pos. destruct (Z.leb_spec n (size - pos)) as [Hf|Hr].
  - destruct (copy_forward_ok (Z.to_nat n) dic dicPos pos) as (dic' & -> & El & Hb'); try done; try lia.
    exists dic', n. split; [done|]. split; [done|]. by split_and!.
  - destruct (copy_round_ok (Z.to_nat n) size dic dicPos pos) as (dic' & -> & El & Hb'); try done; try lia.
    exists dic', n. split; [done|]. split; [done|]. by split_and!.
Qed.

(** ** The main loop *)

Lemma symbol_within prop np : LzmaProps_GetNumProbs prop <= np -> within np (symbol_region prop).
Proof. intros Hnp q. unfold symbol_region, top. lia. Qed.

Section Loop.
Context (inp : list Z) (prop : CLzmaProps) (dicBufSize checkDicSize limit bufLimit np : Z).
Hypothesis inp_bytes : Forall byte_ok inp.
Hypothesis np_ok : LzmaProps_GetNumProbs prop <= np.
Hypothesis limit_ok : limit <= dicBufSize.
Hypothesis limit_first : checkDicSize = 0 -> limit <= dicSize prop.
(** Either 20 bytes are kept for a symbol, or only one symbol is decoded. *)
Hypothesis bufLimit_ok : bufLimit + LZMA_REQUIRED_INPUT_MAX <= Z.of_nat (length inp) \/ bufLimit = 0.

Definition has_input (b d : nat) (c : Coder) : Prop := exists m, enough (range c) m b d /\ buf c + Z.of_nat m <= Z.of_nat (length inp).
Abbreviation place := (place_ok prop dicBufSize checkDicSize).
Definition dic_ok (dic : list Z) : Prop := dicBufSize <= Z.of_nat (length dic) /\ Forall byte_ok dic.

(** The next symbol can be decoded: its bits are there, and at the limit it does not write one byte. *)
Definition next_ok (dic : list Z) (dicPos : Z) (v : Vars) (c : Coder) : Prop :=
  exists st c', run inp dic (symbol_step prop dicBufSize checkDicSize dicPos v) c = Some (st, c') /\
    step_ok (Z.max 1 (history checkDicSize v)) v st /\ coder_ok np c' /\ has_input 0 0 c' /\
    (dicPos = limit -> match st with Put _ _ | Short _ => False | _ => True end).

Lemma next_enough dic dicPos v c : place dicPos v -> dic_ok dic -> coder_ok np c -> has_input 22 26 c -> dicPos < limit -> next_ok dic dicPos v c.
Proof.
  intros Hp [Hdl Hdb] Hc (m & He & Hm) Hlt. pose proof (pl_props _ _ _ _ _ Hp) as Hprops.
  pose proof (ok_symbol prop dicBufSize checkDicSize (Z.of_nat (length dic)) dicPos _ Hprops v (place_vars _ _ _ _ _ Hp) (place_reads _ _ _ _ _ _ Hp Hdl)) as Hok.
  destruct (run_ok np inp dic inp_bytes Hdb _ _ _ _ _ c m Hok (symbol_within _ _ np_ok) Hc He Hm) as (st & c' & m' & E & Hst & Hc' & He' & Hm' & _).
  exists st, c'. split; [done|]. split; [done|]. split; [done|]. split; [exists m'; split; [done|lia]|lia].
Qed.

(** Before a further symbol of the loop. *)
Lemma next_again dic dicPos v c : place dicPos v -> dic_ok dic -> coder_ok np c -> dicPos < limit -> buf c < bufLimit -> next_ok dic dicPos v c.
Proof.
  intros Hp Hd Hc Hlt Hb. apply next_enough; try done. destruct bufLimit_ok as [Hl| ->]; [|pose proof (buf_ok _ _ Hc); lia].
  change LZMA_REQUIRED_INPUT_MAX with 20 in Hl. exists 21%nat. split; [|lia]. unfold enough.
  pose proof (range_low _ _ Hc) as Hr. eapply Z.le_trans; [|apply Z.mul_le_mono_nonneg_r; [by vm_compute|apply Z.mul_le_mono_nonneg_r; [by vm_compute|
    apply Z.mul_le_mono_nonneg_r; [by vm_compute|exact Hr]]]]. by vm_compute.
Qed.

Definition loop_ok (dic : list Z) (dicPos : Z) (r : Loop) : Prop :=
  match r with
  | Ended d pos v c =>
      place pos v /\ dic_ok d /\ length d = length dic /\ coder_ok np c /\ has_input 0 0 c /\ dicPos <= pos <= Z.max limit dicPos /\
      (len v = kMatchSpecLenStart \/ dicPos < pos /\ 0 <= len v < kMatchSpecLenStart /\ (len v <> 0 -> pos = limit))
  | Corrupt d pos c => dic_ok d /\ length d = length dic /\ coder_ok np c /\ dicPos <= pos <= Z.max limit dicPos
  end.
Lemma loop_ok_later dic dicPos dic' pos r : length dic' = length dic -> dicPos <= pos <= limit -> loop_ok dic' pos r -> loop_ok dic dicPos r.
Proof.
  intros El Hpos. destruct r as [d q v c|d q c]; simpl.
  - intros (Hp & Hd & Eld & Hc & Hi & Hq & Hl). split_and!; try done; lia.
  - intros (Hd & Eld & Hc & Hq). split_and!; try done; lia.
Qed.

Lemma decode_loop_ok fuel dic dicPos v c : place dicPos v -> len v = 0 -> dic_ok dic -> dicPos <= limit -> next_ok dic dicPos v c ->
  limit - dicPos < Z.of_nat fuel ->
  exists r, decode_loop inp fuel prop dicBufSize checkDicSize limit bufLimit dic dicPos v c = Some r /\ loop_ok dic dicPos r.
Proof.
  revert dic dicPos v c. induction fuel as [|fuel IH]; intros dic dicPos v c Hp Hl Hd Hlim (st & c' & E & Hst & Hc' & Hi & Hlast) Hf; [lia|].
  (* one byte or more were written *)
  assert (forall dic' pos v', place pos v' -> dic_ok dic' -> length dic' = length dic -> dicPos < pos <= limit -> 0 <= len v' < kMatchSpecLenStart ->
    (len v' <> 0 -> pos = limit) -> exists r,
    (if (pos <? limit) && (buf c' <? bufLimit) then decode_loop inp fuel prop dicBufSize checkDicSize limit bufLimit dic' pos v' c'
     else Some (Ended dic' pos v' c')) = Some r /\ loop_ok dic dicPos r) as Hagain.
  { intros dic' pos v' Hp' Hd' El' Hpos Hlen Hrem. destruct (Z.ltb_spec pos limit) as [H1|H1]; simpl.
    - destruct (Z.ltb_spec (buf c') bufLimit) as [H2|H2].
      + assert (len v' = 0) as Hl' by (destruct (decide (len v' = 0)); [done|lia]).
        destruct (IH dic' pos v' c' Hp' Hl' Hd') as (r & Er & Hr); [lia|by apply next_again|lia|]. exists r. split; [done|].
        apply (loop_ok_later dic dicPos dic' pos r El'); [lia|done].
      + eexists. split; [done|]. simpl. split_and!; try done; lia.
    - eexists. split; [done|]. simpl. split_and!; try done; lia. }
  destruct Hd as [Hdl Hdb]. pose proof (pl_pos _ _ _ _ _ Hp) as Hpos. cbn [decode_loop]. rewrite E. cbn [mbind option_bind].
  assert (forall v', 0 <= state v' < kNumStates -> same_reps v v' -> processedPos v' = wrap 32 (processedPos v + 1) -> dicPos < limit ->
    place (dicPos + 1) v') as Hone.
  { intros v' Hs (E0 & E1 & E2 & E3) Epp Hlt. apply (place_more prop dicBufSize checkDicSize dicPos v); try done; try lia.
    - intros Hz. destruct (pl_growing _ _ _ _ _ Hp Hz). specialize (limit_first Hz). lia.
    - pose proof (pl_reps _ _ _ _ _ Hp). unfold reps_in in *. by rewrite E0, E1, E2, E3. }
  destruct st as [b v'|v'|v'|v'|]; simpl in Hst.
  - destruct Hst as (Hs & Hr & Epp & El). assert (dicPos < limit) as Hlt by (destruct (decide (dicPos = limit)) as [Heq|]; [by destruct (Hlast Heq)|lia]).
    destruct (wr8_ok dic dicPos b) as (dic' & -> & El' & Hdb'); [lia|done|]. cbn [mbind option_bind].
    apply Hagain; [by apply Hone|split; [lia|done]|done|lia|rewrite El, Hl; by vm_compute|rewrite El; lia].
  - destruct Hst as (Hs & Hr & Epp & El). assert (dicPos < limit) as Hlt by (destruct (decide (dicPos = limit)) as [Heq|]; [by destruct (Hlast Heq)|lia]).
    assert (rep0 v' = rep0 v) as -> by (by destruct Hr).
    destruct (rd8_in dic (rep0_pos dicBufSize dicPos (rep0 v))) as [b ->].
    { destruct (decide (started checkDicSize v)) as [Hstart|Hn].
      - by apply (match_byte_ok _ _ _ _ _ (place_reads _ _ _ _ _ _ Hp Hdl)).
      - assert (checkDicSize = 0 /\ processedPos v = 0) as [Hz Hz'] by (unfold started in Hn; lia).
        destruct (pl_reps _ _ _ _ _ Hp) as (Hr0 & _). unfold history in Hr0. rewrite Hz, Z.eqb_refl, Hz' in Hr0.
        destruct (pl_growing _ _ _ _ _ Hp Hz). unfold rep0_pos. destruct (Z.ltb_spec dicPos (rep0 v)); lia. }
    cbn [mbind option_bind]. destruct (wr8_ok dic dicPos b) as (dic' & -> & El' & Hdb'); [lia|done|]. cbn [mbind option_bind].
    apply Hagain; [by apply Hone|split; [lia|done]|done|lia|rewrite El, Hl; by vm_compute|rewrite El; lia].
  - destruct Hst as (Hs & Hr & Epp & Hlen). destruct (decide (dicPos = limit)) as [Heq|Hne].
    { unfold copy_match. rewrite (proj2 (Z.eqb_eq (limit - dicPos) 0)) by lia. eexists. split; [done|]. simpl. split_and!; try done; lia. }
    destruct (copy_match_ok limit dicBufSize dic dicPos v') as (dic' & n & -> & Hn & Hnl & Hnr & El' & Hdb'); try done; try lia.
    { by destruct Hr as [[] _]. }
    cbn [mbind option_bind]. change kMatchMinLen with 2 in *. apply Hagain; try done; try lia.
    + apply (place_more prop dicBufSize checkDicSize dicPos v); try done; try lia.
      * intros Hz. destruct (pl_growing _ _ _ _ _ Hp Hz). specialize (limit_first Hz). lia.
      * simpl. by rewrite Epp.
    + split; [lia|done].
    + simpl. change kMatchSpecLenStart with 274. lia.
    + simpl. intros Hne0. apply Hnr. lia.
  - destruct Hst as (Hs & (E0 & E1 & E2 & E3) & Epp & Hlen). eexists. split; [done|]. simpl. split_and!; try done; try lia.
    destruct Hp as [Q1 Q2 Q3 Q4 Q5 Q6 Q7 Q8]. split; try done; unfold history, started, reps_in in *; rewrite ?E0, ?E1, ?E2, ?E3, ?Epp, ?Hs; try done.
  - eexists. split; [done|]. simpl. split_and!; try done; lia.
Qed.
End Loop.

(** ** The decoder between its calls *)

Record dec_ok (p : CLzmaDec) : Prop := {
  dc_place : place_ok (prop p) (dicBufSize p) (checkDicSize p) (dicPos p) (vars p);
  dc_coder : coder_ok (Z.of_nat (length (probs (coder p)))) (coder p);
  dc_norm : kTopValue <= range (coder p);
  dc_probs : LzmaProps_GetNumProbs (prop p) <= Z.of_nat (length (probs (coder p)));
  dc_dic : dic_ok (dicBufSize p) (dic p);
  dc_len : 0 <= remainLen p <= kMatchSpecLenStart;
  dc_first : checkDicSize p = 0 -> dicPos p < dicSize (prop p)
}.

(** What a call leaves as it is. *)
Definition same_arrays (p p' : CLzmaDec) : Prop :=
  prop p' = prop p /\ dicBufSize p' = dicBufSize p /\ length (dic p') = length (dic p) /\
  length (probs (coder p')) = length (probs (coder p)) /\ tempBuf p' = tempBuf p.
Lemma same_arrays_trans p q r : same_arrays p q -> same_arrays q r -> same_arrays p r.
Proof. intros (A1 & A2 & A3 & A4 & A5) (B1 & B2 & B3 & B4 & B5). split_and!; congruence. Qed.

Lemma normalize_probs inp c c1 : NORMALIZE inp c = Some c1 -> probs c1 = probs c.
Proof.
  unfold NORMALIZE. intros E. apply (f_equal (option_map probs)) in E. destruct (_ <? _) in E.
  - destruct (rd8 inp (buf c)); [|done]. cbn [mbind option_bind option_map probs] in E. congruence.
  - cbn [option_map] in E. congruence.
Qed.
(** The number of probabilities does not change. *)
Lemma run_probs inp d {A} (g : Prog A) c a c' : run inp d g c = Some (a, c') -> length (probs c') = length (probs c).
Proof.
  revert c. induction g as [a0|q k IH|k IH|pos k IH]; intros c Hr.
  - by injection Hr as _ <-.
  - cbn [run] in Hr. destruct (prob_at (probs c) q) as [v|]; [|done]. cbn [mbind option_bind] in Hr.
    destruct (NORMALIZE inp c) as [c1|] eqn:En; [|done]. cbn [mbind option_bind] in Hr.
    pose proof (normalize_probs _ _ _ En) as E1.
    destruct (_ <? _); apply IH in Hr; rewrite Hr; simpl; by rewrite set_prob_length, E1.
  - cbn [run] in Hr. destruct (NORMALIZE inp c) as [c1|] eqn:En; [|done]. cbn [mbind option_bind] in Hr.
    pose proof (normalize_probs _ _ _ En) as E1.
    assert (probs (direct c1).2 = probs c1) as Ed by reflexivity. destruct (direct c1) as [x c2]. cbn [snd] in Ed.
    apply IH in Hr. by rewrite Hr, Ed, E1.
  - cbn [run] in Hr. destruct (rd8 d pos) as [x|]; [|done]. by apply (IH x).
Qed.

(** The place after [n] bytes of a rest, with the dictionary perhaps full. *)
Lemma write_rem_place p n check : place_ok (prop p) (dicBufSize p) (checkDicSize p) (dicPos p) (vars p) ->
  (checkDicSize p = 0 -> dicPos p < dicSize (prop p)) -> 0 <= n -> dicPos p + n <= dicBufSize p ->
  check = (if (checkDicSize p =? 0) && (wrap 32 (dicSize (prop p) - processedPos (vars p)) <=? n) then dicSize (prop p) else checkDicSize p) ->
  place_ok (prop p) (dicBufSize p) check (dicPos p + n)
    (vars p <| processedPos := wrap 32 (processedPos (vars p) + n) |> <| len := remainLen p - n |>).
Proof.
  intros [Hp Hst Hpp Hr Hpos Hg Hfull H1] Hf Hn Hle ->. pose proof (dicSize_ok _ Hp) as Hds. change LZMA_DIC_MIN with 4096 in Hds.
  pose proof (wrap_bounds 32 (processedPos (vars p) + n) ltac:(lia)) as Hw.
  destruct (Z.eqb_spec (checkDicSize p) 0) as [Hc0|Hc0]; cbn [andb].
  - destruct (Hg Hc0) as [Ep _]. specialize (Hf Hc0). rewrite (wrap_small 32 (_ - _)) by lia. unfold history in Hr. rewrite Hc0 in Hr. simpl in Hr.
    destruct (Z.leb_spec (dicSize (prop p) - processedPos (vars p)) n) as [Hfill|Hroom].
    + split; cbn; try done; try lia.
      * unfold history, reps_in in *. destruct (Z.eqb_spec (dicSize (prop p)) 0); [lia|]. cbn. lia.
      * intros Hn0. exfalso. apply Hn0. right. lia.
    + rewrite Hc0. assert (wrap 32 (processedPos (vars p) + n) = processedPos (vars p) + n) as Ew by (apply wrap_small; lia).
      split; cbn; try done; try lia.
      * unfold history, reps_in in *. cbn. rewrite Ew. lia.
      * intros Hn0. apply H1. unfold started in *. cbn in Hn0. rewrite Hc0. lia.
  - destruct (Hfull Hc0) as [Ec Hsz]. split; cbn; try done; try lia.
    + unfold history, reps_in in *. destruct (Z.eqb_spec (checkDicSize p) 0); [done|]. done.
    + intros Hn0. exfalso. apply Hn0. by right.
Qed.

(** The rest of a match. *)
Lemma write_rem_ok p limit : dec_ok p -> dicPos p <= limit -> limit <= dicBufSize p ->
  exists p', LzmaDec_WriteRem p limit = Some p' /\ dec_ok p' /\ same_arrays p p' /\ coder p' = coder p /\ dicPos p <= dicPos p' <= limit /\
    (remainLen p' = 0 \/ remainLen p' = kMatchSpecLenStart /\ remainLen p = kMatchSpecLenStart \/ dicPos p' = limit) /\
    (remainLen p = kMatchSpecLenStart -> remainLen p' = kMatchSpecLenStart).
Proof.
  intros [Hp Hc Hn Hpr [Hdl Hdb] Hl Hf] Hlim Hsize. unfold LzmaDec_WriteRem.
  destruct (Z.eqb_spec (remainLen p) 0) as [E0|E0]; simpl.
  { exists p. split_and!; try done; lia. }
  destruct (Z.ltb_spec (remainLen p) kMatchSpecLenStart) as [E1|E1]; [|exists p; split_and!; try done; lia].
  set (n := if limit - dicPos p <? remainLen p then limit - dicPos p else remainLen p).
  assert (0 <= n <= remainLen p /\ dicPos p + n <= limit /\ (n < remainLen p -> dicPos p + n = limit)) as (Hn0 & Hnl & Hnr).
  { unfold n. destruct (Z.ltb_spec (limit - dicPos p) (remainLen p)); lia. }
  clearbody n. pose proof (pl_pos _ _ _ _ _ Hp) as Hpos. pose proof (pl_reps _ _ _ _ _ Hp) as Hreps. pose proof (pl_processed _ _ _ _ _ Hp) as Hpp.
  pose proof (dicSize_ok _ (pl_props _ _ _ _ _ Hp)) as Hds. change LZMA_DIC_MIN with 4096 in Hds.
  assert (1 <= rep0 (vars p) /\ (0 < n -> rep0 (vars p) <= dicPos p \/ rep0 (vars p) <= dicBufSize p)) as [Hr1 Hr2].
  { destruct Hreps as [[Hr1 Hr2] _]. split; [done|]. intros Hn1. unfold history in Hr2. destruct (Z.eqb_spec (checkDicSize p) 0) as [Hc0|Hc0].
    - destruct (pl_growing _ _ _ _ _ Hp Hc0). lia.
    - destruct (pl_full _ _ _ _ _ Hp Hc0). right. lia. }
  assert (exists d, copy_rem (Z.to_nat n) (dicBufSize p) (rep0 (vars p)) (dic p) (dicPos p) = Some d /\ length d = length (dic p) /\ Forall byte_ok d)
    as (d & Ed & Eld & Hbd).
  { destruct (decide (n = 0)) as [->|Hnz]; [by exists (dic p)|]. apply copy_rem_ok; try done; lia. }
  set (check := if (checkDicSize p =? 0) && (wrap 32 (dicSize (prop p) - processedPos (vars p)) <=? n) then dicSize (prop p) else checkDicSize p).
  assert (checkDicSize p = 0 -> wrap 32 (dicSize (prop p) - processedPos (vars p)) = dicSize (prop p) - dicPos p) as Ew.
  { intros Hc0. destruct (pl_growing _ _ _ _ _ Hp Hc0) as [-> H]. specialize (Hf Hc0). apply wrap_small. lia. }
  exists (p <| checkDicSize := check |> <| dic := d |> <| dicPos := dicPos p + n |>
            <| vars := vars p <| processedPos := wrap 32 (processedPos (vars p) + n) |> <| len := remainLen p - n |> |>).
  rewrite Ed. cbn [mbind option_bind]. split; [done|]. split; [|split_and!; try done; cbn; lia].
  split; try done.
  - apply (write_rem_place p n check); try done; lia.
  - split; [cbn; lia|done].
  - unfold remainLen. cbn. unfold remainLen in *. lia.
  - cbn. unfold check. destruct (Z.eqb_spec (checkDicSize p) 0) as [Hc0|]; [|done]. rewrite (Ew Hc0). simpl.
    destruct (Z.leb_spec (dicSize (prop p) - dicPos p) n); lia.
Qed.

(** ** Looking ahead *)

Definition at_start (p : CLzmaDec) : Coder := mkCoder (range (coder p)) (code (coder p)) 0 (probs (coder p)).
Lemma at_start_ok p np : coder_ok np (coder p) -> coder_ok np (at_start p).
Proof. intros []. by split. Qed.

(** Twenty bytes are enough for every symbol. *)
Lemma twenty_enough r : kTopValue <= r -> enough r 20 22 26.
Proof.
  intros Hr. change kTopValue with (2 ^ 24) in Hr. unfold enough. eapply Z.le_trans; [|apply Z.mul_le_mono_nonneg_r;
    [by vm_compute|apply Z.mul_le_mono_nonneg_r; [by vm_compute|apply Z.mul_le_mono_nonneg_r; [by vm_compute|exact Hr]]]]. by vm_compute.
Qed.
Lemma one_enough r : 2 ^ 16 <= r -> enough r 1 0 0.
Proof. unfold enough. change (256 ^ Z.of_nat 1) with 256. change (2 ^ 16) with 65536. simpl. lia. Qed.

(** The look ahead ends; it fails only on less than twenty bytes, and where it succeeds the symbol
    itself can be decoded. *)
Lemma try_dummy_ok inp p limit : dec_ok p -> Forall byte_ok inp ->
  exists r, LzmaDec_TryDummy inp p (Z.of_nat (length inp)) = Some r /\
  match r with
  | InputEnd => Z.of_nat (length inp) < LZMA_REQUIRED_INPUT_MAX
  | Value d => (dicPos p = limit -> d = DUMMY_MATCH) ->
      next_ok inp (prop p) (dicBufSize p) (checkDicSize p) limit (Z.of_nat (length (probs (coder p)))) (dic p) (dicPos p)
        (vars p <| len := 0 |>) (at_start p)
  end.
Proof.
  intros [Hp Hc Hn Hpr [Hdl Hdb] Hl Hf] Hin. set (np := Z.of_nat (length (probs (coder p)))) in *. unfold LzmaDec_TryDummy.
  set (v := vars p <| len := 0 |>). assert (place_ok (prop p) (dicBufSize p) (checkDicSize p) (dicPos p) v) as Hpv by (by destruct Hp).
  change (dummy_step (prop p) (dicBufSize p) (checkDicSize p) (dicPos p) (vars p)) with (dummy_step (prop p) (dicBufSize p) (checkDicSize p) (dicPos p) v).
  pose proof (pl_props _ _ _ _ _ Hpv) as Hprops.
  pose proof (ok_symbol (prop p) (dicBufSize p) (checkDicSize p) (Z.of_nat (length (dic p))) (dicPos p) _ Hprops v
    (place_vars _ _ _ _ _ Hpv) (place_reads _ _ _ _ _ _ Hpv Hdl)) as Hok.
  pose proof (same_symbol (prop p) (dicBufSize p) (checkDicSize p) (dicPos p) Hprops v (pl_processed _ _ _ _ _ Hpv)) as Hsame.
  pose proof (symbol_within _ _ Hpr) as Hw. pose proof (at_start_ok p np Hc) as Hc0. fold (at_start p).
  pose proof (same_bits_ok _ _ _ _ _ _ _ _ Hok Hsame) as Hokd.
  pose proof (check_ok np inp (dic p) Hin Hdb _ _ _ _ _ (at_start p) (Z.of_nat (length inp)) Hokd Hw Hc0 ltac:(lia)) as Ha.
  pose proof (twenty_enough (range (at_start p)) Hn) as H20. change LZMA_REQUIRED_INPUT_MAX with 20.
  destruct Ha as [[-> He]|(d & c1' & E & Hd & Hc1' & He)].
  { exists InputEnd. split; [done|]. specialize (He 20%nat H20). change (buf (at_start p)) with 0 in He. lia. }
  rewrite E. cbn [mbind option_bind].
  destruct (normalize_answers np inp Hin c1' (Z.of_nat (length inp)) Hc1' ltac:(lia)) as [[-> Hne]|(c2' & En & Hc2' & Hr2 & _ & _)].
  { exists InputEnd. split; [done|]. destruct (Z.lt_ge_cases (Z.of_nat (length inp)) 20) as [|Hge]; [done|exfalso].
    change (buf (at_start p)) with 0 in He.
    destruct (He 20%nat H20) as (m' & He' & Em); [lia|]. apply (Hne m' 0%nat 0%nat He'). lia. }
  rewrite En. cbn [mbind option_bind]. exists (Value d). split; [done|]. intros Hlast.
  destruct (ahead np inp (dic p) Hin Hdb kind _ _ (Z.of_nat (length inp)) _ _ _ _ (at_start p) (at_start p) d c1' Hok Hsame) as
    (st & c1 & Er & Hk & Hst & Hag & Hc1 & _ & Hb1); try done; try (by cbn; lia).
  exists st, c1. split; [done|]. split; [done|]. split; [done|]. split.
  - destruct Hag as (Er1 & _ & Eb1). unfold has_input. destruct (Z.lt_ge_cases (range c1) kTopValue) as [Hlt|Hge].
    + exists 1%nat. split; [apply one_enough; apply Hc1|]. unfold NORMALIZE_CHECK in En. rewrite <- Er1, <- Eb1, (proj2 (Z.ltb_lt _ _) Hlt) in En.
      destruct (Z.leb_spec (Z.of_nat (length inp)) (buf c1)); [done|lia].
    + exists 0%nat. split; [unfold enough; change kTopValue with (2 ^ 24) in Hge; simpl; lia|lia].
  - intros Heq. specialize (Hlast Heq). subst d. by destruct st.
Qed.

(** ** The calls *)

(** A call that failed: the arrays are as they should be. *)
Definition failed_ok (limit : Z) (p p' : CLzmaDec) : Prop :=
  same_arrays p p' /\ dic_ok (dicBufSize p') (dic p') /\ dicPos p <= dicPos p' <= limit.
Lemma failed_less limit2 limit p p' : limit2 <= limit -> failed_ok limit2 p p' -> failed_ok limit p p'.
Proof. intros Hl (Hs & Hd & Hp). split_and!; try done; lia. Qed.
(** Progress: the mark was found, or a byte was written; a rest is left only at the limit. *)
Definition moved (limit : Z) (p p' : CLzmaDec) : Prop :=
  dicPos p <= dicPos p' <= limit /\ (remainLen p' = kMatchSpecLenStart \/ dicPos p < dicPos p') /\
  (remainLen p' = 0 \/ remainLen p' = kMatchSpecLenStart \/ dicPos p' = limit).

Section Calls.
Context (inp : list Z).
Hypothesis inp_bytes : Forall byte_ok inp.

(** The coder is counted from the start of the input. *)
Definition buf_in (p : CLzmaDec) : Prop := buf (coder p) <= Z.of_nat (length inp).

Lemma decode_real_ok p limit bufLimit : dec_ok p -> remainLen p = 0 -> dicPos p <= limit -> limit <= dicBufSize p ->
  (checkDicSize p = 0 -> limit <= dicSize (prop p)) ->
  bufLimit + LZMA_REQUIRED_INPUT_MAX <= Z.of_nat (length inp) \/ bufLimit = 0 ->
  next_ok inp (prop p) (dicBufSize p) (checkDicSize p) limit (Z.of_nat (length (probs (coder p)))) (dic p) (dicPos p) (vars p <| len := 0 |>) (coder p) ->
  exists r p', LzmaDec_DecodeReal_3 inp p limit bufLimit = Some (r, p') /\
  if decide (r = SZ_OK) then
    same_arrays p p' /\ moved limit p p' /\ buf_in p' /\ checkDicSize p' = checkDicSize p /\
    place_ok (prop p') (dicBufSize p') (checkDicSize p') (dicPos p') (vars p') /\
    coder_ok (Z.of_nat (length (probs (coder p')))) (coder p') /\ kTopValue <= range (coder p') /\ dic_ok (dicBufSize p') (dic p') /\
    0 <= remainLen p' <= kMatchSpecLenStart
  else failed_ok limit p p'.
Proof.
  intros [Hp Hc Hn Hpr Hd Hl Hf] Hrem Hlim Hsize Hfirst Hbl Hnext. set (np := Z.of_nat (length (probs (coder p)))) in *.
  assert (place_ok (prop p) (dicBufSize p) (checkDicSize p) (dicPos p) (vars p <| len := 0 |>)) as Hpv by (by destruct Hp).
  destruct (decode_loop_ok inp (prop p) (dicBufSize p) (checkDicSize p) limit bufLimit np inp_bytes Hpr Hsize Hfirst Hbl
    (S (Z.to_nat (limit - dicPos p))) (dic p) (dicPos p) (vars p <| len := 0 |>) (coder p) Hpv eq_refl Hd Hlim Hnext) as (r & E & Hr); [lia|].
  unfold LzmaDec_DecodeReal_3. rewrite E. cbn [mbind option_bind]. pose proof (pl_pos _ _ _ _ _ Hp) as Hpos. destruct r as [d pos v c|d pos c].
  - destruct Hr as (Hp' & Hd' & El & Hc' & (m & He & Hm) & Hpos' & Hlen).
    destruct (normalize_ok np inp inp_bytes c m 0 0 Hc' He Hm) as (c1 & m1 & -> & Hc1 & Hr1 & _ & Hm1 & _ & _).
    cbn [mbind option_bind]. eexists _, _. split; [done|]. simpl.
    assert (Z.of_nat (length (probs c1)) = np) as Enp by apply Hc1.
    split; [split_and!; try done; cbn; unfold np in Enp; lia|].
    split; [unfold moved, remainLen; cbn; lia|]. split; [unfold buf_in; cbn; lia|]. split; [done|]. split; [done|].
    split; [cbn; by rewrite Enp|]. split; [done|]. split; [done|]. unfold remainLen. cbn. destruct Hlen as [->|]; [done|lia].
  - destruct Hr as (Hd' & El & Hc' & Hpos'). eexists _, _. split; [done|]. simpl. split; [|split; [done|cbn; lia]].
    assert (Z.of_nat (length (probs c)) = np) as Enp by apply Hc'. split_and!; try done. cbn. unfold np in Enp. lia.
Qed.

(** The place when the dictionary turns out to be full. *)
Lemma place_filled prop size check dicPos v : place_ok prop size check dicPos v -> check = 0 -> dicSize prop <= processedPos v ->
  place_ok prop size (dicSize prop) dicPos v.
Proof.
  intros [Hp Hst Hpp Hr Hpos Hg Hfull H1] -> Hle. pose proof (dicSize_ok _ Hp) as Hds. change LZMA_DIC_MIN with 4096 in Hds.
  destruct (Hg eq_refl) as [E1 E2]. split; try done; try lia.
  - unfold history, reps_in in *. simpl in Hr. destruct (Z.eqb_spec (dicSize prop) 0); lia.
  - intros Hn. exfalso. apply Hn. right. lia.
Qed.

Definition next_in (limit : Z) (p : CLzmaDec) : Prop :=
  next_ok inp (prop p) (dicBufSize p) (checkDicSize p) limit (Z.of_nat (length (probs (coder p)))) (dic p) (dicPos p) (vars p <| len := 0 |>) (coder p).

Lemma turn_ok p limit bufLimit : dec_ok p -> remainLen p = 0 -> dicPos p <= limit -> limit <= dicBufSize p ->
  bufLimit + LZMA_REQUIRED_INPUT_MAX <= Z.of_nat (length inp) \/ bufLimit = 0 -> next_in limit p ->
  exists r p', real2_turn inp p limit bufLimit = Some (r, p') /\
  if decide (r = SZ_OK) then dec_ok p' /\ same_arrays p p' /\ moved limit p p' /\ buf_in p' else failed_ok limit p p'.
Proof.
  intros Hp Hrem Hlim Hsize Hbl (st & c' & E & Hst & Hc' & Hi & Hlast). unfold real2_turn.
  pose proof (dc_place _ Hp) as Hpl. pose proof (dicSize_ok _ (pl_props _ _ _ _ _ Hpl)) as Hds. change LZMA_DIC_MIN with 4096 in Hds.
  set (rem := wrap 32 (dicSize (prop p) - processedPos (vars p))).
  assert (checkDicSize p = 0 -> rem = dicSize (prop p) - dicPos p /\ 0 < rem) as Hre.
  { intros Hc0. destruct (pl_growing _ _ _ _ _ Hpl Hc0) as [Ep _]. pose proof (dc_first _ Hp Hc0). pose proof (pl_pos _ _ _ _ _ Hpl).
    unfold rem. rewrite Ep, wrap_small; lia. }
  set (limit2 := if (checkDicSize p =? 0) && (rem <? limit - dicPos p) then dicPos p + rem else limit).
  assert (dicPos p <= limit2 <= limit /\ (dicPos p = limit2 -> dicPos p = limit) /\ (checkDicSize p = 0 -> limit2 <= dicSize (prop p))) as (Hl2 & Hl2e & Hl2f).
  { unfold limit2. destruct (Z.eqb_spec (checkDicSize p) 0) as [Hc0|Hc0]; cbn [andb]; [|lia]. destruct (Hre Hc0).
    destruct (Z.ltb_spec rem (limit - dicPos p)); lia. }
  destruct ((checkDicSize p =? 0) && _ && _).
  { eexists _, _. split; [done|]. simpl. split; [done|]. split; [apply Hp|lia]. }
  destruct (decode_real_ok p limit2 bufLimit Hp Hrem) as (r & p1 & -> & Hr); try done; try lia.
  { exists st, c'. split_and!; try done. intros Heq. by apply Hlast, Hl2e. }
  cbn [mbind option_bind]. destruct (decide (r = SZ_OK)) as [->|Hne].
  - destruct Hr as (Hsame & Hm & Hb & Hch & Hpl1 & Hc1 & Hn1 & Hd1 & Hlen1). pose proof Hsame as (S1 & S2 & S3 & S4 & S5).
    set (p2 := if (checkDicSize p1 =? 0) && (dicSize (prop p1) <=? processedPos (vars p1)) then p1 <| checkDicSize := dicSize (prop p1) |> else p1).
    assert (dec_ok p2 /\ dicPos p2 = dicPos p1 /\ remainLen p2 = remainLen p1 /\ coder p2 = coder p1 /\ same_arrays p1 p2) as (Hp2 & D1 & D2 & D3 & D4).
    { unfold p2. destruct (Z.eqb_spec (checkDicSize p1) 0) as [Hc0|Hc0]; cbn [andb].
      - destruct (Z.leb_spec (dicSize (prop p1)) (processedPos (vars p1))) as [Hf|Hf]; (split; [|by split_and!]).
        + split; try done; [by apply (place_filled _ _ (checkDicSize p1))|cbn; rewrite S4, S1; apply Hp|].
          cbn. rewrite S1. lia.
        + split; try done; [rewrite S4, S1; apply Hp|]. intros _. destruct (pl_growing _ _ _ _ _ Hpl1 Hc0). lia.
      - split; [|by split_and!]. split; try done. rewrite S4, S1. apply Hp. }
    destruct D4 as (S1' & S2' & S3' & S4' & S5'). unfold moved in Hm.
    destruct (write_rem_ok p2 limit Hp2) as (p3 & -> & Hp3 & Hs3 & Hco3 & Hpos3 & Hrem3 & Hmark3); [lia|rewrite S2', S2; lia|].
    cbn [mbind option_bind]. eexists _, _. split; [done|]. simpl. split; [done|]. split.
    + apply (same_arrays_trans p p1); [done|]. by apply (same_arrays_trans p1 p2).
    + split; [|unfold buf_in in *; by rewrite Hco3, D3]. unfold moved. rewrite D1, D2 in *. lia.
  - eexists _, _. split; [done|]. rewrite decide_False by done. by apply (failed_less limit2); [lia|].
Qed.

Lemma real2_loop_ok fuel p limit bufLimit : dec_ok p -> remainLen p = 0 -> dicPos p <= limit -> limit <= dicBufSize p ->
  bufLimit + LZMA_REQUIRED_INPUT_MAX <= Z.of_nat (length inp) \/ bufLimit = 0 -> next_in limit p -> limit - dicPos p < Z.of_nat fuel ->
  exists r p', real2_loop inp fuel p limit bufLimit = Some (r, p') /\
  if decide (r = SZ_OK) then dec_ok p' /\ same_arrays p p' /\ moved limit p p' /\ buf_in p' else failed_ok limit p p'.
Proof.
  revert p. induction fuel as [|fuel IH]; intros p Hp Hrem Hlim Hsize Hbl Hnext Hf; [lia|]. cbn [real2_loop].
  destruct (turn_ok p limit bufLimit Hp Hrem Hlim Hsize Hbl Hnext) as (r & p1 & -> & Hr). cbn [mbind option_bind].
  destruct (decide (r = SZ_OK)) as [->|Hne]; [|eexists _, _; split; [done|by rewrite decide_False]].
  destruct Hr as (Hp1 & Hs1 & Hm1 & Hb1). pose proof Hs1 as (S1 & S2 & S3 & S4 & S5).
  destruct (Z.ltb_spec (dicPos p1) limit) as [H1|H1]; [|eexists _, _; by split].
  destruct (Z.ltb_spec (buf (coder p1)) bufLimit) as [H2|H2]; [|eexists _, _; by split].
  destruct (Z.ltb_spec (remainLen p1) kMatchSpecLenStart) as [H3|H3]; [|eexists _, _; by split]. cbn [andb].
  unfold moved in Hm1. assert (remainLen p1 = 0) as Hrem1 by lia.
  destruct (IH p1 Hp1 Hrem1) as (r & p2 & E & Hr); try done; try lia.
  { apply (next_again inp (prop p1) (dicBufSize p1) (checkDicSize p1) limit bufLimit); try done; try apply Hp1.
    pose proof (dc_place _ Hp1) as []. by split. }
  exists r, p2. split; [done|]. destruct (decide (r = SZ_OK)).
  - destruct Hr as (Hp2 & Hs2 & Hm2 & Hb2). split; [done|]. split; [by apply (same_arrays_trans p p1)|]. split; [|done]. unfold moved in *. lia.
  - destruct Hr as (Hs2 & Hd2 & Hpos2). split; [by apply (same_arrays_trans p p1)|]. split; [done|]. pose proof (pl_pos _ _ _ _ _ (dc_place _ Hp)). lia.
Qed.
End Calls.

(** ** Reading from the source and from the bytes kept *)

(** The arrays and the room of a decoder are those of before. *)
Definition same_room (p p' : CLzmaDec) : Prop :=
  prop p' = prop p /\ dicBufSize p' = dicBufSize p /\ length (dic p') = length (dic p) /\ length (probs (coder p')) = length (probs (coder p)).
Lemma same_room_arrays p p' : same_arrays p p' -> same_room p p'.
Proof. intros (A1 & A2 & A3 & A4 & _). by split_and!. Qed.
Lemma same_room_trans p q r : same_room p q -> same_room q r -> same_room p r.
Proof. intros (A1 & A2 & A3 & A4) (B1 & B2 & B3 & B4). split_and!; congruence. Qed.

(** The bytes kept between calls. *)
Definition temp_ok (p : CLzmaDec) : Prop := Forall byte_ok (tempBuf p) /\ (length (tempBuf p) <= 20)%nat.

(** Between calls: a decoder at the start of a stream, or within one. *)
Record fresh (p : CLzmaDec) : Prop := {
  fr_props : props_ok (prop p);
  fr_probs : Z.of_nat (length (probs (coder p))) = LzmaProps_GetNumProbs (prop p);
  fr_dic : dic_ok (dicBufSize p) (dic p);
  fr_room : 0 <= dicBufSize p;
  fr_temp : (length (tempBuf p) < 5)%nat;
  fr_start : remainLen p = kMatchSpecLenStart + 2 /\ processedPos (vars p) = 0 /\ checkDicSize p = 0 /\ dicPos p = 0
}.
Definition stream_ok (p : CLzmaDec) : Prop := (fresh p \/ dec_ok p) /\ temp_ok p.

(** The answer of a call. *)
Definition answer_ok (p : CLzmaDec) (limit : Z) (a : Answer) : Prop :=
  let '(r, _, _, p') := a in
  same_room p p' /\ dic_ok (dicBufSize p') (dic p') /\ dicPos p <= dicPos p' <= limit /\ (r = SZ_OK -> stream_ok p').
(** A step of the loop: an answer, or symbols were decoded. *)
Definition step_made (p : CLzmaDec) (limit : Z) (r : Answer + CLzmaDec * list Z * Z) : Prop :=
  match r with
  | inl a => answer_ok p limit a
  | inr (p', src', _) => dec_ok p' /\ same_room p p' /\ temp_ok p' /\ moved limit p p' /\ Forall byte_ok src'
  end.

Lemma dec_answer p p' limit r st n : dec_ok p' -> temp_ok p' -> same_room p p' -> dicPos p <= dicPos p' <= limit -> answer_ok p limit (r, st, n, p').
Proof.
  intros Hp Ht Hs Hpos. split; [done|]. split; [apply Hp|]. split; [lia|]. intros _. split; [by right|done].
Qed.
Lemma dec_temp p t : dec_ok p -> dec_ok (p <| tempBuf := t |>).
Proof. intros []. by split. Qed.
Lemma dec_at_start p : dec_ok p -> dec_ok (p <| coder := at_start p |>).
Proof. intros [Hp Hc Hn Hpr Hd Hl Hf]. split; try done. by apply at_start_ok. Qed.

(** Symbols from an input that begins with the next byte of the stream. *)
Lemma real2_ok inp p limit bufLimit : dec_ok p -> Forall byte_ok inp -> remainLen p = 0 -> dicPos p <= limit -> limit <= dicBufSize p ->
  bufLimit + LZMA_REQUIRED_INPUT_MAX <= Z.of_nat (length inp) \/ bufLimit = 0 -> next_in inp limit (p <| coder := at_start p |>) ->
  exists r p', LzmaDec_DecodeReal2 inp (p <| coder := at_start p |>) limit bufLimit = Some (r, p') /\
  if decide (r = SZ_OK) then dec_ok p' /\ same_arrays p p' /\ moved limit p p' /\ buf_in inp p' else failed_ok limit p p'.
Proof.
  intros Hp Hin Hrem Hlim Hsize Hbl Hnext. unfold LzmaDec_DecodeReal2.
  by apply (real2_loop_ok inp Hin _ (p <| coder := at_start p |>) limit bufLimit (dec_at_start p Hp)); try done; cbn; lia.
Qed.
Lemma next_twenty inp p limit : dec_ok p -> Forall byte_ok inp -> (20 <= length inp)%nat -> dicPos p < limit ->
  next_in inp limit (p <| coder := at_start p |>).
Proof.
  intros Hp Hin Hlen Hlt. pose proof (dec_at_start p Hp) as H0. unfold next_in.
  assert (place_ok (prop p) (dicBufSize p) (checkDicSize p) (dicPos p) (vars p <| len := 0 |>)) as Hpl by (pose proof (dc_place _ Hp) as []; by split).
  refine (next_enough inp (prop p) (dicBufSize p) (checkDicSize p) limit _ Hin (dc_probs _ Hp) (dic p) (dicPos p) _ (at_start p) Hpl (dc_dic _ Hp) (dc_coder _ H0) _ Hlt).
  exists 20%nat. split; [apply twenty_enough; apply Hp|cbn; lia].
Qed.

Lemma failed_answer p p' limit st n r : r <> SZ_OK -> failed_ok limit p p' -> answer_ok p limit (r, st, n, p').
Proof. intros Hr (Hs & Hd & Hpos). split; [by apply same_room_arrays|]. split; [done|]. split; [lia|done]. Qed.

Lemma decode_src_ok p limit (now : bool) src n : dec_ok p -> temp_ok p -> tempBuf p = [] -> Forall byte_ok src -> remainLen p = 0 -> dicPos p <= limit ->
  limit <= dicBufSize p -> (now = false -> dicPos p < limit) ->
  exists r, decode_src p limit now src n = Some r /\ step_made p limit r.
Proof.
  intros Hp Ht Et Hsrc Hrem Hlim Hsize Hnow. unfold decode_src. fold (at_start p). pose proof (pl_pos _ _ _ _ _ (dc_place _ Hp)) as Hpos.
  assert (forall bufLimit, bufLimit + LZMA_REQUIRED_INPUT_MAX <= Z.of_nat (length src) \/ bufLimit = 0 -> next_in src limit (p <| coder := at_start p |>) ->
    exists r, ('(r, p) ← LzmaDec_DecodeReal2 src (p <| coder := at_start p |>) limit bufLimit;
      if decide (r = SZ_OK) then Some (inr (p, drop (Z.to_nat (buf (coder p))) src, n + buf (coder p)))
      else Some (inl (SZ_ERROR_DATA, LZMA_STATUS_NOT_SPECIFIED, n, p))) = Some r /\ step_made p limit r) as Hreal.
  { intros bufLimit Hbl Hnext. destruct (real2_ok src p limit bufLimit Hp Hsrc Hrem Hlim Hsize Hbl Hnext) as (r & p' & -> & Hr).
    cbn [mbind option_bind]. destruct (decide (r = SZ_OK)).
    - destruct Hr as (Hp' & Hs & Hm & _). eexists. split; [done|]. split; [done|]. split; [by apply same_room_arrays|].
      destruct Hs as (_ & _ & _ & _ & Es). split; [unfold temp_ok; by rewrite Es|]. split; [done|]. by apply Forall_drop.
    - eexists. split; [done|]. by apply failed_answer. }
  destruct ((Z.of_nat (length src) <? LZMA_REQUIRED_INPUT_MAX) || now) eqn:Ed.
  - destruct (try_dummy_ok src p limit Hp Hsrc) as (d & -> & Hd). cbn [mbind option_bind]. change LZMA_REQUIRED_INPUT_MAX with 20 in *. destruct d as [d|].
    + destruct now; [|destruct d; apply Hreal; try (by right); apply Hd; intros; specialize (Hnow eq_refl); lia].
      destruct d; [| |]; [eexists; split; [done|]; apply dec_answer; try done; lia|apply Hreal; [by right|by apply Hd]|eexists; split; [done|]; apply dec_answer; try done; lia].
    + rewrite (proj2 (Z.ltb_ge 20 _)) by lia. eexists. split; [done|]. apply dec_answer; [by apply dec_temp|split; cbn; [done|lia]|by split_and!|cbn; lia].
  - apply orb_false_iff in Ed as [Ed ->]. apply Z.ltb_ge in Ed. apply Hreal; [left; lia|]. change LZMA_REQUIRED_INPUT_MAX with 20 in *.
    apply next_twenty; try done; [lia|by apply Hnow].
Qed.
Lemma decode_temp_ok p limit (now : bool) src n : dec_ok p -> temp_ok p -> Forall byte_ok src -> remainLen p = 0 -> dicPos p <= limit ->
  limit <= dicBufSize p -> (now = false -> dicPos p < limit) ->
  exists r, decode_temp p limit now src n = Some r /\ step_made p limit r.
Proof.
  intros Hp0 [Htb Htl] Hsrc Hrem0 Hlim0 Hsize0 Hnow0. unfold decode_temp.
  set (inp := tempBuf p ++ take (Z.to_nat LZMA_REQUIRED_INPUT_MAX - length (tempBuf p)) src).
  set (p1 := p <| tempBuf := inp |>). change (tempBuf p1) with inp. change (mkCoder _ _ 0 _) with (at_start p1).
  set (lookAhead := Z.of_nat (length (take _ src))).
  pose proof (dec_temp p inp Hp0 : dec_ok p1) as Hp. pose proof (Hrem0 : remainLen p1 = 0) as Hrem. pose proof (Hlim0 : dicPos p1 <= limit) as Hlim.
  pose proof (Hsize0 : limit <= dicBufSize p1) as Hsize. pose proof (Hnow0 : now = false -> dicPos p1 < limit) as Hnow.
  assert (Forall byte_ok inp) as Hinp by (apply Forall_app_2; [done|by apply Forall_take]).
  assert (length inp <= 20)%nat as Hlen.
  { unfold inp. rewrite length_app, length_take. change (Z.to_nat LZMA_REQUIRED_INPUT_MAX) with 20%nat. lia. }
  assert (temp_ok p1) as Ht by (by split). assert (same_room p p1) as Hroom by done. clearbody inp.
  pose proof (pl_pos _ _ _ _ _ (dc_place _ Hp)) as Hpos.
  assert (next_in inp limit (p1 <| coder := at_start p1 |>) -> exists r,
    ('(r, p) ← LzmaDec_DecodeReal2 inp (p1 <| coder := at_start p1 |>) limit 0;
     if decide (r = SZ_OK) then
       if (Z.of_nat (length inp) <? buf (coder p)) || (lookAhead <? Z.of_nat (length inp) - buf (coder p))
       then Some (inl (SZ_ERROR_FAIL, LZMA_STATUS_NOT_SPECIFIED, n, p))
       else Some (inr (p <| tempBuf := [] |>, drop (Z.to_nat (lookAhead - (Z.of_nat (length inp) - buf (coder p)))) src,
                       n + (lookAhead - (Z.of_nat (length inp) - buf (coder p)))))
     else Some (inl (SZ_ERROR_DATA, LZMA_STATUS_NOT_SPECIFIED, n, p))) = Some r /\ step_made p1 limit r) as Hreal.
  { intros Hnext. destruct (real2_ok inp p1 limit 0 Hp Hinp Hrem Hlim Hsize (or_intror eq_refl) Hnext) as (r & p' & -> & Hr).
    cbn [mbind option_bind]. destruct (decide (r = SZ_OK)).
    - destruct Hr as (Hp' & Hs & Hm & _). destruct (_ || _).
      + eexists. split; [done|]. unfold moved in Hm. pose proof (pl_pos _ _ _ _ _ (dc_place _ Hp')). split; [by apply same_room_arrays|].
        split; [apply Hp'|]. split; [lia|done].
      + eexists. split; [done|]. split; [by apply dec_temp|]. split; [exact (same_room_arrays p1 p' Hs)|].
        split; [by split; cbn; [|lia]|]. split; [done|]. by apply Forall_drop.
    - eexists. split; [done|]. by apply failed_answer. }
  destruct ((Z.of_nat (length inp) <? LZMA_REQUIRED_INPUT_MAX) || now) eqn:Ed.
  - destruct (try_dummy_ok inp p1 limit Hp Hinp) as (d & -> & Hd). cbn [mbind option_bind]. destruct d as [d|].
    + destruct now; [|destruct d; apply Hreal; apply Hd; intros; specialize (Hnow eq_refl); lia].
      destruct d; [| |]; [eexists; split; [done|]; by apply dec_answer|apply Hreal; by apply Hd|eexists; split; [done|]; by apply dec_answer].
    + eexists. split; [done|]. by apply dec_answer.
  - apply orb_false_iff in Ed as [Ed ->]. apply Z.ltb_ge in Ed. change LZMA_REQUIRED_INPUT_MAX with 20 in *. apply Hreal.
    apply next_twenty; try done; [lia|by apply Hnow].
Qed.

(** ** The calls of the dictionary interface *)

Lemma step_later p q limit r : same_room p q -> dicPos p <= dicPos q -> step_made q limit r ->
  match r with inl a => answer_ok p limit a | inr (p', _, _) => same_room p p' end.
Proof.
  intros Hs Hpos. destruct r as [[[[r st] k] p']|[[p' src'] k]]; simpl.
  - intros (Hs' & Hd & Hp' & Hok). split; [by apply (same_room_trans p q)|]. split; [done|]. split; [lia|done].
  - intros (_ & Hs' & _). by apply (same_room_trans p q).
Qed.

Lemma dic_loop_ok fuel p limit src n mode : dec_ok p -> temp_ok p -> Forall byte_ok src -> dicPos p <= limit -> limit <= dicBufSize p ->
  (remainLen p = 0 \/ remainLen p = kMatchSpecLenStart \/ dicPos p = limit) ->
  (remainLen p = kMatchSpecLenStart \/ limit - dicPos p < Z.of_nat fuel) ->
  exists a, dic_loop fuel p limit src n mode = Some a /\ answer_ok p limit a.
Proof.
  revert p src n. induction fuel as [|fuel IH]; intros p src n Hp Ht Hsrc Hlim Hsize Hrem Hf; cbn [dic_loop];
    (destruct (Z.eqb_spec (remainLen p) kMatchSpecLenStart) as [Em|Em];
      [eexists; split; [done|]; destruct (negb _); apply dec_answer; (done || lia)|]); [lia|].
  destruct (output_full p limit mode) as [[r st]|now] eqn:Eo; [eexists; split; [done|]; by apply dec_answer|].
  unfold output_full in Eo. pose proof (pl_pos _ _ _ _ _ (dc_place _ Hp)) as Hpos.
  assert (remainLen p = 0 /\ (now = false -> dicPos p < limit)) as [Hr0 Hnow].
  { destruct (Z.leb_spec limit (dicPos p)) as [Hle|Hlt]; [|injection Eo as <-; split; [lia|done]].
    destruct (_ && _); [done|]. destruct (decide _); [done|]. destruct (Z.eqb_spec (remainLen p) 0) as [|]; [|done]. injection Eo as <-. by split. }
  assert (exists r, (if decide (tempBuf p = []) then decode_src p limit now src n else decode_temp p limit now src n) = Some r /\ step_made p limit r)
    as (r & -> & Hr).
  { destruct (decide (tempBuf p = [])); [by apply decode_src_ok|by apply decode_temp_ok]. }
  cbn [mbind option_bind]. destruct r as [a|[[p' src'] k]]; [by exists a|]. destruct Hr as (Hp' & Hs' & Ht' & Hm & Hsrc').
  unfold moved in Hm. assert (dicBufSize p' = dicBufSize p) as Es by apply Hs'.
  destruct (IH p' src' k Hp' Ht' Hsrc') as (a & E & Ha); [lia|lia|lia|lia|]. exists a. split; [done|].
  apply (step_later p p' limit (inl a) Hs'); [lia|done].
Qed.

Lemma code_bytes a b c d : byte_ok a -> byte_ok b -> byte_ok c -> byte_ok d ->
  0 <= Z.lor (Z.lor (Z.lor (Z.shiftl a 24) (Z.shiftl b 16)) (Z.shiftl c 8)) d < 2 ^ 32.
Proof.
  unfold byte_ok. intros Ha Hb Hc Hd. rewrite !Z.shiftl_mul_pow2 by lia. change (2 ^ 24) with 16777216. change (2 ^ 16) with 65536. change (2 ^ 8) with 256.
  assert (forall x y, 0 <= x < 2 ^ 32 -> 0 <= y < 2 ^ 32 -> 0 <= Z.lor x y < 2 ^ 32) as Hlor.
  { intros x y Hx Hy. split; [apply Z.lor_nonneg; lia|]. destruct (decide (Z.lor x y = 0)) as [->|Hne]; [done|].
    assert (0 <= Z.lor x y) by (apply Z.lor_nonneg; lia). apply Z.log2_lt_pow2; [lia|]. rewrite Z.log2_lor by lia.
    apply Z.max_lub_lt.
    - destruct (decide (x = 0)) as [->|]; [done|]. apply Z.log2_lt_pow2; lia.
    - destruct (decide (y = 0)) as [->|]; [done|]. apply Z.log2_lt_pow2; lia. }
  change (2 ^ 32) with 4294967296 in *. repeat apply Hlor; lia.
Qed.

Lemma init_coder_ok p src : fresh p -> temp_ok p -> Forall byte_ok src ->
  exists r, init_coder p src = Some r /\
  match r with
  | inl (r, st, n, p') => same_room p p' /\ dic_ok (dicBufSize p') (dic p') /\ dicPos p' = 0 /\ (r = SZ_OK -> fresh p' /\ temp_ok p')
  | inr (p', src') => dec_ok p' /\ same_room p p' /\ temp_ok p' /\ dicPos p' = 0 /\ remainLen p' = 0 /\ Forall byte_ok src' /\ (length src' <= length src)%nat
  end.
Proof.
  intros Hfr [Htb Htl] Hsrc. pose proof Hfr as [Hprops Hpr Hd Hroom H5 (Erem & Epp & Ech & Epos)]. unfold init_coder. rewrite Erem.
  change (kMatchSpecLenStart <? kMatchSpecLenStart + 2) with true. change (kMatchSpecLenStart + 1 <? kMatchSpecLenStart + 2) with true. cbn [andb].
  set (n := (Z.to_nat RC_INIT_SIZE - length (tempBuf p))%nat). change (tempBuf (p <| tempBuf := ?t |>)) with t.
  set (t := tempBuf p ++ take n src). assert (Forall byte_ok t) as Ht by (apply Forall_app_2; [done|by apply Forall_take]).
  assert (length t <= 5)%nat as Hlen.
  { unfold t, n. rewrite length_app, length_take. change (Z.to_nat RC_INIT_SIZE) with 5%nat. lia. }
  set (taken := Z.of_nat (length (take n src))). clearbody taken. cbv zeta. change (tempBuf (p <| tempBuf := t |>)) with t. clearbody t.
  assert (forall r st k, (r <> SZ_OK \/ (length t < 5)%nat) -> exists a : Answer + CLzmaDec * list Z, Some (inl (r, st, k, p <| tempBuf := t |>)) = Some a /\
    match a with
    | inl (r, st, n, p') => same_room p p' /\ dic_ok (dicBufSize p') (dic p') /\ dicPos p' = 0 /\ (r = SZ_OK -> fresh p' /\ temp_ok p')
    | inr (p', src') => dec_ok p' /\ same_room p p' /\ temp_ok p' /\ dicPos p' = 0 /\ remainLen p' = 0 /\ Forall byte_ok src' /\ (length src' <= length src)%nat
    end) as Hret.
  { intros r st k Hr. eexists. split; [done|]. split; [done|]. split; [done|]. split; [done|]. intros ->. destruct Hr as [|Hr]; [done|].
    split; [by destruct Hfr; split|]. split; [done|cbn; lia]. }
  destruct t as [|b0 [|b1 [|b2 [|b3 [|b4 [|b5 t]]]]]]; simpl in Hlen;
    try (destruct (negb (b0 =? 0)); apply Hret; simpl; first [by left|right; lia]); [apply Hret; right; simpl; lia|].
  destruct (negb (b0 =? 0)); [apply Hret; by left|].
  change (prop (p <| tempBuf := [b0; b1; b2; b3; b4] |>)) with (prop p).
  change (coder (p <| tempBuf := [b0; b1; b2; b3; b4] |>)) with (coder p).
  rewrite (proj2 (Z.ltb_ge (Z.of_nat (length (probs (coder p)))) (LzmaProps_GetNumProbs (prop p)))) by lia.
  apply Forall_cons_1 in Ht as [_ Ht]. apply Forall_cons_1 in Ht as [Hb1 Ht]. apply Forall_cons_1 in Ht as [Hb2 Ht]. apply Forall_cons_1 in Ht as [Hb3 Ht].
  apply Forall_cons_1 in Ht as [Hb4 _]. pose proof (code_bytes b1 b2 b3 b4 Hb1 Hb2 Hb3 Hb4) as Hcode.
  rewrite <- Hpr, Nat2Z.id, drop_all, app_nil_r. set (code0 := Z.lor _ b4) in *. clearbody code0.
  rewrite andb_false_r. change (remainLen (p <| tempBuf := ?t |>)) with (remainLen p). rewrite Erem.
  change (kMatchSpecLenStart + 1 <? kMatchSpecLenStart + 2) with true. cbv iota. eexists. split; [done|]. split; [|split; [|split; [|split; [|split; [|split]]]]].
  - assert (LZMA_DIC_MIN <= dicSize (prop p) < 2 ^ 32) as Hds by apply Hprops. change LZMA_DIC_MIN with 4096 in Hds.
    split; cbn; try done; rewrite ?repeat_length.
    + rewrite Epp, Ech, Epos. split; cbn; try done; try lia.
    + split; cbn; try done; try lia; [|by rewrite repeat_length]. apply Forall_forall. intros x Hx%repeat_spec. subst x. by vm_compute.
    + rewrite <- Hpr. done.
    + intros _. rewrite Epos. lia.
  - split_and!; [done|done|done|apply repeat_length].
  - by split; cbn; [|lia].
  - done.
  - done.
  - by apply Forall_drop.
  - rewrite length_drop. lia.
Qed.

(** A call of the dictionary interface between calls: it ends, stays within its arrays and leaves a
    stream that can be continued. *)
Lemma decode_to_dic_ok p limit src mode : stream_ok p -> Forall byte_ok src -> dicPos p <= limit -> limit <= dicBufSize p ->
  exists a, LzmaDec_DecodeToDic p limit src mode = Some a /\ answer_ok p limit a.
Proof.
  intros [Hp Ht] Hsrc Hlim Hsize. unfold LzmaDec_DecodeToDic.
  assert (exists r, init_coder p src = Some r /\
    match r with
    | inl a => answer_ok p limit a
    | inr (p', src') => dec_ok p' /\ same_room p p' /\ temp_ok p' /\ dicPos p' = dicPos p /\ Forall byte_ok src'
    end) as (r & -> & Hr).
  { destruct Hp as [Hp|Hp].
    - destruct (init_coder_ok p src Hp Ht Hsrc) as (r & E & Hr). exists r. split; [done|].
      destruct Hp as [_ _ _ Hroom _ (_ & _ & _ & Epos)]. destruct r as [[[[r st] n] p']|[p' src']].
      + destruct Hr as (Hs & Hd & E' & Hok). assert (dicBufSize p' = dicBufSize p) by apply Hs. split; [done|]. split; [done|]. split; [lia|].
        intros Er. destruct (Hok Er). split; [by left|done].
      + destruct Hr as (Hp' & Hs & Ht' & E' & _ & Hsrc' & _). split_and!; try done; lia.
    - exists (inr (p, src)). unfold init_coder. pose proof (dc_len _ Hp) as Hl. rewrite (proj2 (Z.ltb_ge _ _)) by lia. by split_and!. }
  cbn [mbind option_bind]. destruct r as [a|[p' src']]; [by exists a|]. destruct Hr as (Hp' & Hs' & Ht' & Epos & Hsrc').
  assert (dicBufSize p' = dicBufSize p) as Eb by apply Hs'.
  destruct (write_rem_ok p' limit Hp') as (q & -> & Hq & Hsq & _ & Hposq & Hremq & _); [lia|lia|]. cbn [mbind option_bind].
  assert (dicBufSize q = dicBufSize p') as Ebq by apply Hsq.
  assert (temp_ok q) as Htq by (destruct Hsq as (_ & _ & _ & _ & Et); unfold temp_ok; by rewrite Et).
  destruct (dic_loop_ok (S (S (Z.to_nat (limit - dicPos q)))) q limit src' (Z.of_nat (length src - length src')) mode Hq Htq Hsrc') as (a & E & Ha); [lia..|].
  exists a. split; [done|]. assert (same_room p q) as Hpq by (apply (same_room_trans p p'); [done|by apply same_room_arrays]).
  apply (step_later p q limit (inl a) Hpq); [lia|done].
Qed.

(** ** The buffer interface *)

Lemma rewind_ok p : stream_ok p -> dicPos p = dicBufSize p -> dicSize (prop p) <= dicBufSize p -> stream_ok (p <| dicPos := 0 |>).
Proof.
  intros [Hp Ht] Epos Hsize. split; [|done]. destruct Hp as [Hp|Hp].
  - left. destruct Hp as [A B C D E (F & G & H & I)]. by split.
  - right. destruct Hp as [[Hpr Hst Hpp Hr Hpos Hg Hfull H1] Hc Hn Hpb Hd Hl Hf].
    assert (checkDicSize p <> 0) as Hne by (intros Hc0; specialize (Hf Hc0); lia).
    split; try done. split; try done; cbn; lia.
Qed.

Lemma buf_loop_ok fuel p outSize dest src n mode : stream_ok p -> Forall byte_ok src -> 0 <= outSize -> dicSize (prop p) <= dicBufSize p ->
  0 < dicBufSize p -> 0 <= dicPos p <= dicBufSize p -> outSize < Z.of_nat fuel ->
  exists r st k p' dest', buf_loop fuel p outSize dest src n mode = Some ((r, st, k, p'), dest') /\ same_room p p' /\
    Z.of_nat (length dest') <= Z.of_nat (length dest) + outSize /\ (r = SZ_OK -> stream_ok p').
Proof.
  revert p outSize dest src n. induction fuel as [|fuel IH]; intros p outSize dest src n Hp Hsrc Hout Hds Hsz Hpos Hf; [lia|]. cbn [buf_loop].
  set (p0 := if dicPos p =? dicBufSize p then p <| dicPos := 0 |> else p).
  assert (stream_ok p0 /\ same_room p p0 /\ 0 <= dicPos p0 < dicBufSize p0) as (Hp0 & Hs0 & Hpos0).
  { unfold p0. destruct (Z.eqb_spec (dicPos p) (dicBufSize p)) as [E|E]; [|split_and!; try done; lia].
    split; [by apply rewind_ok|]. split; [by split_and!|]. cbn. lia. }
  assert (dicBufSize p0 = dicBufSize p /\ prop p0 = prop p) as [Eb Epr] by (by destruct Hs0 as (? & ? & _)).
  destruct (if dicBufSize p0 - dicPos p0 <? outSize then (dicBufSize p0, LZMA_FINISH_ANY) else (dicPos p0 + outSize, mode)) as [cur curMode] eqn:Ec.
  assert (dicPos p0 <= cur <= dicBufSize p0 /\ cur <= dicPos p0 + outSize) as [Hcur Hcur'].
  { destruct (Z.ltb_spec (dicBufSize p0 - dicPos p0) outSize); injection Ec as <- _; lia. }
  destruct (decode_to_dic_ok p0 cur src curMode Hp0 Hsrc) as ([[[r st] k] p1] & -> & Hs1 & Hd1 & Hpos1 & Hok); [lia|lia|].
  cbn [mbind option_bind]. set (took := dicPos p1 - dicPos p0). set (out := take (Z.to_nat took) (drop (Z.to_nat (dicPos p0)) (dic p1))).
  assert (Z.of_nat (length out) <= took <= outSize) as Hlen by (unfold out; rewrite length_take; lia).
  assert (same_room p p1) as Hs by (by apply (same_room_trans p p0)).
  destruct (negb (bool_decide (r = SZ_OK)) || (took =? 0) || (outSize - took =? 0)) eqn:Ed.
  - exists r, st, (n + k), p1, (dest ++ out). split; [done|]. split; [done|]. split; [rewrite length_app; lia|done].
  - apply orb_false_iff in Ed as [Ed _]. apply orb_false_iff in Ed as [Er Et]. apply negb_false_iff, bool_decide_eq_true in Er.
    apply Z.eqb_neq in Et. assert (dicBufSize p1 = dicBufSize p /\ prop p1 = prop p) as [E1 E2] by (by destruct Hs as (? & ? & _)).
    destruct (IH p1 (outSize - took) (dest ++ out) (drop (Z.to_nat k) src) (n + k)) as (r' & st' & k' & p' & dest' & E & Hs' & Hl & Hok'); try done; try lia.
    + by apply Hok.
    + by apply Forall_drop.
    + rewrite E2. lia.
    + exists r', st', k', p', dest'. split; [done|]. split; [by apply (same_room_trans p p1)|]. rewrite length_app in Hl. split; [lia|done].
Qed.

(** ** One call *)

Lemma rd32_bytes m p v : Forall byte_ok m -> rd32 m p = Some v -> 0 <= v < 2 ^ 32.
Proof.
  intros Hm. assert (forall q x, rd8 m q = Some x -> byte_ok x) as H8.
  { intros q x Hx. unfold rd8 in Hx. destruct (_ <? 0); [done|]. by apply (Forall_lookup_1 _ _ _ _ Hm Hx). }
  unfold rd32, rd16. change (2 ^ 32) with 4294967296.
  destruct (rd8 m p) as [a|] eqn:Ea; [|done]. destruct (rd8 m (p + 1)) as [b|] eqn:Eb; [|done].
  destruct (rd8 m (p + 2)) as [c|] eqn:Ec; [|done]. destruct (rd8 m (p + 2 + 1)) as [d|] eqn:Ed; [|done].
  cbn [mbind option_bind]. intros [= <-]. apply H8 in Ea, Eb, Ec, Ed. unfold byte_ok in *. lia.
Qed.

(** The properties of a stream are within their bounds, or refused. *)
Lemma props_decoded data size : Forall byte_ok data -> size <= Z.of_nat (length data) ->
  exists r, LzmaProps_Decode data size = Some r /\ match r with inl prop => props_ok prop | inr e => e = SZ_ERROR_UNSUPPORTED end.
Proof.
  intros Hb Hsize. unfold LzmaProps_Decode. change LZMA_PROPS_SIZE with 5.
  destruct (Z.ltb_spec size 5) as [|H5]; [by eexists|]. change (9 * 5 * 5) with 225.
  destruct (rd8_in data 0) as [d Ed]; [lia|]. rewrite Ed. cbn [mbind option_bind].
  assert (is_Some (rd32 data 1)) as [v Ev].
  { unfold rd32, rd16. destruct (rd8_in data 1) as [? ->]; [lia|]. destruct (rd8_in data (1 + 1)) as [? ->]; [lia|].
    destruct (rd8_in data (1 + 2)) as [? ->]; [lia|]. destruct (rd8_in data (1 + 2 + 1)) as [? ->]; [lia|]. by eexists. }
  rewrite Ev. cbn [mbind option_bind]. destruct (Z.leb_spec 225 d) as [|Hd]; [by eexists|]. eexists. split; [done|].
  pose proof (rd32_bytes _ _ _ Hb Ev) as Hv. assert (byte_ok d) as Hdb.
  { unfold rd8 in Ed. simpl in Ed. by apply (Forall_lookup_1 _ _ _ _ Hb Ed). }
  unfold byte_ok in Hdb. change LZMA_DIC_MIN with 4096. change (2 ^ 32) with 4294967296 in Hv.
  split; cbn; try (Z.to_euclidean_division_equations; lia). change LZMA_DIC_MIN with 4096. change (2 ^ 32) with 4294967296.
  destruct (Z.ltb_spec v 4096); lia.
Qed.
Lemma num_probs_pos prop : props_ok prop -> 1984 < LzmaProps_GetNumProbs prop.
Proof.
  intros Hp. pose proof (top_eq prop Hp) as Ht. unfold top in Ht. change kStartOffset with 1664 in Ht.
  assert (0 < 2 ^ (lc prop + lp prop)) by (apply Z.pow_pos_nonneg; destruct Hp; lia). lia.
Qed.

Lemma cells16_length l : length (cells16 l) = (length l / 2)%nat.
Proof.
  assert (forall n l, (length l <= n)%nat -> length (cells16 l) = (length l / 2)%nat) as Hn; [|by apply (Hn (length l))].
  clear l. induction n as [|n IH]; intros [|a [|b l]] Hl; try done; simpl in Hl; [lia|].
  change (length (cells16 (a :: b :: l))) with (S (length (cells16 l))). rewrite IH by lia.
  change (length (a :: b :: l)) with (1 * 2 + length l)%nat. rewrite Nat.div_add_l by lia. lia.
Qed.

Section OneCall.
Context `{AllocLaws}.

(** What [LzmaDec_AllocateProbs] leaves of a decoder without memory. *)
Lemma allocate_probs_ok props size : Forall byte_ok props -> size <= Z.of_nat (length props) ->
  exists r p, LzmaDec_AllocateProbs (LzmaDec_Construct new_decoder) props size = Some (r, p) /\
  (r = SZ_OK -> props_ok (prop p) /\ Z.of_nat (length (probs (coder p))) = LzmaProps_GetNumProbs (prop p)).
Proof.
  intros Hb Hsize. unfold LzmaDec_AllocateProbs, with_props. destruct (props_decoded props size Hb Hsize) as (r & -> & Hr). cbn [mbind option_bind].
  destruct r as [prop|e]; [|subst e; eexists _, _; by split]. unfold LzmaDec_AllocateProbs2.
  change (probs (coder (LzmaDec_Construct new_decoder))) with (@nil Z). rewrite bool_decide_eq_true_2 by done. cbn [orb].
  destruct (can_alloc _); cbn [negb]; [|eexists _, _; by split].
  rewrite decide_True by done. eexists _, _. split; [done|]. intros _. cbn. split; [done|].
  rewrite cells16_length. pose proof (num_probs_pos prop Hr). pose proof (uninit_length (2 * LzmaProps_GetNumProbs prop) ltac:(lia)) as Hu.
  rewrite Nat2Z.inj_div, Hu, Z.mul_comm, Z.div_mul by lia. done.
Qed.

(** A call that ended: the destination keeps its length, and no more was written than asked for. *)
Definition ended_inside (dest : list Z) (outSize : Z) (r : option Decoded) : Prop :=
  exists d, r = Some d /\ length (d_dest d) = length dest /\ 0 <= d_destLen d <= outSize.

(** C15: Whatever the compressed bytes, the header and the size asked for, decoding a vault ends without an
    access outside of the source, the destination, the dictionary or the probabilities. *)
Theorem decode_stays_inside dest outSize src propData propSize mode : Forall byte_ok dest -> 0 <= outSize <= Z.of_nat (length dest) ->
  Forall byte_ok src -> Forall byte_ok propData -> propSize <= Z.of_nat (length propData) ->
  ended_inside dest outSize (LzmaDecode dest outSize src propData propSize mode).
Proof.
  intros Hdest Hout Hsrc Hprops Hsize. unfold LzmaDecode. destruct (_ <? RC_INIT_SIZE); [eexists; split; [done|split; [done|cbn; lia]]|].
  destruct (allocate_probs_ok propData propSize Hprops Hsize) as (r & p & -> & Hp). cbn [mbind option_bind].
  destruct (decide (r = SZ_OK)) as [Er|]; [|eexists; split; [done|split; [done|cbn; lia]]]. destruct (Hp Er) as [Hpr Hnp].
  set (q := LzmaDec_Init (p <| dic := dest |> <| dicBufSize := outSize |>)).
  assert (stream_ok q) as Hq.
  { split; [left|split; [constructor|cbn; lia]]. split; [done|done|split; [cbn; lia|done]|cbn; lia|cbn; lia|by split_and!]. }
  destruct (decode_to_dic_ok q outSize src mode Hq Hsrc) as ([[[r' st] n] p'] & -> & Hs & Hd & Hpos & _); [cbn; lia|cbn; lia|].
  cbn [mbind option_bind]. eexists. split; [done|]. cbn in *. split; [apply Hs|lia].
Qed.
End OneCall.

(** ** Streams *)

Module Streams.
#[local] Instance heap : Alloc := {| can_alloc _ := true; uninit n := repeat 7 (Z.to_nat n) |}.
#[local] Instance heap_laws : AllocLaws.
Proof.
  split; [intros n Hn; simpl; rewrite repeat_length; lia|]. intros n. apply Forall_forall. by intros x ->%repeat_spec.
Qed.
(** The properties, the size and the codes of 23 bytes. *)
Definition file : list Z :=
  [93; 0; 16; 0; 0; 255; 255; 255; 255; 255; 255; 255; 255; 0; 58; 26; 8; 212; 131; 9; 52; 199; 175; 2; 219; 76; 139; 255; 255; 252; 95; 64; 0].
Definition content : list Z :=
  [116; 104; 101; 114; 109; 97; 108; 32; 116; 104; 101; 114; 109; 97; 108; 32; 116; 104; 101; 114; 109; 97; 108].
Definition bytes_in (l : list Z) : bool := forallb (fun b => (0 <=? b) && (b <? 256)) l.
Lemma bytes_in_ok l : bytes_in l = true -> Forall byte_ok l.
Proof. unfold bytes_in. rewrite forallb_forall, Forall_forall. intros Hl x Hx%Hl. unfold byte_ok. zbool. lia. Qed.

Example content_decoded :
  option_map (fun d => (d_res d, d_status d, d_dest d)) (LzmaDecode (repeat 0 23) 23 (drop 13 file) file 13 LZMA_FINISH_END) =
  Some (SZ_OK, LZMA_STATUS_FINISHED_WITH_MARK, content).
Proof. vm_compute. reflexivity. Qed.
(** Cut off, it is an error. *)
Example content_cut :
  option_map (fun d => (d_res d, d_status d, d_destLen d)) (LzmaDecode (repeat 0 23) 23 (take 12 (drop 13 file)) file 13 LZMA_FINISH_ANY) =
  Some (SZ_ERROR_INPUT_EOF, LZMA_STATUS_NEEDS_MORE_INPUT, 7).
Proof. vm_compute. reflexivity. Qed.

Lemma decode_stays_inside_witness :
  ended_inside (repeat 0 23) 23 (LzmaDecode (repeat 0 23) 23 (drop 13 file) (0x5D :: file) 13 LZMA_FINISH_ANY).
Proof.
  apply (decode_stays_inside (repeat 0 23) 23 (drop 13 file) (0x5D :: file) 13 LZMA_FINISH_ANY); try (apply bytes_in_ok; vm_compute; reflexivity);
    vm_compute; done.
Defined.

(** The buffer interface with a dictionary of 4096 bytes: 4090 zeros and abcdef twice.  The match for the second
    abcdef begins six bytes before the first byte of the dictionary, and is copied from its start. *)
Definition long_file : list Z :=
  [93; 0; 16; 0; 0; 255; 255; 255; 255; 255; 255; 255; 255; 0; 0; 111; 253; 255; 255; 163; 183; 255; 71; 62; 72; 21; 114; 57; 97; 81; 184; 146; 40; 230; 163; 129; 137; 148; 232; 153; 213; 218; 139; 199; 80; 83; 211; 255; 255; 245; 74; 192; 0].
Definition opened : CLzmaDec :=
  match LzmaDec_Allocate new_decoder long_file 5 with Some (_, p) => LzmaDec_Init p | None => new_decoder end.
Definition abcdef : list Z := [97; 98; 99; 100; 101; 102].
Example wrapped_match_wrong :
  option_map (fun '(r, st, _, _, out) => (r, drop 4090 out)) (LzmaDec_DecodeToBuf opened 4102 (drop 13 long_file) LZMA_FINISH_ANY) =
  Some (SZ_OK, abcdef ++ repeat 0 6).
Proof. vm_compute. reflexivity. Qed.
End Streams.
