(* ===== verification/RangeEncode.v ===== *)
(** * A reference encoder for the bits of an LZMA stream

    The decoder of RangeCoder.v narrows an interval with each bit.  The encoder here does the
    same with the bits it is given, and keeps the lower end of the interval as one number; what
    it writes is that number.  [run_encoded]: a program run on it gets the bits back. *)

From Stdlib Require Import ZArith Lia.
From stdpp Require Import base list option.
From S2P Require Import Prelude Bytes RangeCoder.

#[local] Open Scope Z_scope.

(** ** The encoder *)

(** [shifts]: how many bytes the interval was scaled by. *)
Record Enc := mkEnc { low : Z; erange : Z; shifts : nat; eprobs : list Z }.
Definition enc_normalize (e : Enc) : Enc :=
  if erange e <? kTopValue then mkEnc (low e * 256) (erange e * 256) (S (shifts e)) (eprobs e) else e.
Definition enc_bit (p v : Z) (b : bool) (e : Enc) : Enc :=
  let bound := erange e / 2048 * v in
  if b then mkEnc (low e + bound) (erange e - bound) (shifts e) (set_prob (eprobs e) p (v - Z.shiftr v kNumMoveBits))
  else mkEnc (low e) bound (shifts e) (set_prob (eprobs e) p (v + Z.shiftr (kBitModelTotal - v) kNumMoveBits)).
Definition enc_direct (b : bool) (e : Enc) : Enc :=
  let half := erange e / 2 in mkEnc (if b then low e + half else low e) half (shifts e) (eprobs e).

(** The program with the bits it is to get: its value, the bits that are left, the interval. *)
Fixpoint encode (dic : list Z) {A} (g : Prog A) (bits : list bool) (e : Enc) : option (A * list bool * Enc) :=
  match g with
  | Return a => Some (a, bits, e)
  | IfBit p k =>
      match bits with
      | [] => None
      | b :: bits => v ← prob_at (eprobs e) p; encode dic (k b) bits (enc_bit p v b (enc_normalize e))
      end
  | DirectBit k =>
      match bits with [] => None | b :: bits => encode dic (k b) bits (enc_direct b (enc_normalize e)) end
  | ReadDic pos k => x ← rd8 dic pos; encode dic (k x) bits e
  end.

(** The same without the interval. *)
Fixpoint follow (dic : list Z) {A} (g : Prog A) (bits : list bool) : option (A * list bool) :=
  match g with
  | Return a => Some (a, bits)
  | IfBit _ k | DirectBit k => match bits with [] => None | b :: bits => follow dic (k b) bits end
  | ReadDic pos k => x ← rd8 dic pos; follow dic (k x) bits
  end.

Lemma follow_bind {A B} dic (g : Prog A) (f : A -> Prog B) bits :
  follow dic (g ≫= f) bits = '(a, bits) ← follow dic g bits; follow dic (f a) bits.
Proof.
  revert bits. induction g as [a|p k IH|k IH|pos k IH]; intros bits; [done|..]; simpl; [destruct bits; [done|apply IH]..|].
  destruct (rd8 dic pos); [apply IH|done].
Qed.
Lemma follow_seq {A B} dic (g : Prog A) (f : A -> Prog B) bits rest a r :
  follow dic g (bits ++ rest) = Some (a, rest) -> follow dic (f a) rest = r -> follow dic (g ≫= f) (bits ++ rest) = r.
Proof. intros E <-. by rewrite follow_bind, E. Qed.

(** ** The interval *)

Record enc_ok (np : Z) (e : Enc) : Prop := {
  low_ok : 0 <= low e;
  erange_ok : 2 ^ 16 <= erange e < 2 ^ 32;
  eprobs_ok : Forall prob_ok (eprobs e);
  eprobs_length : Z.of_nat (length (eprobs e)) = np
}.
(** [e'] lies within [e], scaled. *)
Definition inside (e e' : Enc) : Prop :=
  (shifts e <= shifts e')%nat /\
  low e * 256 ^ Z.of_nat (shifts e' - shifts e) <= low e' /\
  low e' + erange e' <= (low e + erange e) * 256 ^ Z.of_nat (shifts e' - shifts e).

Lemma inside_refl e : inside e e.
Proof. unfold inside. rewrite Nat.sub_diag. simpl. lia. Qed.
Lemma pow256_pos n : 0 < 256 ^ Z.of_nat n.
Proof. apply Z.pow_pos_nonneg; lia. Qed.
Lemma inside_trans e1 e2 e3 : inside e1 e2 -> inside e2 e3 -> inside e1 e3.
Proof.
  intros (S1 & L1 & U1) (S2 & L2 & U2). split; [lia|].
  replace (shifts e3 - shifts e1)%nat with ((shifts e2 - shifts e1) + (shifts e3 - shifts e2))%nat by lia.
  rewrite Nat2Z.inj_add, Z.pow_add_r by lia. pose proof (pow256_pos (shifts e3 - shifts e2)). nia.
Qed.

Lemma enc_normalize_ok np e : enc_ok np e -> enc_ok np (enc_normalize e) /\ kTopValue <= erange (enc_normalize e) /\ inside e (enc_normalize e) /\
  eprobs (enc_normalize e) = eprobs e.
Proof.
  intros [Hl Hr Hp Hn]. unfold enc_normalize. change kTopValue with (2 ^ 24). change (2 ^ 16) with 65536 in *. change (2 ^ 24) with 16777216 in *.
  destruct (Z.ltb_spec (erange e) 16777216) as [Hlt|Hge].
  - split; [split; cbn; try done; change (2 ^ 16) with 65536; change (2 ^ 32) with 4294967296 in *; lia|]. cbn. split; [lia|]. split; [|done].
    unfold inside. cbn [shifts low erange]. replace (S (shifts e) - shifts e)%nat with 1%nat by lia. change (256 ^ Z.of_nat 1) with 256. lia.
  - split; [done|]. split; [done|]. split; [apply inside_refl|done].
Qed.
Lemma enc_bit_ok np e p v b : enc_ok np e -> kTopValue <= erange e -> prob_ok v -> enc_ok np (enc_bit p v b e) /\ inside e (enc_bit p v b e).
Proof.
  intros [Hl Hr Hp Hn] Hk Hv. change kTopValue with 16777216 in Hk. change (31 <= v <= 2017) in Hv. change (2 ^ 32) with 4294967296 in *.
  change (2 ^ 16) with 65536 in *. assert (8192 <= erange e / 2048) by (Z.to_euclidean_division_equations; lia).
  assert (erange e = 2048 * (erange e / 2048) + erange e mod 2048 /\ 0 <= erange e mod 2048 < 2048) as [Eq Hm].
  { split; [apply Z.div_mod; lia|apply Z.mod_pos_bound; lia]. }
  unfold enc_bit. set (q := erange e / 2048) in *. set (r := erange e mod 2048) in *. clearbody q r.
  assert (65536 <= q * v /\ q * v <= erange e - 65536) as [] by nia. destruct b.
  - split; [split; cbn; try done; change (2 ^ 16) with 65536; change (2 ^ 32) with 4294967296; try lia|].
    + apply set_prob_ok; [done|by apply moved_down].
    + by rewrite set_prob_length.
    + unfold inside. cbn. rewrite Nat.sub_diag. simpl. lia.
  - split; [split; cbn; try done; change (2 ^ 16) with 65536; change (2 ^ 32) with 4294967296; try lia|].
    + apply set_prob_ok; [done|by apply moved_up].
    + by rewrite set_prob_length.
    + unfold inside. cbn. rewrite Nat.sub_diag. simpl. lia.
Qed.
Lemma enc_direct_ok np e b : enc_ok np e -> kTopValue <= erange e -> enc_ok np (enc_direct b e) /\ inside e (enc_direct b e).
Proof.
  intros [Hl Hr Hp Hn] Hk. change kTopValue with 16777216 in Hk. change (2 ^ 32) with 4294967296 in *. change (2 ^ 16) with 65536 in *.
  assert (8388608 <= erange e / 2 /\ 2 * (erange e / 2) <= erange e) as [] by (Z.to_euclidean_division_equations; lia).
  unfold enc_direct. set (q := erange e / 2) in *. clearbody q.
  split; [split; cbn; try done; change (2 ^ 16) with 65536; change (2 ^ 32) with 4294967296; destruct b; lia|].
  unfold inside. cbn. rewrite Nat.sub_diag. simpl. destruct b; lia.
Qed.

Lemma eprob_lookup np e p : enc_ok np e -> 0 <= kStartOffset + p < np -> exists v, prob_at (eprobs e) p = Some v /\ prob_ok v.
Proof.
  intros [_ _ Hp Hn] Hi. destruct (rd8_in (eprobs e) (kStartOffset + p)) as [v Hv]; [by rewrite Hn|]. exists v. split; [done|].
  unfold rd8 in Hv. destruct (_ <? 0); [done|]. by apply (Forall_lookup_1 _ _ _ _ Hp Hv).
Qed.
Lemma eprob_ok np e p v : enc_ok np e -> prob_at (eprobs e) p = Some v -> prob_ok v.
Proof. intros [_ _ Hp _] Hv. unfold prob_at, rd8 in Hv. destruct (_ <? 0); [done|]. by apply (Forall_lookup_1 _ _ _ _ Hp Hv). Qed.

Lemma encode_inside np dic {A} (g : Prog A) bits e a bits' e' : encode dic g bits e = Some (a, bits', e') -> enc_ok np e ->
  enc_ok np e' /\ inside e e'.
Proof.
  revert bits e. induction g as [a0|p k IH|k IH|pos k IH]; intros bits e He Hok; cbn [encode] in He.
  - injection He as _ _ <-. split; [done|apply inside_refl].
  - destruct bits as [|b bits]; [done|]. destruct (prob_at (eprobs e) p) as [v|] eqn:Ev; [|done]. cbn [mbind option_bind] in He.
    destruct (enc_normalize_ok np e Hok) as (Hn & Hk & Hi & Ep). destruct (enc_bit_ok np _ p v b Hn Hk (eprob_ok _ _ _ _ Hok Ev)) as [Hb Hib].
    destruct (IH b _ _ He Hb) as [H1 H2]. split; [done|]. eapply inside_trans; [exact Hi|]. by eapply inside_trans.
  - destruct bits as [|b bits]; [done|]. destruct (enc_normalize_ok np e Hok) as (Hn & Hk & Hi & Ep).
    destruct (enc_direct_ok np _ b Hn Hk) as [Hb Hib]. destruct (IH b _ _ He Hb) as [H1 H2]. split; [done|].
    eapply inside_trans; [exact Hi|]. by eapply inside_trans.
  - destruct (rd8 dic pos) as [x|]; [|done]. by apply (IH x bits).
Qed.

(** A bit scales the interval once at most. *)
Lemma encode_shifts dic {A} (g : Prog A) bits e a bits' e' : encode dic g bits e = Some (a, bits', e') ->
  (shifts e' + length bits' <= shifts e + length bits)%nat.
Proof.
  assert (forall e, shifts (enc_normalize e) <= S (shifts e))%nat as Hn by (intros e1; unfold enc_normalize; destruct (_ <? _); cbn; lia).
  revert bits e. induction g as [a0|p k IH|k IH|pos k IH]; intros bits e He; cbn [encode] in He.
  - injection He as _ <- <-. lia.
  - destruct bits as [|b bits]; [done|]. destruct (prob_at (eprobs e) p) as [v|]; [|done]. cbn [mbind option_bind] in He. apply IH in He.
    specialize (Hn e). assert (shifts (enc_bit p v b (enc_normalize e)) = shifts (enc_normalize e)) as Es by (by destruct b). cbn [length]. lia.
  - destruct bits as [|b bits]; [done|]. apply IH in He. specialize (Hn e). cbn [enc_direct shifts length] in *. lia.
  - destruct (rd8 dic pos) as [x|]; [|done]. by apply IH in He.
Qed.

(** What can be followed can be encoded. *)
Lemma encode_follow np dic {A} (P : A -> Prop) R n m (g : Prog A) bits e a bits' : ok (Z.of_nat (length dic)) P R n m g -> within np R ->
  Forall byte_ok dic -> enc_ok np e -> follow dic g bits = Some (a, bits') -> exists e', encode dic g bits e = Some (a, bits', e').
Proof.
  intros Hg HR Hd. revert bits e HR.
  induction Hg as [R n m a0 Ha|R T n m p k Hp HT Hk IH|R n m k Hk IH|R n m pos k Hpos Hk IH|R n m g Hg IH]; intros bits e HR He Hf; cbn [encode follow] in *.
  - injection Hf as <- <-. by exists e.
  - destruct bits as [|b bits]; [done|]. destruct (eprob_lookup np e p He (HR p Hp)) as (v & Ev & Hv). rewrite Ev. cbn [mbind option_bind].
    destruct (enc_normalize_ok np e He) as (Hn & Hk' & _). apply IH; [by eapply within_less|by apply enc_bit_ok|done].
  - destruct bits as [|b bits]; [done|]. destruct (enc_normalize_ok np e He) as (Hn & Hk' & _). apply IH; [done|by apply enc_direct_ok|done].
  - destruct (rd8 dic pos) as [x|] eqn:Ex; [|done]. cbn [mbind option_bind] in *. apply (IH x); try done.
    unfold rd8 in Ex. destruct (_ <? 0); [done|]. by apply (Forall_lookup_1 _ _ _ _ Hd Ex).
  - by apply IH.
Qed.

(** What is asked for after [g]. *)
Lemma encode_bind {A B} dic (g : Prog A) (f : A -> Prog B) bits e :
  encode dic (g ≫= f) bits e = '(a, bits, e) ← encode dic g bits e; encode dic (f a) bits e.
Proof.
  revert bits e. induction g as [a|p k IH|k IH|pos k IH]; intros bits e; [done|..]; cbn.
  - destruct bits; [done|]. destruct (prob_at (eprobs e) p); [|done]. apply IH.
  - destruct bits; [done|]. apply IH.
  - destruct (rd8 dic pos); [|done]. apply IH.
Qed.

(** ** The decoder follows the encoder *)

(** [n] bytes of a number, the high ones first. *)
Fixpoint be_bytes (n : nat) (v : Z) : list Z :=
  match n with O => [] | S n => (v / 256 ^ Z.of_nat n) mod 256 :: be_bytes n v end.
Lemma be_bytes_length n v : length (be_bytes n v) = n.
Proof. induction n as [|n IH]; simpl; congruence. Qed.
Lemma be_bytes_ok n v : Forall byte_ok (be_bytes n v).
Proof. induction n as [|n IH]; constructor; [|done]. apply Z.mod_pos_bound. lia. Qed.
Lemma be_bytes_app n m v : be_bytes (n + m) v = be_bytes n (v / 256 ^ Z.of_nat m) ++ be_bytes m v.
Proof.
  induction n as [|n IH]; [done|]. simpl. rewrite IH. f_equal. f_equal.
  rewrite Z.div_div by (try apply Z.pow_nonzero; try apply pow256_pos; lia). rewrite <- Z.pow_add_r, Nat2Z.inj_add by lia. do 2 f_equal. lia.
Qed.
(** The same, from the low byte on. *)
Lemma be_bytes_le n v : rev (le n v) = be_bytes n v.
Proof.
  revert v. induction n as [|n IH]; intros v; [done|]. replace (S n) with (n + 1)%nat at 2 by lia. rewrite be_bytes_app. cbn [le rev]. rewrite IH.
  change (256 ^ Z.of_nat 1) with 256. cbn [be_bytes]. change (256 ^ Z.of_nat 0) with 1. by rewrite Z.div_1_r.
Qed.

Section Decoding.
Context (np : Z) (ef : Enc).

(** The stream is the lower end of the last interval [ef]. *)
Definition towards (e : Enc) : Prop := inside e ef /\ 0 < erange ef.
Definition left_of (e : Enc) : nat := shifts ef - shifts e.
(** The coder at the place of the encoder: what is left of the input are the bytes that the interval was not scaled by yet. *)
Record synced (inp : list Z) (c : Coder) (e : Enc) : Prop := {
  sy_range : range c = erange e;
  sy_probs : probs c = eprobs e;
  sy_code : code c = low ef / 256 ^ Z.of_nat (left_of e) - low e;
  sy_buf : 0 <= buf c <= Z.of_nat (length inp);
  sy_rest : drop (Z.to_nat (buf c)) inp = be_bytes (left_of e) (low ef)
}.

Lemma code_within e : towards e -> low e <= low ef / 256 ^ Z.of_nat (left_of e) < low e + erange e.
Proof.
  intros [(_ & Hl & Hu) He]. pose proof (pow256_pos (left_of e)) as Hp. unfold left_of in *. split.
  - apply Z.div_le_lower_bound; lia.
  - apply Z.div_lt_upper_bound; lia.
Qed.
Lemma towards_trans e e' : inside e e' -> towards e' -> towards e.
Proof. intros Hi [Hi' He]. split; [by eapply inside_trans|done]. Qed.
Lemma synced_ok inp c e : synced inp c e -> enc_ok np e -> towards e -> coder_ok np c.
Proof.
  intros [Er Ep Ec Hb Hrest] [Hl Hr Hp Hn] Ht. pose proof (code_within e Ht). split; rewrite ?Er, ?Ep, ?Ec; try done; lia.
Qed.

Lemma shift_down k : low ef / 256 ^ Z.of_nat k = low ef / 256 ^ Z.of_nat (S k) * 256 + (low ef / 256 ^ Z.of_nat k) mod 256.
Proof.
  rewrite pow_S, (Z.mul_comm 256), <- Z.div_div by (try apply Z.pow_nonzero; lia). rewrite Z.mul_comm. apply Z.div_mod. lia.
Qed.
Lemma rest_byte inp pos k : drop (Z.to_nat pos) inp = be_bytes (S k) (low ef) -> 0 <= pos ->
  rd8 inp pos = Some ((low ef / 256 ^ Z.of_nat k) mod 256) /\ drop (Z.to_nat (pos + 1)) inp = be_bytes k (low ef).
Proof.
  intros E Hp. unfold rd8. rewrite (proj2 (Z.ltb_ge pos 0)) by lia. split.
  - rewrite <- (Nat.add_0_r (Z.to_nat pos)), <- lookup_drop, E. done.
  - replace (Z.to_nat (pos + 1)) with (Z.to_nat pos + 1)%nat by lia. rewrite <- drop_drop, E. done.
Qed.

Lemma normalize_synced inp c e : synced inp c e -> enc_ok np e -> towards (enc_normalize e) ->
  exists c', NORMALIZE inp c = Some c' /\ synced inp c' (enc_normalize e) /\ probs c' = probs c /\
    (erange e < kTopValue -> buf c < Z.of_nat (length inp)).
Proof.
  intros Hs He Ht. pose proof (towards_trans e _ (proj1 (proj2 (proj2 (enc_normalize_ok np e He)))) Ht) as Ht0. pose proof (synced_ok inp c e Hs He Ht0) as Hc.
  destruct Hs as [Er Ep Ec Hb Hrest]. unfold NORMALIZE, enc_normalize in *. rewrite Er. destruct (Z.ltb_spec (erange e) kTopValue) as [Hlt|Hge].
  2: { exists c. split; [done|]. split; [by split|]. split; [done|lia]. }
  assert (left_of e = S (left_of (mkEnc (low e * 256) (erange e * 256) (S (shifts e)) (eprobs e)))) as El.
  { destruct Ht as [[Hsh _] _]. unfold left_of in *. cbn [shifts] in *. lia. }
  set (en := mkEnc _ _ _ _) in *. rewrite El in Hrest, Ec. destruct (rest_byte inp (buf c) _ Hrest (proj1 Hb)) as [Eb Hrest'].
  assert (buf c < Z.of_nat (length inp)) as Hlen.
  { apply (f_equal length) in Hrest. rewrite be_bytes_length, length_drop in Hrest. lia. }
  rewrite <- Er in Hlt. set (x := (low ef / 256 ^ Z.of_nat (left_of en)) mod 256) in *. assert (byte_ok x) as Hx by (apply Z.mod_pos_bound; lia).
  rewrite Eb. cbn [mbind option_bind]. eexists. split; [done|]. split; [|done]. pose proof (code_within e Ht0) as Hcw. rewrite El in Hcw.
  change kTopValue with 16777216 in Hlt. pose proof (range_low _ _ Hc) as Hrl. change (2 ^ 16) with 65536 in Hrl.
  rewrite !Z.shiftl_mul_pow2 by lia. change (2 ^ 8) with 256. rewrite (wrap_small 32 (erange e * 256)) by (change (2 ^ 32) with 4294967296; lia).
  rewrite lor_byte by done. rewrite (wrap_small 32 (code c * 256)) by (change (2 ^ 32) with 4294967296; lia).
  split; cbn [range probs code buf]; try done; [|lia].
  pose proof (shift_down (left_of en)) as Esd. fold x in Esd. assert (low en = low e * 256) as -> by done. lia.
Qed.

(** A bit: the code is on its side of the bound. *)
Lemma bit_synced inp c e p v b : synced inp c e -> enc_ok np e -> kTopValue <= erange e -> prob_ok v -> towards (enc_bit p v b e) ->
  (code c <? bound_of c v) = negb b /\
  synced inp (if b then UPDATE_1 p (bound_of c v) v c else UPDATE_0 p (bound_of c v) v c) (enc_bit p v b e).
Proof.
  intros Hs He Hk Hv Ht. pose proof (towards_trans e _ (proj2 (enc_bit_ok np e p v b He Hk Hv)) Ht) as Ht0. pose proof (synced_ok inp c e Hs He Ht0) as Hc.
  pose proof Hs as [Er Ep Ec Hb Hrest]. rewrite <- Er in Hk. destruct (bound_facts np c v Hc Hk Hv) as (Ebd & _ & [_ Hbu] & _). pose proof (code_within _ Ht) as Hcw.
  assert (left_of (enc_bit p v b e) = left_of e) as El by (by destruct b). rewrite El in Hcw. unfold enc_bit in *. rewrite <- Er in *. rewrite <- Ebd in *.
  destruct b; cbn [low erange negb] in *.
  - assert (bound_of c v <= code c) as Hle by lia. split; [by apply Z.ltb_ge|].
    destruct (update_1_ok np c p v Hc Hk Hv Hle) as (_ & E1 & E2). split; rewrite ?E1, ?E2, ?El; cbn [range code probs buf eprobs erange low]; try done; [cbn; by rewrite Ep|lia].
  - split; [by apply Z.ltb_lt; lia|]. split; rewrite ?El; cbn; try done. by rewrite Ep.
Qed.
Lemma direct_synced inp c e b : synced inp c e -> enc_ok np e -> kTopValue <= erange e -> towards (enc_direct b e) ->
  (direct_spec c).1 = b /\ synced inp (direct_spec c).2 (enc_direct b e).
Proof.
  intros Hs He Hk Ht. pose proof (towards_trans e _ (proj2 (enc_direct_ok np e b He Hk)) Ht) as Ht0. pose proof (synced_ok inp c e Hs He Ht0) as Hc.
  pose proof Hs as [Er Ep Ec Hb Hrest]. pose proof (code_within _ Ht) as Hcw. pose proof (code_within _ Ht0) as Hcw0.
  assert (left_of (enc_direct b e) = left_of e) as El by (by destruct b). rewrite El in Hcw.
  pose proof (range_high _ _ Hc) as Hh. pose proof (code_ok _ _ Hc) as Hcd. change (2 ^ 32) with 4294967296 in *.
  unfold direct_spec, enc_direct in *. cbn [low erange fst snd] in *. rewrite <- Er in *. assert (0 <= range c / 2 /\ 2 * (range c / 2) <= range c) as [] by (Z.to_euclidean_division_equations; lia).
  set (q := range c / 2) in *. clearbody q. destruct b.
  - rewrite (wrap_small 32 (code c - q)) by (change (2 ^ 32) with 4294967296; lia). assert (code c - q < 2 ^ 31) as Hlt by (change (2 ^ 31) with 2147483648; lia).
    rewrite (proj2 (Z.ltb_lt _ _) Hlt). split; [done|]. split; rewrite ?El; cbn; try done. lia.
  - assert (wrap 32 (code c - q) = code c - q + 2 ^ 32) as ->.
    { unfold wrap. rewrite <- (Z_mod_plus _ 1) by lia. apply Z.mod_small. change (2 ^ 32) with 4294967296. lia. }
    assert (2 ^ 31 <= code c - q + 2 ^ 32) as Hge by (change (2 ^ 31) with 2147483648; change (2 ^ 32) with 4294967296; lia).
    rewrite (proj2 (Z.ltb_ge _ _) Hge). split; [done|]. split; rewrite ?El; cbn; done.
Qed.

(** A program run at the place of the encoder gets the bits back. *)
Lemma run_encoded inp hist dic {A} (g : Prog A) bits e a bits' e' c : encode hist g bits e = Some (a, bits', e') -> enc_ok np e -> towards e' ->
  (forall pos x, rd8 hist pos = Some x -> rd8 dic pos = Some x) -> synced inp c e ->
  exists c', run inp dic g c = Some (a, c') /\ synced inp c' e'.
Proof.
  intros He Hok Ht Hd. revert bits e c He Hok. induction g as [a0|p k IH|k IH|pos k IH]; intros bits e c He Hok Hs; cbn [encode run] in *.
  - injection He as <- _ <-. by exists c.
  - destruct bits as [|b bits]; [done|]. rewrite (sy_probs _ _ _ Hs). destruct (prob_at (eprobs e) p) as [v|] eqn:Ev; [|done]. cbn [mbind option_bind] in *.
    destruct (enc_normalize_ok np e Hok) as (Hn & Hk & _). pose proof (eprob_ok _ _ _ _ Hok Ev) as Hv. destruct (enc_bit_ok np _ p v b Hn Hk Hv) as [Hb Hib].
    pose proof (towards_trans _ _ (proj2 (encode_inside _ _ _ _ _ _ _ _ He Hb)) Ht) as Htb. pose proof (towards_trans _ _ Hib Htb) as Htn.
    destruct (normalize_synced inp c e Hs Hok Htn) as (c1 & -> & Hs1 & _). cbn [mbind option_bind].
    destruct (bit_synced inp c1 _ p v b Hs1 Hn Hk Hv Htb) as [-> Hs2]. destruct b; cbn [negb]; by eapply IH.
  - destruct bits as [|b bits]; [done|]. destruct (enc_normalize_ok np e Hok) as (Hn & Hk & _). destruct (enc_direct_ok np _ b Hn Hk) as [Hb Hib].
    pose proof (towards_trans _ _ (proj2 (encode_inside _ _ _ _ _ _ _ _ He Hb)) Ht) as Htb. pose proof (towards_trans _ _ Hib Htb) as Htn.
    destruct (normalize_synced inp c e Hs Hok Htn) as (c1 & -> & Hs1 & _). cbn [mbind option_bind].
    rewrite (proj1 (direct_facts np c1 (synced_ok _ _ _ Hs1 Hn Htn) ltac:(by rewrite (sy_range _ _ _ Hs1)))).
    destruct (direct_synced inp c1 _ b Hs1 Hn Hk Htb) as [E1 Hs2]. destruct (direct_spec c1) as [x c2]. cbn [fst snd] in *. subst x. by eapply IH.
  - destruct (rd8 hist pos) as [x|] eqn:Ex; [|done]. cbn [mbind option_bind] in *. rewrite (Hd _ _ Ex). cbn [mbind option_bind]. by eapply IH.
Qed.
End Decoding.
