(* ===== verification/LzmaEncode.v ===== *)
(** * A reference encoder for LZMA streams

    What a stream says are tokens: bytes, matches with a distance, and matches with one of the
    last four distances.  [past_step] is what a token means, [token_code] its bits;
    [encode_tokens] puts the bits through the encoder of RangeEncode.v.  [follow_symbol]: the
    symbol of LzmaDec.v that gets the bits of a token is that token. *)

From Stdlib Require Import ZArith Lia.
From stdpp Require Import base list option.
From S2P Require Import Prelude Bytes RangeCoder LzmaDec LzmaSymbol RangeEncode.

#[local] Open Scope Z_scope.
#[local] Open Scope prog_scope.

(** ** Tokens *)

Inductive Token := TLit (b : Z) | TMatch (dist n : Z) | TShort | TRep (k : nat) (n : Z).

(** What was written, the state and the last four distances. *)
Record Past := mkPast { out : list Z; pstate : Z; dist0 : Z; dist1 : Z; dist2 : Z; dist3 : Z }.
Definition start : Past := mkPast [] 0 1 1 1 1.
Definition written (p : Past) : Z := Z.of_nat (length (out p)).

(** [n] bytes from [dist] before the end, one after the other: what is copied may overlap. *)
Fixpoint copy_back (n : nat) (dist : Z) (l : list Z) : option (list Z) :=
  match n with O => Some l | S n => b ← rd8 l (Z.of_nat (length l) - dist); copy_back n dist (l ++ [b]) end.

Definition after_literal (s : Z) : Z := if s <? 4 then 0 else if s <? 10 then s - 3 else s - 6.
Definition length_in (n : Z) : bool := (2 <=? n) && (n <=? 273).
Definition past_step (t : Token) (p : Past) : option Past :=
  let lit := pstate p <? 7 in
  match t with
  | TLit b => if (0 <=? b) && (b <? 256) then Some (mkPast (out p ++ [b]) (after_literal (pstate p)) (dist0 p) (dist1 p) (dist2 p) (dist3 p)) else None
  | TMatch dist n =>
      if (1 <=? dist) && length_in n then
        l ← copy_back (Z.to_nat n) dist (out p); Some (mkPast l (if lit then 7 else 10) dist (dist0 p) (dist1 p) (dist2 p))
      else None
  | TShort => l ← copy_back 1 (dist0 p) (out p); Some (mkPast l (if lit then 9 else 11) (dist0 p) (dist1 p) (dist2 p) (dist3 p))
  | TRep k n =>
      if length_in n then
        let '(d0, d1, d2, d3) :=
          match k with
          | 0%nat => (dist0 p, dist1 p, dist2 p, dist3 p)
          | 1%nat => (dist1 p, dist0 p, dist2 p, dist3 p)
          | 2%nat => (dist2 p, dist0 p, dist1 p, dist3 p)
          | _ => (dist3 p, dist0 p, dist1 p, dist2 p)
          end in
        l ← copy_back (Z.to_nat n) d0 (out p); Some (mkPast l (if lit then 8 else 11) d0 d1 d2 d3)
      else None
  end.
Fixpoint expand (ts : list Token) (p : Past) : option Past :=
  match ts with [] => Some p | t :: ts => p ← past_step t p; expand ts p end.

(** ** Bits *)

(** The high bits first, and the low bits first. *)
Fixpoint msb (n : nat) (x : Z) : list bool := match n with O => [] | S n => Z.odd (x / 2 ^ Z.of_nat n) :: msb n x end.
Fixpoint lsb (n : nat) (x : Z) : list bool := match n with O => [] | S n => Z.odd x :: lsb n (x / 2) end.

Definition length_code (l : Z) : list bool :=
  if l <? 8 then false :: msb 3 l else if l <? 16 then true :: false :: msb 3 (l - 8) else true :: true :: msb 8 (l - 16).
(** The two highest bits of a distance, with its length. *)
Definition slot_of (d : Z) : Z := if d <? 4 then d else 2 * Z.log2 d + (d / 2 ^ (Z.log2 d - 1)) mod 2.
Definition distance_code (d : Z) : list bool :=
  let slot := slot_of d in
  msb 6 slot ++
  (if slot <? 4 then []
   else
     let n := Z.log2 d - 1 in
     if slot <? 14 then lsb (Z.to_nat n) (d mod 2 ^ n) else msb (Z.to_nat (n - 4)) (d / 16) ++ lsb 4 d).
Definition rep_code (k : nat) : list bool :=
  match k with 0%nat => [false; true] | 1%nat => [true; false] | 2%nat => [true; true; false] | _ => [true; true; true] end.
Definition token_code (t : Token) : list bool :=
  match t with
  | TLit b => false :: msb 8 b
  | TMatch dist n => true :: false :: length_code (n - 2) ++ distance_code (dist - 1)
  | TShort => [true; true; false; false]
  | TRep k n => true :: true :: rep_code k ++ length_code (n - 2)
  end.

(** ** The trees *)

Lemma odd_bit x : bit_of (Z.odd x) = x mod 2.
Proof. rewrite Zmod_odd. by destruct (Z.odd x). Qed.

(** The first [n] bits of [x] are gone already. *)
Lemma follow_tree dic n p i x r : follow dic (tree_bits n p i) (msb n x ++ r) = Some (i * 2 ^ Z.of_nat n + x mod 2 ^ Z.of_nat n, r).
Proof.
  revert i. induction n as [|n IH]; intros i; [simpl; rewrite Z.mod_1_r; do 2 f_equal; lia|].
  cbn [tree_bits msb]. unfold TREE_GET_BIT. cbn [if_bit mbind Prog_bind prog_then follow app]. rewrite IH, odd_bit. do 2 f_equal.
  destruct (pow2_S n) as [E Hn]. rewrite E. rewrite (Z.mul_comm 2), Z.rem_mul_r by lia. lia.
Qed.
Lemma follow_TREE dic n p x r : 0 <= x < 2 ^ Z.of_nat n -> follow dic (TREE_DECODE n p) (msb n x ++ r) = Some (x, r).
Proof. intros Hx. unfold TREE_DECODE. rewrite follow_bind, follow_tree. cbn. do 2 f_equal. rewrite Z.mod_small by done. lia. Qed.
Lemma follow_matched dic n prob m o y x r :
  follow dic (matched_bits n prob m o y) (msb n x ++ r) = Some (y * 2 ^ Z.of_nat n + x mod 2 ^ Z.of_nat n, r).
Proof.
  revert m o y. induction n as [|n IH]; intros m o y; [simpl; rewrite Z.mod_1_r; do 2 f_equal; lia|].
  cbn [matched_bits msb]. cbn [if_bit mbind Prog_bind prog_then follow app]. rewrite IH, odd_bit. do 2 f_equal.
  destruct (pow2_S n) as [E Hn]. rewrite E. rewrite (Z.mul_comm 2), Z.rem_mul_r by lia. lia.
Qed.
Lemma follow_rev dic n p i m x r :
  follow dic (rev_bits n p i m) (lsb n x ++ r) = Some ((i + m * (2 ^ Z.of_nat n - 1) + m * (x mod 2 ^ Z.of_nat n), m * 2 ^ Z.of_nat n), r).
Proof.
  revert i m x. induction n as [|n IH]; intros i m x; [simpl; rewrite Z.mod_1_r; repeat f_equal; lia|].
  cbn [rev_bits lsb]. unfold REV_BIT_VAR. cbn [if_bit mbind Prog_bind prog_then follow app].
  destruct (pow2_S n) as [E Hn]. rewrite E. rewrite Z.rem_mul_r by lia. pose proof (odd_bit x) as Ho.
  destruct (Z.odd x); cbn [bit_of] in Ho; rewrite <- Ho, IH;
    match goal with |- Some ((?a, ?b), _) = Some ((?c, ?d), _) => replace a with c by ring; by replace b with d by ring end.
Qed.
Lemma follow_length dic prob ps l r : 0 <= l < 272 -> follow dic (length_bits prob ps) (length_code l ++ r) = Some (l, r).
Proof.
  intros Hl. unfold length_bits, length_code. change LenLow with 0. change kLenNumLowSymbols with 8.
  destruct (Z.ltb_spec l 8); [|destruct (Z.ltb_spec l 16)]; cbn [if_bit mbind Prog_bind prog_then follow app negb].
  - apply follow_TREE. change (2 ^ Z.of_nat 3) with 8. lia.
  - change (prog_then (fun i => Return i) (tree_bits ?n ?p ?i)) with (tree_bits n p i ≫= fun i => Return i). rewrite follow_bind, follow_tree. cbn [mbind option_bind follow].
    change (2 ^ Z.of_nat 3) with 8. rewrite Z.mod_small by lia. do 2 f_equal. lia.
  - change (prog_then (fun l => Return (l + 8 * 2)) ?g) with (g ≫= fun l => Return (l + 8 * 2)). rewrite follow_bind, follow_TREE by (change (2 ^ Z.of_nat 8) with 256; lia).
    cbn. do 2 f_equal. lia.
Qed.
Lemma follow_direct dic n d x r : 0 <= d * 2 ^ Z.of_nat n + x mod 2 ^ Z.of_nat n < 2 ^ 32 -> 0 <= d ->
  follow dic (direct_bits n d) (msb n x ++ r) = Some (d * 2 ^ Z.of_nat n + x mod 2 ^ Z.of_nat n, r).
Proof.
  revert d. induction n as [|n IH]; intros d Hb Hd; [simpl; rewrite Z.mod_1_r; do 2 f_equal; lia|].
  cbn [direct_bits msb]. cbn [direct_bit mbind Prog_bind prog_then follow app]. destruct (pow2_S n) as [E Hn]. rewrite E in *. rewrite odd_bit.
  rewrite (Z.mul_comm 2 (2 ^ Z.of_nat n)), Z.rem_mul_r in * by lia. pose proof (Z.mod_pos_bound (x / 2 ^ Z.of_nat n) 2 ltac:(lia)).
  pose proof (Z.mod_pos_bound x (2 ^ Z.of_nat n) Hn). set (b := (x / 2 ^ Z.of_nat n) mod 2) in *. rewrite Z.shiftl_mul_pow2 by lia. change (2 ^ 1) with 2.
  assert (2 * d + b < 2 ^ 32) by nia. rewrite (wrap_small 32 (d * 2)), wrap_small by lia. rewrite IH; [do 2 f_equal; ring|nia|lia].
Qed.
Lemma follow_align dic x r : follow dic align_bits (lsb 4 x ++ r) = Some (x mod 16, r).
Proof.
  assert (x mod 16 = bit_of (Z.odd x) + 2 * (bit_of (Z.odd (x / 2)) + 2 * (bit_of (Z.odd (x / 2 / 2)) + 2 * bit_of (Z.odd (x / 2 / 2 / 2))))) as ->.
  { rewrite !odd_bit. change 16 with (2 * (2 * (2 * 2))). by rewrite !Z.rem_mul_r by lia. }
  unfold align_bits, REV_BIT_CONST, REV_BIT_LAST. cbn [lsb app if_bit mbind Prog_bind prog_then follow].
  destruct (Z.odd x), (Z.odd (x / 2)), (Z.odd (x / 2 / 2)), (Z.odd (x / 2 / 2 / 2)); reflexivity.
Qed.

(** ** Distances *)

(** A distance by its two highest bits. *)
Lemma slot_facts d : 4 <= d < 2 ^ 32 ->
  let n := Z.log2 d - 1 in
  1 <= n <= 30 /\ 4 <= slot_of d < 64 /\ slot_of d / 2 - 1 = n /\ (slot_of d < 14 <-> n <= 5) /\
  d = (2 + slot_of d mod 2) * 2 ^ n + d mod 2 ^ n.
Proof.
  intros Hd. cbv zeta. pose proof (Z.log2_spec d ltac:(lia)) as [Hl Hu]. assert (2 <= Z.log2 d <= 31) as Hlog.
  { split; [apply (Z.log2_le_mono 4); lia|]. assert (Z.log2 d < 32); [apply Z.log2_lt_pow2; lia|lia]. }
  unfold slot_of. rewrite (proj2 (Z.ltb_ge d 4)) by lia. set (n := Z.log2 d - 1) in *. replace (Z.log2 d) with (n + 1) in * by lia.
  replace (Z.succ (n + 1)) with (n + 2) in Hu by lia. rewrite !Z.pow_add_r in * by lia. change (2 ^ 1) with 2 in *. change (2 ^ 2) with 4 in *.
  assert (0 < 2 ^ n) as Hp by (apply Z.pow_pos_nonneg; lia). pose proof (Z.div_mod d (2 ^ n) ltac:(lia)) as Ed. pose proof (Z.mod_pos_bound d (2 ^ n) Hp) as Hm.
  assert (2 <= d / 2 ^ n < 4) as Hq by (split; [apply Z.div_le_lower_bound|apply Z.div_lt_upper_bound]; lia).
  set (q := d / 2 ^ n) in *. assert (q mod 2 = q - 2) as Eq.
  { symmetry. apply (Z.mod_unique q 2 1); lia. }
  rewrite Eq. assert ((2 * (n + 1) + (q - 2)) / 2 = n + 1) as -> by (symmetry; apply (Z.div_unique _ _ _ (q - 2)); lia).
  assert ((2 * (n + 1) + (q - 2)) mod 2 = q - 2) as -> by (symmetry; apply (Z.mod_unique _ _ (n + 1)); lia).
  split; [lia|]. split; [lia|]. split; [lia|]. split; [lia|]. replace (2 + (q - 2)) with q by lia. lia.
Qed.
Lemma low_bit_mod x : Z.lor 2 (Z.land x 1) = 2 + x mod 2.
Proof.
  assert (Z.land x 1 = x mod 2) as -> by exact (Z.land_ones x 1 ltac:(lia)).
  pose proof (Z.mod_pos_bound x 2 ltac:(lia)). assert (x mod 2 = 0 \/ x mod 2 = 1) as [->| ->] by lia; done.
Qed.

Lemma follow_distance dic l d r : 0 <= d < 2 ^ 32 - 1 -> follow dic (distance_bits l) (distance_code d ++ r) = Some (Some d, r).
Proof.
  intros Hd. unfold distance_bits, distance_code. rewrite <- app_assoc, follow_bind. destruct (Z.ltb_spec d 4) as [H4|H4].
  { assert (slot_of d = d) as -> by (unfold slot_of; by rewrite (proj2 (Z.ltb_lt d 4))). rewrite follow_TREE by (change (2 ^ Z.of_nat 6) with 64; lia).
    cbn [mbind option_bind]. change kStartPosModelIndex with 4. rewrite (proj2 (Z.leb_gt 4 d)), (proj2 (Z.ltb_lt d 4)) by lia. done. }
  pose proof (slot_facts d ltac:(lia)) as (Hn & Hs & En & H14 & Ed). cbv zeta in *. set (slot := slot_of d) in *. clearbody slot.
  rewrite follow_TREE by (change (2 ^ Z.of_nat 6) with 64; lia). cbn [mbind option_bind]. change kStartPosModelIndex with 4. change kEndPosModelIndex with 14.
  rewrite (proj2 (Z.leb_le 4 slot)), (proj2 (Z.ltb_ge slot 4)) by lia. rewrite Z.shiftr_div_pow2 by lia. change (2 ^ 1) with 2. rewrite En, low_bit_mod.
  set (n := Z.log2 d - 1) in *. clearbody n. set (base := 2 + slot mod 2) in *. assert (2 <= base <= 3) as Hb by (unfold base; pose proof (Z.mod_pos_bound slot 2 ltac:(lia)); lia).
  clearbody base. assert (0 < 2 ^ n) as Hp by (apply Z.pow_pos_nonneg; lia). pose proof (Z.mod_pos_bound d (2 ^ n) Hp) as Hm.
  destruct (Z.ltb_spec slot 14) as [Hlt|Hge].
  - change (Prog_bind _ _ ?f ?g) with (g ≫= f). rewrite follow_bind, follow_rev. cbn [mbind option_bind follow]. rewrite Z2Nat.id, Z.shiftl_mul_pow2, Z.mod_mod by lia.
    do 3 f_equal. lia.
  - change (Prog_bind _ _ ?f ?g) with (g ≫= f). rewrite <- app_assoc, follow_bind. change kNumAlignBits with 4.
    assert (5 < n) as Hn6 by lia. assert (base * 2 ^ Z.of_nat (Z.to_nat (n - 4)) + (d / 16) mod 2 ^ Z.of_nat (Z.to_nat (n - 4)) = d / 16) as E16.
    { rewrite Z2Nat.id by lia. assert (2 ^ n = 16 * 2 ^ (n - 4)) as Epn by (change 16 with (2 ^ 4); rewrite <- Z.pow_add_r by lia; f_equal; lia).
      rewrite Epn in *. rewrite Z.rem_mul_r in * by lia. pose proof (Z.mod_pos_bound d 16 ltac:(lia)).
      apply (Z.div_unique d 16 _ (d mod 16)); [lia|]. rewrite Ed at 1. ring. }
    rewrite follow_direct by (rewrite ?E16; try lia; change (2 ^ 32) with 4294967296 in *; Z.to_euclidean_division_equations; lia).
    rewrite E16. cbn [mbind option_bind]. change (Prog_bind _ _ ?f ?g) with (g ≫= f). rewrite follow_bind, follow_align. cbn [mbind option_bind follow].
    assert (Z.lor (wrap 32 (Z.shiftl (d / 16) 4)) (d mod 16) = d) as ->; [|by rewrite (proj2 (Z.eqb_neq d 4294967295)) by (change (2 ^ 32) with 4294967296 in *; lia)].
    rewrite wrap_small by (rewrite Z.shiftl_mul_pow2 by lia; change (2 ^ 4) with 16; change (2 ^ 32) with 4294967296 in *; Z.to_euclidean_division_equations; lia).
    rewrite Z.lor_comm, <- Z.add_nocarry_lor; [rewrite Z.shiftl_mul_pow2 by lia; change (2 ^ 4) with 16; pose proof (Z.div_mod d 16 ltac:(lia)); lia|].
    change 16 with (2 ^ 4). rewrite <- Z.land_ones by lia. apply Z.bits_inj'. intros i Hi. rewrite !Z.land_spec, Z.bits_0.
    destruct (Z_lt_le_dec i 4).
    + rewrite Z.shiftl_spec_low by lia. apply andb_false_r.
    + rewrite Z.ones_spec_high by lia. by rewrite andb_false_r.
Qed.

(** ** What was written *)

Definition vars_of (p : Past) : Vars := mkVars (pstate p) (dist0 p) (dist1 p) (dist2 p) (dist3 p) (written p) 0.
Record past_ok (p : Past) : Prop := {
  pa_state : 0 <= pstate p < kNumStates;
  pa_dists : reps_in (Z.max 1 (written p)) (vars_of p);
  pa_first : out p = [] -> pstate p < kNumLitStates;
  pa_bytes : Forall byte_ok (out p);
  pa_small : written p < 2 ^ 32
}.
Lemma start_ok : past_ok start.
Proof. split; try done. Qed.

Lemma rd8_byte l pos b : Forall byte_ok l -> rd8 l pos = Some b -> byte_ok b.
Proof. intros Hl Hb. unfold rd8 in Hb. destruct (_ <? 0); [done|]. by apply (Forall_lookup_1 _ _ _ _ Hl Hb). Qed.
Lemma copy_back_ok n dist l l' : copy_back n dist l = Some l' -> Forall byte_ok l ->
  (exists m, l' = l ++ m /\ length m = n) /\ Forall byte_ok l' /\ (n <> 0%nat -> dist <= Z.of_nat (length l)).
Proof.
  revert l. induction n as [|n IH]; intros l Hc Hl; simpl in Hc.
  - injection Hc as <-. split; [exists []; by rewrite app_nil_r|]. split; [done|lia].
  - destruct (rd8 l _) as [b|] eqn:Eb; [|done]. cbn [mbind option_bind] in Hc. pose proof (rd8_bound _ _ _ Eb).
    destruct (IH _ Hc) as ((m & -> & Hm) & Hb & _); [apply Forall_app_2; [done|]; constructor; [by eapply rd8_byte|done]|].
    split; [exists (b :: m); rewrite <- app_assoc; simpl; by rewrite Hm|]. split; [done|lia].
Qed.

Lemma copy_back_app n d l l' : copy_back n d l = Some l' -> exists m, l' = l ++ m.
Proof.
  revert l. induction n as [|n IH]; intros l Hc; cbn [copy_back] in Hc; [injection Hc as <-; exists []; by rewrite app_nil_r|].
  destruct (rd8 _ _) as [b|]; [|done]. cbn [mbind option_bind] in Hc. apply IH in Hc as [m ->]. rewrite <- app_assoc. by eexists.
Qed.
Lemma past_step_app t p p' : past_step t p = Some p' -> exists m, out p' = out p ++ m.
Proof.
  destruct t as [b|dist n| |k n]; cbn [past_step]; [| | |destruct k as [|[|[|k]]]];
    intros Hs; try (destruct (_ : bool) in Hs; [|done]);
    try (destruct (copy_back _ _ _) as [l|] eqn:Ec in Hs; [apply copy_back_app in Ec|done]); injection Hs as <-; done || by eexists.
Qed.
Lemma expand_app ts p q : expand ts p = Some q -> (exists m, out q = out p ++ m) /\ written p <= written q.
Proof.
  intros He. assert (exists m, out q = out p ++ m) as [m Em]; [|split; [by exists m|unfold written; rewrite Em, length_app; lia]].
  revert p He. induction ts as [|t ts IH]; intros p He; cbn [expand] in He; [injection He as <-; exists []; by rewrite app_nil_r|].
  destruct (past_step t p) as [p'|] eqn:Es; [|done]. apply past_step_app in Es as [m Em]. apply IH in He as [m' Em'].
  exists (m ++ m'). by rewrite Em', Em, app_assoc.
Qed.

(** A copy of [n] bytes from a distance of the past, with another state and other distances. *)
Lemma copied_ok p n d0 d1 d2 d3 s l : past_ok p -> copy_back (Z.to_nat n) d0 (out p) = Some l -> 0 < n -> 0 <= s < kNumStates ->
  1 <= d0 -> reps_in (Z.max 1 (written p)) (mkVars s 1 d1 d2 d3 0 0) -> written (mkPast l s d0 d1 d2 d3) < 2 ^ 32 ->
  past_ok (mkPast l s d0 d1 d2 d3) /\ written (mkPast l s d0 d1 d2 d3) = written p + n /\ 1 <= d0 <= written p.
Proof.
  intros [Hst Hd Hf Hb Hsm] Hc Hn Hs Hd0 (_ & H1 & H2 & H3) Hw. destruct (copy_back_ok _ _ _ _ Hc Hb) as ((m & El & Em) & Hb' & Hdist).
  specialize (Hdist ltac:(lia)). cbn in H1, H2, H3. assert (written (mkPast l s d0 d1 d2 d3) = written p + n) as Ew.
  { unfold written. cbn [out]. rewrite El, length_app, Em. lia. }
  split; [|unfold written in *; lia]. split; try done.
  - rewrite Ew. unfold reps_in. cbn. unfold written in *. lia.
  - cbn. intros ->. destruct (out p), m; try done. cbn in Em. lia.
Qed.

(** What a step leaves. *)
Definition grows (p p' : Past) : Prop := past_ok p' /\ written p < written p' /\ exists m, out p' = out p ++ m.
Lemma copied_grows p n d0 d1 d2 d3 s l : past_ok p -> copy_back (Z.to_nat n) d0 (out p) = Some l -> 0 < n -> 0 <= s < kNumStates ->
  1 <= d0 -> reps_in (Z.max 1 (written p)) (mkVars s 1 d1 d2 d3 0 0) -> written (mkPast l s d0 d1 d2 d3) < 2 ^ 32 -> grows p (mkPast l s d0 d1 d2 d3).
Proof.
  intros Hp Hc Hn Hs Hd Hr Hw. destruct (copied_ok p n d0 d1 d2 d3 s l) as (Hp' & Ew & _); try done. split; [done|]. split; [lia|].
  destruct (copy_back_ok _ _ _ _ Hc (pa_bytes _ Hp)) as ((m & El & _) & _). by exists m.
Qed.
Lemma past_step_ok t p p' : past_step t p = Some p' -> past_ok p -> written p' < 2 ^ 32 -> grows p p'.
Proof.
  intros Hst Hp Hw. pose proof Hp as [Hs (R0 & R1 & R2 & R3) Hf Hb Hsm]. cbn in R0, R1, R2, R3. change kNumStates with 12 in *. change kNumLitStates with 7 in *.
  destruct t as [b|dist n| |k n]; cbn [past_step] in Hst.
  - destruct (_ && _) eqn:E; [|done]. injection Hst as <-. zbool. assert (written p < written p + 1) as Hlt by lia.
    assert (forall s, written (mkPast (out p ++ [b]) s (dist0 p) (dist1 p) (dist2 p) (dist3 p)) = written p + 1) as Ew.
    { intros s. unfold written. cbn [out]. rewrite length_app. cbn [length]. lia. }
    rewrite Ew in Hw. split; [|split; [rewrite Ew; lia|by exists [b]]]. split; try (rewrite Ew); cbn; try done.
    + unfold after_literal. change kNumStates with 12. destruct (Z.ltb_spec (pstate p) 4), (Z.ltb_spec (pstate p) 10); lia.
    + unfold reps_in. cbn. lia.
    + by destruct (out p).
    + apply Forall_app_2; [done|]. constructor; [unfold byte_ok; lia|done].
  - destruct (_ && _) eqn:E; [|done]. unfold length_in in E. zbool. destruct (copy_back _ _ _) as [l|] eqn:Ec; [|done]. injection Hst as <-.
    apply (copied_grows p n); try done; try lia; [destruct (pstate p <? 7); change kNumStates with 12; lia|unfold reps_in; cbn; lia].
  - change 1%nat with (Z.to_nat 1) in Hst. destruct (copy_back _ _ _) as [l|] eqn:Ec; [|done]. injection Hst as <-.
    apply (copied_grows p 1); try done; try lia; [destruct (pstate p <? 7); change kNumStates with 12; lia|unfold reps_in; cbn; lia].
  - destruct (length_in n) eqn:E; [|done]. unfold length_in in E. zbool.
    destruct k as [|[|[|k]]]; (destruct (copy_back _ _ _) as [l|] eqn:Ec; [|done]); injection Hst as <-;
      (apply (copied_grows p n); try done; try lia; [destruct (pstate p <? 7); change kNumStates with 12; lia|unfold reps_in; cbn; lia]).
Qed.

(** ** A symbol and its token *)

(** What the decoder is left to do. *)
Definition step_of (t : Token) (p p' : Past) : Step :=
  match t with
  | TLit b => Put (256 + b) (vars_of p')
  | TShort => Short (vars_of p')
  | TMatch _ n | TRep _ n => Copy (vars_of p' <| processedPos := written p |> <| len := n - 2 |>)
  end.

Section Model.
Context (prop : CLzmaProps) (size : Z).
Hypothesis Hprop : props_ok prop.
Abbreviation model := (fun p => symbol_step prop size 0 (written p) (vars_of p)).

Lemma literal_follow b p p' r : past_step (TLit b) p = Some p' -> past_ok p -> written p' < 2 ^ 32 ->
  follow (out p) (literal_step prop size 0 (written p) (vars_of p)) (msb 8 b ++ r) = Some (step_of (TLit b) p p', r).
Proof.
  intros Hst Hp Hw. pose proof (past_step_ok _ _ _ Hst Hp Hw) as (_ & Hlt & _). destruct Hp as [Hs (R0 & _) Hf Hb Hsm]. cbn in R0.
  cbn [past_step] in Hst. destruct (_ && _) eqn:E; [|done]. zbool. injection Hst as <-. unfold literal_step.
  change (processedPos (vars_of p)) with (written p). change (state (vars_of p)) with (pstate p). change (rep0 (vars_of p)) with (dist0 p).
  assert (wrap 32 (written p + 1) = written p + 1) as Ew.
  { apply wrap_small. unfold written in *. cbn [out] in *. rewrite length_app in *. cbn [length] in *. lia. }
  assert (Z.of_nat (length (out p ++ [b])) = written p + 1) as El by (rewrite length_app; unfold written; cbn; lia).
  assert (forall pos, exists prob, follow (out p)
    (if negb (written p =? 0) || negb (0 =? 0) then x ← read_dic (prev_pos size (written p)); Return (pos x) else Return Literal) (msb 8 b ++ r) = Some (prob, msb 8 b ++ r)) as Hprob.
  { intros pos. destruct (Z.eqb_spec (written p) 0); cbn [negb orb]; [by eexists|]. unfold prev_pos. rewrite (proj2 (Z.eqb_neq _ _)) by done.
    cbn [read_dic mbind Prog_bind prog_then follow]. destruct (rd8_in (out p) (written p - 1)) as [x ->]; [unfold written in *; lia|]. by eexists. }
  rewrite follow_bind. destruct (Hprob (fun b => Literal + wrap 32 (3 * Z.shiftl (Z.land (wrap 32 (wrap 32 (Z.shiftl (written p) 8) + b)) (lpMask prop)) (lc prop)))) as [prob ->].
  cbn [mbind option_bind]. cbn [put put_processedPos put_state state processedPos rep0]. change (Prog_bind _ _ ?f ?g) with (g ≫= f).
  change kNumLitStates with 7. change kNumStates with 12 in *. change (state (vars_of p)) with (pstate p). change (rep0 (vars_of p)) with (dist0 p).
  assert (forall s, s = after_literal (pstate p) ->
    Put (1 * 2 ^ Z.of_nat 8 + b mod 2 ^ Z.of_nat 8) (mkVars s (dist0 p) (dist1 p) (dist2 p) (dist3 p) (wrap 32 (written p + 1)) 0) =
    step_of (TLit b) p (mkPast (out p ++ [b]) (after_literal (pstate p)) (dist0 p) (dist1 p) (dist2 p) (dist3 p))) as Hput.
  { intros s ->. cbn [step_of]. change (2 ^ Z.of_nat 8) with 256. rewrite Z.mod_small by lia. unfold vars_of. cbn [pstate dist0 dist1 dist2 dist3]. f_equal. f_equal. unfold written at 2. cbn [out]. lia. }
  destruct (Z.ltb_spec (pstate p) 7) as [H7|H7].
  - rewrite follow_bind, follow_tree. cbn [mbind option_bind follow]. do 2 f_equal. rewrite <- (Hput (pstate p - (if pstate p <? 4 then pstate p else 3))); [done|].
    unfold after_literal. destruct (Z.ltb_spec (pstate p) 4); [lia|]. rewrite (proj2 (Z.ltb_lt _ _)) by lia. done.
  - assert (written p <> 0) as Hne. { intros E0. assert (out p = []) as Eo by (apply nil_length_inv; unfold written in E0; lia). specialize (Hf Eo). change kNumLitStates with 7 in Hf. lia. }
    assert (0 < written p) by (unfold written in *; lia).
    cbn [read_dic mbind Prog_bind prog_then follow]. change (rep0 _) with (dist0 p). unfold rep0_pos. rewrite (proj2 (Z.ltb_ge (written p) (dist0 p))) by lia.
    destruct (rd8_in (out p) (written p - dist0 p + 0)) as [m Em]; [unfold written in *; lia|]. rewrite Em. cbn [mbind option_bind].
    change (prog_then ?f (matched_bits ?a ?b ?c ?d ?e)) with (matched_bits a b c d e ≫= f). rewrite follow_bind, follow_matched. cbn [mbind option_bind follow]. do 2 f_equal.
    rewrite <- (Hput (pstate p - (if pstate p <? 10 then 3 else 6))); [done|].
    unfold after_literal. rewrite (proj2 (Z.ltb_ge (pstate p) 4)) by lia. by destruct (Z.ltb_spec (pstate p) 10).
Qed.

Lemma match_follow dist n p p' ps r : past_step (TMatch dist n) p = Some p' -> past_ok p -> written p' < 2 ^ 32 ->
  follow (out p) (match_step 0 ps (vars_of p <| state := state (vars_of p) + kNumStates |>)) (length_code (n - 2) ++ distance_code (dist - 1) ++ r) =
  Some (step_of (TMatch dist n) p p', r).
Proof.
  intros Hst Hp Hw. cbn [past_step] in Hst. destruct (_ && _) eqn:E; [|done]. unfold length_in in E. zbool.
  destruct (copy_back _ _ _) as [l|] eqn:Ec; [|done]. injection Hst as <-. destruct (copied_ok p n dist (dist0 p) (dist1 p) (dist2 p) (if pstate p <? 7 then 7 else 10) l) as (_ & _ & Hdist);
    try done; try lia; [destruct (_ <? _); change kNumStates with 12; lia|pose proof (pa_dists _ Hp) as (R0 & R1 & R2 & R3); unfold reps_in; cbn in *; lia|].
  pose proof (pa_small _ Hp) as Hsm. unfold match_step. rewrite follow_bind, follow_length by lia. cbn [mbind option_bind]. rewrite follow_bind, follow_distance by lia.
  cbn [mbind option_bind follow Z.eqb]. change (processedPos _) with (written p) at 1. rewrite (proj2 (Z.leb_gt (written p) (dist - 1))) by lia. do 2 f_equal.
  change (Copy (mkVars (if pstate p + 12 <? 19 then 7 else 10) (wrap 32 (dist - 1 + 1)) (dist0 p) (dist1 p) (dist2 p) (written p) (n - 2)) =
    Copy (mkVars (if pstate p <? 7 then 7 else 10) dist (dist0 p) (dist1 p) (dist2 p) (written p) (n - 2))).
  rewrite Z.sub_add, wrap_small by lia. do 2 f_equal. destruct (Z.ltb_spec (pstate p + 12) 19), (Z.ltb_spec (pstate p) 7); lia.
Qed.
Lemma rep_follow k n p p' ps r : past_step (TRep k n) p = Some p' -> past_ok p -> written p' < 2 ^ 32 ->
  follow (out p) (rep_step ps (vars_of p)) (rep_code k ++ length_code (n - 2) ++ r) = Some (step_of (TRep k n) p p', r).
Proof.
  intros Hst Hp Hw. cbn [past_step] in Hst. destruct (length_in n) eqn:E; [|done]. unfold length_in in E. zbool. unfold rep_step, rep_bits.
  destruct k as [|[|[|k]]]; (destruct (copy_back _ _ _) as [l|] eqn:Ec; [|done]); injection Hst as <-; cbn [rep_code app if_bit mbind Prog_bind prog_then follow negb];
    (change (prog_then ?f (length_bits ?a ?b)) with (length_bits a b ≫= f); rewrite follow_bind, follow_length by lia; reflexivity).
Qed.
Lemma short_follow p p' ps r : past_step TShort p = Some p' -> past_ok p -> written p' < 2 ^ 32 ->
  follow (out p) (rep_step ps (vars_of p)) (false :: false :: r) = Some (step_of TShort p p', r).
Proof.
  intros Hst Hp Hw. cbn [past_step] in Hst. change 1%nat with (Z.to_nat 1) in Hst. destruct (copy_back _ _ _) as [l|] eqn:Ec; [|done]. injection Hst as <-.
  destruct (copied_ok p 1 (dist0 p) (dist1 p) (dist2 p) (dist3 p) (if pstate p <? 7 then 9 else 11) l) as (_ & Ew & Hdist);
    try done; [destruct (_ <? _); change kNumStates with 12; lia|apply Hp|pose proof (pa_dists _ Hp) as (R0 & R1 & R2 & R3); unfold reps_in; cbn in *; lia|].
  unfold rep_step, rep_bits. cbn [app if_bit mbind Prog_bind prog_then follow negb]. do 2 f_equal. cbn [step_of]. unfold vars_of. rewrite Ew in *.
  change (Short (mkVars (if pstate p <? 7 then 9 else 11) (dist0 p) (dist1 p) (dist2 p) (dist3 p) (wrap 32 (written p + 1)) 0) =
    Short (mkVars (if pstate p <? 7 then 9 else 11) (dist0 p) (dist1 p) (dist2 p) (dist3 p) (written p + 1) 0)).
  rewrite wrap_small; [done|]. unfold written in *. lia.
Qed.

(** The symbol that gets the bits of a token. *)
Lemma follow_symbol t p p' r : past_step t p = Some p' -> past_ok p -> written p' < 2 ^ 32 ->
  follow (out p) (model p) (token_code t ++ r) = Some (step_of t p p', r).
Proof.
  intros Hst Hp Hw. unfold symbol_step. destruct t as [b|dist n| |k n]; cbn [token_code app if_bit mbind Prog_bind prog_then follow negb].
  - by apply literal_follow.
  - rewrite <- app_assoc. by apply match_follow.
  - by apply short_follow.
  - rewrite <- app_assoc. by apply rep_follow.
Qed.
End Model.

(** ** The stream of a list of tokens *)

Section Encoder.
Context (prop : CLzmaProps) (size : Z).
Definition np_of : Z := LzmaProps_GetNumProbs prop.
Abbreviation model := (fun p => symbol_step prop size 0 (written p) (vars_of p)).

Fixpoint encode_tokens (ts : list Token) (p : Past) (e : Enc) : option (Past * Enc) :=
  match ts with
  | [] => Some (p, enc_normalize e)
  | t :: ts =>
      p' ← past_step t p;
      '(_, _, e) ← encode (out p) (model p) (token_code t) e;
      encode_tokens ts p' e
  end.
Definition enc_start : Enc := mkEnc 0 0xFFFFFFFF 0 (repeat (Z.shiftr kBitModelTotal 1) (Z.to_nat np_of)).

Hypothesis Hprop : props_ok prop.

Lemma enc_start_ok : enc_ok np_of enc_start.
Proof.
  split; cbn; [lia|lia| |].
  - apply Forall_forall. intros x Hx%repeat_spec. subst x. by vm_compute.
  - rewrite repeat_length. unfold np_of. pose proof (top_eq prop Hprop) as Ht. unfold top in Ht. change kStartOffset with 1664 in Ht.
    assert (0 < 2 ^ (lc prop + lp prop)) by (apply Z.pow_pos_nonneg; destruct Hprop; lia). lia.
Qed.
Lemma model_within : within np_of (symbol_region prop).
Proof. intros q. unfold symbol_region, top, np_of. lia. Qed.

Lemma model_ok p : past_ok p ->
  ok (Z.of_nat (length (out p))) (step_ok (Z.max 1 (history 0 (vars_of p))) (vars_of p)) (symbol_region prop) 22 26 (model p).
Proof.
  intros [Hs Hd Hf Hb Hsm]. assert (history 0 (vars_of p) = written p) as Eh by done. rewrite Eh. apply ok_symbol; [done|..].
  - split; rewrite ?Eh; try done; [split; [unfold vars_of, written; cbn [processedPos]; lia|done]|lia|lia].
  - assert (started 0 (vars_of p) -> 0 < written p) as Hst by (intros [H|]; [cbn in H; unfold written in *; lia|done]). split.
    + intros H%Hst. unfold prev_pos. rewrite (proj2 (Z.eqb_neq _ _)) by lia. unfold written in *. lia.
    + intros H%Hst. destruct Hd as (R0 & _). cbn in *. unfold rep0_pos. rewrite (proj2 (Z.ltb_ge _ _)) by lia. unfold written in *. lia.
    + intros Hns. apply Hf. apply nil_length_inv. destruct (decide (written p = 0)); [unfold written in *; lia|]. exfalso. apply Hns. by left.
Qed.

(** Every token has its bits in the stream. *)
Lemma encode_symbol t p p' e : past_step t p = Some p' -> past_ok p -> written p' < 2 ^ 32 -> enc_ok np_of e ->
  exists e', encode (out p) (model p) (token_code t) e = Some (step_of t p p', [], e') /\ enc_ok np_of e' /\ inside e e'.
Proof.
  intros Hst Hp Hw He. pose proof (follow_symbol prop size t p p' [] Hst Hp Hw) as Hf. rewrite app_nil_r in Hf.
  destruct (encode_follow np_of (out p) _ _ _ _ _ _ e _ _ (model_ok p Hp) model_within (pa_bytes _ Hp) He Hf) as (e' & Ee).
  exists e'. split; [done|]. by apply (encode_inside np_of (out p) (model p) (token_code t) e _ _ e' Ee).
Qed.

Lemma expand_grows ts p q : expand ts p = Some q -> past_ok p -> written q < 2 ^ 32 -> past_ok q /\ (ts <> [] -> written p < written q).
Proof.
  revert p. induction ts as [|t ts IH]; intros p He Hp Hw; cbn [expand] in He; [by injection He as <-|].
  destruct (past_step t p) as [p'|] eqn:Es; [|done]. cbn [mbind option_bind] in He. pose proof (expand_app _ _ _ He) as [_ Hle].
  destruct (past_step_ok t p p' Es Hp) as (Hp' & Hlt & _); [lia|]. destruct (IH p' He Hp' Hw) as [Hq _]. split; [done|lia].
Qed.

Lemma encode_expand ts p e q : expand ts p = Some q -> past_ok p -> written q < 2 ^ 32 -> enc_ok np_of e ->
  exists ef, encode_tokens ts p e = Some (q, ef).
Proof.
  revert p e. induction ts as [|t ts IH]; intros p e He Hp Hw Hok; cbn [expand encode_tokens] in *; [injection He as <-; by eexists|].
  destruct (past_step t p) as [p'|] eqn:Es; [|done]. cbn [mbind option_bind] in *. pose proof (expand_app _ _ _ He) as [_ Hle].
  destruct (encode_symbol t p p' e Es Hp) as (e' & -> & Hok' & _); [lia|done|]. cbn [mbind option_bind].
  destruct (past_step_ok t p p' Es Hp) as (Hp' & _); [lia|]. by apply IH.
Qed.
End Encoder.

(** The content and the stream of a list of tokens, without an end mark: a zero, then the lower end of the last interval. *)
Definition compress (prop : CLzmaProps) (ts : list Token) : option (list Z * list Z) :=
  q ← expand ts start;
  '(_, ef) ← encode_tokens prop (written q) ts start (enc_start prop);
  Some (out q, 0 :: rev (le (4 + shifts ef) (low ef))).

(** No longer than the bits of its tokens. *)
Definition code_bits (ts : list Token) : nat := length (concat (map token_code ts)).
Lemma tokens_shifts prop size ts p e q ef : encode_tokens prop size ts p e = Some (q, ef) -> (shifts ef <= shifts e + code_bits ts + 1)%nat.
Proof.
  revert p e. unfold code_bits. induction ts as [|t ts IH]; intros p e He; cbn [encode_tokens map concat] in *.
  - injection He as _ <-. unfold enc_normalize. destruct (_ <? _); cbn; lia.
  - destruct (past_step t p) as [p'|]; [|done]. cbn [mbind option_bind] in He. destruct (encode _ _ _ e) as [[[st rest] e1]|] eqn:Ee; [|done].
    cbn [mbind option_bind] in He. apply IH in He. apply encode_shifts in Ee. rewrite length_app. lia.
Qed.
Lemma compress_length prop ts l stream : compress prop ts = Some (l, stream) -> (length stream <= code_bits ts + 6)%nat.
Proof.
  unfold compress. destruct (expand ts start) as [q|]; [|done]. cbn [mbind option_bind]. destruct (encode_tokens _ _ _ _ _) as [[q' ef]|] eqn:Ee; [|done].
  cbn [mbind option_bind]. intros E. assert (stream = 0 :: rev (le (4 + shifts ef) (low ef))) as -> by congruence. apply tokens_shifts in Ee. cbn [length]. rewrite length_rev, le_length. change (shifts (enc_start prop)) with 0%nat in Ee. lia.
Qed.
