(* ===== verification/LzmaRound.v ===== *)
(** * The LZMA decoder decodes

    A stream of the encoder of LzmaEncode.v, given to the decoder of LzmaDec.v in one call, is what its tokens
    mean. *)

From Stdlib Require Import ZArith Lia.
From stdpp Require Import base list option.
From S2P Require Import Prelude Bytes RangeCoder LzmaDec LzmaSymbol LzmaSafe RangeEncode LzmaEncode.

#[local] Open Scope Z_scope.
#[local] Open Scope prog_scope.

(** ** The look ahead finds what is there *)

Section Back.
Context (np : Z) (inp dic : list Z).
Hypothesis inp_bytes : Forall byte_ok inp.
Hypothesis dic_bytes : Forall byte_ok dic.

Lemma normalize_back c c' c1 : coder_ok np c -> coder_ok np c' -> agree c c' -> NORMALIZE inp c = Some c1 ->
  exists c1', NORMALIZE_CHECK inp (Z.of_nat (length inp)) c' = Some (Value c1') /\ agree c1 c1' /\ coder_ok np c1 /\ coder_ok np c1' /\
    kTopValue <= range c1 /\ probs c1 = probs c /\ probs c1' = probs c'.
Proof.
  intros Hc Hc' Hag En. destruct (normalize_check np inp inp_bytes c c' (Z.of_nat (length inp)) Hc Hc' Hag ltac:(lia)) as
    [E1|(d & d' & E' & E1 & Ha1 & Hd & Hd' & Hr & Hp1 & Hp1' & _)].
  - exfalso. unfold NORMALIZE_CHECK in E1. destruct Hag as (Er & _ & Eb). unfold NORMALIZE in En. rewrite Er, Eb in En.
    destruct (range c' <? kTopValue); [|by injection E1]. destruct (Z.leb_spec (Z.of_nat (length inp)) (buf c')) as [Hle|].
    + destruct (rd8 inp (buf c')) eqn:Eb8; [|done]. apply rd8_bound in Eb8. lia.
    + destruct (rd8 inp (buf c')); [|done]. cbn [mbind option_bind] in E1. by injection E1.
  - rewrite E1 in En. injection En as ->. exists d'. by split_and!.
Qed.

(** A program that ran: the look ahead at the same place takes its way. *)
Lemma ahead_back {A B} (E : A -> B -> Prop) dl (g : Prog A) (g' : Prog B) (P : A -> Prop) R n m c c' a c1 :
  ok dl P R n m g -> same_bits E g g' -> (forall p, R p -> prob_at (probs c) p = prob_at (probs c') p) ->
  coder_ok np c -> coder_ok np c' -> agree c c' -> run inp dic g c = Some (a, c1) ->
  exists b c1', run_check inp dic (Z.of_nat (length inp)) g' c' = Some (Value (b, c1')) /\ E a b /\ agree c1 c1' /\ coder_ok np c1'.
Proof.
  intros Hok. revert g' c c'.
  induction Hok as [R n m a0 Ha|R T n m p k Hp HT Hk IH|R n m k Hk IH|R n m pos k Hpos Hk IH|R n m g Hg IH];
    intros g' c c' Hs Hpr Hc Hc' Hag Hrun.
  - inversion Hs as [a' b' HE| | |]; subst. injection Hrun as <- <-. by exists b', c'.
  - inversion Hs as [|p' k1 k' Hk'| |]; subst. cbn [run run_check] in *. rewrite (Hpr p Hp) in Hrun.
    destruct (prob_at (probs c') p) as [v|] eqn:Ev; [|done]. cbn [mbind option_bind] in *. pose proof (prob_at_ok np c' p v Hc' Ev) as Hv.
    destruct (NORMALIZE inp c) as [d|] eqn:En; [|done]. destruct (normalize_back c c' d Hc Hc' Hag En) as (d' & -> & Ha1 & Hd & Hd' & Hr & Hp1 & Hp1').
    cbn [mbind option_bind] in *. destruct Ha1 as (Er & Ec & Eb). assert (bound_of d' v = bound_of d v) as Ebd by (unfold bound_of; by rewrite Er).
    rewrite Ebd, <- Ec. assert (0 <= kStartOffset + p) as Hp0.
    { unfold prob_at, rd8 in Ev. destruct (Z.ltb_spec (kStartOffset + p) 0); [done|lia]. }
    assert (forall q w, T q -> prob_at (set_prob (probs d) p w) q = prob_at (probs d') q) as HTq.
    { intros q w Hq. destruct (HT q Hq) as [HSq Hne]. rewrite set_prob_other by done. rewrite Hp1, Hp1'. by apply Hpr. }
    destruct (Z.ltb_spec (code d) (bound_of d v)) as [Hlt|Hle].
    + apply (IH false _ (UPDATE_0 p (bound_of d v) v d) (UPDATE_0_CHECK (bound_of d v) d')); [apply Hk'|intros q Hq; by apply HTq|by apply update_0_ok| |by split_and!|exact Hrun].
      rewrite <- Ebd. apply check_0_ok; [done|lia|done].
    + destruct (update_1_ok np d p v Hd Hr Hv Hle) as (Hd2 & _ & _).
      apply (IH true _ (UPDATE_1 p (bound_of d v) v d) (UPDATE_1_CHECK (bound_of d v) d')); [apply Hk'|intros q Hq; by apply HTq|done| | |exact Hrun].
      * rewrite <- Ebd. apply check_1_ok; [done|lia|done|]. rewrite Ebd. lia.
      * unfold agree. cbn. by rewrite Er, Ec.
  - inversion Hs as [| |k1 k' Hk'|]; subst. cbn [run run_check] in *. destruct (NORMALIZE inp c) as [d|] eqn:En; [|done].
    destruct (normalize_back c c' d Hc Hc' Hag En) as (d' & -> & (Er & Ec & Eb) & Hd & Hd' & Hr & Hp1 & Hp1'). cbn [mbind option_bind] in *.
    rewrite (proj1 (direct_facts np d Hd Hr)) in Hrun. rewrite (proj2 (direct_facts np d' Hd' ltac:(lia))).
    pose proof (proj1 (direct_spec_ok np d Hd Hr)) as Hd2. pose proof (proj1 (direct_spec_ok np d' Hd' ltac:(lia))) as Hd2'.
    assert ((direct_spec d').1 = (direct_spec d).1 /\ agree (direct_spec d).2 (direct_spec d').2) as [E2 E3].
    { unfold direct_spec, agree. cbn. by rewrite Er, Ec, Eb. }
    assert (probs (direct_spec d).2 = probs c /\ probs (direct_spec d').2 = probs c') as (E4 & E5) by by split_and!.
    destruct (direct_spec d) as [x e], (direct_spec d') as [x' e']. cbn [fst snd] in *. subst x'.
    apply (IH x (k' x) e e'); [apply Hk'|intros q Hq; rewrite E4, E5; auto|done..].
  - inversion Hs as [| | |pos' k1 k' Hk']; subst. cbn [run run_check] in *.
    destruct (rd8 dic pos) as [x|] eqn:Ex; [|done]. cbn [mbind option_bind] in *. pose proof (rd8_byte _ _ _ dic_bytes Ex) as Hx.
    by apply (IH x Hx (k' x) c c'); auto.
  - by apply (IH g' c c').
Qed.
End Back.

(** ** Writing what a token means *)

Section Writing.
Context (dest : list Z).

(** The dictionary after [l] was written. *)
Definition dic_after (l : list Z) : list Z := l ++ drop (length l) dest.
Lemma dic_after_read l pos b : rd8 l pos = Some b -> rd8 (dic_after l) pos = Some b.
Proof. unfold rd8, dic_after. destruct (_ <? 0); [done|]. apply lookup_app_l_Some. Qed.
Lemma put_byte l b : (length l < length dest)%nat -> wr8 (dic_after l) (Z.of_nat (length l)) b = Some (dic_after (l ++ [wrap 8 b])).
Proof.
  intros Hl. unfold wr8, dic_after. rewrite length_app, length_drop, (proj2 (Z.leb_le 0 _)), (proj2 (Z.ltb_lt _ _)) by lia. cbn [andb]. f_equal.
  rewrite Nat2Z.id. destruct (drop (length l) dest) as [|x r] eqn:Ed; [apply (f_equal length) in Ed; rewrite length_drop in Ed; cbn in Ed; lia|].
  replace (length l) with (length l + 0)%nat at 1 by lia. rewrite insert_app_r. cbn. rewrite length_app, <- app_assoc. cbn. f_equal. f_equal.
  by rewrite <- drop_drop, Ed.
Qed.
Lemma copy_forward_back n d l l' : copy_back n d l = Some l' -> Forall byte_ok l -> (length l' <= length dest)%nat -> 
  copy_forward n (dic_after l) (Z.of_nat (length l)) (Z.of_nat (length l) - d) = Some (dic_after l').
Proof.
  revert l. induction n as [|n IH]; intros l Hc Hb Hl; cbn [copy_back copy_forward] in *; [by injection Hc as <-|].
  destruct (rd8 l _) as [b|] eqn:Eb; [|done]. cbn [mbind option_bind] in Hc. rewrite (dic_after_read _ _ _ Eb). cbn [mbind option_bind].
  pose proof (copy_back_app _ _ _ _ Hc) as [m Em]. assert (length l < length dest)%nat as Hlt by (rewrite Em, !length_app in Hl; cbn in Hl; lia).
  pose proof (rd8_byte _ _ _ Hb Eb) as Hbb. rewrite put_byte by done. rewrite (wrap_small 8 b) by exact Hbb. cbn [mbind option_bind].
  replace (Z.of_nat (length l) + 1) with (Z.of_nat (length (l ++ [b]))) by (rewrite length_app; cbn; lia).
  replace (Z.of_nat (length l) - d + 1) with (Z.of_nat (length (l ++ [b])) - d) by (rewrite length_app; cbn; lia).
  apply IH; [done|apply Forall_app_2; [done|by constructor]|done].
Qed.

Abbreviation dic_at := (fun q => dic_after (out q)).

(** The match of a token fits, and comes from behind the position. *)
Lemma copy_match_back size q n d0 d1 d2 d3 s l : past_ok q -> copy_back (Z.to_nat n) d0 (out q) = Some l -> 2 <= n -> 1 <= d0 ->
  Z.of_nat (length l) <= size -> size <= Z.of_nat (length dest) -> size < 2 ^ 32 ->
  copy_match size size (dic_at q) (written q) (mkVars s d0 d1 d2 d3 (written q) (n - 2)) =
  Some (Some (dic_after l, Z.of_nat (length l), mkVars s d0 d1 d2 d3 (Z.of_nat (length l)) 0)).
Proof.
  intros Hq Hc Hn Hd Hl Hsize Hsm. destruct (copy_back_ok _ _ _ _ Hc (pa_bytes _ Hq)) as ((m & El & Em) & _ & Hdist). specialize (Hdist ltac:(lia)).
  assert (Z.of_nat (length l) = written q + n) as Ew by (rewrite El, length_app, Em; unfold written; lia).
  unfold copy_match. cbn [len rep0 processedPos]. change kMatchMinLen with 2. replace (n - 2 + 2) with n by lia.
  rewrite (proj2 (Z.eqb_neq (size - written q) 0)), (proj2 (Z.ltb_ge (size - written q) n)) by lia.
  rewrite (proj2 (Z.leb_le d0 (written q))) by (unfold written in *; lia).
  unfold rep0_pos. rewrite (proj2 (Z.ltb_ge (written q) d0)), (proj2 (Z.leb_le n _)) by (unfold written in *; lia). rewrite Z.add_0_r.
  pose proof (copy_forward_back _ _ _ _ Hc (pa_bytes _ Hq) ltac:(lia)) as Ecf. fold (written q) in Ecf. rewrite Ecf. cbn [mbind option_bind]. do 2 f_equal.
  rewrite Ew. f_equal. unfold put, put_processedPos, put_len. cbn. f_equal; [apply wrap_small|]; unfold written in *; lia.
Qed.

(** What the main loop does for a token. *)
Definition does (size : Z) (st : Step) (q q' : Past) : Prop :=
  match st with
  | Put b v => wr8 (dic_at q) (written q) b = Some (dic_at q') /\ v = vars_of q' /\ written q' = written q + 1
  | Short v =>
      (exists b, rd8 (dic_at q) (rep0_pos size (written q) (rep0 v)) = Some b /\ wr8 (dic_at q) (written q) b = Some (dic_at q')) /\
      v = vars_of q' /\ written q' = written q + 1
  | Copy v => copy_match size size (dic_at q) (written q) v = Some (Some (dic_at q', written q', vars_of q'))
  | _ => False
  end.
Lemma token_does size t q q' : past_step t q = Some q' -> past_ok q -> written q' <= size -> size <= Z.of_nat (length dest) -> size < 2 ^ 32 ->
  does size (step_of t q q') q q'.
Proof.
  intros Hst Hq Hw Hsize Hsm. pose proof (past_step_ok _ _ _ Hst Hq ltac:(lia)) as (_ & Hlt & _). pose proof (pa_dists _ Hq) as ((R0 & _) & (R1 & _) & (R2 & _) & (R3 & _)).
  cbn in R0, R1, R2, R3. destruct t as [b|dist n| |k n]; cbn [past_step] in Hst; cbn [step_of does].
  - destruct (_ && _) eqn:E; [|done]. zbool. injection Hst as <-. unfold written in *. cbn [out] in *. rewrite length_app in *. cbn [length] in *.
    rewrite put_byte by lia. split; [|split; [done|lia]]. do 3 f_equal. replace (256 + b) with (b + 1 * 2 ^ 8) by (change (2 ^ 8) with 256; lia).
    unfold wrap. rewrite Z.mod_add by lia. rewrite Z.mod_small; [done|]. change (2 ^ 8) with 256. lia.
  - destruct (_ && _) eqn:E; [|done]. unfold length_in in E. zbool. destruct (copy_back _ _ _) as [l|] eqn:Ec; [|done]. injection Hst as <-.
    by apply (copy_match_back size q n dist (dist0 q) (dist1 q) (dist2 q)).
  - destruct (copy_back 1 _ _) as [l|] eqn:Ec; [|done]. injection Hst as <-. change (rep0 _) with (dist0 q). cbn [copy_back] in Ec.
    destruct (rd8 (out q) _) as [b|] eqn:Eb; [|done]. cbn [mbind option_bind] in Ec. injection Ec as <-. pose proof (rd8_bound _ _ _ Eb).
    unfold written in *. cbn [out] in *. split; [|split; [done|rewrite length_app; cbn; lia]]. exists b. unfold rep0_pos. rewrite (proj2 (Z.ltb_ge _ _)) by lia. rewrite Z.add_0_r.
    split; [by apply dic_after_read|]. rewrite length_app in *. cbn [length] in *. rewrite put_byte by lia. rewrite wrap_small; [done|]. exact (rd8_byte _ _ _ (pa_bytes _ Hq) Eb).
  - destruct (length_in n) eqn:E; [|done]. unfold length_in in E. zbool.
    destruct k as [|[|[|k]]]; (destruct (copy_back _ _ _) as [l|] eqn:Ec; [|done]); injection Hst as <-; by apply copy_match_back.
Qed.
End Writing.

(** ** The interval of the tokens that follow *)

Lemma normalize_again np e : enc_ok np e -> enc_normalize (enc_normalize e) = enc_normalize e.
Proof.
  intros He. destruct (enc_normalize_ok np e He) as (_ & Hk & _). unfold enc_normalize at 1. by rewrite (proj2 (Z.ltb_ge _ _)).
Qed.

Section Tokens.
Context (pr : CLzmaProps) (size : Z).
Abbreviation np := (np_of pr).
Abbreviation model := (fun q => symbol_step pr size 0 (written q) (vars_of q)).

(** A symbol begins with a bit. *)
Lemma encode_normal q bits e : enc_ok np e -> encode (out q) (model q) bits (enc_normalize e) = encode (out q) (model q) bits e.
Proof.
  intros He. unfold symbol_step. cbn [if_bit mbind Prog_bind prog_then encode]. destruct bits; [done|].
  by rewrite (normalize_again np e He), (proj2 (proj2 (proj2 (enc_normalize_ok np e He)))).
Qed.
Lemma tokens_normal ts q e : enc_ok np e -> encode_tokens pr size ts q (enc_normalize e) = encode_tokens pr size ts q e.
Proof. intros He. destruct ts as [|t ts]; cbn [encode_tokens]; [by rewrite (normalize_again np e He)|]. by rewrite encode_normal. Qed.
Lemma tokens_inside ts q e qf ef : encode_tokens pr size ts q e = Some (qf, ef) -> enc_ok np e ->
  enc_ok np ef /\ inside e ef /\ kTopValue <= erange ef /\ expand ts q = Some qf.
Proof.
  revert q e. induction ts as [|t ts IH]; intros q e He Hok; cbn [encode_tokens expand] in *.
  - injection He as <- <-. by destruct (enc_normalize_ok np e Hok) as (Hn & Hk & Hi & _).
  - destruct (past_step t q) as [q'|]; [|done]. cbn [mbind option_bind] in *. destruct (encode _ _ _ e) as [[[st b] e1]|] eqn:Ee; [|done]. cbn [mbind option_bind] in He.
    destruct (encode_inside np _ _ _ _ _ _ _ Ee Hok) as [Hok1 Hi]. destruct (IH q' e1 He Hok1) as (H1 & H2 & H3 & H4). split_and!; try done. by eapply inside_trans.
Qed.
End Tokens.

Section Sync.
Context (pr : CLzmaProps) (size : Z) (dest inp : list Z) (qf : Past) (ef : Enc).
Hypothesis Hpr : props_ok pr.
Hypothesis size_eq : size = written qf.
Hypothesis size_dic : size < dicSize pr.
Hypothesis size_dest : size <= Z.of_nat (length dest).
Abbreviation np := (np_of pr).
Abbreviation model := (fun q => symbol_step pr size 0 (written q) (vars_of q)).

(** What remains to be said are the tokens [ts]. *)
Record follows (ts : list Token) (q : Past) (e : Enc) : Prop := {
  fo_tokens : encode_tokens pr size ts q e = Some (qf, ef);
  fo_enc : enc_ok np e;
  fo_past : past_ok q
}.
Lemma size_small : size < 2 ^ 32.
Proof. clear size_dest. destruct Hpr. lia. Qed.
Lemma follows_normal ts q e : follows ts q e -> follows ts q (enc_normalize e).
Proof. intros [Ht He Hq]. split; [by rewrite tokens_normal|by apply enc_normalize_ok|done]. Qed.
Lemma follows_towards ts q e : follows ts q e -> towards ef e /\ towards ef (enc_normalize e).
Proof.
  clear size_dest size_dic size_eq Hpr.
  assert (forall e, follows ts q e -> towards ef e) as H.
  { intros e1 [Ht He Hq]. destruct (tokens_inside pr size ts q e1 qf ef Ht He) as (_ & Hi & Hk & _). split; [done|]. change kTopValue with 16777216 in Hk. lia. }
  intros Hf. split; apply H; [done|by apply follows_normal].
Qed.
Lemma follows_room ts q e : follows ts q e -> written q <= size /\ (ts = [] <-> written q = size).
Proof.
  clear size_dest.
  intros [Ht He Hq]. destruct (tokens_inside pr size ts q e qf ef Ht He) as (_ & _ & _ & Hx). pose proof (expand_app _ _ _ Hx) as [_ Hle].
  destruct (expand_grows ts q qf Hx Hq) as [_ Hlt]; [rewrite <- size_eq; apply size_small|]. split; [lia|]. split; [intros ->; injection Hx as ->; lia|].
  intros Heq. destruct ts; [done|]. specialize (Hlt ltac:(done)). lia.
Qed.

(** One symbol is one token. *)
Lemma one_symbol ts q e c : ts <> [] -> follows ts q e -> synced ef inp c e ->
  exists t q' ts' e' c', ts = t :: ts' /\ past_step t q = Some q' /\ run inp (dic_after dest (out q)) (model q) c = Some (step_of t q q', c') /\
    follows ts' q' e' /\ synced ef inp c' e' /\ written q < written q' <= size.
Proof.
  intros Hne [Ht He Hq] Hs. destruct ts as [|t ts]; [done|]. cbn [encode_tokens] in Ht. destruct (past_step t q) as [q'|] eqn:Es; [|done]. cbn [mbind option_bind] in Ht.
  destruct (encode (out q) (model q) (token_code t) e) as [[[st rest] e1]|] eqn:Ee; [|done]. cbn [mbind option_bind] in Ht.
  destruct (encode_inside np _ _ _ _ _ _ _ Ee He) as [He1 _]. destruct (tokens_inside pr size ts q' e1 qf ef Ht He1) as (_ & Hi & Hk & Hx).
  pose proof (expand_app _ _ _ Hx) as [_ Hle]. pose proof size_small as Hsm. destruct (past_step_ok t q q' Es Hq) as (Hq' & Hlt & _); [lia|].
  destruct (encode_symbol pr size Hpr t q q' e Es Hq) as (e2 & Ee2 & _); [lia|done|]. rewrite Ee in Ee2. injection Ee2 as -> -> ->.
  assert (towards ef e2) as Htw by (split; [done|]; change kTopValue with 16777216 in Hk; lia).
  destruct (run_encoded np ef inp (out q) (dic_after dest (out q)) (model q) _ e _ _ e2 c Ee He Htw (dic_after_read dest (out q)) Hs) as (c' & Er & Hs').
  exists t, q', ts, e2, c'. split_and!; try done. lia.
Qed.

Lemma decode_loop_synced fuel bufLimit ts q e c : ts <> [] -> follows ts q e -> synced ef inp c e -> size - written q < Z.of_nat fuel ->
  exists ts' q' e' c', decode_loop inp fuel pr size 0 size bufLimit (dic_after dest (out q)) (written q) (vars_of q) c =
      Some (Ended (dic_after dest (out q')) (written q') (vars_of q') c') /\
    follows ts' q' e' /\ synced ef inp c' e' /\ written q < written q'.
Proof.
  revert ts q e c. induction fuel as [|fuel IH]; intros ts q e c Hne Hf Hs Hfuel; [destruct (follows_room _ _ _ Hf); lia|].
  destruct (one_symbol ts q e c Hne Hf Hs) as (t & q' & ts' & e' & c' & -> & Es & Er & Hf' & Hs' & Hlt & Hle). cbn [decode_loop]. rewrite Er. cbn [mbind option_bind].
  pose proof (token_does dest size t q q' Es (fo_past _ _ _ Hf) Hle size_dest size_small) as Hdo.
  assert (exists ts'' q'' e'' c'', (if (written q' <? size) && (buf c' <? bufLimit) then
      decode_loop inp fuel pr size 0 size bufLimit (dic_after dest (out q')) (written q') (vars_of q') c'
    else Some (Ended (dic_after dest (out q')) (written q') (vars_of q') c')) =
      Some (Ended (dic_after dest (out q'')) (written q'') (vars_of q'') c'') /\ follows ts'' q'' e'' /\ synced ef inp c'' e'' /\ written q < written q'') as Hagain.
  { destruct (Z.ltb_spec (written q') size) as [H1|H1]; cbn [andb]; [|by exists ts', q', e', c'].
    destruct (buf c' <? bufLimit); [|by exists ts', q', e', c'].
    destruct (IH ts' q' e' c') as (ts'' & q'' & e'' & c'' & E & Hf'' & Hs'' & Hlt''); try done; [|lia|].
    - intros ->. destruct (follows_room _ _ _ Hf') as [_ [Heq _]]. specialize (Heq eq_refl). lia.
    - exists ts'', q'', e'', c''. split_and!; try done. lia. }
  destruct (step_of t q q') as [b v|v|v|v|]; cbn [does] in Hdo; try done.
  - destruct Hdo as (-> & -> & Ew). cbn [mbind option_bind]. by rewrite <- Ew.
  - destruct Hdo as ((b & Eb & Ewr) & -> & Ew). change (rep0 (vars_of q')) with (dist0 q') in *. rewrite Eb. cbn [mbind option_bind]. rewrite Ewr. cbn [mbind option_bind]. by rewrite <- Ew.
  - by rewrite Hdo.
Qed.

(** The decoder before the tokens [ts]. *)
Record at_tokens (p : CLzmaDec) (ts : list Token) (q : Past) (e : Enc) : Prop := {
  at_prop : prop p = pr;
  at_size : dicBufSize p = size;
  at_pos : dicPos p = written q;
  at_dic : dic p = dic_after dest (out q);
  at_check : checkDicSize p = 0;
  at_vars : vars p = vars_of q;
  at_temp : tempBuf p = [];
  at_coder : synced ef inp (coder p) e;
  at_follows : follows ts q e;
  at_norm : kTopValue <= erange e
}.

Lemma decode_real_synced bufLimit p ts q e : ts <> [] -> at_tokens p ts q e ->
  exists p' ts' q' e', LzmaDec_DecodeReal_3 inp p size bufLimit = Some (SZ_OK, p') /\ at_tokens p' ts' q' e' /\ written q < written q'.
Proof.
  intros Hne [E1 E2 E3 E4 E5 E6 E7 Hs Hf Hn]. unfold LzmaDec_DecodeReal_3. rewrite E1, E2, E3, E4, E5, E6. change (vars_of q <| len := 0 |>) with (vars_of q).
  destruct (follows_room _ _ _ Hf) as [Hle _].
  destruct (decode_loop_synced (S (Z.to_nat (size - written q))) bufLimit ts q e (coder p) Hne Hf Hs) as (ts' & q' & e' & c' & -> & Hf' & Hs' & Hlt); [lia|].
  cbn [mbind option_bind]. destruct (follows_towards _ _ _ Hf') as [_ Htw].
  destruct (normalize_synced np ef inp c' e' Hs' (fo_enc _ _ _ Hf') Htw) as (c1 & -> & Hs1 & _). cbn [mbind option_bind].
  exists (p <| dic := dic_after dest (out q') |> <| dicPos := written q' |> <| vars := vars_of q' |> <| coder := c1 |>), ts', q', (enc_normalize e').
  split; [done|]. split; [|done]. split; try done; [by apply follows_normal|]. by apply (enc_normalize_ok np e' (fo_enc _ _ _ Hf')).
Qed.

(** The first bit of a stream is that of a byte. *)
Definition not_bad (p : CLzmaDec) (q : Past) : Prop := written q = 0 -> code (coder p) < kBadRepCode.

Lemma turn_synced bufLimit p ts q e : ts <> [] -> at_tokens p ts q e -> not_bad p q ->
  exists p' ts' q' e', real2_turn inp p size bufLimit = Some (SZ_OK, p') /\ at_tokens p' ts' q' e' /\ written q < written q'.
Proof.
  intros Hne Hat Hbad. destruct (follows_room _ _ _ (at_follows _ _ _ _ Hat)) as [Hle _]. pose proof size_small as Hsm. assert (0 <= written q) by (unfold written; lia).
  unfold real2_turn. rewrite (at_prop _ _ _ _ Hat), (at_check _ _ _ _ Hat), (at_pos _ _ _ _ Hat), (at_vars _ _ _ _ Hat). change (processedPos (vars_of q)) with (written q).
  assert (dicSize pr < 2 ^ 32) as Hds by apply Hpr. rewrite (wrap_small 32 (dicSize pr - written q)) by lia.
  rewrite (proj2 (Z.ltb_ge (dicSize pr - written q) _)) by lia. cbn [Z.eqb andb].
  assert ((written q =? 0) && (kBadRepCode <=? code (coder p)) = false) as ->.
  { destruct (Z.eqb_spec (written q) 0) as [E0|]; [|done]. apply Z.leb_gt. by apply Hbad. }
  destruct (decode_real_synced bufLimit p ts q e Hne Hat) as (p1 & ts' & q' & e' & -> & Hat' & Hlt). cbn [mbind option_bind]. rewrite decide_True by done.
  destruct (follows_room _ _ _ (at_follows _ _ _ _ Hat')) as [Hle' _].
  rewrite (at_prop _ _ _ _ Hat'), (at_check _ _ _ _ Hat'), (at_vars _ _ _ _ Hat'). change (processedPos (vars_of q')) with (written q').
  rewrite (proj2 (Z.leb_gt (dicSize pr) (written q'))) by lia. cbn [Z.eqb andb]. unfold LzmaDec_WriteRem, remainLen. rewrite (at_vars _ _ _ _ Hat'). cbn [mbind option_bind].
  by exists p1, ts', q', e'.
Qed.
Lemma real2_synced fuel bufLimit p ts q e : ts <> [] -> at_tokens p ts q e -> not_bad p q -> size - written q < Z.of_nat fuel ->
  exists p' ts' q' e', real2_loop inp fuel p size bufLimit = Some (SZ_OK, p') /\ at_tokens p' ts' q' e' /\ written q < written q'.
Proof.
  revert p ts q e. induction fuel as [|fuel IH]; intros p ts q e Hne Hat Hbad Hf; [destruct (follows_room _ _ _ (at_follows _ _ _ _ Hat)); lia|].
  destruct (turn_synced bufLimit p ts q e Hne Hat Hbad) as (p1 & ts1 & q1 & e1 & E1 & Hat1 & Hlt). cbn [real2_loop]. rewrite E1. cbn [mbind option_bind]. rewrite decide_True by done.
  destruct (follows_room _ _ _ (at_follows _ _ _ _ Hat1)) as [Hle1 Hend]. destruct (_ && _) eqn:Ec; [|by exists p1, ts1, q1, e1].
  rewrite (at_pos _ _ _ _ Hat1) in Ec. zbool. destruct (IH p1 ts1 q1 e1) as (p' & ts' & q' & e' & E & Hat' & Hlt'); [intros ->; destruct Hend as [Hend _]; specialize (Hend eq_refl); lia|done|intros E0; unfold written in *; lia|lia|].
  exists p', ts', q', e'. split_and!; try done. lia.
Qed.

(** The look ahead sees the whole symbol. *)
Lemma dummy_synced p ts q e : ts <> [] -> at_tokens (p <| coder := at_start p |>) ts q e -> Forall byte_ok inp -> Forall byte_ok dest ->
  exists d, LzmaDec_TryDummy inp p (Z.of_nat (length inp)) = Some (Value d).
Proof.
  intros Hne [E1 E2 E3 E4 E5 E6 E7 Hs Hf Hn] Hin Hdest. cbn in E1, E2, E3, E4, E5, E6, Hs.
  pose proof (fo_enc _ _ _ Hf) as He. pose proof (fo_past _ _ _ Hf) as Hq. destruct (follows_towards _ _ _ Hf) as [Htw _].
  pose proof (synced_ok np ef inp _ _ Hs He Htw) as Hc.
  destruct (one_symbol ts q e _ Hne Hf Hs) as (t & q' & ts' & e' & c' & _ & _ & Er & Hf' & Hs' & _).
  unfold LzmaDec_TryDummy. fold (at_start p). rewrite E1, E2, E3, E4, E5, E6.
  assert (Forall byte_ok (dic_after dest (out q))) as Hdic by (apply Forall_app_2; [apply Hq|by apply Forall_drop]).
  destruct (ahead_back np inp (dic_after dest (out q)) Hin Hdic kind _ _ _ _ _ _ _ (at_start p) (at_start p) (step_of t q q') c' (model_ok pr size Hpr q Hq)
    (same_symbol pr size 0 (written q) Hpr (vars_of q) ltac:(pose proof (pa_small _ Hq); unfold vars_of, written in *; cbn [processedPos]; lia))) as (d & c1' & -> & _ & Hag & Hc1'); try done.
  cbn [mbind option_bind]. destruct (follows_towards _ _ _ Hf') as [Htw1 Htw']. pose proof (fo_enc _ _ _ Hf') as He'.
  destruct (normalize_synced np ef inp c' e' Hs' He' Htw') as (c2 & En & _).
  destruct (normalize_back np inp Hin c' c1' c2 (synced_ok np ef inp _ _ Hs' He' Htw1) Hc1' Hag En) as (c2' & -> & _). cbn [mbind option_bind]. by exists d.
Qed.
End Sync.

(** ** One call *)

Section OneStream.
Context (pr : CLzmaProps) (size : Z) (dest : list Z) (qf : Past) (ef : Enc).
Hypothesis Hpr : props_ok pr.
Hypothesis size_eq : size = written qf.
Hypothesis size_dic : size < dicSize pr.
Hypothesis size_dest : size <= Z.of_nat (length dest).
Hypothesis dest_bytes : Forall byte_ok dest.

(** The decoder between its steps, with the rest of the input. *)
Definition between (src : list Z) (p : CLzmaDec) (ts : list Token) (q : Past) (e : Enc) : Prop :=
  at_tokens pr size dest src qf ef (p <| coder := at_start p |>) ts q e /\ Forall byte_ok src /\ not_bad (p <| coder := at_start p |>) q.

Lemma decode_src_synced p src n ts q e : ts <> [] -> between src p ts q e ->
  exists p' src' n' ts' q' e', decode_src p size false src n = Some (inr (p', src', n')) /\ between src' p' ts' q' e' /\ written q < written q' /\
    n' + Z.of_nat (length src') = n + Z.of_nat (length src).
Proof.
  intros Hne (Hat & Hsrc & Hbad). destruct (follows_room _ _ qf ef Hpr size_eq size_dic _ _ _ (at_follows _ _ _ _ _ _ _ _ _ _ Hat)) as [Hle _].
  assert (forall bufLimit, exists p' src' n' ts' q' e',
    ('(r, p) ← LzmaDec_DecodeReal2 src (p <| coder := at_start p |>) size bufLimit;
      if decide (r = SZ_OK) then Some (inr (p, drop (Z.to_nat (buf (coder p))) src, n + buf (coder p)))
      else Some (inl (SZ_ERROR_DATA, LZMA_STATUS_NOT_SPECIFIED, n, p))) = Some (inr (A := Answer) (p', src', n')) /\ between src' p' ts' q' e' /\ written q < written q' /\
    n' + Z.of_nat (length src') = n + Z.of_nat (length src)) as Hreal.
  { intros bufLimit. unfold LzmaDec_DecodeReal2. pose proof (at_pos _ _ _ _ _ _ _ _ _ _ Hat) as Epos. rewrite Epos.
    destruct (real2_synced pr size dest src qf ef Hpr size_eq size_dic size_dest (S (Z.to_nat (size - written q))) bufLimit _ ts q e Hne Hat Hbad) as
      (p' & ts' & q' & e' & -> & Hat' & Hlt); [lia|]. cbn [mbind option_bind]. rewrite decide_True by done.
    destruct Hat' as [F1 F2 F3 F4 F5 F6 F7 [G1 G2 G3 G4 G5] Hf Hn].
    exists p', (drop (Z.to_nat (buf (coder p'))) src), (n + buf (coder p')), ts', q', e'. split; [done|]. split; [|split; [done|rewrite length_drop; lia]].
    split; [|split; [by apply Forall_drop|intros E0; unfold written in *; lia]]. split; try done. split; try done. cbn. lia. }
  unfold decode_src. fold (at_start p). rewrite orb_false_r. destruct (Z.of_nat (length src) <? LZMA_REQUIRED_INPUT_MAX).
  - destruct (dummy_synced pr size dest src qf ef Hpr size_eq size_dic p ts q e Hne Hat Hsrc dest_bytes) as [d ->]. cbn [mbind option_bind]. destruct d; apply Hreal.
  - apply Hreal.
Qed.

Lemma dic_loop_synced fuel p src n ts q e mode : between src p ts q e -> size - written q < Z.of_nat fuel ->
  exists p', dic_loop fuel p size src n mode = Some (SZ_OK, LZMA_STATUS_MAYBE_FINISHED_WITHOUT_MARK, n + Z.of_nat (length src), p') /\
    dic p' = dic_after dest (out qf) /\ dicPos p' = size.
Proof.
  revert p src n ts q e. induction fuel as [|fuel IH]; intros p src n ts q e Hb Hfuel; pose proof Hb as ([E1 E2 E3 E4 E5 E6 E7 Hs Hf Hn] & Hsrc & Hbad);
    cbn in E1, E2, E3, E4, E5, E6, E7, Hs; destruct (follows_room _ _ qf ef Hpr size_eq size_dic _ _ _ Hf) as [Hle Hend]; [lia|].
  cbn [dic_loop]. unfold output_full, remainLen. rewrite E3, E6. change (len (vars_of q)) with 0. change (0 =? kMatchSpecLenStart) with false.
  destruct (Z.leb_spec size (written q)) as [Hge|Hlt].
  - assert (ts = []) as -> by (apply Hend; lia). destruct Hf as [Ht He _]. cbn [encode_tokens] in Ht. injection Ht as Eq Ee.
    assert (enc_normalize e = e) as En by (unfold enc_normalize; by rewrite (proj2 (Z.ltb_ge _ _))). rewrite En in Ee. subst e.
    destruct Hs as [_ _ Hc _ Hr]. unfold left_of in Hc, Hr. rewrite Nat.sub_diag in Hc, Hr. cbn in Hc, Hr. rewrite Z.div_1_r, Z.sub_diag in Hc. rewrite Hc. cbn.
    apply (f_equal length) in Hr. rewrite drop_0 in Hr. cbn in Hr. subst q. exists p. split; [by rewrite Hr, Z.add_0_r|]. split; [done|lia].
  - rewrite decide_True by done. destruct (decode_src_synced p src n ts q e) as (p' & src' & n' & ts' & q' & e' & E & Hb' & Hlt' & Elen); [intros ->; destruct Hend as [Hend _]; specialize (Hend eq_refl); lia|done|].
    rewrite E. cbn [mbind option_bind]. rewrite <- Elen. apply (IH p' src' n' ts' q' e'); [done|lia].
Qed.
End OneStream.

(** ** The start of a stream *)

(** The four bytes of the code. *)
Lemma be_code h : 0 <= h < 2 ^ 32 -> exists b1 b2 b3 b4, be_bytes 4 h = [b1; b2; b3; b4] /\
  Z.lor (Z.lor (Z.lor (Z.shiftl b1 24) (Z.shiftl b2 16)) (Z.shiftl b3 8)) b4 = h.
Proof.
  intros Hh. change (2 ^ 32) with 4294967296 in Hh. pose proof (be_bytes_ok 4 h) as Hb. unfold be_bytes in *. change (256 ^ Z.of_nat 3) with 16777216 in *. change (256 ^ Z.of_nat 2) with 65536 in *.
  change (256 ^ Z.of_nat 1) with 256 in *. change (256 ^ Z.of_nat 0) with 1 in *. rewrite Z.div_1_r in *.
  set (b1 := (h / 16777216) mod 256) in *. set (b2 := (h / 65536) mod 256) in *. set (b3 := (h / 256) mod 256) in *. set (b4 := h mod 256) in *.
  assert (h = ((b1 * 256 + b2) * 256 + b3) * 256 + b4) as Eh by (unfold b1, b2, b3, b4; Z.to_euclidean_division_equations; lia).
  clearbody b1 b2 b3 b4. inversion Hb as [|? ? H1 Hb']; subst. inversion Hb' as [|? ? H2 Hb'']; subst. inversion Hb'' as [|? ? H3 Hb3]; subst. inversion Hb3 as [|? ? H4 _]; subst.
  assert (forall x b, 0 <= x < 2 ^ 24 -> byte_ok b -> Z.lor (Z.shiftl x 8) b = x * 256 + b) as Hl.
  { intros x b Hx Hbb. rewrite Z.shiftl_mul_pow2 by lia. change (2 ^ 8) with 256. pose proof (lor_byte x b Hbb) as El. rewrite wrap_small in El; [done|].
    change (2 ^ 24) with 16777216 in Hx. change (2 ^ 32) with 4294967296. lia. }
  exists b1, b2, b3, b4. split; [done|]. unfold byte_ok in *. change (2 ^ 24) with 16777216 in Hl.
  replace (Z.shiftl b1 24) with (Z.shiftl (Z.shiftl (Z.shiftl b1 8) 8) 8) by (rewrite !Z.shiftl_shiftl by lia; done).
  replace (Z.shiftl b2 16) with (Z.shiftl (Z.shiftl b2 8) 8) by (rewrite !Z.shiftl_shiftl by lia; done).
  rewrite <- !Z.shiftl_lor. rewrite (Hl b1 b2), (Hl (b1 * 256 + b2) b3), (Hl ((b1 * 256 + b2) * 256 + b3) b4); lia.
Qed.

Lemma init_started p h rest : tempBuf p = [] -> remainLen p = kMatchSpecLenStart + 2 -> 0 <= h < 2 ^ 32 ->
  Z.of_nat (length (probs (coder p))) = LzmaProps_GetNumProbs (prop p) -> Forall byte_ok (be_bytes 4 h) ->
  init_coder p (0 :: be_bytes 4 h ++ rest) =
  Some (inr (p <| coder := mkCoder 0xFFFFFFFF h 0 (repeat (Z.shiftr kBitModelTotal 1) (Z.to_nat (LzmaProps_GetNumProbs (prop p)))) |>
    <| vars := mkVars 0 1 1 1 1 (processedPos (vars p)) 0 |> <| tempBuf := [] |>, rest)).
Proof.
  intros Et Er Hh Hn Hb. destruct (be_code h Hh) as (b1 & b2 & b3 & b4 & -> & Eh). unfold init_coder. rewrite Et, Er.
  change (kMatchSpecLenStart <? kMatchSpecLenStart + 2) with true. change (kMatchSpecLenStart + 1 <? kMatchSpecLenStart + 2) with true.
  change (Z.to_nat RC_INIT_SIZE - length [])%nat with 5%nat. cbn [app take andb]. change (tempBuf (p <| tempBuf := ?t |>)) with t. change (negb (0 =? 0)) with false. cbv iota beta zeta.
  change (coder (p <| tempBuf := ?t |>)) with (coder p). change (prop (p <| tempBuf := ?t |>)) with (prop p). change (remainLen (p <| tempBuf := ?t |>)) with (remainLen p).
  rewrite Er. change (kMatchSpecLenStart + 1 <? kMatchSpecLenStart + 2) with true. rewrite (proj2 (Z.ltb_ge _ _)) by lia. cbv iota beta.
  rewrite Eh. cbn [andb]. cbv iota. rewrite <- Hn, Nat2Z.id, drop_all, app_nil_r. done.
Qed.

Section Start.
Context (pr : CLzmaProps) (ts : list Token) (qf : Past) (ef : Enc).
Hypothesis Hpr : props_ok pr.
Hypothesis size_dic : written qf < dicSize pr.
Hypothesis encoded : encode_tokens pr (written qf) ts start (enc_start pr) = Some (qf, ef).

Lemma first_follows : follows pr (written qf) qf ef ts start (enc_start pr).
Proof. split; [done|by apply enc_start_ok|apply start_ok]. Qed.

(** The first token is a byte, and its first bit bounds the code. *)
Lemma first_code : low ef / 256 ^ Z.of_nat (shifts ef) < kBadRepCode.
Proof.
  change kBadRepCode with 3221224448. pose proof encoded as He. destruct ts as [|t ts']; cbn [encode_tokens] in He; [injection He as _ <-; by vm_compute|].
  destruct t as [b|dist n| |k n]; cbn [past_step] in He.
  2: { destruct (_ && _) eqn:E in He; [|done]. unfold length_in in E. zbool. destruct (Z.to_nat n) eqn:En in He; [lia|]. cbn [copy_back] in He. by destruct (rd8 _ _) eqn:Eb in He; [apply rd8_bound in Eb; cbn in Eb; lia|]. }
  2: { done. }
  2: { destruct (length_in n) eqn:E in He; [|done]. unfold length_in in E. zbool. destruct k as [|[|[|k]]]; (by destruct (Z.to_nat n) eqn:En in He; [lia|]). }
  destruct (_ && _) in He; [|done]. cbn [mbind option_bind] in He. unfold symbol_step in He. cbn [token_code if_bit mbind Prog_bind prog_then encode] in He.
  change (enc_normalize (enc_start pr)) with (enc_start pr) in He.
  destruct (prob_at (eprobs (enc_start pr)) _) as [v|] eqn:Ev; [|done]. cbn [mbind option_bind negb] in He.
  assert (v = 1024) as ->.
  { unfold prob_at, rd8 in Ev. destruct (_ <? 0); [done|]. apply list_elem_of_lookup_2, list_elem_of_In in Ev. by apply repeat_spec in Ev. }
  destruct (encode _ _ _ _) as [[[st rest] e1]|] eqn:Ee in He; [|done]. cbn [mbind option_bind] in He.
  destruct (enc_bit_ok (np_of pr) (enc_start pr) (IsMatch + (posState_of pr (vars_of start) + state (vars_of start))) 1024 false (enc_start_ok pr Hpr)) as [Hb _]; [done|done|].
  destruct (encode_inside (np_of pr) _ _ _ _ _ _ _ Ee Hb) as [Hok1 Hi1]. destruct (tokens_inside pr (written qf) _ _ _ _ _ He Hok1) as (_ & Hi2 & Hk & _).
  change kTopValue with 16777216 in Hk.
  assert (0 < erange ef) as Hr by lia. pose proof (code_within ef _ (conj (inside_trans _ _ _ Hi1 Hi2) Hr)) as [_ Hc]. unfold left_of in Hc. cbn [enc_bit shifts low erange enc_start] in Hc.
  rewrite Nat.sub_0_r in Hc. change (4294967295 / 2048 * 1024) with 2147482624 in Hc. lia.
Qed.
End Start.

(** Tokens that mean something have a stream. *)
Lemma compress_total pr ts q : props_ok pr -> expand ts start = Some q -> written q < 2 ^ 32 -> exists stream, compress pr ts = Some (out q, stream).
Proof.
  intros Hpr Hx Hw. destruct (encode_expand pr (written q) Hpr ts start (enc_start pr) q Hx start_ok Hw (enc_start_ok pr Hpr)) as [ef Ee].
  unfold compress. rewrite Hx. cbn [mbind option_bind]. rewrite Ee. by eexists.
Qed.

Section Decode.
Context `{AllocLaws}.

Lemma allocated data size pr : LzmaProps_Decode data size = Some (inl pr) -> can_alloc (2 * LzmaProps_GetNumProbs pr) = true -> props_ok pr ->
  exists p, LzmaDec_AllocateProbs (LzmaDec_Construct new_decoder) data size = Some (SZ_OK, p) /\ prop p = pr /\
    Z.of_nat (length (probs (coder p))) = LzmaProps_GetNumProbs pr.
Proof.
  intros Ep Ea Hpr. unfold LzmaDec_AllocateProbs, with_props. rewrite Ep. cbn [mbind option_bind]. unfold LzmaDec_AllocateProbs2.
  change (probs (coder (LzmaDec_Construct new_decoder))) with (@nil Z). rewrite bool_decide_eq_true_2, Ea by done. cbn [orb negb]. rewrite decide_True by done.
  eexists. split; [done|]. split; [done|]. cbn. pose proof (num_probs_pos pr Hpr). pose proof (uninit_length (2 * LzmaProps_GetNumProbs pr) ltac:(lia)) as Hu.
  rewrite cells16_length, Nat2Z.inj_div, Hu, Z.mul_comm, Z.div_mul by lia. done.
Qed.

(** A stream, decoded. *)
Lemma compress_decoded ts l stream dest propData propSize pr mode :
  compress pr ts = Some (l, stream) -> LzmaProps_Decode propData propSize = Some (inl pr) -> props_ok pr ->
  can_alloc (2 * LzmaProps_GetNumProbs pr) = true -> Z.of_nat (length l) < dicSize pr -> Z.of_nat (length l) <= Z.of_nat (length dest) -> Forall byte_ok dest ->
  LzmaDecode dest (Z.of_nat (length l)) stream propData propSize mode =
    Some (mkDecoded SZ_OK LZMA_STATUS_MAYBE_FINISHED_WITHOUT_MARK (dic_after dest l) (Z.of_nat (length l)) (Z.of_nat (length stream))).
Proof.
  intros Hcomp Ep Hpr Ha Hds Hdest Hdb. unfold compress in Hcomp. destruct (expand ts start) as [q|] eqn:Hx; [|done]. cbn [mbind option_bind] in Hcomp.
  destruct (encode_tokens pr (written q) ts start (enc_start pr)) as [[q' ef]|] eqn:Ee; [|done]. cbn [mbind option_bind] in Hcomp.
  assert (l = out q /\ stream = 0 :: be_bytes (4 + shifts ef) (low ef)) as [-> ->] by (rewrite <- be_bytes_le; split; congruence). clear Hcomp. fold (written q) in *.
  assert (q' = q) as ->. { destruct (tokens_inside pr (written q) ts start (enc_start pr) q' ef Ee (enc_start_ok pr Hpr)) as (_ & _ & _ & Hx'). congruence. }
  pose proof (first_follows pr ts q ef Hpr Ee) as Hf. destruct (follows_towards _ _ _ _ _ _ _ Hf) as [Htw _].
  pose proof (code_within ef _ Htw) as Hcode. unfold left_of in Hcode. change (shifts (enc_start pr)) with 0%nat in Hcode. rewrite Nat.sub_0_r in Hcode. cbn [low erange enc_start] in Hcode.
  set (h := low ef / 256 ^ Z.of_nat (shifts ef)) in *. assert (0 <= h < 2 ^ 32) as Hh by (change (2 ^ 32) with 4294967296; lia).
  rewrite be_bytes_app. fold h. unfold LzmaDecode. rewrite (proj2 (Z.ltb_ge _ _)) by (cbn [length]; rewrite length_app, !be_bytes_length; change RC_INIT_SIZE with 5; lia).
  destruct (allocated propData propSize pr Ep Ha Hpr) as (p & -> & Epr & Enp). cbn [mbind option_bind]. rewrite decide_True by done.
  set (p0 := LzmaDec_Init _). unfold LzmaDec_DecodeToDic. rewrite (init_started p0 h (be_bytes (shifts ef) (low ef))); [|done|done|done| |apply be_bytes_ok].
  2: { change (probs (coder p0)) with (probs (coder p)). change (prop p0) with (prop p). by rewrite Epr. }
  cbn [mbind option_bind]. unfold LzmaDec_WriteRem at 1. change (remainLen (p0 <| coder := _ |> <| vars := _ |> <| tempBuf := [] |>)) with 0.
  cbn [Z.eqb negb andb mbind option_bind]. set (p1 := p0 <| coder := _ |> <| vars := _ |> <| tempBuf := [] |>).
  destruct (dic_loop_synced pr (written q) dest q ef Hpr eq_refl Hds Hdest Hdb (S (S (Z.to_nat (written q - dicPos p1)))) p1 (be_bytes (shifts ef) (low ef))
    (Z.of_nat (length (0 :: be_bytes 4 h ++ be_bytes (shifts ef) (low ef)) - length (be_bytes (shifts ef) (low ef)))) ts start (enc_start pr) mode) as (p' & -> & Ed & Epos).
  - split; [|split; [apply be_bytes_ok|]].
    + split; try done; try (cbn; by rewrite Epr).
      * split; cbn; try done; [by rewrite Epr|unfold left_of; cbn; rewrite Nat.sub_0_r; fold h; lia|lia|by unfold left_of; cbn; rewrite Nat.sub_0_r, drop_0].
    + intros _. exact (first_code pr ts q ef Hpr Ee).
  - change (dicPos p1) with 0. change (written start) with 0. lia.
  - cbn [mbind option_bind]. rewrite decide_True by done. rewrite decide_False by done. rewrite Ed, Epos. do 2 f_equal. cbn [length]. rewrite length_app, !be_bytes_length. lia.
Qed.

(** C14: Tokens that mean something have a stream, and the decoder makes of it, in one call, what they mean: it
    writes those bytes, takes all of the stream and finds that it may end there. *)
Theorem lzma_roundtrip ts q dest propData propSize pr mode :
  expand ts start = Some q -> LzmaProps_Decode propData propSize = Some (inl pr) -> Forall byte_ok propData -> propSize <= Z.of_nat (length propData) ->
  can_alloc (2 * LzmaProps_GetNumProbs pr) = true -> written q < dicSize pr -> written q <= Z.of_nat (length dest) -> Forall byte_ok dest ->
  exists stream, compress pr ts = Some (out q, stream) /\
    LzmaDecode dest (written q) stream propData propSize mode =
    Some (mkDecoded SZ_OK LZMA_STATUS_MAYBE_FINISHED_WITHOUT_MARK (dic_after dest (out q)) (written q) (Z.of_nat (length stream))).
Proof.
  intros Hx Ep Hpd Hps Ha Hds Hdest Hdb. destruct (props_decoded propData propSize Hpd Hps) as (r & E & Hpr). rewrite Ep in E. injection E as <-.
  destruct (compress_total pr ts q Hpr Hx) as [stream Ec]; [assert (dicSize pr < 2 ^ 32) by apply Hpr; lia|].
  exists stream. split; [done|]. by apply (compress_decoded ts (out q) stream dest propData propSize pr mode).
Qed.
End Decode.

(** ** A stream *)

Module Thermal.
Import Streams.
(** "thermal " as bytes, then eight bytes before for fifteen; a byte, a byte repeated and an older distance again. *)
Definition tokens : list Token :=
  map TLit [116; 104; 101; 114; 109; 97; 108; 32] ++ [TMatch 8 15; TLit 33; TMatch 1 2; TShort; TRep 1 40; TRep 0 273].
Definition props : list Z := [93; 0; 16; 0; 0].
Definition text : list Z := match expand tokens start with Some q => out q | None => [] end.

Example text_length : length text = 340%nat.
Proof. vm_compute. reflexivity. Qed.
Example stream_length : option_map (fun r => length r.2) (compress (mkProps 3 0 2 4096) tokens) = Some 22%nat.
Proof. vm_compute. reflexivity. Qed.

Lemma lzma_roundtrip_witness :
  exists stream, compress (mkProps 3 0 2 4096) tokens = Some (text, stream) /\
    LzmaDecode (H := heap) (repeat 0 350) 340 stream props 5 LZMA_FINISH_END =
    Some (mkDecoded SZ_OK LZMA_STATUS_MAYBE_FINISHED_WITHOUT_MARK (text ++ repeat 0 10) 340 (Z.of_nat (length stream))).
Proof.
  destruct (expand tokens start) as [q|] eqn:E; [|by vm_compute in E].
  assert (text = out q /\ written q = 340) as [Et Ew] by (vm_compute in E; injection E as <-; by vm_compute).
  destruct (lzma_roundtrip (H := heap) (H0 := heap_laws) tokens q (repeat 0 350) props 5 (mkProps 3 0 2 4096) LZMA_FINISH_END E) as (stream & Ec & Ed).
  - by vm_compute.
  - apply bytes_in_ok. by vm_compute.
  - done.
  - done.
  - by rewrite Ew.
  - by rewrite Ew.
  - apply bytes_in_ok. by vm_compute.
  - exists stream. rewrite Et. split; [exact Ec|]. rewrite Ew in Ed. rewrite Ed. do 3 f_equal. rewrite <- Et. by vm_compute.
Defined.
End Thermal.
