(* ===== verification/VbtPatch.v ===== *)
(** * The VBT patcher (vbt_patch/vbt_patch.c)

    The tool reads a firmware image, finds the VBT and its data blocks, patches
    the panel timing and power sequences in place, fixes the checksum and writes
    the image back.  The image is a list of bytes and a pointer is an offset in
    it; [None] is an access outside the image.  The layout of the structures
    comes from the kernel header [intel_vbt_defs.h], which is not part of the
    repository: it is the class [VbtDefs]. *)

From Stdlib Require Import ZArith Lia SpecFloat.
From stdpp Require Import base list option.
From S2P Require Import Prelude Floats Bytes.

#[local] Open Scope Z_scope.

(** A bit-field: a byte, a bit of it and a width. *)
Record Bits := Bf { bf_off : Z; bf_bit : Z; bf_width : Z }.

Definition rd_bits (m : Mem) (p : Z) (f : Bits) : option Z :=
  b ← rd8 m (p + bf_off f); Some ((b / 2 ^ bf_bit f) mod 2 ^ bf_width f).
Definition wr_bits (m : Mem) (p : Z) (f : Bits) (v : Z) : option Mem :=
  b ← rd8 m (p + bf_off f);
  wr8 m (p + bf_off f)
    (b - (b / 2 ^ bf_bit f) mod 2 ^ bf_width f * 2 ^ bf_bit f + v mod 2 ^ bf_width f * 2 ^ bf_bit f).

(** ** The kernel's header *)

Class VbtDefs := {
  (* struct vbt_header *)
  off_vbt_size : Z; off_vbt_checksum : Z; off_bdb_offset : Z;
  (* struct bdb_header *)
  off_header_size : Z; off_bdb_size : Z;
  BDB_LFP_OPTIONS : Z; BDB_MIPI_CONFIG : Z; BDB_MIPI_SEQUENCE : Z; BDB_GENERIC_DTD : Z;
  (* struct bdb_lfp_options, bdb_generic_dtd, generic_dtd_entry *)
  off_panel_type : Z; off_dtd : Z; size_dtd : Z;
  off_pixel_clock : Z; off_hactive : Z; off_hblank : Z; off_vactive : Z; off_vblank : Z;
  (* struct bdb_mipi_config, mipi_config, mipi_pps_data *)
  MAX_MIPI_CONFIGURATIONS : Z; off_config : Z; size_config : Z; off_pps : Z; size_pps : Z;
  bits_lane_cnt : Bits; bits_rotation : Bits;
  off_panel_on_delay : Z; off_bl_enable_delay : Z; off_bl_disable_delay : Z;
  off_panel_off_delay : Z; off_panel_power_cycle_delay : Z
}.

Section Vbt.
Context `{VbtDefs}.

(** ** Blocks *)

Inductive Found := Outside | Missing | At (p : Z).

(** The length field of the block at [p]. *)
Definition block_size (m : Mem) (p id : Z) : option Z :=
  if id =? BDB_MIPI_SEQUENCE then
    v ← rd8 m (p + 3);
    if 3 <=? v then rd32 m (p + 4) else rd16 m (p + 1)
  else rd16 m (p + 1).

(** One [fuel] per block header passed. *)
Fixpoint find_from (fuel : nat) (m : Mem) (bdb total block_id index : Z) : Found :=
  if index + 3 <? total then
    match fuel with
    | O => Outside
    | S fuel =>
        match rd8 m (bdb + index) with
        | None => Outside
        | Some id =>
            match block_size m (bdb + index) id with
            | None => Outside
            | Some size =>
                if id =? block_id then At (bdb + index + 3)
                else find_from fuel m bdb total block_id (index + 3 + size)
            end
        end
    end
  else Missing.

Definition find_block (m : Mem) (bdb bdb_size block_id : Z) : Found :=
  match rd16 m (bdb + off_header_size), rd16 m (bdb + off_bdb_size) with
  | Some index, Some total =>
      let total := if bdb_size <? total then bdb_size else total in
      find_from (Z.to_nat total) m bdb total block_id index
  | _, _ => Outside
  end.

(** ** The image *)

Fixpoint find_vbt_from (i : nat) (m : Mem) : option Z :=
  match m with
  | [] => None
  | _ :: m' =>
      if bool_decide (take 4 m = [0x24; 0x56; 0x42; 0x54]) then Some (Z.of_nat i)
      else find_vbt_from (S i) m'
  end.

(** The offset of the signature "$VBT". *)
Definition find_vbt (m : Mem) : option Z := find_vbt_from 0 m.

Definition sum_bytes (l : list Z) : Z := foldr Z.add 0 l.

(** The bytes of [len] at [p], all inside the image. *)
Definition region (m : Mem) (p len : Z) : option (list Z) :=
  if (0 <=? p) && (p + len <=? Z.of_nat (length m))
  then Some (take (Z.to_nat len) (drop (Z.to_nat p) m)) else None.

Definition update_checksum (m : Mem) (vbt : Z) : option Mem :=
  m ← wr8 m (vbt + off_vbt_checksum) 0;
  n ← rd16 m (vbt + off_vbt_size);
  l ← region m vbt n;
  wr8 m (vbt + off_vbt_checksum) (0x100 - wrap 8 (sum_bytes l)).

(** ** Timing *)

Record vbt_ctx := Ctx {
  vbt : Z; bdb : Z; bdb_size : Z; panel : Z; gdtd : option Z; mipi_cfg : option Z
}.

Definition dtd_at (g panel : Z) : Z := g + off_dtd + panel * size_dtd.
Definition config_at (g panel : Z) : Z := g + off_config + panel * size_config.
Definition pps_at (g panel : Z) : Z := g + off_pps + panel * size_pps.

(** Total width and height of a timing. *)
Definition dtd_totals (m : Mem) (dtd : Z) : option (Z * Z) :=
  ha ← rd16 m (dtd + off_hactive); hb ← rd16 m (dtd + off_hblank);
  va ← rd16 m (dtd + off_vactive); vb ← rd16 m (dtd + off_vblank);
  Some (ha + hb, va + vb).

Definition dtd_hz (m : Mem) (dtd : Z) : option float :=
  '(htotal, vtotal) ← dtd_totals m dtd;
  if (htotal =? 0) || (vtotal =? 0) then Some f_zero
  else
    clock ← rd32 m (dtd + off_pixel_clock);
    Some (f64_div (f64_mul (f64_of_Z clock) (f64_of_Z 1000)) (f64_of_Z (wrap 32 (htotal * vtotal)))).

Definition resolve_hz_to_clock (m : Mem) (g panel hz : Z) : option Z :=
  '(htotal, vtotal) ← dtd_totals m (dtd_at g panel);
  Some (sint 32 (wrap 64 (wrap 64 (hz * htotal) * vtotal) / 1000)).

(** ** Patches *)

Record patch_opts := Opts {
  clock : Z; hz : Z; rotation : Z; panel_on : Z; panel_off : Z; bl_on : Z; bl_off : Z; cycle : Z
}.

(** The refresh rates before and after are printed. *)
Definition patch_clock (m : Mem) (g panel clock : Z) : option Mem :=
  _ ← dtd_hz m (dtd_at g panel);
  _ ← rd32 m (dtd_at g panel + off_pixel_clock);
  m ← wr32 m (dtd_at g panel + off_pixel_clock) clock;
  _ ← dtd_hz m (dtd_at g panel);
  Some m.

(** Both rotations are printed through [rotation_str], which has four entries. *)
Definition patch_rotation (m : Mem) (g panel rotation : Z) : option Mem :=
  old ← rd_bits m (config_at g panel) bits_rotation;
  m ← wr_bits m (config_at g panel) bits_rotation rotation;
  if (old <? 4) && (0 <=? rotation) && (rotation <? 4) then Some m else None.

Definition patch_pps_field (m : Mem) (p ms : Z) : option Mem :=
  _ ← rd16 m p;
  wr16 m p (wrap 16 (sint 32 (ms * 10))).

(** A patch that is made when its option is there; the image and the count. *)
Definition when (c : bool) (patch : Mem -> option Mem) (s : Mem * Z) : option (Mem * Z) :=
  if c then m ← patch (fst s); Some (m, snd s + 1) else Some s.

Definition patch_mipi (g panel : Z) (o : patch_opts) (s : Mem * Z) : option (Mem * Z) :=
  let pps := pps_at g panel in
  s ← when (0 <=? rotation o) (fun m => patch_rotation m g panel (rotation o)) s;
  s ← when (0 <=? panel_on o) (fun m => patch_pps_field m (pps + off_panel_on_delay) (panel_on o)) s;
  s ← when (0 <=? panel_off o) (fun m => patch_pps_field m (pps + off_panel_off_delay) (panel_off o)) s;
  s ← when (0 <=? bl_on o) (fun m => patch_pps_field m (pps + off_bl_enable_delay) (bl_on o)) s;
  s ← when (0 <=? bl_off o) (fun m => patch_pps_field m (pps + off_bl_disable_delay) (bl_off o)) s;
  when (0 <=? cycle o) (fun m => patch_pps_field m (pps + off_panel_power_cycle_delay) (cycle o)) s.

Definition apply_patches (m : Mem) (ctx : vbt_ctx) (o : patch_opts) : option (Mem * Z) :=
  clock_ ←
    match gdtd ctx with
    | Some g => if 0 <? hz o then resolve_hz_to_clock m g (panel ctx) (hz o) else Some (clock o)
    | None => Some (clock o)
    end;
  s ←
    match gdtd ctx with
    | Some g => when (0 <? clock_) (fun m => patch_clock m g (panel ctx) clock_) (m, 0)
    | None => Some (m, 0)
    end;
  match mipi_cfg ctx with
  | Some g => if panel ctx <? MAX_MIPI_CONFIGURATIONS then patch_mipi g (panel ctx) o s else Some s
  | None => Some s
  end.

(** ** The tool *)

Inductive Init := InitFault | InitFail | InitOk (ctx : vbt_ctx).

Definition init_ctx (m : Mem) : Init :=
  match find_vbt m with
  | None => InitFail
  | Some vbt =>
      match rd32 m (vbt + off_bdb_offset) with
      | None => InitFault
      | Some bdb_offset =>
          let bdb := vbt + bdb_offset in
          let bdb_size := wrap 64 (Z.of_nat (length m) - vbt - bdb_offset) in
          match find_block m bdb bdb_size BDB_LFP_OPTIONS with
          | Outside => InitFault
          | Missing => InitFail
          | At lfp =>
              match rd8 m (lfp + off_panel_type) with
              | None => InitFault
              | Some panel =>
                  match find_block m bdb bdb_size BDB_GENERIC_DTD,
                        find_block m bdb bdb_size BDB_MIPI_CONFIG with
                  | Outside, _ | _, Outside => InitFault
                  | Missing, Missing => InitFail
                  | g, c =>
                      let ptr f := match f with At p => Some p | _ => None end in
                      InitOk (Ctx vbt bdb bdb_size panel (ptr g) (ptr c))
                  end
              end
          end
      end
  end.

Definition has_patches (o : patch_opts) : bool :=
  (0 <? clock o) || (0 <? hz o) || (0 <=? rotation o) || (0 <=? panel_on o) || (0 <=? panel_off o) ||
  (0 <=? bl_on o) || (0 <=? bl_off o) || (0 <=? cycle o).

(** What is printed: totals, clock and rate; lanes, rotation and delays. *)
Definition print_dtd (m : Mem) (g panel : Z) : option (Z * Z * Z * float) :=
  '(htotal, vtotal) ← dtd_totals m (dtd_at g panel);
  c ← rd32 m (dtd_at g panel + off_pixel_clock);
  h ← dtd_hz m (dtd_at g panel);
  Some (htotal, vtotal, c, h).

Definition print_mipi (m : Mem) (g panel : Z) : option (Z * Z * list Z) :=
  lanes ← rd_bits m (config_at g panel) bits_lane_cnt;
  r ← rd_bits m (config_at g panel) bits_rotation;
  a ← rd16 m (pps_at g panel + off_panel_on_delay);
  b ← rd16 m (pps_at g panel + off_bl_enable_delay);
  c ← rd16 m (pps_at g panel + off_bl_disable_delay);
  d ← rd16 m (pps_at g panel + off_panel_off_delay);
  e ← rd16 m (pps_at g panel + off_panel_power_cycle_delay);
  if r <? 4 then Some (lanes + 1, r, [a; b; c; d; e]) else None.

Definition print_info (m : Mem) (ctx : vbt_ctx) : option unit :=
  _ ← match gdtd ctx with
      | Some g => _ ← print_dtd m g (panel ctx); Some tt
      | None => Some tt
      end;
  match mipi_cfg ctx with
  | Some g => if panel ctx <? MAX_MIPI_CONFIGURATIONS
              then _ ← print_mipi m g (panel ctx); Some tt else Some tt
  | None => Some tt
  end.

(** A fault, or an exit code with the image written to the output file. *)
Inductive Outcome := Fault | Exit (code : Z) (written : option Mem).

(** [main] after the options are parsed and the input is read: [output], an
    output file was named; [write_ok], it could be written. *)
Definition run_main (m : Mem) (o : patch_opts) (output write_ok : bool) : Outcome :=
  match init_ctx m with
  | InitFault => Fault
  | InitFail => Exit 1 None
  | InitOk ctx =>
      if negb (has_patches o) then
        match print_info m ctx with None => Fault | Some _ => Exit 0 None end
      else if negb output then Exit 1 None
      else
        match apply_patches m ctx o with
        | None => Fault
        | Some (m', changed) =>
            if changed =? 0 then Exit 0 None
            else
              match update_checksum m' (vbt ctx) with
              | None => Fault
              | Some out => if write_ok then Exit 0 (Some out) else Exit 1 None
              end
        end
  end.

End Vbt.

(** * Properties *)

(** ** Checksum *)

Lemma sum_bytes_insert l i x y : l !! i = Some x ->
  sum_bytes (<[i := y]> l) = sum_bytes l - x + y.
Proof.
  revert i. induction l as [|a l IH]; intros [|i]; simpl; try done.
  - intros [= ->]. lia.
  - intros E. rewrite IH by done. lia.
Qed.

(** What the layout must guarantee. *)
Class VbtLaws `{VbtDefs} := {
  checksum_nonneg : 0 <= off_vbt_checksum;
  checksum_apart : off_vbt_checksum < off_vbt_size \/ off_vbt_size + 2 <= off_vbt_checksum
}.

Section Checksum.
Context `{L : VbtLaws}.

(** The bytes of the VBT, as long as its header says. *)
Definition vbt_bytes (m : Mem) (vbt : Z) : option (list Z) :=
  n ← rd16 m (vbt + off_vbt_size); region m vbt n.

Lemma update_checksum_spec m vbt m' n :
  update_checksum m vbt = Some m' -> rd16 m' (vbt + off_vbt_size) = Some n ->
  off_vbt_checksum < n ->
  frame (vbt + off_vbt_checksum) 1 m m' /\
  exists l, vbt_bytes m' vbt = Some l /\ sum_bytes l mod 256 = 0.
Proof.
  unfold update_checksum. destruct (wr8 m _ 0) as [m1|] eqn:E1; [|done]. cbn [mbind option_bind].
  destruct (wr8_spec _ _ _ _ E1) as (R1 & L1 & F1).
  destruct (rd16 m1 _) as [n1|] eqn:En; [|done]. cbn [mbind option_bind].
  destruct (region m1 vbt n1) as [l|] eqn:El; [|done]. cbn [mbind option_bind]. intros E2 Hn Hlt.
  destruct (wr8_spec _ _ _ _ E2) as (R2 & L2 & F2).
  pose proof checksum_nonneg as Hc. pose proof checksum_apart as Ha.
  assert (rd16 m' (vbt + off_vbt_size) = Some n1) as En'.
  { rewrite <- En. apply rd16_cong; apply F2; lia. }
  rewrite Hn in En'. injection En' as ->. split.
  { split; [congruence|]. intros q Hq. rewrite F2, F1 by lia. done. }
  unfold vbt_bytes. rewrite Hn. cbn [mbind option_bind].
  unfold wr8 in E2. destruct (_ && _) eqn:B; [|done]. injection E2 as <-.
  unfold region in *. rewrite length_insert. destruct (_ && _) eqn:Bl; [|done].
  apply andb_true_iff in B as [B1 B2]. apply andb_true_iff in Bl as [Bl1 Bl2]. zbool.
  injection El as <-. set (x := wrap 8 _). set (l := take (Z.to_nat n1) (drop (Z.to_nat vbt) m1)).
  assert (l !! Z.to_nat off_vbt_checksum = Some 0) as Hl.
  { unfold l. rewrite lookup_take_lt by lia. rewrite lookup_drop.
    unfold rd8 in R1. rewrite (proj2 (Z.ltb_ge _ 0)) in R1 by lia. change 0 with (wrap 8 0).
    rewrite <- R1. f_equal. lia. }
  assert (take (Z.to_nat n1) (drop (Z.to_nat vbt) (<[Z.to_nat (vbt + off_vbt_checksum):=x]> m1)) =
          <[Z.to_nat off_vbt_checksum := x]> l) as ->.
  { rewrite drop_insert_ge by lia. rewrite take_insert_lt by lia. unfold l. f_equal. lia. }
  eexists. split; [done|]. rewrite (sum_bytes_insert _ _ 0 x Hl). unfold x, wrap.
  change (2 ^ 8) with 256. fold l. pose proof (Z.mod_pos_bound (sum_bytes l) 256 ltac:(lia)).
  rewrite Z.sub_0_r, Zplus_mod, Zmod_mod, <- Zplus_mod.
  rewrite <- (Z.mod_add (sum_bytes l + _) (-1)) by lia.
  replace (sum_bytes l + (256 - sum_bytes l mod 256) + -1 * 256)
    with (sum_bytes l - sum_bytes l mod 256) by lia.
  by rewrite Zminus_mod, Zmod_mod, Z.sub_diag.
Qed.
End Checksum.

(** ** What is changed *)

Section Patches.
Context `{VbtDefs}.

Definition opt_range (c : bool) (p len : Z) : list (Z * Z) := if c then [(p, len)] else [].

(** The fields the options name. *)
Definition mipi_ranges (g panel : Z) (o : patch_opts) : list (Z * Z) :=
  opt_range (0 <=? rotation o) (config_at g panel + bf_off bits_rotation) 1 ++
  opt_range (0 <=? panel_on o) (pps_at g panel + off_panel_on_delay) 2 ++
  opt_range (0 <=? panel_off o) (pps_at g panel + off_panel_off_delay) 2 ++
  opt_range (0 <=? bl_on o) (pps_at g panel + off_bl_enable_delay) 2 ++
  opt_range (0 <=? bl_off o) (pps_at g panel + off_bl_disable_delay) 2 ++
  opt_range (0 <=? cycle o) (pps_at g panel + off_panel_power_cycle_delay) 2.

Definition patch_ranges (ctx : vbt_ctx) (o : patch_opts) : list (Z * Z) :=
  match gdtd ctx with
  | Some g => opt_range ((0 <? hz o) || (0 <? clock o)) (dtd_at g (panel ctx) + off_pixel_clock) 4
  | None => []
  end ++
  match mipi_cfg ctx with
  | Some g => if panel ctx <? MAX_MIPI_CONFIGURATIONS then mipi_ranges g (panel ctx) o else []
  | None => []
  end.

Lemma patch_clock_spec m g panel c m' : patch_clock m g panel c = Some m' ->
  rd32 m' (dtd_at g panel + off_pixel_clock) = Some (wrap 32 c) /\
  frame (dtd_at g panel + off_pixel_clock) 4 m m'.
Proof.
  unfold patch_clock. destruct (dtd_hz m _); [|done]. destruct (rd32 m _); [|done].
  destruct (wr32 m _ c) as [m1|] eqn:E; [|done]. simpl. destruct (dtd_hz m1 _); [|done].
  intros [= <-]. by apply wr32_spec.
Qed.

Lemma patch_rotation_frame m g panel r m' : patch_rotation m g panel r = Some m' ->
  frame (config_at g panel + bf_off bits_rotation) 1 m m'.
Proof.
  unfold patch_rotation. destruct (rd_bits m _ _); [|done]. simpl.
  destruct (wr_bits m _ _ r) as [m1|] eqn:E; [|done]. simpl. destruct (_ && _); [|done].
  intros [= <-]. unfold wr_bits in E. destruct (rd8 m _); [|done]. simpl in E. by apply wr8_spec in E as [_ ?].
Qed.

Lemma patch_pps_spec m p ms m' : patch_pps_field m p ms = Some m' ->
  rd16 m' p = Some (wrap 16 (wrap 16 (sint 32 (ms * 10)))) /\ frame p 2 m m'.
Proof. unfold patch_pps_field. destruct (rd16 m p); [|done]. apply wr16_spec. Qed.

Lemma when_untouched c patch s s' p len :
  (forall m m', patch m = Some m' -> frame p len m m') -> when c patch s = Some s' ->
  untouched (opt_range c p len) (fst s) (fst s').
Proof.
  intros Hp. unfold when, opt_range. destruct c; [|by intros [= <-]].
  destruct (patch (fst s)) as [m'|] eqn:E; [|done]. intros [= <-].
  by apply frame_untouched, Hp.
Qed.

(** One step of the chain of patches. *)
Ltac chain :=
  let E := fresh "E" in
  match goal with
  | |- (_ ← ?w; _) = Some _ -> _ => destruct w as [?|] eqn:E; [cbn [mbind option_bind]|done]
  end.

Lemma patch_mipi_untouched g panel o s s' :
  patch_mipi g panel o s = Some s' -> untouched (mipi_ranges g panel o) (fst s) (fst s').
Proof.
  unfold patch_mipi, mipi_ranges. cbv zeta. do 5 chain. intros E'.
  eapply untouched_trans; [eapply when_untouched; [|exact E];
    intros m m' Hm; exact (patch_rotation_frame _ _ _ _ _ Hm)|].
  repeat (eapply untouched_trans; [eapply when_untouched; [|eassumption];
    intros m m' Hm; exact (proj2 (patch_pps_spec _ _ _ _ Hm))|]).
  eapply when_untouched; [|exact E'].
  intros m m' Hm. exact (proj2 (patch_pps_spec _ _ _ _ Hm)).
Qed.

Lemma resolve_not_needed ctx m o c :
  match gdtd ctx with
  | Some g => if 0 <? hz o then resolve_hz_to_clock m g (panel ctx) (hz o) else Some (clock o)
  | None => Some (clock o)
  end = Some c -> (0 <? c) = true -> gdtd ctx <> None -> (0 <? hz o) || (0 <? clock o) = true.
Proof.
  destruct (gdtd ctx); [|done]. destruct (0 <? hz o); [done|]. by intros [= <-] ->.
Qed.

Lemma apply_patches_untouched m ctx o m' n :
  apply_patches m ctx o = Some (m', n) -> untouched (patch_ranges ctx o) m m'.
Proof.
  unfold apply_patches. chain. chain. intros E'. unfold patch_ranges.
  eapply (untouched_trans _ _ _ (fst p)).
  - destruct (gdtd ctx) as [g|] eqn:Eg; [|by injection E0 as <-].
    unfold when in E0. destruct (0 <? z) eqn:Ez; [|injection E0 as <-; simpl].
    + pose proof (resolve_not_needed ctx m o z) as Hr. rewrite Eg in Hr.
      rewrite (Hr E Ez) by done. simpl in E0. destruct (patch_clock m _ _ _) eqn:Ep; [|done].
      injection E0 as <-. by apply frame_untouched, (patch_clock_spec m g (panel ctx) z).
    + by split.
  - destruct (mipi_cfg ctx) as [g|]; [|by injection E' as ->].
    destruct (panel ctx <? MAX_MIPI_CONFIGURATIONS); [|by injection E' as ->]. by apply patch_mipi_untouched in E'.
Qed.

End Patches.

(** ** The written image *)

Section Written.
Context `{L : VbtLaws}.

(** What a run that writes does. *)
Lemma run_main_writes m o output write_ok code out :
  run_main m o output write_ok = Exit code (Some out) ->
  exists ctx m' n, init_ctx m = InitOk ctx /\ apply_patches m ctx o = Some (m', n) /\ n <> 0 /\
    update_checksum m' (vbt ctx) = Some out /\ code = 0 /\ has_patches o = true.
Proof.
  unfold run_main. destruct (init_ctx m) as [| |ctx] eqn:Ei; [done..|].
  destruct (has_patches o) eqn:Eh; simpl; [|by destruct (print_info m ctx)].
  destruct output; simpl; [|done]. destruct (apply_patches m ctx o) as [[m' n]|] eqn:Ea; [|done].
  destruct (Z.eqb_spec n 0); [done|]. destruct (update_checksum m' (vbt ctx)) as [out'|] eqn:E; [|done].
  destruct write_ok; [|done]. intros [= <- <-].
  exists ctx, m', n. split_and!; [done|done|done|exact E|done|done].
Qed.

(** C13: Whatever the input, an image that is written differs from it at most in the
    fields the options name and the checksum; it is as long, and when its VBT is
    long enough to hold the checksum, the bytes of the VBT sum to zero. *)
Theorem written_image (m : Mem) (o : patch_opts) (output write_ok : bool) (code : Z) (out : Mem) :
  run_main m o output write_ok = Exit code (Some out) ->
  exists ctx, init_ctx m = InitOk ctx /\
    untouched (patch_ranges ctx o ++ [(vbt ctx + off_vbt_checksum, 1)]) m out /\
    forall n, rd16 out (vbt ctx + off_vbt_size) = Some n -> off_vbt_checksum < n ->
      exists l, vbt_bytes out (vbt ctx) = Some l /\ sum_bytes l mod 256 = 0.
Proof.
  intros (ctx & m' & n & Hi & Ha & _ & Hu & _)%run_main_writes. exists ctx. split; [done|].
  apply apply_patches_untouched in Ha. split.
  - eapply untouched_trans; [exact Ha|]. apply frame_untouched.
    revert Hu. unfold update_checksum. destruct (wr8 m' _ 0) as [m1|] eqn:E1; [|done]. simpl.
    destruct (rd16 m1 _); [|done]. simpl. destruct (region m1 _ _); [|done]. simpl. intros E2.
    apply wr8_spec in E1 as (_ & L1 & F1). apply wr8_spec in E2 as (_ & L2 & F2).
    split; [congruence|]. intros q Hq. by rewrite F2, F1.
  - intros k Hk Hlt. by eapply update_checksum_spec.
Qed.

(** The refresh rate the tool sets is the largest its unit allows: the clock in
    kHz is the wanted rate times the pixels of a frame, rounded down. *)
Theorem hz_sets_clock (m : Mem) (ctx : vbt_ctx) (o : patch_opts) (g w h : Z) (m' : Mem) (n : Z) :
  gdtd ctx = Some g -> mipi_cfg ctx = None -> 0 < hz o ->
  dtd_totals m (dtd_at g (panel ctx)) = Some (w, h) -> 0 <= w -> 0 <= h ->
  1000 <= hz o * (w * h) < 1000 * 2 ^ 31 ->
  apply_patches m ctx o = Some (m', n) ->
  n = 1 /\ exists c, rd32 m' (dtd_at g (panel ctx) + off_pixel_clock) = Some c /\
    c * 1000 <= hz o * (w * h) < (c + 1) * 1000.
Proof.
  intros Hg Hm Hz Hd Hw Hh Hb. unfold apply_patches. rewrite Hg, Hm, (proj2 (Z.ltb_lt 0 _)) by done.
  unfold resolve_hz_to_clock. rewrite Hd. cbn [mbind option_bind].
  rewrite Z.mul_assoc in Hb.
  assert (0 <= hz o * w < 2 ^ 64) as Hb1 by (destruct (Z.eq_dec h 0); nia).
  rewrite (wrap_small 64 (hz o * w)) by done. rewrite wrap_small by nia.
  set (c := hz o * w * h / 1000).
  assert (1 <= c < 2 ^ 31 /\ c * 1000 <= hz o * w * h < (c + 1) * 1000) as [Hc Hr].
  { unfold c. pose proof (Z.div_mod (hz o * w * h) 1000 ltac:(lia)).
    pose proof (Z.mod_pos_bound (hz o * w * h) 1000 ltac:(lia)). nia. }
  rewrite sint_id by (simpl; lia). unfold when. rewrite (proj2 (Z.ltb_lt 0 c)) by lia. simpl.
  destruct (patch_clock m g (panel ctx) c) as [m1|] eqn:E; [|done]. simpl. intros [= <- <-].
  apply patch_clock_spec in E as [E _]. split; [done|]. exists (wrap 32 c). split; [exact E|].
  rewrite wrap_small by (simpl; lia). rewrite !Z.mul_assoc. lia.
Qed.

(** A rotation outside the table of names is not refused: whenever the MIPI
    block applies, the tool faults. *)
Theorem rotation_out_of_table_faults (m : Mem) (o : patch_opts) (write_ok : bool) (ctx : vbt_ctx) (g : Z) :
  init_ctx m = InitOk ctx -> mipi_cfg ctx = Some g -> panel ctx < MAX_MIPI_CONFIGURATIONS ->
  4 <= rotation o -> run_main m o true write_ok = Fault.
Proof.
  intros Hi Hg Hp Hr. unfold run_main. rewrite Hi.
  assert (has_patches o = true) as ->.
  { unfold has_patches. rewrite (proj2 (Z.leb_le 0 (rotation o))) by lia. by rewrite !orb_true_r. }
  simpl. assert (apply_patches m ctx o = None) as ->; [|done].
  unfold apply_patches. rewrite Hg, (proj2 (Z.ltb_lt _ _)) by done.
  destruct (match gdtd ctx with Some _ => _ | None => _ end) as [c|]; [|done]. simpl.
  destruct (match gdtd ctx with Some _ => _ | None => _ end) as [s|]; [|done]. simpl.
  assert (patch_rotation (fst s) g (panel ctx) (rotation o) = None) as Er.
  { unfold patch_rotation. destruct (rd_bits (fst s) _ _); [|done]. simpl.
    destruct (wr_bits (fst s) _ _ _); [|done]. simpl. rewrite (proj2 (Z.ltb_ge (rotation o) 4)) by lia.
    by rewrite !andb_false_r. }
  unfold patch_mipi. cbv zeta. unfold when. rewrite (proj2 (Z.leb_le 0 (rotation o))) by lia.
  cbv beta iota. by rewrite Er.
Qed.

(** ** Finding blocks *)

(** One block: its id, the 16-bit length in its header and its payload. *)
Record Block := Bk { b_id : Z; b_len : Z; b_payload : list Z }.

Definition encode (b : Block) : list Z :=
  b_id b :: b_len b mod 256 :: b_len b / 256 :: b_payload b.

(** A MIPI sequence block of version 3 or more has its length in its payload. *)
Definition block_ok (b : Block) : Prop :=
  0 <= b_len b < 65536 /\
  exists v rest, b_payload b = v :: rest /\
    if (b_id b =? BDB_MIPI_SEQUENCE) && (3 <=? v)
    then rd32 rest 0 = Some (Z.of_nat (length (b_payload b)))
    else b_len b = Z.of_nat (length (b_payload b)).

(** Where the payload of the first block with an id is. *)
Fixpoint first_block (l : list Block) (pos id : Z) : Found :=
  match l with
  | [] => Missing
  | b :: l' => if b_id b =? id then At (pos + 3)
               else first_block l' (pos + Z.of_nat (length (encode b))) id
  end.

Lemma block_size_encode pre b rest : block_ok b ->
  rd8 (pre ++ encode b ++ rest) (Z.of_nat (length pre)) = Some (b_id b) /\
  block_size (pre ++ encode b ++ rest) (Z.of_nat (length pre)) (b_id b) =
    Some (Z.of_nat (length (b_payload b))).
Proof.
  intros (Hl & v & pl & Hp & Hs). split.
  { rewrite <- (Z.add_0_r (Z.of_nat (length pre))). by rewrite rd8_app_r. }
  assert (rd16 (pre ++ encode b ++ rest) (Z.of_nat (length pre) + 1) = Some (b_len b)) as H16.
  { rewrite rd16_app_r by lia. unfold encode. rewrite Hp.
    change (Some (b_len b mod 256 + 256 * (b_len b / 256)) = Some (b_len b)).
    pose proof (Z.div_mod (b_len b) 256 ltac:(lia)). f_equal. lia. }
  unfold block_size. destruct (b_id b =? BDB_MIPI_SEQUENCE); simpl in Hs; [|by rewrite H16, Hs].
  assert (rd8 (pre ++ encode b ++ rest) (Z.of_nat (length pre) + 3) = Some v) as ->.
  { rewrite rd8_app_r by lia. unfold encode. by rewrite Hp. }
  cbn [mbind option_bind]. destruct (3 <=? v); [|by rewrite H16, Hs].
  rewrite rd32_app_r by lia. unfold encode. rewrite Hp in *.
  change ((b_id b :: b_len b mod 256 :: b_len b / 256 :: v :: pl) ++ rest)
    with ([b_id b; b_len b mod 256; b_len b / 256; v] ++ pl ++ rest).
  rewrite (rd32_app_r [b_id b; b_len b mod 256; b_len b / 256; v] _ 0) by lia.
  exact (rd32_app_l _ _ _ _ Hs).
Qed.

Lemma find_from_encoded id l pre post bdb total fuel :
  Forall block_ok l -> 0 <= bdb <= Z.of_nat (length pre) ->
  bdb + total = Z.of_nat (length pre + length (concat (map encode l))) ->
  (length (concat (map encode l)) <= fuel)%nat ->
  find_from fuel (pre ++ concat (map encode l) ++ post) bdb total id (Z.of_nat (length pre) - bdb) =
  first_block l (Z.of_nat (length pre)) id.
Proof.
  intros Hl. revert pre fuel. induction Hl as [|b l Hb Hl IH]; intros pre fuel Hbdb Ht Hf.
  - simpl in *. assert (Z.of_nat (length pre) - bdb + 3 <? total = false) as E by lia.
    destruct fuel; simpl; by rewrite E.
  - simpl in Ht, Hf. destruct Hb as (Hlen & v & pl & Hp & Hs).
    assert (block_ok b) as Hb by (split; [done|]; by exists v, pl).
    rewrite Hp in Ht, Hf. simpl in Ht, Hf. rewrite length_app in Ht, Hf.
    destruct fuel as [|fuel]; [lia|].
    assert (Z.of_nat (length pre) - bdb + 3 <? total = true) as E by lia.
    cbn [find_from]. rewrite E. cbn [map concat]. rewrite <- app_assoc.
    replace (bdb + (Z.of_nat (length pre) - bdb)) with (Z.of_nat (length pre)) by lia.
    destruct (block_size_encode pre b (concat (map encode l) ++ post) Hb) as [-> ->].
    cbn [first_block]. destruct (b_id b =? id); [done|].
    rewrite app_assoc.
    replace (Z.of_nat (length pre) - bdb + 3 + Z.of_nat (length (b_payload b)))
      with (Z.of_nat (length (pre ++ encode b)) - bdb)
      by (rewrite length_app; simpl; lia).
    rewrite IH; [| |rewrite length_app; simpl; rewrite Hp; simpl; lia|lia].
    + f_equal. rewrite length_app. lia.
    + rewrite length_app. lia.
Qed.

(** C28: Searching a BDB that was put together from blocks finds the payload of the
    first block with the id, and nothing when there is none; the MIPI sequence
    block's long length field is understood. *)
Theorem find_block_encoded (pre hdr post : list Z) (l : list Block) (bdb_size id : Z) :
  let m := pre ++ hdr ++ concat (map encode l) ++ post in
  let bdb := Z.of_nat (length pre) in
  let total := Z.of_nat (length hdr + length (concat (map encode l))) in
  Forall block_ok l -> total <= bdb_size ->
  rd16 m (bdb + off_header_size) = Some (Z.of_nat (length hdr)) ->
  rd16 m (bdb + off_bdb_size) = Some total ->
  find_block m bdb bdb_size id = first_block l (bdb + Z.of_nat (length hdr)) id.
Proof.
  intros m bdb total Hl Hle Hh Ht. unfold find_block. rewrite Hh, Ht.
  rewrite (proj2 (Z.ltb_ge bdb_size total)) by lia.
  pose proof (find_from_encoded id l (pre ++ hdr) post bdb total (Z.to_nat total) Hl) as E.
  rewrite <- app_assoc in E. fold m in E. rewrite length_app in E.
  replace (Z.of_nat (length pre + length hdr) - bdb) with (Z.of_nat (length hdr)) in E by lia.
  rewrite E by lia. f_equal. lia.
Qed.

(** ** Bounds *)

(** The search terminates and stays inside the image when four bytes follow the
    blocks, whatever the blocks hold: the only read past the last header is that
    of a long length field. *)
Theorem find_block_inside (m : Mem) (bdb bdb_size id : Z) :
  bytes_nonneg m -> 0 <= bdb -> 0 <= off_header_size -> 0 <= off_bdb_size ->
  bdb + off_header_size + 2 <= Z.of_nat (length m) ->
  bdb + off_bdb_size + 2 <= Z.of_nat (length m) ->
  bdb + bdb_size + 4 <= Z.of_nat (length m) ->
  find_block m bdb bdb_size id <> Outside /\
  forall p, find_block m bdb bdb_size id = At p -> bdb + 3 <= p < bdb + bdb_size.
Proof.
  intros Hm Hb H1 H2 H3 H4 H5. unfold find_block.
  destruct (rd16_in m (bdb + off_header_size)) as (index & -> & Hi); [done|lia..|].
  destruct (rd16_in m (bdb + off_bdb_size)) as (tot & -> & Ht); [done|lia..|].
  set (total := if bdb_size <? tot then bdb_size else tot).
  assert (total <= bdb_size) as Hle by (unfold total; destruct (Z.ltb_spec bdb_size tot); lia).
  clearbody total. assert (total - index <= Z.of_nat (Z.to_nat total)) as Hf by lia.
  revert index Hi Hf. generalize (Z.to_nat total) as fuel.
  induction fuel as [|fuel IH]; intros index Hi Hf; cbn [find_from].
  - rewrite (proj2 (Z.ltb_ge _ _)) by lia. done.
  - destruct (Z.ltb_spec (index + 3) total); [|done].
    destruct (rd8_in m (bdb + index)) as [i ->]; [lia|].
    assert (exists size, block_size m (bdb + index) i = Some size /\ 0 <= size) as (size & -> & Hs).
    { unfold block_size. destruct (rd16_in m (bdb + index + 1)) as (s & -> & ?); [done|lia..|].
      destruct (i =? _); [|by exists s]. destruct (rd8_in m (bdb + index + 3)) as [v ->]; [lia|].
      cbn [mbind option_bind]. destruct (3 <=? v); [|by exists s]. apply rd32_in; [done|lia..]. }
    destruct (i =? id).
    + split; [done|]. intros p [= <-]. lia.
    + apply IH; lia.
Qed.

End Written.

(** ** A concrete layout and image *)

Module Sim.

#[global] Instance defs : VbtDefs := {
  off_vbt_size := 4; off_vbt_checksum := 6; off_bdb_offset := 8; off_header_size := 0; off_bdb_size := 2;
  BDB_LFP_OPTIONS := 40; BDB_MIPI_CONFIG := 52; BDB_MIPI_SEQUENCE := 53; BDB_GENERIC_DTD := 58;
  off_panel_type := 0; off_dtd := 2; size_dtd := 12;
  off_pixel_clock := 0; off_hactive := 4; off_hblank := 6; off_vactive := 8; off_vblank := 10;
  MAX_MIPI_CONFIGURATIONS := 2; off_config := 0; size_config := 2; off_pps := 4; size_pps := 10;
  bits_lane_cnt := Bf 0 2 2; bits_rotation := Bf 1 6 2;
  off_panel_on_delay := 0; off_bl_enable_delay := 2; off_bl_disable_delay := 4;
  off_panel_off_delay := 6; off_panel_power_cycle_delay := 8
}.

#[global] Instance laws : VbtLaws.
Proof. split; [by vm_compute|right; by vm_compute]. Qed.

(** A sequence block with a long length field, the options (panel 0), a timing
    of 1280 by 1000 pixels in total, and a MIPI block. *)
Definition dtd : list Z := [14; 0; 0; 0; 0; 0; 0; 4; 0; 1; 200; 3; 32; 0].
Definition options : Block := Bk 40 1 [0].
Definition timing : Block := Bk 58 14 dtd.
Definition sequence : Block := Bk 53 0 [3; 6; 0; 0; 0; 9].
Definition mipi : Block := Bk 52 24 (replicate 24 0).
Definition blocks (with_mipi : bool) : list Block :=
  [sequence; options; timing] ++ if with_mipi then [mipi] else [].

Definition le16 (n : Z) : list Z := [n mod 256; n / 256].
Definition vbt_header (size : Z) : list Z :=
  [0x24; 0x56; 0x42; 0x54] ++ le16 size ++ [0; 0] ++ [12; 0; 0; 0].
Definition body (with_mipi : bool) : list Z := concat (map encode (blocks with_mipi)).
Definition bdb_header (with_mipi : bool) : list Z := le16 4 ++ le16 (4 + Z.of_nat (length (body with_mipi))).
Definition image (with_mipi : bool) : Mem :=
  [7; 7] ++ vbt_header (16 + Z.of_nat (length (body with_mipi))) ++
  bdb_header with_mipi ++ body with_mipi ++ [1; 2; 3; 4].

Definition opts (hz rotation : Z) : patch_opts := Opts (-1) hz rotation (-1) (-1) (-1) (-1) 5.

Definition ctx (with_mipi : bool) : vbt_ctx :=
  match init_ctx (image with_mipi) with InitOk c => c | _ => Ctx 0 0 0 0 None None end.

End Sim.

Lemma written_image_witness :
  exists out, run_main (Sim.image true) (Sim.opts 60 1) true true = Exit 0 (Some out) /\
    exists l, vbt_bytes out 2 = Some l /\ sum_bytes l mod 256 = 0 /\
    untouched (patch_ranges (Sim.ctx true) (Sim.opts 60 1) ++ [(8, 1)]) (Sim.image true) out.
Proof.
  destruct (run_main (Sim.image true) (Sim.opts 60 1) true true) as [|c [out|]] eqn:E;
    [by vm_compute in E| |by vm_compute in E].
  destruct (written_image (Sim.image true) (Sim.opts 60 1) true true c out E) as (ctx & Ei & Hu & Hs).
  vm_compute in E. injection E as <- <-. eexists. split; [reflexivity|].
  vm_compute in Ei. injection Ei as <-. destruct (Hs 73) as (l & El & Es); [by vm_compute|by vm_compute|].
  exists l. split; [exact El|]. split; [exact Es|exact Hu].
Defined.

Lemma hz_sets_clock_witness :
  exists m', apply_patches (Sim.image false) (Sim.ctx false) (Sim.opts 60 (-1)) = Some (m', 1) /\
    rd32 m' (dtd_at 34 0 + off_pixel_clock) = Some 76800.
Proof.
  destruct (apply_patches (Sim.image false) (Sim.ctx false) (Sim.opts 60 (-1))) as [[m' n]|] eqn:E;
    [|by vm_compute in E].
  assert (gdtd (Sim.ctx false) = Some 34) as Hg by (vm_compute; reflexivity).
  assert (mipi_cfg (Sim.ctx false) = None) as Hm by (vm_compute; reflexivity).
  assert (dtd_totals (Sim.image false) (dtd_at 34 (panel (Sim.ctx false))) = Some (1280, 1000)) as Hd
    by (vm_compute; reflexivity).
  destruct (hz_sets_clock (Sim.image false) (Sim.ctx false) (Sim.opts 60 (-1)) 34 1280 1000 m' n
    Hg Hm ltac:(simpl; lia) Hd ltac:(lia) ltac:(lia) ltac:(simpl; lia) E) as (-> & c & Ec & Hc).
  exists m'. split; [done|]. change (panel (Sim.ctx false)) with 0 in Ec.
  change (hz (Sim.opts 60 (-1))) with 60 in Hc. assert (c = 76800) as <- by lia. exact Ec.
Defined.

Lemma rotation_out_of_table_faults_witness :
  run_main (Sim.image true) (Sim.opts (-1) 4) true true = Fault.
Proof.
  apply (rotation_out_of_table_faults _ _ _ (Sim.ctx true)
    (match mipi_cfg (Sim.ctx true) with Some g => g | None => 0 end)); vm_compute; done.
Defined.

Lemma find_block_encoded_witness :
  find_block (Sim.image true) 14 (4 + Z.of_nat (length (Sim.body true))) 58 = At 34 /\
  first_block (Sim.blocks true) 18 58 = At 34.
Proof.
  split; [|vm_compute; reflexivity].
  pose proof (find_block_encoded ([7; 7] ++ Sim.vbt_header (16 + Z.of_nat (length (Sim.body true))))
    (Sim.bdb_header true) [1; 2; 3; 4] (Sim.blocks true)
    (4 + Z.of_nat (length (Sim.body true))) 58) as E.
  cbv zeta in E. etransitivity; [apply E|vm_compute; reflexivity].
  - repeat constructor; try done; [exists 3, [6; 0; 0; 0; 9]|exists 0, []|
      exists 14, (tail Sim.dtd)|exists 0, (replicate 23 0)]; split; vm_compute; reflexivity.
  - vm_compute. done.
  - vm_compute. reflexivity.
  - vm_compute. reflexivity.
Defined.

Lemma find_block_inside_witness :
  find_block (Sim.image true) 14 (4 + Z.of_nat (length (Sim.body true))) 99 <> Outside.
Proof.
  apply (find_block_inside (Sim.image true) 14 (4 + Z.of_nat (length (Sim.body true))) 99);
    try (vm_compute; done).
  repeat constructor; vm_compute; done.
Defined.
