(* ===== verification/DptfEnabler.v ===== *)
(** * The DPTF enabler kernel module (modules/dptf_enabler/dptf_enabler.c)

    At load time the module looks for the GNVS operation region in the bytecode
    of the DSDT, maps it, sets the flags of the DPTF participants that are clear
    and asks ACPI to look for devices again.  A table and a mapped region are
    byte buffers; what the kernel answers is an argument. *)

From Stdlib Require Import ZArith Lia.
From stdpp Require Import base list option sets.
From S2P Require Import Prelude Bytes.

#[local] Open Scope Z_scope.

Definition ENOENT := 2.
Definition ENOMEM := 12.
Definition ENODEV := 19.
Definition EINVAL := 22.

(** ** The region in the DSDT *)

Inductive Scan := ScanFault | Err (e : Z) | Gnvs (addr len : Z).

(** ExtOpPrefix OpRegionOp "GNVS" SystemMemory. *)
Definition signature : list Z := [0x5B; 0x80; 0x47; 0x4E; 0x56; 0x53; 0x00].

Definition sig_at (m : Mem) (aml : Z) : bool :=
  bool_decide (take 7 (drop (Z.to_nat aml) m) = signature).

Definition parse_len (m : Mem) (p addr : Z) : Scan :=
  let found o := match o with Some len => Gnvs addr len | None => ScanFault end in
  match rd8 m p with
  | None => ScanFault
  | Some 0x0A => found (rd8 m (p + 1))
  | Some 0x0B => found (rd16 m (p + 1))
  | Some 0x0C => found (rd32 m (p + 1))
  | Some _ => Err (- EINVAL)
  end.

Definition parse_region (m : Mem) (p : Z) : Scan :=
  match rd8 m p with
  | None => ScanFault
  | Some 0x0C => match rd32 m (p + 1) with Some a => parse_len m (p + 5) a | None => ScanFault end
  | Some 0x0E => match rd64 m (p + 1) with Some a => parse_len m (p + 9) a | None => ScanFault end
  | Some _ => Err (- EINVAL)
  end.

(** One [fuel] per byte of the table. *)
Fixpoint scan_from (fuel : nat) (m : Mem) (aml : Z) : Scan :=
  if aml <? Z.of_nat (length m) - 12 then
    match fuel with
    | O => ScanFault
    | S fuel => if sig_at m aml then parse_region m (aml + 7) else scan_from fuel m (aml + 1)
    end
  else Err (- ENOENT).

Section Init.
(** [sizeof (struct acpi_table_header)]. *)
Variable sizeof_header : Z.

(** [dsdt]: the table, when [acpi_get_table] succeeds. *)
Definition find_gnvs (dsdt : option Mem) : Scan :=
  match dsdt with
  | None => Err (- ENODEV)
  | Some m => scan_from (length m) m sizeof_header
  end.

(** ** The flags *)

Definition flags : list Z := [0x072; 0x1F4; 0x32F; 0x969].
Definition fan_flags : list Z := [0x076; 0xB54; 0xB55].
Definition sensor_flags : list Z := [0x327; 0x333; 0x334; 0x335; 0x336; 0x337; 0xB56].

(** One step of [SET_FLAGS]: the region and the number of flags set. *)
Definition set_flag (s : option (Mem * Z)) (off : Z) : option (Mem * Z) :=
  '(m, n) ← s;
  v ← rd8 m off;
  if v =? 0 then m' ← wr8 m off 1; Some (m', n + 1) else Some (m, n).

Definition SET_FLAGS (arr : list Z) (s : option (Mem * Z)) : option (Mem * Z) := foldl set_flag s arr.

(** ** Loading *)

Inductive Call := Memunmap | RunOsc | BusScan.

Inductive Result :=
  | Fault
  | Ret (code : Z) (gnvs : option Mem) (calls : list Call).

(** [memremap] gives the bytes of the region, [ietm]: the manager device exists. *)
Definition dptf_enabler_init (memremap : Z -> Z -> option Mem) (enable_fans enable_sensors ietm : bool)
    (dsdt : option Mem) : Result :=
  match find_gnvs dsdt with
  | ScanFault => Fault
  | Err _ => Ret (- ENODEV) None []
  | Gnvs addr len =>
      match memremap addr len with
      | None => Ret (- ENOMEM) None []
      | Some gnvs =>
          let s := SET_FLAGS flags (Some (gnvs, 0)) in
          let s := if enable_fans then SET_FLAGS fan_flags s else s in
          let s := if enable_sensors then SET_FLAGS sensor_flags s else s in
          match s with
          | None => Fault
          | Some (gnvs', n) =>
              if n =? 0 then Ret 0 (Some gnvs') [Memunmap]
              else Ret 0 (Some gnvs') (Memunmap :: (if ietm then [RunOsc] else []) ++ [BusScan])
          end
      end
  end.

End Init.

(** ** Encodings of the region *)

Inductive AddrEnc := DwordAddr (a : Z) | QwordAddr (a : Z).
Inductive LenEnc := ByteLen (n : Z) | WordLen (n : Z) | DwordLen (n : Z).

Definition addr_of (a : AddrEnc) : Z := match a with DwordAddr a | QwordAddr a => a end.
Definition len_of (l : LenEnc) : Z := match l with ByteLen n | WordLen n | DwordLen n => n end.

Definition addr_ok (a : AddrEnc) : Prop :=
  match a with DwordAddr a => 0 <= a < 2 ^ 32 | QwordAddr a => 0 <= a < 2 ^ 64 end.
Definition len_ok (l : LenEnc) : Prop :=
  match l with ByteLen n => True | WordLen n => 0 <= n < 2 ^ 16 | DwordLen n => 0 <= n < 2 ^ 32 end.

Definition enc_addr (a : AddrEnc) : list Z :=
  match a with DwordAddr a => 0x0C :: le 4 a | QwordAddr a => 0x0E :: le 8 a end.
Definition enc_len (l : LenEnc) : list Z :=
  match l with ByteLen n => [0x0A; n] | WordLen n => 0x0B :: le 2 n | DwordLen n => 0x0C :: le 4 n end.

(** ** Properties *)

Lemma parse_len_encoded pre l post addr : len_ok l ->
  parse_len (pre ++ enc_len l ++ post) (Z.of_nat (length pre)) addr = Gnvs addr (len_of l).
Proof.
  intros Hl. unfold parse_len. set (P := Z.of_nat (length pre)).
  assert (P = P + 0) as EP by lia. rewrite EP at 1. unfold P at 1. rewrite rd8_app_r by lia.
  unfold P. destruct l as [n|n|n]; cbn [enc_len len_of].
  - rewrite rd8_app_r by lia. done.
  - rewrite rd16_app_r by lia.
    change (rd16 ((0x0B :: le 2 n) ++ post) 1) with (rd16 (le 2 n ++ post) 0).
    by rewrite (rd16_le n post Hl).
  - rewrite rd32_app_r by lia.
    change (rd32 ((0x0C :: le 4 n) ++ post) 1) with (rd32 (le 4 n ++ post) 0).
    by rewrite (rd32_le n post Hl).
Qed.

Lemma parse_region_encoded pre a l post : addr_ok a -> len_ok l ->
  parse_region (pre ++ enc_addr a ++ enc_len l ++ post) (Z.of_nat (length pre)) =
  Gnvs (addr_of a) (len_of l).
Proof.
  intros Ha Hl. pose proof (fun addr => parse_len_encoded (pre ++ enc_addr a) l post addr Hl) as Hlen.
  rewrite <- app_assoc in Hlen. rewrite length_app in Hlen.
  unfold parse_region. set (P := Z.of_nat (length pre)).
  assert (P = P + 0) as EP by lia. rewrite EP at 1. unfold P at 1. rewrite rd8_app_r by lia.
  unfold P. destruct a as [a|a]; cbn [enc_addr addr_of length] in *; rewrite le_length in Hlen.
  - rewrite rd32_app_r by lia.
    change (rd32 ((0x0C :: le 4 a) ++ enc_len l ++ post) 1) with (rd32 (le 4 a ++ enc_len l ++ post) 0).
    rewrite (rd32_le a _ Ha). simpl rd8. cbv iota.
    replace (Z.of_nat (length pre) + 5) with (Z.of_nat (length pre + 5)) by lia. apply Hlen.
  - rewrite rd64_app_r by lia.
    change (rd64 ((0x0E :: le 8 a) ++ enc_len l ++ post) 1) with (rd64 (le 8 a ++ enc_len l ++ post) 0).
    rewrite (rd64_le a _ Ha). simpl rd8. cbv iota.
    replace (Z.of_nat (length pre) + 9) with (Z.of_nat (length pre + 9)) by lia. apply Hlen.
Qed.

(** A GNVS region declared in the table, in any of the encodings, is found with
    its address and length, when it is the first one after the header. *)
Theorem find_gnvs_encoded (sizeof_header : Z) (pre post : list Z) (a : AddrEnc) (l : LenEnc) :
  let m := pre ++ signature ++ enc_addr a ++ enc_len l ++ post in
  addr_ok a -> len_ok l -> 0 <= sizeof_header <= Z.of_nat (length pre) ->
  (forall i, sizeof_header <= i < Z.of_nat (length pre) -> sig_at m i = false) ->
  find_gnvs sizeof_header (Some m) = Gnvs (addr_of a) (len_of l).
Proof.
  intros m Ha Hl Hs Hno. unfold find_gnvs.
  assert (Z.of_nat (length pre) + 13 <= Z.of_nat (length m)) as Hlen.
  { unfold m. rewrite !length_app.
    assert (5 <= length (enc_addr a) /\ 2 <= length (enc_len l))%nat as [? ?].
    { destruct a, l; cbn [enc_addr enc_len length]; rewrite ?le_length; lia. }
    simpl (length signature). lia. }
  assert (parse_region m (Z.of_nat (length pre) + 7) = Gnvs (addr_of a) (len_of l)) as Hp.
  { unfold m. rewrite app_assoc.
    replace (Z.of_nat (length pre) + 7) with (Z.of_nat (length (pre ++ signature)))
      by (rewrite length_app; simpl (length signature); lia).
    by apply parse_region_encoded. }
  assert (sig_at m (Z.of_nat (length pre)) = true) as Hsig.
  { unfold sig_at, m. rewrite Nat2Z.id, drop_app_length. by apply bool_decide_eq_true. }
  clearbody m. assert (Z.of_nat (length pre) - sizeof_header < Z.of_nat (length m)) as Hf by lia.
  revert Hs Hno Hf. generalize (length m) at 1 2 as fuel. generalize sizeof_header as i.
  intros i fuel. revert i. induction fuel as [|fuel IH]; intros i Hs Hno Hf; cbn [scan_from].
  - lia.
  - rewrite (proj2 (Z.ltb_lt i _)) by lia. destruct (Z.eq_dec i (Z.of_nat (length pre))) as [->|Hn].
    + by rewrite Hsig.
    + rewrite Hno by lia. apply IH; [lia| |lia]. intros j Hj. apply Hno. lia.
Qed.

(** ** Setting flags *)

(** A byte after the flags at [arr] were set. *)
Definition flagged (arr : list Z) (m : Mem) (q : Z) : option Z :=
  if bool_decide (q ∈ arr) && bool_decide (rd8 m q = Some 0) then Some 1 else rd8 m q.

Definition inside (m : Mem) (o : Z) : Prop := 0 <= o < Z.of_nat (length m).

Lemma set_flag_spec m n o : inside m o ->
  exists m', set_flag (Some (m, n)) o = Some (m', n + if bool_decide (rd8 m o = Some 0) then 1 else 0) /\
    length m' = length m /\ forall q, rd8 m' q = flagged [o] m q.
Proof.
  intros Ho. destruct (rd8_in m o Ho) as [v Hv]. unfold set_flag. cbn [mbind option_bind].
  rewrite Hv. cbn [mbind option_bind].
  assert (forall q, flagged [o] m q = if bool_decide (q = o /\ v = 0) then Some 1 else rd8 m q) as Hf.
  { intros q. unfold flagged. destruct (decide (q = o)) as [->|Hn].
    - rewrite Hv, (bool_decide_true (o ∈ [o])) by set_solver. simpl.
      destruct (decide (v = 0)) as [->|Hv0]; [by rewrite !bool_decide_true|].
      rewrite !bool_decide_false; [done|naive_solver|congruence].
    - rewrite (bool_decide_false (q ∈ [o])) by set_solver.
      by rewrite (bool_decide_false (q = o /\ v = 0)) by naive_solver. }
  destruct (Z.eqb_spec v 0) as [->|Hn].
  - destruct (wr8 m o 1) as [m'|] eqn:E.
    + exists m'. apply wr8_spec in E as (E1 & E2 & E3). split; [done|]. split; [done|].
      intros q. rewrite Hf. destruct (decide (q = o)) as [->|Hq].
      * by rewrite bool_decide_true.
      * rewrite bool_decide_false by naive_solver. apply E3. lia.
    + exfalso. revert E. unfold wr8. unfold inside in Ho.
      by rewrite (proj2 (Z.leb_le 0 o)), (proj2 (Z.ltb_lt o _)) by lia.
  - exists m. rewrite bool_decide_false by congruence. rewrite Z.add_0_r.
    split; [done|]. split; [done|]. intros q. rewrite Hf, bool_decide_false; naive_solver.
Qed.

(** Whether one of the flags is clear. *)
Definition some_clear (arr : list Z) (m : Mem) : bool :=
  existsb (fun o => bool_decide (rd8 m o = Some 0)) arr.

Lemma some_clear_ext arr m m' : (forall q, rd8 m q = rd8 m' q) -> some_clear arr m = some_clear arr m'.
Proof. intros H. induction arr as [|o arr IH]; simpl; [done|]. by rewrite H, IH. Qed.

Lemma flagged_none o m q : rd8 m o <> Some 0 -> flagged [o] m q = rd8 m q.
Proof.
  intros Ho. unfold flagged. destruct (decide (q = o)) as [->|Hn].
  - by rewrite (bool_decide_false (rd8 m o = Some 0)), andb_false_r.
  - by rewrite (bool_decide_false (q ∈ [o])) by set_solver.
Qed.

Lemma SET_FLAGS_spec arr m n : Forall (inside m) arr ->
  exists m' k, SET_FLAGS arr (Some (m, n)) = Some (m', n + k) /\ length m' = length m /\
    (forall q, rd8 m' q = flagged arr m q) /\ 0 <= k /\ (k =? 0) = negb (some_clear arr m).
Proof.
  revert m n. induction arr as [|o arr IH]; intros m n Ha.
  - exists m, 0. rewrite Z.add_0_r. done.
  - inversion_clear Ha as [|? ? Ho Hr]. destruct (set_flag_spec m n o Ho) as (m1 & E1 & L1 & F1).
    assert (Forall (inside m1) arr) as Hr1 by (eapply Forall_impl; [exact Hr|]; unfold inside; intros; lia).
    set (d := if bool_decide (rd8 m o = Some 0) then 1 else 0) in *.
    destruct (IH m1 (n + d) Hr1) as (m2 & k & E2 & L2 & F2 & Hk & Hk0).
    exists m2, (d + k). unfold SET_FLAGS in *. cbn [foldl]. rewrite E1, E2.
    split; [by rewrite Z.add_assoc|]. split; [congruence|]. split; [|split].
    + intros q. rewrite F2. unfold flagged. rewrite F1. unfold flagged.
      destruct (bool_decide_reflect (q ∈ o :: arr)) as [Hq|Hq];
        [|rewrite (bool_decide_false (q ∈ arr)), (bool_decide_false (q ∈ [o])) by set_solver; done].
      destruct (bool_decide_reflect (rd8 m q = Some 0)) as [Hz|Hz].
      * destruct (decide (q = o)) as [->|Hn].
        -- rewrite (bool_decide_true (o ∈ [o])) by set_solver. simpl. by destruct (bool_decide (o ∈ arr)).
        -- rewrite (bool_decide_true (q ∈ arr)), (bool_decide_false (q ∈ [o])) by set_solver.
           simpl. by rewrite bool_decide_true.
      * rewrite andb_false_r. cbn [andb]. rewrite (bool_decide_false (rd8 m q = Some 0)) by done.
        by rewrite !andb_false_r.
    + unfold d. case_bool_decide; lia.
    + simpl. revert Hk0. unfold d. case_bool_decide as Hz; intros Hk0; simpl.
      * apply Z.eqb_neq. lia.
      * rewrite <- (some_clear_ext arr m1 m); [exact Hk0|].
        intros q. by rewrite F1, flagged_none.
Qed.

(** The flags a configuration of the module sets. *)
Definition selected (enable_fans enable_sensors : bool) : list Z :=
  flags ++ (if enable_fans then fan_flags else []) ++ (if enable_sensors then sensor_flags else []).

Lemma selected_range f s : Forall (fun o => 0 <= o < 0xB57) (selected f s).
Proof. destruct f, s; repeat constructor; lia. Qed.

Lemma SET_FLAGS_selected f s m :
  (let t := SET_FLAGS flags (Some (m, 0)) in
   let t := if f : bool then SET_FLAGS fan_flags t else t in
   if s : bool then SET_FLAGS sensor_flags t else t) = SET_FLAGS (selected f s) (Some (m, 0)).
Proof. by destruct f, s. Qed.

(** The outcome of loading, on a region that holds all the flags. *)
Lemma init_outcome sizeof_header memremap f s ietm dsdt addr len m :
  find_gnvs sizeof_header dsdt = Gnvs addr len -> memremap addr len = Some m ->
  0xB57 <= Z.of_nat (length m) ->
  exists m', dptf_enabler_init sizeof_header memremap f s ietm dsdt =
    Ret 0 (Some m') (Memunmap :: if some_clear (selected f s) m
                                 then (if ietm then [RunOsc] else []) ++ [BusScan] else []) /\
    length m' = length m /\ forall q, rd8 m' q = flagged (selected f s) m q.
Proof.
  intros Hg Hm Hl. destruct (SET_FLAGS_spec (selected f s) m 0) as (m' & k & E & L & F & _ & Hk).
  { eapply Forall_impl; [apply selected_range|]. unfold inside. simpl. lia. }
  exists m'. split; [|done]. unfold dptf_enabler_init. rewrite Hg, Hm, SET_FLAGS_selected, E.
  rewrite Z.add_0_l, Hk. by destruct (some_clear _ _).
Qed.

(** C29: Loading the module sets exactly the selected flags that were clear, changes
    no other byte of the region, tells the firmware (when the manager device is
    there) and rescans the bus exactly when there was one; loading it again then
    finds nothing to do.  The region has at least 0xB57 bytes. *)
Theorem init_sets_flags (sizeof_header : Z) (memremap : Z -> Z -> option Mem)
    (enable_fans enable_sensors ietm : bool) (dsdt : option Mem) (addr len : Z) (m : Mem) :
  let sel := selected enable_fans enable_sensors in
  find_gnvs sizeof_header dsdt = Gnvs addr len -> memremap addr len = Some m ->
  0xB57 <= Z.of_nat (length m) ->
  exists m', dptf_enabler_init sizeof_header memremap enable_fans enable_sensors ietm dsdt =
      Ret 0 (Some m') (Memunmap :: if some_clear sel m
                                   then (if ietm then [RunOsc] else []) ++ [BusScan] else []) /\
    length m' = length m /\ (forall q, rd8 m' q = flagged sel m q) /\
    forall memremap', memremap' addr len = Some m' -> exists m'',
      dptf_enabler_init sizeof_header memremap' enable_fans enable_sensors ietm dsdt =
        Ret 0 (Some m'') [Memunmap] /\ forall q, rd8 m'' q = rd8 m' q.
Proof.
  intros sel Hg Hm Hl.
  destruct (init_outcome _ _ enable_fans enable_sensors ietm _ _ _ m Hg Hm Hl) as (m' & E & L & F).
  exists m'. split; [exact E|]. split; [exact L|]. split; [exact F|]. intros memremap' Hm'.
  assert (forall q, bool_decide (q ∈ sel) && bool_decide (rd8 m' q = Some 0) = false) as Hno.
  { intros q. rewrite F. unfold flagged. fold sel.
    destruct (bool_decide_reflect (q ∈ sel)); [|done]. simpl.
    destruct (bool_decide_reflect (rd8 m q = Some 0)); [done|]. by rewrite bool_decide_false. }
  destruct (init_outcome _ _ enable_fans enable_sensors ietm _ _ _ m' Hg Hm' ltac:(lia))
    as (m'' & E' & _ & F').
  exists m''. split.
  - rewrite E'. replace (some_clear (selected enable_fans enable_sensors) m') with false; [done|].
    symmetry. apply not_true_is_false. intros Hc. apply existsb_exists in Hc as (o & Ho & Hz).
    specialize (Hno o). fold sel in Ho. rewrite Hz, bool_decide_true in Hno by (by apply list_elem_of_In).
    done.
  - intros q. rewrite F'. unfold flagged. fold sel. by rewrite Hno.
Qed.

(** The length of the region is not compared with the offsets: a region that
    ends before the last base flag is accessed outside. *)
Theorem short_region_faults (sizeof_header : Z) (memremap : Z -> Z -> option Mem)
    (enable_fans enable_sensors ietm : bool) (dsdt : option Mem) (addr len : Z) (m : Mem) :
  find_gnvs sizeof_header dsdt = Gnvs addr len -> memremap addr len = Some m ->
  Z.of_nat (length m) <= 0x969 ->
  dptf_enabler_init sizeof_header memremap enable_fans enable_sensors ietm dsdt = Fault.
Proof.
  intros Hg Hm Hl. unfold dptf_enabler_init. rewrite Hg, Hm.
  assert (forall arr, SET_FLAGS arr None = None) as Hnone by (induction arr; done).
  assert (SET_FLAGS flags (Some (m, 0)) = None) as ->;
    [|by destruct enable_fans, enable_sensors; rewrite ?Hnone].
  change flags with ([0x072; 0x1F4; 0x32F] ++ [0x969]). unfold SET_FLAGS. rewrite foldl_app.
  destruct (foldl set_flag (Some (m, 0)) [0x072; 0x1F4; 0x32F]) as [[m' n]|] eqn:E; [|done].
  assert (length m' = length m) as L.
  { assert (forall arr s s' t, foldl set_flag s arr = Some (s', t) ->
      exists s0 t0, s = Some (s0, t0) /\ length s' = length s0) as H.
    { induction arr as [|o arr IH]; intros s s' t Hs; [by exists s', t|].
      apply IH in Hs as (s1 & t1 & Hs & Hlen). unfold set_flag in Hs.
      destruct s as [[s0 t0]|]; [|done]. exists s0, t0. split; [done|]. rewrite Hlen.
      cbn [mbind option_bind] in Hs. destruct (rd8 s0 o); [|done]. cbn [mbind option_bind] in Hs.
      destruct (_ =? 0); [|by injection Hs as <-]. destruct (wr8 s0 o 1) as [w|] eqn:Ew; [|done].
      injection Hs as <-. by apply wr8_spec in Ew as (_ & ? & _). }
    apply H in E as (s0 & t0 & [= <- <-] & ?). done. }
  cbn [foldl set_flag mbind option_bind]. destruct (rd8 m' 0x969) eqn:Er; [|done].
  apply rd8_bound in Er. lia.
Qed.

(** ** Witnesses *)

Module Sim.
Definition header : list Z := [0x44; 0x53; 0x44; 0x54].
Definition table (a : AddrEnc) (l : LenEnc) : Mem :=
  (header ++ [0x5B; 0x80; 0x5B]) ++ signature ++ enc_addr a ++ enc_len l ++ [0x5B; 0x81].
Definition dsdt : Mem := table (DwordAddr 0x7A5C0000) (WordLen 0xB57).
Definition region (n : nat) : Mem := replicate n 0.
Definition map (n : nat) (addr len : Z) : option Mem :=
  if (addr =? 0x7A5C0000) && (len =? 0xB57) then Some (region n) else None.
End Sim.

Lemma find_gnvs_encoded_witness :
  find_gnvs 4 (Some (Sim.table (QwordAddr 0x123456789) (DwordLen 0x1000))) = Gnvs 0x123456789 0x1000.
Proof.
  apply (find_gnvs_encoded 4 (Sim.header ++ [0x5B; 0x80; 0x5B]) [0x5B; 0x81]
    (QwordAddr 0x123456789) (DwordLen 0x1000)); [simpl; lia..|].
  intros i Hi. simpl in Hi. assert (i = 4 \/ i = 5 \/ i = 6) as [-> | [-> | ->]] by lia;
    vm_compute; reflexivity.
Defined.

Lemma init_sets_flags_witness :
  exists m', dptf_enabler_init 4 (Sim.map 0xB57) false true true (Some Sim.dsdt) =
      Ret 0 (Some m') [Memunmap; RunOsc; BusScan] /\
    rd8 m' 0x969 = Some 1 /\ rd8 m' 0xB56 = Some 1 /\ rd8 m' 0x076 = Some 0.
Proof.
  destruct (init_sets_flags 4 (Sim.map 0xB57) false true true (Some Sim.dsdt) 0x7A5C0000 0xB57
    (Sim.region 0xB57)) as (m' & E & _ & F & _); [vm_compute; reflexivity|reflexivity|by vm_compute|].
  exists m'. split; [rewrite E; f_equal; vm_compute; reflexivity|].
  rewrite !F. split_and!; vm_compute; reflexivity.
Defined.

Lemma short_region_faults_witness :
  dptf_enabler_init 4 (Sim.map 100) false false true (Some Sim.dsdt) = Fault.
Proof.
  apply (short_region_faults 4 (Sim.map 100) false false true (Some Sim.dsdt) 0x7A5C0000 0xB57
    (Sim.region 100)); vm_compute; done.
Defined.
