(* ===== verification/Spklen.v ===== *)
(** * The I2C spike suppression module (modules/i2c_designware_spklen)

    The module finds the LPSS I2C controllers, chooses their spike suppression
    lengths, and programs them at load time and after every resume.  Registers
    are reached through the class [Mmio]; PCI references and mappings are
    counted in the log of kernel calls. *)

From Stdlib Require Import ZArith Lia.
From stdpp Require Import base list.
From S2P Require Import Prelude.

#[local] Open Scope Z_scope.
#[local] Open Scope prog_scope.

(** ** Registers *)

Definition DW_IC_CON := 0x00.
Definition DW_IC_ENABLE := 0x6c.
Definition DW_IC_ENABLE_STATUS := 0x9c.
Definition DW_IC_FS_SPKLEN := 0xa0.
Definition DW_IC_HS_SPKLEN := 0xa4.
Definition DW_IC_CON_SPEED_MASK := 0x06.
Definition DW_IC_CON_SPEED_STD := 0x02.
Definition DW_IC_CON_SPEED_HIGH := 0x06.
Definition LPSS_PRIV_OFFSET := 0x200.
Definition LPSS_PRIV_CLKGATE := 0x38.
Definition MAX_CONTROLLERS := 8.
Definition PM_POST_SUSPEND := 4.
Definition PM_POST_RESTORE := 6.
Definition ENODEV := 19.

Definition adl_n_i2c_ids : list Z :=
  [0x54e8; 0x54e9; 0x54ea; 0x54eb; 0x54c5; 0x54c6; 0x54d8; 0x54d9].

Class Mmio (D : Type) := {
  readl : Z -> D -> Z * D;
  writel : Z -> Z -> D -> D
}.

(** ** State *)

Record lpss_i2c_fixup := Fix {
  base : Z; priv : Z; pdev : Z; spklen_fs : Z; spklen_hs : Z
}.

(** A PCI device: its id, its device number, and its first resource. *)
Record PciDev := Pci { pci_id : Z; device : Z; bar_start : Z; bar_len : Z }.

Inductive Call :=
  | Get (p : Z) | Put (p : Z)
  | Ioremap (a : Z) | Iounmap (a : Z)
  | RegisterPm | UnregisterPm
  | Timeout (p : Z).

(** [writes] and [calls], newest first. *)
Record St (D : Type) := Mk {
  hw : D; controllers : list lpss_i2c_fixup; nr_controllers : Z;
  writes : list (Z * Z); reads : Z; calls : list Call
}.
Arguments Mk {D}. Arguments hw {D}. Arguments controllers {D}. Arguments nr_controllers {D}.
Arguments writes {D}. Arguments reads {D}. Arguments calls {D}.

Section Module_.
Context {D : Type} `{Mmio D}.
#[local] Abbreviation S := (St D).

(** Module parameters. *)
Variable fs_spklen hs_spklen : Z.
Variable clkgate : bool.
(** [ioremap]: the mapped address, 0 on failure. *)
Variable ioremap : Z -> Z -> Z.

Definition read (a : Z) : M S Z := fun s =>
  let (v, d) := readl a (hw s) in
  (v, Mk d (controllers s) (nr_controllers s) (writes s) (reads s + 1) (calls s)).
Definition write (v a : Z) : M S unit :=
  modify (fun s => Mk (writel a v (hw s)) (controllers s) (nr_controllers s) ((a, v) :: writes s)
                      (reads s) (calls s)).
Definition kcall (c : Call) : M S unit :=
  modify (fun s => Mk (hw s) (controllers s) (nr_controllers s) (writes s) (reads s) (c :: calls s)).

(** ** Choosing the lengths: stored as u8 *)

Definition pick_fs_spklen (base : Z) : M S Z :=
  if negb (fs_spklen =? 0) then ret (wrap 8 fs_spklen)
  else
    con <- read (base + DW_IC_CON) ;;
    ret (if Z.land con DW_IC_CON_SPEED_MASK =? DW_IC_CON_SPEED_STD then 1 else 6).

Definition pick_hs_spklen (base : Z) : M S Z :=
  if negb (hs_spklen =? 0) then ret (wrap 8 hs_spklen)
  else
    con <- read (base + DW_IC_CON) ;;
    ret (if Z.land con DW_IC_CON_SPEED_MASK =? DW_IC_CON_SPEED_HIGH then 2 else 0).

(** ** Programming them *)

(** [timeout] reads of the status at most. *)
Fixpoint wait_controller_disabled_from (timeout : nat) (base : Z) : M S bool :=
  v <- read (base + DW_IC_ENABLE_STATUS) ;;
  if Z.land v 1 =? 0 then ret true
  else
    match timeout with
    | O | 1%nat => ret false
    | Datatypes.S t => wait_controller_disabled_from t base
    end.

Definition wait_controller_disabled (base : Z) : M S bool := wait_controller_disabled_from 100 base.

Definition apply_fixup (fix_ : lpss_i2c_fixup) : M S unit :=
  old_fs <- read (base fix_ + DW_IC_FS_SPKLEN) ;;
  old_hs <- read (base fix_ + DW_IC_HS_SPKLEN) ;;
  if (old_fs =? spklen_fs fix_) && ((spklen_hs fix_ =? 0) || (old_hs =? spklen_hs fix_)) then ret tt
  else
    v <- read (base fix_ + DW_IC_ENABLE) ;;
    let was_enabled := negb (Z.land v 1 =? 0) in
    ok <- (if was_enabled
           then write 0 (base fix_ + DW_IC_ENABLE) ;;; wait_controller_disabled (base fix_)
           else ret true) ;;
    if negb ok then kcall (Timeout (pdev fix_))
    else
      write (spklen_fs fix_) (base fix_ + DW_IC_FS_SPKLEN) ;;;
      (if negb (spklen_hs fix_ =? 0)
       then write (spklen_hs fix_) (base fix_ + DW_IC_HS_SPKLEN) else ret tt) ;;;
      if was_enabled then write 1 (base fix_ + DW_IC_ENABLE) else ret tt.

Definition apply_clkgate (fix_ : lpss_i2c_fixup) : M S unit :=
  if priv fix_ =? 0 then ret tt
  else
    old <- read (priv fix_ + LPSS_PRIV_CLKGATE) ;;
    if old =? 1 then ret tt else write 1 (priv fix_ + LPSS_PRIV_CLKGATE).

Definition active (s : S) : list lpss_i2c_fixup := take (Z.to_nat (nr_controllers s)) (controllers s).

Definition apply_all : M S unit :=
  l <- gets active ;;
  mfor l (fun f => apply_fixup f ;;; if clkgate then apply_clkgate f else ret tt).

Definition pm_handler (action : Z) : M S unit :=
  if (action =? PM_POST_SUSPEND) || (action =? PM_POST_RESTORE) then apply_all else ret tt.

(** ** Loading and unloading *)

Definition is_adl_n_i2c (devid : Z) : bool := existsb (Z.eqb devid) adl_n_i2c_ids.

Definition set_controller (n : Z) (f : lpss_i2c_fixup) : M S unit :=
  modify (fun s => Mk (hw s) (<[Z.to_nat n := f]> (controllers s)) (nr_controllers s) (writes s)
                      (reads s) (calls s)).

(** One device: whether it takes slot [n]. *)
Definition probe_device (p : PciDev) (n : Z) : M S bool :=
  if (bar_start p =? 0) || (bar_len p =? 0) then ret false
  else
    old <- gets (fun s => default (Fix 0 0 0 0 0) (controllers s !! Z.to_nat n)) ;;
    let b := ioremap (bar_start p) (bar_len p) in
    if b =? 0 then
      set_controller n (Fix 0 (priv old) (pci_id p) (spklen_fs old) (spklen_hs old)) ;;; ret false
    else
      kcall (Ioremap b) ;;;
      let pr := if LPSS_PRIV_OFFSET + 0x100 <=? bar_len p then b + LPSS_PRIV_OFFSET else priv old in
      fs <- pick_fs_spklen b ;;
      hs <- pick_hs_spklen b ;;
      set_controller n (Fix b pr (pci_id p) fs hs) ;;;
      kcall (Get (pci_id p)) ;;;
      ret true.

(** [pci_get_device] takes a reference and drops that of the device before. *)
Fixpoint probe_all (devs : list PciDev) (n : Z) : M S Z :=
  match devs with
  | [] => ret n
  | p :: devs' =>
      kcall (Get (pci_id p)) ;;;
      if negb (is_adl_n_i2c (device p)) then kcall (Put (pci_id p)) ;;; probe_all devs' n
      else if MAX_CONTROLLERS <=? n then ret n
      else
        used <- probe_device p n ;;
        kcall (Put (pci_id p)) ;;;
        probe_all devs' (if used : bool then n + 1 else n)
  end.

Definition i2c_designware_spklen_init (devs : list PciDev) : M S Z :=
  n <- probe_all devs 0 ;;
  modify (fun s => Mk (hw s) (controllers s) n (writes s) (reads s) (calls s)) ;;;
  if n =? 0 then ret (- ENODEV)
  else
    apply_all ;;;
    kcall RegisterPm ;;;
    ret 0.

Definition i2c_designware_spklen_exit : M S unit :=
  kcall UnregisterPm ;;;
  l <- gets active ;;
  mfor l (fun f =>
    (if base f =? 0 then ret tt else kcall (Iounmap (base f))) ;;;
    (if pdev f =? 0 then ret tt else kcall (Put (pdev f)))).

(** The module before it is loaded. *)
Definition start (d : D) : S := Mk d (replicate 8 (Fix 0 0 0 0 0)) 0 [] 0 [].

End Module_.

(** ** Properties *)

(** Registers that keep what is written: the lengths and the enable register;
    reads change none of them, and a write changes its own. *)
Class MmioLaws (D : Type) `{Mmio D} (base : Z) := {
  reg : D -> Z -> Z;
  plain : Z -> bool := fun r => (r =? DW_IC_ENABLE) || (r =? DW_IC_FS_SPKLEN) || (r =? DW_IC_HS_SPKLEN);
  read_plain : forall r d, plain r = true -> fst (readl (base + r) d) = reg d r;
  read_keeps : forall a d r, reg (snd (readl a d)) r = reg d r;
  write_plain : forall r v d q, plain r = true ->
    reg (writel (base + r) v d) q = if q =? r then v else reg d q
}.

Section Theorems.
Context {D : Type} `{Mmio D} (b : Z) `{L : !MmioLaws D b}.
#[local] Abbreviation S := (St D).

Lemma wp_read a (Q : Z -> S -> Prop) s :
  (forall d, (forall r, reg d r = reg (hw s) r) ->
    Q (fst (readl a (hw s))) (Mk d (controllers s) (nr_controllers s) (writes s) (reads s + 1) (calls s))) ->
  wp (read a) Q s.
Proof.
  intros HQ. unfold wp, res, post, read. pose proof (read_keeps a (hw s)) as Hk.
  destruct (readl a (hw s)) as [v d]. by apply HQ.
Qed.

(** The wait reads the status at most [t] times and changes no register. *)
Lemma wait_spec t (s : S) : (1 <= t)%nat ->
  wp (wait_controller_disabled_from t b) (fun _ s' =>
    (forall r, reg (hw s') r = reg (hw s) r) /\ writes s' = writes s /\ calls s' = calls s /\
    controllers s' = controllers s /\ nr_controllers s' = nr_controllers s /\
    reads s < reads s' <= reads s + Z.of_nat t) s.
Proof.
  revert s. induction t as [|t IH]; intros s Ht; [lia|]. cbn [wait_controller_disabled_from].
  apply wp_bind, wp_read. intros d Hd. apply wp_if; intros _.
  - apply wp_ret. simpl. split_and!; [done..|lia|lia].
  - destruct t as [|t]; [apply wp_ret; simpl; split_and!; [done..|lia|lia]|].
    eapply wp_conseq; [|apply IH; lia]. cbn [hw writes calls controllers nr_controllers reads].
    intros ok s' (R & W & C & Co & N & B1 & B2). split_and!; [|done..|lia|lia].
    intros r. by rewrite R, Hd.
Qed.

Lemma wp_write r v (Q : unit -> S -> Prop) s : plain r = true ->
  (forall d, (forall q, reg d q = if q =? r then v else reg (hw s) q) ->
    Q tt (Mk d (controllers s) (nr_controllers s) ((b + r, v) :: writes s) (reads s) (calls s))) ->
  wp (write v (b + r)) Q s.
Proof. intros Hr HQ. apply wp_modify, HQ. intros q. by apply write_plain. Qed.

(** The registers hold what the module wants. *)
Definition programmed (f : lpss_i2c_fixup) (d : D) : bool :=
  (reg d DW_IC_FS_SPKLEN =? spklen_fs f) &&
  ((spklen_hs f =? 0) || (reg d DW_IC_HS_SPKLEN =? spklen_hs f)).

(** The registers after the lengths were programmed, the enable register being
    [e] of its former value. *)
Definition programmed_regs (f : lpss_i2c_fixup) (e : Z -> Z) (d d' : D) : Prop :=
  forall r, reg d' r =
    if r =? DW_IC_FS_SPKLEN then spklen_fs f
    else if (r =? DW_IC_HS_SPKLEN) && negb (spklen_hs f =? 0) then spklen_hs f
    else if r =? DW_IC_ENABLE then e (reg d r) else reg d r.

Lemma programmed_regs_programmed f e d d' : programmed_regs f e d d' -> programmed f d' = true.
Proof.
  intros Hr. unfold programmed. rewrite !Hr. simpl. rewrite Z.eqb_refl. simpl.
  destruct (spklen_hs f =? 0); [done|]. simpl. apply Z.eqb_refl.
Qed.

(** Stopping the controller before it is programmed. *)
Lemma stop_spec (f : lpss_i2c_fixup) (enabled : bool) (s : S) : base f = b ->
  wp (if enabled then write 0 (b + DW_IC_ENABLE) ;;; wait_controller_disabled b else ret true)
    (fun ok t => calls t = calls s /\ reads t <= reads s + 100 /\ (ok = false -> enabled = true) /\
      forall r, reg (hw t) r = if (r =? DW_IC_ENABLE) && enabled then 0 else reg (hw s) r) s.
Proof.
  intros Hb. destruct enabled.
  - apply wp_bind, wp_write; [done|]. intros d4 H4. eapply wp_conseq; [|apply wait_spec; lia].
    cbn [hw writes calls reads]. intros ok t (R & W & C & _ & _ & _ & B). split_and!; [done|lia|done|].
    intros r. by rewrite R, H4, andb_true_r.
  - apply wp_ret. split_and!; [done|lia|done|]. intros r. by rewrite andb_false_r.
Qed.

(** Writing the lengths of a stopped controller and starting it again. *)
Lemma program_spec (f : lpss_i2c_fixup) (enabled : bool) (s : S) :
  wp (write (spklen_fs f) (b + DW_IC_FS_SPKLEN) ;;;
      (if negb (spklen_hs f =? 0) then write (spklen_hs f) (b + DW_IC_HS_SPKLEN) else ret tt) ;;;
      if enabled then write 1 (b + DW_IC_ENABLE) else ret tt)
    (fun _ t => calls t = calls s /\ reads t = reads s /\
      programmed_regs f (fun v => if enabled then 1 else v) (hw s) (hw t)) s.
Proof.
  apply wp_bind, wp_write; [done|]. intros d5 H5.
  eapply wp_seq with (P := fun _ u => calls u = calls s /\ reads u = reads s /\
    programmed_regs f id (hw s) (hw u)).
  - apply wp_if; intros Ehs; [apply wp_write; [done|]; intros d6 H6|apply wp_ret];
      cbn [hw calls reads]; (split_and!; [done|done|]); intros r; unfold id;
      rewrite Ehs, ?H6; cbn [hw]; rewrite ?H5.
    + rewrite andb_true_r. destruct (Z.eqb_spec r DW_IC_FS_SPKLEN) as [->|]; [done|].
      destruct (r =? DW_IC_HS_SPKLEN); [done|]. by destruct (r =? DW_IC_ENABLE).
    + rewrite andb_false_r. destruct (r =? DW_IC_FS_SPKLEN); [done|]. by destruct (r =? DW_IC_ENABLE).
  - intros _ u (C & B & R). destruct enabled.
    + apply wp_write; [done|]. intros d7 H7. cbn [hw calls reads]. split_and!; [done|done|].
      intros r. rewrite H7, R. unfold id. destruct (Z.eqb_spec r DW_IC_ENABLE) as [->|]; done.
    + apply wp_ret. done.
Qed.

(** Exactly one of three things happens to a controller: its lengths are as
    wanted already and nothing is written; they are programmed, with nothing but
    them changed except that an enabled controller ends with its enable register
    at 1; or it does not stop in time, the failure is reported, the lengths stay
    and the controller is left disabled.  The status is read a hundred times at
    most. *)
Theorem apply_fixup_outcome (f : lpss_i2c_fixup) (s : S) :
  base f = b ->
  let enabled := negb (Z.land (reg (hw s) DW_IC_ENABLE) 1 =? 0) in
  let s' := post (apply_fixup f) s in
  reads s' <= reads s + 103 /\
  (programmed f (hw s) = true -> writes s' = writes s /\ calls s' = calls s) /\
  (programmed f (hw s) = false ->
    (calls s' = calls s /\ programmed f (hw s') = true /\
     programmed_regs f (fun v => if enabled then 1 else v) (hw s) (hw s')) \/
    (calls s' = Timeout (pdev f) :: calls s /\ enabled = true /\
     forall r, reg (hw s') r = if r =? DW_IC_ENABLE then 0 else reg (hw s) r)).
Proof.
  intros Hb enabled. start_post. unfold apply_fixup. rewrite Hb.
  apply wp_bind. pose proof (read_plain DW_IC_FS_SPKLEN (hw s) eq_refl) as R1.
  apply wp_read. intros d1 H1. rewrite R1. apply wp_bind.
  pose proof (read_plain DW_IC_HS_SPKLEN d1 eq_refl) as R2.
  apply wp_read. intros d2 H2. cbn [hw] in *. rewrite R2, H1. fold (programmed f (hw s)).
  assert (forall r, reg d2 r = reg (hw s) r) as E2 by (intros r; by rewrite H2, H1).
  destruct (programmed f (hw s)) eqn:Ep; [apply wp_ret; simpl; split_and!; [lia|done|done]|].
  apply wp_bind. pose proof (read_plain DW_IC_ENABLE d2 eq_refl) as R3.
  apply wp_read. intros d3 H3. cbn [hw] in *. rewrite R3, E2. fold enabled.
  assert (forall r, reg d3 r = reg (hw s) r) as E3 by (intros r; by rewrite H3, E2).
  eapply wp_seq; [by apply (stop_spec f)|]. cbn [hw calls reads]. intros ok t (C & B & Hok & R).
  apply wp_if; intros Eok.
  - apply wp_modify. cbn [hw writes calls reads]. split; [lia|]. split; [done|]. intros _. right.
    apply negb_true_iff in Eok. rewrite C. split; [done|]. split; [by apply Hok|].
    intros r. by rewrite R, Hok, andb_true_r, E3.
  - eapply wp_conseq; [|apply program_spec]. intros _ u (Cu & Bu & Ru).
    assert (programmed_regs f (fun v => if enabled then 1 else v) (hw s) (hw u)) as Hp.
    { intros r. rewrite Ru, R, E3. destruct enabled; [|by rewrite andb_false_r].
      rewrite andb_true_r. by destruct (r =? DW_IC_ENABLE). }
    split; [lia|]. split; [done|]. intros _. left. split; [congruence|].
    split; [by eapply programmed_regs_programmed|exact Hp].
Qed.
End Theorems.

(** ** References *)

(** Count of the references held on a device, and of the mappings of an address. *)
Fixpoint held (p : Z) (l : list Call) : Z :=
  match l with
  | [] => 0
  | Get q :: l => (if q =? p then 1 else 0) + held p l
  | Put q :: l => held p l - (if q =? p then 1 else 0)
  | _ :: l => held p l
  end.
Fixpoint mapped (a : Z) (l : list Call) : Z :=
  match l with
  | [] => 0
  | Ioremap q :: l => (if q =? a then 1 else 0) + mapped a l
  | Iounmap q :: l => mapped a l - (if q =? a then 1 else 0)
  | _ :: l => mapped a l
  end.

(** The references and mappings of a list of controllers. *)
Definition used_refs (l : list lpss_i2c_fixup) (p : Z) : Z :=
  foldr (fun f n => (if pdev f =? p then 1 else 0) + n) 0 l.
Definition used_maps (l : list lpss_i2c_fixup) (a : Z) : Z :=
  foldr (fun f n => (if base f =? a then 1 else 0) + n) 0 l.

Lemma used_refs_snoc l f p : used_refs (l ++ [f]) p = used_refs l p + (if pdev f =? p then 1 else 0).
Proof. induction l as [|g l IH]; simpl; lia. Qed.
Lemma used_maps_snoc l f a : used_maps (l ++ [f]) a = used_maps l a + (if base f =? a then 1 else 0).
Proof. induction l as [|g l IH]; simpl; lia. Qed.

Section Refs.
Context {D : Type} `{Mmio D}.
#[local] Abbreviation S := (St D).
Variable fs_spklen hs_spklen : Z.
Variable clkgate : bool.
Variable ioremap : Z -> Z -> Z.

(** What the table of controllers and the log say of one device and address. *)
Definition view (p a : Z) (s : S) :=
  (controllers s, nr_controllers s, held p (calls s), mapped a (calls s)).

Lemma read_view p a x : same (view p a) (read x).
Proof. intros s. unfold post, read. by destruct (readl x (hw s)). Qed.

Lemma wait_view p a t b : same (view p a) (wait_controller_disabled_from t b).
Proof.
  induction t as [|t IH]; cbn [wait_controller_disabled_from];
    (apply same_bind; [apply read_view|intros v]); apply same_if; try done. by destruct t.
Qed.

Lemma apply_fixup_view p a f : same (view p a) (apply_fixup f).
Proof.
  unfold apply_fixup. apply same_bind; [apply read_view|intros old_fs].
  apply same_bind; [apply read_view|intros old_hs]. apply same_if; [done|].
  apply same_bind; [apply read_view|intros v]. cbv zeta. apply same_bind; [|intros ok].
  { apply same_if; [|done]. apply same_bind; [done|intros ?; apply wait_view]. }
  apply same_if; [done|]. apply same_bind; [done|intros ?].
  apply same_bind; [by apply same_if|intros ?; by apply same_if].
Qed.

Lemma apply_all_view p a : same (view p a) (apply_all clkgate).
Proof.
  unfold apply_all. apply same_bind; [done|intros l]. apply same_mfor. intros f.
  apply same_bind; [apply apply_fixup_view|intros ?]. apply same_if; [|done].
  unfold apply_clkgate. apply same_if; [done|]. apply same_bind; [apply read_view|intros v].
  by apply same_if.
Qed.

Lemma pick_fs_view p a b : same (view p a) (pick_fs_spklen fs_spklen b).
Proof. apply same_if; [done|]. apply same_bind; [apply read_view|done]. Qed.
Lemma pick_hs_view p a b : same (view p a) (pick_hs_spklen hs_spklen b).
Proof. apply same_if; [done|]. apply same_bind; [apply read_view|done]. Qed.

(** The first [k] controllers own the references and mappings there are, besides
    those of [extra]. *)
Definition owned (extra : Z -> Z) (k : Z) (s : S) : Prop :=
  0 <= k <= 8 /\ length (controllers s) = 8%nat /\
  Forall (fun f => pdev f <> 0 /\ base f <> 0) (take (Z.to_nat k) (controllers s)) /\
  (forall p, held p (calls s) = used_refs (take (Z.to_nat k) (controllers s)) p + extra p) /\
  forall a, mapped a (calls s) = used_maps (take (Z.to_nat k) (controllers s)) a.

Lemma owned_view extra k (s t : S) : (forall p a, view p a t = view p a s) ->
  owned extra k s -> owned extra k t.
Proof.
  intros E (Hk & Hl & Hf & Hr & Hm). unfold view in E.
  assert (controllers t = controllers s) as Ec by (specialize (E 0 0); congruence).
  unfold owned. rewrite Ec. split_and!; [lia..|done|done| |].
  - intros p. specialize (E p 0). rewrite <- Hr. congruence.
  - intros a. specialize (E 0 a). rewrite <- Hm. congruence.
Qed.

Definition one (p q : Z) : Z := if p =? q then 1 else 0.

(** Filling slot [n]. *)
Lemma take_insert_snoc {A} (l : list A) n f : (n < length l)%nat ->
  take (Datatypes.S n) (<[n := f]> l) = take n l ++ [f].
Proof.
  intros Hn. rewrite (take_S_r _ _ f) by (by apply list_lookup_insert_eq).
  by rewrite take_insert_ge.
Qed.

Lemma probe_device_owned p n (s : S) : pci_id p <> 0 -> 0 <= n < 8 -> owned (one (pci_id p)) n s ->
  wp (probe_device fs_spklen hs_spklen ioremap p n)
     (fun used t => owned (one (pci_id p)) (if used then n + 1 else n) t) s.
Proof.
  intros Hp Hn Ho. unfold probe_device. apply wp_if; intros _; [by apply wp_ret|].
  apply wp_bind, wp_gets. cbv zeta. set (b := ioremap _ _). destruct (Z.eqb_spec b 0) as [|Hb].
  - apply wp_bind, wp_modify, wp_ret. destruct Ho as (Hk & Hl & Hf & Hr & Hm). unfold owned.
    cbn [controllers calls]. rewrite length_insert, take_insert_ge by lia. done.
  - apply wp_bind, wp_modify. set (s1 := Mk _ _ _ _ _ _).
    apply wp_bind. unfold wp at 1. cbv beta. apply wp_bind. unfold wp at 1. cbv beta.
    set (s3 := post (pick_hs_spklen _ _) _).
    assert (forall p a, view p a s3 = view p a s1) as E3.
    { intros q a. unfold s3. rewrite (pick_hs_view q a). apply pick_fs_view. }
    clearbody s3. apply wp_bind, wp_modify, wp_bind, wp_modify, wp_ret.
    destruct Ho as (Hk & Hl & Hf & Hr & Hm). unfold view in E3.
    unfold s1 in E3. cbn [controllers nr_controllers calls held mapped] in E3.
    assert (controllers s3 = controllers s) as Ec by (specialize (E3 0 0); congruence).
    unfold owned. cbn [controllers calls held mapped]. rewrite length_insert, Ec.
    replace (Z.to_nat (n + 1)) with (Datatypes.S (Z.to_nat n)) by lia.
    rewrite take_insert_snoc by lia. split_and!; [lia..|done| | |].
    + apply Forall_app. split; [done|]. by apply Forall_singleton.
    + intros q. rewrite used_refs_snoc. cbn [pdev].
      assert (held q (calls s3) = held q (calls s)) as -> by (specialize (E3 q 0); congruence).
      rewrite Hr. lia.
    + intros a. rewrite used_maps_snoc. cbn [base].
      assert (mapped a (calls s3) = (if b =? a then 1 else 0) + mapped a (calls s)) as ->
        by (specialize (E3 0 a); congruence).
      rewrite Hm. lia.
Qed.

Lemma owned_get p k (s : S) : owned (fun _ => 0) k s -> owned (one p) k (post (kcall (Get p)) s).
Proof.
  intros (Hk & Hl & Hf & Hr & Hm). unfold owned, post, kcall, modify. cbn [snd controllers calls held mapped].
  split_and!; [lia..|done|done| |done]. intros q. rewrite Hr. unfold one. lia.
Qed.

Lemma owned_put p k (s : S) : owned (one p) k s -> owned (fun _ => 0) k (post (kcall (Put p)) s).
Proof.
  intros (Hk & Hl & Hf & Hr & Hm). unfold owned, post, kcall, modify. cbn [snd controllers calls held mapped].
  split_and!; [lia..|done|done| |done]. intros q. rewrite Hr. unfold one. lia.
Qed.

(** How many devices the module would use. *)
Definition matching (devs : list PciDev) : Z :=
  Z.of_nat (length (List.filter (fun p => is_adl_n_i2c (device p)) devs)).

Lemma probe_all_owned devs n (s : S) : Forall (fun p => pci_id p <> 0) devs ->
  n + matching devs <= 8 -> owned (fun _ => 0) n s ->
  wp (probe_all fs_spklen hs_spklen ioremap devs n) (fun k t => owned (fun _ => 0) k t) s.
Proof.
  revert n s. induction devs as [|p devs IH]; intros n s Hd Hn Ho; cbn [probe_all]; [by apply wp_ret|].
  inversion_clear Hd as [|? ? Hp Hd']. unfold matching in Hn. cbn [List.filter] in Hn.
  apply wp_bind. unfold wp at 1. cbv beta. apply (owned_get (pci_id p)) in Ho.
  destruct (is_adl_n_i2c (device p)) eqn:Ea; simpl negb; cbv iota.
  - simpl length in Hn. assert (0 <= n) as Hn0 by apply Ho.
    destruct (Z.leb_spec MAX_CONTROLLERS n) as [Hm|Hm]; unfold MAX_CONTROLLERS in Hm; [lia|].
    eapply wp_seq; [by apply probe_device_owned|]. intros used t Ht.
    apply wp_bind. unfold wp at 1. cbv beta. apply IH; [done| |by apply owned_put].
    fold (matching devs) in *. unfold matching in *. destruct used; lia.
  - apply wp_bind. unfold wp at 1. cbv beta. apply IH; [done|exact Hn|by apply owned_put].
Qed.

(** Releasing a list of controllers gives back what it holds. *)
Lemma release_refs l (s : S) p a : Forall (fun f => pdev f <> 0 /\ base f <> 0) l ->
  let t := post (mfor l (fun f =>
    (if base f =? 0 then ret tt else kcall (Iounmap (base f))) ;;;
    (if pdev f =? 0 then ret tt else kcall (Put (pdev f))))) s in
  held p (calls t) = held p (calls s) - used_refs l p /\
  mapped a (calls t) = mapped a (calls s) - used_maps l a.
Proof.
  intros Hl. revert s. induction Hl as [|f l [Hp Hb] Hl IH]; intros s.
  { change (held p (calls s) = held p (calls s) - 0 /\ mapped a (calls s) = mapped a (calls s) - 0). lia. }
  cbn [mfor]. rewrite post_bind. cbv zeta beta. set (s1 := post _ s).
  destruct (IH s1) as [-> ->]. unfold s1. rewrite (proj2 (Z.eqb_neq _ _) Hp), (proj2 (Z.eqb_neq _ _) Hb).
  change (used_refs (f :: l) p) with ((if pdev f =? p then 1 else 0) + used_refs l p).
  change (used_maps (f :: l) a) with ((if base f =? a then 1 else 0) + used_maps l a).
  unfold post, bind, kcall, modify. cbn [snd calls held mapped]. lia.
Qed.

(** C25: Loading and unloading is balanced: when at most eight controllers match,
    every PCI reference taken and every mapping made is given back by the unload
    after a load that succeeded, and by the load itself when it fails. *)
Theorem init_exit_balanced (d : D) (devs : list PciDev) :
  Forall (fun p => pci_id p <> 0) devs -> matching devs <= 8 ->
  let m := i2c_designware_spklen_init fs_spklen hs_spklen clkgate ioremap devs in
  let s := post m (start d) in
  let s' := if res m (start d) =? 0 then post i2c_designware_spklen_exit s else s in
  forall p, held p (calls s') = 0 /\ mapped p (calls s') = 0.
Proof.
  intros Hd Hn m s s' p.
  assert (owned (fun _ => 0) 0 (start d)) as H0.
  { unfold owned, start. simpl. split_and!; [lia..|done|constructor|done|done]. }
  pose proof (probe_all_owned devs 0 (start d) Hd ltac:(lia) H0) as Ho. unfold wp in Ho.
  subst s'. subst s. unfold m, i2c_designware_spklen_init. rewrite post_bind. cbv beta.
  assert (forall {A B} (m : M S A) (k : A -> M S B) s, res (bind m k) s = res (k (res m s)) (post m s))
    as res_bind by (intros A B m' k s'; unfold res, post, bind; by destruct (m' s')).
  rewrite res_bind. set (n := res (probe_all _ _ _ _ _) _) in *. set (s1 := post (probe_all _ _ _ _ _) _) in *.
  clearbody n s1. rewrite res_bind, post_bind. cbv beta.
  set (s2 := post (modify _) s1).
  assert (owned (fun _ => 0) n s2 /\ nr_controllers s2 = n) as [Ho2 Hn2] by done. clearbody s2.
  destruct (Z.eqb_spec n 0) as [->|Hn0].
  - change (res (ret (- ENODEV)) s2 =? 0) with false. cbv iota. change (post (ret (- ENODEV)) s2) with s2.
    destruct Ho2 as (_ & _ & _ & Hr & Hm). split; [by rewrite Hr|by rewrite Hm].
  - rewrite res_bind, post_bind. cbv beta. rewrite res_bind, post_bind. cbv beta.
    change (res (ret 0) ?x) with 0. change (post (ret 0) ?x) with x. change (0 =? 0) with true. cbv iota.
    set (s3 := post (apply_all clkgate) s2).
    assert (owned (fun _ => 0) n s3 /\ nr_controllers s3 = n) as [(Hk & _ & Hf & Hr & Hm) Hn3].
    { split; [eapply owned_view, Ho2; intros; apply apply_all_view|].
      pose proof (apply_all_view 0 0 s2) as E. unfold view in E. fold s3 in E. congruence. }
    clearbody s3. unfold i2c_designware_spklen_exit. rewrite !post_bind. cbv beta.
    set (s4 := post (kcall UnregisterPm) _). change (res (gets active) s4) with (active s4).
    change (post (gets active) s4) with s4. unfold active.
    change (nr_controllers s4) with (nr_controllers s3). change (controllers s4) with (controllers s3).
    rewrite Hn3. destruct (release_refs (take (Z.to_nat n) (controllers s3)) s4 p p Hf) as [-> ->].
    change (held p (calls s4)) with (held p (calls s3)).
    change (mapped p (calls s4)) with (mapped p (calls s3)). rewrite Hr, Hm. lia.
Qed.
End Refs.

(** ** Witnesses *)

Module Sim.
Definition Hw := Z -> Z.

(** A controller at 4096 whose status follows its enable register, or never
    reports that it stopped. *)
#[global] Instance mmio (stuck : bool) : Mmio Hw := {
  readl a d := (if a =? 4096 + DW_IC_ENABLE_STATUS
                then (if stuck then 1 else d (4096 + DW_IC_ENABLE)) else d a, d);
  writel a v d := fun x => if x =? a then v else d x
}.

#[global] Instance laws stuck : @MmioLaws Hw (mmio stuck) 4096.
Proof.
  apply (Build_MmioLaws Hw (mmio stuck) 4096 (fun d r => d (4096 + r))).
  - intros r d Hr. simpl. destruct (Z.eqb_spec (4096 + r) (4096 + DW_IC_ENABLE_STATUS)); [|done].
    assert (r = DW_IC_ENABLE_STATUS) as -> by lia. done.
  - done.
  - intros r v d q _. simpl. destruct (Z.eqb_spec (4096 + q) (4096 + r)), (Z.eqb_spec q r); try lia; done.
Defined.

Definition regs : Hw := fun a =>
  if a =? 4096 + DW_IC_ENABLE then 1 else if a =? 4096 + DW_IC_FS_SPKLEN then 1 else 0.
Definition fixup : lpss_i2c_fixup := Fix 4096 0 9 6 0.
Definition devs : list PciDev :=
  [Pci 7 0x1234 100 100; Pci 8 0x54e8 100 0x300; Pci 9 0x54d9 0 0; Pci 10 0x54c5 5 0x100].
Definition map (a _ : Z) : Z := if a =? 5 then 0 else 4096.
End Sim.

Lemma apply_fixup_outcome_witness :
  let s' := post (@apply_fixup _ (Sim.mmio true) Sim.fixup) (start Sim.regs) in
  calls s' = [Timeout 9] /\ hw s' (4096 + DW_IC_ENABLE) = 0 /\ reads s' <= 103.
Proof.
  destruct (@apply_fixup_outcome _ (Sim.mmio true) 4096 (Sim.laws true) Sim.fixup (start Sim.regs) eq_refl)
    as (Hb & _ & H). destruct (H eq_refl) as [(Hc & _)|(Hc & _ & Hr)].
  - vm_compute in Hc. discriminate.
  - split; [exact Hc|]. split; [exact (Hr DW_IC_ENABLE)|exact Hb].
Defined.

(** Four devices: another one, one that is used, one without a resource and one
    that cannot be mapped. *)
Lemma init_exit_balanced_witness :
  let m := @i2c_designware_spklen_init _ (Sim.mmio false) 0 0 true Sim.map Sim.devs in
  let s := post m (start Sim.regs) in
  res m (start Sim.regs) = 0 /\ held 8 (calls s) = 1 /\
  held 8 (calls (post i2c_designware_spklen_exit s)) = 0.
Proof.
  intros m s. split; [vm_compute; reflexivity|]. split; [vm_compute; reflexivity|].
  pose proof (@init_exit_balanced _ (Sim.mmio false) 0 0 true Sim.map Sim.regs Sim.devs
    ltac:(repeat constructor; done) ltac:(vm_compute; done) 8) as [E _].
  fold m in E. assert ((res m (start Sim.regs) =? 0) = true) as R by (vm_compute; reflexivity).
  rewrite R in E. exact E.
Defined.
