(* ===== verification/ThdCommon.v ===== *)
(** * Shared definitions of the thermal daemon

    Return codes, the string helpers of thd_util.cpp and of the C++ library that
    the other files use, trip point types and adaptive targets. *)

From Stdlib Require Import ZArith Lia Ascii String.
From stdpp Require Import base list option strings.
From S2P Require Import Prelude.

#[local] Open Scope Z_scope.

Definition THD_SUCCESS := 0.
Definition THD_ERROR := -1.
Definition THD_FATAL_ERROR := -2.

(** ** Strings *)

(** [strncmp (a, b, n) == 0]. *)
Fixpoint strncmp_eq (n : nat) (a b : string) : bool :=
  match n with
  | O => true
  | S n =>
      match a, b with
      | EmptyString, EmptyString => true
      | String x a, String y b => Ascii.eqb x y && strncmp_eq n a b
      | _, _ => false
      end
  end.

Definition tolower (c : ascii) : ascii :=
  let n := N_of_ascii c in if (65 <=? n)%N && (n <=? 90)%N then ascii_of_N (n + 32) else c.
Definition toupper (c : ascii) : ascii :=
  let n := N_of_ascii c in if (97 <=? n)%N && (n <=? 122)%N then ascii_of_N (n - 32) else c.
Fixpoint map_string (f : ascii -> ascii) (s : string) : string :=
  match s with EmptyString => EmptyString | String c s => String (f c) (map_string f s) end.

(** [strncasecmp (a, b, n) == 0]. *)
Definition strncasecmp_eq (n : nat) (a b : string) : bool :=
  strncmp_eq n (map_string tolower a) (map_string tolower b).

(** thd_util.cpp *)
Definition THD_MAX_STR_CMP_LEN : nat := 4096.
Definition thd_cmp_len (param1 param2 : string) : nat :=
  let param1_len := Nat.min (String.length param1) THD_MAX_STR_CMP_LEN in
  let param2_len := Nat.min (String.length param2) THD_MAX_STR_CMP_LEN in
  if Nat.ltb param2_len param1_len then param1_len else param2_len.
(** [thd_strcmp_n (a, b) == 0], a null pointer being the empty string. *)
Definition thd_strcmp_n (a b : option string) : bool :=
  let a := default EmptyString a in let b := default EmptyString b in strncmp_eq (thd_cmp_len a b) a b.
Definition thd_strcasecmp_n (a b : option string) : bool :=
  let a := default EmptyString a in let b := default EmptyString b in strncasecmp_eq (thd_cmp_len a b) a b.

(** [!s.compare (0, n, lit)] for a [lit] of length [n]. *)
Definition has_prefix (lit s : string) : bool := String.prefix lit s.

(** The part after the last dot. *)
Fixpoint after_last_dot (s : string) : option string :=
  match s with
  | EmptyString => None
  | String c s' =>
      match after_last_dot s' with
      | Some r => Some r
      | None => if Ascii.eqb c "." then Some s' else None
      end
  end.
Definition last_component (s : string) : string := default s (after_last_dot s).

(** [while (s.back () == '_') s.pop_back ();] on an empty string [back] is undefined. *)
Fixpoint strip_underscores (s : string) : option string :=
  match s with
  | EmptyString => None
  | String c s' =>
      match strip_underscores s' with
      | Some r => Some (String c r)
      | None => if Ascii.eqb c "_" then None else Some (String c EmptyString)
      end
  end.

(** [s.find (lit) != npos]. *)
Definition contains (lit s : string) : bool :=
  match String.index 0 lit s with Some _ => true | None => false end.

(** [s.substr (n)]. *)
Definition drop_string (n : nat) (s : string) : string := String.substring n (String.length s - n) s.

Definition is_digit (c : ascii) : bool := let n := N_of_ascii c in (48 <=? n)%N && (n <=? 57)%N.
Definition is_blank (c : ascii) : bool := let n := N_of_ascii c in (n =? 32)%N || ((9 <=? n)%N && (n <=? 13)%N).
Definition digit (c : ascii) : Z := Z.of_N (N_of_ascii c) - 48.

(** The number at the start of [s], if there is a digit. *)
Fixpoint number_from (seen : bool) (acc : Z) (s : string) : option Z :=
  match s with
  | String c s' => if is_digit c then number_from true (10 * acc + digit c) s'
                   else if seen then Some acc else None
  | EmptyString => if seen then Some acc else None
  end.
Fixpoint signed_number (s : string) : option Z :=
  match s with
  | EmptyString => None
  | String c s' =>
      if is_blank c then signed_number s'
      else if Ascii.eqb c "-" then z ← number_from false 0 s'; Some (- z)
      else if Ascii.eqb c "+" then number_from false 0 s'
      else number_from false 0 s
  end.

(** [std::stoi]; [None]: it throws. *)
Definition stoi (s : string) : option Z :=
  z ← signed_number s; if (- 2 ^ 31 <=? z) && (z <? 2 ^ 31) then Some z else None.

(** [std::istringstream (s) >> n] into an [int]: 0 when there is no number, the
    nearest [int] when it does not fit. *)
Definition stream_int (s : string) : Z :=
  match signed_number s with
  | Some z => Z.max (- 2 ^ 31) (Z.min (2 ^ 31 - 1) z)
  | None => 0
  end.

(** The digits at the start of a text: their value, their number and the rest. *)
Fixpoint digits_of (acc : Z) (n : nat) (s : string) : Z * nat * string :=
  match s with
  | String c s' => if is_digit c then digits_of (10 * acc + digit c) (S n) s' else (acc, n, s)
  | EmptyString => (acc, n, s)
  end.
Fixpoint skip_blanks (s : string) : string :=
  match s with String c s' => if is_blank c then skip_blanks s' else s | EmptyString => s end.
Definition sign_of (s : string) : bool * string :=
  match s with
  | String "-" s => (true, s)
  | String "+" s => (false, s)
  | _ => (false, s)
  end.

(** What [strtod] reads at the start of a text, hexadecimal numbers apart:
    [Decimal neg m e] is the number m * 10^e. *)
Inductive Number := NoNumber | Infinite (neg : bool) | NotANumber | Decimal (neg : bool) (m e : Z).

(** The exponent, if there is one: a letter, a sign and at least one digit. *)
Definition exponent_of (s : string) : Z :=
  match s with
  | String c s =>
      if Ascii.eqb (tolower c) "e" then
        let '(neg, s) := sign_of s in
        let '(v, _, _) := digits_of 0 0 s in if neg then - v else v
      else 0
  | EmptyString => 0
  end.
Definition strtod (s : string) : Number :=
  let '(neg, s) := sign_of (skip_blanks s) in
  if strncasecmp_eq 3 s "inf" then Infinite neg
  else if strncasecmp_eq 3 s "nan" then NotANumber
  else
    let '(whole, n, s) := digits_of 0 0 s in
    let '(m, k, s) := match s with String "." s => digits_of whole 0 s | _ => (whole, O, s) end in
    if Nat.eqb (n + k) 0 then NoNumber else Decimal neg m (exponent_of s - Z.of_nat k).

(** ** Data *)

Inductive trip_point_type_t := CRITICAL | HOT | MAX | PASSIVE | ACTIVE | POLLING | INVALID_TRIP_TYPE.
#[export] Instance trip_point_type_t_dec : EqDecision trip_point_type_t.
Proof. solve_decision. Defined.

Definition TRIP_PT_INVALID_TARGET_STATE := 2147483647.

Record adaptive_target := Target {
  target_id : Z; target_name : string; participant : string; target_domain : Z;
  code : string; target_argument : string
}.

Definition DECI_KELVIN_TO_CELSIUS (t : Z) : Z :=
  if 0 <=? t - 2732 then Z.quot (t - 2732 + 5) 10 else Z.quot (t - 2732 - 5) 10.

(** ** Lemmas *)

Lemma strncmp_eq_refl n s : strncmp_eq n s s = true.
Proof.
  revert s. induction n as [|n IH]; intros [|c s]; simpl; try done. by rewrite Ascii.eqb_refl, IH.
Qed.

Lemma strncmp_eq_spec n a b : (String.length a <= n)%nat -> (String.length b <= n)%nat ->
  strncmp_eq n a b = true <-> a = b.
Proof.
  intros Ha Hb. split; [|intros ->; apply strncmp_eq_refl].
  revert a b Ha Hb. induction n as [|n IH]; intros [|x a] [|y b]; simpl; intros Ha Hb; try done; try lia.
  intros [Hx%Ascii.eqb_eq Hs]%andb_true_iff. subst y. f_equal. apply IH; [lia..|done].
Qed.

(** On strings that are short enough the comparison is equality. *)
Lemma thd_strcmp_n_spec a b : (String.length a <= THD_MAX_STR_CMP_LEN)%nat ->
  (String.length b <= THD_MAX_STR_CMP_LEN)%nat ->
  thd_strcmp_n (Some a) (Some b) = true <-> a = b.
Proof.
  intros Ha Hb. unfold thd_strcmp_n, thd_cmp_len, default, from_option, id.
  rewrite !Nat.min_l by done.
  destruct (Nat.ltb_spec (String.length b) (String.length a)); apply strncmp_eq_spec; lia.
Qed.
