(* ===== verification/Objects.v ===== *)
(** * Objects of the data vault (thermal_daemon/src/thd_gddv.cpp)

    The tables of the thermal daemon are sequences of tagged integers and
    strings.  A parser moves an offset over the bytes of one table; it can throw,
    read outside the table, or loop.  The class [Object] states that what an
    encoder puts is what the parser gets back. *)

From Stdlib Require Import ZArith Lia Ascii String ListDec.
From stdpp Require Import base list option strings.
From S2P Require Import Prelude Bytes.

#[local] Open Scope Z_scope.

(** What a parser does: a result, an exception, an access outside the table, or
    a loop that does not end. *)
Inductive Out (A : Type) := Got (a : A) | Thrown | Overrun | Endless.
Arguments Got {A} a.
Arguments Thrown {A}.
Arguments Overrun {A}.
Arguments Endless {A}.

(** A parser of a table, from an offset (a C [int]) to the next. *)
Definition R (A : Type) : Type := Z -> Out (A * Z).

#[export] Instance R_ret : MRet R := fun A a o => Got (a, o).
#[export] Instance R_bind : MBind R := fun A B k m o =>
  match m o with Got (a, o') => k a o' | Thrown => Thrown | Overrun => Overrun | Endless => Endless end.

Definition throw {A} : R A := fun _ => Thrown.
Definition offset : R Z := fun o => Got (o, o).
Definition advance (n : Z) : R unit := fun o => Got (tt, sint 32 (o + n)).
Definition or_overrun {A} (v : option A) : R A := fun o =>
  match v with Some a => Got (a, o) | None => Overrun end.

(** A C string: the bytes up to the first zero. *)
Fixpoint cstr_from (l : list Z) : option string :=
  match l with
  | [] => None
  | b :: l => if b =? 0 then Some EmptyString
              else s ← cstr_from l; Some (String (ascii_of_N (Z.to_N b)) s)
  end.
Definition cstr (buf : Mem) (p : Z) : option string :=
  if p <? 0 then None else cstr_from (drop (Z.to_nat p) buf).

Section Table.
Variable buf : Mem.

Definition access {A} (f : Mem -> Z -> option A) : R A := o ← offset; or_overrun (f buf o).

Definition get_type : R Z := type_ ← access rd32; mret (sint 32 type_).

Definition get_uint64 : R Z :=
  type_ ← get_type;
  if type_ =? 4 then
    _ ← advance 4; value ← access rd64; _ ← advance 8; mret value
  else throw.

(** The pointer to the characters. *)
Definition get_string : R Z :=
  type_ ← get_type;
  if type_ =? 8 then
    _ ← advance 4; length_ ← access rd64; _ ← advance 8;
    value ← offset; _ ← advance length_; mret value
  else throw.

(** ... and the [std::string] made of it. *)
Definition read_string : R string := p ← get_string; or_overrun (cstr buf p).

(** An integer stored in an [int]. *)
Definition read_int : R Z := v ← get_uint64; mret (sint 32 v).

(** [while (offset < len)], the results of the turns in order. *)
Fixpoint while {A} (fuel : nat) (len : Z) (body : R A) : R (list A) := fun o =>
  if o <? len then
    match fuel with
    | O => Endless
    | S fuel => (x ← body; l ← while fuel len body; mret (x :: l)) o
    end
  else Got ([], o).

(** A loop over the table; the fuel decides whether it ends ([loop_exact]). *)
Definition loop {A} (len : Z) (body : R A) : R (list A) := while (S (length buf)) len body.
End Table.

(** ** Loops *)

Section Loops.
Context {A : Type} (len : Z) (body : R A).

(** The offset before turn [k]. *)
Fixpoint turn (k : nat) (o : Z) : option Z :=
  match k with
  | O => Some o
  | S k => match body o with Got (_, o') => turn k o' | _ => None end
  end.

Lemma turn_add i k o : turn (i + k) o = h ← turn i o; turn k h.
Proof.
  revert o. induction i as [|i IH]; intros o; simpl; [done|]. by destruct (body o) as [[? ?]| | |].
Qed.

Lemma while_turns n o : (forall o, body o <> Endless) ->
  while n len body o = Endless <-> forall k, (k <= n)%nat -> exists h, turn k o = Some h /\ h < len.
Proof.
  intros Hb. revert o. induction n as [|n IH]; intros o; simpl.
  - destruct (Z.ltb_spec o len).
    + split; [|done]. intros _ k Hk. assert (k = O) as -> by lia. by exists o.
    + split; [done|]. intros H'. destruct (H' O) as (h & [= <-] & ?); lia.
  - destruct (Z.ltb_spec o len) as [Ho|Ho].
    + unfold mbind, R_bind at 1. specialize (Hb o). destruct (body o) as [[a o']| | |] eqn:E; try done.
      * transitivity (while n len body o' = Endless).
        { unfold mbind, R_bind. by destruct (while n len body o') as [[? ?]| | |]. }
        rewrite IH. split; intros H' k Hk.
        -- destruct k as [|k]; simpl; [by exists o|]. rewrite E. apply H'. lia.
        -- destruct (H' (S k)) as (h & Eh & ?); [lia|]. simpl in Eh. rewrite E in Eh. by exists h.
      * split; [done|]. intros H'. destruct (H' 1%nat) as (h & Eh & _); [lia|]. simpl in Eh. by rewrite E in Eh.
      * split; [done|]. intros H'. destruct (H' 1%nat) as (h & Eh & _); [lia|]. simpl in Eh. by rewrite E in Eh.
    + split; [done|]. intros H'. destruct (H' O) as (h & [= <-] & ?); lia.
Qed.

(** The same offset twice: the loop goes round for ever. *)
Lemma turn_cycle o i d : (0 < d)%nat -> turn i o = turn (i + d) o ->
  (forall k, (k <= i + d)%nat -> exists h, turn k o = Some h /\ h < len) ->
  forall k, exists h, turn k o = Some h /\ h < len.
Proof.
  intros Hd E H k. induction k as [k IH] using lt_wf_ind.
  destruct (le_lt_dec k (i + d)) as [Hk|Hk]; [by apply H|].
  destruct (IH (k - d)%nat) as (h & Eh & Hh); [lia|]. exists h. split; [|done].
  replace k with (i + d + (k - (i + d)))%nat by lia. rewrite turn_add, <- E, <- turn_add.
  rewrite <- Eh. f_equal. lia.
Qed.

Lemma repeated (l : list Z) (n : nat) : (n < length l)%nat -> (forall z, z ∈ l -> 0 <= z < Z.of_nat n) ->
  exists i d x, (0 < d)%nat /\ (i + d < length l)%nat /\ l !! i = Some x /\ l !! (i + d)%nat = Some x.
Proof.
  intros Hn Hl.
  assert (~ List.NoDup l) as Hd.
  { intros Hd. apply NoDup_ListNoDup in Hd.
    assert (length l <= length (seqZ 0 (Z.of_nat n)))%nat as Hle.
    { apply submseteq_length, NoDup_submseteq; [done|]. intros z Hz. apply elem_of_seqZ.
      specialize (Hl z Hz). lia. }
    rewrite length_seqZ in Hle. lia. }
  apply not_NoDup in Hd; [|intros x y; destruct (Z.eq_dec x y); [by left|by right]].
  destruct Hd as (a & l1 & l2 & l3 & ->). exists (length l1), (S (length l2)), a.
  rewrite !length_app. cbn [length]. rewrite length_app. cbn [length]. repeat split; try lia.
  - by apply list_lookup_middle.
  - replace (l1 ++ a :: l2 ++ a :: l3) with ((l1 ++ a :: l2) ++ a :: l3) by (by rewrite <- app_assoc).
    apply list_lookup_middle. rewrite length_app. cbn [length]. lia.
Qed.
End Loops.

(** A loop over a table of [n] bytes that has not ended after [n + 1] turns has
    come back to an offset, and never ends. *)
Lemma loop_exact {A} (buf : Mem) (len : Z) (body : R A) (o : Z) :
  (forall o, body o <> Endless) ->
  (forall o r, body o = Got r -> 0 <= o) ->
  len <= Z.of_nat (length buf) ->
  loop buf len body o = Endless -> forall n, while n len body o = Endless.
Proof.
  intros He Hp Hlen Ho n. set (N := length buf) in *.
  pose proof (proj1 (while_turns len body (S N) o He) Ho) as Hh. clear Ho.
  apply while_turns; [done|]. intros k _. revert k.
  set (l := map (fun k => default 0 (turn body k o)) (seq 0 (S N))).
  assert (forall k, (k <= N)%nat -> exists h, turn body k o = Some h /\ 0 <= h < Z.of_nat N) as Hb.
  { intros k Hk. destruct (Hh k) as (h & Eh & ?); [lia|]. exists h. split; [done|]. split; [|lia].
    destruct (Hh (k + 1)%nat) as (h' & Eh' & _); [lia|]. rewrite turn_add, Eh in Eh'. simpl in Eh'.
    destruct (body h) as [[a b]| | |] eqn:E; try done. by apply (Hp h (a, b)). }
  destruct (repeated l N) as (i & d & x & Hd & Hi & E1 & E2).
  - unfold l. rewrite length_map, length_seq. lia.
  - intros z (k & -> & Hk)%list_elem_of_fmap. apply elem_of_seq in Hk.
    destruct (Hb k) as (h & -> & ?); [lia|done].
  - unfold l in Hi. rewrite length_map, length_seq in Hi.
    assert (forall k, (k <= N)%nat -> l !! k = turn body k o) as Hl.
    { intros k Hk. unfold l. change (map ?f ?s) with (f <$> s). rewrite list_lookup_fmap.
      rewrite lookup_seq_lt by lia. simpl. destruct (Hb k Hk) as (h & Eh & _). by rewrite Eh. }
    apply (turn_cycle len body o i d); [done| |].
    + rewrite <- (Hl i), <- (Hl (i + d)%nat), E1, E2 by lia. done.
    + intros k Hk. destruct (Hb k) as (h & Eh & ?); [lia|]. exists h. split; [done|].
      destruct (Hh k) as (h' & Eh' & ?); [lia|]. congruence.
Qed.

(** What every body of a loop satisfies. *)
Definition ends {A} (m : R A) : Prop := forall o, m o <> Endless.
Definition inside {A} (m : R A) : Prop := forall o r, m o = Got r -> 0 <= o.

Lemma ends_ret {A} (a : A) : ends (mret a).
Proof. done. Qed.
Lemma ends_throw {A} : ends (throw (A := A)).
Proof. done. Qed.
Lemma ends_offset : ends offset.
Proof. done. Qed.
Lemma ends_advance n : ends (advance n).
Proof. done. Qed.
Lemma ends_or_overrun {A} (v : option A) : ends (or_overrun v).
Proof. by destruct v. Qed.
Lemma ends_bind {A B} (m : R A) (k : A -> R B) : ends m -> (forall a, ends (k a)) -> ends (x ← m; k x).
Proof. intros Hm Hk o. unfold mbind, R_bind. specialize (Hm o). destruct (m o) as [[a o']| | |]; try done. apply Hk. Qed.
Lemma ends_if {A} (b : bool) (m1 m2 : R A) : ends m1 -> ends m2 -> ends (if b then m1 else m2).
Proof. by destruct b. Qed.
Lemma inside_bind {A B} (m : R A) (k : A -> R B) : inside m -> inside (x ← m; k x).
Proof. intros Hm o r. unfold mbind, R_bind. destruct (m o) as [p| | |] eqn:E; try done. intros _. by apply (Hm o p). Qed.

Create HintDb table.
#[export] Hint Resolve ends_ret ends_throw ends_offset ends_advance ends_or_overrun ends_bind ends_if
  inside_bind : table.

Lemma ends_get_uint64 buf : ends (get_uint64 buf).
Proof. unfold get_uint64, get_type, access. eauto 20 with table. Qed.
Lemma ends_get_string buf : ends (get_string buf).
Proof. unfold get_string, get_type, access. eauto 20 with table. Qed.
Lemma ends_read_string buf : ends (read_string buf).
Proof. unfold read_string. pose proof ends_get_string. eauto with table. Qed.
Lemma ends_read_int buf : ends (read_int buf).
Proof. unfold read_int. pose proof ends_get_uint64. eauto with table. Qed.

Lemma rd32_inside m p v : rd32 m p = Some v -> 0 <= p.
Proof.
  unfold rd32, rd16. destruct (rd8 m p) as [a|] eqn:E; [|done]. intros _.
  apply rd8_bound in E. lia.
Qed.
Lemma inside_get_type buf : inside (get_type buf).
Proof.
  intros o r. unfold get_type, access, mbind, R_bind, or_overrun, offset.
  destruct (rd32 buf o) eqn:E; [|done]. intros _. by eapply rd32_inside.
Qed.
#[export] Hint Resolve ends_get_uint64 ends_get_string ends_read_string ends_read_int inside_get_type : table.
Lemma inside_get_uint64 buf : inside (get_uint64 buf).
Proof. unfold get_uint64. auto with table. Qed.
Lemma inside_get_string buf : inside (get_string buf).
Proof. unfold get_string. auto with table. Qed.
Lemma inside_read_string buf : inside (read_string buf).
Proof. apply inside_bind, inside_get_string. Qed.
Lemma inside_read_int buf : inside (read_int buf).
Proof. apply inside_bind, inside_get_uint64. Qed.
#[export] Hint Resolve inside_get_uint64 inside_get_string inside_read_string inside_read_int : table.

(** ** Encodings *)

(** [e] is read as [a] wherever it stands in a table. *)
Definition decodes {A} (m : Mem -> R A) (e : list Z) (a : A) : Prop :=
  forall pre post, Z.of_nat (length (pre ++ e ++ post)) < 2 ^ 31 ->
    m (pre ++ e ++ post) (Z.of_nat (length pre)) = Got (a, Z.of_nat (length (pre ++ e))).

Lemma decodes_ret {A} (a : A) : decodes (fun _ => mret a) [] a.
Proof. intros pre post _. by rewrite app_nil_r. Qed.

Lemma decodes_bind {A B} (m : Mem -> R A) (k : Mem -> A -> R B) e1 e2 a b :
  decodes m e1 a -> decodes (fun buf => k buf a) e2 b ->
  decodes (fun buf => x ← m buf; k buf x) (e1 ++ e2) b.
Proof.
  intros Hm Hk pre post Hl. unfold mbind, R_bind. specialize (Hm pre (e2 ++ post)).
  rewrite <- !app_assoc in *. rewrite Hm by done. specialize (Hk (pre ++ e1) post).
  rewrite <- !app_assoc in Hk. apply Hk. done.
Qed.

Lemma decodes_eq {A} (m : Mem -> R A) e a a' : decodes m e a -> a = a' -> decodes m e a'.
Proof. by intros H <-. Qed.

(** The last reader of a sequence. *)
Lemma decodes_map {A B} (m : Mem -> R A) (f : A -> B) e a :
  decodes m e a -> decodes (fun buf => x ← m buf; mret (f x)) e (f a).
Proof. intros Hm pre post Hl. unfold mbind, R_bind. by rewrite Hm. Qed.

Definition put_uint64 (v : Z) : list Z := le 4 4 ++ le 8 (wrap 64 v).
Definition bytes_of (s : string) : list Z := map (fun c => Z.of_N (N_of_ascii c)) (list_ascii_of_string s).
Definition put_string (s : string) : list Z :=
  le 4 8 ++ le 8 (Z.of_nat (String.length s) + 1) ++ bytes_of s ++ [0].

(** What fits a tagged string: no zero byte, and a length an [int] can hold. *)
Definition is_text (s : string) : bool :=
  forallb (fun c => negb (Ascii.eqb c "000")) (list_ascii_of_string s).

Lemma bytes_length s : length (bytes_of s) = String.length s.
Proof. unfold bytes_of. rewrite length_map. induction s; simpl; auto. Qed.

Lemma read32 pre e post v : e = le 4 v -> 0 <= v < 2 ^ 32 ->
  rd32 (pre ++ e ++ post) (Z.of_nat (length pre)) = Some v.
Proof.
  intros -> Hv. rewrite <- (Z.add_0_r (Z.of_nat _)), rd32_app_r by lia. by apply rd32_le.
Qed.

Lemma read64 pre e post v : e = le 8 v -> 0 <= v < 2 ^ 64 ->
  rd64 (pre ++ e ++ post) (Z.of_nat (length pre)) = Some v.
Proof.
  intros -> Hv. rewrite <- (Z.add_0_r (Z.of_nat _)), rd64_app_r by lia. by apply rd64_le.
Qed.

Lemma decodes_access {A} (f : Mem -> Z -> option A) e a :
  (forall pre post, f (pre ++ e ++ post) (Z.of_nat (length pre)) = Some a) ->
  forall pre post, access (pre ++ e ++ post) f (Z.of_nat (length pre)) = Got (a, Z.of_nat (length pre)).
Proof. intros H pre post. unfold access, mbind, R_bind, offset, or_overrun. by rewrite H. Qed.

Lemma decodes_advance e n : n = Z.of_nat (length e) -> decodes (fun _ => advance n) e tt.
Proof.
  intros -> pre post Hl. unfold advance. rewrite !length_app in *. rewrite sint_id by lia.
  do 2 f_equal. lia.
Qed.

Lemma decodes_get_type pre post t : 0 <= t < 2 ^ 31 ->
  get_type (pre ++ le 4 t ++ post) (Z.of_nat (length pre)) = Got (t, Z.of_nat (length pre)).
Proof.
  intros Ht. unfold get_type. unfold mbind at 1, R_bind at 1.
  rewrite (decodes_access rd32 (le 4 t) t); [|intros; apply read32; [done|lia]].
  unfold mret, R_ret. rewrite sint_id by lia. done.
Qed.

Lemma decodes_uint64 v : 0 <= v < 2 ^ 64 -> decodes get_uint64 (put_uint64 v) v.
Proof.
  intros Hv pre post Hl. unfold get_uint64, put_uint64 in *. rewrite wrap_small in * by lia.
  unfold mbind at 1, R_bind at 1. rewrite <- app_assoc, decodes_get_type by lia.
  cbv beta iota. rewrite Z.eqb_refl. rewrite <- app_assoc in Hl.
  refine ((decodes_bind (fun _ => advance 4)
    (fun buf _ => value ← access buf rd64; _ ← advance 8; mret value) (le 4 4) (le 8 v) tt v
    _ _ pre post _) : _); [by apply decodes_advance| |by rewrite <- app_assoc].
  intros pre' post' Hl'. unfold mbind at 1, R_bind at 1.
  rewrite (decodes_access rd64 (le 8 v) v); [|intros; by apply read64]. cbv beta iota.
  refine (decodes_map (fun _ => advance 8) (fun _ => v) (le 8 v) tt _ pre' post' Hl').
  by apply decodes_advance.
Qed.

(** An integer of at most 64 bits comes back as its representative. *)
Lemma decodes_wrap v : decodes get_uint64 (put_uint64 v) (wrap 64 v).
Proof.
  replace (put_uint64 v) with (put_uint64 (wrap 64 v)) by (unfold put_uint64; by rewrite wrap_wrap).
  apply decodes_uint64, wrap_bounds. lia.
Qed.

Lemma sint_wrap64 v : - 2 ^ 31 <= v < 2 ^ 31 -> sint 32 (wrap 64 v) = v.
Proof.
  intros Hv. unfold sint, wrap. rewrite Z.mod_mod_divide by (by exists (2 ^ 32)).
  exact (sint_id 32 v ltac:(lia) Hv).
Qed.

Lemma decodes_int v : - 2 ^ 31 <= v < 2 ^ 31 -> decodes read_int (put_uint64 v) v.
Proof.
  intros Hv. rewrite <- (sint_wrap64 v Hv) at 2.
  apply (decodes_map get_uint64 (sint 32)), decodes_wrap.
Qed.

Lemma cstr_bytes s post : is_text s = true -> cstr_from (bytes_of s ++ 0 :: post) = Some s.
Proof.
  unfold is_text, bytes_of. induction s as [|c s IH]; simpl; [done|].
  intros [Hc Hs]%andb_true_iff. rewrite IH by done. simpl. rewrite N2Z.id, ascii_N_embedding.
  destruct (Z.eqb_spec (Z.of_N (N_of_ascii c)) 0) as [E|]; [|done]. exfalso.
  assert (c = "000"%char) as ->.
  { rewrite <- (ascii_N_embedding c). replace (N_of_ascii c) with 0%N by lia. done. }
  done.
Qed.

(** The pointer and the end of a string. *)
Lemma get_string_at s pre post :
  Z.of_nat (length (pre ++ put_string s ++ post)) < 2 ^ 31 ->
  get_string (pre ++ put_string s ++ post) (Z.of_nat (length pre)) =
    Got (Z.of_nat (length pre + 12), Z.of_nat (length (pre ++ put_string s))).
Proof.
  intros Hl. unfold put_string in *. rewrite <- !app_assoc in *.
  set (n := Z.of_nat (String.length s) + 1) in *.
  assert (n = Z.of_nat (length (bytes_of s ++ [0]))) as En.
  { rewrite length_app, bytes_length. cbn [length]. lia. }
  assert (0 <= n < 2 ^ 31) as Hn.
  { rewrite !length_app in Hl. rewrite length_app in En. cbn [length] in *. lia. }
  unfold get_string. unfold mbind at 1, R_bind at 1. rewrite decodes_get_type by lia.
  cbv beta iota. rewrite Z.eqb_refl.
  pose proof (decodes_advance (le 4 8) 4 eq_refl pre (le 8 n ++ bytes_of s ++ [0] ++ post) Hl) as E1.
  unfold mbind at 1, R_bind at 1. rewrite E1. cbv beta iota.
  rewrite (app_assoc pre). unfold mbind at 1, R_bind at 1.
  rewrite (decodes_access rd64 (le 8 n) n) by (intros; apply read64; [done|lia]). cbv beta iota.
  pose proof (decodes_advance (le 8 n) 8 eq_refl (pre ++ le 4 8) (bytes_of s ++ [0] ++ post)) as E2.
  rewrite <- !app_assoc in E2. unfold mbind at 1, R_bind at 1. rewrite E2 by done.
  cbv beta iota. unfold mbind at 1, R_bind at 1, offset. cbv beta iota.
  unfold mbind at 1, R_bind at 1.
  pose proof (decodes_advance (bytes_of s ++ [0]) n En (pre ++ le 4 8 ++ le 8 n) post) as E3.
  rewrite <- !app_assoc in E3. rewrite E3 by done. unfold mret, R_ret.
  apply (f_equal2 (fun a b => Got (a, b))); [|done].
  rewrite !length_app, !le_length. lia.
Qed.

Lemma decodes_string s : is_text s = true -> decodes read_string (put_string s) s.
Proof.
  intros Hs pre post Hl. unfold read_string. unfold mbind at 1, R_bind at 1.
  rewrite get_string_at by done. cbv beta iota. unfold cstr.
  rewrite (proj2 (Z.ltb_ge _ 0)) by lia. rewrite Nat2Z.id.
  set (n := Z.of_nat (String.length s) + 1).
  replace (pre ++ put_string s ++ post) with ((pre ++ le 4 8 ++ le 8 n) ++ bytes_of s ++ 0 :: post)
    by (unfold put_string; by rewrite <- !app_assoc).
  replace (length pre + 12)%nat with (length (pre ++ le 4 8 ++ le 8 n))
    by (rewrite !length_app, !le_length; lia).
  rewrite drop_app_length, cstr_bytes by done. done.
Qed.

(** A string that is skipped. *)
Lemma decodes_skip_string {B} (k : Mem -> R B) s e b :
  decodes k e b -> decodes (fun buf => _ ← get_string buf; k buf) (put_string s ++ e) b.
Proof.
  intros Hk pre post Hl. unfold mbind, R_bind. rewrite <- app_assoc in *. rewrite get_string_at by done.
  specialize (Hk (pre ++ put_string s) post). rewrite <- !app_assoc in Hk. by apply Hk.
Qed.

(** Looking at the type of the string to come. *)
Lemma decodes_peek_string {B} (k : Mem -> Z -> R B) s e b :
  decodes (fun buf => k buf 8) (put_string s ++ e) b ->
  decodes (fun buf => type_ ← get_type buf; k buf type_) (put_string s ++ e) b.
Proof.
  intros Hk pre post Hl. unfold mbind, R_bind.
  assert (get_type (pre ++ (put_string s ++ e) ++ post) (Z.of_nat (length pre)) =
          Got (8, Z.of_nat (length pre))) as ->.
  { unfold put_string. rewrite <- !app_assoc. by apply decodes_get_type. }
  by apply Hk.
Qed.

(** A format: what an encoder puts for the values that fit, the parser gets. *)
Class Object (A : Type) := {
  put : A -> list Z;
  get : Mem -> R A;
  fits : A -> Prop;
  put_long a : (0 < length (put a))%nat;
  get_put a : fits a -> decodes get (put a) a
}.

(** The loop of a table made of such values. *)
Lemma while_puts {A} (m : Mem -> R A) (put_ : A -> list Z) (l : list A) fuel pre post buf :
  (forall a, (0 < length (put_ a))%nat) -> Forall (fun a => decodes m (put_ a) a) l ->
  (length l <= fuel)%nat -> buf = pre ++ concat (map put_ l) ++ post ->
  Z.of_nat (length buf) < 2 ^ 31 ->
  while fuel (Z.of_nat (length (pre ++ concat (map put_ l)))) (m buf) (Z.of_nat (length pre)) =
  Got (l, Z.of_nat (length (pre ++ concat (map put_ l)))).
Proof.
  intros Hp Hl. revert fuel pre. induction Hl as [|a l Ha Hl IH]; intros fuel pre Hf Hbuf Hlen.
  - cbn [map concat]. rewrite app_nil_r. destruct fuel; simpl; by rewrite Z.ltb_irrefl.
  - destruct fuel as [|fuel]; simpl in Hf; [lia|]. cbn [map concat] in *.
    set (tl := concat (map put_ l)) in *. cbn [while].
    rewrite (proj2 (Z.ltb_lt _ _)) by (rewrite !length_app; specialize (Hp a); lia).
    unfold mbind at 1, R_bind at 1. rewrite <- app_assoc in Hbuf.
    pose proof (Ha pre (tl ++ post)) as E. rewrite <- Hbuf in E. rewrite E by done. cbv beta iota.
    unfold mbind, R_bind. rewrite (app_assoc pre). rewrite (IH fuel (pre ++ put_ a)); [done|lia| |done].
    rewrite Hbuf. by rewrite <- !app_assoc.
Qed.

Lemma puts_length {A} (put_ : A -> list Z) (l : list A) :
  (forall a, (0 < length (put_ a))%nat) -> (length l <= length (concat (map put_ l)))%nat.
Proof.
  intros Hp. induction l as [|a l IH]; simpl; [lia|]. rewrite length_app. specialize (Hp a). lia.
Qed.

Lemma loop_puts `{Object A} (l : list A) pre : Forall fits l ->
  Z.of_nat (length (pre ++ concat (map put l))) < 2 ^ 31 ->
  let buf := pre ++ concat (map put l) in
  loop buf (Z.of_nat (length buf)) (get buf) (Z.of_nat (length pre)) = Got (l, Z.of_nat (length buf)).
Proof.
  intros Hl Hlen buf. unfold loop.
  apply (while_puts get put l (S (length buf)) pre [] buf); [apply put_long| | |by rewrite app_nil_r|done].
  - eapply Forall_impl; [exact Hl|]. intros a. apply get_put.
  - pose proof (puts_length put l put_long). unfold buf. rewrite length_app. lia.
Qed.
