(* ===== verification/Gddv.v ===== *)
(** * The data vault (thermal_daemon/src/thd_gddv.cpp)

    The firmware's tables: conditions (APCT, APPC), targets (APAT), passive
    policies (PSVT), the MiniBook's power boss tables (PBAT, PBCT) and the rest,
    and the vault that holds them, a sequence of keys that may be compressed and
    nested.  A parse that throws ends the start of the daemon, so the tables read
    before are not kept.  What is only printed has no definition. *)

From Stdlib Require Import ZArith Lia Ascii String.
From stdpp Require Import base list option strings pretty.
From S2P Require Import Prelude Bytes ThdCommon Objects.

#[local] Open Scope Z_scope.

(** ** Data *)

Record custom_condition := Custom {
  cc_condition : Z; cc_name : string; cc_participant : string; cc_domain : Z; cc_type : Z
}.

(** [condition] (the type is [uint64_t], the values come from a 32-bit enum). *)
Record condition := Cond {
  cond : Z; device : string; comparison : Z; argument : Z; operation : Z;
  time_comparison : Z; time : Z; target : Z; state_entry_time : Z; ignore_condition : bool
}.

Record psv := Psv {
  psv_source : string; psv_target : string; priority : Z; sample_period : Z; temp : Z; domain : Z;
  control_knob : Z; limit : string; step_size : Z; limit_coeff : Z; unlimit_coeff : Z
}.
Record psvt := Psvt { psvt_name : string; psvs : list psv }.

Record itmt_entry := ItmtEntry {
  itmt_target : string; trip_point : Z; pl1_min : string; pl1_max : string; unused : string
}.
Record itmt := Itmt { version : Z; itmt_name : string; itmt_entries : list itmt_entry }.

Record pbat_entry := Pbat {
  pbat_target_id : Z; pbat_name : string; pbat_participant : string; pbat_domain : Z;
  pbat_code : string; pbat_argument : string
}.
Record pbct_entry := Pbct { pbct_target : Z; pbct_conditions : list condition }.

Record trippoint := Trippoint { tp_name : string; tp_type_str : string; tp_type : trip_point_type_t; tp_temp : Z }.

Record vsct_entry := Vsct {
  vsct_target : string; domain_type : Z; coeff_type : Z; coeff : Z; vsct_operation : Z; alpha : Z;
  trigger_point : Z
}.
Record vspt_entry := Vspt { virtual_temp : Z; vspt_sample_period : Z }.

Record ppcc_t := Ppcc {
  ppcc_name : string; valid : bool;
  power_limit_min : Z; power_limit_max : Z; time_wind_min : Z; time_wind_max : Z; ppcc_step_size : Z;
  limit_1_valid : bool;
  power_limit_1_min : Z; power_limit_1_max : Z; time_wind_1_min : Z; time_wind_1_max : Z; step_1_size : Z
}.

(** [cthd_gddv]: the tables. *)
Record Gddv := {
  ppccs : list ppcc_t;
  custom_conditions : list custom_condition;
  conditions : list (list condition);
  targets : list adaptive_target;
  psvts : list psvt;
  itmts : list itmt;
  idsps : list string;
  pbats : list pbat_entry;
  pbcts : list pbct_entry;
  trippoints : list trippoint;
  vscts_name : string;
  vscts : list vsct_entry;
  vspts : list vspt_entry
}.

Definition no_tables : Gddv := Build_Gddv [] [] [] [] [] [] [] [] [] [] EmptyString [] [].

Definition set_ppccs v g := Build_Gddv v (custom_conditions g) (conditions g) (targets g) (psvts g)
  (itmts g) (idsps g) (pbats g) (pbcts g) (trippoints g) (vscts_name g) (vscts g) (vspts g).
Definition set_customs v g := Build_Gddv (ppccs g) v (conditions g) (targets g) (psvts g)
  (itmts g) (idsps g) (pbats g) (pbcts g) (trippoints g) (vscts_name g) (vscts g) (vspts g).
Definition set_conditions v g := Build_Gddv (ppccs g) (custom_conditions g) v (targets g) (psvts g)
  (itmts g) (idsps g) (pbats g) (pbcts g) (trippoints g) (vscts_name g) (vscts g) (vspts g).
Definition set_targets v g := Build_Gddv (ppccs g) (custom_conditions g) (conditions g) v (psvts g)
  (itmts g) (idsps g) (pbats g) (pbcts g) (trippoints g) (vscts_name g) (vscts g) (vspts g).
Definition set_psvts v g := Build_Gddv (ppccs g) (custom_conditions g) (conditions g) (targets g) v
  (itmts g) (idsps g) (pbats g) (pbcts g) (trippoints g) (vscts_name g) (vscts g) (vspts g).
Definition set_itmts v g := Build_Gddv (ppccs g) (custom_conditions g) (conditions g) (targets g)
  (psvts g) v (idsps g) (pbats g) (pbcts g) (trippoints g) (vscts_name g) (vscts g) (vspts g).
Definition set_idsps v g := Build_Gddv (ppccs g) (custom_conditions g) (conditions g) (targets g)
  (psvts g) (itmts g) v (pbats g) (pbcts g) (trippoints g) (vscts_name g) (vscts g) (vspts g).
Definition set_pbats v g := Build_Gddv (ppccs g) (custom_conditions g) (conditions g) (targets g)
  (psvts g) (itmts g) (idsps g) v (pbcts g) (trippoints g) (vscts_name g) (vscts g) (vspts g).
Definition set_pbcts v g := Build_Gddv (ppccs g) (custom_conditions g) (conditions g) (targets g)
  (psvts g) (itmts g) (idsps g) (pbats g) v (trippoints g) (vscts_name g) (vscts g) (vspts g).
Definition set_trippoints v g := Build_Gddv (ppccs g) (custom_conditions g) (conditions g) (targets g)
  (psvts g) (itmts g) (idsps g) (pbats g) (pbcts g) v (vscts_name g) (vscts g) (vspts g).
Definition set_vscts n v g := Build_Gddv (ppccs g) (custom_conditions g) (conditions g) (targets g)
  (psvts g) (itmts g) (idsps g) (pbats g) (pbcts g) (trippoints g) n v (vspts g).
Definition set_vspts v g := Build_Gddv (ppccs g) (custom_conditions g) (conditions g) (targets g)
  (psvts g) (itmts g) (idsps g) (pbats g) (pbcts g) (trippoints g) (vscts_name g) (vscts g) v.

(** The length of a table as the [int] it is passed as. *)
Definition int_length (buf : Mem) : Z := sint 32 (Z.of_nat (length buf)).

(** ** Entries *)

Definition read_custom (buf : Mem) : R custom_condition :=
  condition ← get_uint64 buf; name ← read_string buf; participant ← read_string buf;
  domain ← read_int buf; type_ ← read_int buf;
  mret (Custom (wrap 32 condition) name participant domain type_).

Definition read_pbat (buf : Mem) : R pbat_entry :=
  target_id ← get_uint64 buf; name ← read_string buf; participant ← read_string buf;
  domain ← get_uint64 buf; code ← read_string buf; argument ← read_string buf;
  mret (Pbat target_id name participant domain code argument).

Definition read_target (buf : Mem) : R adaptive_target :=
  target_id ← get_uint64 buf; name ← read_string buf; participant ← read_string buf;
  domain ← get_uint64 buf; code ← read_string buf; argument ← read_string buf;
  mret (Target target_id name participant domain code argument).

Definition read_psv (buf : Mem) : R psv :=
  source ← read_string buf; target ← read_string buf; priority ← read_int buf;
  sample_period ← read_int buf; temp ← read_int buf; domain ← read_int buf;
  control_knob ← read_int buf;
  type_ ← get_type buf;
  limit ← (if type_ =? 8 then read_string buf
           else tmp ← get_uint64 buf; mret (pretty (Z.to_N tmp)));
  step_size ← read_int buf; limit_coeff ← read_int buf; unlimit_coeff ← read_int buf;
  _ ← advance 12;
  mret (Psv source target priority sample_period temp domain control_knob limit step_size limit_coeff
    unlimit_coeff).

Definition read_vspt (buf : Mem) : R vspt_entry :=
  virtual_temp ← read_int buf; sample_period ← get_uint64 buf;
  mret (Vspt (DECI_KELVIN_TO_CELSIUS virtual_temp) (sint 32 (sample_period / 10))).

Definition read_vsct (buf : Mem) : R vsct_entry :=
  target ← read_string buf; domain_type ← read_int buf; coeff_type ← read_int buf;
  coeff ← read_int buf; operation ← read_int buf; alpha ← read_int buf; trigger ← read_int buf;
  mret (Vsct target domain_type coeff_type coeff operation alpha trigger).

Definition read_itmt_entry (version : Z) (buf : Mem) : R itmt_entry :=
  target ← read_string buf; trip_point ← read_int buf; pl1_min ← read_string buf;
  pl1_max ← read_string buf; unused ← read_string buf;
  _ ← (if version =? 2 then
         _ ← get_uint64 buf; _ ← read_string buf; _ ← get_uint64 buf; _ ← get_uint64 buf; mret tt
       else advance 12);
  mret (ItmtEntry target trip_point pl1_min pl1_max unused).

(** The object skipped by its length only. *)
Definition read_trt (buf : Mem) : R unit :=
  _ ← read_string buf; _ ← read_string buf; _ ← get_uint64 buf; _ ← get_uint64 buf;
  _ ← get_uint64 buf; _ ← get_uint64 buf; _ ← get_uint64 buf; _ ← get_uint64 buf; mret tt.

(** ** Conditions of a target *)

(** [FOR] as an [adaptive_operation]. *)
Definition AND := 1.
Definition FOR := 2.

(** [if (offset >= len) throw]. *)
Definition check_end (len : Z) : R unit := o ← offset; if len <=? o then throw else mret tt.

(** The time part that follows an operation [FOR]: the fields of PBCT version 1
    and APCT version 1 are skipped by 12 bytes, those of PBCT version 2 are
    objects, those of APCT version 2 contain a string. *)
Inductive Layout := FixedTen | PbctCounted | ApctCounted.

Definition read_time (layout : Layout) (buf : Mem) : R (Z * Z) :=
  match layout with
  | FixedTen =>
      _ ← advance 12; tc ← get_uint64 buf; t ← get_uint64 buf; _ ← advance 12;
      mret (wrap 8 tc, sint 64 t)
  | PbctCounted =>
      _ ← get_uint64 buf; tc ← get_uint64 buf; t ← get_uint64 buf; _ ← get_uint64 buf;
      mret (wrap 8 tc, sint 64 t)
  | ApctCounted =>
      _ ← advance 12; _ ← get_string buf; _ ← advance 12;
      tc ← get_uint64 buf; t ← get_uint64 buf; _ ← advance 12;
      mret (wrap 8 tc, sint 64 t)
  end.

(** One condition; [last]: no operation follows it. *)
Definition read_condition (layout : Layout) (buf : Mem) (len target : Z) (last : bool) : R condition :=
  _ ← check_end len;
  cond ← get_uint64 buf;
  device ← (match layout with FixedTen => mret EmptyString | _ => read_string buf end);
  _ ← (match layout with
       | FixedTen => mret tt
       | PbctCounted => _ ← get_uint64 buf; mret tt
       | ApctCounted => advance 12
       end);
  comparison ← get_uint64 buf;
  argument ← get_uint64 buf;
  '(operation, tc, t) ← (if last then mret (0, 0, 0)
     else op ← get_uint64 buf;
          if wrap 8 op =? FOR then '(tc, t) ← read_time layout buf; mret (FOR, tc, t)
          else mret (wrap 8 op, 0, 0));
  mret (Cond (wrap 32 cond) device (wrap 8 comparison) (sint 32 argument) operation tc t
    (sint 32 target) 0 false).

(** [for (i = 0; i < count; i++)], a [FOR] taking two of the turns; an operation
    follows while [i < more]. *)
Fixpoint read_conditions (layout : Layout) (buf : Mem) (len target count more : Z) (fuel : nat) (i : Z) :
    R (list condition) :=
  if i <? count then
    match fuel with
    | O => fun _ => Endless
    | S fuel =>
        c ← read_condition layout buf len target (negb (i <? more));
        rest ← read_conditions layout buf len target count more fuel
                 (i + (if operation c =? FOR then 2 else 1));
        mret (c :: rest)
    end
  else mret [].

(** A set of conditions with its target. *)
Definition read_condition_set (layout : Layout) (bad_target : Z -> bool) (buf : Mem) (len : Z) :
    R (Z * list condition) :=
  target ← get_uint64 buf;
  if bad_target target then throw
  else match layout with
       | FixedTen => cs ← read_conditions layout buf len target 10 9 10 0; mret (target, cs)
       | _ => count ← read_int buf;
              cs ← read_conditions layout buf len target count (sint 32 (count - 1)) (Z.to_nat count) 0;
              mret (target, cs)
       end.

(** [entry.target == UINT64_MAX] and [int (target) == -1]. *)
Definition bad_pbct_target (t : Z) : bool := t =? 2 ^ 64 - 1.
Definition bad_apct_target (t : Z) : bool := sint 32 t =? -1.

(** ** Tables *)

#[export] Instance Out_ret : MRet Out := fun A a => Got a.
#[export] Instance Out_bind : MBind Out := fun A B k m =>
  match m with Got a => k a | Thrown => Thrown | Overrun => Overrun | Endless => Endless end.

(** Run a parser from the start of a table. *)
Definition parse {A} (m : R A) : Out A := '(a, _) ← m 0; Got a.

Definition parse_appc (appc : Mem) (g : Gddv) : Out Gddv :=
  match rd8 appc 0 with
  | None => Overrun
  | Some b =>
      if negb (b =? 4) then Got g
      else parse (version ← get_uint64 appc;
                  if negb (version =? 1) then mret g
                  else l ← loop appc (int_length appc) (read_custom appc);
                       mret (set_customs (custom_conditions g ++ l) g))
  end.

Definition parse_pbat (pbat : Mem) (g : Gddv) : Out Gddv :=
  parse (version ← get_uint64 pbat;
         if negb (version =? 1) && negb (version =? 2) then throw
         else l ← loop pbat (int_length pbat) (read_pbat pbat);
              mret (set_pbats (pbats g ++ l) g)).

Definition parse_apat (apat : Mem) (g : Gddv) : Out Gddv :=
  parse (version ← get_uint64 apat;
         if negb (version =? 2) then throw
         else l ← loop apat (int_length apat) (read_target apat);
              mret (set_targets (targets g ++ l) g)).

Definition read_condition_sets (v2 : Layout) (bad_target : Z -> bool) (buf : Mem) :
    R (list (Z * list condition)) :=
  version ← get_uint64 buf;
  let len := int_length buf in
  if version =? 1 then loop buf len (read_condition_set FixedTen bad_target buf len)
  else if version =? 2 then loop buf len (read_condition_set v2 bad_target buf len)
  else throw.

Definition parse_pbct (pbct : Mem) (g : Gddv) : Out Gddv :=
  parse (l ← read_condition_sets PbctCounted bad_pbct_target pbct;
         mret (set_pbcts (pbcts g ++ map (fun '(t, cs) => Pbct t cs) l) g)).

Definition parse_apct (apct : Mem) (g : Gddv) : Out Gddv :=
  parse (l ← read_condition_sets ApctCounted bad_apct_target apct;
         mret (set_conditions (conditions g ++ map snd l) g)).

(** Fields at fixed offsets; a table of fewer than 156 bytes is not kept. *)
Definition parse_ppcc (name : string) (buf : Mem) (g : Gddv) : Out Gddv :=
  let field p := match rd64 buf p with Some v => Got (sint 32 v) | None => Overrun end in
  min_ ← field 28; max_ ← field 40; wmin ← field 52; wmax ← field 64; step ← field 76;
  if int_length buf <? 156 then Got g
  else
    min1 ← field 100; max1 ← field 112; wmin1 ← field 124; wmax1 ← field 136; step1 ← field 148;
    let ok := negb (max1 =? 0) && negb (min1 =? 0) && negb (wmin1 =? 0) && negb (wmax1 =? 0) &&
              negb (step1 =? 0) in
    Got (set_ppccs (ppccs g ++ [Ppcc name true min_ max_ wmin wmax step ok min1 max1 wmin1 wmax1 step1]) g).

Definition name_or (dflt : string) (name : option string) : string := default dflt name.

Definition parse_psvt (name : option string) (buf : Mem) (g : Gddv) : Out Gddv :=
  parse (version ← read_int buf;
         if 2 <? version then throw
         else l ← loop buf (int_length buf) (read_psv buf);
              mret (set_psvts (psvts g ++ [Psvt (name_or "Default" name) l]) g)).

Definition parse_vspt (buf : Mem) (g : Gddv) : Out Gddv :=
  parse (version ← read_int buf;
         if 1 <? version then mret g
         else l ← loop buf (int_length buf) (read_vspt buf);
              mret (set_vspts (vspts g ++ l) g)).

Definition parse_vsct (name : option string) (buf : Mem) (g : Gddv) : Out Gddv :=
  let n := name_or "vsct" name in
  parse (version ← read_int buf;
         if 1 <? version then mret (set_vscts n (vscts g) g)
         else l ← loop buf (int_length buf) (read_vsct buf);
              mret (set_vscts n (vscts g ++ l) g)).

Definition parse_itmt (name : option string) (buf : Mem) (g : Gddv) : Out Gddv :=
  parse (version ← read_int buf;
         if 2 <? version then mret g
         else l ← loop buf (int_length buf) (read_itmt_entry version buf);
              mret (set_itmts (itmts g ++ [Itmt 1 (name_or "Default" name) l]) g)).

Definition sizeof_itmt3_header := 12.
Definition sizeof_itmt3 := 296.

(** One fuel per entry. *)
Fixpoint itmt3_entries (fuel : nat) (buf : Mem) (len offset : Z) : Out (option (list itmt_entry)) :=
  if offset <? len then
    match fuel with
    | O => Endless
    | S fuel =>
        if len - offset <? sizeof_itmt3 then Got None
        else match cstr buf offset, rd64 buf (offset + 64), cstr buf (offset + 80), cstr buf (offset + 144) with
             | Some target, Some temp, Some mn, Some mx =>
                 rest ← itmt3_entries fuel buf len (offset + sizeof_itmt3);
                 Got (rest ← rest; Some (ItmtEntry target (sint 32 temp) mn mx EmptyString :: rest))
             | _, _, _, _ => Overrun
             end
    end
  else Got (Some []).

Definition parse_itmt3 (name : option string) (buf : Mem) (g : Gddv) : Out Gddv :=
  let len := Z.of_nat (length buf) in
  if len <? sizeof_itmt3_header then Got g
  else if len - sizeof_itmt3_header <? sizeof_itmt3 then Got g
  else l ← itmt3_entries (length buf) buf len sizeof_itmt3_header;
       match l with
       | None => Got g
       | Some l => Got (set_itmts (itmts g ++ [Itmt 3 (name_or "Default" name) l]) g)
       end.

(** *** Policy identifiers *)

Definition hex_digit (n : Z) : ascii := ascii_of_N (Z.to_N (if n <? 10 then 48 + n else 55 + n)).
(** [%02x], in upper case. *)
Definition hex2 (b : Z) : string := String (hex_digit (b / 16)) (String (hex_digit (b mod 16)) EmptyString).
Definition hexs (l : list Z) : string := foldr (fun b s => (hex2 b +:+ s)%string) EmptyString l.

(** The text of a UUID of 16 bytes, ending in a newline. *)
Definition uuid_text (s : list Z) : option string :=
  match s with
  | [b0; b1; b2; b3; b4; b5; b6; b7; b8; b9; b10; b11; b12; b13; b14; b15] =>
      Some (hexs [b3; b2; b1; b0] +:+ "-" +:+ hexs [b5; b4] +:+ "-" +:+ hexs [b7; b6] +:+ "-" +:+
            hexs [b8; b9] +:+ "-" +:+ hexs [b10; b11; b12; b13; b14; b15] +:+
            String "010" EmptyString)%string
  | _ => None
  end.

(** [n] bytes at [p]. *)
Definition slice (m : Mem) (p n : Z) : option (list Z) :=
  if (p <? 0) || (n <? 0) || (Z.of_nat (length m) <? p + n) then None
  else Some (take (Z.to_nat n) (drop (Z.to_nat p) m)).

(** One identifier; [None]: the loop is left. *)
Definition read_idsp (buf : Mem) (length : Z) : R (option string) :=
  let leave : R (option string) := fun _ => Got (None, length) in
  i ← offset;
  if length - i <? 28 then leave
  else b ← access buf rd8;
       if negb (b =? 7) then leave
       else _ ← advance 4; len ← access buf rd32; _ ← advance 8; str ← offset;
            text ← or_overrun (s ← slice buf str 16; uuid_text s);
            _ ← advance (sint 32 len); mret (Some text).

Definition parse_idsp (buf : Mem) (g : Gddv) : Out Gddv :=
  parse (l ← loop buf (int_length buf) (read_idsp buf (int_length buf));
         mret (set_idsps (idsps g ++ omap id l) g)).

Definition trip_type_of (type_str : string) : trip_point_type_t :=
  if has_prefix "_c" type_str then CRITICAL
  else if has_prefix "_p" type_str then PASSIVE
  else if has_prefix "_h" type_str then HOT
  else if has_prefix "_a" type_str then ACTIVE
  else INVALID_TRIP_TYPE.

Definition parse_trip_point (name type_ : string) (val : Mem) (g : Gddv) : Out Gddv :=
  match rd32 val 0 with
  | None => Overrun
  | Some v =>
      Got (set_trippoints (trippoints g ++
             [Trippoint name type_ (trip_type_of type_) (DECI_KELVIN_TO_CELSIUS (sint 32 v))]) g)
  end.

Definition parse_trt (buf : Mem) (g : Gddv) : Out Gddv :=
  parse (_ ← loop buf (int_length buf) (read_trt buf); mret g).

(** ** Keys *)

(** [strtok] with a slash: the token, if there is one, and where it goes on. *)
Fixpoint skip_slashes (l : list Z) : option (list Z) :=
  match l with [] => None | b :: l' => if b =? 47 then skip_slashes l' else Some l end.
Fixpoint scan_token (l : list Z) : option (string * list Z) :=
  match l with
  | [] => None
  | b :: l' =>
      if b =? 0 then Some (EmptyString, l)
      else if b =? 47 then Some (EmptyString, l')
      else '(s, r) ← scan_token l'; Some (String (ascii_of_N (Z.to_N b)) s, r)
  end.
Definition strtok (l : list Z) : option (option string * list Z) :=
  l ← skip_slashes l;
  match l with
  | 0 :: _ => Some (None, l)
  | _ => '(s, r) ← scan_token l; Some (Some s, r)
  end.

(** The parts of a key: whether there is a first one, name, type and point. *)
Definition split_key (key : list Z) : option (option (option string * option string * option string)) :=
  '(str, r) ← strtok key;
  match str with
  | None => Some None
  | Some s =>
      if thd_strcmp_n (Some s) (Some "participants") then
        '(name, r) ← strtok r; '(type_, r) ← strtok r; '(point, _) ← strtok r;
        Some (Some (name, type_, point))
      else if thd_strcmp_n (Some s) (Some "shared") then
        '(ns, r) ← strtok r; '(type_, r) ← strtok r;
        if thd_strcmp_n ns (Some "tables") then '(point, _) ← strtok r; Some (Some (None, type_, point))
        else Some (Some (None, type_, None))
      else Some (Some (None, None, None))
  end.

Definition when (b : bool) (f : Gddv -> Out Gddv) (g : Gddv) : Out Gddv := if b then f g else Got g.

(** What a key with its value adds to the tables. *)
Definition handle_key (key : list Z) (val : Mem) (g : Gddv) : Out Gddv :=
  match split_key key with
  | None => Overrun
  | Some None => Got g
  | Some (Some (name, type_, point)) =>
      let is_ lit := match type_ with Some t => thd_strcmp_n (Some t) (Some lit) | None => false end in
      let named := match name with Some _ => true | None => false end in
      let pointed := match point with Some _ => true | None => false end in
      let who := match point with None => name | Some p => Some p end in
      let name_ := default EmptyString name in
      g ← when (named && is_ "ppcc") (parse_ppcc name_ val) g;
      g ← when (is_ "psvt") (parse_psvt who val) g;
      g ← when (is_ "appc") (parse_appc val) g;
      g ← when (is_ "apct") (parse_apct val) g;
      g ← when (is_ "pbat") (parse_pbat val) g;
      g ← when (is_ "pbct") (parse_pbct val) g;
      g ← when (is_ "apat") (parse_apat val) g;
      g ← when (match type_ with Some t => strncmp_eq 5 t "itmt3" | None => false end)
               (parse_itmt3 who val) g;
      g ← when (is_ "itmt") (parse_itmt who val) g;
      g ← when (named && is_ "idsp") (parse_idsp val) g;
      g ← when (named && pointed && is_ "trippoint")
               (parse_trip_point name_ (default EmptyString point) val) g;
      g ← when (is_ "_trt") (parse_trt val) g;
      g ← when (is_ "vsct") (parse_vsct who val) g;
      when (is_ "vspt") (parse_vspt val) g
  end.

(** The key at [b] of a buffer: the tables and the length of the key. *)
Definition parse_gddv_key (m : Mem) (b : Z) (g : Gddv) : Out (Gddv * Z) :=
  let fields :=
    _ ← rd32 m b;
    keylength ← rd32 m (b + 4);
    key ← slice m (b + 8) keylength;
    _ ← rd32 m (b + 8 + keylength);
    vallength ← rd32 m (b + 12 + keylength);
    val ← slice m (b + 16 + keylength) vallength;
    Some (key, val, 16 + keylength + vallength) in
  match fields with
  | None => Overrun
  | Some (key, val, end_) => g ← handle_key key val g; Got (g, sint 32 end_)
  end.

(** ** Encodings of entries *)

Create HintDb decode.
#[export] Hint Resolve decodes_uint64 decodes_string decodes_int : decode.

(** A sequence of readers, field by field. *)
Ltac decode_fields :=
  repeat first
    [ eapply decodes_bind; [solve [eauto with decode]|cbv beta]
    | apply decodes_ret ].

Definition is_u64 (v : Z) : Prop := 0 <= v < 2 ^ 64.
Definition is_int (v : Z) : Prop := - 2 ^ 31 <= v < 2 ^ 31.
Definition texts (l : list string) : Prop := Forall (fun s => is_text s = true) l.

Lemma texts_cons s l : texts (s :: l) -> is_text s = true /\ texts l.
Proof. unfold texts. by rewrite Forall_cons. Qed.
Ltac split_fits :=
  repeat match goal with
  | H : texts [] |- _ => clear H
  | H : texts (_ :: _) |- _ => apply texts_cons in H as [? H]
  | H : _ /\ _ |- _ => destruct H
  | H : is_u64 _ |- _ => unfold is_u64 in H
  | H : is_int _ |- _ => unfold is_int in H
  end.

Definition put_target (t : adaptive_target) : list Z :=
  put_uint64 (target_id t) ++ put_string (target_name t) ++ put_string (participant t) ++
  put_uint64 (target_domain t) ++ put_string (code t) ++ put_string (target_argument t) ++ [].
Definition target_fits (t : adaptive_target) : Prop :=
  is_u64 (target_id t) /\ is_u64 (target_domain t) /\
  texts [target_name t; participant t; code t; target_argument t].

Lemma put_uint64_long v l : (0 < length (put_uint64 v ++ l))%nat.
Proof. rewrite length_app. unfold put_uint64. rewrite length_app, le_length. lia. Qed.
Lemma put_string_long s l : (0 < length (put_string s ++ l))%nat.
Proof. rewrite length_app. unfold put_string. rewrite length_app, le_length. lia. Qed.

Lemma target_decodes t : target_fits t -> decodes read_target (put_target t) t.
Proof. intros H. unfold target_fits in H. destruct t. cbn in H. split_fits. unfold read_target. decode_fields. Qed.

Definition put_pbat (t : pbat_entry) : list Z :=
  put_uint64 (pbat_target_id t) ++ put_string (pbat_name t) ++ put_string (pbat_participant t) ++
  put_uint64 (pbat_domain t) ++ put_string (pbat_code t) ++ put_string (pbat_argument t) ++ [].
Definition pbat_fits (t : pbat_entry) : Prop :=
  is_u64 (pbat_target_id t) /\ is_u64 (pbat_domain t) /\
  texts [pbat_name t; pbat_participant t; pbat_code t; pbat_argument t].

Lemma pbat_decodes t : pbat_fits t -> decodes read_pbat (put_pbat t) t.
Proof. intros H. unfold pbat_fits in H. destruct t. cbn in H. split_fits. unfold read_pbat. decode_fields. Qed.

Definition put_psv (p : psv) : list Z :=
  put_string (psv_source p) ++ put_string (psv_target p) ++ put_uint64 (priority p) ++
  put_uint64 (sample_period p) ++ put_uint64 (temp p) ++ put_uint64 (domain p) ++
  put_uint64 (control_knob p) ++ put_string (limit p) ++ put_uint64 (step_size p) ++
  put_uint64 (limit_coeff p) ++ put_uint64 (unlimit_coeff p) ++ put_uint64 0 ++ [].
Definition psv_fits (p : psv) : Prop :=
  texts [psv_source p; psv_target p; limit p] /\ is_int (priority p) /\ is_int (sample_period p) /\
  is_int (temp p) /\ is_int (domain p) /\ is_int (control_knob p) /\ is_int (step_size p) /\
  is_int (limit_coeff p) /\ is_int (unlimit_coeff p).

Lemma decodes_skip v : decodes (fun _ => advance 12) (put_uint64 v) tt.
Proof. apply decodes_advance. unfold put_uint64. by rewrite length_app, !le_length. Qed.
#[export] Hint Resolve decodes_skip : decode.

Lemma psv_decodes p : psv_fits p -> decodes read_psv (put_psv p) p.
Proof.
  intros H. unfold psv_fits in H. destruct p. cbn in H. split_fits. unfold read_psv. decode_fields.
  apply decodes_peek_string. cbn [Z.eqb Pos.eqb]. decode_fields.
Qed.

Definition put_vsct (v : vsct_entry) : list Z :=
  put_string (vsct_target v) ++ put_uint64 (domain_type v) ++ put_uint64 (coeff_type v) ++
  put_uint64 (coeff v) ++ put_uint64 (vsct_operation v) ++ put_uint64 (alpha v) ++
  put_uint64 (trigger_point v) ++ [].
Definition vsct_fits (v : vsct_entry) : Prop :=
  texts [vsct_target v] /\ is_int (domain_type v) /\ is_int (coeff_type v) /\ is_int (coeff v) /\
  is_int (vsct_operation v) /\ is_int (alpha v) /\ is_int (trigger_point v).

Lemma vsct_decodes v : vsct_fits v -> decodes read_vsct (put_vsct v) v.
Proof. intros H. unfold vsct_fits in H. destruct v. cbn in H. split_fits. unfold read_vsct. decode_fields. Qed.

(** An entry of an ITMT table of version 1. *)
Definition put_itmt_entry (e : itmt_entry) : list Z :=
  put_string (itmt_target e) ++ put_uint64 (trip_point e) ++ put_string (pl1_min e) ++
  put_string (pl1_max e) ++ put_string (unused e) ++ put_uint64 0 ++ [].
Definition itmt_entry_fits (e : itmt_entry) : Prop :=
  texts [itmt_target e; pl1_min e; pl1_max e; unused e] /\ is_int (trip_point e).

Lemma itmt_entry_decodes e : itmt_entry_fits e -> decodes (read_itmt_entry 1) (put_itmt_entry e) e.
Proof.
  intros H. unfold itmt_entry_fits in H. destruct e. cbn in H. split_fits.
  unfold read_itmt_entry. cbn [Z.eqb Pos.eqb]. decode_fields.
Qed.

(** *** Conditions of the counted layouts *)

Definition counted (l : Layout) : Prop := l = PbctCounted \/ l = ApctCounted.

Definition put_time (l : Layout) (tc t : Z) : list Z :=
  match l with
  | FixedTen => put_uint64 0 ++ put_uint64 tc ++ put_uint64 t ++ put_uint64 0 ++ []
  | PbctCounted => put_uint64 0 ++ put_uint64 tc ++ put_uint64 t ++ put_uint64 0 ++ []
  | ApctCounted => put_uint64 0 ++ put_string EmptyString ++ put_uint64 0 ++ put_uint64 tc ++ put_uint64 t ++
                   put_uint64 0 ++ []
  end.

Definition put_operation (l : Layout) (c : condition) : list Z :=
  put_uint64 (operation c) ++ (if operation c =? FOR then put_time l (time_comparison c) (time c) ++ [] else []).

Definition put_condition (l : Layout) (last : bool) (c : condition) : list Z :=
  put_uint64 (cond c) ++ put_string (device c) ++ put_uint64 0 ++ put_uint64 (comparison c) ++
  put_uint64 (argument c) ++ (if last then [] else put_operation l c) ++ [].

Definition condition_fits (target_ : Z) (last : bool) (c : condition) : Prop :=
  0 <= cond c < 2 ^ 32 /\ is_text (device c) = true /\ 0 <= comparison c < 256 /\ is_int (argument c) /\
  0 <= operation c < 256 /\ (operation c = FOR -> 0 <= time_comparison c < 256 /\ 0 <= time c < 2 ^ 63) /\
  (operation c <> FOR -> time_comparison c = 0 /\ time c = 0) /\ (last = true -> operation c = 0) /\
  target c = sint 32 target_ /\ state_entry_time c = 0 /\ ignore_condition c = false.

Lemma time_decodes l tc t : 0 <= tc < 256 -> 0 <= t < 2 ^ 63 ->
  decodes (read_time l) (put_time l tc t) (tc, t).
Proof.
  intros Htc Ht.
  assert (is_text EmptyString = true) as He by done.
  assert (0 <= tc < 2 ^ 64) by lia. assert (0 <= t < 2 ^ 64) by lia. assert (0 <= 0 < 2 ^ 64) by lia.
  assert (wrap 8 tc = tc) as E1 by (apply wrap_small; lia).
  assert (sint 64 t = t) as E2 by (apply sint_id; lia).
  destruct l; unfold read_time, put_time; apply (decodes_eq _ _ (wrap 8 tc, sint 64 t));
    try (by rewrite E1, E2); decode_fields.
  apply decodes_skip_string. decode_fields.
Qed.

Lemma decodes_check {B} (k : Mem -> R B) e b : (0 < length e)%nat ->
  decodes k e b -> decodes (fun buf => _ ← check_end (int_length buf); k buf) e b.
Proof.
  intros He Hk pre post Hl. unfold mbind, R_bind, check_end, mbind at 1, R_bind at 1, offset.
  assert (int_length (pre ++ e ++ post) <=? Z.of_nat (length pre) = false) as ->; [|by apply Hk].
  apply Z.leb_gt. unfold int_length. rewrite sint_id by lia. rewrite !length_app. lia.
Qed.

Lemma operation_decodes l c t last : counted l -> condition_fits t last c -> last = false ->
  decodes (fun buf => op ← get_uint64 buf;
             if wrap 8 op =? FOR then '(tc, t) ← read_time l buf; mret (FOR, tc, t)
             else mret (wrap 8 op, 0, 0))
          (put_operation l c) (operation c, time_comparison c, time c).
Proof.
  intros Hl (_ & _ & _ & _ & Hop & Hf & Hn & _) _. unfold put_operation.
  eapply decodes_bind; [apply decodes_uint64; lia|]. cbv beta. rewrite wrap_small by lia.
  destruct (Z.eqb_spec (operation c) FOR) as [E|E].
  - destruct (Hf E). eapply decodes_bind; [by apply time_decodes|]. cbv beta iota. rewrite E. apply decodes_ret.
  - destruct (Hn E) as [-> ->]. apply decodes_ret.
Qed.

Lemma condition_decodes l c t last : counted l -> condition_fits t last c ->
  decodes (fun buf => read_condition l buf (int_length buf) t last) (put_condition l last c) c.
Proof.
  intros Hl Hc. pose proof Hc as (H1 & H2 & H3 & H4 & H5 & H6 & H7 & H8 & H9 & H10 & H11).
  assert (0 <= cond c < 2 ^ 64) by lia. assert (0 <= comparison c < 2 ^ 64) by lia.
  unfold read_condition. apply decodes_check.
  { unfold put_condition. apply put_uint64_long. }
  unfold put_condition. eapply decodes_bind; [eauto with decode|cbv beta].
  eapply decodes_bind; [destruct Hl as [-> | ->]; by apply decodes_string|cbv beta].
  eapply (decodes_bind _ _ _ _ tt).
  { destruct Hl as [-> | ->]; [|apply decodes_skip].
    apply (decodes_map get_uint64 (fun _ => tt) _ 0). apply decodes_uint64. lia. }
  cbv beta. eapply decodes_bind; [by apply decodes_uint64|cbv beta].
  eapply decodes_bind; [apply decodes_wrap|cbv beta].
  eapply (decodes_bind _ _ _ _ (operation c, time_comparison c, time c)).
  { destruct last; [|by eapply operation_decodes]. destruct H7 as [-> ->]; [rewrite H8 by done; done|].
    rewrite H8 by done. apply decodes_ret. }
  cbv beta iota. eapply decodes_eq; [apply decodes_ret|].
  unfold is_int in H4. rewrite (wrap_small 32), (wrap_small 8), sint_wrap64 by lia. destruct c. simpl in *. by subst.
Qed.

Definition slots (c : condition) : Z := if operation c =? FOR then 2 else 1.
Definition all_slots (cs : list condition) : Z := foldr (fun c n => slots c + n) 0 cs.
Definition ends_set (c : condition) : bool := negb (operation c =? FOR).

Fixpoint put_conditions (l : Layout) (cs : list condition) : list Z :=
  match cs with
  | [] => []
  | [c] => put_condition l (ends_set c) c ++ []
  | c :: cs => put_condition l false c ++ (put_conditions l cs ++ [])
  end.
Fixpoint conditions_fit (t : Z) (cs : list condition) : Prop :=
  match cs with
  | [] => True
  | [c] => condition_fits t (ends_set c) c
  | c :: cs => condition_fits t false c /\ conditions_fit t cs
  end.

Lemma slots_pos c : 1 <= slots c.
Proof. unfold slots. destruct (_ =? _); lia. Qed.
Lemma all_slots_pos cs : 0 <= all_slots cs.
Proof. induction cs as [|c cs IH]; simpl; [lia|]. pose proof (slots_pos c). lia. Qed.

Lemma conditions_decode l t cs : counted l -> forall fuel count i,
  conditions_fit t cs -> count = i + all_slots cs -> (Z.to_nat (all_slots cs) <= fuel)%nat ->
  decodes (fun buf => read_conditions l buf (int_length buf) t count (count - 1) fuel i)
    (put_conditions l cs) cs.
Proof.
  intros Hl. induction cs as [|c cs IH]; intros fuel count i Hc Hn Hf.
  - cbn [all_slots foldr] in Hn. rewrite Z.add_0_r in Hn. subst count.
    eapply decodes_eq; [|done]. destruct fuel; cbn [read_conditions]; rewrite Z.ltb_irrefl; apply decodes_ret.
  - cbn [all_slots foldr] in Hn, Hf. fold (all_slots cs) in Hn, Hf.
    pose proof (slots_pos c). pose proof (all_slots_pos cs).
    destruct fuel as [|fuel]; [lia|]. cbn [read_conditions].
    rewrite (proj2 (Z.ltb_lt i count)) by lia.
    assert (decodes (fun buf => read_conditions l buf (int_length buf) t count (count - 1) fuel
              (i + (if operation c =? FOR then 2 else 1))) (put_conditions l cs) cs) as Hrest.
    { apply IH; [destruct cs; [done|apply Hc]|unfold slots in Hn; lia|lia]. }
    destruct cs as [|c' cs].
    + assert (negb (i <? count - 1) = ends_set c) as ->.
      { unfold ends_set, slots in *. cbn [all_slots foldr] in *.
        destruct (Z.eqb_spec (operation c) FOR), (Z.ltb_spec i (count - 1)); try done; lia. }
      eapply decodes_bind; [by apply condition_decodes|cbv beta].
      eapply (decodes_map (fun buf => read_conditions l buf (int_length buf) t count (count - 1) fuel _)
        (cons c) [] []), Hrest.
    + assert (negb (i <? count - 1) = false) as ->.
      { assert (1 <= all_slots (c' :: cs)).
        { cbn [all_slots foldr]. fold (all_slots cs). pose proof (slots_pos c').
          pose proof (all_slots_pos cs). lia. }
        rewrite (proj2 (Z.ltb_lt i (count - 1))); [done|lia]. }
      eapply decodes_bind; [apply condition_decodes; [done|apply Hc]|cbv beta].
      eapply decodes_bind; [apply Hrest|cbv beta]. apply decodes_ret.
Qed.

(** A set of conditions with its target. *)
Definition put_set (l : Layout) (s : Z * list condition) : list Z :=
  put_uint64 (fst s) ++ put_uint64 (all_slots (snd s)) ++ put_conditions l (snd s) ++ [].
Definition set_fits (bad : Z -> bool) (s : Z * list condition) : Prop :=
  is_u64 (fst s) /\ bad (fst s) = false /\ all_slots (snd s) < 2 ^ 31 /\ conditions_fit (fst s) (snd s).

Lemma set_decodes l bad s : counted l -> set_fits bad s ->
  decodes (fun buf => read_condition_set l bad buf (int_length buf)) (put_set l s) s.
Proof.
  intros Hl (Hu & Hb & Hn & Hc). destruct s as [t cs]. cbn [fst snd] in *. unfold is_u64 in Hu.
  pose proof (all_slots_pos cs).
  unfold read_condition_set, put_set. cbn [fst snd]. eapply decodes_bind; [eauto with decode|cbv beta].
  rewrite Hb.
  assert (decodes (fun buf => count ← read_int buf;
            cs ← read_conditions l buf (int_length buf) t count (sint 32 (count - 1)) (Z.to_nat count) 0;
            mret (t, cs)) (put_uint64 (all_slots cs) ++ put_conditions l cs ++ []) (t, cs)) as Hd.
  { eapply decodes_bind; [apply decodes_int; lia|cbv beta]. rewrite (sint_id 32) by lia.
    eapply decodes_bind; [by apply conditions_decode|cbv beta]. apply decodes_ret. }
  destruct Hl as [-> | ->]; exact Hd.
Qed.

(** *** Tables *)

#[export] Instance target_object : Object adaptive_target := {|
  put t := put_target t; get := read_target; fits := target_fits;
  put_long t := put_uint64_long _ _; get_put := target_decodes |}.
#[export] Instance pbat_object : Object pbat_entry := {|
  put t := put_pbat t; get := read_pbat; fits := pbat_fits;
  put_long t := put_uint64_long _ _; get_put := pbat_decodes |}.
#[export] Instance psv_object : Object psv := {|
  put p := put_psv p; get := read_psv; fits := psv_fits;
  put_long p := put_string_long _ _; get_put := psv_decodes |}.
#[export] Instance vsct_object : Object vsct_entry := {|
  put v := put_vsct v; get := read_vsct; fits := vsct_fits;
  put_long v := put_string_long _ _; get_put := vsct_decodes |}.
#[export] Instance itmt_object : Object itmt_entry := {|
  put e := put_itmt_entry e; get := read_itmt_entry 1; fits := itmt_entry_fits;
  put_long e := put_string_long _ _; get_put := itmt_entry_decodes |}.
Definition set_object (l : Layout) (bad : Z -> bool) (Hl : counted l) : Object (Z * list condition) := {|
  put := put_set l; get buf := read_condition_set l bad buf (int_length buf); fits := set_fits bad;
  put_long s := put_uint64_long _ _; get_put s := set_decodes l bad s Hl |}.

(** A table: its version and its entries. *)
Definition table `{Object A} (version : Z) (l : list A) : Mem := put_uint64 version ++ concat (map put l).
Definition table_fits `{Object A} (version : Z) (l : list A) : Prop :=
  Forall fits l /\ Z.of_nat (length (table version l)) < 2 ^ 31.

Lemma entries_parse `{Object A} (l : list A) v : table_fits v l ->
  let buf := table v l in
  loop buf (int_length buf) (get buf) 12 = Got (l, Z.of_nat (length buf)).
Proof.
  intros [Hl Hb] buf. unfold int_length, buf. rewrite sint_id by lia.
  assert (12 = Z.of_nat (length (put_uint64 v))) as ->
    by (unfold put_uint64; by rewrite length_app, !le_length).
  apply loop_puts; done.
Qed.

Lemma table_parse `{Object A} {B} (m : Mem -> R Z) (body : Z -> R B) (f : list A -> B) v (l : list A) :
  decodes m (put_uint64 v) v -> table_fits v l ->
  let buf := table v l in
  (forall o, body v o = (l ← loop buf (int_length buf) (get buf); mret (f l)) o) ->
  parse (version ← m buf; body version) = Got (f l).
Proof.
  intros Hm Ht buf Hbody. pose proof (Hm [] (concat (map put l))) as Ev.
  cbn [app length] in Ev. unfold parse, mbind at 1, Out_bind, mbind at 1, R_bind at 1.
  change (m buf 0) with (m (put_uint64 v ++ concat (map put l)) (Z.of_nat 0)). rewrite Ev by apply Ht.
  rewrite Hbody. unfold mbind, R_bind.
  replace (Z.of_nat (length (put_uint64 v))) with 12
    by (unfold put_uint64; by rewrite length_app, !le_length).
  pose proof (entries_parse l v Ht) as E. cbv zeta in E. fold buf in E. by rewrite E.
Qed.

Lemma apat_loaded l g : table_fits 2 l -> parse_apat (table 2 l) g = Got (set_targets (targets g ++ l) g).
Proof.
  intros H. apply (table_parse get_uint64 _ (fun l => set_targets (targets g ++ l) g)); [|done..].
  by apply decodes_uint64.
Qed.

Lemma pbat_loaded l g : table_fits 2 l -> parse_pbat (table 2 l) g = Got (set_pbats (pbats g ++ l) g).
Proof.
  intros H. apply (table_parse get_uint64 _ (fun l => set_pbats (pbats g ++ l) g)); [|done..].
  by apply decodes_uint64.
Qed.

Lemma psvt_loaded name l g : table_fits 2 l ->
  parse_psvt name (table 2 l) g = Got (set_psvts (psvts g ++ [Psvt (name_or "Default" name) l]) g).
Proof.
  intros H. apply (table_parse read_int _ (fun l => set_psvts (psvts g ++ [Psvt (name_or "Default" name) l]) g));
    [|done..]. by apply decodes_int.
Qed.

Lemma vsct_loaded name l g : table_fits 1 l ->
  parse_vsct name (table 1 l) g = Got (set_vscts (name_or "vsct" name) (vscts g ++ l) g).
Proof.
  intros H. apply (table_parse read_int _ (fun l => set_vscts (name_or "vsct" name) (vscts g ++ l) g));
    [|done..]. by apply decodes_int.
Qed.

Lemma itmt_loaded name l g : table_fits 1 l ->
  parse_itmt name (table 1 l) g = Got (set_itmts (itmts g ++ [Itmt 1 (name_or "Default" name) l]) g).
Proof.
  intros H. apply (table_parse read_int _ (fun l => set_itmts (itmts g ++ [Itmt 1 (name_or "Default" name) l]) g));
    [|done..]. by apply decodes_int.
Qed.

(** The version 2 tables of condition sets, with one layout each. *)
Definition pbct_table (l : list (Z * list condition)) : Mem :=
  put_uint64 2 ++ concat (map (put_set PbctCounted) l).
Definition apct_table (l : list (Z * list condition)) : Mem :=
  put_uint64 2 ++ concat (map (put_set ApctCounted) l).

Lemma parse_map {A B} (m : R A) (f : A -> B) : parse (x ← m; mret (f x)) = (x ← parse m; Got (f x)).
Proof. unfold parse, mbind, Out_bind, R_bind. by destruct (m 0) as [[? ?]| | |]. Qed.

Lemma sets_parse l bad sets : counted l -> Forall (set_fits bad) sets ->
  let buf := put_uint64 2 ++ concat (map (put_set l) sets) in
  Z.of_nat (length buf) < 2 ^ 31 ->
  parse (read_condition_sets l bad buf) = Got sets.
Proof.
  intros Hl Hs buf Hb. pose (O := set_object l bad Hl). unfold read_condition_sets.
  apply (table_parse (H := O) get_uint64 _ id); [by apply decodes_uint64|done|]. cbv zeta.
  cbn [Z.eqb Pos.eqb]. change (table 2 sets) with buf.
  intros o. unfold mbind, R_bind, id. by destruct (loop _ _ _ o) as [[? ?]| | |].
Qed.

(** Loading a PBCT table gives back its sets of conditions, targets and times
    included. *)
Lemma pbct_loaded l g : Forall (set_fits bad_pbct_target) l ->
  Z.of_nat (length (pbct_table l)) < 2 ^ 31 ->
  parse_pbct (pbct_table l) g = Got (set_pbcts (pbcts g ++ map (fun '(t, cs) => Pbct t cs) l) g).
Proof.
  intros Hl Hb. unfold parse_pbct, pbct_table in *. rewrite parse_map, sets_parse; [done|by left|done|done].
Qed.

Lemma apct_loaded l g : Forall (set_fits bad_apct_target) l ->
  Z.of_nat (length (apct_table l)) < 2 ^ 31 ->
  parse_apct (apct_table l) g = Got (set_conditions (conditions g ++ map snd l) g).
Proof.
  intros Hl Hb. unfold parse_apct, apct_table in *. rewrite parse_map, sets_parse; [done|by right|done|done].
Qed.

(** ** Loops that do not end *)

(** The bodies of the loops meet the conditions of [loop_exact]. *)
Ltac table_body := intros; unfold read_custom, read_pbat, read_target, read_psv, read_vspt, read_vsct, read_trt;
  repeat first [solve [auto with table] | apply ends_bind; [|intros] | apply inside_bind | apply ends_if].

Lemma target_body buf : ends (read_target buf) /\ inside (read_target buf).
Proof. split; table_body. Qed.
Lemma pbat_body buf : ends (read_pbat buf) /\ inside (read_pbat buf).
Proof. split; table_body. Qed.
Lemma custom_body buf : ends (read_custom buf) /\ inside (read_custom buf).
Proof. split; table_body. Qed.
Lemma psv_body buf : ends (read_psv buf) /\ inside (read_psv buf).
Proof. split; table_body. Qed.
Lemma vsct_body buf : ends (read_vsct buf) /\ inside (read_vsct buf).
Proof. split; table_body. Qed.
Lemma vspt_body buf : ends (read_vspt buf) /\ inside (read_vspt buf).
Proof. split; table_body. Qed.
Lemma trt_body buf : ends (read_trt buf) /\ inside (read_trt buf).
Proof. split; table_body. Qed.

(** An APAT table whose last string has a negative length: it leads back to the
    start of its entry. *)
Definition circular_apat : Mem :=
  put_uint64 2 ++ put_uint64 1 ++ put_string EmptyString ++ put_string EmptyString ++ put_uint64 0 ++
  put_string EmptyString ++ le 4 8 ++ le 8 (2 ^ 64 - 75) ++ [0].

Lemma loop_exact_witness :
  while 1000 (int_length circular_apat) (read_target circular_apat) 12 = Endless.
Proof.
  apply (loop_exact circular_apat); [apply target_body|apply target_body| |]; vm_compute; done.
Defined.
