(* ===== verification/Vault.v ===== *)
(** * The data vault (thermal_daemon/src/thd_gddv.cpp)

    The vault is a sequence of keys, each with the value of one table (Gddv.v),
    behind a header; a vault of version 2 can be compressed and hold other
    vaults, which the decoder of LzmaDec.v decodes; the allocator is the class
    [Alloc].  The fuel counts the headers and items that are parsed. *)

From Stdlib Require Import ZArith Lia Ascii String.
From stdpp Require Import base list option strings pretty.
From S2P Require Import Prelude Bytes RangeCoder LzmaDec ThdCommon Objects Gddv.

#[local] Open Scope Z_scope.

(** ** The vault *)

Definition ESIF_SERVICE_CONFIG_COMPRESSED := 0x40000000.
Definition ESIFDV_HEADER_SIGNATURE := 0x1FE5.
Definition ESIFDV_ITEM_KEYS_REV0_SIGNATURE := 0xA0D8.
Definition ESIFHDR_GET_MAJOR (version : Z) : Z := Z.land (Z.shiftr version 24) 0xFF.
(** [sizeof (struct header)] and the offset of [v2.payload_size]. *)
Definition sizeof_header := 148.
Definition off_payload_size := 140.

Section Vault.
Context `{Alloc}.

(** [lzma_decompress] without a destination: the size it needs. *)
Definition lzma_size (src : list Z) : Z :=
  if 13 <? Z.of_nat (length src) then
    match rd8 src 0, rd8 src 1, rd64 src 5 with
    | Some 0x5D, Some 0, Some original_size =>
        if (0 <? original_size) && negb (original_size =? 2 ^ 64 - 1) then original_size else 0
    | _, _, _ => 0
    end
  else 0.

(** [lzma_decompress] into [destLen] bytes of a destination: whether it succeeded, the destination
    and the number of bytes it then says there are. *)
Definition LZMA_MAX_COMPRESSED_SIZE := Z.shiftr (2 ^ 64 - 1) 1 - 1.
Definition lzma_decompress (dest src : list Z) (destLen : Z) : option (bool * list Z * Z) :=
  if 13 <? Z.of_nat (length src) then
    d ← LzmaDecode dest destLen (drop 13 src) src 13 LZMA_FINISH_ANY;
    original_size ← rd64 src 5;
    let ok := bool_decide (d_res d = SZ_OK) && (original_size <=? d_destLen d) in
    Some (if LZMA_MAX_COMPRESSED_SIZE <? d_destLen d then (false, d_dest d, LZMA_MAX_COMPRESSED_SIZE) else (ok, d_dest d, d_destLen d))
  else Some (false, dest, destLen).

(** [memcpy] to a buffer, outside of it a fault. *)
Definition write_bytes (m : Mem) (p : Z) (l : list Z) : option Mem :=
  if (p <? 0) || (Z.of_nat (length m) <? p + Z.of_nat (length l)) then None
  else Some (take (Z.to_nat p) m ++ l ++ drop (Z.to_nat p + length l) m).

(** The decompressed vault of [handle_compressed_gddv], with its header updated. *)
Definition decompress (m : Mem) (b size : Z) : Out Mem :=
  match headersize ← rd16 m (b + 2); n ← rd64 m (b + headersize + 5); Some (headersize, n) with
  | None => Overrun
  | Some (headersize, payload_output_size) =>
      let output_size := wrap 64 (headersize + payload_output_size) in
      if negb (can_alloc output_size) then Thrown
      else
        let r :=
          src ← slice m (b + headersize) (size - headersize);
          let d := uninit output_size in
          '(_, dest, _) ← lzma_decompress (drop (Z.to_nat headersize) d) src (lzma_size src);
          let d := take (Z.to_nat headersize) d ++ dest in
          hdr ← slice m b headersize;
          d ← write_bytes d 0 hdr;
          flags ← rd32 d 8;
          d ← wr32 d 8 (Z.land flags (Z.lnot ESIF_SERVICE_CONFIG_COMPRESSED));
          wr32 d off_payload_size payload_output_size in
        match r with Some d => Got d | None => Overrun end
  end.

(** [parse_gddv]: the code returned, the value stored in [end_offset] (none on
    the early returns) and the tables.  One fuel per header and per item. *)
Fixpoint parse_gddv (fuel : nat) (m : Mem) (b size : Z) (g : Gddv) {struct fuel} :
    Out (Z * option Z * Gddv) :=
  match fuel with
  | O => Endless
  | S fuel =>
      if size <? sizeof_header then Got (THD_ERROR, None, g)
      else match rd16 m b, rd16 m (b + 2), rd32 m (b + 4), rd32 m (b + 8) with
      | Some signature, Some headersize, Some version, Some flags =>
          let major := ESIFHDR_GET_MAJOR version in
          if negb (signature =? ESIFDV_HEADER_SIGNATURE) then Thrown
          else if negb (major =? 1) && negb (major =? 2) then Got (THD_ERROR, None, g)
          else if (major =? 2) && negb (Z.land flags ESIF_SERVICE_CONFIG_COMPRESSED =? 0) then
            d ← decompress m b size;
            '(res, _, g) ← parse_gddv fuel d 0 (sint 32 (Z.of_nat (length d))) g;
            Got (res, None, g)
          else match (if major =? 2 then payload_size ← rd32 m (b + off_payload_size); Some (sint 32 payload_size)
                      else Some size) with
               | Some size => parse_items fuel m b headersize major size headersize g
               | None => Overrun
               end
      | _, _, _, _ => Overrun
      end
  end

with parse_items (fuel : nat) (m : Mem) (b headersize major size offset : Z) (g : Gddv) {struct fuel} :
    Out (Z * option Z * Gddv) :=
  if offset + headersize <? size then
    match fuel with
    | O => Endless
    | S fuel =>
        if major =? 2 then
          match rd16 m (b + offset) with
          | None => Overrun
          | Some signature =>
              if signature =? ESIFDV_ITEM_KEYS_REV0_SIGNATURE then
                '(g, n) ← parse_gddv_key m (b + offset + 2) g;
                parse_items fuel m b headersize major size (offset + 2 + n) g
              else if signature =? ESIFDV_HEADER_SIGNATURE then
                '(res, end_, g) ← parse_gddv fuel m (b + offset) (size - offset) g;
                if negb (res =? THD_SUCCESS) then Got (res, None, g)
                else parse_items fuel m b headersize major size (offset + default 0 end_) g
              else Got (THD_ERROR, None, g)
          end
        else
          '(g, n) ← parse_gddv_key m (b + offset) g;
          parse_items fuel m b headersize major size (offset + n) g
    end
  else Got (THD_SUCCESS, Some offset, g).

(** The custom conditions replace the condition types they name. *)
Definition merge_custom (custom : custom_condition) (c : condition) : condition :=
  Cond (wrap 32 (cc_type custom)) (cc_participant custom) (comparison c) (argument c) (operation c)
    (time_comparison c) (time c) (target c) (state_entry_time c) (ignore_condition c).
Definition merge_one (custom : custom_condition) (c : condition) : condition :=
  if cc_condition custom =? cond c then merge_custom custom c else c.
Definition merge_appc (g : Gddv) : Gddv :=
  set_conditions (foldl (fun cs custom => map (map (merge_one custom)) cs) (conditions g)
                    (custom_conditions g)) g.

(** The part of [gddv_init] that fills the tables from the [size] bytes of the
    vault; [None]: it returns [THD_FATAL_ERROR]. *)
Definition load_tables (fuel : nat) (vault : Mem) : Out (option Gddv) :=
  match parse_gddv fuel vault 0 (sint 32 (Z.of_nat (length vault))) no_tables with
  | Got (res, _, g) => Got (if res =? THD_SUCCESS then Some (merge_appc g) else None)
  | Thrown => Got None
  | Overrun => Overrun
  | Endless => Endless
  end.
End Vault.

(** ** Queries *)

Definition get_ppcc (g : Gddv) (name : string) : option ppcc_t :=
  if negb (String.eqb name "TCPU.D0") then None
  else List.find (fun p => String.eqb (ppcc_name p) name) (ppccs g).

Definition find_def_psvt (g : Gddv) : option psvt :=
  match List.find (fun p => String.eqb (psvt_name p) "generic_os") (psvts g) with
  | Some p => Some p
  | None => List.find (fun p => String.eqb (psvt_name p) "IETM.D0") (psvts g)
  end.

(** [!idsps[i].compare (0, 36, name)] for some [i]. *)
Definition search_idsp (g : Gddv) (name : string) : bool :=
  existsb (fun i => String.eqb (String.substring 0 36 i) name) (idsps g).

Definition get_trip_temp (g : Gddv) (name : string) (type_ : trip_point_type_t) : Z :=
  match List.find (fun t => String.eqb (tp_name t) (name +:+ ".D0") && bool_decide (tp_type t = type_))
                (trippoints g) with
  | Some t => tp_temp t
  | None => THD_ERROR
  end.

Definition find_psvt (g : Gddv) (name : string) : option psvt :=
  List.find (fun p => thd_strcasecmp_n (Some (psvt_name p)) (Some name)) (psvts g).

(** A table needs the policy that goes with its version. *)
Definition itmt_supported (g : Gddv) (t : itmt) : bool :=
  if version t =? 3 then search_idsp g "4215267F-F429-4776-9D84-D6C5992848A4"
  else if version t <? 3 then search_idsp g "6BD40D2D-98AA-A44B-1A92-D22BDE3117F1"
  else true.
Definition find_itmt (g : Gddv) (name : string) : option itmt :=
  List.find (fun t => itmt_supported g t && thd_strcasecmp_n (Some (itmt_name t)) (Some name)) (itmts g).

(** The index of the target with the highest power limit above 0, the first of equal ones; else -1. *)
Definition find_agressive_target (g : Gddv) : Z :=
  snd (foldl (fun '(i, mx, id_) t =>
    let here := if String.eqb (code t) "PL1MAX" || String.eqb (code t) "PL1PowerLimit"
                then stoi (target_argument t) else None in
    match here with
    | Some a => if mx <? a then (i + 1, a, i) else (i + 1, mx, id_)
    | None => (i + 1, mx, id_)
    end) (0, 0, -1) (targets g)).

(** The checksum in the name of a vault file; the characters are signed. *)
Definition crc_step (crc : Z) : Z :=
  Z.lxor (Z.shiftr crc 1) (if Z.odd crc then 0xedb88320 else 0).
Definition crc32 (p : list Z) : Z :=
  foldl (fun crc c => Nat.iter 8 crc_step (Z.lxor crc (wrap 32 (sint 8 c)))) 0 p.

Definition vault_file (sys_vendor product_family product_name product_sku : string) : string :=
  let crc s := pretty (Z.to_N (crc32 (bytes_of s))) in
  ("/lib/firmware/intel/dtt/dtt_data_vault_" +:+ crc sys_vendor +:+ "_" +:+ crc product_family +:+ "_"
   +:+ crc product_name +:+ "_" +:+ crc product_sku +:+ ".bin")%string.

(** ** Vaults without compression *)

Section Encoded.
Context `{Alloc}.

(** A key: its path and its value. *)
Definition put_key (k : list Z * Mem) : list Z :=
  le 4 0 ++ le 4 (Z.of_nat (length k.1)) ++ k.1 ++ le 4 0 ++ le 4 (Z.of_nat (length k.2)) ++ k.2.
Definition put_item (major : Z) (k : list Z * Mem) : list Z :=
  (if major =? 2 then le 2 ESIFDV_ITEM_KEYS_REV0_SIGNATURE else []) ++ put_key k.
Definition put_items (major : Z) (ks : list (list Z * Mem)) : list Z := concat (map (put_item major) ks).

(** What the keys add, one after the other. *)
Fixpoint handle_keys (ks : list (list Z * Mem)) (g : Gddv) : Out Gddv :=
  match ks with
  | [] => Got g
  | k :: ks => g ← handle_key k.1 k.2 g; handle_keys ks g
  end.

(** The keys the loop gets to: those that start before [size] less the length of a header. *)
Fixpoint reached (major headersize size offset : Z) (ks : list (list Z * Mem)) : list (list Z * Mem) :=
  match ks with
  | [] => []
  | k :: ks => if offset + headersize <? size
               then k :: reached major headersize size (offset + Z.of_nat (length (put_item major k))) ks
               else []
  end.

(** The bytes [s] stand at [p]. *)
Definition holds (m : Mem) (p : Z) (s : list Z) : Prop :=
  exists pre post, m = pre ++ s ++ post /\ p = Z.of_nat (length pre).

Lemma holds_app m p s1 s2 : holds m p (s1 ++ s2) ->
  holds m p s1 /\ holds m (p + Z.of_nat (length s1)) s2.
Proof.
  intros (pre & post & -> & ->). split.
  - exists pre, (s2 ++ post). by rewrite <- app_assoc.
  - exists (pre ++ s1), post. rewrite <- !app_assoc, length_app. split; [done|lia].
Qed.

Lemma rd16_holds m p v : holds m p (le 2 v) -> 0 <= v < 2 ^ 16 -> rd16 m p = Some v.
Proof.
  intros (pre & post & -> & ->) Hv. rewrite <- (Z.add_0_r (Z.of_nat _)), rd16_app_r by lia.
  by apply rd16_le.
Qed.

Lemma rd32_holds m p v : holds m p (le 4 v) -> 0 <= v < 2 ^ 32 -> rd32 m p = Some v.
Proof. intros (pre & post & -> & ->) Hv. by apply read32. Qed.

Lemma slice_holds m p s : holds m p s -> slice m p (Z.of_nat (length s)) = Some s.
Proof.
  intros (pre & post & -> & ->). unfold slice. rewrite !length_app.
  rewrite (proj2 (Z.ltb_ge _ 0)), (proj2 (Z.ltb_ge _ 0)), (proj2 (Z.ltb_ge _ _)) by lia. cbn [orb].
  by rewrite !Nat2Z.id, drop_app_length, take_app_length.
Qed.

Lemma put_key_length k : Z.of_nat (length (put_key k)) =
  16 + Z.of_nat (length k.1) + Z.of_nat (length k.2).
Proof. unfold put_key. rewrite !length_app, !le_length. lia. Qed.

Lemma parse_key_encoded m b k g : holds m b (put_key k) -> Z.of_nat (length (put_key k)) < 2 ^ 31 ->
  parse_gddv_key m b g = (g ← handle_key k.1 k.2 g; Got (g, Z.of_nat (length (put_key k)))).
Proof.
  intros Hm Hl. rewrite put_key_length in *. unfold put_key in Hm. destruct k as [kb v]. cbn [fst snd] in *.
  apply holds_app in Hm as [H1 Hm]. apply holds_app in Hm as [H2 Hm]. apply holds_app in Hm as [H3 Hm].
  apply holds_app in Hm as [H4 Hm]. apply holds_app in Hm as [H5 H6].
  rewrite !le_length, <- !Z.add_assoc in *. change (Z.of_nat 4) with 4 in *. unfold parse_gddv_key.
  rewrite (rd32_holds _ _ _ H1), (rd32_holds _ _ _ H2) by lia. cbn [mbind option_bind].
  apply slice_holds in H3, H6.
  replace (b + 8) with (b + (4 + 4)) by lia. rewrite H3. cbn [mbind option_bind].
  replace (b + (4 + 4) + Z.of_nat (length kb)) with (b + (4 + (4 + Z.of_nat (length kb)))) by lia.
  replace (b + 12 + Z.of_nat (length kb)) with (b + (4 + (4 + (Z.of_nat (length kb) + 4)))) by lia.
  replace (b + 16 + Z.of_nat (length kb)) with (b + (4 + (4 + (Z.of_nat (length kb) + (4 + 4))))) by lia.
  rewrite (rd32_holds _ _ _ H4), (rd32_holds _ _ _ H5) by lia. cbn [mbind option_bind].
  rewrite H6. cbn [mbind option_bind].
  rewrite sint_id, <- Z.add_assoc by lia. done.
Qed.

Lemma put_item_length major k : major = 1 \/ major = 2 ->
  Z.of_nat (length (put_item major k)) = (if major =? 2 then 2 else 0) + Z.of_nat (length (put_key k)).
Proof. intros [-> | ->]; unfold put_item; cbn [Z.eqb Pos.eqb app]; rewrite ?length_app; simpl; lia. Qed.

(** The loop over the items of a vault that holds keys only. *)
Lemma items_encoded m b headersize major size ks :
  major = 1 \/ major = 2 -> 0 <= headersize ->
  Z.of_nat (length (put_items major ks)) < 2 ^ 31 ->
  forall fuel offset g, (length ks <= fuel)%nat ->
  size <= offset + headersize + Z.of_nat (length (put_items major ks)) ->
  holds m (b + offset) (put_items major ks) ->
  exists last,
  parse_items fuel m b headersize major size offset g =
    (g ← handle_keys (reached major headersize size offset ks) g; Got (THD_SUCCESS, Some last, g)).
Proof.
  intros Hmaj Hh. induction ks as [|k ks IH]; intros Hlen fuel offset g Hf Hsize Hm.
  - exists offset. cbn in Hsize. destruct fuel; cbn [parse_items]; by rewrite (proj2 (Z.ltb_ge _ _)) by lia.
  - cbn [reached]. unfold put_items in *. cbn [map concat] in *. rewrite length_app in *.
    apply holds_app in Hm as [Hk Hm].
    destruct fuel as [|fuel]; [simpl in Hf; lia|]. cbn [parse_items].
    destruct (offset + headersize <? size) eqn:E; [|by exists offset].
    cbn [handle_keys]. pose proof (put_item_length major k Hmaj) as Ek.
    assert (0 <= (if major =? 2 then 2 else 0)) by (destruct (major =? 2); lia).
    destruct (IH ltac:(lia) fuel (offset + Z.of_nat (length (put_item major k)))
      (default g (match handle_key k.1 k.2 g with Got g' => Some g' | _ => None end)))
      as [last El]; [simpl in Hf; lia|lia|by rewrite Z.add_assoc|].
    exists last.
    assert (parse_gddv_key m (b + offset + (if major =? 2 then 2 else 0)) g =
      (g ← handle_key k.1 k.2 g; Got (g, Z.of_nat (length (put_key k))))) as Eg.
    { apply parse_key_encoded; [|lia]. unfold put_item in Hk.
      destruct Hmaj as [-> | ->]; cbn [Z.eqb Pos.eqb app] in *; [by rewrite Z.add_0_r|].
      apply holds_app in Hk as [_ Hk]. exact Hk. }
    rewrite Ek in El. destruct Hmaj as [-> | ->]; cbn [Z.eqb Pos.eqb] in *.
    + rewrite Z.add_0_r in Eg. rewrite Eg, Ek. by destruct (handle_key k.1 k.2 g) as [g'| | |].
    + assert (rd16 m (b + offset) = Some ESIFDV_ITEM_KEYS_REV0_SIGNATURE) as ->.
      { apply holds_app in Hk as [Hk _]. apply rd16_holds; [exact Hk|by vm_compute]. }
      rewrite Z.eqb_refl, Eg, Ek. rewrite !Z.add_assoc in *.
      by destruct (handle_key k.1 k.2 g) as [g'| | |].
Qed.

(** A vault of version 1: a header of twelve bytes and the keys. *)
Definition vault1 (ks : list (list Z * Mem)) : Mem :=
  le 2 ESIFDV_HEADER_SIGNATURE ++ le 2 12 ++ le 4 0x01000000 ++ le 4 0 ++ put_items 1 ks.
(** A vault of version 2, with the size of its keys in the header. *)
Definition vault2 (ks : list (list Z * Mem)) : Mem :=
  le 2 ESIFDV_HEADER_SIGNATURE ++ le 2 148 ++ le 4 0x02000000 ++ le 4 0 ++ repeat 0 128 ++
  le 4 (Z.of_nat (length (put_items 2 ks))) ++ le 4 0 ++ put_items 2 ks.

Lemma put_items_long major ks : major = 1 \/ major = 2 ->
  (16 * length ks <= length (put_items major ks))%nat.
Proof.
  intros Hm. unfold put_items. induction ks as [|k ks IH]; cbn [map concat length]; [lia|].
  rewrite length_app. pose proof (put_item_length major k Hm). pose proof (put_key_length k).
  destruct (major =? 2); lia.
Qed.

Lemma reached_all ks offset size : size = offset + Z.of_nat (length (put_items 1 ks)) ->
  reached 1 12 size offset ks = ks.
Proof.
  revert offset. induction ks as [|k ks IH]; intros offset Hs; [done|]. cbn [reached].
  unfold put_items in Hs. cbn [map concat] in Hs. rewrite length_app in Hs.
  pose proof (put_item_length 1 k ltac:(by left)) as Ek. pose proof (put_key_length k).
  cbn [Z.eqb Pos.eqb] in Ek. rewrite (proj2 (Z.ltb_lt _ _)) by lia. f_equal. apply IH.
  unfold put_items. lia.
Qed.

Lemma header_holds m sg hs ver fl rest :
  m = le 2 sg ++ le 2 hs ++ le 4 ver ++ le 4 fl ++ rest ->
  0 <= sg < 2 ^ 16 -> 0 <= hs < 2 ^ 16 -> 0 <= ver < 2 ^ 32 -> 0 <= fl < 2 ^ 32 ->
  rd16 m 0 = Some sg /\ rd16 m (0 + 2) = Some hs /\ rd32 m (0 + 4) = Some ver /\
  rd32 m (0 + 8) = Some fl /\ holds m 12 rest.
Proof.
  intros Hm H1 H2 H3 H4.
  assert (holds m 0 (le 2 sg ++ le 2 hs ++ le 4 ver ++ le 4 fl ++ rest)) as Hh
    by (exists [], []; by rewrite app_nil_r).
  apply holds_app in Hh as [A1 Hh]. apply holds_app in Hh as [A2 Hh]. apply holds_app in Hh as [A3 Hh].
  apply holds_app in Hh as [A4 Hh]. repeat split.
  - by apply rd16_holds. - by apply rd16_holds. - by apply rd32_holds. - by apply rd32_holds.
  - exact Hh.
Qed.

(** Every key of a vault of version 1 is handled, in order. *)
Lemma vault1_parsed ks g fuel : (length ks < fuel)%nat ->
  148 <= Z.of_nat (length (vault1 ks)) < 2 ^ 31 ->
  exists last, parse_gddv fuel (vault1 ks) 0 (sint 32 (Z.of_nat (length (vault1 ks)))) g =
    (g ← handle_keys ks g; Got (THD_SUCCESS, Some last, g)).
Proof.
  intros Hf Hl. destruct fuel as [|fuel]; [lia|]. rewrite sint_id by lia. cbn [parse_gddv].
  rewrite (proj2 (Z.ltb_ge _ _)) by (unfold sizeof_header; lia).
  assert (Z.of_nat (length (vault1 ks)) = 12 + Z.of_nat (length (put_items 1 ks))) as El.
  { unfold vault1. rewrite !length_app, !le_length. lia. }
  destruct (header_holds (vault1 ks) ESIFDV_HEADER_SIGNATURE 12 0x01000000 0 (put_items 1 ks) eq_refl)
    as (E1 & E2 & E3 & E4 & Hh); [by vm_compute..|].
  assert (ESIFHDR_GET_MAJOR 0x01000000 = 1) as Em by (vm_compute; reflexivity).
  generalize dependent (vault1 ks). intros m Hl El E1 E2 E3 E4 Hh.
  rewrite E1, E2, E3, E4, Em, Z.eqb_refl. cbn [negb andb Z.eqb Pos.eqb].
  destruct (items_encoded m 0 12 1 (Z.of_nat (length m)) ks (or_introl eq_refl)
    ltac:(lia) ltac:(lia) fuel 12 g ltac:(lia) ltac:(lia) Hh) as [last E].
  exists last. rewrite E, reached_all; [done|lia].
Qed.

(** A vault of version 2 without compression: only the keys that start before
    the size of the payload less the length of the header are handled. *)
Lemma vault2_parsed ks g fuel : (length ks < fuel)%nat ->
  Z.of_nat (length (vault2 ks)) < 2 ^ 31 ->
  exists last, parse_gddv fuel (vault2 ks) 0 (sint 32 (Z.of_nat (length (vault2 ks)))) g =
    (g ← handle_keys (reached 2 148 (Z.of_nat (length (put_items 2 ks))) 148 ks) g;
     Got (THD_SUCCESS, Some last, g)).
Proof.
  intros Hf Hl. destruct fuel as [|fuel]; [lia|]. rewrite sint_id by lia. cbn [parse_gddv].
  assert (Z.of_nat (length (vault2 ks)) = 148 + Z.of_nat (length (put_items 2 ks))) as El.
  { unfold vault2. rewrite !length_app, !le_length, repeat_length. lia. }
  rewrite (proj2 (Z.ltb_ge _ _)) by (unfold sizeof_header; lia).
  destruct (header_holds (vault2 ks) ESIFDV_HEADER_SIGNATURE 148 0x02000000 0
    (repeat 0 128 ++ le 4 (Z.of_nat (length (put_items 2 ks))) ++ le 4 0 ++ put_items 2 ks) eq_refl)
    as (E1 & E2 & E3 & E4 & Hh); [by vm_compute..|].
  assert (ESIFHDR_GET_MAJOR 0x02000000 = 2) as Em by (vm_compute; reflexivity).
  generalize dependent (vault2 ks). intros m Hl El E1 E2 E3 E4 Hh.
  rewrite E1, E2, E3, E4, Em, Z.eqb_refl. cbn [negb andb Z.eqb Pos.eqb].
  change (Z.land 0 ESIF_SERVICE_CONFIG_COMPRESSED =? 0) with true. cbn [negb].
  apply holds_app in Hh as [_ Hh]. rewrite repeat_length in Hh.
  apply holds_app in Hh as [Hs Hh]. apply holds_app in Hh as [_ Hh]. rewrite !le_length in Hh.
  change (0 + off_payload_size) with (12 + Z.of_nat 128).
  rewrite (rd32_holds _ _ _ Hs) by lia. cbn [mbind option_bind]. rewrite sint_id by lia.
  destruct (items_encoded m 0 148 2 (Z.of_nat (length (put_items 2 ks))) ks (or_intror eq_refl)
    ltac:(lia) ltac:(lia) fuel 148 g ltac:(lia) ltac:(lia) Hh) as [last E].
  by exists last.
Qed.

(** *** The tables of a vault *)

(** A path, as the bytes of a key. *)
Definition path (s : string) : list Z := bytes_of s ++ [0].

(** The tables the adaptive engine works with, under the paths it looks for. *)
Definition policy_keys (ts : list adaptive_target) (cs : list (Z * list condition)) (pb : list pbat_entry)
    (pc : list (Z * list condition)) (ps : list psv) : list (list Z * Mem) :=
  [(path "/participants/IETM.D0/apat", table 2 ts);
   (path "/participants/IETM.D0/apct", apct_table cs);
   (path "/participants/IETM.D0/pbat", table 2 pb);
   (path "/participants/IETM.D0/pbct", pbct_table pc);
   (path "/shared/tables/psvt/generic_os", table 2 ps)].

(** Run [handle_key] on a closed key: which tables it parses is computed. *)
Ltac run_key :=
  match goal with |- mbind _ (handle_key ?k ?v ?g) = _ =>
    let t := eval unfold handle_key in (handle_key k v g) in change (handle_key k v g) with t end;
  match goal with |- context [split_key ?k] =>
    let v := eval vm_compute in (split_key k) in change (split_key k) with v end;
  cbv beta iota zeta; unfold when;
  repeat match goal with
  | |- context [if ?b then _ else _] =>
      match b with
      | context [table] => fail 1
      | _ => let v := eval vm_compute in b in
             match v with true => idtac | false => idtac end; change b with v
      end; cbv beta iota
  end; cbn [mbind Out_bind].

Lemma policy_tables ts cs pb pc ps :
  table_fits 2 ts -> table_fits 2 pb -> table_fits 2 ps ->
  Forall (set_fits bad_apct_target) cs -> Z.of_nat (length (apct_table cs)) < 2 ^ 31 ->
  Forall (set_fits bad_pbct_target) pc -> Z.of_nat (length (pbct_table pc)) < 2 ^ 31 ->
  handle_keys (policy_keys ts cs pb pc ps) no_tables =
    Got (Build_Gddv [] [] (map snd cs) ts [Psvt "generic_os" ps] [] [] pb
           (map (fun '(t, cs) => Pbct t cs) pc) [] EmptyString [] []).
Proof.
  intros Ht Hp Hs Hc Lc Hb Lb. unfold policy_keys. cbn [handle_keys fst snd].
  run_key. rewrite apat_loaded by done. cbn [mbind Out_bind].
  run_key. rewrite apct_loaded by done. cbn [mbind Out_bind].
  run_key. rewrite pbat_loaded by done. cbn [mbind Out_bind].
  run_key. rewrite pbct_loaded by done. cbn [mbind Out_bind].
  run_key. rewrite psvt_loaded by done. reflexivity.
Qed.

(** The tables that these keys stand for. *)
Definition policies (ts : list adaptive_target) (cs : list (Z * list condition)) (pb : list pbat_entry)
    (pc : list (Z * list condition)) (ps : list psv) : Gddv :=
  Build_Gddv [] [] (map snd cs) ts [Psvt "generic_os" ps] [] [] pb (map (fun '(t, cs) => Pbct t cs) pc) [] EmptyString [] [].

(** The loop gets to all five keys when the last of them is longer than two headers. *)
Lemma policy_keys_reached ts cs pb pc ps : 296 < Z.of_nat (length (table 2 ps)) ->
  let ks := policy_keys ts cs pb pc ps in reached 2 148 (Z.of_nat (length (put_items 2 ks))) 148 ks = ks.
Proof.
  intros Hlast. unfold policy_keys. set (k5 := (path _, table 2 ps)).
  assert (296 < Z.of_nat (length (put_item 2 k5))) as H5.
  { rewrite put_item_length, put_key_length by (by right). unfold k5. cbn [snd fst Z.eqb Pos.eqb]. lia. }
  clearbody k5. unfold put_items. cbn [map concat]. rewrite app_nil_r, !length_app. cbn [reached].
  rewrite !(proj2 (Z.ltb_lt _ _)) by lia. done.
Qed.

(** C17: A vault of version 1, or of version 2 without compression when its last table
    is longer than two headers, with the five tables of the adaptive engine is loaded as
    these tables. *)
Theorem policies_loaded fuel ts cs pb pc ps :
  table_fits 2 ts -> table_fits 2 pb -> table_fits 2 ps ->
  Forall (set_fits bad_apct_target) cs -> Z.of_nat (length (apct_table cs)) < 2 ^ 31 ->
  Forall (set_fits bad_pbct_target) pc -> Z.of_nat (length (pbct_table pc)) < 2 ^ 31 ->
  (5 < fuel)%nat ->
  let ks := policy_keys ts cs pb pc ps in
  (148 <= Z.of_nat (length (vault1 ks)) < 2 ^ 31 ->
   load_tables fuel (vault1 ks) = Got (Some (policies ts cs pb pc ps))) /\
  (296 < Z.of_nat (length (table 2 ps)) -> Z.of_nat (length (vault2 ks)) < 2 ^ 31 ->
   load_tables fuel (vault2 ks) = Got (Some (policies ts cs pb pc ps))).
Proof.
  intros Ht Hp Hs Hc Lc Hb Lb Hf ks. unfold load_tables. split.
  - intros Hv. destruct (vault1_parsed ks no_tables fuel Hf Hv) as [last E].
    rewrite E. unfold ks. by rewrite policy_tables by done.
  - intros Hlast Hv. destruct (vault2_parsed ks no_tables fuel Hf Hv) as [last E].
    rewrite E. unfold ks. by rewrite policy_keys_reached, policy_tables by done.
Qed.

(** The last key of a vault of version 2 is not handled when it and its header
    signature take at most 296 bytes. *)
Theorem short_last_key_dropped fuel ks k g :
  (S (length ks) < fuel)%nat -> Z.of_nat (length (vault2 (ks ++ [k]))) < 2 ^ 31 ->
  Z.of_nat (length (put_item 2 k)) <= 296 ->
  exists handled rest last, ks = handled ++ rest /\
    parse_gddv fuel (vault2 (ks ++ [k])) 0 (sint 32 (Z.of_nat (length (vault2 (ks ++ [k]))))) g =
      (g ← handle_keys handled g; Got (THD_SUCCESS, Some last, g)).
Proof.
  intros Hf Hl Hk. destruct (vault2_parsed (ks ++ [k]) g fuel) as [last E]; [|done|].
  { rewrite length_app. simpl. lia. }
  assert (forall size offset, size <= offset + 148 + Z.of_nat (length (put_items 2 ks)) ->
    exists rest, ks = reached 2 148 size offset (ks ++ [k]) ++ rest) as Hr.
  { clear. induction ks as [|k' ks IH]; intros size offset Hs; cbn [app reached].
    - cbn in Hs. rewrite (proj2 (Z.ltb_ge _ _)) by lia. by exists [].
    - destruct (offset + 148 <? size); [|by exists (k' :: ks)].
      destruct (IH size (offset + Z.of_nat (length (put_item 2 k')))) as [rest Er].
      { unfold put_items in *. cbn [map concat] in Hs. rewrite length_app in Hs. lia. }
      exists rest. cbn [app]. by rewrite <- Er. }
  destruct (Hr (Z.of_nat (length (put_items 2 (ks ++ [k])))) 148) as [rest Er].
  { unfold put_items. rewrite map_app, concat_app, length_app. cbn [map concat].
    rewrite app_nil_r. lia. }
  by exists (reached 2 148 (Z.of_nat (length (put_items 2 (ks ++ [k])))) 148 (ks ++ [k])), rest, last.
Qed.

(** A compressed vault inside a vault does not say where it ends: whatever it
    holds, the loop never gets past it. *)
Theorem compressed_segment_not_passed m b headersize size offset version flags fuel g last g' :
  offset + headersize < size ->
  rd16 m (b + offset) = Some ESIFDV_HEADER_SIGNATURE ->
  rd32 m (b + offset + 4) = Some version -> ESIFHDR_GET_MAJOR version = 2 ->
  rd32 m (b + offset + 8) = Some flags -> Z.land flags ESIF_SERVICE_CONFIG_COMPRESSED <> 0 ->
  parse_items fuel m b headersize 2 size offset g <> Got (THD_SUCCESS, last, g').
Proof.
  intros Hoff Hsig Hver Hmaj Hflags Hc. revert g.
  induction fuel as [fuel IH] using lt_wf_ind. intros g.
  destruct fuel as [|fuel]; cbn [parse_items]; rewrite (proj2 (Z.ltb_lt _ _)) by lia; [done|].
  rewrite Hsig. cbn [Z.eqb Pos.eqb ESIFDV_ITEM_KEYS_REV0_SIGNATURE ESIFDV_HEADER_SIGNATURE].
  assert (forall r, parse_gddv fuel m (b + offset) (size - offset) g = Got r -> r.1.2 = None) as Hn.
  { intros r. destruct fuel as [|fuel']; cbn [parse_gddv]; [done|].
    destruct (_ <? _); [by intros [= <-]|]. rewrite Hsig, Hver, Hflags, Hmaj.
    destruct (rd16 m (b + offset + 2)); [|done]. rewrite (proj2 (Z.eqb_neq _ 0)) by done.
    cbn [negb andb orb Z.eqb Pos.eqb ESIFDV_HEADER_SIGNATURE].
    destruct (decompress m (b + offset) (size - offset)) as [d| | |]; try done. cbn [mbind Out_bind].
    destruct (parse_gddv fuel' d 0 _ g) as [[[? ?] ?]| | |]; try done. by intros [= <-]. }
  destruct (parse_gddv fuel m (b + offset) (size - offset) g) as [[[res e] g1]| | |]; try done.
  specialize (Hn _ eq_refl). simpl in Hn. subst e. cbn [mbind Out_bind].
  destruct (Z.eqb_spec res THD_SUCCESS) as [->|Hres]; cbn [negb].
  - cbn [default from_option]. rewrite Z.add_0_r. apply IH. lia.
  - intros [= ?]. done.
Qed.

End Encoded.

(** ** Concrete vaults *)

Module Sim.
#[local] Instance heap : Alloc := {| can_alloc _ := true; uninit n := repeat 0 (Z.to_nat n) |}.

Definition ts : list adaptive_target := [Target 7 "t" "\_SB_.TCPU" 0 "PL1MAX" "15000"].
Definition cs : list (Z * list condition) :=
  [(7, [Cond 48 "\_SB_.SEN3" 3 3232 FOR 3 10 7 0 false; Cond 8 "" 1 0 0 0 0 7 0 false])].
Definition pb : list pbat_entry := [Pbat 0 "p" "\_SB_.TCPU" 0 "PL2PowerLimit" "45000"].
Definition pc : list (Z * list condition) := [(0, [Cond 9 "" 2 0 0 0 0 0 0 false])].
Definition ps : list psv := [Psv "\_SB_.TCPU" "\_SB_.SEN3" 1 50 3282 9 65536 "MIN" 500 10 10].

Definition four : list psv := repeat (Psv "\_SB_.TCPU" "\_SB_.SEN3" 1 50 3282 9 65536 "MIN" 500 10 10) 4.

(** A key that fits in one header length. *)
Definition key : list Z * Mem := (path "/participants/SEN3/trippoint/_psv", le 4 3282).
(** A compressed vault behind a header. *)
Definition nested : Mem :=
  le 2 ESIFDV_HEADER_SIGNATURE ++ le 2 148 ++ le 4 0x02000000 ++ le 4 0 ++ repeat 0 128 ++ le 4 1000 ++ le 4 0 ++
  le 2 ESIFDV_HEADER_SIGNATURE ++ le 2 148 ++ le 4 0x02000000 ++ le 4 ESIF_SERVICE_CONFIG_COMPRESSED ++
  repeat 0 128 ++ le 4 0 ++ le 4 0 ++ repeat 0 600.
End Sim.
Import Sim.

Lemma policies_loaded_witness :
  load_tables (H := heap) 6 (vault1 (policy_keys ts cs pb pc ps)) = Got (Some (policies ts cs pb pc ps)) /\
  load_tables (H := heap) 6 (vault2 (policy_keys ts cs pb pc four)) = Got (Some (policies ts cs pb pc four)).
Proof.
  assert (table_fits 2 ts) by (split; [repeat constructor; vm_compute; done|by vm_compute]).
  assert (table_fits 2 pb) by (split; [repeat constructor; vm_compute; done|by vm_compute]).
  assert (Forall (set_fits bad_apct_target) cs) by (repeat constructor; vm_compute; done).
  assert (Forall (set_fits bad_pbct_target) pc) by (repeat constructor; vm_compute; done).
  assert (table_fits 2 ps) by (split; [repeat constructor; vm_compute; done|by vm_compute]).
  assert (table_fits 2 four) by (split; [repeat constructor; vm_compute; done|by vm_compute]).
  split.
  - apply (policies_loaded (H := heap) 6 ts cs pb pc ps); try done; try lia; by vm_compute.
  - apply (policies_loaded (H := heap) 6 ts cs pb pc four); try done; try lia; by vm_compute.
Defined.

Lemma short_last_key_dropped_witness :
  exists handled rest last, [key; key; key] = handled ++ rest /\
    parse_gddv (H := heap) 6 (vault2 [key; key; key; key]) 0
      (sint 32 (Z.of_nat (length (vault2 [key; key; key; key])))) no_tables =
      (g ← handle_keys handled no_tables; Got (THD_SUCCESS, Some last, g)).
Proof. apply (short_last_key_dropped (H := heap) 6 [key; key; key] key); vm_compute; [lia|done|done]. Defined.

Lemma compressed_segment_not_passed_witness :
  ~ parse_items (H := heap) 40 nested 0 148 2 1000 148 no_tables = Got (THD_SUCCESS, Some 1000, no_tables).
Proof.
  apply (compressed_segment_not_passed (H := heap) nested 0 148 1000 148 0x02000000 ESIF_SERVICE_CONFIG_COMPRESSED);
    vm_compute; done.
Defined.
