(* ===== verification/Packed.v ===== *)
(** * Compressed vaults

    The vault of the firmware is a header of version 2 that says that it is compressed, before an LZMA
    file.  [packed] makes one from the streams of LzmaEncode.v; the daemon unpacks it to the vault
    ([unpacked]) and loads what is in it. *)

From Stdlib Require Import ZArith Lia Ascii String.
From stdpp Require Import base list option strings.
From S2P Require Import Prelude Bytes RangeCoder LzmaDec LzmaSymbol LzmaSafe RangeEncode LzmaEncode LzmaRound ThdCommon Objects Gddv Vault.

#[local] Open Scope Z_scope.

(** ** Writing over bytes *)

Lemma wr8_over pre x post v : wr8 (pre ++ x :: post) (Z.of_nat (length pre)) v = Some (pre ++ wrap 8 v :: post).
Proof.
  unfold wr8. rewrite length_app, (proj2 (Z.leb_le 0 _)), (proj2 (Z.ltb_lt _ _)) by (cbn [length]; lia). cbn [andb]. f_equal.
  rewrite Nat2Z.id. replace (length pre) with (length pre + 0)%nat by lia. by rewrite insert_app_r.
Qed.
Lemma wr32_over pre e post v : length e = 4%nat -> wr32 (pre ++ e ++ post) (Z.of_nat (length pre)) v = Some (pre ++ le 4 v ++ post).
Proof.
  intros He. destruct e as [|a [|b [|c [|d [|x e]]]]]; try done. unfold wr32, wr16. cbn [app].
  rewrite wr8_over. cbn [mbind option_bind].
  replace (Z.of_nat (length pre) + 1) with (Z.of_nat (length (pre ++ [wrap 8 v]))) by (rewrite length_app; cbn; lia).
  replace (pre ++ wrap 8 v :: b :: c :: d :: post) with ((pre ++ [wrap 8 v]) ++ b :: c :: d :: post) by (by rewrite <- app_assoc).
  rewrite wr8_over. cbn [mbind option_bind]. rewrite <- app_assoc. cbn [app].
  replace (Z.of_nat (length pre) + 2) with (Z.of_nat (length (pre ++ [wrap 8 v; wrap 8 (v / 256)]))) by (rewrite length_app; cbn; lia).
  replace (pre ++ wrap 8 v :: wrap 8 (v / 256) :: c :: d :: post) with ((pre ++ [wrap 8 v; wrap 8 (v / 256)]) ++ c :: d :: post) by (by rewrite <- app_assoc).
  rewrite wr8_over. cbn [mbind option_bind]. rewrite <- app_assoc. cbn [app].
  replace (Z.of_nat (length (pre ++ [wrap 8 v; wrap 8 (v / 256)])) + 1) with (Z.of_nat (length (pre ++ [wrap 8 v; wrap 8 (v / 256); wrap 8 (v / 65536)]))) by (rewrite !length_app; cbn; lia).
  replace (pre ++ wrap 8 v :: wrap 8 (v / 256) :: wrap 8 (v / 65536) :: d :: post) with ((pre ++ [wrap 8 v; wrap 8 (v / 256); wrap 8 (v / 65536)]) ++ d :: post) by (by rewrite <- app_assoc).
  rewrite wr8_over, <- app_assoc. cbn [app le]. unfold wrap. change (2 ^ 8) with 256. rewrite !Z.div_div by lia. done.
Qed.

Lemma le_bytes k v : Forall byte_ok (le k v).
Proof. revert v. induction k as [|k IH]; intros v; constructor; [apply Z.mod_pos_bound; lia|apply IH]. Qed.

(** ** A compressed vault *)

(** An LZMA file: the properties, the size of the dictionary, that of the content and the stream. *)
Definition lzma_file (dict n : Z) (stream : list Z) : list Z := 0x5D :: le 4 dict ++ le 8 n ++ stream.
(** The properties that 0x5D stands for. *)
Definition file_props (dict : Z) : CLzmaProps := mkProps 3 0 2 (if dict <? LZMA_DIC_MIN then LZMA_DIC_MIN else dict).
(** The part of a header that is the same for both. *)
Definition header_start (flags : Z) : list Z := le 2 ESIFDV_HEADER_SIGNATURE ++ le 2 148 ++ le 4 0x02000000 ++ le 4 flags ++ repeat 0 128.
Definition packed (dict n : Z) (stream : list Z) : Mem :=
  header_start ESIF_SERVICE_CONFIG_COMPRESSED ++ le 4 0 ++ le 4 0 ++ lzma_file dict n stream.

Lemma header_start_length flags : length (header_start flags) = 140%nat.
Proof. unfold header_start. by rewrite !length_app, !le_length, repeat_length. Qed.
Lemma header_vault ks : vault2 ks = header_start 0 ++ le 4 (Z.of_nat (length (put_items 2 ks))) ++ le 4 0 ++ put_items 2 ks.
Proof. unfold vault2, header_start. by rewrite <- !app_assoc. Qed.
Lemma lzma_file_length dict n stream : length (lzma_file dict n stream) = (13 + length stream)%nat.
Proof. unfold lzma_file. cbn [length]. rewrite !length_app, !le_length. lia. Qed.

Section Packed.
Context `{AllocLaws}.
Context (dict : Z) (ts : list Token) (content stream : list Z).
Hypothesis dict_ok : 0 <= dict < 2 ^ 32.
Hypothesis dict_low : dict mod 256 = 0.
Hypothesis compressed : compress (file_props dict) ts = Some (content, stream).
Hypothesis content_size : 0 < Z.of_nat (length content) < dicSize (file_props dict).
Hypothesis probs_there : can_alloc (2 * LzmaProps_GetNumProbs (file_props dict)) = true.
Abbreviation n := (Z.of_nat (length content)).
Abbreviation file := (lzma_file dict n stream).

Lemma file_props_ok : props_ok (file_props dict).
Proof.
  unfold file_props. split; cbn; try lia. change LZMA_DIC_MIN with 4096. change (2 ^ 32) with 4294967296 in *. destruct (Z.ltb_spec dict 4096); lia.
Qed.
Lemma content_small : n < 2 ^ 32.
Proof. pose proof (dicSize_ok _ file_props_ok). lia. Qed.
Lemma stream_bytes : Forall byte_ok stream /\ (5 <= length stream)%nat.
Proof.
  pose proof compressed as Hc. unfold compress in Hc. destruct (expand ts start) as [q|]; [|done]. cbn [mbind option_bind] in Hc.
  destruct (encode_tokens _ _ _ _ _) as [[q' ef]|]; [|done]. cbn [mbind option_bind] in Hc. assert (stream = 0 :: be_bytes (4 + shifts ef) (low ef)) as -> by (rewrite <- be_bytes_le; congruence).
  split; [constructor; [by unfold byte_ok|apply be_bytes_ok]|cbn [length]; rewrite be_bytes_length; lia].
Qed.
Lemma file_bytes : Forall byte_ok file.
Proof.
  constructor; [by unfold byte_ok|]. apply Forall_app_2; [apply le_bytes|]. apply Forall_app_2; [apply le_bytes|]. apply stream_bytes.
Qed.
Lemma file_reads : rd8 file 0 = Some 0x5D /\ rd8 file 1 = Some 0 /\ rd32 file 1 = Some dict /\ rd64 file 5 = Some n.
Proof.
  split; [done|]. split; [change (rd8 file 1) with (Some (dict mod 256)); by rewrite dict_low|].
  split; [exact (read32 [0x5D] (le 4 dict) (le 8 n ++ stream) dict eq_refl dict_ok)|].
  apply (read64 (0x5D :: le 4 dict) (le 8 n) stream n eq_refl). pose proof content_small. change (2 ^ 32) with 4294967296 in *. change (2 ^ 64) with 18446744073709551616. lia.
Qed.
Lemma file_decoded : LzmaProps_Decode file 13 = Some (inl (file_props dict)).
Proof. destruct file_reads as (E0 & _ & E1 & _). unfold LzmaProps_Decode. rewrite E0, E1. reflexivity. Qed.
Lemma file_size : lzma_size file = n.
Proof.
  destruct file_reads as (E0 & E1 & _ & E5). unfold lzma_size. rewrite lzma_file_length, (proj2 (Z.ltb_lt 13 _)) by (destruct stream_bytes; lia). rewrite E0, E1, E5.
  pose proof content_small. change (2 ^ 32) with 4294967296 in *. change (2 ^ 64) with 18446744073709551616. rewrite (proj2 (Z.ltb_lt 0 n)), (proj2 (Z.eqb_neq n _)) by lia. done.
Qed.
Lemma file_unpacked dest : length dest = length content -> Forall byte_ok dest -> lzma_decompress dest file n = Some (true, content, n).
Proof.
  intros Hl Hb. unfold lzma_decompress. rewrite lzma_file_length, (proj2 (Z.ltb_lt 13 _)) by (destruct stream_bytes; lia).
  change (drop 13 file) with stream. rewrite (compress_decoded ts content stream dest file 13 (file_props dict) LZMA_FINISH_ANY compressed file_decoded file_props_ok probs_there) by (done || lia).
  cbn [mbind option_bind d_res d_destLen d_dest]. destruct file_reads as (_ & _ & _ & ->). cbn [mbind option_bind].
  pose proof content_small. change (2 ^ 32) with 4294967296 in *. change LZMA_MAX_COMPRESSED_SIZE with 9223372036854775806. rewrite (proj2 (Z.ltb_ge _ n)), Z.leb_refl by lia.
  rewrite bool_decide_eq_true_2 by done. do 4 f_equal. unfold dic_after. rewrite <- Hl, drop_all. by rewrite app_nil_r.
Qed.

(** The daemon's copy of a packed vault is the vault. *)
Lemma unpacked ks : content = put_items 2 ks -> can_alloc (148 + n) = true ->
  decompress (packed dict n stream) 0 (Z.of_nat (length (packed dict n stream))) = Got (vault2 ks).
Proof.
  intros Eks Ha. pose proof content_small as Hsm. change (2 ^ 32) with 4294967296 in Hsm.
  assert (Z.of_nat (length (packed dict n stream)) = 148 + Z.of_nat (length file)) as El.
  { unfold packed. rewrite !length_app, header_start_length, !le_length. lia. }
  set (hdr := header_start ESIF_SERVICE_CONFIG_COMPRESSED ++ le 4 0 ++ le 4 0).
  assert (length hdr = 148%nat) as Eh by (unfold hdr; by rewrite !length_app, header_start_length, !le_length).
  assert (packed dict n stream = hdr ++ file) as Em by (unfold packed, hdr; by rewrite <- !app_assoc).
  assert (rd16 (packed dict n stream) (0 + 2) = Some 148) as E2.
  { change (packed dict n stream) with (le 2 ESIFDV_HEADER_SIGNATURE ++ le 2 148 ++ le 4 0x02000000 ++ le 4 ESIF_SERVICE_CONFIG_COMPRESSED ++ repeat 0 128 ++ le 4 0 ++ le 4 0 ++ file). done. }
  destruct file_reads as (_ & _ & _ & E5).
  unfold decompress. rewrite E2. cbn [mbind option_bind].
  assert (rd64 (packed dict n stream) (0 + 148 + 5) = Some n) as ->.
  { rewrite Em. replace (0 + 148 + 5) with (Z.of_nat (length hdr) + 5) by lia. by rewrite rd64_app_r by lia. }
  cbn [mbind option_bind]. rewrite wrap_small by (change (2 ^ 64) with 18446744073709551616; lia). rewrite Ha. cbn [negb].
  assert (slice (packed dict n stream) (0 + 148) (Z.of_nat (length (packed dict n stream)) - 148) = Some file) as ->.
  { rewrite El. replace (148 + Z.of_nat (length file) - 148) with (Z.of_nat (length file)) by lia. apply slice_holds. exists hdr, []. rewrite app_nil_r, Eh. by rewrite Em. }
  cbn [mbind option_bind]. rewrite file_size. pose proof (uninit_length (148 + n) ltac:(lia)) as Hu. pose proof (uninit_bytes (148 + n)) as Hub.
  rewrite file_unpacked; [|rewrite length_drop; lia|by apply Forall_drop]. cbn [mbind option_bind].
  assert (slice (packed dict n stream) 0 148 = Some hdr) as ->.
  { replace 148 with (Z.of_nat (length hdr)) by lia. apply slice_holds. exists [], file. by rewrite Em. }
  cbn [mbind option_bind]. set (top := take (Z.to_nat 148) (uninit (148 + n))). assert (length top = 148%nat) as Et by (unfold top; rewrite length_take; lia).
  unfold write_bytes. rewrite length_app, Et, Eh. rewrite (proj2 (Z.ltb_ge 0 0)), (proj2 (Z.ltb_ge (Z.of_nat (148 + length content)) _)) by lia. cbn [orb mbind option_bind].
  change (Z.to_nat 0) with 0%nat. cbn [app Nat.add]. rewrite take_0, <- Et, drop_app_length. cbn [app].
  set (sg := le 2 ESIFDV_HEADER_SIGNATURE ++ le 2 148 ++ le 4 0x02000000).
  assert (hdr ++ content = sg ++ le 4 ESIF_SERVICE_CONFIG_COMPRESSED ++ repeat 0 128 ++ le 4 0 ++ le 4 0 ++ content) as -> by (unfold hdr, header_start, sg; by rewrite <- !app_assoc).
  replace 8 with (Z.of_nat (length sg)) by done. rewrite (read32 sg _ (repeat 0 128 ++ le 4 0 ++ le 4 0 ++ content) ESIF_SERVICE_CONFIG_COMPRESSED eq_refl) by done. cbn [mbind option_bind].
  rewrite wr32_over by done. cbn [mbind option_bind]. change (Z.land ESIF_SERVICE_CONFIG_COMPRESSED (Z.lnot ESIF_SERVICE_CONFIG_COMPRESSED)) with 0.
  assert (sg ++ le 4 0 ++ repeat 0 128 ++ le 4 0 ++ le 4 0 ++ content = header_start 0 ++ le 4 0 ++ le 4 0 ++ content) as -> by (unfold header_start, sg; by rewrite <- !app_assoc).
  change off_payload_size with (Z.of_nat (length (header_start 0))). rewrite wr32_over by done. cbn [mbind option_bind]. by rewrite header_vault, <- Eks.
Qed.

(** What is loaded from a packed vault is what the keys say that the loop gets to. *)
Lemma packed_parsed ks fuel g : content = put_items 2 ks -> can_alloc (148 + n) = true -> (S (length ks) < fuel)%nat ->
  Z.of_nat (length (packed dict n stream)) < 2 ^ 31 -> Z.of_nat (length (vault2 ks)) < 2 ^ 31 ->
  parse_gddv fuel (packed dict n stream) 0 (sint 32 (Z.of_nat (length (packed dict n stream)))) g =
    (g ← handle_keys (reached 2 148 n 148 ks) g; Got (THD_SUCCESS, None, g)).
Proof.
  intros Eks Ha Hf Hl Hv. destruct fuel as [|fuel]; [lia|]. rewrite sint_id by lia. cbn [parse_gddv].
  assert (Z.of_nat (length (packed dict n stream)) = 148 + Z.of_nat (length file)) as El.
  { unfold packed. rewrite !length_app, header_start_length, !le_length. lia. }
  rewrite (proj2 (Z.ltb_ge _ _)) by (unfold sizeof_header; lia).
  destruct (header_holds (packed dict n stream) ESIFDV_HEADER_SIGNATURE 148 0x02000000 ESIF_SERVICE_CONFIG_COMPRESSED (repeat 0 128 ++ le 4 0 ++ le 4 0 ++ file)) as (E1 & E2 & E3 & E4 & _);
    [unfold packed, header_start; by rewrite <- !app_assoc|by vm_compute..|].
  rewrite E1, E2, E3, E4, Z.eqb_refl. assert (ESIFHDR_GET_MAJOR 0x02000000 = 2) as -> by (vm_compute; reflexivity). cbn [negb andb Z.eqb Pos.eqb].
  change (Z.land ESIF_SERVICE_CONFIG_COMPRESSED ESIF_SERVICE_CONFIG_COMPRESSED =? 0) with false. cbn [negb].
  rewrite (unpacked ks Eks Ha). cbn [mbind Out_bind]. destruct (vault2_parsed ks g fuel) as [last E]; [lia|done|]. rewrite E, <- Eks.
  destruct (handle_keys (reached 2 148 n 148 ks) g) as [g1| | |]; reflexivity.
Qed.

(** C16: The tables of the adaptive engine in a vault of version 2, compressed with any choice of matches, are
    loaded from the packed vault as these tables, if the last of them is longer than two headers. *)
Theorem packed_policies_loaded fuel ats cs pb pc ps :
  table_fits 2 ats -> table_fits 2 pb -> table_fits 2 ps ->
  Forall (set_fits bad_apct_target) cs -> Z.of_nat (length (apct_table cs)) < 2 ^ 31 ->
  Forall (set_fits bad_pbct_target) pc -> Z.of_nat (length (pbct_table pc)) < 2 ^ 31 ->
  (6 < fuel)%nat ->
  let ks := policy_keys ats cs pb pc ps in
  content = put_items 2 ks -> 296 < Z.of_nat (length (table 2 ps)) -> can_alloc (148 + n) = true ->
  Z.of_nat (length (packed dict n stream)) < 2 ^ 31 -> Z.of_nat (length (vault2 ks)) < 2 ^ 31 ->
  load_tables fuel (packed dict n stream) =
    Got (Some (Build_Gddv [] [] (map snd cs) ats [Psvt "generic_os" ps] [] [] pb
                 (map (fun '(t, cs) => Pbct t cs) pc) [] EmptyString [] [])).
Proof.
  intros Ht Hp Hs Hc Lc Hb Lb Hf ks Eks Hlast Ha Hl Hv. unfold load_tables.
  rewrite (packed_parsed ks fuel no_tables Eks Ha) by (done || (cbn; lia)).
  assert (reached 2 148 n 148 ks = ks) as -> by (rewrite Eks; by apply policy_keys_reached).
  unfold ks. by rewrite policy_tables by done.
Qed.
End Packed.

(** ** A packed vault *)

Module Firmware.
#[local] Instance heap : Alloc := {| can_alloc _ := true; uninit n := repeat 0 (Z.to_nat n) |}.
#[local] Instance heap_laws : AllocLaws.
Proof. split; [intros n Hn; simpl; rewrite repeat_length; lia|]. intros n. apply Forall_forall. intros x Hx%list_elem_of_In%repeat_spec. by subst x. Qed.
Definition keys : list (list Z * Mem) := policy_keys Sim.ts Sim.cs Sim.pb Sim.pc Sim.four.
Definition content : list Z := put_items 2 keys.
(** The first entry of the last table as bytes, the other three as matches. *)
Definition tokens : list Token := map TLit (take 988 content) ++ [TMatch 170 273; TRep 0 237].

Lemma packed_policies_loaded_witness :
  exists stream, compress (file_props 4096) tokens = Some (content, stream) /\
  load_tables (H := heap) 7 (packed 4096 (Z.of_nat (length content)) stream) =
    Got (Some (Build_Gddv [] [] (map snd Sim.cs) Sim.ts [Psvt "generic_os" Sim.four] [] [] Sim.pb
                 (map (fun '(t, cs) => Pbct t cs) Sim.pc) [] EmptyString [] [])).
Proof.
  assert (exists q, expand tokens start = Some q /\ out q = content) as (q & Eq & Eo) by (eexists; split; vm_compute; reflexivity).
  assert (props_ok (file_props 4096)) as Hp by (split; vm_compute; split; done).
  assert (length content = 1498%nat) as Elen by (vm_compute; reflexivity).
  destruct (compress_total (file_props 4096) tokens q Hp Eq) as [stream Ec]; [unfold written; by rewrite Eo, Elen|].
  rewrite Eo in Ec. exists stream. split; [exact Ec|].
  refine (packed_policies_loaded (H := heap) (H0 := heap_laws) 4096 tokens content stream _ _ Ec _ _ 7 Sim.ts Sim.cs Sim.pb Sim.pc Sim.four _ _ _ _ _ _ _ _ _ _ _ _ _).
  1, 12: lia.
  1, 2, 3, 12, 13, 15: vm_compute; (reflexivity || (split; reflexivity)).
  - clear. split; [repeat constructor; vm_compute; done|by vm_compute].
  - clear. split; [repeat constructor; vm_compute; done|by vm_compute].
  - clear. split; [repeat constructor; vm_compute; done|by vm_compute].
  - clear. repeat constructor; vm_compute; done.
  - clear. by vm_compute.
  - clear. repeat constructor; vm_compute; done.
  - clear. by vm_compute.
  - reflexivity.
  - pose proof (compress_length _ _ _ _ Ec) as Hl. assert (Z.of_nat (code_bits tokens) < 10000) by (clear; by vm_compute).
    unfold packed. rewrite !length_app, header_start_length, !le_length, lzma_file_length. lia.
Defined.
End Firmware.
