(* ===== verification/Conditions.v ===== *)
(** * Conditions of the adaptive engine (thermal_daemon/src/thd_gddv.cpp)

    The evaluation of the APCT and PBCT condition sets that Gddv.v loads: what
    each condition compares, the time a condition must hold, and the search for
    the target whose set is satisfied.  The class [Host] answers the calls to
    sysfs, the sensors, upower, the input devices and the clock, each as a
    function of the number of calls made before, so nothing is assumed of it. *)

From Stdlib Require Import ZArith Lia String.
From stdpp Require Import base list option strings pretty sets.
From S2P Require Import Prelude Bytes Floats ThdCommon Objects Gddv.

#[local] Open Scope Z_scope.
#[local] Open Scope prog_scope.

(** ** The world *)

Class Host := {
  clock : nat -> Z;
  odvp : nat -> string -> option Z;
  sensor_temperature : nat -> string -> option Z;
  lid_dev : option (nat -> Z);
  tablet_dev : option (nat -> Z);
  upower_client : bool;
  on_battery : nat -> bool;
  battery_percentage : nat -> option float;
  power_profiles : option (nat -> option string)
}.

(** [cthd_gddv]: the rules with their state, and the calls made so far. *)
Record Rules := Rls {
  sets : list (list condition);
  power_rules : list pbct_entry;
  power_slider : Z;
  current_target_matched : Z;
  calls : nat
}.

Definition set_sets v r := Rls v (power_rules r) (power_slider r) (current_target_matched r) (calls r).
Definition set_power v r := Rls (sets r) v (power_slider r) (current_target_matched r) (calls r).
Definition set_slider v r := Rls (sets r) (power_rules r) v (current_target_matched r) (calls r).
Definition set_current v r := Rls (sets r) (power_rules r) (power_slider r) v (calls r).
Definition set_calls v r := Rls (sets r) (power_rules r) (power_slider r) (current_target_matched r) v.

(** One call. *)
Definition ask {A} (f : nat -> A) : M Rules A :=
  n <- gets calls ;; modify (set_calls (S n)) ;;; ret (f n).

(** ** Constants *)

Definition Default := 1.
Definition Motion := 4.
Definition Workload := 6.
Definition Power_source := 8.
Definition Aggregate_power_percentage := 9.
Definition Lid_state := 10.
Definition Platform_type := 11.
Definition Temperature := 17.
Definition Oem0 := 19.
Definition Oem5 := 24.
Definition Temperature_without_hysteresis := 48.
Definition Power_slider := 56.
Definition OS_type := 86.

Definition ADAPTIVE_EQUAL := 1.
Definition ADAPTIVE_LESSER_OR_EQUAL := 2.
Definition ADAPTIVE_GREATER_OR_EQUAL := 3.
Definition ADAPTIVE_NOT_EQUAL := 4.
Definition ADAPTIVE_GREATER_THAN := 5.
Definition ADAPTIVE_GREATER_OR_EQUAL_2 := 6.

(** ** Comparisons; [true] is [THD_SUCCESS] *)

Definition compare_condition (c : condition) (value : Z) : bool :=
  let a := argument c in let k := comparison c in
  if k =? ADAPTIVE_EQUAL then value =? a
  else if k =? ADAPTIVE_LESSER_OR_EQUAL then value <=? a
  else if k =? ADAPTIVE_GREATER_OR_EQUAL then a <=? value
  else if k =? ADAPTIVE_NOT_EQUAL then negb (value =? a)
  else if k =? ADAPTIVE_GREATER_THAN then a <? value
  else if k =? ADAPTIVE_GREATER_OR_EQUAL_2 then a <=? value
  else false.

Definition compare_time (c : condition) (now : Z) : bool :=
  let elapsed := sint 32 (now - state_entry_time c) in let k := time_comparison c in
  if k =? ADAPTIVE_EQUAL then elapsed =? time c
  else if k =? ADAPTIVE_LESSER_OR_EQUAL then elapsed <=? time c
  else if k =? ADAPTIVE_GREATER_OR_EQUAL then time c <=? elapsed
  else if k =? ADAPTIVE_NOT_EQUAL then negb (elapsed =? time c)
  else false.

Definition is_oem (k : Z) : bool :=
  ((Oem0 <=? k) && (k <=? Oem5)) || ((0x1000 <=? k) && (k <? 0x10000)).
Definition is_temperature (k : Z) : bool :=
  (k =? Temperature) || (k =? Temperature_without_hysteresis) || (k =? 0).

Section Evaluation.
Context `{Host}.

Definition evaluate_oem_condition (c : condition) : M Rules bool :=
  let k := cond c in
  let n := if k <=? Oem5 then k - Oem0 else k - 0x1000 + 6 in
  value <- ask (fun i => odvp i ("odvp" +:+ pretty n)) ;;
  ret (match value with Some v => compare_condition c v | None => false end).

(** The condition is a copy, so that a sensor that is missing is looked for
    again at each evaluation. *)
Definition evaluate_temperature_condition (c : condition) : M Rules bool :=
  if ignore_condition c then ret false
  else
    value <- ask (fun i => sensor_temperature i (last_component (device c))) ;;
    ret (match value with
         | Some v => compare_condition c (Z.quot (sint 32 v) 100 + 2732)
         | None => false
         end).

Definition evaluate_lid_condition (c : condition) : M Rules bool :=
  match lid_dev with
  | Some f => lid_closed <- ask f ;; ret (compare_condition c (if lid_closed =? 0 then 1 else 0))
  | None => ret (compare_condition c 0)
  end.

Definition evaluate_workload_condition (c : condition) : bool := compare_condition c 3.

Definition evaluate_platform_type_condition (c : condition) : M Rules bool :=
  match tablet_dev with
  | Some f => tablet <- ask f ;; ret (compare_condition c (if tablet =? 0 then 1 else 2))
  | None => ret (compare_condition c 1)
  end.

Definition evaluate_power_slider_condition (c : condition) : M Rules bool :=
  s <- gets power_slider ;; ret (compare_condition c s).

Definition evaluate_ac_condition (c : condition) : M Rules bool :=
  b <- ask on_battery ;; ret (compare_condition c (if b : bool then 1 else 0)).

Definition evaluate_os_type_condition (c : condition) : bool := compare_condition c 3.

Definition evaluate_battery_condition (c : condition) : M Rules bool :=
  if (comparison c =? ADAPTIVE_LESSER_OR_EQUAL) && (argument c =? 0) then ret true
  else
    b <- ask on_battery ;;
    pct <- ask battery_percentage ;;
    ret (compare_condition c (f_to_int 32 (default (f64_of_Z (if b : bool then 50 else 100)) pct))).

(** Whether the condition holds at the moment, whatever its time. *)
Definition holds_now (c : condition) : M Rules bool :=
  let k := cond c in
  if k =? OS_type then ret (evaluate_os_type_condition c)
  else if is_oem k then evaluate_oem_condition c
  else if is_temperature k then evaluate_temperature_condition c
  else if k =? Lid_state then evaluate_lid_condition c
  else if k =? Power_source then evaluate_ac_condition c
  else if k =? Aggregate_power_percentage then
    if upower_client then evaluate_battery_condition c else ret false
  else if k =? Workload then ret (evaluate_workload_condition c)
  else if k =? Platform_type then evaluate_platform_type_condition c
  else if k =? Power_slider then evaluate_power_slider_condition c
  else if k =? Motion then ret (argument c =? 0)
  else ret false.

Definition set_entry (t : Z) (c : condition) : condition :=
  Cond (cond c) (device c) (comparison c) (argument c) (operation c) (time_comparison c) (time c)
    (target c) t (ignore_condition c).

(** What follows in [evaluate_condition]: the time the condition has to hold for,
    which is not looked at for the current target. *)
Definition time_step (current : Z) (holds : bool) (now : Z) (c : condition) : bool * condition :=
  if negb holds then (false, set_entry 0 c)
  else if target c =? current then (true, c)
  else if time c =? 0 then (true, c)
  else if state_entry_time c =? 0 then (false, set_entry now c)
  else if compare_time c now then (true, set_entry 0 c) else (false, c).

(** ... with the clock, which is only read when it is needed. *)
Definition check_time (holds : bool) (c : condition) : M Rules (bool * condition) :=
  current <- gets current_target_matched ;;
  if negb holds || (target c =? current) || (time c =? 0) then ret (time_step current holds 0 c)
  else now <- ask clock ;; ret (time_step current holds now c).

Definition evaluate_condition (c : condition) : M Rules (bool * condition) :=
  if cond c =? Default then ret (true, c)
  else holds <- holds_now c ;; check_time holds c.

(** The conditions in order, up to the first that fails. *)
Fixpoint evaluate_condition_set (cs : list condition) : M Rules (bool * list condition) :=
  match cs with
  | [] => ret (true, [])
  | c :: cs =>
      r <- evaluate_condition c ;;
      let (ok, c) := r in
      if negb ok then ret (false, c :: cs)
      else r <- evaluate_condition_set cs ;; let (ok, cs) := r in ret (ok, c :: cs)
  end.

(** The sets in order, up to the first that is satisfied; its index and the sets. *)
Fixpoint evaluate_sets (l : list (list condition)) : M Rules (option nat * list (list condition)) :=
  match l with
  | [] => ret (None, [])
  | cs :: l =>
      r <- evaluate_condition_set cs ;;
      let (ok, cs) := r in
      if ok : bool then ret (Some O, cs :: l)
      else r <- evaluate_sets l ;; let (i, l) := r in ret (S <$> i, cs :: l)
  end.

(** The target of the first satisfied set, -1 when there is none; [None]: the set
    is empty and its first condition is accessed. *)
Definition evaluate_conditions : M Rules (option Z) :=
  l <- gets sets ;;
  r <- evaluate_sets l ;;
  let (i, l) := r in
  modify (set_sets l) ;;;
  match i with
  | None => ret (Some (-1))
  | Some i =>
      match l !! i with
      | Some (c :: _) => modify (set_current (target c)) ;;; ret (Some (target c))
      | _ => ret None
      end
  end.

(** The power boss rules: the first satisfied one. *)
Fixpoint evaluate_power_sets (l : list pbct_entry) : M Rules (option Z * list pbct_entry) :=
  match l with
  | [] => ret (None, [])
  | e :: l =>
      r <- evaluate_condition_set (pbct_conditions e) ;;
      let (ok, cs) := r in
      let e := Pbct (pbct_target e) cs in
      if ok : bool then ret (Some (pbct_target e), e :: l)
      else r <- evaluate_power_sets l ;; let (t, l) := r in ret (t, e :: l)
  end.

Definition evaluate_pbct_conditions : M Rules (option Z) :=
  l <- gets power_rules ;;
  r <- evaluate_power_sets l ;;
  let (t, l) := r in modify (set_power l) ;;; ret t.

(** Whether the engine knows how to evaluate a condition. *)
Definition verify_condition (c : condition) : bool :=
  let k := cond c in
  is_oem k || (k =? Default) || is_temperature k ||
  ((k =? Lid_state) && match lid_dev with Some _ => true | None => false end) ||
  ((k =? Power_source) && upower_client) ||
  (k =? Workload) || (k =? Platform_type) || (k =? Power_slider) || (k =? OS_type).

Definition verify_conditions (r : Rules) : bool := forallb (forallb verify_condition) (sets r).
End Evaluation.

(** The slider follows the profile of power-profiles-daemon. *)
Definition slider_of (active_profile : option string) : Z :=
  match active_profile with
  | Some p =>
      if thd_strcmp_n (Some p) (Some "power-saver") then 25
      else if thd_strcmp_n (Some p) (Some "balanced") then 75
      else if thd_strcmp_n (Some p) (Some "performance") then 100
      else 75
  | None => 75
  end.
Definition update_power_slider (active_profile : option string) : M Rules unit :=
  modify (set_slider (slider_of active_profile)).

(** ** Time *)

(** The evaluations of one condition: whether it holds and the time of each. *)
Fixpoint time_run (current : Z) (l : list (bool * Z)) (c : condition) : list bool * condition :=
  match l with
  | [] => ([], c)
  | (holds, now) :: l =>
      let (ok, c) := time_step current holds now c in
      let (oks, c) := time_run current l c in (ok :: oks, c)
  end.

Section Time.
Context (current : Z).

(** A condition that must have held for a time, as it is loaded. *)
Definition timed (c : condition) : Prop :=
  0 < time c /\ time_comparison c = ADAPTIVE_GREATER_OR_EQUAL /\ target c <> current.

(** Times that a clock shows. *)
Fixpoint clock_times (from : Z) (l : list (bool * Z)) : Prop :=
  match l with
  | [] => True
  | (_, now) :: l => from <= now < 2 ^ 31 /\ clock_times now l
  end.

Lemma clock_times_app from l1 l2 : clock_times from (l1 ++ l2) ->
  clock_times from l1 /\ exists t, from <= t /\ clock_times t l2.
Proof.
  revert from. induction l1 as [|[b t] l1 IH]; intros from; simpl; [intros H; split; [done|by exists from]|].
  intros [Ht H]. destruct (IH t H) as [H1 (t' & ? & H2)]. split; [done|]. exists t'. split; [lia|done].
Qed.

Lemma time_run_app l1 l2 c :
  time_run current (l1 ++ l2) c =
    ((time_run current l1 c).1 ++ (time_run current l2 (time_run current l1 c).2).1,
     (time_run current l2 (time_run current l1 c).2).2).
Proof.
  revert c. induction l1 as [|[b t] l1 IH]; intros c; simpl; [by destruct (time_run current l2 c)|].
  destruct (time_step current b t c) as [ok c1]. rewrite IH. by destruct (time_run current l1 c1).
Qed.

Lemma time_step_timed b t c : timed c -> timed (time_step current b t c).2.
Proof.
  unfold time_step. intros H. destruct (negb b), (target c =? current), (time c =? 0), (state_entry_time c =? 0),
    (compare_time c t); exact H.
Qed.
Lemma time_run_timed l c : timed c -> timed (time_run current l c).2.
Proof.
  revert c. induction l as [|[b t] l IH]; intros c Hc; [done|]. simpl.
  pose proof (time_step_timed b t c Hc) as H1. destruct (time_step current b t c) as [ok c1].
  specialize (IH c1 H1). by destruct (time_run current l c1).
Qed.

(** A step on a timed condition, by the time it was first seen to hold. *)
Lemma timed_step b t c : timed c -> 0 < t < 2 ^ 31 -> 0 <= state_entry_time c <= t ->
  time_step current b t c =
    if negb b then (false, set_entry 0 c)
    else if state_entry_time c =? 0 then (false, set_entry t c)
    else if time c <=? t - state_entry_time c then (true, set_entry 0 c) else (false, c).
Proof.
  intros (H1 & H2 & H3) Ht He. unfold time_step. destruct (negb b); [done|].
  rewrite (proj2 (Z.eqb_neq _ _) H3), (proj2 (Z.eqb_neq (time c) 0)) by lia.
  destruct (Z.eqb_spec (state_entry_time c) 0) as [E|E]; [done|].
  unfold compare_time. rewrite H2. cbn [Z.eqb Pos.eqb ADAPTIVE_EQUAL ADAPTIVE_GREATER_OR_EQUAL ADAPTIVE_LESSER_OR_EQUAL].
  by rewrite sint_id by lia.
Qed.

(** Since when the condition is timed: every evaluation since then found it to hold. *)
Definition since (l : list (bool * Z)) (c : condition) : Prop :=
  state_entry_time c <> 0 ->
  exists l1 l2, l = l1 ++ (true, state_entry_time c) :: l2 /\ Forall (fun p => p.1 = true) l2.

Lemma time_run_since l c from : timed c -> 0 < from -> clock_times from l -> state_entry_time c = 0 ->
  let c' := (time_run current l c).2 in
  since l c' /\ 0 <= state_entry_time c' /\ (forall t l', clock_times from (l ++ (true, t) :: l') ->
    state_entry_time c' <= t) /\ time c' = time c.
Proof.
  intros Hc Hf. induction l as [|[b t] l IH] using rev_ind; intros Hl He c'; unfold c'.
  - simpl. split_and!; [by intros []|lia| |done]. intros t l' [? _]. lia.
  - destruct (clock_times_app _ _ _ Hl) as [Hl1 (t0 & Ht0 & [Ht _])].
    destruct (IH Hl1 He) as (Hs & H0 & Hle & Htm). rewrite time_run_app. cbn [snd].
    set (c1 := (time_run current l c).2) in *. cbn [time_run].
    pose proof (time_run_timed l c Hc) as Hc1. fold c1 in Hc1.
    assert (state_entry_time c1 <= t) as Het.
    { apply (Hle t []). destruct b; [exact Hl|]. clear -Hl. revert from Hl.
      induction l as [|[b' t'] l IHl]; intros from; simpl; intros [? ?]; [done|]. split; [done|by apply IHl]. }
    rewrite timed_step by (done || lia).
    assert (forall t1 l', clock_times from ((l ++ [(b, t)]) ++ (true, t1) :: l') -> t <= t1) as Hlast.
    { intros t1 l' Hx. rewrite <- app_assoc in Hx. apply clock_times_app in Hx as [_ (? & ? & Hx)].
      simpl in Hx. lia. }
    assert (since (l ++ [(b, t)]) (set_entry 0 c1)) as Hz by (by intros []).
    destruct b; cbn [negb].
    2: { cbn [snd]. split_and!; [done|simpl; lia| |done]. intros t1 l' Hx. specialize (Hlast t1 l' Hx). simpl. lia. }
    destruct (Z.eqb_spec (state_entry_time c1) 0) as [E|E].
    + cbn [snd]. split_and!; [|simpl; lia|intros t1 l' Hx; exact (Hlast t1 l' Hx)|done].
      intros _. exists l, []. by split.
    + destruct (_ <=? _); cbn [snd].
      * split_and!; [done|simpl; lia| |done]. intros t1 l' Hx. specialize (Hlast t1 l' Hx). simpl. lia.
      * split_and!; [|lia| |done].
        -- intros _. destruct (Hs E) as (l1 & l2 & El & Hl2). exists l1, (l2 ++ [(true, t)]).
           rewrite El at 1. rewrite <- app_assoc. split; [done|]. apply Forall_app. by split; [|constructor].
        -- intros t1 l' Hx. specialize (Hlast t1 l' Hx). lia.
Qed.

(** Once timed, a condition that goes on holding is reported in time. *)
Lemma timed_reported l t c : timed c -> 0 < state_entry_time c ->
  Forall (fun p => p.1 = true) l -> clock_times (state_entry_time c) (l ++ [(true, t)]) ->
  time c <= t - state_entry_time c ->
  true ∈ (time_run current (l ++ [(true, t)]) c).1.
Proof.
  intros Hc He Hl. assert (forall from, state_entry_time c <= from -> clock_times from (l ++ [(true, t)]) ->
    time c <= t - state_entry_time c -> true ∈ (time_run current (l ++ [(true, t)]) c).1) as Hg.
  { induction Hl as [|[b t1] l Hb Hl IH]; intros from Hf Ht Hd.
    - simpl in *. rewrite timed_step by (done || lia). cbn [negb].
      rewrite (proj2 (Z.eqb_neq _ _)), (proj2 (Z.leb_le _ _)) by lia. by left.
    - simpl in Hb. subst b. cbn [app time_run]. simpl in Ht. rewrite timed_step by (done || lia). cbn [negb].
      rewrite (proj2 (Z.eqb_neq _ _)) by lia. destruct (_ <=? _).
      + destruct (time_run current (l ++ [(true, t)]) (set_entry 0 c)). by left.
      + specialize (IH t1 ltac:(lia) (proj2 Ht) Hd).
        destruct (time_run current (l ++ [(true, t)]) c). by right. }
  intros Ht Hd. apply (Hg (state_entry_time c)); [lia|done..].
Qed.
End Time.

(** For the current target the time is not waited for. *)
Lemma time_run_current (current : Z) l c : target c = current -> (time_run current l c).1 = map fst l.
Proof.
  revert c. induction l as [|[b t] l IH]; intros c Hc; [done|]. cbn [time_run map fst].
  assert (time_step current b t c = (b, if b then c else set_entry 0 c)) as ->.
  { unfold time_step. destruct b; [|done]. by rewrite Hc, Z.eqb_refl. }
  specialize (IH (if b then c else set_entry 0 c)).
  destruct (time_run current l (if b then c else set_entry 0 c)). cbn [fst] in *. rewrite IH; [done|].
  by destruct b.
Qed.

Lemma timed_both_ways (current : Z) (c : condition) (l : list (bool * Z)) :
  timed current c -> state_entry_time c = 0 -> clock_times 1 l ->
  (forall l1 b t rest, l = l1 ++ (b, t) :: rest ->
     last (time_run current (l1 ++ [(b, t)]) c).1 = Some true ->
     b = true /\ exists l2 t0 l3, l1 = l2 ++ (true, t0) :: l3 /\
       Forall (fun p => p.1 = true) l3 /\ time c <= t - t0) /\
  (forall l1 t0 l2 t rest, l = l1 ++ (true, t0) :: l2 ++ (true, t) :: rest ->
     Forall (fun p => p.1 = true) l2 -> time c <= t - t0 ->
     true ∈ (time_run current ((true, t0) :: l2 ++ [(true, t)]) (time_run current l1 c).2).1).
Proof.
  intros Hc He Hl. split.
  - intros l1 b t rest -> Hlast. destruct (clock_times_app _ _ _ Hl) as [Hl1 (t0 & Ht0 & [Ht _])].
    destruct (time_run_since current l1 c 1 Hc ltac:(lia) Hl1 He) as (Hs & H0 & Hle & Htm).
    pose proof (time_run_timed current l1 c Hc) as Hc1.
    rewrite time_run_app in Hlast. cbn [fst] in Hlast. set (c1 := (time_run current l1 c).2) in *.
    rewrite last_app in Hlast. cbn [time_run] in Hlast.
    assert (state_entry_time c1 <= t) as Het.
    { destruct b; [by apply (Hle t rest)|]. apply (Hle t rest). clear -Hl. revert Hl. generalize 1.
      induction l1 as [|[b' t'] l1 IH]; simpl; intros from; [done|]. intros [? ?]. split; [done|by apply IH]. }
    rewrite timed_step in Hlast by (done || lia). destruct b; cbn [negb] in Hlast; [|done].
    split; [done|]. destruct (Z.eqb_spec (state_entry_time c1) 0) as [|E]; [done|].
    destruct (Z.leb_spec (time c1) (t - state_entry_time c1)); [|done].
    destruct (Hs E) as (l2 & l3 & El & Hl3). exists l2, (state_entry_time c1), l3.
    split; [done|]. split; [done|]. lia.
  - intros l1 t0 l2 t rest -> Hl2 Hd. destruct (clock_times_app _ _ _ Hl) as [Hl1 (t1 & Ht1 & [Ht Hl'])].
    destruct (time_run_since current l1 c 1 Hc ltac:(lia) Hl1 He) as (_ & H0 & Hle & Htm).
    pose proof (time_run_timed current l1 c Hc) as Hc1. specialize (Hle _ _ Hl).
    set (c1 := (time_run current l1 c).2) in *.
    assert (clock_times t0 (l2 ++ [(true, t)])) as Hl2t.
    { change ((true, t) :: rest) with ([(true, t)] ++ rest) in Hl'. rewrite app_assoc in Hl'.
      exact (proj1 (clock_times_app _ _ _ Hl')). }
    cbn [time_run]. rewrite timed_step by (done || lia). cbn [negb].
    destruct (Z.eqb_spec (state_entry_time c1) 0) as [E|E].
    + pose proof (timed_reported current l2 t (set_entry t0 c1)) as Hr. cbn in Hr.
      destruct (time_run current (l2 ++ [(true, t)]) (set_entry t0 c1)).
      cbn [fst]. right. apply Hr; (done || lia).
    + destruct (_ <=? _).
      * destruct (time_run current (l2 ++ [(true, t)]) (set_entry 0 c1)). by left.
      * pose proof (timed_reported current l2 t c1 Hc1 ltac:(lia) Hl2) as Hr.
        destruct (time_run current (l2 ++ [(true, t)]) c1). cbn [fst]. right.
        apply Hr; [|lia]. clear -Hl2t Hle. destruct l2 as [|[b2 t2] l2]; simpl in *; split; try tauto; lia.
Qed.

(** C19: A condition with a time and the comparison greater-or-equal.  Of a target
    that is not the current one: when it is reported it has held at every evaluation
    over at least that time, and when it holds at every evaluation over that time it is
    reported at least once in it.  Of the current target: the time is not waited for, it
    is reported exactly when it holds. *)
Theorem timed_condition (current : Z) (c : condition) (l : list (bool * Z)) :
  0 < time c -> time_comparison c = ADAPTIVE_GREATER_OR_EQUAL -> state_entry_time c = 0 -> clock_times 1 l ->
  (target c <> current ->
    (forall l1 b t rest, l = l1 ++ (b, t) :: rest ->
       last (time_run current (l1 ++ [(b, t)]) c).1 = Some true ->
       b = true /\ exists l2 t0 l3, l1 = l2 ++ (true, t0) :: l3 /\
         Forall (fun p => p.1 = true) l3 /\ time c <= t - t0) /\
    (forall l1 t0 l2 t rest, l = l1 ++ (true, t0) :: l2 ++ (true, t) :: rest ->
       Forall (fun p => p.1 = true) l2 -> time c <= t - t0 ->
       true ∈ (time_run current ((true, t0) :: l2 ++ [(true, t)]) (time_run current l1 c).2).1)) /\
  (target c = current -> (time_run current l c).1 = map fst l).
Proof.
  intros Ht Hq He Hl. split; [|apply time_run_current]. intros Hn. by apply timed_both_ways.
Qed.

(** Ten seconds above a temperature, evaluated every four; the target is current in
    the last case. *)
Lemma timed_condition_witness :
  let c := Cond 48 "SEN3" 3 3232 2 3 10 7 0 false in
  let l := [(true, 100); (true, 104); (true, 108); (true, 112); (false, 116)] in
  (time_run (-1) l c).1 = [false; false; false; true; false] /\
  true ∈ (time_run (-1) [(true, 100); (true, 104); (true, 108); (true, 112)] c).1 /\
  (time_run 7 l c).1 = [true; true; true; true; false].
Proof.
  intros c l. assert (clock_times 1 l) as Hl by (simpl; lia). split_and!; [vm_compute; reflexivity| |].
  - destruct (timed_condition (-1) c l) as [H _]; [done..|]. destruct H as [_ H]; [done|].
    apply (H [] 100 [(true, 104); (true, 108)] 112 [(false, 116)]); [done|by repeat constructor|simpl; lia].
  - by apply (timed_condition 7 c l).
Defined.

(** ** The current target *)

Section Current.
Context `{Host}.

(** The world answers the same whenever it is asked; the clock may go on. *)
Record steady : Prop := {
  steady_odvp : forall n m s, odvp n s = odvp m s;
  steady_sensor : forall n m s, sensor_temperature n s = sensor_temperature m s;
  steady_lid : forall f n m, lid_dev = Some f -> f n = f m;
  steady_tablet : forall f n m, tablet_dev = Some f -> f n = f m;
  steady_battery : forall n m, on_battery n = on_battery m;
  steady_percentage : forall n m, battery_percentage n = battery_percentage m
}.

Lemma holds_now_steady c t r1 r2 : steady -> Conditions.power_slider r1 = Conditions.power_slider r2 ->
  res (holds_now (set_entry t c)) r2 = res (holds_now c) r1.
Proof.
  intros Hs Hr. unfold holds_now. cbn [cond set_entry].
  destruct (_ =? OS_type); [done|]. destruct (is_oem _).
  { unfold evaluate_oem_condition, ask, res, bind, gets, modify, ret. cbn.
    by rewrite (steady_odvp Hs (calls r2) (calls r1)). }
  destruct (is_temperature _).
  { unfold evaluate_temperature_condition. cbn. destruct (ignore_condition c); [done|].
    unfold ask, res, bind, gets, modify, ret. cbn.
    by rewrite (steady_sensor Hs (calls r2) (calls r1)). }
  destruct (_ =? Lid_state).
  { unfold evaluate_lid_condition. destruct lid_dev as [f|] eqn:E; [|done].
    unfold ask, res, bind, gets, modify, ret. cbn. by rewrite (steady_lid Hs f (calls r2) (calls r1)). }
  destruct (_ =? Power_source).
  { unfold evaluate_ac_condition, ask, res, bind, gets, modify, ret. cbn.
    by rewrite (steady_battery Hs (calls r2) (calls r1)). }
  destruct (_ =? Aggregate_power_percentage).
  { destruct upower_client; [|done]. unfold evaluate_battery_condition. cbn. destruct (_ && _); [done|].
    unfold ask, res, bind, gets, modify, ret. cbn.
    by rewrite (steady_battery Hs (calls r2) (calls r1)), (steady_percentage Hs (S (calls r2)) (S (calls r1))). }
  destruct (_ =? Workload); [done|]. destruct (_ =? Platform_type).
  { unfold evaluate_platform_type_condition. destruct tablet_dev as [f|] eqn:E; [|done].
    unfold ask, res, bind, gets, modify, ret. cbn. by rewrite (steady_tablet Hs f (calls r2) (calls r1)). }
  destruct (_ =? Power_slider); [|by destruct (_ =? Motion)].
  unfold evaluate_power_slider_condition, res, bind, gets, ret. cbn. by rewrite Hr.
Qed.

(** What evaluation leaves alone. *)
Definition rview (r : Rules) := (Conditions.power_slider r, current_target_matched r).

Lemma holds_now_view c : same rview (holds_now c).
Proof.
  intros r. unfold holds_now.
  repeat match goal with |- context [if ?b then _ else _] => destruct b end; try done.
  - unfold evaluate_temperature_condition. by destruct (ignore_condition c).
  - unfold evaluate_lid_condition. by destruct lid_dev.
  - unfold evaluate_battery_condition. by destruct (_ && _).
  - unfold evaluate_platform_type_condition. by destruct tablet_dev.
Qed.

Lemma check_time_view b c : same rview (check_time b c).
Proof.
  intros r. unfold check_time. rewrite post_bind. cbn. unfold res. cbn. by destruct (_ || _).
Qed.

Lemma condition_view c : same rview (evaluate_condition c).
Proof.
  unfold evaluate_condition. destruct (_ =? Default); [done|].
  apply same_bind; [apply holds_now_view|intros b; apply check_time_view].
Qed.

(** The answer of [check_time] for the current target. *)
Lemma check_time_current c r : target c = current_target_matched r -> res (check_time true c) r = (true, c).
Proof.
  intros Ht. unfold res, check_time, bind, gets, ret, time_step. cbn. by rewrite Ht, Z.eqb_refl.
Qed.

(** A satisfied condition is left as it was, or with its time reset. *)
Lemma check_time_true b c c' r : res (check_time b c) r = (true, c') ->
  b = true /\ (c' = c \/ c' = set_entry 0 c).
Proof.
  unfold check_time, res, bind, gets, ask, modify, ret, time_step. destruct b; cbn; [|by intros [=]].
  destruct (target c =? _); cbn; [intros [= <-]; split; [done|by left]|].
  destruct (time c =? 0); cbn; [intros [= <-]; split; [done|by left]|].
  destruct (state_entry_time c =? 0); [by intros [=]|].
  destruct (compare_time c _); [intros [= <-]; split; [done|by right]|by intros [=]].
Qed.

Lemma evaluate_res c r : cond c =? Default = false ->
  res (evaluate_condition c) r = res (check_time (res (holds_now c) r) c) (post (holds_now c) r).
Proof. intros E. unfold evaluate_condition. rewrite E. unfold res, post, bind. by destruct (holds_now c r). Qed.

(** A condition that was satisfied when its target was not the current one is
    satisfied, and unchanged, once it is. *)
Lemma condition_sticks c c' r r1 : steady ->
  Conditions.power_slider r1 = Conditions.power_slider r -> target c = current_target_matched r1 ->
  res (evaluate_condition c) r = (true, c') -> res (evaluate_condition c') r1 = (true, c').
Proof.
  intros Hs Hp Ht. destruct (cond c =? Default) eqn:Ed.
  { unfold evaluate_condition. rewrite Ed. intros [= <-]. by rewrite Ed. }
  rewrite evaluate_res by done. intros [Hb Hc']%check_time_true.
  assert (forall t, res (holds_now (set_entry t c)) r1 = true) as H1.
  { intros t. rewrite <- Hb. by apply holds_now_steady. }
  assert (c' = set_entry (state_entry_time c') c) as ->.
  { destruct Hc' as [-> | ->]; by destruct c. }
  rewrite evaluate_res, H1 by done. apply check_time_current. cbn. rewrite Ht.
  pose proof (holds_now_view (set_entry (state_entry_time c') c) r1) as Hv. by injection Hv.
Qed.

(** Once the target of a set is the current one, the set goes on being satisfied
    while the world stays as it is: the times are not waited for again. *)
Theorem matched_set_sticks (cs cs' : list condition) (r r1 : Rules) (t : Z) : steady ->
  Forall (fun c => target c = t) cs -> Conditions.power_slider r1 = Conditions.power_slider r ->
  current_target_matched r1 = t ->
  res (evaluate_condition_set cs) r = (true, cs') -> res (evaluate_condition_set cs') r1 = (true, cs').
Proof.
  intros Hs. revert cs' r r1. induction cs as [|c cs IH]; intros cs' r r1 Ht Hp Hc.
  { by intros [= <-]. }
  apply Forall_cons in Ht as [Htc Ht]. cbn [evaluate_condition_set]. unfold res at 1, bind at 1.
  destruct (evaluate_condition c r) as [[ok c1] r2] eqn:E1. destruct ok; [|by intros [=]]. cbn [negb].
  unfold bind. destruct (evaluate_condition_set cs r2) as [[ok cs1] r3] eqn:E2. intros [= -> <-].
  assert (res (evaluate_condition c) r = (true, c1)) as R1 by (unfold res; by rewrite E1).
  apply (condition_sticks _ _ _ r1 Hs) in R1; [|done|congruence].
  cbn [evaluate_condition_set]. unfold res, bind. pose proof (condition_view c1 r1) as Hv.
  unfold res, post in R1, Hv. destruct (evaluate_condition c1 r1) as [x r4]. cbn in R1, Hv. subst x. cbn [negb].
  injection Hv as Hv1 Hv2.
  assert (r2 = post (evaluate_condition c) r) as Er2 by (unfold post; by rewrite E1).
  pose proof (condition_view c r) as Hv'. rewrite <- Er2 in Hv'. injection Hv' as Hv1' Hv2'.
  specialize (IH cs1 r2 r4 Ht ltac:(congruence) ltac:(congruence)).
  unfold res in IH. rewrite E2 in IH. specialize (IH eq_refl).
  destruct (evaluate_condition_set cs1 r4) as [y r5]. cbn in IH. by subst y.
Qed.

(** The power boss rules are compared with the current APAT target as well: a
    rule with the same number does not wait for its time. *)
Theorem power_rule_time_skipped (c : condition) (n : Z) (l : list pbct_entry) (r : Rules) :
  power_rules r = Pbct n [c] :: l -> cond c <> Default -> res (holds_now c) r = true ->
  target c = current_target_matched r -> res evaluate_pbct_conditions r = Some n.
Proof.
  intros Hr Hd Hh Ht. unfold evaluate_pbct_conditions. unfold res at 1, bind at 1, gets at 1. rewrite Hr.
  cbn [evaluate_power_sets pbct_conditions evaluate_condition_set pbct_target].
  assert (res (evaluate_condition c) r = (true, c)) as E.
  { rewrite evaluate_res, Hh by (by apply Z.eqb_neq). apply check_time_current.
    pose proof (holds_now_view c r) as Hv. injection Hv as _ Hv. by rewrite Hv. }
  unfold res in E. unfold bind. destruct (evaluate_condition c r) as [x r']. cbn in E. subst x. reflexivity.
Qed.
End Current.

(** ** A concrete machine *)

Module Sim.
#[local] Instance machine : Host := {|
  clock n := 100 + Z.of_nat n; odvp _ _ := None;
  sensor_temperature _ s := if String.eqb s "SEN3" then Some 61000 else None;
  lid_dev := Some (fun _ => 0); tablet_dev := None; upower_client := true;
  on_battery _ := true; battery_percentage _ := Some (f64_of_Z 40);
  power_profiles := None |}.

Lemma machine_steady : steady.
Proof. split; cbn; try done; intros f n m [= <-]; done. Qed.

(** Above 50 degrees for two seconds, and the lid open. *)
Definition cs : list condition :=
  [Cond 48 "\_SB_.SEN3" 3 3232 2 3 2 7 98 false; Cond 10 "" 1 1 0 0 0 7 0 false].
Definition rule : condition := Cond 9 "" 2 50 2 3 600 7 0 false.
Definition r : Rules := Rls [cs] [Pbct 7 [rule]] 75 (-1) 0.
Definition r7 : Rules := Rls [cs] [Pbct 7 [rule]] 75 7 9.
End Sim.

Lemma matched_set_sticks_witness :
  res (evaluate_condition_set (H := Sim.machine) Sim.cs) Sim.r = (true, map (set_entry 0) Sim.cs) /\
  res (evaluate_condition_set (H := Sim.machine) (map (set_entry 0) Sim.cs)) Sim.r7 =
    (true, map (set_entry 0) Sim.cs).
Proof.
  assert (res (evaluate_condition_set (H := Sim.machine) Sim.cs) Sim.r = (true, map (set_entry 0) Sim.cs)) as E
    by (vm_compute; reflexivity).
  split; [exact E|].
  apply (matched_set_sticks (H := Sim.machine) Sim.cs _ Sim.r Sim.r7 7 Sim.machine_steady);
    [by repeat constructor|done|done|exact E].
Defined.

Lemma power_rule_time_skipped_witness : res (evaluate_pbct_conditions (H := Sim.machine)) Sim.r7 = Some 7.
Proof.
  apply (power_rule_time_skipped (H := Sim.machine) Sim.rule 7 [] Sim.r7); vm_compute; done.
Defined.
