(* ===== verification/Switches.v ===== *)
(** * The thermal daemon: the sources of the conditions

    The part of thd_gddv.cpp that finds the switches of the lid and of the
    tablet mode among the input devices and gives them up again, over the
    trace of Os.v.  Devices of libevdev are objects of their own: two are the
    same only when one call made them. *)

From Stdlib Require Import ZArith Lia.
From stdpp Require Import base list option strings gmultiset sets.
From S2P Require Import Prelude Os MxcFilter MxcDevice.

#[local] Open Scope Z_scope.
#[local] Open Scope prog_scope.

(** [os_scandir]: the names that pass the filter, in the order of [versionsort];
    [evdev_new_ok]: [libevdev_new_from_fd] gives a device; [profiles_new]: there is a
    bus, and a proxy. *)
Class Evdevs := {
  os_scandir : Trace -> string -> (string -> bool) -> option (list string);
  evdev_new_ok : Trace -> Z -> bool;
  has_event_code : Trace -> Z -> Z -> Z -> bool;
  upower_new : Trace -> bool;
  profiles_new : Trace -> option bool
}.

(** ** State *)

(** The device and the number of the call that made it. *)
Record Evdev := Dv { dev_fd : Z; dev_id : nat }.
#[export] Instance Evdev_dec : EqDecision Evdev.
Proof. solve_decision. Defined.

(** [made]: the devices made so far; [live]: those not freed. *)
Record Sources := Srcs {
  src_trace : Trace; made : nat; live : gmultiset nat;
  tablet_dev : option Evdev; lid_dev : option Evdev; upower_client : bool; power_profiles_daemon : bool
}.
Definition Sources_again (s : Sources) : Sources := Srcs (src_trace s) (made s) (live s) (tablet_dev s)
  (lid_dev s) (upower_client s) (power_profiles_daemon s).
#[export] Instance put_src_trace : Field src_trace := ltac:(field_of Sources_again src_trace).
#[export] Instance put_made : Field made := ltac:(field_of Sources_again made).
#[export] Instance put_live : Field live := ltac:(field_of Sources_again live).
#[export] Instance put_tablet_dev : Field tablet_dev := ltac:(field_of Sources_again tablet_dev).
#[export] Instance put_lid_dev : Field lid_dev := ltac:(field_of Sources_again lid_dev).
#[export] Instance put_upower_client : Field upower_client := ltac:(field_of Sources_again upower_client).
#[export] Instance put_power_profiles_daemon : Field power_profiles_daemon :=
  ltac:(field_of Sources_again power_profiles_daemon).

#[export] Instance sources_trace : HasTrace Sources := {|
  trace := src_trace; set_trace h s := s <| src_trace := h |>
|}.
#[export] Instance sources_trace_law : HasTraceLaw Sources.
Proof. split; by intros; destruct s. Qed.

(** ** Operations *)

Section Devices.
Context `{Os} `{Evdevs}.

Definition libevdev_new_from_fd (fd : Z) : M Sources (option Evdev) :=
  ok <- ask (fun h => evdev_new_ok h fd) ;;
  if negb ok then ret None
  else
    n <- gets made ;;
    modify (fun s => s <| made := S n |> <| live := live s ⊎ {[+ n +]} |>) ;;;
    ret (Some (Dv fd n)).
Definition libevdev_free (dev : Evdev) : M Sources unit :=
  modify (fun s => s <| live := live s ∖ {[+ dev_id dev +]} |>).

Definition is_event_device (d_name : string) : bool := String.prefix "event" d_name.

Definition input_name (d_name : string) : string := String.substring 0 266 ("/dev/input/" +:+ d_name).

(** One turn of the loop over the names. *)
Definition setup_input_device (d_name : string) : M Sources unit :=
  fd <- sys_open (input_name d_name) ;;
  if fd <? 0 then ret tt
  else
    dev <- libevdev_new_from_fd fd ;;
    match dev with
    | None => sys_close fd
    | Some dev =>
        tablet <- ask (fun h => has_event_code h fd EV_SW SW_TABLET_MODE) ;;
        modify (fun s => if bool_decide (tablet_dev s = None) && tablet
                         then s <| tablet_dev := Some dev |> else s) ;;;
        lid <- ask (fun h => has_event_code h fd EV_SW SW_LID) ;;
        modify (fun s => if bool_decide (lid_dev s = None) && lid
                         then s <| lid_dev := Some dev |> else s) ;;;
        s <- gets id ;;
        if negb (bool_decide (lid_dev s = Some dev)) && negb (bool_decide (tablet_dev s = Some dev))
        then libevdev_free dev ;;; sys_close fd
        else ret tt
    end.

Definition setup_input_devices : M Sources unit :=
  namelist <- ask (fun h => os_scandir h "/dev/input" is_event_device) ;;
  match namelist with
  | None => ret tt
  | Some namelist => mfor namelist setup_input_device
  end.

(** The end of [gddv_init]: the switches, upower and the power profiles, whose
    first value is that of [update_power_slider] in Conditions.v. *)
Definition setup_dynamic_sources : M Sources unit :=
  setup_input_devices ;;;
  upower <- ask upower_new ;;
  modify (fun s => s <| upower_client := upower |>) ;;;
  profiles <- ask profiles_new ;;
  match profiles with
  | None => ret tt
  | Some proxy => modify (fun s => s <| power_profiles_daemon := proxy |>)
  end.

Definition drop_device (dev : Evdev) : M Sources unit := sys_close (dev_fd dev) ;;; libevdev_free dev.

Definition destroy_dynamic_sources : M Sources unit :=
  modify (fun s => s <| upower_client := false |> <| power_profiles_daemon := false |>) ;;;
  s <- gets id ;;
  (match tablet_dev s with
   | None => ret tt
   | Some dev =>
       drop_device dev ;;;
       modify (fun s => (if bool_decide (lid_dev s = tablet_dev s) then s <| lid_dev := None |> else s)
                        <| tablet_dev := None |>)
   end) ;;;
  s <- gets id ;;
  match lid_dev s with
  | None => ret tt
  | Some dev => drop_device dev ;;; modify (fun s => s <| lid_dev := None |>)
  end.
End Devices.

(** ** What is held *)

(** The devices in the fields; one device can be both. *)
Definition held (s : Sources) : list Evdev :=
  option_list (tablet_dev s) ++ (if bool_decide (lid_dev s = tablet_dev s) then [] else option_list (lid_dev s)).

Definition fds_of (l : list Evdev) : gmultiset Z := list_to_set_disj (dev_fd <$> l).
Definition ids_of (l : list Evdev) : gmultiset nat := list_to_set_disj (dev_id <$> l).

(** Beside [B] and [L], exactly what the fields hold is open and not freed. *)
Record owned (B : gmultiset Z) (L : gmultiset nat) (s : Sources) : Prop := {
  owned_fds : open_fds (src_trace s) = B ⊎ fds_of (held s);
  owned_ids : live s = L ⊎ ids_of (held s);
  owned_made : forall d, tablet_dev s = Some d \/ lid_dev s = Some d -> (dev_id d < made s)%nat
}.

Section Held.
Context `{Os} `{Evdevs}.

Lemma held_none s : tablet_dev s = None -> lid_dev s = None -> held s = [].
Proof. unfold held. by intros -> ->. Qed.

(** A device [d] that was opened and is in no field yet. *)
Record pending (B : gmultiset Z) (L : gmultiset nat) (d : Evdev) (s : Sources) : Prop := {
  pending_owned : owned (B ⊎ {[+ dev_fd d +]}) (L ⊎ {[+ dev_id d +]}) s;
  pending_tablet : tablet_dev s <> Some d;
  pending_lid : lid_dev s <> Some d;
  pending_made : (dev_id d < made s)%nat
}.

(** Its fate: it becomes the tablet switch, the lid switch or both, or it is dropped. *)
Lemma take_tablet B L d s : pending B L d s -> tablet_dev s = None -> owned B L (s <| tablet_dev := Some d |>).
Proof.
  intros [[Hf Hi Hm] Ht Hl Hd] E. unfold held in *. rewrite E in *.
  split; unfold held; simpl; rewrite ?Hf, ?Hi, ?(bool_decide_eq_false_2 _ Hl);
    [destruct (lid_dev s); simpl; multiset_solver..|naive_solver].
Qed.

Lemma take_lid B L d s : pending B L d s -> lid_dev s = None -> owned B L (s <| lid_dev := Some d |>).
Proof.
  intros [[Hf Hi Hm] Ht Hl Hd] E. unfold held in *. rewrite E in *.
  assert (Some d <> tablet_dev s) as Ht' by congruence.
  split; unfold held; simpl; rewrite ?Hf, ?Hi, ?(bool_decide_eq_false_2 _ Ht');
    [destruct (tablet_dev s); simpl; multiset_solver..|naive_solver].
Qed.

Lemma take_both B L d s : owned B L s -> tablet_dev s = Some d -> lid_dev s = None ->
  owned B L (s <| lid_dev := Some d |>).
Proof.
  intros [Hf Hi Hm] Et El. unfold held in *. rewrite Et, El in *. simpl in *.
  split; unfold held; simpl; rewrite ?Et, ?(bool_decide_eq_true_2 _ eq_refl); [done|done|naive_solver].
Qed.

Lemma drop_new B L d s : pending B L d s -> owned B L (post (libevdev_free d ;;; sys_close (dev_fd d)) s).
Proof.
  intros [[Hf Hi Hm] _ _ _]. split; [simpl in *; rewrite Hf; unfold held; simpl; multiset_solver
    |simpl in *; rewrite Hi; unfold held; simpl; multiset_solver|done].
Qed.

Lemma libevdev_new_run fd s : libevdev_new_from_fd fd s =
  if evdev_new_ok (src_trace s) fd
  then (Some (Dv fd (made s)), s <| made := S (made s) |> <| live := live s ⊎ {[+ made s +]} |>)
  else (None, s).
Proof. unfold libevdev_new_from_fd, bind, ask. simpl. by destruct (evdev_new_ok _ _). Qed.

(** The two tests and the drop, from a device that was just made. *)
Lemma offer_owned B L d (b1 : bool) (b2 : Trace -> bool) s : pending B L d s ->
  owned B L (post (modify (fun s => if bool_decide (tablet_dev s = None) && b1
                                    then s <| tablet_dev := Some d |> else s) ;;;
    lid <- ask b2 ;;
    modify (fun s => if bool_decide (lid_dev s = None) && lid then s <| lid_dev := Some d |> else s) ;;;
    s <- gets id ;;
    if negb (bool_decide (lid_dev s = Some d)) && negb (bool_decide (tablet_dev s = Some d))
    then libevdev_free d ;;; sys_close (dev_fd d)
    else ret tt) s).
Proof.
  intros Hp. rewrite post_bind. cbn -[libevdev_free sys_close bool_decide].
  destruct (bool_decide (tablet_dev s = None) && b1) eqn:E1; unfold post, bind, ask, gets, modify; simpl;
    match goal with |- context [b2 ?h] => generalize (b2 h) as b end; intros b.
  - apply andb_prop in E1 as [E1%bool_decide_eq_true _].
    destruct (bool_decide (lid_dev s = None) && b) eqn:E2; simpl.
    + apply andb_prop in E2 as [E2%bool_decide_eq_true _]. rewrite (bool_decide_eq_true_2 (Some d = Some d)) by done.
      apply (take_both _ _ d); [by apply take_tablet|done|done].
    + rewrite (bool_decide_eq_true_2 (Some d = Some d)), andb_false_r by done. by apply take_tablet.
  - destruct (bool_decide (lid_dev s = None) && b) eqn:E2; simpl.
    + apply andb_prop in E2 as [E2%bool_decide_eq_true _]. rewrite (bool_decide_eq_true_2 (Some d = Some d)) by done.
      by apply take_lid.
    + rewrite !bool_decide_eq_false_2 by apply Hp. by apply drop_new.
Qed.

Lemma setup_input_device_owned B L d_name : keeps (owned B L) (setup_input_device d_name).
Proof.
  intros s [Hf Hi Hm]. unfold setup_input_device. rewrite post_bind.
  set (fd := res (sys_open (input_name d_name)) s). set (s1 := post (sys_open (input_name d_name)) s).
  assert (owned (B ⊎ own fd) L s1) as Ho.
  { split; [|done|done]. change (open_fds (src_trace s) ⊎ own fd = (B ⊎ own fd) ⊎ fds_of (held s)).
    rewrite Hf. multiset_solver. }
  clearbody fd s1. clear s Hf Hi Hm. destruct (Z.ltb_spec fd 0) as [Hn|Hp].
  { unfold own in Ho. rewrite (proj2 (Z.leb_gt 0 fd)) in Ho by done. by rewrite gmultiset_disj_union_right_id in Ho. }
  unfold own in Ho. rewrite (proj2 (Z.leb_le 0 fd)) in Ho by done. destruct Ho as [Hf Hi Hm].
  rewrite post_bind. unfold res, post at 2. rewrite libevdev_new_run.
  destruct (evdev_new_ok _ _); cbn [fst snd].
  - rewrite post_bind. apply (offer_owned B L (Dv fd (made s1)) _ (fun h => has_event_code h fd EV_SW SW_LID)).
    split; simpl; [split; unfold held; simpl; [done|rewrite Hi; unfold held; multiset_solver|]| | |lia].
    + intros d Hd. specialize (Hm d Hd). lia.
    + intros E. specialize (Hm _ (or_introl E)). simpl in Hm. lia.
    + intros E. specialize (Hm _ (or_intror E)). simpl in Hm. lia.
  - split; [simpl; rewrite Hf; unfold held; simpl; multiset_solver|done|done].
Qed.

Lemma setup_dynamic_sources_owned B L : keeps (owned B L) setup_dynamic_sources.
Proof.
  assert (forall s t, held t = held s -> src_trace t = src_trace s -> live t = live s -> made t = made s ->
    (tablet_dev t, lid_dev t) = (tablet_dev s, lid_dev s) -> owned B L s -> owned B L t) as Heq.
  { intros s t E1 E2 E3 E4 [= E5 E6] [Hf Hi Hm]. split; [by rewrite E1, E2|by rewrite E1, E3|].
    rewrite E4, E5, E6. exact Hm. }
  apply keeps_bind.
  - unfold setup_input_devices. apply keeps_bind; [intros s Hs; exact Hs|]. intros [l|]; [|apply keeps_ret].
    apply keeps_mfor. intros a _. apply setup_input_device_owned.
  - intros _. apply keeps_bind; [intros s Hs; exact Hs|]. intros up. apply keeps_bind.
    { apply keeps_modify. intros s. by apply Heq. }
    intros _. apply keeps_bind; [intros s Hs; exact Hs|]. intros [p|]; [|apply keeps_ret].
    apply keeps_modify. intros s. by apply Heq.
Qed.

Lemma destroy_releases B L s : owned B L s -> let t := post destroy_dynamic_sources s in
  open_fds (src_trace t) = B /\ live t = L /\ tablet_dev t = None /\ lid_dev t = None /\
  upower_client t = false /\ power_profiles_daemon t = false.
Proof.
  intros [Hf Hi _]. unfold held, fds_of, ids_of in *. destruct s as [h mk lv tab lid up pr]. simpl in *.
  unfold destroy_dynamic_sources, drop_device, post, bind. simpl.
  destruct tab as [d|]; simpl in *.
  - destruct (decide (lid = Some d)) as [->|Hd].
    + rewrite (bool_decide_eq_true_2 (Some d = Some d)) in * by done. simpl in *.
      rewrite Hf, Hi. split; [multiset_solver|]. split; [multiset_solver|done].
    + rewrite (bool_decide_eq_false_2 (lid = Some d)) in * by done. simpl in *.
      destruct lid as [l|]; simpl in *; rewrite Hf, Hi; (split; [multiset_solver|]); (split; [multiset_solver|done]).
  - destruct lid as [l|]; simpl in *; rewrite Hf, Hi; (split; [multiset_solver|]); (split; [multiset_solver|done]).
Qed.
End Held.

(** ** Properties *)

(** C23: Setting the sources up and giving them up again leaves open and allocated
    what was before, whatever devices there are and whatever fails: each
    descriptor is closed once and each device is freed once, also one that is the switch of
    the lid and of the tablet mode. *)
Theorem sources_released `{Os} `{Evdevs} s : tablet_dev s = None -> lid_dev s = None ->
  let t := post (setup_dynamic_sources ;;; destroy_dynamic_sources) s in
  open_fds (src_trace t) = open_fds (src_trace s) /\ live t = live s /\
  tablet_dev t = None /\ lid_dev t = None /\ upower_client t = false /\ power_profiles_daemon t = false.
Proof.
  intros Et El. rewrite post_bind. apply destroy_releases. apply setup_dynamic_sources_owned.
  split; rewrite ?held_none by done; [multiset_solver..|]. intros d. rewrite Et, El. intuition done.
Qed.

(** A convertible whose lid and tablet mode are one device. *)
Module Convertible.
#[local] Instance conv_os : Os := {|
  os_open h p := if String.eqb p "/dev/input/event2" then -13 else Z.of_nat (length h) + 3; os_write _ _ _ := 0;
  os_read _ _ _ := None; os_i2c _ _ _ _ := None; os_ioctl _ _ _ := 0; os_evname _ _ := None; os_evsw _ _ := None;
  os_udev _ _ := []; os_source_add _ _ := 1; os_watch_add _ _ := 1
|}.
#[local] Instance conv_devs : Evdevs := {|
  os_scandir _ _ f := Some (filter (fun n => f n = true) ["by-path"; "event0"; "event1"; "event2"; "mouse0"]%string);
  evdev_new_ok _ _ := true; has_event_code _ fd _ _ := 3 <? fd; upower_new _ := true; profiles_new _ := None
|}.
Definition conv_start : Sources := Srcs [] 0 ∅ None None false false.

Example conv_held : held (post setup_dynamic_sources conv_start) = [Dv 5 1].
Proof. reflexivity. Qed.

Lemma sources_released_witness :
  let t := post (setup_dynamic_sources ;;; destroy_dynamic_sources) conv_start in
  open_fds (src_trace t) = open_fds (src_trace conv_start) /\ live t = live conv_start /\
  tablet_dev t = None /\ lid_dev t = None /\ upower_client t = false /\ power_profiles_daemon t = false.
Proof. apply (sources_released conv_start); reflexivity. Defined.
End Convertible.
