(* ===== verification/Xml.v ===== *)
(** * The thermal daemon: XML documents

    The trees of libxml2 as the configuration parsers see them, the walk over
    the siblings of a node that all of them make, and the text of a tree.  The
    library's [xmlNodeListGetString] is the class [LibXml]. *)

From Stdlib Require Import ZArith Lia Ascii String.
From stdpp Require Import base list option strings.
From S2P Require Import Prelude Floats ThdCommon.

#[local] Open Scope Z_scope.

(** ** Trees *)

(** A node and its children; [Other]: comments, processing instructions and the rest. *)
Inductive xmlNode := Element (name : string) (children : list xmlNode) | Text (content : string) | Other.

(** [xmlNodeListGetString (doc, list, 1)]: the text of a list of siblings;
    [None]: the null pointer. *)
Class LibXml := { xmlNodeListGetString : list xmlNode -> option string }.
(** What its documentation promises: there is no string for an empty list, a
    single text is returned as it is, and a list with a text in it has a string. *)
Class LibXmlLaws `{LibXml} : Prop := {
  get_string_nil : xmlNodeListGetString [] = None;
  get_string_text s : xmlNodeListGetString [Text s] = Some s;
  get_string_some s l : is_Some (xmlNodeListGetString (Text s :: l))
}.

(** [xmlDocGetRootElement]: the first element, with the siblings after it. *)
Fixpoint xmlDocGetRootElement (doc : list xmlNode) : option (list xmlNode) :=
  match doc with
  | [] => None
  | Element _ _ :: _ => Some doc
  | _ :: doc => xmlDocGetRootElement doc
  end.

(** The name of a node is compared with a literal. *)
Definition named (name lit : string) : bool := thd_strcasecmp_n (Some name) (Some lit).

(** The loop [for (cur_node = a_node; cur_node; cur_node = cur_node->next)] over
    the elements; [None]: the body did something undefined. *)
Fixpoint walk {A} (f : string -> list xmlNode -> A -> option A) (nodes : list xmlNode) (acc : A) : option A :=
  match nodes with
  | [] => Some acc
  | Element name children :: nodes => acc ← f name children acc; walk f nodes acc
  | _ :: nodes => walk f nodes acc
  end.

(** The loop whose body is guarded by [if (tmp_value)]. *)
Definition walk_text `{LibXml} {A} (f : string -> list xmlNode -> string -> A -> option A) :
    list xmlNode -> A -> option A :=
  walk (fun name children acc =>
    match xmlNodeListGetString children with
    | None => Some acc
    | Some tmp_value => f name children tmp_value acc
    end).

(** ** Strings *)

Fixpoint filter_string (f : ascii -> bool) (s : string) : string :=
  match s with
  | EmptyString => EmptyString
  | String c s => if f c then String c (filter_string f s) else filter_string f s
  end.
(** [string_trim]: newlines, blanks, tabs and carriage returns go, inside the text too. *)
Definition is_trimmed (c : ascii) : bool :=
  let n := N_of_ascii c in (n =? 10)%N || (n =? 32)%N || (n =? 9)%N || (n =? 13)%N.
Definition string_trim (s : string) : string := filter_string (fun c => negb (is_trimmed c)) s.

(** The text up to its last character that is not blank; [None]: all are blank. *)
Fixpoint strip_end (s : string) : option string :=
  match s with
  | EmptyString => None
  | String c s =>
      match strip_end s with
      | Some r => Some (String c r)
      | None => if is_blank c then None else Some (String c EmptyString)
      end
  end.
(** [char_trim]; [None]: in a text of blanks the search from the end leaves the
    buffer at its start. *)
Definition char_trim (s : string) : option string :=
  match s with EmptyString => Some EmptyString | _ => strip_end (skip_blanks s) end.

(** [atof], for decimal numbers. *)
Definition atof (s : string) : float :=
  match strtod s with
  | NoNumber => f_zero
  | Infinite neg => SpecFloat.S754_infinity neg
  | NotANumber => SpecFloat.S754_nan
  | Decimal neg m e => f64_decimal neg m e
  end.

(** ** The text of a tree *)

Fixpoint render (t : xmlNode) : string :=
  match t with
  | Element name children =>
      "<" +:+ name +:+ ">" +:+ foldr (fun t s => render t +:+ s) EmptyString children +:+
      "</" +:+ name +:+ ">"
  | Text s => s
  | Other => EmptyString
  end.
Definition render_all (l : list xmlNode) : string := foldr (fun t s => render t +:+ s) EmptyString l.

(** ** A library *)

Module Texts.
(** The texts of a list one after the other, when there is one. *)
Fixpoint text_of (l : list xmlNode) : option string :=
  match l with
  | [] => None
  | Text s :: l => Some (s +:+ default EmptyString (text_of l))
  | _ :: l => text_of l
  end.
#[local] Instance text_xml : LibXml := { xmlNodeListGetString := text_of }.
#[local] Instance text_laws : LibXmlLaws.
Proof.
  constructor; [done| |by eexists]. intros s. cbn. f_equal.
  induction s as [|c s IH]; [done|]. change (String c (s +:+ "") = String c s). by rewrite IH.
Qed.
End Texts.
