(* ===== verification/ThdIo.v ===== *)
(** * The thermal daemon: the world it runs in

    thd_sys_fs.cpp (reading and writing sysfs), thd_rapl_power_meter.cpp (the
    power of the package from the energy counters) and the queue of messages of
    thd_engine.cpp.  The operating system is the class [ThdOs], whose answers
    depend on the number of calls made before; what is written and sent is
    recorded. *)

From Stdlib Require Import ZArith Lia Ascii String.
From stdpp Require Import base list option strings pretty.
From S2P Require Import Prelude Decimal ThdCommon Xml.

#[local] Open Scope Z_scope.
#[local] Open Scope prog_scope.

(** [os_read]: the content of a file or a negative error; [os_write]: the count
    of bytes written or a negative error; [os_unset]: what a variable that was
    never set holds; [os_thread]: a thread was created; [os_writable]: the mode
    of a file lets its owner write; [os_link]: the target of a symbolic link;
    [os_rundir] and [os_confdir]: [TDRUNDIR] and [TDCONFDIR]; [os_dir]: the names in
    a directory as [readdir] gives them; [os_owner]: the owner and the mode of a file,
    [os_lstat]: the mode of a link itself; [os_xml]: the tree [xmlReadFile] makes
    of a file, with the strings of [os_libxml]; [os_uname]: the version of the kernel;
    [os_size]: the size of a file, 0 when there is none. *)
Class ThdOs := {
  os_time : nat -> Z;
  os_stat : nat -> string -> bool;
  os_read : nat -> string -> Z + string;
  os_write : nat -> string -> string -> Z;
  os_unset : nat -> Z;
  os_thread : nat -> bool;
  os_writable : nat -> string -> bool;
  os_link : nat -> string -> option string;
  os_rundir : string;
  os_dir : nat -> string -> option (list string);
  os_confdir : string;
  os_owner : nat -> string -> option (Z * Z);
  os_lstat : nat -> string -> option Z;
  os_xml : nat -> string -> option (list xmlNode);
  os_uname : nat -> string;
  os_size : nat -> string -> Z;
  os_libxml :: LibXml
}.

(** ** State *)

Inductive domain_type := INVALID | PACKAGE | DRAM | CORE | UNCORE.
#[export] Instance domain_type_dec : EqDecision domain_type.
Proof. solve_decision. Defined.

Record rapl_domain_t := Domain {
  dom_type : domain_type; dom_path : string;
  max_energy_range : Z; max_energy_range_threshold : Z; half_way : bool;
  energy_cumulative_counter : Z; energy_counter : Z; power : Z; max_power : Z; min_power : Z
}.

Record Meter := Mtr {
  rapl_present : bool; domain_list : list rapl_domain_t; last_time : Z; enable_measurement : bool
}.

Inductive message_name_t :=
  WAKEUP | TERMINATE | PREF_CHANGED | THERMAL_ZONE_NOTIFY | RELOAD_ZONES
  | POLL_ENABLE | POLL_DISABLE | FAST_POLL_ENABLE | FAST_POLL_DISABLE.

(** The calls made, the writes (path, text and answer), the power meter, the
    messages in the pipe with their first word, the calls of [reboot]. *)
Record World := Wld {
  io_calls : nat; io_writes : list (string * string * Z);
  io_meter : Meter; io_pipe : list (message_name_t * Z); io_reboots : nat
}.

Definition set_meter v w := Wld (io_calls w) (io_writes w) v (io_pipe w) (io_reboots w).
Definition set_pipe v w := Wld (io_calls w) (io_writes w) (io_meter w) v (io_reboots w).
Definition log_write e w := Wld (io_calls w) (io_writes w ++ [e]) (io_meter w) (io_pipe w) (io_reboots w).

(** ** thd_sys_fs.cpp *)

(** [atol] and [atoi] of the C library. *)
Definition atol (s : string) : Z :=
  match signed_number s with Some z => Z.max (- 2 ^ 63) (Z.min (2 ^ 63 - 1) z) | None => 0 end.
Definition atoi (s : string) : Z := sint 32 (atol s).

(** The first word of a stream. *)
Fixpoint word_of (s : string) : string :=
  match s with
  | EmptyString => EmptyString
  | String c s => if is_blank c then EmptyString else String c (word_of s)
  end.
Fixpoint first_word (s : string) : option string :=
  match s with
  | EmptyString => None
  | String c s' => if is_blank c then first_word s' else Some (word_of s)
  end.

Section Io.
Context `{ThdOs}.

Definition ask {A} (f : nat -> A) : M World A := fun w =>
  (f (io_calls w), Wld (S (io_calls w)) (io_writes w) (io_meter w) (io_pipe w) (io_reboots w)).

Definition now : M World Z := ask os_time.
Definition unset : M World Z := ask os_unset.
Definition thread_created : M World bool := ask os_thread.
(** [reboot (RB_POWER_OFF)]. *)
Definition power_off : M World unit :=
  modify (fun w => Wld (io_calls w) (io_writes w) (io_meter w) (io_pipe w) (S (io_reboots w))).
Definition fs_exists (path : string) : M World bool := ask (fun n => os_stat n path).

(** An [ifstream] of the file is open. *)
Definition fs_open (path : string) : M World bool :=
  r <- ask (fun n => os_read n path) ;; ret (match r with inr _ => true | inl _ => false end).
Definition fs_writable (path : string) : M World bool := ask (fun n => os_writable n path).
Definition fs_read_link (path : string) : M World (option string) := ask (fun n => os_link n path).

Definition fs_dir (path : string) : M World (list string) := ask (fun n => default [] (os_dir n path)).

Definition fs_write (path text : string) : M World Z :=
  r <- ask (fun n => os_write n path text) ;;
  modify (log_write (path, text, r)) ;;; ret r.
Definition fs_write_uint (path : string) (data : Z) : M World Z :=
  fs_write path (pretty (Z.to_N (wrap 32 data))).

(** The code and, when it is positive, the value. *)
Definition fs_read_number (size : nat) (conv : string -> Z) (path : string) : M World (Z * option Z) :=
  r <- ask (fun n => os_read n path) ;;
  ret (match r with
       | inl e => (e, None)
       | inr text =>
           let str := String.substring 0 size text in
           let n := Z.of_nat (String.length str) in
           (n, if 0 <? n then Some (conv str) else None)
       end).
Definition fs_read_int : string -> M World (Z * option Z) := fs_read_number 16 atoi.
Definition fs_read_ulong : string -> M World (Z * option Z) := fs_read_number 32 (fun s => wrap 64 (atol s)).

Definition EINVAL := 22.
(** The code and the word read, if there is one. *)
Definition fs_read_string (path : string) : M World (Z * option string) :=
  r <- ask (fun n => os_read n path) ;;
  ret (match r with inl _ => (- EINVAL, None) | inr text => (0, first_word text) end).

(** The first [size] bytes of a file; a file that is shorter is an error. *)
Definition fs_read_buffer (size : Z) (path : string) : M World (Z * option string) :=
  r <- ask (fun n => os_read n path) ;;
  ret (match r with
       | inl e => (e, None)
       | inr text => if Z.of_nat (String.length text) <? size then (-1, None)
                     else (size, Some (String.substring 0 (Z.to_nat size) text))
       end).

(** ** thd_rapl_power_meter.cpp *)

Definition ulong (z : Z) : Z := wrap 64 z.

(** The reading of one domain with its counter and the time since the last one. *)
Definition domain_ranged (d : rapl_domain_t) : M World rapl_domain_t :=
  if negb (max_energy_range d =? 0) then ret d
  else
    r <- fs_read_ulong (dom_path d +:+ "/max_energy_range_uj") ;;
    u <- unset ;;
    let range := if 0 <=? fst r then default u (snd r) / 1000 else max_energy_range d in
    ret (Domain (dom_type d) (dom_path d) range (range / 2) (half_way d)
           (energy_cumulative_counter d) (energy_counter d) (power d) (max_power d) (min_power d)).

Definition domain_read (d : rapl_domain_t) (energy_uj elapsed : Z) : rapl_domain_t :=
  let new := energy_uj / 1000 in
  let counter := energy_counter d in
  let wrapped := half_way d && (new <? max_energy_range_threshold d) in
  let cumulative :=
    if wrapped then ulong (energy_cumulative_counter d + max_energy_range d)
    else energy_cumulative_counter d in
  let diff := if wrapped then ulong (max_energy_range d - counter) else 0 in
  let counter := if wrapped then 0 else counter in
  let half := if wrapped then false
              else if max_energy_range_threshold d <? new then true else half_way d in
  let p := if negb (counter =? 0) then wrap 32 (ulong (new - counter + diff) / elapsed) else power d in
  let mx := if max_power d <? p then p else max_power d in
  let mn := if min_power d =? 0 then p else if p <? min_power d then p else min_power d in
  Domain (dom_type d) (dom_path d) (max_energy_range d) (max_energy_range_threshold d) half
    cumulative new p mx mn.

Definition energy_step (elapsed : Z) (d : rapl_domain_t) : M World rapl_domain_t :=
  d <- domain_ranged d ;;
  r <- fs_read_ulong (dom_path d +:+ "/energy_uj") ;;
  u <- unset ;;
  ret (if 0 <=? fst r then domain_read d (default u (snd r)) elapsed else d).

Fixpoint energy_steps (elapsed : Z) (l : list rapl_domain_t) : M World (list rapl_domain_t) :=
  match l with
  | [] => ret []
  | d :: l => d <- energy_step elapsed d ;; l <- energy_steps elapsed l ;; ret (d :: l)
  end.

Definition rapl_energy_loop : M World bool :=
  m <- gets io_meter ;;
  if negb (enable_measurement m) then ret false
  else
    curr_time <- now ;;
    if curr_time - last_time m <=? 0 then ret true
    else
      l <- energy_steps (curr_time - last_time m) (domain_list m) ;;
      modify (set_meter (Mtr (rapl_present m) l curr_time (enable_measurement m))) ;;; ret true.

Definition rapl_measure_power : M World unit :=
  m <- gets io_meter ;;
  if rapl_present m && enable_measurement m then rapl_energy_loop ;;; ret tt else ret tt.

Definition rapl_start_measure_power : M World unit :=
  modify (fun w => let m := io_meter w in
                   set_meter (Mtr (rapl_present m) (domain_list m) (last_time m) true) w).

Definition domain_power (t : domain_type) (m : Meter) : option Z :=
  d ← List.find (fun d => bool_decide (dom_type d = t)) (domain_list m); Some (wrap 32 (power d * 1000)).

(** The power in microwatts; when it is 0 the counters are read twice. *)
Definition rapl_action_get_power (t : domain_type) : M World Z :=
  m <- gets io_meter ;;
  if negb (rapl_present m) then ret 0
  else match domain_power t m with
       | None => ret 0
       | Some v =>
           if negb (v =? 0) then ret v
           else rapl_energy_loop ;;; rapl_energy_loop ;;;
                m <- gets io_meter ;; ret (default 0 (domain_power t m))
       end.

(** ** Messages *)

(** [send_message]: a write to the pipe of the engine. *)
Definition send_message (msg_id : message_name_t) (word : Z) : M World unit :=
  modify (fun w => set_pipe (io_pipe w ++ [(msg_id, word)]) w).
End Io.

(** ** Numbers that were printed *)

Lemma number_from_digit b acc d s : 0 <= d < 10 ->
  number_from b acc (String (pretty_N_char (Z.to_N d)) s) = number_from true (acc * 10 + d) s.
Proof.
  intros Hd%digit_cases. replace (acc * 10) with (10 * acc) by lia.
  by repeat (destruct Hd as [->|Hd]); subst.
Qed.

Lemma signed_number_pretty (z : Z) : signed_number (pretty z) = Some z.
Proof.
  assert (forall x, number_from false 0 (pretty (Zpos x)) = Some (Zpos x)) as Hx.
  { intros x. pose proof (read_pretty_pos number_from number_from_digit x "") as E.
    by rewrite string_app_nil_r in E. }
  destruct z as [|x|x].
  - done.
  - specialize (Hx x). change (pretty (Z.pos x)) with (pretty_N_go (Npos x) "") in *.
    destruct (pretty_go_head (Npos x) "" ltac:(lia)) as (c & r & E & Hc). rewrite E in *.
    rewrite <- Hx. rewrite <- (N2Z.id c). assert (0 <= Z.of_N c < 10) as Hd by lia.
    revert Hd. generalize (Z.of_N c). intros d Hd%digit_cases.
    by repeat (destruct Hd as [->|Hd]); subst.
  - change (signed_number (pretty (Z.neg x))) with
      (z ← number_from false 0 (pretty (Zpos x)); Some (- z)). by rewrite Hx.
Qed.

(** [atoi] gives back an [int] that was printed. *)
Lemma atoi_pretty (z : Z) : - 2 ^ 31 <= z < 2 ^ 31 -> atoi (pretty z) = z.
Proof.
  intros Hz. unfold atoi, atol. rewrite signed_number_pretty.
  rewrite Z.min_r, Z.max_r by lia. apply sint_id; lia.
Qed.
