(* ===== verification/Meter.v ===== *)
(** * The thermal daemon: the power meter

    thd_rapl_power_meter.cpp: the search for the domains of the energy counters and what is
    asked of them.  A reading of the counters is in ThdIo.v, which the cooling devices and
    the sensors use. *)

From Stdlib Require Import ZArith Lia Ascii String.
From stdpp Require Import base list option strings pretty.
From S2P Require Import Prelude ThdCommon Xml ThdIo.

#[local] Open Scope Z_scope.
#[local] Open Scope prog_scope.

(** The values of the enumeration are the bits of the mask. *)
Definition domain_bit (t : domain_type) : Z :=
  match t with INVALID => 0 | PACKAGE => 1 | DRAM => 2 | CORE => 4 | UNCORE => 8 end.
Definition default_mask : Z := Z.lor (domain_bit PACKAGE) (domain_bit DRAM).
(** [fnmatch] of the pattern package-*: the star stands for any text. *)
Definition domain_named (name : string) : domain_type :=
  if has_prefix "package-" name then PACKAGE
  else if String.eqb name "core" then CORE
  else if String.eqb name "uncore" then UNCORE
  else if String.eqb name "dram" then DRAM
  else INVALID.
Definition domain_new (t : domain_type) (path : string) : rapl_domain_t := Domain t path 0 0 false 0 0 0 0 0.
Definition rapl_dir : string := "/sys/class/powercap/intel-rapl/".

Section Meter.
Context `{ThdOs}.

(** ** The search for the domains *)

(** What is found for each name, in order; [None]: the fuel is used up. *)
Fixpoint collect {A} (f : string -> M World (option (list A))) (names : list string) : M World (option (list A)) :=
  match names with
  | [] => ret (Some [])
  | n :: names =>
      l <- f n ;;
      match l with
      | None => ret None
      | Some l => rest <- collect f names ;; ret (app l <$> rest)
      end
  end.
(** One entry of a directory: a package comes after the domains inside it. *)
Definition domain_at (inside : string -> M World (option (list rapl_domain_t))) (measure_mask : Z)
    (dir_name name : string) : M World (option (list rapl_domain_t)) :=
  if thd_strcmp_n (Some name) (Some "."%string) || thd_strcmp_n (Some name) (Some ".."%string) then ret (Some [])
  else
    e <- fs_exists (dir_name +:+ name +:+ "/name") ;;
    if negb e then ret (Some [])
    else
      r <- fs_read_string (dir_name +:+ name +:+ "/name") ;;
      if fst r <? 0 then ret (Some [])
      else
        let t := domain_named (default EmptyString (snd r)) in
        l <- (match t with PACKAGE => inside (dir_name +:+ name +:+ "/") | _ => ret (Some []) end) ;;
        ret ((fun l => if Z.land measure_mask (domain_bit t) =? 0 then l
                       else l ++ [domain_new t (dir_name +:+ name)]) <$> l).
(** [depth]: how many directories of packages may lie in each other. *)
Fixpoint rapl_read_domains (depth : nat) (measure_mask : Z) (dir_name : string) : M World (option (list rapl_domain_t)) :=
  match depth with
  | O => ret None
  | S depth =>
      names <- fs_dir dir_name ;;
      collect (domain_at (rapl_read_domains depth measure_mask) measure_mask dir_name) names
  end.

(** The constructor; [false]: the fuel is used up. *)
Definition power_meter_new (depth : nat) (measure_mask : Z) : M World bool :=
  e <- fs_exists rapl_dir ;;
  if negb e then modify (set_meter (Mtr false [] 0 false)) ;;; ret true
  else
    t <- now ;;
    l <- rapl_read_domains depth measure_mask rapl_dir ;;
    match l with
    | Some l => modify (set_meter (Mtr true l t false)) ;;; ret true
    | None => ret false
    end.

(** ** What is asked of the meter *)

Definition rapl_stop_measure_power : M World unit :=
  modify (fun w => let m := io_meter w in set_meter (Mtr (rapl_present m) (domain_list m) (last_time m) false) w).

Definition domain_energy (d : rapl_domain_t) : Z := ulong (ulong (energy_counter d + energy_cumulative_counter d) * 1000).
Definition first_domain (t : domain_type) (m : Meter) : option rapl_domain_t :=
  List.find (fun d => bool_decide (dom_type d = t)) (domain_list m).
(** The energy in microjoules; when it is 0 the counters are read. *)
Definition rapl_action_get_energy (t : domain_type) : M World Z :=
  m <- gets io_meter ;;
  match domain_energy <$> first_domain t m with
  | None => ret 0
  | Some value =>
      if negb (value =? 0) then ret value
      else rapl_energy_loop ;;; m <- gets io_meter ;; ret (default 0 (domain_energy <$> first_domain t m))
  end.

Definition rapl_action_get_last_power (t : domain_type) : M World Z :=
  m <- gets io_meter ;;
  ret (if rapl_present m then default 0 (domain_power t m) else 0).

(** A limit of the domain, when it is positive. *)
Definition read_limit_uw (path : string) : M World Z :=
  r <- fs_read_int path ;;
  u <- unset ;;
  let max_power := default (sint 32 u) (snd r) in
  ret (if (0 <=? fst r) && (0 <? max_power) then max_power else 0).
(** The first of the domains of the kind that has a limit. *)
Fixpoint max_power_of (t : domain_type) (l : list rapl_domain_t) : M World Z :=
  match l with
  | [] => ret 0
  | d :: l =>
      if bool_decide (dom_type d = t) then
        const_0_val <- read_limit_uw (dom_path d +:+ "/constraint_0_max_power_uw") ;;
        const_1_val <- read_limit_uw (dom_path d +:+ "/constraint_1_max_power_uw") ;;
        let value := if const_0_val <? const_1_val then const_1_val else const_0_val in
        if negb (value =? 0) then ret value else max_power_of t l
      else max_power_of t l
  end.
Definition rapl_action_get_max_power (t : domain_type) : M World Z :=
  m <- gets io_meter ;;
  if rapl_present m then max_power_of t (domain_list m) else ret 0.

(** The power with the highest and the lowest one, which stay what they were when there is
    no such domain. *)
Definition rapl_action_get_power_range (t : domain_type) : M World (Z * option (Z * Z)) :=
  m <- gets io_meter ;;
  if negb (rapl_present m) then ret (0, None)
  else
    value <- rapl_action_get_power t ;;
    m <- gets io_meter ;;
    ret (value, (fun d => (wrap 32 (max_power d * 1000), wrap 32 (min_power d * 1000))) <$> first_domain t m).

(** The thread of the meter: a reading every ten seconds until the measuring is switched
    off; [fuel]: the readings. *)
Definition rapl_callback_timeout := 10.
Fixpoint rapl_periodic_callback (fuel : nat) : M World bool :=
  match fuel with
  | O => ret false
  | S fuel => on <- rapl_energy_loop ;; if on : bool then rapl_periodic_callback fuel else ret true
  end.
End Meter.

(** ** Theorems *)

(** *** The energy that was used *)

(** A reading of the counter, with the energy in microjoules that was used until then, and
    the time since the last reading. *)
Record Sample := Smp { used : Z; elapsed : Z }.
(** The counter runs from 0 up to [range] microjoules and starts again, and what is used
    between two readings is a millijoule less than half of its range at most. *)
Fixpoint sampled (range before : Z) (l : list Sample) : Prop :=
  match l with
  | [] => True
  | s :: l => before <= used s /\ 2 * (used s - before) + 2000 <= range /\ sampled range (used s) l
  end.
Definition readings (range : Z) (d : rapl_domain_t) (l : list Sample) : rapl_domain_t :=
  fold_left (fun d s => domain_read d (used s mod range) (elapsed s)) l d.
Definition last_used (before : Z) (l : list Sample) : Z := fold_left (fun _ s => used s) l before.

(** [base]: how often the counter had started again before the first reading. *)
Definition counted (range base E : Z) (d : rapl_domain_t) : Prop :=
  max_energy_range d = range / 1000 /\ max_energy_range_threshold d = range / 1000 / 2 /\
  energy_counter d = E mod range / 1000 /\ energy_cumulative_counter d = (E / range - base) * (range / 1000) /\
  (range / 1000 / 2 < E mod range / 1000 -> half_way d = true) /\
  (half_way d = true -> range / 1000 / 2 <= E mod range / 1000).

(** The quotients by 1000 and 2 as bounds, for [lia]. *)
Ltac quotients range x := pose proof (Z.div_mod range 1000 ltac:(lia)); pose proof (Z.mod_pos_bound range 1000 ltac:(lia));
  pose proof (Z.div_mod (range / 1000) 2 ltac:(lia)); pose proof (Z.mod_pos_bound (range / 1000) 2 ltac:(lia));
  pose proof (Z.div_mod x 1000 ltac:(lia)); pose proof (Z.mod_pos_bound x 1000 ltac:(lia)).

(** Between two readings the counter goes on, or starts again once: then it was in the
    upper half and is in the lower one. *)
Lemma mod_step range E E' : 0 < range -> E <= E' -> 2 * (E' - E) + 2000 <= range ->
  (E' / range = E / range /\ E' mod range = E mod range + (E' - E)) \/
  (E' / range = E / range + 1 /\ range / 1000 / 2 < E mod range / 1000 /\ E' mod range / 1000 < range / 1000 / 2).
Proof.
  intros Hr Hle Hd. pose proof (Z.mod_pos_bound E range Hr) as Hb. pose proof (Z.div_mod E range ltac:(lia)) as Hm.
  destruct (Z_lt_le_dec (E mod range + (E' - E)) range) as [Hlt|Hge].
  - left. assert (0 <= E mod range + (E' - E) < range) as Hx by lia.
    split; symmetry; [apply (Z.div_unique _ _ _ (E mod range + (E' - E)))|apply (Z.mod_unique _ _ (E / range))]; lia.
  - right. set (e' := E mod range + (E' - E) - range).
    assert (E' / range = E / range + 1) as -> by (symmetry; apply (Z.div_unique _ _ _ e'); lia).
    assert (E' mod range = e') as -> by (symmetry; apply (Z.mod_unique _ _ (E / range + 1)); lia).
    split; [done|]. quotients range (E mod range).
    pose proof (Z.div_mod e' 1000 ltac:(lia)). pose proof (Z.mod_pos_bound e' 1000 ltac:(lia)). lia.
Qed.
(** The energy of whole rounds is at most what was used. *)
Lemma rounds_below range E k : 0 < range -> 0 <= k -> 0 <= E / range - k ->
  0 <= (E / range - k) * (range / 1000) <= E.
Proof.
  intros Hr Hk Hd. pose proof (Z.div_pos range 1000 ltac:(lia) ltac:(lia)). pose proof (Z.div_mod range 1000 ltac:(lia)).
  pose proof (Z.mod_pos_bound range 1000 ltac:(lia)). pose proof (Z.div_mod E range ltac:(lia)).
  pose proof (Z.mod_pos_bound E range Hr). split; [nia|].
  transitivity ((E / range) * range); [|nia]. apply Z.mul_le_mono_nonneg; lia.
Qed.

Lemma counted_read range base d E s : 0 < range -> 0 <= base <= E / range -> used s < 2 ^ 63 ->
  counted range base E d -> E <= used s -> 2 * (used s - E) + 2000 <= range ->
  counted range base (used s) (domain_read d (used s mod range) (elapsed s)) /\ base <= used s / range.
Proof.
  intros Hr Hb H63 (Hm & Ht & Hc & Hk & Hh & Hh') Hle Hd.
  assert (E / range <= used s / range) as Hq by (apply Z.div_le_mono; lia).
  unfold counted, domain_read. cbn [max_energy_range max_energy_range_threshold energy_counter
    energy_cumulative_counter half_way]. rewrite Hm, Ht, Hk. split; [|lia].
  destruct (mod_step range E (used s) Hr Hle Hd) as [[H1 H2]|(H1 & H2 & H3)].
  - rewrite H1. assert (E mod range / 1000 <= used s mod range / 1000) as Hup by (apply Z.div_le_mono; lia).
    assert (half_way d && (used s mod range / 1000 <? range / 1000 / 2) = false) as ->.
    { destruct (half_way d); [|done]. specialize (Hh' eq_refl). apply Z.ltb_ge. lia. }
    repeat split; try done; destruct (Z.ltb_spec (range / 1000 / 2) (used s mod range / 1000)); try done; try lia.
    intros Hw. specialize (Hh' Hw). lia.
  - rewrite (Hh H2), (proj2 (Z.ltb_lt _ _) H3). cbn [andb].
    pose proof (rounds_below range (used s) base Hr ltac:(lia) ltac:(lia)) as Hrb.
    assert ((E / range - base) * (range / 1000) + range / 1000 = (used s / range - base) * (range / 1000)) as -> by (rewrite H1; ring).
    unfold ulong. rewrite wrap_small by lia. repeat split; try done; lia.
Qed.
Lemma sampled_le range e l : sampled range e l -> e <= last_used e l.
Proof.
  revert e. induction l as [|s l IH]; intros e; [done|]. intros (? & _ & Hl). cbn. apply IH in Hl. unfold last_used in *. lia.
Qed.
Lemma counted_readings range base l : 0 < range -> forall d E, 0 <= base <= E / range -> counted range base E d ->
  sampled range E l -> last_used E l < 2 ^ 63 ->
  counted range base (last_used E l) (readings range d l) /\ base <= last_used E l / range.
Proof.
  intros Hr. induction l as [|s l IH]; intros d E Hb Hc; [intros _ _; split; [exact Hc|cbn; lia]|]. intros (H1 & H2 & H3) H63.
  cbn [readings last_used fold_left] in *. pose proof (sampled_le _ _ _ H3) as Hl. unfold last_used in Hl.
  destruct (counted_read range base d E s Hr Hb ltac:(lia) Hc H1 H2) as [Hc' Hb']. apply IH; [lia|done..].
Qed.

Section Energy.
Context `{ThdOs}.

(** C36: A domain whose counter starts again after [range] microjoules, as
    max_energy_range_uj says, and that is read before more than half of its range, less a
    millijoule, is used again.  Every restart of the counter is noticed once: the meter
    reports whole rounds, of the range cut to millijoules, and what the counter shows. That is
    the energy used since the round of the first reading began, less at most 999 microjoules
    for each round begun. *)
Theorem energy_counted t path range n w s l :
  res (fs_read_ulong (path +:+ "/max_energy_range_uj")) w = (n, Some range) -> 0 <= n -> 0 < range ->
  0 <= used s -> sampled range (used s) l ->
  let d := res (domain_ranged (domain_new t path)) w in
  let total := last_used (used s) l in
  let rounds := total / range - used s / range in
  let reported := domain_energy (readings range d (s :: l)) in
  total < 2 ^ 63 ->
  reported = (rounds * (range / 1000) + total mod range / 1000) * 1000 /\
  0 <= (total - (used s - used s mod range)) - reported <= 999 * (rounds + 1).
Proof.
  intros Hf Hn Hr Hs Hl d total rounds reported Ht. pose proof (sampled_le _ _ _ Hl) as Hle. fold total in Hle.
  assert (d = Domain t path (range / 1000) (range / 1000 / 2) false 0 0 0 0 0) as Ed.
  { unfold d, domain_ranged. cbn [max_energy_range domain_new Z.eqb negb]. rewrite res_bind.
    change (dom_path _) with path. rewrite Hf. rewrite res_bind. cbn [fst snd].
    rewrite (proj2 (Z.leb_le 0 n) Hn). done. }
  assert (0 <= used s / range) as Hq by (apply Z.div_pos; lia).
  destruct (counted_readings range (used s / range) l Hr (readings range d [s]) (used s)) as [Hc Hb].
  - lia.
  - rewrite Ed. unfold readings, counted, domain_read. cbn.
    repeat split; try lia; destruct (Z.ltb_spec (range / 1000 / 2) (used s mod range / 1000)); try done; lia.
  - done.
  - exact Ht.
  - destruct Hc as (_ & _ & Hc & Hk & _). fold total in Hb, Hc, Hk. fold rounds in Hk.
    unfold reported. change (readings range d (s :: l)) with (readings range (readings range d [s]) l).
    unfold domain_energy. rewrite Hc, Hk. pose proof (Z.mod_pos_bound total range Hr) as Hm.
    pose proof (rounds_below range total (used s / range) Hr Hq ltac:(lia)) as Hrb. fold rounds in Hrb.
    pose proof (Z.div_mod total range ltac:(lia)) as Et. pose proof (Z.div_mod (used s) range ltac:(lia)) as Es.
    assert (rounds * range = range * (total / range) - range * (used s / range)) as Er by (unfold rounds; ring).
    assert (0 <= rounds) as H0 by (unfold rounds; lia). quotients range (total mod range).
    assert (0 <= total mod range / 1000) as Hc0 by (apply Z.div_pos; lia).
    set (q := total mod range / 1000) in *. set (r := range / 1000) in *.
    assert (rounds * range = 1000 * (rounds * r) + rounds * (range mod 1000)) as Hx.
    { transitivity (rounds * (1000 * r + range mod 1000)); [f_equal; lia|ring]. }
    assert (0 <= rounds * (range mod 1000) <= rounds * 999) as Hy.
    { split; [apply Z.mul_nonneg_nonneg|apply Z.mul_le_mono_nonneg_l]; lia. }
    assert (0 <= (rounds * r + q) * 1000 <= total) as Hz by lia.
    unfold ulong. rewrite (wrap_small 64 (q + _)), wrap_small by lia. split; lia.
Qed.
End Energy.

(** A counter that starts again after 1000900 microjoules. *)
Module Counter.
#[local] Instance counter_os : ThdOs := {
  os_time _ := 0; os_stat _ _ := true; os_read _ _ := inr "1000900"%string;
  os_write _ _ _ := 1; os_unset _ := 0; os_thread _ := true; os_writable _ _ := false;
  os_link _ _ := None; os_rundir := "/var/run/thermald"; os_dir _ _ := None;
  os_confdir := "/etc/thermald"; os_owner _ _ := None; os_lstat _ _ := None; os_xml _ _ := None; os_uname _ := ""; os_size _ _ := 0;
  os_libxml := Texts.text_xml
}.
Definition world0 : World := Wld 0 [] (Mtr true [] 0 true) [] 0.

(** Two restarts: of the 2050500 microjoules since the round began 2050000 are reported less
    the 2 that are cut off. *)
Lemma energy_counted_witness :
  domain_energy (readings 1000900 (res (domain_ranged (domain_new PACKAGE "/p")) world0)
    [Smp 2700000 1; Smp 3100000 4; Smp 3500000 4; Smp 3900000 4; Smp 4052300 2]) = 2048000.
Proof.
  destruct (energy_counted PACKAGE "/p" 1000900 7 world0 (Smp 2700000 1)
    [Smp 3100000 4; Smp 3500000 4; Smp 3900000 4; Smp 4052300 2]) as [E _]; [vm_compute; intuition discriminate..|].
  rewrite E. vm_compute. reflexivity.
Defined.
End Counter.

(** *** The fuel of the search *)

Section Depth.
Context `{ThdOs}.
(** What one finds with some fuel the other finds too. *)
Definition extends {A B} (f g : A -> M World (option B)) : Prop :=
  forall a w b w', f a w = (Some b, w') -> g a w = (Some b, w').
Lemma collect_extends {A} (f g : string -> M World (option (list A))) : extends f g -> extends (collect f) (collect g).
Proof.
  intros Hf names. induction names as [|n names IH]; intros w b w'; [done|]. cbn [collect]. unfold bind.
  destruct (f n w) as [[l|] w1] eqn:E; [|done]. rewrite (Hf _ _ _ _ E).
  destruct (collect f names w1) as [[rest|] w2] eqn:E2; [|done]. by rewrite (IH _ _ _ E2).
Qed.
Lemma domain_at_extends f g mask dir : extends f g -> extends (domain_at f mask dir) (domain_at g mask dir).
Proof.
  intros Hf n w b w'. unfold domain_at. destruct (_ || _); [done|]. unfold bind.
  destruct (fs_exists _ w) as [[] w1]; [|done]. cbn [negb]. destruct (fs_read_string _ w1) as [r w2].
  destruct (fst r <? 0); [done|]. destruct (domain_named _); try done.
  destruct (f _ w2) as [[l|] w3] eqn:E; [|done]. by rewrite (Hf _ _ _ _ E).
Qed.
(** More fuel finds the same domains in the same order, so any fuel that is enough gives the
    result of the unbounded recursion. *)
Theorem more_depth depth k mask : extends (rapl_read_domains depth mask) (rapl_read_domains (depth + k) mask).
Proof.
  induction depth as [|depth IH]; intros dir w l w'; [done|]. cbn [rapl_read_domains Nat.add]. unfold bind.
  destruct (fs_dir dir w) as [names w1]. apply collect_extends, domain_at_extends, IH.
Qed.
End Depth.

Module Laptop.
(** A package with the domains of its cores and of its memory. *)
#[local] Instance rapl_os : ThdOs := {
  os_time n := 1000 + 10 * Z.of_nat n; os_stat _ _ := true;
  os_read _ p :=
    if String.eqb p "/sys/class/powercap/intel-rapl/intel-rapl:0/name" then inr ("package-0")
    else if String.eqb p "/sys/class/powercap/intel-rapl/intel-rapl:0/intel-rapl:0:0/name" then inr ("core")
    else if String.eqb p "/sys/class/powercap/intel-rapl/intel-rapl:0/intel-rapl:0:1/name" then inr ("dram")
    else inl (-2);
  os_write _ _ _ := -1; os_unset _ := 0; os_thread _ := true; os_writable _ _ := false;
  os_link _ _ := None; os_rundir := "/var/run/thermald";
  os_dir _ p :=
    if String.eqb p rapl_dir then Some ["."; ".."; "intel-rapl:0"]%string
    else if String.eqb p (rapl_dir +:+ "intel-rapl:0/") then Some ["intel-rapl:0:0"; "intel-rapl:0:1"; "uevent"]%string
    else None;
  os_confdir := "/etc/thermald"; os_owner _ _ := None; os_lstat _ _ := None; os_xml _ _ := None; os_uname _ := ""; os_size _ _ := 0;
  os_libxml := Texts.text_xml
}.
Example domains :
  map (fun d => (dom_type d, dom_path d))
    (domain_list (io_meter (post (power_meter_new 3 default_mask) (Wld 0 [] (Mtr false [] 0 false) [] 0)))) =
  [(DRAM, "/sys/class/powercap/intel-rapl/intel-rapl:0/intel-rapl:0:1");
   (PACKAGE, "/sys/class/powercap/intel-rapl/intel-rapl:0")]%string.
Proof. by vm_compute. Qed.
End Laptop.
