(* ===== verification/Kobj.v ===== *)
(** * The thermal daemon: the events of the kernel's objects

    thd_kobj_uevent.cpp: a message of the kernel is a sequence of texts that end in a zero
    byte; the daemon looks for the path of a thermal zone. *)

From Stdlib Require Import ZArith Lia Ascii String.
From stdpp Require Import base list option strings.
From S2P Require Import Prelude ThdCommon ThdIo.

#[local] Open Scope Z_scope.
#[local] Open Scope prog_scope.

(** The netlink socket: the handle of [socket], whether [bind] fails, and what [recv] hands
    over without waiting, if anything. *)
Class Netlink := {
  nl_socket : nat -> Z;
  nl_bind_fails : nat -> bool;
  nl_recv : nat -> option (list ascii)
}.

Definition max_buffer_size := 512.
Definition devpath_key : list ascii := list_ascii_of_string "DEVPATH=".

(** [cthd_kobj_uevent]: the handle and the path that is looked for. *)
Record Kobj := mkKobj { kobj_fd : Z; device_path : list ascii }.
Definition kobj_new : Kobj := mkKobj 0 [].
(** The first 511 bytes of a path. *)
Definition register_dev_path (path : list ascii) (k : Kobj) : Kobj := mkKobj (kobj_fd k) (take (Z.to_nat (max_buffer_size - 1)) path).

(** The text at a place: what comes before the first zero byte; behind the buffer there is
    a zero byte. *)
Fixpoint c_text (l : list ascii) : list ascii :=
  match l with [] => [] | c :: l => if ascii_dec c Ascii.zero then [] else c :: c_text l end.
(** [!strncmp (s, lit, strlen (lit))] *)
Fixpoint starts (lit s : list ascii) : bool :=
  match lit, s with
  | [], _ => true
  | c :: lit, d :: s => if ascii_dec c d then starts lit s else false
  | _ :: _, [] => false
  end.
(** The text is the path of a device below the registered one. *)
Definition is_event (device_path text : list ascii) : bool :=
  (length devpath_key <? length text)%nat && starts devpath_key text && starts device_path (drop (length devpath_key) text).
(** The loop over the [len] bytes of the buffer from place [i] on; [None]: the fuel is used
    up. *)
Fixpoint event_from (fuel : nat) (device_path buffer : list ascii) (i : nat) : option bool :=
  match fuel with
  | O => None
  | S fuel =>
      if (i <? length buffer)%nat then
        let text := c_text (drop i buffer) in
        if is_event device_path text then Some true
        else event_from fuel device_path buffer (i + length text + 1)
      else Some false
  end.

Section Kobj.
Context `{ThdOs} `{Netlink}.

Definition kobj_uevent_open (k : Kobj) : M World (Z * Kobj) :=
  fd <- ask nl_socket ;;
  if fd <? 0 then ret (fd, mkKobj fd (device_path k))
  else
    fails <- ask nl_bind_fails ;;
    ret (if fails : bool then -1 else fd, mkKobj fd (device_path k)).
(** At most 511 bytes of a message are looked at. *)
Definition check_for_event (fuel : nat) (k : Kobj) : M World (option bool) :=
  r <- ask nl_recv ;;
  ret (match take (Z.to_nat (max_buffer_size - 1)) <$> r with
       | None | Some [] => Some false
       | Some buffer => event_from fuel (device_path k) buffer 0
       end).
End Kobj.

(** ** Theorems *)

(** The texts of a message: it is split at its zero bytes. *)
Fixpoint texts (l : list ascii) : list (list ascii) :=
  match l with
  | [] => []
  | c :: l =>
      if ascii_dec c Ascii.zero then [] :: texts l
      else match texts l with [] => [[c]] | t :: ts => (c :: t) :: ts end
  end.

Lemma texts_c_text l : l <> [] -> texts l = c_text l :: texts (drop (length (c_text l) + 1) l).
Proof.
  induction l as [|c l IH]; [done|]. intros _. cbn [texts c_text]. destruct (ascii_dec c Ascii.zero) as [->|Hc]; [done|].
  destruct l as [|d l]; [done|]. rewrite IH by done. done.
Qed.
Lemma event_from_texts device_path buffer fuel i : (length buffer - i < fuel)%nat ->
  event_from fuel device_path buffer i = Some (existsb (is_event device_path) (texts (drop i buffer))).
Proof.
  revert i. induction fuel as [|fuel IH]; intros i Hf; [lia|]. cbn [event_from].
  destruct (Nat.ltb_spec i (length buffer)) as [Hi|Hi]; [|by rewrite drop_ge by lia].
  rewrite texts_c_text by (intros E; apply (f_equal length) in E; rewrite length_drop in E; simpl in E; lia).
  cbn [existsb]. rewrite drop_drop. destruct (is_event _ _); [done|]. rewrite IH by lia. cbn [orb].
  by rewrite Nat.add_assoc.
Qed.

(** A text that the loop accepts, as the kernel writes it. *)
Lemma starts_app lit s : starts lit s = true <-> exists r, s = lit ++ r.
Proof.
  revert s. induction lit as [|c lit IH]; intros s; [split; [by exists s|done]|]. cbn [starts].
  destruct s as [|d s]; [split; [done|by intros []]|]. destruct (ascii_dec c d) as [->|Hc].
  - rewrite IH. split; intros [r E]; exists r; by simplify_eq/=.
  - split; [done|]. intros [r E]. by simplify_eq/=.
Qed.
Lemma is_event_spec device_path text : device_path <> [] ->
  is_event device_path text = true <-> exists rest, text = devpath_key ++ device_path ++ rest.
Proof.
  intros Hp. unfold is_event. rewrite !andb_true_iff, Nat.ltb_lt, !starts_app. split.
  - intros [[_ [r ->]] [r' E]]. rewrite drop_app_length in E. exists r'. by rewrite E.
  - intros [rest ->]. rewrite drop_app_length, length_app, length_app. destruct device_path; [done|]. simpl length.
    split; [split; [lia|]|]; by eexists.
Qed.

(** C37: The loop ends, and it finds an event exactly when one of the texts of the message is a
    DEVPATH below the registered path, wherever in the message it is. *)
Theorem event_found device_path buffer : device_path <> [] ->
  exists b, event_from (S (length buffer)) device_path buffer 0 = Some b /\
    (b = true <-> exists text rest, text ∈ texts buffer /\ text = devpath_key ++ device_path ++ rest).
Proof.
  intros Hp. eexists. split; [by apply event_from_texts; lia|]. rewrite drop_0, existsb_exists. split.
  - intros (text & Hin%list_elem_of_In & Hx). apply is_event_spec in Hx as [rest Hx]; [|done]. by exists text, rest.
  - intros (text & rest & Hin%list_elem_of_In & Hx). exists text. split; [done|]. apply is_event_spec; [done|by exists rest].
Qed.
Lemma event_found_witness :
  let message := list_ascii_of_string "change" ++ [Ascii.zero] ++
                 list_ascii_of_string "DEVPATH=/devices/virtual/thermal/thermal_zone3" ++ [Ascii.zero] in
  exists b, event_from 100 (list_ascii_of_string "/devices/virtual/thermal/thermal_zone") message 0 = Some b /\ b = true.
Proof.
  intros message.
  destruct (event_found (list_ascii_of_string "/devices/virtual/thermal/thermal_zone") message ltac:(done)) as (b & Hb & _).
  exists b. vm_compute in Hb. injection Hb as <-. split; [by vm_compute|done].
Defined.
