(* ===== verification/Int3400.v ===== *)
(** * The thermal daemon: the INT3400 device

    thd_int3400.cpp: the directory of the device that stands for the thermal
    policies of the firmware, and its policy identifiers. *)

From Stdlib Require Import ZArith Lia Ascii String.
From stdpp Require Import base list option strings pretty.
From S2P Require Import Prelude ThdCommon ThdIo.

#[local] Open Scope Z_scope.
#[local] Open Scope prog_scope.

Section Device.
Context `{ThdOs}.

Definition names_with (prefix : string) (l : list string) : list string := filter (fun n => has_prefix prefix n = true) l.
(** [atoi] of what follows the prefix. *)
Definition number_after (prefix name : string) : Z := atoi (drop_string (String.length prefix) name).

(** The directory of the INT3400 device. *)
Definition int3400_dir : string := "/sys/bus/platform/drivers/int3400 thermal".
Definition int3400_base : M World (option string) :=
  e <- fs_exists int3400_dir ;;
  if negb e then ret None
  else l <- fs_dir int3400_dir ;;
       ret ((fun n => "/sys/bus/platform/devices/" +:+ n +:+ "/") <$> head (names_with "INT" l)).

Definition first_line (s : string) : string :=
  match String.index 0 (String (ascii_of_nat 10) EmptyString) s with
  | Some n => String.substring 0 n s
  | None => s
  end.

(** [set_policy_osc] and [set_default_uuid]. *)
Definition set_default_uuid (base : option string) (_uuid : string) : M World unit :=
  match base with
  | None => ret tt
  | Some b =>
      r <- ask (fun n => os_read n (b +:+ "uuids/available_uuids")) ;;
      let osc := match r with inr text => String.eqb (first_line text) "UNKNOWN" | inl _ => false end in
      fs_write (b +:+ "uuids/current_uuid")
        (if osc then "42A441D6-AE6A-462b-A84B-4A8CE79027D3" else _uuid) ;;; ret tt
  end.

(** The lines [getline] gives: an empty one after the last newline is not one. *)
Fixpoint lines_of (line : string) (s : string) : list string :=
  match s with
  | EmptyString => match line with EmptyString => [] | _ => [line] end
  | String c s =>
      if Ascii.eqb c (ascii_of_nat 10) then line :: lines_of EmptyString s
      else lines_of (line +:+ String c EmptyString) s
  end.

(** [match_supported_uuid () == THD_SUCCESS]. *)
Definition match_supported_uuid (base : option string) (uuid : string) : M World bool :=
  match base with
  | None => ret false
  | Some b =>
      r <- ask (fun n => os_read n (b +:+ "uuids/available_uuids")) ;;
      ret (match r with
           | inl _ => false
           | inr text => existsb (String.eqb uuid) (lines_of EmptyString text)
           end)
  end.
End Device.
