(* ===== verification/AcpiRel.v ===== *)
(** * The thermal daemon: relation tables

    thd_trt_art_reader.{h,cpp}: the configuration generated from the firmware's
    tables of thermal relations (passive _TRT, active _ART, passive two PSVT).
    The character device of the acpi_thermal_rel driver is the class
    [RelDevice]; the file that is written is a text. *)

From Stdlib Require Import ZArith Lia Ascii String.
From stdpp Require Import base list option strings pretty sets.
From S2P Require Import Prelude Floats ThdCommon ThdIo Int3400 Xml.

#[local] Open Scope Z_scope.
#[local] Open Scope prog_scope.

(** ** Data *)

(** The entries of acpi_thermal_rel_ioct.h, the fields that are read; the names
    are C strings, [limit] is the integer of the union. *)
Record trt_object := Trt { trt_source : string; trt_target : string; trt_influence : Z; trt_period : Z }.
Record art_object := Art { art_source : string; art_target : string; art_weight : Z }.
Record psvt_object := PsvtObj {
  ps_source : string; ps_target : string; ps_period : Z; ps_temp : Z; ps_limit : Z; ps_step : Z;
  ps_knob_type : Z
}.

(** An open of the device, and the answers of the three ioctls of a table: the
    count, the length and the entries in the buffer of that length. *)
Class RelDevice := {
  rel_open : nat -> bool;
  rel_count : nat -> option Z;
  rel_length : nat -> option Z;
  rel_trt : nat -> option (list trt_object);
  rel_art : nat -> option (list art_object);
  rel_psvt : nat -> option (list psvt_object);
  file_writable : nat -> string -> bool
}.

Record rel_object_t := RelObj {
  target_device : string; target_sensor : string;
  trt_objects : list trt_object; art_objects : list art_object; psvt_objects : list psvt_object;
  temperature : Z; step : Z
}.
Definition rel_object_new (name : string) (_temperature _step : Z) : rel_object_t :=
  RelObj name name [] [] [] _temperature _step.
Definition RelObj_again (r : rel_object_t) : rel_object_t := RelObj (target_device r) (target_sensor r)
  (trt_objects r) (art_objects r) (psvt_objects r) (temperature r) (step r).
#[export] Instance put_target_device : Field target_device := ltac:(field_of RelObj_again target_device).
#[export] Instance put_target_sensor : Field target_sensor := ltac:(field_of RelObj_again target_sensor).
#[export] Instance put_trt_objects : Field trt_objects := ltac:(field_of RelObj_again trt_objects).
#[export] Instance put_art_objects : Field art_objects := ltac:(field_of RelObj_again art_objects).
#[export] Instance put_psvt_objects : Field psvt_objects := ltac:(field_of RelObj_again psvt_objects).

(** [cthd_acpi_rel]: the tables with their counts, and the file so far. *)
Record Rel := mkRel {
  rel_list : list rel_object_t; indentation : string; conf_file : string;
  trt_data : list trt_object; trt_count : Z; art_data : list art_object; art_count : Z;
  psvt_data : list psvt_object; psvt_count : Z
}.
Definition Rel_again (r : Rel) : Rel := mkRel (rel_list r) (indentation r) (conf_file r) (trt_data r)
  (trt_count r) (art_data r) (art_count r) (psvt_data r) (psvt_count r).
#[export] Instance put_rel_list : Field rel_list := ltac:(field_of Rel_again rel_list).
#[export] Instance put_indentation : Field indentation := ltac:(field_of Rel_again indentation).
#[export] Instance put_conf_file : Field conf_file := ltac:(field_of Rel_again conf_file).
#[export] Instance put_trt_data : Field trt_data := ltac:(field_of Rel_again trt_data).
#[export] Instance put_trt_count : Field trt_count := ltac:(field_of Rel_again trt_count).
#[export] Instance put_art_data : Field art_data := ltac:(field_of Rel_again art_data).
#[export] Instance put_art_count : Field art_count := ltac:(field_of Rel_again art_count).
#[export] Instance put_psvt_data : Field psvt_data := ltac:(field_of Rel_again psvt_data).
#[export] Instance put_psvt_count : Field psvt_count := ltac:(field_of Rel_again psvt_count).
Definition rel_new : Rel := mkRel [] EmptyString EmptyString [] 0 [] 0 [] 0.

(** ** Names *)

Definition source_substitue_strings : list (string * string) := [("TPCH", "pch_wildcat_point")]%string.
Definition target_substitue_strings : list (string * string) :=
  [("B0D4", "rapl_controller"); ("DPLY", "LCD"); ("DISP", "LCD"); ("TMEM", "rapl_controller_dram");
   ("TCPU", "rapl_controller"); ("B0DB", "rapl_controller")]%string.
Definition sensor_substitue_strings : list (string * string) := [("TPCH", "pch_wildcat_point")]%string.

Inductive sub_type_t := TARGET_DEV | SOURCE_DEV | SENSOR_DEV.

Definition substitute (l : list (string * string)) (name : string) : string :=
  match List.find (fun e => String.eqb name (fst e)) l with Some (_, sub) => sub | None => name end.

Section Reader.
Context `{ThdOs} `{RelDevice}.

Definition Rs : Type := World * Rel.
Definition wio {A} (m : M World A) : M Rs A := fun s => let (a, w) := m (fst s) in (a, (w, snd s)).
Definition rel {A} (f : Rel -> A) : M Rs A := gets (fun s => f (snd s)).
Definition upd (f : Rel -> Rel) : M Rs unit := modify (fun s => (fst s, f (snd s))).
(** [conf_file << text]. *)
Definition out (text : string) : M Rs unit := upd (fun r => r <| conf_file := conf_file r +:+ text |>).

Definition platform_devices : string := "/sys/bus/platform/devices/".
Definition link_size : nat := 255.

(** The name of the device in the directory [path]: its uid or the end of its
    ACPI path; [None]: the entry is passed over. *)
Definition device_uid (path : string) : M World (option string) :=
  e <- fs_exists (path +:+ "uid") ;;
  if e : bool then
    r <- fs_read_string (path +:+ "uid") ;;
    ret (if fst r <? 0 then None else Some (default EmptyString (snd r)))
  else
    e <- fs_exists (path +:+ "path") ;;
    if e : bool then
      r <- fs_read_string (path +:+ "path") ;;
      ret (if fst r <? 0 then None else Some (last_component (default EmptyString (snd r))))
    else ret None.

(** The entries of the directory, up to the one with the name. *)
Fixpoint associate_entries (name : string) (entries : list string) : M World string :=
  match entries with
  | [] => ret name
  | d_name :: entries =>
      if has_prefix "INT340" d_name then
        link <- fs_read_link (platform_devices +:+ d_name +:+ "/firmware_node") ;;
        match link with
        | None | Some EmptyString => associate_entries name entries
        | Some buf =>
            let name_path := platform_devices +:+ d_name +:+ "/" +:+ String.substring 0 link_size buf +:+ "/" in
            uid <- device_uid name_path ;;
            if bool_decide (uid = Some name) then
              ret (if contains "INT3406" name_path then "DISP"
                   else if contains "INT3402" name_path then "TMEM"
                   else if contains "INT3401" name_path then "TCPU"
                   else name)%string
            else associate_entries name entries
        end
      else associate_entries name entries
  end.
Definition associate_device (name : string) : M World string :=
  l <- fs_dir platform_devices ;; associate_entries name l.

Definition subtitute_string (type : sub_type_t) (name : string) : M World string :=
  match type with
  | TARGET_DEV => name <- associate_device name ;; ret (substitute target_substitue_strings name)
  | SOURCE_DEV => ret (substitute source_substitue_strings name)
  | SENSOR_DEV => ret (substitute sensor_substitue_strings name)
  end.

(** ** Reading the tables *)

(** The ioctls of one table; [None]: the code is -1. *)
Definition read_table {E} (data : nat -> option (list E)) : M World (option (Z * list E)) :=
  fd <- ask rel_open ;;
  if negb fd then ret None
  else
    count <- ask rel_count ;;
    match count with
    | None => ret None
    | Some count =>
        length <- ask rel_length ;;
        match length with
        | None | Some 0 => ret None
        | Some _ =>
            d <- ask data ;;
            ret (d ← d; Some (wrap 32 count, d))
        end
    end.
(** The data are kept when the last ioctl fails; only the count makes them used. *)
Definition read_art : M Rs bool :=
  r <- wio (read_table rel_art) ;;
  match r with
  | Some (n, l) => upd (fun r => r <| art_data := l |> <| art_count := n |>) ;;; ret true
  | None => ret false
  end.
Definition read_trt : M Rs bool :=
  r <- wio (read_table rel_trt) ;;
  match r with
  | Some (n, l) => upd (fun r => r <| trt_data := l |> <| trt_count := n |>) ;;; ret true
  | None => ret false
  end.
Definition read_psvt : M Rs bool :=
  r <- wio (read_table rel_psvt) ;;
  match r with
  | Some (n, l) => upd (fun r => r <| psvt_data := l |> <| psvt_count := n |>) ;;; ret true
  | None => ret false
  end.

(** ** Grouping by target *)

(** The object of the target, made when there is none, gets the entry. *)
Fixpoint group (new : rel_object_t) (add : rel_object_t -> rel_object_t) (l : list rel_object_t) :
    list rel_object_t :=
  match l with
  | [] => [add new]
  | o :: l => if String.eqb (target_device new) (target_device o) then add o :: l else o :: group new add l
  end.
Definition group_trt (l : list rel_object_t) (e : trt_object) : list rel_object_t :=
  group (rel_object_new (trt_target e) 0 0) (fun o => o <| trt_objects := trt_objects o ++ [e] |>) l.
Definition group_art (l : list rel_object_t) (e : art_object) : list rel_object_t :=
  group (rel_object_new (art_target e) 0 0) (fun o => o <| art_objects := art_objects o ++ [e] |>) l.
Definition group_psvt (l : list rel_object_t) (e : psvt_object) : list rel_object_t :=
  group (rel_object_new (ps_target e) (sint 32 (ps_temp e)) (sint 32 (ps_step e)))
    (fun o => o <| psvt_objects := psvt_objects o ++ [e] |>) l.

Definition group_tables (ts : list trt_object) (acs : list art_object) (ps : list psvt_object)
    (l : list rel_object_t) : list rel_object_t :=
  foldl group_psvt (foldl group_art (foldl group_trt l ts) acs) ps.

(** The first [count] entries; [None]: the buffer is shorter. *)
Definition entries {E} (count : Z) (data : list E) : option (list E) :=
  if count <=? Z.of_nat (length data) then Some (take (Z.to_nat count) data) else None.

(** [false]: an entry outside the buffer is read. *)
Definition parse_target_devices : M Rs bool :=
  r <- rel id ;;
  match entries (trt_count r) (trt_data r), entries (art_count r) (art_data r),
        entries (psvt_count r) (psvt_data r) with
  | Some ts, Some acs, Some ps =>
      upd (fun r => r <| rel_list := group_tables ts acs ps (rel_list r) |>) ;;;
      ret true
  | _, _, _ => ret false
  end.

(** ** Writing trip points *)

Definition nl : string := String (ascii_of_nat 10) EmptyString.
Definition tab : string := String (ascii_of_nat 9) EmptyString.
(** [<name>text</name>] on a line of its own. *)
Definition out_line (prefix name text : string) : M Rs unit :=
  out (prefix +:+ "<" +:+ name +:+ ">" +:+ text +:+ "</" +:+ name +:+ ">" +:+ nl).
(** The lines that [body] writes between [<name>] and [</name>]. *)
Definition out_block {A} (prefix name : string) (body : M Rs A) : M Rs A :=
  out (prefix +:+ "<" +:+ name +:+ ">" +:+ nl) ;;;
  r <- body ;;
  out (prefix +:+ "</" +:+ name +:+ ">" +:+ nl) ;;; ret r.

Definition ACPI_TYPE_STRING := 2.
(** The eight bytes of the union as a C string. *)
Fixpoint limit_text (n : nat) (limit : Z) : string :=
  match n with
  | O => EmptyString
  | S n => let c := Z.land limit 255 in
           if c =? 0 then EmptyString
           else String (ascii_of_N (Z.to_N c)) (limit_text n (Z.shiftr limit 8))
  end.
Definition celsius (passive_temp : Z) : Z := DECI_KELVIN_TO_CELSIUS (sint 32 passive_temp).

(** The temperature of a passive two entry; a limit that is neither a maximum nor
    a minimum has none. *)
Definition out_psvt_temperature (prefix : string) (e : psvt_object) : M Rs unit :=
  let line t := out_line prefix "Temperature" (pretty (sint 32 (t * 1000))) in
  if ps_knob_type e =? ACPI_TYPE_STRING then
    let limit := limit_text 8 (ps_limit e) in
    (if strncasecmp_eq 3 limit "MAX" then line (celsius (ps_temp e) + 1) else ret tt) ;;;
    (if strncasecmp_eq 3 limit "MIN" then line (celsius (ps_temp e)) else ret tt)
  else line (celsius (ps_temp e)).
Definition limit_value (e : psvt_object) : Z :=
  if ps_knob_type e =? ACPI_TYPE_STRING then -1 else sint 32 (ps_limit e).
Definition add_psvt_entry (prefix : string) (e : psvt_object) : M Rs unit :=
  out_block prefix "TripPoint" (
    out_line (prefix +:+ tab) "SensorType" (ps_target e) ;;;
    out_psvt_temperature (prefix +:+ tab) e ;;;
    out_line (prefix +:+ tab) "Type" "Passive" ;;;
    out_block (prefix +:+ tab) "CoolingDevice" (
      device_name <- wio (subtitute_string TARGET_DEV (ps_source e)) ;;
      out_line (prefix +:+ tab +:+ tab) "type" device_name ;;;
      (if negb (ps_period e =? 0)
       then out_line (prefix +:+ tab +:+ tab) "SamplingPeriod" (pretty (ps_period e / 10)) else ret tt) ;;;
      (if 0 <? limit_value e
       then out_line (prefix +:+ tab +:+ tab) "TargetState" (pretty (sint 32 (limit_value e * 1000)))
       else ret tt))).
Definition add_psvt_trip_point (o : rel_object_t) : M Rs unit :=
  indent <- rel indentation ;; mfor (psvt_objects o) (add_psvt_entry (indent +:+ tab)).

(** A trip point of the _TRT or the _ART; [entries] writes its devices.  The name of
    the sensor is substituted in the object: doing it twice is doing it once. *)
Definition out_trip (sensor type : string) (entries : string -> M Rs unit) : M Rs unit :=
  indent <- rel indentation ;;
  let prefix := indent +:+ tab in
  out_block prefix "TripPoint" (
    sensor <- wio (subtitute_string SENSOR_DEV sensor) ;;
    out_line (prefix +:+ tab) "SensorType" sensor ;;;
    out_line (prefix +:+ tab) "Temperature" "*" ;;;
    out_line (prefix +:+ tab) "type" type ;;;
    out_line (prefix +:+ tab) "ControlType" "SEQUENTIAL" ;;;
    entries (prefix +:+ tab)).
Definition add_trt_entry (prefix : string) (e : trt_object) : M Rs unit :=
  out_block prefix "CoolingDevice" (
    device_name <- wio (subtitute_string TARGET_DEV (trt_source e)) ;;
    out_line (prefix +:+ tab) "type" device_name ;;;
    out_line (prefix +:+ tab) "influence" (pretty (trt_influence e)) ;;;
    out_line (prefix +:+ tab) "SamplingPeriod" (pretty (wrap 64 (trt_period e * 100) / 1000))).
Definition add_passive_trip_point (o : rel_object_t) : M Rs unit :=
  if bool_decide (trt_objects o = []) then ret tt
  else out_trip (target_sensor o) "passive" (fun prefix => mfor (trt_objects o) (add_trt_entry prefix)).
Definition add_art_entry (prefix : string) (e : art_object) : M Rs unit :=
  out_block prefix "CoolingDevice" (
    device_name <- wio (subtitute_string TARGET_DEV (art_source e)) ;;
    out_line (prefix +:+ tab) "type" device_name ;;;
    out_line (prefix +:+ tab) "influence" (pretty (art_weight e))).
Definition add_active_trip_point (o : rel_object_t) : M Rs unit :=
  if bool_decide (art_objects o = []) then ret tt
  else out_trip (target_sensor o) "active" (fun prefix => mfor (art_objects o) (add_art_entry prefix)).

(** ** The file *)

Definition quote : string := String (ascii_of_nat 34) EmptyString.
Definition xml_hdr : string := "<?xml version=" +:+ quote +:+ "1.0" +:+ quote +:+ "?>" +:+ nl.
Definition conf_begin : string := "<ThermalConfiguration>" +:+ nl.
Definition conf_end : string := "</ThermalConfiguration>" +:+ nl.

(** One object of the relations, unless its target has no name; [body] writes its trip points. *)
Definition out_zone (prefix : string) (body : rel_object_t -> M Rs unit) (o : rel_object_t) : M Rs unit :=
  if String.eqb (target_device o) EmptyString then ret tt
  else
    out_block prefix "ThermalZone" (
      name <- wio (subtitute_string SOURCE_DEV (target_device o)) ;;
      out_line (prefix +:+ tab) "Type" name ;;;
      out_block (prefix +:+ tab) "TripPoints" (body o)).
Definition indent_more : M Rs unit := upd (fun r => r <| indentation := indentation r +:+ tab |>).

(** The indentation grows with every zone. *)
Definition add_trt_art_trips (o : rel_object_t) : M Rs unit :=
  indent_more ;;; add_passive_trip_point o ;;; add_active_trip_point o.
(** [false]: see [parse_target_devices]. *)
Definition create_thermal_zone : M Rs bool :=
  indent_more ;;;
  prefix <- rel indentation ;;
  indent_more ;;;
  ok <- parse_target_devices ;;
  if negb ok then ret false
  else l <- rel rel_list ;; mfor l (out_zone prefix add_trt_art_trips) ;;; ret true.
Definition create_thermal_zones : M Rs bool :=
  prefix <- rel indentation ;; out_block prefix "ThermalZones" create_thermal_zone.

Definition line_size : nat := 255.
(** [product_name.getline (buffer, sizeof (buffer))]. *)
Definition product_line (r : Z + string) : option string :=
  match r with
  | inl _ | inr EmptyString => None
  | inr text => let line := first_line text in
                if Nat.leb (String.length line) line_size then Some line else None
  end.
Definition create_platform_conf : M Rs unit :=
  indent_more ;;;
  prefix <- rel indentation ;;
  out_line prefix "Name" "_TRT export" ;;;
  r <- wio (ask (fun n => os_read n "/sys/class/dmi/id/product_name")) ;;
  out (prefix +:+ "<ProductName>") ;;;
  out (match product_line r with Some line => line | None => "*" +:+ nl end) ;;;
  out (prefix +:+ "</ProductName>" +:+ nl).
Definition create_platform_pref (perf : bool) : M Rs unit :=
  prefix <- rel indentation ;; out_line prefix "Preference" (if perf then "PERFORMANCE" else "QUIET").

(** The result of writing a file: done with a code, or a read outside a table. *)
Inductive Written := Done (code : Z) | Outside.

(** Header, platform and what [zones] writes into it, when the file can be made;
    [prefix] is before the end of the platform. *)
Definition out_platform (prefix : string) (zones : M Rs bool) : M Rs Written :=
  upd (fun r => r <| conf_file := xml_hdr +:+ conf_begin |> <| indentation := tab |>) ;;;
  out (tab +:+ "<Platform>" +:+ nl) ;;;
  create_platform_conf ;;;
  create_platform_pref false ;;;
  ok <- zones ;;
  if negb ok then ret Outside
  else out (prefix +:+ "</Platform>" +:+ nl) ;;; out conf_end ;;; ret (Done THD_SUCCESS).

Definition passive_2_uuid : string := "9E04115A-AE87-4D1C-9500-0F3E340BFE75".
Definition psvt_zones : M Rs bool :=
  prefix <- rel indentation ;;
  out_block prefix "ThermalZones" (
    ok <- parse_target_devices ;;
    if negb ok then ret false
    else
      indent_more ;;;
      l <- rel rel_list ;;
      mfor l (out_zone (prefix +:+ tab) add_psvt_trip_point) ;;; ret true).
Definition process_psvt (file_name : string) : M Rs Written :=
  base <- wio int3400_base ;;
  supported <- wio (match_supported_uuid base passive_2_uuid) ;;
  if negb supported then ret (Done THD_ERROR)
  else
    ok <- read_psvt ;;
    if negb ok then ret (Done (-1))
    else
      w <- wio (ask (fun n => file_writable n file_name)) ;;
      if negb w then ret (Done THD_ERROR) else out_platform (tab +:+ tab) psvt_zones.

Definition passive_1_uuid : string := "42A441D6-AE6A-462b-A84B-4A8CE79027D3".
Definition generate_conf (file_name : string) : M Rs Written :=
  base <- wio int3400_base ;;
  e <- wio (fs_open file_name) ;;
  if e : bool then ret (Done 0)
  else
    art <- read_art ;;
    trt <- read_trt ;;
    if negb trt && negb art then process_psvt file_name
    else
      supported <- wio (match_supported_uuid base passive_1_uuid) ;;
      if negb supported then process_psvt file_name
      else
        w <- wio (ask (fun n => file_writable n file_name)) ;;
        if negb w then ret (Done (-1)) else out_platform tab create_thermal_zones.
End Reader.

(** ** The grouping *)

Section Grouping.
(** Where [group] puts the entry: in the object of its target, or in a new one at the end. *)
Lemma group_cases new add l :
  (exists l1 o l2, l = l1 ++ o :: l2 /\ target_device o = target_device new /\
     group new add l = l1 ++ add o :: l2) \/
  (target_device new ∉ (target_device <$> l) /\ group new add l = l ++ [add new]).
Proof.
  induction l as [|o l IH]; simpl; [right; split; [set_solver|done]|].
  destruct (String.eqb_spec (target_device new) (target_device o)) as [E|E].
  - left. by exists [], o, l.
  - destruct IH as [(l1 & o' & l2 & -> & Ho & ->)|[Hn ->]].
    + left. by exists (o :: l1), o', l2.
    + right. split; [|done]. set_solver.
Qed.

Context (new : rel_object_t) (add : rel_object_t -> rel_object_t).
Hypothesis add_target : forall o, target_device (add o) = target_device o.

Lemma group_targets l t :
  t ∈ (target_device <$> group new add l) <-> t ∈ (target_device <$> l) \/ t = target_device new.
Proof.
  destruct (group_cases new add l) as [(l1 & o & l2 & -> & Ho & ->)|[Hn ->]].
  - rewrite !fmap_app, !fmap_cons, add_target. set_solver.
  - rewrite fmap_app, fmap_cons, add_target. set_solver.
Qed.
Lemma group_NoDup l : NoDup (target_device <$> l) -> NoDup (target_device <$> group new add l).
Proof.
  destruct (group_cases new add l) as [(l1 & o & l2 & -> & Ho & ->)|[Hn ->]].
  - by rewrite !fmap_app, !fmap_cons, add_target.
  - intros Hl. rewrite fmap_app. apply NoDup_app. split; [done|]. split; [|apply NoDup_singleton].
    rewrite fmap_cons, add_target. set_solver.
Qed.

(** The objects hold the entries of one table, each those of its target. *)
Definition holds {E} (get : rel_object_t -> list E) (tgt : E -> string) (xs : list E) (l : list rel_object_t) : Prop :=
  Forall (fun o => get o = filter (fun x => tgt x = target_device o) xs) l /\
  Forall (fun x => tgt x ∈ (target_device <$> l)) xs.

Lemma group_holds {E} (get : rel_object_t -> list E) tgt (xs ys : list E) l :
  (forall o, get (add o) = get o ++ ys) -> get new = [] ->
  Forall (fun y => tgt y = target_device new) ys -> NoDup (target_device <$> l) ->
  holds get tgt xs l -> holds get tgt (xs ++ ys) (group new add l).
Proof.
  intros Hget Hnew Hys Hnd [Hl Hxs].
  assert (forall o, target_device o = target_device new -> filter (fun x => tgt x = target_device o) ys = ys) as Hsame.
  { intros o Ho. apply filter_all. eapply Forall_impl; [exact Hys|]. simpl. congruence. }
  assert (forall o, target_device o <> target_device new -> filter (fun x => tgt x = target_device o) ys = []) as Hother.
  { intros o Ho. apply filter_none. eapply Forall_impl; [exact Hys|]. simpl. congruence. }
  split.
  - destruct (group_cases new add l) as [(l1 & o & l2 & -> & Ho & ->)|[Hn ->]].
    + rewrite fmap_app, fmap_cons in Hnd. apply NoDup_app in Hnd as (_ & Hd1 & Hd2%NoDup_cons).
      apply Forall_app in Hl as [H1 [H2 H3]%Forall_cons].
      apply Forall_app. split; [|apply Forall_cons; split].
      * rewrite Forall_forall in H1 |- *. intros x Hx. rewrite (H1 x Hx), filter_app, Hother, app_nil_r; [done|].
        intros E0. apply (Hd1 (target_device x)); [by apply list_elem_of_fmap_2|]. rewrite E0, <- Ho. by left.
      * by rewrite Hget, add_target, H2, filter_app, Hsame.
      * rewrite Forall_forall in H3 |- *. intros x Hx. rewrite (H3 x Hx), filter_app, Hother, app_nil_r; [done|].
        intros E0. apply Hd2. rewrite Ho, <- E0. by apply list_elem_of_fmap_2.
    + apply Forall_app. split; [|apply Forall_singleton].
      * rewrite Forall_forall in Hl |- *. intros x Hx. rewrite (Hl x Hx), filter_app, Hother, app_nil_r; [done|].
        intros E0. apply Hn. rewrite <- E0. by apply list_elem_of_fmap_2.
      * rewrite Hget, Hnew, add_target, filter_app, Hsame by done.
        rewrite (filter_none _ xs); [done|]. eapply Forall_impl; [exact Hxs|]. simpl. congruence.
  - apply Forall_app. split; (eapply Forall_impl; [eassumption|]); intros x Hx; apply group_targets; tauto.
Qed.
End Grouping.

(** The targets that the tables name. *)
Definition targets_of (ts : list trt_object) (acs : list art_object) (ps : list psvt_object) : list string :=
  (trt_target <$> ts) ++ (art_target <$> acs) ++ (ps_target <$> ps).
(** One object for each target, with its entries. *)
Definition grouped (ts : list trt_object) (acs : list art_object) (ps : list psvt_object) (l : list rel_object_t) : Prop :=
  NoDup (target_device <$> l) /\ Forall (fun o => target_sensor o = target_device o) l /\
  holds trt_objects trt_target ts l /\ holds art_objects art_target acs l /\ holds psvt_objects ps_target ps l /\
  (forall t, t ∈ (target_device <$> l) -> t ∈ targets_of ts acs ps).

Lemma group_sensor new add l : target_sensor (add new) = target_device (add new) ->
  (forall o, target_sensor (add o) = target_sensor o /\ target_device (add o) = target_device o) ->
  Forall (fun o => target_sensor o = target_device o) l ->
  Forall (fun o => target_sensor o = target_device o) (group new add l).
Proof.
  intros Hnew Hadd Hl. destruct (group_cases new add l) as [(l1 & o & l2 & -> & _ & ->)|[_ ->]].
  - apply Forall_app in Hl as [H1 [H2 H3]%Forall_cons]. apply Forall_app. split; [done|].
    constructor; [|done]. destruct (Hadd o) as [-> ->]. done.
  - apply Forall_app. split; [done|]. by constructor.
Qed.

Lemma grouped_step ts acs ps l new add (ts' : list trt_object) (acs' : list art_object) (ps' : list psvt_object) :
  trt_objects new = [] -> art_objects new = [] -> psvt_objects new = [] -> target_sensor new = target_device new ->
  (forall o, target_device (add o) = target_device o /\ target_sensor (add o) = target_sensor o /\
     trt_objects (add o) = trt_objects o ++ ts' /\ art_objects (add o) = art_objects o ++ acs' /\
     psvt_objects (add o) = psvt_objects o ++ ps') ->
  Forall (fun y => trt_target y = target_device new) ts' -> Forall (fun y => art_target y = target_device new) acs' ->
  Forall (fun y => ps_target y = target_device new) ps' -> target_device new ∈ targets_of ts' acs' ps' ->
  grouped ts acs ps l -> grouped (ts ++ ts') (acs ++ acs') (ps ++ ps') (group new add l).
Proof.
  intros N1 N2 N3 N4 Hadd F1 F2 F3 F4 (Hd & Hs & H1 & H2 & H3 & H4).
  assert (forall o, target_device (add o) = target_device o) as Ht by apply Hadd.
  split; [by apply group_NoDup|]. split; [|split; [|split; [|split]]].
  - apply group_sensor; [|split; apply Hadd|done]. destruct (Hadd new) as (-> & -> & _). done.
  - apply group_holds; try done. apply Hadd.
  - apply group_holds; try done. apply Hadd.
  - apply group_holds; try done. apply Hadd.
  - intros t. rewrite group_targets by done. unfold targets_of in *. rewrite !fmap_app, !elem_of_app in *.
    intros [Ht'%H4| ->]; rewrite ?elem_of_app in *; tauto.
Qed.

Lemma grouped_all ts acs ps : grouped ts acs ps (group_tables ts acs ps []).
Proof.
  assert (grouped [] [] [] []) as H0 by (repeat split; try constructor; by intros t ?%elem_of_nil).
  unfold group_tables.
  assert (forall ts0 l, grouped ts0 [] [] l -> grouped (ts0 ++ ts) [] [] (foldl group_trt l ts)) as H1.
  { induction ts as [|e ts IH]; intros ts0 l Hl; [by rewrite app_nil_r|]. simpl.
    replace (ts0 ++ e :: ts) with ((ts0 ++ [e]) ++ ts) by (by rewrite <- app_assoc). apply IH.
    unfold group_trt. apply (grouped_step _ [] [] _ _ _ [e] [] []); try done; [|by repeat constructor|by left].
    intros o. unfold put. simpl. by rewrite !app_nil_r. }
  assert (forall acs0 l, grouped ts acs0 [] l -> grouped ts (acs0 ++ acs) [] (foldl group_art l acs)) as H2.
  { induction acs as [|e acs IH]; intros acs0 l Hl; [by rewrite app_nil_r|]. simpl.
    replace (acs0 ++ e :: acs) with ((acs0 ++ [e]) ++ acs) by (by rewrite <- app_assoc). apply IH.
    rewrite <- (app_nil_r ts). unfold group_art. apply (grouped_step _ _ [] _ _ _ [] [e] []); try done; [|by repeat constructor|by left].
    intros o. unfold put. simpl. by rewrite !app_nil_r. }
  assert (forall ps0 l, grouped ts acs ps0 l -> grouped ts acs (ps0 ++ ps) (foldl group_psvt l ps)) as H3.
  { induction ps as [|e ps IH]; intros ps0 l Hl; [by rewrite app_nil_r|]. simpl.
    replace (ps0 ++ e :: ps) with ((ps0 ++ [e]) ++ ps) by (by rewrite <- app_assoc). apply IH.
    rewrite <- (app_nil_r ts), <- (app_nil_r acs). unfold group_psvt.
    apply (grouped_step _ _ _ _ _ _ [] [] [e]); try done; [|by repeat constructor|by left].
    intros o. unfold put. simpl. by rewrite !app_nil_r. }
  apply (H3 []), (H2 []), (H1 []), H0.
Qed.

(** C39: After the tables are read each target they name has one object, which holds exactly the
    entries of each table that name this target, in the order of the table. *)
Theorem relations_grouped ts acs ps :
  let l := group_tables ts acs ps [] in
  NoDup (target_device <$> l) /\
  (forall t, t ∈ (target_device <$> l) <-> t ∈ targets_of ts acs ps) /\
  (forall o, o ∈ l ->
     trt_objects o = filter (fun e => trt_target e = target_device o) ts /\
     art_objects o = filter (fun e => art_target e = target_device o) acs /\
     psvt_objects o = filter (fun e => ps_target e = target_device o) ps).
Proof.
  destruct (grouped_all ts acs ps) as (Hd & _ & [H1 C1] & [H2 C2] & [H3 C3] & Hc). split; [done|].
  rewrite Forall_forall in C1. rewrite Forall_forall in C2. rewrite Forall_forall in C3.
  rewrite Forall_forall in H1. rewrite Forall_forall in H2. rewrite Forall_forall in H3.
  split; [|intros o Ho; by rewrite <- (H1 o Ho), <- (H2 o Ho), <- (H3 o Ho)]. intros t. split; [apply Hc|]. unfold targets_of. rewrite !elem_of_app.
  intros [(e & -> & He)%list_elem_of_fmap|[(e & -> & He)%list_elem_of_fmap|(e & -> & He)%list_elem_of_fmap]];
    [by apply C1|by apply C2|by apply C3].
Qed.
