(* ===== verification/Pid.v ===== *)
(** * The thermal daemon: the PID controller

    thd_pid.cpp, in the double precision arithmetic of Floats.v, and what it
    outputs when it starts. *)

From Stdlib Require Import ZArith Lia SpecFloat.
From stdpp Require Import base list.
From S2P Require Import Prelude Floats.

#[local] Open Scope Z_scope.

(** [cthd_pid], its public gains included. *)
Record Pid := mkPid {
  err_sum : float; last_err : float; pid_last_time : Z; target_temp : Z;
  kp : float; ki : float; kd : float
}.

(** The constructor. *)
Definition pid_new : Pid :=
  mkPid f_zero f_zero 0 0 (f64_lit 5 10000) (f64_lit 1 10000) (f64_lit 1 10000).

Definition set_pid_param (_kp _ki _kd : float) (p : Pid) : Pid :=
  mkPid (err_sum p) (last_err p) (pid_last_time p) (target_temp p) _kp _ki _kd.
Definition set_target_temp (temp : Z) (p : Pid) : Pid :=
  mkPid (err_sum p) (last_err p) (pid_last_time p) temp (kp p) (ki p) (kd p).
Definition pid_reset (p : Pid) : Pid := mkPid f_zero f_zero 0 (target_temp p) (kp p) (ki p) (kd p).

Definition pid_error (p : Pid) (curr_temp : Z) : Z := sint 32 (curr_temp - target_temp p).

(** The sum of the errors at the start: such that the output is the initial value. *)
Definition start_sum (p : Pid) (error initial_value : Z) : float :=
  if f_ne (ki p) f_zero
  then f64_div (f64_sub (f64_of_Z initial_value) (f64_mul (kp p) (f64_of_Z error))) (ki p)
  else f_zero.

(** [pid_output] at the time [now]. *)
Definition pid_output (now curr_temp initial_value : Z) (p : Pid) : Z * Pid :=
  let error := pid_error p curr_temp in
  let starting := pid_last_time p =? 0 in
  let sum := if starting then start_sum p error initial_value else err_sum p in
  let timeChange := now - (if starting then now else pid_last_time p) in
  let sum := f64_add sum (f64_of_Z (sint 64 (error * timeChange))) in
  let d_err := if negb (timeChange =? 0)
               then f64_div (f64_sub (f64_of_Z error) (last_err p)) (f64_of_Z timeChange) else f_zero in
  let output := f64_add (f64_add (f64_mul (kp p) (f64_of_Z error)) (f64_mul (ki p) sum))
                  (f64_mul (kd p) d_err) in
  (f_to_int 32 output, mkPid sum (f64_of_Z error) now (target_temp p) (kp p) (ki p) (kd p)).
