(* ===== verification/Cdev.v ===== *)
(** * The thermal daemon: cooling devices

    thd_cdev.{h,cpp} (the controllers, the list of the zones and trips that
    activated a device and [thd_cdev_set_state]) with the devices derived from it:
    generic sysfs, thermal sysfs, RAPL, backlight, P state driver and cpufreq.
    A virtual method is a function that looks at the kind of the device.

    A cooling device goes from [min_state], no cooling, to [max_state]; for RAPL,
    whose states are powers, the first is the larger. *)

From Stdlib Require Import ZArith Lia Ascii String Sorted.
From stdpp Require Import base list option strings pretty sets.
From S2P Require Import Prelude Floats ThdCommon Gddv Xml ThdIo Pid.

#[local] Open Scope Z_scope.
#[local] Open Scope prog_scope.

(** ** Data *)

Record zone_trip_limits_t := Limit {
  lim_zone : Z; lim_trip : Z; lim_target_valid : bool; lim_target_value : Z;
  lim_min_state : Z; lim_max_state : Z; lim_min_max_valid : bool
}.

(** [cthd_sysfs_cdev_rapl]. *)
Record Rapl := mkRapl {
  phy_max : Z; constraint_index : Z; pl2_index : Z; dynamic_phy_max_enable : bool;
  pl0_max_pwr : Z; pl0_min_pwr : Z; pl0_min_window : Z; pl0_max_window : Z; pl0_step_pwr : Z;
  pl1_max_pwr : Z; pl1_min_pwr : Z; pl1_min_window : Z; pl1_max_window : Z; pl1_step_pwr : Z;
  pl1_valid : bool; bios_locked : bool; constrained : bool; power_on_constraint_0_pwr : Z;
  power_on_constraint_0_time_window : Z; power_on_enable_status : Z; device_name : string
}.
Definition Rapl_again (r : Rapl) : Rapl := mkRapl (phy_max r) (constraint_index r) (pl2_index r)
  (dynamic_phy_max_enable r) (pl0_max_pwr r) (pl0_min_pwr r) (pl0_min_window r) (pl0_max_window r)
  (pl0_step_pwr r) (pl1_max_pwr r) (pl1_min_pwr r) (pl1_min_window r) (pl1_max_window r)
  (pl1_step_pwr r) (pl1_valid r) (bios_locked r) (constrained r) (power_on_constraint_0_pwr r)
  (power_on_constraint_0_time_window r) (power_on_enable_status r) (device_name r).
#[export] Instance put_phy_max : Field phy_max := ltac:(field_of Rapl_again phy_max).
#[export] Instance put_constraint_index : Field constraint_index := ltac:(field_of Rapl_again constraint_index).
#[export] Instance put_pl2_index : Field pl2_index := ltac:(field_of Rapl_again pl2_index).
#[export] Instance put_dynamic_phy_max_enable : Field dynamic_phy_max_enable := ltac:(field_of Rapl_again dynamic_phy_max_enable).
#[export] Instance put_pl0_max_pwr : Field pl0_max_pwr := ltac:(field_of Rapl_again pl0_max_pwr).
#[export] Instance put_pl0_min_pwr : Field pl0_min_pwr := ltac:(field_of Rapl_again pl0_min_pwr).
#[export] Instance put_pl0_min_window : Field pl0_min_window := ltac:(field_of Rapl_again pl0_min_window).
#[export] Instance put_pl0_max_window : Field pl0_max_window := ltac:(field_of Rapl_again pl0_max_window).
#[export] Instance put_pl0_step_pwr : Field pl0_step_pwr := ltac:(field_of Rapl_again pl0_step_pwr).
#[export] Instance put_pl1_max_pwr : Field pl1_max_pwr := ltac:(field_of Rapl_again pl1_max_pwr).
#[export] Instance put_pl1_min_pwr : Field pl1_min_pwr := ltac:(field_of Rapl_again pl1_min_pwr).
#[export] Instance put_pl1_min_window : Field pl1_min_window := ltac:(field_of Rapl_again pl1_min_window).
#[export] Instance put_pl1_max_window : Field pl1_max_window := ltac:(field_of Rapl_again pl1_max_window).
#[export] Instance put_pl1_step_pwr : Field pl1_step_pwr := ltac:(field_of Rapl_again pl1_step_pwr).
#[export] Instance put_pl1_valid : Field pl1_valid := ltac:(field_of Rapl_again pl1_valid).
#[export] Instance put_bios_locked : Field bios_locked := ltac:(field_of Rapl_again bios_locked).
#[export] Instance put_constrained : Field constrained := ltac:(field_of Rapl_again constrained).
#[export] Instance put_power_on_constraint_0_pwr : Field power_on_constraint_0_pwr := ltac:(field_of Rapl_again power_on_constraint_0_pwr).
#[export] Instance put_power_on_constraint_0_time_window : Field power_on_constraint_0_time_window := ltac:(field_of Rapl_again power_on_constraint_0_time_window).
#[export] Instance put_power_on_enable_status : Field power_on_enable_status := ltac:(field_of Rapl_again power_on_enable_status).

(** The classes derived from [cthd_cdev] with their members. *)
Inductive Kind :=
  | GenSysfs
  | ThermSysfs
  | RaplDev (r : Rapl)
  | Backlight (ref_backlight_state min_back_light : Z)
  | PState (turbo_status : bool)
  | CpuFreq (cpu_start_index cpu_end_index : Z) (cpufreqs : list Z).

(** [cthd_cdev]. *)
Record Cdev := mkCdev {
  kind : Kind; cdev_index : Z; base_path : string; max_state : Z; min_state : Z; curr_state : Z;
  curr_pow : Z; base_pow_state : Z; inc_dec_val : Z; auto_down_adjust : bool; read_back : bool;
  type_str : string; alias_str : string; debounce_interval : Z; last_action_time : Z;
  trend_increase : bool; pid_enable : bool; pid_ctrl : Pid; last_state : bool;
  zone_trip_limits : list zone_trip_limits_t; write_prefix : string; inc_val : Z; dec_val : Z
}.
Definition Cdev_again (d : Cdev) : Cdev := mkCdev (kind d) (cdev_index d) (base_path d)
  (max_state d) (min_state d) (curr_state d) (curr_pow d) (base_pow_state d) (inc_dec_val d)
  (auto_down_adjust d) (read_back d) (type_str d) (alias_str d) (debounce_interval d)
  (last_action_time d) (trend_increase d) (pid_enable d) (pid_ctrl d) (last_state d)
  (zone_trip_limits d) (write_prefix d) (inc_val d) (dec_val d).
#[export] Instance put_kind : Field kind := ltac:(field_of Cdev_again kind).
#[export] Instance put_base_path : Field base_path := ltac:(field_of Cdev_again base_path).
#[export] Instance put_max_state : Field max_state := ltac:(field_of Cdev_again max_state).
#[export] Instance put_min_state : Field min_state := ltac:(field_of Cdev_again min_state).
#[export] Instance put_curr_state : Field curr_state := ltac:(field_of Cdev_again curr_state).
#[export] Instance put_curr_pow : Field curr_pow := ltac:(field_of Cdev_again curr_pow).
#[export] Instance put_base_pow_state : Field base_pow_state := ltac:(field_of Cdev_again base_pow_state).
#[export] Instance put_inc_dec_val : Field inc_dec_val := ltac:(field_of Cdev_again inc_dec_val).
#[export] Instance put_auto_down_adjust : Field auto_down_adjust := ltac:(field_of Cdev_again auto_down_adjust).
#[export] Instance put_read_back : Field read_back := ltac:(field_of Cdev_again read_back).
#[export] Instance put_type_str : Field type_str := ltac:(field_of Cdev_again type_str).
#[export] Instance put_alias_str : Field alias_str := ltac:(field_of Cdev_again alias_str).
#[export] Instance put_debounce_interval : Field debounce_interval := ltac:(field_of Cdev_again debounce_interval).
#[export] Instance put_last_action_time : Field last_action_time := ltac:(field_of Cdev_again last_action_time).
#[export] Instance put_trend_increase : Field trend_increase := ltac:(field_of Cdev_again trend_increase).
#[export] Instance put_pid_enable : Field pid_enable := ltac:(field_of Cdev_again pid_enable).
#[export] Instance put_pid_ctrl : Field pid_ctrl := ltac:(field_of Cdev_again pid_ctrl).
#[export] Instance put_last_state : Field last_state := ltac:(field_of Cdev_again last_state).
#[export] Instance put_zone_trip_limits : Field zone_trip_limits := ltac:(field_of Cdev_again zone_trip_limits).
#[export] Instance put_write_prefix : Field write_prefix := ltac:(field_of Cdev_again write_prefix).
#[export] Instance put_inc_val : Field inc_val := ltac:(field_of Cdev_again inc_val).
#[export] Instance put_dec_val : Field dec_val := ltac:(field_of Cdev_again dec_val).

Definition default_debounce_interval := 2.
Definition default_max_exponent := 20.

(** The constructor. *)
Definition cdev_new (k : Kind) (_index : Z) (control_path : string) : Cdev :=
  mkCdev k _index control_path 0 0 0 0 0 1 false true EmptyString EmptyString
    default_debounce_interval 0 false false pid_new false [] EmptyString 0 0.
Definition rapl_new (device : string) : Rapl :=
  mkRapl 0 0 (-1) false 0 0 0 0 0 0 0 0 0 0 false false false 0 0 0 device.

(** ** Devices in the world *)

Definition Dv : Type := World * Cdev.
Definition dget {A} (f : Cdev -> A) : M Dv A := gets (fun s => f (snd s)).
Definition dset (f : Cdev -> Cdev) : M Dv unit := modify (fun s => (fst s, f (snd s))).
Definition dstep {A} (f : Cdev -> A * Cdev) : M Dv A := fun s => let (a, d) := f (snd s) in (a, (fst s, d)).
Definition io {A} (m : M World A) : M Dv A := fun s => let (a, w) := m (fst s) in (a, (w, snd s)).

(** [std::sort]. *)
Class StdSort := {
  std_sort : forall {A}, (A -> A -> bool) -> list A -> list A;
  std_sort_perm : forall A (lt : A -> A -> bool) l, Permutation (std_sort lt l) l;
  std_sort_sorted : forall A (lt : A -> A -> bool) (key : A -> Z) l,
    (forall a b, lt a b = (key a <? key b)) ->
    StronglySorted (fun a b => key a <= key b) (std_sort lt l)
}.

Section Devices.
Context `{ThdOs} `{StdSort}.

Definition the_rapl (d : Cdev) : Rapl :=
  match kind d with RaplDev r => r | _ => rapl_new EmptyString end.
Definition rget {A} (f : Rapl -> A) : M Dv A := dget (fun d => f (the_rapl d)).
Definition rset (f : Rapl -> Rapl) : M Dv unit := dset (fun d => d <| kind := RaplDev (f (the_rapl d)) |>).

(** An attribute of the device. *)
Definition attr (name : string) : M Dv string := dget (fun d => base_path d +:+ name).
Definition attr_exists (name : string) : M Dv bool := p <- attr name ;; io (fs_exists p).
Definition attr_read (name : string) : M Dv (Z * option Z) := p <- attr name ;; io (fs_read_int p).
Definition attr_read_string (name : string) : M Dv (Z * option string) :=
  p <- attr name ;; io (fs_read_string p).
Definition attr_write (name text : string) : M Dv Z := p <- attr name ;; io (fs_write p text).
Definition attr_write_uint (name : string) (v : Z) : M Dv Z := p <- attr name ;; io (fs_write_uint p v).

(** *** RAPL attributes *)

(** A number that was read, else [THD_ERROR]. *)
Definition read_or_error (name : string) : M Dv Z :=
  r <- attr_read name ;; ret (if 0 <? fst r then default THD_ERROR (snd r) else THD_ERROR).

Definition constraint (i : Z) (what : string) : string := "constraint_" +:+ pretty i +:+ what.

Definition rapl_read_pl1_max : M Dv Z :=
  i <- rget constraint_index ;; read_or_error (constraint i "_max_power_uw").
Definition rapl_read_pl1 : M Dv Z :=
  i <- rget constraint_index ;; read_or_error (constraint i "_power_limit_uw").
Definition rapl_read_pl2 : M Dv Z :=
  i <- rget pl2_index ;; read_or_error (constraint i "_power_limit_uw").
Definition rapl_read_time_window : M Dv Z :=
  i <- rget constraint_index ;; read_or_error (constraint i "_time_window_us").
Definition rapl_read_enable_status : M Dv Z := read_or_error "enabled".

Definition rapl_update_pl1 (pl1 : Z) : M Dv Z :=
  i <- rget constraint_index ;;
  r <- attr_write_uint (constraint i "_power_limit_uw") pl1 ;;
  ret (if r <=? 0 then r else THD_SUCCESS).
Definition rapl_update_pl2 (pl2 : Z) : M Dv Z :=
  i <- rget pl2_index ;;
  if i =? -1 then ret THD_ERROR
  else r <- attr_write_uint (constraint i "_power_limit_uw") pl2 ;;
       ret (if r <=? 0 then r else THD_SUCCESS).
Definition rapl_update_time_window (time_window : Z) : M Dv Z :=
  i <- rget constraint_index ;;
  r <- attr_write_uint (constraint i "_time_window_us") time_window ;;
  ret (if r <=? 0 then THD_ERROR else THD_SUCCESS).
Definition rapl_update_pl2_time_window (time_window : Z) : M Dv Z :=
  i <- rget pl2_index ;;
  r <- attr_write_uint (constraint i "_time_window_us") time_window ;;
  ret (if r <=? 0 then THD_ERROR else THD_SUCCESS).
Definition rapl_update_enable_status (enable : Z) : M Dv Z :=
  r <- attr_write_uint "enabled" enable ;; ret (if r <=? 0 then THD_ERROR else THD_SUCCESS).

Definition set_tcc (tcc : Z) : M Dv unit :=
  let p := "/sys/bus/pci/devices/0000:00:04.0/tcc_offset_degree_celsius" in
  e <- io (fs_exists p) ;; if negb e then ret tt else io (fs_write_uint p tcc) ;;; ret tt.

Definition def_rapl_time_window := 1000000.
Definition ENODATA := 61.

(** *** [set_curr_state] of each class *)

(** [cthd_sysfs_cdev_rapl]: the states are powers. *)
Definition rapl_set_curr_state (state : Z) (control : bool) : M Dv unit :=
  d <- dget id ;; r <- rget id ;;
  if bios_locked r then
    dset (fun d => d <| curr_state := if state <=? inc_dec_val d then min_state d else max_state d |>)
  else
    let new_state := if state <? max_state d then max_state d else state in
    new_state <-
      (if min_state d <=? new_state then
         dset (fun d => d <| curr_state := min_state d |>) ;;;
         (if power_on_enable_status r =? 0 then rapl_update_enable_status 0 ;;; ret tt else ret tt) ;;;
         rapl_update_time_window (power_on_constraint_0_time_window r) ;;;
         rset (fun r => r <| constrained := false |>) ;;;
         ret (if negb (power_on_constraint_0_pwr r =? 0) then power_on_constraint_0_pwr r else min_state d)
       else if control && negb (constrained r) then
         rapl_update_time_window
           (if negb (pl0_min_window r =? 0) then pl0_min_window r else def_rapl_time_window) ;;;
         (if power_on_enable_status r =? 0 then rapl_update_enable_status 1 ;;; ret tt else ret tt) ;;;
         rset (fun r => r <| constrained := true |>) ;;;
         ret new_state
       else ret new_state) ;;
    e <- rapl_update_pl1 new_state ;;
    (if e <? 0 then
       dset (fun d => d <| curr_state := if state =? 0 then 0 else max_state d |>) ;;;
       (if e =? - ENODATA then rset (fun r => r <| bios_locked := true |>) else ret tt)
     else ret tt) ;;;
    dset (fun d => d <| curr_state := new_state |>).

Definition gen_set_curr_state (state : Z) : M Dv unit :=
  prefix <- dget write_prefix ;;
  attr_write EmptyString (prefix +:+ pretty state) ;;;
  dset (fun d => d <| curr_state := state |>).

Definition therm_attr (d : Cdev) (what : string) : string := "cooling_device" +:+ pretty (cdev_index d) +:+ what.

Definition therm_set_curr_state (state : Z) : M Dv unit :=
  name <- dget (fun d => therm_attr d "/cur_state") ;;
  e <- attr_exists name ;;
  if e : bool then attr_write name (pretty state) ;;; dset (fun d => d <| curr_state := state |>)
  else dset (fun d => d <| curr_state := 0 |>).

Definition backlight_set_curr_state (state : Z) (ref low : Z) : M Dv unit :=
  let throttle ref :=
    let backlight_val := ref - state in
    r <- attr_write_uint "brightness" (if backlight_val <=? low then low else backlight_val) ;;
    if r <? 0 then ret tt else dset (fun d => d <| curr_state := state |>) in
  if state =? 0 then
    if negb (ref =? 0) then
      r <- attr_write_uint "brightness" ref ;;
      if r <? 0 then ret tt
      else dset (fun d => d <| kind := Backlight 0 low |> <| curr_state := state |>)
    else dset (fun d => d <| curr_state := state |>)
  else
    step <- dget inc_dec_val ;;
    if (ref =? 0) && (state =? step) then
      r <- attr_read "brightness" ;;
      let ref := default ref (snd r) in
      dset (fun d => d <| kind := Backlight ref low |>) ;;;
      if fst r <? 0 then ret tt else throttle ref
    else throttle ref.

Definition turbo_disable_percent := 70.
(** [100 / default_max_state] in single precision. *)
Definition unit_value : float := f32_of_f64 (f64_div (f64_of_Z 100) (f64_of_Z 10)).

Definition set_turbo_disable_status (enable turbo : bool) : M Dv unit :=
  if bool_decide (enable = turbo) then ret tt
  else attr_write "/no_turbo" (if enable then "1" else "0") ;;;
       dset (fun d => d <| kind := PState enable |>).

Definition pstate_set_curr_state (state : Z) (turbo : bool) : M Dv unit :=
  e <- attr_exists "/max_perf_pct" ;;
  let failed := dset (fun d => d <| curr_state := if state =? 0 then 0 else max_state d |>) in
  if e : bool then
    let new_state :=
      if state =? 0 then 100
      else f_to_int 32 (f32_sub (f32_of_Z 100) (f32_mul (f32_of_Z state) unit_value)) in
    set_turbo_disable_status (new_state <=? turbo_disable_percent) turbo ;;;
    r <- attr_write "/max_perf_pct" (pretty new_state) ;;
    if r <? 0 then failed else dset (fun d => d <| curr_state := state |>)
  else failed.

(** The processors from [i] on. *)
Fixpoint write_freqs (n : nat) (i freq : Z) : M Dv unit :=
  match n with
  | O => ret tt
  | S n =>
      let name := "cpu" +:+ pretty i +:+ "/cpufreq/scaling_max_freq" in
      e <- attr_exists name ;;
      (if e : bool then attr_write name (pretty freq) ;;; ret tt else ret tt) ;;;
      write_freqs n (i + 1) freq
  end.
Definition cpufreq_set_curr_state (state first last : Z) (freqs : list Z) : M Dv unit :=
  match (if state <? 0 then None else freqs !! Z.to_nat state) with
  | Some freq =>
      if last <? first then ret tt
      else write_freqs (Z.to_nat (last - first + 1)) first freq ;;;
           dset (fun d => d <| curr_state := state |>)
  | None => ret tt
  end.

Definition set_curr_state (state : Z) (control : bool) : M Dv unit :=
  k <- dget kind ;;
  match k with
  | GenSysfs => gen_set_curr_state state
  | ThermSysfs => therm_set_curr_state state
  | RaplDev _ => rapl_set_curr_state state control
  | Backlight ref low => backlight_set_curr_state state ref low
  | PState turbo => pstate_set_curr_state state turbo
  | CpuFreq first last freqs => cpufreq_set_curr_state state first last freqs
  end.

(** *** The other virtual methods *)

Definition set_curr_state_raw (state : Z) (arg : bool) : M Dv unit :=
  k <- dget kind ;;
  match k with
  | GenSysfs | RaplDev _ => set_curr_state state arg
  | _ =>
      d <- dget id ;;
      let state := if max_state d <? state then max_state d else state in
      let state := if state <? min_state d then min_state d else state in
      set_curr_state state arg
  end.

(** A state read from an attribute of the thermal sysfs: the error of a failed
    read is handed over as the state. *)
Definition therm_read (what : string) (old : Cdev -> Z) (store : Z -> M Dv unit) : M Dv Z :=
  name <- dget (fun d => therm_attr d what) ;;
  e <- attr_exists name ;;
  if e : bool then
    r <- attr_read name ;;
    if fst r <? 0 then ret (fst r)
    else (match snd r with Some v => store v | None => ret tt end) ;;; dget old
  else store 0 ;;; dget old.

Definition get_curr_state : M Dv Z :=
  d <- dget id ;;
  match kind d with
  | ThermSysfs =>
      if negb (read_back d) then ret (curr_state d)
      else therm_read "/cur_state" curr_state (fun v => dset (fun d => d <| curr_state := v |>))
  | _ => ret (curr_state d)
  end.

(** [get_curr_state (bool)]: RAPL gives the power that is drawn, or the limit when
    that is lower. *)
Definition get_curr_state_again : M Dv Z :=
  d <- dget id ;;
  match kind d with
  | RaplDev r =>
      if dynamic_phy_max_enable r then
        io rapl_start_measure_power ;;;
        power <- io (rapl_action_get_power PACKAGE) ;;
        let power := sint 32 power in
        pl1 <- rapl_read_pl1 ;;
        ret (if negb (pl1 =? THD_ERROR) && (pl1 <? power) then pl1 else power)
      else ret (curr_state d)
  | _ => ret (curr_state d)
  end.

Definition get_max_state : M Dv Z :=
  d <- dget id ;;
  match kind d with
  | ThermSysfs => therm_read "/max_state" max_state (fun v => dset (fun d => d <| max_state := v |>))
  | CpuFreq _ _ freqs => ret (sint 32 (Z.of_nat (length freqs) - 1))
  | _ => ret (max_state d)
  end.

Definition map_target_state (target_valid : bool) (target_state : Z) (d : Cdev) : Z :=
  match kind d with
  | Backlight _ _ =>
      if negb target_valid then target_state
      else if max_state d <? target_state then 0 else max_state d - target_state
  | PState _ =>
      if negb target_valid then target_state
      else if 100 <? target_state then 0
      else f_to_int 32 (f32_div (f32_of_Z (100 - target_state)) unit_value)
  | _ => target_state
  end.

(** RAPL keeps the sum of its controller. *)
Definition control_begin : M Dv unit :=
  d <- dget id ;;
  match kind d with
  | RaplDev _ => ret tt
  | _ => if pid_enable d then dset (fun d => d <| pid_ctrl := pid_reset (pid_ctrl d) |>) else ret tt
  end.

Definition thd_cdev_set_min_state_param (arg : Z) : M Dv unit :=
  dset (fun d => match kind d with
                 | RaplDev _ => d <| min_state := arg |> <| curr_state := arg |>
                 | _ => d <| min_state := arg |>
                 end).

(** *** States of a device *)

Definition in_min_state : M Dv bool :=
  d <- dget id ;;
  if min_state d <? max_state d then c <- get_curr_state ;; ret (c <=? min_state d)
  else if max_state d <? min_state d then c <- get_curr_state ;; ret (min_state d <=? c)
  else ret false.

Definition in_max_state : M Dv bool :=
  d <- dget id ;;
  b <- (if min_state d <? max_state d
        then c <- get_curr_state ;; m <- get_max_state ;; ret (m <=? c) else ret false) ;;
  if b : bool then ret true
  else
    d <- dget id ;;
    if max_state d <? min_state d
    then c <- get_curr_state ;; m <- get_max_state ;; ret (c <=? m) else ret false.

(** 1: the state cools more than the current one. *)
Definition cmp_current_state (state : Z) : M Dv Z :=
  c <- get_curr_state ;;
  if c =? state then ret 0
  else
    d <- dget id ;;
    if min_state d <? max_state d then
      c <- get_curr_state ;; ret (if c <? state then 1 else -1)
    else if max_state d <? min_state d then
      c <- get_curr_state ;; ret (if c <? state then -1 else 1)
    else ret 0.

(** *** The exponential controller *)

Definition thd_clamp_state_min (_state temp_min_state temp_max_state : Z) (d : Cdev) : Z :=
  if min_state d <=? max_state d then
    let low := if negb (temp_min_state =? 0) && (min_state d <? temp_min_state)
               then temp_min_state else min_state d in
    if _state <? low then low else _state
  else
    let low := if negb (temp_min_state =? 0) && (temp_min_state <? min_state d)
               then temp_min_state else min_state d in
    if low <? _state then low else _state.

Definition thd_clamp_state_max (_state temp_min_state temp_max_state : Z) (d : Cdev) : Z :=
  if min_state d <=? max_state d then
    let high := if negb (temp_max_state =? 0) && (temp_max_state <? max_state d)
                then temp_max_state else max_state d in
    if high <? _state then high else _state
  else
    let high := if negb (temp_max_state =? 0) && (max_state d <? temp_max_state)
                then temp_max_state else max_state d in
    if _state <? high then high else _state.

(** The step up, and the power of two of a call that follows another. *)
Definition step_up (d : Cdev) : Z := if negb (inc_val d =? 0) then inc_val d else inc_dec_val d.

Definition increase (current : Z) (d : Cdev) : Z * Cdev :=
  if trend_increase d then
    let base := if curr_pow d =? 0 then current else base_pow_state d in
    let pow := if curr_pow d <? default_max_exponent then curr_pow d + 1 else curr_pow d in
    let state := sint 32 (base + 2 ^ pow * step_up d) in
    let state :=
      if ((inc_val d <? 0) && (base <? state)) || ((0 <? inc_val d) && (state <? base))
      then max_state d else state in
    (state, d <| base_pow_state := base |> <| curr_pow := pow |>)
  else (sint 32 (current + step_up d), d <| curr_pow := 0 |>).

(** The step down, toward [min_state]. *)
Definition step_down (d : Cdev) : Z :=
  let step := if negb (dec_val d =? 0) then dec_val d
              else if min_state d <=? max_state d then inc_dec_val d else - inc_dec_val d in
  if (min_state d <=? max_state d) && (step <? 0) then - step
  else if (max_state d <? min_state d) && (0 <? step) then - step
  else step.

Definition decrease (current temp_min_state temp_max_state : Z) (d : Cdev) : Z :=
  let state := if auto_down_adjust d then min_state d else sint 32 (current - step_down d) in
  thd_clamp_state_max (thd_clamp_state_min state temp_min_state temp_max_state d)
    temp_min_state temp_max_state d.

Definition thd_cdev_exponential_controller (state : bool) (temp_min_state temp_max_state : Z) :
    M Dv unit :=
  get_max_state ;;;
  (if state then
     c <- get_curr_state_again ;;
     d <- dget id ;;
     new <- dstep (increase (thd_clamp_state_min c temp_min_state temp_max_state d)) ;;
     d <- dget id ;;
     let new := thd_clamp_state_max new temp_min_state temp_max_state d in
     dset (fun d => d <| trend_increase := true |>) ;;;
     set_curr_state new true
   else
     c <- get_curr_state ;;
     d <- dget id ;;
     let current := thd_clamp_state_max c temp_min_state temp_max_state d in
     dset (fun d => d <| curr_pow := 0 |> <| trend_increase := false |>) ;;;
     d <- dget id ;;
     set_curr_state (decrease current temp_min_state temp_max_state d) false) ;;;
  get_curr_state ;;; ret tt.

(** *** [thd_cdev_set_state] *)

(** What a trip asks for; [trip_pid]: it has gains of its own. *)
Record Request := Req {
  req_target_temp : Z; temperature : Z; hard_target : bool; zone_id : Z; trip_id : Z;
  target_state_valid : bool; target_value : Z; trip_pid : bool; force : bool;
  min_max_valid : bool; req_min_state : Z; req_max_state : Z
}.

(** The target and the bounds to be applied. *)
Record Plan := mkPlan { plan_valid : bool; plan_value : Z; plan_min : Z; plan_max : Z }.

Definition is_limit (r : Request) (l : zone_trip_limits_t) : bool :=
  (lim_zone l =? zone_id r) && (lim_trip l =? trip_id r).

(** The entry of a trip, its bounds capped to those of the device. *)
Definition new_limit (r : Request) (d : Cdev) : zone_trip_limits_t :=
  let given v dflt := if (v =? TRIP_PT_INVALID_TARGET_STATE) || (v =? 0) then dflt else v in
  Limit (zone_id r) (trip_id r) (target_state_valid r) (target_value r)
    (if min_max_valid r then given (req_min_state r) (min_state d) else 0)
    (if min_max_valid r then given (req_max_state r) (max_state d) else 0)
    (min_max_valid r).

Definition sort_clamp_values_asc (a b : zone_trip_limits_t) : bool := lim_target_value a <? lim_target_value b.
Definition sort_clamp_values_dec (a b : zone_trip_limits_t) : bool := lim_target_value b <? lim_target_value a.
Definition sort_min_max_values_asc (a b : zone_trip_limits_t) : bool := lim_min_state a <? lim_min_state b.
Definition sort_min_max_values_dec (a b : zone_trip_limits_t) : bool := lim_max_state b <? lim_max_state a.

(** The list with the entry of a trip that activates the device. *)
Definition add_limit (r : Request) (d : Cdev) : list zone_trip_limits_t :=
  let l := zone_trip_limits d in
  if existsb (is_limit r) l then l
  else
    let l := l ++ [new_limit r d] in
    let l := if target_state_valid r
             then std_sort (if min_state d <? max_state d then sort_clamp_values_asc
                            else sort_clamp_values_dec) l else l in
    if min_max_valid r
    then std_sort (if max_state d <? min_state d then sort_min_max_values_dec
                   else sort_min_max_values_asc) l else l.

Definition plan_of (l : zone_trip_limits_t) : Plan :=
  mkPlan (lim_target_valid l) (lim_target_value l) (lim_min_state l) (lim_max_state l).

(** An activation: [None] when it returns before anything is applied. *)
Definition activate (r : Request) (tm : Z) : M Dv (option Plan) :=
  first_entry <- dget (fun d => bool_decide (zone_trip_limits d = [])) ;;
  dset (fun d => d <| zone_trip_limits := add_limit r d |>) ;;;
  d <- dget id ;;
  let p := default (mkPlan false 0 0 0) (plan_of <$> last (zone_trip_limits d)) in
  constrained <-
    (if negb first_entry && plan_valid p then
       c <- cmp_current_state (map_target_state (plan_valid p) (plan_value p) d) ;; ret (c <=? 0)
     else ret false) ;;
  if constrained : bool then ret None
  else
    d <- dget id ;;
    if negb (force r) && last_state d && (tm - last_action_time d <=? debounce_interval d) then ret None
    else ret (Some p).

(** A deactivation: only the last entry of the list is erased. *)
Definition deactivate (r : Request) : M Dv (option Plan) :=
  d <- dget id ;;
  let given := mkPlan (target_state_valid r) (target_value r) (req_min_state r) (req_max_state r) in
  let to_min := mkPlan true (min_state d) (req_min_state r) (req_max_state r) in
  match last (zone_trip_limits d) with
  | None =>
      ret (Some (if force r then to_min
                 else mkPlan false (target_value r) (req_min_state r) (req_max_state r)))
  | Some limit =>
      if is_limit r limit then
        let rest := take (length (zone_trip_limits d) - 1) (zone_trip_limits d) in
        dset (fun d => d <| zone_trip_limits := rest |>) ;;;
        ret (Some (match last rest with
                   | Some limit => plan_of limit
                   | None =>
                       if lim_target_valid limit
                       then mkPlan (target_state_valid r) (min_state d) (req_min_state r) (req_max_state r)
                       else if force r then to_min else given
                   end))
      else ret None
  end.

(** The output of a controller within the states of the device. *)
Definition clamp_output (v : Z) : M Dv Z :=
  low <- dget min_state ;;
  m <- get_max_state ;;
  if low <? m then
    m <- get_max_state ;;
    v <- (if m <? v then get_max_state else ret v) ;;
    ret (if v <? low then low else v)
  else
    m <- get_max_state ;;
    v <- (if v <? m then get_max_state else ret v) ;;
    ret (if low <? v then low else v).

Definition apply_plan (r : Request) (state : bool) (pid : Pid) (p : Plan) : M Dv Pid :=
  pid_on <- dget pid_enable ;;
  if plan_valid p then
    set_curr_state_raw (plan_value p) state ;;;
    dset (fun d => d <| curr_state := plan_value p |>) ;;;
    get_curr_state ;;; ret pid
  else if hard_target r then
    m <- get_max_state ;; set_curr_state_raw m state ;;; get_curr_state ;;; ret pid
  else if trip_pid r then
    c <- get_curr_state_again ;;
    low <- dget min_state ;;
    tm <- io now ;;
    let (out, pid) := pid_output tm (wrap 32 (temperature r)) (sint 32 (c - low))
                        (set_target_temp (wrap 32 (req_target_temp r)) pid) in
    v <- clamp_output (sint 32 (out + low)) ;;
    set_curr_state_raw v state ;;; get_curr_state ;;;
    ret (if state then pid else pid_reset pid)
  else if pid_on then
    low <- dget min_state ;;
    tm <- io now ;;
    out <- dstep (fun d =>
             let (out, p) := pid_output tm (wrap 32 (temperature r)) 0
                               (set_target_temp (wrap 32 (req_target_temp r)) (pid_ctrl d)) in
             (out, d <| pid_ctrl := p |>)) ;;
    v <- clamp_output (sint 32 (out + low)) ;;
    set_curr_state_raw v state ;;; get_curr_state ;;; ret pid
  else
    thd_cdev_exponential_controller state (if state then plan_min p else 0)
      (if state then plan_max p else 0) ;;;
    ret pid.

(** What follows the check of the limits. *)
Definition carry_out (r : Request) (state : bool) (pid : Pid) (tm : Z) (plan : option Plan) : M Dv Pid :=
  match plan with
  | None => ret pid
  | Some p =>
      dset (fun d => d <| last_action_time := tm |> <| last_state := state |>) ;;;
      c <- get_curr_state ;;
      dset (fun d => d <| curr_state := c |>) ;;;
      low <- dget min_state ;;
      (if c =? low then
         control_begin ;;; dset (fun d => d <| curr_pow := 0 |> <| trend_increase := false |>)
       else ret tt) ;;;
      pid <- apply_plan r state pid p ;;
      get_max_state ;;; ret pid
  end.

(** [state]: activation or deactivation; the controller of the trip is handed
    back.  The code returned is always [THD_SUCCESS]. *)
Definition thd_cdev_set_state (r : Request) (state : bool) (pid : Pid) : M Dv Pid :=
  idle <- (if state then ret false
           else b <- in_min_state ;; l <- dget zone_trip_limits ;; ret (b && bool_decide (l = []))) ;;
  if idle : bool then ret pid
  else
    tm <- io now ;;
    plan <- (if state then activate r tm else deactivate r) ;;
    carry_out r state pid tm plan.

Definition thd_cdev_set_min_state (zone trip : Z) : M Dv unit :=
  dset (fun d => d <| trend_increase := false |>) ;;;
  low <- dget min_state ;;
  thd_cdev_set_state (Req 0 0 false zone trip true low false true false 0 0) false pid_new ;;; ret tt.

(** *** [set_adaptive_target] *)

Definition set_adaptive_target (t : adaptive_target) : M Dv bool :=
  d <- dget id ;;
  match kind d with
  | RaplDev r =>
      match stoi (target_argument t) with
      | None => ret false
      | Some argument =>
          let v := sint 32 (argument * 1000) in
          let is_ := String.eqb (code t) in
          (if is_ "PL1MAX" then
             rset (fun r => r <| pl0_max_pwr := v |>) ;;; dset (fun d => d <| min_state := v |>) ;;;
             pl1_rapl <- rapl_read_pl1 ;;
             c <- dget curr_state ;;
             (if pl1_rapl <? c then set_curr_state pl1_rapl true else ret tt) ;;;
             c <- dget curr_state ;; low <- dget min_state ;;
             if low <? c then set_curr_state low true else ret tt
           else if is_ "PL1MIN" then
             rset (fun r => r <| pl0_min_pwr := v |>) ;;; dset (fun d => d <| max_state := v |>) ;;;
             c <- dget curr_state ;;
             if c <? v then set_curr_state v true else ret tt
           else if is_ "PL1STEP" then
             rset (fun r => r <| pl0_step_pwr := v |>) ;;;
             dset (fun d => d <| inc_val := sint 32 (- v * 2) |> <| dec_val := - v |>)
           else if is_ "PL1TimeWindow" then rset (fun r => r <| pl0_min_window := v |>)
           else if is_ "PL1PowerLimit" then rapl_update_pl1 v ;;; ret tt
           else if is_ "PL2PowerLimit" then rapl_update_pl2 v ;;; ret tt
           else if is_ "TccOffset" then set_tcc argument
           else ret tt) ;;;
          ret true
      end
  | _ => ret true
  end.

(** *** [update] of each class, when the device is found *)

Definition rapl_no_time_windows : nat := 6.

Fixpoint find_constraints (n : nat) (i : Z) (found : bool) : M Dv bool :=
  match n with
  | O => ret found
  | S n =>
      let name := constraint i "_name" in
      e <- attr_exists name ;;
      type_str <- (if e : bool then r <- attr_read_string name ;; ret (default EmptyString (snd r))
                   else ret EmptyString) ;;
      let long := String.eqb type_str "long_term" in
      (if long then rset (fun r => r <| constraint_index := i |>) else ret tt) ;;;
      (if String.eqb type_str "short_term" then rset (fun r => r <| pl2_index := i |>) else ret tt) ;;;
      find_constraints n (i + 1) (found || long)
  end.

(** Whether the attributes of the long term limit are there. *)
Definition rapl_sysfs_valid : M Dv bool :=
  found <- find_constraints rapl_no_time_windows 0 false ;;
  if negb found then ret false
  else
    i <- rget constraint_index ;;
    e <- attr_exists (constraint i "_power_limit_uw") ;;
    if negb e then ret false else attr_exists (constraint i "_time_window_us").

Definition milli (v : Z) : Z := sint 32 (v * 1000).

Definition ppcc_paths : list string :=
  ["/sys/bus/pci/devices/0000:00:04.0/power_limits/"; "/sys/bus/pci/devices/0000:00:0b.0/power_limits/";
   "/sys/bus/platform/devices/INT3401:00/power_limits/"].

Fixpoint first_existing (l : list string) : M Dv (option string) :=
  match l with
  | [] => ret None
  | p :: l => e <- io (fs_exists p) ;; if e : bool then ret (Some p) else first_existing l
  end.

(** The files in order; [false]: one of them is there and cannot be read. *)
Fixpoint read_limits (base : string) (l : list (string * (Z -> Rapl -> Rapl))) : M Dv bool :=
  match l with
  | [] => ret true
  | (name, store) :: l =>
      e <- io (fs_exists (base +:+ name)) ;;
      if negb e then read_limits base l
      else
        r <- io (fs_read_int (base +:+ name)) ;;
        if fst r <=? 0 then ret false
        else rset (store (default 0 (snd r))) ;;; read_limits base l
  end.

Definition limit_files : list (string * (Z -> Rapl -> Rapl)) :=
  [("power_limit_0_max_uw", fun v r => r <| pl0_max_pwr := v |>);
   ("power_limit_0_min_uw", fun v r => r <| pl0_min_pwr := v |>);
   ("power_limit_0_tmin_us", fun v r => r <| pl0_min_window := v |>);
   ("power_limit_0_tmax_us", fun v r => r <| pl0_max_window := v |>);
   ("power_limit_0_step_uw", fun v r => r <| pl0_step_pwr := v |>)].

(** [ppcc]: the limits of the platform for the device, [trusted]: a policy that
    makes the daemon trust them. *)
Definition read_ppcc_power_limits (ppcc : option ppcc_t) (trusted : bool) : M Dv bool :=
  match ppcc with
  | Some p =>
      rset (fun r => r <| pl0_max_pwr := milli (power_limit_max p) |>
                       <| pl0_min_pwr := milli (power_limit_min p) |>
                       <| pl0_min_window := milli (time_wind_min p) |>
                       <| pl0_max_window := milli (time_wind_max p) |>
                       <| pl0_step_pwr := milli (ppcc_step_size p) |>
                       <| pl1_valid := limit_1_valid p |>) ;;;
      (if limit_1_valid p then
         rset (fun r => r <| pl1_max_pwr := milli (power_limit_1_max p) |>
                          <| pl1_min_pwr := milli (power_limit_1_min p) |>
                          <| pl1_min_window := milli (time_wind_1_min p) |>
                          <| pl1_max_window := milli (time_wind_1_max p) |>
                          <| pl1_step_pwr := milli (step_1_size p) |>)
       else ret tt) ;;;
      r <- rget id ;;
      if pl0_max_pwr r <=? pl0_min_pwr r then ret false
      else if trusted then ret true else rapl_read_pl1_max ;;; ret true
  | None =>
      r <- attr_read_string "name" ;;
      if negb (String.eqb (default EmptyString (snd r)) "package-0") then ret false
      else
        p <- first_existing ppcc_paths ;;
        match p with
        | None => ret false
        | Some p =>
            ok <- read_limits p limit_files ;;
            r <- rget id ;;
            let set v := negb (v =? 0) in
            if negb ok then ret false
            else if set (pl0_max_pwr r) && set (pl0_min_pwr r) && set (pl0_min_window r)
                    && set (pl0_step_pwr r) && set (pl0_max_window r) then
              if pl0_max_pwr r <=? pl0_min_pwr r then ret false
              else def_max_power <- rapl_read_pl1_max ;; ret (def_max_power <=? pl0_max_pwr r)
            else ret false
        end
  end.

Definition rapl_max_sane_phy_max := 1000000000.
Definition rapl_min_default_step := 500000.
Definition MINIBOOK_PID_KP := -1000.
Definition MINIBOOK_PID_KI := -100.
Definition MINIBOOK_PID_KD := -10.

(** [v * (float) percent / 100]. *)
Definition percent_of (v percent : Z) : float :=
  f32_div (f32_mul (f32_of_Z v) (f32_of_Z percent)) (f32_of_Z 100).

(** The limits of the platform: trusted to be sane. *)
Definition rapl_update_ppcc : M Dv unit :=
  r <- rget id ;;
  rset (fun r => r <| phy_max := pl0_max_pwr r |>) ;;;
  dset (fun d => d <| inc_val := sint 32 (- pl0_step_pwr r * 2) |> <| dec_val := - pl0_step_pwr r |>
                   <| min_state := pl0_max_pwr r |> <| max_state := pl0_min_pwr r |>) ;;;
  rapl_update_pl1 (pl0_max_pwr r) ;;;
  (if pl0_min_window r <? pl0_max_window r then rapl_update_time_window (pl0_max_window r) ;;; ret tt
   else ret tt) ;;;
  io rapl_start_measure_power ;;;
  rset (fun r => r <| dynamic_phy_max_enable := true |>) ;;;
  pl2 <- rapl_read_pl2 ;;
  if pl2 =? 0 then
    if negb (pl1_max_pwr r =? 0) then
      rapl_update_pl2 (pl1_max_pwr r) ;;; rapl_update_pl2_time_window (pl1_max_window r) ;;;
      rapl_update_enable_status 1 ;;; ret tt
    else ret tt
  else rapl_update_enable_status 1 ;;; ret tt.

(** No sane maximum: the range is everything and the power is measured. *)
Definition rapl_update_dynamic : M Dv unit :=
  attr_read_string "name" ;;;
  pl1 <- rapl_read_pl1 ;;
  rset (fun r => r <| power_on_constraint_0_pwr := pl1 |>) ;;;
  w <- rapl_read_time_window ;;
  rset (fun r => r <| power_on_constraint_0_time_window := w |> <| phy_max := 0 |>) ;;;
  dset (fun d => d <| max_state := 0 |> <| curr_state := rapl_max_sane_phy_max |>
                   <| min_state := rapl_max_sane_phy_max |>) ;;;
  io rapl_start_measure_power ;;;
  dset (fun d => d <| inc_dec_val := - rapl_min_default_step |>) ;;;
  rset (fun r => r <| dynamic_phy_max_enable := true |>).

Definition rapl_update_powercap (phy : Z) : M Dv unit :=
  pl1 <- rapl_read_pl1 ;;
  let phy := if phy <? pl1 then pl1 else phy in
  rset (fun r => r <| phy_max := phy |>) ;;;
  dset (fun d => d <| inc_dec_val := f_to_int 32 (percent_of (- phy) 5) |> <| min_state := phy |>
                   <| max_state := f_to_int 32 (f32_sub (f32_of_Z phy) (percent_of phy 50)) |>).

Definition rapl_update (ppcc : option ppcc_t) (trusted : bool) : M Dv bool :=
  valid <- rapl_sysfs_valid ;;
  if negb valid then ret false
  else
    ok <- read_ppcc_power_limits ppcc trusted ;;
    sane <-
      (if ok : bool then rapl_update_ppcc ;;; ret true
       else
         phy <- rapl_read_pl1_max ;;
         rset (fun r => r <| phy_max := phy |>) ;;;
         if (phy <? 0) || (rapl_max_sane_phy_max <? phy) then rapl_update_dynamic ;;; ret false
         else rapl_update_powercap phy ;;; ret true) ;;
    if negb sane then ret true
    else
      w <- rapl_read_time_window ;;
      st <- rapl_read_enable_status ;;
      rset (fun r => r <| power_on_constraint_0_time_window := w |> <| power_on_enable_status := st |>) ;;;
      dset (fun d =>
        d <| pid_enable := true |>
          <| pid_ctrl := set_pid_param (f64_of_Z MINIBOOK_PID_KP) (f64_of_Z MINIBOOK_PID_KI)
                           (f64_of_Z MINIBOOK_PID_KD) (pid_ctrl d) |>
          <| curr_state := min_state d |>) ;;;
      ret true.

Definition gen_update : M Dv bool :=
  e <- attr_exists EmptyString ;;
  if negb e then ret false
  else
    base <- dget base_path ;;
    if negb (has_prefix "/sys" base) then ret false
    else
      r <- attr_read EmptyString ;;
      if fst r <? 0 then ret false
      else
        dset (fun d => let v := default (curr_state d) (snd r) in
                       d <| curr_state := v |> <| min_state := v |> <| max_state := v |>) ;;;
        ret true.

(** A number of the thermal sysfs, 0 when the file is not there. *)
Definition therm_update_number (what : string) (old : Cdev -> Z) (store : Z -> M Dv unit) : M Dv bool :=
  name <- dget (fun d => therm_attr d what) ;;
  e <- attr_exists name ;;
  if negb e then store 0 ;;; ret true
  else r <- attr_read name ;;
       if fst r <? 0 then ret false
       else o <- dget old ;; store (default o (snd r)) ;;; ret true.

Definition therm_update : M Dv bool :=
  ok <- therm_update_number "/cur_state" curr_state (fun v => dset (fun d => d <| curr_state := v |>)) ;;
  if negb ok then ret false
  else
    ok <- therm_update_number "/max_state" max_state (fun v => dset (fun d => d <| max_state := v |>)) ;;
    if negb ok then ret false
    else
      name <- dget (fun d => therm_attr d "/type") ;;
      e <- attr_exists name ;;
      (if e : bool then
         r <- attr_read_string name ;;
         dset (fun d => let t := default (type_str d) (snd r) in
                        let d := d <| type_str := t |> in
                        if String.eqb t "Processor" then d <| read_back := false |> else d)
       else ret tt) ;;;
      ret true.

Definition min_backlight_percent := 25.
Definition backlight_update : M Dv bool :=
  e <- attr_exists EmptyString ;;
  ok <- (if e : bool then
           r <- attr_read "max_brightness" ;;
           if fst r <? 0 then ret false
           else dset (fun d => d <| max_state := default (max_state d) (snd r) |>) ;;; ret true
         else ret true) ;;
  m <- dget max_state ;;
  if negb ok || (m <=? 0) then ret false
  else
    dset (fun d =>
      let ref := match kind d with Backlight ref _ => ref | _ => 0 end in
      d <| inc_dec_val := f_to_int 32 (percent_of m 10) |>
        <| kind := Backlight ref (Z.quot (sint 32 (m * min_backlight_percent)) 100) |>) ;;;
    ret true.

Definition default_max_state := 10.
Definition pstate_update : M Dv bool :=
  e <- attr_exists "/status" ;;
  (if e : bool then attr_read_string "/status" ;;; ret tt else ret tt) ;;;
  e <- attr_exists "/max_perf_pct" ;;
  if negb e then ret false
  else
    r <- attr_read "/max_perf_pct" ;;
    if fst r <? 0 then ret false
    else dset (fun d => d <| max_state := default_max_state |> <| curr_state := 0 |>) ;;; ret true.

(** [add_frequency]: the list is descending when the frequencies are given in
    ascending or in descending order. *)
Definition add_frequency (freq_int : Z) (l : list Z) : list Z :=
  match l with
  | [] => [freq_int]
  | f :: _ => if freq_int <? f then l ++ [freq_int] else freq_int :: l
  end.

(** ** What the operations leave alone *)

Lemma same_io {T A} (g : Cdev -> T) (m : M World A) : same (fun s => g (snd s)) (io m).
Proof. intros [w d]. unfold same, post, io. simpl. by destruct (m w). Qed.
Lemma same_dget {T A} (f : Dv -> T) (g : Cdev -> A) : same f (dget g).
Proof. done. Qed.
Lemma same_dset {T} (g : Cdev -> T) (f : Cdev -> Cdev) :
  (forall d, g (f d) = g d) -> same (fun s => g (snd s)) (dset f).
Proof. intros Hf [w d]. apply Hf. Qed.
Lemma same_dstep {T A} (g : Cdev -> T) (f : Cdev -> A * Cdev) :
  (forall d, g (snd (f d)) = g d) -> same (fun s => g (snd s)) (dstep f).
Proof. intros Hf [w d]. unfold post, dstep. specialize (Hf d). simpl. by destruct (f d). Qed.

(** Follow a program: a part that keeps the field, an access of the world, an
    update of other fields. *)
Ltac same_step :=
  match goal with
  | |- same _ (bind _ _) => apply same_bind; [|intros ?]
  | |- same _ (ret _) => apply same_ret
  | |- same _ (io _) => apply same_io
  | |- same _ (dget _) => apply same_dget
  | |- same _ (dset _) => apply same_dset; intros ?
  | |- same _ (dstep _) => apply same_dstep; intros ?; try unfold increase
  | |- same _ (rset _) => apply same_dset; intros ?
  | |- same _ (rget _) => apply same_dget
  | |- same _ (match ?x with _ => _ end) => destruct x
  | |- same _ _ => solve [eauto 2 with dev]
  | |- _ = _ => repeat destr_match; done
  end.
Ltac same_dev := repeat (same_step || (progress cbv zeta)).

Create HintDb dev.

Lemma same_attr_exists {T} (g : Cdev -> T) name : same (fun s => g (snd s)) (attr_exists name).
Proof. unfold attr_exists, attr. same_dev. Qed.
Lemma same_attr_read {T} (g : Cdev -> T) name : same (fun s => g (snd s)) (attr_read name).
Proof. unfold attr_read, attr. same_dev. Qed.
Lemma same_attr_write {T} (g : Cdev -> T) name v : same (fun s => g (snd s)) (attr_write name v).
Proof. unfold attr_write, attr. same_dev. Qed.
Lemma same_attr_write_uint {T} (g : Cdev -> T) name v : same (fun s => g (snd s)) (attr_write_uint name v).
Proof. unfold attr_write_uint, attr. same_dev. Qed.
#[local] Hint Resolve same_attr_exists same_attr_read same_attr_write same_attr_write_uint : dev.
Lemma same_read_or_error {T} (g : Cdev -> T) name : same (fun s => g (snd s)) (read_or_error name).
Proof. unfold read_or_error. same_dev. Qed.
#[local] Hint Resolve same_read_or_error : dev.
Lemma same_rapl_read_pl1 {T} (g : Cdev -> T) : same (fun s => g (snd s)) rapl_read_pl1.
Proof. unfold rapl_read_pl1. same_dev. Qed.
Lemma same_rapl_update_pl1 {T} (g : Cdev -> T) v : same (fun s => g (snd s)) (rapl_update_pl1 v).
Proof. unfold rapl_update_pl1. same_dev. Qed.
Lemma same_rapl_update_time_window {T} (g : Cdev -> T) v :
  same (fun s => g (snd s)) (rapl_update_time_window v).
Proof. unfold rapl_update_time_window. same_dev. Qed.
Lemma same_rapl_update_enable_status {T} (g : Cdev -> T) v :
  same (fun s => g (snd s)) (rapl_update_enable_status v).
Proof. unfold rapl_update_enable_status. same_dev. Qed.
#[local] Hint Resolve same_rapl_read_pl1 same_rapl_update_pl1 same_rapl_update_time_window
  same_rapl_update_enable_status : dev.

Definition limits (s : Dv) : list zone_trip_limits_t := zone_trip_limits (snd s).

Lemma same_set_curr_state state control : same limits (set_curr_state state control).
Proof.
  assert (forall n i freq, same limits (write_freqs n i freq)) as Hf.
  { intros n. induction n as [|n IH]; simpl; intros i freq; unfold limits; same_dev. }
  unfold limits in *. unfold set_curr_state. same_dev.
  all: unfold gen_set_curr_state, therm_set_curr_state, rapl_set_curr_state, backlight_set_curr_state,
    pstate_set_curr_state, set_turbo_disable_status, cpufreq_set_curr_state; same_dev.
Qed.
#[local] Hint Resolve same_set_curr_state : dev.
Lemma same_set_curr_state_raw state control : same limits (set_curr_state_raw state control).
Proof. unfold limits, set_curr_state_raw. pose proof same_set_curr_state. unfold limits in *. same_dev. Qed.
Lemma same_get_curr_state : same limits get_curr_state.
Proof. unfold limits, get_curr_state, therm_read. same_dev. Qed.
Lemma same_get_max_state : same limits get_max_state.
Proof. unfold limits, get_max_state, therm_read. same_dev. Qed.
Lemma same_get_curr_state_again : same limits get_curr_state_again.
Proof. unfold limits, get_curr_state_again. same_dev. Qed.
#[local] Hint Resolve same_set_curr_state_raw same_get_curr_state same_get_max_state
  same_get_curr_state_again : dev.
Lemma same_in_min_state : same limits in_min_state.
Proof. unfold in_min_state. same_dev. Qed.
Lemma same_cmp_current_state state : same limits (cmp_current_state state).
Proof. unfold cmp_current_state. same_dev. Qed.
Lemma same_clamp_output v : same limits (clamp_output v).
Proof. unfold clamp_output. same_dev. Qed.
#[local] Hint Resolve same_in_min_state same_cmp_current_state same_clamp_output : dev.
Lemma same_controller state low high : same limits (thd_cdev_exponential_controller state low high).
Proof.
  unfold thd_cdev_exponential_controller. same_dev.
Qed.
#[local] Hint Resolve same_controller : dev.
Lemma same_apply_plan r state pid p : same limits (apply_plan r state pid p).
Proof. unfold apply_plan. same_dev. Qed.
#[local] Hint Resolve same_apply_plan : dev.

(** ** The trips that hold a device *)

(** What a call makes of the list: an activation adds the trip unless it is
    there, a deactivation takes the trip off when it is the last of the list. *)
Definition limits_step (r : Request) (state : bool) (d : Cdev) : list zone_trip_limits_t :=
  if state then add_limit r d
  else match last (zone_trip_limits d) with
       | Some l => if is_limit r l then removelast (zone_trip_limits d) else zone_trip_limits d
       | None => []
       end.

Lemma take_removelast {A} (l : list A) : take (length l - 1) l = removelast l.
Proof.
  induction l as [|a [|b l] IH]; try done. simpl in *. rewrite <- IH.
  by replace (length l - 0)%nat with (length l) by lia.
Qed.

Lemma bind_dget {A B} (g : Cdev -> A) (k : A -> M Dv B) s : bind (dget g) k s = k (g (snd s)) s.
Proof. done. Qed.
Lemma post_dget {A B} (g : Cdev -> A) (k : A -> M Dv B) s :
  post (bind (dget g) k) s = post (k (g (snd s))) s.
Proof. done. Qed.

Lemma limits_write {A} (f : Cdev -> Cdev) (k : unit -> M Dv A) s :
  (forall a, same limits (k a)) -> limits (post (bind (dset f) k) s) = zone_trip_limits (f (snd s)).
Proof. intros Hk. rewrite post_bind. apply Hk. Qed.

Lemma limits_activate r tm s : limits (post (activate r tm) s) = add_limit r (snd s).
Proof. unfold activate. rewrite post_dget. apply limits_write. intros _. same_dev. Qed.

Lemma limits_deactivate r s : limits (post (deactivate r) s) = limits_step r false (snd s).
Proof.
  unfold deactivate, limits_step. rewrite post_dget. cbv zeta.
  destruct (last (zone_trip_limits (snd s))) as [l|] eqn:El.
  - change (id (snd s)) with (snd s). rewrite El. destruct (is_limit r l); [|done].
    rewrite limits_write by (intros _; apply same_ret). apply take_removelast.
  - change (id (snd s)) with (snd s). rewrite El. apply last_None in El. exact El.
Qed.

Lemma same_carry_out r state pid tm plan : same limits (carry_out r state pid tm plan).
Proof. unfold carry_out, control_begin. same_dev. Qed.

Lemma limits_io {A B} (m : M World A) (k : A -> M Dv B) s (G : Cdev -> list zone_trip_limits_t) :
  (forall a s, limits (post (k a) s) = G (snd s)) -> limits (post (bind (io m) k) s) = G (snd s).
Proof.
  intros Hk. rewrite post_bind, Hk. f_equal. exact (same_io id m s).
Qed.

(** The list after a call. *)
Lemma set_state_limits r state pid s :
  limits (post (thd_cdev_set_state r state pid) s) = limits_step r state (snd s).
Proof.
  assert (forall s, limits (post (tm <- io now ;;
      plan <- (if state then activate r tm else deactivate r) ;; carry_out r state pid tm plan) s)
    = limits_step r state (snd s)) as Hrun.
  { clear s. intros s. apply limits_io. intros tm s'. rewrite post_bind, same_carry_out.
    destruct state; [apply limits_activate|apply limits_deactivate]. }
  unfold thd_cdev_set_state. destruct state; [exact (Hrun s)|].
  rewrite post_bind. set (first := bind in_min_state _).
  assert (limits (post first s) = limits s) as Hl by (revert s; apply (same_bind limits); [|intros ?]; same_dev).
  destruct (res first s) eqn:Ef.
  - unfold first, res, bind in Ef. destruct in_min_state as [b s'] eqn:Em. simpl in Ef.
    apply andb_true_iff in Ef as [_ He%bool_decide_eq_true].
    assert (limits s' = limits s) as Hs'.
    { pose proof (same_in_min_state s) as H1. unfold post in H1. by rewrite Em in H1. }
    change (limits (post first s) = limits_step r false (snd s)). rewrite Hl, <- Hs'. unfold limits.
    rewrite He. unfold limits_step. fold (limits s). rewrite <- Hs'. unfold limits. by rewrite He.
  - rewrite Hrun. unfold limits_step. fold (limits (post first s)). by rewrite Hl.
Qed.

(** *** Sequences of calls *)

Inductive Call :=
  | SetState (r : Request) (state : bool) (pid : Pid)
  | SetMinState (zone trip : Z).
Definition run_call (c : Call) : M Dv unit :=
  match c with
  | SetState r state pid => thd_cdev_set_state r state pid ;;; ret tt
  | SetMinState zone trip => thd_cdev_set_min_state zone trip
  end.

Definition key (l : zone_trip_limits_t) : Z * Z := (lim_zone l, lim_trip l).
Definition key_of (r : Request) : Z * Z := (zone_id r, trip_id r).

Lemma is_limit_spec r l : is_limit r l = true <-> key l = key_of r.
Proof.
  unfold is_limit, key, key_of. rewrite andb_true_iff, !Z.eqb_eq.
  split; [intros [-> ->]; done|intros [= -> ->]; done].
Qed.

Lemma std_sort_keys lt (l : list zone_trip_limits_t) : Permutation (key <$> std_sort lt l) (key <$> l).
Proof. apply fmap_Permutation, std_sort_perm. Qed.

(** The trips on the list after an activation. *)
Lemma add_limit_keys r d :
  Permutation (key <$> add_limit r d)
    (if decide (key_of r ∈ key <$> zone_trip_limits d) then key <$> zone_trip_limits d
     else (key <$> zone_trip_limits d) ++ [key_of r]).
Proof.
  unfold add_limit. destruct (existsb _ _) eqn:Ex.
  - apply existsb_exists in Ex as (l & Hin%list_elem_of_In & Hl%is_limit_spec).
    rewrite decide_True; [done|]. rewrite <- Hl. by apply list_elem_of_fmap_2.
  - rewrite decide_False.
    + set (l := zone_trip_limits d ++ _).
      assert (key <$> l = (key <$> zone_trip_limits d) ++ [key_of r]) as <- by (subst l; by rewrite fmap_app).
      destruct (target_state_valid r), (min_max_valid r); try done; rewrite ?std_sort_keys; done.
    + intros (l & Hk & Hin)%list_elem_of_fmap.
      assert (existsb (is_limit r) (zone_trip_limits d) = true); [|congruence].
      apply existsb_exists. exists l. split; [by apply list_elem_of_In|by apply is_limit_spec].
Qed.

(** No trip twice, each one of [act]. *)
Definition well_held (act : list (Z * Z)) (s : Dv) : Prop :=
  NoDup (key <$> limits s) /\ forall k, k ∈ key <$> limits s -> k ∈ act.

Lemma well_held_step act r state s : (state = true -> key_of r ∈ act) -> well_held act s ->
  NoDup (key <$> limits_step r state (snd s)) /\
  forall k, k ∈ key <$> limits_step r state (snd s) -> k ∈ act.
Proof.
  intros Hr [Hd Hin]. unfold limits_step. destruct state.
  - pose proof (add_limit_keys r (snd s)) as Hp. fold (limits s) in *. destruct decide as [Hd'|Hn].
    + split; [by rewrite Hp|intros k; rewrite Hp; apply Hin].
    + split; [rewrite Hp; apply NoDup_app; split_and!; [done|set_solver|apply NoDup_singleton]|].
      intros k. rewrite Hp. set_solver.
  - fold (limits s). destruct (last (limits s)) eqn:El.
    + destruct is_limit; [|done]. apply last_Some in El as [l El]. rewrite El in *.
      rewrite removelast_last. rewrite fmap_app in *. apply NoDup_app in Hd as (Hd & _).
      split; [done|]. intros k Hk. apply Hin. set_solver.
    + split; [constructor|intros k Hk; by inversion Hk].
Qed.

Lemma keeps_run_call act c :
  (forall r pid, c = SetState r true pid -> key_of r ∈ act) -> keeps (well_held act) (run_call c).
Proof.
  intros Hc s Hs. destruct c as [r state pid|zone trip]; simpl.
  - rewrite post_bind. unfold ret, post at 1. simpl. unfold well_held. rewrite set_state_limits.
    apply well_held_step; [|done]. intros ->. by eapply Hc.
  - unfold thd_cdev_set_min_state. rewrite post_bind, post_dget, post_bind. unfold ret, post at 1. simpl.
    unfold well_held. rewrite set_state_limits. by apply well_held_step.
Qed.

(** C11: Whatever the calls, whatever the devices answer and however [std::sort] orders
    equal values: a trip is on the list at most once, and only if it activated the
    device. *)
Theorem limits_distinct calls s : limits s = [] ->
  let s' := post (mfor calls run_call) s in
  NoDup (key <$> limits s') /\
  forall k, k ∈ key <$> limits s' -> exists r pid, SetState r true pid ∈ calls /\ key_of r = k.
Proof.
  intros Hs s'.
  assert (well_held (omap (fun c => match c with SetState r true _ => Some (key_of r) | _ => None end) calls) s')
    as [Hd Hin].
  { apply keeps_mfor.
    - intros c Hc. apply keeps_run_call. intros r pid ->. apply list_elem_of_omap. eauto.
    - split; rewrite Hs; [constructor|intros k Hk; by inversion Hk]. }
  split; [done|]. intros k Hk. apply Hin in Hk. apply list_elem_of_omap in Hk as (c & Hc & Hk).
  destruct c as [r [|] pid|]; simplify_eq. eauto.
Qed.

(** *** Releasing in another order *)

Lemma keeps_snd {A} (P : Cdev -> Prop) (m : M Dv A) :
  same (fun s => id (snd s)) m -> keeps (fun s => P (snd s)) m.
Proof. intros Hm s Hs. pose proof (Hm s) as H1. unfold id in H1. by rewrite H1. Qed.
Lemma keeps_dset (P : Cdev -> Prop) (f : Cdev -> Cdev) :
  (forall d, P d -> P (f d)) -> keeps (fun s => P (snd s)) (dset f).
Proof. intros Hf [w d] Hd. by apply Hf. Qed.
Lemma keeps_dstep {A} (P : Cdev -> Prop) (f : Cdev -> A * Cdev) :
  (forall d, P d -> P (snd (f d))) -> keeps (fun s => P (snd s)) (dstep f).
Proof. intros Hf [w d] Hd. specialize (Hf d Hd). unfold post, dstep. simpl. by destruct (f d). Qed.

Ltac keep_step :=
  match goal with
  | |- keeps _ (bind _ _) => apply keeps_bind; [|intros ?]
  | |- keeps _ (dset _) => apply keeps_dset; intros ? ?
  | |- keeps _ (rset _) => apply keeps_dset; intros ? ?
  | |- keeps _ (dstep _) => apply keeps_dstep; intros ? ?; try unfold increase
  | |- keeps _ (match ?x with _ => _ end) => destruct x eqn:?
  | |- keeps _ _ => solve [eauto 2 with dev]
  | |- keeps _ _ => apply keeps_snd; solve [same_dev]
  | |- _ => repeat destr_match; done
  end.
Ltac keep_dev := repeat (keep_step || (progress cbv zeta)).

(** The states of the device are not read back from the kernel. *)
Definition own_state (d : Cdev) : Prop := kind d <> ThermSysfs.
Definition owned (s : Dv) : Prop := own_state (snd s).

Lemma owned_set_curr_state state control : keeps owned (set_curr_state state control).
Proof.
  assert (forall n i freq, keeps owned (write_freqs n i freq)) as Hf.
  { intros n. induction n as [|n IH]; simpl; intros i freq; unfold owned in *; keep_dev. }
  unfold owned in *. unfold set_curr_state. keep_dev.
  all: unfold gen_set_curr_state, therm_set_curr_state, rapl_set_curr_state, backlight_set_curr_state,
    pstate_set_curr_state, set_turbo_disable_status, cpufreq_set_curr_state; keep_dev.
Qed.
#[local] Hint Resolve owned_set_curr_state : dev.
Lemma owned_set_curr_state_raw state control : keeps owned (set_curr_state_raw state control).
Proof. unfold set_curr_state_raw, owned. pose proof owned_set_curr_state as Hs. unfold owned in Hs. keep_dev. Qed.

(** Then reading the current state or whether it is the lowest changes nothing. *)
Lemma own_get_curr_state s : owned s -> get_curr_state s = (curr_state (snd s), s).
Proof.
  destruct s as [w d]. unfold owned, own_state. intros Hs. unfold get_curr_state. rewrite bind_dget.
  simpl in *. unfold id. by destruct (kind d).
Qed.
Lemma own_in_min_state s : owned s -> post in_min_state s = s.
Proof.
  intros Hs. unfold in_min_state. rewrite post_dget.
  repeat (destr_match; [rewrite post_bind; unfold post at 2; by rewrite own_get_curr_state|]). done.
Qed.
Lemma same_get_max_state_curr : same (fun s => curr_state (snd s)) get_max_state.
Proof. unfold get_max_state, therm_read. same_dev. Qed.

Lemma post_io {A} (m : M World A) s : post (io m) s = (post m (fst s), snd s).
Proof. unfold post, io. by destruct (m (fst s)). Qed.

Lemma res_io {A} (m : M World A) s : res (io m) s = res m (fst s).
Proof. unfold res, io. by destruct (m (fst s)). Qed.

(** A deactivation while trips are on the list. *)
Lemma deactivation r pid s : owned s -> limits s <> [] ->
  let t := (post now (fst s), snd s) in
  post (thd_cdev_set_state r false pid) s =
  post (carry_out r false pid (res now (fst s)) (res (deactivate r) t)) (post (deactivate r) t).
Proof.
  intros Hs Hl t. unfold thd_cdev_set_state. rewrite post_bind.
  assert (post (b <- in_min_state ;; l <- dget zone_trip_limits ;; ret (b && bool_decide (l = []))) s = s
    /\ res (b <- in_min_state ;; l <- dget zone_trip_limits ;; ret (b && bool_decide (l = []))) s = false)
    as [-> ->].
  { pose proof (own_in_min_state s Hs) as Hp. unfold post in Hp. unfold post, res, bind.
    destruct (in_min_state s) as [b u]. simpl in Hp. subst u. split; [done|]. simpl.
    rewrite bool_decide_false by done. apply andb_false_r. }
  by rewrite post_bind, post_io, res_io, post_bind.
Qed.

(** The deactivation of a trip that is not the last of the list does nothing. *)
Lemma release_unlisted r pid s l : owned s -> last (limits s) = Some l -> is_limit r l = false ->
  post (thd_cdev_set_state r false pid) s = (post now (fst s), snd s).
Proof.
  intros Hs Hl Hr. rewrite deactivation by (done || by intros Hn; rewrite Hn in Hl).
  set (t := (_, _)). unfold limits in Hl.
  assert (deactivate r t = (None, t)) as Hd.
  { unfold deactivate. rewrite bind_dget. cbv zeta. unfold id, t. simpl. by rewrite Hl, Hr. }
  unfold res, post. by rewrite Hd.
Qed.

Lemma owned_get_curr_state : keeps owned get_curr_state.
Proof. intros s Hs. unfold post. by rewrite own_get_curr_state. Qed.
Lemma owned_get_max_state : keeps owned get_max_state.
Proof. unfold get_max_state, therm_read, owned. keep_dev. Qed.
#[local] Hint Resolve owned_set_curr_state_raw owned_get_curr_state owned_get_max_state : dev.

Lemma keeps_wp {S A} (I : S -> Prop) (m : M S A) s : keeps I m -> I s -> wp m (fun _ => I) s.
Proof. intros Hm Hs. by apply Hm. Qed.

(** What carrying out a target leaves. *)
Lemma carry_out_target r state pid tm v low high s : owned s ->
  let s' := post (carry_out r state pid tm (Some (mkPlan true v low high))) s in
  owned s' /\ curr_state (snd s') = v.
Proof.
  intros Hs. start_post. unfold carry_out, control_begin.
  do 5 (apply (wp_seq _ _ (fun _ => owned)); [apply keeps_wp; [unfold owned in *; keep_dev|assumption]|
    cbv beta; intros]).
  apply wp_bind. unfold apply_plan. simpl plan_valid. simpl plan_value.
  apply wp_bind, wp_gets. cbv iota.
  apply (wp_seq _ _ (fun _ => owned));
    [apply keeps_wp; [apply owned_set_curr_state_raw|assumption]|cbv beta; intros _ u Hu].
  apply wp_bind. unfold dset. apply wp_modify.
  assert (owned (fst u, snd u <| curr_state := v |>)) as Hu' by exact Hu.
  apply wp_bind. unfold wp at 1, res, post. rewrite own_get_curr_state by done. apply wp_ret.
  apply wp_bind, wp_conseq with (Q := fun _ u => owned u /\ curr_state (snd u) = v).
  { intros _ u' Hu2. by apply wp_ret. }
  split; [by apply owned_get_max_state|]. by rewrite (same_get_max_state_curr _).
Qed.

(** The deactivation of the last one puts the device in the state that the one
    before it asked for. *)
Lemma release_last r pid s l a b : owned s -> limits s = l ++ [a; b] -> is_limit r b = true ->
  lim_target_valid a = true ->
  let s' := post (thd_cdev_set_state r false pid) s in
  owned s' /\ limits s' = l ++ [a] /\ curr_state (snd s') = lim_target_value a.
Proof.
  intros Hs Hl Hb Ha s'. change ([a; b]) with ([a] ++ [b]) in Hl. rewrite (assoc_L (++)) in Hl.
  assert (limits s' = l ++ [a]) as Hl'.
  { subst s'. rewrite set_state_limits. unfold limits_step. unfold limits in Hl. rewrite Hl.
    rewrite last_snoc, Hb. apply removelast_last. }
  split_and!; [|done|].
  all: subst s'; rewrite deactivation by (done || rewrite Hl; by destruct (l ++ [a])).
  all: set (t := (_, _)).
  all: assert (deactivate r t = (Some (plan_of a), (fst t, snd s <| zone_trip_limits := l ++ [a] |>))) as Hd.
  1, 3: unfold deactivate; rewrite bind_dget; cbv zeta; unfold id, t; simpl; unfold limits in Hl;
      rewrite Hl, last_snoc, Hb, take_removelast, removelast_last;
      unfold bind, ret, dset, modify; simpl; by rewrite last_snoc.
  all: unfold res, post at 2; rewrite Hd; simpl fst; simpl snd; unfold plan_of; rewrite Ha.
  all: by apply carry_out_target.
Qed.

(** The comment over [thd_cdev_set_state] promises that a deactivation removes
    the trip.  Two trips with targets: when the one that came last in the list is
    released first, nothing is left; in the other order the first stays on the list
    for good and the device is put into the state that it had asked for. *)
Theorem release_order ra rb pid s a b : owned s -> limits s = [a; b] ->
  key_of ra = key a -> key_of rb = key b -> key a <> key b -> lim_target_valid a = true ->
  let release r := post (thd_cdev_set_state r false pid) in
  limits (release ra (release rb s)) = [] /\
  limits (release rb (release ra s)) = [a] /\
  curr_state (snd (release rb (release ra s))) = lim_target_value a.
Proof.
  intros Hs Hl Ha Hb Hab Hv release.
  assert (is_limit ra a = true /\ is_limit rb b = true) as [Haa Hbb] by (by split; apply is_limit_spec).
  assert (is_limit ra b = false) as Hn.
  { apply not_true_is_false. rewrite is_limit_spec. congruence. }
  destruct (release_last rb pid s [] a b Hs Hl Hbb Hv) as (_ & Hl1 & _).
  assert (release ra s = (post now (fst s), snd s)) as ->.
  { by apply release_unlisted with b; [|rewrite Hl|]. }
  set (t := (_, _)).
  destruct (release_last rb pid t [] a b Hs Hl Hbb Hv) as (_ & Hl2 & Hc).
  split; [|by split]. unfold release. rewrite set_state_limits. unfold limits_step.
  unfold limits in Hl1. by rewrite Hl1; simpl; rewrite Haa.
Qed.

(** ** The power limits that RAPL is given *)

(** A write to [path] gives a number from [lo] to [hi]. *)
Definition within (path : string) (lo hi : Z) (e : string * string * Z) : Prop :=
  fst (fst e) = path -> exists v, lo <= v <= hi /\ snd (fst e) = pretty (Z.to_N v).

Section PowerLimits.
Context (base : string) (ci lo hi : Z) (Hlo : 0 <= lo) (Hhi : lo <= hi < 2 ^ 32).

Definition limit_name : string := constraint ci "_power_limit_uw".
Definition limit_path : string := base +:+ limit_name.

(** A RAPL device with the states from [lo] to [hi]. *)
Definition ranged (d : Cdev) : Prop :=
  match kind d with
  | RaplDev r => power_on_constraint_0_pwr r = 0 /\ constraint_index r = ci
  | _ => False
  end /\ base_path d = base /\ max_state d = lo /\ min_state d = hi.
Definition guarded (s : Dv) : Prop := ranged (snd s) /\ Forall (within limit_path lo hi) (io_writes (fst s)).

Lemma guarded_io {A} (m : M World A) : same io_writes m -> keeps guarded (io m).
Proof. intros Hm s [Hr Hw]. rewrite post_io. split; [done|]. simpl. by rewrite Hm. Qed.
Lemma guarded_dset f : (forall d, ranged d -> ranged (f d)) -> keeps guarded (dset f).
Proof. intros Hf s [Hr Hw]. split; [by apply Hf|done]. Qed.
Lemma guarded_dstep {A} (f : Cdev -> A * Cdev) : (forall d, ranged d -> ranged (snd (f d))) -> keeps guarded (dstep f).
Proof. intros Hf s [Hr Hw]. unfold post, dstep. specialize (Hf _ Hr). by destruct (f (snd s)). Qed.
Lemma guarded_dget {A B} (g : Cdev -> A) (k : A -> M Dv B) :
  (forall d, ranged d -> keeps guarded (k (g d))) -> keeps guarded (bind (dget g) k).
Proof. intros Hk s Hs. rewrite post_dget. by apply Hk; [apply Hs|]. Qed.
Lemma guarded_rget {A B} (g : Rapl -> A) (k : A -> M Dv B) :
  (forall r, power_on_constraint_0_pwr r = 0 -> constraint_index r = ci -> keeps guarded (k (g r))) ->
  keeps guarded (bind (rget g) k).
Proof.
  intros Hk. apply guarded_dget. intros d Hd. unfold the_rapl. destruct Hd as [Hd _].
  destruct (kind d); try done. by destruct Hd; apply Hk.
Qed.
Lemma ranged_rset (f : Rapl -> Rapl) :
  (forall r, power_on_constraint_0_pwr (f r) = power_on_constraint_0_pwr r /\
             constraint_index (f r) = constraint_index r) -> keeps guarded (rset f).
Proof.
  intros Hf. apply guarded_dset. intros d [Hd Hb]. unfold ranged, the_rapl.
  destruct (kind d) as [| |r| | |]; try done. destruct (Hf r) as [H1 H2]. split; [simpl; by rewrite H1, H2|done].
Qed.
Lemma keeps_dget_end {A} (g : Cdev -> A) : keeps guarded (dget g).
Proof. intros s Hs. exact Hs. Qed.

Ltac guard_step :=
  match goal with
  | |- keeps _ (bind (dget _) _) => apply guarded_dget; intros ? ?; cbv beta; unfold id
  | |- keeps _ (bind (rget _) _) => apply guarded_rget; intros ? ? ?; cbv beta; unfold id
  | |- keeps _ (bind _ _) => apply keeps_bind; [|intros ?]
  | |- keeps _ (ret _) => apply keeps_ret
  | |- keeps _ (dget _) => apply keeps_dget_end
  | |- keeps _ (rset _) => apply ranged_rset; intros ?; done
  | |- keeps _ (dset _) => apply guarded_dset; intros ? ?
  | |- keeps _ (dstep _) => apply guarded_dstep; intros ? ?; try unfold increase
  | |- keeps _ (io _) => apply guarded_io
  | |- same _ _ => solve [eauto 2 with dev]
  | |- keeps _ _ => solve [eauto 2 with dev]
  | H : ranged ?d |- context [match kind ?d with _ => _ end] =>
      let Hk := fresh in pose proof (proj1 H) as Hk; destruct (kind d); try done; clear Hk
  | |- keeps _ (match ?x with _ => _ end) => destruct x eqn:?
  | |- ranged _ => solve [done | repeat destr_match; done]
  end.
Ltac guard_dev := repeat (guard_step || (progress cbv zeta) || (progress unfold id)).

(** *** The world *)

Lemma writes_ask {A} (f : nat -> A) : same io_writes (ask f).
Proof. done. Qed.
#[local] Hint Resolve writes_ask : dev.
Ltac same_world :=
  repeat match goal with
  | |- same _ (bind _ _) => apply same_bind; [|intros ?]
  | |- same _ (modify _) => intros ?; reflexivity
  | |- same _ (match ?x with _ => _ end) => destruct x
  | |- same _ _ => solve [done | eauto 2 with dev]
  end.
Lemma writes_now : same io_writes now. Proof. apply writes_ask. Qed.
Lemma writes_fs_exists p : same io_writes (fs_exists p). Proof. apply writes_ask. Qed.
Lemma writes_read_number size conv p : same io_writes (fs_read_number size conv p).
Proof. unfold fs_read_number. same_world. Qed.
Lemma writes_read_int p : same io_writes (fs_read_int p). Proof. apply writes_read_number. Qed.
#[local] Hint Resolve writes_now writes_fs_exists writes_read_number writes_read_int : dev.
Lemma writes_energy_steps elapsed l : same io_writes (energy_steps elapsed l).
Proof.
  induction l as [|d l IH]; simpl; [done|]. unfold energy_step, domain_ranged, fs_read_ulong, unset.
  same_world.
Qed.
#[local] Hint Resolve writes_energy_steps : dev.
Lemma writes_energy_loop : same io_writes rapl_energy_loop.
Proof. unfold rapl_energy_loop. same_world. Qed.
#[local] Hint Resolve writes_energy_loop : dev.
Lemma writes_get_power t : same io_writes (rapl_action_get_power t).
Proof. unfold rapl_action_get_power. same_world. Qed.
Lemma writes_start : same io_writes rapl_start_measure_power.
Proof. done. Qed.
#[local] Hint Resolve writes_get_power writes_start : dev.

(** *** The device *)

Lemma guarded_attr_exists name : keeps guarded (attr_exists name).
Proof. unfold attr_exists, attr. guard_dev. Qed.
Lemma guarded_attr_read name : keeps guarded (attr_read name).
Proof. unfold attr_read, attr. guard_dev. Qed.
#[local] Hint Resolve guarded_attr_exists guarded_attr_read : dev.

Lemma string_tail (a b c : string) : a +:+ b = a +:+ c -> b = c.
Proof. induction a as [|x a IH]; simpl; intros He; [done|]. injection He. exact IH. Qed.

Lemma guarded_write_other name v : name <> limit_name -> keeps guarded (attr_write_uint name v).
Proof.
  intros Hn. unfold attr_write_uint, attr. apply guarded_dget. intros d Hd s [Hr Hw].
  rewrite post_io. split; [done|]. simpl fst. unfold fs_write_uint, fs_write. rewrite !post_bind.
  unfold ret, post at 1, modify, post at 1. simpl. apply Forall_app. split; [done|].
  apply Forall_singleton. unfold within. simpl. intros Hp. exfalso. apply Hn.
  destruct Hd as (_ & Hb & _). unfold limit_path in Hp. rewrite <- Hb in Hp. by apply string_tail in Hp.
Qed.
Lemma guarded_write_limit v : lo <= v <= hi -> keeps guarded (attr_write_uint limit_name v).
Proof.
  intros Hv. unfold attr_write_uint, attr. apply guarded_dget. intros d Hd s [Hr Hw].
  rewrite post_io. split; [done|]. simpl fst. unfold fs_write_uint, fs_write. rewrite !post_bind.
  unfold ret, post at 1, modify, post at 1. simpl. apply Forall_app. split; [done|].
  apply Forall_singleton. unfold within. simpl. intros _. exists v. by rewrite wrap_small by lia.
Qed.

Lemma window_name : constraint ci "_time_window_us" <> limit_name.
Proof. unfold limit_name, constraint. intros He. by apply string_tail, string_tail in He. Qed.

Lemma guarded_update_pl1 v : lo <= v <= hi -> keeps guarded (rapl_update_pl1 v).
Proof.
  intros Hv. unfold rapl_update_pl1. apply guarded_rget. intros r _ ->.
  apply keeps_bind; [by apply guarded_write_limit|intros; apply keeps_ret].
Qed.
Lemma guarded_update_time_window v : keeps guarded (rapl_update_time_window v).
Proof.
  unfold rapl_update_time_window. apply guarded_rget. intros r _ ->.
  apply keeps_bind; [apply guarded_write_other, window_name|intros; apply keeps_ret].
Qed.
Lemma guarded_update_enable_status v : keeps guarded (rapl_update_enable_status v).
Proof. apply keeps_bind; [by apply guarded_write_other|intros; apply keeps_ret]. Qed.
#[local] Hint Resolve guarded_update_time_window guarded_update_enable_status : dev.

Lemma keeps_bind_res {S A B} (I : S -> Prop) (R : A -> Prop) (m : M S A) (k : A -> M S B) :
  keeps I m -> (forall s, R (res m s)) -> (forall a, R a -> keeps I (k a)) -> keeps I (bind m k).
Proof. intros Hm HR Hk s Hs. rewrite post_bind. apply Hk; [apply HR|by apply Hm]. Qed.

(** Whatever state is asked for, the limit that is written is in the range. *)
Lemma guarded_rapl_set state control : keeps guarded (rapl_set_curr_state state control).
Proof.
  unfold rapl_set_curr_state. apply guarded_dget. intros d Hd. apply guarded_rget. intros r Hp Hc.
  unfold id. destruct (bios_locked r); [guard_dev|].
  assert (max_state d = lo /\ min_state d = hi) as [Hmx Hmn] by (by destruct Hd as (_ & _ & ? & ?)).
  rewrite Hmx, Hmn. rewrite Hp. cbv zeta.
  apply (keeps_bind_res _ (fun v => lo <= v <= hi)).
  - guard_dev.
  - intros s. repeat destr_match; rewrite ?res_bind; unfold res, ret; simpl; zbool; lia.
  - intros v Hv. apply keeps_bind; [by apply guarded_update_pl1|intros e]. guard_dev.
Qed.
#[local] Hint Resolve guarded_rapl_set : dev.
Lemma guarded_kind {A} (k : Kind -> M Dv A) :
  (forall r, keeps guarded (k (RaplDev r))) -> keeps guarded (bind (dget kind) k).
Proof.
  intros Hk. apply guarded_dget. intros d [Hd _]. destruct (kind d); try done.
Qed.
Lemma guarded_set_curr_state state control : keeps guarded (set_curr_state state control).
Proof. apply guarded_kind. intros r. auto with dev. Qed.
#[local] Hint Resolve guarded_set_curr_state : dev.
Lemma guarded_set_curr_state_raw state control : keeps guarded (set_curr_state_raw state control).
Proof. apply guarded_kind. intros r. auto with dev. Qed.
Lemma guarded_get_curr_state : keeps guarded get_curr_state.
Proof. unfold get_curr_state. guard_dev. Qed.
Lemma guarded_get_max_state : keeps guarded get_max_state.
Proof. unfold get_max_state. guard_dev. Qed.
Lemma guarded_read_pl1 : keeps guarded rapl_read_pl1.
Proof. unfold rapl_read_pl1, read_or_error. guard_dev. Qed.
#[local] Hint Resolve guarded_set_curr_state_raw guarded_get_curr_state guarded_get_max_state
  guarded_read_pl1 : dev.
Lemma guarded_get_curr_state_again : keeps guarded get_curr_state_again.
Proof. unfold get_curr_state_again. guard_dev. Qed.
Lemma guarded_in_min_state : keeps guarded in_min_state.
Proof. unfold in_min_state. guard_dev. Qed.
Lemma guarded_cmp state : keeps guarded (cmp_current_state state).
Proof. unfold cmp_current_state. guard_dev. Qed.
Lemma guarded_clamp v : keeps guarded (clamp_output v).
Proof. unfold clamp_output. guard_dev. Qed.
#[local] Hint Resolve guarded_get_curr_state_again guarded_in_min_state guarded_cmp guarded_clamp : dev.
Lemma guarded_controller state low high : keeps guarded (thd_cdev_exponential_controller state low high).
Proof. unfold thd_cdev_exponential_controller. guard_dev. Qed.
#[local] Hint Resolve guarded_controller : dev.
Lemma guarded_apply_plan r state pid p : keeps guarded (apply_plan r state pid p).
Proof. unfold apply_plan. guard_dev. Qed.
Lemma guarded_control_begin : keeps guarded control_begin.
Proof. unfold control_begin. guard_dev. Qed.
Lemma guarded_activate r tm : keeps guarded (activate r tm).
Proof. unfold activate. guard_dev. Qed.
Lemma guarded_deactivate r : keeps guarded (deactivate r).
Proof. unfold deactivate. guard_dev. Qed.
#[local] Hint Resolve guarded_apply_plan guarded_control_begin guarded_activate guarded_deactivate : dev.
Lemma guarded_set_state r state pid : keeps guarded (thd_cdev_set_state r state pid).
Proof. unfold thd_cdev_set_state, carry_out. guard_dev. Qed.
#[local] Hint Resolve guarded_set_state : dev.
Lemma guarded_run_call c : keeps guarded (run_call c).
Proof. destruct c; unfold run_call, thd_cdev_set_min_state; guard_dev. Qed.
End PowerLimits.

(** C9: The device of the MiniBook's policy: PPCC gives the range, the limit of power
    on is not kept.  Whatever the trips ask for, in any order, and whatever sysfs and
    the energy counters answer, every power limit that is written is between the
    minimum and the maximum. *)
Theorem power_limit_in_range calls s r : kind (snd s) = RaplDev r -> power_on_constraint_0_pwr r = 0 ->
  0 <= max_state (snd s) -> max_state (snd s) <= min_state (snd s) < 2 ^ 32 -> io_writes (fst s) = [] ->
  Forall (within (limit_path (base_path (snd s)) (constraint_index r)) (max_state (snd s)) (min_state (snd s)))
    (io_writes (fst (post (mfor calls run_call) s))).
Proof.
  intros Hk Hp Hlo Hhi Hw.
  apply (keeps_mfor (guarded (base_path (snd s)) (constraint_index r) (max_state (snd s)) (min_state (snd s)))).
  - intros c _. by apply guarded_run_call.
  - split; [|by rewrite Hw]. unfold ranged. by rewrite Hk.
Qed.

(** ** The exponential controller *)

(** An activation of a generic device. *)
Definition raise (d : Cdev) : Cdev :=
  let (new, d) := increase (thd_clamp_state_min (curr_state d) 0 0 d) d in
  d <| trend_increase := true |> <| curr_state := thd_clamp_state_max new 0 0 d |>.

Lemma post_dset f (s : Dv) : post (dset f) s = (fst s, f (snd s)).
Proof. done. Qed.
Lemma post_dstep {A} (f : Cdev -> A * Cdev) (s : Dv) : post (dstep f) s = (fst s, snd (f (snd s))).
Proof. unfold post, dstep. by destruct (f (snd s)). Qed.
Lemma res_dstep {A} (f : Cdev -> A * Cdev) (s : Dv) : res (dstep f) s = fst (f (snd s)).
Proof. unfold res, dstep. by destruct (f (snd s)). Qed.
(** A part that only reads. *)
Lemma post_pure {A B} (m : M Dv A) a (k : A -> M Dv B) s : m s = (a, s) -> post (bind m k) s = post (k a) s.
Proof. intros Hm. unfold post, bind. by rewrite Hm. Qed.
Lemma attr_write_snd name v s : snd (post (attr_write name v) s) = snd s.
Proof. exact (same_attr_write id name v s). Qed.
Lemma gen_post state control s : kind (snd s) = GenSysfs ->
  snd (post (set_curr_state state control) s) = snd s <| curr_state := state |>.
Proof.
  intros Hk. unfold set_curr_state. rewrite post_dget, Hk. unfold gen_set_curr_state.
  rewrite post_dget, post_bind, post_dset. done.
Qed.
Lemma gen_get_curr_state s : kind (snd s) = GenSysfs -> get_curr_state s = (curr_state (snd s), s).
Proof. intros Hk. unfold get_curr_state. rewrite bind_dget. unfold id. by rewrite Hk. Qed.
Lemma gen_get_curr_state_again s : kind (snd s) = GenSysfs -> get_curr_state_again s = (curr_state (snd s), s).
Proof. intros Hk. unfold get_curr_state_again. rewrite bind_dget. unfold id. by rewrite Hk. Qed.
Lemma gen_get_max_state s : kind (snd s) = GenSysfs -> get_max_state s = (max_state (snd s), s).
Proof. intros Hk. unfold get_max_state. rewrite bind_dget. unfold id. by rewrite Hk. Qed.

Lemma controller_raise s : kind (snd s) = GenSysfs ->
  snd (post (thd_cdev_exponential_controller true 0 0) s) = raise (snd s).
Proof.
  intros Hk. unfold thd_cdev_exponential_controller.
  erewrite post_pure by (by apply gen_get_max_state). rewrite post_bind.
  set (body := bind get_curr_state_again _).
  assert (snd (post body s) = raise (snd s)) as Hb.
  { subst body. erewrite post_pure by (by apply gen_get_curr_state_again). rewrite post_dget. cbv beta.
    unfold id, raise. set (c := thd_clamp_state_min _ _ _ _).
    assert (kind (snd (increase c (snd s))) = GenSysfs) as Hki by (unfold increase; by destruct trend_increase).
    rewrite post_bind, post_dstep, res_dstep, post_dget. destruct (increase c (snd s)) as [new d'].
    cbv zeta. rewrite post_bind, post_dset. by rewrite gen_post. }
  assert (kind (raise (snd s)) = GenSysfs) as Hkr by (unfold raise, increase; by destruct trend_increase).
  erewrite post_pure; [exact Hb|]. apply gen_get_curr_state. by rewrite Hb.
Qed.

Fixpoint raises (n : nat) (d : Cdev) : Cdev := match n with O => d | S n => raises n (raise d) end.

Lemma raises_gen n s : kind (snd s) = GenSysfs ->
  snd (post (mfor (repeat tt n) (fun _ => thd_cdev_exponential_controller true 0 0)) s) = raises n (snd s).
Proof.
  revert s. induction n as [|n IH]; intros s Hk; simpl; [done|]. rewrite post_bind.
  pose proof (controller_raise s Hk) as Hr. rewrite IH; [by rewrite Hr|]. rewrite Hr.
  unfold raise, increase. by destruct trend_increase.
Qed.

(** The clamps of a device whose states go up. *)
Lemma clamp_low v d : min_state d <= max_state d -> thd_clamp_state_min v 0 0 d = Z.max (min_state d) v.
Proof.
  intros Hm. unfold thd_clamp_state_min. rewrite (proj2 (Z.leb_le _ _) Hm). simpl.
  destruct (Z.ltb_spec v (min_state d)); lia.
Qed.
Lemma clamp_high v d : min_state d <= max_state d -> thd_clamp_state_max v 0 0 d = Z.min (max_state d) v.
Proof.
  intros Hm. unfold thd_clamp_state_max. rewrite (proj2 (Z.leb_le _ _) Hm). simpl.
  destruct (Z.ltb_spec (max_state d) v); lia.
Qed.

(** A device on its way up: [k] consecutive activations after the first, which set [b]. *)
Record climbing (lo hi inc step b : Z) (k : Z) (d : Cdev) : Prop := {
  cl_min : min_state d = lo; cl_max : max_state d = hi; cl_inc : inc_val d = inc;
  cl_step : step_up d = step; cl_trend : trend_increase d = true; cl_pow : curr_pow d = k;
  cl_base : 0 < k -> base_pow_state d = b;
  cl_curr : curr_state d = if k =? 0 then b else Z.min hi (b + 2 ^ k * step)
}.

Lemma raise_climbs lo hi inc step b k d : - 2 ^ 31 <= lo -> lo <= b <= hi -> 0 < step -> 0 <= inc ->
  hi + 2 ^ 20 * step < 2 ^ 31 -> 0 <= k <= 20 -> climbing lo hi inc step b k d ->
  climbing lo hi inc step b (Z.min 20 (k + 1)) (raise d).
Proof.
  intros Hlo Hb Hs Hi Hov Hk [H1 H2 H3 H4 H5 H6 H7 H8].
  assert (lo <= hi) as Hr by lia. set (k' := Z.min 20 (k + 1)).
  assert (0 < k' <= 20) as Hk' by lia.
  assert (0 < 2 ^ k' <= 2 ^ 20) as Hp by (split; [lia|apply Z.pow_le_mono_r; lia]).
  assert (0 < 2 ^ k) as Hp' by lia.
  assert (lo <= curr_state d <= hi) as Hc by (rewrite H8; destruct (Z.eqb_spec k 0); nia).
  unfold raise, increase. rewrite clamp_low by lia. rewrite Z.max_r by lia. rewrite H5, H6.
  set (base := if k =? 0 then curr_state d else base_pow_state d).
  assert (base = b) as Hbase.
  { subst base. destruct (Z.eqb_spec k 0) as [->|Hn]; [by rewrite H8|apply H7; lia]. }
  rewrite Hbase. unfold default_max_exponent.
  assert ((if k <? 20 then k + 1 else k) = k') as -> by (destruct (Z.ltb_spec k 20); lia). clearbody k'.
  rewrite H4, H3. rewrite (sint_id 32) by nia.
  assert (((inc <? 0) && (b <? b + 2 ^ k' * step)
    || (0 <? inc) && (b + 2 ^ k' * step <? b)) = false) as ->.
  { rewrite (proj2 (Z.ltb_ge inc 0)) by lia. rewrite (proj2 (Z.ltb_ge (b + _) b)) by nia.
    by rewrite andb_false_r. }
  cbv zeta. constructor; simpl; try done.
  rewrite clamp_high by (simpl; lia). simpl. rewrite H2. by destruct (Z.eqb_spec k' 0); [lia|].
Qed.

Lemma climbing_raises lo hi inc step b n k d : - 2 ^ 31 <= lo -> lo <= b <= hi -> 0 < step -> 0 <= inc ->
  hi + 2 ^ 20 * step < 2 ^ 31 -> 0 <= k <= 20 -> climbing lo hi inc step b k d ->
  climbing lo hi inc step b (Z.min 20 (k + Z.of_nat n)) (raises n d).
Proof.
  intros Hlo Hb Hs Hi Hov. revert k d. induction n as [|n IH]; intros k d Hk Hc.
  - by rewrite Z.add_0_r, Z.min_r by lia.
  - simpl. replace (Z.min 20 (k + Z.of_nat (S n))) with (Z.min 20 (Z.min 20 (k + 1) + Z.of_nat n)) by lia.
    apply IH; [lia|]. by apply raise_climbs.
Qed.

(** C20: A device of the generic kind whose states go up, in its lowest state, and
    activations in a row by the exponential controller: the first goes up one step; [n]
    more leave the state [2 ^ min n 20] steps above that one, cut at the highest, which
    is reached exactly when the range is at most [2 ^ min n 20 + 1] steps.  The highest
    state and [2 ^ 20] steps are below 2^31. *)
Theorem controller_climbs n s lo hi step : kind (snd s) = GenSysfs -> 0 <= inc_val (snd s) ->
  trend_increase (snd s) = false -> step_up (snd s) = step -> 0 < step ->
  min_state (snd s) = lo -> max_state (snd s) = hi -> curr_state (snd s) = lo -> - 2 ^ 31 <= lo <= hi ->
  hi + 2 ^ 20 * step < 2 ^ 31 ->
  let after n := curr_state (snd (post (mfor (repeat tt n) (fun _ => thd_cdev_exponential_controller true 0 0)) s)) in
  after 1%nat = Z.min hi (lo + step) /\
  ((1 <= n)%nat ->
   after (S n) = Z.min hi (lo + step + 2 ^ Z.min (Z.of_nat n) 20 * step) /\
   (after (S n) = hi <-> hi - lo <= (2 ^ Z.min (Z.of_nat n) 20 + 1) * step)).
Proof.
  intros Hk Hi Ht Hs Hpos Hmin Hmax Hc Hb Hov after.
  assert (climbing lo hi (inc_val (snd s)) step (Z.min hi (lo + step)) 0 (raise (snd s))) as Hcl.
  { unfold raise, increase. rewrite clamp_low by lia. rewrite Z.max_r by lia. rewrite Ht, Hs, Hc.
    rewrite sint_id by lia. constructor; simpl; try done.
    rewrite clamp_high by (simpl; lia). simpl. by rewrite Hmax. }
  unfold after. rewrite !raises_gen by done. cbn [raises]. split; [exact (cl_curr _ _ _ _ _ _ _ Hcl)|].
  intros Hn. apply (climbing_raises _ _ _ _ _ n) in Hcl; [|lia..].
  destruct Hcl as [_ _ _ _ _ _ _ Hcl]. rewrite Z.add_0_l, (Z.min_comm 20) in Hcl.
  rewrite (proj2 (Z.eqb_neq _ _)) in Hcl by lia. rewrite Hcl.
  assert (0 < 2 ^ Z.min (Z.of_nat n) 20) by lia. split; nia.
Qed.

(** The check for an overflow looks at [inc_val] only.  RAPL without sane limits
    steps by [inc_dec_val]: the fourteenth activation in a row asks for more power than
    the first. *)
Theorem controller_overflow d : trend_increase d = true -> inc_val d = 0 ->
  inc_dec_val d = - rapl_min_default_step -> curr_pow d = 12 -> 0 <= base_pow_state d <= rapl_max_sane_phy_max ->
  fst (increase (curr_state d) d) = base_pow_state d + 198967296.
Proof.
  intros Ht Hi Hs Hp Hb. unfold increase, step_up, default_max_exponent. rewrite Ht, Hi, Hs, Hp. simpl.
  unfold rapl_max_sane_phy_max in Hb. unfold sint, wrap. set (v := base_pow_state d + _).
  assert (v mod 2 ^ 32 = base_pow_state d + 198967296) as ->.
  { symmetry. apply (Z.mod_unique _ _ (-1)); [lia|]. subst v. unfold rapl_min_default_step. lia. }
  rewrite (proj2 (Z.ltb_lt _ _)) by lia. done.
Qed.
End Devices.

(** ** Witnesses *)

(** A world whose clock goes on by ten seconds per call, without any file. *)
Module Quiet.
#[local] Instance quiet_os : ThdOs := {
  os_time n := 1000 + 10 * Z.of_nat n; os_stat _ _ := false; os_read _ _ := inl (-2);
  os_write _ _ _ := 1; os_unset _ := 0; os_thread _ := true;
  os_writable _ _ := false; os_link _ _ := None; os_rundir := "/var/run/thermald"; os_dir _ _ := None;
  os_confdir := "/etc/thermald"; os_owner _ _ := None; os_lstat _ _ := None; os_xml _ _ := None; os_uname _ := ""; os_size _ _ := 0;
  os_libxml := Texts.text_xml
}.

Fixpoint insert {A} (lt : A -> A -> bool) (x : A) (l : list A) : list A :=
  match l with [] => [x] | y :: l' => if lt y x then y :: insert lt x l' else x :: l end.
Fixpoint insertion_sort {A} (lt : A -> A -> bool) (l : list A) : list A :=
  match l with [] => [] | x :: l => insert lt x (insertion_sort lt l) end.

Lemma insert_perm {A} (lt : A -> A -> bool) x l : Permutation (insert lt x l) (x :: l).
Proof.
  induction l as [|y l IH]; simpl; [done|]. destruct (lt y x); [|done]. rewrite IH. apply perm_swap.
Qed.
Lemma insertion_sort_perm A (lt : A -> A -> bool) l : Permutation (insertion_sort lt l) l.
Proof. induction l as [|x l IH]; simpl; [done|]. by rewrite insert_perm, IH. Qed.
Lemma insertion_sort_sorted A (lt : A -> A -> bool) (k : A -> Z) l :
  (forall a b, lt a b = (k a <? k b)) -> StronglySorted (fun a b => k a <= k b) (insertion_sort lt l).
Proof.
  intros Hlt. induction l as [|x l IH]; simpl; [constructor|].
  induction IH as [|y l' Hs IH' Hf]; simpl; [by repeat constructor|]. rewrite Hlt.
  destruct (Z.ltb_spec (k y) (k x)) as [Hy|Hy].
  - constructor; [done|]. rewrite insert_perm. constructor; [lia|done].
  - constructor; [by constructor|]. constructor; [lia|]. eapply Forall_impl; [exact Hf|simpl; lia].
Qed.
#[local] Instance quiet_sort : StdSort := {
  std_sort := @insertion_sort; std_sort_perm := insertion_sort_perm; std_sort_sorted := insertion_sort_sorted
}.

Definition world0 : World := Wld 0 [] (Mtr false [] 0 false) [] 0.
Definition fan : Cdev :=
  (cdev_new GenSysfs 0 "/sys/fan")%prog <| max_state := 10 |>.

Definition ask_state (zone : Z) (target : Z) : Request :=
  Req 50000 60000 false zone 0 true target false false false 0 0.
Definition both : Dv :=
  post (mfor [SetState (ask_state 1 5) true pid_new; SetState (ask_state 2 8) true pid_new] run_call) (world0, fan).

Lemma limits_distinct_witness :
  limits both = [Limit 1 0 true 5 0 0 false; Limit 2 0 true 8 0 0 false] /\ NoDup (key <$> limits both).
Proof. split; [by vm_compute|]. by apply (limits_distinct _ (world0, fan)). Defined.

Lemma release_order_witness :
  let release r := post (thd_cdev_set_state r false pid_new) in
  curr_state (snd both) = 8 /\
  curr_state (snd (release (ask_state 2 0) (release (ask_state 1 0) both))) = 5.
Proof.
  split; [by vm_compute|].
  by apply (release_order (ask_state 1 0) (ask_state 2 0) pid_new both (Limit 1 0 true 5 0 0 false)
    (Limit 2 0 true 8 0 0 false)); vm_compute.
Defined.

(** Limits of 8 and 17 watts. *)
Definition package : Cdev :=
  (cdev_new (RaplDev (rapl_new "rapl_controller_mmio")) 1 "/sys/rapl/")%prog
    <| max_state := 8000000 |> <| min_state := 17000000 |> <| curr_state := 17000000 |>
    <| inc_val := -1000000 |> <| dec_val := -500000 |>.
Definition hot_request (zone : Z) : Request :=
  Req 50000 60000 false zone 0 false 0 false false false 0 0.
Definition heating : list Call := repeat (SetState (hot_request 1) true pid_new) 6.

Lemma power_limit_in_range_witness :
  let s' := post (mfor heating run_call) (world0, package) in
  curr_state (snd s') = 8000000 /\ In ("/sys/rapl/constraint_0_power_limit_uw", "12000000", 1) (io_writes (fst s')) /\
  Forall (within "/sys/rapl/constraint_0_power_limit_uw" 8000000 17000000) (io_writes (fst s')).
Proof.
  split; [by vm_compute|]. split; [vm_compute; tauto|].
  by apply (power_limit_in_range heating (world0, package) (rapl_new "rapl_controller_mmio")).
Defined.

Lemma controller_climbs_witness :
  let after n := curr_state (snd (post (mfor (repeat tt n) (fun _ => thd_cdev_exponential_controller true 0 0))
                                    (world0, fan))) in
  after 4%nat = 9 /\ after 5%nat = 10.
Proof.
  split.
  - destruct (controller_climbs 3 (world0, fan) 0 10 1) as [_ H]; [by vm_compute..|].
    destruct H as [-> _]; [lia|done].
  - destruct (controller_climbs 4 (world0, fan) 0 10 1) as [_ H]; [by vm_compute..|].
    destruct H as [-> _]; [lia|done].
Defined.

Definition stuck : Cdev :=
  (package <| trend_increase := true |> <| inc_val := 0 |> <| inc_dec_val := -500000 |>
    <| curr_pow := 12 |> <| base_pow_state := 10000000 |> <| curr_state := 10000000 |>)%prog.
Lemma controller_overflow_witness : fst (increase (curr_state stuck) stuck) = 208967296.
Proof.
  transitivity (base_pow_state stuck + 198967296); [|reflexivity].
  by apply (controller_overflow stuck); vm_compute.
Defined.
End Quiet.
