(* ===== verification/CpuFreq.v ===== *)
(** * The thermal daemon: devices that look for their files

    The search for the frequencies of the processor (init of
    thd_cdev_cpufreq.cpp), for the domain of the memory (thd_cdev_rapl_dram.cpp)
    and for the backlight (the constructor of thd_cdev_backlight.cpp). *)

From Stdlib Require Import ZArith Lia Ascii String Sorted.
From stdpp Require Import base list option strings pretty.
From S2P Require Import Prelude ThdCommon ThdIo Gddv Cdev.

#[local] Open Scope Z_scope.
#[local] Open Scope prog_scope.

(** ** Frequencies *)

(** [std::istringstream (s) >> n] into an [unsigned int]. *)
Definition stream_uint (s : string) : Z :=
  match signed_number s with
  | Some z => if Z.abs z <? 2 ^ 32 then wrap 32 z else 2 ^ 32 - 1
  | None => 0
  end.

(** The words of a text: what [f >> token] gives until the end of the file. *)
Fixpoint words_from (word : string) (s : string) : list string :=
  match s with
  | EmptyString => match word with EmptyString => [] | _ => [word] end
  | String c s =>
      if is_blank c then match word with EmptyString => words_from EmptyString s | _ => word :: words_from EmptyString s end
      else words_from (word +:+ String c EmptyString) s
  end.

(** The processors of a range like 0-3; [None]: an error. *)
Definition cpu_range (count_str : string) : option (Z * Z) :=
  p1 ← String.index 0 "-" count_str;
  let token1 := String.substring 0 p1 count_str in
  let token2 := drop_string (p1 + 1) count_str in
  if String.eqb token1 EmptyString || String.eqb token2 EmptyString then None
  else
    let first := stream_int token1 in
    let last := stream_int token2 in
    if (last <=? 0) || (last <? first) || (63 <? last) then None else Some (first, last).

(** The frequencies within the limits, in the order [add_frequency] makes. *)
Definition add_allowed (scaling_min scaling_max : Z) (l : list Z) (word : string) : list Z :=
  let freq_int := stream_uint word in
  if (scaling_min <=? freq_int) && (freq_int <=? scaling_max) then add_frequency (sint 32 freq_int) l else l.
Definition allowed (scaling_min scaling_max : Z) (words : list string) : list Z :=
  fold_left (add_allowed scaling_min scaling_max) words [].

Section Search.
Context `{ThdOs} `{StdSort}.

(** The lowest or highest limit of the processors from [i] on; a file that cannot be
    read gives whatever the variable held. *)
Fixpoint scaling (what : string) (better : Z -> Z -> bool) (n : nat) (i freq : Z) : M Dv Z :=
  match n with
  | O => ret freq
  | S n =>
      let name := "cpu" +:+ pretty i +:+ what in
      e <- attr_exists name ;;
      if negb e then scaling what better n (i + 1) freq
      else
        r <- attr_read name ;;
        u <- io unset ;;
        let freq_int := wrap 32 (default u (snd r)) in
        scaling what better n (i + 1)
          (if (fst r <? 0) || (freq =? 0) || better freq_int freq then freq_int else freq)
  end.

(** [false]: an error. *)
Definition cpufreq_init : M Dv bool :=
  e <- attr_exists "present" ;;
  if negb e then ret false
  else
    r <- attr_read_string "present" ;;
    match cpu_range (default EmptyString (snd r)) with
    | None => ret false
    | Some (first, last) =>
        e <- attr_exists "cpu0/cpufreq/scaling_available_frequencies" ;;
        if negb e then ret false
        else
          f <- io (ask (fun n => os_read n "/sys/devices/system/cpu/cpu0/cpufreq/scaling_available_frequencies")) ;;
          match f with
          | inl _ => ret false
          | inr text =>
              let n := Z.to_nat (last - first + 1) in
              low <- scaling "/cpufreq/scaling_min_freq" Z.ltb n first 0 ;;
              high <- scaling "/cpufreq/scaling_max_freq" Z.gtb n first 0 ;;
              let freqs := allowed low high (words_from EmptyString text) in
              dset (fun d => d <| kind := CpuFreq first last freqs |>
                               <| max_state := match freqs with [] => max_state d | _ => Z.of_nat (length freqs) - 1 end |>) ;;;
              ret true
          end
    end.
Definition cpufreq_update : M Dv bool := cpufreq_init.
Definition cpufreq_new (_index : Z) : Cdev := cdev_new (CpuFreq 0 0 []) _index "/sys/devices/system/cpu/".

(** ** The memory *)

Definition rapl_base : string := "/sys/devices/virtual/powercap/intel-rapl/intel-rapl:0/".
Definition rapl_dram_new (_index : Z) : Cdev := cdev_new (RaplDev (rapl_new "TMEM.D0")) _index rapl_base.
(** The first directory whose name is dram. *)
Fixpoint find_dram (names : list string) : M Dv (option string) :=
  match names with
  | [] => ret None
  | n :: names =>
      let path := rapl_base +:+ n +:+ "/name" in
      e <- io (fs_exists path) ;;
      if negb e then find_dram names
      else
        r <- io (fs_read_string path) ;;
        if (fst r <? 0) || negb (String.eqb (default EmptyString (snd r)) "dram") then find_dram names
        else ret (Some (rapl_base +:+ n +:+ "/"))
  end.
Definition rapl_dram_update (ppcc : option ppcc_t) (trusted : bool) : M Dv bool :=
  l <- io (ask (fun n => os_dir n rapl_base)) ;;
  match l with
  | None => ret false
  | Some names =>
      p <- find_dram names ;;
      match p with
      | None => ret false
      | Some path_name => dset (fun d => d <| base_path := path_name |>) ;;; rapl_update ppcc trusted
      end
  end.

(** ** The backlight *)

Definition backlight_devices : list string :=
  ["/sys/class/backlight/intel_backlight/"; "/sys/class/backlight/acpi_video0/";
   "/sys/class/leds/lcd-backlight/"; "/sys/class/backlight/lcd-backlight/"]%string.
(** The constructor: the first device that can be updated, the last one when none can. *)
Fixpoint try_backlights (l : list string) : M Dv unit :=
  match l with
  | [] => ret tt
  | p :: l =>
      dset (fun d => d <| base_path := p |>) ;;;
      ok <- backlight_update ;;
      if ok : bool then ret tt else try_backlights l
  end.
Definition backlight_new (_index : Z) : Cdev := cdev_new (Backlight 0 0) _index "/sys/class/backlight/intel_backlight/".
Definition backlight_found : M Dv bool := try_backlights backlight_devices ;;; backlight_update.
End Search.

(** ** The order of the frequencies *)

Definition printed (l : list Z) : list string := pretty <$> l.
Definition freq_ok (f : Z) : Prop := 0 < f < 2 ^ 31.
Definition within_limits (lo hi f : Z) : Prop := lo <= f <= hi.

Lemma stream_uint_pretty f : freq_ok f -> stream_uint (pretty f) = f /\ sint 32 f = f.
Proof.
  intros Hf. unfold stream_uint, freq_ok in *. rewrite signed_number_pretty.
  destruct (Z.ltb_spec (Z.abs f) (2 ^ 32)); [|lia]. split; [apply wrap_small; lia|apply sint_id; lia].
Qed.

(** What the fold does with a series of frequencies that are all below, or all above, the
    highest one so far. *)
Lemma allowed_from (lo hi : Z) (l : list Z) acc : Forall freq_ok l ->
  fold_left (add_allowed lo hi) (printed l) acc =
  fold_left (fun l f => add_frequency f l) (filter (within_limits lo hi) l) acc.
Proof.
  intros Hl. revert acc. induction Hl as [|f l Hf Hl IH]; intros acc; [done|]. simpl. unfold add_allowed at 2.
  destruct (stream_uint_pretty f Hf) as [-> ->]. rewrite filter_cons. unfold within_limits.
  destruct (Z.leb_spec lo f), (Z.leb_spec f hi); simpl; rewrite IH;
    case_decide; [done|lia|lia|done|lia|done|lia|done].
Qed.
Lemma add_descending l x acc : StronglySorted Z.gt (x :: l) ->
  fold_left (fun l f => add_frequency f l) l (x :: acc) = x :: acc ++ l.
Proof.
  revert acc. induction l as [|f l IH]; intros acc Hs; simpl; [by rewrite app_nil_r|].
  apply StronglySorted_inv in Hs as [Hs Hx]. inversion Hx as [|? ? Hxf Hxl]; subst.
  destruct (Z.ltb_spec f x); [|lia]. change ((x :: acc) ++ [f]) with (x :: (acc ++ [f])).
  rewrite IH; [by rewrite <- app_assoc|]. constructor; [by inversion Hs|done].
Qed.
Lemma add_ascending l acc : StronglySorted Z.lt l -> (forall x y, head acc = Some x -> y ∈ l -> x < y) ->
  fold_left (fun l f => add_frequency f l) l acc = rev l ++ acc.
Proof.
  revert acc. induction l as [|f l IH]; intros acc Hs Ha; [done|]. simpl.
  apply StronglySorted_inv in Hs as [Hs Hf]. rewrite <- app_assoc. simpl.
  assert (add_frequency f acc = f :: acc) as ->.
  { destruct acc as [|x acc]; [done|]. simpl. specialize (Ha x f eq_refl ltac:(left)).
    destruct (Z.ltb_spec f x); [lia|done]. }
  apply IH; [done|]. intros x y [= <-] Hy. by eapply Forall_forall in Hf.
Qed.

(** Whether the kernel lists the frequencies from the highest down or from the lowest up,
    the states of the device are the allowed ones from the highest down: one more step of cooling
    is always the next lower frequency. *)
Theorem frequencies_descend lo hi (l : list Z) : Forall freq_ok l ->
  (StronglySorted Z.gt l -> allowed lo hi (printed l) = filter (within_limits lo hi) l) /\
  (StronglySorted Z.lt l -> allowed lo hi (printed l) = rev (filter (within_limits lo hi) l)).
Proof.
  intros Hl. unfold allowed. rewrite (allowed_from lo hi l [] Hl).
  assert (forall R, StronglySorted R l -> StronglySorted R (filter (within_limits lo hi) l)) as Hf.
  { intros R. clear Hl. induction 1 as [|x l Hs IH Hx]; [constructor|]. rewrite filter_cons.
    case_decide; [|done]. constructor; [done|]. apply Forall_forall. intros y [_ Hy]%list_elem_of_filter.
    by eapply Forall_forall in Hx. }
  split; intros Hs%Hf.
  - destruct (filter _ l) as [|x l']; [done|]. simpl. by apply add_descending.
  - rewrite add_ascending, app_nil_r; [done|done|]. done.
Qed.

(** The words of the file in between: frequencies with blanks. *)
Example two_of_three : allowed 1000000 3000000 (words_from EmptyString "800000 1600000 2400000 ") = [2400000; 1600000].
Proof. vm_compute. done. Qed.
Lemma frequencies_descend_witness :
  allowed 1000000 3000000 (printed [800000; 1600000; 2400000]) = [2400000; 1600000] /\
  allowed 1000000 3000000 (printed [2400000; 1600000; 800000]) = [2400000; 1600000].
Proof.
  split.
  - by apply (frequencies_descend 1000000 3000000 [800000; 1600000; 2400000]); repeat constructor.
  - by apply (frequencies_descend 1000000 3000000 [2400000; 1600000; 800000]); repeat constructor.
Defined.
