(* ===== verification/Sensor.v ===== *)
(** * The thermal daemon: sensors

    thd_sensor.cpp, thd_sensor_virtual.cpp and thd_sensor_rapl_power.cpp.  The
    devices and the sensors are objects that zones and trips point to: they are
    kept in the lists of the engine, a pointer is an index. *)

From Stdlib Require Import ZArith Lia Ascii String SpecFloat.
From stdpp Require Import base list option strings pretty.
From S2P Require Import Prelude Floats ThdCommon Xml ThdIo Pid Cdev.

#[local] Open Scope Z_scope.
#[local] Open Scope prog_scope.

(** ** Data *)

(** [link_sensor_t]; without a sensor it is a constant. *)
Record link_sensor_t := Link {
  link_sensor : option nat; link_coeff : float; link_offset : float; prev_avg : float;
  power_sensor : bool
}.

(** [cthd_sensor_virtual]; the polling table has pairs of a temperature and a
    period in seconds. *)
Record Virtual := mkVirtual {
  link_sensors : list link_sensor_t; multiplier : float; virtual_offset : float;
  polling : bool; stop_polling : bool; last_temp : Z; polling_period : Z;
  polling_table : list (Z * Z)
}.
Definition Virtual_again (v : Virtual) : Virtual := mkVirtual (link_sensors v) (multiplier v)
  (virtual_offset v) (polling v) (stop_polling v) (last_temp v) (polling_period v) (polling_table v).
#[export] Instance put_link_sensors : Field link_sensors := ltac:(field_of Virtual_again link_sensors).
#[export] Instance put_multiplier : Field multiplier := ltac:(field_of Virtual_again multiplier).
#[export] Instance put_virtual_offset : Field virtual_offset := ltac:(field_of Virtual_again virtual_offset).
#[export] Instance put_polling : Field polling := ltac:(field_of Virtual_again polling).
#[export] Instance put_stop_polling : Field stop_polling := ltac:(field_of Virtual_again stop_polling).
#[export] Instance put_last_temp : Field last_temp := ltac:(field_of Virtual_again last_temp).
#[export] Instance put_polling_period : Field polling_period := ltac:(field_of Virtual_again polling_period).
#[export] Instance put_polling_table : Field polling_table := ltac:(field_of Virtual_again polling_table).

Inductive SensorKind := ThermalSysfs | RawSensor | VirtualSensor (v : Virtual) | RaplPower.

(** [cthd_sensor]. *)
Record Sensor := mkSensor {
  sensor_index : Z; sensor_kind : SensorKind; sensor_path : string; sensor_type : string;
  async_capable : bool; scale : Z
}.
Definition Sensor_again (s : Sensor) : Sensor := mkSensor (sensor_index s) (sensor_kind s)
  (sensor_path s) (sensor_type s) (async_capable s) (scale s).
#[export] Instance put_sensor_kind : Field sensor_kind := ltac:(field_of Sensor_again sensor_kind).
#[export] Instance put_sensor_path : Field sensor_path := ltac:(field_of Sensor_again sensor_path).
#[export] Instance put_sensor_type : Field sensor_type := ltac:(field_of Sensor_again sensor_type).
#[export] Instance put_async_capable : Field async_capable := ltac:(field_of Sensor_again async_capable).

(** What zones and trips share: the world, the devices, the sensors, and of the
    engine the interval of the polling mode, the option to ignore critical trips,
    the preference of the user and whether the kernel is a real-time one. *)
Inductive preference_t := PREF_ENERGY_CONSERVE | PREF_PERFORMANCE | PREF_DISABLED | PREF_OTHER (n : Z).
#[export] Instance preference_dec : EqDecision preference_t.
Proof. solve_decision. Defined.
Record Plant := mkPlant {
  world : World; plant_cdevs : list Cdev; plant_sensors : list Sensor;
  poll_interval_sec : Z; ignore_critical : bool; preference : preference_t;
  rt_kernel : bool
}.
Definition Plant_again (p : Plant) : Plant := mkPlant (world p) (plant_cdevs p) (plant_sensors p)
  (poll_interval_sec p) (ignore_critical p) (preference p) (rt_kernel p).
#[export] Instance put_world : Field world := ltac:(field_of Plant_again world).
#[export] Instance put_plant_cdevs : Field plant_cdevs := ltac:(field_of Plant_again plant_cdevs).
#[export] Instance put_plant_sensors : Field plant_sensors := ltac:(field_of Plant_again plant_sensors).
#[export] Instance put_poll_interval_sec : Field poll_interval_sec := ltac:(field_of Plant_again poll_interval_sec).
#[export] Instance put_rt_kernel : Field rt_kernel := ltac:(field_of Plant_again rt_kernel).
#[export] Instance put_preference : Field preference := ltac:(field_of Plant_again preference).

(** ** Access *)

Definition on_world {A} (m : M World A) : M Plant A := fun p =>
  let (a, w) := m (world p) in (a, p <| world := w |>).

(** The device [i]; [a] stands for the result of a call through a null pointer. *)
Definition on_cdev {A} (a : A) (i : nat) (m : M Dv A) : M Plant A := fun p =>
  match plant_cdevs p !! i with
  | Some d =>
      let (b, s) := m (world p, d) in
      (b, p <| world := fst s |> <| plant_cdevs := <[i := snd s]> (plant_cdevs p) |>)
  | None => (a, p)
  end.

Definition get_sensor (i : nat) : M Plant (option Sensor) := gets (fun p => plant_sensors p !! i).
Definition set_sensor (i : nat) (f : Sensor -> Sensor) : M Plant unit :=
  modify (fun p => p <| plant_sensors := alter f i (plant_sensors p) |>).
Definition set_virtual (i : nat) (f : Virtual -> Virtual) : M Plant unit :=
  set_sensor i (fun s => match sensor_kind s with
                         | VirtualSensor v => s <| sensor_kind := VirtualSensor (f v) |>
                         | _ => s
                         end).

Section Sensors.
Context `{ThdOs}.

(** [cthd_sensor]: the constructor and [sensor_update]. *)
Definition sensor_new (_index : Z) (control_path _type_str : string) (k : SensorKind) : Sensor :=
  mkSensor _index k control_path _type_str false 1.

(** [false]: [THD_ERROR]. *)
Definition sensor_update (s : Sensor) : M World (bool * Sensor) :=
  match sensor_kind s with
  | ThermalSysfs =>
      e <- fs_exists (sensor_path s +:+ "type") ;;
      if negb e then ret (false, s)
      else
        r <- fs_read_string (sensor_path s +:+ "type") ;;
        let s := s <| sensor_type := default (sensor_type s) (snd r) |> in
        e <- fs_exists (sensor_path s +:+ "temp") ;; ret (e, s)
  | RawSensor | RaplPower => e <- fs_exists (sensor_path s) ;; ret (e, s)
  | VirtualSensor _ => ret (true, s)
  end.

(** A temperature of sysfs; anything that cannot be read is 0. *)
Definition read_sysfs_temperature (s : Sensor) : M World Z :=
  let file := match sensor_kind s with ThermalSysfs => sensor_path s +:+ "temp" | _ => sensor_path s end in
  r <- fs_read_int file ;;
  u <- unset ;;
  let temp := default (sint 32 u) (snd r) in
  let temp := if (fst r <? 0) || (temp <? 0) then 0 else temp in
  ret (temp / wrap 32 (scale s)).

(** The power of the package in milliwatts, as it was measured last. *)
Definition read_rapl_power : M World Z :=
  rapl_start_measure_power ;;;
  m <- gets io_meter ;;
  ret (if rapl_present m then default 0 (domain_power PACKAGE m) / 1000 else 0).

(** The value of a link: its part of the sum and the link with the new average. *)
Definition link_value (temp : Z) (l : link_sensor_t) : float * link_sensor_t :=
  let temp := f64_of_Z (if power_sensor l then temp else Z.quot temp 1000) in
  let prev := if f_eq (prev_avg l) f_zero then temp else prev_avg l in
  let avg := f64_add (f64_mul (link_offset l) temp)
               (f64_mul (f64_sub (f64_of_Z 1) (link_offset l)) prev) in
  (f64_mul (link_coeff l) avg,
   Link (link_sensor l) (link_coeff l) (link_offset l) avg (power_sensor l)).

(** One sensor alone, without coefficient or offset, is passed on. *)
Definition passed_on (v : Virtual) : option nat :=
  match link_sensors v with
  | l :: _ => if f_eq (link_coeff l) f_zero && f_eq (link_offset l) f_zero then link_sensor l else None
  | [] => None
  end.

(** The links from [k] on, their values added to [virt_temp]. *)
Fixpoint sum_links (read : nat -> M Plant Z) (i k : nat) (links : list link_sensor_t) (virt_temp : float) :
    M Plant float :=
  match links with
  | [] => ret virt_temp
  | l :: links =>
      temp <- (match link_sensor l with Some j => t <- read j ;; ret (sint 32 t) | None => ret 1000 end) ;;
      let (value, l) := link_value temp l in
      set_virtual i (fun v => v <| link_sensors := <[k := l]> (link_sensors v) |>) ;;;
      sum_links read i (S k) links (f64_add virt_temp value)
  end.

(** [_read_temperature] of the virtual sensor [i]. *)
Definition read_virtual (read : nat -> M Plant Z) (i : nat) (v : Virtual) : M Plant Z :=
  match link_sensors v with
  | [] => ret 0
  | _ =>
      match passed_on v with
      | Some j =>
          t <- read j ;;
          ret (wrap 32 (f_to_int 32 (f64_add (f64_mul (f64_of_Z (sint 32 t)) (multiplier v)) (virtual_offset v))))
      | None =>
          virt_temp <- sum_links read i 0 (link_sensors v) f_zero ;;
          let temp := f_to_int 32 (f64_round virt_temp) in
          set_virtual i (fun v => v <| last_temp := sint 32 (temp * 1000) |>) ;;;
          ret (wrap 32 temp)
      end
  end.

(** [read_temperature] of the sensor [i]; a virtual sensor reads others, [fuel]
    bounds the depth. *)
Fixpoint read_temperature (fuel : nat) (i : nat) : M Plant Z :=
  match fuel with
  | O => ret 0
  | S fuel =>
      s <- get_sensor i ;;
      match s with
      | None => ret 0
      | Some s =>
          match sensor_kind s with
          | RaplPower => on_world read_rapl_power
          | VirtualSensor v => if polling v then ret (wrap 32 (last_temp v)) else read_virtual (read_temperature fuel) i v
          | _ => on_world (read_sysfs_temperature s)
          end
      end
  end.
(** Deep enough for sensors that link to earlier ones. *)
Definition read_sensor (i : nat) : M Plant Z := read_temperature (S i) i.

(** ** Thresholds and messages *)

Definition enable_uevent (s : Sensor) : M World unit :=
  let policy := "/sys/class/thermal/thermal_zone" +:+ pretty (sensor_index s) +:+ "/policy" in
  e <- fs_exists policy ;;
  if e : bool then fs_write policy "user_space" ;;; ret tt else ret tt.

Definition set_threshold (i : nat) (index temp : Z) : M Plant Z :=
  s <- get_sensor i ;; interval <- gets poll_interval_sec ;;
  match s with
  | None => ret THD_ERROR
  | Some s =>
      match sensor_kind s with
      | ThermalSysfs | VirtualSensor _ =>
          if negb (interval =? 0) then ret THD_SUCCESS
          else if negb (async_capable s) then ret THD_ERROR
          else
            let tcdev := sensor_path s +:+ "trip_point_" +:+ pretty index +:+ "_temp" in
            e <- on_world (fs_exists tcdev) ;;
            status <- (if e : bool then on_world (fs_write tcdev (pretty (sint 32 temp))) else ret 0) ;;
            if 0 <? status then on_world (enable_uevent s) ;;; ret THD_SUCCESS else ret THD_ERROR
      | _ => ret THD_ERROR
      end
  end.

Definition sensor_poll_trip (s : Sensor) (status : bool) : M Plant unit :=
  on_world (send_message (if status then POLL_ENABLE else POLL_DISABLE) (sensor_index s)).
Definition sensor_fast_poll (s : Sensor) (status : bool) : M Plant unit :=
  on_world (send_message (if status then FAST_POLL_ENABLE else FAST_POLL_DISABLE) (sensor_index s)).

Definition update_path (path : string) (s : Sensor) : Sensor :=
  if has_prefix "/sys/" path then s <| sensor_path := path |> else s.

(** ** Virtual sensors *)

Definition def_polling_period := 5.

(** The constructor; a name that is not empty is linked, a null pointer when there
    is no such sensor; [power]: what its [power_sensor] happens to hold, which nobody sets. *)
Definition virtual_new (power : bool) (_index : Z) (_type_str : string) (link : option (option nat))
    (_multiplier _offset : float) : Sensor :=
  sensor_new _index "none" _type_str
    (VirtualSensor (mkVirtual
       match link with Some s => [Link s f_zero f_zero f_zero power] | None => [] end
       _multiplier _offset false false 0 def_polling_period [])).

Definition add_target (s : option nat) (coeff offset : float) (power : bool) (v : Virtual) : Virtual :=
  v <| link_sensors := link_sensors v ++ [Link s coeff offset f_zero power] |>.

(** [None]: [THD_ERROR], there is no such sensor; [power] as above. *)
Definition sensor_update_param (power : bool) (s : option nat) (slope intercept : float) (v : Virtual) : option Virtual :=
  match s with
  | Some _ =>
      Some (v <| link_sensors := link_sensors v ++ [Link s f_zero f_zero f_zero power] |>
              <| multiplier := slope |> <| virtual_offset := intercept |>)
  | None => None
  end.

Definition update_polling_table (entry : Z * Z) (v : Virtual) : Virtual :=
  v <| polling_table := polling_table v ++ [entry] |>.

(** The period of the last entry whose temperature is reached. *)
Definition period_for (temp : Z) (table : list (Z * Z)) : Z :=
  match List.find (fun e => fst e <=? temp) (rev table) with Some e => snd e | None => 0 end.

(** One turn of [periodic_callback]: [None]: it ends; else the seconds it sleeps. *)
Definition periodic_turn (i : nat) : M Plant (option Z) :=
  s <- get_sensor i ;;
  match s with
  | Some s =>
      match sensor_kind s with
      | VirtualSensor v =>
          if stop_polling v then ret None
          else
            read_virtual read_sensor i v ;;;
            set_virtual i (fun v => let period := period_for (last_temp v) (polling_table v) in
                                    if negb (period =? 0) then v <| polling_period := period |> else v) ;;;
            s <- get_sensor i ;;
            ret (match s with
                 | Some (mkSensor _ (VirtualSensor v) _ _ _ _) =>
                     Some (if polling_period v <=? 0 then def_polling_period else polling_period v)
                 | _ => None
                 end)
      | _ => ret None
      end
  | None => ret None
  end.

Definition enable_periodic_timer (i : nat) : M Plant unit :=
  set_virtual i (fun v =>
    match polling_table v with
    | (_, period) :: _ => if (period <? 100) && negb (period =? 0) then v <| polling_period := period |> else v
    | [] => v
    end) ;;;
  s <- get_sensor i ;;
  match s with
  | Some (mkSensor _ (VirtualSensor v) _ _ _ _) =>
      if polling v then ret tt
      else
        set_virtual i (fun v => v <| stop_polling := false |>) ;;;
        created <- on_world thread_created ;;
        if created : bool then set_virtual i (fun v => v <| polling := true |>) else ret tt
  | _ => ret tt
  end.

Definition disable_periodic_timer (i : nat) : M Plant unit :=
  set_virtual i (fun v => if polling v then v <| stop_polling := true |> <| polling := false |> else v).
End Sensors.

(** ** Depth of the links *)

(** The sensors that each sensor links to. *)
Definition links_of (s : Sensor) : list (option nat) :=
  match sensor_kind s with VirtualSensor v => link_sensor <$> link_sensors v | _ => [] end.
Definition shape (p : Plant) : list (list (option nat)) := links_of <$> plant_sensors p.

(** A virtual sensor links to sensors that were there before it, as
    [search_sensor] finds them when it is made. *)
Definition links_below (p : Plant) : Prop :=
  forall i l j, shape p !! i = Some l -> Some j ∈ l -> (j < i)%nat.

Section Depth.
Context `{ThdOs}.

Lemma shape_world {A} (m : M World A) : same shape (on_world m).
Proof. intros p. unfold post, on_world. by destruct (m (world p)). Qed.

Lemma shape_virtual F i f l : F !! i = Some l ->
  (forall v, link_sensor <$> link_sensors v = l -> link_sensor <$> link_sensors (f v) = l) ->
  keeps (fun p => shape p = F) (set_virtual i f).
Proof.
  intros Hi Hf p <-. unfold post, set_virtual, set_sensor, modify, shape in *. simpl in *.
  apply list_eq. intros k. rewrite !list_lookup_fmap. destruct (decide (i = k)) as [<-|Hn].
  2: by rewrite list_lookup_alter_ne.
  rewrite list_lookup_alter, decide_True by done.
  rewrite list_lookup_fmap in Hi. destruct (plant_sensors p !! i) as [s|]; [|done]. simpl in *.
  f_equal. injection Hi as Hi. unfold links_of in *. destruct (sensor_kind s) eqn:Hk; simpl; rewrite ?Hk; try done.
  rewrite Hi. by apply Hf.
Qed.

Lemma sum_links_cons read i k l links acc :
  sum_links read i k (l :: links) acc =
  (temp <- (match link_sensor l with Some j => t <- read j ;; ret (sint 32 t) | None => ret 1000 end) ;;
   let (value, l) := link_value temp l in
   set_virtual i (fun v => v <| link_sensors := <[k := l]> (link_sensors v) |>) ;;;
   sum_links read i (S k) links (f64_add acc value)).
Proof. done. Qed.

Lemma link_value_sensor temp l : link_sensor (snd (link_value temp l)) = link_sensor l.
Proof. done. Qed.

Lemma shape_sum F read i l : F !! i = Some l -> (forall j, Some j ∈ l -> keeps (fun p => shape p = F) (read j)) ->
  forall links k acc, link_sensor <$> links = drop k l ->
  keeps (fun p => shape p = F) (sum_links read i k links acc).
Proof.
  intros Hi Hr links. induction links as [|x links IH]; intros k acc Hl; [apply keeps_ret|]. rewrite sum_links_cons.
  assert (l !! k = Some (link_sensor x)) as Hk.
  { rewrite <- (Nat.add_0_r k), <- lookup_drop, <- Hl. done. }
  apply keeps_bind.
  - destruct (link_sensor x) as [j|] eqn:Hx; [|apply keeps_ret].
    apply keeps_bind; [|intros t; apply keeps_ret]. apply Hr. by eapply list_elem_of_lookup_2.
  - intros temp. pose proof (link_value_sensor temp x) as Hv. destruct (link_value temp x) as [value x'].
    simpl in Hv. apply keeps_bind.
    + eapply shape_virtual; [exact Hi|]. intros v <-. simpl. rewrite list_fmap_insert.
      apply list_insert_id. by rewrite Hv.
    + intros _. apply IH. change (drop (S k) l) with (drop (1 + k) l).
      rewrite Nat.add_comm, <- drop_drop, <- Hl. done.
Qed.

Lemma passed_on_in v j : passed_on v = Some j -> Some j ∈ link_sensor <$> link_sensors v.
Proof.
  unfold passed_on. destruct (link_sensors v) as [|l ls]; [done|]. destruct (_ && _); [|done].
  intros Hl. simpl. rewrite Hl. left.
Qed.

Lemma shape_read_virtual F read i v : F !! i = Some (link_sensor <$> link_sensors v) ->
  (forall j, Some j ∈ link_sensor <$> link_sensors v -> keeps (fun p => shape p = F) (read j)) ->
  keeps (fun p => shape p = F) (read_virtual read i v).
Proof.
  intros Hi Hr. unfold read_virtual. destruct (link_sensors v) as [|l ls] eqn:Hl; [apply keeps_ret|].
  rewrite <- Hl in *. destruct (passed_on v) as [j|] eqn:Hp.
  - apply keeps_bind; [|intros t; apply keeps_ret]. by apply Hr, passed_on_in.
  - apply keeps_bind; [by eapply shape_sum|]. intros t. apply keeps_bind; [|intros; apply keeps_ret].
    by eapply shape_virtual.
Qed.

Lemma shape_read F fuel i : keeps (fun p => shape p = F) (read_temperature fuel i).
Proof.
  revert i. induction fuel as [|fuel IH]; intros i; [apply keeps_ret|]. intros p Hp. simpl.
  unfold post, bind, get_sensor, gets. destruct (plant_sensors p !! i) as [s|] eqn:Hs; [|done].
  destruct (sensor_kind s) as [| |v|] eqn:Hk; try (by rewrite <- Hp; apply shape_world).
  destruct (polling v); [done|]. apply shape_read_virtual; [|by intros j _; apply IH|done].
  rewrite <- Hp. unfold shape. rewrite list_lookup_fmap, Hs. simpl. unfold links_of. by rewrite Hk.
Qed.

(** Two programs that do the same from any state of a shape. *)
Definition agree {A} (F : list (list (option nat))) (m1 m2 : M Plant A) : Prop :=
  forall p, shape p = F -> m1 p = m2 p.
Lemma agree_bind {A B} F (m1 m2 : M Plant A) (k1 k2 : A -> M Plant B) :
  agree F m1 m2 -> keeps (fun p => shape p = F) m2 -> (forall a, agree F (k1 a) (k2 a)) ->
  agree F (bind m1 k1) (bind m2 k2).
Proof.
  intros Hm Hs Hk p Hp. unfold bind. rewrite (Hm p Hp). specialize (Hs p Hp). unfold post in Hs.
  destruct (m2 p) as [a q]. by apply Hk.
Qed.

Lemma agree_sum F r1 r2 i l : F !! i = Some l ->
  (forall j, Some j ∈ l -> agree F (r1 j) (r2 j) /\ keeps (fun p => shape p = F) (r2 j)) ->
  forall links k acc, link_sensor <$> links = drop k l ->
  agree F (sum_links r1 i k links acc) (sum_links r2 i k links acc).
Proof.
  intros Hi Hr links. induction links as [|x links IH]; intros k acc Hl; [done|]. rewrite !sum_links_cons.
  assert (l !! k = Some (link_sensor x)) as Hk.
  { rewrite <- (Nat.add_0_r k), <- lookup_drop, <- Hl. done. }
  assert (link_sensor <$> links = drop (S k) l) as Hl'.
  { change (drop (S k) l) with (drop (1 + k) l). by rewrite Nat.add_comm, <- drop_drop, <- Hl. }
  apply agree_bind.
  - destruct (link_sensor x) as [j|] eqn:Hx; [|done].
    assert (Some j ∈ l) as Hj by by eapply list_elem_of_lookup_2.
    apply agree_bind; [by apply Hr..|done].
  - destruct (link_sensor x) as [j|] eqn:Hx; [|apply keeps_ret].
    assert (Some j ∈ l) as Hj by by eapply list_elem_of_lookup_2.
    apply keeps_bind; [by apply Hr|intros t; apply keeps_ret].
  - intros temp. pose proof (link_value_sensor temp x) as Hv. destruct (link_value temp x) as [value x'].
    simpl in Hv. apply agree_bind; [done| |intros _; by apply IH].
    eapply shape_virtual; [exact Hi|]. intros v <-. simpl. rewrite list_fmap_insert.
    apply list_insert_id. by rewrite Hv.
Qed.

(** C31: When virtual sensors link to earlier ones only, the depth that is allowed is
    enough: any more of it reads the same temperature and leaves the same sensors. *)
Theorem depth_enough fuel i p : links_below p -> (i < fuel)%nat ->
  read_temperature fuel i p = read_sensor i p.
Proof.
  intros Hb Hf. unfold read_sensor. revert fuel p Hb Hf.
  induction (lt_wf i) as [i _ IH]. intros [|fuel] p Hb Hf; [lia|]. simpl.
  unfold bind, get_sensor, gets. destruct (plant_sensors p !! i) as [s|] eqn:Hs; [|done].
  destruct (sensor_kind s) as [| |v|] eqn:Hk; try done. destruct (polling v); [done|].
  assert (shape p !! i = Some (link_sensor <$> link_sensors v)) as Hi.
  { unfold shape. rewrite list_lookup_fmap, Hs. simpl. unfold links_of. by rewrite Hk. }
  assert (forall j, Some j ∈ link_sensor <$> link_sensors v ->
    agree (shape p) (read_temperature fuel j) (read_temperature i j)) as Hr.
  { intros j Hj q Hq. pose proof (Hb _ _ _ Hi Hj) as Hji.
    assert (links_below q) as Hbq by (unfold links_below; by rewrite Hq).
    rewrite (IH j Hji fuel) by (done || lia). by rewrite (IH j Hji i). }
  unfold read_virtual. destruct (link_sensors v) as [|l ls] eqn:Hl; [done|]. rewrite <- Hl in *.
  destruct (passed_on v) as [j|] eqn:Hp.
  - apply passed_on_in in Hp. unfold bind. by rewrite (Hr j Hp p).
  - unfold bind. rewrite (agree_sum (shape p) (read_temperature fuel) (read_temperature i) i _ Hi); [done| |done..].
    intros j Hj. split; [by apply Hr|apply shape_read].
Qed.

(** The comment in [_read_temperature] says that it always returns millidegrees.
    When the values of the links are summed, what is returned is in degrees, while the timer's
    thread keeps the thousandfold: the sensor reads differently once its timer is on. *)
Theorem virtual_units i s v p : plant_sensors p !! i = Some s -> sensor_kind s = VirtualSensor v ->
  link_sensors v <> [] -> passed_on v = None -> polling v = false ->
  exists temp, - 2 ^ 31 <= temp < 2 ^ 31 /\
    res (read_sensor i) p = wrap 32 temp /\
    forall s' v', plant_sensors (post (read_sensor i) p) !! i = Some s' -> sensor_kind s' = VirtualSensor v' ->
      last_temp v' = sint 32 (temp * 1000).
Proof.
  intros Hs Hk Hl Hp Hpoll.
  assert (exists x q, read_sensor i p = (wrap 32 (f_to_int 32 (f64_round x)),
    post (set_virtual i (fun v => v <| last_temp := sint 32 (f_to_int 32 (f64_round x) * 1000) |>)) q)) as (x & q & Hr).
  { unfold read_sensor. simpl. unfold bind at 1, get_sensor, gets. rewrite Hs, Hk, Hpoll.
    unfold read_virtual. destruct (link_sensors v) as [|l ls] eqn:El; [done|]. rewrite <- El, Hp.
    unfold bind at 1. destruct (sum_links _ _ _ _ _ _) as [x q]. by exists x, q. }
  exists (f_to_int 32 (f64_round x)). unfold res, post at 1. rewrite Hr. split; [|split; [done|]].
  - unfold f_to_int. destruct (f_trunc _); [|lia]. destruct (_ && _) eqn:Hc; [|lia]. zbool. lia.
  - intros s' v' Hs' Hk'. unfold post, set_virtual, set_sensor, modify in Hs'. simpl in Hs'.
    rewrite list_lookup_alter, decide_True in Hs' by done.
    apply fmap_Some in Hs' as (s0 & _ & ->).
    destruct (sensor_kind s0) eqn:Hk0; simpl in Hk'; rewrite ?Hk0 in Hk'; try done. by injection Hk' as <-.
Qed.
End Depth.

(** ** Witnesses *)

(** A sensor of the kernel that reads 50 degrees and a virtual one of the same value. *)
Module Warm.
#[local] Instance warm_os : ThdOs := {
  os_time n := 1000 + Z.of_nat n; os_stat _ _ := true; os_read _ _ := inr "50000"%string;
  os_write _ _ _ := 1; os_unset _ := 0; os_thread _ := true;
  os_writable _ _ := false; os_link _ _ := None; os_rundir := "/var/run/thermald"; os_dir _ _ := None;
  os_confdir := "/etc/thermald"; os_owner _ _ := None; os_lstat _ _ := None; os_xml _ _ := None; os_uname _ := ""; os_size _ _ := 0;
  os_libxml := Texts.text_xml
}.
Definition skin : Virtual :=
  mkVirtual [Link (Some 0%nat) (f64_of_Z 1) (f64_of_Z 1) f_zero false] f_zero f_zero false false 0 5 [].
Definition plant : Plant :=
  mkPlant (Wld 0 [] (Mtr false [] 0 false) [] 0) []
    [sensor_new 0 "/sys/class/thermal/thermal_zone0/" "x86_pkg_temp" ThermalSysfs;
     sensor_new 1 "none" "skin" (VirtualSensor skin)] 0 false PREF_PERFORMANCE false.

Lemma plant_below : links_below plant.
Proof.
  intros [|[|i]] l j Hl Hj; try done; injection Hl as <-; [by inversion Hj|].
  apply list_elem_of_singleton in Hj. injection Hj as ->. lia.
Qed.

Lemma depth_enough_witness : res (read_temperature 5 1) plant = 50 /\ read_temperature 5 1 plant = read_sensor 1 plant.
Proof. split; [by vm_compute|]. apply depth_enough; [exact plant_below|lia]. Defined.

Lemma virtual_units_witness :
  res (read_sensor 1) plant = 50 /\
  res (read_sensor 1) (post (periodic_turn 1) (post (enable_periodic_timer 1) plant)) = 50000 /\
  exists temp, - 2 ^ 31 <= temp < 2 ^ 31 /\ res (read_sensor 1) plant = wrap 32 temp.
Proof.
  split; [by vm_compute|]. split; [by vm_compute|].
  destruct (virtual_units 1 (sensor_new 1 "none" "skin" (VirtualSensor skin)) skin plant) as (t & Ht & Hr & _);
    try done. by exists t.
Defined.
End Warm.
