(* ===== verification/Trip.v ===== *)
(** * The thermal daemon: trip points

    thd_trip_point.{h,cpp}: the devices of a trip, the check of a temperature
    against it, with its hysteresis, the critical trips and the polling trip. *)

From Stdlib Require Import ZArith Lia Ascii String Sorted.
From stdpp Require Import base list option strings pretty sets.
From S2P Require Import Prelude Floats ThdCommon ThdIo Pid Cdev Sensor.

#[local] Open Scope Z_scope.
#[local] Open Scope prog_scope.

(** ** Data *)

Inductive trip_control_type_t := PARALLEL | SEQUENTIAL.
#[export] Instance trip_control_type_dec : EqDecision trip_control_type_t.
Proof. solve_decision. Defined.
Inductive trip_point_cdev_depend_rel_t := EQUAL | GREATER | LESSER | LESSER_OR_EQUAL | GREATER_OR_EQUAL.

(** [trip_pt_cdev_t]; [tc_pid_valid]: the trip has gains of its own, [tc_pid] its
    controller. *)
Record trip_pt_cdev_t := TripCdev {
  tc_cdev : nat; influence : Z; sampling_priod : Z; last_op_time : Z;
  tc_target_valid : bool; target_state : Z; tc_pid_valid : bool; tc_pid : Pid;
  tc_min_max_valid : bool; tc_min_state : Z; tc_max_state : Z
}.
Definition TripCdev_again (c : trip_pt_cdev_t) : trip_pt_cdev_t := TripCdev (tc_cdev c) (influence c)
  (sampling_priod c) (last_op_time c) (tc_target_valid c) (target_state c) (tc_pid_valid c) (tc_pid c)
  (tc_min_max_valid c) (tc_min_state c) (tc_max_state c).
#[export] Instance put_influence : Field influence := ltac:(field_of TripCdev_again influence).
#[export] Instance put_last_op_time : Field last_op_time := ltac:(field_of TripCdev_again last_op_time).
#[export] Instance put_tc_target_valid : Field tc_target_valid := ltac:(field_of TripCdev_again tc_target_valid).
#[export] Instance put_target_state : Field target_state := ltac:(field_of TripCdev_again target_state).
#[export] Instance put_tc_pid : Field tc_pid := ltac:(field_of TripCdev_again tc_pid).

(** [cthd_trip_point]; [depend]: the device whose state is compared. *)
Record Trip := mkTrip {
  trip_index : Z; trip_type : trip_point_type_t; trip_temp : Z; trip_hyst : Z;
  trip_cdevs : list trip_pt_cdev_t; control_type : trip_control_type_t; trip_zone : Z; sensor_id : Z;
  trip_on : bool; poll_on : bool; depend : option (nat * Z * trip_point_cdev_depend_rel_t);
  crit_trip_count : Z
}.
Definition Trip_again (t : Trip) : Trip := mkTrip (trip_index t) (trip_type t) (trip_temp t)
  (trip_hyst t) (trip_cdevs t) (control_type t) (trip_zone t) (sensor_id t) (trip_on t) (poll_on t)
  (depend t) (crit_trip_count t).
#[export] Instance put_trip_temp : Field trip_temp := ltac:(field_of Trip_again trip_temp).
#[export] Instance put_trip_hyst : Field trip_hyst := ltac:(field_of Trip_again trip_hyst).
#[export] Instance put_trip_cdevs : Field trip_cdevs := ltac:(field_of Trip_again trip_cdevs).
#[export] Instance put_control_type : Field control_type := ltac:(field_of Trip_again control_type).
#[export] Instance put_trip_on : Field trip_on := ltac:(field_of Trip_again trip_on).
#[export] Instance put_poll_on : Field poll_on := ltac:(field_of Trip_again poll_on).
#[export] Instance put_depend : Field depend := ltac:(field_of Trip_again depend).
#[export] Instance put_crit_trip_count : Field crit_trip_count := ltac:(field_of Trip_again crit_trip_count).

Definition DEFAULT_SENSOR_ID := 65535.
Definition default_influence := 0.
Definition consecutive_critical_events := 4.

(** The constructor; the temperatures are [unsigned int]. *)
Definition trip_new (_index : Z) (_type : trip_point_type_t) (_temp _hyst _zone_id _sensor_id : Z)
    (_control_type : trip_control_type_t) : Trip :=
  mkTrip _index _type (wrap 32 _temp) (wrap 32 _hyst) [] _control_type _zone_id _sensor_id false false None 0.

Section Trips.
Context `{ThdOs} `{StdSort}.

(** ** Devices of a trip *)

(** [search_cdev]: the first with the type or the alias. *)
Fixpoint find_cdev (name : string) (i : nat) (l : list Cdev) : option nat :=
  match l with
  | [] => None
  | d :: l => if String.eqb (type_str d) name || String.eqb (alias_str d) name then Some i
              else find_cdev name (S i) l
  end.
Definition search_cdev (name : string) : M Plant (option nat) := gets (fun p => find_cdev name 0 (plant_cdevs p)).

(** [get_cdev_type]; an index that is not there: a null pointer. *)
Definition cdev_type (l : list Cdev) (i : nat) : string := default EmptyString (type_str <$> l !! i).

Definition trip_cdev_sort (a b : trip_pt_cdev_t) : bool := influence b <? influence a.

(** The influence of the first entry of the type is replaced. *)
Fixpoint set_influence (l : list Cdev) (c : trip_pt_cdev_t) (cdevs : list trip_pt_cdev_t) :
    option (list trip_pt_cdev_t) :=
  match cdevs with
  | [] => None
  | x :: cdevs =>
      if String.eqb (cdev_type l (tc_cdev x)) (cdev_type l (tc_cdev c))
      then Some (x <| influence := influence c |> :: cdevs)
      else cons x <$> set_influence l c cdevs
  end.

Definition trip_cdev_add (l : list Cdev) (c : trip_pt_cdev_t) (t : Trip) : Trip :=
  t <| trip_cdevs := std_sort trip_cdev_sort
         (default (trip_cdevs t ++ [c]) (set_influence l c (trip_cdevs t))) |>.

(** [pid_param]: the gains, when they are valid. *)
Definition thd_trip_point_add_cdev (l : list Cdev) (cdev : nat) (_influence sampling_period : Z)
    (target_valid : bool) (target : Z) (pid_param : option (float * float * float))
    (_min_max_valid : bool) (_min_state _max_state : Z) (t : Trip) : Trip :=
  trip_cdev_add l
    (TripCdev cdev _influence sampling_period 0 target_valid target
       (match pid_param with Some _ => true | None => false end)
       (match pid_param with Some (p, i, d) => set_pid_param p i d pid_new | None => pid_new end)
       _min_max_valid (if _min_max_valid then _min_state else 0) (if _min_max_valid then _max_state else 0)) t.

(** By the index of the device, not its place in the list; [false]: [THD_ERROR]. *)
Definition thd_trip_point_add_cdev_index (l : list Cdev) (_index _influence : Z) (t : Trip) : bool * Trip :=
  match list_find (fun d => cdev_index d = _index) l with
  | Some (i, _) =>
      (true, trip_cdev_add l (TripCdev i _influence 0 0 false 0 false pid_new false 0 0) t)
  | None => (false, t)
  end.

Definition relation_of (state_str : string) : trip_point_cdev_depend_rel_t * nat :=
  if has_prefix ">=" state_str then (GREATER_OR_EQUAL, 2%nat)
  else if has_prefix "<=" state_str then (LESSER_OR_EQUAL, 2%nat)
  else if has_prefix "<" state_str then (LESSER, 1%nat)
  else if has_prefix ">" state_str then (GREATER, 1%nat)
  else if has_prefix "==" state_str then (EQUAL, 2%nat)
  else (EQUAL, 0%nat).


(** When no comparison is given the one from before stays, [EQUAL] at first. *)
Definition set_dependency (cdev : option nat) (state_str : string) (t : Trip) : Trip :=
  match cdev with
  | None => t
  | Some i =>
      let (rel, n) := relation_of state_str in
      let rel := if Nat.eqb n 0 then match depend t with Some (_, _, r) => r | None => EQUAL end else rel in
      t <| depend := Some (i, atoi (drop_string n state_str), rel) |>
  end.

Definition is_target_valid (t : Trip) : option Z :=
  target_state <$> List.find tc_target_valid (trip_cdevs t).
Definition set_first_target_invalid (t : Trip) : Trip :=
  match trip_cdevs t with
  | c :: l => t <| trip_cdevs := c <| tc_target_valid := false |> :: l |>
  | [] => t
  end.
Definition set_first_target (state : Z) (t : Trip) : Trip :=
  match trip_cdevs t with
  | c :: l => t <| trip_cdevs := c <| tc_target_valid := true |> <| target_state := state |> :: l |>
  | [] => t
  end.
Definition get_first_cdev (t : Trip) : option nat := tc_cdev <$> head (trip_cdevs t).

(** ** Activation and deactivation *)

(** [thd_cdev_set_state] with what the trip keeps for the device. *)
Definition drive (t : Trip) (read_temp : Z) (state : bool) (c : trip_pt_cdev_t) : M Plant trip_pt_cdev_t :=
  let i := tc_cdev c in
  low <- on_cdev 0 i (dget min_state) ;;
  let c := if target_state c =? TRIP_PT_INVALID_TARGET_STATE then c <| target_state := low |> else c in
  value <- on_cdev 0 i (dget (map_target_state (tc_target_valid c) (target_state c))) ;;
  pid <- on_cdev (tc_pid c) i
    (thd_cdev_set_state
       (Req (trip_temp t) read_temp (bool_decide (trip_type t = MAX)) (trip_zone t) (trip_index t)
          (tc_target_valid c) value (tc_pid_valid c) false (tc_min_max_valid c) (tc_min_state c)
          (tc_max_state c)) state (tc_pid c)) ;;
  ret (c <| tc_pid := pid |>).

(** The devices in order: the loop ends at one that was driven too short a time
    ago, and in sequential control after the first that is driven. *)
Fixpoint activate_cdevs (t : Trip) (read_temp : Z) (l : list trip_pt_cdev_t) : M Plant (list trip_pt_cdev_t) :=
  match l with
  | [] => ret []
  | c :: l =>
      c' <- (if sampling_priod c =? 0 then ret (Some c)
             else tm <- on_world now ;;
                  ret (if tm - last_op_time c <? sampling_priod c then None
                       else Some (c <| last_op_time := tm |>))) ;;
      match c' with
      | None => ret (c :: l)
      | Some c =>
          full <- on_cdev false (tc_cdev c) in_max_state ;;
          if full : bool then l <- activate_cdevs t read_temp l ;; ret (c :: l)
          else
            c <- drive t read_temp true c ;;
            if bool_decide (control_type t = SEQUENTIAL) then ret (c :: l)
            else l <- activate_cdevs t read_temp l ;; ret (c :: l)
      end
  end.

(** The devices from the last to the first. *)
Fixpoint deactivate_cdevs (t : Trip) (read_temp : Z) (l : list trip_pt_cdev_t) : M Plant (list trip_pt_cdev_t) :=
  match l with
  | [] => ret []
  | c :: l =>
      low <- on_cdev false (tc_cdev c) in_min_state ;;
      if low : bool then l <- deactivate_cdevs t read_temp l ;; ret (c :: l)
      else
        c <- drive t read_temp false c ;;
        if bool_decide (control_type t = SEQUENTIAL) then ret (c :: l)
        else l <- deactivate_cdevs t read_temp l ;; ret (c :: l)
  end.

(** ** The check *)

Definition compare_state (r : trip_point_cdev_depend_rel_t) (state bound : Z) : bool :=
  match r with
  | EQUAL => state =? bound
  | GREATER => bound <? state
  | LESSER => state <? bound
  | LESSER_OR_EQUAL => state <=? bound
  | GREATER_OR_EQUAL => bound <=? state
  end.

Definition depend_ok (t : Trip) (read_temp : Z) : M Plant bool :=
  match depend t with
  | Some (i, bound, r) =>
      if trip_temp t <=? read_temp then
        s <- on_cdev 0 i get_curr_state ;; ret (compare_state r s bound)
      else ret true
  | None => ret true
  end.

(** A critical or hot trip that is reached: after [consecutive_critical_events]
    readings the next one acts. *)
Definition critical_event (act : M World unit) (t : Trip) : M Plant Trip :=
  if crit_trip_count t <? consecutive_critical_events
  then ret (t <| crit_trip_count := crit_trip_count t + 1 |>)
  else on_world act ;;; ret (t <| crit_trip_count := 0 |>).

Definition suspend : M World unit := fs_write "/sys/power/state" "mem" ;;; ret tt.

(** The polling trip: the sensor is found by its place in the list. *)
Definition poll_check (t : Trip) (read_temp : Z) : M Plant (bool * Trip) :=
  s <- (if sensor_id t <? 0 then ret None else get_sensor (Z.to_nat (sensor_id t))) ;;
  match s with
  | None => ret (false, t)
  | Some s =>
      let threshold : M Plant unit :=
        if async_capable s then set_threshold (Z.to_nat (sensor_id t)) 0 (trip_temp t) ;;; ret tt else ret tt in
      if negb (poll_on t) && (trip_temp t <=? read_temp) then
        sensor_poll_trip s true ;;; sensor_fast_poll s true ;;; threshold ;;;
        ret (false, t <| poll_on := true |>)
      else if poll_on t && (read_temp <? trip_temp t) then
        sensor_poll_trip s false ;;; sensor_fast_poll s false ;;; threshold ;;;
        ret (true, t <| poll_on := false |>)
      else ret (false, t)
  end.

Definition applies (pref : preference_t) (type : trip_point_type_t) : bool :=
  match pref with
  | PREF_PERFORMANCE => bool_decide (type = ACTIVE) || bool_decide (type = MAX)
  | PREF_ENERGY_CONSERVE => bool_decide (type = PASSIVE) || bool_decide (type = MAX)
  | PREF_DISABLED | PREF_OTHER _ => false
  end.

(** The control of the devices; [true]: the trip is applicable. *)
Definition control_check (t : Trip) (read_temp : Z) (pref : preference_t) : M Plant (bool * Trip) :=
  if negb (applies pref (trip_type t)) then ret (false, t)
  else if trip_temp t <=? read_temp then
    let t := t <| trip_on := true |> in
    l <- activate_cdevs t read_temp (trip_cdevs t) ;; ret (true, t <| trip_cdevs := l |>)
  else if trip_on t && (wrap 32 (read_temp + trip_hyst t) <? trip_temp t) || negb (trip_on t) then
    let t := t <| trip_on := false |> in
    l <- deactivate_cdevs t read_temp (rev (trip_cdevs t)) ;; ret (true, t <| trip_cdevs := rev l |>)
  else ret (true, t).

(** [thd_trip_point_check]: the result, [reset] and the trip. *)
Definition thd_trip_point_check (id read_temp : Z) (pref : preference_t) (t : Trip) : M Plant (bool * bool * Trip) :=
  if bool_decide (trip_type t = INVALID_TRIP_TYPE) then ret (false, false, t)
  else
    ok <- depend_ok t read_temp ;;
    if negb ok then ret (false, false, t)
    else if negb (sensor_id t =? DEFAULT_SENSOR_ID) && negb (sensor_id t =? id) then ret (false, false, t)
    else
      ignored <- gets ignore_critical ;;
      let reached := negb ignored && (trip_temp t <=? read_temp) in
      let is_critical := bool_decide (trip_type t = CRITICAL) in
      let is_hot := bool_decide (trip_type t = HOT) in
      if (is_critical || is_hot) && reached then
        t <- critical_event (if is_critical then power_off else suspend) t ;; ret (true, false, t)
      else
        let t := if is_critical || is_hot then t <| crit_trip_count := 0 |> else t in
        if bool_decide (trip_type t = POLLING) && negb (sensor_id t =? DEFAULT_SENSOR_ID) then
          r <- poll_check t read_temp ;; ret (true, fst r, snd r)
        else
          r <- control_check t read_temp pref ;; ret (fst r, false, snd r).

(** [thd_trip_cdev_state_reset], from the last device to the first. *)
Definition thd_trip_cdev_state_reset (force : bool) (t : Trip) : M Plant unit :=
  mfor (rev (trip_cdevs t)) (fun c =>
    low <- (if force then ret false else on_cdev false (tc_cdev c) in_min_state) ;;
    if low : bool then ret tt
    else on_cdev tt (tc_cdev c) (thd_cdev_set_min_state (trip_zone t) (trip_index t))).
End Trips.

(** ** Readings in a row *)

(** What a trip is told: the sensor's index, the preference of that moment, the
    temperature. *)
Record Reading := mkReading { from_sensor : Z; under : preference_t; degrees : Z }.

Section Readings.
Context `{ThdOs} `{StdSort}.

(** The readings one after the other. *)
Fixpoint readings (l : list Reading) (t : Trip) : M Plant Trip :=
  match l with
  | [] => ret t
  | e :: l => r <- thd_trip_point_check (from_sensor e) (degrees e) (under e) t ;; readings l (snd r)
  end.

(** The machine at each of the readings. *)
Fixpoint plants (l : list Reading) (t : Trip) (p : Plant) : list Plant :=
  match l with
  | [] => []
  | e :: l =>
      let (r, p') := thd_trip_point_check (from_sensor e) (degrees e) (under e) t p in p :: plants l (snd r) p'
  end.

(** The trip looks at the sensor. *)
Definition addressed (id : Z) (t : Trip) : bool := (sensor_id t =? DEFAULT_SENSOR_ID) || (sensor_id t =? id).

(** At the temperature of the trip the device that it depends on, if any, is in a
    state as demanded. *)
Definition dependency_met (t : Trip) (read_temp : Z) (p : Plant) : bool :=
  match depend t with
  | Some (i, bound, r) => (read_temp <? trip_temp t) || compare_state r (res (on_cdev 0 i get_curr_state) p) bound
  | None => true
  end.
Definition heeds (t : Trip) (e : Reading) (p : Plant) : bool :=
  applies (under e) (trip_type t) && addressed (from_sensor e) t && dependency_met t (degrees e) p.

Lemma not_addressed id t : negb (sensor_id t =? DEFAULT_SENSOR_ID) && negb (sensor_id t =? id) = negb (addressed id t).
Proof. symmetry. apply negb_orb. Qed.

Lemma depend_ok_met t read_temp p : res (depend_ok t read_temp) p = dependency_met t read_temp p.
Proof.
  unfold depend_ok, dependency_met. destruct (depend t) as [[[i bound] r]|]; [|done].
  rewrite Z.ltb_antisym. destruct (trip_temp t <=? read_temp); [|done].
  unfold res, bind. by destruct (on_cdev 0 i get_curr_state p).
Qed.

Lemma bind_ret {S A B} (a : A) (k : A -> M S B) s : bind (ret a) k s = k a s.
Proof. done. Qed.

Lemma bind_gets {S A B} (f : S -> A) (k : A -> M S B) s : bind (gets f) k s = k (f s) s.
Proof. done. Qed.


Lemma res_ret {S A} (a : A) (s : S) : res (ret a) s = a.
Proof. done. Qed.

(** *** Hysteresis *)

(** A trip goes on at its temperature and off below the hysteresis. *)
Definition hysteresis (temp hyst : Z) (on : bool) (read_temp : Z) : bool :=
  (temp <=? read_temp) || on && (temp <=? read_temp + hyst).

(** What no check changes. *)
Definition fixed_part (t : Trip) := (trip_type t, trip_temp t, trip_hyst t, sensor_id t, depend t).

Lemma control_on t read_temp pref p : 0 <= read_temp -> 0 <= trip_hyst t -> read_temp + trip_hyst t < 2 ^ 32 ->
  let t' := snd (res (control_check t read_temp pref) p) in
  fixed_part t' = fixed_part t /\
  trip_on t' = (if applies pref (trip_type t) then hysteresis (trip_temp t) (trip_hyst t) (trip_on t) read_temp
                else trip_on t).
Proof.
  intros Hr Hh Hov. unfold control_check. destruct (applies pref (trip_type t)); [|done]. cbn [negb].
  unfold hysteresis. destruct (Z.leb_spec (trip_temp t) read_temp) as [Hge|Hlt]; cbn [orb].
  { unfold res, bind. by destruct (activate_cdevs _ _ _ p). }
  rewrite wrap_small by lia. rewrite Z.leb_antisym.
  destruct (trip_on t) eqn:Hon; cbn [andb negb orb].
  - destruct (read_temp + trip_hyst t <? trip_temp t); cbn [negb orb]; [|done].
    unfold res, bind. by destruct (deactivate_cdevs _ _ _ p).
  - unfold res, bind. by destruct (deactivate_cdevs _ _ _ p).
Qed.

Lemma poll_on_only t read_temp p : let t' := snd (res (poll_check t read_temp) p) in
  fixed_part t' = fixed_part t /\ trip_on t' = trip_on t.
Proof.
  unfold poll_check. rewrite res_bind. destruct (res _ p) as [s|]; [|done].
  destruct (negb (poll_on t) && (trip_temp t <=? read_temp)).
  { by rewrite !res_bind. }
  destruct (poll_on t && (read_temp <? trip_temp t)); [|done]. by rewrite !res_bind.
Qed.

Lemma not_controlled pref type : type = CRITICAL \/ type = HOT \/ type = POLLING \/ type = INVALID_TRIP_TYPE ->
  applies pref type = false.
Proof. intros [->|[->|[->| ->]]]; by destruct pref. Qed.

Lemma check_on e t p : 0 <= degrees e -> 0 <= trip_hyst t -> degrees e + trip_hyst t < 2 ^ 32 ->
  let t' := snd (res (thd_trip_point_check (from_sensor e) (degrees e) (under e) t) p) in
  fixed_part t' = fixed_part t /\
  trip_on t' = (if heeds t e p then hysteresis (trip_temp t) (trip_hyst t) (trip_on t) (degrees e) else trip_on t).
Proof.
  intros Hr Hh Hov. unfold thd_trip_point_check, heeds.
  destruct (bool_decide_reflect (trip_type t = INVALID_TRIP_TYPE)) as [Hi|Hi].
  { rewrite not_controlled by auto. done. }
  rewrite res_bind, depend_ok_met. destruct (dependency_met t (degrees e) p); cbn [negb]; [|by rewrite andb_false_r].
  rewrite andb_true_r, not_addressed. destruct (addressed (from_sensor e) t); cbn [negb]; [|by rewrite andb_false_r].
  rewrite andb_true_r, res_bind. cbv zeta. set (p1 := post (gets _) _).
  destruct ((bool_decide (trip_type t = CRITICAL) || bool_decide (trip_type t = HOT)) && _) eqn:Hc.
  { apply andb_true_iff in Hc as [Hc _]. rewrite not_controlled.
    2:{ apply orb_true_iff in Hc as [Hc|Hc]; apply bool_decide_eq_true in Hc; auto. }
    rewrite res_bind. unfold critical_event. case_match; [done|]. by rewrite res_bind. }
  clear Hc. set (t1 := if _ || _ then _ else _).
  assert (fixed_part t1 = fixed_part t /\ trip_on t1 = trip_on t) as [Hs Ho] by (unfold t1; by case_match).
  injection Hs as Ht Htemp Hhyst Hid Hdep.
  destruct (bool_decide _ && _) eqn:Hp.
  { apply andb_true_iff in Hp as [Hp _]. apply bool_decide_eq_true in Hp. rewrite Ht in Hp.
    rewrite not_controlled by auto. rewrite res_bind, res_ret. cbn [fst snd].
    destruct (poll_on_only t1 (degrees e) p1) as [Hs' Ho']. rewrite Hs', Ho', Ho. split; [|done].
    unfold fixed_part. congruence. }
  rewrite res_bind, res_ret. cbn [fst snd].
  destruct (control_on t1 (degrees e) (under e) p1) as [Hs' Ho']; [done|by rewrite Hhyst..|].
  rewrite Hs', Ho', Ho, Ht, Htemp, Hhyst. split; [|done]. unfold fixed_part. congruence.
Qed.

(** C8: At the readings that it heeds (the preference applies to its type, the
    sensor is its own, the device it depends on is in the state demanded) a trip
    follows the hysteresis, whatever its devices do; the others leave it as it is.
    Readings and their sum with the hysteresis are below 2^32. *)
Theorem trip_hysteresis l t p : 0 <= trip_hyst t ->
  Forall (fun e => 0 <= degrees e /\ degrees e + trip_hyst t < 2 ^ 32) l ->
  trip_on (res (readings l t) p) =
  fold_left (fun on e => if heeds t (fst e) (snd e)
                         then hysteresis (trip_temp t) (trip_hyst t) on (degrees (fst e)) else on)
    (combine l (plants l t p)) (trip_on t).
Proof.
  revert t p. induction l as [|e l IH]; intros t p Hh Hf; [done|].
  inversion Hf as [|? ? [Hr Hov] Hf']; subst. destruct (check_on e t p Hr Hh Hov) as [Hs Ho].
  cbn [readings plants]. rewrite res_bind.
  destruct (thd_trip_point_check (from_sensor e) (degrees e) (under e) t p) as [x p'] eqn:Ex.
  unfold res, post in *. rewrite Ex in Hs, Ho |- *. cbn [fst snd combine fold_left] in *. rewrite <- Ho.
  injection Hs as Ht Htemp Hhyst Hid Hdep. rewrite IH by (by rewrite Hhyst).
  unfold heeds, addressed, dependency_met. by rewrite Ht, Htemp, Hhyst, Hid, Hdep.
Qed.

(** *** Critical trips *)

(** The count of events in a row and the power-offs. *)
Definition crit_step (ignored : bool) (temp : Z) (s : Z * nat) (read_temp : Z) : Z * nat :=
  if negb ignored && (temp <=? read_temp) then
    if fst s <? consecutive_critical_events then (fst s + 1, snd s) else (0, S (snd s))
  else (0, snd s).
Definition crit_view (t : Trip) (p : Plant) : Z * nat := (crit_trip_count t, io_reboots (world p)).

(** The temperatures of the sensors that the trip looks at. *)
Definition addressed_to (t : Trip) (l : list Reading) : list Z :=
  degrees <$> List.filter (fun e => addressed (from_sensor e) t) l.

Lemma check_critical e t p : depend t = None -> trip_type t = CRITICAL ->
  let (r, p') := thd_trip_point_check (from_sensor e) (degrees e) (under e) t p in
  fixed_part (snd r) = fixed_part t /\ ignore_critical p' = ignore_critical p /\
  crit_view (snd r) p' =
    (if addressed (from_sensor e) t then crit_step (ignore_critical p) (trip_temp t) (crit_view t p) (degrees e)
     else crit_view t p).
Proof.
  intros Hd Ht. unfold thd_trip_point_check. rewrite Ht. rewrite bool_decide_false by done.
  unfold depend_ok. rewrite Hd, bind_ret. cbn [negb]. rewrite not_addressed.
  destruct (addressed (from_sensor e) t); cbn [negb]; [|done].
  rewrite bind_gets, (bool_decide_true (CRITICAL = CRITICAL)) by done. cbv beta zeta.
  cbn [orb andb negb]. unfold crit_step, crit_view. cbn [fst snd].
  destruct (negb (ignore_critical p) && (trip_temp t <=? degrees e)).
  - unfold critical_event. destruct (crit_trip_count t <? consecutive_critical_events) eqn:Hc; cbv iota.
    + unfold bind, ret. simpl. done.
    + unfold bind, ret, on_world, power_off, modify. simpl. done.
  - unfold bind, control_check. simpl. rewrite Ht. by destruct (under e).
Qed.

Lemma readings_critical l t p : depend t = None -> trip_type t = CRITICAL ->
  crit_view (res (readings l t) p) (post (readings l t) p) =
  fold_left (crit_step (ignore_critical p) (trip_temp t)) (addressed_to t l) (crit_view t p).
Proof.
  revert t p. induction l as [|e l IH]; intros t p Hd Ht; [done|].
  pose proof (check_critical e t p Hd Ht) as Hc. cbn [readings]. rewrite res_bind, post_bind. unfold res, post.
  destruct (thd_trip_point_check (from_sensor e) (degrees e) (under e) t p) as [x p']. destruct Hc as (Hs & Hi & Hv).
  cbn [fst snd]. injection Hs as Ht' Htemp _ Hid Hdep. unfold res, post in IH.
  rewrite (IH _ p') by congruence. rewrite Hi, Htemp, Hv. unfold addressed_to, addressed. rewrite Hid. simpl List.filter.
  by destruct (_ || _).
Qed.

Lemma crit_row temp n c r : 0 <= c <= 4 ->
  fold_left (crit_step false temp) (repeat temp n) (c, r) =
  ((c + Z.of_nat n) mod 5, (r + Z.to_nat ((c + Z.of_nat n) / 5))%nat).
Proof.
  revert c r. induction n as [|n IH]; intros c r Hc.
  - simpl. rewrite Z.add_0_r, Z.mod_small, Z.div_small by lia. f_equal. lia.
  - cbn [repeat fold_left]. unfold crit_step at 2. cbn [negb andb]. rewrite Z.leb_refl. simpl fst. simpl snd.
    unfold consecutive_critical_events. destruct (Z.ltb_spec c 4) as [Hl|Hl]; rewrite IH by lia.
    + replace (c + 1 + Z.of_nat n) with (c + Z.of_nat (S n)) by lia. done.
    + assert (c = 4) as -> by lia. replace (4 + Z.of_nat (S n)) with (0 + Z.of_nat n + 1 * 5) by lia.
      rewrite Z.mod_add, Z.div_add by lia. f_equal.
      pose proof (Z.div_pos (0 + Z.of_nat n) 5). lia.
Qed.

Lemma crit_ignored temp l s : snd (fold_left (crit_step true temp) l s) = snd s.
Proof. revert s. induction l as [|r l IH]; intros s; [done|]. simpl. by rewrite IH. Qed.

(** C10: Unless critical trips are ignored, the machine is switched off at every
    fifth reading in a row, of the sensors that a critical trip without dependency looks
    at, that reaches it; a reading below starts over, readings of other sensors do not
    count.  When they are ignored it is never switched off. *)
Theorem critical_power_off t p : depend t = None -> trip_type t = CRITICAL ->
  (forall l, crit_view (res (readings l t) p) (post (readings l t) p) =
     fold_left (crit_step (ignore_critical p) (trip_temp t)) (addressed_to t l) (crit_view t p)) /\
  (forall l n, ignore_critical p = false -> addressed_to t l = repeat (trip_temp t) n -> crit_trip_count t = 0 ->
     io_reboots (world (post (readings l t) p)) = (io_reboots (world p) + n / 5)%nat) /\
  (forall l, ignore_critical p = true -> io_reboots (world (post (readings l t) p)) = io_reboots (world p)).
Proof.
  intros Hd Ht. split_and!; [intros l; by apply readings_critical| |].
  - intros l n Hi Hl Hn. pose proof (f_equal snd (readings_critical l t p Hd Ht)) as Hv.
    rewrite Hi, Hl in Hv. unfold crit_view in Hv. rewrite Hn, crit_row in Hv by lia. cbn [snd] in Hv. rewrite Hv.
    f_equal. rewrite Z.add_0_l. apply Nat2Z.inj. rewrite Z2Nat.id, Nat2Z.inj_div; [done|apply Z.div_pos; lia].
  - intros l Hi. pose proof (f_equal snd (readings_critical l t p Hd Ht)) as Hv.
    by rewrite Hi, crit_ignored in Hv.
Qed.
End Readings.

(** ** The devices of a trip *)

Section TripDevices.
Context `{ThdOs} `{StdSort}.

Definition type_of (l : list Cdev) (c : trip_pt_cdev_t) : string := cdev_type l (tc_cdev c).
Definition well_ordered (l : list Cdev) (t : Trip) : Prop :=
  NoDup (type_of l <$> trip_cdevs t) /\
  StronglySorted (fun a b => influence b <= influence a) (trip_cdevs t).

Lemma set_influence_types l c cdevs cdevs' : set_influence l c cdevs = Some cdevs' ->
  type_of l <$> cdevs' = type_of l <$> cdevs.
Proof.
  revert cdevs'. induction cdevs as [|x cdevs IH]; intros cdevs' Hs; [done|]. simpl in Hs.
  destruct (String.eqb _ _); [by injection Hs as <-|].
  destruct (set_influence l c cdevs) as [m|]; [|done]. injection Hs as <-. simpl. f_equal. by apply IH.
Qed.
Lemma set_influence_none l c cdevs : set_influence l c cdevs = None -> type_of l c ∉ type_of l <$> cdevs.
Proof.
  induction cdevs as [|x cdevs IH]; intros Hs; [by apply not_elem_of_nil|]. simpl in Hs.
  destruct (String.eqb_spec (cdev_type l (tc_cdev x)) (cdev_type l (tc_cdev c))) as [|Hn]; [done|].
  destruct (set_influence l c cdevs); [done|]. simpl. rewrite not_elem_of_cons. split; [|by apply IH].
  unfold type_of. congruence.
Qed.

Lemma add_well_ordered l c t : NoDup (type_of l <$> trip_cdevs t) -> well_ordered l (trip_cdev_add l c t).
Proof.
  intros Hd. unfold well_ordered, trip_cdev_add. simpl. split.
  - rewrite (fmap_Permutation (type_of l) _ _ (std_sort_perm _ _ _)).
    destruct (set_influence l c (trip_cdevs t)) as [m|] eqn:Hs; simpl.
    + by rewrite (set_influence_types _ _ _ _ Hs).
    + rewrite fmap_app. apply NoDup_app. split_and!; [done| |apply NoDup_singleton].
      intros y Hy Hy'. apply list_elem_of_singleton in Hy' as ->. by apply (set_influence_none _ _ _ Hs).
  - pose proof (std_sort_sorted _ trip_cdev_sort (fun c => - influence c)
      (default (trip_cdevs t ++ [c]) (set_influence l c (trip_cdevs t)))) as Hs.
    assert (forall a b : trip_pt_cdev_t, trip_cdev_sort a b = (- influence a <? - influence b)) as Hk.
    { intros a b. unfold trip_cdev_sort.
      destruct (Z.ltb_spec (influence b) (influence a)), (Z.ltb_spec (- influence a) (- influence b)); lia. }
    specialize (Hs Hk). induction Hs as [|x m Hs IH Hf]; constructor; [exact IH|].
    eapply Forall_impl; [exact Hf|]. simpl. lia.
Qed.

(** However devices are bound to a trip, it has one of each type, the most
    influential first. *)
Theorem trip_cdevs_ordered l cs t : trip_cdevs t = [] ->
  well_ordered l (fold_left (fun t c => trip_cdev_add l c t) cs t).
Proof.
  intros Ht. assert (well_ordered l t) as Hw by (unfold well_ordered; rewrite Ht; by repeat constructor).
  clear Ht. revert t Hw. induction cs as [|c cs IH]; intros t Hw; [done|]. simpl. apply IH, add_well_ordered, Hw.
Qed.

(** ** Sequential control *)

(** Only the device [i] may have changed. *)
Definition only (i : nat) (p p' : Plant) : Prop :=
  forall j, j <> i -> plant_cdevs p' !! j = plant_cdevs p !! j.
Definition untouched (p p' : Plant) : Prop := plant_cdevs p' = plant_cdevs p.
Definition all_own (p : Plant) : Prop := Forall own_state (plant_cdevs p).

Lemma own_in_max_state s : owned s -> post in_max_state s = s.
Proof.
  intros Hs. assert (get_max_state s = (fst (get_max_state s), s)) as Hm.
  { destruct s as [w d]. unfold owned, own_state in Hs. unfold get_max_state. rewrite bind_dget. unfold id.
    simpl in *. by destruct (kind d). }
  assert (forall f : Z -> Z -> bool, (c <- get_curr_state ;; m <- get_max_state ;; ret (f m c)) s =
    (f (fst (get_max_state s)) (curr_state (snd s)), s)) as Hb.
  { intros f. unfold bind. rewrite own_get_curr_state by done. by rewrite Hm. }
  unfold in_max_state. rewrite post_dget. unfold id. destruct (min_state (snd s) <? max_state (snd s)).
  - erewrite post_pure by apply (Hb (fun m c => m <=? c)). destruct (_ <=? _); [done|].
    rewrite post_dget. destruct (_ <? _); [|done]. unfold post. by rewrite (Hb (fun m c => c <=? m)).
  - erewrite post_pure by done. cbv beta iota. rewrite post_dget. destruct (_ <? _); [|done].
    unfold post. by rewrite (Hb (fun m c => c <=? m)).
Qed.

Lemma on_cdev_pure {A} (a : A) i (m : M Dv A) p : all_own p -> (forall s, owned s -> post m s = s) ->
  untouched p (post (on_cdev a i m) p).
Proof.
  intros Ho Hm. unfold untouched, post, on_cdev. destruct (plant_cdevs p !! i) as [d|] eqn:Hd; [|done].
  assert (owned (world p, d)) as Hs by (by eapply Forall_lookup_1 in Ho).
  specialize (Hm _ Hs). unfold post in Hm. destruct (m (world p, d)) as [b s]. simpl in *. subst s.
  by apply list_insert_id.
Qed.
Lemma on_cdev_only {A} (a : A) i (m : M Dv A) p : only i p (post (on_cdev a i m) p).
Proof.
  intros j Hj. unfold post, on_cdev. destruct (plant_cdevs p !! i) as [d|] eqn:Hd; [|done].
  destruct (m (world p, d)) as [b s]. simpl. by rewrite list_lookup_insert_ne.
Qed.

Lemma only_trans i p q r : only i p q -> only i q r -> only i p r.
Proof. intros H1 H2 j Hj. by rewrite H2, H1. Qed.
Lemma untouched_only i p q : untouched p q -> only i p q.
Proof. intros Hu j _. by rewrite Hu. Qed.
Lemma untouched_world {A} (m : M World A) p : untouched p (post (on_world m) p).
Proof. unfold untouched, post, on_world. by destruct (m (world p)). Qed.

Lemma only_bind {A B} i (m : M Plant A) (k : A -> M Plant B) p : only i p (post m p) ->
  (forall a q, only i q (post (k a) q)) -> only i p (post (bind m k) p).
Proof. intros Hm Hk. rewrite post_bind. eapply only_trans; [exact Hm|apply Hk]. Qed.

Lemma drive_only t read_temp state c p : only (tc_cdev c) p (post (drive t read_temp state c) p).
Proof.
  unfold drive. cbv zeta.
  do 3 (apply only_bind; [apply on_cdev_only|intros ? ?]). done.
Qed.

Lemma bind_untouched {A B} (m : M Plant A) (k : A -> M Plant B) p (P : Plant -> Prop) :
  untouched p (post m p) -> (forall a q, untouched p q -> P (post (k a) q)) -> P (post (bind m k) p).
Proof. intros Hm Hk. rewrite post_bind. by apply Hk. Qed.

Lemma own_untouched p q : untouched p q -> all_own p -> all_own q.
Proof. unfold untouched, all_own. by intros ->. Qed.

Lemma activate_one t read_temp l p : control_type t = SEQUENTIAL -> all_own p ->
  exists i, only i p (post (activate_cdevs t read_temp l) p).
Proof.
  intros Hc Ho. revert p Ho. induction l as [|c l IH]; intros p Ho; [by exists 0%nat|]. simpl.
  apply bind_untouched with (P := fun q => exists i, only i p q).
  { destruct (_ =? _); [done|]. rewrite post_bind. apply untouched_world. }
  intros [c'|] q Hq; [|exists 0%nat; by apply untouched_only].
  pose proof (own_untouched _ _ Hq Ho) as Hoq. rewrite post_bind.
  pose proof (on_cdev_pure false (tc_cdev c') in_max_state q Hoq own_in_max_state) as Hm.
  set (r := post (on_cdev _ _ _) q) in *.
  assert (untouched p r) as Hr by (unfold untouched in *; congruence).
  destruct (res _ q).
  - rewrite post_bind. destruct (IH r (own_untouched _ _ Hr Ho)) as [i Hi]. exists i.
    eapply only_trans; [by apply untouched_only|exact Hi].
  - rewrite post_bind, Hc, bool_decide_true by done. exists (tc_cdev c').
    eapply only_trans; [by apply untouched_only|apply drive_only].
Qed.
Lemma deactivate_one t read_temp l p : control_type t = SEQUENTIAL -> all_own p ->
  exists i, only i p (post (deactivate_cdevs t read_temp l) p).
Proof.
  intros Hc Ho. revert p Ho. induction l as [|c l IH]; intros p Ho; [by exists 0%nat|]. simpl.
  rewrite post_bind.
  pose proof (on_cdev_pure false (tc_cdev c) in_min_state p Ho own_in_min_state) as Hr.
  set (r := post (on_cdev _ _ _) p) in *. destruct (res _ p).
  - rewrite post_bind. destruct (IH r (own_untouched _ _ Hr Ho)) as [i Hi]. exists i.
    eapply only_trans; [by apply untouched_only|exact Hi].
  - rewrite post_bind, Hc, bool_decide_true by done. exists (tc_cdev c).
    eapply only_trans; [by apply untouched_only|apply drive_only].
Qed.

(** What does not drive a device. *)
Lemma cdevs_world {A} (m : M World A) : same plant_cdevs (on_world m).
Proof. intros p. apply untouched_world. Qed.
Ltac same_plant :=
  repeat match goal with
  | |- same _ (bind _ _) => apply same_bind; [|intros ?]
  | |- same _ (on_world _) => apply cdevs_world
  | |- same _ (match ?x with _ => _ end) => destruct x
  | |- same _ _ => solve [done | eauto 2 with same]
  end.
Lemma cdevs_set_threshold i index temp : same plant_cdevs (set_threshold i index temp).
Proof. unfold set_threshold, get_sensor. same_plant. Qed.
#[local] Hint Resolve cdevs_set_threshold : same.
Lemma cdevs_poll_check t read_temp : same plant_cdevs (poll_check t read_temp).
Proof. unfold poll_check, get_sensor, sensor_poll_trip, sensor_fast_poll. cbv zeta. same_plant. Qed.
Lemma cdevs_critical act t : same plant_cdevs (critical_event act t).
Proof. unfold critical_event. same_plant. Qed.

Lemma control_one t read_temp pref p : control_type t = SEQUENTIAL -> all_own p ->
  exists i, only i p (post (control_check t read_temp pref) p).
Proof.
  intros Hc Ho. unfold control_check. destruct (negb _); [by exists 0%nat|]. destruct (_ <=? _).
  - rewrite post_bind. by apply activate_one.
  - destruct (_ || _); [|by exists 0%nat]. rewrite post_bind. by apply deactivate_one.
Qed.

(** In sequential control a check changes the state of at most one device,
    whatever the reading and the kind of trip. *)
Theorem sequential_one id read_temp pref t p : control_type t = SEQUENTIAL -> all_own p ->
  exists i, only i p (post (thd_trip_point_check id read_temp pref t) p).
Proof.
  intros Hc Ho. unfold thd_trip_point_check. destruct (bool_decide _); [by exists 0%nat|].
  apply bind_untouched with (P := fun q => exists i, only i p q).
  { unfold depend_ok. destruct (depend t) as [[[j bound] r]|]; [|done]. destruct (_ <=? _); [|done].
    rewrite post_bind. apply (on_cdev_pure 0 j get_curr_state p Ho). intros s Hs. unfold post.
    by rewrite own_get_curr_state. }
  intros ok q Hq. pose proof (own_untouched _ _ Hq Ho) as Hoq.
  assert (forall m : M Plant (bool * bool * Trip), same plant_cdevs m -> exists i, only i p (post m q)) as Hs.
  { intros m Hm. exists 0%nat. apply untouched_only. unfold untouched in *. by rewrite Hm. }
  destruct (negb ok); [by apply Hs|]. destruct (negb _ && _); [by apply Hs|].
  rewrite post_bind. change (post (gets ignore_critical) q) with q. cbv zeta.
  destruct ((_ || _) && _).
  { apply Hs. apply same_bind; [apply cdevs_critical|done]. }
  set (t' := if _ || _ then _ else _).
  assert (control_type t' = SEQUENTIAL) as Hc' by (subst t'; by destruct (_ || _)).
  destruct (bool_decide _ && _).
  { apply Hs. apply same_bind; [apply cdevs_poll_check|done]. }
  destruct (control_one t' read_temp pref q Hc' Hoq) as [i Hi]. exists i. rewrite post_bind.
  eapply only_trans; [by apply untouched_only|exact Hi].
Qed.
End TripDevices.

(** ** Witnesses *)

Module Bench.
#[local] Existing Instance Quiet.quiet_os.
#[local] Existing Instance Quiet.quiet_sort.

Definition plant : Plant :=
  mkPlant Quiet.world0 [Quiet.fan; Quiet.package <| type_str := "rapl" |>] [] 0 false PREF_PERFORMANCE false.
Definition max_trip : Trip :=
  trip_cdev_add (plant_cdevs plant) (TripCdev 0 0 0 0 false 0 false pid_new false 0 0)
    (trip_new 0 MAX 50000 2000 3 DEFAULT_SENSOR_ID SEQUENTIAL).

Definition ignoring : Plant := mkPlant Quiet.world0 [] [] 0 true PREF_PERFORMANCE false.
Definition told (l : list Z) : list Reading := mkReading 7 PREF_PERFORMANCE <$> l.

(** Readings under another preference, or while the dependency is not met, are not
    heeded. *)
Lemma trip_hysteresis_witness :
  let dependent := max_trip <| depend := Some (1%nat, -1, EQUAL) |> in
  trip_on (res (readings (told [40000; 50000; 48500]) max_trip) plant) = true /\
  trip_on (res (readings (told [40000; 50000; 48500; 47000; 48500]) max_trip) plant) = false /\
  trip_on (res (readings [mkReading 7 PREF_DISABLED 60000; mkReading 7 PREF_PERFORMANCE 60000] dependent) plant) = false.
Proof.
  split_and!; rewrite trip_hysteresis; try done; repeat constructor; done.
Defined.

Lemma critical_power_off_witness :
  let t := trip_new 0 CRITICAL 90000 0 3 7 PARALLEL in
  io_reboots (world (post (readings (told (repeat 90000 4)) t) plant)) = 0%nat /\
  io_reboots (world (post (readings (mkReading 5 PREF_DISABLED 10 :: told (repeat 90000 5)) t) plant)) = 1%nat /\
  io_reboots (world (post (readings (told (repeat 90000 50)) t) ignoring)) = 0%nat.
Proof.
  intros t. split_and!.
  - destruct (critical_power_off t plant eq_refl eq_refl) as (_ & Hn & _). by apply (Hn _ 4%nat).
  - destruct (critical_power_off t plant eq_refl eq_refl) as (_ & Hn & _). by apply (Hn _ 5%nat).
  - destruct (critical_power_off t ignoring eq_refl eq_refl) as (_ & _ & Hn). by apply Hn.
Defined.

Lemma trip_cdevs_ordered_witness :
  let c i n := TripCdev i n 0 0 false 0 false pid_new false 0 0 in
  let t := fold_left (fun t c => trip_cdev_add (plant_cdevs plant) c t) [c 0%nat 5; c 1%nat 7; c 0%nat 9]
    (trip_new 0 PASSIVE 50000 0 3 7 SEQUENTIAL) in
  (tc_cdev <$> trip_cdevs t) = [0%nat; 1%nat] /\ well_ordered (plant_cdevs plant) t.
Proof. intros c t. split; [by vm_compute|]. by apply trip_cdevs_ordered. Defined.

Lemma sequential_one_witness :
  let t := trip_cdev_add (plant_cdevs plant) (TripCdev 1 0 0 0 false 0 false pid_new false 0 0) max_trip in
  let p' := post (thd_trip_point_check 7 60000 PREF_PERFORMANCE t) plant in
  plant_cdevs p' <> plant_cdevs plant /\ exists i, only i plant p'.
Proof.
  intros t p'. split; [vm_compute; congruence|]. apply sequential_one; [done|]. by repeat constructor.
Defined.
End Bench.
