(* ===== verification/Config.v ===== *)
(** * The thermal daemon: the XML configuration

    thd_parse.{h,cpp} and thd_cdev_order_parser.cpp: the platforms of a
    configuration file, the choice of the one of this machine, and the order of
    the cooling devices.  A parser returns [None] where the code does something
    undefined. *)

From Stdlib Require Import ZArith Lia Ascii String.
From stdpp Require Import base list option strings pretty.
From S2P Require Import Prelude Floats ThdCommon Gddv ThdIo Int3400 Xml AcpiRel Pid Cdev Sensor Trip.

#[local] Open Scope Z_scope.
#[local] Open Scope prog_scope.

(** ** Data *)

Definition CDEV_DEF_BIT_MIN_STATE := 1.
Definition CDEV_DEF_BIT_MAX_STATE := 2.
Definition CDEV_DEF_BIT_STEP := 4.
Definition CDEV_DEF_BIT_READ_BACK := 8.
Definition CDEV_DEF_BIT_AUTO_DOWN := 16.
Definition CDEV_DEF_BIT_PATH := 32.
Definition CDEV_DEF_BIT_UNIT_VAL := 128.
Definition CDEV_DEF_BIT_DEBOUNCE_VAL := 256.
Definition CDEV_DEF_BIT_PID_PARAMS := 512.
Definition CDEV_DEF_BIT_WRITE_PREFIX := 1024.
Definition SENSOR_DEF_BIT_PATH := 1.
Definition SENSOR_DEF_BIT_ASYNC_CAPABLE := 2.

Record pid_control_t := PidControl { Kp : float; Ki : float; Kd : float }.
Definition PidControl_again (p : pid_control_t) : pid_control_t := PidControl (Kp p) (Ki p) (Kd p).
#[export] Instance put_Kp : Field Kp := ltac:(field_of PidControl_again Kp).
#[export] Instance put_Ki : Field Ki := ltac:(field_of PidControl_again Ki).
#[export] Instance put_Kd : Field Kd := ltac:(field_of PidControl_again Kd).

(** The fields of the structures have the initials of the structure. *)
Record thermal_sensor_link_t := SensorLink { sl_name : string; sl_multiplier : float; sl_offset : float }.
Definition SensorLink_again (l : thermal_sensor_link_t) : thermal_sensor_link_t :=
  SensorLink (sl_name l) (sl_multiplier l) (sl_offset l).
#[export] Instance put_sl_name : Field sl_name := ltac:(field_of SensorLink_again sl_name).
#[export] Instance put_sl_multiplier : Field sl_multiplier := ltac:(field_of SensorLink_again sl_multiplier).
#[export] Instance put_sl_offset : Field sl_offset := ltac:(field_of SensorLink_again sl_offset).

Record thermal_sensor_target_t := SensorTarget {
  st_name : string; st_coeff : float; st_offset : float; st_power_sensor : Z
}.
Definition SensorTarget_again (t : thermal_sensor_target_t) : thermal_sensor_target_t :=
  SensorTarget (st_name t) (st_coeff t) (st_offset t) (st_power_sensor t).
#[export] Instance put_st_name : Field st_name := ltac:(field_of SensorTarget_again st_name).
#[export] Instance put_st_coeff : Field st_coeff := ltac:(field_of SensorTarget_again st_coeff).
#[export] Instance put_st_offset : Field st_offset := ltac:(field_of SensorTarget_again st_offset).
#[export] Instance put_st_power_sensor : Field st_power_sensor := ltac:(field_of SensorTarget_again st_power_sensor).

Record thermal_sensor_polling_t := SensorPolling { sp_virtual_temp : Z; sp_sample_period : Z }.
Definition SensorPolling_again (p : thermal_sensor_polling_t) : thermal_sensor_polling_t :=
  SensorPolling (sp_virtual_temp p) (sp_sample_period p).
#[export] Instance put_sp_virtual_temp : Field sp_virtual_temp := ltac:(field_of SensorPolling_again sp_virtual_temp).
#[export] Instance put_sp_sample_period : Field sp_sample_period := ltac:(field_of SensorPolling_again sp_sample_period).

Record thermal_sensor_t := ThermalSensor {
  s_mask : Z; s_name : string; s_path : string; s_async_capable : bool; s_virtual_sensor : bool;
  s_link : thermal_sensor_link_t; s_link_sensors : list thermal_sensor_target_t;
  s_polling_table : list thermal_sensor_polling_t
}.
Definition ThermalSensor_again (s : thermal_sensor_t) : thermal_sensor_t := ThermalSensor (s_mask s)
  (s_name s) (s_path s) (s_async_capable s) (s_virtual_sensor s) (s_link s) (s_link_sensors s)
  (s_polling_table s).
#[export] Instance put_s_mask : Field s_mask := ltac:(field_of ThermalSensor_again s_mask).
#[export] Instance put_s_name : Field s_name := ltac:(field_of ThermalSensor_again s_name).
#[export] Instance put_s_path : Field s_path := ltac:(field_of ThermalSensor_again s_path).
#[export] Instance put_s_async : Field s_async_capable := ltac:(field_of ThermalSensor_again s_async_capable).
#[export] Instance put_s_virtual : Field s_virtual_sensor := ltac:(field_of ThermalSensor_again s_virtual_sensor).
#[export] Instance put_s_link : Field s_link := ltac:(field_of ThermalSensor_again s_link).
#[export] Instance put_s_links : Field s_link_sensors := ltac:(field_of ThermalSensor_again s_link_sensors).
#[export] Instance put_s_polling : Field s_polling_table := ltac:(field_of ThermalSensor_again s_polling_table).

Record trip_cdev_depend_t := Depend { dp_dependency : bool; dp_cdev : string; dp_state : string }.
Definition Depend_again (d : trip_cdev_depend_t) : trip_cdev_depend_t :=
  Depend (dp_dependency d) (dp_cdev d) (dp_state d).
#[export] Instance put_dp_dependency : Field dp_dependency := ltac:(field_of Depend_again dp_dependency).
#[export] Instance put_dp_cdev : Field dp_cdev := ltac:(field_of Depend_again dp_cdev).
#[export] Instance put_dp_state : Field dp_state := ltac:(field_of Depend_again dp_state).

Record trip_cdev_t := TripCdevConf {
  c_type : string; c_influence : Z; c_sampling_period : Z; c_target_state_valid : bool;
  c_target_state : Z; c_pid_param : option pid_control_t; c_min_max_valid : bool;
  c_target_min_state : Z; c_target_max_state : Z
}.
Definition TripCdevConf_again (c : trip_cdev_t) : trip_cdev_t := TripCdevConf (c_type c)
  (c_influence c) (c_sampling_period c) (c_target_state_valid c) (c_target_state c) (c_pid_param c)
  (c_min_max_valid c) (c_target_min_state c) (c_target_max_state c).
#[export] Instance put_c_type : Field c_type := ltac:(field_of TripCdevConf_again c_type).
#[export] Instance put_c_influence : Field c_influence := ltac:(field_of TripCdevConf_again c_influence).
#[export] Instance put_c_sampling : Field c_sampling_period := ltac:(field_of TripCdevConf_again c_sampling_period).
#[export] Instance put_c_target_valid : Field c_target_state_valid := ltac:(field_of TripCdevConf_again c_target_state_valid).
#[export] Instance put_c_target : Field c_target_state := ltac:(field_of TripCdevConf_again c_target_state).
#[export] Instance put_c_pid : Field c_pid_param := ltac:(field_of TripCdevConf_again c_pid_param).
#[export] Instance put_c_min_max : Field c_min_max_valid := ltac:(field_of TripCdevConf_again c_min_max_valid).
#[export] Instance put_c_target_min : Field c_target_min_state := ltac:(field_of TripCdevConf_again c_target_min_state).
#[export] Instance put_c_target_max : Field c_target_max_state := ltac:(field_of TripCdevConf_again c_target_max_state).

Record trip_point_t := TripConf {
  t_temperature : Z; t_hyst : Z; t_type : trip_point_type_t; t_control : trip_control_type_t;
  t_influence : Z; t_sensor_type : string; t_dependency : trip_cdev_depend_t; t_cdevs : list trip_cdev_t
}.
Definition TripConf_again (t : trip_point_t) : trip_point_t := TripConf (t_temperature t) (t_hyst t)
  (t_type t) (t_control t) (t_influence t) (t_sensor_type t) (t_dependency t) (t_cdevs t).
#[export] Instance put_t_temperature : Field t_temperature := ltac:(field_of TripConf_again t_temperature).
#[export] Instance put_t_hyst : Field t_hyst := ltac:(field_of TripConf_again t_hyst).
#[export] Instance put_t_type : Field t_type := ltac:(field_of TripConf_again t_type).
#[export] Instance put_t_control : Field t_control := ltac:(field_of TripConf_again t_control).
#[export] Instance put_t_sensor_type : Field t_sensor_type := ltac:(field_of TripConf_again t_sensor_type).
#[export] Instance put_t_dependency : Field t_dependency := ltac:(field_of TripConf_again t_dependency).
#[export] Instance put_t_cdevs : Field t_cdevs := ltac:(field_of TripConf_again t_cdevs).

Record thermal_zone_t := ThermalZone { z_type : string; z_trips : list trip_point_t }.
Definition ThermalZone_again (z : thermal_zone_t) : thermal_zone_t := ThermalZone (z_type z) (z_trips z).
#[export] Instance put_z_type : Field z_type := ltac:(field_of ThermalZone_again z_type).
#[export] Instance put_z_trips : Field z_trips := ltac:(field_of ThermalZone_again z_trips).

Inductive unit_value_t := ABSOULUTE_VALUE | RELATIVE_PERCENTAGES.

(** [d_pid]: [None], never set; it is read only when [d_pid_enable]. *)
Record cooling_dev_t := CoolingDev {
  d_status : bool; d_mask : Z; d_index : Z; d_unit_val : unit_value_t; d_min_state : Z; d_max_state : Z;
  d_step : Z; d_read_back : bool; d_auto_down : bool; d_type : string; d_path : string;
  d_debounce : Z; d_pid_enable : bool; d_pid : option pid_control_t; d_write_prefix : string
}.
Definition CoolingDev_again (d : cooling_dev_t) : cooling_dev_t := CoolingDev (d_status d) (d_mask d)
  (d_index d) (d_unit_val d) (d_min_state d) (d_max_state d) (d_step d) (d_read_back d) (d_auto_down d)
  (d_type d) (d_path d) (d_debounce d) (d_pid_enable d) (d_pid d) (d_write_prefix d).
#[export] Instance put_d_status : Field d_status := ltac:(field_of CoolingDev_again d_status).
#[export] Instance put_d_mask : Field d_mask := ltac:(field_of CoolingDev_again d_mask).
#[export] Instance put_d_index : Field d_index := ltac:(field_of CoolingDev_again d_index).
#[export] Instance put_d_unit_val : Field d_unit_val := ltac:(field_of CoolingDev_again d_unit_val).
#[export] Instance put_d_min_state : Field d_min_state := ltac:(field_of CoolingDev_again d_min_state).
#[export] Instance put_d_max_state : Field d_max_state := ltac:(field_of CoolingDev_again d_max_state).
#[export] Instance put_d_step : Field d_step := ltac:(field_of CoolingDev_again d_step).
#[export] Instance put_d_read_back : Field d_read_back := ltac:(field_of CoolingDev_again d_read_back).
#[export] Instance put_d_auto_down : Field d_auto_down := ltac:(field_of CoolingDev_again d_auto_down).
#[export] Instance put_d_type : Field d_type := ltac:(field_of CoolingDev_again d_type).
#[export] Instance put_d_path : Field d_path := ltac:(field_of CoolingDev_again d_path).
#[export] Instance put_d_debounce : Field d_debounce := ltac:(field_of CoolingDev_again d_debounce).
#[export] Instance put_d_pid_enable : Field d_pid_enable := ltac:(field_of CoolingDev_again d_pid_enable).
#[export] Instance put_d_pid : Field d_pid := ltac:(field_of CoolingDev_again d_pid).
#[export] Instance put_d_write_prefix : Field d_write_prefix := ltac:(field_of CoolingDev_again d_write_prefix).

Record thermal_info_t := ThermalInfo {
  i_name : string; i_uuid : string; i_product_name : string; i_product_sku : string;
  i_preference : preference_t; i_polling_interval : Z; i_ppcc : ppcc_t;
  i_sensors : list thermal_sensor_t; i_zones : list thermal_zone_t; i_cdevs : list cooling_dev_t
}.
Definition ThermalInfo_again (i : thermal_info_t) : thermal_info_t := ThermalInfo (i_name i) (i_uuid i)
  (i_product_name i) (i_product_sku i) (i_preference i) (i_polling_interval i) (i_ppcc i)
  (i_sensors i) (i_zones i) (i_cdevs i).
#[export] Instance put_i_name : Field i_name := ltac:(field_of ThermalInfo_again i_name).
#[export] Instance put_i_uuid : Field i_uuid := ltac:(field_of ThermalInfo_again i_uuid).
#[export] Instance put_i_product_name : Field i_product_name := ltac:(field_of ThermalInfo_again i_product_name).
#[export] Instance put_i_product_sku : Field i_product_sku := ltac:(field_of ThermalInfo_again i_product_sku).
#[export] Instance put_i_preference : Field i_preference := ltac:(field_of ThermalInfo_again i_preference).
#[export] Instance put_i_polling : Field i_polling_interval := ltac:(field_of ThermalInfo_again i_polling_interval).
#[export] Instance put_i_ppcc : Field i_ppcc := ltac:(field_of ThermalInfo_again i_ppcc).
#[export] Instance put_i_sensors : Field i_sensors := ltac:(field_of ThermalInfo_again i_sensors).
#[export] Instance put_i_zones : Field i_zones := ltac:(field_of ThermalInfo_again i_zones).
#[export] Instance put_i_cdevs : Field i_cdevs := ltac:(field_of ThermalInfo_again i_cdevs).

(** The fields of [ppcc_t] (Gddv.v) that the parser sets. *)
Definition Ppcc_again (p : ppcc_t) : ppcc_t := Ppcc (ppcc_name p) (valid p) (power_limit_min p)
  (power_limit_max p) (time_wind_min p) (time_wind_max p) (ppcc_step_size p) (limit_1_valid p)
  (power_limit_1_min p) (power_limit_1_max p) (time_wind_1_min p) (time_wind_1_max p) (step_1_size p).
#[export] Instance put_valid : Field valid := ltac:(field_of Ppcc_again valid).
#[export] Instance put_limit_1_valid : Field limit_1_valid := ltac:(field_of Ppcc_again limit_1_valid).
#[export] Instance put_power_min : Field power_limit_min := ltac:(field_of Ppcc_again power_limit_min).
#[export] Instance put_power_max : Field power_limit_max := ltac:(field_of Ppcc_again power_limit_max).
#[export] Instance put_wind_min : Field time_wind_min := ltac:(field_of Ppcc_again time_wind_min).
#[export] Instance put_wind_max : Field time_wind_max := ltac:(field_of Ppcc_again time_wind_max).
#[export] Instance put_step_size : Field ppcc_step_size := ltac:(field_of Ppcc_again ppcc_step_size).

(** ** The parsers of the elements *)

Section Parsers.
Context `{LibXml}.

Definition parse_dependency_values (nodes : list xmlNode) (d : trip_cdev_depend_t) : option trip_cdev_depend_t :=
  walk_text (fun name _ tmp_value d =>
    d ← (if named name "CoolingDeviceType" then v ← char_trim tmp_value; Some (d <| dp_cdev := v |>)
         else if named name "CoolingDeviceState" then v ← char_trim tmp_value; Some (d <| dp_state := v |>)
         else Some d);
    Some (d <| dp_dependency := true |>)) nodes d.

Definition parse_pid_values (nodes : list xmlNode) : option pid_control_t :=
  walk_text (fun name _ tmp_value p =>
    Some (if named name "Kp" then p <| Kp := atof tmp_value |>
          else if named name "Kd" then p <| Kd := atof tmp_value |>
          else if named name "Ki" then p <| Ki := atof tmp_value |>
          else p)) nodes
    (PidControl (f64_lit 5 10000) (f64_lit 1 10000) (f64_lit 1 10000)).

Definition parse_new_trip_cdev (nodes : list xmlNode) (c : trip_cdev_t) : option trip_cdev_t :=
  walk_text (fun name children tmp_value c =>
    if named name "type" then Some (c <| c_type := string_trim tmp_value |>)
    else if named name "influence" then Some (c <| c_influence := atoi tmp_value |>)
    else if named name "SamplingPeriod" then Some (c <| c_sampling_period := atoi tmp_value |>)
    else if named name "TargetState" then
      Some (c <| c_target_state := atoi tmp_value |> <| c_target_state_valid := true |>)
    else if named name "TargetMinState" then
      Some (c <| c_target_min_state := atoi tmp_value |> <| c_min_max_valid := true |>)
    else if named name "TargetMaxState" then
      Some (c <| c_target_max_state := atoi tmp_value |> <| c_min_max_valid := true |>)
    else if named name "PidControl" then
      p ← parse_pid_values children; Some (c <| c_pid_param := Some p |>)
    else Some c) nodes c.

Definition trip_cdev_init : trip_cdev_t := TripCdevConf EmptyString 0 0 false 0 None false 0 0.

(** The type of a trip point; another text leaves it. *)
Definition type_named (s : string) (old : trip_point_type_t) : trip_point_type_t :=
  if named s "active" then ACTIVE else if named s "passive" then PASSIVE
  else if named s "critical" then CRITICAL else if named s "hot" then HOT
  else if named s "max" then MAX else old.

Definition trip_point_field (name : string) (children : list xmlNode) (tmp_value : string) (t : trip_point_t) :
    option trip_point_t :=
  if named name "Temperature" then Some (t <| t_temperature := atoi tmp_value |>)
  else if named name "Power" then Some (t <| t_temperature := atoi tmp_value |>)
  else if named name "Hyst" then Some (t <| t_hyst := atoi tmp_value |>)
  else if named name "CoolingDevice" then
    c ← parse_new_trip_cdev children trip_cdev_init; Some (t <| t_cdevs := t_cdevs t ++ [c] |>)
  else if named name "SensorType" then Some (t <| t_sensor_type := string_trim tmp_value |>)
  else if named name "type" then v ← char_trim tmp_value; Some (t <| t_type := type_named v (t_type t) |>)
  else if named name "ControlType" then
    v ← char_trim tmp_value;
    Some (t <| t_control := if named v "SEQUENTIAL" then SEQUENTIAL else PARALLEL |>)
  else if named name "DependsOn" then
    d ← parse_dependency_values children (t_dependency t); Some (t <| t_dependency := d |>)
  else Some t.
Definition parse_new_trip_point (nodes : list xmlNode) (t : trip_point_t) : option trip_point_t :=
  walk_text trip_point_field nodes (t <| t_temperature := 0 |> <| t_type := ACTIVE |>).

Definition trip_point_init : trip_point_t :=
  TripConf 0 0 PASSIVE PARALLEL 100 EmptyString (Depend false EmptyString EmptyString) [].

Definition parse_trip_points (nodes : list xmlNode) (z : thermal_zone_t) : option thermal_zone_t :=
  walk (fun name children z =>
    if named name "TripPoint" then
      t ← parse_new_trip_point children trip_point_init; Some (z <| z_trips := z_trips z ++ [t] |>)
    else Some z) nodes z.

(** A type without text: a string is made of a null pointer. *)
Definition parse_new_zone (nodes : list xmlNode) (z : thermal_zone_t) : option thermal_zone_t :=
  walk (fun name children z =>
    if named name "TripPoints" then parse_trip_points children z
    else if named name "Type" then
      v ← xmlNodeListGetString children; Some (z <| z_type := string_trim v |>)
    else Some z) nodes z.

(** The zone is one variable for all of them. *)
Definition parse_thermal_zones (nodes : list xmlNode) (i : thermal_info_t) : option thermal_info_t :=
  snd <$> walk (fun name children acc =>
    if named name "ThermalZone" then
      z ← parse_new_zone children (fst acc <| z_trips := [] |>);
      Some (z, snd acc <| i_zones := i_zones (snd acc) ++ [z] |>)
    else Some acc) nodes (ThermalZone EmptyString [], i).

Definition with_mask (bit : Z) (d : cooling_dev_t) : cooling_dev_t := d <| d_mask := Z.lor (d_mask d) bit |>.

Definition cooling_dev_defaults (d : cooling_dev_t) : cooling_dev_t :=
  d <| d_max_state := 0 |> <| d_min_state := 0 |> <| d_mask := 0 |> <| d_step := 1 |>
    <| d_read_back := true |> <| d_auto_down := false |> <| d_status := false |>
    <| d_pid_enable := false |> <| d_unit_val := ABSOULUTE_VALUE |> <| d_debounce := 0 |>.

Definition parse_new_cooling_dev (nodes : list xmlNode) (d : cooling_dev_t) : option cooling_dev_t :=
  walk_text (fun name children tmp_value d =>
    if named name "Index" then Some (d <| d_index := atoi tmp_value |>)
    else if named name "Type" then Some (d <| d_type := string_trim tmp_value |>)
    else if named name "Path" then
      Some (with_mask CDEV_DEF_BIT_PATH d <| d_path := string_trim tmp_value |>)
    else if named name "MinState" then
      Some (with_mask CDEV_DEF_BIT_MIN_STATE d <| d_min_state := atoi tmp_value |>)
    else if named name "MaxState" then
      Some (with_mask CDEV_DEF_BIT_MAX_STATE d <| d_max_state := atoi tmp_value |>)
    else if named name "IncDecStep" then
      Some (with_mask CDEV_DEF_BIT_STEP d <| d_step := atoi tmp_value |>)
    else if named name "ReadBack" then
      Some (with_mask CDEV_DEF_BIT_READ_BACK d <| d_read_back := negb (atoi tmp_value =? 0) |>)
    else if named name "DebouncePeriod" then
      Some (with_mask CDEV_DEF_BIT_DEBOUNCE_VAL d <| d_debounce := atoi tmp_value |>)
    else if named name "PidControl" then
      p ← parse_pid_values children;
      Some (with_mask CDEV_DEF_BIT_PID_PARAMS d <| d_pid_enable := true |> <| d_pid := Some p |>)
    else if named name "AutoOffMode" then
      Some (with_mask CDEV_DEF_BIT_AUTO_DOWN d <| d_auto_down := negb (atoi tmp_value =? 0) |>)
    else if named name "WritePrefix" then
      Some (with_mask CDEV_DEF_BIT_WRITE_PREFIX d <| d_write_prefix := tmp_value |>)
    else Some d) nodes (cooling_dev_defaults d).

(** What [parse_cooling_devs] resets; the gains and the prefix stay from the
    device before. *)
Definition cooling_dev_reset (d : cooling_dev_t) : cooling_dev_t :=
  d <| d_index := 0 |> <| d_max_state := 0 |> <| d_min_state := 0 |> <| d_step := 1 |>
    <| d_auto_down := false |> <| d_path := EmptyString |> <| d_type := EmptyString |>.
Definition cooling_dev_init : cooling_dev_t :=
  CoolingDev false 0 0 ABSOULUTE_VALUE 0 0 1 true false EmptyString EmptyString 0 false None EmptyString.
Definition parse_cooling_devs (nodes : list xmlNode) (i : thermal_info_t) : option thermal_info_t :=
  snd <$> walk (fun name children acc =>
    if named name "CoolingDevice" then
      d ← parse_new_cooling_dev children (cooling_dev_reset (fst acc));
      Some (d, snd acc <| i_cdevs := i_cdevs (snd acc) ++ [d] |>)
    else Some acc) nodes (cooling_dev_init, i).

Definition parse_new_sensor_link (nodes : list xmlNode) (l : thermal_sensor_link_t) : option thermal_sensor_link_t :=
  walk_text (fun name _ tmp_value l =>
    Some (if named name "SensorType" then l <| sl_name := string_trim tmp_value |>
          else if named name "Multiplier" then l <| sl_multiplier := atof tmp_value |>
          else if named name "Offset" then l <| sl_offset := atof tmp_value |>
          else l)) nodes l.

Definition parse_new_virtual_sensor_target (nodes : list xmlNode) (t : thermal_sensor_target_t) :
    option thermal_sensor_target_t :=
  walk_text (fun name _ tmp_value t =>
    Some (if named name "SensorType" then t <| st_name := string_trim tmp_value |>
          else if named name "Coeff" then t <| st_coeff := atof tmp_value |>
          else if named name "Offset" then t <| st_offset := atof tmp_value |>
          else if named name "PowerSensor" then t <| st_power_sensor := atoi tmp_value |>
          else t)) nodes t.

Definition parse_new_virtual_sensor_polling (nodes : list xmlNode) (p : thermal_sensor_polling_t) :
    option thermal_sensor_polling_t :=
  walk_text (fun name _ tmp_value p =>
    Some (if named name "VirtualTemp" then p <| sp_virtual_temp := atoi tmp_value |>
          else if named name "SamplePeriod" then p <| sp_sample_period := atoi tmp_value |>
          else p)) nodes p.

Definition parse_new_sensor (nodes : list xmlNode) (s : thermal_sensor_t) : option thermal_sensor_t :=
  walk_text (fun name children tmp_value s =>
    if named name "Type" then Some (s <| s_name := string_trim tmp_value |>)
    else if named name "Path" then
      Some (s <| s_mask := Z.lor (s_mask s) SENSOR_DEF_BIT_PATH |> <| s_path := string_trim tmp_value |>)
    else if named name "AsyncCapable" then
      Some (s <| s_async_capable := negb (atoi tmp_value =? 0) |>
              <| s_mask := Z.lor (s_mask s) SENSOR_DEF_BIT_ASYNC_CAPABLE |>)
    else if named name "Virtual" then Some (s <| s_virtual_sensor := negb (atoi tmp_value =? 0) |>)
    else if named name "SensorLink" then
      l ← parse_new_sensor_link children (s_link s); Some (s <| s_link := l |>)
    else if named name "LinkSensor" then
      t ← parse_new_virtual_sensor_target children (SensorTarget EmptyString f_zero f_zero 0);
      Some (s <| s_link_sensors := s_link_sensors s ++ [t] |>)
    else if named name "PollingTableEntry" then
      p ← parse_new_virtual_sensor_polling children (SensorPolling 0 0);
      Some (s <| s_polling_table := s_polling_table s ++ [p] |>)
    else Some s) nodes s.

Definition thermal_sensor_init : thermal_sensor_t :=
  ThermalSensor 0 EmptyString EmptyString false false (SensorLink EmptyString f_zero f_zero) [] [].
Definition parse_thermal_sensors (nodes : list xmlNode) (i : thermal_info_t) : option thermal_info_t :=
  walk (fun name children i =>
    if named name "ThermalSensor" then
      s ← parse_new_sensor children thermal_sensor_init; Some (i <| i_sensors := i_sensors i ++ [s] |>)
    else Some i) nodes i.

(** The limits are [int]s. *)
Definition parse_ppcc (nodes : list xmlNode) (p : ppcc_t) : option ppcc_t :=
  walk_text (fun name _ tmp_value p =>
    let v := f_to_int 32 (atof tmp_value) in
    Some (if named name "PowerLimitMinimum" then p <| power_limit_min := v |>
          else if named name "PowerLimitMaximum" then p <| power_limit_max := v |>
          else if named name "TimeWindowMinimum" then p <| time_wind_min := v |>
          else if named name "TimeWindowMaximum" then p <| time_wind_max := v |>
          else if named name "StepSize" then p <| ppcc_step_size := v |>
          else p)) nodes p.

Definition parse_new_platform_info (nodes : list xmlNode) (i : thermal_info_t) : option thermal_info_t :=
  walk_text (fun name children tmp_value i =>
    if named name "uuid" then Some (i <| i_uuid := string_trim tmp_value |>)
    else if named name "ProductName" then Some (i <| i_product_name := string_trim tmp_value |>)
    else if named name "ProductSku" then Some (i <| i_product_sku := string_trim tmp_value |>)
    else if named name "Name" then Some (i <| i_name := string_trim tmp_value |>)
    else if named name "Preference" then
      v ← char_trim tmp_value;
      Some (i <| i_preference := if named v "PERFORMANCE" then PREF_PERFORMANCE else PREF_ENERGY_CONSERVE |>)
    else if named name "ThermalZones" then parse_thermal_zones children i
    else if named name "ThermalSensors" then parse_thermal_sensors children i
    else if named name "CoolingDevices" then parse_cooling_devs children i
    else if named name "PollingInterval" then Some (i <| i_polling_interval := atoi tmp_value |>)
    else if named name "PPCC" then
      p ← parse_ppcc children (i_ppcc i); Some (i <| i_ppcc := p <| valid := true |> |>)
    else Some i) nodes (i <| i_preference := PREF_ENERGY_CONSERVE |> <| i_polling_interval := 0 |>).

(** What is reset before a platform; identifiers, sensors and the limits of the
    power stay from the platform before. *)
Definition platform_reset (i : thermal_info_t) : thermal_info_t :=
  i <| i_cdevs := [] |> <| i_zones := [] |> <| i_polling_interval := 0 |>
    <| i_ppcc := i_ppcc i <| valid := false |> <| limit_1_valid := false |> |>.
Definition thermal_info_init : thermal_info_t :=
  ThermalInfo EmptyString EmptyString EmptyString EmptyString PREF_ENERGY_CONSERVE 0
    (Ppcc EmptyString false 0 0 0 0 0 false 0 0 0 0 0) [] [] [].

(** The list gets the platforms, all made in one variable. *)
Definition parse_new_platform (nodes : list xmlNode) (l : list thermal_info_t) : option (list thermal_info_t) :=
  snd <$> walk (fun name children acc =>
    if named name "Platform" then
      i ← parse_new_platform_info children (platform_reset (fst acc)); Some (i, snd acc ++ [i])
    else Some acc) nodes (thermal_info_init, l).

Definition parse (nodes : list xmlNode) (l : list thermal_info_t) : option (list thermal_info_t) :=
  walk (fun name children l =>
    if named name "ThermalConfiguration" then parse_new_platform children l else Some l) nodes l.

(** *** The order of the cooling devices (thd_cdev_order_parser.cpp) *)

Definition parse_new_cdev (nodes : list xmlNode) (l : list string) : option (list string) :=
  walk_text (fun _ _ tmp_value l => Some (l ++ [tmp_value])) nodes l.
Definition parse_order (nodes : list xmlNode) (l : list string) : option (list string) :=
  walk (fun name children l =>
    if named name "CoolingDeviceOrder" then parse_new_cdev children l else Some l) nodes l.
End Parsers.

(** ** The parser *)

(** [cthd_parse]: the platforms, the one that matches and whether the file is generated. *)
Record Parse := mkParse {
  info_list : list thermal_info_t; matched_index : Z; auto_config : bool; root_element : list xmlNode
}.
Definition parse_object : Parse := mkParse [] (-1) false [].

Section Files.
Context `{ThdOs} `{RelDevice}.

Definition filename : string := os_confdir +:+ "/thermal-conf.xml".
Definition filename_auto : string := os_rundir +:+ "/thermal-conf.xml.auto".
Definition filename_auto_conf : string := os_confdir +:+ "/thermal-conf.xml.auto".

Definition S_IWGRP := 16.
Definition S_IWOTH := 2.
Definition S_IFMT := 61440.
Definition S_IFLNK := 40960.

(** The checks of the file, then its root. *)
Definition read_checked (path : string) : M World (option (list xmlNode)) :=
  st <- ask (fun n => os_owner n path) ;;
  match st with
  | None => ret None
  | Some (uid, mode) =>
      if negb (uid =? 0) then ret None
      else if negb (Z.land mode (Z.lor S_IWGRP S_IWOTH) =? 0) then ret None
      else
        l <- ask (fun n => os_lstat n path) ;;
        match l with
        | None => ret None
        | Some mode =>
            if Z.land mode S_IFMT =? S_IFLNK then ret None
            else doc <- ask (fun n => os_xml n path) ;; ret (doc ← doc; xmlDocGetRootElement doc)
        end
  end.

(** The file that is used and whether it is a generated one; [None]: the
    generation read outside a table. *)
Definition choose_file (config_file : string) : M World (option (string * bool)) :=
  if negb (String.eqb config_file EmptyString) then ret (Some (config_file, false))
  else
    auto <- fs_open filename_auto_conf ;;
    if auto : bool then ret (Some (filename_auto_conf, true))
    else fun w =>
      let (r, s) := generate_conf filename_auto (w, rel_new) in
      (match r with
       | Outside => None
       | Done code => Some (if code =? 0 then (filename_auto, true) else (filename, false))
       end, fst s).

(** [None]: see [choose_file]; else the code and the parser. *)
Definition parser_init (config_file : string) (p : Parse) : M World (option (Z * Parse)) :=
  f <- choose_file config_file ;;
  match f with
  | None => ret None
  | Some (path, auto) =>
      let p := mkParse (info_list p) (matched_index p) (auto_config p || auto) (root_element p) in
      there <- (if auto_config p then ret true else fs_open path) ;;
      if negb there then ret (Some (THD_ERROR, p))
      else
        root <- read_checked path ;;
        ret (Some (match root with
                   | None => (THD_ERROR, p)
                   | Some root => (THD_SUCCESS, mkParse (info_list p) (matched_index p) (auto_config p) root)
                   end))
  end.

Definition start_parse (p : Parse) : option Parse :=
  l ← parse (root_element p) (info_list p); Some (mkParse l (matched_index p) (auto_config p) (root_element p)).

(** *** The platform of this machine *)

(** [ifstream] and [getline]: the first line of a file that has one. *)
Definition read_line (path : string) : M World (option string) :=
  r <- ask (fun n => os_read n path) ;;
  ret (match r with inl _ | inr EmptyString => None | inr text => Some (first_line text) end).

Definition match_product_sku (i : thermal_info_t) : M World bool :=
  line <- read_line "/sys/class/dmi/id/product_sku" ;;
  ret (match line with
       | None => true
       | Some line =>
           String.eqb (i_product_sku i) EmptyString || String.eqb (i_product_sku i) "*" ||
           String.eqb (string_trim line) (i_product_sku i)
       end).

(** The first platform a test accepts. *)
Fixpoint first_that (test : thermal_info_t -> M World bool) (i : Z) (l : list thermal_info_t) : M World (option Z) :=
  match l with
  | [] => ret None
  | x :: l => ok <- test x ;; if ok : bool then ret (Some i) else first_that test (i + 1) l
  end.

Definition uuid_matches (line : string) (i : thermal_info_t) : M World bool :=
  ret (negb (String.eqb (i_uuid i) EmptyString) &&
       (String.eqb (i_uuid i) "*" || String.eqb (string_trim line) (i_uuid i))).
Definition name_matches (line : string) (i : thermal_info_t) : M World bool :=
  if String.eqb (i_product_name i) EmptyString then ret false
  else if String.eqb (i_product_name i) "*" then ret true
  else if String.eqb (string_trim line) (i_product_name i) then match_product_sku i
  else ret false.
(** The last try: the identifier must be there, the name is compared. *)
Definition wildcard_matches (i : thermal_info_t) : M World bool :=
  ret (negb (String.eqb (i_uuid i) EmptyString) && has_prefix "*" (i_product_name i)).

(** One of the three searches; without a line there is none. *)
Definition search_line (line : option string) (test : string -> thermal_info_t -> M World bool)
    (l : list thermal_info_t) : M World (option Z) :=
  match line with None => ret None | Some line => first_that (test line) 0 l end.
Definition matched (i : Z) (p : Parse) : Parse := mkParse (info_list p) i (auto_config p) (root_element p).
Definition platform_matched (p : Parse) : M World (bool * Parse) :=
  line <- read_line "/sys/class/dmi/id/product_uuid" ;;
  r <- search_line line uuid_matches (info_list p) ;;
  match r with
  | Some i => ret (true, matched i p)
  | None =>
      line <- read_line "/sys/class/dmi/id/product_name" ;;
      r <- search_line line name_matches (info_list p) ;;
      match r with
      | Some i => ret (true, matched i p)
      | None =>
          r <- first_that wildcard_matches 0 (info_list p) ;;
          ret (match r with Some i => (true, matched i p) | None => (false, p) end)
      end
  end.
End Files.

(** *** Access to the platform of this machine *)

(** The lists of the platforms are emptied; the platforms stay. *)
Definition parser_deinit (p : Parse) : Parse :=
  mkParse ((fun i => i <| i_sensors := [] |> <| i_zones := [] |> <| i_cdevs := [] |>) <$> info_list p)
    (matched_index p) (auto_config p) [].

(** [thermal_info_list[matched_thermal_info_index]]; [None]: outside the list. *)
Definition the_info (p : Parse) : option thermal_info_t :=
  if matched_index p <? 0 then None else info_list p !! Z.to_nat (matched_index p).
Definition get_polling_interval (p : Parse) : option Z := i_polling_interval <$> the_info p.
Definition zone_count (p : Parse) : option Z := (fun i => Z.of_nat (length (i_zones i))) <$> the_info p.
Definition cdev_count (p : Parse) : option Z := (fun i => Z.of_nat (length (i_cdevs i))) <$> the_info p.
Definition sensor_count (p : Parse) : option Z := (fun i => Z.of_nat (length (i_sensors i))) <$> the_info p.
(** -1: there is no such zone. *)
Definition trip_count (zone_index : nat) (p : Parse) : option Z :=
  i ← the_info p;
  Some (match i_zones i !! zone_index with Some z => Z.of_nat (length (z_trips z)) | None => -1 end).
(** The inner [None]: the null pointer. *)
Definition get_trip_point (zone_index trip_index : nat) (p : Parse) : option (option trip_point_t) :=
  i ← the_info p; Some (z ← i_zones i !! zone_index; z_trips z !! trip_index).
Definition get_cool_dev_index (index : nat) (p : Parse) : option (option cooling_dev_t) :=
  i ← the_info p; Some (i_cdevs i !! index).
Definition get_sensor_dev_index (index : nat) (p : Parse) : option (option thermal_sensor_t) :=
  i ← the_info p; Some (i_sensors i !! index).
Definition get_zone_dev_index (index : nat) (p : Parse) : option (option thermal_zone_t) :=
  i ← the_info p; Some (i_zones i !! index).
Definition get_ppcc_param (name : string) (p : Parse) : option (option ppcc_t) :=
  if negb (String.eqb name "TCPU.D0") then Some None
  else if 0 <=? matched_index p then
    i ← the_info p; Some (if valid (i_ppcc i) then Some (i_ppcc i) else None)
  else Some None.
Definition pid_status (index : nat) (p : Parse) : option bool :=
  i ← the_info p; d ← i_cdevs i !! index; Some (d_pid_enable d).
(** The gains are converted to [int]. *)
Definition get_pid_values (index : nat) (p : Parse) : option (option (Z * Z * Z)) :=
  i ← the_info p; d ← i_cdevs i !! index;
  if d_pid_enable d then
    g ← d_pid d; Some (Some (f_to_int 32 (Kp g), f_to_int 32 (Ki g), f_to_int 32 (Kd g)))
  else Some None.

(** [set_default_preference]: the text it hands to the preference. *)
Definition default_preference_str (p : Parse) : option string :=
  i ← the_info p; Some (if bool_decide (i_preference i = PREF_PERFORMANCE) then "PERFORMANCE" else "ENERGY_CONSERVE")%string.

(** ** Theorems *)

Section Matching.
Context `{ThdOs}.

Lemma first_that_spec test l i w :
  let r := res (first_that test i l) w in
  match r with Some j => i <= j < i + Z.of_nat (length l) | None => True end.
Proof.
  revert i w. induction l as [|x l IH]; intros i w; cbv zeta; [done|].
  pattern (res (first_that test i (x :: l)) w). apply wp_res. cbn [first_that length].
  apply wp_bind, wp_conseq with (fun _ _ => True); [|done]. intros [|] w1 _.
  - apply wp_ret. lia.
  - specialize (IH (i + 1) w1). cbv zeta in IH. unfold wp. destruct (res _ _); [lia|done].
Qed.

(** A platform that was matched is one of the list: none of the accesses the engine makes
    afterwards, to zones, sensors, devices, intervals or limits, leaves the list. *)
Theorem matched_in_list p w : fst (res (platform_matched p) w) = true ->
  is_Some (the_info (snd (res (platform_matched p) w))).
Proof.
  pattern (res (platform_matched p) w). apply wp_res.
  assert (forall i, 0 <= i < Z.of_nat (length (info_list p)) -> is_Some (the_info (matched i p))) as Hin.
  { intros i Hi. unfold the_info, matched. simpl. destruct (Z.ltb_spec i 0); [lia|].
    apply lookup_lt_is_Some. lia. }
  assert (forall test line w (Q : option Z -> World -> Prop),
    (forall i w, 0 <= i < Z.of_nat (length (info_list p)) -> Q (Some i) w) -> (forall w, Q None w) ->
    wp (search_line line test (info_list p)) Q w) as Hs.
  { intros test [line|] w0 Q H1 H2; unfold search_line; [|apply wp_ret, H2].
    pose proof (first_that_spec (test line) (info_list p) 0 w0) as Hf. cbv zeta in Hf. unfold wp.
    destruct (res _ _) as [i|]; [apply H1; lia|apply H2]. }
  unfold platform_matched. apply wp_bind, wp_conseq with (fun _ _ => True); [|done]. intros line w1 _.
  apply wp_bind, Hs; [intros i t Hi _; by apply Hin|]. intros w2.
  apply wp_bind, wp_conseq with (fun _ _ => True); [|done]. intros line' w3 _.
  apply wp_bind, Hs; [intros i t Hi _; by apply Hin|]. intros w4.
  apply wp_bind. pose proof (first_that_spec wildcard_matches (info_list p) 0 w4) as Hf. cbv zeta in Hf.
  unfold wp at 1. destruct (res _ _) as [i|]; apply wp_ret; cbn [fst snd]; [intros _; apply Hin; lia|done].
Qed.
End Matching.

(** ** Two platforms in one file *)

Module Platforms.
#[local] Existing Instance Texts.text_xml.

Definition elem (name text : string) : xmlNode := Element name [Text text].
Definition platform (l : list xmlNode) : xmlNode := Element "Platform" (Text " " :: l).
Definition sensor (name : string) : xmlNode :=
  Element "ThermalSensors" [Text " "; Element "ThermalSensor" [Text " "; elem "Type" name]].
(** The second platform names no UUID and one sensor. *)
Definition file : list xmlNode :=
  [Element "ThermalConfiguration"
     [platform [elem "UUID" "A"; elem "ProductName" "One"; sensor "s1"];
      platform [elem "ProductName" "Two"; sensor "s2"]]].

(** What a platform leaves out it has from the platform before it. *)
Theorem second_platform_inherits :
  (fun l => map (fun i => (i_uuid i, i_product_name i, map s_name (i_sensors i))) l) <$> parse file [] =
  Some [("A", "One", ["s1"]); ("A", "Two", ["s1"; "s2"])]%string.
Proof. vm_compute. done. Qed.

(** Gains below one are handed on as zero. *)
Definition gains : Parse :=
  mkParse [thermal_info_init <| i_cdevs := [cooling_dev_init <| d_pid_enable := true |>
    <| d_pid := Some (PidControl (f64_lit 5 10000) (f64_lit 1 10000) (f64_lit 1 10000)) |>] |>] 0 false [].
Theorem gains_truncated : get_pid_values 0 gains = Some (Some (0, 0, 0)).
Proof. vm_compute. done. Qed.

#[local] Existing Instance Quiet.quiet_os.
(** The wildcard of the last search, with an identifier that does not match. *)
Definition wild : Parse := mkParse [thermal_info_init <| i_uuid := "A" |> <| i_product_name := "*" |>] (-1) false [].
Lemma matched_in_list_witness :
  fst (res (platform_matched wild) Quiet.world0) = true /\
  is_Some (the_info (snd (res (platform_matched wild) Quiet.world0))).
Proof. split; [reflexivity|]. apply matched_in_list. reflexivity. Defined.
End Platforms.
