(* ===== verification/Generated.v ===== *)
(** * The thermal daemon: the generated configuration is read back

    What AcpiRel.v writes is the text of a tree, and Config.v makes of the tree
    the zones, trip points and devices of the relation tables. *)

From Stdlib Require Import ZArith Lia Ascii String.
From stdpp Require Import base list option strings pretty sets.
From S2P Require Import Prelude Decimal Floats ThdCommon Gddv ThdIo Int3400 Xml AcpiRel Pid Cdev Sensor Trip Config.

#[local] Open Scope Z_scope.
#[local] Open Scope prog_scope.

(** ** Trees and their text *)

(** Elements on lines of their own between the text of the start and the end tag. *)
Fixpoint spaced (inner outer : string) (l : list xmlNode) : list xmlNode :=
  match l with
  | [] => [Text (nl +:+ outer)]
  | e :: l => Text (nl +:+ inner) :: e :: spaced inner outer l
  end.
Definition leaf (name text : string) : xmlNode := Element name [Text text].
Definition block (name inner outer : string) (l : list xmlNode) : xmlNode := Element name (spaced inner outer l).
Definition lines (prefix : string) (l : list xmlNode) : string :=
  foldr (fun e s => prefix +:+ render e +:+ nl +:+ s) EmptyString l.

Lemma app_assoc (a b c : string) : (a +:+ b) +:+ c = a +:+ (b +:+ c).
Proof. induction a as [|x a IH]; [done|]. change (String x ((a +:+ b) +:+ c) = String x (a +:+ (b +:+ c))). by rewrite IH. Qed.

Lemma lines_one p e : lines p [e] = p +:+ render e +:+ nl.
Proof. unfold lines. cbn [foldr]. by rewrite string_app_nil_r. Qed.
Lemma lines_app p l1 l2 : lines p (l1 ++ l2) = lines p l1 +:+ lines p l2.
Proof. induction l1 as [|e l1 IH]; simpl; [done|]. rewrite IH, !app_assoc. done. Qed.

Lemma render_spaced inner outer l : render_all (spaced inner outer l) = nl +:+ lines inner l +:+ outer.
Proof.
  induction l as [|e l IH]; unfold render_all in *; cbn [spaced foldr render lines].
  - by rewrite string_app_nil_r.
  - rewrite IH. unfold lines. by rewrite !app_assoc.
Qed.
Lemma render_block name inner outer l :
  render (block name inner outer l) =
  "<" +:+ name +:+ ">" +:+ nl +:+ lines inner l +:+ outer +:+ "</" +:+ name +:+ ">".
Proof.
  change (render (block name inner outer l)) with
    ("<" +:+ name +:+ ">" +:+ render_all (spaced inner outer l) +:+ "</" +:+ name +:+ ">").
  by rewrite render_spaced, !app_assoc.
Qed.

Section Walks.
Context {A : Type} (f : string -> list xmlNode -> A -> option A).
Lemma walk_spaced inner outer l acc : walk f (spaced inner outer l) acc = walk f l acc.
Proof.
  revert acc. induction l as [|e l IH]; intros acc; simpl; [done|].
  destruct e; simpl; [|apply IH..]. destruct (f _ _ _); simpl; [apply IH|done].
Qed.
Lemma walk_app l1 l2 acc : walk f (l1 ++ l2) acc = acc ← walk f l1 acc; walk f l2 acc.
Proof.
  revert acc. induction l1 as [|e l1 IH]; intros acc; simpl; [done|].
  destruct e; [|apply IH..]. destruct (f _ _ _); simpl; [apply IH|done].
Qed.
End Walks.
Lemma walk_text_spaced `{LibXml} {A} (f : string -> list xmlNode -> string -> A -> option A) inner outer l acc :
  walk_text f (spaced inner outer l) acc = walk_text f l acc.
Proof. apply walk_spaced. Qed.
Lemma walk_text_app `{LibXml} {A} (f : string -> list xmlNode -> string -> A -> option A) l1 l2 acc :
  walk_text f (l1 ++ l2) acc = acc ← walk_text f l1 acc; walk_text f l2 acc.
Proof. apply walk_app. Qed.

Section WithXml.
Context `{LibXmlLaws}.
Lemma walk_text_leaf {A} (f : string -> list xmlNode -> string -> A -> option A) name text l acc :
  walk_text f (leaf name text :: l) acc = acc ← f name [Text text] text acc; walk_text f l acc.
Proof. unfold walk_text. simpl. by rewrite get_string_text. Qed.
(** An element with children on lines of their own has a text. *)
Lemma walk_text_block {A} (f : string -> list xmlNode -> string -> A -> option A) name inner outer ch l acc :
  exists v, walk_text f (block name inner outer ch :: l) acc =
    acc ← f name (spaced inner outer ch) v acc; walk_text f l acc.
Proof.
  unfold walk_text. simpl.
  destruct ch as [|e ch]; simpl; [rewrite get_string_text; eauto|].
  destruct (get_string_some (nl +:+ inner) (e :: spaced inner outer ch)) as [v ->]. eauto.
Qed.
End WithXml.

(** ** Programs that write elements *)

Lemma bind_run {S A B} (m : M S A) (k : A -> M S B) s : bind m k s = k (res m s) (post m s).
Proof. unfold bind, res, post. by destruct (m s). Qed.
Lemma bind_bind {S A B} (m1 : M S A) (m2 : M S unit) (k : M S B) s :
  (m1 ;;; m2 ;;; k) s = ((m1 ;;; m2) ;;; k) s.
Proof. unfold bind. destruct (m1 s) as [a s']. by destruct (m2 s'). Qed.

Section Emits.
Context `{ThdOs} `{RelDevice}.

(** [m] adds the lines of the elements to the file. *)
Definition adds (p : string) {A} (m : M Rs A) (s : Rs) (l : list xmlNode) : Prop :=
  conf_file (snd (post m s)) = conf_file (snd s) +:+ lines p l.
(** Whatever the state, [m] adds elements of [Q]. *)
Definition emits (p : string) (m : M Rs unit) (Q : list xmlNode -> Prop) : Prop :=
  forall s, exists l, Q l /\ adds p m s l.

Lemma emits_conseq p m (Q R : list xmlNode -> Prop) : (forall l, Q l -> R l) -> emits p m Q -> emits p m R.
Proof. intros HQ Hm s. destruct (Hm s) as (l & Hl & E). eauto. Qed.

Lemma emits_ret p (Q : list xmlNode -> Prop) : Q [] -> emits p (ret tt) Q.
Proof. intros HQ s. exists []. split; [done|]. symmetry. apply string_app_nil_r. Qed.
Lemma emits_line p name text (Q : list xmlNode -> Prop) : Q [leaf name text] -> emits p (out_line p name text) Q.
Proof.
  intros HQ [w r]. exists [leaf name text]. split; [done|]. unfold adds. rewrite lines_one.
  unfold out_line, out, upd, post, modify. simpl. by rewrite !string_app_nil_r, !app_assoc.
Qed.
Lemma adds_then {A B} p (m1 : M Rs A) (k : A -> M Rs B) s l1 l2 :
  adds p m1 s l1 -> adds p (k (res m1 s)) (post m1 s) l2 -> adds p (bind m1 k) s (l1 ++ l2).
Proof. unfold adds. intros E1 E2. by rewrite post_bind, E2, E1, lines_app, app_assoc. Qed.
Lemma emits_then p m1 m2 (R : list xmlNode -> Prop) :
  emits p m1 (fun l1 => emits p m2 (fun l2 => R (l1 ++ l2))) -> emits p (m1 ;;; m2) R.
Proof.
  intros H1 s. destruct (H1 s) as (l1 & H2 & E1). destruct (H2 (post m1 s)) as (l2 & HR & E2).
  exists (l1 ++ l2). split; [done|]. by apply adds_then.
Qed.
Lemma emits_wio {A} p (m : M World A) (P : A -> Prop) k Q :
  (forall w, P (res m w)) -> (forall a, P a -> emits p (k a) Q) -> emits p (bind (wio m) k) Q.
Proof.
  intros Hm Hk [w r]. specialize (Hm w). unfold adds. setoid_rewrite post_bind.
  unfold wio, res, post in *. simpl. destruct (m w) as [a w']. simpl in *.
  exact (Hk a Hm (w', r)).
Qed.
(** The lines inside may be indented in any way. *)
Definition opened (p name : string) (s : Rs) : Rs := post (out (p +:+ "<" +:+ name +:+ ">" +:+ nl)) s.
Lemma adds_block {A} p name inner (m : M Rs A) l s :
  adds inner m (opened p name s) l -> adds p (out_block p name m) s [block name inner p l].
Proof.
  destruct s as [w r]. unfold adds, opened. rewrite lines_one, render_block.
  unfold out_block, out, upd, modify, bind, ret, post. cbn [fst snd].
  destruct (m _) as [u [w' r']]. unfold put.
  cbv beta delta [put_conf_file]. cbn [fst snd conf_file]. intros ->. by rewrite !app_assoc.
Qed.
Lemma emits_block p name inner m (Q : list xmlNode -> Prop) :
  emits inner m (fun l => Q [block name inner p l]) -> emits p (out_block p name m) Q.
Proof.
  intros Hm s. destruct (Hm (opened p name s)) as (l & Hl & E). exists [block name inner p l].
  split; [done|]. by apply adds_block.
Qed.
Lemma emits_mfor {A} p (body : A -> M Rs unit) (Q : A -> xmlNode -> Prop) l :
  (forall x, x ∈ l -> emits p (body x) (fun r => exists e, r = [e] /\ Q x e)) ->
  emits p (mfor l body) (fun r => Forall2 Q l r).
Proof.
  induction l as [|x l IH]; intros Hb; simpl; [apply emits_ret; constructor|].
  apply emits_then. eapply emits_conseq; [|apply Hb; set_solver].
  intros r (e & -> & He). eapply emits_conseq; [|apply IH; set_solver]. intros r' Hr. by constructor.
Qed.
End Emits.

(** ** The entries *)

(** A text without blanks. *)
Definition plain (s : string) : Prop := string_trim s = s.
Lemma plain_substitute l s : Forall (fun e => plain (snd e)) l -> plain s -> plain (substitute l s).
Proof.
  intros Hl Hs. unfold substitute. destruct (List.find _ l) as [[a b]|] eqn:E; [|done].
  apply List.find_some in E as [Hin _]. rewrite Forall_forall in Hl. by apply list_elem_of_In, Hl in Hin.
Qed.

(** The names the source of a relation can get. *)
Definition alias (src n : string) : Prop :=
  n = substitute target_substitue_strings src \/ In n ["LCD"; "rapl_controller_dram"; "rapl_controller"]%string.
Lemma alias_plain src n : plain src -> alias src n -> plain n.
Proof.
  intros Hs [->|Hn].
  - apply plain_substitute; [|done]. repeat constructor.
  - simpl in Hn. by repeat destruct Hn as [<-|Hn].
Qed.

(** Evaluate the comparisons of names and the trimming of literals. *)
Ltac evaluate :=
  repeat match goal with
  | |- context [named ?a ?b] => let v := eval vm_compute in (named a b) in change (named a b) with v
  | |- context [char_trim ?a] => let v := eval vm_compute in (char_trim a) in change (char_trim a) with v
  | |- context [type_named ?a ?b] =>
      let v := eval vm_compute in (type_named a b) in change (type_named a b) with v
  | |- context [atoi "*"] => change (atoi "*") with 0
  end; cbv iota beta; cbn [option_bind mbind].

Section Entries.
Context `{ThdOs} `{RelDevice} `{!LibXmlLaws}.

Lemma associate_name name l w :
  In (res (associate_entries name l) w) [name; "DISP"; "TMEM"; "TCPU"]%string.
Proof.
  revert w. induction l as [|d l IH]; intros w; [by left|].
  assert (forall P : string -> Prop, (forall w, P (res (associate_entries name l) w)) ->
    (forall n, In n [name; "DISP"; "TMEM"; "TCPU"]%string -> P n) -> P (res (associate_entries name (d :: l)) w)) as Hcase.
  { intros P Hl Hn. apply wp_res. cbn [associate_entries].
    destruct (has_prefix _ d); [|apply Hl]. apply wp_bind, wp_conseq with (fun _ _ => True); [|done].
    intros [[|c buf]|] w1 _; [apply Hl| |apply Hl]. apply wp_bind, wp_conseq with (fun _ _ => True); [|done].
    intros uid w2 _. case_bool_decide; [|apply Hl]. apply wp_ret, Hn.
    repeat destruct (contains _ _); simpl; tauto. }
  apply Hcase; [exact IH|done].
Qed.
Lemma subtitute_alias name w : alias name (res (subtitute_string TARGET_DEV name) w).
Proof.
  apply wp_res. apply wp_bind. unfold associate_device. apply wp_bind.
  apply wp_conseq with (fun _ _ => True); [|done]. intros l w' _.
  apply wp_conseq with (fun n _ => In n [name; "DISP"; "TMEM"; "TCPU"]%string); [|apply associate_name].
  intros n t Hn. apply wp_ret. simpl in Hn. unfold alias.
  destruct Hn as [<-|[<-|[<-|[<-|[]]]]]; [by left|..]; right; vm_compute; tauto.
Qed.

(** *** Devices *)

Definition trt_cdev (e : trt_object) (n : string) : trip_cdev_t :=
  trip_cdev_init <| c_type := n |> <| c_influence := trt_influence e |>
    <| c_sampling_period := trt_period e / 10 |>.
Definition art_cdev (e : art_object) (n : string) : trip_cdev_t :=
  trip_cdev_init <| c_type := n |> <| c_influence := art_weight e |>.

(** An element that the trip point parser takes for the device [c]. *)
Definition is_cdev (c : trip_cdev_t) (e : xmlNode) : Prop :=
  exists inner outer l, e = block "CoolingDevice" inner outer l /\
    parse_new_trip_cdev l trip_cdev_init = Some c.

Definition trt_ok (e : trt_object) : Prop :=
  plain (trt_source e) /\ 0 <= trt_influence e < 2 ^ 31 /\ 0 <= trt_period e < 2 ^ 31.
Definition art_ok (e : art_object) : Prop := plain (art_source e) /\ 0 <= art_weight e < 2 ^ 31.

Lemma trt_entry_emits p e : trt_ok e ->
  emits p (add_trt_entry p e) (fun r => exists x, r = [x] /\ exists n, alias (trt_source e) n /\ is_cdev (trt_cdev e n) x).
Proof.
  intros (Hs & Hi & Hp). apply emits_block with (p +:+ tab).
  apply emits_wio with (alias (trt_source e)); [intros w; apply subtitute_alias|]. intros n Hn.
  apply emits_then, emits_line, emits_then, emits_line, emits_line.
  eexists. split; [done|]. exists n. split; [done|]. do 3 eexists. split; [done|].
  unfold parse_new_trip_cdev. cbn [app]. rewrite !walk_text_leaf. evaluate.
  rewrite walk_text_leaf. evaluate. rewrite walk_text_leaf. evaluate.
  assert (wrap 64 (trt_period e * 100) / 1000 = trt_period e / 10) as ->.
  { rewrite wrap_small by lia. replace 1000 with (10 * 100) by lia. apply Z.div_mul_cancel_r; lia. }
  assert (0 <= trt_period e / 10 < 2 ^ 31).
  { split; [apply Z.div_pos; lia|]. apply Z.div_lt_upper_bound; lia. }
  by rewrite (alias_plain _ _ Hs Hn), !atoi_pretty by lia.
Qed.
Lemma art_entry_emits p e : art_ok e ->
  emits p (add_art_entry p e) (fun r => exists x, r = [x] /\ exists n, alias (art_source e) n /\ is_cdev (art_cdev e n) x).
Proof.
  intros (Hs & Hi). apply emits_block with (p +:+ tab).
  apply emits_wio with (alias (art_source e)); [intros w; apply subtitute_alias|]. intros n Hn.
  apply emits_then, emits_line, emits_line.
  eexists. split; [done|]. exists n. split; [done|]. do 3 eexists. split; [done|].
  unfold parse_new_trip_cdev. cbn [app]. rewrite !walk_text_leaf. evaluate. rewrite walk_text_leaf. evaluate.
  by rewrite (alias_plain _ _ Hs Hn), atoi_pretty by lia.
Qed.

(** *** Trip points *)

Lemma parse_spaced_cdev inner outer l c : parse_new_trip_cdev (spaced inner outer l) c = parse_new_trip_cdev l c.
Proof. apply walk_spaced. Qed.
Lemma trip_point_cdev children v t : trip_point_field "CoolingDevice" children v t =
  c ← parse_new_trip_cdev children trip_cdev_init; Some (t <| t_cdevs := t_cdevs t ++ [c] |>).
Proof. done. Qed.

(** The devices of a trip point, read from elements that follow one another. *)
Lemma read_cdevs (cs : list trip_cdev_t) es : Forall2 is_cdev cs es -> forall t,
  walk_text trip_point_field es t = Some (t <| t_cdevs := t_cdevs t ++ cs |>).
Proof.
  induction 1 as [|c e cs es (inner & outer & l & -> & Hl) _ IH]; intros t.
  - unfold put. simpl. rewrite app_nil_r. by destruct t.
  - destruct (walk_text_block trip_point_field "CoolingDevice" inner outer l es t) as [v ->].
    rewrite trip_point_cdev, parse_spaced_cdev, Hl. cbn [mbind option_bind]. rewrite IH.
    unfold put. simpl. by rewrite <- List.app_assoc.
Qed.

(** The trip point of the relations of one kind, with its devices. *)
Definition rel_trip (type : trip_point_type_t) (sensor : string) (cs : list trip_cdev_t) : trip_point_t :=
  trip_point_init <| t_type := type |> <| t_control := SEQUENTIAL |> <| t_sensor_type := sensor |>
    <| t_cdevs := cs |>.
Definition is_trip (t : trip_point_t) (e : xmlNode) : Prop :=
  exists inner outer l, e = block "TripPoint" inner outer l /\ parse_new_trip_point l trip_point_init = Some t.

Section Fields.
Context (c : list xmlNode) (t : trip_point_t).
Lemma field_sensor v : trip_point_field "SensorType" c v t = Some (t <| t_sensor_type := string_trim v |>).
Proof. done. Qed.
Lemma field_temperature : trip_point_field "Temperature" c "*" t = Some (t <| t_temperature := 0 |>).
Proof. done. Qed.
Lemma field_control : trip_point_field "ControlType" c "SEQUENTIAL" t = Some (t <| t_control := SEQUENTIAL |>).
Proof. done. Qed.
Lemma field_type type ty : In (type, ty) [("passive", PASSIVE); ("active", ACTIVE)]%string ->
  trip_point_field "type" c type t = Some (t <| t_type := ty |>).
Proof. simpl. by intros [[= <- <-]|[[= <- <-]|[]]]. Qed.
End Fields.

Lemma read_trip sensor type ty es cs :
  In (type, ty) [("passive", PASSIVE); ("active", ACTIVE)]%string -> plain sensor -> Forall2 is_cdev cs es ->
  parse_new_trip_point
    (leaf "SensorType" sensor :: leaf "Temperature" "*" :: leaf "type" type :: leaf "ControlType" "SEQUENTIAL" :: es)
    trip_point_init = Some (rel_trip ty sensor cs).
Proof.
  intros Hty Hs Hes. unfold parse_new_trip_point.
  rewrite walk_text_leaf, field_sensor, Hs. cbn [mbind option_bind].
  rewrite walk_text_leaf, field_temperature. cbn [mbind option_bind].
  rewrite walk_text_leaf, (field_type _ _ _ _ Hty). cbn [mbind option_bind].
  rewrite walk_text_leaf, field_control. cbn [mbind option_bind].
  by rewrite (read_cdevs _ _ Hes).
Qed.
(** *** Writing trip points *)

(** The device a relation becomes. *)
Definition trt_device (e : trt_object) (c : trip_cdev_t) : Prop :=
  exists n, alias (trt_source e) n /\ c = trt_cdev e n.
Definition art_device (e : art_object) (c : trip_cdev_t) : Prop :=
  exists n, alias (art_source e) n /\ c = art_cdev e n.

Lemma Forall2_mid {A B C} (P : A -> B -> Prop) (R : B -> C -> Prop) l r :
  Forall2 (fun x e => exists c, P x c /\ R c e) l r -> exists cs, Forall2 P l cs /\ Forall2 R cs r.
Proof.
  induction 1 as [|x e l r (c & HP & HR) _ (cs & IP & IR)]; [by exists []|].
  exists (c :: cs). by split; constructor.
Qed.
Lemma entries_emit {E} p (body : E -> M Rs unit) (dev : E -> trip_cdev_t -> Prop) l :
  (forall e, e ∈ l -> emits p (body e) (fun r => exists x, r = [x] /\ exists c, dev e c /\ is_cdev c x)) ->
  emits p (mfor l body) (fun es => exists cs, Forall2 dev l cs /\ Forall2 is_cdev cs es).
Proof. intros Hb. eapply emits_conseq; [apply Forall2_mid|]. by apply emits_mfor. Qed.

Lemma out_trip_emits p sensor type ty entries (Q : list trip_cdev_t -> Prop) :
  In (type, ty) [("passive", PASSIVE); ("active", ACTIVE)]%string ->
  plain (substitute sensor_substitue_strings sensor) ->
  emits (p +:+ tab) entries (fun es => exists cs, Q cs /\ Forall2 is_cdev cs es) ->
  emits p (out_block p "TripPoint" (
      sensor <- wio (subtitute_string SENSOR_DEV sensor) ;;
      out_line (p +:+ tab) "SensorType" sensor ;;;
      out_line (p +:+ tab) "Temperature" "*" ;;;
      out_line (p +:+ tab) "type" type ;;;
      out_line (p +:+ tab) "ControlType" "SEQUENTIAL" ;;; entries))
    (fun l => exists cs, Q cs /\ Forall2 is_trip [rel_trip ty (substitute sensor_substitue_strings sensor) cs] l).
Proof.
  intros Hty Hs He. apply emits_block with (p +:+ tab).
  apply emits_wio with (fun n => n = substitute sensor_substitue_strings sensor); [done|]. intros n ->.
  do 4 apply emits_then, emits_line. eapply emits_conseq; [|exact He].
  intros es (cs & HQ & Hcs). exists cs. split; [done|]. constructor; [|done].
  do 3 eexists. split; [done|]. by apply read_trip.
Qed.

(** The trip points of an object, in the order they are written. *)
Definition rel_trips (sensor : string) (ts acs : list trip_cdev_t) : list trip_point_t :=
  (if ts is [] then [] else [rel_trip PASSIVE sensor ts]) ++ (if acs is [] then [] else [rel_trip ACTIVE sensor acs]).
Definition object_ok (o : rel_object_t) : Prop :=
  plain (target_device o) /\ plain (target_sensor o) /\ Forall trt_ok (trt_objects o) /\ Forall art_ok (art_objects o).

Lemma trip_adds {E} type ty (objs : list E) sensor (body : string -> E -> M Rs unit) dev s :
  In (type, ty) [("passive", PASSIVE); ("active", ACTIVE)]%string -> plain sensor ->
  (forall p e, e ∈ objs -> emits p (body p e) (fun r => exists x, r = [x] /\ exists c, dev e c /\ is_cdev c x)) ->
  exists cs es,
    adds (indentation (snd s) +:+ tab)
      (if bool_decide (objs = []) then ret tt else out_trip sensor type (fun p => mfor objs (body p))) s es /\
    Forall2 dev objs cs /\
    Forall2 is_trip (if cs is [] then [] else [rel_trip ty (substitute sensor_substitue_strings sensor) cs]) es.
Proof.
  intros Hty Hp Hb. case_bool_decide as E0.
  - exists [], []. rewrite E0. split; [symmetry; apply string_app_nil_r|]. by split; constructor.
  - destruct (out_trip_emits (indentation (snd s) +:+ tab) sensor type ty
      (mfor objs (body ((indentation (snd s) +:+ tab) +:+ tab))) (Forall2 dev objs) Hty) with (s := s)
      as (es & (cs & Hcs & Hes) & Ha).
    + by apply plain_substitute; [repeat constructor|].
    + apply entries_emit. auto.
    + exists cs, es. split; [|split; [done|]].
      * unfold adds, out_trip. rewrite post_bind. exact Ha.
      * destruct cs; [|done]. by apply Forall2_nil_inv_r in Hcs.
Qed.

(** Both trip points of an object; the first leaves the indentation. *)
Lemma same_out {T} (f : Rel -> T) text :
  (forall r v, f (r <| conf_file := v |>) = f r) -> same (fun s : Rs => f (snd s)) (out text).
Proof. intros Hf s. apply Hf. Qed.
Lemma same_wio {A T} (f : Rel -> T) (m : M World A) : same (fun s : Rs => f (snd s)) (wio m).
Proof. intros [w r]. unfold post, wio. simpl. by destruct (m w). Qed.
Lemma same_passive o : same (fun s : Rs => indentation (snd s)) (add_passive_trip_point o).
Proof.
  unfold add_passive_trip_point, out_trip, out_block, out_line, add_trt_entry, out_block, out_line.
  repeat first [apply same_if | apply same_ret | apply same_gets | apply same_wio | apply same_mfor; intros ?
    | by apply same_out | apply same_bind; [|intros ?]].
Qed.
Lemma trips_adds o s : object_ok o -> exists inner ts acs es,
  adds inner (add_trt_art_trips o) s es /\ Forall2 trt_device (trt_objects o) ts /\
  Forall2 art_device (art_objects o) acs /\
  Forall2 is_trip (rel_trips (substitute sensor_substitue_strings (target_sensor o)) ts acs) es.
Proof.
  intros (_ & Hp & Ht & Ha). rewrite Forall_forall in Ht. rewrite Forall_forall in Ha.
  set (s1 := post indent_more s). set (s2 := post (add_passive_trip_point o) s1).
  destruct (trip_adds "passive" PASSIVE (trt_objects o) (target_sensor o) add_trt_entry trt_device s1)
    as (ts & es1 & A1 & D1 & I1); [by left|done| |].
  { intros p e He. eapply emits_conseq; [|by apply trt_entry_emits, Ht]. intros r (x & -> & n & Hn & Hx).
    exists x. split; [done|]. exists (trt_cdev e n). split; [by exists n|done]. }
  destruct (trip_adds "active" ACTIVE (art_objects o) (target_sensor o) add_art_entry art_device s2)
    as (acs & es2 & A2 & D2 & I2); [by right; left|done| |].
  { intros p e He. eapply emits_conseq; [|by apply art_entry_emits, Ha]. intros r (x & -> & n & Hn & Hx).
    exists x. split; [done|]. exists (art_cdev e n). split; [by exists n|done]. }
  exists (indentation (snd s1) +:+ tab), ts, acs, (es1 ++ es2). split; [|split; [done|split; [done|]]].
  - apply (adds_then (A := unit) _ indent_more _ s [] (es1 ++ es2)).
    + unfold adds. destruct s. simpl. by rewrite string_app_nil_r.
    + apply adds_then; [exact A1|]. fold s1 s2. unfold s2 in A2 at 1. rewrite same_passive in A2. exact A2.
  - unfold rel_trips. by apply Forall2_app.
Qed.
(** *** Zones *)

Definition zone_of (o : rel_object_t) (z : thermal_zone_t) : Prop :=
  z_type z = substitute source_substitue_strings (target_device o) /\
  exists ts acs, Forall2 trt_device (trt_objects o) ts /\ Forall2 art_device (art_objects o) acs /\
    z_trips z = rel_trips (substitute sensor_substitue_strings (target_sensor o)) ts acs.
Definition is_zone (z : thermal_zone_t) (e : xmlNode) : Prop :=
  exists inner outer l, e = block "ThermalZone" inner outer l /\
    forall z0, parse_new_zone l (z0 <| z_trips := [] |>) = Some z.

Lemma read_trips ts es : Forall2 is_trip ts es -> forall z,
  parse_trip_points es z = Some (z <| z_trips := z_trips z ++ ts |>).
Proof.
  induction 1 as [|t e ts es (inner & outer & l & -> & Hl) _ IH]; intros z.
  - unfold put. simpl. rewrite app_nil_r. by destruct z.
  - unfold parse_trip_points. cbn [walk block]. change (named "TripPoint" "TripPoint") with true.
    cbv iota. unfold parse_new_trip_point in *. rewrite walk_text_spaced, Hl. cbn [mbind option_bind].
    etrans; [exact (IH _)|]. unfold put. simpl. by rewrite <- List.app_assoc.
Qed.
Lemma parse_spaced_trips inner outer l z : parse_trip_points (spaced inner outer l) z = parse_trip_points l z.
Proof. apply walk_spaced. Qed.
Lemma read_zone name inner outer ts es z0 : plain name -> Forall2 is_trip ts es ->
  parse_new_zone [leaf "Type" name; block "TripPoints" inner outer es] (z0 <| z_trips := [] |>) =
  Some (ThermalZone name ts).
Proof.
  intros Hn Hes. unfold parse_new_zone. cbn [walk leaf block].
  change (named "Type" "TripPoints") with false. change (named "Type" "Type") with true.
  change (named "TripPoints" "TripPoints") with true. cbv iota.
  rewrite get_string_text. cbn [mbind option_bind]. 
  by rewrite parse_spaced_trips, Hn, (read_trips _ _ Hes).
Qed.
Lemma zone_emits p o : object_ok o -> target_device o <> EmptyString ->
  emits p (out_zone p add_trt_art_trips o)
    (fun r => exists e, r = [e] /\ exists z, zone_of o z /\ is_zone z e).
Proof.
  intros Ho Hn. unfold out_zone. apply String.eqb_neq in Hn. rewrite Hn.
  apply emits_block with (p +:+ tab).
  apply emits_wio with (fun n => n = substitute source_substitue_strings (target_device o)); [done|]. intros n ->.
  apply emits_then, emits_line. intros s.
  destruct (trips_adds o (opened (p +:+ tab) "TripPoints" s) Ho) as (inner & ts & acs & es & Ha & Ht & Hac & Hes).
  exists [block "TripPoints" inner (p +:+ tab) es]. split; [|by apply adds_block].
  eexists. split; [done|].
  exists (ThermalZone (substitute source_substitue_strings (target_device o))
            (rel_trips (substitute sensor_substitue_strings (target_sensor o)) ts acs)).
  split; [split; [done|by exists ts, acs]|].
  do 3 eexists. split; [done|]. intros z0. apply read_zone; [|done].
  apply plain_substitute; [repeat constructor|apply Ho].
Qed.

Definition has_target (o : rel_object_t) : Prop := target_device o <> EmptyString.
#[export] Instance has_target_dec o : Decision (has_target o) := ltac:(unfold has_target; solve_decision).
Lemma zones_emit p l : Forall object_ok l ->
  emits p (mfor l (out_zone p add_trt_art_trips))
    (fun r => exists zs, Forall2 zone_of (filter has_target l) zs /\ Forall2 is_zone zs r).
Proof.
  induction 1 as [|o l Ho _ IH]; [apply emits_ret; exists []; by split; constructor|].
  cbn [mfor]. apply emits_then. destruct (decide (has_target o)) as [Hn|Hn].
  - eapply emits_conseq; [|by apply zone_emits]. intros r (e & -> & z & Hz & He).
    eapply emits_conseq; [|exact IH]. intros r (zs & Hzs & Hes). exists (z :: zs).
    rewrite filter_cons_True by done. by split; constructor.
  - unfold out_zone at 1. unfold has_target in Hn. destruct (String.eqb_spec (target_device o) "") as [_|]; [|done].
    apply emits_ret. eapply emits_conseq; [|exact IH]. intros r (zs & Hzs & Hes). exists zs.
    by rewrite filter_cons_False.
Qed.
Lemma read_zones zs es : Forall2 is_zone zs es -> forall i,
  parse_thermal_zones es i = Some (i <| i_zones := i_zones i ++ zs |>).
Proof.
  intros Hes i. unfold parse_thermal_zones. generalize (ThermalZone "" []). revert i.
  induction Hes as [|z e zs es (inner & outer & l & -> & Hl) _ IH]; intros i z0.
  - unfold put. simpl. rewrite app_nil_r. by destruct i.
  - cbn [walk block]. change (named "ThermalZone" "ThermalZone") with true. cbv iota.
    unfold parse_new_zone in *. rewrite walk_spaced. cbn [fst snd]. rewrite Hl. cbn [mbind option_bind].
    cbn [fst snd]. rewrite IH. unfold put. simpl. by rewrite <- List.app_assoc.
Qed.

(** *** The file *)

Lemma objects_ok ts acs : Forall (fun e => trt_ok e /\ plain (trt_target e)) ts ->
  Forall (fun e => art_ok e /\ plain (art_target e)) acs -> Forall object_ok (group_tables ts acs [] []).
Proof.
  intros Hts Hacs. rewrite Forall_forall in Hts. rewrite Forall_forall in Hacs.
  destruct (grouped_all ts acs []) as (_ & Hs & [G1 _] & [G2 _] & _ & Hc). unfold targets_of in Hc.
  rewrite Forall_forall in Hs. rewrite Forall_forall in G1. rewrite Forall_forall in G2.
  apply Forall_forall. intros o Ho. assert (plain (target_device o)) as Hp.
  { specialize (Hc (target_device o)). simpl in Hc. rewrite app_nil_r in Hc.
    assert (target_device o ∈ (trt_target <$> ts) ++ (art_target <$> acs)) as [Hin|Hin]%elem_of_app
      by (apply Hc, list_elem_of_fmap_2, Ho).
    - apply list_elem_of_fmap in Hin as (e & -> & He). by apply Hts.
    - apply list_elem_of_fmap in Hin as (e & -> & He). by apply Hacs. }
  split; [done|]. split; [by rewrite (Hs o Ho)|].
  rewrite (G1 o Ho), (G2 o Ho). split; apply Forall_forall; intros e [_ He]%list_elem_of_filter; [by apply Hts|by apply Hacs].
Qed.

(** What the zones are read from, once the tables are there. *)
Definition tables_read (r : Rel) (ts : list trt_object) (acs : list art_object) : Prop :=
  rel_list r = [] /\ entries (trt_count r) (trt_data r) = Some ts /\
  entries (art_count r) (art_data r) = Some acs /\ psvt_count r = 0.

Lemma entries_none {E} (data : list E) : entries 0 data = Some [].
Proof. unfold entries. destruct (Z.leb_spec 0 (Z.of_nat (length data))); [done|lia]. Qed.
Lemma create_thermal_zone_adds ts acs s : tables_read (snd s) ts acs ->
  Forall object_ok (group_tables ts acs [] []) -> exists es zs,
  res create_thermal_zone s = true /\ adds (indentation (snd s) +:+ tab) create_thermal_zone s es /\
  Forall2 zone_of (filter has_target (group_tables ts acs [] [])) zs /\ Forall2 is_zone zs es.
Proof.
  destruct s as [w [rl ind conf td tc ad ac pd pc]]. intros (Hl & Ht & Ha & Hp) Hok.
  cbn [snd rel_list trt_count trt_data art_count art_data psvt_count] in *. subst rl pc.
  destruct (zones_emit (ind +:+ tab) _ Hok
    (w, mkRel (group_tables ts acs [] []) ((ind +:+ tab) +:+ tab) conf td tc ad ac pd 0)) as (es & (zs & Hzs & Hes) & E).
  exists es, zs. unfold adds, post, res, create_thermal_zone, indent_more, parse_target_devices, upd, rel, gets, modify, bind, ret in *.
  unfold put, put_indentation, put_rel_list, put_conf_file in *.
  cbn [fst snd trt_count trt_data art_count art_data psvt_count psvt_data id rel_list indentation conf_file] in *.
  rewrite Ht, Ha, entries_none. cbn [negb fst snd rel_list]. destruct (mfor _ _ _) as [u s'].
  cbn [fst snd] in *. by rewrite E.
Qed.

(** Look into the record of the file. *)
Ltac rel_cbn :=
  cbv beta iota zeta delta [put put_indentation put_rel_list put_conf_file fst snd rel_list indentation
    conf_file trt_data trt_count art_data art_count psvt_data psvt_count].
(** The text for the product name, as the next call answers. *)
Definition product_file : string := "/sys/class/dmi/id/product_name".
Definition product_text (w : World) : string :=
  match product_line (os_read (io_calls w) product_file) with Some line => line | None => "*" +:+ nl end.
Definition platform_nodes (product : string) (zones : xmlNode) : list xmlNode :=
  [leaf "Name" "_TRT export"; leaf "ProductName" (product +:+ tab +:+ tab); leaf "Preference" "QUIET"; zones].

Lemma platform_conf_text w r : indentation r = tab ->
  post (create_platform_conf ;;; create_platform_pref false) (w, r) =
  (snd (ask (fun n => os_read n product_file) w), r <| indentation := tab +:+ tab |>
     <| conf_file := conf_file r +:+ lines (tab +:+ tab)
          [leaf "Name" "_TRT export"; leaf "ProductName" (product_text w +:+ tab +:+ tab); leaf "Preference" "QUIET"] |>).
Proof.
  destruct r as [rl ind conf td tc ad ac pd pc]. cbn [indentation]. intros ->.
  unfold create_platform_conf, create_platform_pref, out_line, out, upd, rel, wio, ask, indent_more, post, gets, modify, bind. rel_cbn.
  unfold product_text, product_file. f_equal. f_equal.
  destruct (product_line _); unfold lines, leaf; cbn [foldr render]; by rewrite ?string_app_nil_r, !app_assoc.
Qed.

Lemma string_trim_app a b : string_trim (a +:+ b) = string_trim a +:+ string_trim b.
Proof.
  unfold string_trim. induction a as [|c a IH]; [done|].
  change (String c a +:+ b) with (String c (a +:+ b)). cbn [filter_string].
  destruct (negb _); [|done]. rewrite IH. done.
Qed.

(** The platform that is read. *)
Definition generated_info (product : string) (zs : list thermal_zone_t) : thermal_info_t :=
  thermal_info_init <| i_name := "_TRTexport" |> <| i_product_name := string_trim product |> <| i_zones := zs |>.

Lemma read_platform product inner outer zi zo es zs : Forall2 is_zone zs es ->
  parse_new_platform_info (spaced inner outer (platform_nodes product (block "ThermalZones" zi zo es)))
    (platform_reset thermal_info_init) = Some (generated_info product zs).
Proof.
  intros Hz. unfold parse_new_platform_info, platform_nodes.
  rewrite walk_text_spaced, !walk_text_leaf. evaluate. rewrite walk_text_leaf. evaluate.
  rewrite walk_text_leaf. evaluate.
  match goal with |- walk_text ?f [block ?n zi zo es] ?acc = _ =>
    destruct (walk_text_block f n zi zo es [] acc) as [v ->] end.
  evaluate. unfold parse_thermal_zones. rewrite walk_spaced.
  match goal with |- context [snd <$> walk ?f es (?z0, ?i)] => change (snd <$> walk f es (z0, i)) with (parse_thermal_zones es i) end.
  rewrite (read_zones _ _ Hz). rewrite string_trim_app.
  change (string_trim (tab +:+ tab)) with "". rewrite string_app_nil_r. done.
Qed.

Lemma zones_run p s es : indentation (snd s) = p -> res create_thermal_zone (opened p "ThermalZones" s) = true ->
  adds p (out_block p "ThermalZones" create_thermal_zone) s [block "ThermalZones" (p +:+ tab) p es] ->
  res create_thermal_zones s = true /\
  conf_file (snd (post create_thermal_zones s)) =
    conf_file (snd s) +:+ lines p [block "ThermalZones" (p +:+ tab) p es].
Proof.
  intros Hp Hr Ha. unfold create_thermal_zones, res, post in *. rewrite (bind_run (rel _)).
  unfold rel, gets, res, post. cbn [fst snd]. rewrite Hp. split; [|exact Ha].
  unfold out_block. rewrite !bind_run. unfold opened, post in Hr. exact Hr.
Qed.

(** C18: The relation tables survive the way through the generated file: the file is the text of a
    tree, and the parser makes of the tree one platform with a zone for every target, whose trip
    points hold a device for every entry, with its influence and period. *)
Theorem generated_conf_loaded ts acs s : tables_read (snd s) ts acs ->
  Forall (fun e => trt_ok e /\ plain (trt_target e)) ts ->
  Forall (fun e => art_ok e /\ plain (art_target e)) acs ->
  exists root zs,
    res (out_platform tab create_thermal_zones) s = Done THD_SUCCESS /\
    conf_file (snd (post (out_platform tab create_thermal_zones) s)) = xml_hdr +:+ render root +:+ nl /\
    parse [root] [] = Some [generated_info (product_text (fst s)) zs] /\
    Forall2 zone_of (filter has_target (group_tables ts acs [] [])) zs.
Proof.
  destruct s as [w [rl ind conf td tc ad ac pd pc]]. intros Ht Hts Hacs.
  pose proof (objects_ok _ _ Hts Hacs) as Hok. set (t2 := tab +:+ tab).
  set (r0 := mkRel rl tab (xml_hdr +:+ conf_begin +:+ tab +:+ "<Platform>" +:+ nl) td tc ad ac pd pc).
  pose proof (platform_conf_text w r0 eq_refl) as E1. set (s1 := post _ _) in E1.
  destruct (create_thermal_zone_adds ts acs (opened t2 "ThermalZones" s1)) as (es & zs & Hr & Ha & Hz & Hes).
  { rewrite E1. exact Ht. }
  { done. }
  apply adds_block in Ha.
  exists (block "ThermalConfiguration" tab ""
    [block "Platform" t2 tab (platform_nodes (product_text w) (block "ThermalZones" (t2 +:+ tab) t2 es))]), zs.
  assert (out_platform tab create_thermal_zones (w, mkRel rl ind conf td tc ad ac pd pc) =
    (ok <- create_thermal_zones ;;
     if negb ok then ret Outside
     else out (tab +:+ "</Platform>" +:+ nl) ;;; out conf_end ;;; ret (Done THD_SUCCESS)) s1) as E2.
  { unfold out_platform. rewrite !(bind_run (upd _)), !(bind_run (out _)), bind_bind, bind_run. f_equal. }
  destruct (zones_run t2 s1 es) as (F1 & F2); [by rewrite E1|done|done|].
  rewrite bind_run, F1 in E2. cbv beta iota in E2. cbn [negb] in E2.
  unfold res, post. rewrite E2. split; [done|]. split; [|split; [|done]].
  - match goal with |- _ = ?text => change
      ((conf_file (snd (post create_thermal_zones s1)) +:+ (tab +:+ "</Platform>" +:+ nl)) +:+ conf_end = text) end.
    rewrite F2, E1. rel_cbn. unfold conf_end, platform_nodes.
    rewrite (render_block "ThermalConfiguration"), (lines_one tab), (render_block "Platform"). fold t2.
    match goal with |- context [lines t2 [?a; ?b; ?c; ?z]] =>
      change (lines t2 [a; b; c; z]) with (lines t2 ([a; b; c] ++ [z])) end.
    rewrite lines_app. unfold conf_begin, r0. by rewrite !app_assoc, ?app_assoc.
  - unfold parse. cbn [walk block]. change (named "ThermalConfiguration" "ThermalConfiguration") with true.
    cbv iota. unfold parse_new_platform. cbn [walk spaced block].
    change (named "Platform" "Platform") with true. cbv iota. cbn [fst snd].
    by rewrite (read_platform _ _ _ _ _ _ _ Hes).
Qed.
End Entries.

(** ** The generated platform and the machine *)

Section Machine.
Context `{ThdOs} `{RelDevice}.

(** The machine has a product name: the file has a line, and blanks are not all of it. *)
Definition machine_named (r : Z + string) : bool :=
  match r with
  | inl _ | inr EmptyString => false
  | inr text => Nat.ltb line_size (String.length (first_line text)) ||
                negb (String.eqb (string_trim (first_line text)) EmptyString)
  end.

Lemma generated_sku product zs w : res (match_product_sku (generated_info product zs)) w = true.
Proof. apply wp_res. apply wp_bind, wp_conseq with (fun _ _ => True); [|done]. by intros [line|] t _. Qed.

(** A generated configuration matches the machine it was generated on, and does so exactly
    when the machine has a product name: the wildcard that is written when there is none is not
    looked at for want of an identifier. *)
Theorem generated_conf_matches p w w' zs r : (forall n, os_read n product_file = r) ->
  info_list p = [generated_info (product_text w) zs] ->
  fst (res (platform_matched p) w') = machine_named r.
Proof.
  intros Hr Hp. pattern (res (platform_matched p) w'). apply wp_res.
  unfold platform_matched. rewrite Hp.
  apply wp_bind, wp_conseq with (fun _ _ => True); [|done]. intros line w1 _. apply wp_bind.
  assert (forall line test w0, (forall l t, res (test l (generated_info (product_text w) zs)) t = false) ->
    wp (search_line line test [generated_info (product_text w) zs]) (fun r _ => r = None) w0) as Hno.
  { intros [l|] test w0 Ht; [|done]. unfold search_line, first_that. apply wp_bind. unfold wp at 1. by rewrite Ht. }
  eapply wp_conseq; [|by apply Hno]. intros ? w2 ->. apply wp_bind. unfold read_line.
  apply wp_bind. unfold ask, wp at 1, res, post. cbn [fst snd]. fold product_file. rewrite Hr. apply wp_ret.
  unfold product_text in *. rewrite Hr in *. unfold machine_named, product_line.
  destruct r as [e|[|c text]]; [by vm_compute..|].
  set (line' := first_line (String c text)).
  assert (forall product, (forall t, res (name_matches line' (generated_info product zs)) t =
      negb (String.eqb (string_trim product) EmptyString) && (String.eqb (string_trim product) "*" ||
        String.eqb (string_trim line') (string_trim product)))) as Hname.
  { intros product t. unfold name_matches. change (i_product_name _) with (string_trim product).
    destruct (String.eqb _ EmptyString); [done|]. destruct (String.eqb _ "*"); [done|].
    destruct (String.eqb _ _); [apply generated_sku|done]. }
  apply wp_bind. unfold search_line, first_that. apply wp_bind. unfold wp at 1. rewrite Hname.
  destruct (Nat.leb_spec (String.length line') line_size) as [Hl|Hl].
  - apply Nat.ltb_ge in Hl. rewrite Hl, (proj2 (String.eqb_eq (string_trim line') _) eq_refl), orb_true_r, andb_true_r.
    by destruct (String.eqb_spec (string_trim line') EmptyString).
  - apply Nat.ltb_lt in Hl. rewrite Hl. done.
Qed.
End Machine.

(** ** A machine with two tables *)

Module Relations.
#[local] Instance dmi_os : ThdOs := {
  os_time _ := 0; os_stat _ _ := false;
  os_read _ path := if String.eqb path product_file then inr ("MiniBook X" +:+ nl) else inl (-2);
  os_write _ _ _ := 1; os_unset _ := 0; os_thread _ := true; os_writable _ _ := false;
  os_link _ _ := None; os_rundir := "/var/run/thermald"; os_dir _ _ := None;
  os_confdir := "/etc/thermald"; os_owner _ _ := None; os_lstat _ _ := None; os_xml _ _ := None; os_uname _ := ""; os_size _ _ := 0;
  os_libxml := Texts.text_xml
}.
Definition trts : list trt_object := [Trt "TCPU" "TMEM" 100 50; Trt "TFN1" "B0D4" 10 100]%string.
Definition arts : list art_object := [Art "TFN1" "TMEM" 80]%string.
#[local] Instance rel_device : RelDevice := {
  rel_open _ := true; rel_count _ := Some 2; rel_length _ := Some 128;
  rel_trt _ := Some trts; rel_art _ := Some arts; rel_psvt _ := None; file_writable _ _ := true
}.
#[local] Instance dmi_laws : LibXmlLaws := Texts.text_laws.
Definition conf_start : Rs := (Quiet.world0, rel_new <| trt_data := trts |> <| trt_count := 2 |>
  <| art_data := arts |> <| art_count := 1 |>).

(** The zone of TMEM has a passive and an active trip point. *)
Example two_trips :
  (fun l => map (fun i => map (fun z => (z_type z, map (fun t => (t_type t, map c_type (t_cdevs t))) (z_trips z)))
     (i_zones i)) l) <$>
  parse [block "ThermalConfiguration" tab "" [block "Platform" tab tab [
    block "ThermalZones" tab tab [block "ThermalZone" tab tab [leaf "Type" "TMEM";
      block "TripPoints" tab tab [block "TripPoint" tab tab [leaf "type" "passive";
        block "CoolingDevice" tab tab [leaf "type" "rapl_controller"; leaf "influence" "100"]]]]]]]] [] =
  Some [[("TMEM", [(PASSIVE, ["rapl_controller"])])]]%string.
Proof. vm_compute. done. Qed.

Lemma generated_conf_loaded_witness : exists root zs,
  res (out_platform tab create_thermal_zones) conf_start = Done THD_SUCCESS /\
  conf_file (snd (post (out_platform tab create_thermal_zones) conf_start)) = xml_hdr +:+ render root +:+ nl /\
  parse [root] [] = Some [generated_info (product_text (fst conf_start)) zs] /\
  Forall2 zone_of (filter has_target (group_tables trts arts [] [])) zs.
Proof.
  apply (generated_conf_loaded trts arts conf_start); [repeat split|repeat constructor; simpl; lia|repeat constructor; simpl; lia].
Defined.

Definition loaded : Parse := mkParse [generated_info (product_text Quiet.world0) []] (-1) true [].
Lemma generated_conf_matches_witness :
  fst (res (platform_matched loaded) Quiet.world0) = machine_named (inr ("MiniBook X" +:+ nl)) /\
  machine_named (inr ("MiniBook X" +:+ nl)) = true.
Proof. split; [|reflexivity]. by apply (generated_conf_matches loaded Quiet.world0 Quiet.world0 []). Defined.
End Relations.
