(* ===== verification/Zone.v ===== *)
(** * The thermal daemon: zones

    thd_zone.{h,cpp}.  A zone has the trips, points to its sensors and hands
    their readings to the trips; its operations take it and give it back. *)

From Stdlib Require Import ZArith Lia Ascii String Sorted.
From stdpp Require Import base list option strings pretty sets.
From S2P Require Import Prelude Floats ThdCommon ThdIo Pid Cdev Sensor Trip Config.

#[local] Open Scope Z_scope.
#[local] Open Scope prog_scope.

(** ** Data *)

Inductive sensor_relate_t := SENSOR_INDEPENDENT | SENSORS_CORELATED.

(** What [cthd_zone_cpu] adds. *)
Record Cpu := mkCpu {
  critical_temp : Z; max_temp : Z; psv_temp : Z; cpu_trip_cnt : Z; sensor_mask : Z; phy_package_id : Z
}.
Definition Cpu_again (c : Cpu) : Cpu := mkCpu (critical_temp c) (max_temp c) (psv_temp c)
  (cpu_trip_cnt c) (sensor_mask c) (phy_package_id c).
#[export] Instance put_critical_temp : Field critical_temp := ltac:(field_of Cpu_again critical_temp).
#[export] Instance put_max_temp : Field max_temp := ltac:(field_of Cpu_again max_temp).
#[export] Instance put_psv_temp : Field psv_temp := ltac:(field_of Cpu_again psv_temp).
#[export] Instance put_cpu_trip_cnt : Field cpu_trip_cnt := ltac:(field_of Cpu_again cpu_trip_cnt).
#[export] Instance put_sensor_mask : Field sensor_mask := ltac:(field_of Cpu_again sensor_mask).

(** The classes derived from [cthd_zone]; a generic zone has its entry of the
    configuration, [None]: a null pointer. *)
Inductive ZoneKind :=
  | SysfsZone (trip_point_cnt : Z) (initial_trip_values : list Z)
  | DynamicZone (zone_trip_temp : Z) (zone_trip_type : trip_point_type_t) (sensor_name cdev_name : string)
  | CpuZone (cpu : Cpu)
  | GenericZone (config : option thermal_zone_t)
  | RaplPowerZone.

Record Zone := mkZone {
  zone_kind : ZoneKind; zone_index : Z; zone_path : string; zone_temp : Z; zone_active : bool;
  zone_cdev_binded : bool; zone_type : string; zone_sensors : list nat; sensor_rel : sensor_relate_t;
  trip_points : list Trip
}.
Definition Zone_again (z : Zone) : Zone := mkZone (zone_kind z) (zone_index z) (zone_path z)
  (zone_temp z) (zone_active z) (zone_cdev_binded z) (zone_type z) (zone_sensors z) (sensor_rel z)
  (trip_points z).
#[export] Instance put_zone_kind : Field zone_kind := ltac:(field_of Zone_again zone_kind).
#[export] Instance put_zone_temp : Field zone_temp := ltac:(field_of Zone_again zone_temp).
#[export] Instance put_zone_active : Field zone_active := ltac:(field_of Zone_again zone_active).
#[export] Instance put_zone_cdev_binded : Field zone_cdev_binded := ltac:(field_of Zone_again zone_cdev_binded).
#[export] Instance put_sensor_rel : Field sensor_rel := ltac:(field_of Zone_again sensor_rel).
#[export] Instance put_zone_type : Field zone_type := ltac:(field_of Zone_again zone_type).
#[export] Instance put_zone_sensors : Field zone_sensors := ltac:(field_of Zone_again zone_sensors).
#[export] Instance put_trip_points : Field trip_points := ltac:(field_of Zone_again trip_points).

Definition def_async_trip_offset := 5000.
Definition def_async_trip_offset_pct := 10.

Definition is_type (ty : trip_point_type_t) (t : Trip) : bool := bool_decide (trip_type t = ty).

Section Zones.
Context `{ThdOs} `{StdSort}.

Definition zone_new (k : ZoneKind) (_index : Z) (path type : string) : Zone :=
  mkZone k _index path 0 false false type [] SENSOR_INDEPENDENT [].

(** [search_sensor]: the first with the type; names with pch_ match each other. *)
Fixpoint find_sensor (name : string) (i : nat) (l : list Sensor) : option nat :=
  match l with
  | [] => None
  | s :: l =>
      if String.eqb (sensor_type s) name then Some i
      else if has_prefix "pch_" name && has_prefix "pch_" (sensor_type s) then Some i
      else find_sensor name (S i) l
  end.
Definition search_sensor (name : string) : M Plant (option nat) := gets (fun p => find_sensor name 0 (plant_sensors p)).
Definition index_of_sensor (i : nat) : M Plant Z := gets (fun p => default 0 (sensor_index <$> plant_sensors p !! i)).

Definition bind_sensor (i : nat) (z : Zone) : Zone :=
  if bool_decide (i ∈ zone_sensors z) then z else z <| zone_sensors := zone_sensors z ++ [i] |>.
Definition check_sensor_async_status (z : Zone) : M Plant bool := gets (fun p =>
  forallb (fun i => match plant_sensors p !! i with Some s => async_capable s | None => false end)
    (zone_sensors z)).

(** ** The polling trip *)

(** The first trip of a kind taken out. *)
Fixpoint remove_first (f : Trip -> bool) (l : list Trip) : list Trip :=
  match l with
  | [] => []
  | t :: l => if f t then l else t :: remove_first f l
  end.

Definition trip_sort (a b : Trip) : bool := trip_temp a <? trip_temp b.

(** Below the lowest trip by a tenth of it, by 5000 at least, in [unsigned int]. *)
Definition polling_temp (lowest : Z) : Z :=
  let poll_offset := wrap 32 (lowest * def_async_trip_offset_pct) / 100 in
  let poll_offset := if poll_offset <? def_async_trip_offset then def_async_trip_offset else poll_offset in
  wrap 32 (lowest - poll_offset).

(** A polling trip per sensor. *)
Fixpoint push_polling (polling_trip : Z) (l : list nat) (z : Zone) : M Plant Zone :=
  match l with
  | [] => ret z
  | i :: l =>
      set_threshold i 0 polling_trip ;;;
      sensor <- index_of_sensor i ;;
      push_polling polling_trip l
        (z <| trip_points := trip_points z ++
                [trip_new (Z.of_nat (length (trip_points z))) POLLING polling_trip 0 (zone_index z) sensor PARALLEL] |>)
  end.

Definition sort_and_update_poll_trip (z : Zone) : M Plant Zone :=
  let trips := remove_first (is_type POLLING) (trip_points z) in
  match std_sort trip_sort trips with
  | [] => ret (z <| trip_points := trips |>)
  | (t :: _) as sorted =>
      push_polling (polling_temp (trip_temp t)) (zone_sensors z) (z <| trip_points := sorted |>)
  end.

(** ** Trips *)

(** The first trip of the kind replaced. *)
Fixpoint replace_first (f : Trip -> bool) (g : Trip -> Trip) (l : list Trip) : option (list Trip) :=
  match l with
  | [] => None
  | t :: l => if f t then Some (g t :: l) else cons t <$> replace_first f g l
  end.

Definition add_trip (trip : Trip) (force : bool) (z : Zone) : M Plant Zone :=
  let pushed := trip_points z ++ [trip] in
  sort_and_update_poll_trip
    (z <| trip_points :=
       if force then pushed
       else default pushed (replace_first (is_type (trip_type trip)) (fun _ => trip) (trip_points z)) |>).

Definition retemper (trip t : Trip) : Trip := t <| trip_temp := trip_temp trip |> <| trip_hyst := trip_hyst trip |>.

Definition update_trip_temp (trip : Trip) (z : Zone) : M Plant Zone :=
  sort_and_update_poll_trip
    (z <| trip_points := default (trip_points z)
            (replace_first (is_type (trip_type trip)) (retemper trip) (trip_points z)) |>).

(** From the last trip down; [None]: none of the kind, the index runs below 0. *)
Definition update_highest_trip_temp (trip : Trip) (z : Zone) : M Plant (option Zone) :=
  match trip_points z with
  | [] => ret (Some z)
  | _ =>
      match replace_first (is_type (trip_type trip)) (retemper trip) (rev (trip_points z)) with
      | Some l => z <- sort_and_update_poll_trip (z <| trip_points := rev l |>) ;; ret (Some z)
      | None => ret None
      end
  end.

(** The trip of the kind and of the temperature, of any when [temp] is 0. *)
Definition bind_matches (type : trip_point_type_t) (temp : Z) (t : Trip) : bool :=
  is_type type t && (0 <? trip_temp t) && ((temp =? 0) || (trip_temp t =? temp)).
(** [false]: [THD_ERROR], no trip matches. *)
Definition bind_cooling_device (type : trip_point_type_t) (temp : Z) (cdev : nat)
    (_influence sampling_period : Z) (target_valid : bool) (target : Z) (min_max : bool)
    (_min_state _max_state : Z) (z : Zone) : M Plant (bool * Zone) :=
  l <- gets plant_cdevs ;;
  ret (match replace_first (bind_matches type temp)
               (thd_trip_point_add_cdev l cdev _influence sampling_period target_valid target None
                  min_max _min_state _max_state) (trip_points z) with
       | Some trips => (true, z <| trip_points := trips |> <| zone_cdev_binded := true |>)
       | None => (false, z)
       end).

Definition trip_delete_all (z : Zone) : Zone := z <| trip_points := [] |>.

(** ** Readings *)

(** From the last trip to the first. *)
Definition zone_reset (force : bool) (z : Zone) : M Plant unit :=
  if zone_active z then mfor (rev (trip_points z)) (thd_trip_cdev_state_reset force) else ret tt.

(** The trips in order; [true]: one of them asked for a reset, those after it
    are not checked. *)
Fixpoint check_trips (id temp : Z) (pref : preference_t) (l : list Trip) : M Plant (bool * list Trip) :=
  match l with
  | [] => ret (false, [])
  | t :: l =>
      r <- thd_trip_point_check id temp pref t ;;
      if snd (fst r) then ret (true, snd r :: l)
      else rest <- check_trips id temp pref l ;; ret (fst rest, snd r :: snd rest)
  end.

Definition thermal_zone_temp_change (id temp : Z) (pref : preference_t) (z : Zone) : M Plant Zone :=
  r <- check_trips id temp pref (trip_points z) ;;
  let z := z <| trip_points := snd r |> in
  (if fst r : bool then zone_reset false z else ret tt) ;;; ret z.

(** The zone after each sensor's reading; [given]: the temperature handed on. *)
Fixpoint each_sensor (given : Z -> Z) (l : list nat) (z : Zone) : M Plant Zone :=
  match l with
  | [] => ret z
  | i :: l =>
      temp <- read_sensor i ;; id <- index_of_sensor i ;; pref <- gets preference ;;
      z <- thermal_zone_temp_change id (given temp) pref (z <| zone_temp := temp |>) ;;
      each_sensor given l z
  end.
(** Once with 0, which releases, and once with the temperature. *)
Definition update_zone_preference (z : Zone) : M Plant Zone :=
  if zone_active z then
    z <- each_sensor (fun _ => 0) (zone_sensors z) z ;; each_sensor id (zone_sensors z) z
  else ret z.

Fixpoint read_sensors (l : list nat) (z : Zone) : M Plant Zone :=
  match l with
  | [] => ret z
  | i :: l =>
      temp <- read_sensor i ;;
      let z := if zone_temp z <? temp then z <| zone_temp := temp |> else z in
      z <- (match sensor_rel z with
            | SENSOR_INDEPENDENT =>
                id <- index_of_sensor i ;; pref <- gets preference ;; thermal_zone_temp_change id temp pref z
            | SENSORS_CORELATED => ret z
            end) ;;
      read_sensors l z
  end.
Definition read_zone_temp (z : Zone) : M Plant Zone :=
  if zone_active z then
    z <- read_sensors (zone_sensors z) (z <| zone_temp := 0 |>) ;;
    match sensor_rel z, zone_sensors z with
    | SENSORS_CORELATED, i :: _ =>
        if zone_temp z =? 0 then ret z
        else id <- index_of_sensor i ;; pref <- gets preference ;;
             thermal_zone_temp_change id (zone_temp z) pref z
    | _, _ => ret z
    end
  else ret z.
(** What came with the notification is not looked at. *)
Definition zone_temperature_notification (type data : Z) (z : Zone) : M Plant Zone := read_zone_temp z.

(** The first virtual sensor of the zone. *)
Definition first_virtual (z : Zone) : M Plant (option nat) := gets (fun p =>
  List.find (fun i => match plant_sensors p !! i with
                      | Some s => match sensor_kind s with VirtualSensor _ => true | _ => false end
                      | None => false
                      end) (zone_sensors z)).
Definition set_zone_active (z : Zone) : M Plant Zone :=
  v <- first_virtual z ;;
  (match v with Some i => enable_periodic_timer i | None => ret tt end) ;;;
  ret (z <| zone_active := true |>).
Definition set_zone_inactive (z : Zone) : M Plant Zone :=
  v <- first_virtual z ;;
  (match v with Some i => disable_periodic_timer i | None => ret tt end) ;;;
  ret (z <| zone_active := false |>).

(** ** Set points of the user *)

Definition user_file (name : string) (z : Zone) : string :=
  os_rundir +:+ "/" +:+ name +:+ "." +:+ zone_type z +:+ ".conf".
Definition write_user_file (name : string) (v : Z) (z : Zone) : M Plant Z :=
  r <- on_world (fs_write (user_file name z) (pretty v)) ;; ret (if r <? 0 then THD_ERROR else THD_SUCCESS).
Definition update_max_temperature : Z -> Zone -> M Plant Z := write_user_file "thd_user_set_max".
Definition update_psv_temperature : Z -> Zone -> M Plant Z := write_user_file "thd_user_psv_temp".

Definition read_user_set_psv_temp (z : Zone) : M Plant Z :=
  r <- on_world (ask (fun n => os_read n (user_file "thd_user_psv_temp" z))) ;;
  ret (match r with
       | inl _ => -1
       | inr text => let temp := stream_int text in if temp <? 1000 then -1 else temp
       end).
End Zones.

(** ** The polling trip *)

Section Polling.
Context `{ThdOs} `{StdSort}.

Definition polling_count (l : list Trip) : nat := length (filter (fun t => trip_type t = POLLING) l).

Lemma remove_first_perm f l : existsb f l = true ->
  exists t, f t = true /\ Permutation l (t :: remove_first f l).
Proof.
  induction l as [|t l IH]; simpl; [done|]. intros Hl. destruct (f t) eqn:Hf; [by exists t|].
  destruct (IH Hl) as (u & Hu & Hp). exists u. split; [done|]. rewrite Hp at 1. apply perm_swap.
Qed.
Lemma remove_first_none f l : existsb f l = false -> remove_first f l = l.
Proof.
  induction l as [|t l IH]; simpl; [done|]. intros [Hf Hl]%orb_false_iff. rewrite Hf. f_equal. by apply IH.
Qed.

Lemma polling_count_perm l l' : Permutation l l' -> polling_count l = polling_count l'.
Proof. intros Hp. unfold polling_count. by rewrite Hp. Qed.
Lemma polling_count_app l l' : polling_count (l ++ l') = (polling_count l + polling_count l')%nat.
Proof. unfold polling_count. by rewrite filter_app, length_app. Qed.

Lemma polling_removed l : polling_count (remove_first (is_type POLLING) l) = pred (polling_count l).
Proof.
  destruct (existsb (is_type POLLING) l) eqn:He.
  - destruct (remove_first_perm _ _ He) as (t & Ht%bool_decide_eq_true & Hp).
    rewrite (polling_count_perm _ _ Hp). unfold polling_count at 2. by rewrite filter_cons_True.
  - rewrite remove_first_none by done. unfold polling_count.
    assert (filter (fun t => trip_type t = POLLING) l = []) as ->; [|done].
    induction l as [|t l IH]; [done|]. simpl in He. apply orb_false_iff in He as [Hn%bool_decide_eq_false He].
    rewrite filter_cons_False by done. by apply IH.
Qed.

(** What [push_polling] adds. *)
Definition polling_trips (temp zone : Z) (l : list Trip) : Prop :=
  Forall (fun t => trip_type t = POLLING /\ trip_temp t = wrap 32 temp /\ trip_zone t = zone) l.

Lemma push_polling_spec temp l z p :
  exists pol, res (push_polling temp l z) p = z <| trip_points := trip_points z ++ pol |> /\
    length pol = length l /\ polling_trips temp (zone_index z) pol.
Proof.
  revert z p. induction l as [|i l IH]; intros z p.
  - exists []. rewrite app_nil_r. split; [by destruct z|]. split; [done|constructor].
  - simpl. unfold res. rewrite 2!(surjective_pairing (bind _ _ p)). simpl.
    unfold bind at 1. destruct (set_threshold i 0 temp p) as [u q]. unfold bind, index_of_sensor, gets.
    match goal with |- context [push_polling temp l ?z' q] => destruct (IH z' q) as (pol & Hz & Hl & Hp) end.
    unfold res in Hz. rewrite Hz. eexists (_ :: pol). split; [|split].
    + simpl. by rewrite <- app_assoc.
    + simpl. by rewrite Hl.
    + constructor; [done|exact Hp].
Qed.

Lemma polling_trips_count temp zone l : polling_trips temp zone l -> polling_count l = length l.
Proof.
  unfold polling_count. induction 1 as [|t l [Ht _] _ IH]; [done|]. rewrite filter_cons_True by done.
  simpl. by rewrite IH.
Qed.

(** The trips after an update: the others in the order of their temperatures, then
    a polling trip per sensor. *)
Lemma sort_and_update_trips z p :
  let rest := remove_first (is_type POLLING) (trip_points z) in
  exists pol, trip_points (res (sort_and_update_poll_trip z) p) = std_sort trip_sort rest ++ pol /\
    length pol = (if bool_decide (rest = []) then 0 else length (zone_sensors z))%nat /\
    (forall t, head (std_sort trip_sort rest) = Some t ->
       polling_trips (polling_temp (trip_temp t)) (zone_index z) pol).
Proof.
  intros rest. unfold sort_and_update_poll_trip. fold rest.
  pose proof (std_sort_perm _ trip_sort rest) as Hp.
  destruct (std_sort trip_sort rest) as [|t sorted] eqn:Hs.
  - apply Permutation_nil_l in Hp. exists []. rewrite <- Hp. done.
  - destruct (push_polling_spec (polling_temp (trip_temp t)) (zone_sensors z)
      (z <| trip_points := t :: sorted |>) p) as (pol & Hz & Hl & Hpol).
    exists pol. rewrite Hz. split; [done|]. split.
    + rewrite bool_decide_false; [done|]. intros He. rewrite He in Hp. by apply Permutation_nil_r in Hp.
    + intros t' [= <-]. exact Hpol.
Qed.

(** The comment says that a polling trip that is there is only updated.  Each update
    takes one out and adds one per sensor: with one sensor there is always one, with [k] of
    them every update leaves [k - 1] more. *)
Theorem polling_trips_grow z p : remove_first (is_type POLLING) (trip_points z) <> [] ->
  polling_count (trip_points (res (sort_and_update_poll_trip z) p)) =
  (pred (polling_count (trip_points z)) + length (zone_sensors z))%nat.
Proof.
  intros Hn. destruct (sort_and_update_trips z p) as (pol & -> & Hl & Hp).
  rewrite polling_count_app, (polling_count_perm _ _ (std_sort_perm _ _ _)), polling_removed. f_equal.
  rewrite bool_decide_false in Hl by done. rewrite <- Hl.
  destruct (std_sort trip_sort _) as [|t l] eqn:Hs.
  - pose proof (std_sort_perm _ trip_sort (remove_first (is_type POLLING) (trip_points z))) as Hq.
    rewrite Hs in Hq. by apply Permutation_nil_l in Hq.
  - by eapply polling_trips_count, Hp.
Qed.

Lemma head_least l t : head (std_sort trip_sort l) = Some t -> forall u, u ∈ l -> trip_temp t <= trip_temp u.
Proof.
  intros Hh u Hu. pose proof (std_sort_sorted _ trip_sort trip_temp l (fun _ _ => eq_refl)) as Hs.
  assert (u ∈ std_sort trip_sort l) as Hu' by by rewrite std_sort_perm.
  destruct (std_sort trip_sort l) as [|x m]; [done|]. injection Hh as ->.
  apply elem_of_cons in Hu' as [->|Hu']; [lia|]. inversion Hs as [|? ? _ Hf]; subst.
  rewrite Forall_forall in Hf. by apply Hf.
Qed.

(** Polling starts 5000 below the lowest trip at least, when that is not less than
    5000; below that the subtraction wraps and polling does not start at any temperature
    that the trips are about. *)
Theorem polling_margin z p t u :
  t ∈ trip_points (res (sort_and_update_poll_trip z) p) ->
  t ∉ std_sort trip_sort (remove_first (is_type POLLING) (trip_points z)) ->
  u ∈ remove_first (is_type POLLING) (trip_points z) ->
  (forall v, v ∈ remove_first (is_type POLLING) (trip_points z) -> 0 <= trip_temp v < 2 ^ 31 / 5) ->
  trip_type t = POLLING /\
  ((forall v, v ∈ remove_first (is_type POLLING) (trip_points z) -> 5000 <= trip_temp v) ->
     0 <= trip_temp t <= trip_temp u - 5000) /\
  (trip_temp u < 5000 -> 2 ^ 32 - 5000 <= trip_temp t).
Proof.
  set (rest := remove_first _ _). intros Ht Hn Hu Hb.
  destruct (sort_and_update_trips z p) as (pol & Hz & Hl & Hp). fold rest in Hz, Hl, Hp.
  rewrite Hz in Ht. apply elem_of_app in Ht as [Ht|Ht]; [done|].
  destruct (head (std_sort trip_sort rest)) as [lo|] eqn:Hh.
  2: { destruct (std_sort trip_sort rest) as [|x m] eqn:Hs; [|done].
       pose proof (std_sort_perm _ trip_sort rest) as Hq. rewrite Hs in Hq. apply Permutation_nil_l in Hq.
       rewrite <- Hq in Hu. by inversion Hu. }
  specialize (Hp lo eq_refl). unfold polling_trips in Hp. rewrite Forall_forall in Hp.
  destruct (Hp t Ht) as (Htt & Htemp & _). split; [done|]. rewrite Htemp.
  assert (lo ∈ rest) as Hlo.
  { rewrite <- (std_sort_perm _ trip_sort rest). destruct (std_sort trip_sort rest); [done|].
    injection Hh as ->. left. }
  pose proof (head_least rest lo Hh u Hu) as Hle. specialize (Hb lo Hlo) as Hblo.
  change (2 ^ 31 / 5) with 429496729 in *. unfold polling_temp, def_async_trip_offset, def_async_trip_offset_pct.
  rewrite (wrap_small 32 (trip_temp lo * 10)) by lia. cbv zeta. rewrite wrap_wrap.
  assert (0 <= trip_temp lo * 10 / 100 <= trip_temp lo) as Hd.
  { split; [apply Z.div_pos; lia|apply Z.div_le_upper_bound; lia]. }
  split.
  - intros H5. specialize (H5 lo Hlo). destruct (Z.ltb_spec (trip_temp lo * 10 / 100) 5000); rewrite wrap_small by lia; lia.
  - intros Hu5. rewrite (proj2 (Z.ltb_lt _ _)).
    2: { apply Z.div_lt_upper_bound; lia. }
    unfold wrap. replace (trip_temp lo - 5000) with (trip_temp lo - 5000 + 2 ^ 32 + (-1) * 2 ^ 32) by lia.
    rewrite Z.mod_add by lia. rewrite Z.mod_small; lia.
Qed.

(** ** The numbers of the trips *)

(** The numbers of the trips that control devices. *)
Definition indexes (l : list Trip) : list Z := trip_index <$> filter (fun t => trip_type t <> POLLING) l.

Lemma others_removed l : filter (fun t => trip_type t <> POLLING) (remove_first (is_type POLLING) l)
  = filter (fun t => trip_type t <> POLLING) l.
Proof.
  induction l as [|t l IH]; simpl; [done|]. unfold is_type at 1.
  destruct (bool_decide (trip_type t = POLLING)) eqn:Ht.
  - apply bool_decide_eq_true in Ht. rewrite filter_cons_False; [done|]. intros Hn. by apply Hn.
  - apply bool_decide_eq_false in Ht. rewrite !filter_cons_True by done. by rewrite IH.
Qed.
Lemma no_others temp zone l : polling_trips temp zone l -> filter (fun t => trip_type t <> POLLING) l = [].
Proof.
  induction 1 as [|t l [Ht _] _ IH]; [done|]. rewrite filter_cons_False; [exact IH|]. intros Hn. by apply Hn.
Qed.

(** An update keeps the trips that are no polling trips, and is never shorter
    when the zone has a sensor. *)
Lemma sort_and_update_others z p :
  let l := trip_points (res (sort_and_update_poll_trip z) p) in
  Permutation (filter (fun t => trip_type t <> POLLING) l)
    (filter (fun t => trip_type t <> POLLING) (trip_points z)) /\
  (polling_count (trip_points z) <= 1 -> zone_sensors z <> [] ->
   remove_first (is_type POLLING) (trip_points z) <> [] -> length (trip_points z) <= length l)%nat.
Proof.
  intros l. destruct (sort_and_update_trips z p) as (pol & Hl & Hlen & Hp). subst l. rewrite Hl.
  assert (filter (fun t => trip_type t <> POLLING) pol = []) as Hno.
  { destruct (std_sort trip_sort _) as [|t m] eqn:Hs.
    - assert (remove_first (is_type POLLING) (trip_points z) = []) as He.
      { pose proof (std_sort_perm _ trip_sort (remove_first (is_type POLLING) (trip_points z))) as Hq.
        rewrite Hs in Hq. symmetry. by apply Permutation_nil_l in Hq. }
      rewrite He, bool_decide_true in Hlen by done. by destruct pol.
    - by eapply no_others, Hp. }
  split.
  - rewrite filter_app, Hno, app_nil_r. rewrite (std_sort_perm _ trip_sort). by rewrite others_removed.
  - intros Hc Hz Hn. rewrite bool_decide_false in Hlen by done.
    rewrite length_app, Hlen, (Permutation_length (std_sort_perm _ trip_sort _)).
    assert (length (trip_points z) <= S (length (remove_first (is_type POLLING) (trip_points z))))%nat.
    { clear. induction (trip_points z) as [|t l IH]; simpl; [lia|]. destruct (is_type POLLING t); simpl; lia. }
    destruct (zone_sensors z); [done|]. simpl. lia.
Qed.

(** The trips of a zone that are added one after the other, each with the number of
    trips that are there, as the tables are installed. *)
Fixpoint install_trips (ts : list (trip_point_type_t * Z * Z)) (z : Zone) : M Plant Zone :=
  match ts with
  | [] => ret z
  | (type, temp, hyst) :: ts =>
      z <- add_trip (trip_new (Z.of_nat (length (trip_points z))) type temp hyst (zone_index z) 0 SEQUENTIAL) true z ;;
      install_trips ts z
  end.

Definition numbered (z : Zone) : Prop :=
  NoDup (indexes (trip_points z)) /\ (polling_count (trip_points z) <= 1)%nat /\ length (zone_sensors z) = 1%nat /\
  Forall (fun i => 0 <= i < Z.of_nat (length (trip_points z))) (indexes (trip_points z)).

Lemma push_polling_sensors temp l z p : zone_sensors (res (push_polling temp l z) p) = zone_sensors z.
Proof. by destruct (push_polling_spec temp l z p) as (pol & -> & _). Qed.
Lemma sort_and_update_sensors z p : zone_sensors (res (sort_and_update_poll_trip z) p) = zone_sensors z.
Proof.
  unfold sort_and_update_poll_trip. destruct (std_sort _ _); [done|]. by rewrite push_polling_sensors.
Qed.

Lemma add_numbered type temp hyst z p : type <> POLLING -> numbered z ->
  numbered (res (add_trip (trip_new (Z.of_nat (length (trip_points z))) type temp hyst (zone_index z) 0 SEQUENTIAL)
    true z) p).
Proof.
  intros Hty (Hd & Hc & Hs & Hf). unfold add_trip. cbv zeta.
  set (t := trip_new _ _ _ _ _ _ _). set (z' := z <| trip_points := trip_points z ++ [t] |>).
  destruct (sort_and_update_others z' p) as [Hp Hlen].
  assert (indexes (trip_points z') = indexes (trip_points z) ++ [Z.of_nat (length (trip_points z))]) as Hi.
  { unfold indexes, z'. simpl. rewrite filter_app, fmap_app. by rewrite filter_cons_True. }
  assert (polling_count (trip_points z') = polling_count (trip_points z)) as Hpc.
  { unfold z'. simpl. rewrite polling_count_app. unfold polling_count at 2.
    rewrite filter_cons_False by done. simpl. lia. }
  assert (remove_first (is_type POLLING) (trip_points z') <> []) as Hn.
  { intros He. pose proof (others_removed (trip_points z')) as Ho. rewrite He in Ho.
    assert (indexes (trip_points z') = []) as Hnil by (unfold indexes; by rewrite <- Ho).
    rewrite Hi in Hnil. by destruct (indexes (trip_points z)). }
  assert (Permutation (indexes (trip_points (res (sort_and_update_poll_trip z') p)))
    (indexes (trip_points z) ++ [Z.of_nat (length (trip_points z))])) as Hperm.
  { rewrite <- Hi. unfold indexes. by apply fmap_Permutation. }
  assert (zone_sensors z' = zone_sensors z) as Hzs by done.
  assert (length (trip_points z') = S (length (trip_points z))) as Hl' by (unfold z'; simpl; rewrite length_app; simpl; lia).
  rewrite Hpc in Hlen. specialize (Hlen Hc). rewrite Hzs in Hlen.
  assert (zone_sensors z <> []) as Hsn by (intros He; by rewrite He in Hs).
  specialize (Hlen Hsn Hn). rewrite Hl' in Hlen. split; [|split; [|split]].
  - rewrite Hperm. apply NoDup_app. split_and!; [done| |apply NoDup_singleton].
    intros i Hi1 Hi2. apply list_elem_of_singleton in Hi2 as ->. rewrite Forall_forall in Hf.
    specialize (Hf _ Hi1). lia.
  - destruct (sort_and_update_trips z' p) as (pol & Ht & Hpl & Hpol). rewrite Ht, polling_count_app.
    rewrite (polling_count_perm _ _ (std_sort_perm _ _ _)), polling_removed, Hpc.
    rewrite bool_decide_false in Hpl by done.
    assert (polling_count pol <= length pol)%nat by apply length_filter. rewrite Hzs, Hs in Hpl. lia.
  - by rewrite sort_and_update_sensors, Hzs.
  - rewrite Hperm. apply Forall_app. split.
    + eapply Forall_impl; [exact Hf|]. simpl. intros i Hi3. lia.
    + apply Forall_singleton. lia.
Qed.

(** C21: In a zone with one sensor, trips that are installed after one another never share a
    number, though polling trips come and go between them: the entries that they make in the lists of
    the devices are different ones. *)
Theorem trip_numbers_distinct ts z p : trip_points z = [] -> length (zone_sensors z) = 1%nat ->
  Forall (fun t => fst (fst t) <> POLLING) ts ->
  NoDup (indexes (trip_points (res (install_trips ts z) p))).
Proof.
  intros Hz Hs Hts. assert (numbered z) as Hn.
  { unfold numbered, indexes, polling_count. rewrite Hz. split; [constructor|]. split; [simpl; lia|]. by split. }
  clear Hz Hs. revert z p Hn. induction Hts as [|[[type temp] hyst] ts Ht Hts IH]; intros z p Hn; [apply Hn|].
  simpl. unfold res, bind.
  pose proof (add_numbered type temp hyst z p Ht Hn) as Ha. unfold res in Ha.
  destruct (add_trip _ true z p) as [z' p']. by apply IH.
Qed.

(** ** Looking for the highest trip *)

Lemma replace_first_none f g l : replace_first f g l = None <-> Forall (fun t => f t = false) l.
Proof.
  induction l as [|t l IH]; simpl; [done|]. destruct (f t) eqn:Hf.
  - split; [done|]. intros Hl. inversion Hl. congruence.
  - rewrite fmap_None, IH. split; [by constructor|]. by inversion 1.
Qed.

Lemma elem_of_rev (l : list Trip) t : t ∈ rev l <-> t ∈ l.
Proof. rewrite !list_elem_of_In. symmetry. apply in_rev. Qed.

(** [update_highest_trip_temp] goes below the first trip exactly when the zone has
    trips and none of the kind: so does a set point of the user for a zone without passive trip. *)
Theorem highest_trip_bounds trip z p :
  res (update_highest_trip_temp trip z) p = None <->
  trip_points z <> [] /\ forall t, t ∈ trip_points z -> trip_type t <> trip_type trip.
Proof.
  unfold update_highest_trip_temp. destruct (trip_points z) as [|x l] eqn:Hz; [split; [done|by intros [? _]]|].
  destruct (replace_first _ _ _) as [m|] eqn:Hr.
  - split.
    + unfold res, bind. by destruct (sort_and_update_poll_trip _ p).
    + intros [_ Hf]. assert (replace_first (is_type (trip_type trip)) (retemper trip) (rev (x :: l)) = None); [|congruence].
      apply replace_first_none. apply Forall_forall. intros t Ht. apply bool_decide_eq_false, Hf.
      by apply elem_of_rev.
  - split; [|done]. intros _. split; [done|]. intros t Ht.
    apply replace_first_none in Hr. rewrite Forall_forall in Hr.
    assert (is_type (trip_type trip) t = false) as Hf.
    { apply Hr. by apply elem_of_rev. }
    by apply bool_decide_eq_false in Hf.
Qed.
End Polling.

(** ** Witnesses *)

Module Rooms.
#[local] Existing Instance Quiet.quiet_os.
#[local] Existing Instance Quiet.quiet_sort.

Definition plant : Plant :=
  mkPlant Quiet.world0 [Quiet.fan]
    [sensor_new 0 "/sys/class/thermal/thermal_zone0/" "x86_pkg_temp" ThermalSysfs;
     sensor_new 1 "/sys/class/thermal/thermal_zone1/" "minibook_soc" ThermalSysfs] 4 false PREF_ENERGY_CONSERVE false.
Definition soc (sensors : list nat) (temps : list Z) : Zone :=
  (zone_new (SysfsZone 0 []) 1 "/sys/class/thermal/thermal_zone" "minibook_soc"
     <| zone_sensors := sensors |>
     <| trip_points := (fun t => trip_new 0 PASSIVE t 0 1 1 SEQUENTIAL) <$> temps |>)%prog.
Definition updated (z : Zone) : Zone := res (sort_and_update_poll_trip z) plant.

Lemma polling_trips_grow_witness :
  polling_count (trip_points (updated (soc [1%nat] [80000; 60000]))) = 1%nat /\
  polling_count (trip_points (updated (updated (soc [0%nat; 1%nat] [80000; 60000])))) = 3%nat.
Proof.
  split; [by apply (polling_trips_grow (soc [1%nat] [80000; 60000]) plant); vm_compute|].
  by apply (polling_trips_grow (updated (soc [0%nat; 1%nat] [80000; 60000])) plant); vm_compute.
Defined.

Lemma polling_margin_witness :
  let t := trip_new 2 POLLING 54000 0 1 1 PARALLEL in
  let u := trip_new 0 PASSIVE 60000 0 1 1 SEQUENTIAL in
  trip_points (updated (soc [1%nat] [80000; 60000])) = [u; trip_new 0 PASSIVE 80000 0 1 1 SEQUENTIAL; t] /\
  0 <= trip_temp t <= trip_temp u - 5000.
Proof.
  intros t u. assert (trip_points (updated (soc [1%nat] [80000; 60000])) =
    [u; trip_new 0 PASSIVE 80000 0 1 1 SEQUENTIAL; t]) as He by by vm_compute.
  split; [exact He|].
  assert (forall v, v ∈ trip_points (soc [1%nat] [80000; 60000]) -> v = u \/ v = trip_new 0 PASSIVE 80000 0 1 1 SEQUENTIAL) as Hv.
  { intros v Hv. apply list_elem_of_In in Hv. vm_compute in Hv. destruct Hv as [<-|[<-|[]]]; auto. }
  apply (polling_margin (soc [1%nat] [80000; 60000]) plant t u).
  - change (t ∈ trip_points (updated (soc [1%nat] [80000; 60000]))). rewrite He. set_solver.
  - intros Ht. apply list_elem_of_In in Ht. vm_compute in Ht. by destruct Ht as [|[|[]]].
  - apply list_elem_of_In. vm_compute. tauto.
  - intros v [->| ->]%Hv; vm_compute; by split.
  - intros v [->| ->]%Hv; vm_compute; by discriminate.
Defined.

Lemma trip_numbers_distinct_witness :
  let z := res (install_trips [(PASSIVE, 60000, 0); (PASSIVE, 50000, 0); (PASSIVE, 55000, 2000)] (soc [1%nat] [])) plant in
  indexes (trip_points z) = [2; 3; 0] /\ NoDup (indexes (trip_points z)).
Proof.
  intros z. split; [by vm_compute|]. apply trip_numbers_distinct; [done..|]. by repeat constructor.
Defined.

Lemma highest_trip_bounds_witness :
  res (update_highest_trip_temp (trip_new 0 PASSIVE 70000 0 1 DEFAULT_SENSOR_ID PARALLEL)
    (soc [1%nat] [] <| trip_points := [trip_new 0 MAX 90000 0 1 1 SEQUENTIAL] |>)%prog) plant = None.
Proof.
  apply highest_trip_bounds. split; [done|]. intros t Ht.
  apply list_elem_of_singleton in Ht as ->. done.
Defined.
End Rooms.
