(* ===== verification/DefaultBinding.v ===== *)
(** * The thermal daemon: the default binding (thd_cpu_default_binding.cpp)

    A zone without a cooling device is cooled with the processor's, between two
    gates that are cooling devices themselves: the first opens when the load of the
    processor is high, the second is reached when the cooling failed.  The
    failures of each zone are counted in a file of fixed records.  The daemon is built with
    this file and without its only call. *)

From Stdlib Require Import ZArith Lia Ascii String.
From stdpp Require Import base list option strings.
From S2P Require Import Prelude Bytes Objects ThdIo Meter Cdev Sensor Trip Zone.

#[local] Open Scope Z_scope.
#[local] Open Scope prog_scope.

(** ** The file of failures

    [cpu_zone_stat_t]: the name in 51 characters, one byte of padding and the count. *)

Definition name_size : nat := 51.
Definition stat_size : nat := 56.

(** The string in the array of the name; [None]: it does not end there. *)
Definition stat_name (obj : Mem) : option string := cstr_from (take name_size obj).
Definition stat_failures (obj : Mem) : Z := sint 32 (default 0 (rd32 obj 52)).

(** The turns of the loops over the records: where the zone was found, and what the
    object holds then; [None]: a name was read past its array. *)
Fixpoint find_record (fuel : nat) (zone_name : string) (pos : nat) (rest obj : Mem) : option (option nat * Mem) :=
  match fuel with
  | O => Some (None, obj)
  | S fuel =>
      if (length rest <? stat_size)%nat then Some (None, rest ++ drop (length rest) obj)
      else
        let obj := take stat_size rest in
        match stat_name obj with
        | None => None
        | Some name =>
            if String.eqb zone_name name then Some (Some pos, obj)
            else find_record fuel zone_name (pos + stat_size) (drop stat_size rest) obj
        end
  end.
Definition find_stat (zone_name : string) (file obj : Mem) : option (option nat * Mem) :=
  find_record (S (length file)) zone_name 0 file obj.

(** [None]: outside of an array; otherwise the failures, if the zone was found. *)
Definition read_zone_stat (zone_name : string) (file : option Mem) (obj : Mem) : option (option Z) :=
  match file with
  | None => Some None
  | Some file =>
      match find_stat zone_name file obj with
      | None => None
      | Some (Some _, obj) => Some (Some (stat_failures obj))
      | Some (None, _) => Some None
      end
  end.

(** [strncpy] of the name, and the count, into the object. *)
Fixpoint before_zero (l : list Z) : list Z :=
  match l with [] => [] | b :: l => if b =? 0 then [] else b :: before_zero l end.
Definition stat_bytes (zone_name : string) (fail_cnt : Z) (obj : Mem) : Mem :=
  let name := take (pred name_size) (before_zero (bytes_of zone_name)) in
  name ++ replicate (name_size - length name) 0 ++ take 1 (drop name_size obj) ++ le 4 (wrap 32 fail_cnt).

(** [creatable]: a file that is not there can be made. *)
Definition update_zone_stat (creatable : bool) (zone_name : string) (fail_cnt : Z) (file : option Mem) (obj : Mem) :
    option (option Mem) :=
  match file with
  | None => Some (if creatable then Some (stat_bytes zone_name fail_cnt obj) else None)
  | Some l =>
      match find_stat zone_name l obj with
      | None => None
      | Some (Some current, obj) =>
          Some (Some (take current l ++ stat_bytes zone_name fail_cnt obj ++ drop (current + stat_size) l))
      | Some (None, obj) => Some (Some (l ++ stat_bytes zone_name fail_cnt obj))
      end
  end.

(** ** The gates *)

(** A gate with the zone it is bound to, and what it shares: the file, the highest
    power of the package, the plant. *)
Record Binding := mkBinding {
  bd_plant : Plant; bd_file : option Mem; bd_zone : option Zone; gate_state : Z; cpu_package_max_power : Z
}.
Definition Binding_again (b : Binding) : Binding := mkBinding (bd_plant b) (bd_file b) (bd_zone b) (gate_state b)
  (cpu_package_max_power b).
#[export] Instance put_bd_plant : Field bd_plant := ltac:(field_of Binding_again bd_plant).
#[export] Instance put_bd_file : Field bd_file := ltac:(field_of Binding_again bd_file).
#[export] Instance put_bd_zone : Field bd_zone := ltac:(field_of Binding_again bd_zone).
#[export] Instance put_gate_state : Field gate_state := ltac:(field_of Binding_again gate_state).

Definition def_starting_power_differential := 4000000.
Definition gate_max_state := 1.
Definition blacklist_zones : list string :=
  ["cpu"; "acpitz"; "Surface"; "pkg-temp-0"; "x86_pkg_temp"; "soc_dts0"; "soc_dts1"; "B0D4"; "B0DB"]%string.

(** The decision on the load, in unsigned integers. *)
Definition significant (power max_power min_power : Z) : bool :=
  negb (wrap 32 (max_power - min_power) <? def_starting_power_differential) &&
  (wrap 32 (max_power * 60) / 100 <? power).

Section Gates.
Context `{ThdOs} `{StdSort}.
Variable creatable : bool.
(** What an object on the stack holds before it is set. *)
Variable stack : Mem.

Definition on_plant {A} (m : M Plant A) : M Binding A := fun b =>
  let (a, p) := m (bd_plant b) in (a, b <| bd_plant := p |>).

Definition check_cpu_load : M Binding bool :=
  r <- on_plant (on_world (rapl_action_get_power_range PACKAGE)) ;;
  b <- gets id ;;
  let max_power := match r.2 with Some (mx, _) => mx | None => 0 end in
  let min_power := match r.2 with Some (_, mn) => mn | None => 0 end in
  let max_power := if negb (cpu_package_max_power b =? 0) then cpu_package_max_power b else max_power in
  ret (significant r.1 max_power min_power).

(** [None]: a name was read past its array. *)
Definition blacklist_match (name : string) (b : Binding) : option bool :=
  if existsb (String.eqb name) blacklist_zones then Some true
  else
    match read_zone_stat name (bd_file b) stack with
    | None => None
    | Some (Some failures) => Some (3 <? failures)
    | Some None => Some false
    end.

(** The exit gate is reached; [false]: a name was read past its array. *)
Definition exit_reached : M Binding bool :=
  b <- gets id ;;
  match bd_zone b with
  | None => ret true
  | Some zone =>
      on_plant (zone_reset false zone) ;;;
      match read_zone_stat (zone_type zone) (bd_file b) stack with
      | None => ret false
      | Some (Some failures) =>
          let failures := sint 32 (failures + 1) in
          match update_zone_stat creatable (zone_type zone) failures (bd_file b) stack with
          | None => ret false
          | Some file =>
              modify (fun b => b <| bd_file := file |>) ;;;
              (if 3 <? failures then
                 zone <- on_plant (set_zone_inactive zone) ;;
                 modify (fun b => b <| bd_zone := Some zone |>)
               else ret tt) ;;;
              ret true
          end
      | Some None =>
          match update_zone_stat creatable (zone_type zone) 0 (bd_file b) stack with
          | None => ret false
          | Some file => modify (fun b => b <| bd_file := file |>) ;;; ret true
          end
      end
  end.

(** [set_curr_state] of a gate. *)
Definition gate_set_curr_state (start : bool) (state : Z) : M Binding bool :=
  if negb start && negb (state =? 0) then exit_reached
  else if start && negb (state =? 0) then
    load <- check_cpu_load ;;
    modify (fun b => b <| gate_state := if (load : bool) then gate_max_state else 0 |>) ;;; ret true
  else modify (fun b => b <| gate_state := 0 |>) ;;; ret true.

(** The cooling failed [n] times. *)
Fixpoint failed (n : nat) : M Binding bool :=
  match n with
  | O => ret true
  | S n => ok <- failed n ;; if (ok : bool) then gate_set_curr_state false 1 else ret false
  end.
End Gates.

(** ** The file as a table *)

Record Entry := mkEntry { en_name : string; en_failures : Z; en_padding : Z }.

Definition entry_bytes (e : Entry) : Mem := stat_bytes (en_name e) (en_failures e) (replicate name_size 0 ++ [en_padding e]).
Definition table (es : list Entry) : Mem := concat (map entry_bytes es).

(** A name that fits its array, and a count that is an [int]. *)
Definition entry_ok (e : Entry) : Prop :=
  is_text (en_name e) = true /\ (String.length (en_name e) < name_size)%nat /\
  - 2 ^ 31 <= en_failures e < 2 ^ 31.

Fixpoint entry_of (name : string) (es : list Entry) : option Entry :=
  match es with
  | [] => None
  | e :: es => if String.eqb name (en_name e) then Some e else entry_of name es
  end.

(** The first entry of the name gets the count; a name without entry gets one at
    the end, whose padding is what the object held. *)
Fixpoint put_entry (name : string) (n pad : Z) (es : list Entry) : list Entry :=
  match es with
  | [] => [mkEntry name n pad]
  | e :: es => if String.eqb name (en_name e) then mkEntry name n (en_padding e) :: es
               else e :: put_entry name n pad es
  end.

Lemma before_zero_text s : is_text s = true -> before_zero (bytes_of s) = bytes_of s.
Proof.
  unfold is_text, bytes_of. induction s as [|c s IH]; [done|]. simpl. intros [Hc Hs]%andb_prop.
  destruct (Z.eqb_spec (Z.of_N (N_of_ascii c)) 0) as [E|]; [|by rewrite IH].
  assert (c = "000"%char) as -> by (rewrite <- (ascii_N_embedding c); by replace (N_of_ascii c) with 0%N by lia).
  done.
Qed.

(** The parts of a record that is written. *)
Lemma stat_bytes_split name n obj pad : is_text name = true -> (String.length name < name_size)%nat ->
  take 1 (drop name_size obj) = [pad] ->
  stat_bytes name n obj = (bytes_of name ++ replicate (name_size - String.length name) 0 ++ [pad]) ++ le 4 (wrap 32 n) /\
  length (bytes_of name ++ replicate (name_size - String.length name) 0 ++ [pad]) = 52%nat.
Proof.
  intros Ht Hl Hp. unfold stat_bytes. rewrite before_zero_text, take_ge, Hp, bytes_length
    by (done || rewrite bytes_length; lia). split; [by rewrite <- !app_assoc|].
  rewrite !length_app, bytes_length, length_replicate. unfold name_size in *. simpl. lia.
Qed.

Lemma stat_bytes_name name n obj pad : is_text name = true -> (String.length name < name_size)%nat ->
  take 1 (drop name_size obj) = [pad] -> stat_name (stat_bytes name n obj) = Some name.
Proof.
  intros Ht Hl Hp. destruct (stat_bytes_split name n obj pad Ht Hl Hp) as [-> _]. unfold stat_name.
  rewrite <- !app_assoc, app_assoc, take_app_le, take_ge; cycle 1.
  - rewrite length_app, bytes_length, length_replicate. lia.
  - rewrite length_app, bytes_length, length_replicate. lia.
  - destruct (name_size - String.length name)%nat eqn:E; [lia|]. simpl. by apply cstr_bytes.
Qed.

Lemma stat_bytes_failures name n obj pad : is_text name = true -> (String.length name < name_size)%nat ->
  take 1 (drop name_size obj) = [pad] -> - 2 ^ 31 <= n < 2 ^ 31 -> stat_failures (stat_bytes name n obj) = n.
Proof.
  intros Ht Hl Hp Hn. destruct (stat_bytes_split name n obj pad Ht Hl Hp) as [-> Hlen]. unfold stat_failures.
  set (pre := bytes_of name ++ _) in *. clearbody pre.
  pose proof (read32 pre (le 4 (wrap 32 n)) [] (wrap 32 n) eq_refl (wrap_bounds 32 n ltac:(lia))) as E.
  rewrite app_nil_r, Hlen in E. change (Z.of_nat 52) with 52 in E. rewrite E. change (default 0 (Some (wrap 32 n))) with (wrap 32 n).
  unfold sint. rewrite wrap_wrap. by apply sint_id.
Qed.

Lemma stat_bytes_padding name n obj pad : is_text name = true -> (String.length name < name_size)%nat ->
  take 1 (drop name_size obj) = [pad] -> take 1 (drop name_size (stat_bytes name n obj)) = [pad] /\
  length (stat_bytes name n obj) = stat_size.
Proof.
  intros Ht Hl Hp. destruct (stat_bytes_split name n obj pad Ht Hl Hp) as [-> Hlen]. split.
  - rewrite <- !app_assoc, app_assoc, drop_app_length' by
      (rewrite length_app, bytes_length, length_replicate; lia). done.
  - rewrite length_app, Hlen, le_length. done.
Qed.

Lemma entry_padding e : take 1 (drop name_size (replicate name_size 0 ++ [en_padding e])) = [en_padding e].
Proof. done. Qed.

Lemma entry_length e : entry_ok e -> length (entry_bytes e) = stat_size.
Proof. intros (Ht & Hl & _). by apply (stat_bytes_padding _ _ _ (en_padding e)). Qed.

Lemma entry_again e n : entry_ok e ->
  stat_bytes (en_name e) n (entry_bytes e) = entry_bytes (mkEntry (en_name e) n (en_padding e)).
Proof.
  intros (Ht & Hl & Hn). unfold entry_bytes. simpl en_name. simpl en_failures. simpl en_padding.
  destruct (stat_bytes_padding (en_name e) (en_failures e) _ (en_padding e) Ht Hl (entry_padding e)) as [Hp _].
  destruct (stat_bytes_split _ n _ _ Ht Hl Hp) as [-> _].
  by destruct (stat_bytes_split _ n _ _ Ht Hl (entry_padding e)) as [-> _].
Qed.

(** The object after the loop: the last record, when there was one. *)
Definition last_entry (es : list Entry) (obj : Mem) : Mem := default obj (last (map entry_bytes es)).

Lemma table_length es : Forall entry_ok es -> length (table es) = (stat_size * length es)%nat.
Proof.
  induction 1 as [|e es He Hes IH]; [done|]. unfold table in *. simpl. rewrite length_app, entry_length, IH by done.
  unfold stat_size. lia.
Qed.

Fixpoint entry_index (name : string) (es : list Entry) : nat :=
  match es with
  | [] => 0
  | e :: es => if String.eqb name (en_name e) then 0 else S (entry_index name es)
  end.

Lemma last_entry_cons e es obj : last_entry (e :: es) obj = last_entry es (entry_bytes e).
Proof. unfold last_entry. cbn [map]. rewrite last_cons. by destruct (last (map entry_bytes es)). Qed.

(** The loop finds the first entry of the name, or passes all of them. *)
Lemma find_table es : Forall entry_ok es -> forall fuel name pos obj, (length es < fuel)%nat ->
  find_record fuel name pos (table es) obj = Some
    match entry_of name es with
    | Some e => (Some (pos + stat_size * entry_index name es)%nat, entry_bytes e)
    | None => (None, last_entry es obj)
    end.
Proof.
  induction 1 as [|e es He Hes IH]; intros [|fuel] name pos obj Hf; simpl in Hf; try lia; [done|].
  change (table (e :: es)) with (entry_bytes e ++ table es). pose proof (entry_length e He) as Hl.
  cbn [find_record].
  assert ((length (entry_bytes e ++ table es) <? stat_size)%nat = false) as -> by (apply Nat.ltb_ge; rewrite length_app, Hl; lia).
  rewrite take_app_length', drop_app_length' by done.
  destruct He as (Ht & Hn & Hz). unfold entry_bytes at 1. rewrite (stat_bytes_name _ _ _ (en_padding e)) by done.
  cbn [entry_of entry_index]. destruct (String.eqb name (en_name e)).
  - by rewrite Nat.mul_0_r, Nat.add_0_r.
  - rewrite IH by lia. destruct (entry_of name es); [|by rewrite last_entry_cons].
    do 3 f_equal. unfold stat_size. lia.
Qed.

Lemma find_stat_table es name obj : Forall entry_ok es -> find_stat name (table es) obj = Some
    match entry_of name es with
    | Some e => (Some (stat_size * entry_index name es)%nat, entry_bytes e)
    | None => (None, last_entry es obj)
    end.
Proof.
  intros Hes. unfold find_stat. rewrite find_table; [done|done|]. rewrite table_length by done. unfold stat_size. lia.
Qed.

Lemma entry_found name es e : entry_of name es = Some e -> e ∈ es /\ en_name e = name.
Proof.
  induction es as [|a es IH]; [done|]. simpl. destruct (String.eqb_spec name (en_name a)) as [->|].
  - intros [= ->]. split; [left|done].
  - intros E. destruct (IH E). split; [by right|done].
Qed.

(** Writing over the record that was found. *)
Lemma overwrite_entry name n es e : Forall entry_ok es -> entry_of name es = Some e ->
  take (stat_size * entry_index name es) (table es) ++ stat_bytes name n (entry_bytes e) ++
  drop (stat_size * entry_index name es + stat_size) (table es) = table (put_entry name n 0 es).
Proof.
  induction 1 as [|a es Ha Hes IH]; [done|]. cbn [entry_of entry_index put_entry]. pose proof (entry_length a Ha) as Hl.
  change (table (a :: es)) with (entry_bytes a ++ table es).
  destruct (String.eqb_spec name (en_name a)) as [->|Hn].
  - intros [= ->]. rewrite entry_again by done. rewrite Nat.mul_0_r, Nat.add_0_l, take_0, drop_app_length' by done. done.
  - intros E. rewrite Nat.mul_succ_r, (Nat.add_comm _ stat_size), <- Hl.
    rewrite take_app_add, <- (Nat.add_assoc (length _)), drop_app_add, Hl, <- app_assoc.
    change (table (a :: put_entry name n 0 es)) with (entry_bytes a ++ table (put_entry name n 0 es)).
    by rewrite IH.
Qed.

Lemma table_app es1 es2 : table (es1 ++ es2) = table es1 ++ table es2.
Proof. unfold table. by rewrite map_app, concat_app. Qed.

Lemma put_new name n pad es : entry_of name es = None -> put_entry name n pad es = es ++ [mkEntry name n pad].
Proof. induction es as [|a es IH]; [done|]. simpl. destruct (String.eqb _ _); [done|]. intros E. by rewrite IH. Qed.

Lemma put_old name n pad pad' es e : entry_of name es = Some e -> put_entry name n pad es = put_entry name n pad' es.
Proof. induction es as [|a es IH]; [done|]. simpl. destruct (String.eqb _ _); [done|]. intros E. by rewrite (IH E). Qed.

Lemma entry_put name n pad es m : entry_of m (put_entry name n pad es) =
  if String.eqb m name then Some (mkEntry name n (match entry_of name es with Some e => en_padding e | None => pad end))
  else entry_of m es.
Proof.
  induction es as [|a es IH]; simpl; [by destruct (String.eqb m name)|].
  destruct (String.eqb_spec name (en_name a)) as [->|Hn]; simpl.
  - by destruct (String.eqb m (en_name a)).
  - destruct (String.eqb_spec m (en_name a)) as [->|]; [|exact IH].
    by rewrite (proj2 (String.eqb_neq (en_name a) name)) by congruence.
Qed.

Lemma put_ok name n pad es : is_text name = true -> (String.length name < name_size)%nat -> - 2 ^ 31 <= n < 2 ^ 31 ->
  Forall entry_ok es -> Forall entry_ok (put_entry name n pad es).
Proof.
  intros Ht Hl Hn. induction 1 as [|a es Ha Hes IH]; simpl.
  - by apply Forall_cons.
  - destruct (String.eqb_spec name (en_name a)) as [->|]; apply Forall_cons; [|done].
    split; [|done]. by destruct Ha as (? & ? & _).
Qed.

(** The byte of padding of an object. *)
Definition padding_of (obj : Mem) : Z := default 0 (obj !! name_size).

Lemma padding_taken obj : (name_size < length obj)%nat -> take 1 (drop name_size obj) = [padding_of obj].
Proof.
  intros Hl. destruct (lookup_lt_is_Some_2 _ _ Hl) as [x E]. unfold padding_of. rewrite E.
  rewrite (drop_S _ _ _ E). done.
Qed.

Lemma table_read es m stack : Forall entry_ok es ->
  read_zone_stat m (Some (table es)) stack = Some (en_failures <$> entry_of m es).
Proof.
  intros Hes. unfold read_zone_stat. rewrite find_stat_table by done.
  destruct (entry_of m es) as [e|] eqn:E; [|done]. destruct (entry_found _ _ _ E) as [Hin _].
  rewrite Forall_forall in Hes. destruct (Hes e Hin) as (? & ? & ?). simpl.
  unfold entry_bytes. by rewrite (stat_bytes_failures _ _ _ (en_padding e)).
Qed.

Lemma update_table creatable es name n stack : Forall entry_ok es -> is_text name = true ->
  (String.length name < name_size)%nat -> length stack = stat_size ->
  exists pad, update_zone_stat creatable name n (Some (table es)) stack = Some (Some (table (put_entry name n pad es))).
Proof.
  intros Hes Ht Hl Hs. unfold update_zone_stat. rewrite find_stat_table by done.
  destruct (entry_of name es) as [e|] eqn:E; [exists 0; by rewrite overwrite_entry|].
  set (obj := last_entry es stack). exists (padding_of obj).
  assert (length obj = stat_size) as Hobj.
  { subst obj. unfold last_entry. destruct (last (map entry_bytes es)) as [x|] eqn:El; [|done].
    apply last_Some_elem_of in El. apply list_elem_of_fmap in El as (e & -> & Hin).
    rewrite Forall_forall in Hes. by apply entry_length, Hes. }
  rewrite put_new, table_app by done. do 3 f_equal. unfold table. cbn [map concat]. rewrite app_nil_r.
  unfold entry_bytes. cbn [en_name en_failures en_padding].
  destruct (stat_bytes_split name n obj (padding_of obj) Ht Hl) as [-> _].
  { apply padding_taken. rewrite Hobj. unfold name_size, stat_size. lia. }
  by destruct (stat_bytes_split name n (replicate name_size 0 ++ [padding_of obj]) (padding_of obj) Ht Hl eq_refl) as [-> _].
Qed.

Lemma put_put name n pad n' pad' es : put_entry name n pad (put_entry name n' pad' es) = put_entry name n pad' es.
Proof.
  induction es as [|a es IH]; simpl; [by rewrite String.eqb_refl|].
  destruct (String.eqb name (en_name a)) eqn:E; simpl; [by rewrite String.eqb_refl|]. by rewrite E, IH.
Qed.

(** The exit gate at the table: one failure more, or the first one, which counts
    as none; more than three make the zone inactive. *)
Definition next_count (e : option Entry) : Z := match e with Some e => en_failures e + 1 | None => 0 end.

Section Counting.
Context `{ThdOs} `{StdSort} (creatable : bool) (stack : Mem) (Hs : length stack = stat_size).

Lemma set_inactive_run z p : exists p', set_zone_inactive z p = (z <| zone_active := false |>, p').
Proof.
  unfold set_zone_inactive, bind at 1. destruct (first_virtual z p) as [[i|] p1]; unfold bind;
    [destruct (disable_periodic_timer i p1)|]; eexists; reflexivity.
Qed.

Lemma gate_counts (b : Binding) zone es : bd_zone b = Some zone -> is_text (zone_type zone) = true ->
  (String.length (zone_type zone) < name_size)%nat -> bd_file b = Some (table es) -> Forall entry_ok es ->
  next_count (entry_of (zone_type zone) es) < 2 ^ 31 ->
  res (gate_set_curr_state creatable stack false 1) b = true /\
  exists pad, let t := post (gate_set_curr_state creatable stack false 1) b in
  bd_file t = Some (table (put_entry (zone_type zone) (next_count (entry_of (zone_type zone) es)) pad es)) /\
  bd_zone t = Some (if 3 <? next_count (entry_of (zone_type zone) es) then zone <| zone_active := false |> else zone).
Proof.
  intros Ez Ht Hl Ef Hes Hc. change (gate_set_curr_state creatable stack false 1) with (exit_reached creatable stack).
  unfold exit_reached, res, post, bind, gets, on_plant, modify, ret, id. cbv beta iota. rewrite Ez.
  destruct (zone_reset false zone (bd_plant b)) as [u p]. rewrite Ef, table_read by done.
  destruct (entry_of (zone_type zone) es) as [e|] eqn:E; cbn [fmap option_fmap option_map]; cbv zeta iota beta.
  - assert (sint 32 (en_failures e + 1) = en_failures e + 1) as ->.
    { destruct (entry_found _ _ _ E) as [Hin _]. rewrite Forall_forall in Hes. destruct (Hes e Hin) as (_ & _ & ?).
      apply sint_id; [done|]. unfold next_count in Hc. lia. }
    destruct (update_table creatable es (zone_type zone) (en_failures e + 1) stack Hes Ht Hl Hs) as [pad Eu].
    rewrite Eu. unfold next_count. cbv beta iota. destruct (3 <? en_failures e + 1).
    + destruct (set_inactive_run zone (bd_plant (b <| bd_plant := p |> <| bd_file := Some (table
        (put_entry (zone_type zone) (en_failures e + 1) pad es)) |>))) as [p' ->]. split; [done|]. by exists pad.
    + split; [done|]. exists pad. split; [done|]. exact Ez.
  - destruct (update_table creatable es (zone_type zone) 0 stack Hes Ht Hl Hs) as [pad Eu]. rewrite Eu.
    split; [done|]. exists pad. by split.
Qed.
End Counting.

(** ** Properties *)

(** The file is a table of zones with their failures: reading gives the count of
    the first entry of the zone, and an update replaces it, or adds an entry when there was none, and nothing
    else; what is read afterwards is what was written. *)
Theorem failures_table creatable es name n stack :
  Forall entry_ok es -> is_text name = true -> (String.length name < name_size)%nat ->
  - 2 ^ 31 <= n < 2 ^ 31 -> length stack = stat_size ->
  read_zone_stat name (Some (table es)) stack = Some (en_failures <$> entry_of name es) /\
  (exists pad, update_zone_stat creatable name n (Some (table es)) stack = Some (Some (table (put_entry name n pad es)))) /\
  forall pad m, read_zone_stat m (Some (table (put_entry name n pad es))) stack =
    Some (if String.eqb m name then Some n else en_failures <$> entry_of m es).
Proof.
  intros Hes Ht Hl Hn Hs. split; [by apply table_read|]. split; [by apply update_table|].
  intros pad m. rewrite table_read by (by apply put_ok). rewrite entry_put. by destruct (String.eqb m name).
Qed.

(** A zone of which nothing is known becomes inactive at the fifth failure, not
    before: the first one is counted as none, and more than three are needed.  From then on it is
    on the black list. *)
Theorem fifth_failure `{ThdOs} `{StdSort} creatable stack (b : Binding) zone es n :
  length stack = stat_size -> bd_zone b = Some zone -> zone_active zone = true ->
  is_text (zone_type zone) = true -> (String.length (zone_type zone) < name_size)%nat ->
  bd_file b = Some (table es) -> Forall entry_ok es -> entry_of (zone_type zone) es = None ->
  Z.of_nat n < 2 ^ 31 -> let t := post (failed creatable stack n) b in
  res (failed creatable stack n) b = true /\
  (exists zone', bd_zone t = Some zone' /\ zone_active zone' = (n <? 5)%nat) /\
  ((5 <= n)%nat -> blacklist_match stack (zone_type zone) t = Some true).
Proof.
  intros Hs Ez Ha Ht Hl Ef Hes He Hn.
  cut (res (failed creatable stack n) b = true /\ exists zone' pad, let t := post (failed creatable stack n) b in
    bd_zone t = Some zone' /\ zone_type zone' = zone_type zone /\ zone_active zone' = (n <? 5)%nat /\
    bd_file t = Some (table (match n with O => es | S k => put_entry (zone_type zone) (Z.of_nat k) pad es end))).
  { intros [Hr (zone' & pad & Et & Ety & Hac & Eft)]. split; [done|]. split; [eauto|].
    intros Hn5. unfold blacklist_match. destruct (existsb _ _); [done|]. rewrite Eft. destruct n as [|k]; [lia|].
    rewrite table_read by (apply put_ok; done || lia). rewrite entry_put, String.eqb_refl. simpl.
    f_equal. apply Z.ltb_lt. lia. }
  induction n as [|n IH].
  { split; [done|]. by exists zone, 0. }
  destruct IH as [Hr (zone' & pad & Et & Ety & Hac & Eft)]; [lia|].
  cbn [failed]. set (m := failed creatable stack n) in *. set (t := post m b) in *.
  assert (forall A (f : bool -> M Binding A), bind m f b = f true t) as Eb.
  { intros A f. unfold bind. subst t. unfold res, post in *. destruct (m b) as [ok t]. simpl in *. by rewrite Hr. }
  unfold res, post. rewrite Eb. set (es' := match n with O => es | S k => _ end) in Eft.
  assert (Forall entry_ok es') as Hes' by (subst es'; destruct n; [done|apply put_ok; done || lia]).
  assert (next_count (entry_of (zone_type zone') es') = Z.of_nat n) as Hc.
  { subst es'. rewrite Ety. destruct n; [by rewrite He|]. rewrite entry_put, String.eqb_refl. simpl. lia. }
  destruct (gate_counts creatable stack Hs t zone' es' Et) as [Hg (pad' & Ef' & Ez')];
    [by rewrite Ety|by rewrite Ety|exact Eft|done|rewrite Hc; lia|].
  split; [exact Hg|]. rewrite Hc in Ef', Ez'. exists (if 3 <? Z.of_nat n then zone' <| zone_active := false |> else zone').
  exists (match n with O => pad' | S _ => pad end). split; [exact Ez'|]. split; [by destruct (3 <? _)|]. split.
  - destruct (Z.ltb_spec 3 (Z.of_nat n)); destruct (Nat.ltb_spec (S n) 5); try lia; simpl; [done|].
    rewrite Hac. apply Nat.ltb_lt. lia.
  - refine (eq_trans Ef' _). rewrite Ety. subst es'. destruct n as [|k]; [done|]. by rewrite put_put.
Qed.

(** A name that does not fit its array is written without its end and never found again,
    so its failures are not counted. *)
Lemma long_name_unknown name es stack : Forall entry_ok es -> (name_size <= String.length name)%nat ->
  read_zone_stat name (Some (table es)) stack = Some None.
Proof.
  intros Hes Hl. rewrite table_read by done. destruct (entry_of name es) as [e|] eqn:E; [|done].
  destruct (entry_found _ _ _ E) as [Hin <-]. rewrite Forall_forall in Hes. destruct (Hes e Hin) as (_ & ? & _). lia.
Qed.

(** Within its range the load is significant above three fifths of the highest power. *)
Lemma significant_spec power mx mn : 0 <= mn <= mx -> mx * 60 < 2 ^ 32 ->
  significant power mx mn = (def_starting_power_differential <=? mx - mn) && (mx * 60 / 100 <? power).
Proof.
  intros Hm Hx. unfold significant. rewrite !wrap_small by lia. by rewrite Z.leb_antisym.
Qed.

(** Above 71.5 watts the product wraps: a third of a watt of 72 is a significant load. *)
Example significant_wraps : significant 333333 72000000 0 = true.
Proof. reflexivity. Qed.
(** A lowest power above the highest one counts as a large difference. *)
Example significant_reversed : significant 6000000 6000000 9000000 = true.
Proof. reflexivity. Qed.

Module Dormant.
#[local] Existing Instance Quiet.quiet_os.
#[local] Existing Instance Quiet.quiet_sort.

Definition old : list Entry := [mkEntry "pch_cannonlake" 2 7; mkEntry "iwlwifi_1" (-1) 0].
Definition blank : Mem := replicate stat_size 170.

Lemma old_ok : Forall entry_ok old.
Proof. repeat apply Forall_cons_2; try apply Forall_nil_2; (split; [reflexivity|]; vm_compute; split; [lia|split; discriminate || reflexivity]). Defined.

Lemma failures_table_witness :
  read_zone_stat "iwlwifi_1" (Some (table old)) blank = Some (en_failures <$> entry_of "iwlwifi_1" old) /\
  (exists pad, update_zone_stat true "iwlwifi_1" 4 (Some (table old)) blank =
     Some (Some (table (put_entry "iwlwifi_1" 4 pad old)))) /\
  forall pad m, read_zone_stat m (Some (table (put_entry "iwlwifi_1" 4 pad old))) blank =
    Some (if String.eqb m "iwlwifi_1" then Some 4 else en_failures <$> entry_of m old).
Proof. apply (failures_table true old "iwlwifi_1" 4 blank old_ok); [reflexivity|vm_compute; lia|lia|reflexivity]. Defined.

Definition soc : Zone := (Rooms.soc [1%nat] [80000] <| zone_active := true |>)%prog.
Definition bound : Binding := mkBinding Rooms.plant (Some (table old)) (Some soc) 0 0.

Lemma fifth_failure_witness : let t := post (failed true blank 5) bound in
  res (failed true blank 5) bound = true /\
  (exists zone', bd_zone t = Some zone' /\ zone_active zone' = (5 <? 5)%nat) /\
  ((5 <= 5)%nat -> blacklist_match blank "minibook_soc" t = Some true).
Proof.
  apply (fifth_failure true blank bound soc old 5);
    [reflexivity|reflexivity|reflexivity|reflexivity|vm_compute; lia|reflexivity|exact old_ok|reflexivity|lia].
Defined.
End Dormant.
