(* ===== verification/ZoneSetup.v ===== *)
(** * The thermal daemon: setting up zones

    The classes derived from the zone of Zone.v: the zones of the kernel
    (thd_zone_therm_sys_fs.cpp), those that users make (thd_zone_dynamic.cpp),
    the processor's (thd_zone_cpu.cpp), those of the configuration
    (thd_zone_generic.cpp) and the one of the package power
    (thd_zone_rapl_power.cpp): their sensors, their trips, [zone_update] and the
    destructor. *)

From Stdlib Require Import ZArith Lia Ascii String Sorted.
From stdpp Require Import base list option strings pretty sets.
From S2P Require Import Prelude Floats ThdCommon Xml ThdIo Pid Cdev Sensor Trip Config Zone.

#[local] Open Scope Z_scope.
#[local] Open Scope prog_scope.

Section Setup.
Context `{ThdOs} `{StdSort}.

Definition max_trip_points : nat := 50.
Definition max_cool_devs : nat := 50.

Definition sysfs_zone_new (count : Z) (path : string) : M Plant Zone :=
  let name := path +:+ pretty count +:+ "/type" in
  e <- on_world (fs_exists name) ;;
  type <- (if e : bool then r <- on_world (fs_read_string name) ;; ret (default EmptyString (snd r))
           else ret EmptyString) ;;
  ret (zone_new (SysfsZone 0 []) count path type).
Definition dynamic_zone_new (index : Z) (name : string) (temp : Z) (type : trip_point_type_t)
    (sensor cdev : string) : Zone :=
  zone_new (DynamicZone (wrap 32 temp) type sensor cdev) index "" name.

(** A number of an optional file: [None]: it cannot be read. *)
Definition read_optional (name : string) (dflt : Z) (fix_value : Z -> Z) : M Plant (option Z) :=
  e <- on_world (fs_exists name) ;;
  if negb e then ret (Some dflt)
  else r <- on_world (fs_read_int name) ;;
       ret (if fst r <? 0 then None else Some (fix_value (default dflt (snd r)))).

Definition trip_type_of (s : string) : trip_point_type_t :=
  if String.eqb s "critical" then CRITICAL
  else if String.eqb s "hot" then MAX
  else if String.eqb s "active" then ACTIVE
  else if String.eqb s "passive" then PASSIVE
  else INVALID_TRIP_TYPE.

(** The trip [i] of the kernel; [false]: a file cannot be read.  A trip that can be
    written makes the sensor asynchronous and is left to the kernel. *)
Definition read_trip_point (i : Z) (z : Zone) : M Plant (bool * Zone) :=
  let base := zone_path z +:+ pretty (zone_index z) +:+ "/trip_point_" +:+ pretty i in
  e <- on_world (fs_exists (base +:+ "_type")) ;;
  type <- (if e : bool then r <- on_world (fs_read_string (base +:+ "_type")) ;; ret (default EmptyString (snd r))
           else ret EmptyString) ;;
  e <- on_world (fs_exists (base +:+ "_temp")) ;;
  writable <- (if e : bool then on_world (fs_writable (base +:+ "_temp")) else ret false) ;;
  temp <- (if e : bool then r <- on_world (fs_read_int (base +:+ "_temp")) ;;
                            ret (if fst r <? 0 then None else Some (default 0 (snd r)))
           else ret (Some 0)) ;;
  match temp with
  | None => ret (false, z)
  | Some temp =>
      hyst <- read_optional (base +:+ "_hyst") 1 (fun h => if (h <? 1000) || (5000 <? h) then 1000 else h) ;;
      match hyst with
      | None => ret (false, z)
      | Some hyst =>
          s <- search_sensor (zone_type z) ;;
          match zone_kind z with
          | SysfsZone cnt initial =>
              let wr_mode := match s with Some _ => writable | None => false end in
              (match s with
               | Some j => if writable then set_sensor j (fun s => s <| async_capable := true |>) else ret tt
               | None => ret tt
               end) ;;;
              let z := z <| zone_kind := SysfsZone cnt (initial ++ [if wr_mode then temp else -1]) |> in
              match s with
              | Some j =>
                  if (0 <? temp) && negb (bool_decide (trip_type_of type = INVALID_TRIP_TYPE)) && negb wr_mode then
                    sensor <- index_of_sensor j ;;
                    ret (true, (z <| zone_kind := SysfsZone (cnt + 1) (initial ++ [-1]) |>
                                 <| trip_points := trip_points z ++
                                      [trip_new cnt (trip_type_of type) temp hyst (zone_index z) sensor SEQUENTIAL] |>))
                  else ret (true, z)
              | None => ret (true, z)
              end
          | _ => ret (true, z)
          end
      end
  end.
Fixpoint read_trip_points_from (n : nat) (i : Z) (z : Zone) : M Plant (bool * Zone) :=
  match n with
  | O => ret (true, z)
  | S n => r <- read_trip_point i z ;; if fst r : bool then read_trip_points_from n (i + 1) (snd r) else ret r
  end.

(** [read_trip_points] of a zone of the kernel; [false]: an error. *)
Definition sysfs_read_trip_points (z : Zone) : M Plant (bool * Zone) :=
  r <- read_trip_points_from max_trip_points 0 z ;;
  let (ok, z) := r in
  if negb ok then ret (false, z)
  else
    match zone_kind z with
    | SysfsZone 0 initial =>
        s <- search_sensor (zone_type z) ;;
        match s with
        | None => ret (false, z)
        | Some j =>
            sensor <- index_of_sensor j ;;
            ret (true, (z <| zone_kind := SysfsZone 1 initial |>
                          <| trip_points := trip_points z ++
                               [trip_new 0 PASSIVE 2147483647 0 (zone_index z) sensor SEQUENTIAL] |>))
        end
    | _ => ret (true, z)
    end.

(** *** A dynamic zone *)

(** [thd_trip_point_add_cdev] with its default arguments. *)
Definition add_default_cdev (l : list Cdev) (i : nat) (t : Trip) : Trip :=
  thd_trip_point_add_cdev l i default_influence 0 false TRIP_PT_INVALID_TARGET_STATE None false 0 0 t.
Definition dynamic_read_trip_points (temp : Z) (type : trip_point_type_t) (sensor_name cdev_name : string)
    (z : Zone) : M Plant (bool * Zone) :=
  s <- search_sensor sensor_name ;;
  match s with
  | None => ret (false, z)
  | Some j =>
      sensor <- index_of_sensor j ;;
      c <- search_cdev cdev_name ;;
      match c with
      | None => ret (false, z)
      | Some i =>
          l <- gets plant_cdevs ;;
          ret (true, (z <| zone_cdev_binded := true |>
                       <| trip_points := trip_points z ++
                            [thd_trip_point_add_cdev l i default_influence 0 false
                               TRIP_PT_INVALID_TARGET_STATE None false 0 0
                               (trip_new 0 type temp 0 (zone_index z) sensor PARALLEL)] |>))
      end
  end.

(** *** The zone of the processor (thd_zone_cpu.cpp) *)

Definition max_dts_sensors : nat := 16.
Definition def_hystersis := 0.
Definition def_offset_from_critical := 10000.
Definition def_critical_temp := 100000.

Definition cpu_zone_new (index : Z) (path : string) (package_id : Z) : Zone :=
  zone_new (CpuZone (mkCpu 0 0 0 0 0 package_id)) index path "cpu" <| sensor_rel := SENSORS_CORELATED |>.

(** The lower of two limits, when there is one already. *)
Definition lower (old temp : Z) : Z := if (old =? 0) || (temp <? old) then temp else old.

(** A limit of the sensor; [None]: it cannot be read, the inner one: there is no
    file.  An empty file leaves the variable. *)
Definition read_limit (path : string) (temp : Z) : M World (option (option Z)) :=
  e <- fs_exists path ;;
  if negb e then ret (Some None)
  else r <- fs_read_int path ;; ret (if fst r <? 0 then None else Some (Some (default temp (snd r)))).
(** The sensors from [i] on; the result tells whether a maximum was found. *)
Fixpoint read_dts (base : string) (n : nat) (i temp : Z) (found : bool) (c : Cpu) : M World (option bool * Cpu) :=
  match n with
  | O => ret (Some found, c)
  | S n =>
      r <- read_limit (base +:+ "temp" +:+ pretty i +:+ "_crit") temp ;;
      match r with
      | None => ret (None, c)
      | Some v =>
          let temp := default temp v in
          let c := match v with Some v => c <| critical_temp := lower (critical_temp c) v |> | None => c end in
          let path := base +:+ "temp" +:+ pretty i +:+ "_max" in
          e <- fs_exists path ;;
          if negb e then read_dts base n (i + 1) temp found c
          else
            let c := c <| sensor_mask := Z.lor (sensor_mask c) (Z.shiftl 1 i) |> in
            r <- fs_read_int path ;;
            if fst r <? 0 then ret (None, c)
            else
              let temp := default temp (snd r) in
              read_dts base n (i + 1) temp true (c <| max_temp := lower (max_temp c) temp |>)
      end
  end.

(** The limits made plausible: the maximum lies 10 degrees below the critical
    temperature at least, the passive one in the middle. *)
Definition settle_limits (c : Cpu) : Cpu :=
  let critical := if critical_temp c =? 0 then def_critical_temp else critical_temp c in
  let below := sint 32 (critical - def_offset_from_critical) in
  let max := if max_temp c =? 0 then below else max_temp c in
  let max := if sint 32 (critical - max) <? def_offset_from_critical then below else max in
  c <| critical_temp := critical |> <| max_temp := max |>
    <| psv_temp := sint 32 (max + Z.quot (sint 32 (critical - max)) 2) |>.
(** [false]: an error. *)
Definition cpu_init (base : string) (c : Cpu) : M World (bool * Cpu) :=
  r <- read_dts base max_dts_sensors 0 0 false (c <| max_temp := 0 |> <| critical_temp := 0 |>) ;;
  ret (match r with
       | (Some true, c) => (true, settle_limits c)
       | (_, c) => (false, c)
       end).

(** The sensor of the name bound to the zone, if there is one. *)
Definition bind_named (name : string) (z : Zone) : M Plant (bool * Zone) :=
  s <- search_sensor name ;; ret (match s with Some i => (true, bind_sensor i z) | None => (false, z) end).
(** The sensors of the mask, by their bits. *)
Fixpoint bind_cores (n : nat) (cnt mask : Z) (ok : bool) (z : Zone) : M Plant (bool * Zone) :=
  match n with
  | O => ret (ok, z)
  | S n =>
      r <- (if Z.testbit mask cnt then bind_named ("temp" +:+ pretty cnt +:+ "_input") z else ret (false, z)) ;;
      bind_cores n (cnt + 1) mask (ok || fst r) (snd r)
  end.
Definition cpu_bind_sensors (c : Cpu) (z : Zone) : M Plant (bool * Zone) :=
  r <- on_world (cpu_init (zone_path z) c) ;;
  let (ok, c) := r in
  let z := z <| zone_kind := CpuZone c |> in
  if negb ok then ret (false, z)
  else
    rt <- gets rt_kernel ;;
    pkg <- (if rt : bool then ret (false, z) else bind_named "pkg-temp-0" z) ;;
    x86 <- (if rt : bool then ret (false, snd pkg) else bind_named "x86_pkg_temp" (snd pkg)) ;;
    dts <- bind_named "soc_dts0" (snd x86) ;;
    let z := snd dts in
    if fst pkg || fst x86 || fst dts then
      s <- search_sensor "hwmon" ;;
      (match s with Some i => set_sensor i (fun s => s <| async_capable := true |>) | None => ret tt end) ;;;
      ret (true, z)
    else
      r <- bind_cores 32 0 (sensor_mask c) false z ;;
      if fst r then ret r else bind_named "hwmon" (snd r).

(** The devices of the names that exist, in the order of the names. *)
Fixpoint load_cdevs (names : list string) (t : Trip) : M Plant Trip :=
  match names with
  | [] => ret t
  | name :: names =>
      c <- search_cdev name ;; l <- gets plant_cdevs ;;
      load_cdevs names (match c with Some i => add_default_cdev l i t | None => t end)
  end.
Definition push_trip (t : Trip) (z : Zone) : Zone := z <| trip_points := trip_points z ++ [t] |>.
Definition count_trip (c : Cpu) : Cpu := c <| cpu_trip_cnt := cpu_trip_cnt c + 1 |>.

Definition cdev_order_file : string := os_confdir +:+ "/thermal-cpu-cdev-order.xml".
(** The order in thermal-cpu-cdev-order.xml; [None]: an error. *)
Definition order_list : M World (option (list string)) :=
  e <- fs_exists cdev_order_file ;;
  if negb e then ret None
  else
    doc <- ask (fun n => os_xml n cdev_order_file) ;;
    ret (root ← doc ≫= xmlDocGetRootElement; Some (default [] (parse_order root []))).

Definition def_cooling_devices : list string :=
  ["rapl_controller"; "intel_pstate"; "intel_powerclamp"; "cpufreq"; "Processor"]%string.
Definition cpu_read_trip_points (c : Cpu) (z : Zone) : M Plant (bool * Zone) :=
  order <- on_world order_list ;;
  let passive := trip_new (cpu_trip_cnt c) PASSIVE (psv_temp c) def_hystersis (zone_index z) DEFAULT_SENSOR_ID SEQUENTIAL in
  match order with
  | Some names =>
      t <- load_cdevs names passive ;;
      ret (true, push_trip t z <| zone_kind := CpuZone (count_trip c) |>)
  | None =>
      t <- load_cdevs def_cooling_devices passive ;;
      let c := count_trip c in
      let z := push_trip t z in
      fan <- search_cdev "Fan" ;;
      match fan with
      | None => ret (true, z <| zone_kind := CpuZone c |>)
      | Some i =>
          l <- gets plant_cdevs ;;
          ret (true, push_trip (add_default_cdev l i (trip_new (cpu_trip_cnt c) ACTIVE (max_temp c) def_hystersis
                                  (zone_index z) DEFAULT_SENSOR_ID SEQUENTIAL)) z
                       <| zone_kind := CpuZone (count_trip c) |>)
      end
  end.

(** *** A zone of the configuration (thd_zone_generic.cpp) *)

(** The devices of a trip of the configuration; the gains are left out or not. *)
Definition conf_pid (with_pid : bool) (c : trip_cdev_t) : option (float * float * float) :=
  if with_pid then (fun p => (Kp p, Ki p, Kd p)) <$> c_pid_param c else None.
Definition add_conf_cdev (l : list Cdev) (i : nat) (with_pid : bool) (c : trip_cdev_t) (t : Trip) : Trip :=
  thd_trip_point_add_cdev l i (c_influence c) (c_sampling_period c) (c_target_state_valid c)
    (c_target_state c) (conf_pid with_pid c) (c_min_max_valid c) (c_target_min_state c) (c_target_max_state c) t.
(** [true]: a device was found. *)
Fixpoint bind_conf_cdevs (with_pid : bool) (cs : list trip_cdev_t) (t : Trip) : M Plant (bool * Trip) :=
  match cs with
  | [] => ret (false, t)
  | c :: cs =>
      i <- search_cdev (c_type c) ;; l <- gets plant_cdevs ;;
      r <- bind_conf_cdevs with_pid cs
             (match i with Some i => add_conf_cdev l i with_pid c t | None => t end) ;;
      ret (match i with Some _ => true | None => fst r end, snd r)
  end.
(** A trip made from the configuration, and whether it has devices. *)
Definition conf_trip (with_pid : bool) (n : Z) (sensor : nat) (t : trip_point_t) (z : Zone) : M Plant (bool * Trip) :=
  id <- index_of_sensor sensor ;;
  let trip := trip_new n (t_type t) (t_temperature t) (t_hyst t) (zone_index z) id (t_control t) in
  dep <- search_cdev (dp_cdev (t_dependency t)) ;;
  bind_conf_cdevs with_pid (t_cdevs t)
    (if dp_dependency (t_dependency t) then set_dependency dep (dp_state (t_dependency t)) trip else trip).
Fixpoint generic_trips (n : Z) (l : list trip_point_t) (z : Zone) : M Plant Zone :=
  match l with
  | [] => ret z
  | t :: l =>
      if t_temperature t =? 0 then generic_trips n l z
      else
        s <- search_sensor (t_sensor_type t) ;;
        match s with
        | None => generic_trips n l z
        | Some i =>
            r <- conf_trip false n i t z ;;
            generic_trips (n + 1) l
              (push_trip (snd r) (z <| zone_cdev_binded := zone_cdev_binded z || fst r |>))
        end
  end.
Definition generic_read_trip_points (config : option thermal_zone_t) (z : Zone) : M Plant (bool * Zone) :=
  match config with
  | None => ret (false, z)
  | Some c => z <- generic_trips 0 (z_trips c) z ;; ret (negb (bool_decide (trip_points z = [])), z)
  end.
(** The result is about the last trip. *)
Fixpoint generic_binds (l : list trip_point_t) (last : bool) (z : Zone) : M Plant (bool * Zone) :=
  match l with
  | [] => ret (last, z)
  | t :: l => r <- bind_named (t_sensor_type t) z ;; generic_binds l (fst r) (snd r)
  end.
Definition generic_bind_sensors (config : option thermal_zone_t) (z : Zone) : M Plant (bool * Zone) :=
  match config with None => ret (false, z) | Some c => generic_binds (z_trips c) false z end.

(** *** The zone of the package power (thd_zone_rapl_power.cpp) *)

Definition rapl_power_zone_new (index : Z) : Zone := zone_new RaplPowerZone index "" "rapl_pkg_power".
Definition rapl_power_read_trip_points (z : Zone) : M Plant (bool * Zone) :=
  c <- search_cdev "rapl_controller" ;;
  match c with
  | None => ret (false, z)
  | Some i =>
      l <- gets plant_cdevs ;; interval <- gets poll_interval_sec ;;
      ret (true, push_trip (thd_trip_point_add_cdev l i default_influence interval false 0 None false 0 0
                              (trip_new 0 PASSIVE 100000 0 (zone_index z) DEFAULT_SENSOR_ID PARALLEL)) z)
  end.

(** *** The virtual methods *)

(** The sensor that a zone of the kernel, a dynamic one and the one of the power
    are about. *)
Definition zone_bind_sensors (z : Zone) : M Plant (bool * Zone) :=
  match zone_kind z with
  | SysfsZone _ _ => bind_named (zone_type z) z
  | DynamicZone _ _ sensor _ => bind_named sensor z
  | CpuZone c => cpu_bind_sensors c z
  | GenericZone config => generic_bind_sensors config z
  | RaplPowerZone => bind_named "rapl_pkg_power" z
  end.
Definition read_trip_points (z : Zone) : M Plant (bool * Zone) :=
  match zone_kind z with
  | SysfsZone _ _ => sysfs_read_trip_points z
  | DynamicZone temp type sensor_name cdev_name => dynamic_read_trip_points temp type sensor_name cdev_name z
  | CpuZone c => cpu_read_trip_points c z
  | GenericZone config => generic_read_trip_points config z
  | RaplPowerZone => rapl_power_read_trip_points z
  end.

(** What comes after the name in the target of a link. *)
Definition after_word (word s : string) : option string :=
  n ← String.index 0 word s; Some (drop_string (n + String.length word) s).

(** The device [i] of the kernel's zone: [None]: an error.  The number of the trip is
    used as a place in the list of the trips. *)
Definition read_cdev_trip_point (i : Z) (z : Zone) : M Plant (option Zone) :=
  let base := zone_path z +:+ pretty (zone_index z) +:+ "/cdev" +:+ pretty i in
  e <- on_world (fs_exists (base +:+ "_trip_point")) ;;
  if negb e then ret (Some z)
  else
    r <- on_world (fs_read_int (base +:+ "_trip_point")) ;;
    if fst r <? 0 then ret None
    else
      let trip_cnt := default (-1) (snd r) in
      e <- on_world (fs_exists base) ;;
      if negb e then ret (Some z)
      else
        link <- on_world (fs_read_link base) ;;
        match link with
        | None => ret (Some z)
        | Some target =>
            match after_word "cooling_device" (String.substring 0 50 target), zone_kind z with
            | Some number, SysfsZone cnt _ =>
                if (0 <=? trip_cnt) && (trip_cnt <? cnt) then
                  l <- gets plant_cdevs ;;
                  ret (Some (z <| zone_cdev_binded := true |>
                               <| trip_points := alter (fun t => snd (thd_trip_point_add_cdev_index l (atoi number)
                                                                       default_influence t))
                                                   (Z.to_nat trip_cnt) (trip_points z) |>))
                else ret (Some z)
            | _, _ => ret (Some z)
            end
        end.
Fixpoint read_cdev_trip_points_from (n : nat) (i : Z) (z : Zone) : M Plant Zone :=
  match n with
  | O => ret z
  | S n => r <- read_cdev_trip_point i z ;;
           match r with Some z => read_cdev_trip_points_from n (i + 1) z | None => ret z end
  end.
(** An error is not passed on. *)
Definition read_cdev_trip_points (z : Zone) : M Plant Zone :=
  match zone_kind z with SysfsZone _ _ => read_cdev_trip_points_from max_cool_devs 0 z | _ => ret z end.

Inductive Update := Updated (z : Zone) | Failed (z : Zone) | OutOfBounds.

Definition zone_update (z : Zone) : M Plant Update :=
  r <- zone_bind_sensors z ;;
  let (bound, z) := r in
  if negb bound then ret (Failed z)
  else
    r <- read_trip_points z ;;
    let (ok, z) := r in
    if negb ok then ret (Failed z)
    else
      usr_psv_temp <- read_user_set_psv_temp z ;;
      r <- (if 0 <? usr_psv_temp
            then update_highest_trip_temp
                   (trip_new 0 PASSIVE usr_psv_temp 0 (zone_index z) DEFAULT_SENSOR_ID PARALLEL) z
            else ret (Some z)) ;;
      match r with
      | None => ret OutOfBounds
      | Some z => z <- read_cdev_trip_points z ;; z <- sort_and_update_poll_trip z ;; ret (Updated z)
      end.

(** The destructor of the kernel's zone gives the trips back their temperatures. *)
Fixpoint restore_trips (path : string) (i : Z) (l : list Z) : M World unit :=
  match l with
  | [] => ret tt
  | v :: l =>
      let name := path +:+ "/trip_point_" +:+ pretty i +:+ "_temp" in
      (if 0 <=? v then e <- fs_exists name ;; (if e : bool then fs_write_uint name v ;;; ret tt else ret tt)
       else ret tt) ;;;
      restore_trips path (i + 1) l
  end.
Definition zone_destroy (z : Zone) : M World unit :=
  match zone_kind z with
  | SysfsZone _ initial => restore_trips (zone_path z +:+ pretty (zone_index z)) 0 initial
  | _ => ret tt
  end.
End Setup.

(** ** The limits of the processor *)

Section Limits.
Context `{ThdOs} `{StdSort}.

(** The critical and the maximum temperature that coretemp shows for sensor [i], in
    the files of the directory [base]: whenever they are read. *)
Context (base : string) (crit max : Z -> option Z).
Definition limit_file (i : Z) (name : string) : string := base +:+ "temp" +:+ pretty i +:+ name.
Definition shows (path : string) (v : option Z) : Prop := forall n,
  os_stat n path = bool_decide (is_Some v) /\
  forall x, v = Some x -> exists text, os_read n path = inr text /\ text <> EmptyString /\
    atoi (String.substring 0 16 text) = x.
Hypothesis crit_shown : forall i, 0 <= i < 16 -> shows (limit_file i "_crit") (crit i).
Hypothesis max_shown : forall i, 0 <= i < 16 -> shows (limit_file i "_max") (max i).
(** In millidegrees: no overflow in what is computed of them. *)
Hypothesis crit_plausible : forall i x, crit i = Some x -> 10000 <= x <= 2 ^ 29.
Hypothesis max_plausible : forall i x, max i = Some x -> 0 < x <= 2 ^ 29.

(** The sensors from [i] on, and their limits. *)
Definition indices (n : nat) (i : Z) : list Z := map (fun k => i + Z.of_nat k) (seq 0 n).
Definition sensors : list Z := indices max_dts_sensors 0.
Definition lowest (dflt : Z) (l : list Z) : Z := match l with [] => dflt | x :: l => fold_left Z.min l x end.

(** The temperatures of the zone: the lowest critical one of the sensors, that of the
    fan, and the passive one half way between them. *)
Definition critical_limit : Z := lowest def_critical_temp (omap crit sensors).
Definition fan_limit : Z := Z.min (lowest (critical_limit - 10000) (omap max sensors)) (critical_limit - 10000).
Definition passive_limit : Z := fan_limit + (critical_limit - fan_limit) / 2.

Lemma shown_exists path v w : shows path v -> res (fs_exists path) w = bool_decide (is_Some v).
Proof. intros Hs. apply (Hs (io_calls w)). Qed.
Lemma shown_read path x w : shows path (Some x) -> exists n, 0 < n /\ res (fs_read_int path) w = (n, Some x).
Proof.
  intros Hs. destruct (Hs (io_calls w)) as [_ Hr]. destruct (Hr x eq_refl) as (text & E & Ht & Ex).
  unfold fs_read_int, fs_read_number, res, bind, ask, ret. cbn [fst snd]. rewrite E. cbn [fst].
  set (str := String.substring 0 16 text) in *. assert (0 < Z.of_nat (String.length str)) as Hl.
  { unfold str. destruct text; [done|]. cbn [String.substring String.length]. lia. }
  exists (Z.of_nat (String.length str)). split; [done|]. by rewrite (proj2 (Z.ltb_lt _ _)), Ex by done.
Qed.

Lemma indices_S n i : indices (S n) i = i :: indices n (i + 1).
Proof.
  unfold indices. cbn [seq map]. f_equal; [lia|]. rewrite <- seq_shift, map_map. apply map_ext. intros k. lia.
Qed.

(** The loop over the sensors: the lowest of each kind of limit. *)
Lemma read_dts_shown n i temp found c w : 0 <= i -> i + Z.of_nat n <= 16 ->
  exists mask,
  res (read_dts base n i temp found c) w =
    (Some (found || negb (bool_decide (omap max (indices n i) = []))),
     c <| critical_temp := fold_left lower (omap crit (indices n i)) (critical_temp c) |>
       <| max_temp := fold_left lower (omap max (indices n i)) (max_temp c) |> <| sensor_mask := mask |>).
Proof.
  revert i temp found c w. induction n as [|n IH]; intros i temp found c w Hi Hn.
  { exists (sensor_mask c). cbn. rewrite orb_false_r. by destruct c. }
  rewrite indices_S. cbn [read_dts omap list_omap]. rewrite res_bind.
  pose proof (crit_shown i ltac:(lia)) as Hc. pose proof (max_shown i ltac:(lia)) as Hm.
  assert (res (read_limit (base +:+ "temp" +:+ pretty i +:+ "_crit") temp) w = Some (crit i)) as ->.
  { unfold read_limit. rewrite res_bind. rewrite (shown_exists _ _ _ Hc).
    destruct (crit i) as [x|]; cbn [negb]; [|done]. rewrite bool_decide_true by done. cbn [negb].
    rewrite res_bind. destruct (shown_read _ _ (post (fs_exists (limit_file i "_crit")) w) Hc) as (k & Hk & E).
    change (base +:+ "temp" +:+ pretty i +:+ "_crit") with (limit_file i "_crit"). rewrite E.
    change (res (ret ?x) ?y) with x. cbn [fst snd]. by rewrite (proj2 (Z.ltb_ge k 0)) by lia. }
  cbv zeta. rewrite res_bind. fold (limit_file i "_max"). rewrite (shown_exists _ _ _ Hm).
  set (c1 := match crit i with Some v => _ | None => c end).
  destruct (max i) as [x|]; cbn [negb].
  - rewrite bool_decide_true by done. cbn [negb]. rewrite res_bind.
    match goal with |- context [res (fs_read_int _) ?w] => destruct (shown_read _ _ w Hm) as (k & Hk & ->) end.
    cbn [fst snd]. rewrite (proj2 (Z.ltb_ge k 0)) by lia. cbn [default from_option].
    match goal with |- context [res (read_dts _ _ _ ?t ?f ?d) ?u] =>
      destruct (IH (i + 1) t f d u ltac:(lia) ltac:(lia)) as [mask ->] end.
    exists mask. rewrite (bool_decide_false (x :: _ = [])) by done. rewrite orb_true_r, orb_true_l. f_equal. unfold c1. by destruct (crit i).
  - rewrite bool_decide_false by (by intros []). cbn [negb].
    match goal with |- context [res (read_dts _ _ _ ?t ?f ?d) ?u] =>
      destruct (IH (i + 1) t f d u ltac:(lia) ltac:(lia)) as [mask ->] end.
    exists mask. f_equal. unfold c1. by destruct (crit i).
Qed.

Lemma fold_lower l x : Forall (fun y => 0 < y) l -> 0 < x -> fold_left lower l x = fold_left Z.min l x.
Proof.
  intros Hl. revert x. induction Hl as [|y l Hy Hl IH]; intros x Hx; [done|]. cbn [fold_left].
  assert (lower x y = Z.min x y) as ->.
  { unfold lower. rewrite (proj2 (Z.eqb_neq x 0)) by lia. simpl. destruct (Z.ltb_spec y x); lia. }
  apply IH. lia.
Qed.
Lemma lowest_within lo hi d l : Forall (fun y => lo <= y <= hi) l -> lo <= d <= hi -> lo <= lowest d l <= hi.
Proof.
  intros Hl Hd. destruct Hl as [|x l Hx Hl]; [done|]. cbn. revert x Hx.
  induction Hl as [|y l Hy Hl IH]; intros x Hx; [done|]. cbn. apply IH. lia.
Qed.
(** Zero stands for no limit. *)
Lemma lower_lowest d l : Forall (fun y => 0 < y) l ->
  (if fold_left lower l 0 =? 0 then d else fold_left lower l 0) = lowest d l.
Proof.
  intros Hl. destruct Hl as [|x l Hx Hl]; [done|]. cbn [fold_left]. change (lower 0 x) with x.
  rewrite fold_lower by done. cbn [lowest]. rewrite (proj2 (Z.eqb_neq _ 0)); [done|].
  revert x Hx. induction Hl as [|y l Hy Hl IH]; intros x Hx; cbn; [lia|]. apply IH. lia.
Qed.
Lemma shown_within (f : Z -> option Z) lo hi : (forall i x, f i = Some x -> lo <= x <= hi) ->
  Forall (fun y => lo <= y <= hi) (omap f sensors).
Proof. intros Hf. apply Forall_forall. intros y (i & _ & Hi)%list_elem_of_omap. by apply (Hf i). Qed.
Lemma limits_ordered : 10000 <= critical_limit <= 2 ^ 29 /\ 0 <= fan_limit /\ fan_limit + 10000 <= critical_limit /\
  fan_limit + 5000 <= passive_limit <= critical_limit - 5000.
Proof.
  assert (10000 <= critical_limit <= 2 ^ 29) as Hc.
  { apply lowest_within; [by apply shown_within|]. unfold def_critical_temp. lia. }
  assert (0 <= fan_limit /\ fan_limit + 10000 <= critical_limit) as [Hf1 Hf2].
  { unfold fan_limit. set (d := critical_limit - 10000) in *.
    assert (0 <= lowest d (omap max sensors) <= 2 ^ 29); [|lia].
    apply lowest_within; [|lia]. apply shown_within. intros i x Hx. pose proof (max_plausible i x Hx). lia. }
  split_and!; try done; try lia; unfold passive_limit;
    pose proof (Z.div_mod (critical_limit - fan_limit) 2 ltac:(lia));
    pose proof (Z.mod_pos_bound (critical_limit - fan_limit) 2 ltac:(lia)); lia.
Qed.

(** The limits that the zone is given. *)
Definition limits_of (c : Cpu) : Prop :=
  critical_temp c = critical_limit /\ max_temp c = fan_limit /\ psv_temp c = passive_limit.

Lemma settle_limits_of c :
  critical_temp c = fold_left lower (omap crit sensors) 0 -> max_temp c = fold_left lower (omap max sensors) 0 ->
  limits_of (settle_limits c).
Proof.
  intros Hc Hm. pose proof limits_ordered as (Hb & Hf0 & Hf & Hp). pose proof (shown_within _ _ _ crit_plausible) as Hcs.
  assert (Forall (fun y => 0 < y <= 2 ^ 29) (omap max sensors)) as Hms.
  { apply Forall_forall. intros y (i & _ & Hi)%list_elem_of_omap. by apply (max_plausible i). }
  unfold limits_of, settle_limits, def_offset_from_critical. cbv zeta. rewrite Hc, Hm, !lower_lowest; cycle 1.
  { eapply Forall_impl; [exact Hms|]. simpl. lia. }
  { eapply Forall_impl; [exact Hcs|]. simpl. lia. }
  fold critical_limit. rewrite (sint_id 32 (critical_limit - 10000)) by lia.
  set (m := lowest (critical_limit - 10000) (omap max sensors)).
  assert (0 <= m <= 2 ^ 29) as Hmb.
  { apply lowest_within; [|lia]. eapply Forall_impl; [exact Hms|]. simpl. lia. }
  rewrite (sint_id 32 (critical_limit - m)) by lia.
  assert ((if critical_limit - m <? 10000 then critical_limit - 10000 else m) = fan_limit) as ->.
  { unfold fan_limit. fold m. destruct (Z.ltb_spec (critical_limit - m) 10000); lia. }
  rewrite (sint_id 32 (critical_limit - fan_limit)), Z.quot_div_nonneg by lia. fold passive_limit.
  rewrite sint_id by lia. done.
Qed.

Lemma cpu_init_limits c w :
  let r := res (cpu_init base c) w in
  fst r = negb (bool_decide (omap max sensors = [])) /\ (fst r = true -> limits_of (snd r)).
Proof.
  cbv zeta. unfold cpu_init. rewrite res_bind.
  match goal with |- context [res (read_dts base ?n ?i ?t ?f ?d) ?u] =>
    destruct (read_dts_shown n i t f d u ltac:(lia) ltac:(done)) as [mask ->] end.
  fold sensors. cbn [orb]. destruct (bool_decide_reflect (omap max sensors = [])) as [E|E]; [done|].
  split; [done|]. intros _. by apply settle_limits_of.
Qed.

(** The trips of the processor's zone once its limits are known. *)
Lemma load_cdevs_trip names t p : let u := res (load_cdevs names t) p in
  trip_type u = trip_type t /\ trip_temp u = trip_temp t.
Proof.
  revert t p. induction names as [|name names IH]; intros t p; [done|].
  cbv zeta. pattern (res (load_cdevs (name :: names) t) p). apply wp_res. cbn [load_cdevs].
  apply wp_bind, wp_conseq with (fun _ _ => True); [|done]. intros c p1 _. apply wp_bind, wp_gets.
  specialize (IH (match c with Some i => add_default_cdev (plant_cdevs p1) i t | None => t end) p1).
  cbv zeta in IH. unfold wp. destruct IH as [-> ->]. by destruct c.
Qed.

Lemma wp_on_world {A} (m : M World A) (Q : A -> Prop) p :
  wp m (fun a _ => Q a) (world p) -> wp (on_world m) (fun a _ => Q a) p.
Proof. unfold wp, on_world, res, post. by destruct (m (world p)). Qed.
Lemma bind_named_kind name z p : wp (bind_named name z) (fun r _ => zone_kind (snd r) = zone_kind z) p.
Proof.
  unfold bind_named. apply wp_bind, wp_conseq with (fun _ _ => True); [|done]. intros [i|] t _; apply wp_ret; [|done].
  unfold bind_sensor. by case_bool_decide.
Qed.
Lemma bind_cores_kind n cnt mask ok z p : wp (bind_cores n cnt mask ok z) (fun r _ => zone_kind (snd r) = zone_kind z) p.
Proof.
  revert cnt ok z p. induction n as [|n IH]; intros cnt ok z p; [by apply wp_ret|]. cbn [bind_cores]. apply wp_bind.
  apply wp_conseq with (fun r _ => zone_kind (snd r) = zone_kind z).
  - intros r t Hr. rewrite <- Hr. apply IH.
  - destruct (Z.testbit _ _); [apply bind_named_kind|by apply wp_ret].
Qed.
Lemma cpu_bind_limits c z p : zone_path z = base -> wp (cpu_bind_sensors c z)
  (fun r _ => fst r = true -> omap max sensors <> [] /\ exists d, zone_kind (snd r) = CpuZone d /\ limits_of d) p.
Proof.
  intros Hz. unfold cpu_bind_sensors. rewrite Hz. apply wp_bind.
  apply wp_conseq with (fun r _ => fst r = true -> omap max sensors <> [] /\ limits_of (snd r)).
  2: { apply wp_on_world. destruct (cpu_init_limits c (world p)) as [H1 H2]. unfold wp. intros Hr. split; [|by apply H2].
       rewrite Hr in H1. by destruct (bool_decide_reflect (omap max sensors = [])). }
  intros [[|] d] t Hd; [|by apply wp_ret]. destruct (Hd eq_refl) as [Hs Hl]. cbn [snd] in Hl. cbn [negb].
  apply wp_conseq with (fun r _ => zone_kind (snd r) = CpuZone d).
  { intros r u Hr _. split; [done|]. by exists d. }
  set (z1 := z <| zone_kind := CpuZone d |>).
  assert (forall (b : bool) (x : Zone) name u, zone_kind x = CpuZone d ->
    wp (if b then ret (false, x) else bind_named name x) (fun r _ => zone_kind (snd r) = CpuZone d) u) as Hb.
  { intros [|] x name u Hx; [by apply wp_ret|]. rewrite <- Hx. apply bind_named_kind. }
  apply wp_bind, wp_gets. apply wp_bind. eapply wp_conseq; [|by apply Hb]. intros pkg u1 H1.
  apply wp_bind. eapply wp_conseq; [|by apply Hb]. intros x86 u2 H2.
  apply wp_bind. eapply wp_conseq; [|by apply (Hb false)]. intros dts u3 H3.
  destruct (_ || _).
  - do 2 (apply wp_bind, wp_conseq with (fun _ _ => True); [|done]; intros ? ? _). by apply wp_ret.
  - apply wp_bind. eapply wp_conseq; [|apply bind_cores_kind]. intros r u4 Hr.
    destruct (fst r); [by apply wp_ret; rewrite Hr|]. rewrite <- H3, <- Hr. apply bind_named_kind.
Qed.

Definition trip_is (ty : trip_point_type_t) (temp : Z) (t : Trip) : Prop := trip_type t = ty /\ trip_temp t = temp.
Lemma cpu_trips c z p : 0 <= psv_temp c < 2 ^ 32 -> 0 <= max_temp c < 2 ^ 32 ->
  wp (cpu_read_trip_points c z) (fun r _ => fst r = true /\ exists t l,
  trip_points (snd r) = trip_points z ++ t :: l /\ trip_is PASSIVE (psv_temp c) t /\
  (l = [] \/ exists a, l = [a] /\ trip_is ACTIVE (max_temp c) a)) p.
Proof.
  intros Hpsv Hmax.
  assert (forall names n i u, trip_is PASSIVE (psv_temp c)
    (res (load_cdevs names (trip_new n PASSIVE (psv_temp c) def_hystersis i DEFAULT_SENSOR_ID SEQUENTIAL)) u)) as Hp.
  { intros names n i u. match goal with |- context [load_cdevs ?n ?t] => destruct (load_cdevs_trip n t u) as [E1 E2] end.
    unfold trip_is. rewrite E1, E2. cbn. by rewrite wrap_small by lia. }
  unfold cpu_read_trip_points. apply wp_bind, wp_conseq with (fun _ _ => True); [|done]. intros [names|] p1 _.
  - apply wp_bind. unfold wp. split; [done|]. eexists _, []. split; [done|]. split; [apply Hp|by left].
  - apply wp_bind. unfold wp at 1. set (t1 := res (load_cdevs _ _) p1).
    assert (trip_is PASSIVE (psv_temp c) t1) as Ht1 by apply Hp. clearbody t1.
    apply wp_bind, wp_conseq with (fun _ _ => True); [|done]. intros [i|] p2 _.
    + apply wp_bind, wp_gets, wp_ret. split; [done|]. eexists _, [_].
      split; [unfold push_trip, put; simpl; by rewrite <- app_assoc|]. split; [exact Ht1|]. right. eexists.
      split; [done|]. split; [done|]. by apply (wrap_small 32 (max_temp c)).
    + apply wp_ret. split; [done|]. eexists _, []. split; [done|]. split; [exact Ht1|by left].
Qed.

(** C32: The temperatures of the processor's zone, from the limits that coretemp shows for
    its sensors 0 to 15: when no sensor has a maximum the zone fails; when it binds a
    sensor, its trip points are a passive one half way between the temperature of the fan
    and the critical one and at most an active one at the temperature of the fan, which
    is the lowest maximum, or 10000 below the critical one if that is lower. *)
Theorem cpu_zone_limits c z p : zone_kind z = CpuZone c -> zone_path z = base ->
  let z1 := snd (res (zone_bind_sensors z) p) in
  let r := res (read_trip_points z1) (post (zone_bind_sensors z) p) in
  (omap max sensors = [] -> fst (res (zone_bind_sensors z) p) = false) /\
  (fst (res (zone_bind_sensors z) p) = true ->
   fst r = true /\ (exists t l, trip_points (snd r) = trip_points z1 ++ t :: l /\ trip_is PASSIVE passive_limit t /\
     (l = [] \/ exists a, l = [a] /\ trip_is ACTIVE fan_limit a)) /\
   0 <= fan_limit /\ fan_limit + 10000 <= critical_limit /\
   fan_limit + 5000 <= passive_limit <= critical_limit - 5000).
Proof.
  intros Hz Hbase. cbv zeta. assert (zone_bind_sensors z = cpu_bind_sensors c z) as ->.
  { unfold zone_bind_sensors. by rewrite Hz. }
  set (z1 := snd (res (cpu_bind_sensors c z) p)). pose proof (cpu_bind_limits c z p Hbase) as Hb. unfold wp in Hb.
  split.
  { intros Hn. destruct (fst _); [|done]. by destruct (Hb eq_refl). }
  intros Hok. destruct (Hb Hok) as (_ & d & Hd & Hs). fold z1 in Hd. destruct Hs as (_ & Hfan & Hpsv).
  pose proof limits_ordered as (Hc & Hf & Hfc & Hp). unfold read_trip_points. rewrite Hd.
  destruct (cpu_trips d z1 (post (cpu_bind_sensors c z) p)) as (H1 & t & l & H2 & H3 & H4); [lia..|].
  rewrite Hpsv in H3. rewrite Hfan in H4. split_and!; [exact H1|by exists t, l|lia..].
Qed.
End Limits.

(** ** A processor with one sensor of its cores *)

Module Coretemp.
#[local] Instance coretemp_os : ThdOs := {
  os_time _ := 0; os_stat _ _ := true;
  os_read _ _ := inr "100000"%string;
  os_write _ _ _ := 1; os_unset _ := 0; os_thread _ := true; os_writable _ _ := false;
  os_link _ _ := None; os_rundir := "/var/run/thermald"; os_dir _ _ := None;
  os_confdir := "/etc/thermald"; os_owner _ _ := None; os_lstat _ _ := None; os_xml _ _ := None; os_uname _ := ""; os_size _ _ := 0;
  os_libxml := Texts.text_xml
}.
#[local] Existing Instance Quiet.quiet_sort.

Definition cpu_new : Cpu := mkCpu 0 0 0 0 0 0.
Definition cpu_zone : Zone := cpu_zone_new 1 "/hwmon0/" 0.
Definition plant : Plant :=
  mkPlant Quiet.world0 [Quiet.fan <| type_str := "rapl_controller" |>; Quiet.fan <| type_str := "Fan" |>]
    [sensor_new 0 "/sys/class/thermal/thermal_zone0/" "x86_pkg_temp" ThermalSysfs] 4 false PREF_ENERGY_CONSERVE false.

(** Both limits read 100000: the maximum goes down to 90000 and the passive trip point
    lies at 95000. *)
Example two_points :
  map (fun t => (trip_type t, trip_temp t))
    (trip_points (snd (res (read_trip_points (snd (res (zone_bind_sensors cpu_zone) plant)))
                         (post (zone_bind_sensors cpu_zone) plant)))) = [(PASSIVE, 95000); (ACTIVE, 90000)].
Proof. vm_compute. done. Qed.

Definition limit (i : Z) : option Z := Some 100000.
Lemma coretemp_shows path i : shows path (limit i).
Proof. intros n. split; [done|]. intros x [= <-]. by exists "100000"%string. Qed.

Lemma cpu_zone_limits_witness :
  let z1 := snd (res (zone_bind_sensors cpu_zone) plant) in
  exists t l, trip_points (snd (res (read_trip_points z1) (post (zone_bind_sensors cpu_zone) plant))) = trip_points z1 ++ t :: l /\
  trip_is PASSIVE 95000 t.
Proof.
  destruct (cpu_zone_limits "/hwmon0/" limit limit (fun i _ => coretemp_shows _ i) (fun i _ => coretemp_shows _ i)
    ltac:(intros i x [= <-]; lia) ltac:(intros i x [= <-]; lia) cpu_new cpu_zone plant eq_refl eq_refl) as [_ H].
  destruct H as (_ & (t & l & H1 & H2 & _) & _); [vm_compute; reflexivity|]. exists t, l. split; [exact H1|exact H2].
Defined.
End Coretemp.
