(* ===== verification/Platform.v ===== *)
(** * The thermal daemon: the processor

    thd_platform.cpp with the platforms of Intel (thd_platform_intel.cpp) and ARM
    (thd_platform_arm.cpp): which processors are supported, and the register of the
    package's power limit.  The processor itself, [uname] and /dev/mem are the class
    [Processor]. *)

From Stdlib Require Import ZArith Lia Ascii String.
From stdpp Require Import base list option strings.
From S2P Require Import Prelude ThdCommon ThdIo.

#[local] Open Scope Z_scope.
#[local] Open Scope prog_scope.

(** [cpu_machine]: the machine of [uname], if it answers; [cpuid]: the registers eax,
    ebx, ecx and edx for a leaf; [cpu_power_limit]: the register of the package's power limit
    through /dev/mem, if it can be mapped. *)
Class Processor := {
  cpu_machine : nat -> option string;
  cpuid : Z -> Z * Z * Z * Z;
  cpu_power_limit : nat -> option Z
}.

Inductive platform_type_t := PLATFORM_UNKNOWN | PLATFORM_INTEL_X86 | PLATFORM_ARM64 | PLATFORM_ARM32 | PLATFORM_OTHER.
(** The classes derived from [cthd_platform]. *)
Inductive cthd_platform := GenericPlatform | IntelPlatform | ArmPlatform.

Definition is_machine (machine lit : string) : bool := thd_strcmp_n (Some machine) (Some lit).

(** Family and model. *)
Definition intel_id_table : list (Z * Z) :=
  ((fun m => (6, m)) <$>
    [0x2a; 0x3a; 0x3c; 0x45; 0x46; 0x3d; 0x47; 0x37; 0x4c; 0x4e; 0x5e; 0x5c; 0x7a; 0x8e; 0x9e; 0x66; 0x7e;
     0x8c; 0x8d; 0xa5; 0xa6; 0xa7; 0x9c; 0x97; 0x9a; 0xb7; 0xba; 0xbe; 0xbf; 0xaa; 0xbd; 0xc6; 0xc5; 0xb5; 0xcc])
  ++ [(15, 0x01)].
Definition blocklist_paths : list string := ["/sys/devices/platform/thinkpad_acpi/dytc_lapmode"]%string.

(** Family and model in the signature of the processor. *)
Definition family_of (fms : Z) : Z := Z.land (Z.shiftr fms 8) 0xf.
Definition model_of (fms : Z) : Z :=
  let family := family_of fms in
  let model := Z.land (Z.shiftr fms 4) 0xf in
  if (family =? 6) || (family =? 0xf) then wrap 32 (model + Z.shiftl (Z.land (Z.shiftr fms 16) 0xf) 4) else model.

Section Platform.
Context `{ThdOs} `{Processor}.

Definition uname_machine : M World (option string) := ask cpu_machine.

Definition detect_platform : M World platform_type_t :=
  m <- uname_machine ;;
  ret (match m with
       | None => PLATFORM_UNKNOWN
       | Some m =>
           if is_machine m "x86_64" then PLATFORM_INTEL_X86
           else if is_machine m "aarch64" then PLATFORM_ARM64
           else if is_machine m "arm" then PLATFORM_ARM32
           else PLATFORM_OTHER
       end).
(** The constructors of the two derived classes call [detect_platform]. *)
Definition create_platform : M World cthd_platform :=
  m <- uname_machine ;;
  match m with
  | None => ret GenericPlatform
  | Some m =>
      if is_machine m "x86_64" then detect_platform ;;; ret IntelPlatform
      else if is_machine m "aarch64" || is_machine m "arm" then detect_platform ;;; ret ArmPlatform
      else ret GenericPlatform
  end.

Definition genuine_intel : bool :=
  let '(_, ebx, ecx, edx) := cpuid 0 in (ebx =? 0x756e6547) && (edx =? 0x49656e69) && (ecx =? 0x6c65746e).
Definition cpu_signature : Z := let '(eax, _, _, _) := cpuid 1 in eax.

Fixpoint blocked (l : list string) : M World bool :=
  match l with
  | [] => ret false
  | path :: l => e <- fs_exists path ;; if e : bool then ret true else blocked l
  end.
Definition intel_check_cpu_id : M World bool :=
  if negb genuine_intel then ret false
  else
    b <- blocked blocklist_paths ;;
    ret (negb b && existsb (fun id => (fst id =? family_of cpu_signature) && (snd id =? model_of cpu_signature)) intel_id_table).

(** [proc_list_matched] after [check_cpu_id]. *)
Definition platform_check_cpu_id (p : cthd_platform) : M World bool :=
  match p with
  | GenericPlatform => ret false
  | IntelPlatform => intel_check_cpu_id
  | ArmPlatform => ret true
  end.
Definition check_cpu_id : M World bool := p <- create_platform ;; platform_check_cpu_id p.

(** Kaby Lake only: the register without the bit that enables the limit, if it can be
    written. *)
Definition clear_power_limit : M World (option Z) :=
  let model := model_of cpu_signature in
  if negb (model =? 0x8e) && negb (model =? 0x9e) then ret None
  else v <- ask cpu_power_limit ;; ret ((fun v => Z.ldiff v (2 ^ 15)) <$> v).
End Platform.
