(* ===== verification/Engine.v ===== *)
(** * The thermal daemon: the engine

    thd_engine.{h,cpp} with thd_preference.cpp and thd_int3400.cpp: the messages,
    the polling of the engine's thread, the calls of the user over D-Bus, the reading of the
    sensors, zones and devices of the kernel and the take over of its control.  What the
    engine does with the configuration is in DefaultEngine.v. *)

From Stdlib Require Import ZArith Lia Ascii String.
From stdpp Require Import base list option strings pretty sets.
From S2P Require Import Prelude Floats ThdCommon ThdIo Int3400 Pid Cdev Sensor Trip Zone ZoneSetup.

#[local] Open Scope Z_scope.
#[local] Open Scope prog_scope.

(** ** State *)

Inductive control_mode_t := COMPLEMENTRY | EXCLUSIVE.

(** [cthd_engine]; [pref] is the number of the preference file that was read last. *)
Record Eng := mkEng {
  plant : Plant; zones : list Zone;
  current_cdev_index : Z; current_zone_index : Z; current_sensor_index : Z; uuid : string;
  poll_timeout_msec : Z; control_mode : control_mode_t; pref : Z; status : bool;
  thz_last_uevent_time : Z; thz_last_temp_ind_time : Z; thz_last_update_event_time : Z;
  terminate : bool; poll_sensor_mask : Z; fast_poll_sensor_mask : Z; saved_poll_interval : Z;
  zone_preferences : list string
}.
Definition Eng_again (e : Eng) : Eng := mkEng (plant e) (zones e) (current_cdev_index e)
  (current_zone_index e) (current_sensor_index e) (uuid e) (poll_timeout_msec e) (control_mode e)
  (pref e) (status e) (thz_last_uevent_time e) (thz_last_temp_ind_time e) (thz_last_update_event_time e)
  (terminate e) (poll_sensor_mask e) (fast_poll_sensor_mask e) (saved_poll_interval e) (zone_preferences e).
#[export] Instance put_plant : Field plant := ltac:(field_of Eng_again plant).
#[export] Instance put_zones : Field zones := ltac:(field_of Eng_again zones).
#[export] Instance put_current_cdev_index : Field current_cdev_index := ltac:(field_of Eng_again current_cdev_index).
#[export] Instance put_current_zone_index : Field current_zone_index := ltac:(field_of Eng_again current_zone_index).
#[export] Instance put_current_sensor_index : Field current_sensor_index := ltac:(field_of Eng_again current_sensor_index).
#[export] Instance put_poll_timeout_msec : Field poll_timeout_msec := ltac:(field_of Eng_again poll_timeout_msec).
#[export] Instance put_control_mode : Field control_mode := ltac:(field_of Eng_again control_mode).
#[export] Instance put_pref : Field pref := ltac:(field_of Eng_again pref).
#[export] Instance put_status : Field status := ltac:(field_of Eng_again status).
#[export] Instance put_thz_last_uevent_time : Field thz_last_uevent_time := ltac:(field_of Eng_again thz_last_uevent_time).
#[export] Instance put_thz_last_temp_ind_time : Field thz_last_temp_ind_time := ltac:(field_of Eng_again thz_last_temp_ind_time).
#[export] Instance put_thz_last_update_event_time : Field thz_last_update_event_time := ltac:(field_of Eng_again thz_last_update_event_time).
#[export] Instance put_terminate : Field terminate := ltac:(field_of Eng_again terminate).
#[export] Instance put_poll_sensor_mask : Field poll_sensor_mask := ltac:(field_of Eng_again poll_sensor_mask).
#[export] Instance put_fast_poll_sensor_mask : Field fast_poll_sensor_mask := ltac:(field_of Eng_again fast_poll_sensor_mask).
#[export] Instance put_saved_poll_interval : Field saved_poll_interval := ltac:(field_of Eng_again saved_poll_interval).
#[export] Instance put_zone_preferences : Field zone_preferences := ltac:(field_of Eng_again zone_preferences).

Definition def_poll_interval := 4000.
Definition thz_notify_debounce_interval := 3.
(** In seconds, unless an option says otherwise. *)
Definition thd_poll_interval := 4.

(** ** Access *)

Definition on_plant {A} (m : M Plant A) : M Eng A := fun e =>
  let (a, p) := m (plant e) in (a, e <| plant := p |>).
Definition sys {A} (m : M World A) : M Eng A := on_plant (on_world m).
Definition set_eng (f : Eng -> Eng) : M Eng unit := modify f.

(** Every zone in order; the list does not change meanwhile. *)
Fixpoint over_zones (f : Zone -> M Plant Zone) (l : list Zone) : M Plant (list Zone) :=
  match l with
  | [] => ret []
  | z :: l => z <- f z ;; l <- over_zones f l ;; ret (z :: l)
  end.
Definition each_zone (f : Zone -> M Plant Zone) : M Eng unit :=
  l <- gets zones ;; l <- on_plant (over_zones f l) ;; set_eng (fun e => e <| zones := l |>).

(** The zone [i] changed. *)
Definition on_zone (i : nat) (f : Zone -> M Plant Zone) : M Eng unit :=
  l <- gets zones ;;
  match l !! i with
  | Some z => z <- on_plant (f z) ;; set_eng (fun e => e <| zones := <[i := z]> (zones e) |>)
  | None => ret tt
  end.

(** *** What ends the daemon *)

(** [exit], an exception that nobody catches, undefined behaviour ([back] of an empty
    string, a null pointer, an access outside of a list), a loop that does not end. *)
Inductive Stop := Exited (status : Z) | Uncaught | Undefined | Hangs.
Definition done {X A} (a : A) : M X (A + Stop) := ret (inl a).
Definition stop {X A} (s : Stop) : M X (A + Stop) := ret (inr s).
Definition andThen {X A B} (m : M X (A + Stop)) (k : A -> M X (B + Stop)) : M X (B + Stop) :=
  r <- m ;; match r with inl a => k a | inr s => ret (inr s) end.
Notation "x <~ c ;; k" := (andThen c (fun x => k))
  (at level 100, c at next level, right associativity) : prog_scope.
Notation "c ;;~ k" := (andThen c (fun _ => k))
  (at level 100, right associativity) : prog_scope.

(** A body for every element, until it stops. *)
Fixpoint for_each {X A} (l : list A) (body : A -> M X (unit + Stop)) : M X (unit + Stop) :=
  match l with [] => done tt | a :: l => body a ;;~ for_each l body end.

(** ** Searches *)

Fixpoint find_zone (name : string) (i : nat) (l : list Zone) : option nat :=
  match l with
  | [] => None
  | z :: l =>
      if String.eqb (zone_type z) name then Some i
      else if has_prefix "pch_" name && has_prefix "pch_" (zone_type z) then Some i
      else find_zone name (S i) l
  end.
Definition search_zone (name : string) : M Eng (option nat) := gets (fun e => find_zone name 0 (zones e)).
(** [get_zone]: the name as it is. *)
Definition get_zone (type : string) : M Eng (option nat) :=
  gets (fun e => fst <$> list_find (fun z => zone_type z = type) (zones e)).
(** [match_cdev]: the first whose type contains the name. *)
Definition match_cdev (name : string) : M Eng (option nat) :=
  gets (fun e => fst <$> list_find (fun d => contains name (type_str d) = true) (plant_cdevs (plant e))).
Definition thd_get_cdev_at_index (index : Z) : M Eng (option nat) :=
  gets (fun e => fst <$> list_find (fun d => cdev_index d = index) (plant_cdevs (plant e))).

Section Engines.
Context `{ThdOs} `{StdSort}.

(** ** Preference (thd_preference.cpp) *)

Definition preference_of (n : Z) : preference_t :=
  if n =? 0 then PREF_ENERGY_CONSERVE else if n =? 1 then PREF_PERFORMANCE
  else if n =? 2 then PREF_DISABLED else PREF_OTHER n.
Definition string_pref_to_int (s : string) : Z :=
  if String.eqb s "PERFORMANCE" then 1 else if String.eqb s "ENERGY_CONSERVE" then 0
  else if String.eqb s "DISABLE" then 2 else 1.
Definition int_pref_to_string (p : preference_t) : string :=
  match p with
  | PREF_PERFORMANCE => "PERFORMANCE"
  | PREF_ENERGY_CONSERVE => "ENERGY_CONSERVE"
  | PREF_DISABLED => "DISABLE"
  | PREF_OTHER _ => "INVALID"
  end.
Definition pref_file : string := os_rundir +:+ "/thd_preference.conf".

Definition read_pref (name : string) (dflt : Z) : M World Z :=
  r <- ask (fun n => os_read n name) ;; ret (match r with inl _ => dflt | inr text => stream_int text end).
(** [refresh]. *)
Definition refresh_preference : M Eng unit :=
  n <- sys (read_pref pref_file 0) ;; set_eng (fun e => e <| pref := n |>).

(** [cthd_preference::set_preference]: the new preference; [None]: a file cannot be written. *)
Definition write_preference (old : Z) (pref_str : string) : M World (option Z) :=
  r <- fs_write pref_file (pretty (string_pref_to_int pref_str)) ;;
  if r <? 0 then ret None
  else
    r <- fs_write (pref_file +:+ ".save") (pretty old) ;;
    if r <? 0 then ret None else n <- read_pref pref_file 1 ;; ret (Some n).
Definition set_preference (pref_str : string) : M Eng bool :=
  old <- gets pref ;;
  n <- sys (write_preference old pref_str) ;;
  match n with Some n => set_eng (fun e => e <| pref := n |>) ;;; ret true | None => ret false end.

(** ** Control of the kernel *)

Definition thermal_dir : string := "/sys/class/thermal/".

(** The mode of the zone [i] when it is the one of INT3400. *)
Definition set_mode (i : Z) (mode : string) : M Eng unit :=
  let base := thermal_dir +:+ "thermal_zone" +:+ pretty i in
  e <- sys (fs_exists (base +:+ "/type")) ;;
  if negb e then ret tt
  else r <- sys (fs_read_string (base +:+ "/type")) ;;
       if String.eqb (default EmptyString (snd r)) "INT3400"
       then sys (fs_write (base +:+ "/mode") mode) ;;; ret tt else ret tt.

Definition takeover_zone (name : string) : M Eng unit :=
  let i := number_after "thermal_zone" name in
  let policy := thermal_dir +:+ "thermal_zone" +:+ pretty i +:+ "/policy" in
  e <- sys (fs_exists policy) ;;
  (if e : bool then
     r <- sys (fs_read_string policy) ;;
     if 0 <=? fst r then
       set_eng (fun e => e <| zone_preferences := zone_preferences e ++ [default EmptyString (snd r)] |>) ;;;
       sys (fs_write policy "user_space") ;;; ret tt
     else ret tt
   else ret tt) ;;;
  set_mode i "enabled".
Definition takeover_thermal_control : M Eng unit :=
  id <- gets uuid ;;
  base <- sys int3400_base ;;
  sys (set_default_uuid base id) ;;;
  l <- sys (fs_dir thermal_dir) ;;
  mfor (names_with "thermal_zone" l) takeover_zone.

(** The policies in the order in which they were kept; past the end of the list:
    [None], out of bounds. *)
Fixpoint giveup_zones (names policies : list string) : M Eng (option unit) :=
  match names with
  | [] => ret (Some tt)
  | name :: names =>
      let i := number_after "thermal_zone" name in
      let policy := thermal_dir +:+ "thermal_zone" +:+ pretty i +:+ "/policy" in
      e <- sys (fs_exists policy) ;;
      if e : bool then
        match policies with
        | [] => ret None
        | p :: policies => sys (fs_write policy p) ;;; set_mode i "disabled" ;;; giveup_zones names policies
        end
      else set_mode i "disabled" ;;; giveup_zones names policies
  end.
Definition giveup_thermal_control : M Eng (option unit) :=
  mode <- gets control_mode ;; l <- gets zone_preferences ;;
  match mode, l with
  | EXCLUSIVE, _ :: _ => names <- sys (fs_dir thermal_dir) ;; giveup_zones (names_with "thermal_zone" names) l
  | _, _ => ret (Some tt)
  end.
Definition process_terminate : M Eng (option unit) := giveup_thermal_control.

(** ** Messages *)

Definition bit (i : Z) : Z := wrap 32 (Z.shiftl 1 i).

Definition poll_enable_disable (on : bool) (sensor : Z) : M Eng unit := set_eng (fun e =>
  if on then
    e <| poll_sensor_mask := Z.lor (poll_sensor_mask e) (bit sensor) |> <| poll_timeout_msec := def_poll_interval |>
  else
    let mask := Z.ldiff (poll_sensor_mask e) (bit sensor) in
    let e := e <| poll_sensor_mask := mask |> in
    if mask =? 0 then e <| poll_timeout_msec := -1 |> else e).

Definition fast_poll_enable_disable (on : bool) (sensor : Z) : M Eng unit := set_eng (fun e =>
  if on then
    e <| fast_poll_sensor_mask := Z.lor (fast_poll_sensor_mask e) (bit sensor) |>
      <| saved_poll_interval := if saved_poll_interval e =? 0 then poll_timeout_msec e else saved_poll_interval e |>
      <| poll_timeout_msec := 1000 |>
  else
    let mask := Z.ldiff (fast_poll_sensor_mask e) (bit sensor) in
    let e := e <| fast_poll_sensor_mask := mask |> in
    if (mask =? 0) && negb (saved_poll_interval e =? 0)
    then e <| poll_timeout_msec := saved_poll_interval e |> else e).

Definition process_pref_change : M Eng unit :=
  refresh_preference ;;;
  n <- gets pref ;;
  let new_pref := preference_of n in
  if bool_decide (new_pref = PREF_DISABLED) then set_eng (fun e => e <| status := false |>)
  else
    set_eng (fun e => e <| status := true |> <| plant := plant e <| preference := new_pref |> |>) ;;;
    each_zone update_zone_preference ;;;
    mode <- gets control_mode ;;
    match mode with EXCLUSIVE => takeover_thermal_control | COMPLEMENTRY => ret tt end.

Definition thermal_zone_change : M Eng unit :=
  each_zone (fun z => if zone_active z then zone_temperature_notification 0 0 z else ret z).

(** The engine of the state [X] is a class derived from [cthd_engine]: [eng] is how the
    operations of the base class act on it, [read_thermal_zones] its virtual method. *)
Section Messages.
Context {X : Type} (eng : forall A, M Eng A -> M X (A + Stop)) (read_thermal_zones : M X (Z + Stop)).
Arguments eng {A}.

Definition thd_engine_reload_zones : M X (unit + Stop) :=
  eng (l <- gets zones ;; mfor l (fun z => sys (zone_destroy z)) ;;; set_eng (fun e => e <| zones := [] |>)) ;;~
  read_thermal_zones ;;~ done tt.

(** The first word of the message is the sensor; -1: the thread is to end. *)
Definition proc_message (msg : message_name_t * Z) : M X (Z + Stop) :=
  let sensor := wrap 32 (snd msg) in
  interval <~ eng (gets (fun e => poll_interval_sec (plant e))) ;;
  match fst msg with
  | WAKEUP => done 0
  | TERMINATE => eng (set_eng (fun e => e <| terminate := true |>)) ;;~ done (-1)
  | PREF_CHANGED => eng process_pref_change ;;~ done 0
  | THERMAL_ZONE_NOTIFY =>
      eng (s <- gets status ;; if s : bool then thermal_zone_change else ret tt) ;;~ done 0
  | RELOAD_ZONES => thd_engine_reload_zones ;;~ done 0
  | POLL_ENABLE => eng (if interval =? 0 then poll_enable_disable true sensor else ret tt) ;;~ done 0
  | POLL_DISABLE => eng (if interval =? 0 then poll_enable_disable false sensor else ret tt) ;;~ done 0
  | FAST_POLL_ENABLE => eng (fast_poll_enable_disable true sensor) ;;~ done 0
  | FAST_POLL_DISABLE => eng (fast_poll_enable_disable false sensor) ;;~ done 0
  end.
End Messages.

(** The message at the head of the pipe; [None]: there is none. *)
Definition receive : M World (option (message_name_t * Z)) := fun w =>
  match io_pipe w with
  | [] => (None, w)
  | m :: l => (Some m, set_pipe l w)
  end.

(** ** What the kernel has *)

(** The sensor of each directory that has a type and a temperature; the highest
    number seen. *)
Fixpoint read_sensor_dirs (names : list string) (max_index : Z) : M Eng Z :=
  match names with
  | [] => ret max_index
  | name :: names =>
      let i := number_after "thermal_zone" name in
      r <- sys (sensor_update (sensor_new i (thermal_dir +:+ name +:+ "/") EmptyString ThermalSysfs)) ;;
      (if fst r : bool
       then set_eng (fun e => e <| plant := plant e <| plant_sensors := plant_sensors (plant e) ++ [snd r] |> |>)
       else ret tt) ;;;
      read_sensor_dirs names (Z.max max_index i)
  end.
Definition thd_read_default_thermal_sensors : M Eng unit :=
  l <- sys (fs_dir thermal_dir) ;;
  max_index <- read_sensor_dirs (names_with "thermal_zone" l) 0 ;;
  l <- gets (fun e => plant_sensors (plant e)) ;;
  match l with [] => ret tt | _ => set_eng (fun e => e <| current_sensor_index := max_index + 1 |>) end.

(** A zone that is not set up is destroyed; [false]: an update ran out of bounds. *)
Fixpoint read_zone_dirs (names : list string) (max_index : Z) : M Eng (option Z) :=
  match names with
  | [] => ret (Some max_index)
  | name :: names =>
      let i := number_after "thermal_zone" name in
      z <- on_plant (sysfs_zone_new i (thermal_dir +:+ "thermal_zone")) ;;
      u <- on_plant (zone_update z) ;;
      match u with
      | OutOfBounds => ret None
      | Failed z => sys (zone_destroy z) ;;; read_zone_dirs names (Z.max max_index i)
      | Updated z =>
          mode <- gets control_mode ;;
          z <- (match mode with EXCLUSIVE => on_plant (set_zone_active z) | COMPLEMENTRY => ret z end) ;;
          set_eng (fun e => e <| zones := zones e ++ [z] |>) ;;;
          read_zone_dirs names (Z.max max_index i)
      end
  end.
Definition thd_read_default_thermal_zones : M Eng bool :=
  l <- sys (fs_dir thermal_dir) ;;
  max_index <- read_zone_dirs (names_with "thermal_zone" l) 0 ;;
  match max_index with
  | None => ret false
  | Some max_index =>
      l <- gets zones ;;
      match l with [] => ret true | _ => set_eng (fun e => e <| current_zone_index := max_index + 1 |>) ;;; ret true end
  end.

Fixpoint read_cdev_dirs (names : list string) (max_index : Z) : M Eng Z :=
  match names with
  | [] => ret max_index
  | name :: names =>
      let i := number_after "cooling_device" name in
      w <- gets (fun e => world (plant e)) ;;
      let r := therm_update (w, cdev_new ThermSysfs i thermal_dir) in
      let w := fst (snd r) in
      set_eng (fun e => e <| plant := plant e <| world := w |> |>) ;;;
      (if fst r : bool
       then set_eng (fun e => e <| plant := plant e <| plant_cdevs := plant_cdevs (plant e) ++ [snd (snd r)] |> |>)
       else ret tt) ;;;
      read_cdev_dirs names (Z.max max_index i)
  end.
Definition thd_read_default_cooling_devices : M Eng unit :=
  l <- sys (fs_dir thermal_dir) ;;
  max_index <- read_cdev_dirs (names_with "cooling_device" l) 0 ;;
  l <- gets (fun e => plant_cdevs (plant e)) ;;
  match l with [] => ret tt | _ => set_eng (fun e => e <| current_cdev_index := max_index + 1 |>) end.

(** ** Calls of the user *)

Definition user_get_sensor (index : Z) : M Eng (option Sensor) :=
  gets (fun e => if index <? 0 then None else plant_sensors (plant e) !! Z.to_nat index).
Definition get_sensor_temperature (index : Z) : M Eng (option Z) :=
  n <- gets (fun e => Z.of_nat (length (plant_sensors (plant e)))) ;;
  if (0 <=? index) && (index <? n) then t <- on_plant (read_sensor (Z.to_nat index)) ;; ret (Some t) else ret None.

Definition sensor_named (name : string) : M Eng (option nat) :=
  gets (fun e => fst <$> list_find (fun s => sensor_type s = name) (plant_sensors (plant e))).

Definition push_sensor (s : Sensor) : M Eng unit := set_eng (fun e =>
  e <| plant := plant e <| plant_sensors := plant_sensors (plant e) ++ [s] |> |>
    <| current_sensor_index := current_sensor_index e + 1 |>).

(** An empty path unlocks a mutex that is not locked and then is refused. *)
Definition user_add_sensor (name path : string) : M Eng Z :=
  if negb (has_prefix "/sys/" path) then ret THD_ERROR
  else
    i <- sensor_named name ;;
    match i with
    | Some i => on_plant (set_sensor i (update_path path)) ;;; ret THD_SUCCESS
    | None =>
        n <- gets current_sensor_index ;;
        r <- sys (sensor_update (sensor_new n path name RawSensor)) ;;
        if negb (fst r) then ret THD_ERROR
        else push_sensor (snd r) ;;; sys (send_message WAKEUP 0) ;;; ret THD_SUCCESS
    end.

Definition user_add_virtual_sensor (name dep_sensor : string) (slope intercept : float) : M Eng Z :=
  i <- sensor_named name ;;
  dep <- on_plant (search_sensor dep_sensor) ;;
  u <- sys unset ;;
  let power := negb (u =? 0) in
  match i with
  | Some i =>
      s <- on_plant (get_sensor i) ;;
      match s with
      | Some (mkSensor _ (VirtualSensor v) _ _ _ _) =>
          match sensor_update_param power dep slope intercept v with
          | Some v => on_plant (set_virtual i (fun _ => v)) ;;; ret THD_SUCCESS
          | None => ret THD_ERROR
          end
      | _ => ret THD_ERROR
      end
  | None =>
      n <- gets current_sensor_index ;;
      push_sensor (virtual_new power n name (if String.eqb dep_sensor "" then None else Some dep) slope intercept) ;;;
      sys (send_message WAKEUP 0) ;;; ret THD_SUCCESS
  end.

(** A set point of the user for a zone. *)
Definition user_set_point (write : Z -> Zone -> M Plant Z) (name : string) (temp : Z) : M Eng Z :=
  i <- get_zone name ;;
  l <- gets zones ;;
  match i ≫= (fun i => l !! i) with
  | Some z => on_plant (write (sint 32 temp) z)
  | None => ret THD_ERROR
  end.
Definition user_set_psv_temp : string -> Z -> M Eng Z := user_set_point update_psv_temperature.
Definition user_set_max_temp : string -> Z -> M Eng Z := user_set_point update_max_temperature.
(** ... given as text, which starts with a digit. *)
Definition set_user_point (write : Z -> Zone -> M Plant Z) (zone_name text : string) : M Eng Z :=
  match text with
  | String c _ => if is_digit c then user_set_point write zone_name (atoi text) else ret THD_ERROR
  | EmptyString => ret THD_ERROR
  end.
Definition thd_engine_set_user_max_temp : string -> string -> M Eng Z := set_user_point update_max_temperature.
Definition thd_engine_set_user_psv_temp : string -> string -> M Eng Z := set_user_point update_psv_temperature.

(** A dynamic zone set up, made active and added. *)
Definition add_dynamic_zone (name : string) (temp : Z) (sensor cdev : string) : M Eng (option Z) :=
  n <- gets current_zone_index ;;
  u <- on_plant (zone_update (dynamic_zone_new n name temp PASSIVE sensor cdev)) ;;
  match u with
  | OutOfBounds => ret None
  | Failed _ => ret (Some THD_ERROR)
  | Updated z =>
      z <- on_plant (set_zone_active z) ;;
      set_eng (fun e => e <| zones := zones e ++ [z] |> <| current_zone_index := current_zone_index e + 1 |>) ;;;
      ret (Some THD_SUCCESS)
  end.
Definition user_add_zone : string -> Z -> string -> string -> M Eng (option Z) := add_dynamic_zone.

Definition user_set_zone_status (name : string) (on : bool) : M Eng Z :=
  i <- get_zone name ;;
  match i with
  | Some i => on_zone i (if on then set_zone_active else set_zone_inactive) ;;; ret THD_SUCCESS
  | None => ret THD_ERROR
  end.
Definition user_get_zone_status (name : string) : M Eng (option bool) :=
  gets (fun e => zone_active ∘ snd <$> list_find (fun z => zone_type z = name) (zones e)).

(** The first zone of the name is taken away; its devices stay as they are. *)
Definition user_delete_zone (name : string) : M Eng Z :=
  l <- gets zones ;;
  match list_find (fun z => zone_type z = name) l with
  | Some (i, z) =>
      sys (zone_destroy z) ;;;
      set_eng (fun e => e <| zones := delete i (zones e) |>) ;;; ret THD_SUCCESS
  | None => ret THD_SUCCESS
  end.

(** A new device with the next index: it is set up and added; [None]: its set-up fails. *)
Definition add_cdev (make : Z -> Cdev) (update : M Dv bool) : M Eng (option nat) :=
  n <- gets current_cdev_index ;;
  w <- gets (fun e => world (plant e)) ;;
  let r := update (w, make n) in
  let w := fst (snd r) in
  set_eng (fun e => e <| plant := plant e <| world := w |> |>) ;;;
  if negb (fst r) then ret None
  else
    k <- gets (fun e => length (plant_cdevs (plant e))) ;;
    set_eng (fun e => e <| plant := plant e <| plant_cdevs := plant_cdevs (plant e) ++ [snd (snd r)] |> |>
                        <| current_cdev_index := current_cdev_index e + 1 |>) ;;;
    ret (Some k).
Definition set_cdev (i : nat) (f : Cdev -> Cdev) : M Eng unit := set_eng (fun e =>
  e <| plant := plant e <| plant_cdevs := alter f i (plant_cdevs (plant e)) |> |>).

(** A device that is not there yet is a generic one. *)
Definition user_add_cdev (cdev_name cdev_path : string) (low high step : Z) : M Eng Z :=
  let set i := set_cdev i (fun d => d <| min_state := low |> <| max_state := high |> <| inc_dec_val := step |>) in
  i <- on_plant (search_cdev cdev_name) ;;
  match i with
  | Some i => set i ;;; ret THD_SUCCESS
  | None =>
      i <- add_cdev (fun n => cdev_new GenSysfs n cdev_path <| type_str := cdev_name |>) gen_update ;;
      match i with
      | None => ret THD_ERROR
      | Some i => set i ;;; ret THD_SUCCESS
      end
  end.

(** ** Start and the thread *)

(** The version of the kernel and its flag. *)
Definition check_for_rt_kernel : M Eng unit :=
  version <- sys (ask os_uname) ;;
  r <- sys (ask (fun n => os_read n "/sys/kernel/realtime")) ;;
  let crit1 := contains "preempt rt" (map_string tolower version) in
  let crit2 := match r with inr text => bool_decide (signed_number text = Some 1) | inl _ => false end in
  set_eng (fun e => e <| plant := plant e <| rt_kernel := crit1 && crit2 |> |>).

(** The parts of [thd_engine_start]: the time between polls, polling although there
    is no interval when an active zone has a sensor that does not notify, and then the
    preference and the control of the kernel. *)
Definition start_timeout (interval : Z) : M Eng unit :=
  set_eng (fun e => e <| poll_timeout_msec := if interval =? 0 then -1 else interval * 1000 |>).
Definition start_polling : M Eng unit :=
  interval <- gets (fun e => poll_interval_sec (plant e)) ;;
  if interval =? 0 then
    l <- gets (fun e => filter (fun z => zone_active z = true) (zones e)) ;;
    async <- on_plant (gets (fun p => forallb (fun z => fst (check_sensor_async_status z p)) l)) ;;
    if async : bool then ret tt else set_eng (fun e => e <| poll_timeout_msec := def_poll_interval |>)
  else ret tt.
Definition start_control : M Eng unit :=
  refresh_preference ;;;
  set_eng (fun e => e <| plant := plant e <| preference := preference_of (pref e) |> |>) ;;;
  mode <- gets control_mode ;;
  match mode with EXCLUSIVE => takeover_thermal_control | COMPLEMENTRY => ret tt end.

(** What [poll] reports: its result, an event of the kernel about a thermal zone,
    something in the pipe. *)
Record PollEvent := Ev { poll_result : Z; kobj_event : bool; pipe_event : bool }.

(** One turn of the thread; [poll_timeout_sec] is what the time between polls was when
    the thread started. *)
Section Thread.
Context {X : Type} (eng : forall A, M Eng A -> M X (A + Stop)) (read_thermal_zones : M X (Z + Stop)).
Context (update_engine_state update_power_policies workarounds : M X (unit + Stop)) (poll_timeout_sec : Z).
Arguments eng {A}.

Definition poll_zones : M Eng unit := each_zone (zone_temperature_notification 0 0).

(** [false]: the rest of the turn is left out. *)
Definition timer_part (ev : PollEvent) (tm : Z) : M Eng bool :=
  last <- gets thz_last_temp_ind_time ;;
  if (poll_result ev =? 0) || (poll_timeout_sec <=? tm - last) then
    s <- gets status ;;
    if negb s then ret false
    else poll_zones ;;; set_eng (fun e => e <| thz_last_temp_ind_time := tm |>) ;;; ret true
  else ret true.
Definition kobj_part (ev : PollEvent) : M Eng unit :=
  if kobj_event ev then
    tm <- sys now ;;
    last <- gets thz_last_uevent_time ;;
    (if thz_notify_debounce_interval <=? tm - last then poll_zones else ret tt) ;;;
    set_eng (fun e => e <| thz_last_uevent_time := tm |>)
  else ret tt.
Definition pipe_part (ev : PollEvent) : M X (bool + Stop) :=
  if pipe_event ev then
    m <~ eng (sys receive) ;;
    match m with
    | None => done false
    | Some m => proc_message (@eng) read_thermal_zones m ;;~ done true
    end
  else done true.

Definition engine_turn (ev : PollEvent) : M X (unit + Stop) :=
  stop <~ eng (gets terminate) ;;
  if (stop : bool) || (poll_result ev <? 0) then done tt
  else
    tm <~ eng (sys now) ;;
    eng (sys rapl_measure_power) ;;~
    on <~ eng (timer_part ev tm) ;;
    if negb on then done tt
    else
      eng (kobj_part ev) ;;~
      on <~ pipe_part ev ;;
      if negb on then done tt
      else
        last <~ eng (gets thz_last_update_event_time) ;;
        (if thd_poll_interval <=? tm - last then
           update_engine_state ;;~ update_power_policies ;;~
           eng (set_eng (fun e => e <| thz_last_update_event_time := tm |>))
         else done tt) ;;~
        workarounds.
End Thread.
End Engines.

(** ** Polling *)

Section Polls.
Context `{ThdOs} `{StdSort}.

(** The base class on its own state. *)
Definition base_eng {A} (m : M Eng A) : M Eng (A + Stop) := a <- m ;; done a.

(** The messages of a polling trip of the sensor that goes on or off. *)
Definition trip_messages (m : Z * bool) : list (message_name_t * Z) :=
  if snd m then [(POLL_ENABLE, fst m); (FAST_POLL_ENABLE, fst m)]
  else [(POLL_DISABLE, fst m); (FAST_POLL_DISABLE, fst m)].
Definition process (read : M Eng (Z + Stop)) (l : list (message_name_t * Z)) : M Eng unit :=
  mfor l (fun m => proc_message (@base_eng) read m ;;; ret tt).

Record polled (interval t : Z) (saved : Z) (mask : Z) (e : Eng) : Prop := {
  po_interval : poll_interval_sec (plant e) = interval;
  po_poll : interval = 0 -> poll_sensor_mask e = mask;
  po_fast : fast_poll_sensor_mask e = mask;
  po_saved : saved_poll_interval e = saved;
  po_timeout : poll_timeout_msec e = t
}.

Definition next_mask (mask : Z) (m : Z * bool) : Z :=
  if snd m then Z.lor mask (bit (wrap 32 (fst m))) else Z.ldiff mask (bit (wrap 32 (fst m))).

Lemma process_trip read interval t saved mask (m : Z * bool) e : polled interval t saved mask e ->
  polled interval
    (if snd m then 1000
     else if next_mask mask m =? 0
          then if negb (saved =? 0) then saved else if interval =? 0 then -1 else t
          else t)
    (if snd m && (saved =? 0) then if interval =? 0 then 4000 else t else saved)
    (next_mask mask m) (post (process read (trip_messages m)) e).
Proof.
  intros [Hi Hp Hf Hs Ht]. unfold trip_messages, next_mask, process.
  destruct m as [sensor on]. simpl snd. simpl fst.
  destruct on; simpl mfor; rewrite !post_bind; unfold proc_message, base_eng, andThen, done, set_eng, poll_enable_disable,
    fast_poll_enable_disable, bind, gets, modify, ret, post; simpl; rewrite Hi.
  - destruct (Z.eqb_spec interval 0) as [Hz|Hz]; simpl; rewrite ?Hi;
      (constructor; simpl; [done| | | |done]).
    + intros _. by rewrite Hp.
    + by rewrite Hf.
    + rewrite Hs. by destruct (saved =? 0).
    + done.
    + by rewrite Hf.
    + rewrite Hs, Ht. by destruct (saved =? 0).
  - destruct (Z.eqb_spec interval 0) as [Hz|Hz]; simpl.
    + rewrite Hp by done. set (mask' := Z.ldiff mask _).
      destruct (mask' =? 0) eqn:Hm; simpl; rewrite ?Hi, ?Hf, ?Hs; fold mask'; rewrite Hm; simpl;
        destruct (saved =? 0) eqn:Hsv; simpl; constructor; simpl; rewrite ?Hf, ?Hp, ?Hs; done.
    + rewrite Hf, Hs. set (mask' := Z.ldiff mask _).
      destruct (mask' =? 0) eqn:Hm; simpl; destruct (saved =? 0) eqn:Hsv; simpl;
        constructor; simpl; rewrite ?Hf, ?Hs; done.
Qed.

Definition crossings (read : M Eng (Z + Stop)) (l : list (Z * bool)) : M Eng unit :=
  mfor l (fun m => process read (trip_messages m)).

Definition small_sensor (m : Z * bool) : Prop := 0 <= fst m < 32.
Lemma bit_set i : 0 <= i < 32 -> bit (wrap 32 i) = 2 ^ i.
Proof.
  intros Hi. unfold bit. rewrite (wrap_small 32 i) by lia. rewrite Z.shiftl_1_l. apply wrap_small.
  split; [lia|apply Z.pow_lt_mono_r; lia].
Qed.

Lemma crossings_after read interval saved l t mask e : saved <> 0 -> Forall small_sensor l ->
  t = (if mask =? 0 then saved else 1000) -> polled interval t saved mask e ->
  let mask' := fold_left next_mask l mask in
  polled interval (if mask' =? 0 then saved else 1000) saved mask' (post (crossings read l) e).
Proof.
  intros Hs. revert t mask e. unfold crossings.
  induction l as [|m l IH]; intros t mask e Hf Ht He; simpl; [by rewrite <- Ht|].
  inversion Hf as [|? ? Hm Hf']; subst x l0.
  rewrite post_bind. apply (process_trip read _ _ _ _ m) in He.
  rewrite (proj2 (Z.eqb_neq saved 0) Hs), andb_false_r in He. eapply IH; [exact Hf'| |exact He].
  unfold next_mask in *. destruct (snd m); simpl.
  - destruct (Z.eqb_spec (Z.lor mask (bit (wrap 32 (fst m)))) 0) as [Hz|]; [|done].
    exfalso. apply Z.lor_eq_0_iff in Hz as [_ Hz]. rewrite bit_set in Hz by exact Hm.
    pose proof (Z.pow_pos_nonneg 2 (fst m)). unfold small_sensor in Hm. lia.
  - destruct (Z.ldiff mask _ =? 0) eqn:Hz; [done|]. rewrite Ht.
    destruct (Z.eqb_spec mask 0) as [->|]; [|done]. by rewrite Z.ldiff_0_l in Hz.
Qed.

(** C30: Whatever sensors cross their polling trips: while one of them is above, the zones
    are read every second.  Afterwards the time between polls is what it was, when there is an
    interval; without one it stays at four seconds, though the trip that goes off first
    disables polling with -1, since the interval that is saved is the one that the trip itself
    had set. *)
Theorem fast_polling read t sensor l e : poll_timeout_msec e = t -> t <> 0 ->
  poll_sensor_mask e = 0 -> fast_poll_sensor_mask e = 0 -> saved_poll_interval e = 0 ->
  0 <= sensor < 32 -> Forall small_sensor l ->
  let interval := poll_interval_sec (plant e) in
  let mask := fold_left next_mask ((sensor, true) :: l) 0 in
  let e' := post (crossings read ((sensor, true) :: l)) e in
  fast_poll_sensor_mask e' = mask /\
  poll_timeout_msec e' = if mask =? 0 then if interval =? 0 then 4000 else t else 1000.
Proof.
  intros Ht Hnz Hp Hf Hs Hsens Hl interval mask e'.
  assert (polled interval t 0 0 e) as He by by constructor.
  apply (process_trip read _ _ _ _ (sensor, true)) in He. simpl in He.
  assert ((if interval =? 0 then 4000 else t) <> 0) as Hsv by (by destruct (interval =? 0)).
  assert ((next_mask 0 (sensor, true) =? 0) = false) as Hm.
  { unfold next_mask. simpl snd. simpl fst. apply Z.eqb_neq. rewrite bit_set, Z.lor_0_l by done. pose proof (Z.pow_pos_nonneg 2 sensor). lia. }
  eapply (crossings_after read _ _ l) in He; [|done..|by rewrite Hm].
  destruct He as [_ _ Hf' _ Ht']. unfold e', crossings. simpl mfor. rewrite post_bind.
  split; [exact Hf'|exact Ht'].
Qed.

(** ** A daemon that was switched off *)

(** Turns of the thread one after the other. *)
Definition turns (read : M Eng (Z + Stop)) (sec : Z) (l : list PollEvent) : M Eng (unit + Stop) :=
  for_each l (engine_turn (@base_eng) read (done tt) (done tt) (done tt) sec).

Definition deaf (sec last : Z) (pipe : list (message_name_t * Z)) (e : Eng) : Prop :=
  status e = false /\ thz_last_temp_ind_time e = last /\ io_pipe (world (plant e)) = pipe /\ terminate e = false.

Lemma pipe_energy_loop : same io_pipe rapl_energy_loop.
Proof.
  assert (forall el l, same io_pipe (energy_steps el l)) as Hs.
  { intros el l. induction l as [|d l IH]; simpl; [done|]. unfold energy_step, domain_ranged, fs_read_ulong,
      fs_read_number, unset, ask. 
    repeat match goal with
    | |- same _ (bind _ _) => apply same_bind; [|intros ?]
    | |- same _ (if ?b then _ else _) => destruct b
    | |- same _ _ => done
    end. }
  unfold rapl_energy_loop. apply same_bind; [done|intros m]. destruct (negb _); [done|].
  apply same_bind; [done|intros tm]. destruct (_ <=? _); [done|]. apply same_bind; [apply Hs|intros l].
  apply same_bind; [intros w; reflexivity|done].
Qed.
Lemma pipe_measure_power : same io_pipe rapl_measure_power.
Proof.
  unfold rapl_measure_power. apply same_bind; [done|intros m]. destruct (_ && _); [|done].
  apply same_bind; [apply pipe_energy_loop|done].
Qed.

Lemma sys_deaf {A} (m : M World A) sec last pipe : same io_pipe m -> keeps (deaf sec last pipe) (sys m).
Proof.
  intros Hm e (Hs & Hl & Hp & Ht). unfold deaf, post, sys, on_plant, on_world. specialize (Hm (world (plant e))).
  unfold post in Hm. destruct (m (world (plant e))) as [a w]. simpl in *. by rewrite Hm.
Qed.

Lemma post_base {A B} (m : M Eng A) (k : A -> M Eng (B + Stop)) e :
  post (andThen (base_eng m) k) e = post (k (res m e)) (post m e).
Proof. unfold post, res, andThen, base_eng, done, bind, ret. by destruct (m e). Qed.
Lemma keeps_for_each {A} (I : Eng -> Prop) (l : list A) (body : A -> M Eng (unit + Stop)) :
  (forall a, keeps I (body a)) -> keeps I (for_each l body).
Proof.
  intros Hb. induction l as [|a l IH]; simpl; [apply keeps_ret|]. unfold andThen. apply keeps_bind; [apply Hb|].
  intros [[]|s]; [exact IH|apply keeps_ret].
Qed.

Lemma turn_deaf read sec last pipe ev : (forall n, sec <= os_time n - last) ->
  keeps (deaf sec last pipe) (engine_turn (@base_eng) read (done tt) (done tt) (done tt) sec ev).
Proof.
  intros Hclock e He. unfold engine_turn. rewrite post_base. change (post (gets terminate) e) with e.
  destruct (_ || _); [done|]. rewrite post_base.
  assert (exists n, res (sys now) e = os_time n) as [n Hn].
  { exists (io_calls (world (plant e))). done. }
  rewrite Hn. pose proof (sys_deaf now sec last pipe ltac:(done) e He) as He1.
  set (e1 := post (sys now) e) in *. rewrite post_base.
  pose proof (sys_deaf rapl_measure_power sec last pipe pipe_measure_power e1 He1) as He2.
  set (e2 := post (sys rapl_measure_power) e1) in *.
  assert (timer_part sec ev (os_time n) e2 = (false, e2)) as Ht.
  { destruct He2 as (Hs & Hl & _). unfold timer_part. rewrite bind_gets, Hl.
    rewrite (proj2 (Z.leb_le _ _) (Hclock n)), orb_true_r. by rewrite bind_gets, Hs. }
  rewrite post_base. unfold res, post. by rewrite Ht.
Qed.

(** Once the preference has switched the daemon off and the time between polls is over,
    the thread starts over before it reads the pipe: the message that would switch it on again,
    like the one that ends it, is never read, whatever happens. *)
Theorem disabled_is_deaf read sec l e : status e = false -> terminate e = false ->
  (forall n, sec <= os_time n - thz_last_temp_ind_time e) ->
  let e' := post (turns read sec l) e in
  status e' = false /\ terminate e' = false /\ io_pipe (world (plant e')) = io_pipe (world (plant e)).
Proof.
  intros Hs Ht Hc e'.
  assert (deaf sec (thz_last_temp_ind_time e) (io_pipe (world (plant e))) e') as (? & ? & ? & ?); [|done].
  apply (keeps_for_each (deaf sec (thz_last_temp_ind_time e) (io_pipe (world (plant e))))); [|done].
  intros ev. by apply turn_deaf.
Qed.
End Polls.

(** ** Witnesses *)

Module Running.
#[local] Existing Instance Quiet.quiet_os.
#[local] Existing Instance Quiet.quiet_sort.

Definition engine (interval : Z) : Eng :=
  mkEng (mkPlant Quiet.world0 [] [] interval false PREF_ENERGY_CONSERVE false) [] 0 0 0 "" (if interval =? 0 then -1 else interval * 1000)
    COMPLEMENTRY 0 true 0 0 0 false 0 0 0 [].

Lemma fast_polling_witness :
  poll_timeout_msec (post (crossings (done 0) [(3, true); (5, true); (3, false)]) (engine 0)) = 1000 /\
  poll_timeout_msec (post (crossings (done 0) [(3, true); (3, false)]) (engine 0)) = 4000 /\
  poll_timeout_msec (post (crossings (done 0) [(3, true); (3, false)]) (engine 8)) = 8000.
Proof.
  split; [|split].
  - by apply (fast_polling (done 0) (-1) 3 [(5, true); (3, false)] (engine 0)); try done; repeat constructor.
  - by apply (fast_polling (done 0) (-1) 3 [(3, false)] (engine 0)); try done; repeat constructor.
  - by apply (fast_polling (done 0) 8000 3 [(3, false)] (engine 8)); try done; repeat constructor.
Defined.

Definition off : Eng :=
  (engine 4 <| status := false |>
     <| plant := plant (engine 4) <| world := set_pipe [(PREF_CHANGED, 0)] Quiet.world0 |> |>)%prog.
Lemma disabled_is_deaf_witness :
  io_pipe (world (plant (post (turns (done 0) 4 (repeat (Ev 1 false true) 5)) off))) = [(PREF_CHANGED, 0)].
Proof.
  apply (disabled_is_deaf (done 0) 4 (repeat (Ev 1 false true) 5) off); [done..|].
  intros n. unfold os_time, Quiet.quiet_os, off, thz_last_temp_ind_time. simpl. lia.
Defined.
End Running.
