(* ===== verification/DefaultEngine.v ===== *)
(** * The thermal daemon: the engine with its sensors, zones and devices

    thd_engine_default.{h,cpp} and what thd_engine.cpp does with the
    configuration: the sensors, zones and cooling devices that are made at the start, those
    of the kernel and the processor first and then those of the configuration, the start
    itself and the workarounds of the thread.  The engine of the MiniBook (Adaptive.v) is
    derived from this one. *)

From Stdlib Require Import ZArith Lia Ascii String.
From stdpp Require Import base list option strings pretty.
From S2P Require Import Prelude Floats ThdCommon Xml ThdIo Int3400 AcpiRel Gddv Pid Cdev CpuFreq Sensor Trip Config Zone ZoneSetup Platform Engine.

#[local] Open Scope Z_scope.
#[local] Open Scope prog_scope.

(** ** State *)

(** The options of the command line (main.cpp). *)
Record Options := Opts {
  thd_ignore_default_control : bool; disable_active_power : bool; workaround_enabled : bool;
  power_floor_enable : bool
}.

(** [cthd_engine_default] with the fields of [cthd_engine] about the configuration;
    [power_limit_writes]: what was written to the register of the package's power limit. *)
Record Def := mkDef {
  eng : Eng; parser : Parse; parser_init_done : bool; parser_disabled : bool; adaptive_mode : bool;
  proc_list_matched : bool; config_file : string; force_mmio_rapl : bool; workaround_interval : Z;
  tcc_offset_checked : bool; tcc_offset_low : bool; power_limit_writes : list Z
}.
Definition Def_again (d : Def) : Def := mkDef (eng d) (parser d) (parser_init_done d) (parser_disabled d)
  (adaptive_mode d) (proc_list_matched d) (config_file d) (force_mmio_rapl d) (workaround_interval d)
  (tcc_offset_checked d) (tcc_offset_low d) (power_limit_writes d).
#[export] Instance put_eng : Field eng := ltac:(field_of Def_again eng).
#[export] Instance put_parser : Field parser := ltac:(field_of Def_again parser).
#[export] Instance put_parser_init_done : Field parser_init_done := ltac:(field_of Def_again parser_init_done).
#[export] Instance put_parser_disabled : Field parser_disabled := ltac:(field_of Def_again parser_disabled).
#[export] Instance put_adaptive_mode : Field adaptive_mode := ltac:(field_of Def_again adaptive_mode).
#[export] Instance put_proc_list_matched : Field proc_list_matched := ltac:(field_of Def_again proc_list_matched).
#[export] Instance put_config_file : Field config_file := ltac:(field_of Def_again config_file).
#[export] Instance put_force_mmio_rapl : Field force_mmio_rapl := ltac:(field_of Def_again force_mmio_rapl).
#[export] Instance put_workaround_interval : Field workaround_interval := ltac:(field_of Def_again workaround_interval).
#[export] Instance put_tcc_checked : Field tcc_offset_checked := ltac:(field_of Def_again tcc_offset_checked).
#[export] Instance put_tcc_low : Field tcc_offset_low := ltac:(field_of Def_again tcc_offset_low).
#[export] Instance put_power_limit_writes : Field power_limit_writes := ltac:(field_of Def_again power_limit_writes).

Definition processor_thermal_min_passive := 90000.

(** The constructors. *)
Definition eng_new (w : World) (ignore_critical : bool) (_uuid : string) : Eng :=
  mkEng (mkPlant w [] [] 0 ignore_critical PREF_ENERGY_CONSERVE false) [] 0 0 0 _uuid (-1) COMPLEMENTRY 0 true
    0 0 0 false 0 0 0 [].
Definition def_new (w : World) (ignore_critical : bool) : Def :=
  mkDef (eng_new w ignore_critical "42A441D6-AE6A-462b-A84B-4A8CE79027D3") parse_object false false false false ""
    false 0 false false [].

Definition lift {A} (m : M Eng A) : M Def (A + Stop) := fun d =>
  let (a, e) := m (eng d) in (inl a, d <| eng := e |>).
Definition set_def (f : Def -> Def) : M Def (unit + Stop) := modify f ;;; done tt.
Definition get_def {A} (f : Def -> A) : M Def (A + Stop) := x <- gets f ;; done x.
(** What must be there. *)
Definition must {X A} (o : option A) : M X (A + Stop) := match o with Some a => done a | None => stop Undefined end.

Section DefaultEngine.
Context `{ThdOs} `{StdSort} `{RelDevice} `{Processor} (opts : Options).

(** ** The configuration (thd_engine.cpp) *)

(** [true]: [THD_SUCCESS]. *)
Definition engine_parser_init : M Def (bool + Stop) :=
  d <~ get_def id ;;
  if parser_disabled d then done false
  else if parser_init_done d then done true
  else
    r <~ lift (sys (parser_init (config_file d) (parser d))) ;;
    r <~ must r ;;
    set_def (fun d => d <| parser := snd r |>) ;;~
    if negb (fst r =? THD_SUCCESS) then done false
    else p <~ must (start_parse (snd r)) ;; set_def (fun d => d <| parser := p |> <| parser_init_done := true |>) ;;~ done true.
Definition engine_parser_deinit : M Def (unit + Stop) :=
  set_def (fun d => if parser_init_done d then d <| parser := parser_deinit (parser d) |> <| parser_init_done := false |> else d).

(** [!parser_init () && parser.platform_matched ()]. *)
Definition parser_ready : M Def (bool + Stop) :=
  ok <~ engine_parser_init ;;
  if negb ok then done false
  else
    p <~ get_def parser ;;
    r <~ lift (sys (platform_matched p)) ;;
    set_def (fun d => d <| parser := snd r |>) ;;~ done (fst r).
(** The platform, for the loops over its lists. *)
Definition the_platform : M Def (thermal_info_t + Stop) := p <~ get_def parser ;; must (the_info p).

Definition debug_mode_on : M World bool := fs_exists (os_rundir +:+ "/debug_mode").

(** ** Sensors *)

Definition base_paths : list string := ["/sys/devices/platform/"; "/sys/class/hwmon/"]%string.
Definition is_coretemp_dir (n : string) : bool := has_prefix "coretemp." n || has_prefix "hwmon" n.
(** The directory is the one of the sensors of the cores. *)
Definition is_coretemp (dir : string) : M World bool :=
  e <- fs_exists (dir +:+ "/name") ;;
  if negb e then ret false
  else
    r <- fs_read_string (dir +:+ "/name") ;;
    ret ((0 <=? fst r) && String.eqb (default EmptyString (snd r)) "coretemp").

Definition append_sensor (s : Sensor) : M Eng unit := set_eng (fun e =>
  e <| plant := plant e <| plant_sensors := plant_sensors (plant e) ++ [s] |> |>).
Definition force_async (name : string) : M Eng unit :=
  i <- on_plant (search_sensor name) ;;
  match i with
  | Some i => on_plant (set_sensor i (fun s => s <| async_capable := true |>))
  | None => ret tt
  end.

(** temp<N>_input. *)
Definition is_temp_input (n : string) : bool :=
  Nat.leb 6 (String.length n) && thd_strcmp_n (Some (drop_string (String.length n - 6) n)) (Some "_input"%string) &&
  has_prefix "temp" n.
(** The inputs of a directory become sensors; [None]: one of them cannot be made. *)
Fixpoint add_inputs (dir : string) (names : list string) (index : Z) : M Eng (option Z) :=
  match names with
  | [] => ret (Some index)
  | n :: names =>
      if is_temp_input n then
        r <- sys (sensor_update (sensor_new index (dir +:+ n) "hwmon" RawSensor)) ;;
        if fst r then append_sensor (snd r) ;;; add_inputs dir names (index + 1) else ret None
      else add_inputs dir names index
  end.
Fixpoint coretemp_sensors (base : string) (names : list string) (index : Z) : M Eng (option Z) :=
  match names with
  | [] => ret (Some index)
  | n :: names =>
      ok <- (if is_coretemp_dir n then sys (is_coretemp (base +:+ n)) else ret false) ;;
      if negb ok then coretemp_sensors base names index
      else
        l <- sys (fs_dir (base +:+ n +:+ "/")) ;;
        r <- add_inputs (base +:+ n +:+ "/") l index ;;
        match r with Some index => coretemp_sensors base names index | None => ret None end
  end.
(** The directories until sensors are found. *)
Fixpoint search_coretemp (bases : list string) (index : Z) : M Eng (option Z) :=
  match bases with
  | [] => ret (Some index)
  | base :: bases =>
      l <- sys (fs_dir base) ;;
      r <- coretemp_sensors base l index ;;
      match r with
      | Some i => if i =? index then search_coretemp bases index else ret (Some i)
      | None => ret None
      end
  end.

(** The sensor of the package power with the index, when its directory is there. *)
Definition add_power_sensor (index : Z) : M Eng Z :=
  r <- sys (sensor_update (sensor_new index "/sys/class/powercap/intel-rapl" "rapl_pkg_power" RaplPower)) ;;
  if fst r then append_sensor (snd r) ;;; ret (index + 1) else ret index.

Fixpoint add_conf_links (l : list thermal_sensor_target_t) (index : Z) (v : Virtual) : M Eng (Z * Virtual) :=
  match l with
  | [] => ret (index, v)
  | t :: l =>
      let power := negb (st_power_sensor t =? 0) in
      p <- on_plant (search_sensor "rapl_pkg_power") ;;
      index <- (if power then match p with Some _ => ret index | None => add_power_sensor index end else ret index) ;;
      s <- on_plant (search_sensor (st_name t)) ;;
      add_conf_links l index (add_target s (st_coeff t) (st_offset t) power v)
  end.
Definition add_polling (l : list thermal_sensor_polling_t) (v : Virtual) : Virtual :=
  foldl (fun v e => update_polling_table (sp_virtual_temp e, sp_sample_period e) v) v l.
(** A virtual sensor takes its index before the sensor of its power is made. *)
Definition add_conf_virtual (s : thermal_sensor_t) (index : Z) : M Eng Z :=
  r <- (match s_link_sensors s with
        | [] =>
            let l := s_link s in
            link <- on_plant (search_sensor (sl_name l)) ;;
            u <- sys unset ;;
            ret (index, virtual_new (negb (u =? 0)) index (s_name s) (if String.eqb (sl_name l) EmptyString then None else Some link)
                          (sl_multiplier l) (sl_offset l))
        | l =>
            r <- add_conf_links l index (mkVirtual [] f_zero f_zero false false 0 def_polling_period []) ;;
            ret (fst r, sensor_new index "none" (s_name s) (VirtualSensor (snd r)))
        end) ;;
  let (index, sensor) := r in
  let sensor := match sensor_kind sensor with
                | VirtualSensor v => sensor <| sensor_kind := VirtualSensor (add_polling (s_polling_table s) v) |>
                | _ => sensor
                end in
  r <- sys (sensor_update sensor) ;;
  if fst r then append_sensor (snd r) ;;; ret (index + 1) else ret index.
Definition add_conf_sensor (s : thermal_sensor_t) (index : Z) : M Eng Z :=
  i <- on_plant (search_sensor (s_name s)) ;;
  match i with
  | Some i =>
      let has bit := negb (Z.land (s_mask s) bit =? 0) in
      on_plant (set_sensor i (fun x =>
        let x := if has SENSOR_DEF_BIT_PATH then update_path (s_path s) x else x in
        if has SENSOR_DEF_BIT_ASYNC_CAPABLE then x <| async_capable := s_async_capable s |> else x)) ;;;
      ret index
  | None =>
      if s_virtual_sensor s then add_conf_virtual s index
      else if negb (has_prefix "/sys/" (s_path s)) then ret index
      else
        r <- sys (sensor_update (sensor_new index (s_path s) (s_name s) RawSensor)) ;;
        if fst r then append_sensor (snd r) ;;; ret (index + 1) else ret index
  end.
Fixpoint add_conf_sensors (l : list thermal_sensor_t) (index : Z) : M Eng Z :=
  match l with [] => ret index | s :: l => index <- add_conf_sensor s index ;; add_conf_sensors l index end.

Definition read_thermal_sensors : M Def (Z + Stop) :=
  index <~ lift (
    thd_read_default_thermal_sensors ;;;
    mfor ["pkg-temp-0"; "x86_pkg_temp"; "soc_dts0"]%string force_async ;;;
    index <- gets current_sensor_index ;;
    search_coretemp base_paths index) ;;
  match index with
  | None => done THD_ERROR
  | Some index =>
      let set i := lift (set_eng (fun e => e <| current_sensor_index := i |>)) in
      index <~ lift (debug <- sys debug_mode_on ;; if debug : bool then add_power_sensor index else ret index) ;;
      set index ;;~
      ready <~ parser_ready ;;
      index <~ (if ready then i <~ the_platform ;; lift (add_conf_sensors (i_sensors i) index) else done index) ;;
      set index ;;~ done THD_SUCCESS
  end.

(** ** Zones *)

(** The passive trip point that makes the processor's device the zone of the processor. *)
Definition high_passive (t : Trip) : bool := is_type PASSIVE t && (processor_thermal_min_passive <? trip_temp t).
Fixpoint first_zone (names : list string) : M Eng (option nat) :=
  match names with
  | [] => ret None
  | n :: names => i <- search_zone n ;; match i with Some i => ret (Some i) | None => first_zone names end
  end.
(** The critical temperature of ACPI, 0 when there is none. *)
Definition acpi_critical : M Eng Z :=
  i <- search_zone "acpitz" ;;
  gets (fun e => default 0 (z ← i ≫= (fun i => zones e !! i);
                            trip_temp <$> List.find (is_type CRITICAL) (trip_points z))).
(** The passive temperature, lowered when it is too close to the critical one. *)
Definition safe_passive (passive critical : Z) : Z :=
  if negb (critical =? 0) && (critical <=? wrap 32 (passive + 5 * 1000)) then wrap 32 (critical - 15 * 1000) else passive.
Fixpoint bind_passive (names : list string) (z : Zone) : M Plant Zone :=
  match names with
  | [] => ret z
  | n :: names =>
      c <- search_cdev n ;;
      match c with
      | Some c => r <- bind_cooling_device PASSIVE 0 c default_influence 0 false 0 false 0 0 z ;; bind_passive names (snd r)
      | None => bind_passive names z
      end
  end.
Definition processor_cdevs : list string := ["rapl_controller"; "intel_pstate"; "intel_powerclamp"; "Processor"]%string.
Definition add_int340x_processor_dev : M Eng bool :=
  if thd_ignore_default_control opts then ret false
  else
    id <- gets uuid ;;
    base <- sys int3400_base ;;
    supported <- sys (match_supported_uuid base id) ;;
    i <- first_zone (if supported then ["B0D4"; "B0DB"; "TCPU"] else ["B0DB"; "TCPU"])%string ;;
    z <- gets (fun e => i ≫= (fun i => zones e !! i)) ;;
    match i, z ≫= (fun z => list_find (fun t => high_passive t = true) (trip_points z)) with
    | Some i, Some (k, t) =>
        critical <- acpi_critical ;;
        on_zone i (fun z =>
          z <- set_zone_active (z <| trip_points :=
                 alter (fun t => t <| trip_temp := safe_passive (trip_temp t) critical |>) k (trip_points z) |>) ;;
          bind_passive processor_cdevs z) ;;;
        ret true
    | _, _ => ret false
    end.

Definition deactivate_cpu : M Eng unit :=
  i <- search_zone "cpu" ;; match i with Some i => on_zone i set_zone_inactive | None => ret tt end.
(** The sensor of a trip point of the configuration is B0D4. *)
Definition senses_b0d4 (t : trip_point_t) : M Eng bool :=
  s <- on_plant (search_sensor (t_sensor_type t)) ;;
  gets (fun e => match s ≫= (fun s => plant_sensors (plant e) !! s) with
                 | Some s => String.eqb (sensor_type s) "B0D4"
                 | None => false
                 end).
Definition disable_cpu_zone (auto : bool) (config : thermal_zone_t) : M Eng unit :=
  if auto then deactivate_cpu
  else
    i <- search_zone (z_type config) ;;
    z <- gets (fun e => i ≫= (fun i => zones e !! i)) ;;
    match z with
    | Some z =>
        if zone_active z then
          mfor (z_trips config) (fun t => b <- senses_b0d4 t ;; if b : bool then deactivate_cpu else ret tt)
        else ret tt
    | None => ret tt
    end.

(** The number after coretemp.; behind the end of a shorter name: anything. *)
Definition package_of (n : string) : M World Z :=
  if Nat.leb 9 (String.length n) then ret (atoi (drop_string 9 n)) else u <- unset ;; ret (sint 32 u).

(** A zone set up, made active and added, the next index and whether it was added. *)
Definition add_zone (z : Zone) (index : Z) : M Def (Z * bool + Stop) :=
  u <~ lift (on_plant (zone_update z)) ;;
  match u with
  | OutOfBounds => stop Undefined
  | Failed _ => done (index, false)
  | Updated z =>
      lift (z <- on_plant (set_zone_active z) ;; set_eng (fun e => e <| zones := zones e ++ [z] |>)) ;;~
      done (index + 1, true)
  end.
Fixpoint add_cpu_zones (base : string) (names : list string) (index : Z) (created : bool) : M Def (Z * bool + Stop) :=
  match names with
  | [] => done (index, created)
  | n :: names =>
      ok <~ lift (if is_coretemp_dir n then sys (is_coretemp (base +:+ n)) else ret false) ;;
      if negb ok then add_cpu_zones base names index created
      else
        package <~ lift (sys (package_of n)) ;;
        r <~ add_zone (cpu_zone_new index (base +:+ n +:+ "/") package) index ;;
        add_cpu_zones base names (fst r) (created || snd r)
  end.
Fixpoint search_cpu_zones (bases : list string) (index : Z) : M Def (Z + Stop) :=
  match bases with
  | [] => done index
  | base :: bases =>
      l <~ lift (sys (fs_dir base)) ;;
      r <~ add_cpu_zones base l index false ;;
      if snd r then done (fst r) else search_cpu_zones bases (fst r)
  end.

(** *** A zone of the configuration that is there already *)

(** The devices bound to a trip point of the kind. *)
Fixpoint bind_confs (ty : trip_point_type_t) (cs : list trip_cdev_t) (z : Zone) : M Plant (bool * Zone) :=
  match cs with
  | [] => ret (false, z)
  | c :: cs =>
      i <- search_cdev (c_type c) ;;
      r <- (match i with
            | Some i => bind_cooling_device ty 0 i (c_influence c) (c_sampling_period c) (c_target_state_valid c)
                          (c_target_state c) (c_min_max_valid c) (c_target_min_state c) (c_target_max_state c) z
            | None => ret (false, z)
            end) ;;
      rest <- bind_confs ty cs (snd r) ;;
      ret (fst r || fst rest, snd rest)
  end.
(** [true]: the zone is to be activated. *)
Definition conf_zone_trip (t : trip_point_t) (z : Zone) : M Plant (bool * Zone) :=
  let n := Z.of_nat (length (trip_points z)) in
  s <- search_sensor (t_sensor_type t) ;;
  match s with
  | None =>
      if t_temperature t =? 0 then ret (false, z)
      else
        z <- update_trip_temp (trip_new n (t_type t) (t_temperature t) (t_hyst t) (zone_index z) (-1) (t_control t)) z ;;
        ret (false, z)
  | Some s =>
      let z := bind_sensor s z in
      if t_temperature t =? 0 then bind_confs (t_type t) (t_cdevs t) z
      else
        r <- conf_trip true n s t z ;;
        z <- add_trip (snd r) false (z <| zone_cdev_binded := zone_cdev_binded z || fst r |>) ;;
        ret (fst r, z)
  end.
Fixpoint conf_zone_trips (l : list trip_point_t) (z : Zone) : M Plant (bool * Zone) :=
  match l with
  | [] => ret (false, z)
  | t :: l => r <- conf_zone_trip t z ;; rest <- conf_zone_trips l (snd r) ;; ret (fst r || fst rest, snd rest)
  end.
Definition change_zone (c : thermal_zone_t) (z : Zone) : M Plant Zone :=
  r <- conf_zone_trips (z_trips c) z ;; if fst r : bool then set_zone_active (snd r) else ret (snd r).
Definition add_conf_zone (c : thermal_zone_t) (index : Z) : M Def (Z + Stop) :=
  i <~ lift (search_zone (z_type c)) ;;
  index <~ (match i with
            | Some i => lift (on_zone i (change_zone c)) ;;~ done index
            | None => r <~ add_zone (zone_new (GenericZone (Some c)) index "" (z_type c)) index ;; done (fst r)
            end) ;;
  auto <~ get_def (fun d => auto_config (parser d)) ;;
  lift (disable_cpu_zone auto c) ;;~ done index.
Fixpoint add_conf_zones (l : list thermal_zone_t) (index : Z) : M Def (Z + Stop) :=
  match l with [] => done index | c :: l => index <~ add_conf_zone c index ;; add_conf_zones l index end.

Definition read_thermal_zones : M Def (Z + Stop) :=
  let set i := lift (set_eng (fun e => e <| current_zone_index := i |>)) in
  ok <~ lift thd_read_default_thermal_zones ;;
  if negb ok then stop Undefined
  else
    index <~ get_def (fun d => current_zone_index (eng d)) ;;
    valid_int340x <~ lift add_int340x_processor_dev ;;
    cpu <~ lift (search_zone "cpu") ;;
    index <~ (if negb (thd_ignore_default_control opts) && negb valid_int340x && bool_decide (cpu = None)
              then search_cpu_zones base_paths index else done index) ;;
    set index ;;~
    ready <~ parser_ready ;;
    index <~ (if ready then i <~ the_platform ;; add_conf_zones (i_zones i) index else done index) ;;
    set index ;;~
    debug <~ lift (sys debug_mode_on) ;;
    (if debug : bool then r <~ add_zone (rapl_power_zone_new index) index ;; set (fst r) else done tt) ;;~
    l <~ get_def (fun d => zones (eng d)) ;;
    match l with [] => done THD_FATAL_ERROR | _ => done THD_SUCCESS end.

(** ** Cooling devices *)

Definition def_dev (type : string) (high : Z) : cooling_dev_t :=
  CoolingDev true
    (Z.lor CDEV_DEF_BIT_UNIT_VAL (Z.lor CDEV_DEF_BIT_READ_BACK (Z.lor CDEV_DEF_BIT_MIN_STATE CDEV_DEF_BIT_STEP)))
    0 ABSOULUTE_VALUE 0 high 5 false false type "" 4 false (Some (PidControl f_zero f_zero f_zero)) "".
Definition cpu_def_cooling_devices : list cooling_dev_t := [def_dev "intel_powerclamp" 0; def_dev "LCD" 100].

(** A value of the configuration, in percent of the current state or as it is. *)
Definition unit_of (percent : bool) (v : Z) : M Dv Z :=
  if percent then c <- get_curr_state ;; ret (Z.quot (sint 32 (c * v)) 100) else ret v.
(** The fields of the configuration that its mask has; [false]: gains that were never set. *)
Definition configure (c : cooling_dev_t) : M Dv bool :=
  let has bit := negb (Z.land (d_mask c) bit =? 0) in
  let when (b : bool) (m : M Dv unit) : M Dv unit := if b then m else ret tt in
  let percent := has CDEV_DEF_BIT_UNIT_VAL && match d_unit_val c with RELATIVE_PERCENTAGES => true | _ => false end in
  when (has CDEV_DEF_BIT_AUTO_DOWN) (dset (fun d => d <| auto_down_adjust := d_auto_down c |>)) ;;;
  when (has CDEV_DEF_BIT_STEP) (v <- unit_of percent (d_step c) ;; dset (fun d => d <| inc_dec_val := v |>)) ;;;
  when (has CDEV_DEF_BIT_MIN_STATE) (v <- unit_of percent (d_min_state c) ;; thd_cdev_set_min_state_param v) ;;;
  when (has CDEV_DEF_BIT_MAX_STATE) (v <- unit_of percent (d_max_state c) ;; dset (fun d => d <| max_state := v |>)) ;;;
  when (has CDEV_DEF_BIT_READ_BACK) (dset (fun d => d <| read_back := d_read_back c |>)) ;;;
  when (has CDEV_DEF_BIT_DEBOUNCE_VAL) (dset (fun d => d <| debounce_interval := d_debounce c |>)) ;;;
  when (has CDEV_DEF_BIT_PID_PARAMS) (dset (fun d => d <| pid_enable := true |>
    <| pid_ctrl := match d_pid c with Some p => set_pid_param (Kp p) (Ki p) (Kd p) (pid_ctrl d) | None => pid_ctrl d end |>)) ;;;
  when (has CDEV_DEF_BIT_WRITE_PREFIX) (dset (fun d => d <| write_prefix := d_write_prefix c |>)) ;;;
  ret (negb (has CDEV_DEF_BIT_PID_PARAMS) || bool_decide (is_Some (d_pid c))).

(** The device of the type and, when one is given, of the path; else a new one.  A device
    that cannot be made is left out. *)
Definition add_replace_cdev (c : cooling_dev_t) : M Def (unit + Stop) :=
  i <~ lift (on_plant (search_cdev (d_type c))) ;;
  path <~ get_def (fun d => default EmptyString (i ≫= (fun i => base_path <$> plant_cdevs (plant (eng d)) !! i))) ;;
  i <~ lift (match i with
             | Some i =>
                 if negb (String.eqb (d_path c) EmptyString) && negb (String.eqb (d_path c) path)
                 then add_cdev (fun n => cdev_new GenSysfs n (d_path c) <| type_str := d_type c |>) gen_update
                 else ret (Some i)
             | None => add_cdev (fun n => cdev_new GenSysfs n (d_path c) <| type_str := d_type c |>) gen_update
             end) ;;
  match i with
  | None => done tt
  | Some i => ok <~ lift (on_plant (on_cdev true i (configure c))) ;; if ok then done tt else stop Undefined
  end.

(** The limits of the platform for a device and whether a policy makes them trusted. *)
Section Limits.
Context (get_ppcc_param : string -> M Def (option ppcc_t + Stop)) (trusted : bool).

Definition rapl_new_at (path : string) (_index : Z) : Cdev := cdev_new (RaplDev (rapl_new "TCPU.D0")) _index path.
Definition mmio_base : string := "/sys/devices/virtual/powercap/intel-rapl-mmio/intel-rapl-mmio:0/".

(** The one over MSRs and, in adaptive mode or with a configuration, the one over MMIO,
    which is preferred. *)
Definition add_rapl : M Def (unit + Stop) :=
  ppcc <~ get_ppcc_param "TCPU.D0" ;;
  msr <~ lift (add_cdev (fun n => rapl_new_at rapl_base n <| type_str := "rapl_controller" |>
                                    <| alias_str := "B0D4" |>) (rapl_update ppcc trusted)) ;;
  d <~ get_def id ;;
  if disable_active_power opts || negb ((0 <=? matched_index (parser d)) || force_mmio_rapl d) then done tt
  else
    mmio <~ lift (add_cdev (fun n => rapl_new_at mmio_base n <| type_str := "rapl_controller_mmio" |>)
                           (rapl_update ppcc trusted)) ;;
    match mmio with
    | None => done tt
    | Some k =>
        (match msr with
         | Some i =>
             lift (set_cdev i (fun d => d <| alias_str := "" |>)) ;;~
             (if adaptive_mode d then
                ok <~ lift (on_plant (on_cdev true i (set_adaptive_target (Target 0 "" "" 0 "PL1MAX" "200000")))) ;;
                if ok : bool then done tt else stop Uncaught
              else done tt)
         | None => done tt
         end) ;;~
        lift (set_cdev k (fun d => d <| alias_str := "B0D4" |>))
    end.

Definition read_cooling_devices : M Def (Z + Stop) :=
  lift thd_read_default_cooling_devices ;;~
  add_rapl ;;~
  lift (add_cdev (fun n => cdev_new (PState false) n "/sys/devices/system/cpu/intel_pstate/" <| type_str := "intel_pstate" |>)
                 pstate_update) ;;~
  for_each cpu_def_cooling_devices add_replace_cdev ;;~
  lift (add_cdev (fun n => cpufreq_new n <| type_str := "cpufreq" |>) cpufreq_update) ;;~
  ppcc <~ get_ppcc_param "TMEM.D0" ;;
  lift (add_cdev (fun n => rapl_dram_new n <| type_str := "rapl_controller_dram" |>) (rapl_dram_update ppcc trusted)) ;;~
  lcd <~ lift (on_plant (search_cdev "LCD")) ;;
  (match lcd with
   | None => lift (add_cdev (fun n => backlight_new n <| type_str := "LCD" |>) backlight_found) ;;~ done tt
   | Some _ => done tt
   end) ;;~
  ready <~ parser_ready ;;
  (if ready then i <~ the_platform ;; for_each (i_cdevs i) add_replace_cdev else done tt) ;;~
  done THD_SUCCESS.

(** ** Start (thd_engine.cpp) *)

Definition power_floor_enable_attribute : string := "/sys/bus/pci/devices/0000:00:04.0/power_limits/power_floor_enable".
Definition power_floor_status_attribute : string := "/sys/bus/pci/devices/0000:00:04.0/power_limits/power_floor_status".
(** A zone whose sensor is the event that the power cannot be lowered further. *)
Definition enable_power_floor_event : M Def (unit + Stop) :=
  r <~ lift (sys (fs_write power_floor_enable_attribute ("1" +:+ nl))) ;;
  if r <? 0 then done tt
  else
    there <~ lift (sys (fs_open power_floor_status_attribute)) ;;
    clamp <~ lift (on_plant (search_cdev "intel_powerclamp")) ;;
    if negb there || bool_decide (clamp = None) then done tt
    else
      n <~ get_def (fun d => current_sensor_index (eng d)) ;;
      r <~ lift (sys (sensor_update (sensor_new n power_floor_status_attribute "power_floor" RawSensor))) ;;
      if negb (fst r) then done tt
      else
        k <~ get_def (fun d => current_zone_index (eng d)) ;;
        lift (push_sensor (snd r)) ;;~
        u <~ lift (on_plant (zone_update (dynamic_zone_new k "power_floor" 1 PASSIVE "power_floor" "intel_powerclamp"))) ;;
        match u with
        | OutOfBounds => stop Undefined
        | Failed _ => done tt
        | Updated z =>
            pci <~ lift (match_cdev "PCIe_Port_Link_Speed") ;;
            l <~ get_def (fun d => plant_cdevs (plant (eng d))) ;;
            let z := match pci with
                     | Some c => z <| trip_points := alter (add_default_cdev l c) 0%nat (trip_points z) |>
                     | None => z
                     end in
            lift (z <- on_plant (set_zone_active z) ;;
                  set_eng (fun e => e <| zones := zones e ++ [z] |> <| current_zone_index := current_zone_index e + 1 |>))
        end.

Definition thd_engine_init (ignore_cpuid_check adaptive : bool) : M Def (Z + Stop) :=
  set_def (fun d => d <| adaptive_mode := adaptive |>) ;;~
  supported <~ (if ignore_cpuid_check then done true else lift (sys check_cpu_id)) ;;
  set_def (fun d => d <| proc_list_matched := supported |>) ;;~
  go <~ (if supported then done true else parser_ready) ;;
  if negb go then done THD_ERROR
  else
    sensors <~ read_thermal_sensors ;;
    if negb (sensors =? THD_SUCCESS) then done THD_FATAL_ERROR
    else
      cdevs <~ read_cooling_devices ;;
      if negb (cdevs =? THD_SUCCESS) then done THD_FATAL_ERROR
      else
        z <~ read_thermal_zones ;;
        if negb (z =? THD_SUCCESS) then done THD_FATAL_ERROR
        else (if power_floor_enable opts then enable_power_floor_event else done tt) ;;~ done THD_SUCCESS.
End Limits.

(** The preference and the interval of the configuration.  The object that writes the
    preference is one of its own, so that of the engine changes when the file is read. *)
Definition start_configured : M Def (unit + Stop) :=
  ready <~ parser_ready ;;
  if negb ready then done tt
  else
    p <~ get_def parser ;;
    str <~ must (default_preference_str p) ;;
    lift (sys (old <- read_pref pref_file 0 ;; write_preference old str)) ;;~
    poll_secs <~ must (get_polling_interval p) ;;
    if poll_secs =? 0 then done tt
    else lift (set_eng (fun e => e <| plant := plant e <| poll_interval_sec := poll_secs |> |>
                                   <| poll_timeout_msec := sint 32 (poll_secs * 1000) |>)).
(** The pipe and its flags, the socket of the kernel's events and the thread's attributes
    cannot fail here; the result is that of [pthread_create]. *)
Definition thd_engine_start : M Def (Z + Stop) :=
  lift check_for_rt_kernel ;;~
  interval <~ get_def (fun d => poll_interval_sec (plant (eng d))) ;;
  lift (start_timeout interval) ;;~
  start_configured ;;~
  lift start_polling ;;~
  created <~ lift (sys thread_created) ;;
  lift start_control ;;~
  done (if created : bool then THD_SUCCESS else THD_ERROR).

(** [thd_engine_create_default_engine]: an engine that could not be set up is started all
    the same. *)
Definition default_ppcc (name : string) : M Def (option ppcc_t + Stop) := p <~ get_def parser ;; must (get_ppcc_param name p).
Definition thd_engine_create_default_engine (interval : Z) (ignore_cpuid_check exclusive_control : bool)
    (conf_file : option string) : M Def (Z + Stop) :=
  set_def (fun d => d <| eng := eng d <| plant := plant (eng d) <| poll_interval_sec := interval |> |>
                                       <| control_mode := if exclusive_control then EXCLUSIVE else control_mode (eng d) |> |>
                      <| config_file := default (config_file d) conf_file |>) ;;~
  thd_engine_init default_ppcc false ignore_cpuid_check false ;;~
  thd_engine_start.

(** ** Workarounds *)

Definition workaround_rapl_mmio_power : M Def (unit + Stop) :=
  if negb (workaround_enabled opts) then done tt
  else
    c <~ lift (on_plant (search_cdev "rapl_controller_mmio")) ;;
    match c with
    | Some _ => done tt
    | None =>
        disabled <~ lift (sys (e <- fs_exists mmio_base ;;
                               if e : bool then r <- fs_write_uint (mmio_base +:+ "enabled") 0 ;; ret (0 <? r) else ret false)) ;;
        if disabled : bool then done tt
        else
          v <~ lift (sys clear_power_limit) ;;
          match v with
          | Some v => set_def (fun d => d <| power_limit_writes := power_limit_writes d ++ [v] |>)
          | None => done tt
          end
    end.

Definition tcc_file : string := "/sys/bus/pci/devices/0000:00:04.0/tcc_offset_degree_celsius".
Definition set_tcc_flags (checked low : bool) : M Def (unit + Stop) :=
  set_def (fun d => d <| tcc_offset_checked := checked |> <| tcc_offset_low := low |>).
Definition workaround_tcc_offset : M Def (unit + Stop) :=
  d <~ get_def id ;;
  if tcc_offset_checked d && tcc_offset_low d then done tt
  else if matched_index (parser d) <? 0 then set_tcc_flags true true
  else
    e <~ lift (sys (fs_exists tcc_file)) ;;
    if negb e then set_tcc_flags true true
    else
      r <~ lift (sys (fs_read_int tcc_file)) ;;
      match snd r with
      | None => set_tcc_flags true true
      | Some tcc =>
          if 10 <? tcc then
            w <~ lift (sys (fs_write_uint tcc_file 5)) ;;
            set_tcc_flags true (if w <? 0 then true else tcc_offset_low d)
          else set_tcc_flags true (if tcc_offset_checked d then tcc_offset_low d else true)
      end.

(** The platform is made again each time; only that of Intel has something to do. *)
Definition workarounds : M Def (unit + Stop) :=
  if negb (workaround_enabled opts) then done tt
  else
    interval <~ get_def workaround_interval ;;
    if negb (disable_active_power opts) && (interval =? 0) then
      p <~ lift (sys create_platform) ;;
      (match p with IntelPlatform => workaround_rapl_mmio_power | _ => done tt end) ;;~
      workaround_tcc_offset ;;~
      set_def (fun d => d <| workaround_interval := 7 |>)
    else set_def (fun d => d <| workaround_interval := sint 32 (interval - 1) |>).

(** One turn of the thread of this engine. *)
Definition default_turn (sec : Z) : PollEvent -> M Def (unit + Stop) :=
  engine_turn (@lift) read_thermal_zones (done tt) (done tt) workarounds sec.
End DefaultEngine.

(** ** Theorems *)

Section Triples.
Context {X : Type}.
Lemma wp_then {A B} (m : M X (A + Stop)) (k : A -> M X (B + Stop)) Q s :
  wp m (fun r t => match r with inl a => wp (k a) Q t | inr x => Q (inr x) t end) s -> wp (andThen m k) Q s.
Proof. intros Hm. apply wp_bind. eapply wp_conseq; [|exact Hm]. by intros [a|x] t Ht. Qed.
Lemma wp_done {A} (a : A) (Q : A + Stop -> X -> Prop) s : Q (inl a) s -> wp (done a) Q s.
Proof. done. Qed.
Lemma wp_any {A} (m : M X A) s : wp m (fun _ _ => True) s.
Proof. done. Qed.
End Triples.
Lemma wp_lift {A} (m : M Eng A) (Q : A + Stop -> Def -> Prop) d :
  wp m (fun a e => Q (inl a) (d <| eng := e |>)) (eng d) -> wp (lift m) Q d.
Proof. unfold wp, lift, res, post. by destruct (m (eng d)). Qed.

(** *** The processor's device as its zone *)

Lemma safe_passive_below passive critical : 0 <= passive < 2 ^ 31 -> 15000 <= critical < 2 ^ 32 ->
  safe_passive passive critical + 5000 < critical.
Proof.
  intros Hp Hc. unfold safe_passive. rewrite (wrap_small 32 (passive + 5 * 1000)) by lia.
  destruct (Z.eqb_spec critical 0); [lia|]. simpl.
  destruct (Z.leb_spec critical (passive + 5 * 1000)); [|lia]. rewrite wrap_small; lia.
Qed.

Section ProcessorZone.
Context `{ThdOs} `{StdSort} (opts : Options).

(** The trip points but for their devices. *)
Definition same_trip (t u : Trip) : Prop := trip_type t = trip_type u /\ trip_temp t = trip_temp u.
#[local] Instance same_trip_preorder : PreOrder same_trip.
Proof. split; [done|]. intros t u v [] []. split; congruence. Qed.
Lemma replace_first_same (f : Trip -> bool) g l l' : (forall t, same_trip t (g t)) ->
  replace_first f g l = Some l' -> Forall2 same_trip l l'.
Proof.
  intros Hg. revert l'. induction l as [|t l IH]; intros l'; simpl; [done|].
  destruct (f t); [intros [= <-]; constructor; [apply Hg|reflexivity]|].
  destruct (replace_first f g l) as [l1|]; simpl; [intros [= <-]|done]. constructor; [done|by apply IH].
Qed.
Lemma bind_cooling_device_same ty temp c i s v target mm low high z p :
  let r := res (bind_cooling_device ty temp c i s v target mm low high z) p in
  Forall2 same_trip (trip_points z) (trip_points (snd r)) /\ zone_active (snd r) = zone_active z.
Proof.
  cbv zeta. unfold bind_cooling_device, res, bind, gets, ret. simpl.
  destruct (replace_first _ _ _) as [l|] eqn:E; [|done].
  split; [|done]. simpl. eapply replace_first_same; [|exact E]. intros t. done.
Qed.
Lemma bind_passive_same names z p : wp (bind_passive names z)
  (fun z' _ => Forall2 same_trip (trip_points z) (trip_points z') /\ zone_active z' = zone_active z) p.
Proof.
  revert z p. induction names as [|n names IH]; intros z p; [by apply wp_ret|].
  cbn [bind_passive]. apply wp_bind, wp_conseq with (fun _ _ => True); [|done]. intros [c|] p1 _; [|apply IH].
  apply wp_bind. pose proof (bind_cooling_device_same PASSIVE 0 c default_influence 0 false 0 false 0 0 z p1) as [Hs Ha].
  unfold wp at 1. eapply wp_conseq; [|apply IH]. intros z' p2 [Hs' Ha']. rewrite Ha', Ha. split; [|done].
  by etrans.
Qed.
Lemma set_zone_active_trips z p :
  wp (set_zone_active z) (fun z' _ => trip_points z' = trip_points z /\ zone_active z' = true) p.
Proof.
  unfold set_zone_active. apply wp_bind, wp_conseq with (fun _ _ => True); [|done]. intros v p1 _.
  apply wp_bind, wp_conseq with (fun _ _ => True); [|done]. intros ? p2 _. by apply wp_ret.
Qed.

Lemma zones_sys {A} (m : M World A) : same zones (sys m).
Proof. intros e. unfold post, sys, on_plant, on_world. by destruct (m (world (plant e))). Qed.

(** The high passive trip point of a zone before, and what became of it. *)
Definition made_safe (critical : Z) (e e' : Eng) : Prop :=
  exists i k z t z' t', zones e !! i = Some z /\
    list_find (fun t => high_passive t = true) (trip_points z) = Some (k, t) /\
    zones e' !! i = Some z' /\ zone_active z' = true /\ trip_points z' !! k = Some t' /\
    trip_type t' = PASSIVE /\ trip_temp t' + 5000 < critical.

Lemma on_zone_lookup i f z e : zones e !! i = Some z ->
  zones (post (on_zone i f) e) !! i = Some (res (f z) (plant e)).
Proof.
  intros Hz. unfold on_zone, post, res, bind, gets, on_plant, set_eng, modify. rewrite Hz. cbv beta iota.
  destruct (f z (plant e)) as [z' p]. simpl. apply list_lookup_insert_eq. by eapply lookup_lt_Some.
Qed.
Lemma zones_first_zone names : same zones (first_zone names).
Proof.
  induction names as [|n names IH]; [done|]. cbn [first_zone]. apply same_bind; [done|]. by intros [i|].
Qed.

(** C33: When the processor's device is made the zone of the processor its passive trip point, of
    more than 90 degrees, ends up more than five degrees below the critical temperature of ACPI, if there is
    a plausible one: the daemon cools before the kernel would switch off. *)
Theorem processor_zone_safe e critical : res acpi_critical e = critical -> 15000 <= critical < 2 ^ 32 ->
  (forall i z t, zones e !! i = Some z -> t ∈ trip_points z -> 0 <= trip_temp t < 2 ^ 31) ->
  res (add_int340x_processor_dev opts) e = true ->
  made_safe critical e (post (add_int340x_processor_dev opts) e).
Proof.
  intros Hcrit Hc Htemps. set (m := add_int340x_processor_dev opts).
  enough (wp m (fun r e' => r = true -> made_safe critical e e') e) as Hm by done.
  unfold m, add_int340x_processor_dev. destruct (thd_ignore_default_control opts); [by apply wp_ret|].
  apply wp_bind, wp_gets.
  apply wp_bind, wp_conseq with (fun _ t => zones t = zones e); [|exact (zones_sys _ e)]. intros base e1 H1.
  apply wp_bind, wp_conseq with (fun _ t => zones t = zones e); [|unfold wp; by rewrite zones_sys]. intros ok e2 H2.
  apply wp_bind, wp_conseq with (fun _ t => zones t = zones e); [|unfold wp; by rewrite zones_first_zone]. intros i e3 H3.
  apply wp_bind, wp_gets. rewrite H3.
  destruct i as [i|]; [|by apply wp_ret]. cbn [mbind option_bind].
  destruct (zones e !! i) as [z|] eqn:Hz; [|by apply wp_ret]. cbn [mbind option_bind].
  destruct (list_find _ (trip_points z)) as [[k t]|] eqn:Hf; [|by apply wp_ret].
  assert (acpi_critical e3 = (critical, e3)) as Hcrit3.
  { unfold acpi_critical, search_zone, bind, gets in *. unfold res in Hcrit. simpl in *. by rewrite H3, Hcrit. }
  apply wp_bind. unfold wp at 1, res, post. rewrite Hcrit3. cbn [fst snd].
  apply wp_bind. unfold wp at 1. apply wp_ret. intros _.
  apply list_find_Some in Hf as Hk. destruct Hk as (Hk & Hp & _).
  set (g := fun t : Trip => t <| trip_temp := safe_passive (trip_temp t) critical |>).
  assert (wp (z <- set_zone_active (z <| trip_points := alter g k (trip_points z) |>) ;; bind_passive processor_cdevs z)
    (fun z' _ => zone_active z' = true /\ Forall2 same_trip (alter g k (trip_points z)) (trip_points z')) (plant e3)) as Hw.
  { apply wp_bind. eapply wp_conseq; [|apply set_zone_active_trips]. intros z2 p [Ht Ha].
    eapply wp_conseq; [|apply bind_passive_same]. intros z' p' [Hs Ha']. rewrite Ha', Ha. split; [done|].
    by rewrite Ht in Hs. }
  destruct Hw as [Ha Hs]. exists i, k, z, t. eexists _.
  assert (alter g k (trip_points z) !! k = Some (g t)) as Hg by (by rewrite list_lookup_alter_eq, Hk).
  destruct (Forall2_lookup_l _ _ _ _ _ Hs Hg) as (t' & Ht' & Hty & Hte).
  exists t'. split; [exact Hz|]. split; [exact Hf|]. split; [apply on_zone_lookup; by rewrite H3|].
  split; [exact Ha|]. split; [exact Ht'|]. unfold high_passive, is_type in Hp.
  apply andb_true_iff in Hp as [Hp _]. rewrite <- Hty, <- Hte. split; [by apply bool_decide_eq_true in Hp|].
  apply safe_passive_below; [|done]. eapply Htemps; [exact Hz|]. by eapply list_elem_of_lookup_2.
Qed.
End ProcessorZone.

(** *** What the set-up leaves *)

Section Outcome.
Context `{ThdOs} `{StdSort} `{RelDevice} `{Processor} (opts : Options).

(** What the engine has to work with. *)
Definition things (d : Def) := (zones (eng d), plant_sensors (plant (eng d)), plant_cdevs (plant (eng d))).
Lemma same_then {X T A B} (f : X -> T) (m : M X (A + Stop)) (k : A -> M X (B + Stop)) :
  same f m -> (forall a, same f (k a)) -> same f (andThen m k).
Proof. intros Hm Hk. apply same_bind; [done|]. by intros [a|s]. Qed.
Lemma things_sys {A} (m : M World A) : same things (lift (sys m)).
Proof.
  intros d. unfold post, lift, sys, on_plant, on_world, things. by destruct (m (world (plant (eng d)))).
Qed.
Lemma things_must {A} (o : option A) : same things (must o).
Proof. by destruct o. Qed.
Lemma things_parser_ready : same things parser_ready.
Proof.
  assert (same things engine_parser_init) as Hi.
  { unfold engine_parser_init. apply same_then; [done|intros d]. destruct (parser_disabled d); [done|].
    destruct (parser_init_done d); [done|]. apply same_then; [apply things_sys|intros r].
    apply same_then; [apply things_must|intros r']. apply same_then; [done|intros ?].
    destruct (negb _); [done|]. apply same_then; [apply things_must|intros p]. by apply same_then. }
  unfold parser_ready. apply same_then; [exact Hi|intros ok]. destruct (negb ok); [done|].
  apply same_then; [done|intros p]. apply same_then; [apply things_sys|intros r]. by apply same_then.
Qed.

Definition has_zones (d : Def) : Prop := zones (eng d) <> [].
Lemma keeps_then {X A B} (I : X -> Prop) (m : M X (A + Stop)) (k : A -> M X (B + Stop)) :
  keeps I m -> (forall a, keeps I (k a)) -> keeps I (andThen m k).
Proof. intros Hm Hk. apply keeps_bind; [done|]. intros [a|s]; [apply Hk|by intros x]. Qed.
Lemma zones_on_plant {A} (m : M Plant A) : keeps has_zones (lift (on_plant m)).
Proof. intros d Hd. unfold has_zones, post, lift, on_plant in *. by destruct (m (plant (eng d))). Qed.
Lemma power_floor_zones : keeps has_zones enable_power_floor_event.
Proof.
  unfold enable_power_floor_event.
  assert (forall A (f : Def -> A), keeps has_zones (get_def f)) as Hg by by intros A f d.
  assert (forall A (a : A), keeps has_zones (done a)) as Hd by by intros A a d.
  apply keeps_then; [apply zones_on_plant|intros r]. destruct (_ <? _); [apply Hd|].
  apply keeps_then; [apply zones_on_plant|intros there]. apply keeps_then; [apply zones_on_plant|intros clamp].
  destruct (_ || _); [apply Hd|]. apply keeps_then; [apply Hg|intros n].
  apply keeps_then; [apply zones_on_plant|intros s]. destruct (negb _); [apply Hd|].
  apply keeps_then; [apply Hg|intros k]. apply keeps_then; [by intros d|intros ?].
  apply keeps_then; [apply zones_on_plant|intros [z|z|]]; [|apply Hd|by intros d].
  apply keeps_then; [by intros d|intros pci]. apply keeps_then; [apply Hg|intros l].
  intros d Hz. unfold has_zones, post, lift, set_eng, modify, bind, on_plant.
  destruct (set_zone_active _ _) as [z' p]. simpl. by destruct (zones (eng d)).
Qed.

Lemma zones_counted d :
  wp (l <~ get_def (fun d => zones (eng d)) ;; match l with [] => done THD_FATAL_ERROR | _ => done THD_SUCCESS end)
    (fun x t => x = inl THD_SUCCESS -> has_zones t) d.
Proof.
  unfold wp, res, post, andThen, get_def, bind, gets, done, ret, has_zones. cbn [fst snd].
  by destruct (zones (eng d)) eqn:E; cbn [fst snd]; rewrite ?E.
Qed.
(** A step whose result and effect do not matter. *)
Lemma wp_skip {X A B} (m : M X (A + Stop)) (k : A -> M X (B + Stop)) (Q : B + Stop -> X -> Prop) s :
  (forall a t, wp (k a) Q t) -> (forall x t, Q (inr x) t) -> wp (andThen m k) Q s.
Proof. intros Hk Hx. apply wp_then, wp_conseq with (fun _ _ => True); [|done]. intros [a|x] t _; auto. Qed.
Lemma zones_read d :
  wp (read_thermal_zones opts) (fun x t => x = inl THD_SUCCESS -> has_zones t) d.
Proof.
  unfold read_thermal_zones. apply wp_skip; [|done]. intros ok d1. destruct (negb ok); [done|].
  do 10 (apply wp_skip; [intros ? ?|done]). apply zones_counted.
Qed.

(** *** Without zones *)

Lemma zones_plant {A} (m : M Plant A) : same zones (on_plant m).
Proof. intros e. unfold post, on_plant. by destruct (m (plant e)). Qed.
Lemma zones_append s : same zones (append_sensor s).
Proof. done. Qed.
Lemma zones_inputs dir names index : same zones (add_inputs dir names index).
Proof.
  revert index. induction names as [|n names IH]; intros index; [done|]. cbn [add_inputs]. apply same_if; [|apply IH].
  apply same_bind; [apply zones_plant|intros r]. apply same_if; [|done]. apply same_bind; [done|intros _; apply IH].
Qed.
Lemma zones_coretemp base names index : same zones (coretemp_sensors base names index).
Proof.
  revert index. induction names as [|n names IH]; intros index; [done|]. cbn [coretemp_sensors].
  apply same_bind; [apply same_if; [apply zones_plant|done]|intros ok]. apply same_if; [apply IH|].
  apply same_bind; [apply zones_plant|intros l]. apply same_bind; [apply zones_inputs|intros [i|]]; [apply IH|done].
Qed.
Lemma zones_search bases index : same zones (search_coretemp bases index).
Proof.
  induction bases as [|base bases IH]; [done|]. cbn [search_coretemp]. apply same_bind; [apply zones_plant|intros l].
  apply same_bind; [apply zones_coretemp|intros [i|]]; [by apply same_if|done].
Qed.
Lemma zones_sensor_dirs names k : same zones (read_sensor_dirs names k).
Proof.
  revert k. induction names as [|n names IH]; intros k; [done|]. cbn [read_sensor_dirs].
  apply same_bind; [apply zones_plant|intros r]. apply same_bind; [by apply same_if|intros _; apply IH].
Qed.
Lemma zones_default_sensors : same zones thd_read_default_thermal_sensors.
Proof.
  apply same_bind; [apply zones_plant|intros l]. apply same_bind; [apply zones_sensor_dirs|intros k].
  apply same_bind; [done|]. by intros [|x l'].
Qed.
Lemma zones_force name : same zones (force_async name).
Proof. apply same_bind; [apply zones_plant|]. intros [i|]; [apply zones_plant|done]. Qed.

(** A failure of the sensors, or of the zones, leaves the engine without zones. *)
Definition no_zones (d : Def) : Prop := zones (eng d) = [].
Lemma sensors_failed d : no_zones d ->
  wp read_thermal_sensors (fun x t => forall r, x = inl r -> r <> THD_SUCCESS -> no_zones t) d.
Proof.
  intros Hd. unfold read_thermal_sensors. apply wp_then.
  match goal with |- wp (lift ?m) _ _ => set (first := m) end.
  assert (same zones first) as Hs.
  { subst first. apply same_bind; [apply zones_default_sensors|intros _].
    apply same_bind; [apply same_mfor; intros n; apply zones_force|intros _]. apply same_bind; [done|intros i; apply zones_search]. }
  apply wp_lift. unfold wp. destruct (res first (eng d)) as [i|].
  - do 4 (apply wp_skip; [intros ? ?|by intros]). intros r [= <-]. done.
  - intros r _ _. unfold no_zones. cbn. by rewrite Hs.
Qed.
Lemma zones_missing d : wp (read_thermal_zones opts) (fun x t => forall r, x = inl r -> r <> THD_SUCCESS -> no_zones t) d.
Proof.
  unfold read_thermal_zones. apply wp_skip; [|by intros]. intros ok d1. destruct (negb ok); [by intros r|].
  do 10 (apply wp_skip; [intros ? ?|by intros]).
  unfold wp, res, post, andThen, get_def, bind, gets, done, ret, no_zones. cbn [fst snd].
  destruct (zones (eng _)) eqn:E; cbn [fst snd]; [by rewrite E|]. by intros r [= <-].
Qed.

Lemma cdevs_succeed ppcc trusted d :
  wp (read_cooling_devices opts ppcc trusted) (fun x _ => forall b, x = inl b -> b = THD_SUCCESS) d.
Proof.
  unfold read_cooling_devices. do 11 (apply wp_skip; [intros ? ?|by intros]). by intros b [= <-].
Qed.

(** *** What stops the set-up *)

(** Whatever [m] stops with is in [P]. *)
Definition stops_with {X A} (P : Stop -> Prop) (m : M X (A + Stop)) : Prop := forall s x, res m s = inr x -> P x.
Section Stops.
Context (P : Stop -> Prop) (undefined : P Undefined).
Lemma stops_then {X A B} (m : M X (A + Stop)) (k : A -> M X (B + Stop)) :
  stops_with P m -> (forall a, stops_with P (k a)) -> stops_with P (andThen m k).
Proof.
  intros Hm Hk s x. unfold andThen. rewrite res_bind. specialize (Hm s).
  destruct (res m s) as [a|y]; [apply Hk|]. intros [= <-]. by apply Hm.
Qed.
Lemma stops_if {X A} (b : bool) (m1 m2 : M X (A + Stop)) : stops_with P m1 -> stops_with P m2 -> stops_with P (if b then m1 else m2).
Proof. by destruct b. Qed.
Lemma stops_done {X A} (a : A) : stops_with P (done a : M X (A + Stop)).
Proof. done. Qed.
Lemma stops_undefined {X A} : stops_with P (stop Undefined : M X (A + Stop)).
Proof. by intros s x [= <-]. Qed.
Lemma stops_must {X A} (o : option A) : stops_with P (must o : M X (A + Stop)).
Proof. destruct o; [done|apply stops_undefined]. Qed.
Lemma stops_lift {A} (m : M Eng A) : stops_with P (lift m).
Proof. intros d x. unfold res, lift. by destruct (m (eng d)). Qed.
Lemma stops_set f : stops_with P (set_def f).
Proof. done. Qed.
Lemma stops_get {A} (f : Def -> A) : stops_with P (get_def f).
Proof. done. Qed.
Lemma stops_for_each {X A} (l : list A) (body : A -> M X (unit + Stop)) :
  (forall a, stops_with P (body a)) -> stops_with P (for_each l body).
Proof. intros Hb. induction l as [|a l IH]; [done|]. cbn [for_each]. by apply stops_then. Qed.
#[local] Hint Resolve stops_done stops_undefined stops_must stops_lift stops_set stops_get : stops.
Ltac stops := repeat first
  [ progress auto with stops
  | apply stops_then; [|intros ?]
  | apply stops_if
  | apply stops_for_each; intros ?
  | match goal with
    | |- stops_with _ (match ?x with _ => _ end) => destruct x
    end ].

Lemma stops_parser_ready : stops_with P parser_ready.
Proof. unfold parser_ready, engine_parser_init. stops. Qed.
Lemma stops_platform : stops_with P the_platform.
Proof. unfold the_platform. stops. Qed.
#[local] Hint Resolve stops_parser_ready stops_platform : stops.
Lemma stops_sensors : stops_with P read_thermal_sensors.
Proof. unfold read_thermal_sensors. cbv zeta. stops. Qed.
Lemma stops_add_zone z i : stops_with P (add_zone z i).
Proof. unfold add_zone. stops. Qed.
#[local] Hint Resolve stops_add_zone : stops.
Lemma stops_cpu_zones base names i created : stops_with P (add_cpu_zones base names i created).
Proof. revert i created. induction names as [|n names IH]; intros i created; cbn [add_cpu_zones]; stops. Qed.
#[local] Hint Resolve stops_cpu_zones : stops.
Lemma stops_search_cpu bases i : stops_with P (search_cpu_zones bases i).
Proof. revert i. induction bases as [|b bases IH]; intros i; cbn [search_cpu_zones]; stops. Qed.
Lemma stops_conf_zone c i : stops_with P (add_conf_zone c i).
Proof. unfold add_conf_zone. stops. Qed.
#[local] Hint Resolve stops_search_cpu stops_conf_zone : stops.
Lemma stops_conf_zones l i : stops_with P (add_conf_zones l i).
Proof. revert i. induction l as [|c l IH]; intros i; cbn [add_conf_zones]; stops. Qed.
#[local] Hint Resolve stops_conf_zones : stops.
Lemma stops_zones : stops_with P (read_thermal_zones opts).
Proof. unfold read_thermal_zones. cbv zeta. stops. Qed.
Lemma stops_replace c : stops_with P (add_replace_cdev c).
Proof. unfold add_replace_cdev. stops. Qed.
#[local] Hint Resolve stops_replace : stops.

(** The target of the RAPL device is a number: no exception. *)
Lemma target_taken i d : res (on_cdev true i (set_adaptive_target (Target 0 "" "" 0 "PL1MAX" "200000"))) d = true.
Proof.
  unfold res, on_cdev. destruct (plant_cdevs d !! i) as [c|]; [|done].
  match goal with |- context [set_adaptive_target ?t ?s] => assert (res (set_adaptive_target t) s = true) as Hr end.
  { unfold set_adaptive_target. rewrite res_bind. destruct (kind _); try done.
    change (stoi _) with (Some 200000). cbv iota. by rewrite res_bind. }
  unfold res in Hr. destruct (set_adaptive_target _ _) as [b s']. exact Hr.
Qed.
Lemma stops_target {A} i (k : M Def (A + Stop)) : stops_with P k ->
  stops_with P (ok <~ lift (on_plant (on_cdev true i (set_adaptive_target (Target 0 "" "" 0 "PL1MAX" "200000")))) ;;
                if ok : bool then k else stop Uncaught).
Proof.
  intros Hk d x. unfold andThen. rewrite res_bind.
  assert (forall m : M Plant bool, res m (plant (eng d)) = true -> res (lift (on_plant m)) d = inl true) as Hl.
  { intros m. unfold res, lift, on_plant. by destruct (m (plant (eng d))) as [[] p]. }
  rewrite Hl by apply target_taken. apply Hk.
Qed.

Section Cdevs.
Context (ppcc : string -> M Def (option ppcc_t + Stop)) (trusted : bool) (ppcc_stops : forall name, stops_with P (ppcc name)).
Lemma stops_rapl : stops_with P (add_rapl opts ppcc trusted).
Proof.
  unfold add_rapl. apply stops_then; [done|intros c]. apply stops_then; [apply stops_lift|intros msr].
  apply stops_then; [apply stops_get|intros d]. apply stops_if; [done|]. apply stops_then; [apply stops_lift|intros [k|]]; [|done].
  apply stops_then; [|intros ?; apply stops_lift]. destruct msr as [i|]; [|done].
  apply stops_then; [apply stops_lift|intros ?]. apply stops_if; [by apply stops_target|done].
Qed.
#[local] Hint Resolve stops_rapl : stops.
Lemma stops_cdevs : stops_with P (read_cooling_devices opts ppcc trusted).
Proof. unfold read_cooling_devices. stops. Qed.
Lemma stops_floor : stops_with P enable_power_floor_event.
Proof. unfold enable_power_floor_event. cbv zeta. stops. Qed.
Lemma stops_init ignore adaptive : stops_with P (thd_engine_init opts ppcc trusted ignore adaptive).
Proof.
  pose proof stops_sensors. pose proof stops_cdevs. pose proof stops_zones. pose proof stops_floor.
  unfold thd_engine_init. stops.
Qed.
End Cdevs.
End Stops.

(** C34: The set-up of an engine without zones, whatever the machine, its files and its
    configuration are, ends in one of four ways: refused with nothing added, a success with
    at least one zone, a fatal error without any, or undefined behaviour (unless the
    access to the platform's tables stops it itself). *)
Theorem engine_set_up ppcc trusted ignore_cpuid_check adaptive d :
  let m := thd_engine_init opts ppcc trusted ignore_cpuid_check adaptive in
  zones (eng d) = [] ->
  match res m d with
  | inl r => (r = THD_ERROR /\ things (post m d) = things d) \/ (r = THD_SUCCESS /\ has_zones (post m d)) \/
             (r = THD_FATAL_ERROR /\ zones (eng (post m d)) = [])
  | inr s => s = Undefined \/ exists name d', res (ppcc name) d' = inr s
  end.
Proof.
  intros m Hz. destruct (res m d) as [r|s] eqn:E.
  2: { apply (stops_init (fun s => s = Undefined \/ exists name d', res (ppcc name) d' = inr s) (or_introl eq_refl) ppcc trusted
         (fun name d' x Hx => or_intror (ex_intro _ name (ex_intro _ d' Hx))) ignore_cpuid_check adaptive d s E). }
  revert r E. enough (wp m (fun x d' => forall r, x = inl r ->
    (r = THD_ERROR /\ things d' = things d) \/ (r = THD_SUCCESS /\ has_zones d') \/ (r = THD_FATAL_ERROR /\ no_zones d')) d) as Hm by done.
  unfold m, thd_engine_init.
  apply wp_then. unfold wp at 1. cbv beta iota.
  set (d1 := post (set_def _) d). assert (things d1 = things d) as E1 by done. clearbody d1.
  apply wp_then, wp_conseq with (fun _ t => things t = things d).
  2: { destruct ignore_cpuid_check; [done|]. unfold wp. rewrite <- E1. apply things_sys. }
  intros [supported|s] d2 E2; [|done].
  apply wp_then. unfold wp at 1. cbv beta iota.
  set (d3 := post (set_def _) d2). assert (things d3 = things d) as E3 by done. clearbody d3.
  apply wp_then, wp_conseq with (fun _ t => things t = things d).
  2: { destruct supported; [done|]. unfold wp. rewrite <- E3. apply things_parser_ready. }
  intros [[|]|s] d4 E4; [|by apply wp_ret; intros r [= <-]; left|done]. cbn [negb].
  assert (no_zones d4) as Hz4 by (unfold no_zones; by injection E4 as -> _ _).
  apply wp_then. eapply wp_conseq; [|by apply sensors_failed]. intros [a|s] d5 E5; [|done].
  destruct (Z.eqb_spec a THD_SUCCESS); cbn [negb].
  2: { apply wp_ret. intros r [= <-]. right. right. split; [done|]. by apply (E5 a). }
  apply wp_then, wp_conseq with (fun x _ => forall b, x = inl b -> b = THD_SUCCESS); [|apply cdevs_succeed].
  intros [b|s] d6 Hb; [|done]. rewrite (Hb b eq_refl). cbn [negb Z.eqb].
  apply wp_then. eapply wp_conseq; [|apply wp_and; [apply zones_read|apply zones_missing]]. intros [z|s] d7 [E7 F7]; [|done].
  destruct (Z.eqb_spec z THD_SUCCESS) as [->|]; cbn [negb].
  2: { apply wp_ret. intros r [= <-]. right. right. split; [done|]. by apply (F7 z). }
  apply wp_then, wp_conseq with (fun _ t => has_zones t).
  2: { destruct (power_floor_enable opts); [by apply power_floor_zones, E7|by apply E7]. }
  intros [u|s] d8 E8; [|done]. apply wp_ret. intros r [= <-]. right. left. done.
Qed.
End Outcome.

(** *** Workarounds *)

Section Workarounds.
Context `{ThdOs} `{StdSort} `{RelDevice} `{Processor} (opts : Options).

(** The field that counts the turns is left alone, and nothing stops. *)
Definition counts (d : Def) {A} (r : A + Stop) (d' : Def) : Prop :=
  (exists a, r = inl a) /\ workaround_interval d' = workaround_interval d.
Lemma counts_then {A B} (m : M Def (A + Stop)) (k : A -> M Def (B + Stop)) d :
  wp m (counts d) d -> (forall a d', workaround_interval d' = workaround_interval d -> wp (k a) (counts d') d') ->
  wp (andThen m k) (counts d) d.
Proof.
  intros Hm Hk. apply wp_then. eapply wp_conseq; [|exact Hm]. intros r t [[a ->] Hc].
  eapply wp_conseq; [|by apply Hk]. intros r u [Ha Hc']. split; [done|congruence].
Qed.
Lemma counts_lift {A} (m : M Eng A) d : wp (lift m) (counts d) d.
Proof. apply wp_lift. unfold wp. split; [by eexists|done]. Qed.
Lemma counts_set (f : Def -> Def) d : (forall d, workaround_interval (f d) = workaround_interval d) -> wp (set_def f) (counts d) d.
Proof. intros Hf. split; [by exists tt|apply Hf]. Qed.
Lemma counts_mmio d : wp (workaround_rapl_mmio_power opts) (counts d) d.
Proof.
  unfold workaround_rapl_mmio_power. destruct (negb _); [by split; [exists tt|]|].
  apply counts_then; [apply counts_lift|intros c d1 _]. destruct c; [by split; [exists tt|]|].
  apply counts_then; [apply counts_lift|intros b d2 _]. destruct b; [by split; [exists tt|]|].
  apply counts_then; [apply counts_lift|intros v d3 _]. destruct v; [by apply counts_set|by split; [exists tt|]].
Qed.
Lemma counts_tcc d : wp workaround_tcc_offset (counts d) d.
Proof.
  unfold workaround_tcc_offset, set_tcc_flags. apply counts_then; [by split; [eexists|]|intros d0 d1 _].
  destruct (_ && _); [by split; [exists tt|]|]. destruct (_ <? _); [by apply counts_set|].
  apply counts_then; [apply counts_lift|intros e d2 _]. destruct (negb e); [by apply counts_set|].
  apply counts_then; [apply counts_lift|intros r d3 _]. destruct (snd r) as [tcc|]; [|by apply counts_set].
  destruct (10 <? tcc); [|by apply counts_set]. apply counts_then; [apply counts_lift|intros w d4 _]. by apply counts_set.
Qed.

Definition after_turns (n : nat) (d : Def) : Def := Nat.iter n (post (workarounds opts)) d.

(** The workarounds are done at every eighth turn of the thread, the first included, and in
    between nothing but the count changes: not every thirty seconds, as the comment says, since every
    message that wakes the thread is a turn. *)
Theorem workaround_period n d : workaround_enabled opts = true -> disable_active_power opts = false ->
  workaround_interval d = 0 ->
  let d' := after_turns n d in
  res (workarounds opts) d' = inl tt /\ workaround_interval d' = - Z.of_nat n mod 8 /\
  (Z.of_nat n mod 8 <> 0 -> post (workarounds opts) d' = d' <| workaround_interval := workaround_interval d' - 1 |>).
Proof.
  intros Hw Ha Hd.
  assert (forall d, workaround_interval d = 0 -> wp (workarounds opts) (fun r d' => r = inl tt /\ workaround_interval d' = 7) d) as H0'.
  { intros d0 Hz. unfold workarounds. rewrite Hw. cbn [negb]. apply wp_then. unfold wp at 1. cbv beta iota.
    change (res (get_def _) d0) with (@inl Z Stop (workaround_interval d0)). cbv iota. rewrite Hz, Ha. cbn [negb andb Z.eqb].
    apply wp_then. eapply wp_conseq; [|apply counts_lift]. intros r d1 [[p ->] _].
    apply wp_then, wp_conseq with (fun r _ => exists a, r = inl a).
    2: { destruct p; [by exists tt| |by exists tt]. eapply wp_conseq; [|apply counts_mmio]. by intros r t []. }
    intros r d2 [a ->]. apply wp_then. eapply wp_conseq; [|apply counts_tcc]. by intros r' d3 [[a' ->] _]. }
  assert (forall d, 0 < workaround_interval d <= 7 ->
    workarounds opts d = (inl tt, d <| workaround_interval := workaround_interval d - 1 |>)) as Hstep.
  { intros d0 Hz. unfold workarounds. rewrite Hw. cbn [negb]. unfold andThen, get_def, bind, gets, done, ret.
    destruct (Z.eqb_spec (workaround_interval d0) 0); [lia|]. rewrite andb_false_r. unfold set_def, modify, bind, done, ret.
    by rewrite sint_id by lia. }
  assert (workaround_interval (after_turns n d) = - Z.of_nat n mod 8) as Hn.
  { induction n as [|n IH]; [exact Hd|]. unfold after_turns. simpl Nat.iter. fold (after_turns n d).
    pose proof (Z.mod_pos_bound (- Z.of_nat n) 8 ltac:(lia)) as Hb. rewrite <- IH in Hb.
    pose proof (Z.div_mod (- Z.of_nat n) 8 ltac:(lia)) as Hm. rewrite <- IH in Hm.
    destruct (Z.eq_dec (workaround_interval (after_turns n d)) 0) as [Hz|Hz].
    - destruct (H0' _ Hz) as [_ H7]. rewrite H7. rewrite Nat2Z.inj_succ.
      apply Z.mod_unique with (- Z.of_nat n / 8 - 1); lia.
    - unfold post. rewrite Hstep by lia. cbn [snd]. unfold put at 1. simpl. rewrite Nat2Z.inj_succ.
      apply Z.mod_unique with (- Z.of_nat n / 8); lia. }
  cbv zeta. pose proof (Z.mod_pos_bound (- Z.of_nat n) 8 ltac:(lia)) as Hb. rewrite <- Hn in Hb.
  destruct (Z.eq_dec (workaround_interval (after_turns n d)) 0) as [Hz|Hz].
  - split; [by apply H0'|]. split; [done|]. intros Hm. exfalso. apply Hm. rewrite Hz in Hn.
    symmetry in Hn. apply Z.mod_divide in Hn; [|lia]. apply Z.mod_divide; [lia|]. by apply Z.divide_opp_r.
  - unfold res, post. rewrite Hstep by lia. done.
Qed.

(** A locked register: the comment says that the write is tried again, but the flags that are
    set end the workaround for good. *)
Theorem tcc_not_retried d tcc : tcc_offset_checked d = false -> 0 <= matched_index (parser d) ->
  (forall n, os_stat n tcc_file = true) -> (forall n, os_read n tcc_file = inr tcc) ->
  10 < atoi (String.substring 0 16 tcc) -> (forall n, os_write n tcc_file "5" < 0) ->
  forall n, Nat.iter n (post workaround_tcc_offset) (post workaround_tcc_offset d) = post workaround_tcc_offset d.
Proof.
  intros Hc Hp Hs Hr Ht Hw n.
  assert (forall d, tcc_offset_checked d && tcc_offset_low d = true -> workaround_tcc_offset d = (inl tt, d)) as Hdone.
  { intros d0 E. unfold workaround_tcc_offset, andThen, get_def, bind, gets, done, ret. cbn [id]. by rewrite E. }
  assert (wp workaround_tcc_offset (fun _ d' => tcc_offset_checked d' && tcc_offset_low d' = true) d) as Hf.
  { unfold workaround_tcc_offset. apply wp_then. unfold wp at 1. cbv beta iota.
    change (res (get_def id) d) with (@inl Def Stop d). cbv iota. rewrite Hc. cbn [andb].
    destruct (Z.ltb_spec (matched_index (parser d)) 0); [lia|]. apply wp_then, wp_lift.
    unfold wp at 1. unfold sys, on_plant, on_world, fs_exists, ask, res, post. cbn [fst snd]. rewrite Hs. cbn [negb].
    apply wp_then, wp_lift. unfold wp at 1. unfold sys, on_plant, on_world, fs_read_int, fs_read_number, bind, ask, ret, res, post.
    cbn [fst snd]. rewrite Hr. destruct (Z.ltb_spec 0 (Z.of_nat (String.length (String.substring 0 16 tcc)))) as [Hl|Hl].
    - cbn [snd]. rewrite (proj2 (Z.ltb_lt _ _) Ht). apply wp_then, wp_lift. unfold wp at 1.
      unfold fs_write_uint. change (pretty (Z.to_N (wrap 32 5))) with "5"%string.
      unfold sys, on_plant, on_world, fs_write, bind, ask, modify, ret, res, post. cbn [fst snd].
      by rewrite (proj2 (Z.ltb_lt _ _) (Hw _)).
    - by cbn [snd]. }
  pose proof (f_equal snd (Hdone _ Hf)) as E. change (post workaround_tcc_offset (post workaround_tcc_offset d) = post workaround_tcc_offset d) in E.
  induction n as [|n IH]; [done|]. simpl. by rewrite IH.
Qed.
End Workarounds.

(** *** The theorems on concrete machines *)

Module Starts.
(** A laptop with one thermal zone of the kernel, whose sensor reads 100 degrees, no
    configuration and a locked register for the offset of the throttling temperature. *)
#[local] Instance laptop_os : ThdOs := {
  os_time n := 1000 + 10 * Z.of_nat n;
  os_stat _ p := String.eqb p tcc_file || match String.index 0 "thermal_zone0/t" p with
                                          | Some _ => negb (has_prefix "trip_point_1" (drop_string 33 p))
                                          | None => false end;
  os_read _ p :=
    if String.eqb p "/sys/class/thermal/thermal_zone0/type" then inr ("TCPU" +:+ nl)
    else if String.eqb p "/sys/class/thermal/thermal_zone0/trip_point_0_type" then inr ("passive" +:+ nl)
    else inr "100000"%string;
  os_write _ _ _ := -1; os_unset _ := 0; os_thread _ := true; os_writable _ _ := false;
  os_link _ _ := None; os_rundir := "/var/run/thermald";
  os_dir _ p := if String.eqb p "/sys/class/thermal/" then Some ["thermal_zone0"%string] else None;
  os_confdir := "/etc/thermald"; os_owner _ _ := None; os_lstat _ _ := None; os_xml _ _ := None; os_uname _ := ""; os_size _ _ := 0;
  os_libxml := Texts.text_xml
}.
#[local] Existing Instance Quiet.quiet_sort.
#[local] Instance no_relations : RelDevice := {
  rel_open _ := false; rel_count _ := None; rel_length _ := None; rel_trt _ := None; rel_art _ := None;
  rel_psvt _ := None; file_writable _ _ := false
}.
(** A processor of Intel with the model 0x9c, as in the MiniBook. *)
#[local] Instance jasper_lake : Processor := {
  cpu_machine _ := Some "x86_64"%string;
  cpuid l := if l =? 0 then (0, 0x756e6547, 0x6c65746e, 0x49656e69) else (0x906c0, 0, 0, 0);
  cpu_power_limit _ := None
}.
Definition options : Options := Opts false false true false.
Definition def0 : Def := def_new Quiet.world0 false.

Example supported : res check_cpu_id Quiet.world0 = true.
Proof. by vm_compute. Qed.

Definition no_ppcc (_ : string) : M Def (option ppcc_t + Stop) := done None.
Definition start : M Def (Z + Stop) := thd_engine_init options no_ppcc false false true.
Example set_up : res start def0 = inl THD_SUCCESS.
Proof. by vm_compute. Qed.
Lemma engine_set_up_witness : has_zones (post start def0).
Proof.
  pose proof (engine_set_up options no_ppcc false false true def0 eq_refl) as H. change (thd_engine_init _ _ _ _ _) with start in H.
  rewrite set_up in H. destruct H as [[Hr _]|[[_ Hz]|[Hr _]]]; [discriminate Hr|exact Hz|discriminate Hr].
Defined.

(** The processor's passive trip point lies at 100 degrees, ACPI's critical one at 103. *)
Definition acpi : Zone :=
  zone_new (GenericZone None) 0 "" "acpitz" <| trip_points := [trip_new 0 CRITICAL 103000 0 0 0 SEQUENTIAL] |>.
Definition tcpu : Zone :=
  zone_new (GenericZone None) 1 "" "TCPU" <| trip_points := [trip_new 0 PASSIVE 100000 0 1 0 SEQUENTIAL] |>.
Definition hot : Eng := eng def0 <| zones := [acpi; tcpu] |>.

Lemma hot_temps i z t : zones hot !! i = Some z -> t ∈ trip_points z -> 0 <= trip_temp t < 2 ^ 31.
Proof.
  destruct i as [|[|i]]; [intros [= <-]|intros [= <-]|done]; intros Ht%list_elem_of_singleton; subst t; by vm_compute.
Qed.
Example lowered : map (map trip_temp ∘ trip_points) (zones (post (add_int340x_processor_dev options) hot)) = [[103000]; [88000]].
Proof. by vm_compute. Qed.
Lemma processor_zone_safe_witness : made_safe 103000 hot (post (add_int340x_processor_dev options) hot).
Proof.
  apply (processor_zone_safe options hot 103000); [by vm_compute|by vm_compute|exact hot_temps|by vm_compute].
Defined.

Lemma workaround_period_witness :
  workaround_interval (after_turns options 9 def0) = 7 /\
  res (workarounds options) (after_turns options 9 def0) = inl tt.
Proof.
  destruct (workaround_period options 9 def0 eq_refl eq_refl eq_refl) as (Hr & Hi & _). by split.
Defined.

Definition configured : Def := def0 <| parser := mkParse [] 0 false [] |>.
Lemma tcc_not_retried_witness :
  tcc_offset_checked (post workaround_tcc_offset configured) = true /\
  Nat.iter 5 (post workaround_tcc_offset) (post workaround_tcc_offset configured) = post workaround_tcc_offset configured.
Proof.
  split; [by vm_compute|].
  apply (tcc_not_retried configured "100000"); [done|done|done|intros n; by vm_compute|by vm_compute|done].
Defined.
End Starts.
