(* ===== verification/Adaptive.v ===== *)
(** * The thermal daemon: the adaptive engine

    thd_engine_adaptive.{h,cpp} with the MiniBook's settings of
    thd_minibook_config.h: the zones and trips made from the tables of the data vault
    (PSVT, ITMT), their consolidation, the targets of the conditions, the power rules, the
    zones of the MiniBook's embedded controller and the start. *)

From Stdlib Require Import ZArith Lia Ascii String.
From stdpp Require Import base list option strings pretty sets.
From S2P Require Import Prelude Bytes LzmaDec Floats ThdCommon Objects Gddv Vault Conditions ThdIo Int3400 AcpiRel Pid Cdev Sensor Trip Zone Platform Engine DefaultEngine.

#[local] Open Scope Z_scope.
#[local] Open Scope prog_scope.

(** ** thd_minibook_config.h *)

Definition MINIBOOK_SEN3_TRIP_TEMP := 50000.
Definition MINIBOOK_PPCC_PL1_MIN := 8000.
Definition MINIBOOK_PPCC_PL1_MAX := 17000.
Definition MINIBOOK_PPCC_STEP_SIZE := 500.
Definition MINIBOOK_SOC_ZONE : string := "minibook_soc".
Definition MINIBOOK_CHARGER_ZONE : string := "minibook_charger".
Definition MINIBOOK_SOC_TRIP_TEMP := 80000.
Definition MINIBOOK_CHARGER_TRIP_TEMP := 60000.
Definition MINIBOOK_RAPL_PL1_SYSFS : string := "/sys/class/powercap/intel-rapl:0/constraint_0_power_limit_uw".

(** ** State *)

(** [cthd_engine_adaptive], with the engine it is derived from. *)
Record Ad := mkAd {
  dflt : Def; gddv : Gddv; rules : Rules; policy_active : bool; fallback_id : Z; int3400_path : string;
  passive_def_only : bool; int3400_installed : bool; current_matched_target : Z
}.
Definition Ad_again (a : Ad) : Ad := mkAd (dflt a) (gddv a) (rules a) (policy_active a) (fallback_id a)
  (int3400_path a) (passive_def_only a) (int3400_installed a) (current_matched_target a).
#[export] Instance put_dflt : Field dflt := ltac:(field_of Ad_again dflt).
#[export] Instance put_gddv : Field gddv := ltac:(field_of Ad_again gddv).
#[export] Instance put_rules : Field rules := ltac:(field_of Ad_again rules).
#[export] Instance put_policy_active : Field policy_active := ltac:(field_of Ad_again policy_active).
#[export] Instance put_fallback_id : Field fallback_id := ltac:(field_of Ad_again fallback_id).
#[export] Instance put_int3400_path : Field int3400_path := ltac:(field_of Ad_again int3400_path).
#[export] Instance put_passive_def_only : Field passive_def_only := ltac:(field_of Ad_again passive_def_only).
#[export] Instance put_int3400_installed : Field int3400_installed := ltac:(field_of Ad_again int3400_installed).
#[export] Instance put_current_matched_target : Field current_matched_target := ltac:(field_of Ad_again current_matched_target).
Definition base (a : Ad) : Eng := eng (dflt a).

(** The constructor. *)
Definition ad_new (w : World) (ignore_critical : bool) : Ad :=
  mkAd (def_new w ignore_critical <| eng := eng_new w ignore_critical "63BE270F-1C11-48FD-A6F7-3AF253FF3E2D" |>)
    no_tables (Rls [] [] 75 (-1) 0) false (-1) "" false false (-1).

Definition R (A : Type) : Type := M Ad (A + Stop).
(** The methods of the engine it is derived from. *)
Definition on_def {A} (m : M Def (A + Stop)) : R A := fun a => let (x, d) := m (dflt a) in (x, a <| dflt := d |>).
Definition lift {A} (m : M Eng A) : R A := on_def (DefaultEngine.lift m).
Definition on_rules {A} (m : M Rules A) : M Ad A := fun a => let (x, r) := m (rules a) in (x, a <| rules := r |>).
Definition set_ad (f : Ad -> Ad) : R unit := modify f ;;; done tt.
Definition get_ad {A} (f : Ad -> A) : R A := x <- gets f ;; done x.

Section Adapting.
Context `{ThdOs} `{StdSort} `{Host} `{RelDevice} `{Processor} `{Alloc} (opts : Options).

(** [get_ppcc_param]: limits of power that are locked are replaced. *)
Definition get_ppcc_param (g : Gddv) (name : string) : option ppcc_t :=
  (fun p => if power_limit_max p <=? power_limit_min p
            then Ppcc (ppcc_name p) (valid p) MINIBOOK_PPCC_PL1_MIN MINIBOOK_PPCC_PL1_MAX (time_wind_min p)
                   (time_wind_max p) MINIBOOK_PPCC_STEP_SIZE (limit_1_valid p) (power_limit_1_min p)
                   (power_limit_1_max p) (time_wind_1_min p) (time_wind_1_max p) (step_1_size p)
            else p) <$> get_ppcc g name.

(** ** Names *)

(** The participant of an ACPI path, without underscores at its end. *)
Definition participant_of (path : string) : R string :=
  match strip_underscores (last_component path) with Some s => done s | None => stop Undefined end.

(** The processor is TCPU in some tables and B0D4 in others. *)
Definition table_zone (name : string) : R (string * option nat) :=
  z <~ lift (search_zone name) ;;
  match z with
  | Some i => done (name, Some i)
  | None =>
      let name := if has_prefix "B0D4" name then "TCPU"%string else name in
      z <~ (if has_prefix "TCPU" name then lift (search_zone name) else done None) ;;
      match z with
      | Some i => done (name, Some i)
      | None =>
          if has_prefix "TCPU" name then z <~ lift (search_zone "B0D4") ;; done ("B0D4"%string, z)
          else done (name, None)
      end
  end.
Definition table_cdev (name : string) : R (option nat) :=
  c <~ lift (on_plant (search_cdev name)) ;;
  match c with
  | Some i => done (Some i)
  | None => if has_prefix "TCPU" name then lift (on_plant (search_cdev "B0D4")) else done None
  end.

Definition all_cdevs : R (list Cdev) := get_ad (fun a => plant_cdevs (plant (base a))).
Definition zone_at (i : nat) : R (option Zone) := get_ad (fun a => zones (base a) !! i).

(** A trip added to the zone, which becomes active. *)
Definition install_trip (i : nat) (t : Trip) : R unit :=
  lift (on_zone i (fun z => add_trip t true z)).
Definition activate_zone (i : nat) : R unit :=
  lift (on_zone i (fun z => set_zone_active (z <| zone_cdev_binded := true |>))).

(** A limit of a table in milliwatts. *)
Definition limit_state (text : string) : Z :=
  if String.eqb text EmptyString then 0
  else if strncasecmp_eq 3 text "MAX" then TRIP_PT_INVALID_TARGET_STATE
  else if strncasecmp_eq 3 text "MIN" then 0
  else sint 32 (stream_int text * 1000).

(** ** PSVT *)

(** The temperature of a trip in millidegrees, that of SEN3 is capped. *)
Definition passive_temp (zone_name : string) (deci_kelvin : Z) : Z :=
  let temp := sint 32 (DECI_KELVIN_TO_CELSIUS deci_kelvin * 1000) in
  if contains "SEN3" zone_name && (MINIBOOK_SEN3_TRIP_TEMP <? temp) then MINIBOOK_SEN3_TRIP_TEMP else temp.

Definition install_passive (psv : psv) : R Z :=
  name <~ participant_of (psv_target psv) ;;
  z <~ table_zone name ;;
  match z with
  | (_, None) => done THD_ERROR
  | (zone_name, Some i) =>
      cdev_name <~ participant_of (psv_source psv) ;;
      c <~ table_cdev cdev_name ;;
      match c with
      | None => done THD_ERROR
      | Some c =>
          s <~ lift (on_plant (search_sensor zone_name)) ;;
          z <~ zone_at i ;;
          match s, z with
          | Some s, Some z =>
              sensor <~ lift (on_plant (index_of_sensor s)) ;;
              l <~ all_cdevs ;;
              let target_state := limit_state (limit psv) in
              install_trip i
                (thd_trip_point_add_cdev l c default_influence (sint 32 (sample_period psv / 10))
                   (negb (target_state =? 0)) target_state None false 0 0
                   (trip_new (Z.of_nat (length (trip_points z))) PASSIVE
                      (passive_temp zone_name (temp psv)) 0 (zone_index z) sensor SEQUENTIAL)) ;;~
              activate_zone i ;;~ done 0
          | _, _ => done THD_ERROR
          end
      end
  end.

(** *** Consolidation *)

Definition warmer (by_ : Z) (t : Trip) : Trip := t <| trip_temp := wrap 32 (trip_temp t + by_) |>.
Definition make_default (t : Trip) : Trip := warmer 1000 (set_first_target_invalid t).

(** The lowest state of a device, which is the one without control. *)
Definition low_of (l : list Cdev) (i : nat) : Z := default 0 (min_state <$> l !! i).

(** A trip that asks for the maximum, by the one that comes next in the zone. *)
Definition consolidate_trip (l : list Cdev) (next : option Trip) (t : Trip) : Trip :=
  match is_target_valid t with
  | None => t
  | Some target =>
      if negb (target =? TRIP_PT_INVALID_TARGET_STATE) then t
      else
        match next with
        | None => make_default t
        | Some next =>
            match get_first_cdev next, is_target_valid next with
            | Some c, Some next_target =>
                if (sensor_id t =? sensor_id next) && bool_decide (get_first_cdev t = Some c)
                then (set_first_target (Z.quot (sint 32 (low_of l c + next_target)) 2) t)
                       <| trip_temp := wrap 32 (trip_temp next + trip_temp t) / 2 |>
                else make_default t
            | _, _ => make_default t
            end
        end
  end.
(** From the first trip on: the one after is not consolidated yet. *)
Fixpoint consolidate (l : list Cdev) (trips : list Trip) : list Trip :=
  match trips with
  | [] => []
  | t :: trips => consolidate_trip l (head trips) t :: consolidate l trips
  end.

(** A single trip with a target, beside the polling trip, gets a second one that
    is a degree higher; it is for the first device of the trip. *)
Definition consolidate_zone (i : nat) : R unit :=
  z <~ zone_at i ;;
  l <~ all_cdevs ;;
  match z with
  | None => done tt
  | Some z =>
      let others := lift (on_zone i (fun z => ret (z <| trip_points := consolidate l (trip_points z) |>))) in
      match trip_points z with
      | [t; _] =>
          match is_target_valid t, get_first_cdev t with
          | Some _, Some c =>
              install_trip i
                (thd_trip_point_add_cdev l c default_influence 0 false TRIP_PT_INVALID_TARGET_STATE None
                   false 0 0
                   (trip_new 1 PASSIVE (trip_temp t + 1000) 0 (zone_index z) (sensor_id t) SEQUENTIAL))
          | _, _ => others
          end
      | _ => others
      end
  end.
Definition psvt_consolidate : R unit :=
  n <~ get_ad (fun a => length (zones (base a))) ;; for_each (seq 0 n) consolidate_zone.

(** ** ITMT *)

Definition itmt_hyst := 2000.
Definition DEFAULT_SAMPLE_TIME_SEC := 5.

Definition install_itmt (e : itmt_entry) : R Z :=
  name <~ participant_of (itmt_target e) ;;
  z <~ table_zone name ;;
  match z with
  | (_, None) => done THD_ERROR
  | (zone_name, Some i) =>
      c <~ lift (on_plant (search_cdev "rapl_controller_mmio")) ;;
      s <~ (match c with Some _ => lift (on_plant (search_sensor zone_name)) | None => done None end) ;;
      z <~ zone_at i ;;
      match c, s, z with
      | Some c, Some s, Some z =>
          sensor <~ lift (on_plant (index_of_sensor s)) ;;
          l <~ all_cdevs ;;
          install_trip i
            (thd_trip_point_add_cdev l c default_influence DEFAULT_SAMPLE_TIME_SEC false 0 None true
               (limit_state (pl1_max e)) (limit_state (pl1_min e))
               (trip_new (Z.of_nat (length (trip_points z))) PASSIVE (sint 32 ((trip_point e - 2732) * 100))
                  itmt_hyst (zone_index z) sensor SEQUENTIAL)) ;;~
          activate_zone i ;;~ done 0
      | _, _, _ => done THD_ERROR
      end
  end.

(** ** Targets of INT3400 *)

(** A zone without its trips and inactive, its devices at their lowest state. *)
Definition clear_zone (z : Zone) : M Plant Zone :=
  zone_reset true z ;;;
  let z := trip_delete_all z in if zone_active z then set_zone_inactive z else ret z.
(** Every zone but those that only plot the power. *)
Definition clear_zones (keep : Zone -> bool) : R unit :=
  lift (each_zone (fun z => if keep z then ret z else clear_zone z)).
Definition is_plot (z : Zone) : bool :=
  String.eqb (zone_type z) "rapl_pkg_power" || String.eqb (zone_type z) "power_floor".

Definition set_itmt_target (t : adaptive_target) : R Z :=
  g <~ get_ad gddv ;;
  match Vault.find_itmt g (target_argument t) with
  | None => done THD_ERROR
  | Some table =>
      installed <~ get_ad int3400_installed ;;
      (if installed : bool then done tt
       else debug <~ lift (sys (fs_exists (os_rundir +:+ "/debug_mode"))) ;;
            clear_zones (fun z => debug && is_plot z)) ;;~
      for_each (itmt_entries table) (fun e => install_itmt e ;;~ done tt) ;;~
      done THD_SUCCESS
  end.

Definition ec_zones : list (string * Z) :=
  [(MINIBOOK_SOC_ZONE, MINIBOOK_SOC_TRIP_TEMP); (MINIBOOK_CHARGER_ZONE, MINIBOOK_CHARGER_TRIP_TEMP)].

(** A passive trip of the zone [i] with the RAPL device [c]. *)
Definition install_ec_trip (i c : nat) (sensor temp : Z) : R unit :=
  z <~ zone_at i ;; l <~ all_cdevs ;;
  match z with
  | Some z =>
      install_trip i
        (thd_trip_point_add_cdev l c default_influence DEFAULT_SAMPLE_TIME_SEC false 0 None false 0 0
           (trip_new (Z.of_nat (length (trip_points z))) PASSIVE temp 0 (zone_index z) sensor SEQUENTIAL))
  | None => done tt
  end.
Definition install_ec_zone (c : nat) (mz : string * Z) : R unit :=
  z <~ lift (search_zone (fst mz)) ;;
  match z with
  | None => done tt
  | Some i =>
      s <~ lift (on_plant (search_sensor (fst mz))) ;;
      match s with
      | None => done tt
      | Some s =>
          sensor <~ lift (on_plant (index_of_sensor s)) ;;
          install_ec_trip i c sensor (snd mz) ;;~
          install_ec_trip i c sensor (snd mz + 1000) ;;~
          activate_zone i
      end
  end.
Definition install_minibook_ec_zones : R unit :=
  c <~ lift (on_plant (search_cdev "rapl_controller_mmio")) ;;
  c <~ (match c with Some c => done (Some c) | None => lift (on_plant (search_cdev "rapl_controller")) end) ;;
  match c with
  | None => done tt
  | Some c => for_each ec_zones (install_ec_zone c)
  end.

(** *** A set point *)

(** [std::stof] of a decimal number; [None]: it throws, as it does when the number
    is too large (denormal and hexadecimal numbers are outside the model). *)
Definition stof (s : string) : option float :=
  match strtod s with
  | NoNumber => None
  | Infinite neg => Some (SpecFloat.S754_infinity neg)
  | NotANumber => Some SpecFloat.S754_nan
  | Decimal neg m e =>
      match f32_decimal neg m e with SpecFloat.S754_infinity _ => None | x => Some x end
  end.

(** The first passive trip of the zone gets the temperature. *)
Definition set_trip (target argument : string) : R unit :=
  match stof argument with
  | None => stop Uncaught
  | Some t =>
      let temp := f_to_int 32 (f32_mul t (f32_of_Z 1000)) in
      name <~ participant_of target ;;
      z <~ lift (search_zone name) ;;
      match z with
      | None => done tt
      | Some i =>
          lift (on_zone i (fun z => ret (z <| trip_points :=
            default (trip_points z)
              (replace_first (is_type PASSIVE) (fun t => t <| trip_temp := wrap 32 temp |>) (trip_points z)) |>)))
      end
  end.

(** *** Policies *)

Definition set_psvt_target (t : adaptive_target) : R bool :=
  g <~ get_ad gddv ;;
  match Vault.find_psvt g (target_argument t) with
  | None => done false
  | Some table =>
      installed <~ get_ad int3400_installed ;;
      (if installed : bool then done tt else clear_zones is_plot) ;;~
      for_each (psvs table) (fun p => install_passive p ;;~ done tt) ;;~
      set_ad (fun a => a <| int3400_installed := true |>) ;;~ done true
  end.

Definition any_active : R bool := get_ad (fun a => existsb zone_active (zones (base a))).

(** A policy without any zone ends the daemon, to be started without it. *)
Definition set_int3400_target (t : adaptive_target) : R unit :=
  let is_ := String.eqb (code t) in
  (if is_ "ITMT" || is_ "ITMT3" then
     r <~ set_itmt_target t ;;
     if r =? THD_SUCCESS then set_ad (fun a => a <| int3400_installed := true |>) else done tt
   else done tt) ;;~
  go <~ (if is_ "PSVT" then set_psvt_target t else done true) ;;
  if negb go then done tt
  else
    psvt_consolidate ;;~
    install_minibook_ec_zones ;;~
    active <~ any_active ;;
    if negb active then lift (sys (fs_write "/tmp/ignore_adaptive" "")) ;;~ stop (Exited 1)
    else if is_ "PSV" then set_trip (participant t) (target_argument t) else done tt.

Definition install_passive_default : R unit :=
  clear_zones (fun _ => false) ;;~
  g <~ get_ad gddv ;;
  match Vault.find_def_psvt g with
  | None => done tt
  | Some table =>
      for_each (psvs table) (fun p => install_passive p ;;~ done tt) ;;~
      psvt_consolidate ;;~ install_minibook_ec_zones
  end.

(** The device gets the target; an argument that is no number throws. *)
Definition adapt_cdev (i : nat) (t : adaptive_target) : R unit :=
  ok <~ lift (on_plant (on_cdev true i (Cdev.set_adaptive_target t))) ;;
  if ok : bool then done tt else stop Uncaught.

Definition execute_target (t : adaptive_target) : R unit :=
  c <~ table_cdev (last_component (participant t)) ;;
  path <~ get_ad int3400_path ;;
  if bool_decide (c = None) && String.eqb (participant t) path then set_int3400_target t
  else if String.eqb (code t) "PSVT" then set_int3400_target t
  else match stoi (target_argument t), c with
       | Some _, Some c => adapt_cdev c t
       | _, _ => done tt
       end.

(** The targets with the number. *)
Definition execute_targets (id : Z) : R unit :=
  g <~ get_ad gddv ;;
  for_each (filter (fun t => target_id t = id) (targets g)) execute_target.
Definition exec_fallback_target (id : Z) : R unit :=
  set_ad (fun a => a <| int3400_installed := false |>) ;;~ execute_targets (wrap 64 (sint 32 id)).

(** The rules of the power boss: those of the target that is matched. *)
Definition apply_power_rule (p : pbat_entry) : R unit :=
  c <~ lift (on_plant (search_cdev (if contains "TCPU" (pbat_participant p) then "rapl_controller_mmio"
                                    else pbat_participant p))) ;;
  match c with
  | Some c => adapt_cdev c (Target 0 "" "" 0 (pbat_code p) (pbat_argument p))
  | None => done tt
  end.
Definition update_power_policies : R unit :=
  id <~ (x <- on_rules evaluate_pbct_conditions ;; done x) ;;
  match id with
  | None => done tt
  | Some id =>
      g <~ get_ad gddv ;;
      for_each (filter (fun p => pbat_target_id p = id) (pbats g)) apply_power_rule
  end.

(** At every interval: the target of the conditions; a change of it is carried out. *)
Definition update_engine_state : R unit :=
  only_default <~ get_ad passive_def_only ;;
  if only_default : bool then done tt
  else
    fallback <~ get_ad fallback_id ;;
    target <~ (if fallback <? 0 then
                 x <- on_rules evaluate_conditions ;;
                 match x with Some t => done (sint 32 t) | None => stop Undefined end
               else done (-1)) ;;
    current <~ get_ad current_matched_target ;;
    if current =? target then done tt
    else
      set_ad (fun a => a <| current_matched_target := target |>) ;;~
      active <~ get_ad policy_active ;;
      if (target =? -1) && (0 <=? fallback) && negb active then
        g <~ get_ad gddv ;;
        match targets g !! Z.to_nat fallback with
        | Some t => exec_fallback_target (target_id t) ;;~ set_ad (fun a => a <| policy_active := true |>)
        | None => stop Undefined
        end
      else
        set_ad (fun a => a <| int3400_installed := false |>) ;;~
        (if 0 <? target
         then execute_targets target ;;~ set_ad (fun a => a <| policy_active := true |>)
         else done tt) ;;~
        installed <~ get_ad int3400_installed ;;
        if installed : bool then done tt else install_passive_default.

(** ** Start *)

(** PL1 is written with what it is, and read back. *)
Definition verify_rapl_control : R unit :=
  e <~ lift (sys (fs_exists MINIBOOK_RAPL_PL1_SYSFS)) ;;
  if negb e then done tt
  else
    r <~ lift (sys (fs_read_int MINIBOOK_RAPL_PL1_SYSFS)) ;;
    if fst r <=? 0 then done tt
    else
      w <~ lift (sys (fs_write_uint MINIBOOK_RAPL_PL1_SYSFS (default 0 (snd r)))) ;;
      if w <=? 0 then done tt else lift (sys (fs_read_int MINIBOOK_RAPL_PL1_SYSFS)) ;;~ done tt.

Definition dptf_required_devices : list string := ["INTC1049:00"; "INTC1060:00"; "INTC1061:00"].
Definition verify_dptf_participants : R unit :=
  for_each dptf_required_devices (fun dev =>
    r <~ lift (sys (fs_read_int ("/sys/bus/acpi/devices/" +:+ dev +:+ "/status"))) ;;
    if (fst r <? 0) || (default 0 (snd r) =? 0) then stop (Exited 1) else done tt).

Definition intel_powerclamp : string := "intel_powerclamp".

(** The virtual sensor of the vault, with its zone; what cannot be made is left out. *)
Fixpoint add_links (l : list vsct_entry) (v : Virtual) : R (option Virtual) :=
  match l with
  | [] => done (Some v)
  | e :: l =>
      let coeff := f64_mul (f64_div (f64_of_Z (coeff e)) (f64_of_Z 1000))
                     (f64_of_Z (if vsct_operation e =? 0 then 1 else -1)) in
      let offset := f64_div (f64_of_Z (alpha e)) (f64_of_Z 1000) in
      if coeff_type e =? 1 then
        s <~ lift (on_plant (search_sensor "rapl_pkg_power")) ;;
        added <~ (match s with
                  | Some _ => done true
                  | None =>
                      n <~ get_ad (fun a => current_sensor_index (base a)) ;;
                      r <~ lift (sys (sensor_update (sensor_new n "/sys/class/powercap/intel-rapl" "rapl_pkg_power" RaplPower))) ;;
                      if fst r : bool then lift (push_sensor (snd r)) ;;~ done true else done false
                  end) ;;
        if negb added then done None
        else s <~ lift (on_plant (search_sensor "rapl_pkg_power")) ;; add_links l (add_target s coeff offset true v)
      else
        s <~ lift (on_plant (search_sensor (last_component (vsct_target e)))) ;;
        add_links l (add_target s coeff offset false v)
  end.

(** The name up to the last dot. *)
Definition device_of (name : string) : string :=
  match after_last_dot name with
  | Some rest => String.substring 0 (String.length name - String.length rest - 1) name
  | None => name
  end.

Definition install_virtual_sensor : R unit :=
  g <~ get_ad gddv ;;
  match vscts g with
  | [] => done tt
  | l =>
      let dev_name := device_of (vscts_name g) in
      if String.eqb dev_name "" then done tt
      else
        n <~ get_ad (fun a => current_sensor_index (base a)) ;;
        let v := foldl (fun v e => update_polling_table (virtual_temp e, vspt_sample_period e) v)
                   (mkVirtual [] f_zero f_zero false false 0 def_polling_period []) (vspts g) in
        v <~ add_links l v ;;
        match v with
        | None => done tt
        | Some v =>
            lift (push_sensor (sensor_new n "none" dev_name (VirtualSensor v))) ;;~
            r <~ lift (add_dynamic_zone dev_name 4294967295 dev_name intel_powerclamp) ;;
            match r with None => stop Undefined | Some _ => done tt end
        end
  end.

(** *** The vault *)

(** [getline] of a file; [None]: it cannot be read or is empty. *)
Definition dmi (name : string) : M World (option string) :=
  r <- ask (fun n => os_read n ("/sys/class/dmi/id/" +:+ name)) ;;
  ret (match r with inl _ | inr EmptyString => None | inr text => Some (first_line text) end).
(** [None]: one of the names cannot be read; they are read in this order. *)
Definition format_dv_filename : M World (option string) :=
  sys_vendor <- dmi "sys_vendor" ;;
  match sys_vendor with None => ret None | Some sys_vendor =>
  product_name <- dmi "product_name" ;;
  match product_name with None => ret None | Some product_name =>
  product_family <- dmi "product_family" ;;
  match product_family with None => ret None | Some product_family =>
  product_sku <- dmi "product_sku" ;;
  ret (vault_file sys_vendor product_family product_name <$> product_sku)
  end end end.

Definition MAX_GDDV_FILE_SIZE := 4 * 1024.
(** The vault in a file of the firmware's directory; an empty text: there is none, or it
    is too large. *)
Definition gddv_load : M World string :=
  name <- format_dv_filename ;;
  match name with
  | None => ret EmptyString
  | Some name =>
      r <- ask (fun n => os_read n name) ;;
      ret (match r with
           | inl _ => EmptyString
           | inr text => if MAX_GDDV_FILE_SIZE <? Z.of_nat (String.length text) then EmptyString else text
           end)
  end.

(** The search of [cthd_INT3400], written a second time. *)
Definition set_int3400_base_path : M World (option string) := int3400_base.

(** The vault of the firmware: [inl], a code.  The path of the device is kept in [keep]. *)
Definition read_vault (keep : string -> Ad -> Ad) (base_path : string) : R (Z + string) :=
  r <~ lift (sys (fs_read_string (base_path +:+ "firmware_node/path"))) ;;
  if fst r <? 0 then done (inl THD_ERROR)
  else
    set_ad (fun a => match snd r with Some path => keep path a | None => a end) ;;~
    size <~ lift (sys (ask (fun n => os_size n (base_path +:+ "data_vault")))) ;;
    if size =? 0 then done (inl THD_ERROR)
    else
      r <~ lift (sys (fs_read_buffer size (base_path +:+ "data_vault"))) ;;
      match snd r with
      | Some buf => done (inr buf)
      | None => done (inl THD_FATAL_ERROR)
      end.

(** The object of the vault has a path of its own, which nothing uses.  The rules start with the profile of power-profiles-daemon; Passive 1 is
    chosen when no policy is. *)
Definition gddv_init (fuel : nat) (base_path : string) : R Z :=
  file <~ lift (sys gddv_load) ;;
  buf <~ (if String.eqb file EmptyString then read_vault (fun _ a => a) base_path else done (inr file)) ;;
  match buf with
  | inl code => done code
  | inr buf =>
      match load_tables fuel (bytes_of buf) with
      | Overrun => stop Undefined
      | Endless => stop Hangs
      | Thrown | Got None => done THD_FATAL_ERROR
      | Got (Some g) =>
          set_ad (fun a => a <| gddv := g |>
            <| rules := Rls (conditions g) (pbcts g) (Conditions.power_slider (rules a)) (current_target_matched (rules a)) (calls (rules a)) |>) ;;~
          (match power_profiles with
           | Some profile =>
               (n <- on_rules (gets calls) ;; on_rules (modify (set_calls (S n))) ;;;
                on_rules (update_power_slider (profile n)) ;;; done tt)
           | None => done tt
           end) ;;~
          uuid <~ lift (sys (fs_read_string (base_path +:+ "uuids/current_uuid"))) ;;
          (if (0 <=? fst uuid) && contains "INVALID" (default EmptyString (snd uuid))
           then lift (sys (fs_write (base_path +:+ "uuids/current_uuid") "42A441D6-AE6A-462b-A84B-4A8CE79027D3")) ;;~ done tt
           else done tt) ;;~
          done THD_SUCCESS
      end
  end.

Definition vault_ppcc (g : Gddv) (name : string) : M Def (option ppcc_t + Stop) := done (get_ppcc_param g name).
(** A policy of the vault that makes the limits of the power trusted. *)
Definition trusts_ppcc (g : Gddv) : bool :=
  search_idsp g "63BE270F-1C11-48FD-A6F7-3AF253FF3E2D" || search_idsp g "9E04115A-AE87-4D1C-9500-0F3E340BFE75".

(** Without conditions the default passive table is needed, else nothing is set up at all. *)
Definition adaptive_init (fuel : nat) (ignore_cpuid_check adaptive : bool) : R Z :=
  set_ad (fun a => a <| dflt := dflt a <| parser_disabled := true |> <| force_mmio_rapl := true |> |>) ;;~
  (if ignore_cpuid_check then done tt
   else
     matched <~ lift (sys check_cpu_id) ;;
     set_ad (fun a => a <| dflt := dflt a <| proc_list_matched := matched |> |>) ;;~
     if matched : bool then done tt else stop (Exited 0)) ;;~
  ignored <~ lift (sys (fs_exists "/tmp/ignore_adaptive")) ;;
  base_path <~ (if ignored : bool then done None else lift (sys set_int3400_base_path)) ;;
  match base_path with
  | None => done THD_ERROR
  | Some base_path =>
      verify_dptf_participants ;;~
      buf <~ read_vault (fun path a => a <| int3400_path := path |>) base_path ;;
      match buf with
      | inl code => done code
      | inr _ =>
          res <~ gddv_init fuel base_path ;;
          if negb (res =? THD_SUCCESS) then done res
          else
            g <~ get_ad gddv ;;
            let without := bool_decide (conditions g = []) in
            if without && bool_decide (Vault.find_def_psvt g = None) then done THD_SUCCESS
            else
              (if without then set_ad (fun a => a <| passive_def_only := true |>) else done tt) ;;~
              res <~ on_def (thd_engine_init opts (vault_ppcc g) (trusts_ppcc g) ignore_cpuid_check adaptive) ;;
              if negb (res =? THD_SUCCESS) then done res
              else install_virtual_sensor ;;~ done THD_SUCCESS
      end
  end.

(** What it reads is only printed. *)
Definition log_tcc_offset : R unit :=
  e <~ lift (sys (fs_exists tcc_file)) ;;
  if e : bool then lift (sys (fs_read_int tcc_file)) ;;~ done tt else done tt.

Definition evaluated : R Z :=
  x <- on_rules evaluate_conditions ;; match x with Some t => done (sint 32 t) | None => stop Undefined end.
Definition adaptive_start : R Z :=
  verify_rapl_control ;;~
  log_tcc_offset ;;~
  only_default <~ get_ad passive_def_only ;;
  if only_default : bool then install_passive_default ;;~ on_def thd_engine_start
  else
    verified <~ get_ad (fun a => verify_conditions (rules a)) ;;
    ok <~ (if verified : bool then done true
           else
             target <~ evaluated ;;
             if negb (target =? -1) then done true
             else
               g <~ get_ad gddv ;;
               let i := find_agressive_target g in
               if 0 <=? i then set_ad (fun a => a <| fallback_id := i |>) ;;~ done true
               else match Vault.find_def_psvt g with
                    | Some _ => install_passive_default ;;~ done true
                    | None => done false
                    end) ;;
    if negb ok then done THD_ERROR
    else
      lift (set_eng (fun e => e <| control_mode := EXCLUSIVE |>)) ;;~
      target <~ evaluated ;;
      (if target =? -1 then install_passive_default else done tt) ;;~
      on_def thd_engine_start.

(** [thd_engine_create_adaptive_engine]. *)
Definition thd_engine_create_adaptive_engine (fuel : nat) (interval : Z) (ignore_cpuid_check test_mode : bool) : R Z :=
  lift (set_eng (fun e => e <| plant := plant e <| poll_interval_sec := interval |> |>)) ;;~
  res <~ adaptive_init fuel ignore_cpuid_check true ;;
  if negb (res =? THD_SUCCESS) then done THD_ERROR
  else
    res <~ adaptive_start ;;
    if res =? THD_SUCCESS then done THD_SUCCESS else if test_mode then stop (Exited 0) else done THD_ERROR.

(** One turn of the thread of this engine. *)
Definition adaptive_turn (sec : Z) : PollEvent -> R unit :=
  engine_turn (@lift) (on_def (read_thermal_zones opts)) update_engine_state update_power_policies
    (on_def (workarounds opts)) sec.

(** ** Properties *)

(** *** The fallback target *)

(** One interval: the conditions and the power rules. *)
Definition interval_step : R unit := update_engine_state ;;~ update_power_policies.

(** When no condition can be matched the start picks the target of the highest power
    as a fallback, and its comment and that of [update_engine_state] say that it is installed.
    The matched target is -1 from the beginning, so there is no change and nothing is done,
    at any interval. *)
Theorem fallback_never_executed a n : passive_def_only a = false -> 0 <= fallback_id a ->
  current_matched_target a = -1 ->
  Nat.iter n (fun a => post update_engine_state a) a = a /\ res update_engine_state a = inl tt.
Proof.
  intros Hp Hf Hc.
  assert (update_engine_state a = (inl tt, a)) as Hu.
  { unfold update_engine_state, andThen, get_ad, done, bind, gets, ret. rewrite Hp.
    rewrite (proj2 (Z.ltb_ge _ _) Hf), Hc. done. }
  split; [|unfold res; by rewrite Hu]. induction n as [|n IH]; [done|]. simpl. rewrite IH.
  unfold post. by rewrite Hu.
Qed.

(** *** Consolidation *)

(** The state and the temperature of a trip that asks for the maximum, when the
    next one is about the same sensor and device and asks for a state: the middle of both. *)
Theorem consolidate_middle l t u c target : is_target_valid t = Some TRIP_PT_INVALID_TARGET_STATE ->
  get_first_cdev t = Some c -> get_first_cdev u = Some c -> sensor_id t = sensor_id u ->
  is_target_valid u = Some target -> 0 <= low_of l c -> 0 <= target -> low_of l c + target < 2 ^ 31 ->
  0 <= trip_temp t <= trip_temp u -> trip_temp t + trip_temp u < 2 ^ 32 ->
  let t' := consolidate_trip l (Some u) t in
  trip_temp t <= trip_temp t' <= trip_temp u /\
  (exists s, target_state <$> head (trip_cdevs t') = Some s /\ tc_target_valid <$> head (trip_cdevs t') = Some true /\
     Z.min (low_of l c) target <= s <= Z.max (low_of l c) target).
Proof.
  intros Ht Hc Hcu Hs Hu Hlo Hz Hov Htt Hto t'. subst t'. unfold consolidate_trip. rewrite Ht, Z.eqb_refl.
  cbn [negb]. rewrite Hcu, Hu, Hs, Z.eqb_refl, bool_decide_true by done. cbn [andb].
  unfold get_first_cdev in Hc. unfold set_first_target. destruct (trip_cdevs t) as [|x cs]; [done|].
  simpl. rewrite wrap_small by lia. rewrite sint_id by lia. rewrite Z.quot_div_nonneg by lia.
  pose proof (Z.div_mod (trip_temp u + trip_temp t) 2 ltac:(lia)).
  pose proof (Z.mod_pos_bound (trip_temp u + trip_temp t) 2 ltac:(lia)).
  pose proof (Z.div_mod (low_of l c + target) 2 ltac:(lia)).
  pose proof (Z.mod_pos_bound (low_of l c + target) 2 ltac:(lia)).
  split; [lia|]. eexists. split; [done|]. split; [done|]. lia.
Qed.

(** Two trips in a row that ask for the maximum: the comment says that the second
    is not one of these, but it is not checked, the sum overflows and the state that is asked
    for is negative. *)
Theorem consolidate_overflows l t u c : is_target_valid t = Some TRIP_PT_INVALID_TARGET_STATE ->
  get_first_cdev t = Some c -> get_first_cdev u = Some c -> sensor_id t = sensor_id u ->
  is_target_valid u = Some TRIP_PT_INVALID_TARGET_STATE -> 2 < low_of l c < 2 ^ 31 ->
  let t' := consolidate_trip l (Some u) t in
  exists s, target_state <$> head (trip_cdevs t') = Some s /\ s < 0.
Proof.
  intros Ht Hc Hcu Hs Hu Hlo t'. subst t'. unfold consolidate_trip. rewrite Ht, Z.eqb_refl. cbn [negb].
  rewrite Hcu, Hu, Hs, Z.eqb_refl, bool_decide_true by done. cbn [andb].
  unfold get_first_cdev in Hc. unfold set_first_target. destruct (trip_cdevs t) as [|x cs]; [done|].
  simpl. eexists. split; [done|]. unfold TRIP_PT_INVALID_TARGET_STATE.
  assert (sint 32 (low_of l c + 2147483647) = low_of l c - 2147483649) as ->.
  { unfold sint. assert (wrap 32 (low_of l c + 2147483647) = low_of l c + 2147483647) as -> by (apply wrap_small; lia).
    rewrite (proj2 (Z.ltb_ge _ _)) by lia. lia. }
  replace (low_of l c - 2147483649) with (- (2147483649 - low_of l c)) by lia.
  rewrite Z.quot_opp_l, Z.quot_div_nonneg by lia.
  assert (0 < (2147483649 - low_of l c) / 2) by (apply Z.div_str_pos; lia). lia.
Qed.

(** *** The limits of the power *)

(** Whatever the vault says about the processor, the limits that the engine uses
    leave room for control. *)
Lemma ppcc_override g name p : get_ppcc_param g name = Some p -> power_limit_min p < power_limit_max p.
Proof.
  unfold get_ppcc_param. destruct (get_ppcc g name) as [q|]; [|done]. simpl. intros [= <-].
  destruct (Z.leb_spec (power_limit_max q) (power_limit_min q)); [simpl; done|lia].
Qed.
End Adapting.

(** ** Witnesses *)

Module Minibook.
#[local] Existing Instance Quiet.quiet_os.
#[local] Existing Instance Quiet.quiet_sort.
#[local] Existing Instance Conditions.Sim.machine.

Definition package : Cdev := (Quiet.package <| min_state := 20000000 |> <| type_str := "rapl_controller_mmio" |>)%prog.
Definition engine : Eng := (Running.engine 4 <| plant := mkPlant Quiet.world0 [package] [] 4000 false PREF_ENERGY_CONSERVE false |>)%prog.
Definition daemon (fallback : Z) : Ad := mkAd (def_new Quiet.world0 false <| eng := engine |>)%prog no_tables Conditions.Sim.r false fallback "" false false (-1).
Definition asks (state temp : Z) : Trip :=
  thd_trip_point_add_cdev [package] 0 default_influence 10 true state None false 0 0
    (trip_new 0 PASSIVE temp 0 1 3 SEQUENTIAL).

Lemma fallback_never_executed_witness :
  Nat.iter 100 (fun a => post update_engine_state a) (daemon 2) = daemon 2.
Proof. by apply (fallback_never_executed (daemon 2) 100). Defined.

Lemma consolidate_middle_witness :
  let t := consolidate_trip [package] (Some (asks 9000000 75000)) (asks TRIP_PT_INVALID_TARGET_STATE 65000) in
  trip_temp t = 70000 /\ target_state <$> head (trip_cdevs t) = Some 14500000 /\
  65000 <= trip_temp t <= 75000.
Proof.
  intros t. split; [by vm_compute|]. split; [by vm_compute|].
  by apply (consolidate_middle [package] (asks TRIP_PT_INVALID_TARGET_STATE 65000) (asks 9000000 75000) 0 9000000).
Defined.

Lemma consolidate_overflows_witness :
  let t := consolidate_trip [package] (Some (asks TRIP_PT_INVALID_TARGET_STATE 75000))
             (asks TRIP_PT_INVALID_TARGET_STATE 65000) in
  exists s, target_state <$> head (trip_cdevs t) = Some s /\ s < 0.
Proof.
  by apply (consolidate_overflows [package] (asks TRIP_PT_INVALID_TARGET_STATE 65000)
              (asks TRIP_PT_INVALID_TARGET_STATE 75000) 0).
Defined.
End Minibook.
