(* ===== verification/VaultName.v ===== *)
(** * The tool that names a vault file (tools/format_dv_name.c)

    It prints the name under which the daemon looks for the data vault of the
    machine it runs on. *)

From Stdlib Require Import ZArith Lia Ascii String.
From stdpp Require Import base list option strings pretty sets.
From S2P Require Import Prelude Objects Int3400 Vault Xml ThdIo Adaptive.

#[local] Open Scope Z_scope.
#[local] Open Scope prog_scope.

(** ** The C library *)

(** [fgets]: the characters it stores, up to a newline and one less than the
    buffer has; [None]: the file has ended. *)
Fixpoint fgets_chars (n : nat) (text : string) : string :=
  match n, text with
  | S n, String c text =>
      String c (if Ascii.eqb c "010"%char then EmptyString else fgets_chars n text)
  | _, _ => EmptyString
  end.
Definition fgets (out_size : nat) (text : string) : option string :=
  match text with EmptyString => None | _ => Some (fgets_chars (pred out_size) text) end.

(** The string that is left when a zero is put where [strcspn] finds a newline;
    a zero that was read ends it before that. *)
Fixpoint cut_line (s : string) : string :=
  match s with
  | EmptyString => EmptyString
  | String c s => if Ascii.eqb c "010"%char || Ascii.eqb c "000"%char then EmptyString
                  else String c (cut_line s)
  end.

(** ** The tool *)

Definition DMI_ID_PATH : string := "/sys/class/dmi/id".
Definition PATH_MAX : nat := 4096.

Inductive DmiError := NoArgument | NameTooLong | NotRead.

Section Tool.
Context `{ThdOs}.

(** [out]: the size of the buffer, if there is one. *)
Definition read_dmi_attribute (attr : option string) (out : option nat) : M World (DmiError + string) :=
  match attr, out with
  | Some attr, Some (S _ as out_size) =>
      let path := (DMI_ID_PATH +:+ "/" +:+ attr)%string in
      if (PATH_MAX <=? String.length path)%nat then ret (inl NameTooLong)
      else
        fp <- ask (fun n => os_read n path) ;;
        ret (match fp with
             | inl _ => inl NotRead
             | inr text =>
                 match fgets out_size text with
                 | None => inl NotRead
                 | Some s => inr (cut_line s)
                 end
             end)
  | _, _ => ret (inl NoArgument)
  end.

(** The checksum of the tool; the characters are unsigned. *)
Definition dv_crc32 (p : list Z) : Z :=
  foldl (fun crc c => Nat.iter 8 crc_step (Z.lxor crc c)) 0 p.

Definition dv_size : nat := 256.

(** A buffer that could not be filled holds what it held: [left] of it. *)
Definition dv_attribute (left : string -> string) (attr : string) : M World string :=
  r <- read_dmi_attribute (Some attr) (Some dv_size) ;;
  ret (match r with inr s => s | inl _ => left attr end).

Definition dv_name (sys_vendor product_family product_name product_sku : string) : string :=
  let crc s := pretty (Z.to_N (dv_crc32 (bytes_of s))) in
  String.substring 0 (pred dv_size)
    ("dtt_data_vault_" +:+ crc sys_vendor +:+ "_" +:+ crc product_family +:+ "_"
     +:+ crc product_name +:+ "_" +:+ crc product_sku +:+ ".bin")%string.

(** [main]: the name it prints. *)
Definition dv_main (left : string -> string) : M World string :=
  sys_vendor <- dv_attribute left "sys_vendor" ;;
  product_name <- dv_attribute left "product_name" ;;
  product_family <- dv_attribute left "product_family" ;;
  product_sku <- dv_attribute left "product_sku" ;;
  ret (dv_name sys_vendor product_family product_name product_sku).
End Tool.

(** ** Both sides name the same file *)

(** A character both sides read alike. *)
Definition plain (c : ascii) : bool := (0 <? N_of_ascii c)%N && (N_of_ascii c <? 128)%N.
(** A text whose first line fits the buffer of the tool and is ASCII. *)
Definition plain_text (text : string) : bool :=
  negb (String.eqb text EmptyString) && (String.length (first_line text) <? dv_size)%nat
  && forallb plain (list_ascii_of_string (first_line text)).

(** *** Lines *)

Lemma first_line_cons c s : first_line (String c s) =
  if Ascii.eqb c "010"%char then EmptyString else String c (first_line s).
Proof.
  unfold first_line. cbn -[String.substring]. change (ascii_of_nat 10) with "010"%char.
  destruct (ascii_dec "010"%char c) as [<-|Hc].
  - by rewrite Ascii.eqb_refl; destruct s.
  - rewrite (proj2 (Ascii.eqb_neq c _) (fun E => Hc (eq_sym E))).
    by destruct (String.index 0 _ s).
Qed.

Lemma plain_nonzero c : plain c = true -> Ascii.eqb c "000"%char = false.
Proof. intros Hp. by destruct (Ascii.eqb_spec c "000"%char) as [->|]. Qed.

(** What is stored, cut, is the first line. *)
Lemma cut_stored n text : (String.length (first_line text) <= n)%nat ->
  forallb plain (list_ascii_of_string (first_line text)) = true ->
  cut_line (fgets_chars n text) = first_line text.
Proof.
  revert text. induction n as [|n IH]; intros [|c text]; try done; rewrite first_line_cons.
  - destruct (Ascii.eqb c _); simpl; [done|lia].
  - simpl. destruct (Ascii.eqb c "010"%char) eqn:E; simpl; rewrite ?E; [done|].
    intros Hl [Hc Hr]%andb_prop. rewrite plain_nonzero by done. simpl. f_equal. apply IH; [lia|done].
Qed.

Section Reads.
Context `{ThdOs}.

(** The call number [n] reads an attribute that both sides read alike. *)
Definition readable (n : nat) (attr : string) : bool :=
  match os_read n ("/sys/class/dmi/id/" +:+ attr) with
  | inr text => plain_text text
  | inl _ => false
  end.

Lemma attribute_read w attr left : (String.length attr < 64)%nat -> readable (io_calls w) attr = true ->
  exists line w', forallb plain (list_ascii_of_string line) = true /\ dmi attr w = (Some line, w') /\
  dv_attribute left attr w = (line, w') /\ io_calls w' = S (io_calls w).
Proof.
  intros Ha Ht. unfold readable in Ht. destruct (os_read _ _) as [|text] eqn:Hr; [done|].
  unfold plain_text in Ht. apply andb_prop in Ht as [[Hn Hl]%andb_prop Hp]. apply Nat.ltb_lt in Hl.
  exists (first_line text). eexists. split; [done|].
  unfold dv_attribute, read_dmi_attribute, dv_size, dmi, bind, ask. cbn -[PATH_MAX String.append Nat.leb].
  change (DMI_ID_PATH +:+ "/" +:+ attr)%string with ("/sys/class/dmi/id/" +:+ attr).
  assert ((PATH_MAX <=? String.length ("/sys/class/dmi/id/" +:+ attr))%nat = false) as ->.
  { apply Nat.leb_gt. change (String.length ("/sys/class/dmi/id/" +:+ attr)) with (18 + String.length attr)%nat.
    unfold PATH_MAX. apply Nat.ltb_lt. apply Nat.ltb_lt. lia. }
  cbn -[String.append fgets_chars]. rewrite Hr. destruct text as [|c text]; [done|].
  cbn [fgets ret]. rewrite cut_stored; [done|unfold dv_size in Hl; simpl pred; lia|done].
Qed.
End Reads.

(** *** Checksums *)

Lemma plain_signed (s : string) : forallb plain (list_ascii_of_string s) = true ->
  dv_crc32 (bytes_of s) = crc32 (bytes_of s).
Proof.
  unfold dv_crc32, crc32, bytes_of. generalize 0 as crc.
  induction s as [|c s IH]; [done|]. intros crc. simpl. intros [Hc Hs]%andb_prop.
  unfold plain in Hc. apply andb_prop in Hc as [_ Hc%N.ltb_lt].
  rewrite IH by done. rewrite sint_id by lia. rewrite wrap_small by lia. done.
Qed.

Lemma lxor_bounds w a b : 0 <= w -> 0 <= a < 2 ^ w -> 0 <= b < 2 ^ w -> 0 <= Z.lxor a b < 2 ^ w.
Proof.
  intros Hw Ha Hb. rewrite <- (Z.mod_small a (2 ^ w)), <- (Z.mod_small b (2 ^ w)) by done.
  rewrite <- !Z.land_ones by done.
  assert (Z.lxor (Z.land a (Z.ones w)) (Z.land b (Z.ones w)) = Z.land (Z.lxor a b) (Z.ones w)) as ->.
  { apply Z.bits_inj_iff'. intros n Hn. rewrite !Z.lxor_spec, !Z.land_spec, Z.lxor_spec.
    by destruct (Z.testbit a n), (Z.testbit b n), (Z.testbit (Z.ones w) n). }
  rewrite Z.land_ones by done. apply Z.mod_pos_bound. apply Z.pow_pos_nonneg; lia.
Qed.

Lemma crc_step_bounds crc : 0 <= crc < 2 ^ 32 -> 0 <= crc_step crc < 2 ^ 32.
Proof.
  intros Hc. apply lxor_bounds; [done| |by destruct (Z.odd crc)].
  rewrite Z.shiftr_div_pow2 by done. split; [apply Z.div_pos; lia|].
  apply Z.div_lt_upper_bound; lia.
Qed.

Lemma crc_bounds crc (p : list Z) : 0 <= crc < 2 ^ 32 -> (forall c, c ∈ p -> 0 <= c < 2 ^ 32) ->
  0 <= foldl (fun crc c => Nat.iter 8 crc_step (Z.lxor crc c)) crc p < 2 ^ 32.
Proof.
  revert crc. induction p as [|c p IH]; intros crc Hc Hf; [done|].
  apply (IH (Nat.iter 8 crc_step (Z.lxor crc c))); [|set_solver].
  assert (0 <= Z.lxor crc c < 2 ^ 32) as Hx.
  { apply lxor_bounds; [done|done|]. apply Hf. set_solver. }
  simpl. by do 8 apply crc_step_bounds.
Qed.

Lemma pretty_go_length k x s : (x < 10 ^ N.of_nat k)%N ->
  (String.length (pretty_N_go x s) <= k + String.length s)%nat.
Proof.
  revert x s. induction k as [|k IH]; intros x s Hx.
  - assert (x = 0)%N as -> by (simpl in Hx; lia). by rewrite pretty_N_go_0.
  - destruct (decide (x = 0)%N) as [->|E]; [rewrite pretty_N_go_0; lia|].
    rewrite pretty_N_go_step by lia. etrans; [apply IH|simpl; lia].
    apply N.Div0.div_lt_upper_bound. rewrite Nat2N.inj_succ, N.pow_succ_r' in Hx. lia.
Qed.

(** A checksum is printed in at most ten digits, so the name fits its buffer. *)
Lemma crc_length s : (String.length (pretty (Z.to_N (dv_crc32 (bytes_of s)))) <= 10)%nat.
Proof.
  assert (0 <= dv_crc32 (bytes_of s) < 2 ^ 32) as Hc.
  { apply crc_bounds; [done|]. intros c (a & -> & _)%list_elem_of_fmap. pose proof (N_ascii_bounded a). lia. }
  set (n := Z.to_N (dv_crc32 (bytes_of s))). assert (n < 10 ^ 10)%N as Hn by (subst n; lia).
  unfold pretty, pretty_N. destruct (decide (n = 0)%N); [simpl; lia|].
  etrans; [by apply (pretty_go_length 10)|simpl; lia].
Qed.

Lemma substring_all k s : (String.length s <= k)%nat -> String.substring 0 k s = s.
Proof.
  revert k. induction s as [|c s IH]; intros [|k] Hk; simpl in Hk |- *; try lia; try done.
  f_equal. apply IH. lia.
Qed.

Lemma string_length_app (s t : string) : String.length (s +:+ t) = (String.length s + String.length t)%nat.
Proof. induction s as [|c s IH]; [done|]. change (S (String.length (s +:+ t)) = S (String.length s + String.length t)). by rewrite IH. Qed.

(** Only plain characters: the tool gives the name the daemon gives. *)
Lemma same_name v f n k :
  (forall s, s ∈ [v; f; n; k] -> forallb plain (list_ascii_of_string s) = true) ->
  vault_file v f n k = "/lib/firmware/intel/dtt/" +:+ dv_name v f n k.
Proof.
  intros Hp. unfold dv_name. rewrite substring_all.
  - unfold vault_file. by rewrite !plain_signed by (apply Hp; set_solver).
  - pose proof (crc_length v). pose proof (crc_length f). pose proof (crc_length n). pose proof (crc_length k).
    rewrite !string_length_app. simpl. lia.
Qed.

(** ** Properties *)

(** C24: The tool prints the name of the file the daemon looks for: when the four
    attributes are read, fit the buffers and are ASCII, the daemon's name is the
    directory of the firmware followed by the name of the tool, whatever was in its buffers. *)
Theorem tool_names_vault `{ThdOs} w left :
  (forall i a, ["sys_vendor"; "product_name"; "product_family"; "product_sku"]%string !! i = Some a ->
     readable (io_calls w + i) a = true) ->
  res format_dv_filename w = Some ("/lib/firmware/intel/dtt/" +:+ res (dv_main left) w).
Proof.
  intros Hr.
  assert (forall i a s w', ["sys_vendor"; "product_name"; "product_family"; "product_sku"]%string !! i = Some a ->
    a = s -> (String.length s < 64)%nat -> io_calls w' = (io_calls w + i)%nat ->
    exists line w2, forallb plain (list_ascii_of_string line) = true /\ dmi s w' = (Some line, w2) /\
    dv_attribute left s w' = (line, w2) /\ io_calls w2 = (io_calls w + S i)%nat) as Hstep.
  { intros i a s w' Hi <- Ha Hw. specialize (Hr i a Hi). rewrite <- Hw in Hr.
    destruct (attribute_read w' a left Ha Hr) as (line & w2 & ? & ? & ? & ?).
    exists line, w2. do 3 (split; [done|]). lia. }
  destruct (Hstep 0%nat _ "sys_vendor"%string w eq_refl eq_refl ltac:(simpl; lia) ltac:(lia)) as (t0 & w0 & P0 & D0 & A0 & C0).
  destruct (Hstep 1%nat _ "product_name"%string w0 eq_refl eq_refl ltac:(simpl; lia) C0) as (t1 & w1 & P1 & D1 & A1 & C1).
  destruct (Hstep 2%nat _ "product_family"%string w1 eq_refl eq_refl ltac:(simpl; lia) C1) as (t2 & w2 & P2 & D2 & A2 & C2).
  destruct (Hstep 3%nat _ "product_sku"%string w2 eq_refl eq_refl ltac:(simpl; lia) C2) as (t3 & w3 & P3 & D3 & A3 & C3).
  unfold res, format_dv_filename, dv_main, bind. rewrite D0, D1, D2, D3, A0, A1, A2, A3. simpl fst.
  by rewrite same_name by (intros s Hs; set_solver).
Qed.

(** A letter outside of ASCII: the daemon's characters are signed and the tool's
    are not, so they name different files. *)
Lemma names_differ : let accent := String "195" (String "169" EmptyString) in
  vault_file accent "" "" "" <> "/lib/firmware/intel/dtt/" +:+ dv_name accent "" "" "".
Proof. intros accent E. vm_compute in E. discriminate E. Qed.

Module Label.
#[local] Instance label_os : ThdOs := {
  os_time _ := 0; os_stat _ _ := false;
  os_read _ path := if String.prefix "/sys/class/dmi/id/" path then inr ("CHUWI" +:+ String "010" EmptyString) else inl (-2);
  os_write _ _ _ := 1; os_unset _ := 0; os_thread _ := true; os_writable _ _ := false;
  os_link _ _ := None; os_rundir := "/var/run/thermald"; os_dir _ _ := None;
  os_confdir := "/etc/thermald"; os_owner _ _ := None; os_lstat _ _ := None; os_xml _ _ := None; os_uname _ := ""; os_size _ _ := 0;
  os_libxml := Texts.text_xml
}.
Definition label_world : World := Wld 0 [] (Mtr false [] 0 false) [] 0.

Lemma tool_names_vault_witness :
  res format_dv_filename label_world
  = Some ("/lib/firmware/intel/dtt/" +:+ res (dv_main (fun _ => "?"%string)) label_world).
Proof.
  apply (tool_names_vault label_world (fun _ => "?"%string)).
  intros [|[|[|[|i]]]] a E; try (injection E as <-; vm_compute; reflexivity). discriminate E.
Defined.
End Label.
