(* ===== verification/Dbus.v ===== *)
(** * The thermal daemon: its methods on the D-Bus

    thd_dbus_interface.cpp (with GDBus), and what main.cpp does on a signal: the engine that
    runs, the calls that clients make and what they are answered.  GDBus hands over only
    calls of methods of thd_dbus_interface.xml with arguments of their types, so a call is
    one of the constructors of [Call]. *)

From Stdlib Require Import ZArith Lia Ascii String.
From stdpp Require Import base list option strings pretty.
From S2P Require Import Prelude Floats ThdCommon Xml ThdIo Meter AcpiRel Gddv Conditions Cdev Sensor Trip Config Zone ZoneSetup Platform Engine DefaultEngine Adaptive.

#[local] Open Scope Z_scope.
#[local] Open Scope prog_scope.

Definition MAX_DBUS_REPLY_STR_LEN : nat := 100.

(** A value of a reply. *)
Inductive Variant := Str (s : string) | Uint (n : Z) | Int (n : Z) | Ints (l : list Z).
(** What is sent to the client. *)
Inductive Reply := Value (l : list Variant) | Error (what : string).

Inductive Call :=
  | AddCoolingDevice (cdev_name path : string) (min_state max_state step : Z)
  | AddSensor (sensor_name path : string)
  | AddTripPoint (zone_name : string) (trip_point_temp : Z) (trip_point_sensor trip_point_cdev : string)
  | AddVirtualSensor (sensor_name dep_sensor : string) (slope intercept : float)
  | AddZonePassive (zone_name : string) (trip_point_temp : Z) (trip_point_sensor trip_point_cdev : string)
  | DeleteTripPoint (zone_name : string) (trip_point_temp : Z)
  | DeleteZone (zone_name : string)
  | DisableCoolingDevice (cdev_name : string)
  | GetCdevCount
  | GetCdevInformation (index : Z)
  | GetCurrentPreference
  | GetSensorCount
  | GetSensorInformation (index : Z)
  | GetSensorTemperature (index : Z)
  | GetZoneCount
  | GetZoneInformation (index : Z)
  | GetZoneSensorAtIndex (zone_index sensor_index : Z)
  | GetZoneStatus (zone_name : string)
  | GetZoneTripAtIndex (zone_index trip_index : Z)
  | Reinit
  | SetCurrentPreference (pref : string)
  | SetUserMaxTemperature (zone_name : string) (temperature : Z)
  | SetUserPassiveTemperature (zone_name : string) (temperature : Z)
  | SetZoneStatus (zone_name : string) (status : Z)
  | Terminate
  | UpdateCoolingDevice (cdev_name path : string) (min_state max_state step : Z).

(** [thd_engine]: the one that [main] creates or the one that Reinit does. *)
Inductive AnyEngine := DefaultOne (d : Def) | AdaptiveOne (a : Ad).
Definition the_def (e : AnyEngine) : Def := match e with DefaultOne d => d | AdaptiveOne a => dflt a end.
Definition with_def (d : Def) (e : AnyEngine) : AnyEngine :=
  match e with DefaultOne _ => DefaultOne d | AdaptiveOne a => AdaptiveOne (a <| dflt := d |>) end.

Record Svc := mkSvc { thd_engine : AnyEngine; replies : list Reply }.
Definition S_ (A : Type) : Type := M Svc (A + Stop).
Definition set_engine (e : AnyEngine) : S_ unit := modify (fun s => mkSvc e (replies s)) ;;; done tt.
Definition on_def {A} (m : M Def (A + Stop)) : S_ A := fun s =>
  let (x, d) := m (the_def (thd_engine s)) in (x, mkSvc (with_def d (thd_engine s)) (replies s)).
Definition on_eng {A} (m : M Eng A) : S_ A := on_def (DefaultEngine.lift m).

(** [g_dbus_method_invocation_return_value] and [..._return_gerror], which sends nothing
    when there is no error to send. *)
Definition return_value (l : list Variant) : S_ unit :=
  modify (fun s => mkSvc (thd_engine s) (replies s ++ [Value l])) ;;; done tt.
Definition return_gerror (error : option string) : S_ unit :=
  match error with
  | Some what => modify (fun s => mkSvc (thd_engine s) (replies s ++ [Error what])) ;;; done tt
  | None => done tt
  end.

(** The values of the enumeration. *)
Definition trip_type_number (ty : trip_point_type_t) : Z :=
  match ty with CRITICAL => 0 | HOT => 1 | MAX => 2 | PASSIVE => 3 | ACTIVE => 4 | POLLING => 5 | INVALID_TRIP_TYPE => 6 end.
Definition succeeded (code : Z) : bool := code =? THD_SUCCESS.
Definition reply_text (n : nat) (s : string) : string := String.substring 0 n s.

Section Dbus.
Context `{ThdOs} `{StdSort} `{RelDevice} `{Processor} (opts : Options).
(** What the thread of the engine does while a call sleeps, the interval of the command line,
    whether critical trips are ignored, the depth of the power domains and what is called
    when a client ends the daemon. *)
Context (meanwhile : S_ unit) (thd_poll_interval : Z) (ignore_critical : bool) (depth : nat).
Context (thd_dbus_exit_callback : option (S_ unit)).

Definition thd_engine_terminate : S_ unit :=
  on_eng (sys (send_message TERMINATE 0)) ;;~
  meanwhile ;;~
  r <~ on_eng process_terminate ;;
  match r with Some _ => done tt | None => stop Undefined end.

(** The destructors: the zones of the kernel get their temperatures back. *)
Definition engine_destroy : S_ unit :=
  on_def engine_parser_deinit ;;~
  on_eng (l <- gets zones ;; mfor l (fun z => sys (zone_destroy z))).

(** ** What the methods do; [false] or [None]: [FALSE] *)

Definition thd_dbus_interface_set_current_preference (pref : string) : S_ bool :=
  r <~ on_eng (sys (old <- read_pref pref_file 0 ;; write_preference old pref)) ;;
  on_eng (sys (send_message PREF_CHANGED 0)) ;;~
  done (bool_decide (is_Some r)).
Definition thd_dbus_interface_get_current_preference : S_ (option string) :=
  n <~ on_eng (sys (read_pref pref_file 0)) ;;
  done (Some (reply_text (MAX_DBUS_REPLY_STR_LEN - 1) (int_pref_to_string (preference_of n)))).

Definition thd_dbus_interface_terminate : S_ bool :=
  thd_engine_terminate ;;~
  match thd_dbus_exit_callback with Some exit_callback => exit_callback | None => done tt end ;;~
  done true.

(** Whatever engine ran, a default engine takes its place: with a power meter and a pipe of
    its own. *)
Definition thd_dbus_interface_reinit : S_ bool :=
  d <~ on_def (get_def id) ;;
  let exclusive_control := match control_mode (eng d) with EXCLUSIVE => true | COMPLEMENTRY => false end in
  let conf_file := if String.eqb (config_file d) EmptyString then None else Some (config_file d) in
  thd_engine_terminate ;;~
  meanwhile ;;~
  engine_destroy ;;~
  metered <~ on_eng (sys (modify (set_pipe []) ;;; power_meter_new depth default_mask)) ;;
  if negb metered then stop Hangs
  else
    w <~ on_eng (gets (fun e => world (plant e))) ;;
    set_engine (DefaultOne (def_new w ignore_critical)) ;;~
    r <~ on_def (thd_engine_create_default_engine opts thd_poll_interval true exclusive_control conf_file) ;;
    done (succeeded r).

(** A set point that was accepted is taken over by the thread. *)
Definition changed (m : M Eng Z) : S_ bool :=
  r <~ on_eng m ;;
  if succeeded r then on_eng (sys (send_message PREF_CHANGED 0)) ;;~ done true else done false.
Definition thd_dbus_interface_set_user_max_temperature (zone_name : string) (temperature : Z) : S_ bool :=
  changed (user_set_max_temp zone_name temperature).
Definition thd_dbus_interface_set_user_passive_temperature (zone_name : string) (temperature : Z) : S_ bool :=
  changed (user_set_psv_temp zone_name temperature).

Definition thd_dbus_interface_add_sensor (sensor path : string) : S_ bool :=
  r <~ on_eng (user_add_sensor sensor path) ;; done (succeeded r).
Definition thd_dbus_interface_add_virtual_sensor (name dep_sensor : string) (slope intercept : float) : S_ bool :=
  r <~ on_eng (user_add_virtual_sensor name dep_sensor slope intercept) ;; done (succeeded r).
Definition thd_dbus_interface_get_sensor_information (index : Z) : S_ (option (string * string * Z)) :=
  s <~ on_eng (user_get_sensor index) ;;
  match s with
  | None => done None
  | Some s =>
      temp <~ on_eng (on_plant (read_sensor (Z.to_nat index))) ;;
      done (Some (reply_text MAX_DBUS_REPLY_STR_LEN (sensor_type s), reply_text MAX_DBUS_REPLY_STR_LEN (sensor_path s),
                  sint 32 temp))
  end.
Definition thd_dbus_interface_get_sensor_temperature (index : Z) : S_ (option Z) :=
  on_eng (get_sensor_temperature (sint 32 index)).
Definition thd_dbus_interface_get_sensor_count : S_ Z := on_eng (gets (fun e => Z.of_nat (length (plant_sensors (plant e))))).
Definition thd_dbus_interface_get_zone_count : S_ Z := on_eng (gets (fun e => Z.of_nat (length (zones e)))).
Definition thd_dbus_interface_get_cdev_count : S_ Z := on_eng (gets (fun e => Z.of_nat (length (plant_cdevs (plant e))))).

Definition user_get_zone (index : Z) : M Eng (option Zone) :=
  gets (fun e => if index <? 0 then None else zones e !! Z.to_nat index).
Definition user_get_cdev (index : Z) : M Eng (option nat) :=
  gets (fun e => if (0 <=? index) && (index <? Z.of_nat (length (plant_cdevs (plant e)))) then Some (Z.to_nat index) else None).
(** [get_sensor_at_index] and [get_trip_at_index] of a zone. *)
Definition at_index {A} (l : list A) (index : Z) : option A := if index <? 0 then None else l !! Z.to_nat index.

Definition thd_dbus_interface_get_zone_information (index : Z) : S_ (option (string * Z * Z * Z)) :=
  z <~ on_eng (user_get_zone index) ;;
  done ((fun z => (reply_text MAX_DBUS_REPLY_STR_LEN (zone_type z), Z.of_nat (length (zone_sensors z)),
                   Z.of_nat (length (trip_points z)), if zone_active z then 1 else 0)) <$> z).
Definition thd_dbus_interface_get_zone_sensor_at_index (zone_index sensor_index : Z) : S_ (option string) :=
  z <~ on_eng (user_get_zone zone_index) ;;
  match z ≫= (fun z => at_index (zone_sensors z) sensor_index) with
  | None => done None
  | Some i =>
      s <~ on_eng (on_plant (get_sensor i)) ;;
      done ((fun s => reply_text MAX_DBUS_REPLY_STR_LEN (sensor_type s)) <$> s)
  end.
(** The numbers of the devices are put in front of each other. *)
Definition thd_dbus_interface_get_zone_trip_at_index (zone_index trip_index : Z) :
    S_ (option (Z * trip_point_type_t * Z * Z * list Z)) :=
  z <~ on_eng (user_get_zone zone_index) ;;
  l <~ on_eng (gets (fun e => plant_cdevs (plant e))) ;;
  done ((fun t => (sint 32 (trip_temp t), trip_type t, sensor_id t, Z.of_nat (length (trip_cdevs t)),
                   rev (omap (fun c => cdev_index <$> l !! tc_cdev c) (trip_cdevs t))))
          <$> (z ≫= (fun z => at_index (trip_points z) trip_index))).
Definition thd_dbus_interface_get_cdev_information (index : Z) : S_ (option (string * Z * Z * Z)) :=
  i <~ on_eng (user_get_cdev index) ;;
  d <~ on_eng (gets (fun e => i ≫= (fun i => plant_cdevs (plant e) !! i))) ;;
  match i, d with
  | Some i, Some d =>
      high <~ on_eng (on_plant (on_cdev 0 i get_max_state)) ;;
      curr <~ on_eng (on_plant (on_cdev 0 i get_curr_state)) ;;
      done (Some (reply_text MAX_DBUS_REPLY_STR_LEN (type_str d), min_state d, high, curr))
  | _, _ => done None
  end.

Definition thd_dbus_interface_add_zone_passive (zone_name : string) (trip_temp : Z) (sensor_name cdev_name : string) : S_ bool :=
  r <~ on_eng (user_add_zone zone_name trip_temp sensor_name cdev_name) ;;
  match r with Some r => done (succeeded r) | None => stop Undefined end.
Definition thd_dbus_interface_set_zone_status (zone_name : string) (status : Z) : S_ bool :=
  r <~ on_eng (user_set_zone_status zone_name (negb (status =? 0))) ;; done (succeeded r).
Definition thd_dbus_interface_get_zone_status (zone_name : string) : S_ (option Z) :=
  r <~ on_eng (user_get_zone_status zone_name) ;; done ((fun b : bool => if b then 1 else 0) <$> r).
Definition thd_dbus_interface_delete_zone (zone_name : string) : S_ bool :=
  r <~ on_eng (user_delete_zone zone_name) ;; done (succeeded r).

(** A device in /etc is refused. *)
Definition thd_dbus_interface_add_cooling_device (cdev_name path : string) (low high step : Z) : S_ bool :=
  if has_prefix "/etc" path then done false
  else r <~ on_eng (user_add_cdev cdev_name path low high step) ;; done (succeeded r).
Definition thd_dbus_interface_update_cooling_device (cdev_name path : string) (low high step : Z) : S_ bool :=
  if has_prefix "/etc" path then done false else thd_dbus_interface_add_cooling_device cdev_name path low high step.

(** To be implemented. *)
Definition thd_dbus_interface_add_trip_point (_ : string) : S_ bool := done false.
Definition thd_dbus_interface_delete_trip_point (_ : string) : S_ bool := done false.
Definition thd_dbus_interface_disable_cooling_device (_ : string) : S_ bool := done false.

(** ** The dispatch *)

(** No method sets the error: the pointer stays null. *)
Definition no_error : option string := None.
(** The result of the method is not looked at. *)
Definition unchecked (m : S_ bool) : S_ unit := m ;;~ return_value [].
Definition checked (m : S_ bool) : S_ unit := ok <~ m ;; if negb ok then return_gerror no_error else return_value [].
Definition with_value {A} (show : A -> list Variant) (m : S_ (option A)) : S_ unit :=
  r <~ m ;; match r with Some a => return_value (show a) | None => return_gerror no_error end.
Definition counted_value (m : S_ Z) : S_ unit := n <~ m ;; return_value [Uint (wrap 32 n)].

(** The additions and deletions; [None]: another method. *)
Definition added_or_deleted (c : Call) : option (S_ unit) :=
  match c with
  | AddCoolingDevice cdev_name path low high step =>
      Some (unchecked (thd_dbus_interface_add_cooling_device cdev_name path low high step))
  | AddSensor sensor_name path => Some (unchecked (thd_dbus_interface_add_sensor sensor_name path))
  | AddTripPoint zone_name _ _ _ => Some (unchecked (thd_dbus_interface_add_trip_point zone_name))
  | AddVirtualSensor sensor_name dep_sensor slope intercept =>
      Some (unchecked (thd_dbus_interface_add_virtual_sensor sensor_name dep_sensor slope intercept))
  | AddZonePassive zone_name temp sensor cdev =>
      Some (unchecked (thd_dbus_interface_add_zone_passive zone_name temp sensor cdev))
  | DeleteTripPoint zone_name _ => Some (unchecked (thd_dbus_interface_delete_trip_point zone_name))
  | DeleteZone zone_name => Some (unchecked (thd_dbus_interface_delete_zone zone_name))
  | DisableCoolingDevice cdev_name => Some (unchecked (thd_dbus_interface_disable_cooling_device cdev_name))
  | _ => None
  end.
(** The queries of devices, preference and sensors; [None]: another method. *)
Definition device_queries (c : Call) : option (S_ unit) :=
  match c with
  | GetCdevCount => Some (counted_value thd_dbus_interface_get_cdev_count)
  | GetCdevInformation index =>
      Some (with_value (fun '(cdev_out, low, high, curr) => [Str cdev_out; Int low; Int high; Int curr])
        (thd_dbus_interface_get_cdev_information index))
  | GetCurrentPreference => Some (with_value (fun s => [Str s]) thd_dbus_interface_get_current_preference)
  | GetSensorCount => Some (counted_value thd_dbus_interface_get_sensor_count)
  | GetSensorInformation index =>
      Some (with_value (fun '(sensor_out, path, temp) => [Str sensor_out; Str path; Int temp])
        (thd_dbus_interface_get_sensor_information index))
  | GetSensorTemperature index =>
      Some (with_value (fun t => [Uint t]) (thd_dbus_interface_get_sensor_temperature index))
  | _ => None
  end.
(** The queries of zones; [None]: another method. *)
Definition zone_queries (c : Call) : option (S_ unit) :=
  match c with
  | GetZoneCount => Some (counted_value thd_dbus_interface_get_zone_count)
  | GetZoneInformation index =>
      Some (with_value (fun '(zone_out, sensors, trips, bound) => [Str zone_out; Int sensors; Int trips; Int bound])
        (thd_dbus_interface_get_zone_information index))
  | GetZoneSensorAtIndex zone_index sensor_index =>
      Some (with_value (fun s => [Str s]) (thd_dbus_interface_get_zone_sensor_at_index zone_index sensor_index))
  | GetZoneStatus zone_name =>
      Some (with_value (fun status => [Int status]) (thd_dbus_interface_get_zone_status zone_name))
  | GetZoneTripAtIndex zone_index trip_index => Some (with_value (fun '(temp, ty, sensor, cdev_size, cdev_ids) =>
                    [Int temp; Int (trip_type_number ty); Int sensor; Int cdev_size; Ints cdev_ids])
        (thd_dbus_interface_get_zone_trip_at_index zone_index trip_index))
  | _ => None
  end.
(** What changes the engine or ends it; [None]: another method. *)
Definition settings (c : Call) : option (S_ unit) :=
  match c with
  | Reinit => Some (unchecked thd_dbus_interface_reinit)
  | SetCurrentPreference pref => Some (checked (thd_dbus_interface_set_current_preference pref))
  | SetUserMaxTemperature zone_name temp => Some (ok <~ thd_dbus_interface_set_user_max_temperature zone_name temp ;;
      if negb ok then return_gerror no_error else done tt)
  | SetUserPassiveTemperature zone_name temp =>
      Some (checked (thd_dbus_interface_set_user_passive_temperature zone_name temp))
  | SetZoneStatus zone_name status => Some (checked (thd_dbus_interface_set_zone_status zone_name status))
  | Terminate => Some (return_value [] ;;~ thd_dbus_interface_terminate ;;~ done tt)
  | UpdateCoolingDevice cdev_name path low high step =>
      Some (checked (thd_dbus_interface_update_cooling_device cdev_name path low high step))
  | _ => None
  end.
(** GDBus knows no other methods. *)
Definition thd_dbus_handle_method_call (c : Call) : S_ unit :=
  match added_or_deleted c with Some m => m | None =>
  match device_queries c with Some m => m | None =>
  match zone_queries c with Some m => m | None =>
  match settings c with Some m => m | None => return_gerror (Some "no such method"%string) end end end end.
End Dbus.

(** ** Theorems *)

(** *** What a call is answered *)

(** How the dispatch answers: whatever became of the call, only when its method did it, or
    never. *)
Inductive Answers := Always | WhenDone | Never.
Definition answers (c : Call) : Answers :=
  match c with
  | AddCoolingDevice _ _ _ _ _ | AddSensor _ _ | AddTripPoint _ _ _ _ | AddVirtualSensor _ _ _ _ | AddZonePassive _ _ _ _
  | DeleteTripPoint _ _ | DeleteZone _ | DisableCoolingDevice _ | GetCdevCount | GetSensorCount | GetZoneCount
  | Reinit | Terminate => Always
  | GetCdevInformation _ | GetCurrentPreference | GetSensorInformation _ | GetSensorTemperature _
  | GetZoneInformation _ | GetZoneSensorAtIndex _ _ | GetZoneStatus _ | GetZoneTripAtIndex _ _
  | SetCurrentPreference _ | SetUserPassiveTemperature _ _ | SetZoneStatus _ _ | UpdateCoolingDevice _ _ _ _ _ => WhenDone
  | SetUserMaxTemperature _ _ => Never
  end.

Section Answered.
Context `{ThdOs} `{StdSort} `{RelDevice} `{Processor} (opts : Options).
Context (meanwhile : S_ unit) (interval : Z) (ignore_critical : bool) (depth : nat) (exit_callback : option (S_ unit)).
(** The thread of the engine answers no calls, and neither does what ends the daemon. *)
Context (Hmeanwhile : same replies meanwhile) (Hexit : forall m, exit_callback = Some m -> same replies m).

Definition did {A} (m : S_ (option A)) : S_ bool := r <~ m ;; done (bool_decide (is_Some r)).
Definition does {A} (m : S_ A) : S_ bool := m ;;~ done true.
(** Whether the method of a call does what it was asked for. *)
Definition outcome (c : Call) : S_ bool :=
  match c with
  | AddCoolingDevice cdev_name path low high step => thd_dbus_interface_add_cooling_device cdev_name path low high step
  | AddSensor sensor_name path => thd_dbus_interface_add_sensor sensor_name path
  | AddTripPoint zone_name _ _ _ => thd_dbus_interface_add_trip_point zone_name
  | AddVirtualSensor sensor_name dep slope intercept => thd_dbus_interface_add_virtual_sensor sensor_name dep slope intercept
  | AddZonePassive zone_name temp sensor cdev => thd_dbus_interface_add_zone_passive zone_name temp sensor cdev
  | DeleteTripPoint zone_name _ => thd_dbus_interface_delete_trip_point zone_name
  | DeleteZone zone_name => thd_dbus_interface_delete_zone zone_name
  | DisableCoolingDevice cdev_name => thd_dbus_interface_disable_cooling_device cdev_name
  | GetCdevCount => does thd_dbus_interface_get_cdev_count
  | GetSensorCount => does thd_dbus_interface_get_sensor_count
  | GetZoneCount => does thd_dbus_interface_get_zone_count
  | GetCdevInformation index => did (thd_dbus_interface_get_cdev_information index)
  | GetCurrentPreference => did thd_dbus_interface_get_current_preference
  | GetSensorInformation index => did (thd_dbus_interface_get_sensor_information index)
  | GetSensorTemperature index => did (thd_dbus_interface_get_sensor_temperature index)
  | GetZoneInformation index => did (thd_dbus_interface_get_zone_information index)
  | GetZoneSensorAtIndex zone_index sensor_index => did (thd_dbus_interface_get_zone_sensor_at_index zone_index sensor_index)
  | GetZoneStatus zone_name => did (thd_dbus_interface_get_zone_status zone_name)
  | GetZoneTripAtIndex zone_index trip_index => did (thd_dbus_interface_get_zone_trip_at_index zone_index trip_index)
  | Reinit => thd_dbus_interface_reinit opts meanwhile interval ignore_critical depth
  | SetCurrentPreference pref => thd_dbus_interface_set_current_preference pref
  | SetUserMaxTemperature zone_name temp => thd_dbus_interface_set_user_max_temperature zone_name temp
  | SetUserPassiveTemperature zone_name temp => thd_dbus_interface_set_user_passive_temperature zone_name temp
  | SetZoneStatus zone_name status => thd_dbus_interface_set_zone_status zone_name status
  | Terminate => thd_dbus_interface_terminate meanwhile exit_callback
  | UpdateCoolingDevice cdev_name path low high step => thd_dbus_interface_update_cooling_device cdev_name path low high step
  end.

Lemma replies_on_def {A} (m : M Def (A + Stop)) : same replies (on_def m).
Proof. intros s. unfold post, on_def. by destruct (m _). Qed.
Lemma replies_on_eng {A} (m : M Eng A) : same replies (on_eng m).
Proof. apply replies_on_def. Qed.
Lemma replies_terminate : same replies (thd_engine_terminate meanwhile).
Proof.
  unfold thd_engine_terminate. apply same_then; [apply replies_on_eng|intros ?]. apply same_then; [done|intros ?].
  apply same_then; [apply replies_on_eng|intros []]; by intros ?.
Qed.
Ltac silent :=
  repeat first [ apply replies_on_eng | apply replies_on_def | exact Hmeanwhile | apply replies_terminate | by apply Hexit | by intros ?
               | apply same_then; [|intros ?]
               | match goal with |- same _ (match ?x with _ => _ end) => destruct x end
               | match goal with |- same _ (match ?x with _ => _ end _) => destruct x end
               | match goal with |- same _ (let '(_, _) := ?x in _) => destruct x end ].
Lemma replies_outcome c : same replies (outcome c).
Proof.
  destruct c; cbn [outcome]; unfold thd_dbus_interface_set_current_preference, thd_dbus_interface_get_current_preference,
    thd_dbus_interface_terminate, thd_dbus_interface_reinit,
    thd_dbus_interface_set_user_max_temperature, thd_dbus_interface_set_user_passive_temperature,
    thd_dbus_interface_add_sensor, thd_dbus_interface_add_virtual_sensor,
    thd_dbus_interface_get_sensor_information, thd_dbus_interface_get_sensor_temperature,
    thd_dbus_interface_get_sensor_count, thd_dbus_interface_get_zone_count,
    thd_dbus_interface_get_cdev_count, thd_dbus_interface_get_zone_information,
    thd_dbus_interface_get_zone_sensor_at_index, thd_dbus_interface_get_zone_trip_at_index,
    thd_dbus_interface_get_cdev_information, thd_dbus_interface_add_zone_passive,
    thd_dbus_interface_set_zone_status, thd_dbus_interface_get_zone_status,
    thd_dbus_interface_delete_zone, thd_dbus_interface_add_cooling_device,
    thd_dbus_interface_update_cooling_device, thd_dbus_interface_add_cooling_device, thd_dbus_interface_add_trip_point,
    thd_dbus_interface_delete_trip_point, thd_dbus_interface_disable_cooling_device,
    changed, engine_destroy,
    did, does;
    silent.
Qed.

Lemma sent_value l s : replies (post (return_value l) s) = replies s ++ [Value l].
Proof. done. Qed.
Lemma same_then_done {A B} (m : S_ A) (f : A -> B) : same replies (a <~ m ;; done (f a)) -> same replies m.
Proof. intros Hm s. specialize (Hm s). unfold post, andThen, bind, done, ret in *. by destruct (m s) as [[a|x] t]. Qed.
Lemma same_did {A} (m : S_ (option A)) : same replies (did m) -> same replies m.
Proof. apply same_then_done. Qed.
Lemma same_does {A} (m : S_ A) : same replies (does m) -> same replies m.
Proof. apply same_then_done. Qed.
(** How a call is answered once its method has returned. *)
Definition answered (m : S_ unit) (o : S_ bool) (n : bool -> nat) (s : Svc) : Prop :=
  res m s = inl tt ->
  exists ok l, res o s = inl ok /\ replies (post m s) = replies s ++ l /\ length l = n ok.
Lemma answered_then {A} (m : S_ A) (k : A -> S_ unit) (f : A -> bool) n (s : Svc) : same replies m ->
  (forall a t, exists l, replies (post (k a) t) = replies t ++ l /\ length l = n (f a)) ->
  answered (a <~ m ;; k a) (a <~ m ;; done (f a)) n s.
Proof.
  intros Hm Hk. unfold answered, andThen, bind, res, post, done, ret. specialize (Hm s). unfold post in Hm.
  destruct (m s) as [[a|x] t]; cbn [fst snd] in *; [|done]. intros _. destruct (Hk a t) as (l & Hl & Hn).
  exists (f a), l. unfold post in Hl. by rewrite Hl, Hm.
Qed.
Lemma then_done {A} (m : S_ A) s : res (a <~ m ;; done a) s = res m s.
Proof. unfold andThen, bind, res, done, ret. by destruct (m s) as [[a|x] t]. Qed.
Lemma answered_outcome (m : S_ unit) (o o' : S_ bool) n (s : Svc) :
  res o s = res o' s -> answered m o' n s -> answered m o n s.
Proof. unfold answered. by intros ->. Qed.

Lemma answered_unchecked (m : S_ bool) s : same replies m -> answered (unchecked m) m (fun _ => 1%nat) s.
Proof.
  intros Hm. eapply answered_outcome; [symmetry; apply then_done|]. apply (answered_then m _ id); [done|].
  intros a t. by eexists.
Qed.
Lemma answered_checked (m : S_ bool) s : same replies m -> answered (checked m) m (fun ok : bool => if ok then 1 else 0)%nat s.
Proof.
  intros Hm. eapply answered_outcome; [symmetry; apply then_done|]. apply (answered_then m _ id); [done|].
  intros [] t; [by eexists|]. exists []. by rewrite app_nil_r.
Qed.
Lemma answered_with_value {A} (show : A -> list Variant) (m : S_ (option A)) s : same replies m ->
  answered (with_value show m) (did m) (fun ok : bool => if ok then 1 else 0)%nat s.
Proof.
  intros Hm. apply (answered_then m _ (fun r => bool_decide (is_Some r))); [done|].
  intros [a|] t; [by eexists|]. exists []. by rewrite app_nil_r.
Qed.
Lemma answered_counted (m : S_ Z) s : same replies m -> answered (counted_value m) (does m) (fun _ => 1%nat) s.
Proof. intros Hm. apply (answered_then m _ (fun _ => true)); [done|]. intros a t. by eexists. Qed.

Definition answers_to (c : Call) (ok : bool) : nat :=
  match answers c with Always => 1 | WhenDone => if ok then 1 else 0 | Never => 0 end%nat.
(** Terminate is answered before the daemon ends. *)
Lemma answered_terminate s :
  res (return_value [] ;;~ thd_dbus_interface_terminate meanwhile exit_callback ;;~ done tt) s = inl tt ->
  exists ok, res (return_value [] ;;~ thd_dbus_interface_terminate meanwhile exit_callback) s = inl ok /\
    replies (post (return_value [] ;;~ thd_dbus_interface_terminate meanwhile exit_callback ;;~ done tt) s) =
    replies s ++ [Value []].
Proof.
  set (m := thd_dbus_interface_terminate meanwhile exit_callback).
  pose proof (replies_outcome Terminate (post (return_value []) s)) as Hm. cbn [outcome] in Hm. fold m in Hm.
  unfold andThen, bind, res, post, return_value, modify, done, ret in *. simpl in *.
  destruct (m _) as [[a|x] t]; simpl in *; [|done]. intros _. exists a. by rewrite Hm.
Qed.

(** Terminate runs its method after the answer. *)
Definition run_of (c : Call) : S_ bool := match c with Terminate => return_value [] ;;~ outcome c | _ => outcome c end.

(** C35: A call that returns is answered at most once, after everything its method did: a getter, a
    preference, a passive set point, a zone's status and a change of a device exactly when the method did what
    was asked, and the other calls always, an addition or a deletion that was refused like one that was
    made.  Only SetUserMaxTemperature is never answered. *)
Theorem call_answered c s :
  res (thd_dbus_handle_method_call opts meanwhile interval ignore_critical depth exit_callback c) s = inl tt ->
  exists ok l, res (run_of c) s = inl ok /\
    replies (post (thd_dbus_handle_method_call opts meanwhile interval ignore_critical depth exit_callback c) s) =
      replies s ++ l /\ length l = answers_to c ok.
Proof.
  assert (forall z t, answered (ok <~ thd_dbus_interface_set_user_max_temperature z t ;;
    if negb ok then return_gerror no_error else done tt) (thd_dbus_interface_set_user_max_temperature z t)
    (fun _ => 0%nat) s) as Hnever.
  { intros z t. eapply answered_outcome; [symmetry; apply then_done|]. apply (answered_then _ _ id).
    - apply (replies_outcome (SetUserMaxTemperature z t)).
    - intros [] u; exists []; by rewrite app_nil_r. }
  assert (answered (thd_dbus_handle_method_call opts meanwhile interval ignore_critical depth exit_callback c)
    (run_of c) (answers_to c) s) as Ha; [|exact Ha].
  pose proof (replies_outcome c) as Hc.
  destruct c; first [ exact (answered_unchecked _ s Hc) | exact (answered_checked _ s Hc)
                    | exact (answered_with_value _ _ s (same_did _ Hc)) | exact (answered_counted _ s (same_does _ Hc))
                    | apply Hnever | idtac ].
  intros Hr. destruct (answered_terminate s Hr) as (ok & Ho & Hs). by exists ok, [Value []].
Qed.
End Answered.

(** *** The engine after Reinit *)

Section Reinit.
Context `{ThdOs} `{StdSort} `{RelDevice} `{Processor} (opts : Options).
Context (meanwhile : S_ unit) (interval : Z) (ignore_critical : bool) (depth : nat).

Lemma default_on_def {A} (m : M Def (A + Stop)) d r :
  wp (on_def m) (fun _ s => exists d', thd_engine s = DefaultOne d') (mkSvc (DefaultOne d) r).
Proof. unfold wp, on_def, post. simpl. destruct (m d) as [x d']. by exists d'. Qed.
(** Reinit of the adaptive engine leaves an engine without the tables of the vault. *)
Lemma reinit_leaves_default s ok : res (thd_dbus_interface_reinit opts meanwhile interval ignore_critical depth) s = inl ok ->
  exists d, thd_engine (post (thd_dbus_interface_reinit opts meanwhile interval ignore_critical depth) s) = DefaultOne d.
Proof.
  set (m := thd_dbus_interface_reinit _ _ _ _ _).
  enough (wp m (fun x t => x = inl ok -> exists d, thd_engine t = DefaultOne d) s) as Hm by done.
  unfold m, thd_dbus_interface_reinit. do 4 (apply wp_skip; [intros ? ?|done]). apply wp_skip; [intros [] ?|done]; [|done].
  cbn [negb]. apply wp_skip; [intros w ?|done]. apply wp_then. unfold wp at 1. simpl.
  apply wp_then. eapply wp_conseq; [|apply default_on_def]. intros [x|x] u Hu; [|done]. by apply wp_done.
Qed.
End Reinit.

Module Clients.
#[local] Existing Instance Starts.laptop_os.
#[local] Existing Instance Quiet.quiet_sort.
#[local] Existing Instance Starts.no_relations.
#[local] Existing Instance Starts.jasper_lake.
Definition idle : S_ unit := done tt.
Definition service : Svc := mkSvc (DefaultOne (Starts.def0 <| eng := Starts.hot |>)) [].
Definition call (c : Call) : S_ unit := thd_dbus_handle_method_call Starts.options idle 4 false 3 None c.

Example zone_answer : replies (post (call (GetZoneInformation 1)) service) = [Value [Str "TCPU"; Int 0; Int 1; Int 0]].
Proof. by vm_compute. Qed.
Example no_such_zone : replies (post (call (GetZoneInformation 2)) service) = [].
Proof. by vm_compute. Qed.
(** A sensor outside of sysfs is refused, but the client is not told. *)
Lemma call_answered_witness :
  exists ok l, res (thd_dbus_interface_add_sensor "skin" "/tmp/skin") service = inl ok /\ ok = false /\
    replies (post (call (AddSensor "skin" "/tmp/skin")) service) = l /\ length l = 1%nat.
Proof.
  destruct (call_answered Starts.options idle 4 false 3 None ltac:(intros s; reflexivity) ltac:(intros m Hm; discriminate Hm)
    (AddSensor "skin" "/tmp/skin") service ltac:(vm_compute; reflexivity)) as (ok & l & Ho & Hl & Hn).
  exists ok, l. split; [exact Ho|]. split; [|split; [exact Hl|exact Hn]].
  vm_compute in Ho. by injection Ho.
Defined.
End Clients.
