(* ===== verification/Main.v ===== *)
(** * The thermal daemon: the process

    main.cpp: the options, the lock file, the log, the signals and the loop that serves them
    and the D-Bus.  What the process asks of the system and of GLib is the class [Process]. *)

From Stdlib Require Import ZArith Lia Ascii String.
From stdpp Require Import base list option strings pretty.
From S2P Require Import Prelude Bytes LzmaDec Floats ThdCommon Xml ThdIo Meter AcpiRel Gddv Vault Conditions Cdev Sensor Trip Config Zone ZoneSetup Platform Engine DefaultEngine Adaptive Dbus.

#[local] Open Scope Z_scope.
#[local] Open Scope prog_scope.

(** ** The log *)

Definition G_LOG_LEVEL_ERROR := Z.shiftl 1 2.
Definition G_LOG_LEVEL_CRITICAL := Z.shiftl 1 3.
Definition G_LOG_LEVEL_WARNING := Z.shiftl 1 4.
Definition G_LOG_LEVEL_MESSAGE := Z.shiftl 1 5.
Definition G_LOG_LEVEL_INFO := Z.shiftl 1 6.
Definition G_LOG_LEVEL_DEBUG := Z.shiftl 1 7.
Definition default_log_level : Z :=
  Z.lor G_LOG_LEVEL_ERROR (Z.lor G_LOG_LEVEL_CRITICAL (Z.lor G_LOG_LEVEL_WARNING G_LOG_LEVEL_MESSAGE)).

Inductive syslog_priority := LOG_CRIT | LOG_ERR | LOG_WARNING | LOG_NOTICE | LOG_INFO | LOG_DEBUG.
(** The prefix on the terminal and the priority of syslog. *)
Definition log_class (log_level : Z) : string * syslog_priority :=
  if log_level =? G_LOG_LEVEL_ERROR then ("[CRIT]"%string, LOG_CRIT)
  else if log_level =? G_LOG_LEVEL_CRITICAL then ("[ERR]"%string, LOG_ERR)
  else if log_level =? G_LOG_LEVEL_WARNING then ("[WARN]"%string, LOG_WARNING)
  else if log_level =? G_LOG_LEVEL_MESSAGE then ("[MSG]"%string, LOG_NOTICE)
  else if log_level =? G_LOG_LEVEL_DEBUG then ("[DEBUG]"%string, LOG_DEBUG)
  else ("[INFO]"%string, LOG_INFO).
Inductive LogLine := Syslog (p : syslog_priority) (message : string) | Printed (text : string).
Definition thd_logger (thd_log_level : Z) (use_syslog : bool) (seconds log_level : Z) (message : string) : option LogLine :=
  if Z.land thd_log_level log_level =? 0 then None
  else
    let (prefix, priority) := log_class log_level in
    Some (if use_syslog then Syslog priority message else Printed ("[" +:+ pretty seconds +:+ "]" +:+ prefix +:+ message)).

(** ** The process *)

(** The options of the command line; [poll_interval] is -1 when it is not given. *)
Record CmdLine := Cmd {
  show_version : bool; no_daemon : bool; systemd : bool; log_info : bool; log_debug : bool; adaptive : bool;
  poll_interval : Z; dbus_enable : bool; exclusive_control : bool; ignore_cpuid_check : bool;
  conf_file : option string; ignore_critical : bool; engine_options : Options
}.

(** [parse_options]: what GLib makes of the arguments; the directories are those of the run
    time and of the configuration; [open_lock]: the handle of the lock file. *)
Class Process := {
  module_supported : bool;
  parse_options : option CmdLine;
  user_id : Z;
  make_run_dir : bool;
  open_lock : Z;
  lock_free : bool;
  new_main_loop : bool;
  daemon_works : bool
}.

(** The globals of main.cpp; [lock_file]: the file is there; [lock_held]: by this process;
    [signals]: the handlers are installed; [bus_wanted]: the server of the D-Bus was started. *)
Record Proc := mkProc {
  service : option Svc; machine : World; lock_file_handle : Z; lock_file : bool; lock_held : bool; log_level : Z;
  use_syslog : bool; thd_daemonize : bool; signals : bool; bus_wanted : bool
}.
Definition Proc_again (p : Proc) : Proc := mkProc (service p) (machine p) (lock_file_handle p) (lock_file p) (lock_held p)
  (log_level p) (use_syslog p) (thd_daemonize p) (signals p) (bus_wanted p).
#[export] Instance put_service : Field service := ltac:(field_of Proc_again service).
#[export] Instance put_machine : Field machine := ltac:(field_of Proc_again machine).
#[export] Instance put_lock_file_handle : Field lock_file_handle := ltac:(field_of Proc_again lock_file_handle).
#[export] Instance put_lock_file : Field lock_file := ltac:(field_of Proc_again lock_file).
#[export] Instance put_lock_held : Field lock_held := ltac:(field_of Proc_again lock_held).
#[export] Instance put_log_level : Field log_level := ltac:(field_of Proc_again log_level).
#[export] Instance put_use_syslog : Field use_syslog := ltac:(field_of Proc_again use_syslog).
#[export] Instance put_thd_daemonize : Field thd_daemonize := ltac:(field_of Proc_again thd_daemonize).
#[export] Instance put_signals : Field signals := ltac:(field_of Proc_again signals).
#[export] Instance put_bus_wanted : Field bus_wanted := ltac:(field_of Proc_again bus_wanted).

Definition P_ (A : Type) : Type := M Proc (A + Stop).
Definition set_proc (f : Proc -> Proc) : P_ unit := modify f ;;; done tt.
Definition on_service {A} (a : A) (m : S_ A) : P_ A := fun p =>
  match service p with
  | Some s => let (x, s) := m s in (x, p <| service := Some s |>)
  | None => (inl a, p)
  end.

Definition EXIT_SUCCESS := 0.
Definition EXIT_FAILURE := 1.
Definition EXIT_UNSUPPORTED := 2.
Definition default_poll_interval := 4.

(** What the loop of GLib has to serve. *)
Inductive LoopEvent := Bus (c : Call) | NameLost | Signal.

Section Main.
Context `{ThdOs} `{StdSort} `{Host} `{RelDevice} `{Processor} `{Alloc} `{Process}.
(** What the thread of the engine does in between and the fuel of the vault and of the
    power domains. *)
Context (meanwhile : S_ unit) (fuel depth : nat).

Definition clean_up_lockfile : P_ unit := set_proc (fun p =>
  if lock_file_handle p =? -1 then p else p <| lock_held := false |> <| lock_file := false |>).
(** [true]: another one runs. *)
Definition check_thermald_running : P_ bool :=
  set_proc (fun p => p <| lock_file_handle := open_lock |>) ;;~
  if open_lock =? -1 then done false
  else
    set_proc (fun p => p <| lock_file := true |>) ;;~
    if lock_free then set_proc (fun p => p <| lock_held := true |>) ;;~ done false else done true.

Definition sig_int_handler : P_ unit :=
  on_service tt (thd_engine_terminate meanwhile ;;~ meanwhile) ;;~
  on_service tt engine_destroy ;;~
  set_proc (fun p => p <| service := None |>) ;;~
  clean_up_lockfile ;;~
  stop (Exited EXIT_SUCCESS).

(** The handler of signals is also what a client's Terminate calls in the end. *)
Definition dispatch (cmd : CmdLine) (interval : Z) (ev : LoopEvent) : P_ unit :=
  match ev with
  | Bus c =>
      wanted <~ (p <- gets bus_wanted ;; done p) ;;
      if negb wanted then done tt
      else
        on_service tt (thd_dbus_handle_method_call (engine_options cmd) meanwhile interval (ignore_critical cmd) depth None c) ;;~
        match c with Terminate => sig_int_handler | _ => done tt end
  | NameLost => wanted <~ (p <- gets bus_wanted ;; done p) ;; if wanted : bool then stop (Exited 1) else done tt
  | Signal => installed <~ (p <- gets signals ;; done p) ;; if installed : bool then sig_int_handler else stop (Exited 143)
  end.

(** The engine with its power meter, made and started; the rest of the world is handed back
    when it fails. *)
Definition create_engine (cmd : CmdLine) (interval : Z) : P_ Z := fun p =>
  let (metered, w) := power_meter_new depth default_mask (machine p) in
  if negb metered then (inr Hangs, p <| machine := w |>)
  else
    let (r, a) := thd_engine_create_adaptive_engine (engine_options cmd) fuel interval (ignore_cpuid_check cmd) false
                    (ad_new w (ignore_critical cmd)) in
    (r, p <| service := Some (mkSvc (AdaptiveOne a) []) |> <| machine := world (plant (base a)) |>).

(** The engine, and the loop of GLib. *)
Definition serve (cmd : CmdLine) (interval : Z) (events : list LoopEvent) : P_ Z :=
  if negb (adaptive cmd) then clean_up_lockfile ;;~ stop (Exited EXIT_FAILURE)
  else
    ret <~ create_engine cmd interval ;;
    if negb (ret =? THD_SUCCESS) then
      clean_up_lockfile ;;~ stop (Exited (if ret =? THD_ERROR then EXIT_UNSUPPORTED else EXIT_FAILURE))
    else for_each events (dispatch cmd interval) ;;~ done 0.
(** The run of the daemon until the loop has served the events. *)
Definition main (events : list LoopEvent) : P_ Z :=
  if negb module_supported then stop (Exited EXIT_FAILURE)
  else
    match parse_options with
    | None => stop (Exited EXIT_FAILURE)
    | Some cmd =>
        if show_version cmd then stop (Exited EXIT_SUCCESS)
        else if negb (user_id =? 0) then stop (Exited EXIT_FAILURE)
        else if negb make_run_dir then stop (Exited EXIT_FAILURE)
        else
          set_proc (fun p =>
            let level := if log_info cmd then Z.lor (log_level p) G_LOG_LEVEL_INFO else log_level p in
            p <| log_level := if log_debug cmd then Z.lor level (Z.lor G_LOG_LEVEL_INFO G_LOG_LEVEL_DEBUG) else level |>) ;;~
          let interval := if 0 <=? poll_interval cmd then poll_interval cmd else default_poll_interval in
          let daemonize := negb (no_daemon cmd) && negb (systemd cmd) in
          set_proc (fun p => p <| thd_daemonize := daemonize |> <| use_syslog := negb (no_daemon cmd) || systemd cmd |>) ;;~
          running <~ check_thermald_running ;;
          if running : bool then stop (Exited EXIT_FAILURE)
          else
            set_proc (fun p => p <| signals := negb daemonize |>) ;;~
            if negb new_main_loop then clean_up_lockfile ;;~ done THD_FATAL_ERROR
            else
              set_proc (fun p => p <| bus_wanted := dbus_enable cmd |>) ;;~
              (* the child of [daemon] does not inherit the lock *)
              (if daemonize && daemon_works then set_proc (fun p => p <| lock_held := false |>) else done tt) ;;~
              if daemonize && negb daemon_works then clean_up_lockfile ;;~ done THD_FATAL_ERROR
              else serve cmd interval events
    end.
End Main.

(** ** Theorems *)

Section Locks.
Context `{ThdOs} `{StdSort} `{Host} `{RelDevice} `{Processor} `{Alloc} `{Process}.
Context (meanwhile : S_ unit) (fuel depth : nat).

(** A part of the run: if it goes on, the lock is what it was. *)
Definition locks_same {A} (m : P_ A) : Prop := forall p, wp m (fun r p' => (exists a, r = inl a) ->
  lock_held p' = lock_held p /\ thd_daemonize p' = thd_daemonize p) p.
Lemma locks_then {A B} (m : P_ A) (k : A -> P_ B) : locks_same m -> (forall a, locks_same (k a)) -> locks_same (andThen m k).
Proof.
  intros Hm Hk p. apply wp_then. eapply wp_conseq; [|apply Hm]. intros [a|x] p1 E1; [|by intros []].
  eapply wp_conseq; [|apply Hk]. intros r p2 E2 Hr. destruct (E1 ltac:(by exists a)), (E2 Hr). split; congruence.
Qed.
Lemma locks_service {A} (a : A) (m : S_ A) : locks_same (on_service a m).
Proof. intros p. unfold wp, on_service, post. destruct (service p) as [s|]; [|done]. by destruct (m s). Qed.
Lemma locks_stop {A} x : locks_same (stop x : P_ A).
Proof. intros p. by intros []. Qed.
(** A part that never goes on. *)
Lemma ends_then {A B} (m : P_ A) (k : A -> P_ B) : (forall a p b, res (k a) p <> inl b) -> forall p b, res (andThen m k) p <> inl b.
Proof. intros Hk p b. unfold andThen, bind, res. destruct (m p) as [[a|x] q]; [apply Hk|done]. Qed.
Lemma locks_ends {A} (m : P_ A) : (forall p b, res m p <> inl b) -> locks_same m.
Proof. intros Hm p [a Ha]. by apply Hm in Ha. Qed.
Lemma locks_handler : locks_same (sig_int_handler meanwhile).
Proof. apply locks_ends. unfold sig_int_handler. do 4 (apply ends_then; intros ?). by intros p b. Qed.
Lemma locks_dispatch cmd interval ev : locks_same (dispatch meanwhile depth cmd interval ev).
Proof.
  destruct ev as [c| |]; cbn [dispatch].
  - apply locks_then; [done|]. intros []; [|done]. cbn [negb]. apply locks_then; [apply locks_service|]. intros [].
    destruct c; try done. apply locks_handler.
  - apply locks_then; [done|]. intros []; [apply locks_stop|done].
  - apply locks_then; [done|]. intros []; [apply locks_handler|apply locks_stop].
Qed.
Lemma locks_for_each {A} (l : list A) (body : A -> P_ unit) : (forall a, locks_same (body a)) -> locks_same (for_each l body).
Proof. intros Hb. induction l as [|a l IH]; [done|]. cbn [for_each]. apply locks_then; [apply Hb|by intros []]. Qed.
Lemma locks_create cmd interval : locks_same (create_engine fuel depth cmd interval).
Proof.
  intros p. unfold wp, create_engine, post. destruct (power_meter_new _ _ _) as [[] w]; [|done]. cbn [negb].
  by destruct (thd_engine_create_adaptive_engine _ _ _ _ _ _) as [r a].
Qed.

Lemma locks_serve cmd interval events : locks_same (serve meanwhile fuel depth cmd interval events).
Proof.
  unfold serve. destruct (negb (adaptive cmd)); [by intros p []|]. apply locks_then; [apply locks_create|]. intros ret.
  destruct (negb _); [by intros p []|]. apply locks_then; [|done]. apply locks_for_each. apply locks_dispatch.
Qed.

(** C38: While the daemon serves its events it holds the lock of the lock file exactly when it stays in
    the foreground and could open the file: as a daemon of its own the child does not have the lock of its
    parent, so nothing keeps a second one from running. *)
Theorem running_lock events p r : lock_held p = false ->
  let m := main meanwhile fuel depth events in
  res m p = inl r -> r <> THD_FATAL_ERROR ->
  lock_held (post m p) = negb (thd_daemonize (post m p)) && negb (open_lock =? -1).
Proof.
  intros Hp m. enough (wp m (fun x p' => x = inl r -> r <> THD_FATAL_ERROR ->
    lock_held p' = negb (thd_daemonize p') && negb (open_lock =? -1)) p) as Hm by done.
  unfold m, main. destruct (negb module_supported); [done|]. destruct parse_options as [cmd|]; [|done].
  destruct (show_version cmd); [done|]. destruct (negb (user_id =? 0)); [done|]. destruct (negb make_run_dir); [done|].
  apply wp_then. unfold wp at 1. cbv beta iota. set (p1 := post _ p).
  assert (lock_held p1 = false) as E1 by exact Hp. clearbody p1.
  set (daemonize := negb (no_daemon cmd) && negb (systemd cmd)).
  apply wp_then. unfold wp at 1. cbv beta iota. set (p2 := post _ p1).
  assert (lock_held p2 = false /\ thd_daemonize p2 = daemonize) as [E2 E2'] by (split; [exact E1|reflexivity]). clearbody p2.
  apply wp_then. apply wp_conseq with (fun x p' => match x with
    | inl running => running = false -> lock_held p' = negb (open_lock =? -1) /\ thd_daemonize p' = daemonize
    | inr _ => True end).
  2: { unfold check_thermald_running, wp, res, post. simpl. destruct (open_lock =? -1); simpl; [done|].
       by destruct lock_free; simpl. }
  intros [[|]|x] p3 E3; [done| |done]. destruct (E3 eq_refl) as [E3a E3b].
  apply wp_then. unfold wp at 1. cbv beta iota. set (p4 := post _ p3).
  assert (lock_held p4 = negb (open_lock =? -1) /\ thd_daemonize p4 = daemonize) as [E4 E4'] by done. clearbody p4.
  assert (forall q, wp (clean_up_lockfile ;;~ done THD_FATAL_ERROR) (fun x p' => x = inl r -> r <> THD_FATAL_ERROR ->
    lock_held p' = negb (thd_daemonize p') && negb (open_lock =? -1)) q) as Hfatal by (intros q [= <-]; done).
  destruct (negb new_main_loop); [apply Hfatal|].
  apply wp_then. unfold wp at 1. cbv beta iota. set (p5 := post _ p4).
  assert (lock_held p5 = negb (open_lock =? -1) /\ thd_daemonize p5 = daemonize) as [E5 E5'] by done. clearbody p5.
  apply wp_then, wp_conseq with (fun x p' => x = inl tt /\ thd_daemonize p' = daemonize /\
    lock_held p' = negb (daemonize && daemon_works) && negb (open_lock =? -1)).
  2: { destruct (daemonize && daemon_works); unfold wp; by rewrite ?E5, ?E5'. }
  intros x p6 (-> & E6 & E6').
  assert (negb daemonize || daemon_works = true ->
    lock_held p6 = negb (thd_daemonize p6) && negb (open_lock =? -1)) as E7.
  { rewrite E6, E6'. by destruct daemonize, daemon_works. }
  assert (forall interval q, lock_held q = negb (thd_daemonize q) && negb (open_lock =? -1) ->
    wp (serve meanwhile fuel depth cmd interval events) (fun x p' => x = inl r -> r <> THD_FATAL_ERROR ->
      lock_held p' = negb (thd_daemonize p') && negb (open_lock =? -1)) q) as Hserve.
  { intros interval q Hq. eapply wp_conseq; [|apply locks_serve]. intros x q' Hs -> _. destruct Hs as [-> ->]; [by exists r|done]. }
  destruct daemonize, daemon_works; cbn [andb negb orb] in *; try apply Hfatal; by apply Hserve, E7.
Qed.

(** An instance that is started while another one holds the lock makes no engine and ends, and
    leaves the lock file of the other one where it is. *)
Theorem second_instance events p : open_lock <> -1 -> lock_free = false -> service p = None -> lock_file p = true ->
  let m := main meanwhile fuel depth events in
  (exists code, res m p = inr (Exited code)) /\ service (post m p) = None /\ lock_file (post m p) = true.
Proof.
  intros Ho Hf Hs Hl m. enough (wp m (fun x p' => (exists code, x = inr (Exited code)) /\ service p' = None /\
    lock_file p' = true) p) as Hm by exact Hm.
  unfold m, main. destruct (negb module_supported); [by split; [eexists|]|].
  destruct parse_options as [cmd|]; [|by split; [eexists|]].
  destruct (show_version cmd); [by split; [eexists|]|]. destruct (negb (user_id =? 0)); [by split; [eexists|]|].
  destruct (negb make_run_dir); [by split; [eexists|]|].
  apply wp_then. unfold wp at 1. cbv beta iota. apply wp_then. unfold wp at 1. cbv beta iota.
  apply wp_then, wp_conseq with (fun x p' => x = inl true /\ service p' = None /\ lock_file p' = true).
  2: { unfold check_thermald_running. apply wp_then. unfold wp at 1. cbv beta iota.
       destruct (Z.eqb_spec open_lock (-1)); [done|]. apply wp_then. unfold wp at 1. cbv beta iota. by rewrite Hf. }
  intros x p' (-> & Hs' & Hl'). cbv iota. split; [by eexists|done].
Qed.
End Locks.

Module Run.
(** A machine with the participants of DPTF and a vault that is only a header. *)
Definition header : string := string_of_list_ascii (ascii_of_nat ∘ Z.to_nat <$>
  (le 2 ESIFDV_HEADER_SIGNATURE ++ le 2 148 ++ le 4 0x01000000 ++ repeat 0 140)%Z).
#[local] Instance laptop : ThdOs := {
  os_time n := 1000 + 10 * Z.of_nat n;
  os_stat _ p := String.eqb p "/sys/bus/platform/drivers/int3400 thermal";
  os_read _ p :=
    if String.prefix "/sys/bus/acpi/devices/INTC" p then inr "15"%string
    else if String.eqb p "/sys/bus/platform/devices/INTC1041:00/firmware_node/path" then inr "\_SB_.IETM"%string
    else if String.eqb p "/sys/bus/platform/devices/INTC1041:00/data_vault" then inr header
    else inl (-2);
  os_write _ _ _ := 1; os_unset _ := 0; os_thread _ := true; os_writable _ _ := false;
  os_link _ _ := None; os_rundir := "/var/run/thermald";
  os_dir _ p := if String.eqb p "/sys/bus/platform/drivers/int3400 thermal" then Some ["bind"; "INTC1041:00"]%string else None;
  os_confdir := "/etc/thermald"; os_owner _ _ := None; os_lstat _ _ := None; os_xml _ _ := None; os_uname _ := "";
  os_size _ _ := 148; os_libxml := Texts.text_xml
}.
#[local] Existing Instance Quiet.quiet_sort.
#[local] Existing Instance Starts.no_relations.
#[local] Existing Instance Starts.jasper_lake.
#[local] Existing Instance Conditions.Sim.machine.
#[local] Existing Instance Vault.Sim.heap.
Definition cmd : CmdLine := Cmd false false false false false true (-1) true false false None false Starts.options.
#[local] Instance as_daemon : Process := {
  module_supported := true; parse_options := Some cmd; user_id := 0; make_run_dir := true; open_lock := 3;
  lock_free := true; new_main_loop := true; daemon_works := true
}.
Definition idle : S_ unit := done tt.
Definition before : Proc := mkProc None Quiet.world0 (-1) false false default_log_level true true false false.
Example runs : res (main idle 6 3 [Bus GetZoneCount]) before = inl 0.
Proof. by vm_compute. Qed.
Lemma running_lock_witness : lock_held (post (main idle 6 3 [Bus GetZoneCount]) before) = false.
Proof.
  rewrite (running_lock idle 6 3 [Bus GetZoneCount] before 0 eq_refl runs ltac:(discriminate)).
  vm_compute. reflexivity.
Defined.
End Run.

Module Second.
#[local] Existing Instance Run.laptop.
#[local] Existing Instance Quiet.quiet_sort.
#[local] Existing Instance Starts.no_relations.
#[local] Existing Instance Starts.jasper_lake.
#[local] Existing Instance Conditions.Sim.machine.
#[local] Existing Instance Vault.Sim.heap.
#[local] Instance locked_out : Process := {
  module_supported := true; parse_options := Some Run.cmd; user_id := 0; make_run_dir := true; open_lock := 3;
  lock_free := false; new_main_loop := true; daemon_works := true
}.
Definition before : Proc := Run.before <| lock_file := true |>.
Lemma lock_opened : open_lock <> -1.
Proof. vm_compute. discriminate. Qed.
Lemma second_instance_witness : lock_file (post (main Run.idle 6 3 []) before) = true.
Proof.
  destruct (second_instance Run.idle 6 3 [] before lock_opened eq_refl eq_refl eq_refl) as (_ & _ & Hl). exact Hl.
Defined.
End Second.
